(* ===== verification/_CoqProject ===== *)
-Q . S2P
Prelude.v
Reputation.v
ByteBuffer.v
ObjectGuid.v
UpdateMask.v
AuthCrypt.v
EventMap.v
Channel.v
Social.v
GuildData.v
Guild.v
GuildRoster.v
GuildHandlers.v
GuildSafety.v
GuildAuthority.v
GuildSuccession.v
GuildLoading.v
GuildStartup.v
GuildTables.v
GuildPersistence.v
EconomyData.v
Mail.v
Auction.v
AuctionListing.v
AuctionIndex.v
EconomyFrame.v
Gold.v
GoldAuction.v
EconomyRun.v
AuctionSafety.v
AuctionOutcome.v
ListingSpec.v
Trade.v
TradeHandlers.v
TradeSafety.v
TradeSteps.v
TradeRun.v
TradeDeal.v
TradeGold.v
GroupData.v
GroupPackets.v
GroupLoot.v
MeetingStone.v
Group.v
GroupHandlers.v
GroupCore.v
GroupRolls.v
GroupKept.v
GroupSound.v
GroupSlots.v
GroupSteps.v
GroupEnds.v
GroupOps.v
GroupMoves.v
GroupDisband.v
GroupEffects.v
GroupInvites.v
GroupSafety.v
GroupRaids.v
GroupSessions.v
GroupReach.v
GroupRollSpec.v
GroupLeave.v
Inventory.v
InventoryMoves.v
InventorySound.v
InventoryPlaces.v
InventoryStore.v
InventoryFits.v
InventoryEquip.v
InventoryRun.v
InventorySwap.v
InventoryPackets.v
InventoryCount.v
InventoryDestroy.v
InventoryNew.v
InventoryExample.v
GuildBank.v
