(* ===== verification/Prelude.v ===== *)
(** * A verification library for the core of the Turtle WoW server

    The program is a MaNGOS-derived game server in C++ (src/src): a world
    daemon (src/src/game, started by src/src/mangosd), a login daemon
    (src/src/realmd), a framework and a shared library (src/src/framework,
    src/src/shared), and content scripts (src/src/scripts). Clients send
    packets; a handler of WorldSession reads the operands from a ByteBuffer,
    changes the state of one subsystem, sends packets and queues SQL
    statements. The library models the parts that carry state and decisions of
    their own and can be followed through this path from the bytes of a packet
    to the rows of the database.

    ** Parts

    - [ByteBuffer] (src/src/shared/ByteBuffer.h): the buffer every packet is
      read from and written to. A reader or writer is a function on the state
      [BB] (storage, read and write position) that returns or throws
      ByteBufferException. Integers are little-endian at their widths; packed
      GUIDs and strings are loops.
    - [ObjectGuid] (src/src/game/ObjectGuid.h, .cpp): the 64-bit identifiers
      of game objects, their classes, the clamping of player GUIDs read from
      packets, PackedGuid and the generators of low GUIDs.
    - [UpdateMask] (src/src/game/Objects/UpdateMask.h): the set of changed
      fields of an object update, a byte array addressed by bits.
    - [AuthCrypt] (src/src/shared/Auth/AuthCrypt.h, .cpp): the cipher of packet
      headers, with its running state.
    - [EventMap] (src/src/framework/Utilities/EventMap.h, .cpp): the timed events of
      boss scripts, a multimap of times with identifier, group and phase
      packed into a word.
    - [Channel] (src/src/game/Chat/Channel.h, .cpp): one chat channel with its
      members, owner, moderators, bans and all its handlers. Packets are
      emitted as data.
    - [Social] (src/src/game/SocialMgr.h, .cpp, the friend and ignore handlers of
      src/src/game/Handlers/MiscHandler.cpp): friend and ignore lists, their
      rows in the database and the broadcast of a character's status. The
      database is the class [SocialDB], with a table as its instance.
    - The guilds (src/src/game/Guild/Guild.h, Guild.cpp, GuildMgr.h, GuildMgr.cpp, the guild and
      petition handlers): [GuildData] has the data, the statements and packets
      as effects, the state [World] (online players, guilds, the index of
      members, petitions, effects so far), the lookups of ObjectAccessor and
      the petitions; [Guild] has the operations of Guild and MemberSlot;
      [GuildRoster] the roster packets; [GuildHandlers] the handlers of
      GuildHandler.cpp and PetitionsHandler.cpp and the loading of guilds.
      What is proved of them: [GuildSafety] (the invariant of a running
      server), [GuildAuthority] (rights and ranks), [GuildSuccession] (leaders
      and disbanding), [GuildLoading] and [GuildStartup] (from the tables to
      sound guilds), [GuildTables] and [GuildPersistence] (the statements
      executed on the tables keep exactly the guilds in memory, and the ring
      of the event log).
    - Mails and auctions (src/src/game/Mail, src/src/game/AuctionHouse,
      src/src/game/MapNodes/MasterPlayer.cpp, MailHandler.cpp,
      AuctionHouseHandler.cpp): [EconomyData] has the data, the state [World]
      and the purse of a character; [Mail] drafts, mailboxes and the mail
      packets; [Auction] the houses, the mails about auctions, the update and
      the packets that sell, bid and cancel; [AuctionListing] the searches.
      What is proved of them: [AuctionIndex] (the maps of a house),
      [EconomyFrame] (what an operation leaves alone), [Gold] and
      [GoldAuction] (the gold every operation moves), [EconomyRun] (runs of the
      whole system, and the world of the concrete ones), [AuctionSafety],
      [AuctionOutcome] and [ListingSpec].
    - Groups (src/src/game/Group, GroupHandler.cpp, LFGHandler.cpp,
      src/src/game/LFG, parts of Player.cpp, LootMgr.h and WorldSession.cpp):
      [GroupData] has players, groups, loots and the queue with their links
      (GroupReference), on a heap addressed by pointers; [GroupPackets] what is
      sent to members; [GroupLoot] rolls and round robin; [MeetingStone] the
      queue; [Group] the operations of Group and the methods of Player that end
      a membership; [GroupHandlers] the packets, the update of the queue,
      login, logout and loading. The proofs view a world through its [core]
      (links, slots, invitations, counters, leaders: [GroupCore]): most steps
      are [quiet] and leave it alone, the others are one of the abstract steps
      of [GroupSteps] and [GroupEnds] (join, leave, invite, new leader, new
      group, dissolve, ...), which keep [sound] ([GroupSound], [GroupSlots]);
      [GroupOps] to [GroupSessions] refine each operation to such steps,
      [GroupReach] puts the events together and has the world of the concrete
      runs. [GroupRollSpec] and [GroupLeave] state the results in
      the terms of the code.
    - Trades (src/src/game/Handlers/TradeHandler.cpp, TradeData in
      src/src/game/Objects/Player.h and Player.cpp), over the purses and
      inventories of mails and auctions: [Trade] has the trade window and its
      operations, [TradeHandlers] the packets and the exchange. [TradeSafety]
      and [TradeSteps] refine every event to a step of a protocol (start, talk,
      agree, deal, end: [outcome]); [TradeRun] follows it through runs with
      their history, [TradeDeal] what changes hands, [TradeGold] the gold of
      runs that mix trades, mails and auctions, and two trades as examples.
    - The inventory of a character (the items in src/src/game/Objects/Player.cpp,
      Item, Bag, and the packets of src/src/game/Handlers/ItemHandler.cpp that move or
      destroy items): items are objects on a heap, slots and bags hold
      pointers. [Inventory] has the data, positions and what may go where
      (CanStoreItem, CanBankItem, CanEquipItem, ...); [InventoryMoves] what
      changes it (StoreItem, RemoveItem, DestroyItem, SplitItem, SwapItem and
      the packets). [InventorySound] has the invariant [sound] and the steps
      that keep it; [InventoryPlaces] positions with room; [InventoryStore]
      what storing, removing and equipping do; [InventoryFits] and
      [InventoryEquip] what the answers of CanStoreItem, CanBankItem and
      CanEquipItem promise; [InventoryRun], [InventorySwap] and
      [InventoryPackets] put them together to runs of packets;
      [InventoryCount] is about counting, [InventoryDestroy] about destroying by
      number, [InventoryNew] about items the server gives;
      [InventoryExample] is an inventory and what happens to it.
    - [Reputation] (src/src/game/ReputationMgr.h, .cpp, two packets of
      src/src/game/Handlers/CharacterHandler.cpp): the standings of a character with
      factions, war, the lists of the client, spillover to other factions and
      the rows of character_reputation. Each operation is shown to be a
      function on one state; the invariant is a relation between the states,
      the factions and the table the statements executed so far leave.

    This file holds what they share: machine integers as [Z] with their
    wrap-around ([u8] .. [u64], [i32]), little-endian byte strings, bit lemmas
    (hint and rewrite database [machine]), the ordered multimap of the C++
    library, the class [HashIter] and list lemmas.

    ** Conventions

    A definition has the name of the function, method or type it translates;
    a suffix tells overloads apart ([SetLeader_guid]). Code that mutates an
    object becomes a function from the old value to the new one; code that
    also changes other objects or sends threads [World]. A pointer to a slot
    of a map is the key of the slot. Effects (packets, statements, calls of
    scripts) are appended to a list in the order the code produces them.
    Failed assertions, exceptions and loops out of fuel are [None] or an
    exception value; no theorem assumes them away.

    Code outside src/ and lookups into parts not modelled are parameters:
    - [HashIter]: a hash map is traversed in some order, each element once.
      The theorems hold for every such order; witnesses use the order of keys.
    - [MemberSort]: [std::sort] returns a sorted permutation. Witnesses use a
      merge sort.
    - [SocialDB]: executing the statements on character_social acts on the
      rows of one character as on a map. [table_db] is an instance.
    - the records [Env] of [Channel], [Social] and [GuildData]: clock,
      configuration, player caches, name normalisation, escaping of strings.
    - [scripts_keep_masters]: scripts that see a new member may change its
      rank but neither make nor unmake a guild master.
    - [SoundEnv]: scripts leave amounts of gold alone, the cut of an auction is
      a part of the bid, and a deposit is an unsigned number; cut and deposit
      are computed in floating point. [ex_env] is an instance.
    - [Search]: what a character can use, spells and localised names.
    - the record [TradeEnv]: distances, scripts, spells, where an item stands
      and where it is stored. [SoundStore] states what a deal relies on: an item
      stored adds its count, and what fits together fits one by one;
      [ex_tenv] is an instance.
    - [SaneTemplates]: item templates as ObjectMgr::LoadItemPrototypes leaves
      them, with stacks of 1 to 255 and bags of at most 36 slots. What a
      character is and may do ([Character]) is what Player and its session
      answer at the time of a packet. [ex_protos] is an instance.
    - the record [Env] of [Reputation]: the factions and templates, the hook of
      the scripts and the shares computed in floating point. [SaneFactions]
      states what Faction.dbc has: every place of the list belongs to one
      faction, and what races start with is within the bounds of reputations.
      [ReputationExample.env] is an instance.
    - the record [Env] of [GroupData]: random numbers, caches, names, items,
      inventories and distances as the groups ask for them.

    ** Groups of theorems

    - Packets: what is written is read back ([packet_roundtrip],
      [packguid_roundtrip]); no read passes the end ([reading_is_safe]); the
      peer decrypts what was encrypted ([sent_headers_decrypt]).
    - Identifiers: fields are read back ([guid_fields_roundtrip]), generators
      do not repeat themselves ([generated_guids_are_unique]), a packet cannot
      name a player in two ways ([clamped_guids_have_no_alias]); an update mask
      is a set ([mask_bits]).
    - Events: due events run once, in order ([drain_runs_due_events]).
    - Channels: one owner in every reachable state ([channel_has_one_owner]),
      who may join, speak and moderate.
    - Social lists: bounded ([social_lists_are_bounded]), kept by the database
      ([social_list_survives_relog]), and the case in which they are not
      ([second_flag_replaces_the_row]).
    - Guilds: the invariant of every reachable state ([guilds_stay_sound]) and
      that it holds after start ([loading_gives_sound_guilds]); handlers
      return ([guild_handlers_return]); rights and ranks bound what a packet
      can do ([without_the_right_nothing_changes], [ranks_bound_authority]);
      succession and disbanding; the event log; the size and contents of the
      roster packet; the tables guild, guild_member and guild_rank refine the
      guilds in memory after every run ([tables_follow_guilds]), when the
      statements execute in order ([default_ranks_need_order]).

    - Mails and auctions: no run creates gold ([no_gold_is_created]) or takes an
      amount out of its bounds ([amounts_stay_in_bounds]); the indexes of the
      houses agree and every auction has its own item
      ([auction_houses_stay_consistent]); expired auctions close
      ([expired_auctions_close]) and pay the right characters
      ([expired_auction_settles]); a bid is refused or paid exactly
      ([bids_are_refused_or_paid]); a search is a page of a filtered list
      ([listing_is_a_page]). The cap of a purse fails for one amount
      ([income_at_the_cap]), which these runs leave out ([below_cap]); selling
      needs an identifier that is left ([ids_left]).
    - Groups: in every run no dangling pointer is followed, groups are in order
      and agree with the links and invitations of the players
      ([groups_stay_sound]); who follows a leader, and when a group ends
      ([a_member_leaves]); plain members change nothing
      ([without_office_nothing_changes]); a roll ends with its last vote
      ([rolls_close]) and is won by the right player ([roll_is_won]); the queue
      of the meeting stones breaks the first of these
      ([queue_forgets_the_party]).

    - Trades: they come in pairs and no event follows a bad pointer
      ([trades_stay_paired]); an acceptance is of the offers as they are
      ([acceptance_is_informed]); a deal is exact ([trades_are_exact]) and no
      run of trades, mails and auctions creates gold
      ([trading_creates_no_gold]); but an item can be mailed away from the
      table ([accepted_offers_can_be_emptied]).

    - Inventory: no sequence of packets that move items gains or loses one
      ([packets_conserve_items]), and every item stays in one slot; items are
      counted exactly ([items_are_counted]), what was counted can be paid
      ([payments_take_what_was_counted]), rewards are stored as far as there
      is room and the limit allows ([rewards_are_stored]), unless there was
      more than allowed before ([above_the_limit_the_pack_is_filled]); a
      packet destroys what it names
      ([destroy_packet_destroys_what_it_names]).

    - Reputation: ranks partition the standings ([ranks_partition_standings]);
      reputations stay in bounds and flags consistent
      ([reputations_stay_sound]); a change sets one reputation and its
      consequences ([reputation_is_set]) and reaches others only by the
      template ([spillover_gives_shares]); a save writes the states
      ([saved_rows_are_the_states]) and they come back
      ([reputation_survives_relog]); the list at login has more entries than it
      says ([initial_packet_lists_every_place]).

    ** Fuel and bounds

    [packGUID_loop] has eight rounds, one for each byte of a GUID
    ([appendPackGUID_fuel]). [Disband_loop] has as many rounds as the guild
    has members; each round removes one ([Disband_loop_ok]). [EndRoll_loop] has
    a round more than the group has rolls and ends one in each
    ([EndRoll_loop_ok]), [removeRolls_loop] two for each roll
    ([removeRolls_loop_spec]). The other loops
    recurse on lists, or on the bytes left in a buffer. Integers are kept at
    their widths; times and counters wrap as in the code.

    ** Not modelled

    Movement, maps, visibility and combat work in floating point on spatial
    structures; spells, quests, creature AI and battlegrounds are content over
    the object hierarchy; the database layer, sockets, logging, HTTP, Discord
    and Lua are input and output or third-party code; the bots are vendored
    modules. Of the modelled parts these are left out: floating point operands
    of ByteBuffer, the debug printers, the cached roster packets, the emblem
    vendor, buying and loading petitions, loading mails and auctions, the list
    of mails (times in floating point), items of mails from loot templates,
    and text items. Of groups these are left out: the packets with the values
    of members, the queues of battlegrounds, experience, and binds to
    instances, which are emitted as effects; [LFG_Update] and [LoadGroups] are
    modelled but not among the events of the runs, nor is a character who
    turns hardcore in a group of two: they break the invariant. The
    inventory that mails, auctions and trades see is a map of items with one
    operation that stores an item as a parameter; it is not yet the one of
    [Inventory], of which buying back, vendors, enchantments, durations,
    wrapping, and loading and saving are left out. Threads are not modelled: a
    handler runs as one step, as the locks of the maps it uses make it, and
    the queue of statements is emptied by one worker. Of reputations, how much a kill or a
    quest is worth is an argument, being computed in floating point, and quests
    that wait for a reputation are only told of it.

    ** Plan

    Next: the event processor of the framework; the channel manager; the guild
    bank; the states of an authentication session of
    realmd. *)
From stdpp Require Export prelude gmap sets list numbers strings sorting.
From Stdlib Require Export ZArith Lia Sorting.Sorted.

#[export] Set Default Goal Selector "!".
Open Scope Z_scope.

(** Bit operations stay folded when terms are simplified. *)
#[global] Arguments Z.land : simpl never.
#[global] Arguments Z.lor : simpl never.
#[global] Arguments Z.lxor : simpl never.
#[global] Arguments Z.ldiff : simpl never.
#[global] Arguments Z.lnot : simpl never.
#[global] Arguments Z.shiftl : simpl never.
#[global] Arguments Z.shiftr : simpl never.
#[global] Arguments Z.testbit : simpl never.

(** ** Machine integers *)

(** The unsigned value of [x] at width [w]: what a conversion to an unsigned
    C++ integer type of [w] bits gives. *)
Definition wrapu (w x : Z) : Z := x mod 2 ^ w.
Definition u8 (x : Z) : Z := wrapu 8 x.
Definition u16 (x : Z) : Z := wrapu 16 x.
Definition u32 (x : Z) : Z := wrapu 32 x.
Definition u64 (x : Z) : Z := wrapu 64 x.

(** The signed value of [x] at width 32 (two's complement). *)
Definition i32 (x : Z) : Z := (x + 2 ^ 31) mod 2 ^ 32 - 2 ^ 31.

Definition is_u (w x : Z) : Prop := 0 <= x < 2 ^ w.
Abbreviation is_u8 := (is_u 8).
Abbreviation is_u16 := (is_u 16).
Abbreviation is_u32 := (is_u 32).
Abbreviation is_u64 := (is_u 64).
Definition is_i32 (x : Z) : Prop := - 2 ^ 31 <= x < 2 ^ 31.

#[export] Instance is_u_dec w x : Decision (is_u w x).
Proof. unfold is_u. apply _. Defined.
#[export] Instance is_i32_dec x : Decision (is_i32 x).
Proof. unfold is_i32. apply _. Defined.

Create HintDb machine.
Create Rewrite HintDb machine.

Lemma wrapu_range w x : 0 <= w -> is_u w (wrapu w x).
Proof. intros. apply Z.mod_pos_bound. lia. Qed.

Lemma wrapu_id w x : is_u w x -> wrapu w x = x.
Proof. intros. by apply Z.mod_small. Qed.

Lemma u8_range x : is_u8 (u8 x).
Proof. by apply wrapu_range. Qed.
Lemma u32_range x : is_u32 (u32 x).
Proof. by apply wrapu_range. Qed.
Lemma u64_range x : is_u64 (u64 x).
Proof. by apply wrapu_range. Qed.
Lemma u8_id x : is_u8 x -> u8 x = x.
Proof. apply wrapu_id. Qed.
Lemma u16_id x : is_u16 x -> u16 x = x.
Proof. apply wrapu_id. Qed.
Lemma u32_id x : is_u32 x -> u32 x = x.
Proof. apply wrapu_id. Qed.
Lemma u64_id x : is_u64 x -> u64 x = x.
Proof. apply wrapu_id. Qed.
Lemma i32_id x : is_i32 x -> i32 x = x.
Proof. unfold is_i32, i32. intros. rewrite Z.mod_small; lia. Qed.
Lemma i32_range x : is_i32 (i32 x).
Proof. unfold is_i32, i32. pose proof (Z.mod_pos_bound (x + 2 ^ 31) (2 ^ 32)). lia. Qed.

#[export] Hint Resolve u8_range u32_range u64_range i32_range : machine.
#[export] Hint Rewrite u8_id u16_id u32_id u64_id i32_id using (assumption || unfold is_u, is_i32 in *; lia) : machine.

(** ** Little-endian byte strings *)

(** The [n] bytes of [z], least significant first: the memory of an unsigned
    integer of [n] bytes on the little-endian hosts the server runs on. *)
Fixpoint le_split (n : nat) (z : Z) : list Z :=
  match n with
  | O => []
  | S n => z mod 256 :: le_split n (z / 256)
  end.

Fixpoint le_combine (bs : list Z) : Z :=
  match bs with
  | [] => 0
  | b :: bs => b + 256 * le_combine bs
  end.

Lemma length_le_split n z : length (le_split n z) = n.
Proof. revert z. induction n; intros; simpl; auto. Qed.

Lemma le_split_bytes n z : Forall (is_u 8) (le_split n z).
Proof.
  revert z. induction n; intros; simpl; constructor; auto.
  apply Z.mod_pos_bound. lia.
Qed.

Lemma le_combine_split n z :
  0 <= z < 256 ^ Z.of_nat n -> le_combine (le_split n z) = z.
Proof.
  revert z. induction n as [|n IH]; intros z Hz; [simpl in *; lia|].
  simpl le_split. simpl le_combine.
  rewrite Nat2Z.inj_succ, Z.pow_succ_r in Hz by lia.
  rewrite IH; [pose proof (Z.div_mod z 256); lia|].
  split; [apply Z.div_pos; lia|]. apply Z.div_lt_upper_bound; lia.
Qed.

Lemma le_combine_range bs :
  Forall (is_u 8) bs -> 0 <= le_combine bs < 256 ^ Z.of_nat (length bs).
Proof.
  induction 1 as [|b bs Hb _ IH]; simpl length; [simpl; lia|].
  rewrite Nat2Z.inj_succ, Z.pow_succ_r by lia. unfold is_u in Hb. simpl le_combine. lia.
Qed.

Lemma le_split_combine bs :
  Forall (is_u 8) bs -> le_split (length bs) (le_combine bs) = bs.
Proof.
  induction 1 as [|b bs Hb _ IH]; [done|]. simpl. unfold is_u in Hb.
  assert (Hm : (b + 256 * le_combine bs) mod 256 = b)
    by (rewrite Z.mul_comm, Z.mod_add by lia; apply Z.mod_small; lia).
  assert (Hd : (b + 256 * le_combine bs) / 256 = le_combine bs)
    by (rewrite Z.mul_comm, Z.div_add by lia; rewrite (Z.div_small b) by lia; lia).
  by rewrite Hm, Hd, IH.
Qed.

(** ** Bit lemmas *)

Lemma testbit_small w x i : is_u w x -> 0 <= w <= i -> Z.testbit x i = false.
Proof.
  intros Hx Hi. unfold is_u in Hx. destruct (Z.eq_dec x 0) as [->|]; [apply Z.bits_0|].
  apply Z.bits_above_log2; [lia|]. apply Z.log2_lt_pow2; [lia|].
  apply Z.lt_le_trans with (2 ^ w); [lia|]. apply Z.pow_le_mono_r; lia.
Qed.

Lemma is_u_bits w x :
  0 <= w -> 0 <= x -> (forall i, w <= i -> Z.testbit x i = false) -> is_u w x.
Proof.
  intros Hw Hx Hb. split; [done|].
  assert (x = x mod 2 ^ w) as ->; [|apply Z.mod_pos_bound; lia].
  apply Z.bits_inj'. intros i Hi. destruct (Z.lt_ge_cases i w).
  - by rewrite Z.mod_pow2_bits_low.
  - by rewrite Z.mod_pow2_bits_high, Hb by lia.
Qed.

Lemma is_u_lor w x y : 0 <= w -> is_u w x -> is_u w y -> is_u w (Z.lor x y).
Proof.
  intros Hw Hx Hy. apply is_u_bits; [done|apply Z.lor_nonneg; split; [apply Hx|apply Hy]|].
  intros i Hi. rewrite Z.lor_spec, !(testbit_small w) by (auto; lia). done.
Qed.

Lemma is_u_land w x y : 0 <= w -> is_u w x -> 0 <= y -> is_u w (Z.land x y).
Proof.
  intros Hw Hx Hy. apply is_u_bits; [done|apply Z.land_nonneg; by right|].
  intros i Hi. rewrite Z.land_spec, (testbit_small w x) by (auto; lia). done.
Qed.

Lemma is_u_lxor w x y : 0 <= w -> is_u w x -> is_u w y -> is_u w (Z.lxor x y).
Proof.
  intros Hw Hx Hy. apply is_u_bits; [done|apply Z.lxor_nonneg; split; intros; [apply Hy|apply Hx]|].
  intros i Hi. rewrite Z.lxor_spec, !(testbit_small w) by (auto; lia). done.
Qed.

Lemma testbit_one_shift n i : 0 <= n -> Z.testbit (Z.shiftl 1 n) i = bool_decide (i = n).
Proof.
  intros Hn. destruct (Z.lt_ge_cases i 0).
  - rewrite Z.testbit_neg_r by lia. case_bool_decide; [lia|done].
  - rewrite Z.shiftl_1_l, Z.pow2_bits_eqb by lia.
    destruct (Z.eqb_spec n i); case_bool_decide; congruence.
Qed.

(** A flag test of the source: [x & (1 << n)]. *)
Lemma land_one_shift x n :
  0 <= n -> (Z.land x (Z.shiftl 1 n) =? 0) = negb (Z.testbit x n).
Proof.
  intros Hn. destruct (Z.testbit x n) eqn:E; simpl.
  - apply Z.eqb_neq. intros H0. apply (f_equal (fun y => Z.testbit y n)) in H0.
    rewrite Z.land_spec, testbit_one_shift, Z.bits_0, E in H0 by done.
    by rewrite bool_decide_eq_true_2 in H0.
  - apply Z.eqb_eq. apply Z.bits_inj'. intros i Hi.
    rewrite Z.land_spec, testbit_one_shift, Z.bits_0 by done.
    case_bool_decide; subst; [by rewrite E|by rewrite andb_false_r].
Qed.

(** ** [std::multimap] with an unsigned key

    A list of key and value sorted by key; [insert] puts an element after
    those with an equivalent key, as the standard requires since C++11. *)
Section Multimap.
Context {V : Type}.
Implicit Types (m : list (Z * V)).

Fixpoint mm_insert (k : Z) (v : V) m : list (Z * V) :=
  match m with
  | [] => [(k, v)]
  | (k', v') :: m' => if k' <=? k then (k', v') :: mm_insert k v m' else (k, v) :: m
  end.

Definition mm_le (a b : Z * V) : Prop := fst a <= fst b.
Definition mm_sorted m : Prop := StronglySorted mm_le m.

Lemma mm_insert_perm k v m : mm_insert k v m ≡ₚ (k, v) :: m.
Proof.
  induction m as [|[k' v'] m IH]; simpl; [done|].
  destruct (k' <=? k); [|done]. rewrite IH. apply Permutation_swap.
Qed.

Lemma elem_of_mm_insert k v m x : x ∈ mm_insert k v m <-> x = (k, v) \/ x ∈ m.
Proof. rewrite mm_insert_perm. apply elem_of_cons. Qed.

Lemma mm_insert_sorted k v m : mm_sorted m -> mm_sorted (mm_insert k v m).
Proof.
  induction 1 as [|[k' v'] m Hm IH Hall]; simpl.
  - repeat constructor.
  - destruct (Z.leb_spec k' k).
    + constructor; [done|]. apply Forall_forall. intros x Hx.
      apply elem_of_mm_insert in Hx as [->|Hx]; [done|].
      by eapply Forall_forall in Hall.
    + constructor; [by constructor|]. constructor; [unfold mm_le; simpl; lia|].
      eapply Forall_impl; [done|]. unfold mm_le. simpl. intros; lia.
Qed.

Lemma mm_sorted_filter (P : Z * V -> Prop) `{forall x, Decision (P x)} m :
  mm_sorted m -> mm_sorted (filter P m).
Proof.
  induction 1 as [|x m Hm IH Hall]; [constructor|]. rewrite filter_cons.
  case_decide; [|done]. constructor; [done|].
  apply Forall_forall. intros y [_ Hy]%list_elem_of_filter. by eapply Forall_forall in Hall.
Qed.

Lemma mm_insert_length k v m : length (mm_insert k v m) = S (length m).
Proof. by rewrite mm_insert_perm. Qed.
End Multimap.

(** ** Tactics *)

(** Split every conditional and match in sight, with the branch recorded. *)
Ltac case_all := repeat (case_match; simplify_eq/=; try done).

(** Turn boolean comparisons on [Z] into propositions. *)
Ltac to_prop :=
  repeat match goal with
  | H : negb _ = true |- _ => apply negb_true_iff in H
  | H : negb _ = false |- _ => apply negb_false_iff in H
  | H : _ && _ = true |- _ => apply andb_true_iff in H as [? ?]
  | H : _ || _ = false |- _ => apply orb_false_iff in H as [? ?]
  | H : (_ =? _)%Z = true |- _ => apply Z.eqb_eq in H
  | H : (_ =? _)%Z = false |- _ => apply Z.eqb_neq in H
  | H : (_ <? _)%Z = true |- _ => apply Z.ltb_lt in H
  | H : (_ <? _)%Z = false |- _ => apply Z.ltb_ge in H
  | H : (_ <=? _)%Z = true |- _ => apply Z.leb_le in H
  | H : (_ <=? _)%Z = false |- _ => apply Z.leb_gt in H
  | H : bool_decide _ = true |- _ => apply bool_decide_eq_true in H
  | H : bool_decide _ = false |- _ => apply bool_decide_eq_false in H
  end.

(** ** [std::map] with an ordered key

    The contents are a [gmap]; iteration is in the order of the keys. *)
Section OrderedMap.
Context {V : Type}.
Implicit Types (m : gmap Z V).

Definition key_le (a b : Z * V) : Prop := fst a <= fst b.
#[global] Instance key_le_dec a b : Decision (key_le a b).
Proof. unfold key_le. apply _. Defined.
#[global] Instance key_le_total : Total key_le.
Proof. intros a b. unfold key_le. lia. Qed.

(** The elements in iteration order. *)
Definition map_iter m : list (Z * V) := merge_sort key_le (map_to_list m).

(** [begin()]. *)
Definition map_begin m : option (Z * V) := head (map_iter m).

Lemma map_iter_perm m : map_iter m ≡ₚ map_to_list m.
Proof. apply merge_sort_Permutation. Qed.

Lemma elem_of_map_iter m k v : (k, v) ∈ map_iter m <-> m !! k = Some v.
Proof. rewrite map_iter_perm. apply elem_of_map_to_list. Qed.

Lemma map_begin_lookup m k v : map_begin m = Some (k, v) -> m !! k = Some v.
Proof. unfold map_begin. intros H. apply elem_of_map_iter. by apply head_Some_elem_of. Qed.

Lemma map_begin_None m : map_begin m = None -> m = ∅.
Proof.
  unfold map_begin. intros H. apply map_empty. intros k. apply eq_None_not_Some. intros [v Hv].
  apply elem_of_map_iter in Hv. destruct (map_iter m); [by apply elem_of_nil in Hv|done].
Qed.
End OrderedMap.

(** ** Hash maps

    The order in which a hash map is traversed is not specified: what the
    code relies on is that every element is visited once. *)
Class HashIter := {
  hash_iter : forall {V : Type}, gmap Z V -> list (Z * V);
  hash_iter_perm : forall {V : Type} (m : gmap Z V), hash_iter m ≡ₚ map_to_list m
}.

Lemma elem_of_hash_iter `{HashIter} {V} (m : gmap Z V) k v : (k, v) ∈ hash_iter m <-> m !! k = Some v.
Proof. rewrite hash_iter_perm. apply elem_of_map_to_list. Qed.

Lemma hash_iter_NoDup `{HashIter} {V} (m : gmap Z V) : NoDup (fst <$> hash_iter m).
Proof. rewrite hash_iter_perm. apply NoDup_fst_map_to_list. Qed.

(** How many values of a map satisfy a test. *)
Definition map_count {V} (P : V -> bool) (m : gmap Z V) : nat :=
  base.size (filter (fun kv : Z * V => P kv.2 = true) m).

Lemma map_count_insert {V} (P : V -> bool) (m : gmap Z V) k v :
  map_count P (<[k := v]> m) = ((if P v then 1 else 0) + map_count P (delete k m))%nat.
Proof.
  unfold map_count. rewrite <- insert_delete_eq. destruct (P v) eqn:E.
  - rewrite map_filter_insert_True by done. rewrite map_size_insert_None; [done|].
    apply map_lookup_filter_None. left. apply lookup_delete_eq.
  - rewrite map_filter_insert_False by (simpl; congruence). by rewrite delete_delete_eq.
Qed.

Lemma map_count_delete {V} (P : V -> bool) (m : gmap Z V) k v :
  m !! k = Some v -> map_count P m = ((if P v then 1 else 0) + map_count P (delete k m))%nat.
Proof. intros Hk. rewrite <- (insert_id m k v Hk) at 1. apply map_count_insert. Qed.

Lemma map_count_delete_le {V} (P : V -> bool) (m : gmap Z V) k :
  (map_count P (delete k m) <= map_count P m)%nat.
Proof.
  destruct (m !! k) as [v|] eqn:E; [rewrite (map_count_delete P m k v E); lia|].
  by rewrite delete_id.
Qed.

Lemma map_count_empty {V} (P : V -> bool) : map_count P (∅ : gmap Z V) = 0%nat.
Proof. unfold map_count. by rewrite map_filter_empty, map_size_empty. Qed.

Lemma map_count_fmap {V W} (f : V -> W) (P : W -> bool) (m : gmap Z V) :
  map_count P (f <$> m) = map_count (fun v => P (f v)) m.
Proof. unfold map_count. by rewrite map_filter_fmap, map_size_fmap. Qed.

Lemma map_count_iter `{HashIter} {V} (P : V -> bool) (m : gmap Z V) :
  length (filter (fun kv : Z * V => P kv.2 = true) (hash_iter m)) = map_count P m.
Proof.
  rewrite hash_iter_perm. unfold map_count. rewrite map_filter_alt. 
  assert (Hnd : NoDup (filter (fun kv : Z * V => P kv.2 = true) (map_to_list m)).*1).
  { eapply sublist_NoDup; [apply (NoDup_fst_map_to_list m)|]. apply fmap_sublist, sublist_filter. }
  by rewrite <- length_map_to_list, map_to_list_to_map.
Qed.

(** One possible order: that of the keys. *)
Definition ordered_iter : HashIter := {| hash_iter := @map_iter; hash_iter_perm := @map_iter_perm |}.

(** A string literal of the source as bytes. *)
Definition str (s : string) : list Z := Z.of_N ∘ Ascii.N_of_ascii <$> String.list_ascii_of_string s.

(** ** Filters *)

Lemma filter_all {A} (P : A -> Prop) `{forall x, Decision (P x)} l : Forall P l -> filter P l = l.
Proof. induction 1 as [|x l Hx _ IH]; [done|]. by rewrite filter_cons_True, IH. Qed.

Lemma filter_none {A} (P : A -> Prop) `{forall x, Decision (P x)} l : Forall (fun x => ~ P x) l -> filter P l = [].
Proof. induction 1 as [|x l Hx _ IH]; [done|]. by rewrite filter_cons_False, IH. Qed.

Lemma filter_Forall {A} (Q : A -> Prop) (P : A -> Prop) `{forall x, Decision (P x)} l : Forall Q l -> Forall Q (filter P l).
Proof. rewrite !Forall_forall. intros Hl x [_ Hx]%list_elem_of_filter. by apply Hl. Qed.

Lemma filter_sorted {A} (R : relation A) (P : A -> Prop) `{forall x, Decision (P x)} l :
  StronglySorted R l -> StronglySorted R (filter P l).
Proof.
  induction 1 as [|x l _ IH Hx]; [constructor|]. destruct (decide (P x)).
  - rewrite filter_cons_True by done. constructor; [done|]. rewrite Forall_forall in Hx |- *.
    intros y [_ Hy]%list_elem_of_filter. by apply Hx.
  - by rewrite filter_cons_False.
Qed.

Lemma filter_filter_length {A} (P Q : A -> Prop) `{forall x, Decision (P x)} `{forall x, Decision (Q x)} (l : list A) :
  (length (filter P (filter Q l)) <= length (filter P l))%nat.
Proof.
  induction l as [|x l IH]; [done|].
  destruct (decide (P x)) as [Hp|Hp]; destruct (decide (Q x)) as [Hq|Hq];
    rewrite ?(filter_cons_True Q), ?(filter_cons_False Q), ?(filter_cons_True P), ?(filter_cons_False P) by done; cbn; lia.
Qed.

(** Two elements with the same key are one, when keys are distinct. *)
Lemma NoDup_key {A B} (f : A -> B) l x y : NoDup (f <$> l) -> x ∈ l -> y ∈ l -> f x = f y -> x = y.
Proof.
  induction l as [|z l IH]; cbn; [intros _ Hx; by apply elem_of_nil in Hx|]. intros [Hni Hnd]%NoDup_cons.
  intros [->|Hx]%elem_of_cons [->|Hy]%elem_of_cons Hf; [done| | |by apply IH]; destruct Hni.
  - rewrite Hf. by apply list_elem_of_fmap_2.
  - rewrite <- Hf. by apply list_elem_of_fmap_2.
Qed.

Lemma alter_alter {A} (f g : A -> A) k (m : gmap Z A) : alter f k (alter g k m) = alter (f ∘ g) k m.
Proof.
  apply map_eq. intros j. destruct (decide (j = k)) as [->|Hn]; [|by rewrite !lookup_alter_ne].
  rewrite !lookup_alter_eq. by destruct (m !! k).
Qed.

(** ** Sums over maps *)

Definition msum {A} (f : A -> Z) (m : gmap Z A) : Z := map_fold (fun _ a n => f a + n) 0 m.

Section Msum.
Context {A : Type}.
Implicit Types (f : A -> Z) (m : gmap Z A).

Lemma msum_empty f : msum f ∅ = 0.
Proof. done. Qed.

Lemma msum_new f m k a : m !! k = None -> msum f (<[k := a]> m) = f a + msum f m.
Proof. intros Hk. unfold msum. by rewrite (map_fold_insert_L (fun _ a n => f a + n)) by (done || intros; lia). Qed.

Lemma msum_delete f m k a : m !! k = Some a -> msum f m = f a + msum f (delete k m).
Proof.
  intros Hk. rewrite <- (insert_id m k a Hk) at 1. rewrite <- insert_delete_eq. apply msum_new, lookup_delete_eq.
Qed.

Lemma msum_insert f m k a : msum f (<[k := a]> m) = msum f m - from_option f 0 (m !! k) + f a.
Proof.
  destruct (m !! k) as [b|] eqn:Hk; cbn.
  - rewrite (msum_delete f m k b Hk), <- insert_delete_eq, msum_new by apply lookup_delete_eq. lia.
  - rewrite msum_new by done. lia.
Qed.

Lemma msum_alter f m k (g : A -> A) a : m !! k = Some a -> msum f (alter g k m) = msum f m - f a + f (g a).
Proof.
  intros Hk. assert (alter g k m = <[k := g a]> m) as ->.
  { apply map_eq. intros j. destruct (decide (j = k)) as [->|Hn]; [by rewrite lookup_alter_eq, lookup_insert_eq, Hk|].
    by rewrite lookup_alter_ne, lookup_insert_ne. }
  rewrite msum_insert, Hk. done.
Qed.

Lemma msum_nonneg f m : map_Forall (fun _ a => 0 <= f a) m -> 0 <= msum f m.
Proof.
  revert m. refine (map_ind _ _ _); [done|]. intros k a m Hk IH Hf. rewrite msum_new by done.
  rewrite map_Forall_insert in Hf by done. destruct Hf as [Ha Hm]. specialize (IH Hm). lia.
Qed.
End Msum.
