(* ===== verification/Reputation.v ===== *)
(** * Reputation: the standing of a character with factions

    src/src/game/ReputationMgr.h and ReputationMgr.cpp: a state for every
    faction that has a place in the reputation list, changed by rewards, kills
    and the two packets of CharacterHandler.cpp; it is saved to and loaded from
    character_reputation. A pointer to a state is its key in [m_factions]. *)
From S2P Require Import Prelude.

(** ** Factions *)

Definition ReputationRank : Type := Z.
Definition REP_HATED : ReputationRank := 0.
Definition REP_HOSTILE : ReputationRank := 1.
Definition REP_UNFRIENDLY : ReputationRank := 2.
Definition REP_NEUTRAL : ReputationRank := 3.
Definition REP_EXALTED : ReputationRank := 7.
Definition MIN_REPUTATION_RANK : ReputationRank := REP_HATED.
Definition MAX_REPUTATION_RANK : Z := 8.

Definition FACTION_FLAG_VISIBLE : Z := 0x01.
Definition FACTION_FLAG_AT_WAR : Z := 0x02.
Definition FACTION_FLAG_HIDDEN : Z := 0x04.
Definition FACTION_FLAG_INVISIBLE_FORCED : Z := 0x08.
Definition FACTION_FLAG_PEACE_FORCED : Z := 0x10.
Definition FACTION_FLAG_INACTIVE : Z := 0x20.

Record FactionEntry := mkEntry {
  fe_ID : Z;
  reputationListID : Z;              (* int32: -1 without a place in the list *)
  BaseRepRaceMask : list Z;
  BaseRepClassMask : list Z;
  BaseRepValue : list Z;
  ReputationFlags : list Z
}.
Definition CanHaveReputation (f : FactionEntry) : bool := 0 <=? reputationListID f.

(** The place of the first pair of masks that fits, of four. *)
Definition fits_masks (raceMask classMask : Z) (f : FactionEntry) (i : nat) : bool :=
  let r := nth i (BaseRepRaceMask f) 0 in
  let c := nth i (BaseRepClassMask f) 0 in
  ((r =? 0) || negb (Z.land r raceMask =? 0)) && ((c =? 0) || negb (Z.land c classMask =? 0)).
Definition GetIndexFitTo (raceMask classMask : Z) (f : FactionEntry) : option nat :=
  List.find (fits_masks raceMask classMask f) (seq 0 4).

Definition MAX_SPILLOVER_FACTIONS : nat := 4.
Record RepSpilloverTemplate := mkSpillover {
  rs_faction : list Z;
  rs_faction_rate : list Z;          (* the bits of floats *)
  rs_faction_rank : list Z
}.

Record FactionState := mkState {
  fs_ID : Z;
  fs_ReputationListID : Z;
  Flags : Z;                         (* uint32 *)
  Standing : Z;                      (* int32, without what the race and class start with *)
  needSend : bool;
  needSave : bool
}.
Definition with_flags (f : Z) (s : FactionState) : FactionState :=
  mkState (fs_ID s) (fs_ReputationListID s) f (Standing s) true true.
Definition with_standing (n : Z) (s : FactionState) : FactionState :=
  mkState (fs_ID s) (fs_ReputationListID s) (Flags s) n true true.
Definition set_needSend (b : bool) (s : FactionState) : FactionState :=
  mkState (fs_ID s) (fs_ReputationListID s) (Flags s) (Standing s) b (needSave s).
Definition set_needSave (b : bool) (s : FactionState) : FactionState :=
  mkState (fs_ID s) (fs_ReputationListID s) (Flags s) (Standing s) (needSend s) b.

(** Packets, statements and calls of Player. *)
Inductive Out :=
| SMSG_SET_FACTION_STANDING (count : Z) (standings : list (Z * Z))
| SMSG_INITIALIZE_FACTIONS (count : Z) (entries : list (Z * Z))
| SMSG_SET_FACTION_VISIBLE (list_id : Z)
| SMSG_SET_FORCED_REACTIONS (count : Z) (reactions : list (Z * Z))
| SqlDeleteReputation (guid faction : Z)
| SqlInsertReputation (guid faction standing flags : Z)
| ReputationChanged (faction : Z)
| SqlDeleteTitle (guid title : Z)
| SqlInsertTitle (guid title : Z)
| TWT_TITLES (title : Z)
| ChangeTitle (title : Z)
| SendEarnedTitles.

Record ReputationMgr := mkMgr {
  m_factions : gmap Z FactionState;
  m_forcedReactions : gmap Z ReputationRank;
  m_playerTitles : gset Z;           (* of the owner *)
  mgr_out : list Out
}.
Definition set_factions (m : gmap Z FactionState) (r : ReputationMgr) : ReputationMgr := mkMgr m (m_forcedReactions r) (m_playerTitles r) (mgr_out r).
Definition emit (o : Out) (r : ReputationMgr) : ReputationMgr := mkMgr (m_factions r) (m_forcedReactions r) (m_playerTitles r) (mgr_out r ++ [o]).
Definition set_titles (t : gset Z) (r : ReputationMgr) : ReputationMgr := mkMgr (m_factions r) (m_forcedReactions r) t (mgr_out r).
Definition upd (id : Z) (f : FactionState -> FactionState) (r : ReputationMgr) : ReputationMgr :=
  set_factions (alter f id (m_factions r)) r.

(** The owner and the tables of the world. *)
Record Env := mkEnv {
  guid : Z;
  raceMask : Z;
  classMask : Z;
  FactionMap : gmap Z FactionEntry;
  m_RepSpilloverTemplateMap : gmap Z RepSpilloverTemplate;
  spillover : Z -> Z -> Z;           (* int32(standing * rate), computed in floating point *)
  OnReputationChange : Z -> Z -> Z;  (* scripts may change the new standing, an int32 *)
  PlayerLoading : bool
}.
Definition TITLE_DIPLOMAT : Z := 64.

Definition i8 (x : Z) : Z := (x + 2 ^ 7) mod 2 ^ 8 - 2 ^ 7.
Definition has (flags flag : Z) : bool := negb (Z.land flags flag =? 0).
Definition unset (flags flag : Z) : Z := Z.land flags (u32 (Z.lnot flag)).

(** ** Ranks *)

Definition PointsInRank : list Z := [36000; 3000; 3000; 3000; 6000; 12000; 21000; 1000].
Definition Reputation_Cap : Z := 42999.
Definition Reputation_Bottom : Z := -42000.
Definition GetRepPointsToRank (rank : ReputationRank) : Z := foldr Z.add 0 (take (Z.to_nat rank) PointsInRank) - 42000.

Fixpoint ReputationToRank_loop (ranks : list nat) (limit standing : Z) : ReputationRank :=
  match ranks with
  | [] => MIN_REPUTATION_RANK
  | i :: ranks =>
      let limit := limit - nth i PointsInRank 0 in
      if limit <=? standing then Z.of_nat i else ReputationToRank_loop ranks limit standing
  end.
Definition ReputationToRank (standing : Z) : ReputationRank :=
  ReputationToRank_loop (rev (seq 0 (Z.to_nat MAX_REPUTATION_RANK))) (Reputation_Cap + 1) standing.

Section Manager.
Context (E : Env).

Definition GetFactionEntry (id : Z) : option FactionEntry := FactionMap E !! id.
Definition GetRepSpilloverTemplate (factionId : Z) : option RepSpilloverTemplate := m_RepSpilloverTemplateMap E !! factionId.
(** [RepListID(factionEntry->reputationListID)] *)
Definition RepListID (f : FactionEntry) : Z := u32 (reputationListID f).

(** A row of reputation_spillover_template. The inner loop of the source only
    reports; a row goes when it names a faction that does not exist. *)
Definition LoadReputationSpilloverTemplate (rows : list (Z * RepSpilloverTemplate)) : gmap Z RepSpilloverTemplate :=
  fold_left (fun templates row =>
    match GetFactionEntry row.1 with
    | None => templates
    | Some _ =>
        if forallb (fun i => let other := nth i (rs_faction row.2) 0 in (other =? 0) || bool_decide (is_Some (GetFactionEntry other)))
             (seq 0 MAX_SPILLOVER_FACTIONS)
        then <[row.1 := row.2]> templates else templates
    end) rows ∅.

(** ** What is read *)

Definition GetState_id (id : Z) (r : ReputationMgr) : option FactionState := m_factions r !! id.
Definition GetState (f : FactionEntry) (r : ReputationMgr) : option FactionState :=
  if CanHaveReputation f then GetState_id (RepListID f) r else None.
Definition GetBaseReputation (f : FactionEntry) : Z :=
  match GetIndexFitTo (raceMask E) (classMask E) f with Some i => nth i (BaseRepValue f) 0 | None => 0 end.
Definition GetDefaultStateFlags (f : FactionEntry) : Z :=
  match GetIndexFitTo (raceMask E) (classMask E) f with Some i => nth i (ReputationFlags f) 0 | None => 0 end.
Definition GetReputation (f : FactionEntry) (r : ReputationMgr) : Z :=
  match GetState f r with Some s => i32 (GetBaseReputation f + Standing s) | None => 0 end.
Definition GetReputation_id (faction_id : Z) (r : ReputationMgr) : Z :=
  match GetFactionEntry faction_id with Some f => GetReputation f r | None => 0 end.
Definition IsAtWar (f : FactionEntry) (r : ReputationMgr) : bool :=
  match GetState f r with Some s => has (Flags s) FACTION_FLAG_AT_WAR | None => false end.
Definition IsAtWar_id (faction_id : Z) (r : ReputationMgr) : bool :=
  match GetFactionEntry faction_id with Some f => IsAtWar f r | None => false end.
(** The null entry has reputation 0. *)
Definition GetRank (f : option FactionEntry) (r : ReputationMgr) : ReputationRank :=
  ReputationToRank (match f with Some f => GetReputation f r | None => 0 end).
Definition GetBaseRank (f : FactionEntry) : ReputationRank := ReputationToRank (GetBaseReputation f).
Definition GetForcedRankIfAny (faction : option Z) (r : ReputationMgr) : option ReputationRank :=
  faction ≫= fun id => m_forcedReactions r !! id.
Definition GetReputationRank (faction : Z) (r : ReputationMgr) : ReputationRank := GetRank (GetFactionEntry faction) r.

(** ** Titles *)

Definition HasTitle (titleId : Z) (r : ReputationMgr) : bool := bool_decide (titleId ∈ m_playerTitles r) || (titleId =? 0).
(** [HasEarnedTitle(TITLE_DIPLOMAT)] *)
Definition HasEarnedTitle_diplomat (r : ReputationMgr) : bool :=
  if HasTitle TITLE_DIPLOMAT r then false
  else (GetReputationRank 576 r =? REP_EXALTED) && (GetReputationRank 609 r =? REP_EXALTED) && (GetReputationRank 59 r =? REP_EXALTED).
Definition AwardTitle (title : Z) (r : ReputationMgr) : ReputationMgr :=
  if title <? 0 then
    let title := i8 (- title) in
    if HasTitle (u8 title) r then emit (ChangeTitle 0) (emit (SqlDeleteTitle (guid E) title) (set_titles (m_playerTitles r ∖ {[u8 title]}) r)) else r
  else if HasTitle title r then r
  else
    let r := set_titles (m_playerTitles r ∪ {[title]}) (emit (TWT_TITLES title) (emit (SqlInsertTitle (guid E) title) r)) in
    if (size (m_playerTitles r) =? 1)%nat then emit (ChangeTitle title) r else emit SendEarnedTitles r.

(** ** Packets *)

Definition ApplyForceReaction (faction_id : Z) (rank : ReputationRank) (apply : bool) (r : ReputationMgr) : ReputationMgr :=
  mkMgr (m_factions r)
    (if apply then <[faction_id := rank]> (m_forcedReactions r) else delete faction_id (m_forcedReactions r)) (m_playerTitles r) (mgr_out r).
Definition SendForceReactions (r : ReputationMgr) : ReputationMgr :=
  emit (SMSG_SET_FORCED_REACTIONS (Z.of_nat (size (m_forcedReactions r))) (map_iter (m_forcedReactions r))) r.

(** All states that wait to be sent go along with [id]. *)
Definition SendState (id : Z) (r : ReputationMgr) : ReputationMgr :=
  match m_factions r !! id with
  | None => r
  | Some faction =>
      let others := filter (fun kv => needSend kv.2 && negb (fs_ReputationListID kv.2 =? fs_ReputationListID faction) = true) (map_iter (m_factions r)) in
      let standings := (fs_ReputationListID faction, u32 (Standing faction)) ::
                       ((fun kv => (fs_ReputationListID kv.2, u32 (Standing kv.2))) <$> others) in
      emit (SMSG_SET_FACTION_STANDING (Z.of_nat (length standings)) standings)
        (set_factions (set_needSend false <$> m_factions r) r)
  end.

(** [for (; a != b; ++a)] on uint32, writing an absent field each time. *)
Definition absent (a b : Z) : list (Z * Z) := repeat (0, 0) (Z.to_nat (u32 (b - a))).
Definition initial_step (st : Z * list (Z * Z)) (kv : Z * FactionState) : Z * list (Z * Z) :=
  let '(a, entries) := st in
  (u32 (kv.1 + 1), entries ++ absent a kv.1 ++ [(u8 (Flags kv.2), u32 (Standing kv.2))]).
Definition SendInitialReputations (r : ReputationMgr) : ReputationMgr :=
  let factionCount := 64 in
  let '(a, entries) := fold_left initial_step (map_iter (m_factions r)) (0, []) in
  emit (SMSG_INITIALIZE_FACTIONS factionCount (entries ++ absent a 69)) (set_factions (set_needSend false <$> m_factions r) r).

Definition SendVisible (id : Z) (r : ReputationMgr) : ReputationMgr :=
  match m_factions r !! id with
  | None => r
  | Some faction => if PlayerLoading E then r else emit (SMSG_SET_FACTION_VISIBLE (fs_ReputationListID faction)) r
  end.

(** ** Flags *)

Definition forced_out (s : FactionState) : bool := has (Flags s) (Z.lor FACTION_FLAG_INVISIBLE_FORCED FACTION_FLAG_HIDDEN).

Definition SetVisible_state (id : Z) (r : ReputationMgr) : ReputationMgr :=
  match m_factions r !! id with
  | None => r
  | Some faction =>
      if forced_out faction then r
      else if has (Flags faction) FACTION_FLAG_VISIBLE then r
      else SendVisible id (upd id (with_flags (Z.lor (Flags faction) FACTION_FLAG_VISIBLE)) r)
  end.
Definition SetVisible (f : FactionEntry) (r : ReputationMgr) : ReputationMgr :=
  if negb (CanHaveReputation f) then r
  else match m_factions r !! RepListID f with None => r | Some _ => SetVisible_state (RepListID f) r end.
(** SetVisible of a template, by its faction. *)
Definition SetVisible_template (faction : Z) (r : ReputationMgr) : ReputationMgr :=
  if faction =? 0 then r else match GetFactionEntry faction with Some f => SetVisible f r | None => r end.

Definition SetAtWar_state (id : Z) (atWar : bool) (r : ReputationMgr) : bool * ReputationMgr :=
  match m_factions r !! id with
  | None => (false, r)
  | Some faction =>
      if has (Flags faction) FACTION_FLAG_AT_WAR && atWar then (false, r)
      else if atWar && has (Flags faction) FACTION_FLAG_PEACE_FORCED && (REP_HATED <? ReputationToRank (Standing faction)) then (false, r)
      else (true, upd id (with_flags (if atWar then Z.lor (Flags faction) FACTION_FLAG_AT_WAR else unset (Flags faction) FACTION_FLAG_AT_WAR)) r)
  end.
Definition SetAtWar (id : Z) (on : bool) (r : ReputationMgr) : bool * ReputationMgr :=
  match m_factions r !! id with
  | None => (false, r)
  | Some faction => if forced_out faction then (false, r) else SetAtWar_state id on r
  end.

Definition SetInactive_state (id : Z) (inactive : bool) (r : ReputationMgr) : ReputationMgr :=
  match m_factions r !! id with
  | None => r
  | Some faction =>
      if inactive && (forced_out faction || negb (has (Flags faction) FACTION_FLAG_VISIBLE)) then r
      else if Bool.eqb (has (Flags faction) FACTION_FLAG_INACTIVE) inactive then r
      else upd id (with_flags (if inactive then Z.lor (Flags faction) FACTION_FLAG_INACTIVE else unset (Flags faction) FACTION_FLAG_INACTIVE)) r
  end.
Definition SetInactive (id : Z) (on : bool) (r : ReputationMgr) : ReputationMgr := SetInactive_state id on r.

(** ** Standings *)

Definition clamp (standing : Z) : Z :=
  if Reputation_Cap <? standing then Reputation_Cap else if standing <? Reputation_Bottom then Reputation_Bottom else standing.

(** The flag follows the rank when it falls to hostile or rises to neutral. *)
Definition war_follows (id : Z) (rankOld rankNew : ReputationRank) (r : ReputationMgr) : ReputationMgr :=
  if rankNew =? rankOld then r
  else if (rankNew <? REP_UNFRIENDLY) && (rankNew <? rankOld) && (REP_HOSTILE <? rankOld) then snd (SetAtWar_state id true r)
  else if (REP_UNFRIENDLY <? rankNew) && (rankOld <? rankNew) && (rankOld <? REP_NEUTRAL) then snd (SetAtWar id false r)
  else r.

Definition SetOneFactionReputation (f : FactionEntry) (standing : Z) (incremental noBase : bool) (r : ReputationMgr) : bool * ReputationMgr :=
  let id := RepListID f in
  match m_factions r !! id with
  | None => (false, r)
  | Some faction =>
      let BaseRep := GetBaseReputation f in
      let standing := if incremental then i32 (standing + i32 (Standing faction + BaseRep)) else standing in
      let standing := clamp (OnReputationChange E (fe_ID f) standing) in
      let rankOld := ReputationToRank (i32 (Standing faction + BaseRep)) in
      let rankNew := ReputationToRank standing in
      let r := upd id (with_standing (if noBase then standing else i32 (standing - BaseRep))) r in
      let r := SetVisible_state id r in
      let r := war_follows id rankOld rankNew r in
      (rankOld <? rankNew, emit (ReputationChanged (fe_ID f)) r)
  end.

Definition spill_one (standing : Z) (incremental noBase : bool) (t : RepSpilloverTemplate) (r : ReputationMgr) (i : nat) : ReputationMgr :=
  let other := nth i (rs_faction t) 0 in
  if other =? 0 then r
  else match GetFactionEntry other with
  | None => r
  | Some f =>
      if GetReputationRank other r <=? nth i (rs_faction_rank t) 0 then
        let r := snd (SetOneFactionReputation f (spillover E standing (nth i (rs_faction_rate t) 0)) incremental noBase r) in
        SendState (RepListID f) r
      else r
  end.
Definition SetReputation (f : FactionEntry) (standing : Z) (incremental noSpillover noBase : bool) (r : ReputationMgr) : bool * ReputationMgr :=
  let r := if noSpillover then r
           else match GetRepSpilloverTemplate (fe_ID f) with
           | Some t => fold_left (spill_one standing incremental noBase t) (seq 0 MAX_SPILLOVER_FACTIONS) r
           | None => r
           end in
  let '(res, r) := match m_factions r !! RepListID f with
                   | Some _ =>
                       let '(res, r) := SetOneFactionReputation f standing incremental noBase r in
                       (res, SendState (RepListID f) r)
                   | None => (false, r)
                   end in
  let r := if ((fe_ID f =? 576) || (fe_ID f =? 609) || (fe_ID f =? 59)) && HasEarnedTitle_diplomat r then AwardTitle TITLE_DIPLOMAT r else r in
  (res, r).

Definition SetReputation_plain (f : FactionEntry) (standing : Z) : ReputationMgr -> bool * ReputationMgr := SetReputation f standing false false false.
Definition SetSingleReputation (f : FactionEntry) (standing : Z) (noBase : bool) : ReputationMgr -> bool * ReputationMgr := SetReputation f standing false true noBase.
Definition ModifyReputation (f : FactionEntry) (standing : Z) (noSpillover : bool) : ReputationMgr -> bool * ReputationMgr := SetReputation f standing true noSpillover false.

Definition HandleSetFactionAtWarOpcode (repListID flag : Z) (r : ReputationMgr) : ReputationMgr := snd (SetAtWar repListID (negb (flag =? 0)) r).
Definition HandleSetFactionInactiveOpcode (replistid inactive : Z) (r : ReputationMgr) : ReputationMgr := SetInactive replistid (negb (inactive =? 0)) r.

(** ** The database *)

Definition new_state (f : FactionEntry) : FactionState := mkState (fe_ID f) (RepListID f) (GetDefaultStateFlags f) 0 true true.
Context `{HashIter}.
Definition Initialize (r : ReputationMgr) : ReputationMgr :=
  set_factions (fold_left (fun m kv => if CanHaveReputation kv.2 then <[RepListID kv.2 := new_state kv.2]> m else m)
                  (hash_iter (FactionMap E)) ∅) r.

(** A row of character_reputation: faction, standing as unsigned, flags. *)
Record Row := mkRow { row_faction : Z; row_standing : Z; row_flags : Z }.
Definition load_row (r : ReputationMgr) (row : Row) : ReputationMgr :=
  match GetFactionEntry (row_faction row) with
  | None => r
  | Some f =>
      if negb (CanHaveReputation f) then r
      else
        let id := RepListID f in
        let blank := default (mkState 0 0 0 0 false false) (m_factions r !! id) in
        let faction := mkState (fs_ID blank) (fs_ReputationListID blank) (Flags blank) (i32 (row_standing row)) (needSend blank) (needSave blank) in
        let r := set_factions (<[id := faction]> (m_factions r)) r in
        let r := if has (row_flags row) FACTION_FLAG_VISIBLE then SetVisible_state id r else r in
        let r := if has (row_flags row) FACTION_FLAG_INACTIVE then SetInactive_state id true r else r in
        let visible r := match m_factions r !! id with Some s => has (Flags s) FACTION_FLAG_VISIBLE | None => false end in
        let r := if has (row_flags row) FACTION_FLAG_AT_WAR then snd (SetAtWar_state id true r)
                 else if visible r then snd (SetAtWar_state id false r) else r in
        let hostile := match m_forcedReactions r !! fe_ID f with
                       | Some rank => rank <=? REP_HOSTILE
                       | None => GetRank (Some f) r <=? REP_HOSTILE
                       end in
        let r := if hostile then snd (SetAtWar_state id true r) else r in
        match m_factions r !! id with
        | Some s => if Flags s =? row_flags row then upd id (fun s => set_needSave false (set_needSend false s)) r else r
        | None => r
        end
  end.
Definition LoadFromDB (result : list Row) (r : ReputationMgr) : ReputationMgr := fold_left load_row result (Initialize r).

Definition save_one (r : ReputationMgr) (kv : Z * FactionState) : ReputationMgr :=
  if needSave kv.2 then
    upd kv.1 (set_needSave false)
      (emit (SqlInsertReputation (guid E) (fs_ID kv.2) (Standing kv.2) (Flags kv.2)) (emit (SqlDeleteReputation (guid E) (fs_ID kv.2)) r))
  else r.
Definition SaveToDB (r : ReputationMgr) : ReputationMgr := fold_left save_one (map_iter (m_factions r)) r.
End Manager.

(** * Properties *)

(** ** Ranks and points *)

(** The points where a rank starts are read back as that rank, and a
    standing has the rank [r] exactly from the points of [r] on and below those
    of the next: ranks are a partition of the standings into intervals. *)
Theorem ranks_partition_standings r standing :
  0 <= r < MAX_REPUTATION_RANK -> Reputation_Bottom <= standing <= Reputation_Cap ->
  ReputationToRank (GetRepPointsToRank r) = r /\
  (ReputationToRank standing = r <->
     GetRepPointsToRank r <= standing < if r =? REP_EXALTED then Reputation_Cap + 1 else GetRepPointsToRank (r + 1)).
Proof.
  unfold MAX_REPUTATION_RANK, Reputation_Bottom, Reputation_Cap. intros Hr Hs.
  assert (Hcases : r = 0 \/ r = 1 \/ r = 2 \/ r = 3 \/ r = 4 \/ r = 5 \/ r = 6 \/ r = 7) by lia.
  assert (Hrank : ReputationToRank standing =
    if 42000 <=? standing then 7 else if 21000 <=? standing then 6 else if 9000 <=? standing then 5 else if 3000 <=? standing then 4
    else if 0 <=? standing then 3 else if -3000 <=? standing then 2 else if -6000 <=? standing then 1 else if -42000 <=? standing then 0 else 0) by done.
  rewrite Hrank. clear Hrank. destruct Hcases as [->|[->|[->|[->|[->|[->|[->| ->]]]]]]]; (split; [done|]);
    (match goal with |- context [_ <= standing < ?u] => let v := eval vm_compute in u in change u with v end);
    (match goal with |- context [?l <= standing] => let v := eval vm_compute in l in change l with v end);
    repeat match goal with |- context [?n <=? standing] => destruct (Z.leb_spec n standing) end; lia.
Qed.

Lemma rank_mono x y : x <= y -> ReputationToRank x <= ReputationToRank y.
Proof.
  intros H. change (ReputationToRank x) with (if 42000 <=? x then 7 else if 21000 <=? x then 6 else if 9000 <=? x then 5 else if 3000 <=? x then 4
    else if 0 <=? x then 3 else if -3000 <=? x then 2 else if -6000 <=? x then 1 else if -42000 <=? x then 0 else 0).
  change (ReputationToRank y) with (if 42000 <=? y then 7 else if 21000 <=? y then 6 else if 9000 <=? y then 5 else if 3000 <=? y then 4
    else if 0 <=? y then 3 else if -3000 <=? y then 2 else if -6000 <=? y then 1 else if -42000 <=? y then 0 else 0).
  repeat match goal with |- context [?n <=? ?z] => destruct (Z.leb_spec n z); try lia end.
Qed.
Lemma clamp_range x : Reputation_Bottom <= clamp x <= Reputation_Cap.
Proof. unfold clamp, Reputation_Bottom, Reputation_Cap. destruct (Z.ltb_spec 42999 x); [lia|]. destruct (Z.ltb_spec x (-42000)); lia. Qed.

(** ** What the operations do to one state *)

Definition visible_st (s : FactionState) : FactionState :=
  if forced_out s || has (Flags s) FACTION_FLAG_VISIBLE then s else with_flags (Z.lor (Flags s) FACTION_FLAG_VISIBLE) s.
Definition war_st (atWar : bool) (s : FactionState) : FactionState :=
  if has (Flags s) FACTION_FLAG_AT_WAR && atWar then s
  else if atWar && has (Flags s) FACTION_FLAG_PEACE_FORCED && (REP_HATED <? ReputationToRank (Standing s)) then s
  else with_flags (if atWar then Z.lor (Flags s) FACTION_FLAG_AT_WAR else unset (Flags s) FACTION_FLAG_AT_WAR) s.
Definition listed_war_st (on : bool) (s : FactionState) : FactionState := if forced_out s then s else war_st on s.
Definition inactive_st (inactive : bool) (s : FactionState) : FactionState :=
  if inactive && (forced_out s || negb (has (Flags s) FACTION_FLAG_VISIBLE)) then s
  else if Bool.eqb (has (Flags s) FACTION_FLAG_INACTIVE) inactive then s
  else with_flags (if inactive then Z.lor (Flags s) FACTION_FLAG_INACTIVE else unset (Flags s) FACTION_FLAG_INACTIVE) s.
Definition follows_st (rankOld rankNew : ReputationRank) (s : FactionState) : FactionState :=
  if rankNew =? rankOld then s
  else if (rankNew <? REP_UNFRIENDLY) && (rankNew <? rankOld) && (REP_HOSTILE <? rankOld) then war_st true s
  else if (REP_UNFRIENDLY <? rankNew) && (rankOld <? rankNew) && (rankOld <? REP_NEUTRAL) then listed_war_st false s
  else s.

(** Nothing but packets and calls is added, forced reactions stay. *)
Definition quiet_out (o : Out) : bool := match o with SqlDeleteReputation _ _ | SqlInsertReputation _ _ _ _ => false | _ => true end.
Record does (r r' : ReputationMgr) (m : gmap Z FactionState) : Prop := {
  do_factions : m_factions r' = m;
  do_forced : m_forcedReactions r' = m_forcedReactions r;
  do_out : exists os, mgr_out r' = mgr_out r ++ os /\ Forall (fun o => quiet_out o = true) os
}.
Lemma does_refl r : does r r (m_factions r).
Proof. split; [done|done|]. exists []. by rewrite app_nil_r. Qed.
Lemma does_trans r r' r'' m m' : does r r' m -> does r' r'' m' -> does r r'' m'.
Proof.
  intros [_ F (os & O & Q)] [M F' (os' & O' & Q')]. split; [done|congruence|]. exists (os ++ os'). split; [by rewrite O', O, app_assoc|by apply Forall_app].
Qed.
Lemma does_emit o r : quiet_out o = true -> does r (emit o r) (m_factions r).
Proof. intros Ho. split; [done|done|]. exists [o]. split; [done|by constructor]. Qed.
Lemma does_upd id f r : does r (upd id f r) (alter f id (m_factions r)).
Proof. split; [done|done|]. exists []. by rewrite app_nil_r. Qed.
Lemma alter_same (m : gmap Z FactionState) id f s : m !! id = Some s -> f s = s -> alter f id m = m.
Proof. intros E Hf. apply map_eq. intros k. destruct (decide (k = id)) as [->|]; [by rewrite lookup_alter_eq, E; cbn; rewrite Hf|by rewrite lookup_alter_ne]. Qed.
Lemma alter_none (m : gmap Z FactionState) id f : m !! id = None -> alter f id m = m.
Proof. intros E. apply map_eq. intros k. destruct (decide (k = id)) as [->|]; [by rewrite lookup_alter_eq, E|by rewrite lookup_alter_ne]. Qed.
Lemma alter_value (m : gmap Z FactionState) id f g s : m !! id = Some s -> f s = g s -> alter f id m = alter g id m.
Proof. intros E Hf. apply map_eq. intros k. destruct (decide (k = id)) as [->|]; [by rewrite !lookup_alter_eq, E; cbn; rewrite Hf|by rewrite !lookup_alter_ne]. Qed.
Lemma does_eq r r' m m' : m = m' -> does r r' m -> does r r' m'.
Proof. by intros ->. Qed.
Lemma does_same r m : m = m_factions r -> does r r m.
Proof. intros ->. apply does_refl. Qed.

Section Does.
Context (E : Env).

Lemma does_SendVisible id r : does r (SendVisible E id r) (m_factions r).
Proof. unfold SendVisible. destruct (m_factions r !! id); [|apply does_refl]. destruct (PlayerLoading E); [apply does_refl|by apply does_emit]. Qed.
Lemma does_SetVisible_state id r : does r (SetVisible_state E id r) (alter visible_st id (m_factions r)).
Proof.
  unfold SetVisible_state. destruct (m_factions r !! id) as [s|] eqn:Es; [|apply does_same; by apply alter_none].
  destruct (forced_out s) eqn:F; [apply does_same; apply (alter_same _ _ _ s); [done|]; unfold visible_st; by rewrite F|].
  destruct (has (Flags s) FACTION_FLAG_VISIBLE) eqn:V; [apply does_same; apply (alter_same _ _ _ s); [done|]; unfold visible_st; by rewrite F, V|].
  eapply does_trans; [apply does_upd|]. eapply does_eq; [|apply does_SendVisible]. cbn. eapply alter_value; [exact Es|]. unfold visible_st. by rewrite F, V.
Qed.
Lemma does_SetAtWar_state id b r : does r (SetAtWar_state id b r).2 (alter (war_st b) id (m_factions r)).
Proof.
  unfold SetAtWar_state. destruct (m_factions r !! id) as [s|] eqn:Es; [|apply does_same; by apply alter_none].
  destruct (has (Flags s) FACTION_FLAG_AT_WAR && b) eqn:W; [apply does_same; apply (alter_same _ _ _ s); [done|]; unfold war_st; by rewrite W|].
  destruct (b && has (Flags s) FACTION_FLAG_PEACE_FORCED && (REP_HATED <? ReputationToRank (Standing s))) eqn:P;
    [apply does_same; apply (alter_same _ _ _ s); [done|]; unfold war_st; by rewrite W, P|].
  eapply does_eq; [|apply does_upd]. eapply alter_value; [exact Es|]. unfold war_st. by rewrite W, P.
Qed.
Lemma does_SetAtWar id b r : does r (SetAtWar id b r).2 (alter (listed_war_st b) id (m_factions r)).
Proof.
  unfold SetAtWar. destruct (m_factions r !! id) as [s|] eqn:Es; [|apply does_same; by apply alter_none].
  destruct (forced_out s) eqn:F; [apply does_same; apply (alter_same _ _ _ s); [done|]; unfold listed_war_st; by rewrite F|].
  eapply does_eq; [|apply does_SetAtWar_state]. eapply alter_value; [exact Es|]. unfold listed_war_st. by rewrite F.
Qed.
Lemma does_SetInactive id b r : does r (SetInactive id b r) (alter (inactive_st b) id (m_factions r)).
Proof.
  unfold SetInactive, SetInactive_state. destruct (m_factions r !! id) as [s|] eqn:Es; [|apply does_same; by apply alter_none].
  destruct (b && (forced_out s || negb (has (Flags s) FACTION_FLAG_VISIBLE))) eqn:C; [apply does_same; apply (alter_same _ _ _ s); [done|]; unfold inactive_st; by rewrite C|].
  destruct (Bool.eqb (has (Flags s) FACTION_FLAG_INACTIVE) b) eqn:D; [apply does_same; apply (alter_same _ _ _ s); [done|]; unfold inactive_st; by rewrite C, D|].
  eapply does_eq; [|apply does_upd]. eapply alter_value; [exact Es|]. unfold inactive_st. by rewrite C, D.
Qed.
Lemma does_war_follows id o n r : does r (war_follows id o n r) (alter (follows_st o n) id (m_factions r)).
Proof.
  unfold war_follows. destruct (m_factions r !! id) as [s|] eqn:Es.
  2: { assert (Ha : forall f, alter f id (m_factions r) = m_factions r) by (intros; by apply alter_none). rewrite Ha.
       repeat case_match; [apply does_refl|rewrite <- (Ha (war_st true)); apply does_SetAtWar_state
         |rewrite <- (Ha (listed_war_st false)); apply does_SetAtWar|apply does_refl]. }
  destruct (n =? o) eqn:C1; [apply does_same; apply (alter_same _ _ _ s); [done|]; unfold follows_st; by rewrite C1|].
  destruct ((n <? REP_UNFRIENDLY) && _ && _) eqn:C2; [eapply does_eq; [|apply does_SetAtWar_state]; eapply alter_value; [exact Es|]; unfold follows_st; by rewrite C1, C2|].
  destruct ((REP_UNFRIENDLY <? n) && _ && _) eqn:C3; [eapply does_eq; [|apply does_SetAtWar]; eapply alter_value; [exact Es|]; unfold follows_st; by rewrite C1, C2, C3|].
  apply does_same; apply (alter_same _ _ _ s); [done|]; unfold follows_st; by rewrite C1, C2, C3.
Qed.
End Does.

(** ** Standings and invariants *)

Definition new_standing (E : Env) (f : FactionEntry) (standing : Z) (incremental : bool) (s : FactionState) : Z :=
  clamp (OnReputationChange E (fe_ID f) (if incremental then i32 (standing + i32 (Standing s + GetBaseReputation E f)) else standing)).
Definition one_st (E : Env) (f : FactionEntry) (standing : Z) (incremental noBase : bool) (s : FactionState) : FactionState :=
  let n := new_standing E f standing incremental s in
  follows_st (ReputationToRank (i32 (Standing s + GetBaseReputation E f))) (ReputationToRank n)
    (visible_st (with_standing (if noBase then n else i32 (n - GetBaseReputation E f)) s)).
Lemma does_SetOne E f standing incremental noBase r :
  does r (SetOneFactionReputation E f standing incremental noBase r).2 (alter (one_st E f standing incremental noBase) (RepListID f) (m_factions r)).
Proof.
  unfold SetOneFactionReputation. destruct (m_factions r !! RepListID f) as [s|] eqn:Es; [|apply does_same; by apply alter_none]. cbn [snd].
  pose proof (does_upd (RepListID f) (with_standing (if noBase then new_standing E f standing incremental s else
    i32 (new_standing E f standing incremental s - GetBaseReputation E f))) r) as D1.
  pose proof (does_trans _ _ _ _ _ D1 (does_SetVisible_state E (RepListID f) _)) as D2.
  pose proof (does_trans _ _ _ _ _ D2 (does_war_follows (RepListID f) (ReputationToRank (i32 (Standing s + GetBaseReputation E f)))
    (ReputationToRank (new_standing E f standing incremental s)) _)) as D3.
  pose proof (does_trans _ _ _ _ _ D3 (does_emit (ReputationChanged (fe_ID f)) _ eq_refl)) as D4.
  eapply does_eq; [|exact D4]. rewrite (do_factions _ _ _ D3), (do_factions _ _ _ D2), (do_factions _ _ _ D1), !alter_alter.
  eapply alter_value; [exact Es|]. done.
Qed.
Lemma does_SendState id r :
  does r (SendState id r) (match m_factions r !! id with Some _ => set_needSend false <$> m_factions r | None => m_factions r end).
Proof. unfold SendState. destruct (m_factions r !! id); [|apply does_refl]. split; [done|done|]. eexists. split; [reflexivity|by constructor]. Qed.

Section Invariants.
Context (E : Env) (I : Z -> FactionState -> Prop).

(** What every change of a state keeps. *)
Class Closed : Prop := {
  cl_visible : forall id s, I id s -> I id (visible_st s);
  cl_war : forall id b s, I id s -> I id (war_st b s);
  cl_inactive : forall id b s, I id s -> I id (inactive_st b s);
  cl_sent : forall id s, I id s -> I id (set_needSend false s);
  cl_standing : forall f id s n, FactionMap E !! fe_ID f = Some f -> RepListID f = id -> Reputation_Bottom <= n <= Reputation_Cap ->
    I id s -> I id (with_standing (i32 (n - GetBaseReputation E f)) s)
}.
Context {Cl : Closed}.

Record keeps (r r' : ReputationMgr) : Prop := {
  ke_inv : map_Forall I (m_factions r) -> map_Forall I (m_factions r');
  ke_dom : forall id, is_Some (m_factions r' !! id) <-> is_Some (m_factions r !! id);
  ke_forced : m_forcedReactions r' = m_forcedReactions r;
  ke_out : exists os, mgr_out r' = mgr_out r ++ os /\ Forall (fun o => quiet_out o = true) os
}.
Lemma keeps_refl r : keeps r r.
Proof. split; [done|done|done|]. exists []. by rewrite app_nil_r. Qed.
Lemma keeps_trans r r' r'' : keeps r r' -> keeps r' r'' -> keeps r r''.
Proof.
  intros [A B C (os & D & F)] [A' B' C' (os' & D' & F')]. split; [auto|intros id; by rewrite B'|congruence|].
  exists (os ++ os'). split; [by rewrite D', D, app_assoc|by apply Forall_app].
Qed.
Lemma keeps_alter r r' f id : does r r' (alter f id (m_factions r)) -> (forall s, I id s -> I id (f s)) -> keeps r r'.
Proof.
  intros [M F O] Hf. split; [|intros k; by rewrite M, lookup_alter_is_Some|done|done]. rewrite M. intros Hm k s Hk.
  destruct (decide (k = id)) as [->|Hne]; [|rewrite lookup_alter_ne in Hk by done; by apply Hm].
  rewrite lookup_alter_eq in Hk. apply fmap_Some in Hk as (s0 & E0 & ->). apply Hf. by apply Hm.
Qed.
Lemma keeps_emit o r : quiet_out o = true -> keeps r (emit o r).
Proof. intros Ho. split; [done|done|done|]. exists [o]. split; [done|by constructor]. Qed.
Lemma keeps_sent r r' : does r r' (set_needSend false <$> m_factions r) -> keeps r r'.
Proof.
  intros [M F O]. split; [|intros id; by rewrite M, lookup_fmap, fmap_is_Some|done|done]. rewrite M. intros Hm k s Hk.
  rewrite lookup_fmap in Hk. apply fmap_Some in Hk as (s0 & E0 & ->). apply cl_sent. by apply Hm.
Qed.
Lemma keeps_SendState id r : keeps r (SendState id r).
Proof.
  pose proof (does_SendState id r) as Hd. destruct (m_factions r !! id) eqn:Es; [by apply keeps_sent|].
  unfold SendState. rewrite Es. apply keeps_refl.
Qed.
Lemma keeps_titles t r : keeps r (set_titles t r).
Proof. split; [done|done|done|]. exists []. by rewrite app_nil_r. Qed.
Lemma keeps_AwardTitle t r : keeps r (AwardTitle E t r).
Proof.
  assert (Hk : forall o t r, quiet_out o = true -> keeps r (set_titles t r) -> keeps r (emit o (set_titles t r)))
    by (intros; eapply keeps_trans; [done|by apply keeps_emit]).
  unfold AwardTitle. destruct (t <? 0); destruct (HasTitle _ r); try apply keeps_refl.
  - eapply keeps_trans; [apply keeps_titles|]. eapply keeps_trans; by apply keeps_emit.
  - match goal with |- context [if _ then emit ?o ?x else _] => set (r1 := x) end. assert (K : keeps r r1).
    { eapply keeps_trans; [apply keeps_emit|eapply keeps_trans; [apply keeps_emit|apply keeps_titles]]; done. }
    destruct (_ =? 1)%nat; (eapply keeps_trans; [exact K|by apply keeps_emit]).
Qed.
Lemma closed_listed id b s : I id s -> I id (listed_war_st b s).
Proof. intros Hs. unfold listed_war_st. destruct (forced_out s); [done|by apply cl_war]. Qed.
Lemma closed_follows id o n s : I id s -> I id (follows_st o n s).
Proof. intros Hs. unfold follows_st. repeat case_match; auto using cl_war, closed_listed. Qed.
Lemma keeps_SetOne f standing incremental r :
  FactionMap E !! fe_ID f = Some f -> keeps r (SetOneFactionReputation E f standing incremental false r).2.
Proof.
  intros Hf. eapply keeps_alter; [apply does_SetOne|]. intros s Hs. unfold one_st. apply closed_follows, cl_visible.
  apply cl_standing; [done|done|apply clamp_range|done].
Qed.
Lemma keeps_SetReputation f standing incremental noSpillover r :
  (forall k f, FactionMap E !! k = Some f -> fe_ID f = k) -> FactionMap E !! fe_ID f = Some f ->
  keeps r (SetReputation E f standing incremental noSpillover false r).2.
Proof.
  intros Hkey Hf. unfold SetReputation. set (r1 := if noSpillover then r else _). assert (K1 : keeps r r1).
  { subst r1. destruct noSpillover; [apply keeps_refl|]. destruct (GetRepSpilloverTemplate E (fe_ID f)) as [t|]; [|apply keeps_refl].
    clear -Hkey Cl. generalize (seq 0 MAX_SPILLOVER_FACTIONS). intros js. revert r. induction js as [|i js IH]; intros r; [apply keeps_refl|]. cbn [fold_left].
    eapply keeps_trans; [|apply IH]. unfold spill_one. destruct (_ =? 0); [apply keeps_refl|]. unfold GetFactionEntry.
    destruct (FactionMap E !! nth i (rs_faction t) 0) as [g|] eqn:Eg; [|apply keeps_refl]. destruct (_ <=? _); [|apply keeps_refl].
    eapply keeps_trans; [apply keeps_SetOne; by rewrite (Hkey _ _ Eg)|apply keeps_SendState]. }
  clearbody r1. assert (K2 : keeps r (match m_factions r1 !! RepListID f with
     | Some _ => let '(res, r) := SetOneFactionReputation E f standing incremental false r1 in (res, SendState (RepListID f) r) | None => (false, r1) end).2).
  { eapply keeps_trans; [exact K1|]. destruct (m_factions r1 !! RepListID f); [|apply keeps_refl].
    pose proof (keeps_SetOne f standing incremental r1 Hf) as K. destruct (SetOneFactionReputation E f standing incremental false r1) as [res r2]. cbn [snd] in *.
    eapply keeps_trans; [exact K|apply keeps_SendState]. }
  destruct (match m_factions r1 !! RepListID f with Some _ => _ | None => _ end) as [res r2]. cbn [snd] in *.
  destruct (_ && HasEarnedTitle_diplomat E r2); [|done]. eapply keeps_trans; [exact K2|apply keeps_AwardTitle].
Qed.
End Invariants.

(** ** Factions as the world database has them *)

Class SaneFactions (E : Env) : Prop := {
  sf_key : forall k f, FactionMap E !! k = Some f -> fe_ID f = k;
  sf_place : forall k k' f f', FactionMap E !! k = Some f -> FactionMap E !! k' = Some f' -> CanHaveReputation f = true ->
    reputationListID f = reputationListID f' -> k = k';
  sf_int : forall k f, FactionMap E !! k = Some f -> - 2 ^ 31 <= reputationListID f < 2 ^ 31;
  sf_base : forall k f, FactionMap E !! k = Some f -> Reputation_Bottom <= GetBaseReputation E f <= Reputation_Cap;
  sf_flags : forall k f, FactionMap E !! k = Some f -> is_u 32 (GetDefaultStateFlags E f) /\ has (GetDefaultStateFlags E f) FACTION_FLAG_INACTIVE = false
}.

(** ** Flags as bits *)

Lemma has_bit f n : 0 <= n -> has f (Z.shiftl 1 n) = Z.testbit f n.
Proof. intros Hn. unfold has. rewrite land_one_shift by done. apply negb_involutive. Qed.
Lemma has_visible f : has f FACTION_FLAG_VISIBLE = Z.testbit f 0.
Proof. by apply (has_bit f 0). Qed.
Lemma has_war f : has f FACTION_FLAG_AT_WAR = Z.testbit f 1.
Proof. by apply (has_bit f 1). Qed.
Lemma has_peace f : has f FACTION_FLAG_PEACE_FORCED = Z.testbit f 4.
Proof. by apply (has_bit f 4). Qed.
Lemma has_inactive f : has f FACTION_FLAG_INACTIVE = Z.testbit f 5.
Proof. by apply (has_bit f 5). Qed.
Lemma has_lor f a b : has f (Z.lor a b) = has f a || has f b.
Proof.
  unfold has. rewrite Z.land_lor_distr_r. destruct (Z.eqb_spec (Z.land f a) 0) as [->|Ha]; [done|]. cbn [negb orb].
  destruct (Z.eqb_spec (Z.lor (Z.land f a) (Z.land f b)) 0) as [H0|]; [|done]. by apply Z.lor_eq_0_iff in H0 as [? _].
Qed.
Definition out_bits (f : Z) : bool := Z.testbit f 3 || Z.testbit f 2.
Lemma forced_bits s : forced_out s = out_bits (Flags s).
Proof. unfold forced_out, out_bits. rewrite has_lor. f_equal; [by apply (has_bit _ 3)|by apply (has_bit _ 2)]. Qed.
Lemma lor_bit f n i : 0 <= n -> Z.testbit (Z.lor f (Z.shiftl 1 n)) i = if i =? n then true else Z.testbit f i.
Proof. intros Hn. rewrite Z.lor_spec, testbit_one_shift by done. destruct (Z.eqb_spec i n); [rewrite bool_decide_eq_true_2 by done; apply orb_true_r|rewrite bool_decide_eq_false_2 by done; apply orb_false_r]. Qed.
Lemma cleared_bit f n i : is_u 32 f -> 0 <= n -> 0 <= i -> Z.testbit (unset f (Z.shiftl 1 n)) i = if i =? n then false else Z.testbit f i.
Proof.
  intros Hf Hn Hi. unfold unset, u32, wrapu. rewrite Z.land_spec. destruct (Z.lt_ge_cases i 32).
  - rewrite Z.mod_pow2_bits_low, Z.lnot_spec, testbit_one_shift by lia. destruct (Z.eqb_spec i n); [rewrite bool_decide_eq_true_2 by done; apply andb_false_r|rewrite bool_decide_eq_false_2 by done; apply andb_true_r].
  - rewrite (testbit_small 32 f i Hf) by lia. by destruct (i =? n).
Qed.
Lemma is_u_unset f n : is_u 32 f -> is_u 32 (unset f n).
Proof. intros Hf. apply is_u_land; [done|done|apply u32_range]. Qed.

(** What flags are reachable from the ones a faction starts with. *)
Record flags_ok (d f : Z) : Prop := {
  fl_u : is_u 32 f;
  fl_rest : forall i, 0 <= i -> i <> 0 -> i <> 1 -> i <> 5 -> Z.testbit f i = Z.testbit d i;
  fl_kept : Z.testbit d 0 = true -> Z.testbit f 0 = true;
  fl_shown : Z.testbit f 0 = true -> Z.testbit d 0 = true \/ out_bits d = false;
  fl_inactive : Z.testbit f 5 = true -> Z.testbit f 0 = true /\ out_bits d = false
}.
Lemma flags_ok_out d f : flags_ok d f -> out_bits f = out_bits d.
Proof. intros [_ R _ _ _]. unfold out_bits. by rewrite !R. Qed.
Lemma flags_ok_refl d : is_u 32 d -> Z.testbit d 5 = false -> flags_ok d d.
Proof. intros Hd H5. split; try done; [by left|]. by rewrite H5. Qed.

Lemma flags_visible d f : flags_ok d f -> out_bits f = false -> flags_ok d (Z.lor f FACTION_FLAG_VISIBLE).
Proof.
  intros Hf Ho. rewrite (flags_ok_out d f Hf) in Ho. destruct Hf as [U R K S I]. assert (B := fun i => lor_bit f 0 i (Z.le_refl 0)). change (Z.shiftl 1 0) with FACTION_FLAG_VISIBLE in B.
  split; [by apply is_u_lor| | | |]; rewrite ?B; try done.
  - intros i Hi H0 H1 H5. rewrite B, (proj2 (Z.eqb_neq i 0)) by done. auto.
  - by right.
Qed.
Lemma flags_war d f b : flags_ok d f -> flags_ok d (if b : bool then Z.lor f FACTION_FLAG_AT_WAR else unset f FACTION_FLAG_AT_WAR).
Proof.
  intros [U R K S I]. assert (B : forall i, 0 <= i -> i <> 1 -> Z.testbit (if b then Z.lor f FACTION_FLAG_AT_WAR else unset f FACTION_FLAG_AT_WAR) i = Z.testbit f i).
  { intros i Hi H1. change FACTION_FLAG_AT_WAR with (Z.shiftl 1 1). destruct b; [rewrite lor_bit by done|rewrite cleared_bit by done]; by rewrite (proj2 (Z.eqb_neq i 1)). }
  split; rewrite ?B; try done.
  - destruct b; [by apply is_u_lor|by apply is_u_unset].
  - intros i Hi H0 H1 H5. rewrite B by done. auto.
Qed.
Lemma flags_inactive d f b : flags_ok d f -> (b = true -> out_bits f = false /\ Z.testbit f 0 = true) ->
  flags_ok d (if b : bool then Z.lor f FACTION_FLAG_INACTIVE else unset f FACTION_FLAG_INACTIVE).
Proof.
  intros Hf Hb. rewrite (flags_ok_out d f Hf) in Hb. destruct Hf as [U R K S I].
  assert (B : forall i, 0 <= i -> Z.testbit (if b then Z.lor f FACTION_FLAG_INACTIVE else unset f FACTION_FLAG_INACTIVE) i = if i =? 5 then b else Z.testbit f i).
  { intros i Hi. change FACTION_FLAG_INACTIVE with (Z.shiftl 1 5). destruct b; [rewrite lor_bit by done|rewrite cleared_bit by done]; by destruct (i =? 5). }
  split; rewrite ?B by done; try done.
  - destruct b; [by apply is_u_lor|by apply is_u_unset].
  - intros i Hi H0 H1 H5. rewrite B, (proj2 (Z.eqb_neq i 5)) by done. auto.
  - cbn. intros H5. destruct (Hb H5). done.
Qed.

(** ** The table *)

(** character_reputation of one character: standing and flags by faction, the
    faction being part of the primary key. *)
Definition exec (t : gmap Z (Z * Z)) (o : Out) : gmap Z (Z * Z) :=
  match o with
  | SqlDeleteReputation _ faction => delete faction t
  | SqlInsertReputation _ faction standing flags => if bool_decide (t !! faction = None) then <[faction := (standing, flags)]> t else t
  | _ => t
  end.
Definition table (r : ReputationMgr) : gmap Z (Z * Z) := fold_left exec (mgr_out r) ∅.
Lemma exec_quiet os t : Forall (fun o => quiet_out o = true) os -> fold_left exec os t = t.
Proof. intros Hq. revert t. induction Hq as [|o os Ho _ IH]; intros t; [done|]. cbn. rewrite IH. by destruct o. Qed.
Lemma table_quiet r r' os : mgr_out r' = mgr_out r ++ os -> Forall (fun o => quiet_out o = true) os -> table r' = table r.
Proof. intros Ho Hq. unfold table. rewrite Ho, fold_left_app. by apply exec_quiet. Qed.

Section Reputations.
Context (E : Env) {Sane : SaneFactions E}.

Record state_ok (T : gmap Z (Z * Z)) (id : Z) (s : FactionState) : Prop := {
  st_faction : exists f, FactionMap E !! fs_ID s = Some f /\ CanHaveReputation f = true /\ RepListID f = id /\
    Reputation_Bottom <= GetBaseReputation E f + Standing s <= Reputation_Cap /\ flags_ok (GetDefaultStateFlags E f) (Flags s);
  st_place : fs_ReputationListID s = id;
  st_saved : needSave s = false -> T !! fs_ID s = Some (Standing s, Flags s)
}.

Lemma place_int f k : FactionMap E !! k = Some f -> CanHaveReputation f = true -> RepListID f = reputationListID f.
Proof.
  intros Hf Hc. pose proof (sf_int k f Hf) as Hr. unfold CanHaveReputation in Hc. apply Z.leb_le in Hc. unfold RepListID. apply u32_id.
  unfold is_u. lia.
Qed.
Lemma place_inj f f' k k' : FactionMap E !! k = Some f -> FactionMap E !! k' = Some f' -> CanHaveReputation f = true -> CanHaveReputation f' = true ->
  RepListID f = RepListID f' -> k = k' /\ f = f'.
Proof.
  intros Hf Hf' Hc Hc'. rewrite (place_int f k Hf Hc), (place_int f' k' Hf' Hc'). intros He. pose proof (sf_place k k' f f' Hf Hf' Hc He) as ->.
  by simplify_eq.
Qed.
Lemma not_listed f f' k k' : FactionMap E !! k = Some f -> FactionMap E !! k' = Some f' -> CanHaveReputation f = true -> RepListID f' = RepListID f ->
  CanHaveReputation f' = true.
Proof.
  intros Hf Hf' Hc. rewrite (place_int f k Hf Hc). unfold RepListID, u32, wrapu. intros He. pose proof (sf_int k f Hf). pose proof (sf_int k' f' Hf').
  unfold CanHaveReputation in *. apply Z.leb_le in Hc. apply Z.leb_le. destruct (Z.lt_ge_cases (reputationListID f') 0); [|done].
  rewrite <- (Z.mod_add _ 1), Z.mod_small in He by lia. lia.
Qed.
Lemma i32_small x : - 2 ^ 31 <= x < 2 ^ 31 -> i32 x = x.
Proof. apply i32_id. Qed.

#[export] Instance state_ok_closed T : Closed E (state_ok T).
Proof.
  assert (Hflags : forall id s fl, state_ok T id s -> (forall d, flags_ok d (Flags s) -> flags_ok d fl) -> state_ok T id (with_flags fl s)).
  { intros id s fl [(f & Hf & Hc & Hi & Hb & Hfl) Hp _] Hok. split; [|done|done]. exists f. split_and!; try done; [apply Hb|apply Hb|]. by apply Hok. }
  split.
  - intros id s Hs. unfold visible_st. destruct (forced_out s) eqn:F; [done|]. destruct (has _ _); [done|]. apply Hflags; [done|]. intros d Hd.
    apply flags_visible; [done|]. by rewrite <- forced_bits.
  - intros id b s Hs. unfold war_st. repeat case_match; try done; (apply Hflags; [done|]); intros d Hd; [by apply (flags_war d (Flags s) true)|by apply (flags_war d (Flags s) false)].
  - intros id b s Hs. unfold inactive_st. destruct (b && _) eqn:C; [done|]. destruct (Bool.eqb _ _); [done|]. apply Hflags; [done|]. intros d Hd.
    apply flags_inactive; [done|]. intros ->. cbn [andb] in C. apply orb_false_iff in C as [C1 C2%negb_false_iff].
    rewrite forced_bits in C1. by rewrite has_visible in C2.
  - intros id s [A B C]. by split.
  - intros f id s n Hf Hi Hn [(f0 & Hf0 & Hc0 & Hi0 & Hb & Hfl) Hp _]. split; [|done|done]. exists f0.
    assert (Hcf : CanHaveReputation f = true) by (eapply not_listed; [exact Hf0|exact Hf|done|congruence]).
    destruct (place_inj f f0 _ _ Hf Hf0 Hcf Hc0) as [_ ->]; [congruence|]. pose proof (sf_base _ _ Hf0) as Hbase.
    unfold Reputation_Bottom, Reputation_Cap in *. cbn [Standing with_standing fs_ID Flags]. rewrite i32_small by lia. split_and!; try done; lia.
Qed.

(** ** The invariant *)

Definition table_ok (T : gmap Z (Z * Z)) : Prop := map_Forall (fun k row => exists f, FactionMap E !! k = Some f /\ CanHaveReputation f = true /\
  Reputation_Bottom <= GetBaseReputation E f + row.1 <= Reputation_Cap /\ flags_ok (GetDefaultStateFlags E f) row.2) T.
Record good (r : ReputationMgr) : Prop := {
  gd_states : map_Forall (state_ok (table r)) (m_factions r);
  gd_all : forall k f, FactionMap E !! k = Some f -> CanHaveReputation f = true -> is_Some (m_factions r !! RepListID f);
  gd_table : table_ok (table r)
}.
Lemma good_keeps r r' : keeps (state_ok (table r)) r r' -> good r -> good r'.
Proof.
  intros [K D F (os & O & Q)] [A B C]. pose proof (table_quiet r r' os O Q) as Ht. split; rewrite ?Ht; [auto| |done].
  intros k f Hf Hc. apply D. eauto.
Qed.

(** *** Saving *)

Lemma table_save r k v st fl : table (upd k v (emit (SqlInsertReputation (guid E) (fs_ID st) (Standing st) fl) (emit (SqlDeleteReputation (guid E) (fs_ID st)) r)))
  = <[fs_ID st := (Standing st, fl)]> (table r).
Proof.
  unfold table. cbn. rewrite !fold_left_app. cbn. rewrite bool_decide_eq_true_2 by apply lookup_delete_eq. apply insert_delete_eq.
Qed.
Lemma state_ok_id T id id' s s' : state_ok T id s -> state_ok T id' s' -> fs_ID s = fs_ID s' -> id = id'.
Proof. intros [(f & Hf & _ & Hi & _) _ _] [(f' & Hf' & _ & Hi' & _) _ _] He. rewrite He in Hf. simplify_eq. done. Qed.

Lemma save_step r id s : good r -> m_factions r !! id = Some s -> let r' := save_one E r (id, s) in
  good r' /\ (forall k, k <> id -> m_factions r' !! k = m_factions r !! k) /\
  (exists s', m_factions r' !! id = Some s' /\ fs_ID s' = fs_ID s /\ Standing s' = Standing s /\ Flags s' = Flags s /\ needSave s' = false) /\
  m_forcedReactions r' = m_forcedReactions r.
Proof.
  intros Hg Es. pose proof Hg as [A B C]. unfold save_one. cbn [fst snd]. destruct (needSave s) eqn:N; [|split_and!; try done; by exists s].
  set (r' := upd _ _ _). assert (Hlook : forall k, m_factions r' !! k = if decide (k = id) then Some (set_needSave false s) else m_factions r !! k).
  { intros k. cbn. destruct (decide (k = id)) as [->|]; [by rewrite lookup_alter_eq, Es|by rewrite lookup_alter_ne]. }
  pose proof (table_save r id (set_needSave false) s (Flags s)) as Ht. fold r' in Ht. pose proof (A _ _ Es) as Hs. split_and!.
  - split; rewrite ?Ht.
    + intros k t Hk. rewrite Hlook in Hk. destruct (decide (k = id)) as [->|Hne].
      * injection Hk as <-. destruct Hs as [Hf Hp _]. split; [done|done|]. intros _. cbn. by rewrite lookup_insert_eq.
      * pose proof (A _ _ Hk) as Hok. pose proof Hok as [Hf Hp Hsv]. split; [done|done|]. intros Hns. rewrite lookup_insert_ne; [auto|].
        intros He. apply Hne. by apply (state_ok_id _ _ _ _ _ Hok Hs).
    + intros k f Hf Hc. rewrite Hlook. destruct (decide _); [by eexists|eauto].
    + intros k row Hk. destruct (decide (k = fs_ID s)) as [->|Hne]; [|rewrite lookup_insert_ne in Hk by done; exact (C _ _ Hk)].
      rewrite lookup_insert_eq in Hk. injection Hk as <-. destruct Hs as [(f & Hf & Hc & _ & Hb & Hfl) _ _]. by exists f.
  - intros k Hk. by rewrite Hlook, decide_False.
  - rewrite Hlook, decide_True by done. by eexists.
  - done.
Qed.

Record saved (r r' : ReputationMgr) : Prop := {
  sv_good : good r';
  sv_states : forall id s, m_factions r !! id = Some s ->
    exists s', m_factions r' !! id = Some s' /\ fs_ID s' = fs_ID s /\ Standing s' = Standing s /\ Flags s' = Flags s /\ needSave s' = false;
  sv_dom : forall id, is_Some (m_factions r' !! id) -> is_Some (m_factions r !! id);
  sv_forced : m_forcedReactions r' = m_forcedReactions r
}.
Lemma map_iter_keys {V} (m : gmap Z V) : NoDup (map_iter m).*1.
Proof. rewrite map_iter_perm. apply NoDup_fst_map_to_list. Qed.
Lemma save_fold l : forall r, NoDup l.*1 -> good r -> (forall k s, (k, s) ∈ l -> m_factions r !! k = Some s) ->
  let r' := fold_left (save_one E) l r in
  good r' /\ (forall k, k ∉ l.*1 -> m_factions r' !! k = m_factions r !! k) /\
  (forall k s, (k, s) ∈ l -> exists s', m_factions r' !! k = Some s' /\ fs_ID s' = fs_ID s /\ Standing s' = Standing s /\ Flags s' = Flags s /\ needSave s' = false) /\
  m_forcedReactions r' = m_forcedReactions r.
Proof.
  induction l as [|[k s] l IH]; intros r Hnd Hg Hl; cbn [fold_left]; [split_and!; try done; by intros k s ?%not_elem_of_nil|].
  rewrite fmap_cons in Hnd. apply NoDup_cons in Hnd as [Hnin Hnd]. cbn [fst] in Hnin.
  destruct (save_step r k s Hg (Hl k s ltac:(by left))) as (G1 & O1 & S1 & F1).
  destruct (IH (save_one E r (k, s)) Hnd G1) as (G2 & O2 & S2 & F2).
  { intros k' s' Hin. rewrite O1; [apply Hl; by right|]. intros ->. apply Hnin. by apply (list_elem_of_fmap_2 fst) in Hin. }
  split_and!; [done| | |congruence].
  - intros k' Hk'. rewrite fmap_cons, not_elem_of_cons in Hk'. cbn in Hk'. rewrite O2, O1 by naive_solver. done.
  - intros k' s' [[= -> ->]|Hin]%elem_of_cons; [|by apply S2]. rewrite O2 by done. done.
Qed.
Lemma SaveToDB_saved r : good r -> saved r (SaveToDB E r).
Proof.
  intros Hg. destruct (save_fold (map_iter (m_factions r)) r) as (G & O & S & F); [apply map_iter_keys|done|intros k s; by rewrite elem_of_map_iter|].
  split; [done| | |done].
  - intros id s Es. apply S. by apply elem_of_map_iter.
  - intros id. destruct (m_factions r !! id) as [s|] eqn:Es; [by eexists|]. unfold SaveToDB. rewrite O; [by rewrite Es|].
    intros ([k s] & -> & Hin%elem_of_map_iter)%list_elem_of_fmap. cbn in Es. congruence.
Qed.

(** *** Loading *)

Definition load_st (f : FactionEntry) (row : Row) (s : FactionState) : FactionState :=
  let s := mkState (fs_ID s) (fs_ReputationListID s) (Flags s) (i32 (row_standing row)) (needSend s) (needSave s) in
  let s := if has (row_flags row) FACTION_FLAG_VISIBLE then visible_st s else s in
  let s := if has (row_flags row) FACTION_FLAG_INACTIVE then inactive_st true s else s in
  let s := if has (row_flags row) FACTION_FLAG_AT_WAR then war_st true s
           else if has (Flags s) FACTION_FLAG_VISIBLE then war_st false s else s in
  let s := if ReputationToRank (i32 (GetBaseReputation E f + Standing s)) <=? REP_HOSTILE then war_st true s else s in
  if Flags s =? row_flags row then set_needSave false (set_needSend false s) else s.

Lemma does_look r r' f id s : does r r' (alter f id (m_factions r)) -> m_factions r !! id = Some s ->
  m_factions r' !! id = Some (f s) /\ (forall k, k <> id -> m_factions r' !! k = m_factions r !! k).
Proof. intros [M _ _] Es. rewrite M. split; [by rewrite lookup_alter_eq, Es|]. intros k Hk. by rewrite lookup_alter_ne. Qed.

(** A step that may happen at [id]. *)
Definition goes (r r' : ReputationMgr) (id : Z) (s s' : FactionState) : Prop :=
  m_factions r' !! id = Some s' /\ (forall k, k <> id -> m_factions r' !! k = m_factions r !! k) /\ m_forcedReactions r' = m_forcedReactions r /\
  exists os, mgr_out r' = mgr_out r ++ os /\ Forall (fun o => quiet_out o = true) os.
Lemma goes_does r r' f id s : does r r' (alter f id (m_factions r)) -> m_factions r !! id = Some s -> goes r r' id s (f s).
Proof. intros Hd Es. destruct (does_look r r' f id s Hd Es). destruct Hd. by split_and!. Qed.
Lemma goes_trans r r' r'' id s s' s'' : goes r r' id s s' -> goes r' r'' id s' s'' -> goes r r'' id s s''.
Proof.
  intros (A & B & C & os & D & F) (A' & B' & C' & os' & D' & F'). split_and!; [done|intros k Hk; by rewrite B', B|congruence|].
  exists (os ++ os'). split; [by rewrite D', D, app_assoc|by apply Forall_app].
Qed.
Lemma goes_refl r id s : m_factions r !! id = Some s -> goes r r id s s.
Proof. intros Es. split_and!; try done. exists []. by rewrite app_nil_r. Qed.
Lemma goes_if (b : bool) r r1 id s s1 : m_factions r !! id = Some s -> (b = true -> goes r r1 id s s1) -> goes r (if b then r1 else r) id s (if b then s1 else s).
Proof. intros Es Hb. destruct b; [auto|by apply goes_refl]. Qed.

Lemma load_row_goes r f row s :
  FactionMap E !! row_faction row = Some f -> CanHaveReputation f = true -> m_factions r !! RepListID f = Some s -> m_forcedReactions r = ∅ ->
  goes r (load_row E r row) (RepListID f) s (load_st f row s).
Proof.
  intros Hf Hc Es Hfr. unfold load_row, GetFactionEntry. rewrite Hf, Hc, Es. cbn [negb default]. set (id := RepListID f) in *.
  set (s1 := mkState _ _ _ _ _ _). set (r1 := set_factions _ r).
  assert (G1 : goes r r1 id s s1).
  { subst r1. split_and!; [cbn; by rewrite lookup_insert_eq|intros k Hk; cbn; by rewrite lookup_insert_ne|done|]. exists []. by rewrite app_nil_r. }
  set (r2 := if has (row_flags row) FACTION_FLAG_VISIBLE then SetVisible_state E id r1 else r1).
  set (s2 := if has (row_flags row) FACTION_FLAG_VISIBLE then visible_st s1 else s1).
  assert (G2 : goes r1 r2 id s1 s2) by (apply goes_if; [apply G1|intros _; apply goes_does; [apply does_SetVisible_state|apply G1]]).
  set (r3 := if has (row_flags row) FACTION_FLAG_INACTIVE then SetInactive_state id true r2 else r2).
  set (s3 := if has (row_flags row) FACTION_FLAG_INACTIVE then inactive_st true s2 else s2).
  assert (G3 : goes r2 r3 id s2 s3) by (apply goes_if; [apply G2|intros _; apply goes_does; [apply does_SetInactive|apply G2]]).
  assert (Hvis : (match m_factions r3 !! id with Some s => has (Flags s) FACTION_FLAG_VISIBLE | None => false end) = has (Flags s3) FACTION_FLAG_VISIBLE)
    by (by rewrite (proj1 G3)).
  set (r4 := if has (row_flags row) FACTION_FLAG_AT_WAR then _ else _).
  set (s4 := if has (row_flags row) FACTION_FLAG_AT_WAR then war_st true s3 else if has (Flags s3) FACTION_FLAG_VISIBLE then war_st false s3 else s3).
  assert (G4 : goes r3 r4 id s3 s4).
  { subst r4 s4. destruct (has (row_flags row) FACTION_FLAG_AT_WAR); [apply goes_does; [apply does_SetAtWar_state|apply G3]|]. rewrite Hvis.
    apply goes_if; [apply G3|intros _; apply goes_does; [apply does_SetAtWar_state|apply G3]]. }
  pose proof (goes_trans _ _ _ _ _ _ _ (goes_trans _ _ _ _ _ _ _ (goes_trans _ _ _ _ _ _ _ G1 G2) G3) G4) as G14.
  assert (Hhost : (match m_forcedReactions r4 !! fe_ID f with Some rank => rank <=? REP_HOSTILE | None => GetRank E (Some f) r4 <=? REP_HOSTILE end)
    = (ReputationToRank (i32 (GetBaseReputation E f + Standing s4)) <=? REP_HOSTILE)).
  { destruct G14 as (L & _ & F & _). rewrite F, Hfr, lookup_empty. unfold GetRank, GetReputation, GetState, GetState_id. rewrite Hc. fold id. by rewrite L. }
  rewrite Hhost. set (hostile := _ <=? REP_HOSTILE). set (r5 := if hostile then _ else r4). set (s5 := if hostile then war_st true s4 else s4).
  assert (G5 : goes r4 r5 id s4 s5) by (apply goes_if; [apply G4|intros _; apply goes_does; [apply does_SetAtWar_state|apply G4]]).
  pose proof (goes_trans _ _ _ _ _ _ _ G14 G5) as G15. rewrite (proj1 G5). change (load_st f row s) with (if Flags s5 =? row_flags row then set_needSave false (set_needSend false s5) else s5).
  destruct (Flags s5 =? row_flags row); [|done]. eapply goes_trans; [exact G15|]. apply (goes_does _ _ (fun s => set_needSave false (set_needSend false s))); [apply does_upd|apply G15].
Qed.

Lemma visible_st_keeps s : Standing (visible_st s) = Standing s /\ fs_ID (visible_st s) = fs_ID s /\ (needSave s = true -> needSave (visible_st s) = true).
Proof. unfold visible_st. by case_match. Qed.
Lemma war_st_keeps b s : Standing (war_st b s) = Standing s /\ fs_ID (war_st b s) = fs_ID s /\ (needSave s = true -> needSave (war_st b s) = true).
Proof. unfold war_st. by repeat case_match. Qed.
Lemma inactive_st_keeps b s : Standing (inactive_st b s) = Standing s /\ fs_ID (inactive_st b s) = fs_ID s /\ (needSave s = true -> needSave (inactive_st b s) = true).
Proof. unfold inactive_st. by repeat case_match. Qed.

Definition holds (T : gmap Z (Z * Z)) (id : Z) (st : Z) (who : Z) (s : FactionState) : Prop :=
  state_ok T id s /\ needSave s = true /\ Standing s = st /\ fs_ID s = who.
Lemma holds_visible T id st who s : holds T id st who s -> holds T id st who (visible_st s).
Proof. intros (A & B & C & D). destruct (visible_st_keeps s) as (K1 & K2 & K3). split_and!; [by apply (cl_visible E (state_ok T))|auto|congruence|congruence]. Qed.
Lemma holds_war T id st who s b : holds T id st who s -> holds T id st who (war_st b s).
Proof. intros (A & B & C & D). destruct (war_st_keeps b s) as (K1 & K2 & K3). split_and!; [by apply (cl_war E (state_ok T))|auto|congruence|congruence]. Qed.
Lemma holds_inactive T id st who s b : holds T id st who s -> holds T id st who (inactive_st b s).
Proof. intros (A & B & C & D). destruct (inactive_st_keeps b s) as (K1 & K2 & K3). split_and!; [by apply (cl_inactive E (state_ok T))|auto|congruence|congruence]. Qed.

Definition row_of (kv : Z * (Z * Z)) : Row := mkRow kv.1 (u32 kv.2.1) kv.2.2.
Lemma i32_u32 x : - 2 ^ 31 <= x < 2 ^ 31 -> i32 (u32 x) = x.
Proof.
  intros Hx. unfold i32, u32, wrapu. rewrite Zplus_mod_idemp_l. rewrite Z.mod_small; lia.
Qed.

(** A row of the table, loaded into a state nobody changed. *)
Lemma load_st_ok T f row s st fl :
  table_ok T -> state_ok T (RepListID f) s -> needSave s = true -> FactionMap E !! fs_ID s = Some f -> CanHaveReputation f = true ->
  T !! fs_ID s = Some (st, fl) -> row_standing row = u32 st -> row_flags row = fl ->
  state_ok T (RepListID f) (load_st f row s) /\ Standing (load_st f row s) = st /\ fs_ID (load_st f row s) = fs_ID s.
Proof.
  intros HT Hs Hn Hf Hc Hrow Hst Hfl. destruct (HT _ _ Hrow) as (f0 & Hf0 & _ & Hb & _). assert (f0 = f) as -> by congruence.
  pose proof (sf_base _ _ Hf) as Hbase. unfold Reputation_Bottom, Reputation_Cap in *. cbn [fst] in Hb.
  set (who := fs_ID s) in *. set (id := RepListID f) in *.
  set (s1 := mkState (fs_ID s) (fs_ReputationListID s) (Flags s) (i32 (row_standing row)) (needSend s) (needSave s)).
  assert (Hi : i32 (row_standing row) = st) by (rewrite Hst; apply i32_u32; lia).
  assert (H1 : holds T id st who s1).
  { destruct Hs as [(g & Hg & Hcg & Hig & _ & Hflags) Hp _]. split_and!; [|done|done|done]. split; [|done|cbn; congruence].
    fold who in Hg. assert (g = f) as -> by congruence. exists f. cbn [Standing Flags fs_ID s1]. split_and!; try done; unfold Reputation_Bottom, Reputation_Cap; lia. }
  unfold load_st. fold s1. set (s2 := if has (row_flags row) FACTION_FLAG_VISIBLE then _ else s1).
  assert (H2 : holds T id st who s2) by (subst s2; destruct (has _ _); [by apply holds_visible|done]). clearbody s2.
  set (s3 := if has (row_flags row) FACTION_FLAG_INACTIVE then _ else s2).
  assert (H3 : holds T id st who s3) by (subst s3; destruct (has _ _); [by apply holds_inactive|done]). clearbody s3.
  set (s4 := if has (row_flags row) FACTION_FLAG_AT_WAR then _ else _).
  assert (H4 : holds T id st who s4) by (subst s4; destruct (has (row_flags row) _); [by apply holds_war|destruct (has (Flags s3) _); [by apply holds_war|done]]). clearbody s4.
  set (s5 := if _ <=? REP_HOSTILE then _ else s4).
  assert (H5 : holds T id st who s5) by (subst s5; destruct (_ <=? REP_HOSTILE); [by apply holds_war|done]). clearbody s5.
  destruct H5 as (A & B & C & D). destruct (Z.eqb_spec (Flags s5) (row_flags row)) as [He|]; [|done]. split; [|done].
  destruct A as [A1 A2 _]. split; [done|done|]. intros _. cbn. rewrite D, He, C, Hfl. done.
Qed.

Context `{HI : !HashIter}.

Lemma init_fold l : NoDup l.*1 -> (forall k f, (k, f) ∈ l -> FactionMap E !! k = Some f) -> forall m : gmap Z FactionState,
  let m' := fold_left (fun m (kv : Z * FactionEntry) => if CanHaveReputation kv.2 then <[RepListID kv.2 := new_state E kv.2]> m else m) l m in
  (forall k f, (k, f) ∈ l -> CanHaveReputation f = true -> m' !! RepListID f = Some (new_state E f)) /\
  (forall id s, m' !! id = Some s -> m !! id = Some s \/ exists k f, (k, f) ∈ l /\ CanHaveReputation f = true /\ RepListID f = id /\ s = new_state E f) /\
  (forall id, is_Some (m !! id) -> is_Some (m' !! id)).
Proof.
  induction l as [|[k f] l IH]; intros Hnd Hl m; cbn [fold_left]; [split_and!; [by intros k f ?%not_elem_of_nil|auto|auto]|].
  rewrite fmap_cons in Hnd. apply NoDup_cons in Hnd as [Hnin Hnd]. cbn [fst snd] in *.
  set (m1 := if CanHaveReputation f then _ else m). destruct (IH Hnd ltac:(intros; apply Hl; by right) m1) as (A & B & C). split_and!.
  - intros k' f' [[= -> ->]|Hin]%elem_of_cons Hc; [|by eapply A]. subst m1. rewrite Hc in *.
    match goal with |- ?x = _ => destruct x as [s|] eqn:Es end.
    + destruct (B _ _ Es) as [Hm|(k1 & f1 & Hin & Hc1 & Hid & ->)]; [by rewrite lookup_insert_eq in Hm|].
      destruct (place_inj f1 f k1 k) as [<- _]; [apply Hl; by right|apply Hl; by left|done|done|done|].
      destruct Hnin. by apply (list_elem_of_fmap_2 fst) in Hin.
    + destruct (C (RepListID f)) as [s Hs]; [rewrite lookup_insert_eq; by eexists|]. congruence.
  - intros id s Es. destruct (B _ _ Es) as [Hm|(k1 & f1 & Hin & Hr)]; [|right; exists k1, f1; split; [by right|done]].
    subst m1. destruct (CanHaveReputation f) eqn:Hc; [|by left]. destruct (decide (id = RepListID f)) as [->|Hne];
      [|left; by rewrite lookup_insert_ne in Hm]. rewrite lookup_insert_eq in Hm. injection Hm as <-. right. exists k, f. split; [by left|done].
  - intros id Hm. apply C. subst m1. destruct (CanHaveReputation f); [|done]. destruct (decide (id = RepListID f)) as [->|Hne];
      [rewrite lookup_insert_eq; by eexists|by rewrite lookup_insert_ne].
Qed.

Lemma Initialize_look r : (forall k f, FactionMap E !! k = Some f -> CanHaveReputation f = true -> m_factions (Initialize E r) !! RepListID f = Some (new_state E f)) /\
  (forall id s, m_factions (Initialize E r) !! id = Some s ->
     exists k f, FactionMap E !! k = Some f /\ CanHaveReputation f = true /\ RepListID f = id /\ s = new_state E f).
Proof.
  destruct (init_fold (hash_iter (FactionMap E)) (hash_iter_NoDup _) (fun k f => proj1 (elem_of_hash_iter _ _ _)) ∅) as (A & B & _). split.
  - intros k f Hf. apply (A k f). by apply elem_of_hash_iter.
  - intros id s Hs. destruct (B id s Hs) as [Hm|(k & f & Hin%elem_of_hash_iter & Hr)]; [by rewrite lookup_empty in Hm|]. by exists k, f.
Qed.
Lemma new_state_ok T k f : FactionMap E !! k = Some f -> CanHaveReputation f = true -> state_ok T (RepListID f) (new_state E f).
Proof.
  intros Hf Hc. pose proof (sf_key k f Hf) as Hk. split; [|done|done]. exists f. cbn. rewrite Hk. destruct (sf_flags k f Hf) as [Hu H5].
  pose proof (sf_base k f Hf). rewrite has_inactive in H5. split_and!; try done; [lia|lia|by apply flags_ok_refl].
Qed.
Lemma table_same r r' : mgr_out r' = mgr_out r -> table r' = table r.
Proof. intros Ho. unfold table. by rewrite Ho. Qed.
Lemma Initialize_good r : table_ok (table r) -> good (Initialize E r).
Proof.
  intros HT. destruct (Initialize_look r) as [A B]. split.
  - intros id s Hs. destruct (B id s Hs) as (k & f & Hf & Hc & <- & ->). by eapply new_state_ok.
  - intros k f Hf Hc. rewrite (A k f Hf Hc). by eexists.
  - exact HT.
Qed.

(** Rows of the table, each of another faction. *)
Lemma load_fold T rows : forall r, NoDup (row_faction <$> rows) -> good r -> table r = T -> m_forcedReactions r = ∅ ->
  (forall row, row ∈ rows -> exists f st, FactionMap E !! row_faction row = Some f /\ CanHaveReputation f = true /\
     T !! row_faction row = Some (st, row_flags row) /\ row_standing row = u32 st /\ m_factions r !! RepListID f = Some (new_state E f)) ->
  let r' := fold_left (load_row E) rows r in
  good r' /\ table r' = T /\
  (forall row f, row ∈ rows -> FactionMap E !! row_faction row = Some f -> m_factions r' !! RepListID f = Some (load_st f row (new_state E f))) /\
  (forall id, (forall row f, row ∈ rows -> FactionMap E !! row_faction row = Some f -> RepListID f <> id) -> m_factions r' !! id = m_factions r !! id).
Proof.
  induction rows as [|row rows IH]; intros r Hnd Hg HT Hfr Hrows; cbn [fold_left]; [split_and!; try done; by intros row f ?%not_elem_of_nil|].
  rewrite fmap_cons in Hnd. apply NoDup_cons in Hnd as [Hnin Hnd].
  destruct (Hrows row ltac:(by left)) as (f & st & Hf & Hc & Hrow & Hst & Es).
  destruct (load_row_goes r f row _ Hf Hc Es Hfr) as (L & O & F & os & Ho & Hq). set (r1 := load_row E r row) in *.
  assert (Ht1 : table r1 = T) by (by rewrite (table_quiet r r1 os Ho Hq)). pose proof Hg as [G1 G2 G3].
  pose proof (sf_key _ _ Hf) as Hid. destruct (load_st_ok T f row (new_state E f) st (row_flags row)) as (Hok & _ & _);
    [by rewrite <- HT|by eapply new_state_ok|done|cbn; by rewrite Hid|done|cbn; by rewrite Hid|done|done|].
  assert (Hg1 : good r1).
  { split; rewrite ?Ht1.
    - intros id s Hs. destruct (decide (id = RepListID f)) as [->|Hne]; [rewrite L in Hs; by injection Hs as <-|]. rewrite O in Hs by done. rewrite <- HT. by apply G1.
    - intros k g Hgk Hcg. destruct (decide (RepListID g = RepListID f)) as [->|Hne]; [rewrite L; by eexists|]. rewrite O by done. eauto.
    - by rewrite <- HT. }
  assert (Hother : forall row' f', row' ∈ rows -> FactionMap E !! row_faction row' = Some f' -> CanHaveReputation f' = true -> RepListID f' <> RepListID f).
  { intros row' f' Hin Hf' Hc' He. destruct (place_inj f' f _ _ Hf' Hf Hc' Hc He) as [Hk _]. apply Hnin. rewrite <- Hk. by apply list_elem_of_fmap_2. }
  destruct (IH r1 Hnd Hg1 Ht1 ltac:(congruence)) as (A & B & C & D).
  { intros row' Hin. destruct (Hrows row' ltac:(by right)) as (f' & st' & Hf' & Hc' & Hrow' & Hst' & Es'). exists f', st'. split_and!; try done.
    rewrite O; [done|]. by eapply Hother. }
  split_and!; [done|done| |].
  - intros row' f' [->|Hin]%elem_of_cons Hf'; [|by apply C]. assert (f' = f) as -> by congruence. rewrite D, L; [done|].
    intros row' f' Hin Hf2. destruct (Hrows row' ltac:(by right)) as (f2 & _ & Hf2' & Hc2 & _). assert (f2 = f') as -> by congruence. by eapply Hother.
  - intros id Hid'. rewrite D; [apply O; intros ->; by apply (Hid' row f ltac:(by left))|]. intros row' f' Hin. apply Hid'. by right.
Qed.

(** What a query for the rows of a character gives, in any order. *)
Definition rows_of (T : gmap Z (Z * Z)) (rows : list Row) : Prop := rows ≡ₚ row_of <$> map_to_list T.
(** A new object of the character, with what was written so far. *)
Definition relogged (r : ReputationMgr) : ReputationMgr := mkMgr ∅ ∅ (m_playerTitles r) (mgr_out r).
Lemma LoadFromDB_loads r rows :
  table_ok (table r) -> rows_of (table r) rows ->
  let r' := LoadFromDB E rows (relogged r) in
  good r' /\ table r' = table r /\
  (forall k f st fl, FactionMap E !! k = Some f -> table r !! k = Some (st, fl) ->
     m_factions r' !! RepListID f = Some (load_st f (mkRow k (u32 st) fl) (new_state E f))).
Proof.
  intros HT Hrows. destruct (Initialize_look (relogged r)) as [A B]. unfold LoadFromDB.
  assert (Hin : forall row, row ∈ rows <-> exists k st fl, table r !! k = Some (st, fl) /\ row = mkRow k (u32 st) fl).
  { intros row. rewrite Hrows, list_elem_of_fmap. split.
    - intros ([k [st fl]] & -> & Hk%elem_of_map_to_list). by exists k, st, fl.
    - intros (k & st & fl & Hk & ->). exists (k, (st, fl)). split; [done|]. by apply elem_of_map_to_list. }
  destruct (load_fold (table r) rows (Initialize E (relogged r))) as (G & H1 & H2 & _).
  - rewrite Hrows, <- list_fmap_compose. apply (NoDup_fst_map_to_list (table r)).
  - by apply Initialize_good.
  - done.
  - done.
  - intros row (k & st & fl & Hk & ->)%Hin. destruct (HT _ _ Hk) as (f & Hf & Hc & _). exists f, st. cbn. split_and!; try done. by eapply A.
  - split_and!; [done|done|]. intros k f st fl Hf Hk. apply (H2 (mkRow k (u32 st) fl) f); [|done]. apply Hin. by exists k, st, fl.
Qed.

(** ** Runs *)

Inductive step : ReputationMgr -> ReputationMgr -> Prop :=
| step_standing f n incremental noSpillover r : FactionMap E !! fe_ID f = Some f -> step r (SetReputation E f n incremental noSpillover false r).2
| step_visible f r : step r (SetVisible E f r)
| step_war id flag r : step r (HandleSetFactionAtWarOpcode id flag r)
| step_inactive id flag r : step r (HandleSetFactionInactiveOpcode id flag r)
| step_force id rank apply r : step r (ApplyForceReaction id rank apply r)
| step_forced r : step r (SendForceReactions r)
| step_initial r : step r (SendInitialReputations r)
| step_titles titles r : step r (set_titles titles r)
| step_save r : step r (SaveToDB E r)
| step_relog rows r : rows_of (table r) rows -> step r (LoadFromDB E rows (relogged r)).
Inductive reachable : ReputationMgr -> Prop :=
| reach_new titles : reachable (LoadFromDB E [] (mkMgr ∅ ∅ titles []))
| reach_step r r' : reachable r -> step r r' -> reachable r'.

Lemma good_state_step r r' : step r r' -> good r -> good r'.
Proof.
  intros Hst Hg. destruct Hst.
  - refine (good_keeps _ _ (keeps_SetReputation E (state_ok (table r)) f n incremental noSpillover r _ _) Hg); [intros k g; apply sf_key|done].
  - eapply good_keeps; [|done]. unfold SetVisible. destruct (negb _); [apply keeps_refl|]. destruct (m_factions r !! _); [|apply keeps_refl].
    eapply keeps_alter; [apply does_SetVisible_state|]. intros s. apply (cl_visible E (state_ok (table r))).
  - eapply good_keeps; [|done]. eapply keeps_alter; [apply does_SetAtWar|]. intros s. apply (closed_listed E (state_ok (table r))).
  - eapply good_keeps; [|done]. eapply keeps_alter; [apply does_SetInactive|]. intros s. apply (cl_inactive E (state_ok (table r))).
  - destruct Hg as [A B C]. by split.
  - eapply good_keeps; [by apply keeps_emit|done].
  - eapply good_keeps; [|done]. apply (keeps_sent E (state_ok (table r))). unfold SendInitialReputations. destruct (fold_left _ _ _) as [a entries].
    split; [done|done|]. eexists. split; [reflexivity|by constructor].
  - eapply good_keeps; [apply keeps_titles|done].
  - by destruct (SaveToDB_saved r Hg).
  - destruct Hg as [A B C]. by destruct (LoadFromDB_loads r rows C).
Qed.
Lemma reachable_is_good r : reachable r -> good r.
Proof.
  induction 1 as [|r r' _ IH Hst]; [|by eapply good_state_step]. by apply Initialize_good.
Qed.

(** ** What a relog makes of the flags *)

Lemma bit_visible s i : Z.testbit (Flags (visible_st s)) i = if (i =? 0) && negb (out_bits (Flags s)) then true else Z.testbit (Flags s) i.
Proof.
  unfold visible_st. rewrite forced_bits, has_visible. destruct (out_bits (Flags s)) eqn:Ho; cbn [orb negb]; [by rewrite andb_false_r|]. rewrite andb_true_r.
  destruct (Z.testbit (Flags s) 0) eqn:V; [by destruct (Z.eqb_spec i 0) as [->|]|]. cbn [Flags with_flags].
  change FACTION_FLAG_VISIBLE with (Z.shiftl 1 0). by rewrite lor_bit.
Qed.
Lemma bit_war s i : Z.testbit (Flags (war_st true s)) i =
  if (i =? 1) && negb (Z.testbit (Flags s) 4 && (REP_HATED <? ReputationToRank (Standing s))) then true else Z.testbit (Flags s) i.
Proof.
  unfold war_st. rewrite has_war, has_peace, andb_true_r. destruct (Z.testbit (Flags s) 1) eqn:W; [destruct (Z.eqb_spec i 1) as [->|]; [by rewrite W; case_match|done]|].
  cbn [andb]. destruct (Z.testbit (Flags s) 4 && _) eqn:P; [by rewrite andb_false_r|]. rewrite andb_true_r. cbn [Flags with_flags].
  change FACTION_FLAG_AT_WAR with (Z.shiftl 1 1). by rewrite lor_bit.
Qed.
Lemma bit_peace s i : is_u 32 (Flags s) -> 0 <= i -> Z.testbit (Flags (war_st false s)) i = if i =? 1 then false else Z.testbit (Flags s) i.
Proof. intros Hu Hi. unfold war_st. rewrite andb_false_r. cbn [andb Flags with_flags]. change FACTION_FLAG_AT_WAR with (Z.shiftl 1 1). by rewrite cleared_bit. Qed.
Lemma bit_inactive s i : Z.testbit (Flags (inactive_st true s)) i =
  if (i =? 5) && negb (out_bits (Flags s)) && Z.testbit (Flags s) 0 then true else Z.testbit (Flags s) i.
Proof.
  unfold inactive_st. rewrite forced_bits, has_visible, has_inactive. cbn [andb].
  destruct (out_bits (Flags s)); cbn [negb orb]; [by rewrite andb_false_r|]. rewrite andb_true_r.
  destruct (Z.testbit (Flags s) 0); cbn [negb]; [|by rewrite andb_false_r]. rewrite andb_true_r.
  destruct (Z.testbit (Flags s) 5) eqn:I5; cbn [Bool.eqb]; [by destruct (Z.eqb_spec i 5) as [->|]|]. cbn [Flags with_flags].
  change FACTION_FLAG_INACTIVE with (Z.shiftl 1 5). by rewrite lor_bit.
Qed.
Lemma u32_ops s b : is_u 32 (Flags s) -> is_u 32 (Flags (visible_st s)) /\ is_u 32 (Flags (inactive_st true s)) /\ is_u 32 (Flags (war_st b s)).
Proof.
  intros Hu. unfold visible_st, inactive_st, war_st. split_and!.
  - by destruct (_ || _); [|apply is_u_lor].
  - by destruct (true && _); [|destruct (Bool.eqb _ _); [|apply is_u_lor]].
  - destruct (has _ _ && b); [done|]. destruct (b && _ && _); [done|]. by destruct b; [apply is_u_lor|apply is_u_unset].
Qed.
Lemma bits_eq d f x : flags_ok d f -> (forall i, 0 <= i -> i <> 0 -> i <> 5 -> Z.testbit x i = Z.testbit d i) ->
  Z.testbit x 0 = Z.testbit f 0 -> Z.testbit x 5 = Z.testbit f 5 -> forall i, 0 <= i -> i <> 1 -> Z.testbit x i = Z.testbit f i.
Proof.
  intros [_ R _ _ _] Hx H0 H5 i Hi H1. destruct (Z.eq_dec i 0) as [->|N0]; [done|]. destruct (Z.eq_dec i 5) as [->|N5]; [done|].
  by rewrite Hx, R.
Qed.

(** Up to the flag of war, the flags of a row come back; that one does, too,
    for a visible faction that is not hostile and where war is allowed. *)
Lemma load_flags k f st fl s :
  FactionMap E !! k = Some f -> flags_ok (GetDefaultStateFlags E f) fl -> Reputation_Bottom <= GetBaseReputation E f + st <= Reputation_Cap ->
  load_st f (mkRow k (u32 st) fl) (new_state E f) = s ->
  (forall i, 0 <= i -> i <> 1 -> Z.testbit (Flags s) i = Z.testbit fl i) /\
  (Z.testbit fl 0 = true -> Z.testbit fl 4 = false -> REP_HOSTILE < ReputationToRank (GetBaseReputation E f + st) -> Flags s = fl /\ needSave s = false) /\
  (Z.testbit fl 4 = false -> ReputationToRank (GetBaseReputation E f + st) <= REP_HOSTILE -> Z.testbit (Flags s) 1 = true).
Proof.
  intros Hf Hok Hb Hs. pose proof (sf_base k f Hf) as Hbase. destruct (sf_flags k f Hf) as [Hdu Hd5]. rewrite has_inactive in Hd5.
  unfold Reputation_Bottom, Reputation_Cap in *. unfold load_st in Hs. cbn [row_standing row_flags] in Hs. rewrite i32_u32 in Hs by lia.
  set (d := GetDefaultStateFlags E f) in *. pose proof Hok as [Hu Hrest Hkept Hshown Hina].
  set (s1 := mkState _ _ _ st _ _) in Hs. set (s2 := if has fl FACTION_FLAG_VISIBLE then visible_st s1 else s1) in Hs.
  assert (U1 : is_u 32 (Flags s1)) by exact Hdu.
  assert (B2 : (forall i, i <> 0 -> Z.testbit (Flags s2) i = Z.testbit d i) /\ Z.testbit (Flags s2) 0 = Z.testbit fl 0 /\ Standing s2 = st /\ is_u 32 (Flags s2)).
  { subst s2. rewrite has_visible. destruct (Z.testbit fl 0) eqn:V.
    - split_and!; [| |apply visible_st_keeps|by apply (u32_ops s1 true)].
      + intros i Hi. by rewrite bit_visible, (proj2 (Z.eqb_neq i 0)).
      + rewrite bit_visible. change (Flags s1) with d. destruct (Hshown eq_refl) as [Hd| ->]; [rewrite Hd; by destruct (_ && _)|done].
    - split_and!; [done| |done|done]. change (Flags s1) with d. destruct (Z.testbit d 0) eqn:D; [|done]. by specialize (Hkept eq_refl). }
  clearbody s2. destruct B2 as (B2 & V2 & S2 & U2). set (s3 := if has fl FACTION_FLAG_INACTIVE then inactive_st true s2 else s2) in Hs.
  assert (B3 : (forall i, 0 <= i -> i <> 0 -> i <> 5 -> Z.testbit (Flags s3) i = Z.testbit d i) /\ Z.testbit (Flags s3) 0 = Z.testbit fl 0 /\
     Z.testbit (Flags s3) 5 = Z.testbit fl 5 /\ Standing s3 = st /\ is_u 32 (Flags s3)).
  { subst s3. rewrite has_inactive. destruct (Z.testbit fl 5) eqn:I5.
    - split_and!; [| | |rewrite (proj1 (inactive_st_keeps true s2)); done|by apply (u32_ops s2 true)].
      + intros i _ Hi H5. rewrite bit_inactive, (proj2 (Z.eqb_neq i 5)) by done. by apply B2.
      + by rewrite bit_inactive.
      + rewrite bit_inactive. destruct (Hina eq_refl) as [Hv Ho]. assert (Ho2 : out_bits (Flags s2) = out_bits d) by (unfold out_bits; by rewrite !B2).
        by rewrite Ho2, Ho, V2, Hv.
    - split_and!; [intros i _ Hi _; by apply B2|done|by rewrite B2, Hd5|done|done]. }
  clearbody s3. destruct B3 as (B3 & V3 & I3 & S3 & U3). pose proof (bits_eq d fl (Flags s3) Hok B3 V3 I3) as A3.
  set (s4 := if has fl FACTION_FLAG_AT_WAR then war_st true s3 else if has (Flags s3) FACTION_FLAG_VISIBLE then war_st false s3 else s3) in Hs.
  assert (B4 : (forall i, 0 <= i -> i <> 1 -> Z.testbit (Flags s4) i = Z.testbit fl i) /\ Standing s4 = st /\ is_u 32 (Flags s4) /\
     (Z.testbit fl 0 = true -> Z.testbit fl 4 = false -> Z.testbit (Flags s4) 1 = Z.testbit fl 1)).
  { subst s4. rewrite has_war, has_visible. destruct (Z.testbit fl 1) eqn:W.
    - split_and!; [|rewrite (proj1 (war_st_keeps true s3)); done|by apply u32_ops|].
      + intros i Hi H1. rewrite bit_war, (proj2 (Z.eqb_neq i 1)) by done. by apply A3.
      + intros _ P. rewrite bit_war, (A3 4) by done. by rewrite P.
    - rewrite V3. destruct (Z.testbit fl 0) eqn:V.
      + split_and!; [|rewrite (proj1 (war_st_keeps false s3)); done|by apply u32_ops|].
        * intros i Hi H1. rewrite bit_peace, (proj2 (Z.eqb_neq i 1)) by done. by apply A3.
        * intros _ _. by rewrite bit_peace.
      + split_and!; [done|done|done|done]. }
  clearbody s4. destruct B4 as (B4 & S4 & U4 & W4). rewrite S4 in Hs. rewrite i32_small in Hs by lia.
  set (s5 := if ReputationToRank (GetBaseReputation E f + st) <=? REP_HOSTILE then war_st true s4 else s4) in Hs.
  assert (B5 : forall i, 0 <= i -> i <> 1 -> Z.testbit (Flags s5) i = Z.testbit fl i).
  { intros i Hi H1. subst s5. destruct (_ <=? _); [|by apply B4]. rewrite bit_war, (proj2 (Z.eqb_neq i 1)) by done. by apply B4. }
  assert (Hsame : Flags s = Flags s5) by (subst s; by destruct (Flags s5 =? fl)). split; [intros i Hi H1; rewrite Hsame; by apply B5|]. split.
  2: { intros P Hr. rewrite Hsame. subst s5. apply Z.leb_le in Hr. rewrite Hr, bit_war, B4, P by done. done. }
  intros V P Hr. assert (He : Flags s5 = fl).
  { assert (s5 = s4) as -> by (subst s5; by rewrite (proj2 (Z.leb_gt _ _) Hr)). apply Z.bits_inj'. intros i Hi.
    destruct (Z.eq_dec i 1) as [->|]; [by apply W4|by apply B4]. }
  split; [by rewrite Hsame|]. subst s. by rewrite He, Z.eqb_refl.
Qed.

(** ** Theorems *)

Lemma reachable_state r k f : reachable r -> FactionMap E !! k = Some f -> CanHaveReputation f = true ->
  exists s, m_factions r !! RepListID f = Some s /\ fs_ID s = k /\ fs_ReputationListID s = RepListID f /\
    Reputation_Bottom <= GetBaseReputation E f + Standing s <= Reputation_Cap /\ flags_ok (GetDefaultStateFlags E f) (Flags s).
Proof.
  intros [A B _]%reachable_is_good Hf Hc. destruct (B k f Hf Hc) as [s Hs]. exists s. destruct (A _ _ Hs) as [(g & Hg & Hcg & Hi & Hb & Hfl) Hp _].
  destruct (place_inj g f _ k Hg Hf Hcg Hc Hi) as [Hk ->]. done.
Qed.
Lemma GetState_listed f r : CanHaveReputation f = true -> GetState f r = m_factions r !! RepListID f.
Proof. intros Hc. unfold GetState. by rewrite Hc. Qed.
Lemma GetReputation_state k f r s : FactionMap E !! k = Some f -> GetState f r = Some s ->
  Reputation_Bottom <= GetBaseReputation E f + Standing s <= Reputation_Cap -> GetReputation E f r = GetBaseReputation E f + Standing s.
Proof. unfold Reputation_Bottom, Reputation_Cap. intros Hf Hs Hb. unfold GetReputation. rewrite Hs. apply i32_small. lia. Qed.

(** C24: whatever rewards, kills, packets, saves and relogs a character goes
    through, every faction of the list has a state of its own at its place; its
    reputation stays between hated and exalted without wrap-around, what is
    forced on the faction stays, what is hidden is never shown, and only a
    visible faction is inactive. *)
Theorem reputations_stay_sound r k f :
  reachable r -> FactionMap E !! k = Some f -> CanHaveReputation f = true ->
  exists s, GetState f r = Some s /\ fs_ID s = k /\ fs_ReputationListID s = reputationListID f /\
    GetReputation E f r = GetBaseReputation E f + Standing s /\ Reputation_Bottom <= GetReputation E f r <= Reputation_Cap /\
    (forall flag, flag ∈ [FACTION_FLAG_HIDDEN; FACTION_FLAG_INVISIBLE_FORCED; FACTION_FLAG_PEACE_FORCED] ->
       has (Flags s) flag = has (GetDefaultStateFlags E f) flag) /\
    (has (Flags s) FACTION_FLAG_VISIBLE = true -> has (GetDefaultStateFlags E f) FACTION_FLAG_VISIBLE = true \/ forced_out s = false) /\
    (has (Flags s) FACTION_FLAG_INACTIVE = true -> has (Flags s) FACTION_FLAG_VISIBLE = true /\ forced_out s = false).
Proof.
  intros Hr Hf Hc. destruct (reachable_state r k f Hr Hf Hc) as (s & Hs & Hid & Hp & Hb & Hfl). exists s.
  pose proof (flags_ok_out _ _ Hfl) as Ho. destruct Hfl as [_ R K S I].
  assert (Hs' : GetState f r = Some s) by (by rewrite GetState_listed). rewrite (GetReputation_state k f r s Hf Hs' Hb).
  rewrite !has_visible, has_inactive, forced_bits, Ho. rewrite (place_int f k Hf Hc) in Hp. split_and!; try done; [lia|lia|].
  intros flag Hin. rewrite !list_elem_of_In in Hin. destruct Hin as [<-|[<-|[<-|[]]]];
    [rewrite !(has_bit _ 2) by done|rewrite !(has_bit _ 3) by done|rewrite !(has_bit _ 4) by done]; by apply R.
Qed.

Lemma saved_state r k f s : reachable r -> FactionMap E !! k = Some f -> GetState f r = Some s ->
  CanHaveReputation f = true /\ table (SaveToDB E r) !! k = Some (Standing s, Flags s) /\
  exists s', GetState f (SaveToDB E r) = Some s' /\ Standing s' = Standing s /\ Flags s' = Flags s /\ needSave s' = false.
Proof.
  intros Hr Hf Hs. destruct (SaveToDB_saved r (reachable_is_good r Hr)) as [[GA _ _] S _ _]. unfold GetState in Hs.
  destruct (CanHaveReputation f) eqn:Hc; [|done]. destruct (S _ _ Hs) as (s' & Hs' & Hid & Hst & Hfl & Hn).
  destruct (reachable_state r k f Hr Hf Hc) as (s0 & Hs0 & Hid0 & _). unfold GetState_id in Hs.
  pose proof (st_saved _ _ _ (GA _ _ Hs') Hn) as Ht. split_and!; [done|congruence|]. exists s'. by rewrite GetState_listed.
Qed.

(** After a save the rows of the character are exactly standing and flags
    of every faction of the list, and saving changes neither. *)
Theorem saved_rows_are_the_states r k row :
  reachable r ->
  (table (SaveToDB E r) !! k = Some row <->
   exists f s, FactionMap E !! k = Some f /\ GetState f r = Some s /\ row = (Standing s, Flags s)) /\
  (forall f s, FactionMap E !! k = Some f -> GetState f r = Some s ->
     exists s', GetState f (SaveToDB E r) = Some s' /\ Standing s' = Standing s /\ Flags s' = Flags s /\ needSave s' = false).
Proof.
  intros Hr. split; [|intros f s Hf Hs; by apply (saved_state r k f s Hr Hf Hs)]. split; [|by intros (f & s & Hf & Hs & ->); apply (saved_state r k f s Hr Hf Hs)].
  intros Hrow. destruct (SaveToDB_saved r (reachable_is_good r Hr)) as [[_ _ GT] _ _ _]. destruct (GT _ _ Hrow) as (f & Hf & Hc & _).
  destruct (reachable_state r k f Hr Hf Hc) as (s & Hs & _). rewrite <- GetState_listed in Hs by done. exists f, s. split_and!; try done.
  destruct (saved_state r k f s Hr Hf Hs) as (_ & Ht & _). congruence.
Qed.


(** *** One reputation *)

Lemma titles_SetOne f n inc nb r : m_playerTitles (SetOneFactionReputation E f n inc nb r).2 = m_playerTitles r.
Proof.
  unfold SetOneFactionReputation. destruct (m_factions r !! RepListID f); [|done]. cbn [snd emit m_playerTitles].
  transitivity (m_playerTitles (SetVisible_state E (RepListID f)
    (upd (RepListID f) (with_standing (if nb then new_standing E f n inc f0 else i32 (new_standing E f n inc f0 - GetBaseReputation E f))) r))).
  - unfold war_follows, SetAtWar, SetAtWar_state. by repeat case_match.
  - unfold SetVisible_state, SendVisible. by repeat case_match.
Qed.
Lemma titles_SendState id r : m_playerTitles (SendState id r) = m_playerTitles r.
Proof. unfold SendState. by destruct (m_factions r !! id). Qed.
Lemma factions_AwardTitle t r : m_factions (AwardTitle E t r) = m_factions r.
Proof. unfold AwardTitle. by repeat case_match. Qed.

(** Standing and flags, what the others do not see of [SendState]. *)
Definition obs (r : ReputationMgr) (id : Z) : option (Z * Z) := (fun s => (Standing s, Flags s)) <$> m_factions r !! id.
Lemma obs_SendState k r id : obs (SendState k r) id = obs r id.
Proof.
  unfold obs. rewrite (do_factions _ _ _ (does_SendState k r)). destruct (m_factions r !! k); [|done]. rewrite lookup_fmap. by destruct (m_factions r !! id).
Qed.
Lemma obs_SetOne f n inc nb r id :
  obs (SetOneFactionReputation E f n inc nb r).2 id =
  if decide (id = RepListID f) then (fun s => let s := one_st E f n inc nb s in (Standing s, Flags s)) <$> m_factions r !! id else obs r id.
Proof.
  unfold obs. rewrite (do_factions _ _ _ (does_SetOne E f n inc nb r)). destruct (decide _) as [->|Hne]; [|by rewrite lookup_alter_ne].
  rewrite lookup_alter_eq. by destruct (m_factions r !! RepListID f).
Qed.
Lemma Standing_follows o n s : Standing (follows_st o n s) = Standing s.
Proof. unfold follows_st, listed_war_st. repeat case_match; try done; apply war_st_keeps. Qed.
Lemma Standing_one f n inc s : Standing (one_st E f n inc false s) = i32 (new_standing E f n inc s - GetBaseReputation E f).
Proof. unfold one_st. rewrite Standing_follows. apply (visible_st_keeps (with_standing _ s)). Qed.
Lemma obs_reputation k f r st fl : FactionMap E !! k = Some f -> CanHaveReputation f = true -> obs r (RepListID f) = Some (st, fl) ->
  GetReputation E f r = i32 (GetBaseReputation E f + st) /\ IsAtWar f r = has fl FACTION_FLAG_AT_WAR.
Proof.
  unfold obs, GetReputation, IsAtWar. intros Hf Hc Ho. rewrite GetState_listed by done. destruct (m_factions r !! RepListID f); [|done]. cbn in Ho. by simplify_eq.
Qed.
Lemma obs_same f r r' : obs r' (RepListID f) = obs r (RepListID f) -> GetReputation E f r' = GetReputation E f r /\ IsAtWar f r' = IsAtWar f r.
Proof.
  unfold obs, GetReputation, IsAtWar, GetState, GetState_id. intros Ho. destruct (CanHaveReputation f); [|done].
  destruct (m_factions r' !! RepListID f) as [[]|], (m_factions r !! RepListID f) as [[]|]; cbn in *; by simplify_eq.
Qed.
(** The standing that gives a reputation in bounds does not wrap. *)
Lemma base_back k f n : FactionMap E !! k = Some f -> Reputation_Bottom <= n <= Reputation_Cap ->
  i32 (GetBaseReputation E f + i32 (n - GetBaseReputation E f)) = n.
Proof.
  intros Hf. pose proof (sf_base k f Hf). unfold Reputation_Bottom, Reputation_Cap in *. intros Hn. rewrite (i32_small (n - _)) by lia. rewrite i32_small; lia.
Qed.

(** When a rank becomes hostile war is declared, unless peace is forced; when it
    becomes neutral there is peace, unless the faction is hidden. *)
Definition war_after (old new : ReputationRank) (peace out war : bool) : bool :=
  if (new <? REP_UNFRIENDLY) && (REP_HOSTILE <? old) then war || negb peace
  else if (REP_UNFRIENDLY <? new) && (old <? REP_NEUTRAL) then war && out
  else war.
Lemma war_one f n inc s : is_u 32 (Flags s) ->
  has (Flags (one_st E f n inc false s)) FACTION_FLAG_AT_WAR =
  war_after (ReputationToRank (i32 (Standing s + GetBaseReputation E f))) (ReputationToRank (new_standing E f n inc s))
    (has (Flags s) FACTION_FLAG_PEACE_FORCED && (REP_HATED <? ReputationToRank (i32 (new_standing E f n inc s - GetBaseReputation E f))))
    (forced_out s) (has (Flags s) FACTION_FLAG_AT_WAR).
Proof.
  intros Hu. set (o := ReputationToRank (i32 _)). set (m := new_standing E f n inc s). set (w := ReputationToRank m). set (st := i32 (m - GetBaseReputation E f)).
  assert (Hone : one_st E f n inc false s = follows_st o w (visible_st (with_standing st s))) by done. rewrite Hone. clear Hone.
  set (t := visible_st (with_standing st s)). assert (Hst : Standing t = st) by (apply (visible_st_keeps (with_standing st s))).
  assert (Hb : forall i, i <> 0 -> Z.testbit (Flags t) i = Z.testbit (Flags s) i).
  { intros i Hi. subst t. rewrite bit_visible. by rewrite (proj2 (Z.eqb_neq i 0)). }
  assert (Hut : is_u 32 (Flags t)) by (by apply (u32_ops (with_standing st s) true)). clearbody t.
  rewrite !has_war, has_peace, forced_bits. unfold follows_st, listed_war_st. rewrite forced_bits. unfold out_bits. rewrite !Hb by done. fold (out_bits (Flags s)).
  clearbody o w st. clear m.
  assert (W1 : Z.testbit (Flags (war_st true t)) 1 = Z.testbit (Flags s) 1 || negb (Z.testbit (Flags s) 4 && (REP_HATED <? ReputationToRank st))).
  { rewrite bit_war, Hst, !Hb by done. change (1 =? 1) with true. cbn [andb]. destruct (_ && _); cbn [negb]; [by rewrite orb_false_r|by rewrite orb_true_r]. }
  assert (W0 : Z.testbit (Flags (war_st false t)) 1 = false) by (by rewrite bit_peace).
  unfold war_after, REP_UNFRIENDLY, REP_HOSTILE, REP_NEUTRAL.
  destruct (Z.eqb_spec w o) as [->|Hne].
  { destruct (Z.ltb_spec o 2), (Z.ltb_spec 1 o); try lia; destruct (Z.ltb_spec 2 o), (Z.ltb_spec o 3); try lia; cbn [andb]; by rewrite Hb. }
  destruct (Z.ltb_spec w 2); cbn [andb].
  - destruct (Z.ltb_spec 1 o); cbn [andb].
    + rewrite (proj2 (Z.ltb_lt w o)) by lia. cbn [andb]. exact W1.
    + rewrite andb_false_r, (proj2 (Z.ltb_ge 2 w)) by lia. cbn [andb]. by rewrite Hb.
  - destruct (Z.ltb_spec 2 w); cbn [andb]; [|by rewrite Hb]. destruct (Z.ltb_spec o 3); cbn [andb]; [|rewrite andb_false_r; by rewrite Hb].
    rewrite (proj2 (Z.ltb_lt o w)) by lia. cbn [andb]. destruct (out_bits (Flags s)); [by rewrite Hb, andb_true_r|]. by rewrite W0, andb_false_r.
Qed.

(** What is done to one reputation before its title, if any. *)
Definition set_one (f : FactionEntry) (n : Z) (inc : bool) (r : ReputationMgr) : bool * ReputationMgr :=
  match m_factions r !! RepListID f with
  | Some _ => let '(res, r) := SetOneFactionReputation E f n inc false r in (res, SendState (RepListID f) r)
  | None => (false, r)
  end.
Definition spilled (f : FactionEntry) (n : Z) (inc noSpillover : bool) (r : ReputationMgr) : ReputationMgr :=
  if noSpillover then r
  else match GetRepSpilloverTemplate E (fe_ID f) with
  | Some t => fold_left (spill_one E n inc false t) (seq 0 MAX_SPILLOVER_FACTIONS) r
  | None => r
  end.
Definition diplomatic (f : FactionEntry) : bool := (fe_ID f =? 576) || (fe_ID f =? 609) || (fe_ID f =? 59).
Lemma SetReputation_eq f n inc ns r :
  SetReputation E f n inc ns false r =
  let '(res, r) := set_one f n inc (spilled f n inc ns r) in
  (res, if diplomatic f && HasEarnedTitle_diplomat E r then AwardTitle E TITLE_DIPLOMAT r else r).
Proof. done. Qed.
Lemma obs_SetReputation f n inc ns r id :
  obs (SetReputation E f n inc ns false r).2 id = obs (set_one f n inc (spilled f n inc ns r)).2 id.
Proof.
  rewrite SetReputation_eq. destruct (set_one _ _ _ _) as [res r1]. cbn [snd]. unfold obs. by destruct (_ && _); rewrite ?factions_AwardTitle.
Qed.
Lemma obs_set_one f n inc r id : id <> RepListID f -> obs (set_one f n inc r).2 id = obs r id.
Proof.
  intros Hne. unfold set_one. destruct (m_factions r !! RepListID f); [|done]. pose proof (obs_SetOne f n inc false r id) as Ho.
  destruct (SetOneFactionReputation E f n inc false r) as [res r1]. cbn [snd] in *. by rewrite obs_SendState, Ho, decide_False.
Qed.
Lemma obs_set_one_self f n inc r s : m_factions r !! RepListID f = Some s ->
  obs (set_one f n inc r).2 (RepListID f) = Some (i32 (new_standing E f n inc s - GetBaseReputation E f), Flags (one_st E f n inc false s)).
Proof.
  intros Hs. unfold set_one. rewrite Hs. pose proof (obs_SetOne f n inc false r (RepListID f)) as Ho.
  destruct (SetOneFactionReputation E f n inc false r) as [res r1]. cbn [snd] in *.
  rewrite obs_SendState, Ho, decide_True, Hs by done. cbn. by rewrite Standing_one.
Qed.
Lemma set_one_rest f n inc r s : m_factions r !! RepListID f = Some s ->
  m_playerTitles (set_one f n inc r).2 = m_playerTitles r /\
  (set_one f n inc r).1 = (ReputationToRank (i32 (Standing s + GetBaseReputation E f)) <? ReputationToRank (new_standing E f n inc s)).
Proof.
  intros Hs. unfold set_one. rewrite Hs. pose proof (titles_SetOne f n inc false r) as Ht.
  assert (Hres : (SetOneFactionReputation E f n inc false r).1 =
    (ReputationToRank (i32 (Standing s + GetBaseReputation E f)) <? ReputationToRank (new_standing E f n inc s))).
  { unfold SetOneFactionReputation. by rewrite Hs. }
  destruct (SetOneFactionReputation E f n inc false r) as [res r1]. cbn [fst snd] in *. by rewrite titles_SendState.
Qed.

(** *** Spillover *)

Lemma obs_spill_other n inc t i r k g : FactionMap E !! k = Some g -> CanHaveReputation g = true -> nth i (rs_faction t) 0 <> k ->
  obs (spill_one E n inc false t r i) (RepListID g) = obs r (RepListID g).
Proof.
  intros Hg Hc Hne. unfold spill_one. destruct (_ =? 0); [done|]. unfold GetFactionEntry. destruct (FactionMap E !! nth i _ 0) as [h|] eqn:Hh; [|done].
  destruct (_ <=? _); [|done]. rewrite obs_SendState, obs_SetOne, decide_False; [done|]. intros He.
  assert (Hch : CanHaveReputation h = true) by (eapply not_listed; [exact Hg|exact Hh|done|done]).
  destruct (place_inj g h _ _ Hg Hh Hc Hch He) as [-> _]. done.
Qed.
Lemma obs_spills_other n inc t k g l : forall r, FactionMap E !! k = Some g -> CanHaveReputation g = true ->
  (forall i, i ∈ l -> nth i (rs_faction t) 0 <> k) -> obs (fold_left (spill_one E n inc false t) l r) (RepListID g) = obs r (RepListID g).
Proof.
  induction l as [|i l IH]; intros r Hg Hc Hl; [done|]. cbn [fold_left]. rewrite IH by (done || (intros j Hj; apply Hl; by right)).
  apply (obs_spill_other _ _ _ _ _ k); [done|done|]. apply Hl. by left.
Qed.
(** The reputation a change asks for. *)
Definition asked (f : FactionEntry) (n : Z) (inc : bool) (r : ReputationMgr) : Z :=
  clamp (OnReputationChange E (fe_ID f) (if inc then i32 (n + GetReputation E f r) else n)).
Lemma asked_standing f n inc r s : GetState f r = Some s -> new_standing E f n inc s = asked f n inc r.
Proof. intros Hs. unfold asked, new_standing, GetReputation. rewrite Hs. by rewrite (Z.add_comm (Standing s)). Qed.
Lemma spill_named n inc t i r k g s : FactionMap E !! k = Some g -> GetState g r = Some s -> nth i (rs_faction t) 0 = k -> k <> 0 ->
  GetReputation E g (spill_one E n inc false t r i) =
  if GetRank E (Some g) r <=? nth i (rs_faction_rank t) 0 then asked g (spillover E n (nth i (rs_faction_rate t) 0)) inc r else GetReputation E g r.
Proof.
  intros Hg Hs Hi Hk. unfold spill_one. rewrite Hi, (proj2 (Z.eqb_neq k 0) Hk). unfold GetReputationRank, GetFactionEntry. rewrite Hg.
  destruct (_ <=? _); [|done]. set (m := spillover E n _). assert (Hc : CanHaveReputation g = true) by (unfold GetState in Hs; by destruct (CanHaveReputation g)).
  pose proof (obs_SendState (RepListID g) (SetOneFactionReputation E g m inc false r).2 (RepListID g)) as Ho.
  rewrite obs_SetOne, decide_True in Ho by done. rewrite GetState_listed in Hs by done. rewrite Hs in Ho. cbn in Ho. rewrite Standing_one in Ho.
  rewrite (proj1 (obs_reputation k g _ _ _ Hg Hc Ho)). rewrite (base_back k) by (done || apply clamp_range). apply asked_standing. by rewrite GetState_listed.
Qed.
Lemma state_obs k r r' f s : FactionMap E !! k = Some f -> GetState f r = Some s -> obs r' (RepListID f) = obs r (RepListID f) ->
  GetReputation E f r' = GetReputation E f r /\ exists s', GetState f r' = Some s'.
Proof.
  intros Hf Hs Ho. split; [by apply obs_same|]. unfold GetState in *. destruct (CanHaveReputation f); [|done]. unfold GetState_id, obs in *.
  rewrite Hs in Ho. destruct (m_factions r' !! RepListID f); [by eexists|done].
Qed.

(** C23: a change of a reputation changes nothing but that reputation and those
    its template names: such a faction gets its share, once, exactly when its
    rank is not above the limit of the template; the new value is between hated
    and exalted. *)
Theorem spillover_gives_shares r k f n inc t j g :
  reachable r -> FactionMap E !! k = Some f -> GetRepSpilloverTemplate E k = Some t ->
  FactionMap E !! j = Some g -> CanHaveReputation g = true -> j <> k -> j <> 0 ->
  let r' := (SetReputation E f n inc false false r).2 in
  (forall i : nat, (i < 4)%nat -> nth i (rs_faction t) 0 = j -> (forall i' : nat, (i' < 4)%nat -> nth i' (rs_faction t) 0 = j -> i' = i) ->
     GetReputation E g r' = if GetRank E (Some g) r <=? nth i (rs_faction_rank t) 0
       then clamp (OnReputationChange E j (let share := spillover E n (nth i (rs_faction_rate t) 0) in if inc then i32 (share + GetReputation E g r) else share))
       else GetReputation E g r) /\
  ((forall i : nat, (i < 4)%nat -> nth i (rs_faction t) 0 <> j) -> GetReputation E g r' = GetReputation E g r /\ IsAtWar g r' = IsAtWar g r).
Proof.
  intros Hr Hf Ht Hg Hc Hjk Hj0 r'. destruct (reachable_state r j g Hr Hg Hc) as (s & Hs & _). rewrite <- GetState_listed in Hs by done.
  pose proof (sf_key k f Hf) as Hk. pose proof (sf_key j g Hg) as Hj.
  assert (Hobs : obs r' (RepListID g) = obs (fold_left (spill_one E n inc false t) (seq 0 4) r) (RepListID g)).
  { unfold r'. rewrite obs_SetReputation. unfold spilled. rewrite Hk, Ht. apply obs_set_one. intros He.
    assert (Hcf : CanHaveReputation f = true) by (eapply not_listed; [exact Hg|exact Hf|done|done]).
    by destruct (place_inj g f _ _ Hg Hf Hc Hcf He). }
  assert (Hin : forall i, i ∈ seq 0 4 <-> (i < 4)%nat) by (intros i; rewrite elem_of_seq; lia).
  split.
  - intros i Hi Hij Hone. rewrite (proj1 (obs_same g _ _ Hobs)).
    assert (Hsplit : seq 0 4 = seq 0 i ++ i :: seq (S i) (3 - i)).
    { transitivity (seq 0 (i + S (3 - i))); [f_equal; lia|]. by rewrite seq_app. }
    rewrite Hsplit, fold_left_app. cbn [fold_left]. set (r1 := fold_left _ (seq 0 i) r).
    assert (H1 : obs r1 (RepListID g) = obs r (RepListID g)).
    { apply (obs_spills_other _ _ _ j); [done|done|]. intros i' Hi'%elem_of_seq Hij'. pose proof (Hone i' ltac:(lia) Hij'). lia. }
    set (r2 := spill_one E n inc false t r1 i). rewrite (proj1 (obs_same g r2 _ (obs_spills_other n inc t j g (seq (S i) (3 - i)) r2 Hg Hc ltac:(intros i' Hi'%elem_of_seq Hij'; pose proof (Hone i' ltac:(lia) Hij'); lia)))).
    destruct (state_obs j r r1 g s Hg Hs H1) as (Hrep & s1 & Hs1). unfold r2. rewrite (spill_named n inc t i r1 j g s1 Hg Hs1 Hij Hj0).
    unfold asked, GetRank. by rewrite Hrep, Hj.
  - intros Hno. apply obs_same. rewrite Hobs. apply (obs_spills_other _ _ _ j); [done|done|]. intros i Hi%Hin. by apply Hno.
Qed.

(** C22: a change of one reputation sets it to the sum or value asked for,
    bounded, and says whether the rank rose; war follows the rank; the faction
    becomes visible unless it is hidden; no other reputation changes; and the
    title of diplomat is held afterwards by those who had it and by those who
    are exalted with all three factions it is for. *)
Theorem reputation_is_set r k f n inc s :
  reachable r -> FactionMap E !! k = Some f -> GetState f r = Some s ->
  let '(res, r') := SetReputation E f n inc true false r in
  let new := clamp (OnReputationChange E k (if inc then i32 (n + GetReputation E f r) else n)) in
  let old_rank := GetRank E (Some f) r in let new_rank := ReputationToRank new in
  res = (old_rank <? new_rank) /\ GetReputation E f r' = new /\
  IsAtWar f r' = war_after old_rank new_rank
    (has (Flags s) FACTION_FLAG_PEACE_FORCED && (REP_HATED <? ReputationToRank (new - GetBaseReputation E f))) (forced_out s) (IsAtWar f r) /\
  (forall j g, FactionMap E !! j = Some g -> j <> k -> GetReputation E g r' = GetReputation E g r /\ IsAtWar g r' = IsAtWar g r) /\
  (HasTitle TITLE_DIPLOMAT r' = HasTitle TITLE_DIPLOMAT r ||
     (bool_decide (k ∈ [576; 609; 59]) && forallb (fun id => GetReputationRank E id r' =? REP_EXALTED) [576; 609; 59])).
Proof.
  intros Hr Hf Hs. assert (Hc : CanHaveReputation f = true) by (unfold GetState in Hs; by destruct (CanHaveReputation f)).
  pose proof (sf_key k f Hf) as Hk. pose proof Hs as Hs0. rewrite GetState_listed in Hs0 by done.
  destruct (reachable_state r k f Hr Hf Hc) as (s0 & Hs1 & _ & _ & _ & Hfl). assert (s0 = s) as -> by congruence. pose proof (fl_u _ _ Hfl) as Hu. clear Hs1 Hfl.
  pose proof (fun id => obs_SetReputation f n inc true r id) as Ho. destruct (SetReputation E f n inc true false r) as [res r'] eqn:Er. cbn [snd] in Ho.
  cbn [spilled] in Ho. rewrite SetReputation_eq in Er. cbn [spilled] in Er.
  destruct (set_one_rest f n inc r s Hs0) as [Ht Hres]. pose proof (obs_set_one_self f n inc r s Hs0) as Hself. pose proof (obs_set_one f n inc r) as Hother.
  destruct (set_one f n inc r) as [res1 r1]. cbn [fst snd] in *. injection Er as <- Hr'.
  pose proof (asked_standing f n inc r s Hs) as Hn. unfold asked in Hn. rewrite Hk in Hn. rewrite Hn in Hself, Hres. set (new := clamp _) in *.
  assert (Hold : i32 (Standing s + GetBaseReputation E f) = GetReputation E f r) by (unfold GetReputation; rewrite Hs; by rewrite Z.add_comm).
  pose proof (war_one f n inc s Hu) as Hwar. rewrite Hn, Hold in Hwar. rewrite Hold in Hres. rewrite <- (Ho (RepListID f)) in Hself.
  destruct (obs_reputation k f r' _ _ Hf Hc Hself) as [Hrep Hiw]. rewrite (base_back k f new Hf (clamp_range _)) in Hrep.
  assert (Hno : i32 (new - GetBaseReputation E f) = new - GetBaseReputation E f).
  { pose proof (sf_base k f Hf). pose proof (clamp_range (OnReputationChange E k (if inc then i32 (n + GetReputation E f r) else n))) as Hcl. fold new in Hcl.
    unfold Reputation_Bottom, Reputation_Cap in *. apply i32_small. lia. }
  rewrite Hno in Hwar. unfold GetRank. split_and!; [done|done| | |].
  - rewrite Hiw, Hwar. unfold IsAtWar. by rewrite Hs.
  - intros j g Hg Hjk. destruct (CanHaveReputation g) eqn:Hcg; [|unfold GetReputation, IsAtWar, GetState; by rewrite Hcg].
    apply obs_same. rewrite Ho. apply Hother. intros He. by destruct (place_inj g f _ _ Hg Hf Hcg Hc He).
  - assert (Hd : diplomatic f = bool_decide (k ∈ [576; 609; 59])).
    { unfold diplomatic. rewrite Hk. apply Bool.eq_iff_eq_true. rewrite bool_decide_eq_true, !orb_true_iff, !Z.eqb_eq, !elem_of_cons, elem_of_nil. tauto. }
    assert (Hsame : forall id, GetReputationRank E id r' = GetReputationRank E id r1).
    { intros id. unfold GetReputationRank, GetRank. destruct (GetFactionEntry E id) as [g|]; [|done]. by rewrite (proj1 (obs_same g r1 r' (Ho (RepListID g)))). }
    cbn [forallb]. rewrite !Hsame, <- Hd, andb_true_r. subst r'. clear Ho Hself Hrep Hiw Hsame.
    assert (HT : HasTitle TITLE_DIPLOMAT r1 = HasTitle TITLE_DIPLOMAT r) by (unfold HasTitle; by rewrite Ht). unfold HasEarnedTitle_diplomat. rewrite HT, <- andb_assoc.
    destruct (HasTitle TITLE_DIPLOMAT r) eqn:HT0; [by rewrite andb_false_r|]. cbn [orb]. destruct (diplomatic f && (_ && _)) eqn:Hall; [|done].
    unfold AwardTitle. change (TITLE_DIPLOMAT <? 0) with false. cbv iota. rewrite HT. unfold HasTitle. apply orb_true_iff. left.
    apply bool_decide_eq_true_2. destruct (_ =? 1)%nat; cbn [m_playerTitles set_titles emit]; apply elem_of_union_r, elem_of_singleton_2; done.
Qed.
End Reputations.

(** ** The list of reputations at login *)

Lemma length_absent a b : 0 <= a <= b -> b < 2 ^ 32 -> Z.of_nat (length (absent a b)) = b - a.
Proof. intros Ha Hb. unfold absent. rewrite repeat_length. rewrite u32_id by (unfold is_u; lia). lia. Qed.
Lemma absent_look a b (i : nat) x : absent a b !! i = Some x -> x = (0, 0).
Proof. unfold absent. intros Hx%list_elem_of_lookup_2. by apply repeat_spec with (1 := proj1 (list_elem_of_In _ _) Hx). Qed.

Definition shown_entry (s : FactionState) : Z * Z := (u8 (Flags s), u32 (Standing s)).
(** Entries for the places below [a], of which [l] are taken. *)
Record lists (entries : list (Z * Z)) (a : Z) (l : list (Z * FactionState)) : Prop := {
  li_length : Z.of_nat (length entries) = a;
  li_taken : forall id s, (id, s) ∈ l -> 0 <= id < a /\ entries !! Z.to_nat id = Some (shown_entry s);
  li_absent : forall (i : nat), Z.of_nat i < a -> (forall s, (Z.of_nat i, s) ∉ l) -> entries !! i = Some (0, 0)
}.
Lemma lists_absent entries a b l : 0 <= a <= b -> b < 2 ^ 32 -> lists entries a l -> lists (entries ++ absent a b) b l.
Proof.
  intros Ha Hb [L T A]. pose proof (length_absent a b Ha Hb) as Hl. split.
  - rewrite length_app. lia.
  - intros id s Hin. destruct (T id s Hin) as [Hr He]. split; [lia|]. by rewrite lookup_app_l by (apply lookup_lt_Some in He; done).
  - intros i Hi Hn. destruct (Z.lt_ge_cases (Z.of_nat i) a) as [Hlt|Hge]; [rewrite lookup_app_l by lia; by apply A|].
    rewrite lookup_app_r by lia. destruct (absent a b !! (i - length entries)%nat) as [x|] eqn:Ex; [by rewrite (absent_look a b _ x Ex)|].
    apply lookup_ge_None in Ex. lia.
Qed.
Lemma lists_one entries a s l : 0 <= a -> lists entries a l -> lists (entries ++ [shown_entry s]) (a + 1) (l ++ [(a, s)]).
Proof.
  intros Ha [L T A]. split.
  - rewrite length_app. cbn. lia.
  - intros id t [Hin|[= -> ->]%list_elem_of_singleton]%elem_of_app.
    + destruct (T id t Hin) as [Hr He]. split; [lia|]. by rewrite lookup_app_l by (apply lookup_lt_Some in He; done).
    + split; [lia|]. rewrite lookup_app_r by lia. by replace (Z.to_nat a - length entries)%nat with 0%nat by lia.
  - intros i Hi Hn. destruct (Z.eq_dec (Z.of_nat i) a) as [He|Hne].
    + destruct (Hn s). rewrite He. apply elem_of_app. right. by apply list_elem_of_singleton.
    + rewrite lookup_app_l by lia. apply A; [lia|]. intros t Hin. apply (Hn t). apply elem_of_app. by left.
Qed.
Lemma lists_fold l : forall a entries done_, StronglySorted (fun x y => x.1 < y.1) l -> 0 <= a -> Forall (fun x => a <= x.1 < 2 ^ 32 - 1) l ->
  lists entries a done_ -> exists a', let st := fold_left initial_step l (a, entries) in
    st.1 = a' /\ lists st.2 a' (done_ ++ l) /\ a <= a' /\ Forall (fun x => x.1 < a') l /\ (a' = a \/ exists x, x ∈ l /\ a' = x.1 + 1).
Proof.
  induction l as [|[id s] l IH]; intros a entries done_ Hs Ha Hl Hli.
  { exists a. cbn. rewrite app_nil_r. split_and!; [done|done|lia|constructor|by left]. }
  apply StronglySorted_inv in Hs as [Hs Hlt]. apply Forall_cons in Hl as [Hid Hl]. cbn in Hid. cbn [fold_left initial_step fst snd].
  rewrite u32_id by (unfold is_u; lia).
  destruct (IH (id + 1) (entries ++ absent a id ++ [shown_entry s]) (done_ ++ [(id, s)]) Hs ltac:(lia)) as (a' & E1 & E2 & E3 & E4 & E5).
  - apply Forall_forall. intros x Hx. rewrite Forall_forall in Hlt. pose proof (Hlt x Hx) as Hx1. cbn in Hx1. rewrite Forall_forall in Hl. pose proof (Hl x Hx). lia.
  - rewrite app_assoc. apply lists_one; [lia|]. apply lists_absent; [lia|lia|done].
  - exists a'. unfold shown_entry in *. cbn zeta. rewrite <- app_assoc in E2. split_and!; [done|done|lia|constructor; [cbn; lia|done]|].
    right. destruct E5 as [->|(x & Hx & ->)]; [exists (id, s); split; [by left|done]|exists x; split; [by right|done]].
Qed.
Lemma map_iter_strict {V} (m : gmap Z V) : StronglySorted (fun x y : Z * V => x.1 < y.1) (map_iter m).
Proof.
  assert (Hs : StronglySorted key_le (map_iter m)).
  { apply Sorted_StronglySorted; [|apply Sorted_merge_sort, _]. intros x y z. unfold key_le. lia. }
  pose proof (map_iter_keys m) as Hnd. induction Hs as [|x l Hs IH Hx]; [constructor|]. rewrite fmap_cons in Hnd. apply NoDup_cons in Hnd as [Hnin Hnd].
  constructor; [auto|]. apply Forall_forall. intros y Hy. rewrite Forall_forall in Hx. pose proof (Hx y Hy) as Hle. unfold key_le in Hle.
  assert (x.1 <> y.1) as Hne; [|lia]. intros He. apply Hnin. rewrite He. by apply list_elem_of_fmap_2.
Qed.

(** The packet with all reputations at login says it has 64 entries and has
    69: at each place below 69 flags and standing of the faction there, zeros
    where there is none. Were there a faction at a place from 69 on, the loop
    that fills the rest would pass its end and go around 32 bits. *)
Theorem initial_packet_lists_every_place r :
  (forall id s, m_factions r !! id = Some s -> 0 <= id < 2 ^ 32 - 1) ->
  exists entries, mgr_out (SendInitialReputations r) = mgr_out r ++ [SMSG_INITIALIZE_FACTIONS 64 entries] /\
    if decide (map_Forall (fun id _ => id < 69) (m_factions r))
    then length entries = 69%nat /\
      forall i : nat, (i < 69)%nat -> entries !! i = Some (match m_factions r !! Z.of_nat i with Some s => (u8 (Flags s), u32 (Standing s)) | None => (0, 0) end)
    else Z.of_nat (length entries) = 2 ^ 32 + 69.
Proof.
  intros Hids. destruct (lists_fold (map_iter (m_factions r)) 0 [] []) as (a & E1 & E2 & E3 & E4 & E5).
  - apply map_iter_strict.
  - done.
  - apply Forall_forall. intros [id s] Hin%elem_of_map_iter. by apply (Hids id s).
  - split; [done|by intros id s ?%not_elem_of_nil|intros i Hi; lia].
  - unfold SendInitialReputations. destruct (fold_left initial_step (map_iter (m_factions r)) (0, [])) as [a0 entries]. cbn [fst snd] in *. subst a0.
    exists (entries ++ absent a 69). split; [done|]. destruct (decide _) as [Hall|Hn].
    + assert (Ha : a <= 69). { destruct E5 as [->|([id s] & Hin%elem_of_map_iter & ->)]; [lia|]. pose proof (Hall id s Hin) as Hlt. cbn in *. lia. }
      destruct (lists_absent entries a 69 _ ltac:(lia) ltac:(lia) E2) as [L T A]. split; [lia|]. intros i Hi.
      destruct (m_factions r !! Z.of_nat i) as [s|] eqn:Es.
      * destruct (T (Z.of_nat i) s) as [_ He]; [by apply elem_of_map_iter|]. by rewrite Nat2Z.id in He.
      * apply A; [lia|]. intros s Hin%elem_of_map_iter. congruence.
    + assert (Ha : 69 < a < 2 ^ 32).
      { split.
        - destruct (Z.lt_ge_cases 69 a); [done|]. destruct Hn. intros id s Hs. rewrite Forall_forall in E4. pose proof (E4 (id, s) ltac:(by apply elem_of_map_iter)) as Hlt. cbn in Hlt. lia.
        - destruct E5 as [->|([id s] & Hin%elem_of_map_iter & ->)]; [lia|]. pose proof (Hids id s Hin). cbn. lia. }
      rewrite length_app, Nat2Z.inj_add, (li_length _ _ _ E2). unfold absent. rewrite repeat_length.
      replace (u32 (69 - a)) with (2 ^ 32 + 69 - a); [lia|]. unfold u32, wrapu. rewrite <- (Z.mod_add _ 1), Z.mod_small by lia. lia.
Qed.

(** * Examples *)

(** A human warrior with Stormwind and Ironforge, where peace is forced, the
    Timbermaw furbolgs, and the Alliance, which has no place in the list. *)
Module ReputationExample.
#[local] Existing Instance ordered_iter.

Definition of_all (id place base flags : Z) : FactionEntry := mkEntry id place [0; 0; 0; 0] [0; 0; 0; 0] [base; 0; 0; 0] [flags; 0; 0; 0].
Definition Stormwind : FactionEntry := mkEntry 72 19 [0x4C; 0x01; 0; 0] [0; 0; 0; 0] [3100; 4000; 0; 0] [0x11; 0x11; 0; 0].
Definition Ironforge : FactionEntry := of_all 47 20 3100 0x11.
Definition Timbermaw : FactionEntry := of_all 576 8 (-3500) 0x02.
Definition Alliance : FactionEntry := of_all 469 (-1) 0 0.
Definition factions : list (Z * FactionEntry) := [(72, Stormwind); (47, Ironforge); (576, Timbermaw); (469, Alliance)].
(** A quarter goes to Ironforge up to honored, and to the Alliance. *)
Definition of_Stormwind : RepSpilloverTemplate := mkSpillover [47; 469; 0; 0] [0x3E800000; 0x3E800000; 0; 0] [6; 7; 0; 0].
Definition tables : Env := mkEnv 7 1 1 (list_to_map factions) ∅ (fun n _ => n / 4) (fun _ n => n) false.
Definition env : Env :=
  mkEnv 7 1 1 (list_to_map factions) (LoadReputationSpilloverTemplate tables [(72, of_Stormwind)]) (fun n _ => n / 4) (fun _ n => n) false.

#[export] Instance env_sane : SaneFactions env.
Proof.
  assert (Hin : forall k f, FactionMap env !! k = Some f -> (k, f) ∈ factions) by (intros k f; apply elem_of_list_to_map_2).
  assert (Hall : forall (P : Z * FactionEntry -> bool), forallb P factions = true -> forall k f, FactionMap env !! k = Some f -> P (k, f) = true).
  { intros P HP k f Hf. rewrite forallb_forall in HP. apply HP. apply list_elem_of_In. by apply Hin. }
  split.
  - intros k f Hf. by apply (Hall (fun p => fe_ID p.2 =? p.1) eq_refl), Z.eqb_eq in Hf.
  - intros k k' f f' Hf Hf' Hc He.
    pose proof (Hall (fun p => forallb (fun q => negb (CanHaveReputation p.2) || negb (reputationListID p.2 =? reputationListID q.2) || (p.1 =? q.1)) factions) eq_refl k f Hf) as H.
    rewrite forallb_forall in H. specialize (H (k', f') (proj1 (list_elem_of_In _ _) (Hin _ _ Hf'))). cbn in H.
    rewrite Hc, He, Z.eqb_refl in H. by apply Z.eqb_eq.
  - intros k f Hf. pose proof (Hall (fun p => (- 2 ^ 31 <=? reputationListID p.2) && (reputationListID p.2 <? 2 ^ 31)) eq_refl k f Hf) as H. cbn beta in H. cbn [snd] in H. lia.
  - intros k f Hf. pose proof (Hall (fun p => (Reputation_Bottom <=? GetBaseReputation env p.2) && (GetBaseReputation env p.2 <=? Reputation_Cap)) eq_refl k f Hf) as H. cbn [snd] in H. lia.
  - intros k f Hf.
    pose proof (Hall (fun p => (0 <=? GetDefaultStateFlags env p.2) && (GetDefaultStateFlags env p.2 <? 2 ^ 32) && negb (has (GetDefaultStateFlags env p.2) FACTION_FLAG_INACTIVE)) eq_refl k f Hf) as H.
    cbn [snd] in H. apply andb_true_iff in H as [H Hi%negb_true_iff]. split; [unfold is_u; lia|done].
Qed.

(** A new character; Stormwind rewards a quest; furbolgs are killed; the
    character unticks war with them, hostile as they are, and puts Ironforge
    among the inactive. *)
Definition fresh : ReputationMgr := LoadFromDB env [] (mkMgr ∅ ∅ ∅ []).
Definition quest : ReputationMgr := (ModifyReputation env Stormwind 6000 false fresh).2.
Definition kills : ReputationMgr := (ModifyReputation env Timbermaw (-100) true quest).2.
Definition peace : ReputationMgr := HandleSetFactionAtWarOpcode 8 0 kills.
Definition hidden : ReputationMgr := HandleSetFactionInactiveOpcode 20 1 peace.
Lemma hidden_reachable : reachable env hidden.
Proof.
  unfold hidden, peace, kills, quest, ModifyReputation.
  eapply reach_step; [|apply step_inactive]. eapply reach_step; [|apply step_war].
  eapply reach_step; [|by apply step_standing; vm_compute].
  eapply reach_step; [|by apply step_standing; vm_compute]. apply reach_new.
Qed.

Example the_story : (GetReputation env Stormwind hidden, GetReputation env Ironforge hidden, GetReputation env Timbermaw hidden, GetReputation env Alliance hidden)
  = (10000, 4600, -3600, 0) /\ (IsAtWar Timbermaw kills, IsAtWar Timbermaw hidden) = (true, false).
Proof. by vm_compute. Qed.

Lemma ranks_partition_standings_witness :
  0 <= 4 < MAX_REPUTATION_RANK /\ Reputation_Bottom <= 8999 <= Reputation_Cap /\ ReputationToRank 8999 = 4 /\ ReputationToRank 9000 = 5.
Proof.
  assert (H1 : 0 <= 4 < MAX_REPUTATION_RANK) by (vm_compute; done). assert (H2 : Reputation_Bottom <= 8999 <= Reputation_Cap) by (vm_compute; done).
  split; [done|]. split; [done|]. split; [|by vm_compute]. apply (ranks_partition_standings 4 8999 H1 H2). vm_compute. done.
Defined.
Lemma reputations_stay_sound_witness :
  reachable env hidden /\ exists s, GetState Ironforge hidden = Some s /\ fs_ID s = 47 /\ fs_ReputationListID s = 20 /\
    GetReputation env Ironforge hidden = 3100 + Standing s /\ Reputation_Bottom <= 4600 <= Reputation_Cap /\ has (Flags s) FACTION_FLAG_INACTIVE = true.
Proof.
  split; [exact hidden_reachable|]. destruct (reputations_stay_sound env hidden 47 Ironforge hidden_reachable) as (s & Hs & Hid & Hp & Hr & Hb & _);
    [by vm_compute|by vm_compute|]. exists s. split_and!; [done|done|done|done|by vm_compute|by vm_compute|]. vm_compute in Hs. by injection Hs as <-.
Defined.
Lemma saved_rows_are_the_states_witness :
  reachable env hidden /\ table (SaveToDB env hidden) !! 47 = Some (1500, 0x31).
Proof.
  split; [exact hidden_reachable|]. apply (saved_rows_are_the_states env hidden 47 (1500, 0x31) hidden_reachable).
  exists Ironforge. exists (mkState 47 20 0x31 1500 true true). split; [by vm_compute|]. split; by vm_compute.
Defined.
Lemma reputation_is_set_witness :
  reachable env fresh /\
  let '(res, r') := ModifyReputation env Timbermaw 3600 true fresh in
  res = true /\ GetReputation env Timbermaw r' = 100 /\ IsAtWar Timbermaw fresh = true /\ IsAtWar Timbermaw r' = false.
Proof.
  split; [apply reach_new|].
  pose proof (reputation_is_set env fresh 576 Timbermaw 3600 true (new_state env Timbermaw) (reach_new env ∅) eq_refl eq_refl) as H.
  unfold ModifyReputation. destruct (SetReputation env Timbermaw 3600 true true false fresh) as [res r'].
  destruct H as (-> & -> & -> & _). split_and!; by vm_compute.
Defined.
Lemma spillover_gives_shares_witness :
  reachable env fresh /\ GetReputation env Ironforge quest = 4600 /\ GetReputation env Timbermaw quest = -3500.
Proof.
  split; [apply reach_new|]. split.
  - etrans; [apply (spillover_gives_shares env fresh 72 Stormwind 6000 true of_Stormwind 47 Ironforge (reach_new env ∅)) with (i := 0%nat)|by vm_compute];
      try (by vm_compute); [lia|]. intros [|[|[|[|?]]]] Hi; [done|by vm_compute|by vm_compute|by vm_compute|lia].
  - etrans; [apply (spillover_gives_shares env fresh 72 Stormwind 6000 true of_Stormwind 576 Timbermaw (reach_new env ∅))|by vm_compute];
      try (by vm_compute). intros [|[|[|[|?]]]] Hi; [by vm_compute|by vm_compute|by vm_compute|by vm_compute|lia].
Defined.
Lemma initial_packet_lists_every_place_witness : exists entries,
  mgr_out (SendInitialReputations hidden) = mgr_out hidden ++ [SMSG_INITIALIZE_FACTIONS 64 entries] /\ length entries = 69%nat /\
  entries !! 8%nat = Some (1, u32 (-100)).
Proof.
  destruct (initial_packet_lists_every_place hidden) as (entries & Ho & He).
  - intros id s Hs. assert (H : id ∈ (map_to_list (m_factions hidden)).*1) by (change id with ((id, s).1); apply list_elem_of_fmap_2, elem_of_map_to_list, Hs).
    apply list_elem_of_In in H. vm_compute in H. intuition (subst; by vm_compute).
  - exists entries. split; [done|]. destruct (decide _) as [_|Hn]; [|destruct Hn; by apply (bool_decide_unpack _); vm_compute].
    destruct He as [Hl He]. split; [done|]. rewrite He by lia. by vm_compute.
Defined.

(** A faction without a place in the list stays in the template although the
    loader says it skips it. *)
Example unlisted_spillover_is_kept :
  GetRepSpilloverTemplate env 72 = Some of_Stormwind /\ 469 ∈ rs_faction of_Stormwind /\ CanHaveReputation Alliance = false.
Proof. split_and!; [by vm_compute|set_solver|by vm_compute]. Qed.
(** Forced peace asks for the rank of the standing without what the race starts
    with: war with Stormwind can be declared while it is only unfriendly. *)
Example war_while_unfriendly :
  let r := (SetSingleReputation env Stormwind (-2100) false fresh).2 in
  GetRank env (Some Stormwind) r = REP_UNFRIENDLY /\ IsAtWar Stormwind r = false /\
  IsAtWar Stormwind (HandleSetFactionAtWarOpcode 19 1 r) = true.
Proof. split_and!; by vm_compute. Qed.
End ReputationExample.
