(* ===== verification/ByteBuffer.v ===== *)
(** * ByteBuffer: the packet buffer (src/src/shared/ByteBuffer.h)

    [ByteBuffer] is the byte storage every packet of the server is read from
    and written to. Its methods are translated as programs of a state monad
    with exceptions, [M]: a method that throws leaves the buffer as it was at
    the throw, as in C++. [size_t] is 64 bits wide, the host little-endian. *)
From S2P Require Import Prelude.

(** ** Data *)

Record ByteBuffer := mkByteBuffer {
  _rpos : Z;
  _wpos : Z;
  _storage : list Z
}.

(** What a method can raise: the exception of the class, a failed
    [MANGOS_ASSERT] (the process aborts) or an access outside the storage,
    which C++ leaves undefined. *)
Inductive exn :=
  | ByteBufferException (add : bool) (pos esize size : Z)
  | AssertFailed
  | OutOfBounds.

Inductive outcome (A : Type) := Ret (a : A) | Throw (e : exn).
Arguments Ret {A} a.
Arguments Throw {A} e.

Definition M (A : Type) : Type := ByteBuffer -> outcome A * ByteBuffer.

Definition ret {A} (a : A) : M A := fun b => (Ret a, b).
Definition throw {A} (e : exn) : M A := fun b => (Throw e, b).
Definition bind {A B} (m : M A) (f : A -> M B) : M B := fun b =>
  match m b with
  | (Ret a, b') => f a b'
  | (Throw e, b') => (Throw e, b')
  end.
Definition gets {A} (f : ByteBuffer -> A) : M A := fun b => (Ret (f b), b).
Definition modify (f : ByteBuffer -> ByteBuffer) : M unit := fun b => (Ret tt, f b).

Declare Scope bb_scope.
Delimit Scope bb_scope with bb.
Notation "x <- m ;; k" := (bind m (fun x => k))
  (at level 100, m at next level, right associativity) : bb_scope.
Notation "m ;; k" := (bind m (fun _ => k))
  (at level 100, right associativity) : bb_scope.
Open Scope bb_scope.

Definition size (b : ByteBuffer) : Z := Z.of_nat (length (_storage b)).
Definition empty (b : ByteBuffer) : bool := size b =? 0.

(** Both constructors: the reservation does not show in the contents. *)
Definition newByteBuffer : ByteBuffer := mkByteBuffer 0 0 [].

Definition set_rpos (p : Z) (b : ByteBuffer) : ByteBuffer := mkByteBuffer p (_wpos b) (_storage b).
Definition set_wpos (p : Z) (b : ByteBuffer) : ByteBuffer := mkByteBuffer (_rpos b) p (_storage b).
Definition set_storage (s : list Z) (b : ByteBuffer) : ByteBuffer := mkByteBuffer (_rpos b) (_wpos b) s.

Definition clear : M unit := modify (fun _ => mkByteBuffer 0 0 []).

Definition rpos_set (p : Z) : M Z := modify (set_rpos p) ;; gets _rpos.
Definition wpos_set (p : Z) : M Z := modify (set_wpos p) ;; gets _wpos.
Definition rfinish : M unit := modify (fun b => set_rpos (_wpos b) b).

(** [std::vector<uint8>::resize]: cut off, or fill with zeros. *)
Definition vec_resize (n : Z) (l : list Z) : list Z :=
  take (Z.to_nat n) l ++ replicate (Z.to_nat n - length l)%nat 0.

Definition resize (newsize : Z) : M unit :=
  modify (fun b => let s := vec_resize newsize (_storage b) in
                   mkByteBuffer 0 (Z.of_nat (length s)) s).

(** [memcpy] of [src] over [l] at [pos]. *)
Definition overwrite (pos : Z) (src l : list Z) : list Z :=
  take (Z.to_nat pos) l ++ src ++ drop (Z.to_nat pos + length src) l.

(** ** Writing *)

Definition append_raw (src : list Z) : M unit :=
  let cnt := Z.of_nat (length src) in
  if cnt =? 0 then ret tt
  else
    sz <- gets size ;;
    if negb (sz <? 10000000) then throw AssertFailed
    else
      modify (fun b =>
        let b := if size b <? _wpos b + cnt
                 then set_storage (vec_resize (_wpos b + cnt) (_storage b)) b else b in
        let b := set_storage (overwrite (_wpos b) src (_storage b)) b in
        set_wpos (_wpos b + cnt) b).

(** [append<T>(value)] for an unsigned or signed integer of [n] bytes: the
    memory of the value, two's complement for a signed one. *)
Definition append_int (n : nat) (value : Z) : M unit := append_raw (le_split n value).

Definition write_u8 (v : Z) : M unit := append_int 1 v.
Definition write_u16 (v : Z) : M unit := append_int 2 v.
Definition write_u32 (v : Z) : M unit := append_int 4 v.
Definition write_u64 (v : Z) : M unit := append_int 8 v.
Definition write_i8 (v : Z) : M unit := append_int 1 v.
Definition write_i16 (v : Z) : M unit := append_int 2 v.
Definition write_i32 (v : Z) : M unit := append_int 4 v.
Definition write_i64 (v : Z) : M unit := append_int 8 v.
Definition write_bool (v : bool) : M unit := append_raw [if v then 1 else 0].

(** [operator<<(std::string const&)]: the characters, then a zero byte. *)
Definition write_string (s : list Z) : M unit := append_raw s ;; append_int 1 0.

(** [append(ByteBuffer const&)]: the first [wpos] bytes of the other buffer;
    more than it stores is an out of bounds read. *)
Definition append_buffer (o : ByteBuffer) : M unit :=
  if _wpos o =? 0 then ret tt
  else if size o <? _wpos o then throw OutOfBounds
  else append_raw (take (Z.to_nat (_wpos o)) (_storage o)).

Definition put (pos : Z) (src : list Z) : M unit :=
  sz <- gets size ;;
  let cnt := Z.of_nat (length src) in
  if sz <? u64 (pos + cnt) then throw (ByteBufferException true pos cnt sz)
  else modify (fun b => set_storage (overwrite pos src (_storage b)) b).

Definition put_int (n : nat) (pos value : Z) : M unit := put pos (le_split n value).

(** ** Reading *)

Definition read_skip (skip : Z) : M unit :=
  b <- gets id ;;
  if size b <? u64 (_rpos b + skip) then throw (ByteBufferException false (_rpos b) skip (size b))
  else modify (fun b => set_rpos (u64 (_rpos b + skip)) b).

(** [read<T>(pos)] for an integer of [n] bytes, its unsigned value. *)
Definition read_at (n : nat) (pos : Z) : M Z :=
  b <- gets id ;;
  if size b <? u64 (pos + Z.of_nat n)
  then throw (ByteBufferException false pos (Z.of_nat n) (size b))
  else if size b <? pos + Z.of_nat n then throw OutOfBounds
  else ret (le_combine (take n (drop (Z.to_nat pos) (_storage b)))).

Definition read_int (n : nat) : M Z :=
  p <- gets _rpos ;;
  r <- read_at n p ;;
  modify (fun b => set_rpos (u64 (_rpos b + Z.of_nat n)) b) ;;
  ret r.

(** The signed value of [x] at width [w]. *)
Definition to_signed (w x : Z) : Z := if x <? 2 ^ (w - 1) then x else x - 2 ^ w.

Definition read_u8 : M Z := read_int 1.
Definition read_u16 : M Z := read_int 2.
Definition read_u32 : M Z := read_int 4.
Definition read_u64 : M Z := read_int 8.
Definition read_i8 : M Z := r <- read_int 1 ;; ret (to_signed 8 r).
Definition read_i16 : M Z := r <- read_int 2 ;; ret (to_signed 16 r).
Definition read_i32 : M Z := r <- read_int 4 ;; ret (to_signed 32 r).
Definition read_i64 : M Z := r <- read_int 8 ;; ret (to_signed 64 r).
Definition read_bool : M bool := r <- read_i8 ;; ret (0 <? r).

Definition read_bytes (len : Z) : M (list Z) :=
  b <- gets id ;;
  if size b <? u64 (_rpos b + len) then throw (ByteBufferException false (_rpos b) len (size b))
  else if size b <? _rpos b + len then throw OutOfBounds
  else
    modify (fun b => set_rpos (u64 (_rpos b + len)) b) ;;
    ret (take (Z.to_nat len) (drop (Z.to_nat (_rpos b)) (_storage b))).

(** The loop of [operator>>(std::string&)]: [fuel] is the number of bytes
    that remain, which bounds the iterations. *)
Fixpoint read_string_loop (fuel : nat) : M unit :=
  b <- gets id ;;
  if bool_decide (_storage b !! Z.to_nat (_rpos b) = Some 0) then ret tt
  else
    modify (fun b => set_rpos (_rpos b + 1) b) ;;
    (b <- gets id ;;
     if size b <? _rpos b + 1 then throw (ByteBufferException false (_rpos b) 1 (size b))
     else match fuel with
          | O => throw OutOfBounds
          | S fuel => read_string_loop fuel
          end).

(** [operator>>(std::string&)]; [value] is the string before the call, which
    stays when the read position is at the end. *)
Definition read_string (value : list Z) : M (list Z) :=
  b <- gets id ;;
  if _rpos b <? size b then
    read_string_loop (Z.to_nat (size b - _rpos b)) ;;
    (b' <- gets id ;;
     modify (fun b => set_rpos (_rpos b + 1) b) ;;
     ret (take (Z.to_nat (_rpos b' - _rpos b)) (drop (Z.to_nat (_rpos b)) (_storage b))))
  else ret value.

(** [operator>>(std::vector<T>&)]: a count, then that many elements. *)
Fixpoint read_times {A} (n : nat) (rd : M A) : M (list A) :=
  match n with
  | O => ret []
  | S n => t <- rd ;; v <- read_times n rd ;; ret (t :: v)
  end.

Definition read_vector {A} (rd : M A) : M (list A) :=
  vsize <- read_u32 ;; read_times (Z.to_nat vsize) rd.

(** ** Packed GUIDs *)

(** The loop of [readPackGUID] at index [i], [n] iterations to go. *)
Fixpoint readPackGUID_loop (n : nat) (i guidmark guid : Z) : M Z :=
  match n with
  | O => ret guid
  | S n =>
    if Z.land guidmark (u8 (Z.shiftl 1 i)) =? 0
    then readPackGUID_loop n (i + 1) guidmark guid
    else
      bit <- read_u8 ;;
      readPackGUID_loop n (i + 1) guidmark (Z.lor guid (u64 (Z.shiftl bit (i * 8))))
  end.

Definition readPackGUID : M Z :=
  guidmark <- read_u8 ;; readPackGUID_loop 8 0 guidmark 0.

(** The loop of [appendPackGUID]: the mark byte and the bytes written after
    it. The loop stops when no byte of [guid] is left; eight iterations
    empty 64 bits ([appendPackGUID_fuel]). *)
Fixpoint packGUID_loop (fuel : nat) (i mark guid : Z) : option (Z * list Z) :=
  if guid =? 0 then Some (mark, [])
  else match fuel with
  | O => None
  | S fuel =>
    if Z.land guid 255 =? 0 then packGUID_loop fuel (u8 (i + 1)) mark (Z.shiftr guid 8)
    else
      '(m, bs) ← packGUID_loop fuel (u8 (i + 1))
                   (Z.lor mark (u8 (Z.shiftl 1 i))) (Z.shiftr guid 8);
      Some (m, u8 (Z.land guid 255) :: bs)
  end.

Definition packGUID (guid : Z) : option (list Z) :=
  '(m, bs) ← packGUID_loop 8 0 0 guid; Some (m :: bs).

Definition appendPackGUID (guid : Z) : M unit :=
  match packGUID guid with
  | Some bs => append_raw bs
  | None => throw OutOfBounds
  end.

(** ** The invariant of the buffer *)

(** Positions inside the storage, which holds bytes and fits the address space. *)
Record bb_wf (b : ByteBuffer) : Prop := {
  wf_rpos : 0 <= _rpos b <= size b;
  wf_wpos : 0 <= _wpos b <= size b;
  wf_bytes : Forall (is_u 8) (_storage b);
  wf_size : size b < 2 ^ 63
}.

(** From a well-formed buffer [m] either returns or throws the exception of
    the class, and leaves a well-formed buffer in both cases: it makes no
    access outside the storage and the process does not abort. *)
Definition safe_outcome {A} (o : outcome A) : Prop :=
  match o with Throw OutOfBounds | Throw AssertFailed => False | _ => True end.
Definition safe {A} (m : M A) : Prop :=
  forall b, bb_wf b -> bb_wf (snd (m b)) /\ safe_outcome (fst (m b)).

(** The write position is the end of the storage, as after any sequence of
    appends to a fresh buffer. *)
Definition at_end (b : ByteBuffer) : Prop := _wpos b = size b.

(** [m] appends [bs] and nothing else. *)
Definition writes (m : M unit) (bs : list Z) : Prop :=
  forall b, at_end b -> size b + Z.of_nat (length bs) <= 10000000 ->
    m b = (Ret tt, mkByteBuffer (_rpos b) (_wpos b + Z.of_nat (length bs)) (_storage b ++ bs)).

(** [rd] reads [v] from the bytes [bs] wherever they are, and stops after them. *)
Definition reads {A} (rd : M A) (v : A) (bs : list Z) : Prop :=
  forall pre post w, Z.of_nat (length (pre ++ bs ++ post)) < 2 ^ 63 ->
    rd (mkByteBuffer (Z.of_nat (length pre)) w (pre ++ bs ++ post)) =
    (Ret v, mkByteBuffer (Z.of_nat (length (pre ++ bs))) w (pre ++ bs ++ post)).

(** What a type of packet fields promises the packets that use it: on the
    values [ok] accepts, [wr] appends bytes that [rd] reads back. *)
Class Codec {A} (wr : A -> M unit) (rd : M A) (ok : A -> Prop) : Prop :=
  codec_bytes : forall a, ok a -> exists bs, writes (wr a) bs /\ reads rd a bs /\ Forall (is_u 8) bs.

(** ** Lemmas on the memory operations *)

Lemma length_vec_resize n l : 0 <= n -> Z.of_nat (length (vec_resize n l)) = n.
Proof. intros. unfold vec_resize. rewrite length_app, length_take, length_replicate. lia. Qed.

Lemma vec_resize_bytes n l : Forall (is_u 8) l -> Forall (is_u 8) (vec_resize n l).
Proof.
  intros. apply Forall_app. split; [by apply Forall_take|].
  apply Forall_replicate. by vm_compute.
Qed.

Lemma length_overwrite pos src l :
  0 <= pos -> pos + Z.of_nat (length src) <= Z.of_nat (length l) ->
  length (overwrite pos src l) = length l.
Proof. intros. unfold overwrite. rewrite !length_app, length_take, length_drop. lia. Qed.

Lemma overwrite_bytes pos src l :
  Forall (is_u 8) src -> Forall (is_u 8) l -> Forall (is_u 8) (overwrite pos src l).
Proof. intros. unfold overwrite. rewrite !Forall_app. auto using Forall_take, Forall_drop. Qed.

Lemma overwrite_end (l src zs : list Z) :
  length zs = length src ->
  overwrite (Z.of_nat (length l)) src (l ++ zs) = l ++ src.
Proof.
  intros. unfold overwrite. rewrite Nat2Z.id, take_app_length, drop_ge, app_nil_r; [done|].
  rewrite length_app. lia.
Qed.

(** ** Writing *)

Lemma append_raw_writes src : writes (append_raw src) src.
Proof.
  intros [r w s] Hend Hsz. unfold at_end, size in *. simpl in *. subst w.
  unfold append_raw, bind, gets, ret, throw, modify. destruct (Z.eqb_spec (Z.of_nat (length src)) 0).
  - destruct src; [|simpl in *; lia]. rewrite app_nil_r. simpl. by rewrite Z.add_0_r.
  - unfold size. simpl. destruct (Z.ltb_spec (Z.of_nat (length s)) 10000000); [simpl|lia].
    destruct (Z.ltb_spec (Z.of_nat (length s)) (Z.of_nat (length s) + Z.of_nat (length src))); [|lia].
    unfold set_wpos, set_storage. simpl. do 2 f_equal. unfold vec_resize.
    rewrite take_ge by lia. apply overwrite_end. rewrite length_replicate. lia.
Qed.

Lemma writes_bind m1 m2 bs1 bs2 :
  writes m1 bs1 -> writes m2 bs2 -> writes (m1 ;; m2) (bs1 ++ bs2).
Proof.
  intros H1 H2 b Hend Hsz. rewrite length_app in Hsz. unfold bind. rewrite H1 by (done || lia).
  rewrite H2.
  - simpl. rewrite <- app_assoc, length_app. do 2 f_equal. lia.
  - unfold at_end, size in *. simpl. rewrite length_app. lia.
  - unfold size in *. simpl. rewrite length_app. lia.
Qed.

Lemma writes_ret : writes (ret tt) [].
Proof. intros [r w s] _ _. unfold ret. simpl. by rewrite app_nil_r, Z.add_0_r. Qed.

Lemma append_int_writes n v : writes (append_int n v) (le_split n v).
Proof. apply append_raw_writes. Qed.

(** ** Reading *)

Lemma reads_bind {A B} (m : M A) (f : A -> M B) a v bs1 bs2 :
  reads m a bs1 -> reads (f a) v bs2 -> reads (bind m f) v (bs1 ++ bs2).
Proof.
  intros H1 H2 pre post w Hsz. unfold bind. rewrite <- app_assoc in *. rewrite H1 by done.
  specialize (H2 (pre ++ bs1) post w). rewrite <- !app_assoc in H2. by apply H2.
Qed.

Lemma reads_ret {A} (a : A) : reads (ret a) a [].
Proof. intros pre post w _. unfold ret. by rewrite app_nil_r. Qed.

Lemma reads_map {A B} (m : M A) (f : A -> B) a bs :
  reads m a bs -> reads (x <- m ;; ret (f x)) (f a) bs.
Proof. intros. rewrite <- (app_nil_r bs). eapply reads_bind; [done|]. apply reads_ret. Qed.

Lemma reads_int bs : reads (read_int (length bs)) (le_combine bs) bs.
Proof.
  intros pre post w Hsz. unfold read_int, read_at, bind, gets, modify, ret, size. simpl.
  rewrite !length_app in *. rewrite u64_id by (unfold is_u; lia).
  destruct (Z.ltb_spec (Z.of_nat (length pre + (length bs + length post)))
                       (Z.of_nat (length pre) + Z.of_nat (length bs))); [lia|].
  simpl. rewrite Nat2Z.id, drop_app_length, take_app_length. unfold set_rpos. simpl.
  rewrite u64_id by (unfold is_u; lia). do 2 f_equal. lia.
Qed.

Lemma reads_int_split n v :
  0 <= v < 256 ^ Z.of_nat n -> reads (read_int n) v (le_split n v).
Proof.
  intros Hv. pose proof (reads_int (le_split n v)) as H.
  by rewrite length_le_split, le_combine_split in H.
Qed.

Lemma le_split_mod n v : le_split n (v mod 256 ^ Z.of_nat n) = le_split n v.
Proof.
  revert v. induction n as [|n IH]; intros v; [done|]. simpl le_split.
  rewrite Nat2Z.inj_succ, Z.pow_succ_r by lia.
  rewrite Z.rem_mul_r by lia. rewrite Z.mul_comm.
  rewrite Z.mod_add, Z.mod_mod by lia. f_equal.
  rewrite Z.div_add by lia. rewrite (Z.div_small (v mod 256)); [by rewrite Z.add_0_l|].
  apply Z.mod_pos_bound. lia.
Qed.

Lemma reads_signed n v :
  (0 < n)%nat ->
  - 2 ^ (8 * Z.of_nat n - 1) <= v < 2 ^ (8 * Z.of_nat n - 1) ->
  reads (r <- read_int n ;; ret (to_signed (8 * Z.of_nat n) r)) v (le_split n v).
Proof.
  intros Hn Hv. set (w := 8 * Z.of_nat n) in *.
  assert (Hp : 256 ^ Z.of_nat n = 2 ^ w) by (subst w; by rewrite Z.pow_mul_r by lia).
  assert (Hw : 2 ^ w = 2 * 2 ^ (w - 1))
    by (rewrite <- Z.pow_succ_r by lia; f_equal; lia).
  assert (Hs : v = to_signed w (v mod 2 ^ w)).
  { unfold to_signed. destruct (Z.lt_ge_cases v 0).
    - rewrite <- (Z_mod_plus_full v 1), Z.mod_small by lia.
      destruct (Z.ltb_spec (v + 1 * 2 ^ w) (2 ^ (w - 1))); lia.
    - rewrite Z.mod_small by lia. destruct (Z.ltb_spec v (2 ^ (w - 1))); lia. }
  rewrite Hs at 1. apply reads_map. rewrite <- (le_split_mod n v), Hp.
  apply reads_int_split. rewrite Hp. apply Z.mod_pos_bound. lia.
Qed.

(** ** The fields of a packet *)

Lemma codec_int n :
  Codec (append_int n) (read_int n) (fun v => 0 <= v < 256 ^ Z.of_nat n).
Proof.
  intros v Hv. exists (le_split n v).
  auto using append_int_writes, reads_int_split, le_split_bytes.
Qed.

#[export] Instance codec_u8 : Codec write_u8 read_u8 (is_u 8).
Proof. exact (codec_int 1). Qed.
#[export] Instance codec_u16 : Codec write_u16 read_u16 (is_u 16).
Proof. exact (codec_int 2). Qed.
#[export] Instance codec_u32 : Codec write_u32 read_u32 (is_u 32).
Proof. exact (codec_int 4). Qed.
#[export] Instance codec_u64 : Codec write_u64 read_u64 (is_u 64).
Proof. exact (codec_int 8). Qed.

Lemma codec_signed n :
  (0 < n)%nat ->
  Codec (append_int n) (r <- read_int n ;; ret (to_signed (8 * Z.of_nat n) r))
    (fun v => - 2 ^ (8 * Z.of_nat n - 1) <= v < 2 ^ (8 * Z.of_nat n - 1)).
Proof.
  intros Hn v Hv. exists (le_split n v).
  auto using append_int_writes, reads_signed, le_split_bytes.
Qed.

#[export] Instance codec_i8 : Codec write_i8 read_i8 (fun v => - 2 ^ 7 <= v < 2 ^ 7).
Proof. apply (codec_signed 1). lia. Qed.
#[export] Instance codec_i16 : Codec write_i16 read_i16 (fun v => - 2 ^ 15 <= v < 2 ^ 15).
Proof. apply (codec_signed 2). lia. Qed.
#[export] Instance codec_i32 : Codec write_i32 read_i32 is_i32.
Proof. apply (codec_signed 4). lia. Qed.
#[export] Instance codec_i64 : Codec write_i64 read_i64 (fun v => - 2 ^ 63 <= v < 2 ^ 63).
Proof. apply (codec_signed 8). lia. Qed.

#[export] Instance codec_bool : Codec write_bool read_bool (fun _ => True).
Proof.
  intros v _. exists [if v then 1 else 0]. split; [apply append_raw_writes|]. split.
  - unfold read_bool. change v with (0 <? (if v then 1 else 0)) at 1 || idtac.
    assert (v = (0 <? (if v then 1 else 0))) as Hv by by destruct v.
    rewrite Hv at 1. apply reads_map. unfold read_i8.
    assert ((if v then 1 else 0) = to_signed 8 (if v then 1 else 0)) as -> by by destruct v.
    assert ([to_signed 8 (if v then 1 else 0)] = le_split 1 (if v then 1 else 0)) as -> by by destruct v.
    apply reads_map. apply reads_int_split. destruct v; simpl; lia.
  - constructor; [|done]. destruct v; by vm_compute.
Qed.

(** *** Strings *)

(** A C string: bytes, none of them the terminator. *)
Definition is_cstring (s : list Z) : Prop := Forall (is_u 8) s /\ 0 ∉ s.

Lemma read_string_loop_spec s : forall fuel pre post w,
  0 ∉ s -> (length s <= fuel)%nat ->
  read_string_loop fuel (mkByteBuffer (Z.of_nat (length pre)) w (pre ++ s ++ 0 :: post)) =
  (Ret tt, mkByteBuffer (Z.of_nat (length (pre ++ s))) w (pre ++ s ++ 0 :: post)).
Proof.
  induction s as [|c s IH]; intros fuel pre post w H0 Hf.
  - rewrite app_nil_r. destruct fuel; unfold read_string_loop, bind, gets; simpl;
      rewrite Nat2Z.id, list_lookup_middle by done; by rewrite bool_decide_eq_true_2.
  - apply not_elem_of_cons in H0 as [Hc H0]. destruct fuel as [|fuel]; [simpl in Hf; lia|].
    simpl read_string_loop. unfold bind at 1, gets at 1. simpl.
    rewrite Nat2Z.id, list_lookup_middle by done.
    rewrite bool_decide_eq_false_2 by (intros [=]; done).
    unfold bind, modify, gets, set_rpos, size. simpl.
    destruct (Z.ltb_spec (Z.of_nat (length (pre ++ c :: s ++ 0 :: post)))
                         (Z.of_nat (length pre) + 1 + 1)) as [Hlt|_].
    { rewrite !length_app in Hlt. simpl in Hlt. rewrite length_app in Hlt. simpl in Hlt. lia. }
    specialize (IH fuel (pre ++ [c]) post w H0). rewrite <- !app_assoc in IH. simpl in *.
    rewrite length_app in IH. simpl in IH. rewrite Nat2Z.inj_add in IH. apply IH. lia.
Qed.

Lemma reads_string old s : 0 ∉ s -> reads (read_string old) s (s ++ [0]).
Proof.
  intros H0 pre post w Hsz. unfold read_string, bind at 1, gets at 1. simpl.
  unfold size at 1. simpl.
  destruct (Z.ltb_spec (Z.of_nat (length pre)) (Z.of_nat (length (pre ++ (s ++ [0]) ++ post)))) as [_|Hge].
  2: { rewrite !length_app in Hge. simpl in Hge. lia. }
  unfold bind at 1. rewrite <- app_assoc. simpl app.
  rewrite read_string_loop_spec; [|done|].
  2: { unfold size. simpl. rewrite !length_app. simpl. lia. }
  unfold bind, gets, modify, ret, set_rpos. simpl. rewrite Nat2Z.id, drop_app_length.
  rewrite !length_app. simpl. do 2 f_equal; [|lia].
  replace (Z.to_nat _) with (length s) by lia. by rewrite take_app_length.
Qed.

#[export] Instance codec_string : Codec write_string (read_string []) is_cstring.
Proof.
  intros s [Hb H0]. exists (s ++ [0]). split; [|split].
  - apply writes_bind; [apply append_raw_writes|apply (append_int_writes 1)].
  - by apply reads_string.
  - apply Forall_app. split; [done|]. constructor; [by vm_compute|done].
Qed.

(** *** Packed GUIDs *)

Lemma lor_shift_add acc bit i :
  0 <= i -> is_u i acc -> 0 <= bit -> Z.lor acc (Z.shiftl bit i) = acc + bit * 2 ^ i.
Proof.
  intros Hi Hacc Hbit. rewrite Z.shiftl_mul_pow2 by done.
  rewrite <- Z.lxor_lor, <- Z.add_nocarry_lxor; [done| |].
  all: apply Z.bits_inj'; intros j Hj; rewrite Z.land_spec, Z.bits_0.
  all: destruct (Z.lt_ge_cases j i);
    [rewrite Z.mul_pow2_bits_low by done; by rewrite andb_false_r
    |by rewrite (testbit_small i acc) by done].
Qed.

(** With no marked byte left, the loop of [readPackGUID] reads nothing. *)
Lemma readPackGUID_loop_done n : forall i mark guid,
  0 <= i -> i + Z.of_nat n <= 8 -> (forall j, i <= j -> Z.testbit mark j = false) ->
  reads (readPackGUID_loop n i mark guid) guid [].
Proof.
  induction n as [|n IH]; intros i mark guid Hi Hn Hm; simpl; [apply reads_ret|].
  rewrite u8_id by (unfold is_u; rewrite Z.shiftl_1_l; split;
    [apply Z.pow_nonneg|apply Z.pow_lt_mono_r]; lia).
  rewrite land_one_shift, Hm by lia. apply IH; [lia..|]. intros. apply Hm. lia.
Qed.

Lemma packGUID_step guid n :
  0 <= guid < 256 ^ Z.of_nat (S n) ->
  Z.land guid 255 = guid mod 256 /\ Z.shiftr guid 8 = guid / 256 /\
  0 <= guid / 256 < 256 ^ Z.of_nat n.
Proof.
  intros H. rewrite Nat2Z.inj_succ, Z.pow_succ_r in H by lia. split; [|split].
  - change 255 with (Z.ones 8). by rewrite Z.land_ones.
  - by rewrite Z.shiftr_div_pow2.
  - split; [apply Z.div_pos; lia|apply Z.div_lt_upper_bound; lia].
Qed.

Lemma reads_byte b : reads read_u8 b [b].
Proof. pose proof (reads_int [b]) as H. simpl le_combine in H. by rewrite Z.add_0_r in H. Qed.

Lemma one_shift_u8 i : 0 <= i < 8 -> u8 (Z.shiftl 1 i) = Z.shiftl 1 i.
Proof.
  intros. apply u8_id. unfold is_u. rewrite Z.shiftl_1_l.
  split; [apply Z.pow_nonneg|apply Z.pow_lt_mono_r]; lia.
Qed.

(** Room for one more byte in the accumulator. *)
Lemma acc_grows i acc b :
  0 <= i -> is_u (8 * i) acc -> is_u 8 b ->
  is_u (8 * (i + 1)) (acc + b * 2 ^ (8 * i)).
Proof.
  unfold is_u. intros. rewrite Z.mul_add_distr_l, Z.pow_add_r by lia. nia.
Qed.

Lemma acc_mono i acc : 0 <= i -> is_u (8 * i) acc -> is_u (8 * (i + 1)) acc.
Proof.
  intros ? [? ?]. split; [done|]. eapply Z.lt_le_trans; [done|]. apply Z.pow_le_mono_r; lia.
Qed.

Lemma readPackGUID_unmarked n i m acc :
  0 <= i < 8 -> Z.testbit m i = false ->
  readPackGUID_loop (S n) i m acc = readPackGUID_loop n (i + 1) m acc.
Proof. intros Hi Hm. simpl. by rewrite one_shift_u8, land_one_shift, Hm by lia. Qed.

Lemma readPackGUID_marked n i m acc b v bs :
  0 <= i < 8 -> Z.testbit m i = true -> is_u (8 * i) acc -> is_u 8 b ->
  reads (readPackGUID_loop n (i + 1) m (acc + b * 2 ^ (8 * i))) v bs ->
  reads (readPackGUID_loop (S n) i m acc) v (b :: bs).
Proof.
  intros Hi Hm Hacc Hb Hr. simpl. rewrite one_shift_u8, land_one_shift, Hm by lia. simpl.
  eapply (reads_bind _ _ b _ [b] bs); [apply reads_byte|].
  rewrite (Z.mul_comm i 8), u64_id.
  - rewrite lor_shift_add by (done || unfold is_u in *; lia). done.
  - pose proof (acc_grows i 0 b) as Hg. rewrite Z.add_0_l in Hg.
    rewrite Z.shiftl_mul_pow2 by lia. destruct Hg as [? ?]; [lia|..|done|].
    + split; [done|]. apply Z.pow_pos_nonneg; lia.
    + split; [done|]. eapply Z.lt_le_trans; [done|]. apply Z.pow_le_mono_r; lia.
Qed.

(** The two loops against each other: what the writer of index [i] onwards
    puts out, the reader of index [i] onwards adds to its accumulator. *)
Definition pack_unpacks (n : nat) (i mark guid : Z) : Prop :=
  exists m bs, packGUID_loop n i mark guid = Some (m, bs) /\
    is_u 8 m /\ Forall (is_u 8) bs /\ (length bs <= n)%nat /\
    (forall j, 0 <= j < i -> Z.testbit m j = Z.testbit mark j) /\
    forall acc, is_u (8 * i) acc ->
      reads (readPackGUID_loop n i m acc) (acc + guid * 2 ^ (8 * i)) bs.

Lemma pack_unpacks_zero n i mark :
  0 <= i -> i + Z.of_nat n = 8 -> is_u i mark -> pack_unpacks n i mark 0.
Proof.
  intros Hi Hn Hmark. exists mark, []. split_and!.
  - by destruct n.
  - unfold is_u in *. assert (2 ^ i <= 2 ^ 8) by (apply Z.pow_le_mono_r; lia). lia.
  - done.
  - simpl. lia.
  - done.
  - intros acc _. rewrite Z.mul_0_l, Z.add_0_r. apply readPackGUID_loop_done; [lia..|].
    intros. by apply (testbit_small i).
Qed.

Lemma packGUID_loop_spec n : forall i mark guid,
  0 <= i -> i + Z.of_nat n = 8 -> is_u i mark -> 0 <= guid < 256 ^ Z.of_nat n ->
  pack_unpacks n i mark guid.
Proof.
  induction n as [|n IH]; intros i mark guid Hi Hn Hmark Hg.
  { simpl in Hg. assert (guid = 0) as -> by lia. by apply pack_unpacks_zero. }
  destruct (Z.eq_dec guid 0) as [->|Hnz]; [by apply pack_unpacks_zero|].
  destruct (packGUID_step guid n Hg) as (Hl & Hs & Hd).
  assert (Hpow : guid * 2 ^ (8 * i) =
                 guid mod 256 * 2 ^ (8 * i) + guid / 256 * 2 ^ (8 * (i + 1))).
  { rewrite (Z.div_mod guid 256) at 1 by lia.
    rewrite Z.mul_add_distr_l, (Z.pow_add_r 2 (8 * i)) by lia. lia. }
  assert (Hb : is_u 8 (guid mod 256)) by (apply Z.mod_pos_bound; lia).
  unfold pack_unpacks. simpl packGUID_loop.
  rewrite (proj2 (Z.eqb_neq _ _) Hnz), Hl, Hs, (u8_id (i + 1)), one_shift_u8 by (try lia; unfold is_u; lia).
  destruct (Z.eqb_spec (guid mod 256) 0) as [Hz|Hz].
  - destruct (IH (i + 1) mark (guid / 256)) as (m & bs & -> & Hm & Hbs & Hlen & Hj & Hrd); [lia|lia| |lia|].
    { unfold is_u in *. rewrite Z.pow_add_r by lia. lia. }
    exists m, bs. split_and!; [done..|lia|intros; apply Hj; lia|].
    intros acc Hacc. rewrite readPackGUID_unmarked; [|lia|rewrite Hj by lia; by apply (testbit_small i)].
    rewrite Hpow, Hz, Z.mul_0_l, Z.add_0_l. apply Hrd. by apply acc_mono.
  - destruct (IH (i + 1) (Z.lor mark (Z.shiftl 1 i)) (guid / 256))
      as (m & bs & -> & Hm & Hbs & Hlen & Hj & Hrd); [lia|lia| |lia|].
    { apply is_u_lor; [lia|..]; unfold is_u in *; rewrite ?Z.shiftl_1_l, Z.pow_add_r by lia;
        pose proof (Z.pow_pos_nonneg 2 i); lia. }
    simpl. rewrite u8_id by done.
    exists m, (guid mod 256 :: bs). split_and!; [done|done|by constructor|simpl; lia| |].
    { intros j Hlt. rewrite Hj, Z.lor_spec, testbit_one_shift by lia.
      rewrite bool_decide_eq_false_2 by lia. by rewrite orb_false_r. }
    intros acc Hacc. apply readPackGUID_marked; [lia| |done|done|].
    { rewrite Hj, Z.lor_spec, testbit_one_shift by lia.
      by rewrite bool_decide_eq_true_2, orb_true_r. }
    rewrite Hpow, Z.add_assoc. apply Hrd. by apply acc_grows.
Qed.

(** Eight iterations of the writer's loop empty every 64-bit value, and the
    packed form has at most nine bytes, the size of the source's array. *)
Lemma appendPackGUID_fuel guid :
  is_u 64 guid -> exists bs, packGUID guid = Some bs /\ (length bs <= 9)%nat.
Proof.
  intros Hg. destruct (packGUID_loop_spec 8 0 0 guid) as (m & bs & E & _ & _ & Hl & _); [done..|].
  exists (m :: bs). unfold packGUID. rewrite E. simpl. split; [done|lia].
Qed.

Lemma packguid_bytes guid :
  is_u 64 guid ->
  exists bs, writes (appendPackGUID guid) bs /\ reads readPackGUID guid bs /\
             Forall (is_u 8) bs /\ (length bs <= 9)%nat.
Proof.
  intros Hg.
  destruct (packGUID_loop_spec 8 0 0 guid) as (m & bs & E & Hm & Hbs & Hl & _ & Hrd); [done..|].
  exists (m :: bs). split_and!; [| |by constructor|simpl; lia].
  - unfold appendPackGUID, packGUID. rewrite E. simpl. apply append_raw_writes.
  - unfold readPackGUID. eapply (reads_bind _ _ m _ [m] bs).
    + apply reads_byte.
    + specialize (Hrd 0). rewrite Z.mul_0_r, Z.pow_0_r, Z.mul_1_r, Z.add_0_l in Hrd.
      apply Hrd. by vm_compute.
Qed.

#[export] Instance codec_packguid : Codec appendPackGUID readPackGUID (is_u 64).
Proof. intros guid Hg. destruct (packguid_bytes guid Hg) as (bs & ? & ? & ? & _). eauto. Qed.

(** *** A packet as the sequence of its [<<] operands *)

Inductive field :=
  | FU8 (v : Z) | FU16 (v : Z) | FU32 (v : Z) | FU64 (v : Z)
  | FStr (s : list Z) | FPackGuid (guid : Z).

Inductive kind := KU8 | KU16 | KU32 | KU64 | KStr | KPackGuid.

Definition field_kind (f : field) : kind :=
  match f with
  | FU8 _ => KU8 | FU16 _ => KU16 | FU32 _ => KU32 | FU64 _ => KU64
  | FStr _ => KStr | FPackGuid _ => KPackGuid
  end.

Definition field_ok (f : field) : Prop :=
  match f with
  | FU8 v => is_u 8 v | FU16 v => is_u 16 v | FU32 v => is_u 32 v | FU64 v => is_u 64 v
  | FStr s => is_cstring s | FPackGuid g => is_u 64 g
  end.

Definition write_field (f : field) : M unit :=
  match f with
  | FU8 v => write_u8 v | FU16 v => write_u16 v | FU32 v => write_u32 v | FU64 v => write_u64 v
  | FStr s => write_string s | FPackGuid g => appendPackGUID g
  end.

Definition read_field (k : kind) : M field :=
  match k with
  | KU8 => v <- read_u8 ;; ret (FU8 v)
  | KU16 => v <- read_u16 ;; ret (FU16 v)
  | KU32 => v <- read_u32 ;; ret (FU32 v)
  | KU64 => v <- read_u64 ;; ret (FU64 v)
  | KStr => v <- read_string [] ;; ret (FStr v)
  | KPackGuid => v <- readPackGUID ;; ret (FPackGuid v)
  end.

Fixpoint write_fields (fs : list field) : M unit :=
  match fs with
  | [] => ret tt
  | f :: fs => write_field f ;; write_fields fs
  end.

Fixpoint read_fields (ks : list kind) : M (list field) :=
  match ks with
  | [] => ret []
  | k :: ks => f <- read_field k ;; fs <- read_fields ks ;; ret (f :: fs)
  end.

(** The bytes a field takes at most. *)
Definition field_length (f : field) : Z :=
  match f with
  | FU8 _ => 1 | FU16 _ => 2 | FU32 _ => 4 | FU64 _ => 8
  | FStr s => Z.of_nat (length s) + 1 | FPackGuid _ => 9
  end.
Definition fields_length (fs : list field) : Z := foldr (fun f n => field_length f + n) 0 fs.

Lemma field_bytes f :
  field_ok f ->
  exists bs, writes (write_field f) bs /\ reads (read_field (field_kind f)) f bs /\
             Z.of_nat (length bs) <= field_length f.
Proof.
  destruct f; simpl; intros Hf;
    [exists (le_split 1 v)|exists (le_split 2 v)|exists (le_split 4 v)|exists (le_split 8 v)
    |exists (s ++ [0])|].
  1-4: rewrite length_le_split; (split; [apply append_int_writes|split; [|done]]);
    by apply reads_map, reads_int_split.
  - destruct Hf. split; [|split].
    + apply writes_bind; [apply append_raw_writes|apply (append_int_writes 1)].
    + by apply reads_map, reads_string.
    + rewrite length_app. simpl. lia.
  - destruct (packguid_bytes guid Hf) as (bs & ? & ? & _ & ?).
    exists bs. split; [done|]. split; [by apply reads_map|lia].
Qed.

Lemma fields_bytes fs :
  Forall field_ok fs ->
  exists bs, writes (write_fields fs) bs /\ reads (read_fields (field_kind <$> fs)) fs bs /\
             Z.of_nat (length bs) <= fields_length fs.
Proof.
  induction 1 as [|f fs Hf _ IH]; simpl.
  - exists []. split_and!; [apply writes_ret|apply reads_ret|done].
  - destruct (field_bytes f Hf) as (b1 & Hw1 & Hr1 & ?), IH as (b2 & Hw2 & Hr2 & ?).
    exists (b1 ++ b2). split; [by apply writes_bind|]. split.
    + eapply reads_bind; [done|]. by eapply reads_map.
    + rewrite length_app. unfold fields_length in *. simpl. lia.
Qed.

(** What a [Codec] gives its client: a value appended to a buffer is read
    back from where it was put, and the read position ends after it. *)
Lemma written_is_read {A} (wr : M unit) (rd : M A) v bs b :
  writes wr bs -> reads rd v bs -> at_end b -> size b + Z.of_nat (length bs) <= 10000000 ->
  exists b', wr b = (Ret tt, b') /\ rd (set_rpos (size b) b') = (Ret v, set_rpos (size b') b').
Proof.
  intros Hw Hr Hend Hsz. eexists. split; [by apply Hw|].
  unfold set_rpos, size in *. simpl. rewrite length_app in *.
  specialize (Hr (_storage b) []). rewrite !app_nil_r in Hr.
  rewrite Hr by (rewrite length_app; lia). by rewrite length_app.
Qed.

(** ** Safety of the reading operations *)

Create HintDb bb.

Lemma safe_ret {A} (a : A) : safe (ret a).
Proof. intros b Hb. done. Qed.

Lemma safe_bind {A B} (m : M A) (f : A -> M B) :
  safe m -> (forall a, safe (f a)) -> safe (bind m f).
Proof.
  intros Hm Hf b Hb. unfold bind. destruct (Hm b Hb) as [Hw Ho].
  destruct (m b) as [[a|e] b']; simpl in *; [by apply Hf|done].
Qed.

Lemma bb_wf_rpos b p : bb_wf b -> 0 <= p <= size b -> bb_wf (set_rpos p b).
Proof. intros [] ?. by constructor. Qed.

Lemma safe_read_int n : Z.of_nat n <= 8 -> safe (read_int n).
Proof.
  intros Hn b Hb. pose proof Hb as [Hr Hw Hs Hz].
  unfold read_int, read_at, bind, gets, modify, throw, ret, id. simpl.
  rewrite u64_id by (unfold is_u; lia).
  destruct (Z.ltb_spec (size b) (_rpos b + Z.of_nat n)); simpl; [done|].
  split; [|done]. apply bb_wf_rpos; [done|]. rewrite ?u64_id by (unfold is_u; lia). lia.
Qed.

Lemma safe_read_skip skip : is_u 64 skip -> safe (read_skip skip).
Proof.
  intros Hsk b Hb. unfold read_skip, bind, gets, modify, throw, id. simpl.
  destruct (Z.ltb_spec (size b) (u64 (_rpos b + skip))); simpl; [done|].
  split; [|done]. apply bb_wf_rpos; [done|].
  pose proof (u64_range (_rpos b + skip)) as []. lia.
Qed.

Lemma safe_read_bytes len : 0 <= len < 2 ^ 63 -> safe (read_bytes len).
Proof.
  intros Hl b Hb. pose proof Hb as [Hr Hw Hs Hz].
  unfold read_bytes, bind, gets, modify, throw, ret. simpl. unfold id.
  rewrite u64_id by (unfold is_u; lia).
  destruct (Z.ltb_spec (size b) (_rpos b + len)); simpl; [done|].
  split; [|done]. apply bb_wf_rpos; [done|]. rewrite ?u64_id by (unfold is_u; lia). lia.
Qed.

Lemma safe_read_string_loop fuel : forall b,
  bb_wf b -> _rpos b < size b -> size b - _rpos b <= Z.of_nat fuel ->
  bb_wf (snd (read_string_loop fuel b)) /\ safe_outcome (fst (read_string_loop fuel b)) /\
  (fst (read_string_loop fuel b) = Ret tt ->
   _rpos (snd (read_string_loop fuel b)) < size (snd (read_string_loop fuel b))).
Proof.
  induction fuel as [|fuel IH]; intros b Hb Hlt Hf; [lia|].
  pose proof Hb as [Hr Hw Hs Hz].
  simpl. unfold bind at 1 4 7 10 13, gets at 1 3 5 7 9. simpl. unfold id.
  case_bool_decide; [done|]. unfold bind, modify, gets, throw. simpl. unfold id.
  change (size (set_rpos (_rpos b + 1) b)) with (size b).
  change (_rpos (set_rpos (_rpos b + 1) b)) with (_rpos b + 1).
  destruct (Z.ltb_spec (size b) (_rpos b + 1 + 1)) as [|Hle]; simpl.
  - split; [|done]. apply bb_wf_rpos; [done|lia].
  - apply IH; [apply bb_wf_rpos; [done|lia]|..];
      unfold size, set_rpos in *; simpl in *; lia.
Qed.

Lemma safe_read_string old : safe (read_string old).
Proof.
  intros b Hb. unfold read_string, bind, gets. simpl. unfold id.
  destruct (Z.ltb_spec (_rpos b) (size b)); [|done].
  destruct (safe_read_string_loop (Z.to_nat (size b - _rpos b)) b) as (Hw & Ho & Hlt); [done|lia|lia|].
  destruct (read_string_loop _ b) as [[[]|e] b']; simpl in *; [|done].
  split; [|done]. specialize (Hlt eq_refl).
  apply bb_wf_rpos; [done|]. pose proof (wf_rpos _ Hw). lia.
Qed.

Lemma safe_read_times {A} n (rd : M A) : safe rd -> safe (read_times n rd).
Proof. intros. induction n; simpl; auto using safe_ret, safe_bind. Qed.

Lemma safe_read_vector {A} (rd : M A) : safe rd -> safe (read_vector rd).
Proof.
  intros. apply safe_bind; [by apply safe_read_int|]. intros. by apply safe_read_times.
Qed.

Lemma safe_readPackGUID : safe readPackGUID.
Proof.
  apply safe_bind; [by apply safe_read_int|]. intros mark.
  assert (H : forall n i g, safe (readPackGUID_loop n i mark g)); [|apply H].
  induction n as [|n IH]; intros i g; simpl; [apply safe_ret|].
  case_match; [apply IH|]. apply safe_bind; [by apply safe_read_int|auto].
Qed.

#[export] Hint Resolve @safe_ret @safe_bind safe_read_int safe_read_skip safe_read_bytes
  safe_read_string @safe_read_vector safe_readPackGUID : bb.

Lemma safe_read_field k : safe (read_field k).
Proof. destruct k; simpl; eauto using safe_bind, safe_ret with bb; apply safe_bind; auto with bb; by apply safe_read_int. Qed.

(** Appending to the end keeps the buffer well formed. *)
Lemma append_raw_wf src b :
  Forall (is_u 8) src -> bb_wf b -> at_end b -> size b + Z.of_nat (length src) <= 10000000 ->
  bb_wf (snd (append_raw src b)) /\ at_end (snd (append_raw src b)).
Proof.
  intros Hsrc [Hr Hw Hs Hz] Hend Hsz. rewrite append_raw_writes by done. simpl.
  unfold at_end, size in *. simpl. rewrite length_app. split; [|lia].
  constructor; unfold size; simpl; rewrite ?length_app; [lia..| |lia]. by apply Forall_app.
Qed.

(** ** Properties *)

(** C33: a packed GUID round trips: [appendPackGUID] of any 64-bit GUID at the
    end of a buffer succeeds, and [readPackGUID] from that place returns the
    same GUID and stops at the end of what was written. *)
Theorem packguid_roundtrip guid b :
  is_u 64 guid -> at_end b -> size b <= 9999991 ->
  exists b', appendPackGUID guid b = (Ret tt, b') /\
             readPackGUID (set_rpos (size b) b') = (Ret guid, set_rpos (size b') b').
Proof.
  intros Hg Hend Hsz. destruct (packguid_bytes guid Hg) as (bs & Hw & Hr & _ & Hlen).
  apply (written_is_read _ _ _ bs); auto. lia.
Qed.

Lemma packguid_roundtrip_witness :
  exists b', appendPackGUID 0xF130000C0D00002A newByteBuffer = (Ret tt, b') /\
             readPackGUID (set_rpos 0 b') = (Ret 0xF130000C0D00002A, set_rpos (size b') b').
Proof. apply (packguid_roundtrip 0xF130000C0D00002A newByteBuffer); by vm_compute. Defined.

(** C34: a packet round trips: writing the operands of a chain of [<<] into a
    fresh buffer succeeds, and reading them back with the matching chain of
    [>>] returns them in order and leaves nothing unread. *)
Theorem packet_roundtrip fs :
  Forall field_ok fs -> fields_length fs <= 10000000 ->
  exists b, write_fields fs newByteBuffer = (Ret tt, b) /\
            read_fields (field_kind <$> fs) b = (Ret fs, set_rpos (size b) b).
Proof.
  intros Hok Hlen. destruct (fields_bytes fs Hok) as (bs & Hw & Hr & Hl).
  destruct (written_is_read _ _ _ bs newByteBuffer Hw Hr) as (b & E & F);
    [done|unfold size; simpl; lia|].
  exists b. split; [done|]. rewrite Hw in E by (done || unfold size; simpl; lia).
  by injection E as <-.
Qed.

Lemma packet_roundtrip_witness :
  exists b, write_fields [FU8 7; FStr [87; 111]; FPackGuid 42] newByteBuffer = (Ret tt, b) /\
            read_fields [KU8; KStr; KPackGuid] b =
            (Ret [FU8 7; FStr [87; 111]; FPackGuid 42], set_rpos (size b) b).
Proof.
  apply (packet_roundtrip [FU8 7; FStr [87; 111]; FPackGuid 42]).
  - repeat constructor; try by vm_compute. by apply (bool_decide_unpack _).
  - by vm_compute.
Defined.

(** C35: reading is memory safe: from any well-formed buffer, whatever bytes a
    client sent, each reading operation returns or throws
    [ByteBufferException]; it never reads outside the storage, and it leaves
    the read position inside it. *)
Theorem reading_is_safe :
  (forall k, safe (read_field k)) /\ (forall ks, safe (read_fields ks)) /\
  (forall old, safe (read_string old)) /\ safe readPackGUID /\
  (forall len, 0 <= len < 2 ^ 63 -> safe (read_bytes len)) /\
  (forall skip, is_u 64 skip -> safe (read_skip skip)) /\
  safe (read_vector read_u32).
Proof.
  assert (H4 : safe read_u32) by by apply safe_read_int.
  split_and!; auto using safe_read_field with bb.
  induction ks as [|k ks IH]; simpl; [apply safe_ret|].
  apply safe_bind; [apply safe_read_field|]. intros f.
  apply safe_bind; [done|]. intros. apply safe_ret.
Qed.
