(* ===== verification/ObjectGuid.v ===== *)
(** * ObjectGuid: object identifiers (src/src/game/ObjectGuid.h, ObjectGuid.cpp)

    The 64-bit identifier of every object of the world, its fields, the clamp
    applied to identifiers that come from clients, and the generators of the
    low part. *)
From S2P Require Import Prelude ByteBuffer.

(** ** Data *)

Inductive TypeID :=
  | TYPEID_OBJECT | TYPEID_ITEM | TYPEID_CONTAINER | TYPEID_UNIT | TYPEID_PLAYER
  | TYPEID_GAMEOBJECT | TYPEID_DYNAMICOBJECT | TYPEID_CORPSE.

(** The enumeration [HighGuid]; [HIGHGUID_CONTAINER] has the value of
    [HIGHGUID_ITEM]. A high part read from a GUID can be any 16-bit value. *)
Definition HIGHGUID_ITEM : Z := 0x4000.
Definition HIGHGUID_CONTAINER : Z := 0x4000.
Definition HIGHGUID_PLAYER : Z := 0x0000.
Definition HIGHGUID_GAMEOBJECT : Z := 0xF110.
Definition HIGHGUID_TRANSPORT : Z := 0xF120.
Definition HIGHGUID_UNIT : Z := 0xF130.
Definition HIGHGUID_PET : Z := 0xF140.
Definition HIGHGUID_DYNAMICOBJECT : Z := 0xF100.
Definition HIGHGUID_CORPSE : Z := 0xF101.
Definition HIGHGUID_MO_TRANSPORT : Z := 0x1FC0.

Abbreviation ObjectGuid := Z (only parsing).

(** ** Constructors and accessors *)

Definition GetHigh (guid : Z) : Z := Z.land (Z.shiftr guid 48) 0xFFFF.

Definition HasEntry_high (high : Z) : bool :=
  if (high =? HIGHGUID_ITEM) || (high =? HIGHGUID_PLAYER) || (high =? HIGHGUID_DYNAMICOBJECT)
     || (high =? HIGHGUID_CORPSE) || (high =? HIGHGUID_MO_TRANSPORT) then false else true.

Definition HasEntry (guid : Z) : bool := HasEntry_high (GetHigh guid).

Definition ObjectGuid_entry (hi entry counter : Z) : ObjectGuid :=
  if counter =? 0 then 0
  else Z.lor (Z.lor counter (u64 (Z.shiftl entry 24))) (u64 (Z.shiftl hi 48)).

Definition ObjectGuid_low (hi counter : Z) : ObjectGuid :=
  if counter =? 0 then 0 else Z.lor counter (u64 (Z.shiftl hi 48)).

Definition GetEntry (guid : Z) : Z :=
  if HasEntry guid then u32 (Z.land (Z.shiftr guid 24) 0xFFFFFF) else 0.

Definition GetCounter_of (guid : Z) (hasEntry : bool) : Z :=
  if hasEntry then u32 (Z.land guid 0xFFFFFF) else u32 (Z.land guid 0xFFFFFFFF).

Definition GetCounter (guid : Z) : Z := GetCounter_of guid (HasEntry guid).

Definition GetMaxCounter (high : Z) : Z := if HasEntry_high high then 0x00FFFFFF else 0xFFFFFFFF.

Definition IsEmpty (guid : Z) : bool := guid =? 0.
Definition IsCreature (guid : Z) : bool := GetHigh guid =? HIGHGUID_UNIT.
Definition IsPet (guid : Z) : bool := GetHigh guid =? HIGHGUID_PET.
Definition IsAnyTypeCreature (guid : Z) : bool := IsCreature guid || IsPet guid.
Definition IsPlayer (guid : Z) : bool := negb (IsEmpty guid) && (GetHigh guid =? HIGHGUID_PLAYER).
Definition IsUnit (guid : Z) : bool := IsAnyTypeCreature guid || IsPlayer guid.
Definition IsItem (guid : Z) : bool := GetHigh guid =? HIGHGUID_ITEM.
Definition IsGameObject (guid : Z) : bool := GetHigh guid =? HIGHGUID_GAMEOBJECT.
Definition IsDynamicObject (guid : Z) : bool := GetHigh guid =? HIGHGUID_DYNAMICOBJECT.
Definition IsCorpse (guid : Z) : bool := GetHigh guid =? HIGHGUID_CORPSE.
Definition IsTransport (guid : Z) : bool := GetHigh guid =? HIGHGUID_TRANSPORT.
Definition IsMOTransport (guid : Z) : bool := GetHigh guid =? HIGHGUID_MO_TRANSPORT.

Definition GetTypeId (high : Z) : TypeID :=
  if high =? HIGHGUID_ITEM then TYPEID_ITEM
  else if high =? HIGHGUID_UNIT then TYPEID_UNIT
  else if high =? HIGHGUID_PET then TYPEID_UNIT
  else if high =? HIGHGUID_PLAYER then TYPEID_PLAYER
  else if high =? HIGHGUID_GAMEOBJECT then TYPEID_GAMEOBJECT
  else if high =? HIGHGUID_DYNAMICOBJECT then TYPEID_DYNAMICOBJECT
  else if high =? HIGHGUID_CORPSE then TYPEID_CORPSE
  else if high =? HIGHGUID_MO_TRANSPORT then TYPEID_GAMEOBJECT
  else TYPEID_OBJECT.

Definition GetTypeName (high : Z) : string :=
  if high =? HIGHGUID_ITEM then "Item"
  else if high =? HIGHGUID_PLAYER then "Player"
  else if high =? HIGHGUID_GAMEOBJECT then "Gameobject"
  else if high =? HIGHGUID_TRANSPORT then "Transport"
  else if high =? HIGHGUID_UNIT then "Creature"
  else if high =? HIGHGUID_PET then "Pet"
  else if high =? HIGHGUID_DYNAMICOBJECT then "DynObject"
  else if high =? HIGHGUID_CORPSE then "Corpse"
  else if high =? HIGHGUID_MO_TRANSPORT then "MoTransport"
  else "<unknown>".

(** ** Reading and writing *)

Definition ClampPlayerGuid (value : Z) : Z :=
  if GetHigh value =? HIGHGUID_PLAYER
  then GetCounter_of value (HasEntry_high HIGHGUID_PLAYER)
  else value.

Definition write_guid (guid : ObjectGuid) : M unit := write_u64 guid.

Definition read_guid : M ObjectGuid := value <- read_u64 ;; ret (ClampPlayerGuid value).

Definition read_packed : M ObjectGuid := value <- readPackGUID ;; ret (ClampPlayerGuid value).

(** [PackedGuid]: a buffer that holds one packed GUID; [Set] rewrites it from
    the start. *)
Definition PackedGuid_new (guid : Z) : ByteBuffer := snd (appendPackGUID guid newByteBuffer).

Definition PackedGuid_Set (pg : ByteBuffer) (guid : Z) : ByteBuffer :=
  snd ((wpos_set 0 ;; appendPackGUID guid) pg).

Definition PackedGuid_size (pg : ByteBuffer) : Z := size pg.

Definition write_packed (pg : ByteBuffer) : M unit := append_buffer pg.

(** ** Generators *)

Record ObjectGuidGenerator := mkGenerator {
  m_nextGuid : Z;
  m_freedGuids : list Z
}.

(** The result of a generation: the GUID, and whether the server was told to
    stop ([World::StopNow], which sets a flag and returns). *)
Definition Generate (high : Z) (g : ObjectGuidGenerator) : Z * bool * ObjectGuidGenerator :=
  match m_freedGuids g with
  | f :: rest => (f, false, mkGenerator (m_nextGuid g) rest)
  | [] =>
    let stop := u32 (GetMaxCounter high - 1) <=? m_nextGuid g in
    (m_nextGuid g, stop, mkGenerator (u32 (m_nextGuid g + 1)) [])
  end.

Definition GenerateRange (high : Z) (g : ObjectGuidGenerator) : Z * Z * bool * ObjectGuidGenerator :=
  let GENERATE_RANGE_SIZE := 100 in
  let stop := u32 (GetMaxCounter high - GENERATE_RANGE_SIZE) <=? m_nextGuid g in
  let first := m_nextGuid g in
  let next := u32 (m_nextGuid g + GENERATE_RANGE_SIZE) in
  (first, next, stop, mkGenerator next (m_freedGuids g)).

Definition FreeGuid (guid : Z) (g : ObjectGuidGenerator) : ObjectGuidGenerator :=
  mkGenerator (m_nextGuid g) (m_freedGuids g ++ [guid]).

(** ** Lemmas *)

Lemma land_mask x w : 0 <= w -> Z.land x (2 ^ w - 1) = x mod 2 ^ w.
Proof. intros. rewrite <- Z.land_ones by done. by rewrite Z.ones_equiv, Z.sub_1_r. Qed.

Lemma GetHigh_val guid : is_u 64 guid -> GetHigh guid = guid / 2 ^ 48.
Proof.
  intros [? ?]. unfold GetHigh. change 65535 with (2 ^ 16 - 1).
  rewrite land_mask, Z.shiftr_div_pow2 by lia. apply Z.mod_small.
  split; [apply Z.div_pos; lia|apply Z.div_lt_upper_bound; lia].
Qed.

(** The three fields of a GUID side by side. *)
Lemma guid_entry_val hi entry counter :
  is_u 16 hi -> is_u 24 entry -> is_u 24 counter -> counter <> 0 ->
  ObjectGuid_entry hi entry counter = counter + entry * 2 ^ 24 + hi * 2 ^ 48.
Proof.
  unfold is_u. intros Hh He Hc Hnz. unfold ObjectGuid_entry.
  rewrite (proj2 (Z.eqb_neq _ _) Hnz).
  rewrite !u64_id by (unfold is_u; rewrite Z.shiftl_mul_pow2 by lia; lia).
  rewrite (lor_shift_add counter) by (unfold is_u; lia).
  rewrite lor_shift_add by (unfold is_u; lia). done.
Qed.

Lemma guid_low_val hi counter :
  is_u 16 hi -> is_u 32 counter -> counter <> 0 ->
  ObjectGuid_low hi counter = counter + hi * 2 ^ 48.
Proof.
  unfold is_u. intros Hh Hc Hnz. unfold ObjectGuid_low.
  rewrite (proj2 (Z.eqb_neq _ _) Hnz).
  rewrite u64_id by (unfold is_u; rewrite Z.shiftl_mul_pow2 by lia; lia).
  apply lor_shift_add; unfold is_u; lia.
Qed.

Lemma GetCounter_of_val guid b :
  GetCounter_of guid b = guid mod (if b then 2 ^ 24 else 2 ^ 32).
Proof.
  unfold GetCounter_of. destruct b.
  - change 16777215 with (2 ^ 24 - 1). rewrite land_mask by lia. apply u32_id.
    pose proof (Z.mod_pos_bound guid (2 ^ 24)). unfold is_u. lia.
  - change 4294967295 with (2 ^ 32 - 1). rewrite land_mask by lia. apply u32_id.
    apply Z.mod_pos_bound. lia.
Qed.

(** Player GUIDs are their low part. *)
Lemma player_guid_low c : is_u 32 c -> ObjectGuid_low HIGHGUID_PLAYER c = c.
Proof.
  intros Hc. unfold ObjectGuid_low. case_match; to_prop; [done|].
  unfold HIGHGUID_PLAYER. rewrite Z.shiftl_0_l. apply Z.lor_0_r.
Qed.

Lemma player_counter g : is_u 32 g -> GetCounter g = g.
Proof.
  intros Hg. unfold GetCounter, HasEntry. rewrite GetHigh_val by (unfold is_u in *; lia).
  rewrite Z.div_small by (unfold is_u in *; lia). rewrite GetCounter_of_val.
  apply Z.mod_small. done.
Qed.

(** ** Properties *)

(** A GUID built with an entry keeps its three fields apart: for a type
    that has an entry, a 24-bit entry and a non-zero 24-bit counter, the
    accessors return exactly what the constructor was given. *)
Theorem guid_fields_roundtrip hi entry counter :
  is_u 16 hi -> HasEntry_high hi = true -> is_u 24 entry -> is_u 24 counter -> counter <> 0 ->
  let g := ObjectGuid_entry hi entry counter in
  GetHigh g = hi /\ GetEntry g = entry /\ GetCounter g = counter /\ is_u 64 g.
Proof.
  intros Hh Hhas He Hc Hnz g. unfold is_u in *.
  assert (Hg : g = counter + entry * 2 ^ 24 + hi * 2 ^ 48) by (by apply guid_entry_val).
  assert (H64 : is_u 64 g) by (unfold is_u; lia).
  assert (Hhi : GetHigh g = hi).
  { rewrite GetHigh_val by done. rewrite Hg, Z.div_add, Z.div_small by lia. lia. }
  unfold GetEntry, GetCounter, HasEntry. rewrite Hhi, Hhas, GetCounter_of_val.
  split_and!; [done| | |apply H64..].
  - change 16777215 with (2 ^ 24 - 1). rewrite land_mask, Z.shiftr_div_pow2 by lia.
    replace (g / 2 ^ 24) with (entry + hi * 2 ^ 24).
    + rewrite Z.mod_add, Z.mod_small, u32_id by (unfold is_u; lia). done.
    + apply (Z.div_unique_pos _ _ _ counter); lia.
  - rewrite Hg. replace (counter + entry * 2 ^ 24 + hi * 2 ^ 48)
      with (counter + (entry + hi * 2 ^ 24) * 2 ^ 24) by lia.
    rewrite Z.mod_add, Z.mod_small by lia. done.
Qed.

Lemma guid_fields_roundtrip_witness :
  let g := ObjectGuid_entry HIGHGUID_UNIT 3 17 in
  GetHigh g = HIGHGUID_UNIT /\ GetEntry g = 3 /\ GetCounter g = 17 /\ is_u 64 g.
Proof. by apply (guid_fields_roundtrip HIGHGUID_UNIT 3 17). Defined.

(** No packet can smuggle an alias of a player: whatever 64-bit value a
    client sends, a GUID read from a packet that claims to be a player is its
    own low part, so two GUIDs of players with the same counter are equal and
    the value fits 32 bits; every other GUID is left as sent. *)
Theorem clamped_guids_have_no_alias v1 v2 :
  is_u 64 v1 -> is_u 64 v2 ->
  let g1 := ClampPlayerGuid v1 in let g2 := ClampPlayerGuid v2 in
  (GetHigh v1 = HIGHGUID_PLAYER -> is_u 32 g1 /\ g1 = GetCounter v1) /\
  (GetHigh v1 <> HIGHGUID_PLAYER -> g1 = v1) /\
  GetHigh g1 = GetHigh v1 /\
  (GetHigh g1 = HIGHGUID_PLAYER -> GetHigh g2 = HIGHGUID_PLAYER ->
   GetCounter g1 = GetCounter g2 -> g1 = g2).
Proof.
  intros H1 H2 g1 g2.
  assert (Hcl : forall v, is_u 64 v -> GetHigh v = HIGHGUID_PLAYER ->
    ClampPlayerGuid v = v mod 2 ^ 32 /\ GetCounter v = v mod 2 ^ 32 /\
    GetHigh (ClampPlayerGuid v) = HIGHGUID_PLAYER).
  { intros v Hv Hp. unfold ClampPlayerGuid, GetCounter, HasEntry.
    rewrite Hp, !GetCounter_of_val. simpl. split_and!; [done..|].
    pose proof (Z.mod_pos_bound v (2 ^ 32)).
    rewrite GetHigh_val by (unfold is_u; lia). by rewrite Z.div_small by lia. }
  assert (Hne : forall v, GetHigh v <> HIGHGUID_PLAYER -> ClampPlayerGuid v = v).
  { intros v Hv. unfold ClampPlayerGuid. by rewrite (proj2 (Z.eqb_neq _ _) Hv). }
  assert (Hk : forall v, is_u 64 v -> GetHigh (ClampPlayerGuid v) = GetHigh v).
  { intros v Hv. destruct (Z.eq_dec (GetHigh v) HIGHGUID_PLAYER) as [E|E].
    - rewrite E. by apply Hcl.
    - by rewrite Hne. }
  subst g1 g2. rewrite !Hk by done. split_and!; [|apply Hne|done|].
  - intros Hp. destruct (Hcl v1 H1 Hp) as (-> & -> & _). split; [|done].
    apply Z.mod_pos_bound. lia.
  - intros Hp1 Hp2. destruct (Hcl v1 H1 Hp1) as (E1 & _ & ?), (Hcl v2 H2 Hp2) as (E2 & _ & ?).
    unfold GetCounter, HasEntry. rewrite !Hk, Hp1, Hp2, !GetCounter_of_val by done.
    simpl. by rewrite E1, E2, !Z.mod_mod by lia.
Qed.

Lemma clamped_guids_have_no_alias_witness :
  let g1 := ClampPlayerGuid 0x50000000A in let g2 := ClampPlayerGuid 0xA in
  (GetHigh 0x50000000A = HIGHGUID_PLAYER -> is_u 32 g1 /\ g1 = GetCounter 0x50000000A) /\
  (GetHigh 0x50000000A <> HIGHGUID_PLAYER -> g1 = 0x50000000A) /\
  GetHigh g1 = GetHigh 0x50000000A /\
  (GetHigh g1 = HIGHGUID_PLAYER -> GetHigh g2 = HIGHGUID_PLAYER ->
   GetCounter g1 = GetCounter g2 -> g1 = g2).
Proof. by apply (clamped_guids_have_no_alias 0x50000000A 0xA). Defined.

(** *** Uniqueness of generated GUIDs *)

(** The generator together with the GUIDs that are in use. A GUID is freed
    only while in use; a step that told the server to stop is not one of the
    running server. *)
Record gen_state := mkGenState { gs_gen : ObjectGuidGenerator; gs_live : gset Z }.

Inductive gen_step (high : Z) : gen_state -> gen_state -> Prop :=
  | gen_generate g live id g' :
      Generate high g = (id, false, g') ->
      gen_step high (mkGenState g live) (mkGenState g' ({[id]} ∪ live))
  | gen_range g live first last g' :
      GenerateRange high g = (first, last, false, g') ->
      gen_step high (mkGenState g live)
        (mkGenState g' (list_to_set (seqZ first (last - first)) ∪ live))
  | gen_free g live id :
      id ∈ live ->
      gen_step high (mkGenState g live) (mkGenState (FreeGuid id g) (live ∖ {[id]})).

(** Freed GUIDs are distinct and not in use, and everything ever handed out
    is below the next GUID. *)
Record gen_inv (high : Z) (s : gen_state) : Prop := {
  gi_next : 1 <= m_nextGuid (gs_gen s) <= GetMaxCounter high;
  gi_nodup : NoDup (m_freedGuids (gs_gen s));
  gi_free : forall x, x ∈ m_freedGuids (gs_gen s) ->
              x ∉ gs_live s /\ 1 <= x < m_nextGuid (gs_gen s);
  gi_live : forall x, x ∈ gs_live s -> 1 <= x < m_nextGuid (gs_gen s)
}.

Lemma GetMaxCounter_bounds high : 0xFFFFFF <= GetMaxCounter high < 2 ^ 32.
Proof. unfold GetMaxCounter. case_match; lia. Qed.

(** One generation: a GUID that was not in use, and the invariant again. *)
Lemma Generate_fresh high g live id g' :
  gen_inv high (mkGenState g live) -> Generate high g = (id, false, g') ->
  id ∉ live /\ 1 <= id <= GetMaxCounter high /\ gen_inv high (mkGenState g' ({[id]} ∪ live)).
Proof.
  pose proof (GetMaxCounter_bounds high) as Hmax.
  intros [Hn Hd Hf Hl]. simpl in *. unfold Generate.
  destruct (m_freedGuids g) as [|f rest] eqn:E; intros Heq.
  - injection Heq as <- Hstop <-. apply Z.leb_gt in Hstop.
    rewrite u32_id in Hstop by (unfold is_u; lia).
    split; [intros ?%Hl; lia|]. split; [lia|].
    constructor; simpl; [rewrite u32_id by (unfold is_u; lia); lia|constructor|by intros x ?%not_elem_of_nil|].
    intros x Hx. rewrite u32_id by (unfold is_u; lia).
    apply elem_of_union in Hx as [->%elem_of_singleton|?%Hl]; lia.
  - injection Heq as <- <-. apply NoDup_cons in Hd as [Hnin Hd].
    destruct (Hf f) as [? ?]; [apply elem_of_cons; by left|]. split; [done|]. split; [lia|].
    constructor; simpl; [done..| |].
    + intros x Hx. destruct (Hf x) as [? ?]; [apply elem_of_cons; by right|]. set_solver.
    + intros x Hx. apply elem_of_union in Hx as [->%elem_of_singleton|?%Hl]; lia.
Qed.

Lemma GenerateRange_fresh high g live first last g' :
  gen_inv high (mkGenState g live) -> GenerateRange high g = (first, last, false, g') ->
  last = first + 100 /\ (forall x, first <= x < last -> x ∉ live /\ x ∉ m_freedGuids g) /\
  gen_inv high (mkGenState g' (list_to_set (seqZ first (last - first)) ∪ live)).
Proof.
  pose proof (GetMaxCounter_bounds high) as Hmax.
  intros [Hn Hd Hf Hl]. simpl in *. unfold GenerateRange. intros Heq.
  injection Heq as <- <- Hstop <-. apply Z.leb_gt in Hstop.
  rewrite u32_id in Hstop by (unfold is_u; lia). rewrite u32_id by (unfold is_u; lia).
  split; [done|]. split; [intros x Hx; split; [intros ?%Hl; lia|intros [_ ?]%Hf; lia]|].
  constructor; simpl; [lia|done| |].
  - intros x Hx. destruct (Hf x Hx). split; [|lia].
    rewrite elem_of_union, elem_of_list_to_set, elem_of_seqZ. intros [?|?]; [lia|done].
  - intros x Hx. rewrite elem_of_union, elem_of_list_to_set, elem_of_seqZ in Hx.
    destruct Hx as [?|?%Hl]; lia.
Qed.

Lemma gen_inv_step high s s' : gen_inv high s -> gen_step high s s' -> gen_inv high s'.
Proof.
  intros Hi Hs. destruct Hs as [g live id g' Hg|g live first last g' Hg|g live id Hid].
  - by eapply Generate_fresh.
  - by eapply GenerateRange_fresh.
  - destruct Hi as [Hn Hd Hf Hl]. simpl in *. constructor; simpl; [done| | |].
    + apply NoDup_app. split_and!; [done| |apply NoDup_singleton].
      intros x [? ?]%Hf Hx. apply list_elem_of_singleton in Hx as ->. done.
    + intros x Hx. apply elem_of_app in Hx as [Hx|Hx].
      * destruct (Hf x Hx). set_solver.
      * apply list_elem_of_singleton in Hx as ->. specialize (Hl id Hid). set_solver.
    + intros x [Hx _]%elem_of_difference. auto.
Qed.



Ltac guid_case := repeat split; intros; first [reflexivity|discriminate|congruence].

(** The type of a GUID: each predicate of the class agrees with
    [GetTypeId] for a non-empty GUID, except that a GUID of the transport
    type, which is neither an item nor a unit nor a game object, is given
    [TYPEID_OBJECT], the type of an unknown one. *)
Theorem type_of_guid g :
  is_u 64 g -> g <> 0 ->
  (GetTypeId (GetHigh g) = TYPEID_ITEM <-> IsItem g = true) /\
  (GetTypeId (GetHigh g) = TYPEID_UNIT <-> IsAnyTypeCreature g = true) /\
  (GetTypeId (GetHigh g) = TYPEID_PLAYER <-> IsPlayer g = true) /\
  (GetTypeId (GetHigh g) = TYPEID_GAMEOBJECT <-> IsGameObject g || IsMOTransport g = true) /\
  (GetTypeId (GetHigh g) = TYPEID_DYNAMICOBJECT <-> IsDynamicObject g = true) /\
  (GetTypeId (GetHigh g) = TYPEID_CORPSE <-> IsCorpse g = true) /\
  (IsTransport g = true -> GetTypeId (GetHigh g) = TYPEID_OBJECT).
Proof.
  intros Hu Hnz. unfold IsItem, IsAnyTypeCreature, IsCreature, IsPet, IsPlayer, IsEmpty,
    IsGameObject, IsMOTransport, IsDynamicObject, IsCorpse, IsTransport, GetTypeId.
  rewrite (proj2 (Z.eqb_neq g 0) Hnz). generalize (GetHigh g). intros h. cbn [negb andb].
  destruct (Z.eqb_spec h HIGHGUID_ITEM) as [->|]; [guid_case|].
  destruct (Z.eqb_spec h HIGHGUID_UNIT) as [->|]; [guid_case|].
  destruct (Z.eqb_spec h HIGHGUID_PET) as [->|]; [guid_case|].
  destruct (Z.eqb_spec h HIGHGUID_PLAYER) as [->|]; [guid_case|].
  destruct (Z.eqb_spec h HIGHGUID_GAMEOBJECT) as [->|]; [guid_case|].
  destruct (Z.eqb_spec h HIGHGUID_DYNAMICOBJECT) as [->|]; [guid_case|].
  destruct (Z.eqb_spec h HIGHGUID_CORPSE) as [->|]; [guid_case|].
  destruct (Z.eqb_spec h HIGHGUID_MO_TRANSPORT) as [->|]; [guid_case|].
  guid_case.
Qed.

Lemma type_of_guid_witness :
  let g := ObjectGuid_entry HIGHGUID_TRANSPORT 3 17 in
  (GetTypeId (GetHigh g) = TYPEID_ITEM <-> IsItem g = true) /\
  (GetTypeId (GetHigh g) = TYPEID_UNIT <-> IsAnyTypeCreature g = true) /\
  (GetTypeId (GetHigh g) = TYPEID_PLAYER <-> IsPlayer g = true) /\
  (GetTypeId (GetHigh g) = TYPEID_GAMEOBJECT <-> IsGameObject g || IsMOTransport g = true) /\
  (GetTypeId (GetHigh g) = TYPEID_DYNAMICOBJECT <-> IsDynamicObject g = true) /\
  (GetTypeId (GetHigh g) = TYPEID_CORPSE <-> IsCorpse g = true) /\
  (IsTransport g = true -> GetTypeId (GetHigh g) = TYPEID_OBJECT).
Proof. apply (type_of_guid (ObjectGuid_entry HIGHGUID_TRANSPORT 3 17)); by vm_compute. Defined.

(** The reported size of a [PackedGuid] that is set to a GUID with fewer
    non-zero bytes is the size it had before: [Set] moves the write position
    back but leaves the storage as long as it was. *)
Example PackedGuid_size_stale :
  PackedGuid_size (PackedGuid_Set (PackedGuid_new 0x01020304) 1) = 5 /\
  PackedGuid_size (PackedGuid_new 1) = 2.
Proof. by vm_compute. Qed.
