(* ===== verification/UpdateMask.v ===== *)
(** * UpdateMask: which fields of an object changed (src/src/game/Objects/UpdateMask.h)

    A bit per update field, kept in an array of 32-bit words that is also
    addressed as bytes; the byte [b] of the array is bits [8*(b mod 4)] and up
    of the word [b/4] on a little-endian host. An index outside the array is
    an out of bounds access in the source: [None] here. *)
From S2P Require Import Prelude.

Record UpdateMask := mkUpdateMask {
  mCount : Z;
  mBlocks : Z;
  mUpdateMask : list Z
}.

Definition newUpdateMask : UpdateMask := mkUpdateMask 0 0 [].

Definition GetBlockCount (m : UpdateMask) : Z := mBlocks m.
Definition GetLength (m : UpdateMask) : Z := u32 (Z.shiftl (mBlocks m) 2).
Definition GetCount (m : UpdateMask) : Z := mCount m.

Definition SetCount (valuesCount : Z) (m : UpdateMask) : UpdateMask :=
  let blocks := u32 (valuesCount + 31) / 32 in
  mkUpdateMask valuesCount blocks (replicate (Z.to_nat blocks) 0).

Definition Clear (m : UpdateMask) : UpdateMask :=
  mkUpdateMask (mCount m) (mBlocks m) (replicate (Z.to_nat (mBlocks m)) 0).

(** Byte [b] of the array. *)
Definition get_byte (ws : list Z) (b : Z) : option Z :=
  w ← ws !! Z.to_nat (b / 4);
  Some (u8 (Z.shiftr w (8 * (b mod 4)))).

Definition set_byte (ws : list Z) (b v : Z) : option (list Z) :=
  w ← ws !! Z.to_nat (b / 4);
  let k := 8 * (b mod 4) in
  Some (<[Z.to_nat (b / 4) := Z.lor (Z.ldiff w (Z.shiftl 255 k)) (Z.shiftl v k)]> ws).

Definition upd_byte (index : Z) (f : Z -> Z) (m : UpdateMask) : option UpdateMask :=
  v ← get_byte (mUpdateMask m) (Z.shiftr index 3);
  ws ← set_byte (mUpdateMask m) (Z.shiftr index 3) (u8 (f v));
  Some (mkUpdateMask (mCount m) (mBlocks m) ws).

Definition SetBit (index : Z) (m : UpdateMask) : option UpdateMask :=
  upd_byte index (fun v => Z.lor v (Z.shiftl 1 (Z.land index 7))) m.

Definition UnsetBit (index : Z) (m : UpdateMask) : option UpdateMask :=
  upd_byte index (fun v => Z.land v (Z.lxor 255 (Z.shiftl 1 (Z.land index 7)))) m.

Definition GetBit (index : Z) (m : UpdateMask) : option bool :=
  v ← get_byte (mUpdateMask m) (Z.shiftr index 3);
  Some (negb (Z.land v (Z.shiftl 1 (Z.land index 7)) =? 0)).

(** The assignment operator: the count, then a copy of the words. *)
Definition assign (mask : UpdateMask) (m : UpdateMask) : UpdateMask :=
  let m' := SetCount (mCount mask) m in
  mkUpdateMask (mCount m') (mBlocks m') (take (Z.to_nat (mBlocks m')) (mUpdateMask mask)).

(** The loops of [operator&=] and [operator|=] over the words of the left
    operand; they read the right one at the same indices. *)
Fixpoint zip_words (f : Z -> Z -> Z) (a b : list Z) : option (list Z) :=
  match a, b with
  | [], _ => Some []
  | x :: a, y :: b => r ← zip_words f a b; Some (f x y :: r)
  | _ :: _, [] => None
  end.

Definition and_assign (mask m : UpdateMask) : option UpdateMask :=
  ws ← zip_words Z.land (mUpdateMask m) (mUpdateMask mask);
  Some (mkUpdateMask (mCount m) (mBlocks m) ws).

Definition or_assign (mask m : UpdateMask) : option UpdateMask :=
  ws ← zip_words Z.lor (mUpdateMask m) (mUpdateMask mask);
  Some (mkUpdateMask (mCount m) (mBlocks m) ws).

Definition and_op (m mask : UpdateMask) : option UpdateMask := and_assign mask (assign m newUpdateMask).
Definition or_op (m mask : UpdateMask) : option UpdateMask := or_assign mask (assign m newUpdateMask).

(** ** Invariant *)

Record mask_wf (m : UpdateMask) : Prop := {
  mw_count : 0 <= mCount m <= 2 ^ 31;
  mw_blocks : mBlocks m = (mCount m + 31) / 32;
  mw_len : Z.of_nat (length (mUpdateMask m)) = mBlocks m;
  mw_words : Forall (is_u 32) (mUpdateMask m)
}.

(** The abstract mask: the set of indices whose bit is set. *)
Definition bit (ws : list Z) (i : Z) : bool :=
  match ws !! Z.to_nat (i / 32) with Some w => Z.testbit w (i mod 32) | None => false end.

(** ** Lemmas *)

Lemma index_split i :
  0 <= i -> i / 8 / 4 = i / 32 /\ 8 * (i / 8 mod 4) + i mod 8 = i mod 32 /\
  0 <= i / 8 mod 4 < 4 /\ 0 <= i mod 8 < 8.
Proof.
  intros. Z.to_euclidean_division_equations. lia.
Qed.

Lemma land_7 i : Z.land i 7 = i mod 8.
Proof. change 7 with (Z.ones 3). by rewrite Z.land_ones. Qed.

Lemma shiftr_3 i : Z.shiftr i 3 = i / 8.
Proof. by rewrite Z.shiftr_div_pow2. Qed.

Lemma in_range m i :
  mask_wf m -> 0 <= i < 32 * mBlocks m -> is_Some (mUpdateMask m !! Z.to_nat (i / 32)).
Proof.
  intros [_ _ Hl _] Hi. apply lookup_lt_is_Some_2.
  assert (0 <= i / 32 < mBlocks m); [|lia].
  split; [apply Z.div_pos; lia|apply Z.div_lt_upper_bound; lia].
Qed.

Lemma u8_testbit x j : 0 <= j < 8 -> Z.testbit (u8 x) j = Z.testbit x j.
Proof. intros. unfold u8, wrapu. by rewrite Z.mod_pow2_bits_low by lia. Qed.

Lemma GetBit_bit m i :
  mask_wf m -> 0 <= i < 32 * mBlocks m -> GetBit i m = Some (bit (mUpdateMask m) i).
Proof.
  intros Hm Hi. unfold GetBit, get_byte, bit. rewrite shiftr_3, land_7.
  destruct (index_split i) as (-> & He & Hk & Hj); [lia|].
  destruct (in_range m i Hm Hi) as [w ->]. simpl.
  rewrite land_one_shift, negb_involutive, u8_testbit, Z.shiftr_spec by lia.
  by rewrite Z.add_comm, He.
Qed.

(** The word after a byte of it was replaced by [g] of itself. *)
Definition byte_of_word (w k : Z) (g : Z -> Z) : Z :=
  Z.lor (Z.ldiff w (Z.shiftl 255 (8 * k))) (Z.shiftl (u8 (g (u8 (Z.shiftr w (8 * k))))) (8 * k)).

Lemma testbit_255 j : Z.testbit 255 j = bool_decide (0 <= j < 8).
Proof.
  destruct (Z.lt_ge_cases j 0); [rewrite Z.testbit_neg_r by lia; by rewrite bool_decide_eq_false_2 by lia|].
  change 255 with (Z.ones 8). rewrite Z.testbit_ones_nonneg by lia.
  destruct (Z.ltb_spec j 8); [by rewrite bool_decide_eq_true_2 by lia|by rewrite bool_decide_eq_false_2 by lia].
Qed.

Lemma byte_of_word_testbit w k g j :
  0 <= k -> 0 <= j ->
  Z.testbit (byte_of_word w k g) j =
    if bool_decide (8 * k <= j < 8 * k + 8)
    then Z.testbit (g (u8 (Z.shiftr w (8 * k)))) (j - 8 * k) else Z.testbit w j.
Proof.
  intros Hk Hj. unfold byte_of_word. rewrite Z.lor_spec, Z.ldiff_spec, !Z.shiftl_spec by done.
  rewrite testbit_255. case_bool_decide.
  - rewrite bool_decide_eq_true_2 by lia. rewrite andb_false_r. simpl. by rewrite u8_testbit by lia.
  - rewrite bool_decide_eq_false_2 by lia. rewrite andb_true_r.
    destruct (Z.lt_ge_cases j (8 * k)).
    + rewrite (Z.testbit_neg_r (u8 _)) by lia. by rewrite orb_false_r.
    + rewrite (testbit_small 8 (u8 _)) by (apply u8_range || lia). by rewrite orb_false_r.
Qed.

Lemma upd_byte_word m i g :
  mask_wf m -> 0 <= i < 32 * mBlocks m ->
  exists w, mUpdateMask m !! Z.to_nat (i / 32) = Some w /\
    upd_byte i g m = Some (mkUpdateMask (mCount m) (mBlocks m)
      (<[Z.to_nat (i / 32) := byte_of_word w (i / 8 mod 4) g]> (mUpdateMask m))).
Proof.
  intros Hm Hi. destruct (in_range m i Hm Hi) as [w Hw]. exists w. split; [done|].
  unfold upd_byte, get_byte, set_byte. rewrite shiftr_3.
  destruct (index_split i) as (-> & _); [lia|]. by rewrite Hw.
Qed.

Lemma upd_byte_wf m i g m' :
  mask_wf m -> 0 <= i < 32 * mBlocks m -> upd_byte i g m = Some m' -> mask_wf m'.
Proof.
  intros Hm Hi E. destruct (upd_byte_word m i g Hm Hi) as (w & Hw & E').
  rewrite E in E'. injection E' as ->. destruct Hm as [Hc Hb Hl Hws].
  constructor; simpl; [done..|by rewrite length_insert|].
  apply Forall_insert; [done|]. destruct (index_split i) as (_ & _ & Hk & _); [lia|].
  pose proof (Forall_lookup_1 _ _ _ _ Hws Hw) as Hu. unfold byte_of_word.
  apply is_u_lor; [lia|..].
  - apply is_u_bits; [lia|apply Z.ldiff_nonneg; left; apply Hu|].
    intros j Hj. rewrite Z.ldiff_spec, (testbit_small 32) by (done || lia). done.
  - pose proof (u8_range (g (u8 (Z.shiftr w (8 * (i / 8 mod 4)))))) as Hr.
    unfold is_u in *. rewrite Z.shiftl_mul_pow2 by lia.
    assert (2 ^ (8 * (i / 8 mod 4)) <= 2 ^ 24) by (apply Z.pow_le_mono_r; lia).
    assert (0 < 2 ^ (8 * (i / 8 mod 4))) by (apply Z.pow_pos_nonneg; lia). nia.
Qed.

(** A byte update with a function that decides bit [index mod 8] and keeps
    the others changes exactly the bit [index]. *)
Lemma upd_byte_bit m i g v m' :
  mask_wf m -> 0 <= i < 32 * mBlocks m ->
  (forall x j, 0 <= j < 8 -> Z.testbit (g x) j = if bool_decide (j = i mod 8) then v else Z.testbit x j) ->
  upd_byte i g m = Some m' ->
  forall j, 0 <= j -> bit (mUpdateMask m') j = if bool_decide (j = i) then v else bit (mUpdateMask m) j.
Proof.
  intros Hm Hi Hg E j Hj. destruct (upd_byte_word m i g Hm Hi) as (w & Hw & E').
  rewrite E in E'. injection E' as ->. simpl. unfold bit.
  pose proof (lookup_lt_Some _ _ _ Hw) as Hlt.
  destruct (index_split i) as (_ & He & Hk & Hm8); [lia|].
  destruct (Z.eq_dec (j / 32) (i / 32)) as [Hq|Hq].
  - rewrite Hq, list_lookup_insert_eq, Hw by done.
    pose proof (Z.mod_pos_bound j 32). pose proof (Z.div_mod j 32). pose proof (Z.div_mod i 32).
    rewrite byte_of_word_testbit by lia.
    case_bool_decide as Hin; [rewrite Hg by lia|].
    + destruct (bool_decide_reflect (j = i)).
      * subst. by rewrite bool_decide_eq_true_2 by lia.
      * rewrite bool_decide_eq_false_2 by lia. rewrite u8_testbit, Z.shiftr_spec by lia.
        f_equal. lia.
    + rewrite bool_decide_eq_false_2; [done|]. intros ->. lia.
  - rewrite list_lookup_insert_ne.
    + rewrite bool_decide_eq_false_2; [done|]. by intros ->.
    + pose proof (Z.div_pos i 32). pose proof (Z.div_pos j 32). lia.
Qed.

Lemma SetBit_fun i x j :
  0 <= i -> 0 <= j < 8 ->
  Z.testbit (Z.lor x (Z.shiftl 1 (Z.land i 7))) j = if bool_decide (j = i mod 8) then true else Z.testbit x j.
Proof.
  intros. pose proof (Z.mod_pos_bound i 8). rewrite land_7, Z.lor_spec, testbit_one_shift by lia.
  case_bool_decide; [by rewrite orb_true_r|by rewrite orb_false_r].
Qed.

Lemma UnsetBit_fun i x j :
  0 <= i -> 0 <= j < 8 ->
  Z.testbit (Z.land x (Z.lxor 255 (Z.shiftl 1 (Z.land i 7)))) j =
  if bool_decide (j = i mod 8) then false else Z.testbit x j.
Proof.
  intros. pose proof (Z.mod_pos_bound i 8).
  rewrite land_7, Z.land_spec, Z.lxor_spec, testbit_one_shift, testbit_255 by lia.
  rewrite (bool_decide_eq_true_2 (0 <= j < 8)) by lia.
  case_bool_decide; [by rewrite andb_false_r|by rewrite andb_true_r].
Qed.

Lemma SetCount_wf n m : 0 <= n <= 2 ^ 31 -> mask_wf (SetCount n m).
Proof.
  intros Hn. unfold SetCount. rewrite u32_id by (unfold is_u; lia).
  assert (0 <= (n + 31) / 32) by (apply Z.div_pos; lia).
  constructor; simpl; [done..|rewrite length_replicate; lia|].
  by apply Forall_replicate.
Qed.

Lemma zip_words_spec f a b :
  (length a <= length b)%nat ->
  exists r, zip_words f a b = Some r /\ length r = length a /\
  forall k x y, a !! k = Some x -> b !! k = Some y -> r !! k = Some (f x y).
Proof.
  revert b. induction a as [|x a IH]; intros [|y b] Hl; simpl in *; try lia.
  - exists []. done.
  - exists []. done.
  - destruct (IH b) as (r & -> & Hr & Hk); [lia|]. exists (f x y :: r). simpl.
    split_and!; [done|lia|]. intros [|k] u v; simpl; [by intros [= ->] [= ->]|apply Hk].
Qed.

(** The mask is a set of field indices: on a well-formed mask and an index
    inside it [SetBit], [UnsetBit] and [GetBit] never leave the array,
    [SetBit] adds the index, [UnsetBit] removes it, both leave every other
    bit as it was, and [GetBit] is membership. *)
Theorem mask_bits m i :
  mask_wf m -> 0 <= i < 32 * mBlocks m ->
  exists ms mu, SetBit i m = Some ms /\ UnsetBit i m = Some mu /\ mask_wf ms /\ mask_wf mu /\
  forall j, 0 <= j < 32 * mBlocks m ->
    GetBit j ms = Some (bool_decide (j = i) || bit (mUpdateMask m) j) /\
    GetBit j mu = Some (negb (bool_decide (j = i)) && bit (mUpdateMask m) j) /\
    GetBit j m = Some (bit (mUpdateMask m) j).
Proof.
  intros Hm Hi. unfold SetBit, UnsetBit.
  destruct (upd_byte_word m i (fun v => Z.lor v (Z.shiftl 1 (Z.land i 7))) Hm Hi) as (w1 & _ & E1).
  destruct (upd_byte_word m i (fun v => Z.land v (Z.lxor 255 (Z.shiftl 1 (Z.land i 7)))) Hm Hi)
    as (w2 & _ & E2).
  eexists _, _. split_and!; [done|done|by eapply upd_byte_wf|by eapply upd_byte_wf|].
  intros j Hj.
  pose proof (upd_byte_wf _ _ _ _ Hm Hi E1) as W1. pose proof (upd_byte_wf _ _ _ _ Hm Hi E2) as W2.
  rewrite !GetBit_bit by (done || simpl; lia).
  rewrite (upd_byte_bit m i _ true _ Hm Hi (fun x k => SetBit_fun i x k ltac:(lia)) E1 j) by lia.
  rewrite (upd_byte_bit m i _ false _ Hm Hi (fun x k => UnsetBit_fun i x k ltac:(lia)) E2 j) by lia.
  by case_bool_decide.
Qed.

Lemma mask_bits_witness :
  exists ms mu, SetBit 37 (SetCount 70 newUpdateMask) = Some ms /\
    UnsetBit 37 (SetCount 70 newUpdateMask) = Some mu /\ mask_wf ms /\ mask_wf mu /\
  forall j, 0 <= j < 32 * mBlocks (SetCount 70 newUpdateMask) ->
    GetBit j ms = Some (bool_decide (j = 37) || bit (mUpdateMask (SetCount 70 newUpdateMask)) j) /\
    GetBit j mu = Some (negb (bool_decide (j = 37)) && bit (mUpdateMask (SetCount 70 newUpdateMask)) j) /\
    GetBit j (SetCount 70 newUpdateMask) = Some (bit (mUpdateMask (SetCount 70 newUpdateMask)) j).
Proof. apply (mask_bits (SetCount 70 newUpdateMask) 37); [apply SetCount_wf; lia|by vm_compute]. Defined.

(** The word-wise operators are intersection and union of the sets of
    fields, on masks of the same size. *)
Theorem mask_combine a b :
  mask_wf a -> mask_wf b -> mCount a = mCount b ->
  exists c d, and_op a b = Some c /\ or_op a b = Some d /\
  forall j, 0 <= j < 32 * mBlocks a ->
    bit (mUpdateMask c) j = bit (mUpdateMask a) j && bit (mUpdateMask b) j /\
    bit (mUpdateMask d) j = bit (mUpdateMask a) j || bit (mUpdateMask b) j.
Proof.
  intros Ha Hb Hc. pose proof Ha as [Hca Hba Hla _]. pose proof Hb as [_ Hbb Hlb _].
  assert (Hab : mBlocks b = mBlocks a) by (by rewrite Hbb, <- Hc).
  unfold and_op, or_op, and_assign, or_assign, assign, SetCount. simpl.
  rewrite u32_id by (unfold is_u; lia). rewrite <- Hba, take_ge by lia.
  destruct (zip_words_spec Z.land (mUpdateMask a) (mUpdateMask b)) as (c & -> & _ & Kc); [lia|].
  destruct (zip_words_spec Z.lor (mUpdateMask a) (mUpdateMask b)) as (d & -> & _ & Kd); [lia|].
  eexists _, _. split_and!; [done|done|]. intros j Hj. simpl. unfold bit.
  destruct (in_range a j Ha Hj) as [x Ex].
  destruct (in_range b j Hb) as [y Ey]; [lia|].
  pose proof (Z.mod_pos_bound j 32).
  rewrite (Kc _ _ _ Ex Ey), (Kd _ _ _ Ex Ey), Ex, Ey, Z.land_spec, Z.lor_spec. done.
Qed.
