(* ===== verification/AuthCrypt.v ===== *)
(** * AuthCrypt: the packet header cipher (src/src/shared/Auth/AuthCrypt.h, AuthCrypt.cpp)

    The stream cipher over the headers of the world protocol: four bytes of
    each packet to the client, six bytes of each packet from it. The state of
    a direction is an index into the session key and the last cipher byte. *)
From S2P Require Import Prelude.

Definition CRYPTED_SEND_LEN : nat := 4.
Definition CRYPTED_RECV_LEN : nat := 6.

Record AuthCrypt := mkAuthCrypt {
  _key : list Z;
  _send_i : Z; _send_j : Z; _recv_i : Z; _recv_j : Z;
  _initialized : bool
}.

Definition newAuthCrypt : AuthCrypt := mkAuthCrypt [] 0 0 0 0 false.

Definition Init (c : AuthCrypt) : AuthCrypt := mkAuthCrypt (_key c) 0 0 0 0 true.

(** Both overloads of [SetKey]: an empty key becomes one zero byte. *)
Definition SetKey (key : list Z) (c : AuthCrypt) : AuthCrypt :=
  mkAuthCrypt (match key with [] => [0] | _ => key end)
    (_send_i c) (_send_j c) (_recv_i c) (_recv_j c) (_initialized c).

Definition key_at (key : list Z) (i : Z) : Z := nth (Z.to_nat i) key 0.

(** The body of [DecryptRecv]'s loop over [n] bytes: the clear bytes and the
    index and byte the next call starts from. *)
Fixpoint decrypt_loop (key : list Z) (n : nat) (i j : Z) (data : list Z) : list Z * Z * Z :=
  match n, data with
  | S n, d :: data =>
    let i := i mod Z.of_nat (length key) in
    let x := u8 (Z.lxor (d - j) (key_at key i)) in
    let '(rest, i', j') := decrypt_loop key n (u8 (i + 1)) d data in
    (x :: rest, i', j')
  | _, _ => (data, i, j)
  end.

(** The body of [EncryptSend]'s loop over [n] bytes. *)
Fixpoint encrypt_loop (key : list Z) (n : nat) (i j : Z) (data : list Z) : list Z * Z * Z :=
  match n, data with
  | S n, d :: data =>
    let i := i mod Z.of_nat (length key) in
    let x := u8 (Z.lxor d (key_at key i) + j) in
    let '(rest, i', j') := encrypt_loop key n (u8 (i + 1)) x data in
    (x :: rest, i', j')
  | _, _ => (data, i, j)
  end.

Definition DecryptRecv (data : list Z) (c : AuthCrypt) : list Z * AuthCrypt :=
  if negb (_initialized c) then (data, c)
  else if (length data <? CRYPTED_RECV_LEN)%nat then (data, c)
  else
    let '(out, i, j) := decrypt_loop (_key c) CRYPTED_RECV_LEN (_recv_i c) (_recv_j c) data in
    (out, mkAuthCrypt (_key c) (_send_i c) (_send_j c) i j (_initialized c)).

Definition EncryptSend (data : list Z) (c : AuthCrypt) : list Z * AuthCrypt :=
  if negb (_initialized c) then (data, c)
  else if (length data <? CRYPTED_SEND_LEN)%nat then (data, c)
  else
    let '(out, i, j) := encrypt_loop (_key c) CRYPTED_SEND_LEN (_send_i c) (_send_j c) data in
    (out, mkAuthCrypt (_key c) i j (_recv_i c) (_recv_j c) (_initialized c)).

(** A sequence of packets through one direction. *)
Fixpoint SendAll (packets : list (list Z)) (c : AuthCrypt) : list (list Z) * AuthCrypt :=
  match packets with
  | [] => ([], c)
  | p :: ps => let '(q, c) := EncryptSend p c in let '(qs, c) := SendAll ps c in (q :: qs, c)
  end.

Fixpoint RecvAll (packets : list (list Z)) (c : AuthCrypt) : list (list Z) * AuthCrypt :=
  match packets with
  | [] => ([], c)
  | p :: ps => let '(q, c) := DecryptRecv p c in let '(qs, c) := RecvAll ps c in (q :: qs, c)
  end.

(** The peer of a direction: the same loop with the other length. The client
    decrypts what [EncryptSend] produced and encrypts what [DecryptRecv] reads. *)
Fixpoint PeerRecvAll (n : nat) (key : list Z) (i j : Z) (packets : list (list Z)) : list (list Z) :=
  match packets with
  | [] => []
  | p :: ps => let '(q, i, j) := decrypt_loop key n i j p in q :: PeerRecvAll n key i j ps
  end.

Fixpoint PeerSendAll (n : nat) (key : list Z) (i j : Z) (packets : list (list Z)) : list (list Z) :=
  match packets with
  | [] => []
  | p :: ps => let '(q, i, j) := encrypt_loop key n i j p in q :: PeerSendAll n key i j ps
  end.

(** ** Lemmas *)

Lemma u8_lxor a k : is_u 8 k -> u8 (Z.lxor a k) = Z.lxor (u8 a) k.
Proof.
  intros Hk. unfold u8, wrapu. apply Z.bits_inj'. intros i Hi. rewrite Z.lxor_spec.
  destruct (Z.lt_ge_cases i 8).
  - by rewrite !Z.mod_pow2_bits_low, Z.lxor_spec by lia.
  - by rewrite !Z.mod_pow2_bits_high, (testbit_small 8 k) by (done || lia).
Qed.

(** One byte out and back. *)
Lemma cipher_byte d k j :
  is_u 8 d -> is_u 8 k -> u8 (Z.lxor (u8 (Z.lxor d k + j) - j) k) = d.
Proof.
  intros Hd Hk. rewrite u8_lxor by done.
  assert (u8 (u8 (Z.lxor d k + j) - j) = Z.lxor d k) as ->.
  { unfold u8, wrapu. rewrite Zminus_mod_idemp_l. replace (Z.lxor d k + j - j) with (Z.lxor d k) by lia.
    apply (wrapu_id 8). apply is_u_lxor; done. }
  by rewrite Z.lxor_assoc, Z.lxor_nilpotent, Z.lxor_0_r.
Qed.

Lemma key_at_byte key i : Forall (is_u 8) key -> is_u 8 (key_at key i).
Proof.
  intros H. unfold key_at. destruct (nth_in_or_default (Z.to_nat i) key 0) as [Hin| ->]; [|by vm_compute].
  rewrite Forall_forall in H. apply H. by apply list_elem_of_In.
Qed.

(** The decryption loop inverts the encryption loop from the same state, and
    both end in the same state. *)
Lemma decrypt_encrypt_loop key n : forall i j data,
  Forall (is_u 8) key -> Forall (is_u 8) data ->
  let '(out, i', j') := encrypt_loop key n i j data in
  decrypt_loop key n i j out = (data, i', j') /\ length out = length data.
Proof.
  induction n as [|n IH]; intros i j data Hkey Hd; [by destruct data|].
  destruct Hd as [|d data Hd Hds]; [done|]. simpl.
  specialize (IH (u8 (i mod Z.of_nat (length key) + 1))
    (u8 (Z.lxor d (key_at key (i mod Z.of_nat (length key))) + j)) data Hkey Hds).
  destruct (encrypt_loop key n _ _ data) as [[out i'] j']. destruct IH as [IH Hl]. simpl.
  rewrite IH, cipher_byte by (done || by apply key_at_byte). by rewrite Hl.
Qed.

Lemma encrypt_loop_tail key n : forall i j data,
  drop n (fst (fst (encrypt_loop key n i j data))) = drop n data.
Proof.
  induction n as [|n IH]; intros i j [|d data]; simpl; try done.
  specialize (IH (u8 (i mod Z.of_nat (length key) + 1))
    (u8 (Z.lxor d (key_at key (i mod Z.of_nat (length key))) + j)) data).
  by destruct (encrypt_loop key n _ _ data) as [[out i'] j'].
Qed.

(** ** Properties *)

(** C38: the headers of the packets the server sends decrypt in order: for
    every session key and every sequence of packets of at least four bytes, a
    client that starts from the initial state and runs the inverse loop on
    the encrypted packets recovers exactly what was sent, the bytes behind
    the header, which are not encrypted, included. *)
Theorem sent_headers_decrypt c packets :
  _initialized c = true -> Forall (is_u 8) (_key c) ->
  Forall (fun p => Forall (is_u 8) p /\ (CRYPTED_SEND_LEN <= length p)%nat) packets ->
  PeerRecvAll CRYPTED_SEND_LEN (_key c) (_send_i c) (_send_j c) (fst (SendAll packets c)) = packets.
Proof.
  intros Hi Hk Hps. revert c Hi Hk. induction Hps as [|p ps [Hp Hl] _ IH]; intros c Hi Hk; [done|].
  cbn [SendAll]. unfold EncryptSend. rewrite Hi, (proj2 (Nat.ltb_ge _ _)) by done. cbn [negb].
  pose proof (decrypt_encrypt_loop (_key c) CRYPTED_SEND_LEN (_send_i c) (_send_j c) p Hk Hp) as Hloop.
  destruct (encrypt_loop (_key c) CRYPTED_SEND_LEN (_send_i c) (_send_j c) p) as [[out i'] j'].
  destruct Hloop as [Hd _].
  specialize (IH (mkAuthCrypt (_key c) i' j' (_recv_i c) (_recv_j c) true) eq_refl Hk).
  destruct (SendAll ps _) as [qs c']. simpl in *. by rewrite Hd, IH.
Qed.

Lemma sent_headers_decrypt_witness :
  PeerRecvAll CRYPTED_SEND_LEN [7; 200; 13] 0 0
    (fst (SendAll [[0; 4; 0xEC; 1; 9]; [0; 2; 0x3A; 0]] (Init (SetKey [7; 200; 13] newAuthCrypt))))
  = [[0; 4; 0xEC; 1; 9]; [0; 2; 0x3A; 0]].
Proof.
  apply (sent_headers_decrypt (Init (SetKey [7; 200; 13] newAuthCrypt)) [[0; 4; 0xEC; 1; 9]; [0; 2; 0x3A; 0]]).
  - reflexivity.
  - repeat constructor; by vm_compute.
  - repeat constructor; by vm_compute.
Defined.

(** The same for the other direction: [DecryptRecv] recovers the headers a
    client encrypted with the inverse of its loop. *)
Theorem received_headers_decrypt c packets :
  _initialized c = true -> Forall (is_u 8) (_key c) ->
  Forall (fun p => Forall (is_u 8) p /\ (CRYPTED_RECV_LEN <= length p)%nat) packets ->
  fst (RecvAll (PeerSendAll CRYPTED_RECV_LEN (_key c) (_recv_i c) (_recv_j c) packets) c) = packets.
Proof.
  intros Hi Hk Hps. revert c Hi Hk. induction Hps as [|p ps [Hp Hl] _ IH]; intros c Hi Hk; [done|].
  cbn [PeerSendAll].
  pose proof (decrypt_encrypt_loop (_key c) CRYPTED_RECV_LEN (_recv_i c) (_recv_j c) p Hk Hp) as Hloop.
  destruct (encrypt_loop (_key c) CRYPTED_RECV_LEN (_recv_i c) (_recv_j c) p) as [[out i'] j'].
  destruct Hloop as [Hd Hout]. cbn [RecvAll]. unfold DecryptRecv.
  rewrite Hi, (proj2 (Nat.ltb_ge _ _)) by (by rewrite Hout). cbn [negb]. rewrite Hd.
  specialize (IH (mkAuthCrypt (_key c) (_send_i c) (_send_j c) i' j' true) eq_refl Hk). simpl in IH.
  destruct (RecvAll _ _) as [qs c']. simpl in *. by rewrite IH.
Qed.

(** A packet too short for a header, or a cipher that was never set up, is
    left alone. *)
Theorem short_or_early_packets_pass data c :
  _initialized c = false \/ (length data < CRYPTED_SEND_LEN)%nat ->
  EncryptSend data c = (data, c) /\ DecryptRecv data c = (data, c).
Proof.
  unfold EncryptSend, DecryptRecv, CRYPTED_SEND_LEN, CRYPTED_RECV_LEN. intros [-> | Hl]; [done|].
  rewrite !(proj2 (Nat.ltb_lt _ _)) by lia. by destruct (_initialized c).
Qed.
