(* ===== verification/EventMap.v ===== *)
(** * EventMap: the timer of scripted encounters
    (src/src/framework/Utilities/EventMap.h, EventMap.cpp)

    Events of a creature script ordered by the time they are due, with the
    group and phase bits of each packed into its identifier. *)
From S2P Require Import Prelude.

Record EventMap := mkEventMap {
  _time : Z;                        (* uint32 *)
  _phase : Z;                       (* uint8 *)
  _eventMap : list (Z * Z);         (* multimap: time, data *)
  _lastEvent : Z                    (* uint32 *)
}.

Definition newEventMap : EventMap := mkEventMap 0 0 [] 0.

Definition set_store (s : list (Z * Z)) (m : EventMap) : EventMap :=
  mkEventMap (_time m) (_phase m) s (_lastEvent m).
Definition set_phase (p : Z) (m : EventMap) : EventMap :=
  mkEventMap (_time m) p (_eventMap m) (_lastEvent m).
Definition set_time (t : Z) (m : EventMap) : EventMap :=
  mkEventMap t (_phase m) (_eventMap m) (_lastEvent m).

Definition Reset (m : EventMap) : EventMap := mkEventMap 0 0 [] (_lastEvent m).
Definition Update (time : Z) (m : EventMap) : EventMap := set_time (u32 (_time m + time)) m.
Definition GetTimer (m : EventMap) : Z := _time m.
Definition GetPhaseMask (m : EventMap) : Z := _phase m.
Definition Empty (m : EventMap) : bool := match _eventMap m with [] => true | _ => false end.

Definition SetPhase (phase : Z) (m : EventMap) : EventMap :=
  if phase =? 0 then set_phase 0 m
  else if phase <=? 8 then set_phase (u8 (Z.shiftl 1 (phase - 1))) m
  else m.

Definition AddPhase (phase : Z) (m : EventMap) : EventMap :=
  if negb (phase =? 0) && (phase <=? 8)
  then set_phase (Z.lor (_phase m) (u8 (Z.shiftl 1 (phase - 1)))) m else m.

Definition RemovePhase (phase : Z) (m : EventMap) : EventMap :=
  if negb (phase =? 0) && (phase <=? 8)
  then set_phase (Z.land (_phase m) (u8 (Z.lnot (Z.shiftl 1 (phase - 1))))) m else m.

Definition IsInPhase (phase : Z) (m : EventMap) : bool :=
  (phase <=? 8) && ((phase =? 0) || negb (Z.land (_phase m) (Z.shiftl 1 (phase - 1)) =? 0)).

(** The data word of an event: the identifier with the bits of a group and of
    a phase between 1 and 8. *)
Definition event_data (eventId group phase : Z) : Z :=
  let d := if negb (group =? 0) && (group <=? 8)
           then Z.lor eventId (u32 (Z.shiftl 1 (group + 15))) else eventId in
  if negb (phase =? 0) && (phase <=? 8)
  then Z.lor d (u32 (Z.shiftl 1 (phase + 23))) else d.

Definition ScheduleEvent (eventId time group phase : Z) (m : EventMap) : EventMap :=
  set_store (mm_insert (u32 (_time m + time)) (event_data eventId group phase) (_eventMap m)) m.

(** The test that drops an event: the map is in a phase, the event names
    phases, and the current one is not among them. *)
Definition phase_blocked (phase d : Z) : bool :=
  negb (phase =? 0) && negb (Z.land d 0xFF000000 =? 0) && (Z.land (Z.shiftr d 24) phase =? 0).
Arguments phase_blocked : simpl never.

Definition event_id (d : Z) : Z := Z.land d 0xFFFF.
Arguments event_id : simpl never.

(** The loop of [ExecuteEvent]: it removes the first event or stops, so the
    number of stored events bounds it. *)
Fixpoint ExecuteEvent_loop (s : list (Z * Z)) (m : EventMap) : Z * EventMap :=
  match s with
  | [] => (0, set_store [] m)
  | (t, d) :: s' =>
    if _time m <? t then (0, set_store s m)
    else if phase_blocked (_phase m) d then ExecuteEvent_loop s' m
    else (event_id d, mkEventMap (_time m) (_phase m) s' d)
  end.

Definition ExecuteEvent (m : EventMap) : Z * EventMap := ExecuteEvent_loop (_eventMap m) m.

Definition Repeat (time : Z) (m : EventMap) : EventMap :=
  set_store (mm_insert (u32 (_time m + time)) (_lastEvent m) (_eventMap m)) m.

(** [DelayEvents(delay)]: the clock is set back. *)
Definition DelayEvents_all (delay : Z) (m : EventMap) : EventMap :=
  set_time (if delay <? _time m then _time m - delay else 0) m.

Definition in_group (group d : Z) : bool := negb (Z.land d (u32 (Z.shiftl 1 (group + 15))) =? 0).

Definition mm_insert_all (new s : list (Z * Z)) : list (Z * Z) :=
  foldl (fun s kv => mm_insert (fst kv) (snd kv) s) s new.

(** [DelayEvents(delay, group)]: the first loop moves the events of the group
    to a second multimap under the delayed time, which is then inserted. *)
Definition DelayEvents (delay group : Z) (m : EventMap) : EventMap :=
  if (group =? 0) || (8 <? group) || Empty m then m
  else
    let sel := filter (fun kv => in_group group (snd kv) = true) (_eventMap m) in
    let rest := filter (fun kv => in_group group (snd kv) = false) (_eventMap m) in
    let delayed := foldl (fun acc kv => mm_insert (u32 (fst kv + delay)) (snd kv) acc) [] sel in
    set_store (mm_insert_all delayed rest) m.

Definition CancelEvent (eventId : Z) (m : EventMap) : EventMap :=
  if Empty m then m
  else set_store (filter (fun kv => eventId <> event_id (snd kv)) (_eventMap m)) m.

Definition RescheduleEvent (eventId time group phase : Z) (m : EventMap) : EventMap :=
  ScheduleEvent eventId time group phase (CancelEvent eventId m).

Definition CancelEventGroup (group : Z) (m : EventMap) : EventMap :=
  if (group =? 0) || (8 <? group) || Empty m then m
  else set_store (filter (fun kv => in_group group (snd kv) = false) (_eventMap m)) m.

(** [CancelEventsByGCD]: an erase restarts the iteration, which does not
    change what is erased. *)
Definition CancelEventsByGCD (gcd : Z) (m : EventMap) : EventMap :=
  let bits := u32 (Z.shiftl 1 (gcd + 16)) in
  set_store (filter (fun kv => Z.land (snd kv) bits = 0) (_eventMap m)) m.

Definition first_of (eventId : Z) (s : list (Z * Z)) : option Z :=
  fst <$> head (filter (fun kv => eventId = event_id (snd kv)) s).

Definition GetNextEventTime_of (eventId : Z) (m : EventMap) : Z :=
  if Empty m then 0 else default 0 (first_of eventId (_eventMap m)).

Definition GetNextEventTime (m : EventMap) : Z :=
  match _eventMap m with [] => 0 | (t, _) :: _ => t end.

Definition GetTimeUntilEvent (eventId : Z) (m : EventMap) : Z :=
  match first_of eventId (_eventMap m) with
  | Some t => u32 (t - _time m)
  | None => 2 ^ 32 - 1
  end.

(** ** Invariant *)

(** The store is ordered by time, and everything fits its width. *)
Record em_wf (m : EventMap) : Prop := {
  em_sorted : mm_sorted (_eventMap m);
  em_words : Forall (fun kv => is_u 32 (fst kv) /\ is_u 32 (snd kv)) (_eventMap m);
  em_time : is_u 32 (_time m);
  em_phase : is_u 8 (_phase m);
  em_last : is_u 32 (_lastEvent m)
}.

(** *** The specification of execution *)

(** An event of the phases [d] names may run in the current phase. *)
Definition allowed (m : EventMap) (d : Z) : bool :=
  negb (phase_blocked (_phase m) d).

Definition due (m : EventMap) (kv : Z * Z) : bool := fst kv <=? _time m.

(** What running the map down means: the identifiers of the due events the
    current phase allows, in the order of their times. *)
Definition due_ids (m : EventMap) : list Z :=
  (fun kv => event_id (snd kv)) <$>
  filter (fun kv => due m kv = true /\ allowed m (snd kv) = true) (_eventMap m).

(** The events that stay: those not yet due. *)
Definition not_due (m : EventMap) : list (Z * Z) := filter (fun kv => due m kv = false) (_eventMap m).

(** The loop of the scripts: [while (id = events.ExecuteEvent())]. *)
Fixpoint drain (fuel : nat) (m : EventMap) : list Z * EventMap :=
  match fuel with
  | O => ([], m)
  | S fuel =>
    match ExecuteEvent m with
    | (0, m') => ([], m')
    | (id, m') => let '(ids, m'') := drain fuel m' in (id :: ids, m'')
    end
  end.

(** ** Lemmas *)

Lemma mm_insert_all_perm new s : mm_insert_all new s ≡ₚ new ++ s.
Proof.
  revert s. induction new as [|[k v] new IH]; intros s; simpl; [done|].
  unfold mm_insert_all in *. simpl. rewrite IH, mm_insert_perm. symmetry. apply Permutation_middle.
Qed.

Lemma mm_insert_all_sorted new s : mm_sorted s -> mm_sorted (mm_insert_all new s).
Proof.
  revert s. induction new as [|[k v] new IH]; intros s Hs; [done|].
  apply IH. by apply mm_insert_sorted.
Qed.

Lemma Forall_perm {A} (P : A -> Prop) l l' : l ≡ₚ l' -> Forall P l -> Forall P l'.
Proof. by intros ->. Qed.

Lemma mm_insert_forall (P : Z * Z -> Prop) k v s : P (k, v) -> Forall P s -> Forall P (mm_insert k v s).
Proof. intros. eapply Forall_perm; [symmetry; apply mm_insert_perm|]. by constructor. Qed.

Lemma not_due_id m : (forall kv, kv ∈ _eventMap m -> due m kv = false) -> not_due m = _eventMap m.
Proof.
  unfold not_due. induction (_eventMap m) as [|kv s IH]; intros H; [done|].
  rewrite filter_cons_True by (apply H; left). f_equal. apply IH. intros. apply H. by right.
Qed.

(** Nothing after an event that is not due is due. *)
Lemma sorted_tail_not_due m t d s :
  mm_sorted ((t, d) :: s) -> due m (t, d) = false -> forall kv, kv ∈ (t, d) :: s -> due m kv = false.
Proof.
  unfold mm_sorted, due. intros [Hs Hall]%StronglySorted_inv Hd kv Hkv. simpl in *.
  apply elem_of_cons in Hkv as [->|Hkv]; [done|].
  rewrite Forall_forall in Hall. specialize (Hall kv Hkv). unfold mm_le in Hall. simpl in *.
  apply Z.leb_gt in Hd. apply Z.leb_gt. lia.
Qed.

Lemma ExecuteEvent_loop_blocked t d s m :
  due m (t, d) = true -> allowed m d = false ->
  ExecuteEvent_loop ((t, d) :: s) m = ExecuteEvent_loop s m.
Proof.
  unfold due, allowed. intros Hd%Z.leb_le Ha%negb_false_iff. cbn [fst snd ExecuteEvent_loop] in *.
  rewrite (proj2 (Z.ltb_ge _ _) Hd), Ha. done.
Qed.

Lemma ExecuteEvent_loop_runs t d s m :
  due m (t, d) = true -> allowed m d = true ->
  ExecuteEvent_loop ((t, d) :: s) m = (event_id d, mkEventMap (_time m) (_phase m) s d).
Proof.
  unfold due, allowed. intros Hd%Z.leb_le Ha%negb_true_iff. cbn [fst snd ExecuteEvent_loop] in *.
  by rewrite (proj2 (Z.ltb_ge _ _) Hd), Ha.
Qed.

Lemma ExecuteEvent_loop_waits t d s m :
  due m (t, d) = false -> ExecuteEvent_loop ((t, d) :: s) m = (0, set_store ((t, d) :: s) m).
Proof. unfold due. intros Hd%Z.leb_gt. cbn [fst snd ExecuteEvent_loop] in *. by rewrite (proj2 (Z.ltb_lt _ _) Hd). Qed.

(** One execution against the specification. *)
Lemma ExecuteEvent_spec m :
  mm_sorted (_eventMap m) ->
  match due_ids m with
  | [] => exists m', ExecuteEvent m = (0, m') /\ _eventMap m' = not_due m
  | id :: ids => exists m', ExecuteEvent m = (id, m') /\ due_ids m' = ids /\
      not_due m' = not_due m /\ mm_sorted (_eventMap m') /\
      _time m' = _time m /\ _phase m' = _phase m /\ (length (_eventMap m') < length (_eventMap m))%nat
  end.
Proof.
  unfold ExecuteEvent. destruct m as [tm ph s last]. simpl.
  induction s as [|[t d] s IH]; intros Hs; [by exists (mkEventMap tm ph [] last)|].
  set (m := mkEventMap tm ph ((t, d) :: s) last) in *.
  pose proof Hs as [Hs' _]%StronglySorted_inv. specialize (IH Hs').
  set (m0 := mkEventMap tm ph s last) in *.
  assert (Hm : forall x y, ExecuteEvent_loop x m = y <-> ExecuteEvent_loop x m0 = y).
  { assert (forall x, ExecuteEvent_loop x m = ExecuteEvent_loop x m0) as E; [|by intros; rewrite E].
    induction x as [|[a b] x IHx]; [done|]. simpl. by rewrite IHx. }
  destruct (due m (t, d)) eqn:Ed.
  - destruct (allowed m d) eqn:Ea.
    + assert (Hids : due_ids m = event_id d :: due_ids m0).
      { unfold due_ids. simpl. by rewrite filter_cons_True. }
      rewrite Hids. exists (mkEventMap tm ph s d). rewrite ExecuteEvent_loop_runs by done.
      split_and!; try done.
      * unfold not_due. simpl. rewrite filter_cons_False; [done|]. by rewrite Ed.
      * simpl. lia.
    + assert (Hids : due_ids m = due_ids m0).
      { unfold due_ids. simpl. rewrite filter_cons_False; [done|]. simpl. rewrite Ea. by intros [? ?]. }
      assert (Hnd : not_due m = not_due m0).
      { unfold not_due. simpl. rewrite filter_cons_False; [done|]. by rewrite Ed. }
      rewrite Hids, Hnd, ExecuteEvent_loop_blocked by done.
      destruct (due_ids m0) as [|id ids].
      * destruct IH as (m' & E & E'). exists m'. by rewrite Hm.
      * destruct IH as (m' & E & ? & ? & ? & ? & ? & ?). exists m'. rewrite Hm.
        split_and!; try done. simpl. lia.
  - pose proof (sorted_tail_not_due m t d s Hs Ed) as Hall.
    assert (Hids : due_ids m = []).
    { unfold due_ids. rewrite (elem_of_nil_inv (filter _ _)); [done|].
      intros kv [[Hd _] Hin]%list_elem_of_filter. by rewrite Hall in Hd. }
    rewrite Hids. rewrite ExecuteEvent_loop_waits by done. eexists. split; [done|]. simpl.
    symmetry. apply (not_due_id m). exact Hall.
Qed.

Lemma one_shift_u32 i : 0 <= i < 32 -> u32 (Z.shiftl 1 i) = Z.shiftl 1 i.
Proof.
  intros. apply u32_id. unfold is_u. rewrite Z.shiftl_1_l.
  split; [apply Z.pow_nonneg|apply Z.pow_lt_mono_r]; lia.
Qed.

(** The bits of an event's word. *)
Definition event_data_bit (eventId group phase j : Z) : bool :=
  Z.testbit eventId j || (negb (group =? 0) && bool_decide (j = group + 15))
  || (negb (phase =? 0) && bool_decide (j = phase + 23)).

Lemma event_data_testbit eventId group phase j :
  0 <= group <= 8 -> 0 <= phase <= 8 -> 0 <= j ->
  Z.testbit (event_data eventId group phase) j = event_data_bit eventId group phase j.
Proof.
  intros Hg Hp Hj. unfold event_data, event_data_bit.
  rewrite (proj2 (Z.leb_le group 8)), (proj2 (Z.leb_le phase 8)), !andb_true_r by lia.
  destruct (Z.eqb_spec group 0), (Z.eqb_spec phase 0); simpl;
    rewrite ?Z.lor_spec, ?one_shift_u32, ?testbit_one_shift, ?orb_false_r by lia; done.
Qed.

Lemma land_high_byte d : is_u 32 d -> (Z.land d 0xFF000000 =? 0) = (Z.shiftr d 24 =? 0).
Proof.
  intros Hd. assert (Z.land d 0xFF000000 = Z.shiftl (Z.shiftr d 24) 24) as ->.
  - change 0xFF000000 with (Z.shiftl (Z.ones 8) 24). apply Z.bits_inj'. intros j Hj.
    rewrite Z.land_spec, !Z.shiftl_spec by lia. destruct (Z.lt_ge_cases j 24).
    + by rewrite !(Z.testbit_neg_r _ (j - 24)), andb_false_r by lia.
    + rewrite Z.shiftr_spec, Z.testbit_ones_nonneg by lia. replace (j - 24 + 24) with j by lia.
      destruct (Z.ltb_spec (j - 24) 8); [by rewrite andb_true_r|].
      rewrite (testbit_small 32) by (done || lia). done.
  - rewrite Z.shiftl_mul_pow2 by lia. destruct (Z.eqb_spec (Z.shiftr d 24) 0) as [->|]; [done|].
    apply Z.eqb_neq. lia.
Qed.

(** ** Properties *)

(** A script that runs its map down gets every due event it may run, once
    and in the order of the times: on a map whose due events have non-zero
    identifiers, the loop [while (id = ExecuteEvent())] terminates within as
    many rounds as there are events, returns exactly the identifiers of the
    due events the current phase allows, by time and then by insertion, and
    leaves exactly the events that are not yet due. *)
Theorem drain_runs_due_events m fuel :
  em_wf m -> (length (_eventMap m) <= fuel)%nat -> 0 ∉ due_ids m ->
  fst (drain (S fuel) m) = due_ids m /\ _eventMap (snd (drain (S fuel) m)) = not_due m.
Proof.
  intros [Hs _ _ _ _]. revert m Hs. induction fuel as [|fuel IH]; intros m Hs Hl H0;
    pose proof (ExecuteEvent_spec m Hs) as Hx; destruct (due_ids m) as [|id ids] eqn:E.
  1,3: destruct Hx as (m' & Em & Em'); simpl; rewrite Em; simpl; by rewrite Em'.
  - destruct Hx as (m' & _ & _ & _ & _ & _ & _ & Hlt). lia.
  - destruct Hx as (m' & Em & Ei & En & Hs' & _ & _ & Hlt).
    apply not_elem_of_cons in H0 as [Hid H0].
    assert (drain (S (S fuel)) m = let '(l, m'') := drain (S fuel) m' in (id :: l, m'')) as ->.
    { change (drain (S (S fuel)) m) with (match ExecuteEvent m with
        | (0, m') => ([], m')
        | (id, m') => let '(ids, m'') := drain (S fuel) m' in (id :: ids, m'') end).
      rewrite Em. destruct id; [done|..]; done. }
    destruct (IH m') as [I1 I2]; [done|lia|by rewrite Ei|].
    destruct (drain (S fuel) m') as [l m'']. simpl in *. by rewrite I1, I2, Ei, En.
Qed.

Lemma drain_runs_due_events_witness :
  let m := Update 10 (ScheduleEvent 2 7 0 0 (ScheduleEvent 3 99 0 0 (ScheduleEvent 1 5 1 0 newEventMap))) in
  fst (drain 4 m) = due_ids m /\ _eventMap (snd (drain 4 m)) = not_due m.
Proof.
  apply (drain_runs_due_events
    (Update 10 (ScheduleEvent 2 7 0 0 (ScheduleEvent 3 99 0 0 (ScheduleEvent 1 5 1 0 newEventMap)))) 3).
  - constructor; [repeat constructor; by vm_compute|repeat constructor; by vm_compute|by vm_compute..].
  - vm_compute. lia.
  - apply (bool_decide_unpack _). by vm_compute.
Defined.

(** The identifier, group and phase of an event share one word and do not
    interfere: from the word [ScheduleEvent] stores, the identifier comes
    back, the event is in its group and no other, and it is allowed in
    exactly the phase it names (in every phase when it names none). *)
Theorem event_data_fields eventId group phase ph :
  is_u 16 eventId -> 0 <= group <= 8 -> 0 <= phase <= 8 -> is_u 8 ph ->
  let d := event_data eventId group phase in
  is_u 32 d /\ event_id d = eventId /\
  (forall g, 1 <= g <= 8 -> in_group g d = bool_decide (g = group)) /\
  phase_blocked ph d = negb (ph =? 0) && negb (phase =? 0) && negb (Z.testbit ph (phase - 1)).
Proof.
  intros Hid Hg Hp Hph d.
  assert (Hb : forall j, 0 <= j -> Z.testbit d j = event_data_bit eventId group phase j)
    by (intros; by apply event_data_testbit).
  assert (Hd : is_u 32 d).
  { apply is_u_bits; [lia| |].
    - unfold d, event_data. destruct Hid. assert (forall n, 0 <= u32 n) by (intros; apply u32_range).
      repeat case_match; rewrite ?Z.lor_nonneg; auto.
    - intros j Hj. rewrite Hb by lia. unfold event_data_bit. rewrite (testbit_small 16) by (done || lia).
      rewrite !bool_decide_eq_false_2 by lia. by rewrite !andb_false_r. }
  split_and!; [apply Hd..| | |].
  - apply Z.bits_inj'. intros j Hj. unfold event_id. change 65535 with (Z.ones 16).
    rewrite Z.land_spec, Z.testbit_ones_nonneg, Hb by lia. unfold event_data_bit.
    destruct (Z.ltb_spec j 16).
    + destruct (Z.eqb_spec group 0), (Z.eqb_spec phase 0); simpl;
        rewrite ?bool_decide_eq_false_2 by lia; by rewrite ?orb_false_r, andb_true_r.
    + rewrite andb_false_r. symmetry. by apply (testbit_small 16).
  - intros g Hg1. unfold in_group. rewrite one_shift_u32, land_one_shift, negb_involutive, Hb by lia.
    unfold event_data_bit. rewrite (testbit_small 16) by (done || lia).
    assert (negb (phase =? 0) && bool_decide (g + 15 = phase + 23) = false) as ->.
    { destruct (Z.eqb_spec phase 0); simpl; [done|]. by rewrite bool_decide_eq_false_2 by lia. }
    rewrite orb_false_r. simpl.
    destruct (Z.eqb_spec group 0); simpl; [by rewrite bool_decide_eq_false_2 by lia|].
    apply bool_decide_ext. lia.
  - assert (Hs : Z.shiftr d 24 = if phase =? 0 then 0 else Z.shiftl 1 (phase - 1)).
    { apply Z.bits_inj'. intros j Hj. rewrite Z.shiftr_spec, Hb by lia. unfold event_data_bit.
      rewrite (testbit_small 16) by (done || lia).
      rewrite (bool_decide_eq_false_2 (j + 24 = group + 15)), andb_false_r by lia. simpl. destruct (Z.eqb_spec phase 0); simpl; [by rewrite Z.bits_0|].
      rewrite testbit_one_shift by lia. apply bool_decide_ext. lia. }
    unfold phase_blocked. rewrite land_high_byte, Hs by done.
    destruct (Z.eqb_spec phase 0); simpl; [by rewrite !andb_false_r|].
    rewrite Z.land_comm, land_one_shift by lia. f_equal.
    rewrite (proj2 (Z.eqb_neq (Z.shiftl 1 (phase - 1)) 0)); [done|].
    rewrite Z.shiftl_1_l. pose proof (Z.pow_pos_nonneg 2 (phase - 1)). lia.
Qed.

Lemma event_data_fields_witness :
  let d := event_data 12 3 8 in
  is_u 32 d /\ event_id d = 12 /\
  (forall g, 1 <= g <= 8 -> in_group g d = bool_decide (g = 3)) /\
  phase_blocked 0x81 d = negb (0x81 =? 0) && negb (8 =? 0) && negb (Z.testbit 0x81 (8 - 1)).
Proof. apply (event_data_fields 12 3 8 0x81); by vm_compute. Defined.

(** The invariant holds of a fresh map and is kept by every operation. *)
Inductive em_op :=
  | OpReset | OpUpdate (time : Z) | OpSetPhase (p : Z) | OpAddPhase (p : Z) | OpRemovePhase (p : Z)
  | OpSchedule (id time group phase : Z) | OpReschedule (id time group phase : Z)
  | OpRepeat (time : Z) | OpExecute | OpDelayAll (delay : Z) | OpDelay (delay group : Z)
  | OpCancel (id : Z) | OpCancelGroup (group : Z) | OpCancelGCD (gcd : Z).

Definition em_apply (o : em_op) (m : EventMap) : EventMap :=
  match o with
  | OpReset => Reset m | OpUpdate t => Update t m | OpSetPhase p => SetPhase p m
  | OpAddPhase p => AddPhase p m | OpRemovePhase p => RemovePhase p m
  | OpSchedule i t g p => ScheduleEvent i t g p m | OpReschedule i t g p => RescheduleEvent i t g p m
  | OpRepeat t => Repeat t m | OpExecute => snd (ExecuteEvent m)
  | OpDelayAll d => DelayEvents_all d m | OpDelay d g => DelayEvents d g m
  | OpCancel i => CancelEvent i m | OpCancelGroup g => CancelEventGroup g m
  | OpCancelGCD g => CancelEventsByGCD g m
  end.

(** The arguments have their C++ types; identifiers are 32 bits wide. *)
Definition em_op_ok (o : em_op) : Prop :=
  match o with
  | OpSetPhase p | OpAddPhase p | OpRemovePhase p => is_u 8 p
  | OpSchedule i _ _ _ | OpReschedule i _ _ _ => is_u 32 i
  | OpDelayAll delay => is_u 32 delay
  | _ => True
  end.

Lemma em_wf_store s m :
  em_wf m -> mm_sorted s -> Forall (fun kv => is_u 32 (fst kv) /\ is_u 32 (snd kv)) s ->
  em_wf (set_store s m).
Proof. intros []. by constructor. Qed.

Lemma em_wf_filter (P : Z * Z -> Prop) `{forall x, Decision (P x)} m :
  em_wf m -> em_wf (set_store (filter P (_eventMap m)) m).
Proof.
  intros Hm. apply em_wf_store; [done|by apply mm_sorted_filter, em_sorted|].
  apply Forall_forall. intros x [_ Hx]%list_elem_of_filter.
  by apply (proj1 (Forall_forall _ _) (em_words _ Hm)).
Qed.

Lemma event_data_u32 i g p : is_u 32 i -> is_u 32 (event_data i g p).
Proof. intros. unfold event_data. repeat case_match; auto using is_u_lor with machine; apply is_u_lor; auto with machine; try lia; apply is_u_lor; auto with machine; lia. Qed.

Lemma em_wf_insert k d m : em_wf m -> is_u 32 k -> is_u 32 d -> em_wf (set_store (mm_insert k d (_eventMap m)) m).
Proof.
  intros Hm Hk Hd. apply em_wf_store; [done|by apply mm_insert_sorted, em_sorted|].
  by apply mm_insert_forall, em_words.
Qed.

Lemma em_wf_cancel i m : em_wf m -> em_wf (CancelEvent i m).
Proof. intros. unfold CancelEvent. case_match; [done|]. by apply em_wf_filter. Qed.

Lemma em_wf_execute m : em_wf m -> em_wf (snd (ExecuteEvent m)).
Proof.
  unfold ExecuteEvent. intros Hm. pose proof (em_sorted _ Hm) as Hs. pose proof (em_words _ Hm) as Hw.
  revert Hs Hw. generalize (_eventMap m). intros s. induction s as [|[t d] s IH]; intros Hs Hw.
  - simpl. by apply em_wf_store.
  - pose proof Hs as [Hs' _]%StronglySorted_inv. pose proof Hw as [[_ Hd] Hw']%Forall_cons.
    simpl. repeat case_match; [by apply em_wf_store|by apply IH|]. destruct Hm. by constructor.
Qed.

Lemma em_wf_delay delay group m : em_wf m -> em_wf (DelayEvents delay group m).
Proof.
  intros Hm. unfold DelayEvents. case_match; [done|].
  set (ok := fun kv : Z * Z => is_u 32 (fst kv) /\ is_u 32 (snd kv)).
  set (sel := filter (fun kv => in_group group (snd kv) = true) _).
  assert (Hsel : Forall ok sel).
  { apply Forall_forall. intros x [_ Hx]%list_elem_of_filter.
    by apply (proj1 (Forall_forall _ _) (em_words _ Hm)). }
  assert (Hnew : forall acc, Forall ok acc ->
    Forall ok (foldl (fun acc kv => mm_insert (u32 (fst kv + delay)) (snd kv) acc) acc sel)).
  { clearbody sel. induction Hsel as [|[k d] sel Hkd _ IH]; intros acc Hacc; [done|]. simpl. apply IH.
    apply mm_insert_forall; [|done]. split; [apply u32_range|apply Hkd]. }
  pose proof (em_wf_filter (fun kv => in_group group (snd kv) = false) m Hm) as Hrest.
  apply em_wf_store; [done|apply mm_insert_all_sorted, (em_sorted _ Hrest)|].
  eapply Forall_perm; [symmetry; apply mm_insert_all_perm|].
  apply Forall_app. split; [by apply Hnew|apply (em_words _ Hrest)].
Qed.

Theorem em_wf_apply o m : em_wf m -> em_op_ok o -> em_wf (em_apply o m).
Proof.
  intros Hm Ho. pose proof Hm as [Hs Hw Ht Hp Hl].
  assert (Hph : forall p, is_u 8 p -> em_wf (set_phase p m)) by (intros; by constructor).
  destruct o; simpl in *; auto using em_wf_cancel, em_wf_execute, em_wf_delay.
  - constructor; simpl; [constructor|constructor|by vm_compute|by vm_compute|done].
  - constructor; simpl; auto with machine.
  - unfold SetPhase. repeat case_match; auto with machine. by apply Hph.
  - unfold AddPhase. case_match; [|done]. apply Hph, is_u_lor; auto with machine. lia.
  - unfold RemovePhase. case_match; [|done]. apply Hph, is_u_land; auto with machine; [lia|]. apply u8_range.
  - apply em_wf_insert; auto using event_data_u32 with machine.
  - apply em_wf_insert; auto using event_data_u32, em_wf_cancel with machine.
  - apply em_wf_insert; auto with machine.
  - constructor; simpl; auto. unfold is_u in *. case_match; to_prop; lia.
  - by apply em_wf_filter || (unfold CancelEventGroup; case_match; [done|by apply em_wf_filter]).
  - by apply em_wf_filter.
Qed.
