(* ===== verification/Channel.v ===== *)
(** * Channel: chat channels (src/src/game/Chat/Channel.h, Channel.cpp)

    The members, moderation and ownership of one chat channel. Each handler
    is a function from a channel to the channel afterwards and the effects in
    the order the source produces them: the packets, with the operands of
    their [<<] chain, and the calls to the player objects. What the handlers
    ask of the rest of the server (who is online, names, configuration) is
    the record [Env]. *)
From S2P Require Import Prelude ByteBuffer ObjectGuid.

(** ** Data *)

(** What a handler reads of an online player. *)
Record PlayerView := mkPlayerView {
  pv_guid : ObjectGuid;
  pv_isPlayer : bool;                (* ToPlayer() is not null *)
  pv_name : list Z;
  pv_security : Z;                   (* GetSession()->GetSecurity() *)
  pv_guildId : Z;
  pv_team : Z;
  pv_race : Z;
  pv_ignores : list ObjectGuid;      (* GetSocial() *)
  pv_chatTag : Z;
  pv_honorRank : Z;
  pv_fingerprintBanned : bool;
  pv_accountFlags : Z;
  pv_accountMaxLevel : Z
}.

Definition HasIgnore (p : PlayerView) (guid : ObjectGuid) : bool := bool_decide (guid ∈ pv_ignores p).

Record Env := mkEnv {
  FindPlayerNotInWorld : ObjectGuid -> option PlayerView;
  FindMasterPlayer : ObjectGuid -> option PlayerView;
  FindPlayerByNameNotInWorld : list Z -> option PlayerView;
  FindMasterPlayerByName : list Z -> option PlayerView;
  ObjectMgr_GetPlayer : ObjectGuid -> option PlayerView;
  ObjectMgr_GetPlayerByName : list Z -> option PlayerView;
  GetPlayerNameByGUID : ObjectGuid -> option (list Z);
  IsVisibleGloballyFor : ObjectGuid -> ObjectGuid -> bool;
  GetChannelEntryFor : list Z -> option (Z * Z);           (* id, flags *)
  normalizePlayerName : list Z -> Z -> option (list Z);
  baseLanguage : Z -> Z;
  cfg_SILENTLY_GM_JOIN_TO_CHANNEL : bool;
  cfg_ALLOW_TWO_SIDE_INTERACTION_CHANNEL : bool;
  cfg_GM_LEVEL_IN_WHO_LIST : Z;
  cfg_PUB_CHANS_MUTE_VANISH_LEVEL : Z
}.

Definition SEC_PLAYER : Z := 0.
Definition SEC_OBSERVER : Z := 1.
Definition LANG_UNIVERSAL : Z := 0.
Definition ACCOUNT_FLAG_MUTED_FROM_PUBLIC_CHANNELS : Z := 1.

(** [ChatNotify] *)
Definition CHAT_JOINED_NOTICE : Z := 0x00.
Definition CHAT_LEFT_NOTICE : Z := 0x01.
Definition CHAT_YOU_JOINED_NOTICE : Z := 0x02.
Definition CHAT_YOU_LEFT_NOTICE : Z := 0x03.
Definition CHAT_WRONG_PASSWORD_NOTICE : Z := 0x04.
Definition CHAT_NOT_MEMBER_NOTICE : Z := 0x05.
Definition CHAT_NOT_MODERATOR_NOTICE : Z := 0x06.
Definition CHAT_PASSWORD_CHANGED_NOTICE : Z := 0x07.
Definition CHAT_OWNER_CHANGED_NOTICE : Z := 0x08.
Definition CHAT_PLAYER_NOT_FOUND_NOTICE : Z := 0x09.
Definition CHAT_NOT_OWNER_NOTICE : Z := 0x0A.
Definition CHAT_CHANNEL_OWNER_NOTICE : Z := 0x0B.
Definition CHAT_MODE_CHANGE_NOTICE : Z := 0x0C.
Definition CHAT_ANNOUNCEMENTS_ON_NOTICE : Z := 0x0D.
Definition CHAT_ANNOUNCEMENTS_OFF_NOTICE : Z := 0x0E.
Definition CHAT_MODERATION_ON_NOTICE : Z := 0x0F.
Definition CHAT_MODERATION_OFF_NOTICE : Z := 0x10.
Definition CHAT_MUTED_NOTICE : Z := 0x11.
Definition CHAT_PLAYER_KICKED_NOTICE : Z := 0x12.
Definition CHAT_BANNED_NOTICE : Z := 0x13.
Definition CHAT_PLAYER_BANNED_NOTICE : Z := 0x14.
Definition CHAT_PLAYER_UNBANNED_NOTICE : Z := 0x15.
Definition CHAT_PLAYER_NOT_BANNED_NOTICE : Z := 0x16.
Definition CHAT_PLAYER_ALREADY_MEMBER_NOTICE : Z := 0x17.
Definition CHAT_INVITE_NOTICE : Z := 0x18.
Definition CHAT_INVITE_WRONG_FACTION_NOTICE : Z := 0x19.
Definition CHAT_WRONG_FACTION_NOTICE : Z := 0x1A.
Definition CHAT_INVALID_NAME_NOTICE : Z := 0x1B.
Definition CHAT_NOT_MODERATED_NOTICE : Z := 0x1C.
Definition CHAT_PLAYER_INVITED_NOTICE : Z := 0x1D.
Definition CHAT_PLAYER_INVITE_BANNED_NOTICE : Z := 0x1E.
Definition CHAT_THROTTLED_NOTICE : Z := 0x1F.

Definition CHANNEL_ID_LOCAL_DEFENSE : Z := 22.
Definition CHANNEL_ID_WORLD_DEFENSE : Z := 23.

Definition IsDefenseChannel (channelId : Z) : bool :=
  (channelId =? CHANNEL_ID_LOCAL_DEFENSE) || (channelId =? CHANNEL_ID_WORLD_DEFENSE).

Definition CHANNEL_FLAG_CUSTOM : Z := 0x01.
Definition CHANNEL_FLAG_TRADE : Z := 0x04.
Definition CHANNEL_FLAG_NOT_LFG : Z := 0x08.
Definition CHANNEL_FLAG_GENERAL : Z := 0x10.
Definition CHANNEL_FLAG_CITY : Z := 0x20.
Definition CHANNEL_FLAG_LFG : Z := 0x40.
Definition CHANNEL_FLAG_NATIONAL : Z := 0x100.

Definition CHANNEL_DBC_FLAG_ZONE_DEP : Z := 0x00002.
Definition CHANNEL_DBC_FLAG_TRADE : Z := 0x00008.
Definition CHANNEL_DBC_FLAG_CITY_ONLY2 : Z := 0x00020.
Definition CHANNEL_DBC_FLAG_LFG : Z := 0x40000.

Definition MEMBER_FLAG_NONE : Z := 0x00.
Definition MEMBER_FLAG_OWNER : Z := 0x01.
Definition MEMBER_FLAG_MODERATOR : Z := 0x02.
Definition MEMBER_FLAG_MUTED : Z := 0x08.

Definition has (flags flag : Z) : bool := negb (Z.land flags flag =? 0).
Arguments has : simpl never.

(** [struct PlayerInfo] and its methods; the flags are a [uint8]. *)
Record PlayerInfo := mkPlayerInfo { player : ObjectGuid; flags : Z }.

Definition set_member_flag (flag : Z) (state : bool) (p : PlayerInfo) : PlayerInfo :=
  mkPlayerInfo (player p)
    (if state then u8 (Z.lor (flags p) flag) else u8 (Z.land (flags p) (Z.lnot flag))).

Definition PlayerInfo_IsOwner (p : PlayerInfo) : bool := has (flags p) MEMBER_FLAG_OWNER.
Definition PlayerInfo_SetOwner (state : bool) (p : PlayerInfo) : PlayerInfo := set_member_flag MEMBER_FLAG_OWNER state p.
Definition PlayerInfo_IsModerator (p : PlayerInfo) : bool := has (flags p) MEMBER_FLAG_MODERATOR.
Definition PlayerInfo_SetModerator (state : bool) (p : PlayerInfo) : PlayerInfo := set_member_flag MEMBER_FLAG_MODERATOR state p.
Definition PlayerInfo_IsMuted (p : PlayerInfo) : bool := has (flags p) MEMBER_FLAG_MUTED.
Definition PlayerInfo_SetMuted (state : bool) (p : PlayerInfo) : PlayerInfo := set_member_flag MEMBER_FLAG_MUTED state p.

Record Channel := mkChannel {
  m_area_dependant : bool;
  m_announce : bool;
  m_moderate : bool;
  m_levelRestricted : bool;
  m_name : list Z;
  m_password : list Z;
  m_flags : Z;                       (* uint8 *)
  m_securityLevel : Z;               (* uint8 *)
  m_Team : Z;
  m_channelId : Z;
  m_ownerGuid : ObjectGuid;
  m_players : gmap ObjectGuid PlayerInfo;
  m_banned : gset ObjectGuid
}.

Definition set_players (f : gmap ObjectGuid PlayerInfo -> gmap ObjectGuid PlayerInfo) (c : Channel) : Channel :=
  mkChannel (m_area_dependant c) (m_announce c) (m_moderate c) (m_levelRestricted c) (m_name c)
    (m_password c) (m_flags c) (m_securityLevel c) (m_Team c) (m_channelId c) (m_ownerGuid c)
    (f (m_players c)) (m_banned c).
Definition set_owner_guid (g : ObjectGuid) (c : Channel) : Channel :=
  mkChannel (m_area_dependant c) (m_announce c) (m_moderate c) (m_levelRestricted c) (m_name c)
    (m_password c) (m_flags c) (m_securityLevel c) (m_Team c) (m_channelId c) g (m_players c) (m_banned c).
Definition set_banned (f : gset ObjectGuid -> gset ObjectGuid) (c : Channel) : Channel :=
  mkChannel (m_area_dependant c) (m_announce c) (m_moderate c) (m_levelRestricted c) (m_name c)
    (m_password c) (m_flags c) (m_securityLevel c) (m_Team c) (m_channelId c) (m_ownerGuid c)
    (m_players c) (f (m_banned c)).
Definition SetPassword (p : list Z) (c : Channel) : Channel :=
  mkChannel (m_area_dependant c) (m_announce c) (m_moderate c) (m_levelRestricted c) (m_name c)
    p (m_flags c) (m_securityLevel c) (m_Team c) (m_channelId c) (m_ownerGuid c) (m_players c) (m_banned c).
Definition SetAnnounce (a : bool) (c : Channel) : Channel :=
  mkChannel (m_area_dependant c) a (m_moderate c) (m_levelRestricted c) (m_name c)
    (m_password c) (m_flags c) (m_securityLevel c) (m_Team c) (m_channelId c) (m_ownerGuid c)
    (m_players c) (m_banned c).
Definition set_moderate (a : bool) (c : Channel) : Channel :=
  mkChannel (m_area_dependant c) (m_announce c) a (m_levelRestricted c) (m_name c)
    (m_password c) (m_flags c) (m_securityLevel c) (m_Team c) (m_channelId c) (m_ownerGuid c)
    (m_players c) (m_banned c).
Definition SetSecurityLevel (sec : Z) (c : Channel) : Channel :=
  mkChannel (m_area_dependant c) (m_announce c) (m_moderate c) (m_levelRestricted c) (m_name c)
    (m_password c) (m_flags c) sec (m_Team c) (m_channelId c) (m_ownerGuid c) (m_players c) (m_banned c).

(** The effects of a handler. *)
Inductive Out :=
  | SendPacket (who : ObjectGuid) (opcode : Z) (data : list field)
  | SendChat (who : ObjectGuid) (text : list Z) (lang tag sender honor : Z)
  | CallJoinedChannel (who : ObjectGuid)
  | CallLeftChannel (who : ObjectGuid).

(** A packet before it has an addressee. *)
Definition Packet : Type := Z * list field.
Definition SMSG_CHANNEL_NOTIFY : Z := 0x099.
Definition SMSG_CHANNEL_LIST : Z := 0x09B.

(** ** Accessors *)

Definition GetChannelId (c : Channel) : Z := m_channelId c.
Definition IsConstant (c : Channel) : bool := negb (m_channelId c =? 0).
Definition IsAnnounce (c : Channel) : bool := m_announce c.
Definition IsLevelRestricted (c : Channel) : bool := m_levelRestricted c.
Definition GetFlags (c : Channel) : Z := m_flags c.
Definition HasFlag (flag : Z) (c : Channel) : bool := has (m_flags c) flag.
Definition IsLFG (c : Channel) : bool := has (GetFlags c) CHANNEL_FLAG_LFG.
Definition GetNumPlayers (c : Channel) : Z := Z.of_nat (base.size (m_players c)).
Definition GetSecurityLevel (c : Channel) : Z := m_securityLevel c.
Definition IsOn (who : ObjectGuid) (c : Channel) : bool := bool_decide (is_Some (m_players c !! who)).
Definition IsBanned (guid : ObjectGuid) (c : Channel) : bool := bool_decide (guid ∈ m_banned c).
Definition GetPlayerFlags (guid : ObjectGuid) (c : Channel) : Z :=
  match m_players c !! guid with Some p => flags p | None => 0 end.

(** [m_players[guid]]: a missing member is value-initialised. *)
Definition player_at (guid : ObjectGuid) (c : Channel) : PlayerInfo :=
  default (mkPlayerInfo 0 0) (m_players c !! guid).
Definition upd_player (guid : ObjectGuid) (f : PlayerInfo -> PlayerInfo) (c : Channel) : Channel :=
  set_players (fun m => <[guid := f (player_at guid c)]> m) c.

Definition GetPlayer (E : Env) (c : Channel) (guid : ObjectGuid) : option PlayerView :=
  if m_area_dependant c then FindPlayerNotInWorld E guid else FindMasterPlayer E guid.
Definition GetPlayerByName (E : Env) (c : Channel) (name : list Z) : option PlayerView :=
  if m_area_dependant c then FindPlayerByNameNotInWorld E name else FindMasterPlayerByName E name.

(** [sec] at the head of the handlers: the security of an online player. *)
Definition security_of (p : option PlayerView) : Z :=
  match p with Some v => pv_security v | None => SEC_PLAYER end.

(** ** Packets *)

Definition MakeNotifyPacket (c : Channel) (notify_type : Z) (rest : list field) : Packet :=
  (SMSG_CHANNEL_NOTIFY, FU8 notify_type :: FStr (m_name c) :: rest).

Definition MakeJoined c guid := MakeNotifyPacket c CHAT_JOINED_NOTICE [FU64 guid].
Definition MakeLeft c guid := MakeNotifyPacket c CHAT_LEFT_NOTICE [FU64 guid].
Definition MakeYouJoined c := MakeNotifyPacket c CHAT_YOU_JOINED_NOTICE [FU32 (GetFlags c); FU32 0].
Definition MakeYouLeft c := MakeNotifyPacket c CHAT_YOU_LEFT_NOTICE [].
Definition MakeWrongPassword c := MakeNotifyPacket c CHAT_WRONG_PASSWORD_NOTICE [].
Definition MakeNotMember c := MakeNotifyPacket c CHAT_NOT_MEMBER_NOTICE [].
Definition MakeNotOnPacket (name : list Z) : Packet :=
  (SMSG_CHANNEL_NOTIFY, [FU8 CHAT_NOT_MEMBER_NOTICE; FStr name]).
Definition MakeNotModerator c := MakeNotifyPacket c CHAT_NOT_MODERATOR_NOTICE [].
Definition MakePasswordChanged c guid := MakeNotifyPacket c CHAT_PASSWORD_CHANGED_NOTICE [FU64 guid].
Definition MakeOwnerChanged c guid := MakeNotifyPacket c CHAT_OWNER_CHANGED_NOTICE [FU64 guid].
Definition MakePlayerNotFound c name := MakeNotifyPacket c CHAT_PLAYER_NOT_FOUND_NOTICE [FStr name].
Definition MakeNotOwner c := MakeNotifyPacket c CHAT_NOT_OWNER_NOTICE [].
Definition MakeChannelOwner (E : Env) (c : Channel) : Packet :=
  let name := match GetPlayerNameByGUID E (m_ownerGuid c) with
              | None | Some [] => str "PLAYER_NOT_FOUND"
              | Some n => n
              end in
  MakeNotifyPacket c CHAT_CHANNEL_OWNER_NOTICE
    [FStr (if IsConstant c || (m_ownerGuid c =? 0) then str "Nobody" else name)].
Definition MakeModeChange c guid oldflags :=
  MakeNotifyPacket c CHAT_MODE_CHANGE_NOTICE [FU64 guid; FU8 oldflags; FU8 (GetPlayerFlags guid c)].
Definition MakeAnnouncementsOn c guid := MakeNotifyPacket c CHAT_ANNOUNCEMENTS_ON_NOTICE [FU64 guid].
Definition MakeAnnouncementsOff c guid := MakeNotifyPacket c CHAT_ANNOUNCEMENTS_OFF_NOTICE [FU64 guid].
Definition MakeModerationOn c guid := MakeNotifyPacket c CHAT_MODERATION_ON_NOTICE [FU64 guid].
Definition MakeModerationOff c guid := MakeNotifyPacket c CHAT_MODERATION_OFF_NOTICE [FU64 guid].
Definition MakeMuted c := MakeNotifyPacket c CHAT_MUTED_NOTICE [].
Definition MakePlayerKicked c target source := MakeNotifyPacket c CHAT_PLAYER_KICKED_NOTICE [FU64 target; FU64 source].
Definition MakeBanned c := MakeNotifyPacket c CHAT_BANNED_NOTICE [].
Definition MakePlayerBanned c target source := MakeNotifyPacket c CHAT_PLAYER_BANNED_NOTICE [FU64 target; FU64 source].
Definition MakePlayerUnbanned c target source := MakeNotifyPacket c CHAT_PLAYER_UNBANNED_NOTICE [FU64 target; FU64 source].
Definition MakePlayerNotBanned c name := MakeNotifyPacket c CHAT_PLAYER_NOT_BANNED_NOTICE [FStr name].
Definition MakePlayerAlreadyMember c guid := MakeNotifyPacket c CHAT_PLAYER_ALREADY_MEMBER_NOTICE [FU64 guid].
Definition MakeInvite c guid := MakeNotifyPacket c CHAT_INVITE_NOTICE [FU64 guid].
Definition MakeInviteWrongFaction c := MakeNotifyPacket c CHAT_INVITE_WRONG_FACTION_NOTICE [].
Definition MakeWrongFaction c := MakeNotifyPacket c CHAT_WRONG_FACTION_NOTICE [].
Definition MakeInvalidName c := MakeNotifyPacket c CHAT_INVALID_NAME_NOTICE [].
Definition MakeNotModerated c := MakeNotifyPacket c CHAT_NOT_MODERATED_NOTICE [].
Definition MakePlayerInvited c name := MakeNotifyPacket c CHAT_PLAYER_INVITED_NOTICE [FStr name].
Definition MakePlayerInviteBanned c name := MakeNotifyPacket c CHAT_PLAYER_INVITE_BANNED_NOTICE [FStr name].
Definition MakeThrottled c := MakeNotifyPacket c CHAT_THROTTLED_NOTICE [].

(** ** Sending *)

Definition SendToOne (E : Env) (c : Channel) (p : Packet) (who : ObjectGuid) : list Out :=
  match GetPlayer E c who with
  | Some _ => [SendPacket who (fst p) (snd p)]
  | None => []
  end.

(** The members [SendToAll] sends to, in the order of the map: the online
    ones that do not ignore [guid]. *)
Definition hears (E : Env) (c : Channel) (guid who : ObjectGuid) : bool :=
  match GetPlayer E c who with
  | Some v => negb (HasIgnore v guid)
  | None => false
  end.

Definition recipients (E : Env) (c : Channel) (guid : ObjectGuid) : list ObjectGuid :=
  fst <$> filter (fun kv => hears E c guid (fst kv) = true) (map_iter (m_players c)).

Definition SendToAll (E : Env) (c : Channel) (p : Packet) (guid : ObjectGuid) : list Out :=
  (fun who => SendPacket who (fst p) (snd p)) <$> recipients E c guid.

(** An error answered to the caller: the channel does not change. *)
Definition fail_with (E : Env) (c : Channel) (p : Packet) (guid : ObjectGuid) : Channel * list Out :=
  (c, SendToOne E c p guid).

(** ** The constructor *)

Definition find_sub (needle hay : list Z) : bool :=
  existsb (fun n => bool_decide (take (length needle) (drop n hay) = needle)) (seq 0 (S (length hay))).

(** [Channel(name, InTeam)]. The conversion of built-in Chinese names goes to
    a local that is not read afterwards. Assigning the national flag, 0x100,
    to the 8-bit [m_flags] keeps its low byte. *)
Definition newChannel (E : Env) (name : list Z) (InTeam : Z) : Channel :=
  let mk announce restricted nm fl cid :=
    mkChannel true announce false restricted nm [] fl 0 InTeam cid 0 ∅ ∅ in
  match GetChannelEntryFor E name with
  | Some (id, chflags) =>
    let f := CHANNEL_FLAG_GENERAL in
    let f := if has chflags CHANNEL_DBC_FLAG_TRADE then u8 (Z.lor f CHANNEL_FLAG_TRADE) else f in
    let f := if has chflags CHANNEL_DBC_FLAG_CITY_ONLY2 then u8 (Z.lor f CHANNEL_FLAG_CITY) else f in
    let f := if has chflags CHANNEL_DBC_FLAG_LFG then u8 (Z.lor f CHANNEL_FLAG_LFG)
             else u8 (Z.lor f CHANNEL_FLAG_NOT_LFG) in
    mk false true name f id
  | None =>
    let '(nm, announce) := match normalizePlayerName E name 128 with
                           | Some nm => (nm, true)
                           | None => (str "INVALIDCHANNEL", false)
                           end in
    if bool_decide (nm = str "Ru") || bool_decide (nm = str "Welt") || bool_decide (nm = str "China")
    then mk false true nm (u8 (Z.lor 0 CHANNEL_FLAG_NATIONAL)) 0
    else
      let f := CHANNEL_FLAG_CUSTOM in
      if bool_decide (nm = str "World") || bool_decide (nm = str "English")
      then mk false false nm (u8 (Z.land (Z.lor f CHANNEL_FLAG_GENERAL) (Z.lnot CHANNEL_FLAG_CUSTOM))) 0
      else mk announce false nm f 0
  end.

(** ** Ownership and modes *)

Definition SetOwner (E : Env) (guid : ObjectGuid) (exclaim : bool) (c : Channel) : Channel * list Out :=
  match GetPlayer E c guid with
  | None => (c, [])
  | Some p =>
    if HasFlag CHANNEL_FLAG_GENERAL c && (pv_security p <? SEC_OBSERVER) then (c, [])
    else
      let c := if m_ownerGuid c =? 0 then c
               else match m_players c !! m_ownerGuid c with
                    | Some i => set_players (fun m => <[m_ownerGuid c := PlayerInfo_SetOwner false i]> m) c
                    | None => c
                    end in
      let c := set_owner_guid guid c in
      if guid =? 0 then (c, [])
      else
        let oldFlag := GetPlayerFlags guid c in
        let c := upd_player guid (PlayerInfo_SetOwner true) c in
        (c, SendToAll E c (MakeModeChange c guid oldFlag) 0 ++
            (if exclaim then SendToAll E c (MakeOwnerChanged c guid) 0 else []))
  end.

Definition SetModerator (E : Env) (guid : ObjectGuid) (set : bool) (c : Channel) : Channel * list Out :=
  if Bool.eqb (PlayerInfo_IsModerator (player_at guid c)) set then (c, [])
  else
    let oldFlag := GetPlayerFlags guid c in
    let c := upd_player guid (PlayerInfo_SetModerator set) c in
    (c, SendToAll E c (MakeModeChange c guid oldFlag) 0).

Definition SetMute (E : Env) (guid : ObjectGuid) (set : bool) (c : Channel) : Channel * list Out :=
  if Bool.eqb (PlayerInfo_IsMuted (player_at guid c)) set then (c, [])
  else
    let oldFlag := GetPlayerFlags guid c in
    let c := upd_player guid (PlayerInfo_SetMuted set) c in
    (c, SendToAll E c (MakeModeChange c guid oldFlag) 0).

(** ** Handlers *)

(** The condition under which a join or a departure is announced. *)
Definition announces (E : Env) (c : Channel) (p : option PlayerView) : bool :=
  m_announce c &&
  match p with
  | None => true
  | Some v => (pv_security v <? SEC_OBSERVER) || negb (cfg_SILENTLY_GM_JOIN_TO_CHANNEL E)
  end.

Definition Join (E : Env) (guid : ObjectGuid) (password : list Z) (checkPassword : bool)
    (c : Channel) : Channel * list Out :=
  if IsOn guid c then
    (if negb (IsConstant c) then fail_with E c (MakePlayerAlreadyMember c guid) guid else (c, []))
  else if IsBanned guid c then fail_with E c (MakeBanned c) guid
  else if checkPassword && (0 <? Z.of_nat (length (m_password c))) && bool_decide (password <> m_password c)
  then fail_with E c (MakeWrongPassword c) guid
  else
    let pPlayer := GetPlayer E c guid in
    if negb (m_securityLevel c =? 0) &&
       match pPlayer with None => true | Some v => pv_security v <? m_securityLevel c end
    then fail_with E c (MakeWrongPassword c) guid
    else
      let isPlayer := match pPlayer with Some v => pv_isPlayer v | None => false end in
      if isPlayer && match pPlayer with
                     | Some v => negb (pv_guildId v =? 0) && (GetFlags c =? 0x38)
                     | None => false end
      then (c, [])
      else
        let out1 := if isPlayer then [CallJoinedChannel guid] else [] in
        let out2 := if announces E c pPlayer then SendToAll E c (MakeJoined c guid) 0 else [] in
        let c := upd_player guid (fun _ => mkPlayerInfo guid MEMBER_FLAG_NONE) c in
        let out3 := SendToOne E c (MakeYouJoined c) guid in
        if HasFlag CHANNEL_FLAG_CUSTOM c && negb (IsConstant c) && (m_ownerGuid c =? 0) then
          let '(c, out4) := SetOwner E guid (1 <? GetNumPlayers c) c in
          let c := upd_player guid (PlayerInfo_SetModerator true) c in
          (c, out1 ++ out2 ++ out3 ++ out4)
        else (c, out1 ++ out2 ++ out3).

(** [Leave]; [None] is the null pointer it dereferences when it has to notify
    a player that is not online. *)
Definition Leave (E : Env) (guid : ObjectGuid) (send : bool) (c : Channel) : option (Channel * list Out) :=
  if negb (IsOn guid c) then
    Some (c, if send then SendToOne E c (MakeNotMember c) guid else [])
  else
    let pPlayer := GetPlayer E c guid in
    match send, pPlayer with
    | true, None => None
    | _, _ =>
      let out1 := if send then SendToOne E c (MakeYouLeft c) guid ++ [CallLeftChannel guid] else [] in
      let changeowner := PlayerInfo_IsOwner (player_at guid c) in
      let c := set_players (delete guid) c in
      let out2 := if announces E c pPlayer then SendToAll E c (MakeLeft c guid) 0 else [] in
      if changeowner then
        let newowner := match map_begin (m_players c) with Some (_, i) => player i | None => 0 end in
        let '(c, out3) := SetOwner E newowner true c in
        Some (c, out1 ++ out2 ++ out3)
      else Some (c, out1 ++ out2)
    end.

Definition KickOrBan (E : Env) (guid : ObjectGuid) (targetName : list Z) (ban : bool)
    (c : Channel) : Channel * list Out :=
  let sec := security_of (GetPlayer E c guid) in
  if negb (IsOn guid c) then fail_with E c (MakeNotMember c) guid
  else if negb (PlayerInfo_IsModerator (player_at guid c)) && (sec <? SEC_OBSERVER)
  then fail_with E c (MakeNotModerator c) guid
  else
    match ObjectMgr_GetPlayerByName E targetName with
    | None => fail_with E c (MakePlayerNotFound c targetName) guid
    | Some pTarget =>
      let targetGuid := pv_guid pTarget in
      if negb (IsOn targetGuid c) then fail_with E c (MakePlayerNotFound c targetName) guid
      else
        let changeowner := m_ownerGuid c =? targetGuid in
        if (sec <? SEC_OBSERVER) && changeowner && negb (guid =? m_ownerGuid c)
        then fail_with E c (MakeNotOwner c) guid
        else
          let '(c, data) :=
            if ban && negb (IsBanned targetGuid c)
            then (set_banned (fun s => {[targetGuid]} ∪ s) c, MakePlayerBanned c targetGuid guid)
            else (c, MakePlayerKicked c targetGuid guid) in
          let out1 := SendToAll E c data 0 in
          let c := set_players (delete targetGuid) c in
          let out2 := [CallLeftChannel targetGuid] in
          if changeowner then
            let newowner := if bool_decide (m_players c = ∅) then 0 else guid in
            let '(c, out3) := SetOwner E newowner true c in
            (c, out1 ++ out2 ++ out3)
          else (c, out1 ++ out2)
    end.

Definition UnBan (E : Env) (guid : ObjectGuid) (targetName : list Z) (c : Channel) : Channel * list Out :=
  let sec := security_of (GetPlayer E c guid) in
  if negb (IsOn guid c) then fail_with E c (MakeNotMember c) guid
  else if negb (PlayerInfo_IsModerator (player_at guid c)) && (sec <? SEC_OBSERVER)
  then fail_with E c (MakeNotModerator c) guid
  else
    match ObjectMgr_GetPlayerByName E targetName with
    | None => fail_with E c (MakePlayerNotFound c targetName) guid
    | Some pTarget =>
      let targetGuid := pv_guid pTarget in
      if negb (IsBanned targetGuid c) then fail_with E c (MakePlayerNotBanned c targetName) guid
      else
        let c := set_banned (fun s => s ∖ {[targetGuid]}) c in
        (c, SendToAll E c (MakePlayerUnbanned c targetGuid guid) 0)
    end.

Definition Password (E : Env) (guid : ObjectGuid) (password : list Z) (c : Channel) : Channel * list Out :=
  let sec := security_of (GetPlayer E c guid) in
  if negb (IsOn guid c) then fail_with E c (MakeNotMember c) guid
  else if negb (PlayerInfo_IsModerator (player_at guid c)) && (sec <? SEC_OBSERVER)
  then fail_with E c (MakeNotModerator c) guid
  else
    let c := SetPassword password c in
    (c, SendToAll E c (MakePasswordChanged c guid) 0).

Definition SetMode (E : Env) (guid : ObjectGuid) (targetName : list Z) (moderator set : bool)
    (c : Channel) : Channel * list Out :=
  match GetPlayer E c guid with
  | None => (c, [])
  | Some pPlayer =>
    let sec := pv_security pPlayer in
    if negb (IsOn guid c) then fail_with E c (MakeNotMember c) guid
    else if negb (PlayerInfo_IsModerator (player_at guid c)) && (sec <? SEC_OBSERVER)
    then fail_with E c (MakeNotModerator c) guid
    else
      match GetPlayerByName E c targetName with
      | None => fail_with E c (MakePlayerNotFound c targetName) guid
      | Some pTarget =>
        let targetGuid := pv_guid pTarget in
        if moderator && (guid =? m_ownerGuid c) && (targetGuid =? m_ownerGuid c) then (c, [])
        else if negb (IsOn targetGuid c) then fail_with E c (MakePlayerNotFound c targetName) guid
        else if ((pv_security pPlayer <? SEC_OBSERVER) || (pv_security pTarget <? SEC_OBSERVER)) &&
                negb (pv_team pPlayer =? pv_team pTarget) &&
                negb (cfg_ALLOW_TWO_SIDE_INTERACTION_CHANNEL E)
        then fail_with E c (MakePlayerNotFound c targetName) guid
        else if (m_ownerGuid c =? targetGuid) && negb (m_ownerGuid c =? guid)
        then fail_with E c (MakeNotOwner c) guid
        else if moderator then
          if HasFlag CHANNEL_FLAG_GENERAL c && (pv_security pTarget <? SEC_OBSERVER) then (c, [])
          else SetModerator E targetGuid set c
        else SetMute E targetGuid set c
      end
  end.

(** [SetOwner(guid, targetName)]: the handler of the client's request. *)
Definition SetOwnerByName (E : Env) (guid : ObjectGuid) (targetName : list Z) (c : Channel) : Channel * list Out :=
  match GetPlayer E c guid with
  | None => (c, [])
  | Some pPlayer =>
    let sec := pv_security pPlayer in
    if negb (IsOn guid c) then fail_with E c (MakeNotMember c) guid
    else if (sec <? SEC_OBSERVER) && negb (guid =? m_ownerGuid c) then fail_with E c (MakeNotOwner c) guid
    else
      match ObjectMgr_GetPlayerByName E targetName with
      | None => fail_with E c (MakePlayerNotFound c targetName) guid
      | Some pTarget =>
        let targetGuid := pv_guid pTarget in
        if negb (IsOn targetGuid c) then fail_with E c (MakePlayerNotFound c targetName) guid
        else if negb (pv_team pTarget =? pv_team pPlayer) && negb (cfg_ALLOW_TWO_SIDE_INTERACTION_CHANNEL E)
        then fail_with E c (MakePlayerNotFound c targetName) guid
        else if HasFlag CHANNEL_FLAG_GENERAL c && (pv_security pTarget <? SEC_OBSERVER) then (c, [])
        else
          let c := upd_player targetGuid (PlayerInfo_SetModerator true) c in
          SetOwner E targetGuid true c
      end
  end.

Definition SendWhoOwner (E : Env) (guid : ObjectGuid) (c : Channel) : Channel * list Out :=
  if negb (IsOn guid c) then fail_with E c (MakeNotMember c) guid
  else (c, SendToOne E c (MakeChannelOwner E c) guid).

(** [List]: the members the asking player may see, with the count written
    over its placeholder. *)
Definition List_visible (E : Env) (self : PlayerView) (who : ObjectGuid) : bool :=
  match (if pv_isPlayer self then ObjectMgr_GetPlayer E who else FindMasterPlayer E who) with
  | Some v => ((SEC_PLAYER <? pv_security self) || (pv_security v <=? cfg_GM_LEVEL_IN_WHO_LIST E))
              && IsVisibleGloballyFor E who (pv_guid self)
  | None => false
  end.

Definition List_ (E : Env) (self : PlayerView) (c : Channel) : Channel * list Out :=
  let guid := pv_guid self in
  if negb (IsOn guid c) then fail_with E c (MakeNotMember c) guid
  else
    let shown := filter (fun kv => List_visible E self (fst kv) = true) (map_iter (m_players c)) in
    let data := FStr (m_name c) :: FU8 (GetFlags c) :: FU32 (Z.of_nat (length shown))
                :: mjoin ((fun kv => [FU64 (fst kv); FU8 (flags (snd kv))]) <$> shown) in
    (c, SendToOne E c (SMSG_CHANNEL_LIST, data) guid).

Definition Announce (E : Env) (guid : ObjectGuid) (c : Channel) : Channel * list Out :=
  let sec := security_of (GetPlayer E c guid) in
  if negb (IsOn guid c) then fail_with E c (MakeNotMember c) guid
  else if negb (PlayerInfo_IsModerator (player_at guid c)) && (sec <? SEC_OBSERVER)
  then fail_with E c (MakeNotModerator c) guid
  else
    let c := SetAnnounce (negb (m_announce c)) c in
    (c, SendToAll E c (if m_announce c then MakeAnnouncementsOn c guid else MakeAnnouncementsOff c guid) 0).

Definition Moderate (E : Env) (guid : ObjectGuid) (c : Channel) : Channel * list Out :=
  let sec := security_of (GetPlayer E c guid) in
  if negb (IsOn guid c) then fail_with E c (MakeNotMember c) guid
  else if negb (PlayerInfo_IsModerator (player_at guid c)) && (sec <? SEC_OBSERVER)
  then fail_with E c (MakeNotModerator c) guid
  else
    let c := set_moderate (negb (m_moderate c)) c in
    (c, SendToAll E c (if m_moderate c then MakeModerationOn c guid else MakeModerationOff c guid) 0).

(** [Say(guid, text, lang, skipCheck)] for a text that is not null. The
    honor rank is read from the [Player] object, which an online player of
    this channel must have: [None] is the null pointer otherwise. The last
    test of the source, [m_players[guid]] after a skipped membership check,
    is not reached: [skipCheck] decides it first. *)
Definition Say (E : Env) (guid : ObjectGuid) (text : list Z) (lang : Z) (skipCheck : bool)
    (c : Channel) : option (Channel * list Out) :=
  let pPlayer := GetPlayer E c guid in
  let sec := security_of pPlayer in
  honor_rank ← match pPlayer with
               | None => Some 0
               | Some v => if pv_isPlayer v then Some (pv_honorRank v) else None
               end;
  if negb skipCheck && negb (IsOn guid c) then Some (fail_with E c (MakeNotMember c) guid)
  else if negb skipCheck && (PlayerInfo_IsMuted (player_at guid c) ||
            ((GetChannelId c =? CHANNEL_ID_WORLD_DEFENSE) && (honor_rank <? 15)))
  then Some (fail_with E c (MakeMuted c) guid)
  else if negb skipCheck && m_moderate c && negb (PlayerInfo_IsModerator (player_at guid c)) && (sec <? SEC_OBSERVER)
  then Some (fail_with E c (MakeNotModerator c) guid)
  else
    let lang :=
      match pPlayer with
      | Some v => if IsDefenseChannel (GetChannelId c) then baseLanguage E (pv_race v)
                  else if cfg_ALLOW_TWO_SIDE_INTERACTION_CHANNEL E then LANG_UNIVERSAL else lang
      | None => if cfg_ALLOW_TWO_SIDE_INTERACTION_CHANNEL E then LANG_UNIVERSAL else lang
      end in
    let tag := match pPlayer with Some v => pv_chatTag v | None => 0 end in
    let chat who := SendChat who text lang tag guid honor_rank in
    let vanish :=
      match pPlayer with
      | Some v => negb skipCheck &&
          (pv_fingerprintBanned v ||
           (has (pv_accountFlags v) ACCOUNT_FLAG_MUTED_FROM_PUBLIC_CHANNELS
            && (pv_accountMaxLevel v <? cfg_PUB_CHANS_MUTE_VANISH_LEVEL E)))
      | None => false
      end in
    if vanish then Some (c, [chat guid])
    else
      let ignored := if negb skipCheck && negb (PlayerInfo_IsModerator (player_at guid c)) then guid else 0 in
      Some (c, chat <$> recipients E c ignored).

Definition Invite (E : Env) (guid : ObjectGuid) (targetName : list Z) (c : Channel) : Channel * list Out :=
  if negb (IsOn guid c) then fail_with E c (MakeNotMember c) guid
  else
    match GetPlayerByName E c targetName with
    | None => fail_with E c (MakePlayerNotFound c targetName) guid
    | Some pTarget =>
      let targetGuid := pv_guid pTarget in
      if IsOn targetGuid c then fail_with E c (MakePlayerAlreadyMember c targetGuid) guid
      else if IsBanned targetGuid c then fail_with E c (MakePlayerInviteBanned c targetName) guid
      else
        match GetPlayer E c guid with
        | None => (c, [])
        | Some pPlayer =>
          if negb (pv_team pTarget =? pv_team pPlayer) && negb (cfg_ALLOW_TWO_SIDE_INTERACTION_CHANNEL E)
          then fail_with E c (MakeInviteWrongFaction c) guid
          else
            (c, (if negb (HasIgnore pTarget guid) then SendToOne E c (MakeInvite c guid) targetGuid else []) ++
                SendToOne E c (MakePlayerInvited c (pv_name pTarget)) guid)
        end
    end.

(** ** Operations as one type *)

Inductive chan_op :=
  | OpJoin (guid : ObjectGuid) (password : list Z) (checkPassword : bool)
  | OpLeave (guid : ObjectGuid) (send : bool)
  | OpKickOrBan (guid : ObjectGuid) (target : list Z) (ban : bool)
  | OpUnBan (guid : ObjectGuid) (target : list Z)
  | OpPassword (guid : ObjectGuid) (password : list Z)
  | OpSetMode (guid : ObjectGuid) (target : list Z) (moderator set : bool)
  | OpSetOwner (guid : ObjectGuid) (target : list Z)
  | OpSendWhoOwner (guid : ObjectGuid)
  | OpList (self : PlayerView)
  | OpAnnounce (guid : ObjectGuid)
  | OpModerate (guid : ObjectGuid)
  | OpSay (guid : ObjectGuid) (text : list Z) (lang : Z) (skipCheck : bool)
  | OpInvite (guid : ObjectGuid) (target : list Z).

Definition chan_apply (E : Env) (o : chan_op) (c : Channel) : option (Channel * list Out) :=
  match o with
  | OpJoin g p k => Some (Join E g p k c)
  | OpLeave g s => Leave E g s c
  | OpKickOrBan g t b => Some (KickOrBan E g t b c)
  | OpUnBan g t => Some (UnBan E g t c)
  | OpPassword g p => Some (Password E g p c)
  | OpSetMode g t m s => Some (SetMode E g t m s c)
  | OpSetOwner g t => Some (SetOwnerByName E g t c)
  | OpSendWhoOwner g => Some (SendWhoOwner E g c)
  | OpList self => Some (List_ E self c)
  | OpAnnounce g => Some (Announce E g c)
  | OpModerate g => Some (Moderate E g c)
  | OpSay g t l k => Say E g t l k c
  | OpInvite g t => Some (Invite E g t c)
  end.

(** A step of the channel: the environment may have changed since the last
    one; the guid of a joining player is not the null guid. *)
Inductive chan_step : Channel -> Channel -> Prop :=
  | chan_step_op E o c c' out :
      chan_apply E o c = Some (c', out) ->
      match o with OpJoin g _ _ => g <> 0 | _ => True end ->
      chan_step c c'.

(** ** Lemmas on flags *)

Lemma has_testbit f n : 0 <= n -> has f (Z.shiftl 1 n) = Z.testbit f n.
Proof. intros. unfold has. by rewrite land_one_shift, negb_involutive. Qed.

Lemma set_member_flag_bit n state p j :
  0 <= n < 8 -> 0 <= j < 8 ->
  Z.testbit (flags (set_member_flag (Z.shiftl 1 n) state p)) j =
  if bool_decide (j = n) then state else Z.testbit (flags p) j.
Proof.
  intros Hn Hj. unfold set_member_flag, u8, wrapu. destruct state; simpl;
    rewrite Z.mod_pow2_bits_low by lia.
  - rewrite Z.lor_spec, testbit_one_shift by lia.
    case_bool_decide; [by rewrite orb_true_r|by rewrite orb_false_r].
  - rewrite Z.land_spec, Z.lnot_spec, testbit_one_shift by lia.
    case_bool_decide; [by rewrite andb_false_r|by rewrite andb_true_r].
Qed.

Lemma IsOwner_bit p : PlayerInfo_IsOwner p = Z.testbit (flags p) 0.
Proof. apply (has_testbit _ 0). lia. Qed.
Lemma IsModerator_bit p : PlayerInfo_IsModerator p = Z.testbit (flags p) 1.
Proof. apply (has_testbit _ 1). lia. Qed.
Lemma IsMuted_bit p : PlayerInfo_IsMuted p = Z.testbit (flags p) 3.
Proof. apply (has_testbit _ 3). lia. Qed.

Lemma SetOwner_IsOwner b p : PlayerInfo_IsOwner (PlayerInfo_SetOwner b p) = b.
Proof. rewrite IsOwner_bit. by apply (set_member_flag_bit 0). Qed.
Lemma SetModerator_IsOwner b p : PlayerInfo_IsOwner (PlayerInfo_SetModerator b p) = PlayerInfo_IsOwner p.
Proof. rewrite !IsOwner_bit. by apply (set_member_flag_bit 1). Qed.
Lemma SetMuted_IsOwner b p : PlayerInfo_IsOwner (PlayerInfo_SetMuted b p) = PlayerInfo_IsOwner p.
Proof. rewrite !IsOwner_bit. by apply (set_member_flag_bit 3). Qed.

(** ** The ownership invariant *)

(** Only the owner the channel names carries the owner flag, and the null
    guid is not a member. *)
Record own_inv (c : Channel) : Prop := {
  oi_flag : forall g p, m_players c !! g = Some p -> PlayerInfo_IsOwner p = true -> g = m_ownerGuid c;
  oi_null : m_players c !! 0 = None
}.

(** A change of the members that gives nobody the owner flag. *)
Lemma own_inv_players f c :
  own_inv c -> f (m_players c) !! 0 = None ->
  (forall g p, f (m_players c) !! g = Some p -> PlayerInfo_IsOwner p = true ->
     exists p', m_players c !! g = Some p' /\ PlayerInfo_IsOwner p' = true) ->
  own_inv (set_players f c).
Proof.
  intros [Hf Hn] H0 Hp. constructor; simpl; [|done].
  intros g p Hg Ho. destruct (Hp g p Hg Ho) as (p' & ? & ?). eauto.
Qed.

Lemma own_inv_delete g c : own_inv c -> own_inv (set_players (delete g) c).
Proof.
  intros Hc. apply own_inv_players; [done|rewrite lookup_delete; case_decide; [done|apply Hc]|].
  intros g' p [? ?]%lookup_delete_Some ?. eauto.
Qed.

(** Updating a member in a way that leaves the owner flag alone. *)
Lemma own_inv_upd g f c :
  own_inv c -> (forall p, PlayerInfo_IsOwner (f p) = PlayerInfo_IsOwner p) -> IsOn g c = true ->
  own_inv (upd_player g f c).
Proof.
  intros Hc Hf Hon. apply bool_decide_eq_true in Hon as [q Hq].
  unfold upd_player, player_at. rewrite Hq. simpl. apply own_inv_players; [done| |].
  - rewrite lookup_insert. case_decide; [|apply Hc]. subst. by rewrite (oi_null _ Hc) in Hq.
  - intros g' p [[<- <-]|[? ?]]%lookup_insert_Some Ho; [|eauto].
    rewrite Hf in Ho. eauto.
Qed.

Lemma own_inv_SetOwner E guid exclaim c : own_inv c -> own_inv (fst (SetOwner E guid exclaim c)).
Proof.
  intros Hc. unfold SetOwner. case_match; [|done]. case_match; [done|].
  set (c1 := if m_ownerGuid c =? 0 then c else _).
  assert (Hc1 : m_players c1 !! 0 = None /\
    forall g p, m_players c1 !! g = Some p -> PlayerInfo_IsOwner p = false).
  { destruct Hc as [Hf Hn]. subst c1. destruct (Z.eqb_spec (m_ownerGuid c) 0) as [E0|].
    - split; [done|]. intros g q Hg. apply not_true_is_false. intros Ho.
      rewrite (Hf g q Hg Ho), E0, Hn in Hg. done.
    - destruct (m_players c !! m_ownerGuid c) as [i|] eqn:Ei; simpl; split; try done.
      + by rewrite lookup_insert_ne.
      + intros g q [[<- <-]|[Hne Hg]]%lookup_insert_Some; [apply SetOwner_IsOwner|].
        apply not_true_is_false. intros Ho. apply Hne. symmetry. eauto.
      + intros g q Hg. apply not_true_is_false. intros Ho.
        assert (g = m_ownerGuid c) as -> by eauto. congruence. }
  destruct Hc1 as [Hn1 Hf1]. destruct (Z.eqb_spec guid 0) as [->|Hg0]; simpl.
  - constructor; simpl; [|done]. intros g q Hg Ho. by rewrite (Hf1 g q Hg) in Ho.
  - constructor; simpl.
    + intros g q [[<- <-]|[? Hg]]%lookup_insert_Some Ho; [done|]. by rewrite (Hf1 g q Hg) in Ho.
    + by rewrite lookup_insert_ne.
Qed.

Lemma own_inv_SetModerator E g b c : own_inv c -> IsOn g c = true -> own_inv (fst (SetModerator E g b c)).
Proof. intros. unfold SetModerator. case_match; [done|]. apply own_inv_upd; auto using SetModerator_IsOwner. Qed.

Lemma own_inv_SetMute E g b c : own_inv c -> IsOn g c = true -> own_inv (fst (SetMute E g b c)).
Proof. intros. unfold SetMute. case_match; [done|]. apply own_inv_upd; auto using SetMuted_IsOwner. Qed.

Lemma IsOn_upd g g' f c : IsOn g c = true -> IsOn g (upd_player g' f c) = true.
Proof.
  unfold IsOn. rewrite !bool_decide_eq_true. simpl. intros [p Hp]. rewrite lookup_insert.
  case_decide; eauto.
Qed.

Lemma IsOn_SetOwner E g g' e c : IsOn g c = true -> IsOn g (fst (SetOwner E g' e c)) = true.
Proof.
  intros H. unfold SetOwner. repeat case_match; simpl; try done.
  all: try apply IsOn_upd; unfold IsOn in *; simpl in *; rewrite ?bool_decide_eq_true in *; try done.
  all: rewrite lookup_insert; case_decide; eauto.
Qed.

Lemma own_inv_Join E g pw k c : own_inv c -> g <> 0 -> own_inv (fst (Join E g pw k c)).
Proof.
  intros Hc Hg. unfold Join, fail_with. destruct (IsOn g c) eqn:Eon; [by case_match|].
  repeat (case_match; [done|]).
  assert (Hon : own_inv (upd_player g (fun _ => mkPlayerInfo g MEMBER_FLAG_NONE) c)).
  { apply own_inv_players; [done|by rewrite lookup_insert_ne; [apply Hc|]|].
    intros g' p [[<- <-]|[? ?]]%lookup_insert_Some Ho; [done|eauto]. }
  assert (Hin : IsOn g (upd_player g (fun _ => mkPlayerInfo g MEMBER_FLAG_NONE) c) = true).
  { unfold IsOn. apply bool_decide_eq_true. simpl. rewrite lookup_insert_eq. eauto. }
  cbv zeta. match goal with |- context [if ?b then (c, []) else _] => destruct b; [done|] end.
  destruct (HasFlag CHANNEL_FLAG_CUSTOM _ && _ && _); [|done].
  pose proof (own_inv_SetOwner E g (1 <? GetNumPlayers (upd_player g (fun _ => mkPlayerInfo g MEMBER_FLAG_NONE) c)) _ Hon) as Ho.
  pose proof (IsOn_SetOwner E g g (1 <? GetNumPlayers (upd_player g (fun _ => mkPlayerInfo g MEMBER_FLAG_NONE) c)) _ Hin) as Hi.
  destruct (SetOwner E g _ _) as [c2 out]. simpl in *. apply own_inv_upd; auto using SetModerator_IsOwner.
Qed.

Lemma own_inv_Leave E g send c c' out : own_inv c -> Leave E g send c = Some (c', out) -> own_inv c'.
Proof.
  intros Hc. unfold Leave. repeat case_match; intros [= <- <-]; try done; try by apply own_inv_delete.
  all: match goal with H : SetOwner ?E ?g ?b ?c = (?c', _) |- own_inv ?c' =>
    pose proof (own_inv_SetOwner E g b c) as Ho; rewrite H in Ho; apply Ho; by apply own_inv_delete end.
Qed.

Lemma own_inv_KickOrBan E g t ban c : own_inv c -> own_inv (fst (KickOrBan E g t ban c)).
Proof.
  intros Hc. unfold KickOrBan, fail_with. repeat (case_match; [done|]). case_match; [|done].
  repeat (case_match; [done|]).
  assert (Hb : forall f, own_inv (set_banned f c)) by (intros; destruct Hc; by constructor).
  repeat case_match; simplify_eq/=; auto using own_inv_delete.
  all: match goal with H : SetOwner ?E ?g ?b ?c = (?c', _) |- own_inv ?c' =>
    pose proof (own_inv_SetOwner E g b c) as Ho; rewrite H in Ho; apply Ho; auto using own_inv_delete end.
Qed.

Lemma own_inv_SetMode E g t m s c : own_inv c -> own_inv (fst (SetMode E g t m s c)).
Proof.
  intros Hc. unfold SetMode, fail_with. repeat case_match; try done; to_prop;
    auto using own_inv_SetModerator, own_inv_SetMute.
Qed.

Lemma own_inv_SetOwnerByName E g t c : own_inv c -> own_inv (fst (SetOwnerByName E g t c)).
Proof.
  intros Hc. unfold SetOwnerByName, fail_with. repeat case_match; try done; to_prop.
  apply own_inv_SetOwner, own_inv_upd; auto using SetModerator_IsOwner.
Qed.

Lemma own_inv_step c c' : own_inv c -> chan_step c c' -> own_inv c'.
Proof.
  intros Hc Hs. destruct Hs as [E o c c' out Ho Hg].
  assert (Hset : forall p, own_inv (SetPassword p c)) by (intros; destruct Hc; by constructor).
  assert (Hann : forall p, own_inv (SetAnnounce p c)) by (intros; destruct Hc; by constructor).
  assert (Hmod : forall p, own_inv (set_moderate p c)) by (intros; destruct Hc; by constructor).
  assert (Hban : forall f, own_inv (set_banned f c)) by (intros; destruct Hc; by constructor).
  assert (Hfst : forall r : Channel * list Out, own_inv (fst r) -> Some r = Some (c', out) -> own_inv c')
    by (intros r ? [= ->]; done).
  destruct o; simpl in Ho; try (revert Ho; apply Hfst).
  - by apply own_inv_Join.
  - by eapply own_inv_Leave.
  - by apply own_inv_KickOrBan.
  - unfold UnBan, fail_with. repeat case_match; simpl; auto.
  - unfold Password, fail_with. repeat case_match; simpl; auto.
  - by apply own_inv_SetMode.
  - by apply own_inv_SetOwnerByName.
  - unfold SendWhoOwner, fail_with. repeat case_match; simpl; auto.
  - unfold List_, fail_with. repeat case_match; simpl; auto.
  - unfold Announce, fail_with. repeat case_match; simpl; auto.
  - unfold Moderate, fail_with. repeat case_match; simpl; auto.
  - unfold Say, fail_with in Ho. repeat (case_match; simplify_eq/=; try done).
  - unfold Invite, fail_with. repeat case_match; simpl; auto.
Qed.

(** ** Properties *)

Lemma own_inv_new E name team : own_inv (newChannel E name team).
Proof. unfold newChannel. repeat case_match; constructor; simpl; try done; intros ? ? Hx; by rewrite lookup_empty in Hx. Qed.

(** C36: a channel has at most one owner: in every state a channel reaches
    from its creation, by any sequence of joins, departures, kicks, bans,
    mode changes and transfers, whoever is online in between, a member that
    carries the owner flag is the owner the channel names. *)
Theorem channel_has_one_owner E name team c g p :
  rtc chan_step (newChannel E name team) c ->
  m_players c !! g = Some p -> PlayerInfo_IsOwner p = true ->
  g = m_ownerGuid c.
Proof.
  intros Hr. assert (Hi : own_inv c); [|intros; by eapply oi_flag].
  remember (newChannel E name team) as c0 eqn:E0.
  assert (H0 : own_inv c0) by (subst; apply own_inv_new). clear E0.
  induction Hr; auto. apply IHHr. by eapply own_inv_step.
Qed.

(** A small server to run the handlers on: every guid is an online player of
    the alliance without privileges, named by the single byte of its guid. *)
Definition test_view (g : ObjectGuid) : PlayerView :=
  mkPlayerView g true [g] SEC_PLAYER 0 469 1 [] 0 0 false 0 60.
Definition test_by_name (n : list Z) : option PlayerView :=
  match n with [g] => Some (test_view g) | _ => None end.
Definition test_env : Env :=
  mkEnv (fun g => if g =? 0 then None else Some (test_view g)) (fun g => if g =? 0 then None else Some (test_view g))
    test_by_name test_by_name
    (fun g => Some (test_view g)) test_by_name (fun g => Some [g]) (fun _ _ => true)
    (fun _ => None) (fun n _ => Some n) (fun _ => 7) false false 0 0.

Lemma channel_has_one_owner_witness :
  5 = m_ownerGuid (fst (Join test_env 6 [] true (fst (Join test_env 5 [] true (newChannel test_env [88] 469))))).
Proof.
  apply (channel_has_one_owner test_env [88] 469 _ 5 (mkPlayerInfo 5 3)).
  - eapply rtc_l; [by apply (chan_step_op test_env (OpJoin 5 [] true)) with (out :=
      snd (Join test_env 5 [] true (newChannel test_env [88] 469))); [vm_compute; reflexivity|]|].
    eapply rtc_l; [|apply rtc_refl].
    by apply (chan_step_op test_env (OpJoin 6 [] true)) with (out :=
      snd (Join test_env 6 [] true (fst (Join test_env 5 [] true (newChannel test_env [88] 469)))));
      [vm_compute; reflexivity|].
  - by vm_compute.
  - by vm_compute.
Defined.

(** The caller of a moderator's request who is not one. *)
Definition op_caller (o : chan_op) : option ObjectGuid :=
  match o with
  | OpKickOrBan g _ _ | OpUnBan g _ | OpPassword g _ | OpSetMode g _ _ _ | OpAnnounce g | OpModerate g => Some g
  | _ => None
  end.

(** Only moderators and staff moderate: a kick, a ban, the lifting of a
    ban, a new password, a mode change and the two toggles leave the channel
    exactly as it was when the caller is not a member, or is a member who is
    neither a moderator of the channel nor a game master. *)
Theorem unprivileged_callers_change_nothing E o g c c' out :
  op_caller o = Some g ->
  IsOn g c = false \/
    (PlayerInfo_IsModerator (player_at g c) = false /\ security_of (GetPlayer E c g) < SEC_OBSERVER) ->
  chan_apply E o c = Some (c', out) -> c' = c.
Proof.
  intros Ho Hun.
  assert (Hchk : forall r : Channel * list Out,
    fst (if negb (IsOn g c) then fail_with E c (MakeNotMember c) g
         else if negb (PlayerInfo_IsModerator (player_at g c)) && (security_of (GetPlayer E c g) <? SEC_OBSERVER)
         then fail_with E c (MakeNotModerator c) g else r) = c).
  { intros r. destruct Hun as [-> | [-> Hs]]; [done|]. simpl.
    rewrite (proj2 (Z.ltb_lt _ _) Hs). by destruct (IsOn g c). }
  assert (Hfst : forall r : Channel * list Out, fst r = c -> Some r = Some (c', out) -> c' = c)
    by (intros r Hr [= ->]; done).
  destruct o; simplify_eq/=; apply Hfst; try apply Hchk.
  unfold SetMode. destruct (GetPlayer E c g) as [v|] eqn:Ev; [|done]. simpl in *. apply Hchk.
Qed.

Lemma unprivileged_callers_change_nothing_witness :
  fst (KickOrBan test_env 6 [5] true
         (fst (Join test_env 6 [] true (fst (Join test_env 5 [] true (newChannel test_env [88] 469)))))) =
  fst (Join test_env 6 [] true (fst (Join test_env 5 [] true (newChannel test_env [88] 469)))).
Proof.
  apply (unprivileged_callers_change_nothing test_env (OpKickOrBan 6 [5] true) 6 _ _
    (snd (KickOrBan test_env 6 [5] true
         (fst (Join test_env 6 [] true (fst (Join test_env 5 [] true (newChannel test_env [88] 469)))))))).
  - reflexivity.
  - right. by vm_compute.
  - vm_compute. reflexivity.
Defined.

(** Who a join admits. *)
Definition admits (E : Env) (guid : ObjectGuid) (password : list Z) (checkPassword : bool) (c : Channel) : bool :=
  negb (IsBanned guid c) &&
  (negb checkPassword || bool_decide (m_password c = []) || bool_decide (password = m_password c)) &&
  ((m_securityLevel c =? 0) ||
   match GetPlayer E c guid with Some v => m_securityLevel c <=? pv_security v | None => false end) &&
  negb (match GetPlayer E c guid with
        | Some v => pv_isPlayer v && negb (pv_guildId v =? 0) && (GetFlags c =? 0x38)
        | None => false
        end).

Lemma IsOn_upd_ne g g' f c : g' <> g -> IsOn g' (upd_player g f c) = IsOn g' c.
Proof. intros. unfold IsOn. simpl. by rewrite lookup_insert_ne. Qed.

(** A member list only gains the new owner in a transfer of an unowned channel. *)
Lemma IsOn_SetOwner_unowned E g g' e c :
  m_ownerGuid c = 0 -> g' <> g -> IsOn g' (fst (SetOwner E g e c)) = IsOn g' c.
Proof.
  intros H0 Hne. unfold SetOwner. rewrite H0. case_match; [|done]. case_match; [done|].
  simpl. case_match; [done|]. etrans; [by apply IsOn_upd_ne|done].
Qed.

(** Who gets in: a player who is not yet on a channel is on it after
    [Join] exactly when he is not banned, gives the password if the channel
    has one, reaches its security level, and is not a guild member entering
    guild recruitment; nobody else's membership changes. *)
Theorem join_admits E g pw k c :
  IsOn g c = false ->
  IsOn g (fst (Join E g pw k c)) = admits E g pw k c /\
  forall g', g' <> g -> IsOn g' (fst (Join E g pw k c)) = IsOn g' c.
Proof.
  intros Hoff. unfold Join, admits, fail_with. rewrite Hoff.
  destruct (IsBanned g c); [done|]. cbn [negb andb].
  assert (Hpw : k && (0 <? Z.of_nat (length (m_password c))) && bool_decide (pw <> m_password c) =
    negb (negb k || bool_decide (m_password c = []) || bool_decide (pw = m_password c))).
  { destruct k; [|done]. simpl. rewrite negb_orb, bool_decide_not. f_equal.
    destruct (m_password c); [done|]. by rewrite bool_decide_eq_false_2. }
  rewrite Hpw. destruct (negb k || _ || _); [|done]. cbn [negb andb].
  assert (Hsec : negb (m_securityLevel c =? 0) &&
      match GetPlayer E c g with None => true | Some v => pv_security v <? m_securityLevel c end =
    negb ((m_securityLevel c =? 0) ||
      match GetPlayer E c g with Some v => m_securityLevel c <=? pv_security v | None => false end)).
  { rewrite negb_orb. f_equal. destruct (GetPlayer E c g); [|done]. apply Z.ltb_antisym. }
  rewrite Hsec. destruct (_ || match GetPlayer E c g with _ => _ end); [|done]. cbn [negb andb].
  set (gr := match GetPlayer E c g with Some v => pv_isPlayer v && _ && _ | None => false end).
  match goal with |- context [if ?b then (c, []) else _] => replace b with gr
    by (subst gr; destruct (GetPlayer E c g); [by rewrite andb_assoc|done]) end.
  destruct gr; [done|]. cbn [negb].
  set (c1 := upd_player g _ c).
  assert (Hin : IsOn g c1 = true).
  { unfold IsOn. apply bool_decide_eq_true. simpl. rewrite lookup_insert_eq. eauto. }
  assert (Hout : forall g', g' <> g -> IsOn g' c1 = IsOn g' c) by (intros; by apply IsOn_upd_ne).
  destruct (HasFlag CHANNEL_FLAG_CUSTOM c1 && _ && _) eqn:Eb; [|by split].
  to_prop. pose proof (IsOn_SetOwner E g g (1 <? GetNumPlayers c1) c1 Hin) as Hi.
  pose proof (fun g' Hne => IsOn_SetOwner_unowned E g g' (1 <? GetNumPlayers c1) c1 ltac:(assumption) Hne) as Hu.
  destruct (SetOwner E g _ c1) as [c2 out]. simpl in *. split; [by apply IsOn_upd|].
  intros g' Hne. rewrite IsOn_upd_ne, Hu by done. by apply Hout.
Qed.

Lemma join_admits_witness :
  let c := SetPassword [1] (newChannel test_env [88] 469) in
  IsOn 5 (fst (Join test_env 5 [2] true c)) = admits test_env 5 [2] true c /\
  forall g', g' <> 5 -> IsOn g' (fst (Join test_env 5 [2] true c)) = IsOn g' c.
Proof. apply (join_admits test_env 5 [2] true). by vm_compute. Defined.

(** An owner who kicks himself stays: on a custom channel with another
    member, the owner who is online and names himself in a kick is told of the
    kick and loses the channel on his own side, and is put back on the member
    list by the transfer of the ownership he already had; the entry that
    comes back names the null guid as its player. *)
Theorem self_kick_keeps_owner E g name v other c :
  GetPlayer E c g = Some v -> pv_guid v = g -> ObjectMgr_GetPlayerByName E name = Some v ->
  HasFlag CHANNEL_FLAG_GENERAL c = false ->
  g <> 0 -> m_ownerGuid c = g -> IsOn g c = true -> PlayerInfo_IsModerator (player_at g c) = true ->
  other <> g -> IsOn other c = true ->
  let '(c', out) := KickOrBan E g name false c in
  IsOn g c' = true /\ m_ownerGuid c' = g /\ m_players c' !! g = Some (mkPlayerInfo 0 MEMBER_FLAG_OWNER) /\
  CallLeftChannel g ∈ out.
Proof.
  intros Hp Hvg Hn Hgen Hg0 Hown Hon Hmod Hne Hother. unfold KickOrBan.
  rewrite Hon, Hmod, Hn, Hvg, Hon, Hown, !Z.eqb_refl, andb_false_r. cbn [negb andb].
  rewrite bool_decide_eq_false_2.
  2: { simpl. intros He. apply bool_decide_eq_true in Hother as [q Hq].
       assert (delete g (m_players c) !! other = Some q) as Hd by by rewrite lookup_delete_ne.
       by rewrite He, lookup_empty in Hd. }
  destruct (SetOwner E g true _) as [c2 out2] eqn:Es. unfold SetOwner in Es.
  assert (Hp' : GetPlayer E (set_players (delete g) c) g = Some v) by done.
  rewrite Hp' in Es. change (HasFlag CHANNEL_FLAG_GENERAL (set_players (delete g) c))
    with (HasFlag CHANNEL_FLAG_GENERAL c) in Es. rewrite Hgen in Es. simpl in Es.
  rewrite Hown, (proj2 (Z.eqb_neq _ _) Hg0), lookup_delete_eq in Es. simpl in Es.
  unfold upd_player, player_at in Es. simpl in Es. rewrite lookup_delete_eq in Es. simpl in Es.
  injection Es as <- <-. unfold IsOn. simpl. rewrite lookup_insert_eq. split_and!; [by apply bool_decide_eq_true|done|done|].
  apply elem_of_app. right. by left.
Qed.

Lemma self_kick_keeps_owner_witness :
  let c := fst (Join test_env 6 [] true (fst (Join test_env 5 [] true (newChannel test_env [88] 469)))) in
  let '(c', out) := KickOrBan test_env 5 [5] false c in
  IsOn 5 c' = true /\ m_ownerGuid c' = 5 /\ m_players c' !! 5 = Some (mkPlayerInfo 0 MEMBER_FLAG_OWNER) /\
  CallLeftChannel 5 ∈ out.
Proof.
  by apply (self_kick_keeps_owner test_env 5 [5] (test_view 5) 6
    (fst (Join test_env 6 [] true (fst (Join test_env 5 [] true (newChannel test_env [88] 469)))))); vm_compute.
Defined.

Lemma elem_of_recipients E c guid who :
  who ∈ recipients E c guid <-> IsOn who c = true /\ hears E c guid who = true.
Proof.
  unfold recipients, IsOn. rewrite list_elem_of_fmap. split.
  - intros ([k p] & -> & [Hh Hin]%list_elem_of_filter). apply elem_of_map_iter in Hin.
    split; [apply bool_decide_eq_true; eauto|done].
  - intros [[p Hp]%bool_decide_eq_true Hh]. exists (who, p). split; [done|].
    apply list_elem_of_filter. split; [done|]. by apply elem_of_map_iter.
Qed.

(** Who speaks and who hears: [Say] with its checks never changes the
    channel; a message goes out only from a member who is not muted and, on a
    moderated channel, is a moderator or a game master; it reaches only
    members who are online, and no member that ignores the speaker unless the
    speaker is a moderator (or is shown his own message alone). *)
Theorem say_delivery E g text lang c c' out who t l tg sn hr :
  Say E g text lang false c = Some (c', out) -> SendChat who t l tg sn hr ∈ out ->
  c' = c /\ t = text /\ sn = g /\
  IsOn g c = true /\ PlayerInfo_IsMuted (player_at g c) = false /\
  (m_moderate c = true -> PlayerInfo_IsModerator (player_at g c) = true \/
                          SEC_OBSERVER <= security_of (GetPlayer E c g)) /\
  (who = g \/ (IsOn who c = true /\ is_Some (GetPlayer E c who) /\
    (PlayerInfo_IsModerator (player_at g c) = false -> hears E c g who = true))).
Proof.
  unfold Say, fail_with, SendToOne. cbn [negb andb].
  destruct (match GetPlayer E c g with Some v => if pv_isPlayer v then Some (pv_honorRank v) else None
            | None => Some 0 end) as [hon|]; [|done]. simpl.
  destruct (IsOn g c) eqn:Eon; cbn [negb].
  2: { intros [= <- <-] Hin. exfalso. revert Hin. case_match; intros Hin; by repeat (apply elem_of_cons in Hin as [|Hin] || apply elem_of_nil in Hin). }
  destruct (PlayerInfo_IsMuted _ || _) eqn:Em.
  { intros [= <- <-] Hin. exfalso. revert Hin. case_match; intros Hin; by repeat (apply elem_of_cons in Hin as [|Hin] || apply elem_of_nil in Hin). }
  destruct (m_moderate c && _ && _) eqn:Emod.
  { intros [= <- <-] Hin. exfalso. revert Hin. case_match; intros Hin; by repeat (apply elem_of_cons in Hin as [|Hin] || apply elem_of_nil in Hin). }
  to_prop.
  assert (Hm : m_moderate c = true -> PlayerInfo_IsModerator (player_at g c) = true \/
                          SEC_OBSERVER <= security_of (GetPlayer E c g)).
  { intros Hx. rewrite Hx in Emod. simpl in Emod. destruct (PlayerInfo_IsModerator _); [by left|].
    simpl in Emod. to_prop. by right. }
  set (vanish := match GetPlayer E c g with Some v => _ || _ | None => false end).
  destruct vanish; intros [= <- <-].
  - intros Hin. apply list_elem_of_singleton in Hin. simplify_eq. split_and!; auto.
  - intros Hin. apply list_elem_of_fmap in Hin as (w & Hw & Hrec). simplify_eq.
    apply elem_of_recipients in Hrec as [Hon Hh].
    split_and!; auto. right. split; [done|]. split.
    + unfold hears in Hh. destruct (GetPlayer E c w); [eauto|done].
    + intros Hnm. by rewrite Hnm in Hh.
Qed.

Lemma say_delivery_witness :
  let c := fst (Join test_env 6 [] true (fst (Join test_env 5 [] true (newChannel test_env [88] 469)))) in
  c = c /\ [72] = [72] /\ 6 = 6 /\
  IsOn 6 c = true /\ PlayerInfo_IsMuted (player_at 6 c) = false /\
  (m_moderate c = true -> PlayerInfo_IsModerator (player_at 6 c) = true \/
                          SEC_OBSERVER <= security_of (GetPlayer test_env c 6)) /\
  (5 = 6 \/ (IsOn 5 c = true /\ is_Some (GetPlayer test_env c 5) /\
    (PlayerInfo_IsModerator (player_at 6 c) = false -> hears test_env c 6 5 = true))).
Proof.
  set (c := fst (Join test_env 6 [] true (fst (Join test_env 5 [] true (newChannel test_env [88] 469))))).
  apply (say_delivery test_env 6 [72] 0 c c
    [SendChat 5 [72] 0 0 6 0; SendChat 6 [72] 0 0 6 0] 5 [72] 0 0 6 0).
  - vm_compute. reflexivity.
  - by left.
Defined.

(** The national channels get no flag: 0x100 does not fit the eight bits of
    [m_flags], so a channel named [Ru] is flagged as nothing at all. *)
Example national_flag_is_lost :
  m_flags (newChannel test_env (str "Ru") 469) = 0 /\
  (forall f, HasFlag f (newChannel test_env (str "Ru") 469) = false).
Proof. by vm_compute. Qed.
