(* ===== verification/Social.v ===== *)
(** * Social: friend and ignore lists (src/src/game/SocialMgr.h, SocialMgr.cpp)

    [PlayerSocial] is the list of one character, [SocialMgr] the lists of all
    characters that are online, and the handlers of MiscHandler.cpp the
    packets that change them. The statements sent to the database are effects;
    what the table [character_social] does with them is the class [SocialDB]. *)
From S2P Require Import Prelude ByteBuffer ObjectGuid.

(** ** Data *)

Definition FRIEND_STATUS_OFFLINE : Z := 0.
Definition FRIEND_STATUS_ONLINE : Z := 1.
Definition FRIEND_STATUS_AFK : Z := 2.
Definition FRIEND_STATUS_DND : Z := 4.

Definition SOCIAL_FLAG_FRIEND : Z := 0x01.
Definition SOCIAL_FLAG_IGNORED : Z := 0x02.
Definition SOCIAL_FLAG_MUTED : Z := 0x04.
Definition SOCIAL_FLAG_ALL : Z := Z.lor (Z.lor SOCIAL_FLAG_FRIEND SOCIAL_FLAG_IGNORED) SOCIAL_FLAG_MUTED.

(** [FriendsResult], the values the handlers answer with. *)
Definition FRIEND_LIST_FULL : Z := 0x01.
Definition FRIEND_ONLINE : Z := 0x02.
Definition FRIEND_NOT_FOUND : Z := 0x04.
Definition FRIEND_REMOVED : Z := 0x05.
Definition FRIEND_ADDED_ONLINE : Z := 0x06.
Definition FRIEND_ADDED_OFFLINE : Z := 0x07.
Definition FRIEND_ALREADY : Z := 0x08.
Definition FRIEND_SELF : Z := 0x09.
Definition FRIEND_ENEMY : Z := 0x0A.
Definition FRIEND_IGNORE_FULL : Z := 0x0B.
Definition FRIEND_IGNORE_SELF : Z := 0x0C.
Definition FRIEND_IGNORE_NOT_FOUND : Z := 0x0D.
Definition FRIEND_IGNORE_ALREADY : Z := 0x0E.
Definition FRIEND_IGNORE_ADDED : Z := 0x0F.
Definition FRIEND_IGNORE_REMOVED : Z := 0x10.

Definition SOCIALMGR_FRIEND_LIMIT : Z := 50.
Definition SOCIALMGR_IGNORE_LIMIT : Z := 25.

Definition SEC_PLAYER : Z := 0.
Definition SEC_OBSERVER : Z := 1.
Definition PLAYER_EXTRA_GM_DISABLE_SOCIAL : Z := 0x0400.

Record FriendInfo := mkFriendInfo {
  Status : Z;
  Flags : Z;                         (* uint32 *)
  Area : Z;
  Level : Z;
  Class_ : Z
}.

Definition newFriendInfo : FriendInfo := mkFriendInfo FRIEND_STATUS_OFFLINE 0 0 0 0.
(** [FriendInfo(uint8 flags)] *)
Definition FriendInfo_flags (flags : Z) : FriendInfo := mkFriendInfo FRIEND_STATUS_OFFLINE (u8 flags) 0 0 0.
Definition set_flags (f : Z) (i : FriendInfo) : FriendInfo := mkFriendInfo (Status i) f (Area i) (Level i) (Class_ i).

Record PlayerSocial := mkPlayerSocial {
  m_playerGUID : ObjectGuid;
  m_playerSocialMap : gmap ObjectGuid FriendInfo;
  m_masterPlayer : option ObjectGuid
}.

(** [SocialMgr::SocialMap] *)
Abbreviation SocialMap := (gmap ObjectGuid PlayerSocial).

Definition newPlayerSocial : PlayerSocial := mkPlayerSocial 0 ∅ None.
Definition SetPlayerGUID (g : ObjectGuid) (s : PlayerSocial) : PlayerSocial :=
  mkPlayerSocial g (m_playerSocialMap s) (m_masterPlayer s).
Definition SetMasterPlayer (m : option ObjectGuid) (s : PlayerSocial) : PlayerSocial :=
  mkPlayerSocial (m_playerGUID s) (m_playerSocialMap s) m.
Definition set_map (m : gmap ObjectGuid FriendInfo) (s : PlayerSocial) : PlayerSocial :=
  mkPlayerSocial (m_playerGUID s) m (m_masterPlayer s).

(** What the code reads of an online character. *)
Record MasterPlayer := mkMasterPlayer {
  mp_guid : ObjectGuid;
  mp_hasName : bool;                 (* GetName() *)
  mp_AFK : bool;
  mp_DND : bool;
  mp_zone : Z;
  mp_level : Z;
  mp_class : Z;
  mp_extraFlags : Z;
  mp_team : Z;
  mp_security : Z                    (* GetSession()->GetSecurity() *)
}.

Record Env := mkEnv {
  FindMasterPlayer : ObjectGuid -> option MasterPlayer;
  IsVisibleGloballyFor : MasterPlayer -> MasterPlayer -> bool;
  GetPlayerAccountIdByGUID : ObjectGuid -> Z;
  GetPlayerDataByName : list Z -> option (Z * Z);          (* uiGuid, uiRace *)
  TeamForRace : Z -> Z;
  normalizePlayerName : list Z -> option (list Z);
  cfg_ALLOW_TWO_SIDE_WHO_LIST : bool;
  cfg_GM_LEVEL_IN_WHO_LIST : Z;
  cfg_ALLOW_TWO_SIDE_ADD_FRIEND : bool
}.

(** The statements on the table [character_social]. *)
Inductive Sql :=
  | SqlUpdate (flags guid friend : Z)
  | SqlInsert (guid friend flags : Z)
  | SqlDelete (guid friend : Z).

Inductive Out :=
  | SendPacket (who : ObjectGuid) (opcode : Z) (data : list field)
  | PExecute (q : Sql).

Definition SMSG_FRIEND_LIST : Z := 0x067.
Definition SMSG_FRIEND_STATUS : Z := 0x068.
Definition SMSG_IGNORE_LIST : Z := 0x06B.

(** A flag test: [flags & flag] as a condition. *)
Definition has (flags flag : Z) : bool := negb (Z.land flags flag =? 0).
Arguments has : simpl never.

(** [flags &= ~flag] on a [uint32]. *)
Definition unset (flags flag : Z) : Z := u32 (Z.land flags (Z.lnot flag)).
Arguments unset : simpl never.

(** ** PlayerSocial *)

Section PlayerSocialOps.
Context `{HashIter}.

Definition GetNumberOfSocialsWithFlag (flag : Z) (s : PlayerSocial) : Z :=
  foldl (fun counter kv => if has (Flags (snd kv)) flag then counter + 1 else counter) 0
    (hash_iter (m_playerSocialMap s)).

Definition social_limit (flag : Z) : Z :=
  if has flag SOCIAL_FLAG_FRIEND then SOCIALMGR_FRIEND_LIMIT else SOCIALMGR_IGNORE_LIMIT.

Definition AddToSocialList (friendGuid : ObjectGuid) (flag : Z) (s : PlayerSocial) : bool * PlayerSocial * list Out :=
  if social_limit flag <=? GetNumberOfSocialsWithFlag flag s then (false, s, [])
  else
    match m_playerSocialMap s !! friendGuid with
    | Some i =>
      (true, set_map (<[friendGuid := set_flags (Z.lor (Flags i) flag) i]> (m_playerSocialMap s)) s,
       [PExecute (SqlUpdate flag (GetCounter (m_playerGUID s)) (GetCounter friendGuid))])
    | None =>
      (true, set_map (<[friendGuid := set_flags (Z.lor 0 flag) newFriendInfo]> (m_playerSocialMap s)) s,
       [PExecute (SqlInsert (GetCounter (m_playerGUID s)) (GetCounter friendGuid) flag)])
    end.

Definition RemoveFromSocialList (friendGuid : ObjectGuid) (flag : Z) (s : PlayerSocial) : PlayerSocial * list Out :=
  let key := GetCounter friendGuid in
  match m_playerSocialMap s !! key with
  | None => (s, [])
  | Some i =>
    let i := set_flags (unset (Flags i) flag) i in
    if Flags i =? 0 then
      (set_map (delete key (m_playerSocialMap s)) s,
       [PExecute (SqlDelete (GetCounter (m_playerGUID s)) (GetCounter friendGuid))])
    else
      (set_map (<[key := i]> (m_playerSocialMap s)) s,
       [PExecute (SqlUpdate flag (GetCounter (m_playerGUID s)) (GetCounter friendGuid))])
  end.

Definition HasFriend (friend_guid : ObjectGuid) (s : PlayerSocial) : bool :=
  match m_playerSocialMap s !! GetCounter friend_guid with
  | Some i => has (Flags i) SOCIAL_FLAG_FRIEND
  | None => false
  end.

Definition HasIgnore (ignore_guid : ObjectGuid) (s : PlayerSocial) : bool :=
  match m_playerSocialMap s !! GetCounter ignore_guid with
  | Some i => has (Flags i) SOCIAL_FLAG_IGNORED
  | None => false
  end.

(** [GetFriendInfo]: [social] is [*player->GetSocial()]. *)
Definition status_of (p : MasterPlayer) : Z :=
  let st := FRIEND_STATUS_ONLINE in
  let st := if mp_AFK p then FRIEND_STATUS_AFK else st in
  if mp_DND p then FRIEND_STATUS_DND else st.

(** The condition under which [player] sees that [f] is online. *)
Definition sees (E : Env) (player f : MasterPlayer) : bool :=
  mp_hasName f &&
  ((SEC_PLAYER <? mp_security player) ||
   ((mp_team f =? mp_team player) || cfg_ALLOW_TWO_SIDE_WHO_LIST E) &&
   (mp_security f <=? cfg_GM_LEVEL_IN_WHO_LIST E)) &&
  IsVisibleGloballyFor E f player &&
  negb (has (mp_extraFlags f) PLAYER_EXTRA_GM_DISABLE_SOCIAL).

Definition GetFriendInfo (E : Env) (player : option MasterPlayer) (social : PlayerSocial)
    (friendGuid : ObjectGuid) (fi : FriendInfo) : FriendInfo :=
  match player with
  | None => fi
  | Some p =>
    if mp_guid p =? friendGuid then
      mkFriendInfo
        (if has (mp_extraFlags p) PLAYER_EXTRA_GM_DISABLE_SOCIAL then FRIEND_STATUS_OFFLINE else status_of p)
        (Flags fi) (mp_zone p) (mp_level p) (mp_class p)
    else
      match m_playerSocialMap social !! friendGuid with
      | None => fi
      | Some _ =>
        match FindMasterPlayer E friendGuid with
        | Some f =>
          if sees E p f then mkFriendInfo (status_of f) (Flags fi) (mp_zone f) (mp_level f) (mp_class f)
          else mkFriendInfo FRIEND_STATUS_OFFLINE (Flags fi) 0 0 0
        | None => mkFriendInfo FRIEND_STATUS_OFFLINE (Flags fi) 0 0 0
        end
      end
  end.

(** One round of the loop of [SendFriendList]. *)
Definition friend_entry (E : Env) (plr : MasterPlayer) (acc : PlayerSocial * list field)
    (kv : ObjectGuid * FriendInfo) : PlayerSocial * list field :=
  let '(s, data) := acc in
  let '(guid, i) := kv in
  if has (Flags i) SOCIAL_FLAG_FRIEND then
    let i := GetFriendInfo E (Some plr) s guid i in
    (set_map (<[guid := i]> (m_playerSocialMap s)) s,
     data ++ [FU64 guid; FU8 (u8 (Status i))] ++
     (if Status i =? 0 then [] else [FU32 (Area i); FU32 (Level i); FU32 (Class_ i)]))
  else acc.

(** [SendFriendList]; [None] is its failed assertion. *)
Definition SendFriendList (E : Env) (s : PlayerSocial) : option (PlayerSocial * list Out) :=
  match m_masterPlayer s ≫= FindMasterPlayer E with
  | None => None
  | Some plr =>
    let size := GetNumberOfSocialsWithFlag SOCIAL_FLAG_FRIEND s in
    let '(s', data) := foldl (friend_entry E plr) (s, [FU8 (u8 size)]) (hash_iter (m_playerSocialMap s)) in
    Some (s', [SendPacket (mp_guid plr) SMSG_FRIEND_LIST data])
  end.

Definition SendIgnoreList (E : Env) (s : PlayerSocial) : option (list Out) :=
  match m_masterPlayer s ≫= FindMasterPlayer E with
  | None => None
  | Some plr =>
    let size := GetNumberOfSocialsWithFlag SOCIAL_FLAG_IGNORED s in
    Some [SendPacket (mp_guid plr) SMSG_IGNORE_LIST
      (FU8 (u8 size) ::
       ((fun kv => FU64 (fst kv)) <$>
        filter (fun kv => has (Flags (snd kv)) SOCIAL_FLAG_IGNORED = true) (hash_iter (m_playerSocialMap s))))]
  end.

(** ** SocialMgr *)

(** The condition under which [f] hears of a change of [player]. *)
Definition is_told (E : Env) (player f : MasterPlayer) : bool :=
  ((SEC_PLAYER <? mp_security f) ||
   ((mp_team f =? mp_team player) || cfg_ALLOW_TWO_SIDE_WHO_LIST E) &&
   (mp_security player <=? cfg_GM_LEVEL_IN_WHO_LIST E)) &&
  IsVisibleGloballyFor E player f.

Definition BroadcastToFriendListers (E : Env) (m_socialMap : SocialMap) (player : option MasterPlayer)
    (opcode : Z) (data : list field) : list Out :=
  match player with
  | None => []
  | Some p =>
    flat_map (fun kv : ObjectGuid * PlayerSocial =>
      match m_playerSocialMap (snd kv) !! mp_guid p with
      | Some i =>
        if has (Flags i) SOCIAL_FLAG_FRIEND then
          match FindMasterPlayer E (fst kv) with
          | Some f => if is_told E p f then [SendPacket (fst kv) opcode data] else []
          | None => []
          end
        else []
      | None => []
      end) (map_iter m_socialMap)
  end.

(** [SendFriendStatus]; [social] is [*player->GetSocial()]. *)
Definition SendFriendStatus (E : Env) (m_socialMap : SocialMap) (player : MasterPlayer) (social : PlayerSocial)
    (result : Z) (friendGuid : ObjectGuid) (broadcast : bool) : list Out :=
  let fi := GetFriendInfo E (Some player) social friendGuid newFriendInfo in
  let data := [FU8 result; FU64 friendGuid] ++
    (if (result =? FRIEND_ADDED_ONLINE) || (result =? FRIEND_ONLINE)
     then [FU8 (u8 (Status fi)); FU32 (Area fi); FU32 (Level fi); FU32 (Class_ fi)] else []) in
  if broadcast then BroadcastToFriendListers E m_socialMap (Some player) SMSG_FRIEND_STATUS data
  else [SendPacket (mp_guid player) SMSG_FRIEND_STATUS data].

(** One row of [LoadFromDB]: the friend's low GUID and the flags. *)
Definition load_row (E : Env) (acc : PlayerSocial * Z * Z) (row : Z * Z) : PlayerSocial * Z * Z :=
  let '(social, friendCounter, ignoreCounter) := acc in
  let '(friendLowGuid, flags) := row in
  if has flags SOCIAL_FLAG_IGNORED && (SOCIALMGR_IGNORE_LIMIT <=? ignoreCounter) then acc
  else if has flags SOCIAL_FLAG_FRIEND && (SOCIALMGR_FRIEND_LIMIT <=? friendCounter) then acc
  else
    let friendGuid := ObjectGuid_low HIGHGUID_PLAYER friendLowGuid in
    if GetPlayerAccountIdByGUID E friendGuid =? 0 then acc
    else
      (set_map (<[friendGuid := FriendInfo_flags flags]> (m_playerSocialMap social)) social,
       if has flags SOCIAL_FLAG_IGNORED then friendCounter else friendCounter + 1,
       if has flags SOCIAL_FLAG_IGNORED then ignoreCounter + 1 else ignoreCounter).

Definition LoadFromDB (E : Env) (result : option (list (Z * Z))) (guid : ObjectGuid) (m_socialMap : SocialMap)
    : SocialMap :=
  let social := SetPlayerGUID guid (default newPlayerSocial (m_socialMap !! guid)) in
  match result with
  | None => <[guid := social]> m_socialMap
  | Some rows => <[guid := fst (fst (foldl (load_row E) (social, 0, 0) rows))]> m_socialMap
  end.

Definition RemovePlayerSocial (guid : ObjectGuid) (m_socialMap : SocialMap) : SocialMap := delete guid m_socialMap.

(** ** The handlers of MiscHandler.cpp

    [player] is [GetMasterPlayer()], [s] its list, and the argument the
    operand read from the packet. *)

Definition HandleFriendListOpcode (E : Env) (s : PlayerSocial) : option (PlayerSocial * list Out) :=
  SendFriendList E s.

Definition add_friend_result (E : Env) (player f : option MasterPlayer) : Z :=
  match player, f with
  | Some p, Some f =>
    if IsVisibleGloballyFor E f p && negb (has (mp_extraFlags f) PLAYER_EXTRA_GM_DISABLE_SOCIAL)
    then FRIEND_ADDED_ONLINE else FRIEND_ADDED_OFFLINE
  | _, _ => FRIEND_ADDED_OFFLINE
  end.

Definition HandleAddFriendOpcode (E : Env) (sm : SocialMap) (player : MasterPlayer) (friendName : list Z)
    (s : PlayerSocial) : PlayerSocial * list Out :=
  match normalizePlayerName E friendName with
  | None => (s, [])
  | Some friendName =>
    match GetPlayerDataByName E friendName with
    | None => (s, [])
    | Some (friendLowGuid, race) =>
      let friendGuid := ObjectGuid_low HIGHGUID_PLAYER friendLowGuid in
      let team := TeamForRace E race in
      let '(friendResult, s, out) :=
        if IsEmpty friendGuid then (FRIEND_NOT_FOUND, s, [])
        else if friendGuid =? mp_guid player then (FRIEND_SELF, s, [])
        else if negb (mp_team player =? team) && negb (cfg_ALLOW_TWO_SIDE_ADD_FRIEND E) &&
                (mp_security player <? SEC_OBSERVER) then (FRIEND_ENEMY, s, [])
        else if HasFriend friendGuid s then (FRIEND_ALREADY, s, [])
        else
          let r := add_friend_result E (Some player) (FindMasterPlayer E friendGuid) in
          let '(ok, s, out) := AddToSocialList friendGuid SOCIAL_FLAG_FRIEND s in
          ((if ok then r else FRIEND_LIST_FULL), s, out) in
      (s, out ++ SendFriendStatus E sm player s friendResult friendGuid false)
    end
  end.

Definition HandleDelFriendOpcode (E : Env) (sm : SocialMap) (player : MasterPlayer) (friendGuid : ObjectGuid)
    (s : PlayerSocial) : PlayerSocial * list Out :=
  let '(s, out) := RemoveFromSocialList friendGuid SOCIAL_FLAG_FRIEND s in
  (s, out ++ SendFriendStatus E sm player s FRIEND_REMOVED friendGuid false).

Definition HandleAddIgnoreOpcode (E : Env) (sm : SocialMap) (player : MasterPlayer) (ignoreName : list Z)
    (s : PlayerSocial) : PlayerSocial * list Out :=
  match normalizePlayerName E ignoreName with
  | None => (s, [])
  | Some ignoreName =>
    match GetPlayerDataByName E ignoreName with
    | None => (s, [])
    | Some (ignoreLowGuid, _) =>
      let ignoreGuid := ObjectGuid_low HIGHGUID_PLAYER ignoreLowGuid in
      let '(ignoreResult, s, out) :=
        if IsEmpty ignoreGuid then (FRIEND_IGNORE_NOT_FOUND, s, [])
        else if ignoreGuid =? mp_guid player then (FRIEND_IGNORE_SELF, s, [])
        else if HasIgnore ignoreGuid s then (FRIEND_IGNORE_ALREADY, s, [])
        else
          let '(ok, s, out) := AddToSocialList ignoreGuid SOCIAL_FLAG_IGNORED s in
          ((if ok then FRIEND_IGNORE_ADDED else FRIEND_IGNORE_FULL), s, out) in
      (s, out ++ SendFriendStatus E sm player s ignoreResult ignoreGuid false)
    end
  end.

Definition HandleDelIgnoreOpcode (E : Env) (sm : SocialMap) (player : MasterPlayer) (ignoreGuid : ObjectGuid)
    (s : PlayerSocial) : PlayerSocial * list Out :=
  let '(s, out) := RemoveFromSocialList ignoreGuid SOCIAL_FLAG_IGNORED s in
  (s, out ++ SendFriendStatus E sm player s FRIEND_IGNORE_REMOVED ignoreGuid false).

End PlayerSocialOps.

(** ** Lemmas: the list as a map from GUIDs to flags *)

Definition flags_of (s : PlayerSocial) : gmap ObjectGuid Z := Flags <$> m_playerSocialMap s.

(** The update of the flags that [RemoveFromSocialList] makes. *)
Definition clear_flag (key flag : Z) (m : gmap Z Z) : gmap Z Z :=
  match m !! key with
  | None => m
  | Some f => if unset f flag =? 0 then delete key m else <[key := unset f flag]> m
  end.

Lemma has_friend_bit f : has f SOCIAL_FLAG_FRIEND = Z.testbit f 0.
Proof. unfold has. change SOCIAL_FLAG_FRIEND with (Z.shiftl 1 0). rewrite land_one_shift by done. apply negb_involutive. Qed.

Lemma has_ignored_bit f : has f SOCIAL_FLAG_IGNORED = Z.testbit f 1.
Proof. unfold has. change SOCIAL_FLAG_IGNORED with (Z.shiftl 1 1). rewrite land_one_shift by done. apply negb_involutive. Qed.

Lemma unset_bit f flag i : 0 <= i < 32 -> Z.testbit (unset f flag) i = Z.testbit f i && negb (Z.testbit flag i).
Proof.
  intros Hi. unfold unset, u32, wrapu.
  by rewrite Z.mod_pow2_bits_low, Z.land_spec, Z.lnot_spec by lia.
Qed.

Section Specs.
Context `{HashIter}.

Lemma count_flags flag s :
  GetNumberOfSocialsWithFlag flag s = Z.of_nat (map_count (fun f => has f flag) (flags_of s)).
Proof.
  unfold GetNumberOfSocialsWithFlag, flags_of. rewrite map_count_fmap, <- map_count_iter.
  generalize (hash_iter (m_playerSocialMap s)). intros l.
  assert (Hf : forall c, foldl (fun counter kv => if has (Flags (snd kv)) flag then counter + 1 else counter) c l
    = c + Z.of_nat (length (filter (fun kv : Z * FriendInfo => has (Flags kv.2) flag = true) l))); [|apply Hf].
  induction l as [|[k i] l IH]; intros c; [simpl; lia|].
  simpl foldl. rewrite IH, filter_cons. simpl. destruct (has (Flags i) flag); simpl; lia.
Qed.

Lemma AddToSocialList_flags g flag s :
  let '(ok, s', out) := AddToSocialList g flag s in
  ok = negb (social_limit flag <=? GetNumberOfSocialsWithFlag flag s) /\
  m_playerGUID s' = m_playerGUID s /\
  flags_of s' = (if ok then <[g := Z.lor (default 0 (flags_of s !! g)) flag]> (flags_of s) else flags_of s) /\
  out = if ok then
          [PExecute (if flags_of s !! g then SqlUpdate flag (GetCounter (m_playerGUID s)) (GetCounter g)
                     else SqlInsert (GetCounter (m_playerGUID s)) (GetCounter g) flag)]
        else [].
Proof.
  unfold AddToSocialList, flags_of. rewrite lookup_fmap.
  destruct (social_limit flag <=? GetNumberOfSocialsWithFlag flag s); [done|].
  destruct (m_playerSocialMap s !! g) as [i|] eqn:E; simpl; by rewrite fmap_insert.
Qed.

Lemma RemoveFromSocialList_flags g flag s :
  let '(s', out) := RemoveFromSocialList g flag s in
  m_playerGUID s' = m_playerGUID s /\
  flags_of s' = clear_flag (GetCounter g) flag (flags_of s) /\
  out = match flags_of s !! GetCounter g with
        | None => []
        | Some f =>
          [PExecute (if unset f flag =? 0 then SqlDelete (GetCounter (m_playerGUID s)) (GetCounter g)
                     else SqlUpdate flag (GetCounter (m_playerGUID s)) (GetCounter g))]
        end.
Proof.
  unfold RemoveFromSocialList, flags_of, clear_flag. rewrite lookup_fmap.
  generalize (GetCounter g). intros k.
  destruct (m_playerSocialMap s !! k) as [i|]; [|done].
  cbn [fmap option_fmap option_map]. cbn [set_flags Flags].
  generalize (unset (Flags i) flag). intros f.
  destruct (f =? 0); (split; [done|split; [|done]]); unfold set_map; cbn [m_playerSocialMap].
  - by rewrite fmap_delete.
  - by rewrite fmap_insert.
Qed.

Lemma GetFriendInfo_Flags E p s g fi : Flags (GetFriendInfo E p s g fi) = Flags fi.
Proof. unfold GetFriendInfo. repeat case_match; simplify_eq/=; done. Qed.

Lemma friend_entry_flags E plr s data g i :
  flags_of s !! g = Some (Flags i) -> flags_of (fst (friend_entry E plr (s, data) (g, i))) = flags_of s.
Proof.
  intros Hg. unfold friend_entry. case_match; [|done]. unfold flags_of, set_map. cbn [fst m_playerSocialMap].
  rewrite fmap_insert, GetFriendInfo_Flags. by apply insert_id.
Qed.

(** One round leaves the flags alone, so does the loop. *)
Lemma friend_loop_flags E plr m l : forall acc,
  Forall (fun kv : Z * FriendInfo => m !! fst kv = Some (Flags (snd kv))) l ->
  flags_of (fst acc) = m -> flags_of (fst (foldl (friend_entry E plr) acc l)) = m.
Proof.
  induction l as [|[k i] l IH]; intros [s d] Hl Ha; [done|].
  apply Forall_cons in Hl as [Hk Hl]. cbn [foldl]. apply IH; [done|].
  rewrite friend_entry_flags; [done|]. cbn [fst snd] in *. by rewrite Ha.
Qed.

Lemma SendFriendList_flags E s s' out : SendFriendList E s = Some (s', out) -> flags_of s' = flags_of s.
Proof.
  unfold SendFriendList. destruct (m_masterPlayer s ≫= FindMasterPlayer E) as [plr|]; [|done].
  set (acc := (s, _)).
  assert (Hall : Forall (fun kv => flags_of s !! fst kv = Some (Flags (snd kv))) (hash_iter (m_playerSocialMap s))).
  { apply Forall_forall. intros [k i] Hk%elem_of_hash_iter. unfold flags_of. cbn. by rewrite lookup_fmap, Hk. }
  pose proof (friend_loop_flags E plr _ _ acc Hall eq_refl) as Hl.
  destruct (foldl (friend_entry E plr) acc _) as [s1 d1]. intros [= <- _]. exact Hl.
Qed.

(** The lists [load_row] builds, as flags. *)
Lemma load_row_flags E s fc ic c f :
  is_u 32 c ->
  let '(s', fc', ic') := load_row E (s, fc, ic) (c, f) in
  (s' = s /\ fc' = fc /\ ic' = ic) \/
  (flags_of s' = <[c := u8 f]> (flags_of s) /\ m_playerGUID s' = m_playerGUID s /\
   (has f SOCIAL_FLAG_IGNORED = true -> ic < SOCIALMGR_IGNORE_LIMIT) /\
   (has f SOCIAL_FLAG_FRIEND = true -> fc < SOCIALMGR_FRIEND_LIMIT) /\
   fc' = (if has f SOCIAL_FLAG_IGNORED then fc else fc + 1) /\
   ic' = (if has f SOCIAL_FLAG_IGNORED then ic + 1 else ic)).
Proof.
  intros Hc. unfold load_row. rewrite player_guid_low by done.
  destruct (has f SOCIAL_FLAG_IGNORED) eqn:Ei, (SOCIALMGR_IGNORE_LIMIT <=? ic) eqn:Li,
    (has f SOCIAL_FLAG_FRIEND) eqn:Ef, (SOCIALMGR_FRIEND_LIMIT <=? fc) eqn:Lf; cbn [andb];
  try (left; done); (destruct (GetPlayerAccountIdByGUID E c =? 0); [left; done|right]); to_prop;
  unfold flags_of, set_map; cbn [m_playerSocialMap m_playerGUID]; rewrite fmap_insert;
  split_and!; done.
Qed.

Lemma u8_bit f i : 0 <= i < 8 -> Z.testbit (u8 f) i = Z.testbit f i.
Proof. intros. unfold u8, wrapu. by rewrite Z.mod_pow2_bits_low by lia. Qed.

(** ** The limits *)

Definition friends (m : gmap Z Z) : nat := map_count (fun f => has f SOCIAL_FLAG_FRIEND) m.
Definition ignored (m : gmap Z Z) : nat := map_count (fun f => has f SOCIAL_FLAG_IGNORED) m.

(** What holds of a list: the client's limits, and the owner is not on it. *)
Record list_ok (owner : ObjectGuid) (m : gmap Z Z) : Prop := {
  ok_friends : Z.of_nat (friends m) <= SOCIALMGR_FRIEND_LIMIT;
  ok_ignored : Z.of_nat (ignored m) <= SOCIALMGR_IGNORE_LIMIT;
  ok_owner : m !! owner = None
}.

(** Setting one flag does not change the count of the other. *)
Lemma count_set (P : Z -> bool) (m : gmap Z Z) g f' :
  (map_count P (<[g := f']> m) + (if P (default 0%Z (m !! g)) then 1 else 0)
   = map_count P m + (if P f' then 1 else 0))%nat \/ (m !! g = None /\ P 0 = true).
Proof.
  rewrite map_count_insert. destruct (m !! g) as [f|] eqn:E; cbn [default from_option id].
  - rewrite (map_count_delete P m g f E). left. unfold id. destruct (P f), (P f'); lia.
  - rewrite delete_id by done. destruct (P 0); [by right|left; destruct (P f'); lia].
Qed.

Lemma social_limit_friend : social_limit SOCIAL_FLAG_FRIEND = 50.
Proof. by vm_compute. Qed.
Lemma social_limit_ignored : social_limit SOCIAL_FLAG_IGNORED = 25.
Proof. by vm_compute. Qed.

Lemma friend_0 : Z.testbit SOCIAL_FLAG_FRIEND 0 = true.
Proof. done. Qed.
Lemma friend_1 : Z.testbit SOCIAL_FLAG_FRIEND 1 = false.
Proof. done. Qed.
Lemma ignored_0 : Z.testbit SOCIAL_FLAG_IGNORED 0 = false.
Proof. done. Qed.
Lemma ignored_1 : Z.testbit SOCIAL_FLAG_IGNORED 1 = true.
Proof. done. Qed.

Lemma list_ok_add owner m g flag :
  flag = SOCIAL_FLAG_FRIEND \/ flag = SOCIAL_FLAG_IGNORED -> g <> owner ->
  Z.of_nat (map_count (fun f => has f flag) m) < social_limit flag ->
  list_ok owner m -> list_ok owner (<[g := Z.lor (default 0 (m !! g)) flag]> m).
Proof.
  intros Hflag Hg Hlim [Hf Hi Ho]. unfold friends, ignored in *.
  destruct (count_set (fun f => has f SOCIAL_FLAG_FRIEND) m g (Z.lor (default 0 (m !! g)) flag)) as [Cf|[_ ?]]; [|done].
  destruct (count_set (fun f => has f SOCIAL_FLAG_IGNORED) m g (Z.lor (default 0 (m !! g)) flag)) as [Ci|[_ ?]]; [|done].
  rewrite !has_friend_bit, Z.lor_spec in Cf. rewrite !has_ignored_bit, Z.lor_spec in Ci.
  split; [| |by rewrite lookup_insert_ne]; unfold friends, ignored;
    destruct Hflag as [-> | ->]; rewrite ?friend_0, ?ignored_0 in Cf; rewrite ?friend_1, ?ignored_1 in Ci; cbn in Cf, Ci;
    rewrite ?social_limit_friend, ?social_limit_ignored in Hlim;
    repeat match goal with H : context [Z.testbit ?x ?i] |- _ => destruct (Z.testbit x i); cbn in H end;
    unfold SOCIALMGR_FRIEND_LIMIT, SOCIALMGR_IGNORE_LIMIT in *; lia.
Qed.

Lemma clear_count (P : Z -> bool) (m : gmap Z Z) key flag :
  (forall f, P (unset f flag) = true -> P f = true) ->
  (map_count P (clear_flag key flag m) <= map_count P m)%nat.
Proof.
  intros HP. unfold clear_flag. destruct (m !! key) as [f|] eqn:E; [|done].
  destruct (unset f flag =? 0); [apply map_count_delete_le|].
  rewrite map_count_insert, (map_count_delete P m key f E). specialize (HP f).
  destruct (P (unset f flag)), (P f); try lia. all: by specialize (HP eq_refl).
Qed.

Lemma list_ok_clear owner m key flag : list_ok owner m -> list_ok owner (clear_flag key flag m).
Proof.
  intros [Hf Hi Ho]. unfold friends, ignored in *. split.
  - unfold friends. pose proof (clear_count (fun f => has f SOCIAL_FLAG_FRIEND) m key flag) as Hc.
    cbv beta in Hc. transitivity (Z.of_nat (map_count (fun f => has f SOCIAL_FLAG_FRIEND) m)); [|done].
    apply inj_le, Hc. intros f. rewrite !has_friend_bit, unset_bit by lia. destruct (Z.testbit f 0); done.
  - unfold ignored. pose proof (clear_count (fun f => has f SOCIAL_FLAG_IGNORED) m key flag) as Hc.
    cbv beta in Hc. transitivity (Z.of_nat (map_count (fun f => has f SOCIAL_FLAG_IGNORED) m)); [|done].
    apply inj_le, Hc. intros f. rewrite !has_ignored_bit, unset_bit by lia. destruct (Z.testbit f 1); done.
  - unfold clear_flag. repeat case_match; try done.
    + rewrite lookup_delete_None. by right.
    + rewrite lookup_insert_ne; [done|]. congruence.
Qed.

(** Loading a list: the counters bound what is on it. *)
Lemma load_rows_ok E owner rows : forall s fc ic,
  Forall (fun r : Z * Z => is_u 32 (fst r) /\ fst r <> owner /\
    has (snd r) SOCIAL_FLAG_FRIEND && has (snd r) SOCIAL_FLAG_IGNORED = false) rows ->
  0 <= fc -> 0 <= ic ->
  Z.of_nat (friends (flags_of s)) <= Z.min fc SOCIALMGR_FRIEND_LIMIT ->
  Z.of_nat (ignored (flags_of s)) <= Z.min ic SOCIALMGR_IGNORE_LIMIT ->
  flags_of s !! owner = None ->
  list_ok owner (flags_of (fst (fst (foldl (load_row E) (s, fc, ic) rows)))).
Proof.
  induction rows as [|[c f] rows IH]; intros s fc ic Hr Hfc Hic Hf Hi Ho; [cbn; split; [lia|lia|done]|].
  apply Forall_cons in Hr as [(Hc & Hne & Hx) Hr]. cbn [fst snd] in Hc, Hne, Hx.
  pose proof (load_row_flags E s fc ic c f Hc) as Hrow. cbn [foldl].
  destruct (load_row E (s, fc, ic) (c, f)) as [[s' fc'] ic'].
  destruct Hrow as [(-> & -> & ->)|(Hs & _ & Li & Lf & -> & ->)]; [by apply IH|].
  assert (Hu : forall i, 0 <= i < 8 -> Z.testbit (u8 f) i = Z.testbit f i) by (intros; by apply u8_bit).
  destruct (count_set (fun f => has f SOCIAL_FLAG_FRIEND) (flags_of s) c (u8 f)) as [Cf|[_ ?]]; [|done].
  destruct (count_set (fun f => has f SOCIAL_FLAG_IGNORED) (flags_of s) c (u8 f)) as [Ci|[_ ?]]; [|done].
  unfold friends, ignored in *.
  rewrite !has_friend_bit, Hu in Cf by lia. rewrite !has_ignored_bit, Hu in Ci by lia.
  rewrite has_friend_bit, has_ignored_bit in *.
  apply IH; rewrite ?Hs; [done| | | | |by rewrite lookup_insert_ne];
    unfold friends, ignored;
    destruct (Z.testbit f 0), (Z.testbit f 1); cbn in Hx; try done;
    try specialize (Li eq_refl); try specialize (Lf eq_refl);
    repeat match goal with Hb : context [Z.testbit ?x ?i] |- _ => destruct (Z.testbit x i) end;
    unfold SOCIALMGR_FRIEND_LIMIT, SOCIALMGR_IGNORE_LIMIT in *; lia.
Qed.

(** The packets and calls that change the list of one character. *)
Inductive social_op :=
  | OpAddFriend (name : list Z)
  | OpDelFriend (guid : ObjectGuid)
  | OpAddIgnore (name : list Z)
  | OpDelIgnore (guid : ObjectGuid)
  | OpFriendList
  | OpCharacterDeleted (guid : ObjectGuid).   (* Player::DeleteFromDB *)

Definition social_apply (E : Env) (sm : SocialMap) (player : MasterPlayer) (s : PlayerSocial) (op : social_op) : PlayerSocial :=
  match op with
  | OpAddFriend name => fst (HandleAddFriendOpcode E sm player name s)
  | OpDelFriend g => fst (HandleDelFriendOpcode E sm player g s)
  | OpAddIgnore name => fst (HandleAddIgnoreOpcode E sm player name s)
  | OpDelIgnore g => fst (HandleDelIgnoreOpcode E sm player g s)
  | OpFriendList => match HandleFriendListOpcode E s with Some (s', _) => s' | None => s end
  | OpCharacterDeleted g => fst (RemoveFromSocialList g SOCIAL_FLAG_ALL s)
  end.

Lemma Remove_ok owner g flag s : list_ok owner (flags_of s) -> list_ok owner (flags_of (fst (RemoveFromSocialList g flag s))).
Proof.
  intros Hs. pose proof (RemoveFromSocialList_flags g flag s) as Hr.
  destruct (RemoveFromSocialList g flag s) as [s' out]. destruct Hr as (_ & Hr & _).
  cbn [fst]. rewrite Hr. by apply list_ok_clear.
Qed.

Lemma Add_ok owner g flag s :
  flag = SOCIAL_FLAG_FRIEND \/ flag = SOCIAL_FLAG_IGNORED -> g <> owner ->
  list_ok owner (flags_of s) -> list_ok owner (flags_of (snd (fst (AddToSocialList g flag s)))).
Proof.
  intros Hflag Hg Hs. pose proof (AddToSocialList_flags g flag s) as Ha.
  destruct (AddToSocialList g flag s) as [[ok s'] out]. destruct Ha as (Hok & _ & Hs' & _). cbn [fst snd].
  rewrite Hs'. destruct ok; [|done]. symmetry in Hok. to_prop. rewrite count_flags in Hok.
  apply list_ok_add; [done|done|lia|done].
Qed.

Lemma social_apply_ok E sm player s op :
  list_ok (mp_guid player) (flags_of s) -> list_ok (mp_guid player) (flags_of (social_apply E sm player s op)).
Proof.
  intros Hs. destruct op; cbn [social_apply].
  - unfold HandleAddFriendOpcode. destruct (normalizePlayerName E name) as [n|]; [|done].
    destruct (GetPlayerDataByName E n) as [[low race]|]; [|done].
    set (g := ObjectGuid_low HIGHGUID_PLAYER low).
    pose proof (Add_ok (mp_guid player) g SOCIAL_FLAG_FRIEND s) as Ha.
    destruct (AddToSocialList g SOCIAL_FLAG_FRIEND s) as [[ok s'] out].
    destruct (IsEmpty g); [done|]. destruct (g =? mp_guid player) eqn:Eg; [done|].
    destruct (_ && _); [done|]. destruct (HasFriend g s); [done|].
    apply Ha; [by left|by apply Z.eqb_neq|done].
  - unfold HandleDelFriendOpcode. pose proof (Remove_ok (mp_guid player) guid SOCIAL_FLAG_FRIEND s Hs).
    by destruct (RemoveFromSocialList guid SOCIAL_FLAG_FRIEND s).
  - unfold HandleAddIgnoreOpcode. destruct (normalizePlayerName E name) as [n|]; [|done].
    destruct (GetPlayerDataByName E n) as [[low race]|]; [|done].
    set (g := ObjectGuid_low HIGHGUID_PLAYER low).
    pose proof (Add_ok (mp_guid player) g SOCIAL_FLAG_IGNORED s) as Ha.
    destruct (AddToSocialList g SOCIAL_FLAG_IGNORED s) as [[ok s'] out].
    destruct (IsEmpty g); [done|]. destruct (g =? mp_guid player) eqn:Eg; [done|].
    destruct (HasIgnore g s); [done|].
    apply Ha; [by right|by apply Z.eqb_neq|done].
  - unfold HandleDelIgnoreOpcode. pose proof (Remove_ok (mp_guid player) guid SOCIAL_FLAG_IGNORED s Hs).
    by destruct (RemoveFromSocialList guid SOCIAL_FLAG_IGNORED s).
  - unfold HandleFriendListOpcode. destruct (SendFriendList E s) as [[s' out]|] eqn:Hl; [|done].
    by rewrite (SendFriendList_flags _ _ _ _ Hl).
  - by apply Remove_ok.
Qed.

(** ** The table *)

(** What the database does with the statements: [db_rows d guid] are the rows
    of the character [guid], from the friend to the flags. The table has one
    row for a friend as long as a row is inserted where there is none. *)
Class SocialDB (db : Type) := {
  db_exec : Sql -> db -> db;
  db_rows : db -> Z -> gmap Z Z;
  db_update d flags guid friend g : is_u 8 flags ->
    db_rows (db_exec (SqlUpdate flags guid friend) d) g =
      if decide (g = guid) then alter (fun _ => flags) friend (db_rows d guid) else db_rows d g;
  db_insert d flags guid friend g : is_u 8 flags -> db_rows d guid !! friend = None ->
    db_rows (db_exec (SqlInsert guid friend flags) d) g =
      if decide (g = guid) then <[friend := flags]> (db_rows d guid) else db_rows d g;
  db_delete d guid friend g :
    db_rows (db_exec (SqlDelete guid friend) d) g =
      if decide (g = guid) then delete friend (db_rows d guid) else db_rows d g
}.

(** Executing what an operation sent to the database. *)
Definition db_run `{SocialDB db} (out : list Out) (d : db) : db :=
  foldl (fun d o => match o with PExecute q => db_exec q d | SendPacket _ _ _ => d end) d out.

(** The table holds the list. *)
Definition stored `{SocialDB db} (d : db) (s : PlayerSocial) : Prop :=
  db_rows d (GetCounter (m_playerGUID s)) = flags_of s.

Inductive list_op := LAdd (g : ObjectGuid) (flag : Z) | LRemove (g : ObjectGuid) (flag : Z).

Definition list_apply `{SocialDB db} (st : PlayerSocial * db) (op : list_op) : PlayerSocial * db :=
  match op with
  | LAdd g flag => let '(_, s, out) := AddToSocialList g flag (fst st) in (s, db_run out (snd st))
  | LRemove g flag => let '(s, out) := RemoveFromSocialList g flag (fst st) in (s, db_run out (snd st))
  end.

(** An operation on a player who does not carry the other flag. *)
Definition exclusive (m : gmap Z Z) (op : list_op) : Prop :=
  match op with
  | LAdd g flag | LRemove g flag =>
    is_u 32 g /\ (flag = SOCIAL_FLAG_FRIEND \/ flag = SOCIAL_FLAG_IGNORED) /\ default flag (m !! g) = flag
  end.

Fixpoint exclusive_run `{SocialDB db} (st : PlayerSocial * db) (ops : list list_op) : Prop :=
  match ops with
  | [] => True
  | op :: ops => exclusive (flags_of (fst st)) op /\ exclusive_run (list_apply st op) ops
  end.

(** Every entry has one of the two flags and a player's GUID. *)
Definition single_flags (m : gmap Z Z) : Prop :=
  map_Forall (fun g f => is_u 32 g /\ (f = SOCIAL_FLAG_FRIEND \/ f = SOCIAL_FLAG_IGNORED)) m.

Lemma unset_same flag : is_u 32 flag -> unset flag flag = 0.
Proof.
  intros Hf. unfold unset. replace (Z.land flag (Z.lnot flag)) with 0; [done|].
  apply Z.bits_inj'. intros i Hi. rewrite Z.land_spec, Z.lnot_spec, Z.bits_0 by done. by destruct (Z.testbit flag i).
Qed.

Lemma stored_step `{SocialDB db} s (d : db) op :
  stored d s -> single_flags (flags_of s) -> exclusive (flags_of s) op ->
  let '(s', d') := list_apply (s, d) op in
  stored d' s' /\ single_flags (flags_of s') /\ m_playerGUID s' = m_playerGUID s.
Proof.
  unfold stored. intros Hd Hm. destruct op as [g flag|g flag]; cbn [exclusive list_apply fst snd]; intros (Hg & Hflag & Hsame).
  - pose proof (AddToSocialList_flags g flag s) as Ha.
    destruct (AddToSocialList g flag s) as [[ok s'] out]. destruct Ha as (_ & Hid & Hs' & ->).
    rewrite (player_counter g Hg), Hid, Hs'. destruct ok; [|done]. unfold db_run. cbn [foldl].
    assert (H8 : is_u 8 flag) by (destruct Hflag as [-> | ->]; by vm_compute).
    destruct (flags_of s !! g) as [f|] eqn:E; cbn in Hsame.
    + subst f. rewrite db_update, decide_True, Hd by done. cbn [default from_option id]. rewrite Z.lor_diag.
      rewrite (insert_id _ _ _ E). split_and!; [|exact Hm|done].
      apply map_eq. intros k. destruct (decide (k = g)) as [->|]; [by rewrite lookup_alter_eq, E|by rewrite lookup_alter_ne].
    + rewrite db_insert, decide_True, Hd by (done || by rewrite Hd). cbn [default from_option id]. rewrite Z.lor_0_l.
      split_and!; [done| |done]. apply map_Forall_insert_2; [by split|exact Hm].
  - pose proof (RemoveFromSocialList_flags g flag s) as Ha.
    destruct (RemoveFromSocialList g flag s) as [s' out]. destruct Ha as (Hid & Hs' & ->).
    rewrite (player_counter g Hg) in Hs' |- *. rewrite Hid, Hs'. unfold clear_flag.
    destruct (flags_of s !! g) as [f|] eqn:E; [|done]. cbn in Hsame. subst f.
    assert (Hz : unset flag flag = 0) by (apply unset_same; destruct Hflag as [-> | ->]; by vm_compute).
    rewrite Hz. unfold db_run. cbn [foldl Z.eqb]. rewrite db_delete, decide_True, Hd by done.
    split_and!; [done| |done]. by apply map_Forall_delete.
Qed.

Lemma stored_run `{SocialDB db} ops : forall s (d : db),
  stored d s -> single_flags (flags_of s) -> exclusive_run (s, d) ops ->
  let '(s', d') := foldl list_apply (s, d) ops in stored d' s' /\ single_flags (flags_of s') /\ m_playerGUID s' = m_playerGUID s.
Proof.
  induction ops as [|op ops IH]; intros s d Hd Hm Hx; [done|]. destruct Hx as [Hop Hx]. cbn [foldl].
  pose proof (stored_step s d op Hd Hm Hop) as Hs. cbn [fst snd] in Hx.
  destruct (list_apply (s, d) op) as [s1 d1]. destruct Hs as (Hd1 & Hm1 & Hid).
  specialize (IH s1 d1 Hd1 Hm1 Hx). destruct (foldl list_apply (s1, d1) ops) as [s2 d2].
  destruct IH as (? & ? & ->). done.
Qed.

Lemma has_ff : has SOCIAL_FLAG_FRIEND SOCIAL_FLAG_FRIEND = true.
Proof. done. Qed.
Lemma has_fi : has SOCIAL_FLAG_FRIEND SOCIAL_FLAG_IGNORED = false.
Proof. done. Qed.
Lemma has_if : has SOCIAL_FLAG_IGNORED SOCIAL_FLAG_FRIEND = false.
Proof. done. Qed.
Lemma has_ii : has SOCIAL_FLAG_IGNORED SOCIAL_FLAG_IGNORED = true.
Proof. done. Qed.

(** Loading the rows of a list that respects the limits loads all of them. *)
Lemma load_rows_flags E rows : forall s fc ic,
  NoDup (fst <$> rows) ->
  Forall (fun r : Z * Z => is_u 32 (fst r) /\ (snd r = SOCIAL_FLAG_FRIEND \/ snd r = SOCIAL_FLAG_IGNORED) /\
    GetPlayerAccountIdByGUID E (fst r) <> 0) rows ->
  fc + Z.of_nat (length (filter (fun r : Z * Z => has r.2 SOCIAL_FLAG_FRIEND = true) rows)) <= SOCIALMGR_FRIEND_LIMIT ->
  ic + Z.of_nat (length (filter (fun r : Z * Z => has r.2 SOCIAL_FLAG_IGNORED = true) rows)) <= SOCIALMGR_IGNORE_LIMIT ->
  flags_of (fst (fst (foldl (load_row E) (s, fc, ic) rows))) = list_to_map rows ∪ flags_of s.
Proof.
  induction rows as [|[c f] rows IH]; intros s fc ic Hnd Hr Hf Hi; [change (flags_of s = ∅ ∪ flags_of s); by rewrite (left_id_L ∅ (∪))|].
  apply Forall_cons in Hr as [(Hc & Hfl & Ha) Hr]. apply NoDup_cons in Hnd as [Hnin Hnd].
  cbn [fst snd] in *. cbn [foldl].
  assert (Hstep : exists s', load_row E (s, fc, ic) (c, f) =
    (s', (if has f SOCIAL_FLAG_IGNORED then fc else fc + 1), (if has f SOCIAL_FLAG_IGNORED then ic + 1 else ic)) /\
    flags_of s' = <[c := f]> (flags_of s)).
  { unfold load_row. rewrite player_guid_low by done. rewrite (proj2 (Z.eqb_neq _ _) Ha).
    destruct Hfl as [-> | ->]; rewrite ?has_ff, ?has_fi, ?has_if, ?has_ii in *; cbn [andb].
    - rewrite filter_cons_True in Hf by done. cbn [length] in Hf.
      rewrite (proj2 (Z.leb_gt _ _)) by lia. eexists. split; [reflexivity|].
      unfold flags_of, set_map. cbn [m_playerSocialMap]. by rewrite fmap_insert.
    - rewrite filter_cons_True in Hi by done. cbn [length] in Hi.
      rewrite (proj2 (Z.leb_gt _ _)) by lia. eexists. split; [reflexivity|].
      unfold flags_of, set_map. cbn [m_playerSocialMap]. by rewrite fmap_insert. }
  destruct Hstep as (s' & -> & Hs'). rewrite IH; [| done | done | |].
  - rewrite Hs'. cbn [list_to_map foldr uncurry fst snd]. rewrite <- insert_union_r, insert_union_l; [done|].
    apply not_elem_of_list_to_map_1. done.
  - destruct Hfl as [-> | ->]; [rewrite has_fi; rewrite filter_cons_True in Hf by done
      |rewrite has_ii; rewrite filter_cons_False in Hf by done]; cbn [length] in Hf; lia.
  - destruct Hfl as [-> | ->]; [rewrite has_fi; rewrite filter_cons_False in Hi by done
      |rewrite has_ii; rewrite filter_cons_True in Hi by done]; cbn [length] in Hi; lia.
Qed.

End Specs.

(** ** Properties *)

(** C39: the lists never outgrow what the client accepts: a list loaded from
    rows that carry one flag each, and then changed by any packets the handlers
    accept from its owner, any friend list requests and any deletions of
    characters, in any order and with the world changing in between, has at
    most 50 friends and 25 ignored players as the code itself counts them, and
    its owner is not on it. *)
Theorem social_lists_are_bounded `{HashIter} E0 sm owner rows s (steps : list (Env * SocialMap * MasterPlayer * social_op)) :
  sm !! owner = None ->
  Forall (fun r : Z * Z => is_u 32 (fst r) /\ fst r <> owner /\
    has (snd r) SOCIAL_FLAG_FRIEND && has (snd r) SOCIAL_FLAG_IGNORED = false) rows ->
  LoadFromDB E0 (Some rows) owner sm !! owner = Some s ->
  Forall (fun st : Env * SocialMap * MasterPlayer * social_op => mp_guid st.1.2 = owner) steps ->
  let s' := foldl (fun s '(E, sm, p, op) => social_apply E sm p s op) s steps in
  GetNumberOfSocialsWithFlag SOCIAL_FLAG_FRIEND s' <= SOCIALMGR_FRIEND_LIMIT /\
  GetNumberOfSocialsWithFlag SOCIAL_FLAG_IGNORED s' <= SOCIALMGR_IGNORE_LIMIT /\
  m_playerSocialMap s' !! owner = None.
Proof.
  intros Hsm Hrows Hload Hsteps s'.
  assert (Hok : list_ok owner (flags_of s)).
  { unfold LoadFromDB in Hload. cbv beta iota zeta in Hload. rewrite lookup_insert_eq, Hsm in Hload. injection Hload as <-.
    apply load_rows_ok; [done|lia|lia| | |]; unfold flags_of, friends, ignored; cbn;
      rewrite ?fmap_empty, ?map_count_empty; done. }
  assert (Hs' : list_ok owner (flags_of s')).
  { unfold s'. clear s' Hload. revert s Hok. induction Hsteps as [|[[[E sm'] p] op] steps Hp _ IH]; intros s Hok; [done|].
    cbn [foldl]. apply IH. cbn in Hp. subst owner. by apply social_apply_ok. }
  destruct Hs' as [Hf Hi Ho]. rewrite !count_flags. split_and!; [done|done|].
  unfold flags_of in Ho. rewrite lookup_fmap in Ho. by destruct (m_playerSocialMap s' !! owner).
Qed.

(** A server for the examples: everybody is known and has an account. *)
Definition example_env : Env :=
  mkEnv (fun _ => None) (fun _ _ => true) (fun _ => 1) (fun n => match n with [g] => Some (g, 1) | _ => None end)
    (fun _ => 469) Some false 0 false.
Definition example_player : MasterPlayer := mkMasterPlayer 1 true false false 12 60 1 0 469 0.

Lemma social_lists_are_bounded_witness :
  let _ := ordered_iter in
  let s' := foldl (fun s '(E, sm, p, op) => social_apply E sm p s op)
      (fst (fst (foldl (load_row example_env) (SetPlayerGUID 1 newPlayerSocial, 0, 0) [(2, 1); (3, 2)])))
      [(example_env, ∅, example_player, OpAddFriend [5]); (example_env, ∅, example_player, OpAddIgnore [2])] in
  GetNumberOfSocialsWithFlag SOCIAL_FLAG_FRIEND s' <= SOCIALMGR_FRIEND_LIMIT /\
  GetNumberOfSocialsWithFlag SOCIAL_FLAG_IGNORED s' <= SOCIALMGR_IGNORE_LIMIT /\
  m_playerSocialMap s' !! 1 = None.
Proof.
  intros Hord. apply (social_lists_are_bounded example_env ∅ 1 [(2, 1); (3, 2)]); [done| |reflexivity|by repeat constructor].
  repeat constructor; by vm_compute.
Defined.

(** C40: a list survives a logout: while the table holds the list and no
    player on it gets or loses a flag while he carries the other one, every
    addition and removal keeps the table equal to the list, so that loading
    the rows, in whatever order the query returns them, gives the same list
    back, unless a character on it was deleted. *)
Theorem social_list_survives_relog `{HashIter} `{SocialDB db} E s (d : db) ops s' d' rows sm :
  stored d s -> single_flags (flags_of s) -> exclusive_run (s, d) ops ->
  foldl list_apply (s, d) ops = (s', d') ->
  rows ≡ₚ map_to_list (db_rows d' (GetCounter (m_playerGUID s))) ->
  Forall (fun r : Z * Z => GetPlayerAccountIdByGUID E (fst r) <> 0) rows ->
  GetNumberOfSocialsWithFlag SOCIAL_FLAG_FRIEND s' <= SOCIALMGR_FRIEND_LIMIT ->
  GetNumberOfSocialsWithFlag SOCIAL_FLAG_IGNORED s' <= SOCIALMGR_IGNORE_LIMIT ->
  sm !! m_playerGUID s = None ->
  exists s'', LoadFromDB E (Some rows) (m_playerGUID s) sm !! m_playerGUID s = Some s'' /\ flags_of s'' = flags_of s'.
Proof.
  intros Hd Hm Hx Hrun Hrows Hacc Hf Hi Hsm.
  pose proof (stored_run ops s d Hd Hm Hx) as Hst. rewrite Hrun in Hst. destruct Hst as (Hd' & Hm' & Hid).
  unfold stored in Hd'. rewrite <- Hid, Hd' in Hrows. rewrite count_flags in Hf, Hi.
  unfold LoadFromDB. cbv beta iota zeta. rewrite lookup_insert_eq, Hsm. eexists. split; [reflexivity|].
  assert (Hnd : NoDup (fst <$> rows)) by (rewrite Hrows; apply NoDup_fst_map_to_list).
  assert (Hlen : forall P : Z -> bool, length (filter (fun r : Z * Z => P r.2 = true) rows) = map_count P (flags_of s')).
  { intros P. rewrite Hrows, <- (map_count_iter P). by rewrite hash_iter_perm. }
  rewrite load_rows_flags; [|done| | |].
  - unfold flags_of at 1. cbn. rewrite fmap_empty, (right_id_L ∅ (∪)).
    rewrite (list_to_map_proper rows (map_to_list (flags_of s')) Hnd Hrows). apply list_to_map_to_list.
  - apply Forall_forall. intros [g f] Hin. pose proof (proj1 (Forall_forall _ _) Hacc _ Hin) as Ha. cbn [fst snd] in *.
    rewrite Hrows in Hin. apply elem_of_map_to_list in Hin. destruct (Hm' _ _ Hin) as [? ?]. done.
  - rewrite (Hlen (fun f => has f SOCIAL_FLAG_FRIEND)). lia.
  - rewrite (Hlen (fun f => has f SOCIAL_FLAG_IGNORED)). lia.
Qed.

(** A table as a map of maps. *)
Definition table_exec (q : Sql) (d : gmap Z (gmap Z Z)) : gmap Z (gmap Z Z) :=
  match q with
  | SqlUpdate flags guid friend => <[guid := alter (fun _ => flags) friend (default ∅ (d !! guid))]> d
  | SqlInsert guid friend flags => <[guid := <[friend := flags]> (default ∅ (d !! guid))]> d
  | SqlDelete guid friend => <[guid := delete friend (default ∅ (d !! guid))]> d
  end.

Definition table_rows (d : gmap Z (gmap Z Z)) (g : Z) : gmap Z Z := default ∅ (d !! g).

Lemma table_rows_insert d guid m g :
  table_rows (<[guid := m]> d) g = if decide (g = guid) then m else table_rows d g.
Proof.
  unfold table_rows. destruct (decide (g = guid)) as [->|]; [by rewrite lookup_insert_eq|].
  by rewrite lookup_insert_ne.
Qed.

#[export] Instance table_db : SocialDB (gmap Z (gmap Z Z)).
Proof.
  refine {| db_exec := table_exec; db_rows := table_rows |}; intros; simpl; apply table_rows_insert.
Defined.

Lemma social_list_survives_relog_witness :
  let _ := ordered_iter in
  let s := mkPlayerSocial 1 ∅ (Some 1) in
  let ops := [LAdd 5 SOCIAL_FLAG_FRIEND; LAdd 7 SOCIAL_FLAG_IGNORED; LRemove 5 SOCIAL_FLAG_FRIEND] in
  let st := foldl list_apply (s, ∅ : gmap Z (gmap Z Z)) ops in
  exists s'', LoadFromDB example_env (Some [(7, 2)]) 1 ∅ !! 1 = Some s'' /\ flags_of s'' = flags_of (fst st).
Proof.
  intros Hord s ops st.
  apply (social_list_survives_relog example_env s ∅ ops (fst st) (snd st) [(7, 2)] ∅).
  - by vm_compute.
  - change (single_flags (∅ : gmap Z Z)). apply map_Forall_empty.
  - repeat split; cbn; try (by vm_compute); try (by left); by right.
  - by vm_compute.
  - by vm_compute.
  - by repeat constructor.
  - by vm_compute.
  - by vm_compute.
  - done.
Defined.

(** A player who carries both flags loses one: ignoring a friend, or
    befriending an ignored player, keeps both flags in memory while the row in
    the table keeps only the new one; and taking the new flag away again
    leaves the row at the flag that was taken away, so that after the next
    login the player carries it although he does not before. *)
Theorem second_flag_replaces_the_row `{HashIter} `{SocialDB db} s (d : db) g old new :
  stored d s -> is_u 32 g ->
  (old = SOCIAL_FLAG_FRIEND /\ new = SOCIAL_FLAG_IGNORED) \/ (old = SOCIAL_FLAG_IGNORED /\ new = SOCIAL_FLAG_FRIEND) ->
  flags_of s !! g = Some old -> GetNumberOfSocialsWithFlag new s < social_limit new ->
  let '(s1, d1) := list_apply (s, d) (LAdd g new) in
  let '(s2, d2) := list_apply (s1, d1) (LRemove g new) in
  (HasFriend g s1 = true /\ HasIgnore g s1 = true /\ db_rows d1 (GetCounter (m_playerGUID s)) !! g = Some new) /\
  (flags_of s2 !! g = Some old /\ db_rows d2 (GetCounter (m_playerGUID s)) !! g = Some new).
Proof.
  unfold stored. intros Hd Hg Hon Hold Hlim.
  cbn [list_apply fst snd]. pose proof (AddToSocialList_flags g new s) as Ha.
  destruct (AddToSocialList g new s) as [[ok s1] out1]. destruct Ha as (-> & Hid1 & Hs1 & ->).
  rewrite (proj2 (Z.leb_gt _ _) Hlim) in *. cbn [negb] in *. rewrite Hold in *. cbn [default from_option id] in Hs1.
  pose proof (RemoveFromSocialList_flags g new s1) as Hr.
  destruct (RemoveFromSocialList g new s1) as [s2 out2]. destruct Hr as (Hid2 & Hs2 & ->).
  rewrite (player_counter g Hg), Hs1 in *. unfold clear_flag in Hs2. rewrite lookup_insert_eq in *.
  unfold id in *.
  assert (Hu : unset (Z.lor old new) new = old) by (destruct Hon as [[-> ->]|[-> ->]]; by vm_compute).
  assert (Ho : (old =? 0) = false) by (destruct Hon as [[-> ->]|[-> ->]]; by vm_compute).
  assert (H8 : is_u 8 new) by (destruct Hon as [[-> ->]|[-> ->]]; by vm_compute).
  rewrite Hu, Ho in *. unfold db_run. cbn [foldl]. rewrite Hid1.
  assert (Hr1 : db_rows (db_exec (SqlUpdate new (GetCounter (m_playerGUID s)) g) d) (GetCounter (m_playerGUID s)) !! g = Some new)
    by (rewrite db_update, decide_True, Hd, lookup_alter_eq, Hold; done).
  split_and!.
  - unfold HasFriend. rewrite (player_counter g Hg). unfold flags_of in Hs1. apply (f_equal (fun m => m !! g)) in Hs1.
    rewrite lookup_fmap, lookup_insert_eq in Hs1. destruct (m_playerSocialMap s1 !! g); [|done]. injection Hs1 as ->.
    destruct Hon as [[-> ->]|[-> ->]]; by vm_compute.
  - unfold HasIgnore. rewrite (player_counter g Hg). unfold flags_of in Hs1. apply (f_equal (fun m => m !! g)) in Hs1.
    rewrite lookup_fmap, lookup_insert_eq in Hs1. destruct (m_playerSocialMap s1 !! g); [|done]. injection Hs1 as ->.
    destruct Hon as [[-> ->]|[-> ->]]; by vm_compute.
  - done.
  - by rewrite Hs2, lookup_insert_eq.
  - rewrite db_update, decide_True, lookup_alter_eq, Hr1; done.
Qed.

Lemma second_flag_replaces_the_row_witness :
  let _ := ordered_iter in
  let s := mkPlayerSocial 1 {[5 := FriendInfo_flags 1]} (Some 1) in
  let d : gmap Z (gmap Z Z) := {[1 := {[5 := 1]}]} in
  let '(s1, d1) := list_apply (s, d) (LAdd 5 SOCIAL_FLAG_IGNORED) in
  let '(s2, d2) := list_apply (s1, d1) (LRemove 5 SOCIAL_FLAG_IGNORED) in
  (HasFriend 5 s1 = true /\ HasIgnore 5 s1 = true /\ db_rows d1 1 !! 5 = Some SOCIAL_FLAG_IGNORED) /\
  (flags_of s2 !! 5 = Some SOCIAL_FLAG_FRIEND /\ db_rows d2 1 !! 5 = Some SOCIAL_FLAG_IGNORED).
Proof.
  intros Hord s d.
  apply (second_flag_replaces_the_row s d 5 SOCIAL_FLAG_FRIEND SOCIAL_FLAG_IGNORED); [by vm_compute|by vm_compute|by left|by vm_compute|by vm_compute].
Defined.

(** Who hears of a character going online or offline: exactly the online
    characters that have him as a friend and may see him, each once. *)
Theorem status_is_broadcast_to_friends E (sm : SocialMap) player opcode data :
  let out := BroadcastToFriendListers E sm (Some player) opcode data in
  NoDup out /\
  forall o, o ∈ out <->
    exists who s i f, o = SendPacket who opcode data /\ sm !! who = Some s /\
      m_playerSocialMap s !! mp_guid player = Some i /\ has (Flags i) SOCIAL_FLAG_FRIEND = true /\
      FindMasterPlayer E who = Some f /\ is_told E player f = true.
Proof.
  set (told := fun kv : ObjectGuid * PlayerSocial => exists i f,
      m_playerSocialMap (snd kv) !! mp_guid player = Some i /\ has (Flags i) SOCIAL_FLAG_FRIEND = true /\
      FindMasterPlayer E (fst kv) = Some f /\ is_told E player f = true).
  cbn [BroadcastToFriendListers]. set (round := fun kv : ObjectGuid * PlayerSocial => _).
  assert (Hround : forall kv, (told kv /\ round kv = [SendPacket (fst kv) opcode data]) \/ (~ told kv /\ round kv = [])).
  { intros kv. unfold round, told. destruct (m_playerSocialMap (snd kv) !! _) as [i|]; [|right; split; [naive_solver|done]].
    destruct (has (Flags i) SOCIAL_FLAG_FRIEND) eqn:?; [|right; split; [naive_solver congruence|done]].
    destruct (FindMasterPlayer E (fst kv)) as [f|] eqn:?; [|right; split; [naive_solver|done]].
    destruct (is_told E player f) eqn:?; [left|right]; (split; [naive_solver congruence|done]). }
  assert (Hin : forall l o, o ∈ flat_map round l <-> exists kv, kv ∈ l /\ told kv /\ o = SendPacket (fst kv) opcode data).
  { intros l o. rewrite list_elem_of_In, in_flat_map. split.
    - intros (kv & Hkv & Ho). destruct (Hround kv) as [[Ht Hr]|[_ Hr]]; rewrite Hr in Ho; [|done].
      destruct Ho as [<-|[]]. exists kv. by rewrite list_elem_of_In.
    - intros (kv & Hkv & Ht & ->). exists kv. rewrite <- list_elem_of_In. split; [done|].
      destruct (Hround kv) as [[_ ->]|[Hn _]]; [by left|done]. }
  split.
  - assert (Hnd : NoDup (fst <$> map_iter sm)) by (rewrite map_iter_perm; apply NoDup_fst_map_to_list).
    revert Hnd. generalize (map_iter sm). intros l. induction l as [|kv l IH]; intros Hnd; [constructor|].
    apply NoDup_cons in Hnd as [Hnin Hnd]. cbn [flat_map].
    destruct (Hround kv) as [[_ ->]|[_ ->]]; [|by apply IH]. cbn [app]. constructor; [|by apply IH].
    intros (kv' & Hkv' & _ & [= Heq])%Hin. apply Hnin. apply list_elem_of_fmap. exists kv'. done.
  - intros o. rewrite Hin. split.
    + intros ([who s] & Hkv & (i & f & ?) & ->). exists who, s, i, f. apply elem_of_map_iter in Hkv. naive_solver.
    + intros (who & s & i & f & -> & Hsm & ?). exists (who, s). rewrite elem_of_map_iter. split; [done|].
      split; [|done]. by exists i, f.
Qed.
