(* ===== verification/GuildData.v ===== *)
(** * GuildData: what the guild code works on

    The data of src/src/game/Guild/Guild.h and GuildMgr.h, the online players
    as far as guilds touch them, the statements sent to the database, and the
    state [World] the operations thread: the players, the manager's maps, the
    petitions and the effects so far, in order. *)
From S2P Require Import Prelude ByteBuffer ObjectGuid.

(** ** Constants *)

Definition GUILD_RANKS_MIN_COUNT : Z := 5.
Definition GUILD_RANKS_MAX_COUNT : Z := 10.
Definition MAX_INTERNAL_PLAYER_NAME : Z := 15.
Definition PLAYER_STRONG_MAX_LEVEL : Z := 255.
(** Warrior, paladin, hunter, rogue, priest, shaman, mage, warlock, druid. *)
Definition CLASSMASK_ALL_PLAYABLE : Z :=
  foldr (fun c m => Z.lor (Z.shiftl 1 (c - 1)) m) 0 [1; 2; 3; 4; 5; 7; 8; 9; 11].

Definition GUILD_NOTE_MAX_LENGTH : Z := 31.
Definition GUILD_INFO_MAX_LENGTH : Z := 500.
Definition GUILD_MOTD_MAX_LENGTH : Z := 128.
Definition GUILD_MEMBER_BLOCK_SIZE : Z :=
  8 + 1 + (1 + MAX_INTERNAL_PLAYER_NAME) + 4 + 1 + 1 + 4 + (1 + GUILD_NOTE_MAX_LENGTH) + (1 + GUILD_NOTE_MAX_LENGTH).
Definition GUILD_MEMBER_BLOCK_SIZE_WITHOUT_NOTE : Z :=
  8 + 1 + (1 + MAX_INTERNAL_PLAYER_NAME) + 4 + 1 + 1 + 4 + (1 + 0) + (1 + 0).
Definition GUILD_MAX_MEMBERS : Z :=
  (0x8000 - 10 - GUILD_RANKS_MAX_COUNT - GUILD_INFO_MAX_LENGTH - GUILD_MOTD_MAX_LENGTH) / GUILD_MEMBER_BLOCK_SIZE_WITHOUT_NOTE.

Definition GR_GUILDMASTER : Z := 0.
Definition GR_OFFICER : Z := 1.

Definition GR_RIGHT_EMPTY : Z := 0x00000040.
Definition GR_RIGHT_GCHATLISTEN : Z := 0x00000041.
Definition GR_RIGHT_GCHATSPEAK : Z := 0x00000042.
Definition GR_RIGHT_OFFCHATLISTEN : Z := 0x00000044.
Definition GR_RIGHT_OFFCHATSPEAK : Z := 0x00000048.
Definition GR_RIGHT_PROMOTE : Z := 0x000000C0.
Definition GR_RIGHT_DEMOTE : Z := 0x00000140.
Definition GR_RIGHT_INVITE : Z := 0x00000050.
Definition GR_RIGHT_REMOVE : Z := 0x00000060.
Definition GR_RIGHT_SETMOTD : Z := 0x00001040.
Definition GR_RIGHT_EPNOTE : Z := 0x00002040.
Definition GR_RIGHT_VIEWOFFNOTE : Z := 0x00004040.
Definition GR_RIGHT_EOFFNOTE : Z := 0x00008040.
Definition GR_RIGHT_MODIFY_GUILD_INFO : Z := 0x00010040.
Definition GR_RIGHT_ALL : Z := 0x000FF1FF.

(** [Typecommand] and [CommandErrors] *)
Definition GUILD_CREATE_S : Z := 0x00.
Definition GUILD_INVITE_S : Z := 0x01.
Definition GUILD_QUIT_S : Z := 0x03.

Definition ERR_PLAYER_NO_MORE_IN_GUILD : Z := 0x00.
Definition ERR_ALREADY_IN_GUILD_S : Z := 0x03.
Definition ERR_ALREADY_INVITED_TO_GUILD_S : Z := 0x05.
Definition ERR_GUILD_NAME_INVALID : Z := 0x06.
Definition ERR_GUILD_NAME_EXISTS_S : Z := 0x07.
Definition ERR_GUILD_LEADER_LEAVE : Z := 0x08.
Definition ERR_GUILD_PERMISSIONS : Z := 0x08.
Definition ERR_GUILD_PLAYER_NOT_IN_GUILD : Z := 0x09.
Definition ERR_GUILD_PLAYER_NOT_IN_GUILD_S : Z := 0x0A.
Definition ERR_GUILD_PLAYER_NOT_FOUND_S : Z := 0x0B.
Definition ERR_GUILD_NOT_ALLIED : Z := 0x0C.
Definition ERR_GUILD_RANK_TOO_HIGH_S : Z := 0x0D.
Definition ERR_GUILD_RANK_TOO_LOW_S : Z := 0x0E.

Inductive GuildAddStatus := OK | GUILD_FULL | ALREADY_IN_GUILD | UNKNOWN_PLAYER | PLAYER_DATA_ERROR.

(** [GuildEvents] *)
Definition GE_PROMOTION : Z := 0x00.
Definition GE_DEMOTION : Z := 0x01.
Definition GE_MOTD : Z := 0x02.
Definition GE_JOINED : Z := 0x03.
Definition GE_LEFT : Z := 0x04.
Definition GE_REMOVED : Z := 0x05.
Definition GE_LEADER_CHANGED : Z := 0x07.
Definition GE_DISBANDED : Z := 0x08.

(** [GuildEventLogTypes] *)
Definition GUILD_EVENT_LOG_INVITE_PLAYER : Z := 1.
Definition GUILD_EVENT_LOG_JOIN_GUILD : Z := 2.
Definition GUILD_EVENT_LOG_PROMOTE_PLAYER : Z := 3.
Definition GUILD_EVENT_LOG_DEMOTE_PLAYER : Z := 4.
Definition GUILD_EVENT_LOG_UNINVITE_PLAYER : Z := 5.
Definition GUILD_EVENT_LOG_LEAVE_GUILD : Z := 6.
Definition GUILD_EVENTLOG_MAX_RECORDS : Z := 100.

Definition OnlineMemberCache : Z := 1000.

Definition SMSG_GUILD_QUERY_RESPONSE : Z := 0x055.
Definition SMSG_GUILD_INVITE : Z := 0x083.
Definition SMSG_GUILD_DECLINE : Z := 0x086.
Definition SMSG_GUILD_INFO : Z := 0x088.
Definition SMSG_GUILD_ROSTER : Z := 0x08A.
Definition SMSG_GUILD_EVENT : Z := 0x092.
Definition SMSG_GUILD_COMMAND_RESULT : Z := 0x093.
Definition SMSG_PETITION_SHOW_SIGNATURES : Z := 0x1BF.
Definition SMSG_PETITION_SIGN_RESULTS : Z := 0x1C1.
Definition MSG_PETITION_RENAME : Z := 0x2C1.
Definition MSG_PETITION_DECLINE : Z := 0x1C2.
Definition SMSG_TURN_IN_PETITION_RESULTS : Z := 0x1C5.

(** [PetitionSigns] *)
Definition PETITION_SIGN_OK : Z := 0.
Definition PETITION_SIGN_ALREADY_SIGNED : Z := 1.
Definition PETITION_SIGN_ALREADY_IN_GUILD : Z := 2.
Definition PETITION_SIGN_CANT_SIGN_OWN : Z := 3.
Definition PETITION_SIGN_NEED_MORE : Z := 4.

(** ** Data *)

Record GuildEventLogEntry := mkLogEntry {
  EventType : Z;
  PlayerGuid1 : Z;
  PlayerGuid2 : Z;
  NewRank : Z;
  TimeStamp : Z
}.

Record MemberSlot := mkMemberSlot {
  ms_guid : ObjectGuid;
  accountId : Z;
  Name : list Z;
  RankId : Z;                        (* uint32 *)
  Level : Z;
  Class_ : Z;
  ZoneId : Z;
  LogoutTime : Z;
  PublicNote : list Z;
  OfficerNote : list Z
}.

Record RankInfo := mkRankInfo { ri_Name : list Z; Rights : Z }.

Record Guild := mkGuild {
  m_Id : Z;
  m_Name : list Z;
  m_LeaderGuid : ObjectGuid;
  m_motd : list Z;
  m_info : list Z;
  m_Created : Z * Z * Z;             (* year, month, day *)
  m_Emblem : Z * Z * Z * Z * Z;      (* style, color, border style, border color, background *)
  m_accountsNumber : Z;
  m_Ranks : list RankInfo;
  members : gmap Z MemberSlot;       (* std::unordered_map<uint32, MemberSlot> *)
  m_onlineMemberCache : gset Z;
  m_GuildEventLog : list GuildEventLogEntry;
  m_GmListeners : gset ObjectGuid;
  m_GuildEventLogNextGuid : Z
}.

(** An online player, as far as guilds read or write it. *)
Record Player := mkPlayer {
  pl_guid : ObjectGuid;
  pl_inWorld : bool;                 (* IsInWorld() *)
  pl_name : list Z;
  pl_account : Z;
  pl_level : Z;
  pl_class : Z;
  pl_zone : Z;
  pl_team : Z;
  pl_ignores : list ObjectGuid;      (* GetSocial() *)
  pl_gmNoSocials : bool;             (* HasGMDisabledSocials() *)
  pl_guildId : Z;                    (* PLAYER_GUILDID *)
  pl_rank : Z;                       (* PLAYER_GUILDRANK *)
  pl_guildIdInvited : Z
}.

Definition set_guild_fields (guildId rank invited : Z) (p : Player) : Player :=
  mkPlayer (pl_guid p) (pl_inWorld p) (pl_name p) (pl_account p) (pl_level p) (pl_class p) (pl_zone p)
    (pl_team p) (pl_ignores p) (pl_gmNoSocials p) guildId rank invited.
Definition SetInGuild (GuildId : Z) (p : Player) : Player := set_guild_fields GuildId (pl_rank p) (pl_guildIdInvited p) p.
Definition SetRank (rankId : Z) (p : Player) : Player := set_guild_fields (pl_guildId p) rankId (pl_guildIdInvited p) p.
Definition SetGuildIdInvited (GuildId : Z) (p : Player) : Player := set_guild_fields (pl_guildId p) (pl_rank p) GuildId p.

Record PetitionSignature := mkSignature { sig_playerGuid : ObjectGuid; sig_playerAccount : Z }.

Record Petition := mkPetition {
  pt_id : Z;
  pt_charterGuid : ObjectGuid;
  pt_ownerGuid : ObjectGuid;
  pt_name : list Z;
  pt_team : Z;
  pt_signatures : list PetitionSignature
}.

(** The statements sent to the database. *)
Inductive Sql :=
  | SqlInsertGuild (guildid : Z) (name : list Z) (leader : Z) (info motd : list Z) (createdate : Z) (emblem : Z * Z * Z * Z * Z)
  | SqlDeleteGuild (guildid : Z)
  | SqlUpdateGuildName (guildid : Z) (name : list Z)
  | SqlUpdateLeader (guildid leader : Z)
  | SqlUpdateMotd (guildid : Z) (motd : list Z)
  | SqlUpdateInfo (guildid : Z) (info : list Z)
  | SqlUpdateEmblem (guildid : Z) (emblem : Z * Z * Z * Z * Z)
  | SqlInsertMember (guildid guid rank : Z) (pnote offnote : list Z)
  | SqlDeleteMember (guid : Z)
  | SqlDeleteMembersOf (guildid : Z)
  | SqlUpdateMemberRank (guid rank : Z)
  | SqlUpdatePublicNote (guid : Z) (note : list Z)
  | SqlUpdateOfficerNote (guid : Z) (note : list Z)
  | SqlInsertRank (guildid rid : Z) (name : list Z) (rights : Z)
  | SqlDeleteRanksOf (guildid : Z)
  | SqlDeleteRanksFrom (guildid rid : Z)              (* rid >= *)
  | SqlUpdateRankName (guildid rid : Z) (name : list Z)
  | SqlUpdateRankRights (guildid rid rights : Z)
  | SqlDeleteLog (guildid logguid : Z)
  | SqlInsertLog (guildid logguid : Z) (e : GuildEventLogEntry)
  | SqlDeleteLogsOf (guildid : Z)
  | SqlDeleteLogsAbove (logguid : Z)
  | SqlDeleteBankOf (guildid : Z)                     (* the four tables of the bank *)
  | SqlInsertPetition (owner id charter : Z) (name : list Z)
  | SqlDeletePetition (id : Z)
  | SqlUpdatePetitionName (id : Z) (name : list Z)
  | SqlInsertSign (owner petition player account : Z)
  | SqlDeleteSignsOfPetition (id : Z)
  | SqlDeleteSignsOfOwner (owner : Z).

Inductive Out :=
  | SendPacket (who : ObjectGuid) (opcode : Z) (data : list field)
  | SendChat (who : ObjectGuid) (officer : bool) (msg : list Z) (language : Z) (sender : ObjectGuid)
  | PExecute (q : Sql)
  | ScriptOnCreate (leader : ObjectGuid)
  | ScriptOnRemoveMember (player : ObjectGuid) (isDisbanding : bool)
  | ScriptOnDisband (guildId : Z)
  | ScriptOnMotdChanged (guildId : Z)
  | ScriptOnInfoChanged (guildId : Z)
  | BankUpdateMinranks (inferno : bool) (guildId rank : Z)
  | BankDelete (inferno : bool) (guildId : Z)
  | BankSave (inferno : bool) (guildId : Z)
  | BankNew (inferno : bool) (guildId : Z)
  | DestroyItem (who item : ObjectGuid).

Record World := mkWorld {
  w_players : gmap ObjectGuid Player;        (* HashMapHolder<Player> *)
  m_GuildMap : gmap Z Guild;
  m_guid2guild : gmap Z Z;
  m_petitionMap : gmap Z Petition;
  w_out : list Out
}.

(** A cached row of the table [characters]. *)
Record PlayerCacheData := mkCacheData {
  uiLevel : Z; uiAccount : Z; uiClass : Z; uiZoneId : Z; sName : list Z
}.

(** What the code reads of an online character's session. *)
Record MasterPlayer := mkMasterPlayer {
  mp_guid : ObjectGuid;
  mp_rank : Z;                               (* GetRank() *)
  mp_logout : bool;                          (* PlayerLogout() *)
  mp_ignores : list ObjectGuid               (* GetSocial() *)
}.

(** What the guild code asks of the rest of the server. *)
Record Env := mkEnv {
  now : Z;                                                  (* time(nullptr) *)
  localtime : Z -> Z * Z * Z;                               (* year, month, day *)
  GetPlayerDataByGUID : Z -> option PlayerCacheData;
  GetPlayerTeamByGUID : ObjectGuid -> Z;
  FindMasterPlayer : ObjectGuid -> option MasterPlayer;
  normalizePlayerName : list Z -> Z -> bool -> option (list Z);
  escape_string : list Z -> list Z;
  OnAddMember : Z -> ObjectGuid -> Z -> Z;                  (* the rank after the scripts *)
  GetMangosString : Z -> list Z;
  GetZoneIdFromDB : ObjectGuid -> Z;
  cfg_GUILD_EVENT_LOG_COUNT : Z;
  cfg_MIN_PETITION_SIGNS : Z;
  cfg_ALLOW_TWO_SIDE_INTERACTION_GUILD : bool
}.

(** ** The world *)

Definition emit (o : Out) (w : World) : World :=
  mkWorld (w_players w) (m_GuildMap w) (m_guid2guild w) (m_petitionMap w) (w_out w ++ [o]).
Definition emits (os : list Out) (w : World) : World :=
  mkWorld (w_players w) (m_GuildMap w) (m_guid2guild w) (m_petitionMap w) (w_out w ++ os).
Definition set_players (m : gmap ObjectGuid Player) (w : World) : World :=
  mkWorld m (m_GuildMap w) (m_guid2guild w) (m_petitionMap w) (w_out w).
Definition set_guilds (m : gmap Z Guild) (w : World) : World :=
  mkWorld (w_players w) m (m_guid2guild w) (m_petitionMap w) (w_out w).
Definition set_guid2guild (m : gmap Z Z) (w : World) : World :=
  mkWorld (w_players w) (m_GuildMap w) m (m_petitionMap w) (w_out w).
Definition set_petitions (m : gmap Z Petition) (w : World) : World :=
  mkWorld (w_players w) (m_GuildMap w) (m_guid2guild w) m (w_out w).

Definition upd_player (guid : ObjectGuid) (f : Player -> Player) (w : World) : World :=
  set_players (alter f guid (w_players w)) w.

(** ** ObjectAccessor *)

Definition FindPlayerNotInWorld (guid : ObjectGuid) (w : World) : option Player :=
  if IsEmpty guid then None else w_players w !! guid.

Definition FindPlayer (guid : ObjectGuid) (inWorld : bool) (w : World) : option Player :=
  match FindPlayerNotInWorld guid w with
  | Some p => if negb (pl_inWorld p) && inWorld then None else Some p
  | None => None
  end.

(** [ObjectMgr::GetPlayer(guid)] *)
Definition GetPlayer (guid : ObjectGuid) (w : World) : option Player := FindPlayer guid true w.

(** ** GuildMgr: the members' index *)

Definition GuildMemberAdded (guildId memberGuid : Z) (w : World) : World :=
  set_guid2guild (<[memberGuid := guildId]> (m_guid2guild w)) w.
Definition GuildMemberRemoved (memberGuid : Z) (w : World) : World :=
  set_guid2guild (delete memberGuid (m_guid2guild w)) w.
Definition RemoveGuild (guildId : Z) (w : World) : World :=
  set_guilds (delete guildId (m_GuildMap w)) w.
Definition GetGuildById (guildId : Z) (w : World) : option Guild := m_GuildMap w !! guildId.
Definition GetGuildNameById (guildId : Z) (w : World) : list Z :=
  match m_GuildMap w !! guildId with Some g => m_Name g | None => [] end.
Definition GetPlayerGuild (lowguid : Z) (w : World) : option Guild :=
  match m_guid2guild w !! lowguid with Some id => GetGuildById id w | None => None end.

Section Lookups.
Context `{HashIter}.

Definition GetGuildByName (name : list Z) (w : World) : option Guild :=
  snd <$> List.find (fun kv => bool_decide (m_Name (snd kv) = name)) (hash_iter (m_GuildMap w)).
Definition GetGuildByLeader (guid : ObjectGuid) (w : World) : option Guild :=
  snd <$> List.find (fun kv => m_LeaderGuid (snd kv) =? guid) (hash_iter (m_GuildMap w)).

(** ** Petitions *)

Definition IsComplete (E : Env) (p : Petition) : bool := Z.of_nat (length (pt_signatures p)) =? cfg_MIN_PETITION_SIGNS E.
Definition GetSignatureCount (p : Petition) : Z := u8 (Z.of_nat (length (pt_signatures p))).

Definition GetSignatureForAccount (account : Z) (p : Petition) : option PetitionSignature :=
  List.find (fun s => sig_playerAccount s =? account) (pt_signatures p).
Definition Petition_GetSignatureForPlayerGuid (guid : ObjectGuid) (p : Petition) : option PetitionSignature :=
  List.find (fun s => sig_playerGuid s =? guid) (pt_signatures p).
Definition GetSignatureForPlayer (pl : Player) (p : Petition) : option PetitionSignature :=
  match GetSignatureForAccount (pl_account pl) p with
  | Some s => Some s
  | None => Petition_GetSignatureForPlayerGuid (pl_guid pl) p
  end.

(** A petition without the signature an object pointer designates: the first
    of a character. *)
Fixpoint remove_signature (guid : ObjectGuid) (l : list PetitionSignature) : list PetitionSignature :=
  match l with
  | [] => []
  | s :: l => if sig_playerGuid s =? guid then l else s :: remove_signature guid l
  end.

Definition set_signatures (l : list PetitionSignature) (p : Petition) : Petition :=
  mkPetition (pt_id p) (pt_charterGuid p) (pt_ownerGuid p) (pt_name p) (pt_team p) l.

Definition AddSignature (s : PetitionSignature) (p : Petition) : Petition := set_signatures (pt_signatures p ++ [s]) p.
Definition DeleteSignature (guid : ObjectGuid) (p : Petition) : Petition :=
  set_signatures (remove_signature guid (pt_signatures p)) p.

(** [PetitionSignature::SaveToDB], [DeleteFromDB] *)
Definition Signature_SaveToDB (p : Petition) (s : PetitionSignature) : Out :=
  PExecute (SqlInsertSign (GetCounter (pt_ownerGuid p)) (pt_id p) (GetCounter (sig_playerGuid s)) (sig_playerAccount s)).
Definition Signature_DeleteFromDB (s : PetitionSignature) : Out :=
  PExecute (SqlDeleteSignsOfOwner (GetCounter (sig_playerGuid s))).

Definition AddNewSignature (E : Env) (pl : Player) (p : Petition) : bool * Petition * list Out :=
  if IsComplete E p then (false, p, [])
  else
    let s := mkSignature (pl_guid pl) (pl_account pl) in
    (true, AddSignature s p, [Signature_SaveToDB p s]).

Definition Petition_SaveToDB (E : Env) (p : Petition) : Out :=
  PExecute (SqlInsertPetition (GetCounter (pt_ownerGuid p)) (pt_id p) (GetCounter (pt_charterGuid p)) (escape_string E (pt_name p))).

Definition Petition_Delete (p : Petition) : list Out :=
  if pt_id p =? 0 then [] else [PExecute (SqlDeletePetition (pt_id p)); PExecute (SqlDeleteSignsOfPetition (pt_id p))].

Definition Petition_Rename (E : Env) (newname : list Z) (p : Petition) : Petition * list Out :=
  (mkPetition (pt_id p) (pt_charterGuid p) (pt_ownerGuid p) newname (pt_team p) (pt_signatures p),
   [PExecute (SqlUpdatePetitionName (pt_id p) (escape_string E newname))]).

(** [data << 0] writes an [int]. *)
Definition BuildSignatureData (p : Petition) : list field :=
  flat_map (fun s => [FU64 (sig_playerGuid s); FU32 0]) (pt_signatures p).

(** ** GuildMgr: the petitions *)

Definition CreatePetition (E : Env) (id : Z) (pl : Player) (charterGuid : ObjectGuid) (name : list Z) (w : World) : World :=
  let p := mkPetition id charterGuid (pl_guid pl) name (pl_team pl) [] in
  set_petitions (<[id := p]> (m_petitionMap w)) (emit (Petition_SaveToDB E p) w).

Definition DeletePetition (p : Petition) (w : World) : World :=
  emits (Petition_Delete p) (set_petitions (delete (pt_id p) (m_petitionMap w)) w).

Definition GetPetitionById (id : Z) (w : World) : option Petition := m_petitionMap w !! id.
Definition GetPetitionByCharterGuid (charterGuid : ObjectGuid) (w : World) : option Petition :=
  snd <$> List.find (fun kv => pt_charterGuid (snd kv) =? charterGuid) (hash_iter (m_petitionMap w)).
Definition GetPetitionByOwnerGuid (ownerGuid : ObjectGuid) (w : World) : option Petition :=
  snd <$> List.find (fun kv => pt_ownerGuid (snd kv) =? ownerGuid) (hash_iter (m_petitionMap w)).

(** The signature of a character, with the key of its petition. *)
Fixpoint find_signature (guid : ObjectGuid) (l : list (Z * Petition)) : option (Z * PetitionSignature) :=
  match l with
  | [] => None
  | (k, p) :: l =>
    match Petition_GetSignatureForPlayerGuid guid p with
    | Some s => Some (k, s)
    | None => find_signature guid l
    end
  end.
Definition GetSignatureForPlayerGuid (guid : ObjectGuid) (w : World) : option (Z * PetitionSignature) :=
  find_signature guid (hash_iter (m_petitionMap w)).

(** The block that withdraws a signature, in [Guild::AddMember] and
    [HandlePetitionSignOpcode]. *)
Definition withdraw_signature (guid : ObjectGuid) (w : World) : World :=
  match GetSignatureForPlayerGuid guid w with
  | None => w
  | Some (k, s) =>
    set_petitions (alter (DeleteSignature guid) k (m_petitionMap w)) (emit (Signature_DeleteFromDB s) w)
  end.

End Lookups.
