(* ===== verification/Guild.v ===== *)
(** * Guild: members, ranks and rights (src/src/game/Guild/Guild.cpp, Guild.h)

    Every operation of [Guild] and [MemberSlot] that changes state, as a
    function on the guild and the world. A [MemberSlot] pointer is the key of
    the slot in [members]. The roster packet is in GuildRoster. *)
From S2P Require Import Prelude ByteBuffer ObjectGuid GuildData.

(** ** Field updates *)

Definition set_members (m : gmap Z MemberSlot) (g : Guild) : Guild :=
  mkGuild (m_Id g) (m_Name g) (m_LeaderGuid g) (m_motd g) (m_info g) (m_Created g) (m_Emblem g) (m_accountsNumber g)
    (m_Ranks g) m (m_onlineMemberCache g) (m_GuildEventLog g) (m_GmListeners g) (m_GuildEventLogNextGuid g).
Definition set_ranks (r : list RankInfo) (g : Guild) : Guild :=
  mkGuild (m_Id g) (m_Name g) (m_LeaderGuid g) (m_motd g) (m_info g) (m_Created g) (m_Emblem g) (m_accountsNumber g)
    r (members g) (m_onlineMemberCache g) (m_GuildEventLog g) (m_GmListeners g) (m_GuildEventLogNextGuid g).
Definition set_leader_guid (l : ObjectGuid) (g : Guild) : Guild :=
  mkGuild (m_Id g) (m_Name g) l (m_motd g) (m_info g) (m_Created g) (m_Emblem g) (m_accountsNumber g)
    (m_Ranks g) (members g) (m_onlineMemberCache g) (m_GuildEventLog g) (m_GmListeners g) (m_GuildEventLogNextGuid g).
Definition set_texts (name motd info : list Z) (g : Guild) : Guild :=
  mkGuild (m_Id g) name (m_LeaderGuid g) motd info (m_Created g) (m_Emblem g) (m_accountsNumber g)
    (m_Ranks g) (members g) (m_onlineMemberCache g) (m_GuildEventLog g) (m_GmListeners g) (m_GuildEventLogNextGuid g).
Definition set_emblem (e : Z * Z * Z * Z * Z) (g : Guild) : Guild :=
  mkGuild (m_Id g) (m_Name g) (m_LeaderGuid g) (m_motd g) (m_info g) (m_Created g) e (m_accountsNumber g)
    (m_Ranks g) (members g) (m_onlineMemberCache g) (m_GuildEventLog g) (m_GmListeners g) (m_GuildEventLogNextGuid g).
Definition set_accounts (n : Z) (g : Guild) : Guild :=
  mkGuild (m_Id g) (m_Name g) (m_LeaderGuid g) (m_motd g) (m_info g) (m_Created g) (m_Emblem g) n
    (m_Ranks g) (members g) (m_onlineMemberCache g) (m_GuildEventLog g) (m_GmListeners g) (m_GuildEventLogNextGuid g).
Definition set_cache (c : gset Z) (g : Guild) : Guild :=
  mkGuild (m_Id g) (m_Name g) (m_LeaderGuid g) (m_motd g) (m_info g) (m_Created g) (m_Emblem g) (m_accountsNumber g)
    (m_Ranks g) (members g) c (m_GuildEventLog g) (m_GmListeners g) (m_GuildEventLogNextGuid g).
Definition set_log (l : list GuildEventLogEntry) (next : Z) (g : Guild) : Guild :=
  mkGuild (m_Id g) (m_Name g) (m_LeaderGuid g) (m_motd g) (m_info g) (m_Created g) (m_Emblem g) (m_accountsNumber g)
    (m_Ranks g) (members g) (m_onlineMemberCache g) l (m_GmListeners g) next.
Definition set_listeners (s : gset ObjectGuid) (g : Guild) : Guild :=
  mkGuild (m_Id g) (m_Name g) (m_LeaderGuid g) (m_motd g) (m_info g) (m_Created g) (m_Emblem g) (m_accountsNumber g)
    (m_Ranks g) (members g) (m_onlineMemberCache g) (m_GuildEventLog g) s (m_GuildEventLogNextGuid g).

(** [Guild::Guild()] *)
Definition newGuild : Guild := mkGuild 0 [] 0 [] [] (0, 0, 0) (0, 0, 0, 0, 0) 0 [] ∅ ∅ [] ∅ 0.

(** ** MemberSlot *)

Definition set_rankid (r : Z) (s : MemberSlot) : MemberSlot :=
  mkMemberSlot (ms_guid s) (accountId s) (Name s) r (Level s) (Class_ s) (ZoneId s) (LogoutTime s) (PublicNote s) (OfficerNote s).
Definition SetMemberStats (p : Player) (s : MemberSlot) : MemberSlot :=
  mkMemberSlot (ms_guid s) (accountId s) (pl_name p) (RankId s) (pl_level p) (pl_class p) (pl_zone p) (LogoutTime s)
    (PublicNote s) (OfficerNote s).
Definition UpdateLogoutTime (E : Env) (s : MemberSlot) : MemberSlot :=
  mkMemberSlot (ms_guid s) (accountId s) (Name s) (RankId s) (Level s) (Class_ s) (ZoneId s) (now E) (PublicNote s) (OfficerNote s).

(** The note is escaped in place: the member keeps the escaped text. *)
Definition SetPublicNote (E : Env) (publicNote : list Z) (s : MemberSlot) : MemberSlot * list Out :=
  if bool_decide (PublicNote s = publicNote) then (s, [])
  else
    let note := escape_string E publicNote in
    (mkMemberSlot (ms_guid s) (accountId s) (Name s) (RankId s) (Level s) (Class_ s) (ZoneId s) (LogoutTime s) note (OfficerNote s),
     [PExecute (SqlUpdatePublicNote (GetCounter (ms_guid s)) note)]).
Definition SetOfficerNote (E : Env) (officerNote : list Z) (s : MemberSlot) : MemberSlot * list Out :=
  if bool_decide (OfficerNote s = officerNote) then (s, [])
  else
    let note := escape_string E officerNote in
    (mkMemberSlot (ms_guid s) (accountId s) (Name s) (RankId s) (Level s) (Class_ s) (ZoneId s) (LogoutTime s) (PublicNote s) note,
     [PExecute (SqlUpdateOfficerNote (GetCounter (ms_guid s)) note)]).

(** [slot->ChangeRank(newRank)] of the slot at [key]. *)
Definition ChangeRank (newRank key : Z) (g : Guild) (w : World) : Guild * World :=
  match members g !! key with
  | None => (g, w)
  | Some s =>
    let g := set_members (<[key := set_rankid newRank s]> (members g)) g in
    let w := match GetPlayer (ms_guid s) w with
             | Some _ => upd_player (ms_guid s) (SetRank newRank) w
             | None => w
             end in
    (g, emit (PExecute (SqlUpdateMemberRank (GetCounter (ms_guid s)) newRank)) w)
  end.

(** ** Lookups and rights *)

Definition GetMemberSize (g : Guild) : Z := Z.of_nat (base.size (members g)).
Definition GetRanksSize (g : Guild) : Z := Z.of_nat (length (m_Ranks g)).
Definition GetLowestRank (g : Guild) : Z := u32 (GetRanksSize g - 1).

(** The key of the slot of a GUID. *)
Definition GetMemberSlot (guid : ObjectGuid) (g : Guild) : option (Z * MemberSlot) :=
  (fun s => (GetCounter guid, s)) <$> members g !! GetCounter guid.

Definition GetRankName (rankId : Z) (g : Guild) : list Z :=
  if GetRanksSize g <=? rankId then str "<unknown>"
  else match m_Ranks g !! Z.to_nat rankId with Some r => ri_Name r | None => [] end.

Definition GetRankRights (rankId : Z) (g : Guild) : Z :=
  if GetRanksSize g <=? rankId then 0
  else match m_Ranks g !! Z.to_nat rankId with Some r => Rights r | None => 0 end.

Definition HasRankRight (rankId right : Z) (g : Guild) : bool :=
  if negb (Z.land (GetRankRights rankId g) right =? GR_RIGHT_EMPTY) then true else false.

(** [GetRank]: an [int32], -1 when the character is not a member. *)
Definition GetRank (guid : ObjectGuid) (g : Guild) : Z :=
  match GetMemberSlot guid g with Some (_, s) => i32 (RankId s) | None => -1 end.

Definition AddToCache (guidLow : Z) (g : Guild) : Guild := set_cache ({[guidLow]} ∪ m_onlineMemberCache g) g.
Definition RemoveFromCache (guidLow : Z) (g : Guild) : Guild := set_cache (m_onlineMemberCache g ∖ {[guidLow]}) g.
Definition IsMemberCacheEnabled (g : Guild) : bool := OnlineMemberCache <=? GetMemberSize g.
Definition UpdateAccountsNumber (g : Guild) : Guild := set_accounts 0 g.

Definition AddGMListener (gm : ObjectGuid) (g : Guild) : bool * Guild :=
  if bool_decide (gm ∈ m_GmListeners g) then (false, g)
  else (true, set_listeners ({[gm]} ∪ m_GmListeners g) g).

Definition GetAccountsNumber (g : Guild) : Z * Guild :=
  if negb (m_accountsNumber g =? 0) then (m_accountsNumber g, g)
  else
    let n := Z.of_nat (base.size (list_to_set ((fun kv => accountId (snd kv)) <$> map_to_list (members g)) : gset Z)) in
    (n, set_accounts n g).

(** ** Ranks *)

Definition AddRank (name : list Z) (rights : Z) (g : Guild) : Guild := set_ranks (m_Ranks g ++ [mkRankInfo name rights]) g.

Definition CreateRank (E : Env) (name : list Z) (rights : Z) (g : Guild) (w : World) : Guild * World :=
  if GUILD_RANKS_MAX_COUNT <=? GetRanksSize g then (g, w)
  else
    let new_rank_id := u32 (GetRanksSize g) in
    (AddRank name rights g, emit (PExecute (SqlInsertRank (m_Id g) new_rank_id (escape_string E name) rights)) w).

Definition DelRank (g : Guild) (w : World) : Guild * World :=
  if GetRanksSize g <=? GUILD_RANKS_MIN_COUNT then (g, w)
  else
    let rank := GetLowestRank g in
    (set_ranks (removelast (m_Ranks g)) g,
     emits [PExecute (SqlDeleteRanksFrom (m_Id g) rank); BankUpdateMinranks false (m_Id g) rank;
            BankUpdateMinranks true (m_Id g) rank] w).

Definition SetRankName (E : Env) (rankId : Z) (name : list Z) (g : Guild) (w : World) : Guild * World :=
  if GetRanksSize g <=? rankId then (g, w)
  else
    (set_ranks (alter (fun r => mkRankInfo name (Rights r)) (Z.to_nat rankId) (m_Ranks g)) g,
     emit (PExecute (SqlUpdateRankName (m_Id g) rankId (escape_string E name))) w).

Definition SetRankRights (rankId rights : Z) (g : Guild) (w : World) : Guild * World :=
  if GetRanksSize g <=? rankId then (g, w)
  else
    (set_ranks (alter (fun r => mkRankInfo (ri_Name r) rights) (Z.to_nat rankId) (m_Ranks g)) g,
     emit (PExecute (SqlUpdateRankRights (m_Id g) rankId rights)) w).

Definition CreateDefaultGuildRanks (E : Env) (g : Guild) (w : World) : Guild * World :=
  let w := emit (PExecute (SqlDeleteRanksOf (m_Id g))) w in
  let chat := Z.lor GR_RIGHT_GCHATLISTEN GR_RIGHT_GCHATSPEAK in
  let '(g, w) := CreateRank E (GetMangosString E 0) GR_RIGHT_ALL g w in
  let '(g, w) := CreateRank E (GetMangosString E 1) GR_RIGHT_ALL g w in
  let '(g, w) := CreateRank E (GetMangosString E 2) chat g w in
  let '(g, w) := CreateRank E (GetMangosString E 3) chat g w in
  CreateRank E (GetMangosString E 4) chat g w.

(** ** Texts *)

Definition Rename (E : Env) (newName : list Z) (g : Guild) (w : World) : Guild * World :=
  (set_texts newName (m_motd g) (m_info g) g, emit (PExecute (SqlUpdateGuildName (m_Id g) (escape_string E newName))) w).
Definition SetMOTD (E : Env) (motd : list Z) (g : Guild) (w : World) : Guild * World :=
  (set_texts (m_Name g) motd (m_info g) g,
   emits [PExecute (SqlUpdateMotd (m_Id g) (escape_string E motd)); ScriptOnMotdChanged (m_Id g)] w).
Definition SetGINFO (E : Env) (ginfo : list Z) (g : Guild) (w : World) : Guild * World :=
  (set_texts (m_Name g) (m_motd g) ginfo g,
   emits [PExecute (SqlUpdateInfo (m_Id g) (escape_string E ginfo)); ScriptOnInfoChanged (m_Id g)] w).
Definition SetEmblem (e : Z * Z * Z * Z * Z) (g : Guild) (w : World) : Guild * World :=
  (set_emblem e g, emit (PExecute (SqlUpdateEmblem (m_Id g) e)) w).

(** ** Event log *)

Definition LogGuildEvent (E : Env) (EventType : Z) (playerGuid1 playerGuid2 : ObjectGuid) (newRank : Z) (g : Guild) (w : World) : Guild * World :=
  let e := mkLogEntry EventType (GetCounter playerGuid1) (GetCounter playerGuid2) (u8 newRank) (u32 (now E)) in
  let next := u32 (m_GuildEventLogNextGuid g + 1) mod cfg_GUILD_EVENT_LOG_COUNT E in
  let log := if GUILD_EVENTLOG_MAX_RECORDS <=? Z.of_nat (length (m_GuildEventLog g))
             then tail (m_GuildEventLog g) else m_GuildEventLog g in
  (set_log (log ++ [e]) next g,
   emits [PExecute (SqlDeleteLog (m_Id g) next); PExecute (SqlInsertLog (m_Id g) next e)] w).

Definition GetGuildInviter (playerGuid : ObjectGuid) (g : Guild) : ObjectGuid :=
  match List.find (fun e => (EventType e =? GUILD_EVENT_LOG_INVITE_PLAYER) && (PlayerGuid2 e =? playerGuid)) (m_GuildEventLog g) with
  | Some e => PlayerGuid1 e
  | None => 0
  end.

(** [LoadGuildEventLogFromDB]: the rows the query returns, newest first. *)
Definition LoadGuildEventLogFromDB (rows : list (Z * GuildEventLogEntry)) (g : Guild) : Guild :=
  match rows with
  | [] => g
  | (logGuid, _) :: _ => set_log (foldl (fun log r => snd r :: log) (m_GuildEventLog g) rows) logGuid g
  end.

(** ** Broadcasts *)

Section GuildOps.
Context `{HashIter}.

(** The elements of a hash set in the order it is traversed. *)
Definition set_iter (s : gset Z) : list Z := fst <$> hash_iter (gset_to_gmap tt s).

Definition gm_listeners (g : Guild) (w : World) : list ObjectGuid :=
  filter (fun gm => is_Some (FindPlayer gm false w)) (set_iter (m_GmListeners g)).

Definition BroadcastPacket (E : Env) (opcode : Z) (data : list field) (g : Guild) (w : World) : World :=
  let online :=
    if IsMemberCacheEnabled g then
      filter (fun guidLow => is_Some (FindMasterPlayer E (ObjectGuid_low HIGHGUID_PLAYER guidLow))) (set_iter (m_onlineMemberCache g))
    else
      filter (fun guidLow => is_Some (FindPlayer (ObjectGuid_low HIGHGUID_PLAYER guidLow) false w)) (fst <$> hash_iter (members g)) in
  emits ((fun who => SendPacket who opcode data) <$>
         ((fun low => ObjectGuid_low HIGHGUID_PLAYER low) <$> online) ++ gm_listeners g w) w.

Definition BroadcastPacketToRank (opcode : Z) (data : list field) (rankId : Z) (g : Guild) (w : World) : World :=
  emits ((fun kv => SendPacket (ObjectGuid_low HIGHGUID_PLAYER (fst kv)) opcode data) <$>
         filter (fun kv => RankId (snd kv) = rankId /\ is_Some (FindPlayer (ObjectGuid_low HIGHGUID_PLAYER (fst kv)) false w))
           (hash_iter (members g))) w.

(** [BroadcastEvent(event, guid, str1, str2, str3)], with up to three strings. *)
Definition BroadcastEvent (E : Env) (event : Z) (guid : ObjectGuid) (strs : list (list Z)) (g : Guild) (w : World) : World :=
  BroadcastPacket E SMSG_GUILD_EVENT
    (FU8 event :: FU8 (Z.of_nat (length strs)) :: (FStr <$> strs) ++ (if IsEmpty guid then [] else [FU64 guid])) g w.

(** Whether an online character receives the guild chat of [sender]. *)
Definition hears (E : Env) (sender : ObjectGuid) (checkLogout : bool) (low : Z) : bool :=
  match FindMasterPlayer E (ObjectGuid_low HIGHGUID_PLAYER low) with
  | Some m => negb (checkLogout && mp_logout m) && negb (bool_decide (sender ∈ mp_ignores m))
  | None => false
  end.

Definition BroadcastToGuild (E : Env) (sender : option MasterPlayer) (msg : list Z) (language : Z) (g : Guild) (w : World) : World :=
  match sender with
  | None => w
  | Some m =>
    if negb (HasRankRight (mp_rank m) GR_RIGHT_GCHATSPEAK g) then w
    else
      let listens low := match members g !! low with
                         | Some s => HasRankRight (RankId s) GR_RIGHT_GCHATLISTEN g
                         | None => false
                         end in
      let keys := if IsMemberCacheEnabled g then set_iter (m_onlineMemberCache g) else fst <$> hash_iter (members g) in
      emits ((fun who => SendChat who false msg language (mp_guid m)) <$>
        ((fun low => ObjectGuid_low HIGHGUID_PLAYER low) <$>
           filter (fun low => listens low && hears E (mp_guid m) true low = true) keys) ++ gm_listeners g w) w
  end.

Definition BroadcastToOfficers (E : Env) (sender : option MasterPlayer) (msg : list Z) (language : Z) (g : Guild) (w : World) : World :=
  match sender with
  | None => w
  | Some m =>
    if negb (HasRankRight (mp_rank m) GR_RIGHT_OFFCHATSPEAK g) then w
    else
      emits ((fun who => SendChat who true msg language (mp_guid m)) <$>
        ((fun kv => ObjectGuid_low HIGHGUID_PLAYER (fst kv)) <$>
           filter (fun kv => HasRankRight (RankId (snd kv)) GR_RIGHT_OFFCHATLISTEN g && hears E (mp_guid m) false (fst kv) = true)
             (hash_iter (members g))) ++ gm_listeners g w) w
  end.

(** ** Members *)

(** The test of a class number. For class 0 the source shifts by -1; no
    playable class results here either. *)
Definition playable_class (c : Z) : bool := negb (Z.land (Z.shiftl 1 (c - 1)) CLASSMASK_ALL_PLAYABLE =? 0).

(** The data of a new member: of the online player, or of the cached row. *)
Definition member_data (E : Env) (plGuid : ObjectGuid) (pl : option Player) : GuildAddStatus + MemberSlot :=
  let mk account name level class zone := mkMemberSlot plGuid account name 0 level class zone (now E) [] [] in
  match pl with
  | Some p => inr (mk (pl_account p) (pl_name p) (pl_level p) (pl_class p) (pl_zone p))
  | None =>
    match GetPlayerDataByGUID E (GetCounter plGuid) with
    | None => inl UNKNOWN_PLAYER
    | Some d =>
      if bool_decide (sName d = []) then inl UNKNOWN_PLAYER
      else
        let level := u8 (uiLevel d) in
        let class := u8 (uiClass d) in
        if (level <? 1) || (PLAYER_STRONG_MAX_LEVEL <? level) || negb (playable_class class) then inl PLAYER_DATA_ERROR
        else inr (mk (uiAccount d) (sName d) level class (uiZoneId d))
    end
  end.

Definition already_in_guild (plGuid : ObjectGuid) (pl : option Player) (g : Guild) : bool :=
  match pl with
  | Some p => negb (pl_guildId p =? 0)
  | None => bool_decide (is_Some (members g !! u32 plGuid))
  end.

Definition AddMember (E : Env) (plGuid : ObjectGuid) (plRank : Z) (g : Guild) (w : World) : GuildAddStatus * Guild * World :=
  let pl := FindPlayerNotInWorld plGuid w in
  if already_in_guild plGuid pl g then (ALREADY_IN_GUILD, g, w)
  else
    let w := withdraw_signature plGuid w in
    let lowguid := GetCounter plGuid in
    match member_data E plGuid pl with
    | inl status => (status, g, w)
    | inr s =>
      let rank := match pl with Some _ => u8 (OnAddMember E (m_Id g) plGuid (u8 plRank)) | None => plRank end in
      let s := set_rankid rank s in
      let g := set_members (<[lowguid := s]> (members g)) g in
      let w := GuildMemberAdded (m_Id g) lowguid w in
      let w := emit (PExecute (SqlInsertMember (m_Id g) lowguid rank (escape_string E []) (escape_string E []))) w in
      match pl with
      | Some _ =>
        (OK, UpdateAccountsNumber (AddToCache lowguid g),
         upd_player plGuid (fun p => SetGuildIdInvited 0 (SetRank rank (SetInGuild (m_Id g) p))) w)
      | None => (OK, UpdateAccountsNumber g, w)
      end
    end.

(** The loop of [GetSuitableNewLeader]: the other member of the highest rank
    met first, and the leader's own slot, by their keys. *)
Definition suitable_step (lowGuid : Z) (acc : option (Z * MemberSlot) * option Z) (kv : Z * MemberSlot)
    : option (Z * MemberSlot) * option Z :=
  let '(best, old) := acc in
  if fst kv =? lowGuid then (best, Some (fst kv))
  else
    (match best with
     | None => Some kv
     | Some (_, s) => if RankId (snd kv) <? RankId s then Some kv else best
     end, old).

Definition GetSuitableNewLeader (preferOldestOfficer : bool) (g : Guild) : option Z * option Z :=
  let lowGuid := GetCounter (m_LeaderGuid g) in
  let '(best, old) := foldl (suitable_step lowGuid) (None, None) (hash_iter (members g)) in
  let officer e :=
    (EventType e =? GUILD_EVENT_LOG_INVITE_PLAYER) && negb (PlayerGuid2 e =? lowGuid) &&
    match GetMemberSlot (ObjectGuid_low HIGHGUID_PLAYER (PlayerGuid2 e)) g with
    | Some (_, s) => RankId s =? GR_OFFICER
    | None => false
    end in
  let new := fst <$> best in
  (if preferOldestOfficer then
     match List.find officer (m_GuildEventLog g) with
     | Some e => Some (GetCounter (ObjectGuid_low HIGHGUID_PLAYER (PlayerGuid2 e)))
     | None => new
     end
   else new, old).

(** [SetLeader(slot)] of the slot at [key]. *)
Definition SetLeader (key : Z) (g : Guild) (w : World) : Guild * World :=
  match members g !! key with
  | None => (g, w)
  | Some s =>
    let '(g, w) := ChangeRank GR_GUILDMASTER key (set_leader_guid (ms_guid s) g) w in
    (g, emit (PExecute (SqlUpdateLeader (m_Id g) (GetCounter (ms_guid s)))) w)
  end.

Definition SetLeader_guid (guid : ObjectGuid) (g : Guild) (w : World) : Guild * World :=
  match GetMemberSlot guid g with
  | None => (g, w)
  | Some (key, _) => SetLeader key g w
  end.

Definition slot_name (key : Z) (g : Guild) : list Z :=
  match members g !! key with Some s => Name s | None => [] end.

(** [SetNewLeader(newLeaderSlot, oldLeaderSlot)] *)
Definition SetNewLeader (E : Env) (newLeader : Z) (oldLeader : option Z) (g : Guild) (w : World) : Guild * World :=
  let '(g, w) := SetLeader newLeader g w in
  match oldLeader with
  | None => (g, w)
  | Some old =>
    let '(g, w) := ChangeRank GR_OFFICER old g w in
    (g, BroadcastEvent E GE_LEADER_CHANGED 0 [slot_name old g; slot_name newLeader g] g w)
  end.

Definition SetNewLeader_guid (E : Env) (newLeaderGuid : ObjectGuid) (g : Guild) (w : World) : Guild * World :=
  match GetMemberSlot newLeaderGuid g, GetMemberSlot (m_LeaderGuid g) g with
  | Some (new, _), Some (old, _) => if new =? old then (g, w) else SetNewLeader E new (Some old) g w
  | _, _ => (g, w)
  end.

(** The part of [DelMember] after the succession. *)
Definition erase_member (E : Env) (guid : ObjectGuid) (isDisbanding : bool) (g : Guild) (w : World) : bool * Guild * World :=
  let lowguid := GetCounter guid in
  let g := RemoveFromCache lowguid (set_members (delete lowguid (members g)) g) in
  let w := GuildMemberRemoved lowguid w in
  let w := match GetPlayer guid w with
           | Some _ => upd_player guid (fun p => SetRank 0 (SetInGuild 0 p)) (emit (ScriptOnRemoveMember guid isDisbanding) w)
           | None => w
           end in
  let w := emit (PExecute (SqlDeleteMember lowguid)) w in
  let g := if isDisbanding then g else UpdateAccountsNumber g in
  (bool_decide (members g = ∅), g, w).

(** [DelMember]: true when the guild has to be disbanded. *)
Definition DelMember (E : Env) (guid : ObjectGuid) (isDisbanding : bool) (g : Guild) (w : World) : bool * Guild * World :=
  if (m_LeaderGuid g =? guid) && negb isDisbanding then
    match GetSuitableNewLeader false g with
    | (None, _) => (true, g, w)
    | (Some best, oldLeader) =>
      let '(g, w) := SetNewLeader E best oldLeader g w in
      let w := match oldLeader with
               | Some old => BroadcastEvent E GE_LEFT guid [slot_name old g] g w
               | None => w
               end in
      erase_member E guid isDisbanding g w
    end
  else erase_member E guid isDisbanding g w.

(** The loop of [Disband]; each round removes a member, so as many rounds as
    there are members suffice. *)
Fixpoint Disband_loop (E : Env) (fuel : nat) (g : Guild) (w : World) : option (Guild * World) :=
  match head (hash_iter (members g)), fuel with
  | None, _ => Some (g, w)
  | Some _, O => None
  | Some (low, _), S fuel =>
    let '(_, g, w) := DelMember E (ObjectGuid_low HIGHGUID_PLAYER low) true g w in
    Disband_loop E fuel g w
  end.

(** [Disband]; [banks] tells whether the two banks were created. *)
Definition Disband (E : Env) (banks : bool) (g : Guild) (w : World) : option (Guild * World) :=
  let w := emit (ScriptOnDisband (m_Id g)) w in
  let w := BroadcastEvent E GE_DISBANDED 0 [] g w in
  match Disband_loop E (base.size (members g)) g w with
  | None => None
  | Some (g, w) =>
    let w := emits [PExecute (SqlDeleteGuild (m_Id g)); PExecute (SqlDeleteRanksOf (m_Id g));
                    PExecute (SqlDeleteLogsOf (m_Id g)); PExecute (SqlDeleteBankOf (m_Id g))] w in
    let w := if banks then emits [BankDelete false (m_Id g); BankDelete true (m_Id g)] w else w in
    Some (g, RemoveGuild (m_Id g) w)
  end.

(** ** Creation *)

(** [Create(leader, gname)]; [id] is what [GenerateGuildId] returns. *)
Definition Create (E : Env) (id : Z) (leader : Player) (gname : list Z) (g : Guild) (w : World) : bool * Guild * World :=
  match GetGuildByName gname w with
  | Some _ => (false, g, w)
  | None =>
    let motd := str "No message set." in
    let g := mkGuild id gname (pl_guid leader) motd [] (localtime E (now E)) (m_Emblem g) (m_accountsNumber g) (m_Ranks g)
               (members g) (m_onlineMemberCache g) (m_GuildEventLog g) (m_GmListeners g) (m_GuildEventLogNextGuid g) in
    let w := emits [PExecute (SqlDeleteMembersOf id);
                    PExecute (SqlInsertGuild id (escape_string E gname) (GetCounter (pl_guid leader)) (escape_string E [])
                                (escape_string E motd) (now E) (m_Emblem g))] w in
    let '(g, w) := CreateDefaultGuildRanks E g w in
    let w := emits [BankNew false id; BankNew true id] w in
    let '(status, g, w) := AddMember E (pl_guid leader) GR_GUILDMASTER g w in
    match status with
    | OK => (true, g, emit (ScriptOnCreate (pl_guid leader)) w)
    | _ => (false, g, w)
    end
  end.

(** [Create(petition, leader)] *)
Definition Create_petition (E : Env) (id : Z) (petition : Petition) (leader : Player) (g : Guild) (w : World) : bool * Guild * World :=
  let '(ok, g, w) := Create E id leader (pt_name petition) g w in
  if negb ok then (false, g, w)
  else
    let '(g, w) := foldl (fun '(g, w) s =>
        if IsEmpty (sig_playerGuid s) then (g, w)
        else let '(_, g, w) := AddMember E (sig_playerGuid s) (GetLowestRank g) g w in (g, w))
      (g, w) (pt_signatures petition) in
    (true, g, w).

(** ** Loading *)

(** A row of the query on [guild]. *)
Record GuildRow := mkGuildRow {
  gr_id : Z; gr_name : list Z; gr_leader : Z; gr_emblem : Z * Z * Z * Z * Z; gr_info : list Z; gr_motd : list Z; gr_created : Z
}.

Definition LoadGuildFromDB (E : Env) (r : GuildRow) (g : Guild) : Guild :=
  mkGuild (gr_id r) (gr_name r) (ObjectGuid_low HIGHGUID_PLAYER (gr_leader r)) (gr_motd r) (gr_info r)
    (if 0 <? gr_created r then localtime E (gr_created r) else m_Created g) (gr_emblem r) (m_accountsNumber g) (m_Ranks g)
    (members g) (m_onlineMemberCache g) (m_GuildEventLog g) (m_GmListeners g) (m_GuildEventLogNextGuid g).

(** [CheckGuildStructure]: false when the guild has to be disbanded. *)
Definition CheckGuildStructure (E : Env) (g : Guild) (w : World) : bool * Guild * World :=
  let GM_rights := GetRank (m_LeaderGuid g) g in
  let '(disband, g, w) :=
    if GM_rights =? -1 then DelMember E (m_LeaderGuid g) false g w
    else if negb (GM_rights =? GR_GUILDMASTER) then let '(g, w) := SetLeader_guid (m_LeaderGuid g) g w in (false, g, w)
    else (false, g, w) in
  if disband then (false, g, w)
  else
    let '(g, w) := foldl (fun '(g, w) kv =>
        match members g !! fst kv with
        | Some s => if (RankId s =? GR_GUILDMASTER) && negb (m_LeaderGuid g =? ms_guid s)
                    then ChangeRank GR_OFFICER (fst kv) g w else (g, w)
        | None => (g, w)
        end) (g, w) (hash_iter (members g)) in
    (true, g, w).

(** The rows of [guild_rank] from the cursor on: guild, rank, name, rights. *)
Fixpoint LoadRanks_loop (rows : list (Z * Z * list Z * Z)) (broken : bool) (g : Guild) (w : World)
    : list (Z * Z * list Z * Z) * bool * Guild * World :=
  match rows with
  | [] => ([], broken, g, w)
  | (guildId, rankID, rankName, rankRights) :: rest =>
    if guildId <? m_Id g then LoadRanks_loop rest broken g (emit (PExecute (SqlDeleteRanksOf guildId)) w)
    else if m_Id g <? guildId then (rows, broken, g, w)
    else
      let broken := broken || negb (rankID =? GetRanksSize g) in
      let rankRights := if bool_decide (m_Ranks g = []) then Z.lor rankRights GR_RIGHT_ALL else rankRights in
      LoadRanks_loop rest broken (AddRank rankName rankRights g) w
  end.

Definition rewrite_ranks (E : Env) (g : Guild) : list Out :=
  PExecute (SqlDeleteRanksOf (m_Id g)) ::
  imap (fun i r => PExecute (SqlInsertRank (m_Id g) (Z.of_nat i) (escape_string E (ri_Name r)) (Rights r))) (m_Ranks g).

(** [LoadRanksFromDB]; [None] is a query without rows. *)
Definition LoadRanksFromDB (E : Env) (rows : option (list (Z * Z * list Z * Z))) (g : Guild) (w : World)
    : option (list (Z * Z * list Z * Z)) * Guild * World :=
  match rows with
  | None => let '(g, w) := CreateDefaultGuildRanks E g w in (None, g, w)
  | Some rows =>
    let '(rows, broken, g, w) := LoadRanks_loop rows false g w in
    if GetRanksSize g <? GUILD_RANKS_MIN_COUNT then
      let '(g, w) := CreateDefaultGuildRanks E (set_ranks [] g) w in (Some rows, g, w)
    else (Some rows, g, if broken then emits (rewrite_ranks E g) w else w)
  end.

(** A row of the query on [guild_member] and [characters]. *)
Record MemberRow := mkMemberRow {
  mr_guildid : Z; mr_guid : Z; mr_rank : Z; mr_pnote : list Z; mr_offnote : list Z;
  mr_name : list Z; mr_level : Z; mr_class : Z; mr_zone : Z; mr_logout : Z; mr_account : Z
}.

(** The member a row describes, or nothing when the row is broken. *)
Definition load_member (E : Env) (r : MemberRow) (g : Guild) : option MemberSlot :=
  let guid := ObjectGuid_low HIGHGUID_PLAYER (mr_guid r) in
  let rank := if GetRanksSize g <=? mr_rank r then GetLowestRank g else mr_rank r in
  if (mr_level r <? 1) || (PLAYER_STRONG_MAX_LEVEL <? mr_level r) then None
  else
    let zone := if mr_zone r =? 0 then GetZoneIdFromDB E guid else mr_zone r in
    if negb (playable_class (mr_class r)) then None
    else if bool_decide (mr_name r = []) then None
    else Some (mkMemberSlot guid (mr_account r) (mr_name r) rank (mr_level r) (mr_class r) zone (mr_logout r) (mr_pnote r) (mr_offnote r)).

Fixpoint LoadMembers_loop (E : Env) (rows : list MemberRow) (g : Guild) (w : World) : list MemberRow * Guild * World :=
  match rows with
  | [] => ([], g, w)
  | r :: rest =>
    if mr_guildid r <? m_Id g then LoadMembers_loop E rest g (emit (PExecute (SqlDeleteMembersOf (mr_guildid r))) w)
    else if m_Id g <? mr_guildid r then (rows, g, w)
    else
      match load_member E r g with
      | None => LoadMembers_loop E rest g (emit (PExecute (SqlDeleteMember (mr_guid r))) w)
      | Some s =>
        LoadMembers_loop E rest (set_members (<[mr_guid r := s]> (members g)) g) (GuildMemberAdded (m_Id g) (mr_guid r) w)
      end
  end.

Definition LoadMembersFromDB (E : Env) (rows : option (list MemberRow)) (g : Guild) (w : World)
    : bool * option (list MemberRow) * Guild * World :=
  match rows with
  | None => (false, None, g, w)
  | Some rows =>
    let '(rows, g, w) := LoadMembers_loop E rows g w in
    if bool_decide (members g = ∅) then (false, Some rows, g, w)
    else (true, Some rows, UpdateAccountsNumber g, w)
  end.

(** ** Queries *)

Definition Query (g : Guild) : list field :=
  let '(style, color, bstyle, bcolor, bg) := m_Emblem g in
  FU32 (m_Id g) :: FStr (m_Name g) ::
  ((fun i => match m_Ranks g !! i with Some r => FStr (ri_Name r) | None => FU8 0 end) <$> seq 0 (Z.to_nat GUILD_RANKS_MAX_COUNT)) ++
  [FU32 style; FU32 color; FU32 bstyle; FU32 bcolor; FU32 bg].

End GuildOps.
