(* ===== verification/GuildRoster.v ===== *)
(** * GuildRoster: the roster packet of a guild (src/src/game/Guild/Guild.cpp)

    [Roster] and [BuildOnlineRosterPacket] write a guild into one packet that
    a client accepts only up to 0x8000 bytes. What the packet holds and how
    long it gets is proved here. *)
From S2P Require Import Prelude ByteBuffer ObjectGuid GuildData Guild.

Definition MAX_UNCOMPRESSED_PACKET_SIZE : Z := 0x8000.

(** [TempMemberInfo]: the GUID, the online player and the slot. *)
Record TempMemberInfo := mkTemp { tm_guid : ObjectGuid; tm_member : option Player; tm_slot : MemberSlot }.

(** [std::sort] by rank: the order of equal ranks is not specified. *)
Class MemberSort := {
  member_sort : list TempMemberInfo -> list TempMemberInfo;
  member_sort_perm : forall l, member_sort l ≡ₚ l;
  member_sort_sorted : forall l, StronglySorted (fun a b => RankId (tm_slot a) <= RankId (tm_slot b)) (member_sort l)
}.

Section Roster.
Context `{HashIter} `{MemberSort}.
(** The bits of [float(float(time(nullptr) - LogoutTime) / DAY)]. *)
Variable days_offline : Z -> Z -> Z.

Definition shown_online (m : option Player) : bool :=
  match m with Some p => negb (pl_gmNoSocials p) | None => false end.

Definition temp_info (w : World) (kv : Z * MemberSlot) : TempMemberInfo :=
  mkTemp (ObjectGuid_low HIGHGUID_PLAYER (fst kv)) (FindPlayer (ObjectGuid_low HIGHGUID_PLAYER (fst kv)) false w) (snd kv).

Definition zlen {A} (l : list A) : Z := Z.of_nat (length l).

(** The size the packet is expected to have, before the members. *)
Definition header_size (g : Guild) : Z := 4 + (zlen (m_motd g) + 1 + zlen (m_info g) + 1) + 4 + 4 * zlen (m_Ranks g).

(** What the packet holds between the count and the members. *)
Definition roster_header (g : Guild) : list field :=
  [FStr (m_motd g); FStr (m_info g); FU32 (GetRanksSize g)] ++ ((fun r => FU32 (Rights r)) <$> m_Ranks g).

(** The data of one member. *)
Definition member_block (E : Env) (sendOfficerNote : bool) (m : TempMemberInfo) : list field :=
  let s := tm_slot m in
  [FU64 (tm_guid m); FU8 (if shown_online (tm_member m) then 1 else 0)] ++
  match tm_member m with
  | Some p => [FStr (pl_name p); FU32 (RankId s); FU8 (pl_level p); FU8 (pl_class p); FU32 (pl_zone p)]
  | None => [FStr (Name s); FU32 (RankId s); FU8 (Level s); FU8 (Class_ s); FU32 (ZoneId s);
             FU32 (days_offline (now E) (LogoutTime s))]
  end ++
  [FStr (PublicNote s); FStr (if sendOfficerNote then OfficerNote s else [])].

(** [writeMemberData]: [None] when the packet would grow too long. *)
Definition writeMemberData (E : Env) (inPacketCap sendOfficerNote : bool) (data : list field) (m : TempMemberInfo) : option (list field) :=
  if negb inPacketCap && (MAX_UNCOMPRESSED_PACKET_SIZE <=? fields_length data + GUILD_MEMBER_BLOCK_SIZE) then None
  else Some (data ++ member_block E sendOfficerNote m).

(** The loops over the members: skip, write and count, or break. *)
Fixpoint write_members (E : Env) (cap officer : bool) (skip : TempMemberInfo -> bool) (l : list TempMemberInfo)
    (data : list field) (finalCount : Z) : list field * Z :=
  match l with
  | [] => (data, finalCount)
  | m :: l =>
    if skip m then write_members E cap officer skip l data finalCount
    else
      match writeMemberData E cap officer data m with
      | Some data => write_members E cap officer skip l data (finalCount + 1)
      | None => (data, finalCount)
      end
  end.

Definition skip_online (m : TempMemberInfo) : bool := match tm_member m with Some _ => false | None => true end.
Definition skip_offline (m : TempMemberInfo) : bool :=
  shown_online (tm_member m) || bool_decide (Name (tm_slot m) = []).

Definition infos (g : Guild) (w : World) : list TempMemberInfo := temp_info w <$> hash_iter (members g).
Definition onlineMemberCache (g : Guild) (w : World) : list TempMemberInfo :=
  filter (fun m => shown_online (tm_member m) = true) (infos g w).
Definition offlineMemberCache (g : Guild) (w : World) : list TempMemberInfo :=
  filter (fun m => shown_online (tm_member m) = false) (infos g w).

(** The sizes the two functions estimate for the members. *)
Definition estimate (m : TempMemberInfo) : Z :=
  GUILD_MEMBER_BLOCK_SIZE_WITHOUT_NOTE + (zlen (PublicNote (tm_slot m)) + 1 + zlen (OfficerNote (tm_slot m)) + 1).
Definition estimate_online (sendOfficerNote : bool) (m : TempMemberInfo) : Z :=
  GUILD_MEMBER_BLOCK_SIZE_WITHOUT_NOTE + zlen (PublicNote (tm_slot m)) +
  (if sendOfficerNote then zlen (OfficerNote (tm_slot m)) else 0).
Definition sum (f : TempMemberInfo -> Z) (l : list TempMemberInfo) : Z := foldr (fun m n => f m + n) 0 l.

(** [put] writes the count over the first four bytes. *)
Definition put_count (finalCount : Z) (data : list field) : list field :=
  match data with _ :: rest => FU32 (u32 finalCount) :: rest | [] => [] end.

Definition BuildOnlineRosterPacket (E : Env) (sendOfficerNote : bool) (g : Guild) (w : World) : list field :=
  let online := onlineMemberCache g w in
  let inPacketCap := header_size g + sum (estimate_online sendOfficerNote) online <? MAX_UNCOMPRESSED_PACKET_SIZE in
  let data := FU32 (u32 (zlen online)) :: roster_header g in
  let online := if inPacketCap then online else member_sort online in
  let '(data, finalCount) := write_members E inPacketCap sendOfficerNote skip_online online data 0 in
  put_count finalCount data.

Definition Roster (E : Env) (sendOfficerNote : bool) (g : Guild) (w : World) : list field :=
  let online := onlineMemberCache g w in
  let offline := offlineMemberCache g w in
  let inPacketCap := header_size g + sum estimate (infos g w) <? MAX_UNCOMPRESSED_PACKET_SIZE in
  let count := Z.min (zlen online + zlen offline) GUILD_MAX_MEMBERS in
  let onlineMembers := Z.min (zlen online) GUILD_MAX_MEMBERS in
  let offlineMembers := Z.min (zlen offline) (GUILD_MAX_MEMBERS - onlineMembers) in
  let data := FU32 (u32 count) :: roster_header g in
  let '(online, offline) := if inPacketCap then (online, offline) else (member_sort online, member_sort offline) in
  let online := take (Z.to_nat onlineMembers) online in
  let offline := take (Z.to_nat offlineMembers) offline in
  let '(data, finalCount) := write_members E inPacketCap sendOfficerNote skip_online online data 0 in
  let '(data, finalCount) := write_members E inPacketCap sendOfficerNote skip_offline offline data finalCount in
  put_count finalCount data.

(** [Roster(session)]: to one session, or to the guild. *)
Definition Roster_send (E : Env) (session : option Player) (g : Guild) (w : World) : World :=
  let sendOfficerNote := match session with Some p => HasRankRight (pl_rank p) GR_RIGHT_VIEWOFFNOTE g | None => false end in
  let data := Roster E sendOfficerNote g w in
  match session with
  | Some p => emit (SendPacket (pl_guid p) SMSG_GUILD_ROSTER data) w
  | None => BroadcastPacket E SMSG_GUILD_ROSTER data g w
  end.

(** ** Lemmas *)

Lemma fields_length_app a b : fields_length (a ++ b) = fields_length a + fields_length b.
Proof. unfold fields_length. induction a as [|x a IH]; cbn [app foldr]; [lia|]. rewrite IH. lia. Qed.

Lemma rights_length (l : list RankInfo) : fields_length ((fun r => FU32 (Rights r)) <$> l) = 4 * zlen l.
Proof.
  unfold fields_length, zlen. induction l as [|r l IH]; [done|].
  rewrite fmap_cons. cbn [foldr length field_length]. rewrite IH. lia.
Qed.

Lemma header_length n g : fields_length (FU32 n :: roster_header g) = header_size g.
Proof.
  unfold roster_header, header_size. change (?a :: ?l) with ([a] ++ l).
  rewrite !fields_length_app, rights_length. unfold fields_length, zlen. cbn [foldr field_length]. lia.
Qed.

(** What holds of a member in the live server: names within the client's
    limit of 12 and notes within [GUILD_NOTE_MAX_LENGTH]. *)
Definition MAX_PLAYER_NAME : Z := 12.
Definition member_sane (m : TempMemberInfo) : Prop :=
  zlen (Name (tm_slot m)) <= MAX_PLAYER_NAME /\
  (forall p, tm_member m = Some p -> zlen (pl_name p) <= MAX_PLAYER_NAME) /\
  zlen (PublicNote (tm_slot m)) <= GUILD_NOTE_MAX_LENGTH /\ zlen (OfficerNote (tm_slot m)) <= GUILD_NOTE_MAX_LENGTH.

Lemma block_length E officer m :
  fields_length (member_block E officer m) =
  22 + zlen (match tm_member m with Some p => pl_name p | None => Name (tm_slot m) end) +
  (match tm_member m with Some _ => 0 | None => 4 end) +
  zlen (PublicNote (tm_slot m)) + (if officer then zlen (OfficerNote (tm_slot m)) else 0).
Proof.
  unfold member_block, zlen, fields_length. destruct (tm_member m), officer; cbn [app foldr field_length length]; lia.
Qed.

Lemma block_le E officer m :
  member_sane m ->
  0 <= fields_length (member_block E officer m) <= GUILD_MEMBER_BLOCK_SIZE + 1 /\
  (tm_member m <> None -> fields_length (member_block E officer m) <= GUILD_MEMBER_BLOCK_SIZE /\
    fields_length (member_block E officer m) <= estimate_online officer m) /\
  fields_length (member_block E officer m) <= estimate m.
Proof.
  intros (Hn & Hp & Hpub & Hoff). rewrite block_length.
  unfold estimate, estimate_online, GUILD_MEMBER_BLOCK_SIZE, GUILD_MEMBER_BLOCK_SIZE_WITHOUT_NOTE,
    GUILD_NOTE_MAX_LENGTH, MAX_INTERNAL_PLAYER_NAME, MAX_PLAYER_NAME, zlen in *.
  destruct (tm_member m) as [p|]; [specialize (Hp p eq_refl)|]; destruct officer; repeat split; try lia; done.
Qed.

Definition blocks (E : Env) (officer : bool) (l : list TempMemberInfo) : list field := flat_map (member_block E officer) l.

Lemma blocks_app E o a b : blocks E o (a ++ b) = blocks E o a ++ blocks E o b.
Proof. apply flat_map_app. Qed.

(** The loop writes a prefix of the members it does not skip, all of them
    when nothing is capped. *)
Lemma write_members_spec E cap officer skip l : forall data n,
  exists k, let wr := take k (filter (fun m => skip m = false) l) in
  write_members E cap officer skip l data n = (data ++ blocks E officer wr, n + zlen wr) /\
  (cap = true -> wr = filter (fun m => skip m = false) l).
Proof.
  induction l as [|m l IH]; intros data n.
  - exists 0%nat. cbn. rewrite app_nil_r. unfold zlen. cbn. by rewrite Z.add_0_r.
  - cbn [write_members]. destruct (skip m) eqn:Es.
    + destruct (IH data n) as [k Hk]. exists k. rewrite filter_cons_False by congruence. exact Hk.
    + rewrite filter_cons_True by done. unfold writeMemberData.
      destruct (negb cap && _) eqn:Ec.
      * exists 0%nat. cbn. rewrite app_nil_r, Z.add_0_r. split; [done|]. intros ->. done.
      * destruct (IH (data ++ member_block E officer m) (n + 1)) as (k & Hk & Hall). exists (S k).
        cbn [take]. split; [|intros ->; by rewrite Hall at 1].
        rewrite Hk. unfold blocks. cbn [flat_map]. rewrite <- app_assoc. f_equal. unfold zlen. cbn [length]. lia.
Qed.

(** How long the packet gets when it is capped. *)
Lemma write_members_length E officer skip l bound : forall data n,
  Forall (fun m => skip m = false -> fields_length (member_block E officer m) <= GUILD_MEMBER_BLOCK_SIZE + bound) l ->
  0 <= bound -> fields_length data <= MAX_UNCOMPRESSED_PACKET_SIZE - 1 + bound ->
  fields_length (fst (write_members E false officer skip l data n)) <= MAX_UNCOMPRESSED_PACKET_SIZE - 1 + bound.
Proof.
  induction l as [|m l IH]; intros data n Hl Hb Hd; [done|]. apply Forall_cons in Hl as [Hm Hl].
  cbn [write_members]. destruct (skip m); [by apply IH|]. unfold writeMemberData. cbn [negb andb].
  case_match eqn:Ec; case_match; simplify_eq; try done. apply IH; [done|done|].
  to_prop. rewrite fields_length_app. specialize (Hm eq_refl). lia.
Qed.

Lemma sum_sublist f l1 l2 : (forall m, 0 <= f m) -> l1 `sublist_of` l2 -> sum f l1 <= sum f l2.
Proof.
  intros Hf. induction 1 as [|x a b _ IH|x a b _ IH]; unfold sum in *; cbn [foldr]; [lia|lia|].
  specialize (Hf x). lia.
Qed.

Lemma sum_perm f l1 l2 : l1 ≡ₚ l2 -> sum f l1 = sum f l2.
Proof. unfold sum. induction 1; cbn [foldr]; lia. Qed.

Lemma sum_app f l1 l2 : sum f (l1 ++ l2) = sum f l1 + sum f l2.
Proof. unfold sum. induction l1 as [|m l1 IH]; cbn [app foldr]; lia. Qed.

Lemma blocks_le (est : TempMemberInfo -> Z) E o l :
  Forall (fun m => fields_length (member_block E o m) <= est m) l -> fields_length (blocks E o l) <= sum est l.
Proof.
  unfold blocks, sum. induction 1 as [|m l Hm _ IH]; [done|]. cbn [flat_map foldr]. rewrite fields_length_app. lia.
Qed.

Lemma estimate_nonneg m : 0 <= estimate m.
Proof. unfold estimate, GUILD_MEMBER_BLOCK_SIZE_WITHOUT_NOTE, MAX_INTERNAL_PLAYER_NAME, zlen. lia. Qed.

Lemma infos_split g w : infos g w ≡ₚ onlineMemberCache g w ++ offlineMemberCache g w.
Proof.
  unfold onlineMemberCache, offlineMemberCache. induction (infos g w) as [|m l IH]; [done|].
  destruct (shown_online (tm_member m)) eqn:Em.
  - rewrite filter_cons_True, filter_cons_False by congruence. cbn [app]. by rewrite IH at 1.
  - rewrite filter_cons_False, filter_cons_True by congruence. rewrite <- Permutation_middle. by rewrite IH at 1.
Qed.

(** The members a list of candidates is reduced to. *)
Definition candidates (cap : bool) (n : Z) (l : list TempMemberInfo) : list TempMemberInfo :=
  take (Z.to_nat n) (if cap then l else member_sort l).

Lemma candidates_perm cap n l : exists l', candidates cap n l `sublist_of` l' /\ l' ≡ₚ l.
Proof.
  exists (if cap then l else member_sort l). split; [apply sublist_take|]. destruct cap; [done|apply member_sort_perm].
Qed.

(** What [Roster] writes, member by member. *)
Lemma Roster_blocks E o g w :
  let cap := header_size g + sum estimate (infos g w) <? MAX_UNCOMPRESSED_PACKET_SIZE in
  let n1 := Z.min (zlen (onlineMemberCache g w)) GUILD_MAX_MEMBERS in
  let n2 := Z.min (zlen (offlineMemberCache g w)) (GUILD_MAX_MEMBERS - n1) in
  let on := filter (fun m => skip_online m = false) (candidates cap n1 (onlineMemberCache g w)) in
  let off := filter (fun m => skip_offline m = false) (candidates cap n2 (offlineMemberCache g w)) in
  exists k1 k2,
    Roster E o g w = FU32 (u32 (zlen (take k1 on ++ take k2 off))) :: roster_header g ++ blocks E o (take k1 on ++ take k2 off) /\
    (cap = true -> take k1 on = on /\ take k2 off = off).
Proof.
  intros cap n1 n2 on off. unfold Roster. fold cap n1 n2. set (data := FU32 _ :: roster_header g).
  destruct (write_members_spec E cap o skip_online (candidates cap n1 (onlineMemberCache g w)) data 0) as (k1 & Hw1 & Ha1).
  destruct (write_members_spec E cap o skip_offline (candidates cap n2 (offlineMemberCache g w))
    (data ++ blocks E o (take k1 on)) (0 + zlen (take k1 on))) as (k2 & Hw2 & Ha2).
  fold on in Hw1, Ha1. fold off in Hw2, Ha2. exists k1, k2. split; [|by auto].
  unfold candidates in Hw1, Hw2. destruct cap; rewrite Hw1, Hw2; unfold data; cbn [put_count app];
    rewrite blocks_app, <- !app_assoc; unfold zlen; rewrite length_app, Nat2Z.inj_add; done.
Qed.

End Roster.

(** ** Properties *)

Section Properties.
Context `{HashIter} `{MemberSort}.
Variable days_offline : Z -> Z -> Z.

Lemma infos_forall (P : TempMemberInfo -> Prop) (Q : TempMemberInfo -> Prop) `{forall m, Decision (Q m)} cap n l :
  Forall P l -> Forall P (filter Q (candidates cap n l)).
Proof.
  intros Hl. apply Forall_forall. intros m [_ Hm]%list_elem_of_filter.
  destruct (candidates_perm cap n l) as (l' & Hs & Hp). rewrite Forall_forall in Hl. apply Hl.
  rewrite <- Hp. eapply elem_of_submseteq; [exact Hm|by apply sublist_submseteq].
Qed.

Definition visible (m : TempMemberInfo) : bool := shown_online (tm_member m) || bool_decide (Name (tm_slot m) <> []).

Lemma visible_split l :
  filter (fun m => skip_online m = false) (filter (fun m => shown_online (tm_member m) = true) l) ++
  filter (fun m => skip_offline m = false) (filter (fun m => shown_online (tm_member m) = false) l)
  ≡ₚ filter (fun m => visible m = true) l.
Proof.
  induction l as [|m l IH]; [done|]. unfold visible, skip_online, skip_offline in *. rewrite !(filter_cons _ m l).
  destruct (shown_online (tm_member m)) eqn:Em.
  - rewrite decide_True, decide_False, decide_True by done. rewrite filter_cons_True; [by rewrite <- IH|].
    unfold shown_online in Em. by destruct (tm_member m).
  - rewrite decide_False, decide_True by done. rewrite filter_cons. rewrite Em. cbn [orb].
    destruct (decide (Name (tm_slot m) = [])) as [->|Hn].
    + rewrite bool_decide_eq_true_2 by done. rewrite bool_decide_eq_false_2 by (intros Hx; by apply Hx).
      rewrite !decide_False by done. exact IH.
    + rewrite bool_decide_eq_false_2 by done. rewrite bool_decide_eq_true_2 by done. rewrite !decide_True by done.
      rewrite <- Permutation_middle. by rewrite IH.
Qed.

(** The roster fits into the packet a client accepts: for a guild of any
    size whose names and notes are within the client's limits, and whose
    texts and ranks fit, [Roster] writes at most 0x8000 bytes, notes of
    officers included or not. *)
Theorem roster_fits E officer g w :
  Forall member_sane (infos g w) -> header_size g <= MAX_UNCOMPRESSED_PACKET_SIZE ->
  fields_length (Roster days_offline E officer g w) <= MAX_UNCOMPRESSED_PACKET_SIZE.
Proof.
  intros Hs Hh.
  destruct (header_size g + sum estimate (infos g w) <? MAX_UNCOMPRESSED_PACKET_SIZE) eqn:Ec.
  - destruct (Roster_blocks days_offline E officer g w) as (k1 & k2 & -> & _). to_prop.
    rewrite app_comm_cons, fields_length_app, header_length.
    transitivity (header_size g + sum estimate (infos g w)); [|lia]. apply Z.add_le_mono_l.
    assert (Hle : forall l, Forall member_sane l -> fields_length (blocks days_offline E officer l) <= sum estimate l).
    { intros l Hl. apply blocks_le. eapply Forall_impl; [exact Hl|]. intros m Hm. by apply block_le. }
    pose proof Hs as Hs'. rewrite infos_split in Hs'. apply Forall_app in Hs' as [Hon Hoff].
    rewrite blocks_app, fields_length_app, (sum_perm _ _ _ (infos_split g w)), sum_app.
    assert (Hsub : forall cap n (Q : TempMemberInfo -> Prop) `{forall m, Decision (Q m)} k l, Forall member_sane l ->
      fields_length (blocks days_offline E officer (take k (filter Q (candidates cap n l)))) <= sum estimate l).
    { intros cap n Q ? k l Hl. destruct (candidates_perm cap n l) as (l' & Hsl & Hp).
      transitivity (sum estimate (take k (filter Q (candidates cap n l)))).
      - apply Hle, Forall_take, infos_forall, Hl.
      - rewrite <- (sum_perm _ _ _ Hp). apply sum_sublist; [apply estimate_nonneg|].
        etrans; [apply sublist_take|]. etrans; [apply sublist_filter|]. exact Hsl. }
    apply Z.add_le_mono; by apply Hsub.
  - unfold Roster. rewrite Ec. set (data := FU32 _ :: roster_header g).
    assert (Hd : fields_length data <= MAX_UNCOMPRESSED_PACKET_SIZE - 1 + 1) by (unfold data; rewrite header_length; lia).
    assert (Hput : forall n d, fields_length d <= MAX_UNCOMPRESSED_PACKET_SIZE -> (exists x r, d = FU32 x :: r) ->
      fields_length (put_count n d) <= MAX_UNCOMPRESSED_PACKET_SIZE) by (intros n d Hn (x & r & ->); exact Hn).
    assert (Hsane : forall n l, Forall member_sane l -> forall skip, Forall (fun m => skip m = false ->
      fields_length (member_block days_offline E officer m) <= GUILD_MEMBER_BLOCK_SIZE + 1) (take n (member_sort l))).
    { intros n l Hl skip. apply Forall_take. rewrite member_sort_perm. eapply Forall_impl; [exact Hl|].
      intros m Hm _. by apply block_le. }
    pose proof Hs as Hs'. rewrite infos_split in Hs'. apply Forall_app in Hs' as [Hon Hoff].
    set (on := take _ (member_sort (onlineMemberCache g w))). set (off := take _ (member_sort (offlineMemberCache g w))).
    pose proof (write_members_length days_offline E officer skip_online on 1 data 0 (Hsane _ _ Hon _) ltac:(lia) Hd) as H1.
    destruct (write_members_spec days_offline E false officer skip_online on data 0) as (k1 & E1 & _). rewrite E1 in *. cbn [fst] in H1.
    pose proof (fun n => write_members_length days_offline E officer skip_offline off 1 _ n (Hsane _ _ Hoff _) ltac:(lia) H1) as H2.
    destruct (write_members_spec days_offline E false officer skip_offline off
      (data ++ blocks days_offline E officer (take k1 (filter (fun m => skip_online m = false) on)))
      (0 + zlen (take k1 (filter (fun m => skip_online m = false) on)))) as (k2 & E2 & _).
    specialize (H2 (0 + zlen (take k1 (filter (fun m => skip_online m = false) on)))). rewrite E2 in *. cbn [fst] in H2.
    apply Hput; [lia|]. unfold data. cbn [app]. by eexists _, _.
Qed.

(** The roster holds what it says: the packet is the header and the
    blocks of a list of distinct members of the guild, and the count at its
    front is the length of that list; every member with a name is on it as
    long as the estimated size and the number of members stay within the
    limits. *)
Theorem roster_lists_members E officer g w :
  exists l, Roster days_offline E officer g w =
    FU32 (zlen l) :: roster_header g ++ blocks days_offline E officer l /\
  l ⊆+ infos g w /\ zlen l <= GUILD_MAX_MEMBERS /\
  (header_size g + sum estimate (infos g w) < MAX_UNCOMPRESSED_PACKET_SIZE -> zlen (infos g w) <= GUILD_MAX_MEMBERS ->
   l ≡ₚ filter (fun m => visible m = true) (infos g w)).
Proof.
  destruct (Roster_blocks days_offline E officer g w) as (k1 & k2 & HR & Hall). revert HR Hall.
  set (cap := _ <? _). set (n1 := Z.min _ GUILD_MAX_MEMBERS). set (n2 := Z.min _ (GUILD_MAX_MEMBERS - n1)).
  set (on := filter _ (candidates cap n1 _)). set (off := filter _ (candidates cap n2 _)). intros HR Hall.
  assert (Hmax : 0 <= n1 /\ 0 <= n2 /\ n1 + n2 <= GUILD_MAX_MEMBERS).
  { unfold n2, n1, zlen. assert (0 < GUILD_MAX_MEMBERS) by (by vm_compute). lia. }
  assert (Hlen : forall (k : nat) (Q : TempMemberInfo -> Prop) `{forall m, Decision (Q m)} n l, 0 <= n ->
    Z.of_nat (length (take k (filter Q (candidates cap n l)))) <= n).
  { intros k Q ? n l Hn. rewrite length_take. pose proof (length_filter Q (candidates cap n l)).
    unfold candidates in *. rewrite length_take in *. lia. }
  assert (Hl : zlen (take k1 on ++ take k2 off) <= GUILD_MAX_MEMBERS).
  { unfold zlen. rewrite length_app, Nat2Z.inj_add. unfold on, off.
    pose proof (Hlen k1 (fun m => skip_online m = false) _ n1 (onlineMemberCache g w) ltac:(lia)).
    pose proof (Hlen k2 (fun m => skip_offline m = false) _ n2 (offlineMemberCache g w) ltac:(lia)). lia. }
  exists (take k1 on ++ take k2 off). split_and!.
  - rewrite HR, u32_id; [done|]. unfold is_u. assert (GUILD_MAX_MEMBERS < 2 ^ 32) by (by vm_compute). unfold zlen in *. lia.
  - rewrite infos_split. apply submseteq_app.
    + destruct (candidates_perm cap n1 (onlineMemberCache g w)) as (l' & Hs & Hp). rewrite <- Hp.
      apply sublist_submseteq. etrans; [apply sublist_take|]. etrans; [apply sublist_filter|]. exact Hs.
    + destruct (candidates_perm cap n2 (offlineMemberCache g w)) as (l' & Hs & Hp). rewrite <- Hp.
      apply sublist_submseteq. etrans; [apply sublist_take|]. etrans; [apply sublist_filter|]. exact Hs.
  - done.
  - intros Hc Hn. assert (Ht : cap = true) by (by apply Z.ltb_lt). destruct (Hall Ht) as [-> ->].
    assert (Hsum : zlen (infos g w) = zlen (onlineMemberCache g w) + zlen (offlineMemberCache g w)).
    { unfold zlen. rewrite (infos_split g w), length_app. lia. }
    unfold on, off, candidates. rewrite Ht, !take_ge by (unfold n2, n1, zlen in *; lia).
    unfold onlineMemberCache, offlineMemberCache.
    apply visible_split.
Qed.
End Properties.

(** One possible sort. *)
Definition rank_le (a b : TempMemberInfo) : Prop := RankId (tm_slot a) <= RankId (tm_slot b).
#[export] Instance rank_le_dec a b : Decision (rank_le a b).
Proof. unfold rank_le. apply _. Defined.
#[export] Instance rank_le_total : Total rank_le.
Proof. intros a b. unfold rank_le. lia. Qed.
#[export] Instance rank_le_trans : Transitive rank_le.
Proof. intros a b c. unfold rank_le. lia. Qed.
Definition rank_merge_sort : MemberSort :=
  {| member_sort := merge_sort rank_le; member_sort_perm := merge_sort_Permutation rank_le;
     member_sort_sorted := StronglySorted_merge_sort rank_le |}.

(** A guild of two for the examples. *)
Definition example_slot (guid rank : Z) (name : list Z) : MemberSlot := mkMemberSlot guid 1 name rank 60 1 12 0 [] [].
Definition example_guild : Guild :=
  mkGuild 7 (str "Test") 1 (str "hi") [] (2024, 1, 1) (0, 0, 0, 0, 0) 0
    (replicate 5 (mkRankInfo (str "r") GR_RIGHT_ALL))
    {[1 := example_slot 1 0 (str "Ann"); 2 := example_slot 2 3 (str "Bob")]} ∅ [] ∅ 0.
Definition example_world : World := mkWorld ∅ {[7 := example_guild]} {[1 := 7; 2 := 7]} ∅ [].
Definition example_env : Env :=
  mkEnv 0 (fun _ => (2024, 1, 1)) (fun _ => None) (fun _ => 469) (fun _ => None) (fun n _ _ => Some n) id (fun _ _ r => r)
    (fun _ => str "rank") (fun _ => 12) 100 9 false.

Lemma roster_fits_witness :
  let _ := ordered_iter in let _ := rank_merge_sort in
  fields_length (Roster (fun _ _ => 0) example_env true example_guild example_world) <= MAX_UNCOMPRESSED_PACKET_SIZE.
Proof.
  intros Hord Hsort. apply (roster_fits (fun _ _ => 0) example_env true example_guild example_world).
  - assert (infos example_guild example_world =
      [mkTemp 1 None (example_slot 1 0 (str "Ann")); mkTemp 2 None (example_slot 2 3 (str "Bob"))]) as -> by (by vm_compute).
    repeat constructor; simpl; try done; by vm_compute.
  - by vm_compute.
Defined.
