(* ===== verification/GuildHandlers.v ===== *)
(** * GuildHandlers: the packets about guilds and petitions

    src/src/game/Handlers/GuildHandler.cpp, the petition handlers of
    PetitionsHandler.cpp that change or show a petition, and the part of
    src/src/game/Guild/GuildMgr.cpp that loads and registers guilds. A handler
    is a function on the [World]; [p] is the session's player, and the other
    arguments are the operands read from the packet. *)
From S2P Require Import Prelude ByteBuffer ObjectGuid GuildData Guild GuildRoster.

Section Handlers.
Context `{HashIter} `{MemberSort}.
Variable days_offline : Z -> Z -> Z.

(** ** Helpers *)

(** A guild of the manager after a change. *)
Definition store (id : Z) (gw : Guild * World) : World := set_guilds (<[id := gw.1]> (m_GuildMap gw.2)) gw.2.

Definition SendGuildCommandResult (p : Player) (typecmd : Z) (s : list Z) (cmdresult : Z) (w : World) : World :=
  emit (SendPacket (pl_guid p) SMSG_GUILD_COMMAND_RESULT [FU32 typecmd; FStr s; FU32 cmdresult]) w.

Definition not_in_guild (p : Player) (w : World) : World := SendGuildCommandResult p GUILD_CREATE_S [] ERR_GUILD_PLAYER_NOT_IN_GUILD w.
Definition no_permission (p : Player) (w : World) : World := SendGuildCommandResult p GUILD_INVITE_S [] ERR_GUILD_PERMISSIONS w.

(** [GetMemberSlot(name)] *)
Definition GetMemberSlot_name (name : list Z) (g : Guild) : option (Z * MemberSlot) :=
  List.find (fun kv => bool_decide (Name (snd kv) = name)) (hash_iter (members g)).

(** [ObjectAccessor::FindPlayerByNameNotInWorld], [FindPlayerByName]; the map
    from names to players is a search among the players. *)
Definition FindPlayerByNameNotInWorld (E : Env) (name : list Z) (w : World) : option Player :=
  match normalizePlayerName E name MAX_INTERNAL_PLAYER_NAME true with
  | None => None
  | Some name => snd <$> List.find (fun kv => bool_decide (pl_name (snd kv) = name)) (hash_iter (w_players w))
  end.
Definition FindPlayerByName (E : Env) (name : list Z) (w : World) : option Player :=
  match FindPlayerByNameNotInWorld E name w with
  | Some p => if pl_inWorld p then Some p else None
  | None => None
  end.

Definition disband (E : Env) (g : Guild) (w : World) : option World := snd <$> Disband E true g w.

Definition send_query (p : Player) (g : Guild) (w : World) : World :=
  emit (SendPacket (pl_guid p) SMSG_GUILD_QUERY_RESPONSE (Query g)) w.

(** [GuildMgr::AddGuild] *)
Definition AddGuild (g : Guild) (w : World) : World :=
  emits [BankNew false (m_Id g); BankNew true (m_Id g)] (store (m_Id g) (g, w)).

(** ** GuildHandler.cpp *)

Definition HandleGuildQueryOpcode (p : Player) (guildId : Z) (w : World) : World :=
  match GetGuildById guildId w with
  | Some g => send_query p g w
  | None => not_in_guild p w
  end.

(** [id] is what [GenerateGuildId] returns. *)
Definition HandleGuildCreateOpcode (E : Env) (id : Z) (p : Player) (gname : list Z) (w : World) : World :=
  if negb (pl_guildId p =? 0) then w
  else
    let '(ok, g, w) := Create E id p gname newGuild w in
    if ok then AddGuild g w else w.

Definition HandleGuildInviteOpcode (E : Env) (p : Player) (Invitedname : list Z) (w : World) : World :=
  let '(Invitedname, player) := match normalizePlayerName E Invitedname MAX_INTERNAL_PLAYER_NAME true with
                                | Some n => (n, FindPlayerByName E n w)
                                | None => (Invitedname, None)
                                end in
  match player with
  | None => SendGuildCommandResult p GUILD_INVITE_S Invitedname ERR_GUILD_PLAYER_NOT_FOUND_S w
  | Some player =>
    match GetGuildById (pl_guildId p) w with
    | None => not_in_guild p w
    | Some g =>
      if bool_decide (pl_guid p ∈ pl_ignores player) then w
      else if negb (cfg_ALLOW_TWO_SIDE_INTERACTION_GUILD E) && negb (pl_team player =? pl_team p) then
        SendGuildCommandResult p GUILD_INVITE_S Invitedname ERR_GUILD_NOT_ALLIED w
      else if negb (pl_guildId player =? 0) then SendGuildCommandResult p GUILD_INVITE_S (pl_name player) ERR_ALREADY_IN_GUILD_S w
      else if negb (pl_guildIdInvited player =? 0) then
        SendGuildCommandResult p GUILD_INVITE_S (pl_name player) ERR_ALREADY_INVITED_TO_GUILD_S w
      else if negb (HasRankRight (pl_rank p) GR_RIGHT_INVITE g) then no_permission p w
      else
        let w := upd_player (pl_guid player) (SetGuildIdInvited (pl_guildId p)) w in
        let w := store (pl_guildId p) (LogGuildEvent E GUILD_EVENT_LOG_INVITE_PLAYER (pl_guid p) (pl_guid player) 0 g w) in
        emit (SendPacket (pl_guid player) SMSG_GUILD_INVITE [FStr (pl_name p); FStr (m_Name g)]) w
    end
  end.

Definition HandleGuildRemoveOpcode (E : Env) (p : Player) (plName : list Z) (w : World) : option World :=
  match normalizePlayerName E plName MAX_INTERNAL_PLAYER_NAME true with
  | None => Some w
  | Some plName =>
    if negb (pl_inWorld p) then Some w
    else
      match GetGuildById (pl_guildId p) w with
      | None => Some (not_in_guild p w)
      | Some g =>
        if negb (HasRankRight (pl_rank p) GR_RIGHT_REMOVE g) then Some (no_permission p w)
        else
          match GetMemberSlot_name plName g with
          | None => Some (SendGuildCommandResult p GUILD_INVITE_S plName ERR_GUILD_PLAYER_NOT_IN_GUILD_S w)
          | Some (_, slot) =>
            if RankId slot =? GR_GUILDMASTER then Some (SendGuildCommandResult p GUILD_QUIT_S [] ERR_GUILD_LEADER_LEAVE w)
            else if RankId slot <=? pl_rank p then Some (SendGuildCommandResult p GUILD_QUIT_S plName ERR_GUILD_RANK_TOO_HIGH_S w)
            else
              let '(last, g, w) := DelMember E (ms_guid slot) false g w in
              if last then disband E g w
              else
                let '(g, w) := LogGuildEvent E GUILD_EVENT_LOG_UNINVITE_PLAYER (pl_guid p) (ms_guid slot) 0 g w in
                Some (store (pl_guildId p) (g, BroadcastEvent E GE_REMOVED 0 [plName; pl_name p] g w))
          end
      end
  end.

Definition HandleGuildAcceptOpcode (E : Env) (p : Player) (w : World) : World :=
  match GetGuildById (u32 (pl_guildIdInvited p)) w with
  | None => w
  | Some g =>
    if negb (pl_guildId p =? 0) then w
    else if negb (cfg_ALLOW_TWO_SIDE_INTERACTION_GUILD E) && negb (pl_team p =? GetPlayerTeamByGUID E (m_LeaderGuid g)) then w
    else
      let '(status, g, w) := AddMember E (pl_guid p) (GetLowestRank g) g w in
      match status with
      | OK =>
        let '(g, w) := LogGuildEvent E GUILD_EVENT_LOG_JOIN_GUILD (pl_guid p) 0 0 g w in
        store (m_Id g) (g, BroadcastEvent E GE_JOINED (pl_guid p) [pl_name p] g w)
      | _ => w
      end
  end.

Definition HandleGuildDeclineOpcode (p : Player) (w : World) : World :=
  if negb (pl_guildId p =? 0) || (pl_guildIdInvited p =? 0) then w
  else
    let w := match GetGuildById (u32 (pl_guildIdInvited p)) w with
             | None => w
             | Some g =>
               match FindPlayer (GetGuildInviter (pl_guid p) g) false w with
               | Some inviter => emit (SendPacket (pl_guid inviter) SMSG_GUILD_DECLINE [FStr (pl_name p)]) w
               | None => w
               end
             end in
    upd_player (pl_guid p) (SetGuildIdInvited 0) w.

Definition HandleGuildInfoOpcode (p : Player) (w : World) : World :=
  match GetGuildById (pl_guildId p) w with
  | None => not_in_guild p w
  | Some g =>
    let '(accounts, g') := GetAccountsNumber g in
    let '(year, month, day) := m_Created g in
    emit (SendPacket (pl_guid p) SMSG_GUILD_INFO
      [FStr (m_Name g); FU32 day; FU32 month; FU32 year; FU32 (GetMemberSize g); FU32 accounts]) (store (pl_guildId p) (g', w))
  end.

Definition HandleGuildRosterOpcode (E : Env) (p : Player) (w : World) : World :=
  match GetGuildById (pl_guildId p) w with
  | None => w
  | Some g => Roster_send days_offline E (Some p) g w
  end.

Definition HandleGuildPromoteOpcode (E : Env) (p : Player) (plName : list Z) (w : World) : World :=
  match normalizePlayerName E plName MAX_INTERNAL_PLAYER_NAME true with
  | None => w
  | Some plName =>
    match GetGuildById (pl_guildId p) w with
    | None => not_in_guild p w
    | Some g =>
      if negb (HasRankRight (pl_rank p) GR_RIGHT_PROMOTE g) then no_permission p w
      else
        match GetMemberSlot_name plName g with
        | None => SendGuildCommandResult p GUILD_INVITE_S plName ERR_GUILD_PLAYER_NOT_IN_GUILD_S w
        | Some (key, slot) =>
          if ms_guid slot =? pl_guid p then SendGuildCommandResult p GUILD_INVITE_S [] ERR_GUILD_NAME_INVALID w
          else if RankId slot <=? u32 (pl_rank p + 1) then
            SendGuildCommandResult p GUILD_INVITE_S plName ERR_GUILD_RANK_TOO_HIGH_S w
          else
            let newRankId := u32 (RankId slot - 1) in
            let '(g, w) := ChangeRank newRankId key g w in
            let '(g, w) := LogGuildEvent E GUILD_EVENT_LOG_PROMOTE_PLAYER (pl_guid p) (ms_guid slot) newRankId g w in
            store (pl_guildId p) (g, BroadcastEvent E GE_PROMOTION 0 [pl_name p; plName; GetRankName newRankId g] g w)
        end
    end
  end.

Definition HandleGuildDemoteOpcode (E : Env) (p : Player) (plName : list Z) (w : World) : World :=
  match normalizePlayerName E plName MAX_INTERNAL_PLAYER_NAME true with
  | None => w
  | Some plName =>
    match GetGuildById (pl_guildId p) w with
    | None => not_in_guild p w
    | Some g =>
      if negb (HasRankRight (pl_rank p) GR_RIGHT_DEMOTE g) then no_permission p w
      else
        match GetMemberSlot_name plName g with
        | None => SendGuildCommandResult p GUILD_INVITE_S plName ERR_GUILD_PLAYER_NOT_IN_GUILD_S w
        | Some (key, slot) =>
          if ms_guid slot =? pl_guid p then SendGuildCommandResult p GUILD_INVITE_S [] ERR_GUILD_NAME_INVALID w
          else if RankId slot <=? pl_rank p then SendGuildCommandResult p GUILD_INVITE_S plName ERR_GUILD_RANK_TOO_HIGH_S w
          else if GetLowestRank g <=? RankId slot then SendGuildCommandResult p GUILD_INVITE_S plName ERR_GUILD_RANK_TOO_LOW_S w
          else
            let newRankId := u32 (RankId slot + 1) in
            let '(g, w) := ChangeRank newRankId key g w in
            let '(g, w) := LogGuildEvent E GUILD_EVENT_LOG_DEMOTE_PLAYER (pl_guid p) (ms_guid slot) newRankId g w in
            store (pl_guildId p) (g, BroadcastEvent E GE_DEMOTION 0 [pl_name p; plName; GetRankName newRankId g] g w)
        end
    end
  end.

Definition HandleGuildLeaveOpcode (E : Env) (p : Player) (w : World) : option World :=
  match GetGuildById (pl_guildId p) w with
  | None => Some (not_in_guild p w)
  | Some g =>
    if (pl_guid p =? m_LeaderGuid g) && (1 <? GetMemberSize g) then
      Some (SendGuildCommandResult p GUILD_QUIT_S [] ERR_GUILD_LEADER_LEAVE w)
    else if pl_guid p =? m_LeaderGuid g then disband E g w
    else
      let w := SendGuildCommandResult p GUILD_QUIT_S (m_Name g) ERR_PLAYER_NO_MORE_IN_GUILD w in
      let '(last, g, w) := DelMember E (pl_guid p) false g w in
      if last then disband E g w
      else
        let '(g, w) := LogGuildEvent E GUILD_EVENT_LOG_LEAVE_GUILD (pl_guid p) 0 0 g w in
        Some (store (pl_guildId p) (g, BroadcastEvent E GE_LEFT (pl_guid p) [pl_name p] g w))
  end.

Definition HandleGuildDisbandOpcode (E : Env) (p : Player) (w : World) : option World :=
  match GetGuildById (pl_guildId p) w with
  | None => Some (not_in_guild p w)
  | Some g => if negb (pl_guid p =? m_LeaderGuid g) then Some (no_permission p w) else disband E g w
  end.

Definition HandleGuildLeaderOpcode (E : Env) (p : Player) (name : list Z) (w : World) : World :=
  match normalizePlayerName E name MAX_INTERNAL_PLAYER_NAME true with
  | None => w
  | Some name =>
    match GetGuildById (pl_guildId p) w with
    | None => not_in_guild p w
    | Some g =>
      if negb (pl_guid p =? m_LeaderGuid g) then no_permission p w
      else
        match GetMemberSlot (pl_guid p) g with
        | None => no_permission p w
        | Some (oldKey, _) =>
          match GetMemberSlot_name name g with
          | None => SendGuildCommandResult p GUILD_INVITE_S name ERR_GUILD_PLAYER_NOT_IN_GUILD_S w
          | Some (key, _) =>
            if oldKey =? key then SendGuildCommandResult p GUILD_INVITE_S name ERR_ALREADY_IN_GUILD_S w
            else store (pl_guildId p) (SetNewLeader E key (Some oldKey) g w)
          end
        end
    end
  end.

Definition HandleGuildMOTDOpcode (E : Env) (p : Player) (MOTD : list Z) (w : World) : World :=
  if GUILD_MOTD_MAX_LENGTH <? zlen MOTD then w
  else
    match GetGuildById (pl_guildId p) w with
    | None => not_in_guild p w
    | Some g =>
      if negb (HasRankRight (pl_rank p) GR_RIGHT_SETMOTD g) then no_permission p w
      else
        let '(g, w) := SetMOTD E MOTD g w in
        store (pl_guildId p) (g, BroadcastEvent E GE_MOTD 0 [MOTD] g w)
    end.

(** The two note handlers differ in the right and the note. *)
Definition HandleGuildSetNote (E : Env) (right : Z) (set : list Z -> MemberSlot -> MemberSlot * list Out)
    (p : Player) (name note : list Z) (w : World) : World :=
  match normalizePlayerName E name MAX_INTERNAL_PLAYER_NAME true, normalizePlayerName E note GUILD_NOTE_MAX_LENGTH false with
  | Some name, Some note =>
    match GetGuildById (pl_guildId p) w with
    | None => not_in_guild p w
    | Some g =>
      if negb (HasRankRight (pl_rank p) right g) then no_permission p w
      else
        match GetMemberSlot_name name g with
        | None => SendGuildCommandResult p GUILD_INVITE_S name ERR_GUILD_PLAYER_NOT_IN_GUILD_S w
        | Some (key, slot) =>
          if GUILD_NOTE_MAX_LENGTH <? zlen note then w
          else
            let '(slot, out) := set note slot in
            let g := set_members (<[key := slot]> (members g)) g in
            Roster_send days_offline E (Some p) g (store (pl_guildId p) (g, emits out w))
        end
    end
  | _, _ => w
  end.

Definition HandleGuildSetPublicNoteOpcode (E : Env) : Player -> list Z -> list Z -> World -> World :=
  HandleGuildSetNote E GR_RIGHT_EPNOTE (SetPublicNote E).
Definition HandleGuildSetOfficerNoteOpcode (E : Env) : Player -> list Z -> list Z -> World -> World :=
  HandleGuildSetNote E GR_RIGHT_EOFFNOTE (SetOfficerNote E).

(** The head of the three handlers of ranks: only the leader passes. *)
Definition as_leader (p : Player) (w : World) (k : Guild -> World) : World :=
  match GetGuildById (pl_guildId p) w with
  | None => not_in_guild p w
  | Some g => if negb (pl_guid p =? m_LeaderGuid g) then no_permission p w else k g
  end.

Definition ranks_changed (E : Env) (p : Player) (gw : Guild * World) : World :=
  Roster_send days_offline E None gw.1 (send_query p gw.1 (store (pl_guildId p) gw)).

Definition HandleGuildRankOpcode (E : Env) (p : Player) (rankId rights : Z) (rankname : list Z) (w : World) : World :=
  as_leader p w (fun g =>
    match normalizePlayerName E rankname 25 false with
    | None => w
    | Some rankname =>
      let '(g, w) := SetRankName E rankId rankname g w in
      let rights := if rankId =? GR_GUILDMASTER then GR_RIGHT_ALL else rights in
      ranks_changed E p (SetRankRights rankId rights g w)
    end).

Definition HandleGuildAddRankOpcode (E : Env) (p : Player) (rankname : list Z) (w : World) : World :=
  match normalizePlayerName E rankname MAX_INTERNAL_PLAYER_NAME true with
  | None => w
  | Some rankname =>
    as_leader p w (fun g =>
      if GUILD_RANKS_MAX_COUNT <=? GetRanksSize g then w
      else ranks_changed E p (CreateRank E rankname (Z.lor GR_RIGHT_GCHATLISTEN GR_RIGHT_GCHATSPEAK) g w))
  end.

Definition HandleGuildDelRankOpcode (E : Env) (p : Player) (w : World) : World :=
  as_leader p w (fun g => ranks_changed E p (DelRank g w)).

Definition HandleGuildChangeInfoTextOpcode (E : Env) (p : Player) (GINFO : list Z) (w : World) : World :=
  match normalizePlayerName E GINFO GUILD_INFO_MAX_LENGTH false with
  | None => w
  | Some GINFO =>
    if GUILD_INFO_MAX_LENGTH <? zlen GINFO then w
    else
      match GetGuildById (pl_guildId p) w with
      | None => not_in_guild p w
      | Some g =>
        if negb (HasRankRight (pl_rank p) GR_RIGHT_MODIFY_GUILD_INFO g) then
          SendGuildCommandResult p GUILD_CREATE_S [] ERR_GUILD_PERMISSIONS w
        else store (pl_guildId p) (SetGINFO E GINFO g w)
      end
  end.

(** ** PetitionsHandler.cpp

    [charter] is the petition identifier on the item the packet names, when
    the player has that item. *)

Definition petition_of (charter : option Z) (w : World) : option Petition := charter ≫= fun id => GetPetitionById id w.

Definition sign_result (p : Player) (itemGuid : ObjectGuid) (result : Z) (who : ObjectGuid) : Out :=
  SendPacket who SMSG_PETITION_SIGN_RESULTS [FU64 itemGuid; FU64 (pl_guid p); FU32 result].

Definition show_signatures (p : Player) (itemguid : ObjectGuid) (petitionguid : Z) (pt : Petition) (who : ObjectGuid) : Out :=
  SendPacket who SMSG_PETITION_SHOW_SIGNATURES
    ([FU64 itemguid; FU64 (pl_guid p); FU32 petitionguid; FU8 (GetSignatureCount pt)] ++ BuildSignatureData pt).

Definition HandlePetitionShowSignOpcode (p : Player) (itemguid : ObjectGuid) (charter : option Z) (w : World) : World :=
  if negb (pl_guildId p =? 0) then w
  else
    match charter, petition_of charter w with
    | Some id, Some pt => emit (show_signatures p itemguid id pt (pl_guid p)) w
    | _, _ => w
    end.

(** [valid] is [!IsReservedName(newname) && IsValidCharterName(newname)]. *)
Definition HandlePetitionRenameOpcode (E : Env) (p : Player) (itemGuid : ObjectGuid) (charter : option Z)
    (newname : list Z) (valid : bool) (w : World) : World :=
  match charter with
  | None => w
  | Some petitionguid =>
    if bool_decide (is_Some (GetGuildByName newname w)) then SendGuildCommandResult p GUILD_CREATE_S newname ERR_GUILD_NAME_EXISTS_S w
    else if negb valid then SendGuildCommandResult p GUILD_CREATE_S newname ERR_GUILD_NAME_INVALID w
    else
      match GetPetitionById petitionguid w with
      | None => w
      | Some pt =>
        let '(pt, out) := Petition_Rename E newname pt in
        emit (SendPacket (pl_guid p) MSG_PETITION_RENAME [FU64 itemGuid; FStr newname])
          (emits out (set_petitions (<[petitionguid := pt]> (m_petitionMap w)) w))
      end
  end.

Definition HandlePetitionSignOpcode (E : Env) (p : Player) (itemGuid : ObjectGuid) (w : World) : World :=
  match GetPetitionByCharterGuid itemGuid w with
  | None => w
  | Some pt =>
    if IsComplete E pt then w
    else if pt_ownerGuid pt =? pl_guid p then emit (sign_result p itemGuid PETITION_SIGN_CANT_SIGN_OWN (pl_guid p)) w
    else if negb (cfg_ALLOW_TWO_SIDE_INTERACTION_GUILD E) && negb (pl_team p =? pt_team pt) then
      SendGuildCommandResult p GUILD_CREATE_S [] ERR_GUILD_NOT_ALLIED w
    else if negb (pl_guildId p =? 0) then SendGuildCommandResult p GUILD_INVITE_S (pl_name p) ERR_ALREADY_IN_GUILD_S w
    else if negb (pl_guildIdInvited p =? 0) then
      SendGuildCommandResult p GUILD_INVITE_S (pl_name p) ERR_ALREADY_INVITED_TO_GUILD_S w
    else if 9 <=? GetSignatureCount pt then w
    else
      match GetSignatureForPlayer p pt with
      | Some _ =>
        let w := emit (sign_result p itemGuid PETITION_SIGN_ALREADY_SIGNED (pl_guid p)) w in
        match GetPlayer (pt_ownerGuid pt) w with
        | Some owner =>
          emit (SendPacket (pl_guid owner) SMSG_GUILD_COMMAND_RESULT
            [FU32 GUILD_INVITE_S; FStr (pl_name p); FU32 ERR_ALREADY_INVITED_TO_GUILD_S]) w
        | None => w
        end
      | None =>
        let w := withdraw_signature (pl_guid p) w in
        match GetPetitionById (pt_id pt) w with
        | None => w
        | Some pt =>
          let '(ok, pt, out) := AddNewSignature E p pt in
          if negb ok then w
          else
            let w := emits out (set_petitions (<[pt_id pt := pt]> (m_petitionMap w)) w) in
            let w := emit (sign_result p itemGuid PETITION_SIGN_OK (pl_guid p)) w in
            match GetPlayer (pt_ownerGuid pt) w with
            | Some owner => emit (sign_result p itemGuid PETITION_SIGN_OK (pl_guid owner)) w
            | None => w
            end
        end
      end
  end.

Definition HandlePetitionDeclineOpcode (p : Player) (itemGuid : ObjectGuid) (w : World) : World :=
  match GetPetitionByCharterGuid itemGuid w with
  | None => w
  | Some pt =>
    match GetPlayer (pt_ownerGuid pt) w with
    | Some owner => emit (SendPacket (pl_guid owner) MSG_PETITION_DECLINE [FU64 (pl_guid p)]) w
    | None => w
    end
  end.

Definition HandleOfferPetitionOpcode (E : Env) (p : Player) (itemGuid playerGuid : ObjectGuid) (charter : option Z) (w : World) : World :=
  match FindPlayer playerGuid false w with
  | None => w
  | Some player =>
    if negb (cfg_ALLOW_TWO_SIDE_INTERACTION_GUILD E) && negb (pl_team p =? pl_team player) then
      SendGuildCommandResult p GUILD_CREATE_S [] ERR_GUILD_NOT_ALLIED w
    else if negb (pl_guildId player =? 0) then SendGuildCommandResult p GUILD_INVITE_S (pl_name p) ERR_ALREADY_IN_GUILD_S w
    else if negb (pl_guildIdInvited player =? 0) then
      SendGuildCommandResult p GUILD_INVITE_S (pl_name p) ERR_ALREADY_INVITED_TO_GUILD_S w
    else
      match charter, petition_of charter w with
      | Some id, Some pt => emit (show_signatures p itemGuid id pt (pl_guid player)) w
      | _, _ => w
      end
  end.

(** [charter] is the item found by the packet's GUID; when there is none the
    source looks through the bags for another one and then returns, or goes on
    with it: the item and its petition are arguments here. *)
Definition HandleTurnInPetitionOpcode (E : Env) (id : Z) (p : Player) (charter : option (ObjectGuid * Z)) (w : World) : World :=
  match charter with
  | None => w
  | Some (item, petitionguid) =>
    match GetPetitionById petitionguid w with
    | None => w
    | Some pt =>
      let turn_in_result r := SendPacket (pl_guid p) SMSG_TURN_IN_PETITION_RESULTS [FU32 r] in
      if negb (pl_guildId p =? 0) then emit (turn_in_result PETITION_SIGN_ALREADY_IN_GUILD) w
      else if negb (pl_guid p =? pt_ownerGuid pt) then w
      else if negb (IsComplete E pt) then emit (turn_in_result PETITION_SIGN_NEED_MORE) w
      else if bool_decide (is_Some (GetGuildByName (pt_name pt) w)) then
        SendGuildCommandResult p GUILD_CREATE_S (pt_name pt) ERR_GUILD_NAME_EXISTS_S w
      else
        let '(ok, g, w) := Create_petition E id pt p newGuild w in
        if negb ok then w
        else
          let w := DeletePetition pt (AddGuild g w) in
          emits [DestroyItem (pl_guid p) item; turn_in_result PETITION_SIGN_OK] w
    end
  end.

(** ** GuildMgr: loading *)

(** [LoadGuilds]: the rows of [guild] in the order of their identifiers; the
    cursors of the ranks and the members are shared by all guilds. [logs] is
    the event log query of a guild. *)
Fixpoint LoadGuilds_loop (E : Env) (rows : list GuildRow) (ranks : option (list (Z * Z * list Z * Z)))
    (membersRows : option (list MemberRow)) (logs : Z -> list (Z * GuildEventLogEntry)) (w : World) : option World :=
  match rows with
  | [] => Some w
  | r :: rows =>
    let g := LoadGuildFromDB E r newGuild in
    let '(ranks, g, w) := LoadRanksFromDB E ranks g w in
    let '(ok, membersRows, g, w) := LoadMembersFromDB E membersRows g w in
    let '(ok, g, w) := if ok then CheckGuildStructure E g w else (false, g, w) in
    if ok then LoadGuilds_loop E rows ranks membersRows logs (AddGuild (LoadGuildEventLogFromDB (logs (m_Id g)) g) w)
    else
      match Disband E false g w with
      | None => None
      | Some (_, w) => LoadGuilds_loop E rows ranks membersRows logs w
      end
  end.

Definition LoadGuilds (E : Env) (result : option (list GuildRow)) (ranks : option (list (Z * Z * list Z * Z)))
    (membersRows : option (list MemberRow)) (logs : Z -> list (Z * GuildEventLogEntry)) (w : World) : option World :=
  match result with
  | None => Some w
  | Some rows => emit (PExecute (SqlDeleteLogsAbove (cfg_GUILD_EVENT_LOG_COUNT E))) <$> LoadGuilds_loop E rows ranks membersRows logs w
  end.

End Handlers.
