(* ===== verification/GuildSafety.v ===== *)
(** * GuildSafety: what the guild code keeps true

    The invariant of the guilds of a running server (one leader, of rank 0,
    the only one of that rank, indexed members, enough ranks), that every
    handler returns and keeps it, and that a running server therefore does. *)
From S2P Require Import Prelude ByteBuffer ObjectGuid GuildData Guild GuildRoster GuildHandlers.

(** ** The invariant *)

(** One guild: its leader is a member of rank 0, nobody else has that rank,
    slots sit at their GUIDs, and there are at least five ranks. *)
Record guild_ok (g : Guild) : Prop := {
  go_leader : exists s, members g !! m_LeaderGuid g = Some s /\ RankId s = GR_GUILDMASTER;
  go_slots : map_Forall (fun k s => is_u 32 k /\ k <> 0 /\ ms_guid s = k /\ 0 <= RankId s < 2 ^ 31 /\
    (RankId s = GR_GUILDMASTER -> k = m_LeaderGuid g)) (members g);
  go_ranks : GUILD_RANKS_MIN_COUNT <= GetRanksSize g <= GUILD_RANKS_MAX_COUNT
}.

(** The players, the guilds and the index of members together. *)
Record inv (P : gmap ObjectGuid Player) (G : gmap Z Guild) (I : gmap Z Z) : Prop := {
  inv_guilds : map_Forall (fun id g => m_Id g = id /\ is_u 32 id /\ id <> 0 /\ guild_ok g) G;
  inv_index : forall id g k, G !! id = Some g -> is_Some (members g !! k) -> I !! k = Some id;
  inv_players : map_Forall (fun k p => pl_guid p = k /\ is_u 32 k /\ k <> 0 /\ 0 <= pl_rank p < 2 ^ 31) P;
  inv_gid : forall k p id, P !! k = Some p -> I !! k = Some id -> pl_guildId p = id /\ id <> 0
}.

Definition world_ok (w : World) : Prop := inv (w_players w) (m_GuildMap w) (m_guid2guild w).

(** Only the effects and the petitions differ. *)
Definition same (w w' : World) : Prop :=
  w_players w' = w_players w /\ m_GuildMap w' = m_GuildMap w /\ m_guid2guild w' = m_guid2guild w.

Lemma same_refl w : same w w.
Proof. done. Qed.
Lemma same_trans w1 w2 w3 : same w1 w2 -> same w2 w3 -> same w1 w3.
Proof. intros (?&?&?) (?&?&?). split_and!; congruence. Qed.
Lemma same_ok w w' : same w w' -> world_ok w -> world_ok w'.
Proof. unfold world_ok. by intros (-> & -> & ->). Qed.

(** ** Steps on the invariant *)

Lemma inv_weaken P G I id : inv P G I -> inv P (delete id G) I.
Proof.
  intros [Hg Hi Hp Hx]. split; [by apply map_Forall_delete| |done|done].
  intros id' g k Hg' Hk. apply lookup_delete_Some in Hg' as [_ Hg']. by eapply Hi.
Qed.

(** Put a guild in place. *)
Lemma inv_put P G I id g :
  inv P (delete id G) I -> guild_ok g -> m_Id g = id -> is_u 32 id -> id <> 0 ->
  (forall k, is_Some (members g !! k) -> I !! k = Some id) -> inv P (<[id := g]> G) I.
Proof.
  intros [Hg Hi Hp Hx] Hok Hid Hu Hn Hm. rewrite <- insert_delete_eq. split; [|intros id' g' k|done|done].
  - by apply map_Forall_insert_2.
  - intros [[<- <-]|[Hne Hg']]%lookup_insert_Some Hk; [by apply Hm|by eapply Hi].
Qed.

Lemma inv_own P G I id g k : inv P (<[id := g]> G) I -> is_Some (members g !! k) -> I !! k = Some id.
Proof. intros [_ Hi _ _] Hk. eapply Hi; [apply lookup_insert_eq|done]. Qed.

Lemma inv_at P G I id g : inv P (<[id := g]> G) I -> m_Id g = id /\ is_u 32 id /\ id <> 0 /\ guild_ok g.
Proof. intros [Hg _ _ _]. apply (Hg id g). apply lookup_insert_eq. Qed.

(** Replace a guild by one with no new members. *)
Lemma inv_replace P G I id g g' :
  inv P (<[id := g]> G) I -> guild_ok g' -> m_Id g' = m_Id g ->
  (forall k, is_Some (members g' !! k) -> is_Some (members g !! k)) -> inv P (<[id := g']> G) I.
Proof.
  intros Hinv Hok Hid Hsub. destruct (inv_at _ _ _ _ _ Hinv) as (<- & Hu & Hn & _).
  apply inv_put; [|done|done|done|done|].
  - rewrite <- (delete_insert_eq G (m_Id g) g). by apply inv_weaken.
  - intros k Hk. eapply inv_own; [exact Hinv|by apply Hsub].
Qed.

(** Change what a player says of his guild, keeping its identifier. *)
Lemma inv_player P G I k f :
  inv P G I ->
  (forall p, P !! k = Some p -> pl_guid (f p) = pl_guid p /\ 0 <= pl_rank (f p) < 2 ^ 31 /\
     (forall id, I !! k = Some id -> pl_guildId (f p) = id)) ->
  inv (alter f k P) G I.
Proof.
  intros [Hg Hi Hp Hx] Hf. split; [done|done| |].
  - intros k' p' Hk'. destruct (decide (k' = k)) as [->|Hne].
    + apply lookup_alter_Some in Hk' as [(_ & p & Hk & ->)|[? _]]; [|done].
      destruct (Hp k p Hk) as (H1 & H2 & H3 & H4). destruct (Hf p Hk) as (E1 & E2 & _). by rewrite E1.
    + rewrite lookup_alter_ne in Hk' by done. by apply Hp.
  - intros k' p' id Hk' Hid. destruct (decide (k' = k)) as [->|Hne].
    + apply lookup_alter_Some in Hk' as [(_ & p & Hk & ->)|[? _]]; [|done].
      destruct (Hx k p id Hk Hid) as [_ Hn]. destruct (Hf p Hk) as (_ & _ & E3). split; [by apply E3|done].
    + rewrite lookup_alter_ne in Hk' by done. by eapply Hx.
Qed.

(** Take an entry out of the index that no guild of the map needs. *)
Lemma inv_unindex P G I k :
  inv P G I -> (forall id g, G !! id = Some g -> members g !! k = None) -> inv P G (delete k I).
Proof.
  intros [Hg Hi Hp Hx] Hk. split; [done| |done|].
  - intros id g k' Hg' Hk'. rewrite lookup_delete_ne; [by eapply Hi|]. intros <-.
    rewrite (Hk id g Hg') in Hk'. by destruct Hk'.
  - intros k' p id Hp' Hid. apply lookup_delete_Some in Hid as [_ Hid]. by eapply Hx.
Qed.

(** Put an entry into the index for a player who is in no guild. *)
Lemma inv_reindex P G I k id f :
  inv P G I -> I !! k = None -> id <> 0 ->
  (forall p, P !! k = Some p -> pl_guid (f p) = pl_guid p /\ 0 <= pl_rank (f p) < 2 ^ 31 /\ pl_guildId (f p) = id) ->
  inv (alter f k P) G (<[k := id]> I).
Proof.
  intros Hinv HkI Hid Hf.
  assert (Hmid : inv (alter f k P) G I).
  { apply inv_player; [done|]. intros p Hk. destruct (Hf p Hk) as (? & ? & ?). split_and!; [done|lia|lia|].
    intros id' Hid'. congruence. }
  destruct Hmid as [Hg Hi Hp Hx]. split; [done| |done|].
  - intros id' g k' Hg' Hk'. rewrite lookup_insert_ne; [by eapply Hi|]. intros <-.
    rewrite (Hi id' g k Hg' Hk') in HkI. done.
  - intros k' p' id' Hk' Hid'. destruct (decide (k' = k)) as [->|Hne].
    + rewrite lookup_insert_eq in Hid'. injection Hid' as <-.
      apply lookup_alter_Some in Hk' as [(_ & p & Hk & ->)|[? _]]; [|done]. destruct (Hf p Hk) as (_ & _ & ->). done.
    + rewrite lookup_insert_ne in Hid' by done. by eapply Hx.
Qed.

(** ** Steps on one guild *)

Lemma go_self g k s : guild_ok g -> members g !! k = Some s -> is_u 32 k /\ k <> 0 /\ ms_guid s = k /\ GetCounter k = k.
Proof. intros [_ Hs _] Hk. destruct (Hs k s Hk) as (? & ? & ? & _). split_and!; try done. by apply player_counter. Qed.

(** Guilds that agree on leader, members and the number of ranks. *)
Lemma guild_ok_same g g' :
  m_LeaderGuid g' = m_LeaderGuid g -> members g' = members g ->
  GUILD_RANKS_MIN_COUNT <= GetRanksSize g' <= GUILD_RANKS_MAX_COUNT -> guild_ok g -> guild_ok g'.
Proof. intros Hl Hm Hr [Hg Hs _]. split; rewrite ?Hl, ?Hm; done. Qed.

(** A slot whose rank changes, not the leader's and not to the leader's. *)
Lemma guild_ok_slot g k s s' g' :
  guild_ok g -> members g !! k = Some s -> m_LeaderGuid g' = m_LeaderGuid g -> members g' = <[k := s']> (members g) ->
  m_Ranks g' = m_Ranks g -> ms_guid s' = ms_guid s -> 0 <= RankId s' < 2 ^ 31 ->
  (RankId s' = GR_GUILDMASTER <-> RankId s = GR_GUILDMASTER) -> guild_ok g'.
Proof.
  intros [(sl & Hl & Hl0) Hs Hr] Hk HL HM HR Hg Hb Hiff. split.
  - rewrite HL, HM. destruct (decide (k = m_LeaderGuid g)) as [->|Hne].
    + exists s'. rewrite lookup_insert_eq. split; [done|]. apply Hiff. congruence.
    + exists sl. by rewrite lookup_insert_ne.
  - rewrite HL, HM. apply map_Forall_insert_2; [|done]. destruct (Hs k s Hk) as (? & ? & ? & ? & Hm).
    split_and!; [done|done|congruence|lia|lia|]. intros Hz. by apply Hm, Hiff.
  - unfold GetRanksSize. by rewrite HR.
Qed.

(** ** Operations *)

(** The invariant with the guild [id] being worked on. *)
Definition gw_ok (id : Z) (g : Guild) (w : World) : Prop :=
  inv (w_players w) (<[id := g]> (m_GuildMap w)) (m_guid2guild w).

Lemma store_ok id g w : gw_ok id g w -> world_ok (store id (g, w)).
Proof. done. Qed.

Lemma gw_ok_start id g w : world_ok w -> m_GuildMap w !! id = Some g -> gw_ok id g w.
Proof. unfold world_ok, gw_ok. intros Hw Hg. by rewrite insert_id. Qed.

Lemma gw_ok_guild id g w : gw_ok id g w -> guild_ok g.
Proof. intros Hw. by destruct (inv_at _ _ _ _ _ Hw) as (_ & _ & _ & ?). Qed.

Lemma gw_ok_same id g w w' : same w w' -> gw_ok id g w -> gw_ok id g w'.
Proof. unfold gw_ok. by intros (-> & -> & ->). Qed.

(** The guild changes without new members, the world in its effects. *)
Lemma gw_ok_guild_step id g g' w w' :
  same w w' -> gw_ok id g w -> guild_ok g' -> m_Id g' = m_Id g ->
  (forall k, is_Some (members g' !! k) -> is_Some (members g !! k)) -> gw_ok id g' w'.
Proof. intros Hs Hw Hg Hid Hm. eapply gw_ok_same; [exact Hs|]. by eapply inv_replace. Qed.

(** The world without the guild that is worked on. *)
Definition without (id : Z) (w : World) : Prop :=
  inv (w_players w) (delete id (m_GuildMap w)) (m_guid2guild w).

Lemma gw_ok_without id g w : gw_ok id g w -> without id w.
Proof.
  unfold gw_ok, without. intros Hw. rewrite <- (delete_insert_eq (m_GuildMap w) id g). by apply inv_weaken.
Qed.

Lemma inv_rank P G I k r : inv P G I -> 0 <= r < 2 ^ 31 -> inv (alter (SetRank r) k P) G I.
Proof.
  intros Hinv Hr. apply inv_player; [done|]. intros p Hp. split_and!; [done|cbn; lia|cbn; lia|].
  intros id Hid. by destruct (inv_gid _ _ _ Hinv k p id Hp Hid).
Qed.

Section Ops.
Context `{HashIter} `{MemberSort}.

Lemma ChangeRank_spec r key g w s :
  members g !! key = Some s ->
  exists w', ChangeRank r key g w = (set_members (<[key := set_rankid r s]> (members g)) g, w') /\
    (w_players w' = w_players w \/ w_players w' = alter (SetRank r) (ms_guid s) (w_players w)) /\
    m_GuildMap w' = m_GuildMap w /\ m_guid2guild w' = m_guid2guild w.
Proof.
  intros Hk. unfold ChangeRank. rewrite Hk. eexists. split; [reflexivity|].
  destruct (GetPlayer (ms_guid s) w); cbn; auto.
Qed.

Lemma ChangeRank_players r key g w s :
  members g !! key = Some s -> 0 <= r < 2 ^ 31 ->
  let '(g', w') := ChangeRank r key g w in
  g' = set_members (<[key := set_rankid r s]> (members g)) g /\
  m_GuildMap w' = m_GuildMap w /\ m_guid2guild w' = m_guid2guild w /\
  forall G, inv (w_players w) G (m_guid2guild w) -> inv (w_players w') G (m_guid2guild w).
Proof.
  intros Hk Hr. destruct (ChangeRank_spec r key g w s Hk) as (w' & -> & Hp & HG & HI).
  split_and!; [done|done|done|]. intros G HinvG. destruct Hp as [-> | ->]; [done|by apply inv_rank].
Qed.

(** A promotion or demotion. *)
Lemma ChangeRank_ok id r key g w s :
  gw_ok id g w -> members g !! key = Some s -> RankId s <> GR_GUILDMASTER -> 0 < r < 2 ^ 31 ->
  let '(g', w') := ChangeRank r key g w in gw_ok id g' w'.
Proof.
  intros Hw Hk Hs Hr. pose proof (ChangeRank_players r key g w s Hk ltac:(lia)) as Hc.
  destruct (ChangeRank r key g w) as [g' w']. destruct Hc as (-> & HG & HI & Hp).
  unfold gw_ok in *. rewrite HG, HI. apply Hp. eapply inv_replace; [exact Hw| |done|].
  - eapply (guild_ok_slot g key s); try done; [by eapply gw_ok_guild|cbn; lia|].
    cbn. unfold GR_GUILDMASTER in *. lia.
  - intros k. cbn. destruct (decide (k = key)) as [->|Hne]; [by eexists|by rewrite lookup_insert_ne].
Qed.

(** A succession: the new leader takes rank 0, the old one becomes officer. *)
Lemma SetNewLeader_ok E id new sn g w :
  gw_ok id g w -> members g !! new = Some sn -> new <> m_LeaderGuid g ->
  let '(g', w') := SetNewLeader E new (Some (m_LeaderGuid g)) g w in
  gw_ok id g' w' /\ m_LeaderGuid g' = new /\ m_Id g' = m_Id g /\
  (forall k, is_Some (members g' !! k) <-> is_Some (members g !! k)).
Proof.
  intros Hw Hn Hne. pose proof (gw_ok_guild _ _ _ Hw) as Hok. destruct Hok as [(sl & Hl & Hl0) Hs Hr].
  destruct (Hs new sn Hn) as (Hu & Hz & Hsn & Hb & Hm).
  unfold SetNewLeader, SetLeader. rewrite Hn. set (g1 := set_leader_guid (ms_guid sn) g).
  pose proof (ChangeRank_players GR_GUILDMASTER new g1 w sn Hn ltac:(done)) as Hc1.
  destruct (ChangeRank GR_GUILDMASTER new g1 w) as [g2 w2]. destruct Hc1 as (-> & HG1 & HI1 & Hp1). cbn [members set_leader_guid g1].
  set (g2 := set_members _ g1). set (w2' := emit _ w2).
  assert (Hold : members g2 !! m_LeaderGuid g = Some sl) by (unfold g2; cbn; by rewrite lookup_insert_ne).
  pose proof (ChangeRank_players GR_OFFICER (m_LeaderGuid g) g2 w2' sl Hold ltac:(done)) as Hc2.
  destruct (ChangeRank GR_OFFICER (m_LeaderGuid g) g2 w2') as [g3 w3]. destruct Hc2 as (-> & HG2 & HI2 & Hp2).
  assert (Hmem : forall k, is_Some (members (set_members (<[m_LeaderGuid g := set_rankid GR_OFFICER sl]> (members g2)) g2) !! k)
      <-> is_Some (members g !! k)).
  { intros k. cbn. destruct (decide (k = m_LeaderGuid g)) as [->|H1]; [rewrite lookup_insert_eq, Hl; split; by eexists|].
    rewrite lookup_insert_ne by done. destruct (decide (k = new)) as [->|H2]; [rewrite lookup_insert_eq, Hn; split; by eexists|].
    by rewrite lookup_insert_ne. }
  split_and!; [|by cbn|done|exact Hmem].
  unfold gw_ok in *. cbn. cbn in HG2, HI2. rewrite HG2, HI2, HG1, HI1.
  specialize (Hp2 (<[id := set_members (<[m_LeaderGuid g := set_rankid GR_OFFICER sl]> (members g2)) g2]> (m_GuildMap w))).
  cbn in Hp2. rewrite HI1 in Hp2. apply Hp2, Hp1. eapply inv_replace; [exact Hw| |done|by intros k Hk; apply Hmem].
  split.
  - exists (set_rankid GR_GUILDMASTER sn). cbn. rewrite Hsn, lookup_insert_ne, lookup_insert_eq by done. done.
  - cbn. rewrite Hsn. destruct (Hs _ sl Hl) as (Hu' & Hz' & Hsl & Hb' & _).
    intros k s [[<- <-]|[H1 [[<- <-]|[H2 Hk]]%lookup_insert_Some]]%lookup_insert_Some; [by split_and!|by split_and!|].
    destruct (Hs k s Hk) as (? & ? & ? & ? & Hk0). split_and!; try done; lia.
  - exact Hr.
Qed.

(** Removing a member that is not the leader, or nobody. *)
Lemma erase_member_ok E id k dis g w :
  is_u 32 k -> without id w -> (forall k', is_Some (members g !! k') -> (m_guid2guild w) !! k' = Some id) ->
  (forall id', m_guid2guild w !! k = Some id' -> id' = id) ->
  let '(last, g', w') := erase_member E k dis g w in
  without id w' /\ (forall k', is_Some (members g' !! k') -> m_guid2guild w' !! k' = Some id) /\
  members g' = delete k (members g) /\ m_LeaderGuid g' = m_LeaderGuid g /\ m_Ranks g' = m_Ranks g /\ m_Id g' = m_Id g /\
  last = bool_decide (members g' = ∅) /\ m_guid2guild w' = delete k (m_guid2guild w) /\ m_GuildMap w' = m_GuildMap w /\
  w_players w' = (if GetPlayer k w then alter (fun p => SetRank 0 (SetInGuild 0 p)) k (w_players w) else w_players w).
Proof.
  intros Hu Hw Hown Hk. unfold erase_member. rewrite (player_counter k Hu).
  assert (Hun : inv (w_players w) (delete id (m_GuildMap w)) (delete k (m_guid2guild w))).
  { apply inv_unindex; [exact Hw|]. intros id' g' Hg'. apply eq_None_not_Some. intros Hsome.
    pose proof (inv_index _ _ _ Hw id' g' k Hg' Hsome) as Hi. apply Hk in Hi as ->.
    by rewrite lookup_delete_eq in Hg'. }
  assert (Hfp : GetPlayer k (GuildMemberRemoved k w) = GetPlayer k w) by done. rewrite Hfp. clear Hfp.
  assert (Hown' : forall k', is_Some (delete k (members g) !! k') -> delete k (m_guid2guild w) !! k' = Some id).
  { intros k' [s Hs]. apply lookup_delete_Some in Hs as [Hne Hs]. rewrite lookup_delete_ne by done. apply Hown. by eexists. }
  destruct (GetPlayer k w) as [p|]; destruct dis; cbn; (split_and!; [|exact Hown'|done|done|done|done|done|done|done|done]);
    unfold without; cbn; try exact Hun;
    (apply inv_player; [exact Hun|]; intros q Hq; cbn; split_and!; [done|lia|lia|]; intros id' Hid'; by rewrite lookup_delete_eq in Hid').
Qed.

Lemma guild_ok_delete g g' k :
  guild_ok g -> k <> m_LeaderGuid g -> members g' = delete k (members g) -> m_LeaderGuid g' = m_LeaderGuid g ->
  m_Ranks g' = m_Ranks g -> guild_ok g' /\ members g' <> ∅.
Proof.
  intros [(s & Hl & Hl0) Hs Hr] Hk HM HL HR. split; [split|].
  - exists s. rewrite HL, HM. by rewrite lookup_delete_ne.
  - rewrite HL, HM. by apply map_Forall_delete.
  - unfold GetRanksSize. by rewrite HR.
  - rewrite HM. intros He. assert (Hx : delete k (members g) !! m_LeaderGuid g = Some s) by (by rewrite lookup_delete_ne).
    by rewrite He in Hx.
Qed.

(** Removing a member that is not the leader keeps the guild, which is not
    disbanded. *)
Lemma DelMember_ok E id k g w :
  gw_ok id g w -> is_u 32 k -> k <> m_LeaderGuid g ->
  (forall id', m_guid2guild w !! k = Some id' -> id' = id) ->
  let '(last, g', w') := DelMember E k false g w in
  gw_ok id g' w' /\ last = false /\ members g' = delete k (members g) /\ m_Id g' = m_Id g /\
  m_LeaderGuid g' = m_LeaderGuid g /\ m_Ranks g' = m_Ranks g /\ m_GuildMap w' = m_GuildMap w.
Proof.
  intros Hw Hu Hk Hidx. unfold DelMember. rewrite (proj2 (Z.eqb_neq _ _)) by done. cbn [andb].
  pose proof (inv_at _ _ _ _ _ Hw) as (Hid & Huid & Hnid & Hok).
  pose proof (erase_member_ok E id k false g w Hu (gw_ok_without _ _ _ Hw) (fun k' => inv_own _ _ _ _ _ k' Hw) Hidx) as He.
  destruct (erase_member E k false g w) as [[last g'] w'].
  destruct He as (Hwo & Hown & HM & HL & HR & HI & -> & _ & HG & _).
  destruct (guild_ok_delete g g' k Hok Hk HM HL HR) as [Hok' Hne].
  split_and!; try done; [|by apply bool_decide_eq_false_2].
  apply inv_put; try done. congruence.
Qed.

Lemma member_data_not_ok E k pl : member_data E k pl <> inl OK.
Proof. unfold member_data. repeat case_match; congruence. Qed.

(** A new member, from a guild that is complete or waits for its leader. *)
Definition scripts_keep_masters (E : Env) : Prop :=
  forall id guid r, is_u 8 r -> (u8 (OnAddMember E id guid r) = GR_GUILDMASTER <-> r = GR_GUILDMASTER).

Lemma withdraw_same k w : same w (withdraw_signature k w).
Proof. unfold withdraw_signature. by destruct (GetSignatureForPlayerGuid k w) as [[? ?]|]. Qed.

Lemma member_data_slot E k pl s : member_data E k pl = inr s -> ms_guid s = k.
Proof. unfold member_data. repeat case_match; intros; simplify_eq; done. Qed.

Lemma AddMember_ok E id k r g w :
  scripts_keep_masters E -> without id w -> m_Id g = id -> is_u 32 id -> id <> 0 ->
  (forall k', is_Some (members g !! k') -> m_guid2guild w !! k' = Some id) ->
  is_u 32 k -> k <> 0 -> is_u 8 r ->
  (guild_ok g /\ r <> GR_GUILDMASTER) \/
    (m_LeaderGuid g = k /\ r = GR_GUILDMASTER /\ members g = ∅ /\ GUILD_RANKS_MIN_COUNT <= GetRanksSize g <= GUILD_RANKS_MAX_COUNT) ->
  (FindPlayerNotInWorld k w = None -> m_guid2guild w !! k = None \/ is_Some (members g !! k)) ->
  let '(status, g', w') := AddMember E k r g w in
  m_GuildMap w' = m_GuildMap w /\ m_Id g' = id /\ m_LeaderGuid g' = m_LeaderGuid g /\ m_Ranks g' = m_Ranks g /\
  match status with
  | OK => gw_ok id g' w'
  | _ => g' = g /\ same w w'
  end.
Proof.
  intros HE Hw Hid Hu Hnz Hown Hku Hkz Hr8 Hcase Hoff. unfold AddMember.
  set (pl := FindPlayerNotInWorld k w). destruct (already_in_guild k pl g) eqn:Ha; [by split_and!|].
  destruct (withdraw_same k w) as (HwP & HwG & HwI). set (w1 := withdraw_signature k w) in *.
  destruct (member_data E k pl) as [st|s] eqn:Hd.
  { assert (st <> OK) by (unfold member_data in Hd; repeat case_match; congruence). destruct st; by split_and!. }
  pose proof (member_data_slot _ _ _ _ Hd) as Hsk. rewrite (player_counter k Hku).
  set (rank := match pl with Some _ => u8 (OnAddMember E (m_Id g) k (u8 r)) | None => r end).
  assert (Hrank : 0 <= rank < 2 ^ 31 /\ (rank = GR_GUILDMASTER <-> r = GR_GUILDMASTER)).
  { unfold rank. destruct pl; [|unfold is_u in Hr8; split; [lia|done]].
    rewrite (u8_id r Hr8). split; [|by apply HE]. pose proof (u8_range (OnAddMember E (m_Id g) k r)) as Hx. unfold is_u in Hx. lia. }
  assert (Hnone : m_guid2guild w !! k = None).
  { destruct (FindPlayerNotInWorld k w) as [p|] eqn:Hp; unfold pl in Ha; cbn in Ha.
    2: { destruct (Hoff eq_refl) as [?|Hm]; [done|]. rewrite (u32_id k Hku) in Ha. by apply bool_decide_eq_false in Ha. }
    unfold FindPlayerNotInWorld in Hp. case_match; [done|]. apply eq_None_not_Some. intros [id' Hid'].
    destruct (inv_gid _ _ _ Hw k p id' Hp Hid') as [Hpid ?]. to_prop. congruence. }
  assert (Hkm : members g !! k = None).
  { apply eq_None_not_Some. intros Hs. rewrite (Hown k Hs) in Hnone. done. }
  set (s' := set_rankid rank s).
  assert (Hgok : forall g', members g' = <[k := s']> (members g) -> m_LeaderGuid g' = m_LeaderGuid g -> m_Ranks g' = m_Ranks g -> guild_ok g').
  { intros g' HM HL HR. destruct Hcase as [[[(sl & Hl & Hl0) Hs Hrk] Hr0]|(Hl & Hr0 & He & Hrk)].
    - split.
      + exists sl. rewrite HL, HM, lookup_insert_ne; [done|]. intros ->. congruence.
      + rewrite HL, HM. apply map_Forall_insert_2; [|done]. cbn. split_and!; try done; lia.
      + unfold GetRanksSize. by rewrite HR.
    - split.
      + exists s'. rewrite HL, HM, Hl, lookup_insert_eq. cbn. split; [done|]. by apply Hrank.
      + rewrite HL, HM, He, Hl. apply map_Forall_insert_2; [|apply map_Forall_empty]. cbn. split_and!; try done; lia.
      + unfold GetRanksSize. by rewrite HR. }
  assert (Hown' : forall k', is_Some (<[k := s']> (members g) !! k') -> <[k := id]> (m_guid2guild w) !! k' = Some id).
  { intros k' Hk'. destruct (decide (k' = k)) as [->|Hne]; [by rewrite lookup_insert_eq|].
    rewrite lookup_insert_ne in Hk' by done. rewrite lookup_insert_ne by done. by apply Hown. }
  destruct pl as [p|] eqn:Epl; cbn; rewrite ?HwP, ?HwG, ?HwI, ?Hid; (split_and!; [done|done|done|done|]);
    unfold gw_ok; cbn; rewrite ?HwP, ?HwG, ?HwI, ?Hid; (apply inv_put; [|by apply Hgok|done|done|done|exact Hown']).
  - apply inv_reindex; [exact Hw|done|done|]. intros q Hq. cbn. split_and!; [done|lia|lia|done].
  - rewrite <- (alter_id (fun q : Player => q) (w_players w) k) by done. apply inv_reindex; [exact Hw|done|done|].
    intros q Hq. unfold FindPlayerNotInWorld in Epl. unfold pl, FindPlayerNotInWorld, IsEmpty in Epl.
    rewrite (proj2 (Z.eqb_neq _ _) Hkz) in Epl. congruence.
Qed.

(** What leaving a guild does to the player object: nothing when the player is
    between two maps. *)
Definition left_guild (p : Player) : Player := if pl_inWorld p then SetRank 0 (SetInGuild 0 p) else p.

Lemma erase_players k w :
  k <> 0 ->
  (if GetPlayer k w then alter (fun p => SetRank 0 (SetInGuild 0 p)) k (w_players w) else w_players w)
  = alter left_guild k (w_players w).
Proof.
  intros Hk. unfold GetPlayer, FindPlayer, FindPlayerNotInWorld, IsEmpty. rewrite (proj2 (Z.eqb_neq _ _) Hk).
  apply map_eq. intros j. destruct (w_players w !! k) as [p|] eqn:E.
  - destruct (pl_inWorld p) eqn:Hin; cbn; (destruct (decide (j = k)) as [->|Hne]; [|by rewrite ?lookup_alter_ne]);
      rewrite ?lookup_alter_eq, E; unfold left_guild; cbn; by rewrite Hin.
  - destruct (decide (j = k)) as [->|Hne]; [by rewrite lookup_alter_eq, E|by rewrite lookup_alter_ne].
Qed.

(** What the loop of [Disband] leaves. *)
Lemma Disband_loop_ok E id fuel : forall g w,
  without id w -> (forall k, is_Some (members g !! k) -> m_guid2guild w !! k = Some id) ->
  map_Forall (fun k _ => is_u 32 k /\ k <> 0) (members g) -> (base.size (members g) <= fuel)%nat ->
  exists g' w', Disband_loop E fuel g w = Some (g', w') /\ members g' = ∅ /\ m_Id g' = m_Id g /\
    without id w' /\ m_GuildMap w' = m_GuildMap w /\
    forall k, m_guid2guild w' !! k = (if members g !! k then None else m_guid2guild w !! k) /\
      w_players w' !! k = (if members g !! k then left_guild <$> w_players w !! k else w_players w !! k).
Proof.
  induction fuel as [|fuel IH]; intros g w Hw Hown Hkeys Hfuel; cbn [Disband_loop];
    destruct (head (hash_iter (members g))) as [[k s]|] eqn:Eh.
  2, 4: assert (Hemp : members g = ∅) by
     (apply map_empty; intros k; apply eq_None_not_Some; intros [s Hs]; apply elem_of_hash_iter in Hs;
      destruct (hash_iter (members g)); [by apply elem_of_nil in Hs|done]);
     exists g, w; split_and!; try done; intros k; by rewrite Hemp, lookup_empty.
  - apply head_Some_elem_of, elem_of_hash_iter in Eh. apply Nat.le_0_r, map_size_empty_iff in Hfuel.
    rewrite Hfuel in Eh. by rewrite lookup_empty in Eh.
  - apply head_Some_elem_of, elem_of_hash_iter in Eh. destruct (Hkeys k s Eh) as [Hu Hz].
    unfold DelMember. rewrite andb_false_r, (player_guid_low k Hu).
    pose proof (erase_member_ok E id k true g w Hu Hw Hown) as He.
    assert (Hki : m_guid2guild w !! k = Some id) by (apply Hown; by eexists).
    specialize (He ltac:(intros; congruence)).
    destruct (erase_member E k true g w) as [[last g1] w1].
    destruct He as (Hw1 & Hown1 & HM & HL & HR & HI & _ & Hidx & HG & HP). rewrite (erase_players k w Hz) in HP.
    destruct (IH g1 w1 Hw1 Hown1) as (g' & w' & Hrun & Hemp & Hid' & Hw' & HG' & Hall).
    { rewrite HM. by apply map_Forall_delete. }
    { rewrite HM, map_size_delete_Some by (by eexists). lia. }
    exists g', w'. split_and!; try done; try congruence. intros j. destruct (Hall j) as [-> ->].
    rewrite HM, Hidx, HP. destruct (decide (j = k)) as [->|Hne].
    + rewrite lookup_delete_eq, Eh, lookup_delete_eq, lookup_alter_eq. done.
    + rewrite !lookup_delete_ne, lookup_alter_ne by done. done.
Qed.

(** [Disband] of a guild of the manager. *)
Lemma Disband_ok E banks id g w :
  without id w -> m_Id g = id -> (forall k, is_Some (members g !! k) -> m_guid2guild w !! k = Some id) ->
  map_Forall (fun k _ => is_u 32 k /\ k <> 0) (members g) ->
  exists g' w', Disband E banks g w = Some (g', w') /\ members g' = ∅ /\ world_ok w' /\
    m_GuildMap w' = delete id (m_GuildMap w) /\
    forall k, m_guid2guild w' !! k = (if members g !! k then None else m_guid2guild w !! k) /\
      w_players w' !! k = (if members g !! k then left_guild <$> w_players w !! k else w_players w !! k).
Proof.
  intros Hw Hid Hown Hkeys. unfold Disband.
  set (w1 := BroadcastEvent E GE_DISBANDED 0 [] g (emit (ScriptOnDisband (m_Id g)) w)).
  destruct (Disband_loop_ok E id (base.size (members g)) g w1 Hw Hown Hkeys (le_n _)) as (g' & w' & Hrun & Hemp & Hid' & Hw' & HG & Hall).
  rewrite Hrun. eexists _, _. split; [reflexivity|]. rewrite Hid', Hid.
  destruct banks; cbn; rewrite HG; (split_and!; [done| |done|exact Hall]);
    unfold world_ok, without in *; cbn; by rewrite HG in Hw' |- *.
Qed.

(** What a successful [AddMember] writes. *)
Lemma AddMember_effect E k r g w g' w' :
  is_u 32 k -> AddMember E k r g w = (OK, g', w') ->
  (exists f, w_players w' = alter f k (w_players w)) /\ m_guid2guild w' = <[k := m_Id g]> (m_guid2guild w) /\
  exists s, members g' = <[k := s]> (members g).
Proof.
  intros Hu Hadd. unfold AddMember in Hadd. destruct (already_in_guild _ _ _); [done|].
  destruct (member_data E _ _) as [st|slot] eqn:Hd; [injection Hadd as -> _ _; by destruct (member_data_not_ok E _ _ Hd)|].
  destruct (withdraw_same k w) as (HwP & HwG & HwI). rewrite (player_counter _ Hu) in Hadd.
  destruct (FindPlayerNotInWorld k w); injection Hadd as <- <-; cbn; rewrite HwP, HwI;
    (split; [|split; [done|by eexists]]); [by eexists|].
  exists (fun q => q). by rewrite alter_id.
Qed.

(** An offline character stays offline and keeps his entries. *)
Lemma offline_step E k r g w g' w' j :
  is_u 32 k -> AddMember E k r g w = (OK, g', w') ->
  (FindPlayerNotInWorld j w = None -> m_guid2guild w !! j = None \/ is_Some (members g !! j)) ->
  FindPlayerNotInWorld j w' = None -> m_guid2guild w' !! j = None \/ is_Some (members g' !! j).
Proof.
  intros Hu Hadd Hoff Hn. destruct (AddMember_effect _ _ _ _ _ _ _ Hu Hadd) as ((f & HP) & HI & (s & HM)).
  destruct (decide (j = k)) as [->|Hne]; [right; rewrite HM, lookup_insert_eq; by eexists|].
  rewrite HI, HM, !lookup_insert_ne by done. apply Hoff. revert Hn. unfold FindPlayerNotInWorld.
  rewrite HP, lookup_alter_ne by done. done.
Qed.

(** A step that leaves leader, members and the number of ranks in bounds. *)
Lemma gw_ok_soft id g g' w w' :
  gw_ok id g w -> same w w' -> m_LeaderGuid g' = m_LeaderGuid g -> members g' = members g -> m_Id g' = m_Id g ->
  GUILD_RANKS_MIN_COUNT <= GetRanksSize g' <= GUILD_RANKS_MAX_COUNT -> gw_ok id g' w'.
Proof.
  intros Hw Hs HL HM HI HR. eapply gw_ok_guild_step; [exact Hs|exact Hw| |done|by intros k; rewrite HM].
  eapply guild_ok_same; try done. by eapply gw_ok_guild.
Qed.

Lemma gw_ok_ranks id g w : gw_ok id g w -> GUILD_RANKS_MIN_COUNT <= GetRanksSize g <= GUILD_RANKS_MAX_COUNT.
Proof. intros Hw. apply gw_ok_guild in Hw. apply Hw. Qed.

Lemma Log_ok E id ty g1 g2 r g w :
  gw_ok id g w -> let '(g', w') := LogGuildEvent E ty g1 g2 r g w in gw_ok id g' w' /\ m_Id g' = m_Id g.
Proof. intros Hw. cbn. split; [|done]. apply (gw_ok_soft id g _ w); try done. exact (gw_ok_ranks id g w Hw). Qed.

Lemma find_name name g k s :
  GetMemberSlot_name name g = Some (k, s) -> members g !! k = Some s.
Proof. intros Hf. apply List.find_some in Hf as [Hin _]. apply list_elem_of_In in Hin. by apply elem_of_hash_iter in Hin. Qed.

(** The default ranks. *)
Lemma default_ranks E g w :
  m_Ranks g = [] ->
  let '(g', w') := CreateDefaultGuildRanks E g w in
  GetRanksSize g' = GUILD_RANKS_MIN_COUNT /\ same w w' /\ m_LeaderGuid g' = m_LeaderGuid g /\ members g' = members g /\
  m_Id g' = m_Id g /\ m_GuildEventLog g' = m_GuildEventLog g.
Proof.
  intros Hr. unfold CreateDefaultGuildRanks, CreateRank, AddRank, GetRanksSize. cbn [set_ranks m_Ranks]. rewrite Hr. cbn. done.
Qed.

(** A new guild, from a player who is in none. *)
Lemma Create_ok E id p name w :
  scripts_keep_masters E -> world_ok w -> w_players w !! pl_guid p = Some p -> is_u 32 id -> id <> 0 ->
  m_GuildMap w !! id = None ->
  let '(ok, g, w') := Create E id p name newGuild w in
  m_GuildMap w' = m_GuildMap w /\
  if ok then gw_ok id g w' /\ m_Id g = id /\ (exists f, w_players w' = alter f (pl_guid p) (w_players w)) /\
    m_guid2guild w' = <[pl_guid p := id]> (m_guid2guild w)
  else same w w'.
Proof.
  intros HE Hw Hp Hu Hn Hfree. unfold Create. destruct (GetGuildByName name w); [by split|].
  set (g0 := mkGuild _ _ _ _ _ _ _ _ _ _ _ _ _ _). set (w0 := emits _ w).
  pose proof (default_ranks E g0 w0 eq_refl) as Hd. destruct (CreateDefaultGuildRanks E g0 w0) as [g1 w1].
  destruct Hd as (Hsz & (HP & HG & HI) & HL & HM & Hid & _). cbn in HP, HG, HI, HL, HM, Hid.
  set (w2 := emits _ w1).
  destruct (inv_players _ _ _ Hw _ _ Hp) as (_ & Hku & Hkz & _).
  pose proof (AddMember_ok E id (pl_guid p) GR_GUILDMASTER g1 w2 HE) as Ha.
  assert (Hwo : without id w2) by (unfold without; cbn; rewrite HP, HG, HI; by apply inv_weaken).
  specialize (Ha Hwo Hid Hu Hn). rewrite HM in Ha.
  specialize (Ha ltac:(intros k' [? Hk']; by rewrite lookup_empty in Hk') Hku Hkz ltac:(by vm_compute)).
  rewrite Hsz in Ha. specialize (Ha ltac:(right; split_and!; try done; rewrite ?HL; done)).
  specialize (Ha ltac:(unfold FindPlayerNotInWorld, IsEmpty; rewrite (proj2 (Z.eqb_neq _ _) Hkz); cbn; rewrite HP, Hp; done)).
  destruct (AddMember E (pl_guid p) GR_GUILDMASTER g1 w2) as [[st g3] w3] eqn:Eadd. destruct Ha as (HG3 & Hid3 & _ & _ & Hst).
  assert (HG' : m_GuildMap w3 = m_GuildMap w) by (rewrite HG3; exact HG).
  destruct st; cbn; (split; [done|]); try (destruct Hst as (_ & HsP & HsG & HsI); cbn in HsP, HsG, HsI; split_and!; congruence).
  destruct (AddMember_effect _ _ _ _ _ _ _ Hku Eadd) as ((f & HP3) & HI3 & _).
  cbn in HP3, HI3. rewrite HP in HP3. rewrite HI, Hid in HI3. split_and!; [done|done|by exists f|done].
Qed.

(** The signatures of a petition join the new guild. *)
Lemma signatures_ok E id l : forall g w,
  scripts_keep_masters E -> gw_ok id g w ->
  Forall (fun s => is_u 32 (sig_playerGuid s) /\
    (FindPlayerNotInWorld (sig_playerGuid s) w = None ->
     m_guid2guild w !! sig_playerGuid s = None \/ is_Some (members g !! sig_playerGuid s))) l ->
  let '(g', w') := foldl (fun '(g, w) s =>
        if IsEmpty (sig_playerGuid s) then (g, w)
        else let '(_, g, w) := AddMember E (sig_playerGuid s) (GetLowestRank g) g w in (g, w)) (g, w) l in
  gw_ok id g' w' /\ m_GuildMap w' = m_GuildMap w.
Proof.
  induction l as [|s l IH]; intros g w HE Hw Hl; [done|]. apply Forall_cons in Hl as [[Hu Hoff] Hl]. cbn [foldl].
  destruct (IsEmpty (sig_playerGuid s)) eqn:Hemp; [by apply IH|]. unfold IsEmpty in Hemp. to_prop.
  pose proof (inv_at _ _ _ _ _ Hw) as (Hid & Huid & Hnid & Hok). pose proof (go_ranks _ Hok) as Hr.
  assert (Hlow : GetLowestRank g = GetRanksSize g - 1 /\ is_u 8 (GetLowestRank g) /\ GetLowestRank g <> GR_GUILDMASTER).
  { unfold GetLowestRank, GUILD_RANKS_MIN_COUNT, GUILD_RANKS_MAX_COUNT, GR_GUILDMASTER in *.
    rewrite u32_id by (unfold is_u; lia). unfold is_u. lia. }
  destruct Hlow as (_ & H8 & Hn0).
  pose proof (AddMember_ok E id (sig_playerGuid s) (GetLowestRank g) g w HE (gw_ok_without _ _ _ Hw) Hid Huid Hnid
    (fun k' => inv_own _ _ _ _ _ k' Hw) Hu Hemp H8 ltac:(left; done) Hoff) as Ha.
  destruct (AddMember E (sig_playerGuid s) (GetLowestRank g) g w) as [[st g1] w1] eqn:Eadd.
  destruct Ha as (HG & Hid1 & _ & _ & Hst).
  assert (Hnext : gw_ok id g1 w1 /\ Forall (fun s => is_u 32 (sig_playerGuid s) /\
    (FindPlayerNotInWorld (sig_playerGuid s) w1 = None ->
     m_guid2guild w1 !! sig_playerGuid s = None \/ is_Some (members g1 !! sig_playerGuid s))) l).
  { destruct st; try (destruct Hst as (-> & HsP & HsG & HsI); unfold gw_ok, FindPlayerNotInWorld; rewrite HsP, HsG, HsI; by split).
    split; [done|]. eapply Forall_impl; [exact Hl|]. intros s' [Hu' Hoff']. split; [done|].
    intros Hnone. exact (offline_step _ _ _ _ _ _ _ _ Hu Eadd Hoff' Hnone). }
  destruct Hnext as [Hw1 Hl1]. specialize (IH g1 w1 HE Hw1 Hl1).
  destruct (foldl _ (g1, w1) l) as [g' w']. destruct IH as [? ->]. done.
Qed.

(** ** Handlers *)

Variable days_offline : Z -> Z -> Z.

(** The packets of a player, with the operands read from them; [id] is the
    identifier a new guild gets, [charter] the charter turned in. *)
Inductive guild_op :=
  | OpCreate (id : Z) (name : list Z)
  | OpInvite (name : list Z)
  | OpRemove (name : list Z)
  | OpAccept
  | OpDecline
  | OpInfo
  | OpRoster
  | OpPromote (name : list Z)
  | OpDemote (name : list Z)
  | OpLeave
  | OpDisband
  | OpLeader (name : list Z)
  | OpMOTD (text : list Z)
  | OpPublicNote (name note : list Z)
  | OpOfficerNote (name note : list Z)
  | OpRank (rankId rights : Z) (name : list Z)
  | OpAddRank (name : list Z)
  | OpDelRank
  | OpInfoText (text : list Z)
  | OpSign (item : ObjectGuid)
  | OpTurnIn (id : Z) (charter : option (ObjectGuid * Z)).

Definition op_apply (E : Env) (p : Player) (op : guild_op) (w : World) : option World :=
  match op with
  | OpCreate id name => Some (HandleGuildCreateOpcode E id p name w)
  | OpInvite name => Some (HandleGuildInviteOpcode E p name w)
  | OpRemove name => HandleGuildRemoveOpcode E p name w
  | OpAccept => Some (HandleGuildAcceptOpcode E p w)
  | OpDecline => Some (HandleGuildDeclineOpcode p w)
  | OpInfo => Some (HandleGuildInfoOpcode p w)
  | OpRoster => Some (HandleGuildRosterOpcode days_offline E p w)
  | OpPromote name => Some (HandleGuildPromoteOpcode E p name w)
  | OpDemote name => Some (HandleGuildDemoteOpcode E p name w)
  | OpLeave => HandleGuildLeaveOpcode E p w
  | OpDisband => HandleGuildDisbandOpcode E p w
  | OpLeader name => Some (HandleGuildLeaderOpcode E p name w)
  | OpMOTD text => Some (HandleGuildMOTDOpcode E p text w)
  | OpPublicNote name note => Some (HandleGuildSetPublicNoteOpcode days_offline E p name note w)
  | OpOfficerNote name note => Some (HandleGuildSetOfficerNoteOpcode days_offline E p name note w)
  | OpRank rankId rights name => Some (HandleGuildRankOpcode days_offline E p rankId rights name w)
  | OpAddRank name => Some (HandleGuildAddRankOpcode days_offline E p name w)
  | OpDelRank => Some (HandleGuildDelRankOpcode days_offline E p w)
  | OpInfoText text => Some (HandleGuildChangeInfoTextOpcode E p text w)
  | OpSign item => Some (HandlePetitionSignOpcode E p item w)
  | OpTurnIn id charter => Some (HandleTurnInPetitionOpcode E id p charter w)
  end.

(** What the rest of the server guarantees of an operation: a new guild gets
    an identifier that is not in use, and a character who signed a petition
    and is not online is in no guild. *)
Definition op_ok (op : guild_op) (w : World) : Prop :=
  match op with
  | OpCreate id _ => is_u 32 id /\ id <> 0 /\ m_GuildMap w !! id = None
  | OpTurnIn id _ => is_u 32 id /\ id <> 0 /\ m_GuildMap w !! id = None /\
      map_Forall (fun _ pt => Forall (fun s => is_u 32 (sig_playerGuid s) /\
        (w_players w !! sig_playerGuid s = None -> m_guid2guild w !! sig_playerGuid s = None)) (pt_signatures pt)) (m_petitionMap w)
  | OpRank rankId _ _ => is_u 32 rankId
  | _ => True
  end.

Lemma player_facts w p :
  world_ok w -> w_players w !! pl_guid p = Some p -> is_u 32 (pl_guid p) /\ pl_guid p <> 0 /\ 0 <= pl_rank p < 2 ^ 31.
Proof. intros Hw Hp. by destruct (inv_players _ _ _ Hw _ _ Hp) as (_ & ? & ? & ?). Qed.

Lemma online_lookup w p : pl_guid p <> 0 -> w_players w !! pl_guid p = Some p -> FindPlayerNotInWorld (pl_guid p) w = Some p.
Proof. intros Hz Hp. unfold FindPlayerNotInWorld, IsEmpty. by rewrite (proj2 (Z.eqb_neq _ _) Hz). Qed.

Lemma disband_ok E id g w :
  gw_ok id g w -> exists w', disband E g w = Some w' /\ world_ok w'.
Proof.
  intros Hw. pose proof (inv_at _ _ _ _ _ Hw) as (Hid & _ & _ & Hok).
  destruct (Disband_ok E true id g w (gw_ok_without _ _ _ Hw) Hid (fun k' => inv_own _ _ _ _ _ k' Hw)) as (g' & w' & Hrun & _ & Hw' & _).
  { intros k s Hk. destruct (go_slots _ Hok k s Hk) as (? & ? & _). done. }
  exists w'. unfold disband. by rewrite Hrun.
Qed.

Lemma slot_not_leader g k s : guild_ok g -> members g !! k = Some s -> RankId s <> GR_GUILDMASTER -> k <> m_LeaderGuid g.
Proof. intros [(sl & Hl & Hl0) _ _] Hk Hr ->. congruence. Qed.

Lemma low_rank g : guild_ok g -> GetLowestRank g = GetRanksSize g - 1 /\ is_u 8 (GetLowestRank g) /\ GetLowestRank g <> GR_GUILDMASTER.
Proof.
  intros [_ _ Hr]. unfold GetLowestRank, GUILD_RANKS_MIN_COUNT, GUILD_RANKS_MAX_COUNT, GR_GUILDMASTER in *.
  rewrite u32_id by (unfold is_u; lia). unfold is_u. lia.
Qed.

(** A note changes neither the rank nor the GUID of a slot. *)
Lemma note_ok E right set p name note w :
  (forall n s, ms_guid (set n s).1 = ms_guid s /\ RankId (set n s).1 = RankId s) ->
  world_ok w -> world_ok (HandleGuildSetNote days_offline E right set p name note w).
Proof.
  intros Hset Hw. unfold HandleGuildSetNote.
  destruct (normalizePlayerName E name _ _) as [nm|]; [|done]. destruct (normalizePlayerName E note _ _) as [nt|]; [|done].
  destruct (GetGuildById (pl_guildId p) w) as [g|] eqn:Hg; [|done]. destruct (negb _); [done|].
  destruct (GetMemberSlot_name nm g) as [[key slot]|] eqn:Hs; [|done]. destruct (_ <? _); [done|].
  apply find_name in Hs. destruct (Hset nt slot) as [Hgd Hrk]. destruct (set nt slot) as [slot' out]. cbn in Hgd, Hrk.
  pose proof (gw_ok_start _ _ _ Hw Hg) as Hgw.
  change (gw_ok (pl_guildId p) (set_members (<[key := slot']> (members g)) g) (emits out w)).
  pose proof (gw_ok_guild _ _ _ Hgw) as Hok. destruct (go_slots _ Hok key slot Hs) as (_ & _ & _ & Hb & _).
  eapply gw_ok_guild_step; [done|exact Hgw| |done|].
  - eapply (guild_ok_slot g key slot slot'); try done; [lia|by rewrite Hrk].
  - intros k. cbn. destruct (decide (k = key)) as [->|Hne]; [by eexists|by rewrite lookup_insert_ne].
Qed.

Lemma leader_ok p w k :
  world_ok w -> (forall g, gw_ok (pl_guildId p) g w -> world_ok (k g)) -> world_ok (as_leader p w k).
Proof.
  intros Hw Hk. unfold as_leader. destruct (GetGuildById (pl_guildId p) w) as [g|] eqn:Hg; [|done].
  destruct (negb _); [done|]. apply Hk. by apply gw_ok_start.
Qed.

(** The steps of the operations on ranks. *)
Lemma CreateRank_ok E id name rights g w :
  gw_ok id g w -> let '(g', w') := CreateRank E name rights g w in gw_ok id g' w'.
Proof.
  intros Hw. unfold CreateRank. destruct (_ <=? _) eqn:Hf; [done|]. to_prop. pose proof (gw_ok_ranks _ _ _ Hw).
  apply (gw_ok_soft id g _ w); try done. unfold GetRanksSize in *. cbn. rewrite length_app. cbn. lia.
Qed.

Lemma DelRank_ok id g w : gw_ok id g w -> let '(g', w') := DelRank g w in gw_ok id g' w'.
Proof.
  intros Hw. unfold DelRank. destruct (_ <=? _) eqn:Hf; [done|]. to_prop. pose proof (gw_ok_ranks _ _ _ Hw).
  apply (gw_ok_soft id g _ w); try done. unfold GetRanksSize in *. cbn.
  assert (length (removelast (m_Ranks g)) = pred (length (m_Ranks g))) as ->.
  { rewrite removelast_firstn_len, length_firstn. lia. } unfold GUILD_RANKS_MIN_COUNT in *. lia.
Qed.

Lemma SetRank_ok id g w f rankId : gw_ok id g w -> gw_ok id (set_ranks (alter f rankId (m_Ranks g)) g) w.
Proof.
  intros Hw. apply (gw_ok_soft id g _ w); try done. unfold GetRanksSize. cbn. rewrite length_alter. exact (gw_ok_ranks _ _ _ Hw).
Qed.

Lemma SetRankName_ok E id rankId name g w : gw_ok id g w -> let '(g', w') := SetRankName E rankId name g w in gw_ok id g' w'.
Proof. intros Hw. unfold SetRankName. destruct (_ <=? _); [done|]. apply (SetRank_ok id g w _ _ Hw). Qed.

Lemma SetRankRights_ok id rankId rights g w : gw_ok id g w -> let '(g', w') := SetRankRights rankId rights g w in gw_ok id g' w'.
Proof. intros Hw. unfold SetRankRights. destruct (_ <=? _); [done|]. apply (SetRank_ok id g w _ _ Hw). Qed.

Lemma create_handler_ok E id p name w :
  scripts_keep_masters E -> world_ok w -> w_players w !! pl_guid p = Some p ->
  is_u 32 id -> id <> 0 -> m_GuildMap w !! id = None -> world_ok (HandleGuildCreateOpcode E id p name w).
Proof.
  intros HE Hw Hp Hu Hn Hfree. unfold HandleGuildCreateOpcode. destruct (negb _); [done|].
  pose proof (Create_ok E id p name w HE Hw Hp Hu Hn Hfree) as Hc.
  destruct (Create E id p name newGuild w) as [[ok g] w']. destruct Hc as [HG Hc]. destruct ok; [|by eapply same_ok].
  destruct Hc as (Hgw & Hid & _). unfold world_ok, AddGuild. cbn. rewrite Hid. exact Hgw.
Qed.

Lemma invited_ok w k id : world_ok w -> world_ok (upd_player k (SetGuildIdInvited id) w).
Proof.
  intros Hw. unfold world_ok. cbn. apply inv_player; [exact Hw|]. intros q Hq. cbn.
  destruct (inv_players _ _ _ Hw k q Hq) as (_ & _ & _ & ?). split_and!; [done|lia|lia|].
  intros id' Hid. by destruct (inv_gid _ _ _ Hw k q id' Hq Hid).
Qed.

Lemma invite_handler_ok E p name w : world_ok w -> world_ok (HandleGuildInviteOpcode E p name w).
Proof.
  intros Hw. unfold HandleGuildInviteOpcode.
  destruct (match normalizePlayerName E name _ _ with Some n => _ | None => _ end) as [nm player].
  destruct player as [q|]; [|done]. destruct (GetGuildById (pl_guildId p) w) as [g|] eqn:Hg; [|done].
  repeat (case_match; [done|]).
  match goal with |- world_ok (emit _ (store _ (LogGuildEvent E ?t ?a ?b ?r g ?w1))) =>
    pose proof (Log_ok E (pl_guildId p) t a b r g w1) as Hl end.
  apply Hl. apply gw_ok_start; [by apply invited_ok|done].
Qed.

(** [DelMember] of a member of the player's guild, and what follows it. *)
Lemma remove_handler_ok E p name w :
  world_ok w -> exists w', HandleGuildRemoveOpcode E p name w = Some w' /\ world_ok w'.
Proof.
  intros Hw. unfold HandleGuildRemoveOpcode.
  destruct (normalizePlayerName E name _ _) as [nm|]; [|by eexists]. destruct (negb (pl_inWorld p)); [by eexists|].
  destruct (GetGuildById (pl_guildId p) w) as [g|] eqn:Hg; [|by eexists]. destruct (negb (HasRankRight _ _ _)); [by eexists|].
  destruct (GetMemberSlot_name nm g) as [[key slot]|] eqn:Hs; [|by eexists].
  destruct (RankId slot =? GR_GUILDMASTER) eqn:Hgm; [by eexists|]. destruct (_ <=? _); [by eexists|]. to_prop.
  apply find_name in Hs. pose proof (gw_ok_start _ _ _ Hw Hg) as Hgw. pose proof (gw_ok_guild _ _ _ Hgw) as Hok.
  destruct (go_self g key slot Hok Hs) as (Hu & Hz & -> & _).
  pose proof (DelMember_ok E (pl_guildId p) key g w Hgw Hu (slot_not_leader g key slot Hok Hs Hgm)) as Hd.
  specialize (Hd ltac:(intros id' Hid'; rewrite (inv_own _ _ _ _ _ key Hgw (ltac:(by eexists))) in Hid'; congruence)).
  destruct (DelMember E key false g w) as [[last g1] w1]. destruct Hd as (Hgw1 & -> & _).
  pose proof (Log_ok E (pl_guildId p) GUILD_EVENT_LOG_UNINVITE_PLAYER (pl_guid p) key 0 g1 w1 Hgw1) as Hl.
  destruct (LogGuildEvent E _ _ _ _ g1 w1) as [g2 w2]. destruct Hl as [Hgw2 _]. eexists. split; [reflexivity|]. exact Hgw2.
Qed.

Lemma accept_handler_ok E p w :
  scripts_keep_masters E -> world_ok w -> w_players w !! pl_guid p = Some p -> world_ok (HandleGuildAcceptOpcode E p w).
Proof.
  intros HE Hw Hp. destruct (player_facts w p Hw Hp) as (Hku & Hkz & _). unfold HandleGuildAcceptOpcode.
  destruct (GetGuildById _ w) as [g|] eqn:Hg; [|done]. destruct (negb _); [done|]. destruct (_ && _); [done|].
  pose proof (gw_ok_start _ _ _ Hw Hg) as Hgw. pose proof (inv_at _ _ _ _ _ Hgw) as (Hid & Huid & Hnid & Hok).
  destruct (low_rank g Hok) as (_ & H8 & Hn0).
  pose proof (AddMember_ok E _ (pl_guid p) (GetLowestRank g) g w HE (gw_ok_without _ _ _ Hgw) Hid Huid Hnid
    (fun k' => inv_own _ _ _ _ _ k' Hgw) Hku Hkz H8 ltac:(left; done)) as Ha.
  specialize (Ha ltac:(rewrite (online_lookup w p Hkz Hp); done)).
  destruct (AddMember E (pl_guid p) _ g w) as [[st g1] w1]. destruct Ha as (_ & Hid1 & _ & _ & Hst).
  destruct st; try (destruct Hst as [_ Hsame]; by eapply same_ok).
  pose proof (Log_ok E _ GUILD_EVENT_LOG_JOIN_GUILD (pl_guid p) 0 0 g1 w1 Hst) as Hl.
  destruct (LogGuildEvent E _ _ _ _ g1 w1) as [g2 w2]. destruct Hl as [Hgw2 Hid2].
  unfold world_ok. cbn. rewrite Hid2, Hid1. exact Hgw2.
Qed.

(** A change of rank of a member who is not the leader. *)
Lemma rank_handler_ok E p r key slot g w ty ev strs :
  world_ok w -> GetGuildById (pl_guildId p) w = Some g -> members g !! key = Some slot -> RankId slot <> GR_GUILDMASTER ->
  0 < r < 2 ^ 31 ->
  world_ok (let '(g, w) := ChangeRank r key g w in
            let '(g, w) := LogGuildEvent E ty (pl_guid p) (ms_guid slot) r g w in
            store (pl_guildId p) (g, BroadcastEvent E ev 0 (strs g) g w)).
Proof.
  intros Hw Hg Hs Hn Hr. pose proof (gw_ok_start _ _ _ Hw Hg) as Hgw.
  pose proof (ChangeRank_ok (pl_guildId p) r key g w slot Hgw Hs Hn Hr) as Hc.
  destruct (ChangeRank r key g w) as [g1 w1].
  pose proof (Log_ok E (pl_guildId p) ty (pl_guid p) (ms_guid slot) r g1 w1 Hc) as Hl.
  destruct (LogGuildEvent E _ _ _ _ g1 w1) as [g2 w2]. destruct Hl as [Hgw2 _]. exact Hgw2.
Qed.

Lemma promote_handler_ok E p name w :
  world_ok w -> 0 <= pl_rank p < 2 ^ 31 -> world_ok (HandleGuildPromoteOpcode E p name w).
Proof.
  intros Hw Hr. unfold HandleGuildPromoteOpcode. destruct (normalizePlayerName E name _ _) as [nm|]; [|done].
  destruct (GetGuildById (pl_guildId p) w) as [g|] eqn:Hg; [|done]. destruct (negb _); [done|].
  destruct (GetMemberSlot_name nm g) as [[key slot]|] eqn:Hs; [|done]. destruct (_ =? _); [done|].
  destruct (_ <=? _) eqn:Hle; [done|]. to_prop. rewrite u32_id in Hle by (unfold is_u; lia).
  apply find_name in Hs. destruct (go_slots _ (gw_ok_guild _ _ _ (gw_ok_start _ _ _ Hw Hg)) key slot Hs) as (_ & _ & _ & Hb & _).
  apply rank_handler_ok; [done|done|done| |]; unfold GR_GUILDMASTER; rewrite ?u32_id by (unfold is_u; lia); lia.
Qed.

Lemma demote_handler_ok E p name w :
  world_ok w -> 0 <= pl_rank p < 2 ^ 31 -> world_ok (HandleGuildDemoteOpcode E p name w).
Proof.
  intros Hw Hr. unfold HandleGuildDemoteOpcode. destruct (normalizePlayerName E name _ _) as [nm|]; [|done].
  destruct (GetGuildById (pl_guildId p) w) as [g|] eqn:Hg; [|done]. destruct (negb _); [done|].
  destruct (GetMemberSlot_name nm g) as [[key slot]|] eqn:Hs; [|done]. destruct (_ =? _); [done|].
  destruct (RankId slot <=? pl_rank p) eqn:Hle; [done|].
  destruct (GetLowestRank g <=? RankId slot) eqn:Hlo; [done|]. to_prop.
  pose proof (gw_ok_guild _ _ _ (gw_ok_start _ _ _ Hw Hg)) as Hok. destruct (low_rank g Hok) as (_ & H8 & _). unfold is_u in H8.
  apply find_name in Hs. destruct (go_slots _ Hok key slot Hs) as (_ & _ & _ & Hb & _).
  apply rank_handler_ok; [done|done|done| |]; unfold GR_GUILDMASTER; rewrite ?u32_id by (unfold is_u; lia); lia.
Qed.

Lemma leave_handler_ok E p w :
  world_ok w -> w_players w !! pl_guid p = Some p -> exists w', HandleGuildLeaveOpcode E p w = Some w' /\ world_ok w'.
Proof.
  intros Hw Hp. destruct (player_facts w p Hw Hp) as (Hku & Hkz & _). unfold HandleGuildLeaveOpcode.
  destruct (GetGuildById (pl_guildId p) w) as [g|] eqn:Hg; [|by eexists]. destruct (_ && _); [by eexists|].
  pose proof (gw_ok_start _ _ _ Hw Hg) as Hgw. destruct (_ =? _) eqn:Hl; [by eapply disband_ok|]. to_prop.
  set (w0 := SendGuildCommandResult _ _ _ _ w). assert (Hgw0 : gw_ok (pl_guildId p) g w0) by exact Hgw.
  pose proof (DelMember_ok E (pl_guildId p) (pl_guid p) g w0 Hgw0 Hku Hl) as Hd.
  specialize (Hd ltac:(intros id' Hid'; by destruct (inv_gid _ _ _ Hw _ _ _ Hp Hid'))).
  destruct (DelMember E (pl_guid p) false g w0) as [[last g1] w1]. destruct Hd as (Hgw1 & -> & _).
  pose proof (Log_ok E (pl_guildId p) GUILD_EVENT_LOG_LEAVE_GUILD (pl_guid p) 0 0 g1 w1 Hgw1) as Hlg.
  destruct (LogGuildEvent E _ _ _ _ g1 w1) as [g2 w2]. destruct Hlg as [Hgw2 _]. eexists. split; [reflexivity|]. exact Hgw2.
Qed.

Lemma leader_handler_ok E p name w :
  world_ok w -> w_players w !! pl_guid p = Some p -> world_ok (HandleGuildLeaderOpcode E p name w).
Proof.
  intros Hw Hp. destruct (player_facts w p Hw Hp) as (Hku & _). unfold HandleGuildLeaderOpcode.
  destruct (normalizePlayerName E name _ _) as [nm|]; [|done].
  destruct (GetGuildById (pl_guildId p) w) as [g|] eqn:Hg; [|done]. destruct (negb _) eqn:Hl; [done|]. to_prop.
  unfold GetMemberSlot. rewrite (player_counter _ Hku). destruct (members g !! pl_guid p) as [os|] eqn:Ho; cbn; [|done].
  destruct (GetMemberSlot_name nm g) as [[key slot]|] eqn:Hs; [|done]. destruct (_ =? _) eqn:Hne; [done|]. to_prop.
  apply find_name in Hs. pose proof (gw_ok_start _ _ _ Hw Hg) as Hgw.
  pose proof (SetNewLeader_ok E (pl_guildId p) key slot g w Hgw Hs ltac:(congruence)) as Hn. rewrite <- Hl in Hn.
  destruct (SetNewLeader E key (Some (pl_guid p)) g w) as [g' w']. by destruct Hn as [? _].
Qed.

Lemma sign_same E p item w : same w (HandlePetitionSignOpcode E p item w).
Proof.
  unfold HandlePetitionSignOpcode. destruct (GetPetitionByCharterGuid item w) as [pt|]; [|done].
  repeat (match goal with |- same w (if ?c then _ else _) => destruct c; [done|] end).
  destruct (GetSignatureForPlayer p pt); [destruct (GetPlayer _ _); done|].
  destruct (withdraw_same (pl_guid p) w) as (HP & HG & HI).
  destruct (GetPetitionById _ _) as [pt'|]; [|done]. destruct (AddNewSignature E p pt') as [[ok pt2] out].
  destruct (negb ok); [done|]. destruct (GetPlayer _ _); done.
Qed.

(** The signers of a petition when its owner has founded the guild. *)
Lemma signers_ok w w1 g p f id l :
  world_ok w -> w_players w !! pl_guid p = Some p -> w_players w1 = alter f (pl_guid p) (w_players w) ->
  m_guid2guild w1 = <[pl_guid p := id]> (m_guid2guild w) ->
  Forall (fun s => is_u 32 (sig_playerGuid s) /\
    (w_players w !! sig_playerGuid s = None -> m_guid2guild w !! sig_playerGuid s = None)) l ->
  Forall (fun s => is_u 32 (sig_playerGuid s) /\
    (FindPlayerNotInWorld (sig_playerGuid s) w1 = None ->
     m_guid2guild w1 !! sig_playerGuid s = None \/ is_Some (members g !! sig_playerGuid s))) l.
Proof.
  intros Hw Hp HP1 HI1 Hl. eapply Forall_impl; [exact Hl|]. intros s [Hus Hoff]. split; [done|]. intros Hnone. left.
  destruct (player_facts w p Hw Hp) as (_ & Hkz & _).
  assert (Hw0 : w_players w !! sig_playerGuid s = None /\ sig_playerGuid s <> pl_guid p).
  { unfold FindPlayerNotInWorld, IsEmpty in Hnone. rewrite HP1 in Hnone. destruct (sig_playerGuid s =? 0) eqn:Hz; to_prop.
    - rewrite Hz. split; [|done]. apply eq_None_not_Some. intros [q Hq]. by destruct (inv_players _ _ _ Hw 0 q Hq) as (_ & _ & ? & _).
    - destruct (decide (sig_playerGuid s = pl_guid p)) as [He|Hne]; [|by rewrite lookup_alter_ne in Hnone].
      rewrite He, lookup_alter_eq, Hp in Hnone. done. }
  destruct Hw0 as [Hnp Hne]. rewrite HI1, lookup_insert_ne by done. by apply Hoff.
Qed.

Lemma turn_in_ok E id p charter w :
  scripts_keep_masters E -> world_ok w -> w_players w !! pl_guid p = Some p ->
  is_u 32 id -> id <> 0 -> m_GuildMap w !! id = None ->
  map_Forall (fun _ pt => Forall (fun s => is_u 32 (sig_playerGuid s) /\
    (w_players w !! sig_playerGuid s = None -> m_guid2guild w !! sig_playerGuid s = None)) (pt_signatures pt)) (m_petitionMap w) ->
  world_ok (HandleTurnInPetitionOpcode E id p charter w).
Proof.
  intros HE Hw Hp Hu Hn Hfree Hsig. unfold HandleTurnInPetitionOpcode. destruct charter as [[item pid]|]; [|done].
  destruct (GetPetitionById pid w) as [pt|] eqn:Hpt; [|done].
  repeat (match goal with |- world_ok (if ?c then _ else _) => destruct c; [done|] end).
  unfold Create_petition. pose proof (Create_ok E id p (pt_name pt) w HE Hw Hp Hu Hn Hfree) as Hc.
  destruct (Create E id p (pt_name pt) newGuild w) as [[ok g] w1] eqn:Ec. destruct Hc as [HG Hc].
  destruct ok; cbn [negb]; [|by eapply same_ok]. destruct Hc as (Hgw & Hid & (f & HP1) & HI1).
  pose proof (signatures_ok E id (pt_signatures pt) g w1 HE Hgw) as Hs.
  pose proof (signers_ok w w1 g p f id _ Hw Hp HP1 HI1 (Hsig _ _ Hpt)) as Hsigners.
  specialize (Hs Hsigners). revert Hs.
  destruct (foldl _ (g, w1) _) as [g2 w2]. intros [Hgw2 _].
  destruct (inv_at _ _ _ _ _ Hgw2) as (Hid2 & _).
  unfold world_ok, AddGuild, DeletePetition. cbn. rewrite Hid2. exact Hgw2.
Qed.

(** Every packet keeps the invariant, and its handler returns. *)
Lemma op_apply_ok E p op w :
  scripts_keep_masters E -> world_ok w -> w_players w !! pl_guid p = Some p -> op_ok op w ->
  exists w', op_apply E p op w = Some w' /\ world_ok w'.
Proof.
  intros HE Hw Hp Hop. destruct (player_facts w p Hw Hp) as (Hku & Hkz & Hkr).
  destruct op; cbn [op_apply op_ok] in *; try (eexists; split; [reflexivity|]).
  - destruct Hop as (? & ? & ?). by apply create_handler_ok.
  - by apply invite_handler_ok.
  - by apply remove_handler_ok.
  - by apply accept_handler_ok.
  - unfold HandleGuildDeclineOpcode. destruct (_ || _); [done|]. apply invited_ok. repeat case_match; done.
  - unfold HandleGuildInfoOpcode. destruct (GetGuildById _ w) as [g|] eqn:Hg; [|done].
    pose proof (gw_ok_start _ _ _ Hw Hg) as Hgw. unfold GetAccountsNumber.
    destruct (negb _); destruct (m_Created g) as [[? ?] ?]; [exact Hgw|].
    match goal with |- world_ok (emit _ (store _ (?g', _))) => change (gw_ok (pl_guildId p) g' w) end.
    apply (gw_ok_soft (pl_guildId p) g _ w); try done. exact (gw_ok_ranks _ _ _ Hgw).
  - unfold HandleGuildRosterOpcode. by destruct (GetGuildById _ w).
  - by apply promote_handler_ok.
  - by apply demote_handler_ok.
  - by apply leave_handler_ok.
  - unfold HandleGuildDisbandOpcode. destruct (GetGuildById _ w) as [g|] eqn:Hg; [|by eexists].
    destruct (negb _); [by eexists|]. eapply disband_ok. by apply gw_ok_start.
  - by apply leader_handler_ok.
  - unfold HandleGuildMOTDOpcode. destruct (_ <? _); [done|]. destruct (GetGuildById _ w) as [g|] eqn:Hg; [|done].
    destruct (negb _); [done|]. pose proof (gw_ok_start _ _ _ Hw Hg) as Hgw.
    change (gw_ok (pl_guildId p) (set_texts (m_Name g) text (m_info g) g) w).
    apply (gw_ok_soft (pl_guildId p) g _ w); try done. exact (gw_ok_ranks _ _ _ Hgw).
  - apply note_ok; [|done]. intros n s. unfold SetPublicNote. by case_match.
  - apply note_ok; [|done]. intros n s. unfold SetOfficerNote. by case_match.
  - unfold HandleGuildRankOpcode. apply leader_ok; [done|]. intros g Hgw. destruct (normalizePlayerName E name _ _) as [l|]; [|done].
    pose proof (SetRankName_ok E _ rankId l g w Hgw) as Hn. destruct (SetRankName E rankId l g w) as [g1 w1].
    set (r := if rankId =? GR_GUILDMASTER then GR_RIGHT_ALL else rights). pose proof (SetRankRights_ok _ rankId r g1 w1 Hn) as Hr.
    destruct (SetRankRights rankId r g1 w1) as [g2 w2]. exact Hr.
  - unfold HandleGuildAddRankOpcode. destruct (normalizePlayerName E name _ _); [|done]. apply leader_ok; [done|].
    intros g Hgw. destruct (_ <=? _); [done|]. unfold ranks_changed.
    match goal with |- context [CreateRank E ?n ?r g w] => pose proof (CreateRank_ok E _ n r g w Hgw) as Hc;
      destruct (CreateRank E n r g w) end. exact Hc.
  - unfold HandleGuildDelRankOpcode. apply leader_ok; [done|]. intros g Hgw. unfold ranks_changed.
    pose proof (DelRank_ok _ g w Hgw) as Hc. destruct (DelRank g w). exact Hc.
  - unfold HandleGuildChangeInfoTextOpcode. destruct (normalizePlayerName E text _ _) as [t|]; [|done]. destruct (_ <? _); [done|].
    destruct (GetGuildById _ w) as [g|] eqn:Hg; [|done]. destruct (negb _); [done|]. pose proof (gw_ok_start _ _ _ Hw Hg) as Hgw.
    change (gw_ok (pl_guildId p) (set_texts (m_Name g) (m_motd g) t g) w). apply (gw_ok_soft (pl_guildId p) g _ w); try done. exact (gw_ok_ranks _ _ _ Hgw).
  - eapply same_ok; [apply sign_same|done].
  - destruct Hop as (? & ? & ? & ?). by apply turn_in_ok.
Qed.

End Ops.

(** ** Properties *)

Definition set_inWorld (b : bool) (p : Player) : Player :=
  mkPlayer (pl_guid p) b (pl_name p) (pl_account p) (pl_level p) (pl_class p) (pl_zone p)
    (pl_team p) (pl_ignores p) (pl_gmNoSocials p) (pl_guildId p) (pl_rank p) (pl_guildIdInvited p).

(** A running server: packets of online players, logins with the guild the
    database has, logouts, and players entering and leaving the world. *)
Inductive server_step `{HashIter} `{MemberSort} (days : Z -> Z -> Z) : World -> World -> Prop :=
  | step_packet E p op w w' :
      scripts_keep_masters E -> w_players w !! pl_guid p = Some p -> op_ok op w ->
      op_apply days E p op w = Some w' -> server_step days w w'
  | step_login p w :
      w_players w !! pl_guid p = None -> is_u 32 (pl_guid p) -> pl_guid p <> 0 -> 0 <= pl_rank p < 2 ^ 31 ->
      (forall id, m_guid2guild w !! pl_guid p = Some id -> pl_guildId p = id /\ id <> 0) ->
      server_step days w (set_players (<[pl_guid p := p]> (w_players w)) w)
  | step_logout k w : server_step days w (set_players (delete k (w_players w)) w)
  | step_world k b w : server_step days w (upd_player k (set_inWorld b) w).

Lemma server_step_ok `{HashIter} `{MemberSort} days w w' : server_step days w w' -> world_ok w -> world_ok w'.
Proof.
  intros Hs Hw. destruct Hs as [E p op w w' HE Hp Hop Hrun|p w Hn Hu Hz Hr Hid|k w|k b w].
  - destruct (op_apply_ok days E p op w HE Hw Hp Hop) as (w2 & Hrun2 & Hok). congruence.
  - destruct Hw as [Hg Hi Hp Hx]. split; [done|done|by apply map_Forall_insert_2|].
    intros k q id Hq Hk. cbn in Hq, Hk. apply lookup_insert_Some in Hq as [[<- <-]|[_ Hq]]; [by apply Hid|by eapply Hx].
  - destruct Hw as [Hg Hi Hp Hx]. split; [done|done|by apply map_Forall_delete|].
    intros k' q id Hq Hk. cbn in Hq, Hk. apply lookup_delete_Some in Hq as [_ Hq]. by eapply Hx.
  - unfold world_ok. cbn. apply inv_player; [exact Hw|]. intros q Hq. cbn.
    destruct (inv_players _ _ _ Hw k q Hq) as (_ & _ & _ & ?). split_and!; [done|lia|lia|].
    intros id Hid. by destruct (inv_gid _ _ _ Hw k q id Hq Hid).
Qed.

(** C1: guilds stay sound: from any sound state, through any sequence of guild
    and petition packets of any players, logins, logouts and loading screens,
    every guild has a leader who is a member of rank 0, no other member has
    rank 0, it has between five and ten ranks, and every member is indexed
    under this guild and no other. *)
Theorem guilds_stay_sound `{HashIter} `{MemberSort} days w w' id g :
  world_ok w -> rtc (server_step days) w w' -> m_GuildMap w' !! id = Some g ->
  (exists s, members g !! m_LeaderGuid g = Some s /\ RankId s = GR_GUILDMASTER) /\
  (forall k s, members g !! k = Some s -> RankId s = GR_GUILDMASTER -> k = m_LeaderGuid g) /\
  GUILD_RANKS_MIN_COUNT <= GetRanksSize g <= GUILD_RANKS_MAX_COUNT /\
  (forall k, is_Some (members g !! k) -> m_guid2guild w' !! k = Some id).
Proof.
  intros Hw Hsteps Hg. assert (Hw' : world_ok w') by (induction Hsteps; [done|]; eauto using server_step_ok).
  destruct (inv_guilds _ _ _ Hw' id g Hg) as (_ & _ & _ & [Hl Hs Hr]).
  split; [exact Hl|]. split; [|split; [exact Hr|intros k Hk; exact (inv_index _ _ _ Hw' id g k Hg Hk)]].
  intros k s Hk Hz. destruct (Hs k s Hk) as (_ & _ & _ & _ & Hx). by apply Hx.
Qed.

Lemma guild_world_ok : world_ok example_world.
Proof.
  split.
  - apply map_Forall_singleton. split_and!; try (by vm_compute). split.
    + eexists. split; [by vm_compute|done].
    + apply map_Forall_insert_2; [by vm_compute|]. apply map_Forall_singleton. by vm_compute.
    + by vm_compute.
  - intros id g k Hg Hk. change (({[7 := example_guild]} : gmap Z Guild) !! id = Some g) in Hg.
    apply lookup_singleton_Some in Hg as [<- <-]. destruct Hk as [s Hk].
    unfold example_guild in Hk. cbn [members] in Hk. apply lookup_insert_Some in Hk as [[<- _]|[_ Hk]]; [reflexivity|].
    apply lookup_singleton_Some in Hk as [<- _]. reflexivity.
  - apply map_Forall_empty.
  - intros k p id Hp. discriminate Hp.
Qed.

(** A player of the example guild. *)
Definition example_player (guid rank : Z) : Player :=
  mkPlayer guid true (if guid =? 1 then str "Ann" else str "Bob") 1 60 1 12 469 [] false 7 rank 0.

Lemma guilds_stay_sound_witness :
  let _ := ordered_iter in let _ := rank_merge_sort in
  exists w' g, rtc (server_step (fun _ _ => 0)) example_world w' /\ m_GuildMap w' !! 7 = Some g /\ m_LeaderGuid g = 2 /\
  exists s, members g !! 2 = Some s /\ RankId s = GR_GUILDMASTER.
Proof.
  intros Hord Hsort.
  set (w1 := set_players {[1 := example_player 1 0]} example_world).
  set (w2 := HandleGuildLeaderOpcode example_env (example_player 1 0) (str "Bob") w1).
  assert (Hsteps : rtc (server_step (fun _ _ => 0)) example_world w2).
  { eapply rtc_l; [apply (step_login _ (example_player 1 0)); cbn; [done|by vm_compute|done|by vm_compute|intros id [= <-]; done]|].
    eapply rtc_l; [|apply rtc_refl].
    apply (step_packet _ example_env (example_player 1 0) (OpLeader (str "Bob"))); [|by vm_compute|done|reflexivity].
    intros id guid r Hr. cbn. by rewrite u8_id. }
  destruct (m_GuildMap w2 !! 7) as [g|] eqn:Hg; [|vm_compute in Hg; discriminate].
  exists w2, g. split; [done|]. split; [done|].
  assert (Hl : m_LeaderGuid g = 2) by (vm_compute in Hg; injection Hg as <-; reflexivity).
  split; [done|].
  destruct (proj1 (guilds_stay_sound (fun _ _ => 0) example_world w2 7 g guild_world_ok Hsteps Hg)) as (s & Hs & Hr).
  rewrite Hl in Hs. by exists s.
Defined.

(** C26: the handlers return: in a sound state the handler of every guild or
    petition packet produces a result, disbanding a guild of any size
    included. *)
Theorem guild_handlers_return `{HashIter} `{MemberSort} days E p op w :
  scripts_keep_masters E -> world_ok w -> w_players w !! pl_guid p = Some p -> op_ok op w ->
  is_Some (op_apply days E p op w).
Proof. intros HE Hw Hp Hop. destruct (op_apply_ok days E p op w HE Hw Hp Hop) as (w' & -> & _). by eexists. Qed.

Lemma guild_handlers_return_witness :
  let _ := ordered_iter in let _ := rank_merge_sort in
  is_Some (op_apply (fun _ _ => 0) example_env (example_player 1 0) OpDisband
    (set_players {[1 := example_player 1 0]} example_world)).
Proof.
  intros Hord Hsort. apply guild_handlers_return; [|..|done|done].
  - intros id guid r Hr. cbn. by rewrite u8_id.
  - destruct guild_world_ok as [Hg Hi _ _]. split; [exact Hg|exact Hi| |].
    + apply map_Forall_singleton. by vm_compute.
    + intros k p id Hp Hk. cbn in Hp. apply lookup_singleton_Some in Hp as [<- <-].
      cbn in Hk. injection Hk as <-. done.
Defined.
