(* ===== verification/GuildAuthority.v ===== *)
(** * GuildAuthority: who may do what in a guild

    What a right of a rank means, that a packet of a member without the right
    changes nothing, and that ranks bound whom a member can promote, demote or
    remove. *)
From S2P Require Import Prelude ByteBuffer ObjectGuid GuildData Guild GuildRoster GuildHandlers GuildSafety.

(** ** Rights *)

Lemma empty_right_bit i : 0 <= i -> Z.testbit GR_RIGHT_EMPTY i = bool_decide (i = 6).
Proof.
  intros Hi. change GR_RIGHT_EMPTY with (2 ^ 6). destruct (decide (i = 6)) as [->|Hne]; [done|].
  rewrite Z.pow2_bits_false by lia. by rewrite bool_decide_eq_false_2.
Qed.

Lemma HasRankRight_true rankId right g :
  HasRankRight rankId right g = true <-> Z.land (GetRankRights rankId g) right <> GR_RIGHT_EMPTY.
Proof. unfold HasRankRight. destruct (_ =? _) eqn:E; to_prop; cbn; split; congruence. Qed.

(** A set of bits with bit 6 is that bit alone, or has another one. *)
Lemma other_bit x :
  0 <= x -> Z.testbit x 6 = true -> x <> GR_RIGHT_EMPTY -> exists i, 0 <= i /\ i <> 6 /\ Z.testbit x i = true.
Proof.
  intros Hx H6 Hne. set (y := Z.ldiff x GR_RIGHT_EMPTY).
  assert (Hy0 : 0 <= y) by (apply Z.ldiff_nonneg; by left).
  assert (Hbit : forall i, 0 <= i -> Z.testbit y i = Z.testbit x i && negb (bool_decide (i = 6))).
  { intros i Hi. unfold y. by rewrite Z.ldiff_spec, empty_right_bit. }
  assert (Hy : y <> 0).
  { intros Hz. apply Hne, Z.bits_inj'. intros i Hi. rewrite empty_right_bit by done. specialize (Hbit i Hi).
    rewrite Hz, Z.bits_0 in Hbit. destruct (decide (i = 6)) as [->|Hn]; [done|].
    rewrite bool_decide_eq_false_2 in Hbit |- * by done. cbn in Hbit. by rewrite andb_true_r in Hbit. }
  pose proof (Z.log2_nonneg y) as Hl. pose proof (Z.bit_log2 y ltac:(lia)) as Hb. rewrite Hbit in Hb by done.
  apply andb_true_iff in Hb as [Hb1 Hb2]. exists (Z.log2 y). split_and!; [done| |done]. intros He.
  by rewrite He, bool_decide_eq_true_2 in Hb2.
Qed.

(** A right is held when the rank shares a bit with it beside the marker
    bit 6 that every right carries, or when the rank's own rights lack the
    marker: a rank identifier past the last rank, like the one of members
    whose rank was deleted, has rights 0 and with them every right. *)
Theorem rights_meaning g rankId right :
  0 <= right -> Z.testbit right 6 = true ->
  (HasRankRight rankId right g = true <->
   Z.testbit (GetRankRights rankId g) 6 = false \/
   exists i, 0 <= i /\ i <> 6 /\ Z.testbit right i = true /\ Z.testbit (GetRankRights rankId g) i = true) /\
  (GetRanksSize g <= rankId -> HasRankRight rankId right g = true).
Proof.
  intros Hr H6. rewrite HasRankRight_true. set (m := GetRankRights rankId g). split; [split|].
  - intros Hne. destruct (Z.testbit m 6) eqn:Hm; [right|by left].
    destruct (other_bit (Z.land m right)) as (i & Hi & Hi6 & Hb); [apply Z.land_nonneg; by right|by rewrite Z.land_spec, Hm, H6|done|].
    rewrite Z.land_spec in Hb. apply andb_true_iff in Hb as [? ?]. by exists i.
  - intros [Hm|(i & Hi & Hi6 & H1 & H2)] He.
    + assert (Hx : Z.testbit (Z.land m right) 6 = Z.testbit GR_RIGHT_EMPTY 6) by by rewrite He.
      by rewrite Z.land_spec, Hm in Hx.
    + assert (Hx : Z.testbit (Z.land m right) i = Z.testbit GR_RIGHT_EMPTY i) by by rewrite He.
      rewrite Z.land_spec, H1, H2, empty_right_bit, bool_decide_eq_false_2 in Hx by done. done.
  - intros Hsz. unfold m, GetRankRights. rewrite (proj2 (Z.leb_le _ _) Hsz), Z.land_0_l. done.
Qed.

Lemma rights_meaning_witness :
  HasRankRight 7 GR_RIGHT_REMOVE example_guild = true /\ GetRanksSize example_guild = 5.
Proof.
  split; [|reflexivity]. apply (rights_meaning example_guild 7 GR_RIGHT_REMOVE); [by vm_compute|reflexivity|by vm_compute].
Defined.

(** ** Packets without the right *)

Section Authority.
Context `{HashIter} `{MemberSort}.
Variable days_offline : Z -> Z -> Z.

(** The authority each packet asks for. *)
Definition entitled (p : Player) (op : guild_op) (g : Guild) : bool :=
  let right r := HasRankRight (pl_rank p) r g in
  match op with
  | OpInvite _ => right GR_RIGHT_INVITE
  | OpRemove _ => right GR_RIGHT_REMOVE
  | OpPromote _ => right GR_RIGHT_PROMOTE
  | OpDemote _ => right GR_RIGHT_DEMOTE
  | OpMOTD _ => right GR_RIGHT_SETMOTD
  | OpPublicNote _ _ => right GR_RIGHT_EPNOTE
  | OpOfficerNote _ _ => right GR_RIGHT_EOFFNOTE
  | OpInfoText _ => right GR_RIGHT_MODIFY_GUILD_INFO
  | OpDisband | OpLeader _ | OpRank _ _ _ | OpAddRank _ | OpDelRank => pl_guid p =? m_LeaderGuid g
  | _ => true
  end.

(** The world as it was, apart from at most one answer to the sender. *)
Definition refused (p : Player) (w w' : World) : Prop :=
  w' = w \/ exists data, w' = emit (SendPacket (pl_guid p) SMSG_GUILD_COMMAND_RESULT data) w.

Lemma refused_result p ty s r w : refused p w (SendGuildCommandResult p ty s r w).
Proof. right. by eexists. Qed.

Lemma refused_refl p w : refused p w w.
Proof. by left. Qed.

Local Hint Resolve refused_result refused_refl : core.

(** C16: a member without the right of a packet, or who is not the leader where
    the leader is asked for, changes nothing with it: players, guilds, index
    and petitions stay, and at most an error is sent back to the sender. *)
Theorem without_the_right_nothing_changes E p op w w' g :
  m_GuildMap w !! pl_guildId p = Some g -> entitled p op g = false ->
  op_apply days_offline E p op w = Some w' -> refused p w w'.
Proof.
  intros Hg Hr Hrun. change (GetGuildById (pl_guildId p) w = Some g) in Hg.
  destruct op; cbn [entitled] in Hr; try discriminate; cbn [op_apply] in Hrun;
    unfold HandleGuildInviteOpcode, HandleGuildRemoveOpcode, HandleGuildPromoteOpcode, HandleGuildDemoteOpcode,
      HandleGuildDisbandOpcode, HandleGuildLeaderOpcode, HandleGuildMOTDOpcode, HandleGuildSetPublicNoteOpcode,
      HandleGuildSetOfficerNoteOpcode, HandleGuildSetNote, HandleGuildRankOpcode, HandleGuildAddRankOpcode,
      HandleGuildDelRankOpcode, HandleGuildChangeInfoTextOpcode, as_leader in Hrun;
    rewrite Hg, ?Hr in Hrun; cbn [negb] in Hrun;
    repeat (case_match; try discriminate Hrun); simplify_eq; eauto; unfold not_in_guild, no_permission; auto.
Qed.

(** ** Ranks bound authority *)

(** What a promotion, demotion or removal by [p] did to the members: one of
    them at most, ranked below [p], got another rank below [p]'s, or left. *)
Definition ranked_below (p : Player) (m m' : gmap Z MemberSlot) : Prop :=
  m' = m \/
  exists k s, m !! k = Some s /\ pl_rank p < RankId s /\ RankId s <> GR_GUILDMASTER /\
    (m' = delete k m \/
     exists r, m' = <[k := set_rankid r s]> m /\ pl_rank p < r /\ k <> pl_guid p /\ (r = RankId s - 1 \/ r = RankId s + 1)).

Definition ranked_op (op : guild_op) : Prop :=
  match op with OpPromote _ | OpDemote _ | OpRemove _ => True | _ => False end.

Lemma ChangeRank_members r key g w s :
  members g !! key = Some s -> exists w', ChangeRank r key g w = (set_members (<[key := set_rankid r s]> (members g)) g, w') /\
    m_GuildMap w' = m_GuildMap w.
Proof. intros Hk. destruct (ChangeRank_spec r key g w s Hk) as (w' & Hc & _ & HG & _). by exists w'. Qed.

(** C15: ranks bound authority: in a sound state a promotion, demotion or
    removal by a player touches at most one member, who ranks strictly below
    the player and is not the leader; his new rank differs by one and is
    still strictly below the player's; leader, ranks and every other guild
    stay as they were. *)
Theorem ranks_bound_authority E p op w w' g :
  world_ok w -> w_players w !! pl_guid p = Some p -> m_GuildMap w !! pl_guildId p = Some g -> ranked_op op ->
  op_apply days_offline E p op w = Some w' ->
  exists g', m_GuildMap w' = <[pl_guildId p := g']> (m_GuildMap w) /\
    ranked_below p (members g) (members g') /\ m_LeaderGuid g' = m_LeaderGuid g /\ m_Ranks g' = m_Ranks g.
Proof.
  intros Hw Hp Hg Hop Hrun. destruct (player_facts w p Hw Hp) as (_ & _ & Hpr).
  change (GetGuildById (pl_guildId p) w = Some g) in Hg. pose proof (gw_ok_start _ _ _ Hw Hg) as Hgw.
  pose proof (gw_ok_guild _ _ _ Hgw) as Hok.
  assert (Hstay : exists g', m_GuildMap w = <[pl_guildId p := g']> (m_GuildMap w) /\
    ranked_below p (members g) (members g') /\ m_LeaderGuid g' = m_LeaderGuid g /\ m_Ranks g' = m_Ranks g).
  { exists g. rewrite insert_id by done. split_and!; [done|by left|done|done]. }
  destruct op; destruct Hop; cbn [op_apply] in Hrun.
  - unfold HandleGuildRemoveOpcode in Hrun. destruct (normalizePlayerName E name _ _) as [nm|]; [|by simplify_eq].
    destruct (negb (pl_inWorld p)); [by simplify_eq|]. rewrite Hg in Hrun. destruct (negb _); [by simplify_eq|].
    destruct (GetMemberSlot_name nm g) as [[key slot]|] eqn:Hs; [|by simplify_eq].
    destruct (_ =? _) eqn:Hgm; [by simplify_eq|]. destruct (_ <=? _) eqn:Hle; [by simplify_eq|]. to_prop.
    apply find_name in Hs. destruct (go_self g key slot Hok Hs) as (Hu & Hz & Hk & _). rewrite Hk in Hrun.
    pose proof (DelMember_ok E (pl_guildId p) key g w Hgw Hu (slot_not_leader g key slot Hok Hs Hgm)) as Hd.
    specialize (Hd ltac:(intros id' Hid'; rewrite (inv_own _ _ _ _ _ key Hgw (ltac:(by eexists))) in Hid'; congruence)).
    destruct (DelMember E key false g w) as [[last g1] w1]. destruct Hd as (_ & -> & HM & _ & HL & HR & HG).
    cbn in Hrun. injection Hrun as <-. cbn. rewrite HG. eexists. split; [reflexivity|]. cbn. rewrite HM.
    split_and!; [|done|done]. right. exists key, slot. split_and!; [done|lia|done|by left].
  - unfold HandleGuildPromoteOpcode in Hrun. destruct (normalizePlayerName E name _ _) as [nm|]; [|by simplify_eq].
    rewrite Hg in Hrun. destruct (negb _); [by simplify_eq|].
    destruct (GetMemberSlot_name nm g) as [[key slot]|] eqn:Hs; [|by simplify_eq].
    destruct (_ =? _) eqn:Hself; [by simplify_eq|]. destruct (_ <=? _) eqn:Hle; [by simplify_eq|]. to_prop.
    rewrite u32_id in Hle by (unfold is_u; lia).
    apply find_name in Hs. destruct (go_slots _ Hok key slot Hs) as (_ & _ & Hk & Hb & _).
    destruct (ChangeRank_members (u32 (RankId slot - 1)) key g w slot Hs) as (w1 & Hc & HG). rewrite Hc in Hrun.
    cbn in Hrun. injection Hrun as <-. cbn. rewrite HG. eexists. split; [reflexivity|]. cbn. split_and!; [|done|done].
    right. exists key, slot. unfold GR_GUILDMASTER. split_and!; [done|lia|lia|]. right. exists (u32 (RankId slot - 1)).
    rewrite u32_id by (unfold is_u; lia). split_and!; [done|lia|congruence|by left].
  - unfold HandleGuildDemoteOpcode in Hrun. destruct (normalizePlayerName E name _ _) as [nm|]; [|by simplify_eq].
    rewrite Hg in Hrun. destruct (negb _); [by simplify_eq|].
    destruct (GetMemberSlot_name nm g) as [[key slot]|] eqn:Hs; [|by simplify_eq].
    destruct (_ =? _) eqn:Hself; [by simplify_eq|]. destruct (RankId slot <=? pl_rank p) eqn:Hle; [by simplify_eq|].
    destruct (GetLowestRank g <=? RankId slot) eqn:Hlo; [by simplify_eq|]. to_prop.
    apply find_name in Hs. destruct (go_slots _ Hok key slot Hs) as (_ & _ & Hk & Hb & _).
    destruct (ChangeRank_members (u32 (RankId slot + 1)) key g w slot Hs) as (w1 & Hc & HG). rewrite Hc in Hrun.
    cbn in Hrun. injection Hrun as <-. cbn. rewrite HG. eexists. split; [reflexivity|]. cbn. split_and!; [|done|done].
    right. exists key, slot. unfold GR_GUILDMASTER. split_and!; [done|lia|lia|]. right. exists (u32 (RankId slot + 1)).
    rewrite u32_id by (unfold is_u; lia). split_and!; [done|lia|congruence|by right].
Qed.

End Authority.

Lemma without_the_right_nothing_changes_witness :
  let _ := ordered_iter in let _ := rank_merge_sort in
  exists w', op_apply (fun _ _ => 0) example_env (example_player 2 3) OpDisband example_world = Some w' /\
    refused (example_player 2 3) example_world w'.
Proof.
  intros Hord Hsort. eexists. split; [reflexivity|].
  apply (without_the_right_nothing_changes (fun _ _ => 0) example_env (example_player 2 3) OpDisband example_world _ example_guild);
    [reflexivity|by vm_compute|reflexivity].
Defined.

(** The example world with both members online. *)
Definition example_online : World :=
  set_players {[1 := example_player 1 0; 2 := example_player 2 3]} example_world.

Lemma example_online_ok : world_ok example_online.
Proof.
  destruct guild_world_ok as [Hg Hi _ _]. split; [exact Hg|exact Hi| |].
  - unfold example_online. cbn [w_players set_players]. apply map_Forall_insert_2; [by vm_compute|].
    apply map_Forall_singleton. by vm_compute.
  - intros k p id Hp Hk. unfold example_online in Hp. cbn [w_players set_players] in Hp.
    apply lookup_insert_Some in Hp as [[<- <-]|[_ Hp]]; [|apply lookup_singleton_Some in Hp as [<- <-]];
      vm_compute in Hk; by injection Hk as <-.
Qed.

Lemma ranks_bound_authority_witness :
  let _ := ordered_iter in let _ := rank_merge_sort in
  exists g', members g' !! 2 = Some (example_slot 2 2 (str "Bob")) /\ ranked_below (example_player 1 0) (members example_guild) (members g').
Proof.
  intros Hord Hsort.
  destruct (op_apply (fun _ _ => 0) example_env (example_player 1 0) (OpPromote (str "Bob")) example_online) as [w'|] eqn:Hrun;
    [|vm_compute in Hrun; discriminate].
  destruct (ranks_bound_authority (fun _ _ => 0) example_env (example_player 1 0) (OpPromote (str "Bob")) example_online w'
    example_guild example_online_ok ltac:(reflexivity) ltac:(reflexivity) I Hrun) as (g' & HG & Hb & _).
  exists g'. split; [|exact Hb].
  assert (Hg' : m_GuildMap w' !! 7 = Some g') by (rewrite HG; reflexivity).
  vm_compute in Hrun. injection Hrun as <-. vm_compute in Hg'. injection Hg' as <-. reflexivity.
Defined.
