(* ===== verification/GuildSuccession.v ===== *)
(** * GuildSuccession: who leads a guild next, and what disbanding leaves

    The choice of [GetSuitableNewLeader], the removal of a leader, and
    [Disband] as its callers see it. *)
From S2P Require Import Prelude ByteBuffer ObjectGuid GuildData Guild GuildRoster GuildHandlers GuildSafety.

Section Succession.
Context `{HashIter} `{MemberSort}.

(** ** The search for a new leader *)

(** A member other than [low], of the best rank among those. *)
Definition best_of (low : Z) (l : list (Z * MemberSlot)) (b : option (Z * MemberSlot)) : Prop :=
  match b with
  | None => forall kv, kv ∈ l -> fst kv = low
  | Some kv => kv ∈ l /\ fst kv <> low /\ forall kv', kv' ∈ l -> fst kv' <> low -> RankId (snd kv) <= RankId (snd kv')
  end.

Lemma suitable_spec low l : forall pre best old,
  best_of low pre best -> (old = Some low <-> low ∈ fst <$> pre) -> (old = None \/ old = Some low) ->
  let '(best', old') := foldl (suitable_step low) (best, old) l in
  best_of low (pre ++ l) best' /\ (old' = Some low <-> low ∈ fst <$> pre ++ l) /\ (old' = None \/ old' = Some low).
Proof.
  induction l as [|[k s] l IH]; intros pre best old Hb Ho Hc; [by rewrite app_nil_r|].
  cbn [foldl suitable_step fst snd]. rewrite cons_middle, app_assoc.
  destruct (k =? low) eqn:Hk; to_prop; apply IH.
  - subst k. destruct best as [kv|]; cbn in *.
    + destruct Hb as (Hin & Hne & Hmin). split_and!; [set_solver|done|]. intros kv' [Hi|Hi]%elem_of_app Hn; [by apply Hmin|].
      apply list_elem_of_singleton in Hi as ->. done.
    + intros kv' [Hi|Hi]%elem_of_app; [by apply Hb|]. by apply list_elem_of_singleton in Hi as ->.
  - subst k. split; [|done]. intros _. rewrite fmap_app. set_solver.
  - right. congruence.
  - destruct best as [[kb sb]|]; cbn in *.
    + destruct Hb as (Hin & Hne & Hmin). destruct (RankId s <? RankId sb) eqn:Hr; to_prop; cbn; (split_and!; [set_solver|done|]);
        intros kv' [Hi|Hi]%elem_of_app Hn; try (apply list_elem_of_singleton in Hi as ->; cbn; lia);
        specialize (Hmin _ Hi Hn); lia.
    + split_and!; [set_solver|done|]. intros kv' [Hi|Hi]%elem_of_app Hn; [by destruct Hn; apply Hb|].
      apply list_elem_of_singleton in Hi as ->. cbn. lia.
  - rewrite Ho, fmap_app. cbn. set_solver.
  - done.
Qed.

(** What [GetSuitableNewLeader] returns: a member of the best rank beside the
    leader, and the leader's own slot when he is a member. *)
Lemma GetSuitableNewLeader_spec g :
  is_u 32 (m_LeaderGuid g) ->
  let '(new, old) := GetSuitableNewLeader false g in
  old = (if members g !! m_LeaderGuid g then Some (m_LeaderGuid g) else None) /\
  match new with
  | None => forall k, is_Some (members g !! k) -> k = m_LeaderGuid g
  | Some k => exists s, members g !! k = Some s /\ k <> m_LeaderGuid g /\
      forall j s', members g !! j = Some s' -> j <> m_LeaderGuid g -> RankId s <= RankId s'
  end.
Proof.
  intros Hu. unfold GetSuitableNewLeader. rewrite (player_counter _ Hu).
  pose proof (suitable_spec (m_LeaderGuid g) (hash_iter (members g)) [] None None) as Hs.
  destruct (foldl _ _ _) as [best old].
  destruct Hs as (Hb & Ho & Hc); [intros kv Hkv; by apply elem_of_nil in Hkv|split; [done|cbn; intros Hx; by apply elem_of_nil in Hx]|by left|].
  cbn [app] in *. split.
  - destruct (members g !! m_LeaderGuid g) as [s|] eqn:Hl.
    + apply Ho. apply list_elem_of_fmap. exists (m_LeaderGuid g, s). split; [done|]. by apply elem_of_hash_iter.
    + destruct Hc as [->|Hc]; [done|]. apply Ho in Hc. apply list_elem_of_fmap in Hc as ([k s] & Hk & Hin).
      cbn in Hk. subst k. apply elem_of_hash_iter in Hin. congruence.
  - destruct best as [[k s]|]; cbn in *.
    + destruct Hb as (Hin & Hne & Hmin). exists s. apply elem_of_hash_iter in Hin. split_and!; [done|done|].
      intros j s' Hj Hnj. apply (Hmin (j, s')); [by apply elem_of_hash_iter|done].
    + intros k [s Hk]. apply (Hb (k, s)). by apply elem_of_hash_iter.
Qed.

(** The members after a succession. *)
Lemma SetNewLeader_members E new sn old so g w :
  members g !! new = Some sn -> members g !! old = Some so -> new <> old ->
  let '(g', w') := SetNewLeader E new (Some old) g w in
  members g' = <[old := set_rankid GR_OFFICER so]> (<[new := set_rankid GR_GUILDMASTER sn]> (members g)) /\
  m_Ranks g' = m_Ranks g /\ m_GuildMap w' = m_GuildMap w /\ m_guid2guild w' = m_guid2guild w.
Proof.
  intros Hn Ho Hne. unfold SetNewLeader, SetLeader. rewrite Hn.
  destruct (ChangeRank_spec GR_GUILDMASTER new (set_leader_guid (ms_guid sn) g) w sn Hn) as (w1 & -> & _ & HG1 & HI1).
  match goal with |- context [ChangeRank GR_OFFICER old ?g1 ?w2] =>
    destruct (ChangeRank_spec GR_OFFICER old g1 w2 so) as (w3 & -> & _ & HG3 & HI3) end.
  { cbn. by rewrite lookup_insert_ne. }
  cbn in *. split_and!; congruence.
Qed.

(** C25: when the leader is removed (his character is deleted), a member of the
    best rank among the others takes his place with rank 0, everybody else
    keeps rank and place, and the guild stays sound; only a guild without
    other members is handed back untouched to be disbanded. *)
Theorem leader_succession E id g w :
  gw_ok id g w ->
  let '(last, g', w') := DelMember E (m_LeaderGuid g) false g w in
  if last then (forall k, is_Some (members g !! k) -> k = m_LeaderGuid g) /\ g' = g /\ w' = w
  else gw_ok id g' w' /\ exists k s, members g !! k = Some s /\ k <> m_LeaderGuid g /\ m_LeaderGuid g' = k /\
    (forall j s', members g !! j = Some s' -> j <> m_LeaderGuid g -> RankId s <= RankId s') /\
    members g' = <[k := set_rankid GR_GUILDMASTER s]> (delete (m_LeaderGuid g) (members g)).
Proof.
  intros Hw. pose proof (gw_ok_guild _ _ _ Hw) as Hok. destruct (go_leader _ Hok) as (sl & Hl & _).
  destruct (go_self _ _ _ Hok Hl) as (Hu & Hz & _). pose proof (GetSuitableNewLeader_spec g Hu) as Hs.
  unfold DelMember. rewrite Z.eqb_refl. cbn [andb negb].
  destruct (GetSuitableNewLeader false g) as [[k|] old]; destruct Hs as [-> Hs]; [|by split_and!].
  destruct Hs as (s & Hk & Hne & Hmin). rewrite Hl.
  pose proof (SetNewLeader_ok E id k s g w Hw Hk Hne) as Hn.
  pose proof (SetNewLeader_members E k s (m_LeaderGuid g) sl g w Hk Hl Hne) as Hm.
  destruct (SetNewLeader E k (Some (m_LeaderGuid g)) g w) as [g1 w1].
  destruct Hn as (Hgw1 & Hl1 & Hid1 & _). destruct Hm as (HM & _ & HG & HI).
  set (w2 := BroadcastEvent E GE_LEFT _ _ g1 w1).
  pose proof (DelMember_ok E id (m_LeaderGuid g) g1 w2 Hgw1 Hu ltac:(congruence)) as Hd. unfold DelMember in Hd.
  rewrite (proj2 (Z.eqb_neq (m_LeaderGuid g1) (m_LeaderGuid g))) in Hd by congruence. cbn [andb] in Hd.
  assert (Hidx : forall id', m_guid2guild w2 !! m_LeaderGuid g = Some id' -> id' = id).
  { intros id' Hid'. change (m_guid2guild w1 !! m_LeaderGuid g = Some id') in Hid'.
    rewrite HI, (inv_own _ _ _ _ _ (m_LeaderGuid g) Hw) in Hid' by (by eexists). congruence. }
  specialize (Hd Hidx). destruct (erase_member E (m_LeaderGuid g) false g1 w2) as [[last g'] w'].
  destruct Hd as (Hgw' & -> & HM' & _ & HL' & _). split; [done|].
  exists k, s. split_and!; [done|done|congruence|done|].
  rewrite HM', HM, delete_insert_eq, delete_insert_ne by done. done.
Qed.

(** ** Disbanding *)

(** C27: disbanding: the leader's packet unregisters exactly this guild, takes
    every member out of the index, and frees those that are in the world of
    guild and rank; other guilds, players and index entries stay. *)
Theorem disbanding_frees_the_members E p w g :
  world_ok w -> m_GuildMap w !! pl_guildId p = Some g -> m_LeaderGuid g = pl_guid p ->
  exists w', HandleGuildDisbandOpcode E p w = Some w' /\ world_ok w' /\
    m_GuildMap w' = delete (pl_guildId p) (m_GuildMap w) /\
    forall k, if members g !! k
      then m_guid2guild w' !! k = None /\ w_players w' !! k = left_guild <$> w_players w !! k
      else m_guid2guild w' !! k = m_guid2guild w !! k /\ w_players w' !! k = w_players w !! k.
Proof.
  intros Hw Hg Hl. unfold HandleGuildDisbandOpcode, GetGuildById. rewrite Hg, Hl, Z.eqb_refl. cbn [negb].
  pose proof (gw_ok_start _ _ _ Hw Hg) as Hgw. destruct (inv_at _ _ _ _ _ Hgw) as (Hid & _ & _ & Hok).
  destruct (Disband_ok E true (pl_guildId p) g w (gw_ok_without _ _ _ Hgw) Hid (fun k => inv_own _ _ _ _ _ k Hgw)) as
    (g' & w' & Hrun & _ & Hw' & HG & Hall).
  { intros k s Hk. destruct (go_slots _ Hok k s Hk) as (? & ? & _). done. }
  exists w'. unfold disband. rewrite Hrun. split_and!; [done|done|done|]. intros k. destruct (Hall k) as [HI HP].
  destruct (members g !! k); by rewrite HI, HP.
Qed.

End Succession.

Lemma leader_succession_witness :
  let _ := ordered_iter in let _ := rank_merge_sort in
  let '(last, g', w') := DelMember example_env 1 false example_guild example_world in
  last = false /\ exists k, m_LeaderGuid g' = k /\ k <> 1.
Proof.
  intros Hord Hsort.
  pose proof (leader_succession example_env 7 example_guild example_world (gw_ok_start 7 example_guild example_world guild_world_ok eq_refl)) as Hs.
  change (m_LeaderGuid example_guild) with 1 in Hs.
  destruct (DelMember example_env 1 false example_guild example_world) as [[last g'] w'] eqn:Hd.
  assert (Hlast : last = false) by (vm_compute in Hd; by injection Hd as <- _ _).
  rewrite Hlast in Hs |- *. destruct Hs as (_ & k & s & _ & Hne & Hk & _). split; [done|]. by exists k.
Defined.

Lemma disbanding_frees_the_members_witness :
  let _ := ordered_iter in let _ := rank_merge_sort in
  exists w', HandleGuildDisbandOpcode example_env (example_player 1 0) example_world = Some w' /\ m_GuildMap w' !! 7 = None.
Proof.
  intros Hord Hsort.
  destruct (disbanding_frees_the_members example_env (example_player 1 0) example_world example_guild guild_world_ok eq_refl eq_refl)
    as (w' & Hrun & _ & HG & _).
  exists w'. split; [exact Hrun|]. rewrite HG. apply lookup_delete_eq.
Defined.
