(* ===== verification/GuildLoading.v ===== *)
(** * GuildLoading: from the rows of the database to sound guilds

    The cursors over the tables of ranks and members that all guilds share
    while they are loaded. *)
From S2P Require Import Prelude ByteBuffer ObjectGuid GuildData Guild GuildRoster GuildHandlers GuildSafety GuildSuccession.

(** ** Filters of sorted rows *)

Section Sorted.
Context {A : Type} (key : A -> Z).

Lemma later_all id x l :
  StronglySorted (fun a b => key a <= key b) (x :: l) -> id < key x ->
  filter (fun r => id < key r) (x :: l) = x :: l /\ filter (fun r => key r = id) (x :: l) = [] /\
  filter (fun r => key r <= id) (x :: l) = [].
Proof.
  intros Hs Hlt. apply StronglySorted_inv in Hs as [_ Hle].
  assert (Hall : Forall (fun r => id < key r) (x :: l)).
  { apply Forall_cons. split; [done|]. eapply Forall_impl; [exact Hle|]. intros a Ha. cbn in Ha. lia. }
  split_and!; [by apply filter_all|apply filter_none|apply filter_none];
    (eapply Forall_impl; [exact Hall|]); intros a Ha; cbn in Ha; lia.
Qed.
End Sorted.

Section Loading.
Context `{HashIter} `{MemberSort}.

(** ** The cursor of the members *)

Definition by_guild (a b : MemberRow) : Prop := mr_guildid a <= mr_guildid b.

Definition load_row (E : Env) (g : Guild) (m : gmap Z MemberSlot) (r : MemberRow) : gmap Z MemberSlot :=
  match load_member E r g with Some s => <[mr_guid r := s]> m | None => m end.
Definition index_row (E : Env) (g : Guild) (I : gmap Z Z) (r : MemberRow) : gmap Z Z :=
  match load_member E r g with Some _ => <[mr_guid r := m_Id g]> I | None => I end.
(** What the loop deletes for a row: all rows of a guild that was not loaded,
    or the broken row. *)
Definition row_cleanup (E : Env) (g : Guild) (r : MemberRow) : list Out :=
  if mr_guildid r <? m_Id g then [PExecute (SqlDeleteMembersOf (mr_guildid r))]
  else match load_member E r g with Some _ => [] | None => [PExecute (SqlDeleteMember (mr_guid r))] end.

Lemma load_member_ranks E r g g' : m_Ranks g' = m_Ranks g -> load_member E r g' = load_member E r g.
Proof. intros Hr. unfold load_member, GetLowestRank, GetRanksSize. by rewrite Hr. Qed.

Lemma LoadMembers_fold E rows : forall g w,
  StronglySorted by_guild rows ->
  LoadMembers_loop E rows g w =
    (filter (fun r => m_Id g < mr_guildid r) rows,
     set_members (foldl (load_row E g) (members g) (filter (fun r => mr_guildid r = m_Id g) rows)) g,
     emits (flat_map (row_cleanup E g) (filter (fun r => mr_guildid r <= m_Id g) rows))
       (set_guid2guild (foldl (index_row E g) (m_guid2guild w) (filter (fun r => mr_guildid r = m_Id g) rows)) w)).
Proof.
  assert (Hnil : forall w, emits [] (set_guid2guild (m_guid2guild w) w) = w).
  { intros []. unfold emits, set_guid2guild. cbn. by rewrite app_nil_r. }
  induction rows as [|r rows IH]; intros g w Hsort; cbn [LoadMembers_loop].
  { cbn. rewrite Hnil. by destruct g. }
  destruct (m_Id g <? mr_guildid r) eqn:Hgt; to_prop.
  { rewrite (proj2 (Z.ltb_ge _ _)) by lia.
    destruct (later_all mr_guildid (m_Id g) r rows Hsort Hgt) as (-> & -> & ->). cbn. rewrite Hnil. by destruct g. }
  apply StronglySorted_inv in Hsort as [Hsort _]. rewrite filter_cons_False by lia.
  rewrite (filter_cons_True (fun r => mr_guildid r <= m_Id g)) by lia. cbn [flat_map]. unfold row_cleanup at 1.
  destruct (mr_guildid r <? m_Id g) eqn:Hlt; to_prop.
  { rewrite IH by done. rewrite filter_cons_False by lia. unfold emits, emit, set_guid2guild. cbn. by rewrite <- app_assoc. }
  rewrite (filter_cons_True (fun r => mr_guildid r = m_Id g)) by lia. cbn [foldl].
  unfold load_row at 2, index_row at 2. destruct (load_member E r g) as [s|] eqn:Hl; rewrite IH by done; [reflexivity|].
  unfold emits, emit, set_guid2guild. cbn. by rewrite <- app_assoc.
Qed.

Lemma load_rows_lookup E g l : forall m k s,
  NoDup (mr_guid <$> l) -> (forall r, r ∈ l -> m !! mr_guid r = None) ->
  foldl (load_row E g) m l !! k = Some s <->
  m !! k = Some s \/ exists r, r ∈ l /\ mr_guid r = k /\ load_member E r g = Some s.
Proof.
  induction l as [|r l IH]; intros m k s Hnd Hfree; cbn [foldl].
  { split; [by left|]. intros [?|(r & Hr & _)]; [done|by apply elem_of_nil in Hr]. }
  cbn in Hnd. apply NoDup_cons in Hnd as [Hni Hnd].
  assert (Hin : forall r', r' ∈ l -> mr_guid r' <> mr_guid r).
  { intros r' Hr' He. apply Hni. rewrite <- He. by apply list_elem_of_fmap_2. }
  rewrite IH; [|done|].
  - unfold load_row. destruct (load_member E r g) as [s0|] eqn:Hl.
    + rewrite lookup_insert_Some. split.
      * intros [[[<- ->]|[_ Hm]]|(r' & Hr' & Hc)]; [right; exists r; split; [by left|done]|by left|].
        right. exists r'. split; [by right|done].
      * intros [Hm|(r' & Hr' & Hk & Hld)]; [left; right; split; [|done]|].
        -- intros <-. rewrite Hfree in Hm; [done|by left].
        -- apply elem_of_cons in Hr' as [->|Hr']; [left; left; split; congruence|right; by exists r'].
    + split; (intros [?|(r' & Hr' & Hk & Hld)]; [by left|right]); exists r'.
      * split; [by right|done].
      * apply elem_of_cons in Hr' as [->|Hr']; [congruence|done].
  - intros r' Hr'. unfold load_row. destruct (load_member E r g); [|apply Hfree; by right].
    rewrite lookup_insert_ne; [apply Hfree; by right|]. intros He. by apply (Hin r').
Qed.

(** The index follows the members. *)
Lemma index_rows E g l : forall m I,
  foldl (index_row E g) (((fun _ => m_Id g) <$> m) ∪ I) l = ((fun _ => m_Id g) <$> foldl (load_row E g) m l) ∪ I.
Proof.
  induction l as [|r l IH]; intros m I; [done|]. cbn [foldl]. rewrite <- IH. f_equal.
  unfold index_row, load_row. destruct (load_member E r g); [|done]. by rewrite fmap_insert, insert_union_l.
Qed.

(** What the cursor may delete: rows of guilds that were not loaded, and
    broken rows of this guild. *)
Definition member_cleanup (E : Env) (g : Guild) (rows : list MemberRow) (o : Out) : Prop :=
  exists r, r ∈ rows /\
    ((mr_guildid r < m_Id g /\ o = PExecute (SqlDeleteMembersOf (mr_guildid r))) \/
     (mr_guildid r = m_Id g /\ load_member E r g = None /\ o = PExecute (SqlDeleteMember (mr_guid r)))).

Lemma cleanup_spec E g rows o :
  o ∈ flat_map (row_cleanup E g) (filter (fun r => mr_guildid r <= m_Id g) rows) -> member_cleanup E g rows o.
Proof.
  rewrite list_elem_of_In, in_flat_map. intros (r & Hr%list_elem_of_In & Ho%list_elem_of_In).
  apply list_elem_of_filter in Hr as [Hle Hr]. exists r. split; [done|]. unfold row_cleanup in Ho.
  destruct (_ <? _) eqn:Hlt; to_prop; [left; by apply list_elem_of_singleton in Ho|right].
  destruct (load_member E r g); [by apply elem_of_nil in Ho|]. apply list_elem_of_singleton in Ho. split_and!; [lia|done|done].
Qed.

(** The cursor over [guild_member], which all guilds share, gives a guild
    without members exactly its own valid rows: the rest of the cursor are the
    rows of later guilds, the members are the valid rows of this guild, the
    index gains exactly the members, and nothing is deleted but rows of guilds
    that do not exist and broken rows of this guild. *)
Theorem members_cursor E rows g w :
  StronglySorted by_guild rows -> NoDup (mr_guid <$> rows) -> members g = ∅ ->
  let '(rest, g', w') := LoadMembers_loop E rows g w in
  rest = filter (fun r => m_Id g < mr_guildid r) rows /\
  (forall k s, members g' !! k = Some s <->
     exists r, r ∈ rows /\ mr_guildid r = m_Id g /\ mr_guid r = k /\ load_member E r g = Some s) /\
  m_guid2guild w' = ((fun _ => m_Id g) <$> members g') ∪ m_guid2guild w /\
  (exists outs, w_out w' = w_out w ++ outs /\ Forall (member_cleanup E g rows) outs) /\
  g' = set_members (members g') g /\ w_players w' = w_players w /\ m_GuildMap w' = m_GuildMap w.
Proof.
  intros Hsort Hnd He. rewrite LoadMembers_fold by done. cbn. rewrite He.
  split_and!; [done| |by rewrite <- index_rows, fmap_empty, map_empty_union| |done|done|done].
  - intros k s. rewrite load_rows_lookup, lookup_empty.
    + split; [intros [?|(r & [Hid Hr]%list_elem_of_filter & Hk & Hl)]; [done|by exists r]|].
      intros (r & Hr & Hid & Hk & Hl). right. exists r. rewrite list_elem_of_filter. done.
    + eapply sublist_NoDup; [exact Hnd|]. apply fmap_sublist, sublist_filter.
    + intros r _. apply lookup_empty.
  - eexists. split; [reflexivity|]. apply Forall_forall. intros o. apply cleanup_spec.
Qed.

(** ** The cursor of the ranks *)

Definition rank_guild (r : Z * Z * list Z * Z) : Z := r.1.1.1.
Definition ranks_by_guild (a b : Z * Z * list Z * Z) : Prop := rank_guild a <= rank_guild b.

(** The ranks cursor leaves the later rows and adds one rank for each row of
    the guild. *)
Lemma LoadRanks_spec rows : forall broken g w,
  StronglySorted ranks_by_guild rows ->
  let '(rest, _, g', w') := LoadRanks_loop rows broken g w in
  rest = filter (fun r => m_Id g < rank_guild r) rows /\
  GetRanksSize g' = GetRanksSize g + Z.of_nat (length (filter (fun r => rank_guild r = m_Id g) rows)) /\
  g' = set_ranks (m_Ranks g') g /\ same w w'.
Proof.
  induction rows as [|[[[gid rid] name] rights] rows IH]; intros broken g w Hsort; cbn [LoadRanks_loop].
  { split_and!; [done|cbn; lia|by destruct g|done]. }
  destruct (m_Id g <? gid) eqn:Hgt; to_prop.
  { rewrite (proj2 (Z.ltb_ge _ _)) by lia.
    destruct (later_all rank_guild (m_Id g) (gid, rid, name, rights) rows Hsort Hgt) as (-> & -> & _).
    split_and!; [done|cbn; lia|by destruct g|done]. }
  apply StronglySorted_inv in Hsort as [Hsort _]. rewrite filter_cons_False by (cbn; lia).
  destruct (gid <? m_Id g) eqn:Hlt; to_prop.
  { specialize (IH broken g (emit (PExecute (SqlDeleteRanksOf gid)) w) Hsort).
    destruct (LoadRanks_loop rows broken g _) as [[[rest b] g'] w']. destruct IH as (-> & Hn & Hg & Hs).
    rewrite filter_cons_False by (cbn; lia). by split_and!. }
  match goal with |- context [LoadRanks_loop rows ?b ?g1 w] => specialize (IH b g1 w Hsort); destruct (LoadRanks_loop rows b g1 w) as [[[rest b'] g'] w'] end.
  destruct IH as (-> & Hn & Hg & Hs). rewrite filter_cons_True by (cbn; lia). split_and!; [done| |by rewrite Hg|done].
  rewrite Hn. unfold GetRanksSize, AddRank. cbn [m_Ranks set_ranks m_Id]. rewrite length_app. cbn [length]. lia.
Qed.

(** [LoadRanksFromDB] gives five to ten ranks when the table has at most ten. *)
Lemma LoadRanksFromDB_spec E rows g w :
  (forall rs, rows = Some rs -> StronglySorted ranks_by_guild rs /\
     Z.of_nat (length (filter (fun r => rank_guild r = m_Id g) rs)) <= GUILD_RANKS_MAX_COUNT) -> m_Ranks g = [] ->
  let '(rest, g', w') := LoadRanksFromDB E rows g w in
  rest = filter (fun r => m_Id g < rank_guild r) <$> rows /\
  GUILD_RANKS_MIN_COUNT <= GetRanksSize g' <= GUILD_RANKS_MAX_COUNT /\ same w w' /\
  m_LeaderGuid g' = m_LeaderGuid g /\ members g' = members g /\ m_Id g' = m_Id g.
Proof.
  intros Hrows Hr. unfold LoadRanksFromDB. destruct rows as [rs|].
  - destruct (Hrows rs eq_refl) as [Hsort Hmax]. pose proof (LoadRanks_spec rs false g w Hsort) as Hs.
    destruct (LoadRanks_loop rs false g w) as [[[rest broken] g1] w1]. destruct Hs as (-> & Hn & Hg & Hsame).
    assert (Hn0 : GetRanksSize g = 0) by (unfold GetRanksSize; by rewrite Hr).
    assert (Hf : m_LeaderGuid g1 = m_LeaderGuid g /\ members g1 = members g /\ m_Id g1 = m_Id g) by (rewrite Hg; done).
    destruct Hf as (HL & HM & HI). destruct (GetRanksSize g1 <? GUILD_RANKS_MIN_COUNT) eqn:Hlt; to_prop.
    + pose proof (default_ranks E (set_ranks [] g1) w1 eq_refl) as Hd.
      destruct (CreateDefaultGuildRanks E (set_ranks [] g1) w1) as [g2 w2].
      destruct Hd as (-> & Hs2 & HL2 & HM2 & HI2 & _). cbn in HL2, HM2, HI2.
      split_and!; try done; try congruence. by eapply same_trans.
    + split_and!; try done; try lia. destruct broken; [|done]. exact Hsame.
  - pose proof (default_ranks E g w Hr) as Hd. destruct (CreateDefaultGuildRanks E g w) as [g2 w2].
    destruct Hd as (-> & Hs2 & HL2 & HM2 & HI2 & _). by split_and!.
Qed.

End Loading.

(** Rows of four members; the first names no guild that is loaded. *)
Definition example_row (guild guid rank level : Z) : MemberRow :=
  mkMemberRow guild guid rank [] [] (str "Ann") level 1 12 0 1.
Definition example_rows : list MemberRow :=
  [example_row 5 8 0 60; example_row 7 1 3 60; example_row 7 2 0 60; example_row 9 3 0 0].

Lemma example_sorted : StronglySorted by_guild example_rows.
Proof. repeat constructor; unfold by_guild; by vm_compute. Qed.
Lemma example_distinct : NoDup (mr_guid <$> example_rows).
Proof. by apply (bool_decide_unpack _). Qed.

Lemma members_cursor_witness :
  let _ := ordered_iter in
  let g := set_ranks (replicate 5 (mkRankInfo [] GR_RIGHT_ALL)) (LoadGuildFromDB example_env (mkGuildRow 7 [] 1 (0, 0, 0, 0, 0) [] [] 0) newGuild) in
  (LoadMembers_loop example_env example_rows g (mkWorld ∅ ∅ ∅ ∅ [])).1.1 = filter (fun r => 7 < mr_guildid r) example_rows.
Proof.
  intros Hord g.
  pose proof (members_cursor example_env example_rows g (mkWorld ∅ ∅ ∅ ∅ []) example_sorted
    example_distinct eq_refl) as Hc.
  destruct (LoadMembers_loop example_env example_rows g (mkWorld ∅ ∅ ∅ ∅ [])) as [[rest g'] w']. exact (proj1 Hc).
Defined.

(** ** What [CheckGuildStructure] makes of a loaded guild

    A guild as the tables give it may have no leader, or one without rank 0,
    or other members of rank 0. [CheckGuildStructure] repairs all of this, and
    [LoadGuilds] therefore leaves a sound world. *)

(** A guild with its slots and ranks in order, whoever leads it. *)
Record loaded (g : Guild) : Prop := {
  ld_leader : is_u 32 (m_LeaderGuid g);
  ld_slots : map_Forall (fun k s => is_u 32 k /\ k <> 0 /\ ms_guid s = k /\ 0 <= RankId s < 2 ^ 31) (members g);
  ld_ranks : GUILD_RANKS_MIN_COUNT <= GetRanksSize g <= GUILD_RANKS_MAX_COUNT
}.

(** The leader is a member of rank 0. *)
Definition led (g : Guild) : Prop := exists s, members g !! m_LeaderGuid g = Some s /\ RankId s = GR_GUILDMASTER.

(** A loaded guild beside the registered ones. *)
Record gw_raw (id : Z) (g : Guild) (w : World) : Prop := {
  gr_without : without id w;
  gr_mid : m_Id g = id;
  gr_own : forall k, is_Some (members g !! k) -> m_guid2guild w !! k = Some id;
  gr_loaded : loaded g
}.

Section Repair.
Context `{HashIter} `{MemberSort}.

Lemma ChangeRank_raw id r key g w s :
  gw_raw id g w -> members g !! key = Some s -> 0 <= r < 2 ^ 31 ->
  let '(g', w') := ChangeRank r key g w in
  gw_raw id g' w' /\ g' = set_members (<[key := set_rankid r s]> (members g)) g /\
  m_GuildMap w' = m_GuildMap w /\ m_guid2guild w' = m_guid2guild w.
Proof.
  intros [Hwo Hid Hown [Hlu Hs Hr]] Hk Hb. pose proof (ChangeRank_players r key g w s Hk Hb) as Hc.
  destruct (ChangeRank r key g w) as [g' w']. destruct Hc as (-> & HG & HI & Hp). split_and!; [|done|done|done].
  destruct (Hs key s Hk) as (? & ? & ? & _). split; [|done| |split; [done| |done]].
  - unfold without in *. rewrite HG, HI. by apply Hp.
  - intros k Hk'. rewrite HI. apply Hown. cbn in Hk'. destruct (decide (k = key)) as [->|Hne]; [by eexists|].
    by rewrite lookup_insert_ne in Hk'.
  - cbn. apply map_Forall_insert_2; [|done]. cbn. split_and!; try done; lia.
Qed.

Lemma SetLeader_raw id key g w s :
  gw_raw id g w -> members g !! key = Some s ->
  let '(g', w') := SetLeader key g w in
  gw_raw id g' w' /\ led g' /\ m_LeaderGuid g' = key /\ members g' = <[key := set_rankid GR_GUILDMASTER s]> (members g) /\
  m_GuildMap w' = m_GuildMap w /\ m_guid2guild w' = m_guid2guild w.
Proof.
  intros Hw Hk. destruct (ld_slots _ (gr_loaded _ _ _ Hw) key s Hk) as (Hu & _ & Hg & _). unfold SetLeader. rewrite Hk, Hg.
  assert (Hw1 : gw_raw id (set_leader_guid key g) w) by (destruct Hw as [? ? ? [? ? ?]]; by split).
  pose proof (ChangeRank_raw id GR_GUILDMASTER key _ w s Hw1 Hk ltac:(by vm_compute)) as Hc.
  destruct (ChangeRank GR_GUILDMASTER key _ w) as [g' w']. destruct Hc as (Hw' & -> & HG & HI).
  split_and!; try done; [destruct Hw' as [? ? ? ?]; by split|]. exists (set_rankid GR_GUILDMASTER s). cbn. by rewrite lookup_insert_eq.
Qed.

(** ** The first part: a leader of rank 0 *)

Definition ensure_leader (E : Env) (g : Guild) (w : World) : bool * Guild * World :=
  let GM_rights := GetRank (m_LeaderGuid g) g in
  if GM_rights =? -1 then DelMember E (m_LeaderGuid g) false g w
  else if negb (GM_rights =? GR_GUILDMASTER) then let '(g, w) := SetLeader_guid (m_LeaderGuid g) g w in (false, g, w)
  else (false, g, w).

Lemma ensure_leader_ok E id g w :
  gw_raw id g w -> members g <> ∅ -> (forall id', m_guid2guild w !! m_LeaderGuid g = Some id' -> id' = id) ->
  let '(disband, g', w') := ensure_leader E g w in
  disband = false /\ gw_raw id g' w' /\ led g' /\ m_GuildMap w' = m_GuildMap w /\
  (forall k, is_Some (members g' !! k) <-> is_Some (members g !! k)) /\
  (forall k, is_Some (m_guid2guild w' !! k) -> m_guid2guild w' !! k = m_guid2guild w !! k) /\
  (forall k, k <> m_LeaderGuid g -> m_guid2guild w' !! k = m_guid2guild w !! k).
Proof.
  intros Hw Hne Hidx. pose proof (gr_loaded _ _ _ Hw) as [Hlu Hs Hr]. unfold ensure_leader, GetRank, GetMemberSlot.
  rewrite (player_counter _ Hlu). destruct (members g !! m_LeaderGuid g) as [s|] eqn:Hl; cbn [fmap option_fmap option_map].
  - destruct (Hs _ _ Hl) as (_ & _ & _ & Hb). rewrite i32_id by (unfold is_i32; lia).
    rewrite (proj2 (Z.eqb_neq _ _)) by lia. destruct (RankId s =? GR_GUILDMASTER) eqn:Hz; to_prop; cbn [negb].
    + split_and!; try done. by exists s.
    + unfold SetLeader_guid, GetMemberSlot. rewrite (player_counter _ Hlu), Hl. cbn [fmap option_fmap option_map].
      pose proof (SetLeader_raw id _ g w s Hw Hl) as Hc. destruct (SetLeader _ g w) as [g' w'].
      destruct Hc as (Hw' & Hled & _ & HM & HG & HI). split_and!; try done; try (intros; by rewrite HI). intros k. rewrite HM.
      destruct (decide (k = m_LeaderGuid g)) as [->|Hn]; [rewrite lookup_insert_eq, Hl; split; by eexists|by rewrite lookup_insert_ne].
  - cbn [Z.eqb]. pose proof (GetSuitableNewLeader_spec g Hlu) as Hsl. unfold DelMember. rewrite Z.eqb_refl. cbn [andb negb].
    destruct (GetSuitableNewLeader false g) as [new old]. destruct Hsl as [-> Hsl]. rewrite Hl. destruct new as [k|].
    2: { destruct Hne. apply map_empty. intros k. apply eq_None_not_Some. intros Hk. rewrite (Hsl k Hk) in Hk.
         rewrite Hl in Hk. by destruct Hk. }
    destruct Hsl as (s & Hk & Hnk & _). unfold SetNewLeader. pose proof (SetLeader_raw id k g w s Hw Hk) as Hc.
    destruct (SetLeader k g w) as [g1 w1]. destruct Hc as (Hw1 & Hled & HL1 & HM1 & HG1 & HI1).
    assert (Hnm : members g1 !! m_LeaderGuid g = None) by (rewrite HM1; by rewrite lookup_insert_ne).
    pose proof (erase_member_ok E id (m_LeaderGuid g) false g1 w1 Hlu (gr_without _ _ _ Hw1) (gr_own _ _ _ Hw1)) as He.
    rewrite HI1 in He. specialize (He Hidx). destruct (erase_member E (m_LeaderGuid g) false g1 w1) as [[last g2] w2].
    destruct He as (Hwo & Hown & HM & HL & HR & HI & -> & Hix & HG & _). rewrite (delete_id _ _ Hnm) in HM.
    assert (Hmem : forall j, is_Some (members g2 !! j) <-> is_Some (members g !! j)).
    { intros j. rewrite HM, HM1. destruct (decide (j = k)) as [->|Hn]; [rewrite lookup_insert_eq, Hk; split; by eexists|by rewrite lookup_insert_ne]. }
    destruct Hw1 as [_ Hid1 _ [Hlu1 Hs1 Hr1]]. split_and!.
    + apply bool_decide_eq_false_2. rewrite HM, HM1. apply insert_non_empty.
    + split; [done|congruence|done|split; [congruence|by rewrite HM|unfold GetRanksSize in *; by rewrite HR]].
    + destruct Hled as (sl & ? & ?). exists sl. by rewrite HM, HL.
    + congruence.
    + done.
    + intros j Hj. rewrite Hix in Hj. rewrite Hix. destruct (decide (m_LeaderGuid g = j)) as [<-|Hn].
      * rewrite lookup_delete_eq in Hj. by destruct Hj.
      * by rewrite lookup_delete_ne.
    + intros j Hj. rewrite Hix. by rewrite lookup_delete_ne.
Qed.

(** ** The second part: no other member of rank 0 *)

Definition demote_step : Guild * World -> Z * MemberSlot -> Guild * World := fun '(g, w) kv =>
  match members g !! fst kv with
  | Some s => if (RankId s =? GR_GUILDMASTER) && negb (m_LeaderGuid g =? ms_guid s)
              then ChangeRank GR_OFFICER (fst kv) g w else (g, w)
  | None => (g, w)
  end.

Lemma demote_step_ok id g w kv :
  gw_raw id g w -> led g ->
  let '(g', w') := demote_step (g, w) kv in
  gw_raw id g' w' /\ led g' /\ m_LeaderGuid g' = m_LeaderGuid g /\ m_GuildMap w' = m_GuildMap w /\ m_guid2guild w' = m_guid2guild w /\
  (forall k, is_Some (members g' !! k) <-> is_Some (members g !! k)) /\
  (forall k s, members g' !! k = Some s -> RankId s = GR_GUILDMASTER -> k <> m_LeaderGuid g -> members g !! k = Some s /\ k <> fst kv).
Proof.
  intros Hw (sl & Hl & Hl0). unfold demote_step. destruct (members g !! fst kv) as [s|] eqn:Hk.
  2: { split_and!; try done; [by exists sl|]. intros k s Hs _ _. split; [done|]. intros ->. congruence. }
  destruct (ld_slots _ (gr_loaded _ _ _ Hw) _ _ Hk) as (_ & _ & Hg & _). rewrite Hg.
  destruct (RankId s =? GR_GUILDMASTER) eqn:Hz; destruct (m_LeaderGuid g =? fst kv) eqn:Hld; to_prop; cbn [andb negb].
  1, 3, 4: split_and!; try done; [by exists sl|]; intros k s' Hs' Hz' Hnl; split; [done|]; intros ->; congruence.
  pose proof (ChangeRank_raw id GR_OFFICER (fst kv) g w s Hw Hk ltac:(by vm_compute)) as Hc.
  destruct (ChangeRank GR_OFFICER (fst kv) g w) as [g' w']. destruct Hc as (Hw' & -> & HG & HI). split_and!; try done.
  - exists sl. cbn. by rewrite lookup_insert_ne.
  - intros k. cbn. destruct (decide (k = fst kv)) as [->|Hn]; [rewrite lookup_insert_eq, Hk; split; by eexists|by rewrite lookup_insert_ne].
  - intros k s' Hs' Hz' _. cbn in Hs'. apply lookup_insert_Some in Hs' as [[<- <-]|[Hn Hs']]; [done|]. split; [done|congruence].
Qed.

Lemma demote_loop_ok id l : forall g w,
  gw_raw id g w -> led g ->
  let '(g', w') := foldl demote_step (g, w) l in
  gw_raw id g' w' /\ led g' /\ m_LeaderGuid g' = m_LeaderGuid g /\ m_GuildMap w' = m_GuildMap w /\ m_guid2guild w' = m_guid2guild w /\
  (forall k, is_Some (members g' !! k) <-> is_Some (members g !! k)) /\
  (forall k s, members g' !! k = Some s -> RankId s = GR_GUILDMASTER -> k <> m_LeaderGuid g ->
     members g !! k = Some s /\ k ∉ fst <$> l).
Proof.
  induction l as [|kv l IH]; intros g w Hw Hled; cbn [foldl].
  { split_and!; try done. intros. split; [done|]. cbn. apply not_elem_of_nil. }
  pose proof (demote_step_ok id g w kv Hw Hled) as Hd. destruct (demote_step (g, w) kv) as [g1 w1].
  destruct Hd as (Hw1 & Hled1 & HL1 & HG1 & HI1 & HM1 & Hz1). specialize (IH g1 w1 Hw1 Hled1).
  destruct (foldl demote_step (g1, w1) l) as [g' w']. destruct IH as (Hw' & Hled' & HL' & HG' & HI' & HM' & Hz').
  split_and!; try done; try congruence; [intros k; by rewrite HM'|]. intros k s Hs Hr Hn.
  destruct (Hz' k s Hs Hr ltac:(congruence)) as [Hs1 Hni]. destruct (Hz1 k s Hs1 Hr Hn) as [Hs0 Hne]. split; [done|].
  cbn. apply not_elem_of_cons. done.
Qed.

(** ** The whole check *)

Lemma CheckGuildStructure_unfold E g w :
  CheckGuildStructure E g w =
    let '(disband, g, w) := ensure_leader E g w in
    if disband then (false, g, w) else let '(g, w) := foldl demote_step (g, w) (hash_iter (members g)) in (true, g, w).
Proof. reflexivity. Qed.

Lemma CheckGuildStructure_ok E id g w :
  gw_raw id g w -> is_u 32 id -> id <> 0 -> members g <> ∅ ->
  (forall id', m_guid2guild w !! m_LeaderGuid g = Some id' -> id' = id) ->
  let '(ok, g', w') := CheckGuildStructure E g w in
  ok = true /\ gw_ok id g' w' /\ m_Id g' = id /\ m_GuildMap w' = m_GuildMap w /\
  (forall k, is_Some (members g' !! k) <-> is_Some (members g !! k)) /\
  (forall k, k <> m_LeaderGuid g -> m_guid2guild w' !! k = m_guid2guild w !! k) /\
  (forall k, is_Some (m_guid2guild w' !! k) -> m_guid2guild w' !! k = m_guid2guild w !! k).
Proof.
  intros Hw Hu Hz Hne Hidx. rewrite CheckGuildStructure_unfold. pose proof (ensure_leader_ok E id g w Hw Hne Hidx) as He.
  destruct (ensure_leader E g w) as [[disband g1] w1]. destruct He as (-> & Hw1 & Hled1 & HG1 & HM1 & Hi1 & Hn1).
  pose proof (demote_loop_ok id (hash_iter (members g1)) g1 w1 Hw1 Hled1) as Hd.
  destruct (foldl demote_step (g1, w1) (hash_iter (members g1))) as [g2 w2].
  destruct Hd as (Hw2 & Hled2 & HL2 & HG2 & HI2 & HM2 & Hz2). destruct Hw2 as [Hwo Hid Hown [Hlu Hs Hr]].
  split_and!; [done| |done|congruence|intros k; by rewrite HM2|intros k Hk; rewrite HI2; by apply Hn1|intros k Hk; rewrite HI2 in *; by apply Hi1].
  apply inv_put; try done. split; [done| |done]. intros k s Hk. destruct (Hs k s Hk) as (? & ? & ? & ?).
  split_and!; try done; try lia. intros Hr0. destruct (decide (k = m_LeaderGuid g2)) as [|Hnl]; [done|].
  destruct (Hz2 k s Hk Hr0 ltac:(congruence)) as [Hs1 Hni]. destruct Hni.
  apply list_elem_of_fmap. exists (k, s). split; [done|]. by apply elem_of_hash_iter.
Qed.

End Repair.
