(* ===== verification/GuildStartup.v ===== *)
(** * GuildStartup: [LoadGuilds] leaves a sound world

    The tables of guilds, ranks and members, read with their shared cursors,
    give every guild with a valid member row exactly these members, repaired
    to be sound; the other guilds are disbanded. *)
From S2P Require Import Prelude ByteBuffer ObjectGuid GuildData Guild GuildRoster GuildHandlers GuildSafety GuildSuccession GuildLoading.

(** The rows of [guild_member] the loader accepts. *)
Definition row_valid (r : MemberRow) : bool :=
  negb ((mr_level r <? 1) || (PLAYER_STRONG_MAX_LEVEL <? mr_level r)) && playable_class (mr_class r) && bool_decide (mr_name r <> []).

(** What the tables guarantee: keys, the order of the queries, identifiers
    that are not 0, at most ten ranks, and leaders that are in no other guild. *)
Record tables_ok (rows : list GuildRow) (ranks : option (list (Z * Z * list Z * Z))) (mrows : list MemberRow) : Prop := {
  to_guilds : StronglySorted (fun a b => gr_id a < gr_id b) rows;
  to_ids : Forall (fun r => is_u 32 (gr_id r) /\ gr_id r <> 0 /\ is_u 32 (gr_leader r)) rows;
  to_ranks : forall rs id, ranks = Some rs -> StronglySorted ranks_by_guild rs /\
    Z.of_nat (length (filter (fun r => rank_guild r = id) rs)) <= GUILD_RANKS_MAX_COUNT;
  to_members : StronglySorted by_guild mrows;
  to_guids : NoDup (mr_guid <$> mrows);
  to_mids : Forall (fun m => is_u 32 (mr_guid m) /\ mr_guid m <> 0 /\ 0 <= mr_rank m) mrows;
  to_leaders : forall r m, r ∈ rows -> m ∈ mrows -> mr_guid m = gr_leader r -> mr_guildid m = gr_id r
}.

Section Startup.
Context `{HashIter} `{MemberSort}.

Lemma load_member_valid E r g : is_Some (load_member E r g) <-> row_valid r = true.
Proof.
  unfold load_member, row_valid. destruct (_ || _); cbn; [by split; [intros []|]|].
  destruct (playable_class _); cbn; [|by split; [intros []|]].
  destruct (decide (mr_name r = [])) as [He|He].
  - rewrite bool_decide_eq_true_2, bool_decide_eq_false_2 by (done || tauto). by split; [intros []|].
  - rewrite bool_decide_eq_false_2, bool_decide_eq_true_2 by done. split; [done|by eexists].
Qed.

Lemma load_member_slot E r g s :
  GUILD_RANKS_MIN_COUNT <= GetRanksSize g <= GUILD_RANKS_MAX_COUNT -> is_u 32 (mr_guid r) -> 0 <= mr_rank r ->
  load_member E r g = Some s -> ms_guid s = mr_guid r /\ 0 <= RankId s < 2 ^ 31.
Proof.
  unfold GUILD_RANKS_MIN_COUNT, GUILD_RANKS_MAX_COUNT. intros Hr Hu Hk Hl. unfold load_member in Hl.
  destruct (_ || _); [done|]. destruct (negb _); [done|]. destruct (bool_decide _); [done|]. injection Hl as <-.
  cbn [ms_guid RankId]. rewrite (player_guid_low _ Hu). split; [done|].
  destruct (GetRanksSize g <=? mr_rank r) eqn:Hs; to_prop; [|lia]. unfold GetLowestRank. rewrite u32_id by (unfold is_u; lia). lia.
Qed.

(** The cursor of the members on the state of a start: no players, and rows
    that are not indexed yet. *)
Lemma LoadMembers_raw E id rows g w :
  world_ok w -> w_players w = ∅ -> m_GuildMap w !! id = None -> m_Id g = id -> members g = ∅ -> is_u 32 (m_LeaderGuid g) ->
  GUILD_RANKS_MIN_COUNT <= GetRanksSize g <= GUILD_RANKS_MAX_COUNT ->
  StronglySorted by_guild rows -> NoDup (mr_guid <$> rows) ->
  Forall (fun m => is_u 32 (mr_guid m) /\ mr_guid m <> 0 /\ 0 <= mr_rank m) rows ->
  (forall m, m ∈ rows -> m_guid2guild w !! mr_guid m = None) ->
  let '(rest, g', w') := LoadMembers_loop E rows g w in
  rest = filter (fun r => id < mr_guildid r) rows /\ gw_raw id g' w' /\ m_LeaderGuid g' = m_LeaderGuid g /\
  (forall k, is_Some (members g' !! k) <-> exists m, m ∈ rows /\ mr_guildid m = id /\ mr_guid m = k /\ row_valid m = true) /\
  m_guid2guild w' = ((fun _ => id) <$> members g') ∪ m_guid2guild w /\ w_players w' = ∅ /\ m_GuildMap w' = m_GuildMap w.
Proof.
  intros Hw HP Hfree Hid He Hlu Hr Hsort Hnd Hall Hni. rewrite LoadMembers_fold by done. rewrite Hid, He.
  set (own := filter (fun r => mr_guildid r = id) rows). set (ms := foldl (load_row E g) ∅ own).
  assert (Hms : forall k s, ms !! k = Some s <-> exists m, m ∈ rows /\ mr_guildid m = id /\ mr_guid m = k /\ load_member E m g = Some s).
  { intros k s. unfold ms. rewrite load_rows_lookup, lookup_empty.
    - split; [intros [?|(m & [Hm Hin]%list_elem_of_filter & Hk & Hl)]; [done|by exists m]|].
      intros (m & Hm & Hg & Hk & Hl). right. exists m. unfold own. by rewrite list_elem_of_filter.
    - eapply sublist_NoDup; [exact Hnd|]. apply fmap_sublist, sublist_filter.
    - intros m _. apply lookup_empty. }
  assert (Hidx : foldl (index_row E g) (m_guid2guild w) own = ((fun _ => id) <$> ms) ∪ m_guid2guild w).
  { rewrite <- Hid. unfold ms. rewrite <- index_rows, fmap_empty, map_empty_union. done. }
  rewrite Hidx. rewrite Forall_forall in Hall. split_and!; try done; [|intros k; split].
  - cbn. split; cbn; [| done | |split].
    + destruct Hw as [Hg Hi Hp Hx]. unfold without. cbn. split; [by apply map_Forall_delete| |by rewrite HP|].
      * intros id' g' k Hg' Hk. apply lookup_delete_Some in Hg' as [_ Hg']. pose proof (Hi id' g' k Hg' Hk) as Hik.
        rewrite lookup_union_r; [done|]. rewrite lookup_fmap, fmap_None. apply eq_None_not_Some. intros [s Hs].
        apply Hms in Hs as (m & Hm & _ & <- & _). rewrite (Hni m Hm) in Hik. done.
      * intros k p id' Hk. rewrite HP in Hk. by rewrite lookup_empty in Hk.
    + intros k [s Hs]. apply lookup_union_Some_l. by rewrite lookup_fmap, Hs.
    + done.
    + intros k s Hs. apply Hms in Hs as (m & Hm & _ & <- & Hl). destruct (Hall m Hm) as (Hu & Hz & Hk).
      destruct (load_member_slot E m g s Hr Hu Hk Hl) as [Hg Hb]. split_and!; try done; lia.
    + done.
  - intros [s Hs]. apply Hms in Hs as (m & Hm & Hg & Hk & Hl). exists m. split_and!; try done. apply (load_member_valid E m g). by eexists.
  - intros (m & Hm & Hg & Hk & Hv). apply (load_member_valid E m g) in Hv as [s Hs]. exists s. cbn. apply Hms. by exists m.
Qed.

(** ** No player comes online while guilds are loaded *)

Definition offline (w w' : World) : Prop := forall k, w_players w !! k = None -> w_players w' !! k = None.

Lemma offline_refl w : offline w w.
Proof. by intros k. Qed.
Local Hint Resolve offline_refl : core.

Lemma offline_alter f k w : offline w (upd_player k f w).
Proof.
  intros j Hj. cbn. destruct (decide (j = k)) as [->|Hn]; [by rewrite lookup_alter_eq, Hj|by rewrite lookup_alter_ne].
Qed.

Lemma offline_same w w' : same w w' -> offline w w'.
Proof. intros (HP & _) k. by rewrite HP. Qed.

Lemma offline_ChangeRank r k g w : offline w (ChangeRank r k g w).2.
Proof.
  unfold ChangeRank. destruct (members g !! k) as [s|]; [|done]. cbn.
  destruct (GetPlayer (ms_guid s) w); intros j Hj; [exact (offline_alter _ _ w j Hj)|exact Hj].
Qed.

Lemma offline_SetLeader k g w : offline w (SetLeader k g w).2.
Proof.
  unfold SetLeader. destruct (members g !! k) as [s|]; [|done].
  pose proof (offline_ChangeRank GR_GUILDMASTER k (set_leader_guid (ms_guid s) g) w) as Hc.
  destruct (ChangeRank GR_GUILDMASTER k _ w). exact Hc.
Qed.

Lemma offline_erase E k dis g w : offline w (erase_member E k dis g w).2.
Proof.
  unfold erase_member. cbn [snd]. destruct (GetPlayer k _); intros j Hj; [exact (offline_alter _ k w j Hj)|exact Hj].
Qed.

Lemma offline_SetNewLeader E new old g w : offline w (SetNewLeader E new old g w).2.
Proof.
  unfold SetNewLeader. pose proof (offline_SetLeader new g w) as Hl. destruct (SetLeader new g w) as [g1 w1].
  destruct old as [o|]; [|done]. pose proof (offline_ChangeRank GR_OFFICER o g1 w1) as Hc.
  destruct (ChangeRank GR_OFFICER o g1 w1) as [g2 w2]. intros k Hk. apply Hc. by apply Hl.
Qed.

Lemma offline_DelMember E k dis g w : offline w (DelMember E k dis g w).2.
Proof.
  unfold DelMember. destruct (_ && _); [|apply offline_erase]. destruct (GetSuitableNewLeader false g) as [[best|] old]; [|done].
  pose proof (offline_SetNewLeader E best old g w) as Hn. destruct (SetNewLeader E best old g w) as [g1 w1].
  intros j Hj. apply offline_erase. destruct old; by apply Hn.
Qed.

Lemma offline_ensure E g w : offline w (ensure_leader E g w).2.
Proof.
  unfold ensure_leader. destruct (_ =? -1); [apply offline_DelMember|]. destruct (negb _); [|done].
  unfold SetLeader_guid. destruct (GetMemberSlot _ g) as [[k s]|]; [|done].
  pose proof (offline_SetLeader k g w) as Hl. by destruct (SetLeader k g w).
Qed.

Lemma offline_demote l : forall g w, offline w (foldl demote_step (g, w) l).2.
Proof.
  induction l as [|kv l IH]; intros g w; [done|]. cbn [foldl].
  assert (Hd : offline w (demote_step (g, w) kv).2).
  { unfold demote_step. destruct (members g !! fst kv); [|done]. destruct (_ && _); [|done]. apply offline_ChangeRank. }
  destruct (demote_step (g, w) kv) as [g1 w1]. intros k Hk. apply IH. by apply Hd.
Qed.

Lemma offline_check E g w : offline w (CheckGuildStructure E g w).2.
Proof.
  rewrite CheckGuildStructure_unfold. pose proof (offline_ensure E g w) as He. destruct (ensure_leader E g w) as [[d g1] w1].
  destruct d; [done|]. pose proof (offline_demote (hash_iter (members g1)) g1 w1) as Hd.
  destruct (foldl demote_step (g1, w1) _) as [g2 w2]. intros k Hk. apply Hd. by apply He.
Qed.

Lemma offline_empty w w' : offline w w' -> w_players w = ∅ -> w_players w' = ∅.
Proof. intros Ho He. apply map_empty. intros k. apply Ho. by rewrite He. Qed.

(** ** One guild *)

Definition load_one (E : Env) (r : GuildRow) (ranks : option (list (Z * Z * list Z * Z))) (mrows : option (list MemberRow)) (w : World) :=
  let g := LoadGuildFromDB E r newGuild in
  let '(ranks, g, w) := LoadRanksFromDB E ranks g w in
  let '(ok, mrows, g, w) := LoadMembersFromDB E mrows g w in
  let '(ok, g, w) := if ok then CheckGuildStructure E g w else (false, g, w) in
  (ok, ranks, mrows, g, w).

(** The rows of [mrows] that make the members of a guild. *)
Definition rows_of (id k : Z) (mrows : list MemberRow) : Prop :=
  exists m, m ∈ mrows /\ mr_guildid m = id /\ mr_guid m = k /\ row_valid m = true.

Lemma load_one_ok E r rows ranks mrows w :
  tables_ok (r :: rows) ranks mrows -> world_ok w -> w_players w = ∅ -> m_GuildMap w !! gr_id r = None ->
  (forall m, m ∈ mrows -> m_guid2guild w !! mr_guid m = None) -> m_guid2guild w !! gr_leader r = None ->
  let '(ok, ranks', mrows', g, w') := load_one E r ranks (Some mrows) w in
  ranks' = filter (fun x => gr_id r < rank_guild x) <$> ranks /\ mrows' = Some (filter (fun m => gr_id r < mr_guildid m) mrows) /\
  m_Id g = gr_id r /\ m_GuildMap w' = m_GuildMap w /\ w_players w' = ∅ /\
  (forall k, is_Some (members g !! k) <-> rows_of (gr_id r) k mrows) /\
  (forall k, is_Some (m_guid2guild w' !! k) -> m_guid2guild w !! k = m_guid2guild w' !! k \/ rows_of (gr_id r) k mrows) /\
  if ok then gw_ok (gr_id r) g w' else members g = ∅ /\ without (gr_id r) w'.
Proof.
  intros Ht Hw HP Hfree Hni Hnl. pose proof (to_ids _ _ _ Ht) as Hids. apply Forall_cons in Hids as [(Hu & Hz & Hlu) _]. unfold load_one.
  set (g0 := LoadGuildFromDB E r newGuild).
  pose proof (LoadRanksFromDB_spec E ranks g0 w (fun rs He => to_ranks _ _ _ Ht rs _ He) eq_refl) as Hr.
  destruct (LoadRanksFromDB E ranks g0 w) as [[ranks' g1] w1]. destruct Hr as (-> & Hsz & (HP1 & HG1 & HI1) & HL1 & HM1 & Hid1).
  change (m_Id g0) with (gr_id r) in *. cbn in HL1. rewrite (player_guid_low _ Hlu) in HL1.
  unfold LoadMembersFromDB. pose proof (LoadMembers_raw E (gr_id r) mrows g1 w1) as Hm.
  rewrite HP1, HG1, HI1, HL1 in Hm.
  assert (Hw1 : world_ok w1) by (by apply (same_ok w w1)).
  specialize (Hm Hw1 HP Hfree Hid1 HM1 Hlu Hsz
    (to_members _ _ _ Ht) (to_guids _ _ _ Ht) (to_mids _ _ _ Ht) Hni).
  destruct (LoadMembers_loop E mrows g1 w1) as [[rest g2] w2]. destruct Hm as (-> & Hraw & HL2 & Hmem & HI2 & HP2 & HG2).
  assert (Hback : forall k, is_Some (m_guid2guild w2 !! k) -> m_guid2guild w !! k = m_guid2guild w2 !! k \/ rows_of (gr_id r) k mrows).
  { intros k _. rewrite HI2. destruct (members g2 !! k) as [s|] eqn:Hk; [right; apply Hmem; by eexists|left].
    rewrite lookup_union_r; [done|]. by rewrite lookup_fmap, Hk. }
  destruct (bool_decide (members g2 = ∅)) eqn:Hemp; to_prop.
  { split_and!; try done; [by destruct Hraw|by destruct Hraw]. }
  set (g2' := UpdateAccountsNumber g2).
  assert (Hraw' : gw_raw (gr_id r) g2' w2) by (destruct Hraw as [? ? ? [? ? ?]]; by split).
  pose proof (CheckGuildStructure_ok E (gr_id r) g2' w2 Hraw' Hu Hz Hemp) as Hc.
  assert (Hlead : forall id', m_guid2guild w2 !! m_LeaderGuid g2' = Some id' -> id' = gr_id r).
  { intros id' Hid'. change (m_LeaderGuid g2') with (m_LeaderGuid g2) in Hid'. rewrite HL2, HI2 in Hid'.
    apply lookup_union_Some_raw in Hid' as [Hid'|[_ Hid']]; [|congruence].
    rewrite lookup_fmap in Hid'. destruct (members g2 !! gr_leader r); cbn in Hid'; congruence. }
  specialize (Hc Hlead). pose proof (offline_check E g2' w2) as Hoff.
  destruct (CheckGuildStructure E g2' w2) as [[ok g3] w3].
  destruct Hc as (-> & Hgw & Hid3 & HG3 & HM3 & _ & Hi3). split_and!; try done; [congruence|by eapply offline_empty| |].
  - intros k. rewrite HM3. apply Hmem.
  - intros k Hk. rewrite (Hi3 k Hk) in Hk |- *. by apply Hback.
Qed.

(** ** All guilds *)

Lemma tables_ok_next r rows ranks mrows :
  tables_ok (r :: rows) ranks mrows ->
  tables_ok rows (filter (fun x => gr_id r < rank_guild x) <$> ranks) (filter (fun m => gr_id r < mr_guildid m) mrows).
Proof.
  intros [Hg Hi Hr Hm Hn Hu Hl]. split.
  - by apply StronglySorted_inv in Hg as [? _].
  - by apply Forall_cons in Hi as [_ ?].
  - intros rs id Hrs. destruct ranks as [rs0|]; [|done]. injection Hrs as <-. destruct (Hr rs0 id eq_refl) as [Hs Hle].
    split; [by apply filter_sorted|]. etrans; [|exact Hle]. apply inj_le, filter_filter_length.
  - by apply filter_sorted.
  - eapply sublist_NoDup; [exact Hn|]. apply fmap_sublist, sublist_filter.
  - rewrite Forall_forall in Hu |- *. intros m [_ Hin]%list_elem_of_filter. by apply Hu.
  - intros r' m Hr' Hm'. apply list_elem_of_filter in Hm' as [_ Hm']. apply Hl; [by right|done].
Qed.

Lemma rows_of_next id id' k mrows : id < id' -> rows_of id' k (filter (fun m => id < mr_guildid m) mrows) <-> rows_of id' k mrows.
Proof.
  intros Hlt. split; intros (m & Hm & Hg & Hk & Hv); exists m.
  - by apply list_elem_of_filter in Hm as [_ Hm].
  - rewrite list_elem_of_filter. split_and!; try done. lia.
Qed.

Lemma LoadGuilds_unfold E r rows ranks mrows logs w :
  LoadGuilds_loop E (r :: rows) ranks mrows logs w =
    let '(ok, ranks, mrows, g, w) := load_one E r ranks mrows w in
    if ok then LoadGuilds_loop E rows ranks mrows logs (AddGuild (LoadGuildEventLogFromDB (logs (m_Id g)) g) w)
    else match Disband E false g w with
         | None => None
         | Some (_, w) => LoadGuilds_loop E rows ranks mrows logs w
         end.
Proof.
  cbn [LoadGuilds_loop]. unfold load_one. destruct (LoadRanksFromDB E ranks _ w) as [[rk g1] w1].
  destruct (LoadMembersFromDB E mrows g1 w1) as [[[ok mr] g2] w2]. destruct ok; [|reflexivity].
  by destruct (CheckGuildStructure E g2 w2) as [[ok g3] w3].
Qed.

(** The guild [r] of the tables after loading: registered with exactly the
    members the rows name, or dropped for want of any. *)
Definition guild_loaded (mrows : list MemberRow) (w : World) (id : Z) : Prop :=
  match m_GuildMap w !! id with
  | Some g => forall k, is_Some (members g !! k) <-> rows_of id k mrows
  | None => forall k, ~ rows_of id k mrows
  end.

(** One guild of the loop, registered or disbanded. *)
Lemma load_step E r rows ranks mrows logs w :
  tables_ok (r :: rows) ranks mrows -> world_ok w -> w_players w = ∅ -> m_GuildMap w !! gr_id r = None ->
  (forall m, m ∈ mrows -> m_guid2guild w !! mr_guid m = None) -> m_guid2guild w !! gr_leader r = None ->
  exists w1, LoadGuilds_loop E (r :: rows) ranks (Some mrows) logs w =
    LoadGuilds_loop E rows (filter (fun x => gr_id r < rank_guild x) <$> ranks)
      (Some (filter (fun m => gr_id r < mr_guildid m) mrows)) logs w1 /\
  world_ok w1 /\ w_players w1 = ∅ /\ guild_loaded mrows w1 (gr_id r) /\
  (forall id, id <> gr_id r -> m_GuildMap w1 !! id = m_GuildMap w !! id) /\
  (forall k, is_Some (m_guid2guild w1 !! k) -> m_guid2guild w !! k = m_guid2guild w1 !! k \/ rows_of (gr_id r) k mrows).
Proof.
  intros Ht Hw HP Hfree Hni Hnl. rewrite LoadGuilds_unfold.
  pose proof (load_one_ok E r rows ranks mrows w Ht Hw HP Hfree Hni Hnl) as Hone.
  destruct (load_one E r ranks (Some mrows) w) as [[[[ok rk] mr] g] w1].
  destruct Hone as (-> & -> & Hid & HG & HP1 & HM & HI & Hok). destruct ok.
  - eexists. split; [reflexivity|]. set (g' := LoadGuildEventLogFromDB (logs (m_Id g)) g).
    assert (Hg' : m_LeaderGuid g' = m_LeaderGuid g /\ members g' = members g /\ m_Id g' = m_Id g /\ m_Ranks g' = m_Ranks g).
    { unfold g', LoadGuildEventLogFromDB. by destruct (logs (m_Id g)) as [|[? ?] ?]. }
    destruct Hg' as (HL' & HM' & Hid' & HR'). split_and!; [|exact HP1| | |exact HI].
    + unfold AddGuild, world_ok. cbn. rewrite Hid', Hid. apply (gw_ok_soft (gr_id r) g g' w1 w1); try done.
      unfold GetRanksSize. rewrite HR'. exact (gw_ok_ranks _ _ _ Hok).
    + unfold guild_loaded, AddGuild. cbn. rewrite Hid', Hid, lookup_insert_eq. intros k. rewrite HM'. apply HM.
    + intros id Hne. unfold AddGuild. cbn. rewrite Hid', Hid, lookup_insert_ne by done. by rewrite HG.
  - destruct Hok as [Hemp Hwo].
    destruct (Disband_ok E false (gr_id r) g w1 Hwo Hid) as (g' & w' & Hrun & _ & Hw' & HG' & Hall).
    { intros k [s Hk]. by rewrite Hemp, lookup_empty in Hk. }
    { rewrite Hemp. apply map_Forall_empty. }
    rewrite Hrun. exists w'. split; [reflexivity|]. split_and!.
    + done.
    + apply map_empty. intros k. destruct (Hall k) as [_ ->]. by rewrite Hemp, HP1, lookup_empty.
    + unfold guild_loaded. rewrite HG', lookup_delete_eq. intros k Hk. apply HM in Hk as [s Hk]. by rewrite Hemp, lookup_empty in Hk.
    + intros id Hne. rewrite HG', lookup_delete_ne by done. by rewrite HG.
    + intros k Hk. destruct (Hall k) as [HIk _]. rewrite Hemp, lookup_empty in HIk. rewrite HIk in Hk |- *. by apply HI.
Qed.

Lemma LoadGuilds_loop_ok E logs rows : forall ranks mrows w,
  tables_ok rows ranks mrows -> world_ok w -> w_players w = ∅ -> (forall r, r ∈ rows -> m_GuildMap w !! gr_id r = None) ->
  (forall m, m ∈ mrows -> m_guid2guild w !! mr_guid m = None) -> (forall r, r ∈ rows -> m_guid2guild w !! gr_leader r = None) ->
  exists w', LoadGuilds_loop E rows ranks (Some mrows) logs w = Some w' /\ world_ok w' /\
    (forall r, r ∈ rows -> guild_loaded mrows w' (gr_id r)) /\
    (forall id, (forall r, r ∈ rows -> gr_id r <> id) -> m_GuildMap w' !! id = m_GuildMap w !! id).
Proof.
  induction rows as [|r rows IH]; intros ranks mrows w Ht Hw HP Hfree Hni Hnl.
  { exists w. split_and!; try done. intros r Hr. by apply elem_of_nil in Hr. }
  destruct (load_step E r rows ranks mrows logs w Ht Hw HP (Hfree r (list_elem_of_here _ _)) Hni (Hnl r (list_elem_of_here _ _)))
    as (w1 & Hrun & Hw1 & HP1 & Hld & HG1 & HI1).
  pose proof (to_guilds _ _ _ Ht) as Hsort. apply StronglySorted_inv in Hsort as [_ Hlt]. rewrite Forall_forall in Hlt.
  assert (Hidx : forall k, m_guid2guild w !! k = None -> (forall m, m ∈ mrows -> mr_guid m = k -> gr_id r < mr_guildid m) ->
      m_guid2guild w1 !! k = None).
  { intros k Hk Hm. apply eq_None_not_Some. intros Hs. destruct (HI1 k Hs) as [He|(m & Hm' & Hg & Hmk & _)].
    - rewrite <- He, Hk in Hs. by destruct Hs.
    - specialize (Hm m Hm' Hmk). lia. }
  destruct (IH _ _ w1 (tables_ok_next _ _ _ _ Ht) Hw1 HP1) as (w' & Hrun' & Hw' & Hld' & HG').
  - intros r' Hr'. specialize (Hlt r' Hr'). rewrite HG1 by lia. apply Hfree. by right.
  - intros m Hm. apply list_elem_of_filter in Hm as [Hgt Hm]. apply Hidx; [by apply Hni|]. intros m' Hm' He.
    assert (m' = m) as -> by (eapply (NoDup_key mr_guid); [exact (to_guids _ _ _ Ht)|done..]). done.
  - intros r' Hr'. apply Hidx; [apply Hnl; by right|]. intros m Hm He.
    rewrite (to_leaders _ _ _ Ht r' m) by (done || by right). apply Hlt. done.
  - exists w'. rewrite Hrun. split_and!; [done|done| |].
    + intros r' Hr'. apply elem_of_cons in Hr' as [->|Hr'].
      * unfold guild_loaded in *. rewrite HG'; [done|]. intros r' Hr' He. specialize (Hlt r' Hr'). lia.
      * specialize (Hlt r' Hr'). specialize (Hld' r' Hr'). unfold guild_loaded in *.
        destruct (m_GuildMap w' !! gr_id r') as [g|]; intros k; [rewrite <- (rows_of_next _ _ _ _ Hlt)|rewrite <- (rows_of_next _ _ _ _ Hlt)]; apply Hld'.
    + intros id Hid. rewrite HG' by (intros r' Hr'; apply Hid; by right). apply HG1. intros ->. by apply (Hid r); [left|].
Qed.


End Startup.

(** Two guilds; the first one's leader has rank 3 in the table, the second one
    has only a broken row; a third row names no guild. *)
Definition example_guilds : list GuildRow :=
  [mkGuildRow 7 (str "One") 1 (0, 0, 0, 0, 0) [] [] 0; mkGuildRow 9 (str "Two") 3 (0, 0, 0, 0, 0) [] [] 0].

Lemma example_tables_ok : tables_ok example_guilds None example_rows.
Proof.
  split.
  - repeat constructor.
  - repeat constructor; done.
  - done.
  - repeat constructor; unfold by_guild; by vm_compute.
  - by apply (bool_decide_unpack _).
  - repeat constructor; done.
  - intros r m Hr Hm. unfold example_guilds, example_rows in *.
    repeat (apply elem_of_cons in Hr as [->|Hr]; [repeat (apply elem_of_cons in Hm as [->|Hm]; [by vm_compute|]); by apply elem_of_nil in Hm|]).
    by apply elem_of_nil in Hr.
Qed.

