(* ===== verification/GuildTables.v ===== *)
(** * GuildTables: the tables of the database follow the guilds in memory

    The statements the guild code queues, executed on the tables [guild],
    [guild_member] and [guild_rank], keep exactly the guilds of the server:
    leaders, members with their ranks, and the rights of the ranks. *)
From S2P Require Import Prelude ByteBuffer ObjectGuid GuildData Guild GuildRoster GuildHandlers GuildSafety GuildSuccession.

(** ** The tables *)

Record tables := mkTables {
  t_guild : gmap Z Z;                  (* guildid: leaderguid *)
  t_member : gmap Z (Z * Z);           (* guid: guildid, rank *)
  t_rank : gmap (Z * Z) Z              (* guildid, rid: rights *)
}.

Definition no_tables : tables := mkTables ∅ ∅ ∅.

(** An [INSERT] fails when the key is there. *)
Definition sql_insert `{Countable K} {A} (k : K) (a : A) (m : gmap K A) : gmap K A :=
  match m !! k with Some _ => m | None => <[k := a]> m end.

Definition set_t_guild (m : gmap Z Z) (t : tables) : tables := mkTables m (t_member t) (t_rank t).
Definition set_t_member (m : gmap Z (Z * Z)) (t : tables) : tables := mkTables (t_guild t) m (t_rank t).
Definition set_t_rank (m : gmap (Z * Z) Z) (t : tables) : tables := mkTables (t_guild t) (t_member t) m.

Definition sql_exec (t : tables) (q : Sql) : tables :=
  match q with
  | SqlInsertGuild id _ leader _ _ _ _ => set_t_guild (sql_insert id leader (t_guild t)) t
  | SqlDeleteGuild id => set_t_guild (delete id (t_guild t)) t
  | SqlUpdateLeader id leader => set_t_guild (alter (fun _ => leader) id (t_guild t)) t
  | SqlInsertMember id guid rank _ _ => set_t_member (sql_insert guid (id, rank) (t_member t)) t
  | SqlDeleteMember guid => set_t_member (delete guid (t_member t)) t
  | SqlDeleteMembersOf id => set_t_member (filter (fun kv => fst (snd kv) <> id) (t_member t)) t
  | SqlUpdateMemberRank guid rank => set_t_member (alter (fun p => (fst p, rank)) guid (t_member t)) t
  | SqlInsertRank id rid _ rights => set_t_rank (sql_insert (id, rid) rights (t_rank t)) t
  | SqlDeleteRanksOf id => set_t_rank (filter (fun kv => fst (fst kv) <> id) (t_rank t)) t
  | SqlDeleteRanksFrom id rid => set_t_rank (filter (fun kv => ~ (fst (fst kv) = id /\ rid <= snd (fst kv))) (t_rank t)) t
  | SqlUpdateRankRights id rid rights => set_t_rank (alter (fun _ => rights) (id, rid) (t_rank t)) t
  | _ => t
  end.

Definition out_exec (t : tables) (o : Out) : tables := match o with PExecute q => sql_exec t q | _ => t end.
Definition run (t : tables) (os : list Out) : tables := foldl out_exec t os.

(** ** What the tables should hold *)

Definition rank_at (rid : Z) (g : Guild) : option Z := if rid <? 0 then None else Rights <$> m_Ranks g !! Z.to_nat rid.

Record synced (G : gmap Z Guild) (t : tables) : Prop := {
  sy_guild : forall id, t_guild t !! id = m_LeaderGuid <$> G !! id;
  sy_member : forall k id r, t_member t !! k = Some (id, r) <->
    exists g s, G !! id = Some g /\ members g !! k = Some s /\ RankId s = r;
  sy_rank : forall id rid, t_rank t !! (id, rid) = G !! id ≫= rank_at rid
}.

(** Nothing the tables hold changes. *)
Definition quiet (os : list Out) : Prop := Forall (fun o => forall t, out_exec t o = t) os.

Lemma run_quiet os t : quiet os -> run t os = t.
Proof. intros Hq. revert t. induction Hq as [|o os Ho _ IH]; intros t; [done|]. cbn. rewrite Ho. apply IH. Qed.

Lemma run_app t a b : run t (a ++ b) = run (run t a) b.
Proof. apply foldl_app. Qed.

(** A world that only talked: packets, scripts, and statements on other
    tables. *)
Definition talks (w w' : World) : Prop := exists os, w_out w' = w_out w ++ os /\ quiet os /\ m_GuildMap w' = m_GuildMap w.

Lemma talks_refl w : talks w w.
Proof. exists []. by rewrite app_nil_r; split_and!; [|by constructor|]. Qed.

Lemma talks_trans w1 w2 w3 : talks w1 w2 -> talks w2 w3 -> talks w1 w3.
Proof.
  intros (a & Ha & Hqa & HGa) (b & Hb & Hqb & HGb). exists (a ++ b). rewrite Hb, Ha, <- app_assoc.
  split_and!; [done|by apply Forall_app|congruence].
Qed.

Lemma talks_emits os w w0 : talks w0 w -> quiet os -> talks w0 (emits os w).
Proof. intros Hw Hq. eapply talks_trans; [exact Hw|]. by exists os. Qed.

Lemma talks_emit o w w0 : talks w0 w -> (forall t, out_exec t o = t) -> talks w0 (emit o w).
Proof. intros Hw Hq. eapply talks_trans; [exact Hw|]. exists [o]. split_and!; [done|by apply Forall_singleton|done]. Qed.

Lemma talks_players m w w0 : talks w0 w -> talks w0 (set_players m w).
Proof. intros Hw. eapply talks_trans; [exact Hw|]. exists []. rewrite app_nil_r. split_and!; [done|by constructor|done]. Qed.

Lemma talks_index m w w0 : talks w0 w -> talks w0 (set_guid2guild m w).
Proof. intros Hw. eapply talks_trans; [exact Hw|]. exists []. rewrite app_nil_r. split_and!; [done|by constructor|done]. Qed.

Lemma talks_petitions m w w0 : talks w0 w -> talks w0 (set_petitions m w).
Proof. intros Hw. eapply talks_trans; [exact Hw|]. exists []. rewrite app_nil_r. split_and!; [done|by constructor|done]. Qed.

Lemma quiet_send {A} (f : A -> Out) l : (forall a t, out_exec t (f a) = t) -> quiet (f <$> l).
Proof. intros Hf. apply Forall_fmap, Forall_forall. intros a _ t. apply Hf. Qed.

Create HintDb talk.
#[export] Hint Resolve talks_refl talks_emits talks_emit talks_players talks_index talks_petitions : talk.
#[export] Hint Resolve quiet_send Forall_nil_2 Forall_cons_2 : talk.
#[export] Hint Unfold quiet : talk.

(** ** Guilds with the same rows *)

Definition same_rows (g g' : Guild) : Prop :=
  m_LeaderGuid g' = m_LeaderGuid g /\ (forall k, RankId <$> members g' !! k = RankId <$> members g !! k) /\
  Rights <$> m_Ranks g' = Rights <$> m_Ranks g.

Lemma same_rows_refl g : same_rows g g.
Proof. done. Qed.

Lemma rank_at_rows rid g g' : Rights <$> m_Ranks g' = Rights <$> m_Ranks g -> rank_at rid g' = rank_at rid g.
Proof. intros Hr. unfold rank_at. destruct (rid <? 0); [done|]. by rewrite <- !list_lookup_fmap, Hr. Qed.

Lemma rows_some g g' k r :
  (forall k, RankId <$> members g' !! k = RankId <$> members g !! k) ->
  (exists s, members g' !! k = Some s /\ RankId s = r) <-> (exists s, members g !! k = Some s /\ RankId s = r).
Proof.
  intros Hm. specialize (Hm k). split; intros (s & Hs & <-); rewrite Hs in Hm; cbn in Hm.
  - symmetry in Hm. apply fmap_Some in Hm as (s' & Hs' & Hr). by exists s'.
  - apply fmap_Some in Hm as (s' & Hs' & Hr). by exists s'.
Qed.

Lemma synced_same G id g g' t : synced (<[id := g]> G) t -> same_rows g g' -> synced (<[id := g']> G) t.
Proof.
  intros [Hg Hm Hr] (HL & HM & HR). split.
  - intros j. rewrite Hg. destruct (decide (j = id)) as [->|Hn]; [by rewrite !lookup_insert_eq; cbn; rewrite HL|by rewrite !lookup_insert_ne].
  - intros k j r. rewrite Hm. destruct (decide (j = id)) as [->|Hn].
    + rewrite !lookup_insert_eq. pose proof (rows_some g g' k r HM) as Hs.
      split; intros (x & s & Hx & Hk); simplify_eq; [apply proj2 in Hs|apply proj1 in Hs]; (destruct Hs as (s' & ?); [by exists s|by eexists _, s']).
    + by rewrite !lookup_insert_ne.
  - intros j rid. rewrite Hr. destruct (decide (j = id)) as [->|Hn]; [|by rewrite !lookup_insert_ne].
    rewrite !lookup_insert_eq. cbn. symmetry. by apply rank_at_rows.
Qed.

(** ** Steps on the tables *)

(** A row of a member who is in this guild, or in none, is written. *)
Lemma synced_put G id g g' k s t :
  synced (<[id := g]> G) t -> (forall j g0, j <> id -> G !! j = Some g0 -> members g0 !! k = None) ->
  m_LeaderGuid g' = m_LeaderGuid g -> m_Ranks g' = m_Ranks g -> members g' = <[k := s]> (members g) ->
  synced (<[id := g']> G) (set_t_member (<[k := (id, RankId s)]> (t_member t)) t).
Proof.
  intros [Hg Hm Hr] Hoth HL HR HM. split; cbn.
  - intros j. rewrite Hg. destruct (decide (j = id)) as [->|Hn]; [by rewrite !lookup_insert_eq; cbn; rewrite HL|by rewrite !lookup_insert_ne].
  - intros k' j r. destruct (decide (k' = k)) as [->|Hk].
    + rewrite lookup_insert_eq. split.
      * intros [= <- <-]. exists g', s. by rewrite lookup_insert_eq, HM, lookup_insert_eq.
      * intros (g0 & s0 & Hg0 & Hs0 & <-). destruct (decide (j = id)) as [->|Hn].
        -- rewrite lookup_insert_eq in Hg0. injection Hg0 as <-. rewrite HM, lookup_insert_eq in Hs0. congruence.
        -- rewrite lookup_insert_ne in Hg0 by done. rewrite (Hoth j g0 Hn Hg0) in Hs0. done.
    + rewrite lookup_insert_ne, Hm by done. destruct (decide (j = id)) as [->|Hn]; [|by rewrite !lookup_insert_ne].
      rewrite !lookup_insert_eq. split; intros (x & s0 & [= <-] & Hs0 & Hr0).
      * exists g', s0. by rewrite HM, lookup_insert_ne.
      * exists g, s0. rewrite HM, lookup_insert_ne in Hs0 by done. done.
  - intros j rid. rewrite Hr. destruct (decide (j = id)) as [->|Hn]; [|by rewrite !lookup_insert_ne].
    rewrite !lookup_insert_eq. cbn. unfold rank_at. by rewrite HR.
Qed.

(** A row is deleted. *)
Lemma synced_drop G id g g' k t :
  synced (<[id := g]> G) t -> (forall j g0, j <> id -> G !! j = Some g0 -> members g0 !! k = None) ->
  m_LeaderGuid g' = m_LeaderGuid g -> m_Ranks g' = m_Ranks g -> members g' = delete k (members g) ->
  synced (<[id := g']> G) (set_t_member (delete k (t_member t)) t).
Proof.
  intros [Hg Hm Hr] Hoth HL HR HM. split; cbn.
  - intros j. rewrite Hg. destruct (decide (j = id)) as [->|Hn]; [by rewrite !lookup_insert_eq; cbn; rewrite HL|by rewrite !lookup_insert_ne].
  - intros k' j r. destruct (decide (k' = k)) as [->|Hk].
    + rewrite lookup_delete_eq. split; [done|]. intros (g0 & s0 & Hg0 & Hs0 & _). destruct (decide (j = id)) as [->|Hn].
      * rewrite lookup_insert_eq in Hg0. injection Hg0 as <-. by rewrite HM, lookup_delete_eq in Hs0.
      * rewrite lookup_insert_ne in Hg0 by done. by rewrite (Hoth j g0 Hn Hg0) in Hs0.
    + rewrite lookup_delete_ne, Hm by done. destruct (decide (j = id)) as [->|Hn]; [|by rewrite !lookup_insert_ne].
      rewrite !lookup_insert_eq. split; intros (x & s0 & [= <-] & Hs0 & Hr0).
      * exists g', s0. by rewrite HM, lookup_delete_ne.
      * exists g, s0. rewrite HM, lookup_delete_ne in Hs0 by done. done.
  - intros j rid. rewrite Hr. destruct (decide (j = id)) as [->|Hn]; [|by rewrite !lookup_insert_ne].
    rewrite !lookup_insert_eq. cbn. unfold rank_at. by rewrite HR.
Qed.

(** The leader's column. *)
Lemma synced_leader G id g g' l t :
  synced (<[id := g]> G) t -> m_LeaderGuid g' = l -> m_Ranks g' = m_Ranks g -> members g' = members g ->
  synced (<[id := g']> G) (set_t_guild (alter (fun _ => l) id (t_guild t)) t).
Proof.
  intros [Hg Hm Hr] HL HR HM. split; cbn.
  - intros j. destruct (decide (j = id)) as [->|Hn].
    + rewrite lookup_alter_eq, Hg, !lookup_insert_eq. cbn. by rewrite HL.
    + rewrite lookup_alter_ne, Hg, !lookup_insert_ne by done. done.
  - intros k j r. rewrite Hm. destruct (decide (j = id)) as [->|Hn]; [|by rewrite !lookup_insert_ne].
    rewrite !lookup_insert_eq. split; intros (x & s & [= <-] & Hs & Hrk); [exists g', s|exists g, s]; by rewrite HM in *.
  - intros j rid. rewrite Hr. destruct (decide (j = id)) as [->|Hn]; [|by rewrite !lookup_insert_ne].
    rewrite !lookup_insert_eq. cbn. unfold rank_at. by rewrite HR.
Qed.

(** The ranks of a guild are replaced by what [f] gives. *)
Lemma synced_ranks G id g g' m t :
  synced (<[id := g]> G) t -> m_LeaderGuid g' = m_LeaderGuid g -> members g' = members g ->
  (forall j rid, m !! (j, rid) = if decide (j = id) then rank_at rid g' else t_rank t !! (j, rid)) ->
  synced (<[id := g']> G) (set_t_rank m t).
Proof.
  intros [Hg Hm Hr] HL HM Hrk. split; cbn.
  - intros j. rewrite Hg. destruct (decide (j = id)) as [->|Hn]; [by rewrite !lookup_insert_eq; cbn; rewrite HL|by rewrite !lookup_insert_ne].
  - intros k j r. rewrite Hm. destruct (decide (j = id)) as [->|Hn]; [|by rewrite !lookup_insert_ne].
    rewrite !lookup_insert_eq. split; intros (x & s & [= <-] & Hs & Hrk'); [exists g', s|exists g, s]; by rewrite HM in *.
  - intros j rid. rewrite Hrk. destruct (decide (j = id)) as [->|Hn].
    + by rewrite lookup_insert_eq.
    + rewrite Hr, !lookup_insert_ne by done. done.
Qed.

(** A new guild without members and ranks. *)
Lemma synced_new G id g l t :
  synced G t -> G !! id = None -> m_LeaderGuid g = l -> members g = ∅ -> m_Ranks g = [] ->
  synced (<[id := g]> G) (set_t_guild (<[id := l]> (t_guild t)) t).
Proof.
  intros [Hg Hm Hr] Hfree HL HM HR. split; cbn.
  - intros j. destruct (decide (j = id)) as [->|Hn]; [by rewrite !lookup_insert_eq; cbn; rewrite HL|by rewrite !lookup_insert_ne, Hg].
  - intros k j r. rewrite Hm. destruct (decide (j = id)) as [->|Hn]; [|by rewrite !lookup_insert_ne].
    rewrite lookup_insert_eq, Hfree. split; [by intros (? & ? & ? & _)|]. intros (x & s & [= <-] & Hs & _). by rewrite HM in Hs.
  - intros j rid. rewrite Hr. destruct (decide (j = id)) as [->|Hn]; [|by rewrite !lookup_insert_ne].
    rewrite lookup_insert_eq, Hfree. cbn. unfold rank_at. rewrite HR. by destruct (rid <? 0).
Qed.

(** A guild without members goes. *)
Lemma synced_gone G id g t :
  synced (<[id := g]> G) t -> members g = ∅ ->
  synced (delete id G) (mkTables (delete id (t_guild t)) (t_member t) (filter (fun kv => fst (fst kv) <> id) (t_rank t))).
Proof.
  intros [Hg Hm Hr] HM. split; cbn.
  - intros j. destruct (decide (j = id)) as [->|Hn]; [by rewrite !lookup_delete_eq|by rewrite !lookup_delete_ne, Hg, lookup_insert_ne].
  - intros k j r. rewrite Hm. destruct (decide (j = id)) as [->|Hn]; [|by rewrite lookup_insert_ne, lookup_delete_ne].
    rewrite lookup_insert_eq, lookup_delete_eq. split; [|by intros (? & ? & ? & _)].
    intros (x & s & [= <-] & Hs & _). by rewrite HM in Hs.
  - intros j rid. destruct (decide (j = id)) as [->|Hn].
    + rewrite lookup_delete_eq, map_lookup_filter_None_2; [done|]. right. by intros x _ Hx.
    + rewrite lookup_delete_ne by done. specialize (Hr j rid). rewrite lookup_insert_ne in Hr by done. rewrite <- Hr.
      destruct (t_rank t !! (j, rid)) as [x|] eqn:Hx; [by apply map_lookup_filter_Some|].
      apply map_lookup_filter_None_2. by left.
Qed.

(** ** Operations *)

Section Ops.
Context `{HashIter} `{MemberSort}.
Variable t0 : tables.

(** The tables hold the guilds of the world, with [g] in place of [id]. *)
Definition held (id : Z) (g : Guild) (w : World) : Prop := synced (<[id := g]> (m_GuildMap w)) (run t0 (w_out w)).
Definition held_all (w : World) : Prop := synced (m_GuildMap w) (run t0 (w_out w)).

Lemma held_talks id g g' w w' : held id g w -> talks w w' -> same_rows g g' -> held id g' w'.
Proof.
  unfold held. intros Hh (os & Ho & Hq & HG) Hs. rewrite Ho, HG, run_app, (run_quiet os) by done. by eapply synced_same.
Qed.

Lemma held_all_talks w w' : held_all w -> talks w w' -> held_all w'.
Proof. unfold held_all. intros Hh (os & Ho & Hq & HG). by rewrite Ho, HG, run_app, (run_quiet os). Qed.

Lemma held_start id g w : held_all w -> m_GuildMap w !! id = Some g -> held id g w.
Proof. unfold held. intros Hh Hg. by rewrite insert_id. Qed.

Lemma held_store id g w : held id g w -> held_all (store id (g, w)).
Proof. done. Qed.

(** One member belongs to one guild. *)
Lemma held_unique id g w k s j g0 :
  held id g w -> members g !! k = Some s -> j <> id -> m_GuildMap w !! j = Some g0 -> members g0 !! k = None.
Proof.
  intros [_ Hm _] Hs Hn Hg0. apply eq_None_not_Some. intros [s0 Hs0].
  assert (H1 : t_member (run t0 (w_out w)) !! k = Some (id, RankId s)) by (apply Hm; exists g, s; by rewrite lookup_insert_eq).
  assert (H2 : t_member (run t0 (w_out w)) !! k = Some (j, RankId s0)) by (apply Hm; exists g0, s0; by rewrite lookup_insert_ne).
  congruence.
Qed.

Lemma alter_some {K A} `{Countable K} (f : A -> A) (m : gmap K A) k x : m !! k = Some x -> alter f k m = <[k := f x]> m.
Proof.
  intros Hx. apply map_eq. intros j. destruct (decide (j = k)) as [->|Hn].
  - by rewrite lookup_alter_eq, lookup_insert_eq, Hx.
  - by rewrite lookup_alter_ne, lookup_insert_ne.
Qed.

Definition keyed (g : Guild) : Prop := map_Forall (fun k s => is_u 32 k /\ ms_guid s = k) (members g).

Lemma guild_ok_keyed g : guild_ok g -> keyed g.
Proof. intros [_ Hs _] k s Hk. destruct (Hs k s Hk) as (? & _ & ? & _). done. Qed.

Lemma ChangeRank_held id r k g w s :
  held id g w -> keyed g -> members g !! k = Some s ->
  let '(g', w') := ChangeRank r k g w in held id g' w' /\ keyed g'.
Proof.
  intros Hh Hk Hs. destruct (Hk k s Hs) as [Hu Hg]. unfold ChangeRank. rewrite Hs, Hg, (player_counter k Hu). split.
  - unfold held. set (w1 := match GetPlayer k w with Some _ => _ | None => w end).
    assert (Hw1 : m_GuildMap w1 = m_GuildMap w /\ w_out w1 = w_out w) by (unfold w1; by destruct (GetPlayer k w)).
    destruct Hw1 as [HG HO]. cbn. rewrite HG, HO, run_app. cbn.
    rewrite (alter_some _ _ k (id, RankId s)); [|apply (sy_member _ _ Hh); exists g, s; by rewrite lookup_insert_eq].
    cbn. apply (synced_put _ id g _ k (set_rankid r s)); try done. intros j g0 Hn Hg0. by eapply held_unique.
  - unfold keyed. cbn. by apply map_Forall_insert_2.
Qed.

Lemma SetLeader_held id k g w s :
  held id g w -> m_Id g = id -> keyed g -> members g !! k = Some s ->
  let '(g', w') := SetLeader k g w in held id g' w' /\ keyed g'.
Proof.
  intros Hh Hid Hk Hs. destruct (Hk k s Hs) as [Hu Hg]. unfold SetLeader. rewrite Hs, Hg.
  pose proof (ChangeRank_held id GR_GUILDMASTER k g w s Hh Hk Hs) as Hc. unfold ChangeRank in *. cbn [members set_leader_guid].
  rewrite Hs, Hg, (player_counter k Hu) in *. destruct Hc as [Hh' Hk']. split; [|exact Hk'].
  set (w1 := emit _ _) in *. unfold held in *. cbn [m_GuildMap emit w_out]. rewrite run_app.
  cbn [run foldl out_exec sql_exec m_Id set_members set_leader_guid]. rewrite Hid. by eapply synced_leader.
Qed.

Lemma BroadcastEvent_talks E ev guid strs g w w0 : talks w0 w -> talks w0 (BroadcastEvent E ev guid strs g w).
Proof. intros Hw. unfold BroadcastEvent, BroadcastPacket. apply talks_emits; [done|]. by apply quiet_send. Qed.

Lemma SetNewLeader_held E id new old g w sn so :
  held id g w -> m_Id g = id -> keyed g -> members g !! new = Some sn -> members g !! old = Some so -> new <> old ->
  let '(g', w') := SetNewLeader E new (Some old) g w in held id g' w' /\ keyed g'.
Proof.
  intros Hh Hid Hk Hn Ho Hne. unfold SetNewLeader. pose proof (SetLeader_held id new g w sn Hh Hid Hk Hn) as Hc.
  assert (Ho' : members (SetLeader new g w).1 !! old = Some so).
  { unfold SetLeader, ChangeRank. rewrite Hn. cbn. rewrite Hn. cbn. by rewrite lookup_insert_ne. }
  destruct (SetLeader new g w) as [g1 w1]. destruct Hc as [Hh1 Hk1].
  pose proof (ChangeRank_held id GR_OFFICER old g1 w1 so Hh1 Hk1 Ho') as Hc. destruct (ChangeRank GR_OFFICER old g1 w1) as [g2 w2].
  destruct Hc as [Hh2 Hk2]. split; [|done]. eapply held_talks; [exact Hh2| |apply same_rows_refl].
  apply BroadcastEvent_talks, talks_refl.
Qed.

Lemma erase_member_held E id k dis g w :
  held id g w -> keyed g -> is_u 32 k -> (forall j g0, j <> id -> m_GuildMap w !! j = Some g0 -> members g0 !! k = None) ->
  let '(_, g', w') := erase_member E k dis g w in held id g' w' /\ keyed g' /\ members g' = delete k (members g).
Proof.
  intros Hh Hk Hu Hoth. unfold erase_member. rewrite (player_counter k Hu).
  set (g1 := if dis then _ else _). set (w1 := match GetPlayer k _ with Some _ => _ | None => _ end).
  assert (Hg1 : members g1 = delete k (members g) /\ m_LeaderGuid g1 = m_LeaderGuid g /\ m_Ranks g1 = m_Ranks g)
    by (unfold g1; by destruct dis).
  assert (Hw1 : talks w w1) by (unfold w1; destruct (GetPlayer k _); unfold upd_player, GuildMemberRemoved; auto with talk).
  destruct Hg1 as (HM & HL & HR). split_and!; [|unfold keyed; rewrite HM; by apply map_Forall_delete|done].
  pose proof (held_talks id g g w w1 Hh Hw1 (same_rows_refl g)) as Hh1. destruct Hw1 as (_ & _ & _ & HG1).
  unfold held in *. cbn [m_GuildMap emit w_out]. rewrite run_app. cbn [run foldl out_exec sql_exec].
  apply (synced_drop _ id g g1 k); try done. rewrite HG1. exact Hoth.
Qed.

(** A character whom [AddMember] lets in is in no guild. *)
Lemma new_member_index id k g w :
  without id w -> (forall k', is_Some (members g !! k') -> m_guid2guild w !! k' = Some id) -> is_u 32 k ->
  (FindPlayerNotInWorld k w = None -> m_guid2guild w !! k = None \/ is_Some (members g !! k)) ->
  already_in_guild k (FindPlayerNotInWorld k w) g = false ->
  members g !! k = None /\ forall j g0, j <> id -> m_GuildMap w !! j = Some g0 -> members g0 !! k = None.
Proof.
  intros Hw Hown Hu Hoff Ha.
  assert (Hnone : m_guid2guild w !! k = None).
  { destruct (FindPlayerNotInWorld k w) as [p|] eqn:Hp; cbn in Ha.
    - unfold FindPlayerNotInWorld in Hp. case_match; [done|]. apply eq_None_not_Some. intros [id' Hid'].
      destruct (inv_gid _ _ _ Hw k p id' Hp Hid') as [Hpid ?]. to_prop. congruence.
    - destruct (Hoff eq_refl) as [?|Hm]; [done|]. rewrite (u32_id k Hu) in Ha. by apply bool_decide_eq_false in Ha. }
  split.
  - apply eq_None_not_Some. intros Hs. by rewrite (Hown k Hs) in Hnone.
  - intros j g0 Hj Hg0. apply eq_None_not_Some. intros Hs.
    rewrite (inv_index _ _ _ Hw j g0 k) in Hnone; [done| |done]. by rewrite lookup_delete_ne.
Qed.

Lemma withdraw_talks k w w0 : talks w0 w -> talks w0 (withdraw_signature k w).
Proof. intros Hw. unfold withdraw_signature. destruct (GetSignatureForPlayerGuid k w) as [[? ?]|]; auto with talk. Qed.

Lemma AddMember_held E id k r g w :
  held id g w -> m_Id g = id -> keyed g -> without id w ->
  (forall k', is_Some (members g !! k') -> m_guid2guild w !! k' = Some id) -> is_u 32 k ->
  (FindPlayerNotInWorld k w = None -> m_guid2guild w !! k = None \/ is_Some (members g !! k)) ->
  let '(status, g', w') := AddMember E k r g w in
  match status with OK => held id g' w' /\ keyed g' | _ => g' = g /\ talks w w' end.
Proof.
  intros Hh Hid Hk Hw Hown Hu Hoff. unfold AddMember. destruct (already_in_guild k _ g) eqn:Ha; [split; [done|apply talks_refl]|].
  destruct (new_member_index id k g w Hw Hown Hu Hoff Ha) as [Hkm Hoth].
  pose proof (withdraw_talks k w w (talks_refl w)) as Ht. set (w1 := withdraw_signature k w) in *.
  destruct (member_data E k _) as [st|s] eqn:Hd; [pose proof (member_data_not_ok E k (FindPlayerNotInWorld k w)) as Hnok; destruct st; done|].
  pose proof (member_data_slot _ _ _ _ Hd) as Hsk. rewrite (player_counter k Hu).
  set (rank := match FindPlayerNotInWorld k w with Some _ => _ | None => r end).
  pose proof (held_talks id g g w w1 Hh Ht (same_rows_refl g)) as Hh1. destruct Ht as (_ & _ & _ & HG1).
  assert (Hrow : t_member (run t0 (w_out w1)) !! k = None).
  { apply eq_None_not_Some. intros [[j r0] Hr0]. apply (sy_member _ _ Hh1) in Hr0 as (g0 & s0 & Hg0 & Hs0 & _).
    destruct (decide (j = id)) as [->|Hn]; [rewrite lookup_insert_eq in Hg0; congruence|].
    rewrite lookup_insert_ne, HG1 in Hg0 by done. rewrite (Hoth j g0 Hn Hg0) in Hs0. done. }
  assert (Hput : forall g', m_LeaderGuid g' = m_LeaderGuid g -> m_Ranks g' = m_Ranks g ->
      members g' = <[k := set_rankid rank s]> (members g) ->
      synced (<[id := g']> (m_GuildMap w1)) (run t0 (w_out w1 ++ [PExecute (SqlInsertMember (m_Id g) k rank (escape_string E []) (escape_string E []))])) /\ keyed g').
  { intros g' HL HR HM. split.
    - rewrite run_app. cbn [run foldl out_exec sql_exec]. unfold sql_insert. rewrite Hrow, Hid.
      apply (synced_put _ id g g' k (set_rankid rank s)); try done. rewrite HG1. exact Hoth.
    - unfold keyed. rewrite HM. by apply map_Forall_insert_2. }
  unfold held. destruct (FindPlayerNotInWorld k w); by apply Hput.
Qed.

(** ** Ranks *)

Lemma rank_at_bound rid g : is_Some (rank_at rid g) <-> 0 <= rid < GetRanksSize g.
Proof.
  unfold rank_at, GetRanksSize. destruct (rid <? 0) eqn:Hz; to_prop; [split; [by intros []|lia]|].
  rewrite fmap_is_Some, lookup_lt_is_Some. lia.
Qed.

Lemma rank_at_None rid g : rank_at rid g = None <-> ~ 0 <= rid < GetRanksSize g.
Proof. by rewrite <- rank_at_bound, eq_None_not_Some. Qed.

Lemma CreateRank_held E id name rights g w :
  held id g w -> m_Id g = id -> let '(g', w') := CreateRank E name rights g w in held id g' w'.
Proof.
  intros Hh Hid. unfold CreateRank. destruct (GUILD_RANKS_MAX_COUNT <=? GetRanksSize g) eqn:Hmax; [done|]. to_prop.
  unfold GUILD_RANKS_MAX_COUNT in Hmax. assert (Hge0 : 0 <= GetRanksSize g) by (unfold GetRanksSize; lia).
  rewrite u32_id by (unfold is_u; lia). unfold held. cbn [m_GuildMap emit w_out]. rewrite run_app.
  cbn [run foldl out_exec sql_exec]. rewrite Hid. unfold sql_insert. rewrite (sy_rank _ _ Hh), lookup_insert_eq. cbn [mbind option_bind].
  rewrite (proj2 (rank_at_None _ _)) by lia. eapply synced_ranks; [exact Hh|done|done|]. intros j rid.
  destruct (decide ((id, GetRanksSize g) = (j, rid))) as [[= <- <-]|Hn].
  - rewrite lookup_insert_eq, decide_True by done. unfold rank_at. rewrite (proj2 (Z.ltb_ge _ _)) by done. cbn.
    unfold GetRanksSize. by rewrite Nat2Z.id, list_lookup_middle.
  - rewrite lookup_insert_ne by done. destruct (decide (j = id)) as [->|Hj]; [|done].
    rewrite (sy_rank _ _ Hh), lookup_insert_eq. cbn. unfold rank_at. destruct (rid <? 0) eqn:Hz; [done|]. to_prop. cbn.
    destruct (decide (Z.to_nat rid < length (m_Ranks g))%nat) as [Hlt|Hge]; [by rewrite lookup_app_l|].
    rewrite lookup_ge_None_2, lookup_app_r by lia. symmetry. cbn. unfold GetRanksSize in Hn.
    rewrite lookup_ge_None_2; [done|]. cbn. assert (rid <> Z.of_nat (length (m_Ranks g))) by congruence. lia.
Qed.

Lemma DelRank_held id g w :
  held id g w -> m_Id g = id -> GetRanksSize g <= GUILD_RANKS_MAX_COUNT -> let '(g', w') := DelRank g w in held id g' w'.
Proof.
  intros Hh Hid Hmax. unfold DelRank. destruct (GetRanksSize g <=? GUILD_RANKS_MIN_COUNT) eqn:Hmin; [done|]. to_prop.
  unfold GUILD_RANKS_MIN_COUNT, GUILD_RANKS_MAX_COUNT in *. unfold GetLowestRank. rewrite u32_id by (unfold is_u; lia).
  unfold held. cbn [m_GuildMap emits w_out]. rewrite run_app. cbn [run foldl out_exec sql_exec]. rewrite Hid.
  eapply synced_ranks; [exact Hh|done|done|]. intros j rid. pose proof (sy_rank _ _ Hh j rid) as Hr.
  destruct (decide (j = id /\ GetRanksSize g - 1 <= rid)) as [[-> Hle]|Hn].
  - rewrite decide_True, map_lookup_filter_None_2; [|right; intros x _ Hx; by apply Hx|done].
    symmetry. apply rank_at_None. unfold GetRanksSize in *. cbn. rewrite removelast_firstn_len, length_take. lia.
  - assert (Hf : filter (fun kv : Z * Z * Z => ~ (fst (fst kv) = id /\ GetRanksSize g - 1 <= snd (fst kv))) (t_rank (run t0 (w_out w))) !! (j, rid)
        = t_rank (run t0 (w_out w)) !! (j, rid)).
    { destruct (t_rank (run t0 (w_out w)) !! (j, rid)) eqn:Hx; [by apply map_lookup_filter_Some|]. apply map_lookup_filter_None_2. by left. }
    rewrite Hf. destruct (decide (j = id)) as [->|Hj]; [|done]. rewrite Hr, lookup_insert_eq. cbn.
    unfold rank_at. destruct (rid <? 0) eqn:Hz; [done|]. to_prop. cbn. rewrite removelast_firstn_len, lookup_take_lt; [done|].
    unfold GetRanksSize in Hn. lia.
Qed.

Lemma SetRankRights_held id rid rights g w :
  held id g w -> m_Id g = id -> 0 <= rid -> let '(g', w') := SetRankRights rid rights g w in held id g' w'.
Proof.
  intros Hh Hid Hu. unfold SetRankRights. destruct (GetRanksSize g <=? rid) eqn:Hmax; [done|]. to_prop.
  unfold held. cbn [m_GuildMap emit w_out]. rewrite run_app. cbn [run foldl out_exec sql_exec]. rewrite Hid.
  eapply synced_ranks; [exact Hh|done|done|]. intros j rid'. pose proof (sy_rank _ _ Hh j rid') as Hr.
  destruct (decide ((id, rid) = (j, rid'))) as [[= <- <-]|Hn].
  - rewrite lookup_alter_eq, Hr, lookup_insert_eq, decide_True by done. cbn. unfold rank_at. rewrite (proj2 (Z.ltb_ge _ _)) by done.
    cbn. rewrite list_lookup_alter_eq. by destruct (m_Ranks g !! Z.to_nat rid).
  - rewrite lookup_alter_ne by done. destruct (decide (j = id)) as [->|Hj]; [|done]. rewrite Hr, lookup_insert_eq. cbn.
    unfold rank_at. destruct (rid' <? 0) eqn:Hz; [done|]. to_prop. cbn. rewrite list_lookup_alter_ne; [done|].
    assert (rid <> rid') by congruence. lia.
Qed.

Lemma SetRankName_held E id rid name g w : held id g w -> let '(g', w') := SetRankName E rid name g w in held id g' w'.
Proof.
  intros Hh. unfold SetRankName. destruct (_ <=? _); [done|]. eapply held_talks; [exact Hh|auto with talk|].
  split_and!; [done|done|]. cbn. apply list_eq. intros i. rewrite !list_lookup_fmap.
  destruct (decide (Z.to_nat rid = i)) as [<-|Hn]; [|by rewrite list_lookup_alter_ne].
  rewrite list_lookup_alter_eq. by destruct (m_Ranks g !! Z.to_nat rid).
Qed.

(** ** Disbanding and creation *)

Lemma Disband_loop_held E id fuel : forall g w g' w',
  held id g w -> keyed g -> Disband_loop E fuel g w = Some (g', w') -> held id g' w' /\ members g' = ∅ /\ m_Id g' = m_Id g.
Proof.
  induction fuel as [|fuel IH]; intros g w g' w' Hh Hk Hrun; cbn [Disband_loop] in Hrun;
    destruct (head (hash_iter (members g))) as [[k s]|] eqn:Eh; try done.
  1, 3: injection Hrun as <- <-; split_and!; [done| |done]; apply map_empty; intros k; apply eq_None_not_Some; intros [s Hs];
    apply elem_of_hash_iter in Hs; destruct (hash_iter (members g)); [by apply elem_of_nil in Hs|done].
  apply head_Some_elem_of, elem_of_hash_iter in Eh. destruct (Hk k s Eh) as [Hu _].
  unfold DelMember in Hrun. rewrite andb_false_r, (player_guid_low k Hu) in Hrun.
  pose proof (erase_member_held E id k true g w Hh Hk Hu (fun j g0 Hn Hg0 => held_unique id g w k s j g0 Hh Eh Hn Hg0)) as He.
  assert (Hid : m_Id (erase_member E k true g w).1.2 = m_Id g) by done.
  destruct (erase_member E k true g w) as [[last g1] w1]. destruct He as (Hh1 & Hk1 & _). cbn in Hid.
  destruct (IH g1 w1 g' w' Hh1 Hk1 Hrun) as (? & ? & ?). split_and!; [done|done|congruence].
Qed.

Lemma Disband_held E banks id g w g' w' :
  held id g w -> m_Id g = id -> keyed g -> Disband E banks g w = Some (g', w') -> held_all w'.
Proof.
  intros Hh Hid Hk Hrun. unfold Disband in Hrun.
  set (w1 := BroadcastEvent E GE_DISBANDED 0 [] g (emit (ScriptOnDisband (m_Id g)) w)) in Hrun.
  assert (Hh1 : held id g w1).
  { eapply held_talks; [exact Hh| |apply same_rows_refl]. apply BroadcastEvent_talks. auto with talk. }
  destruct (Disband_loop E _ g w1) as [[g2 w2]|] eqn:Hl; [|done].
  destruct (Disband_loop_held E id _ g w1 g2 w2 Hh1 Hk Hl) as (Hh2 & Hemp & Hid2). rewrite Hid2, Hid in Hrun.
  injection Hrun as <- <-. unfold held_all. unfold held in Hh2.
  assert (Hout : forall tail, quiet tail -> synced (delete id (m_GuildMap w2))
    (run t0 ((w_out w2 ++ [PExecute (SqlDeleteGuild id); PExecute (SqlDeleteRanksOf id); PExecute (SqlDeleteLogsOf id); PExecute (SqlDeleteBankOf id)]) ++ tail))).
  { intros tail Hq. rewrite !run_app, (run_quiet tail) by done. exact (synced_gone _ id g2 _ Hh2 Hemp). }
  destruct banks; cbn; [|specialize (Hout [] ltac:(by constructor)); by rewrite app_nil_r in Hout].
  apply Hout. by repeat constructor.
Qed.

(** The five default ranks of a guild that has none. *)
Lemma default_ranks_held E id g w :
  held id g w -> m_Id g = id -> m_Ranks g = [] ->
  let '(g', w') := CreateDefaultGuildRanks E g w in held id g' w'.
Proof.
  intros Hh Hid Hr. unfold CreateDefaultGuildRanks.
  assert (Hh0 : held id g (emit (PExecute (SqlDeleteRanksOf (m_Id g))) w)).
  { unfold held in *. cbn [m_GuildMap emit w_out]. rewrite run_app. cbn [run foldl out_exec sql_exec]. rewrite Hid.
    eapply synced_ranks; [exact Hh|done|done|]. intros j rid. pose proof (sy_rank _ _ Hh j rid) as Hrk.
    destruct (decide (j = id)) as [->|Hn].
    - rewrite map_lookup_filter_None_2; [|right; by intros x _ Hx]. unfold rank_at. rewrite Hr. by destruct (rid <? 0).
    - destruct (t_rank _ !! (j, rid)) eqn:Hx; [by apply map_lookup_filter_Some|]. apply map_lookup_filter_None_2. by left. }
  set (w0 := emit _ w) in *. clearbody w0. clear Hh Hr.
  assert (Hstep : forall name rights g w, held id g w -> m_Id g = id ->
    let '(g', w') := CreateRank E name rights g w in held id g' w' /\ m_Id g' = id).
  { intros name rights g1 w1 H1 H2. pose proof (CreateRank_held E id name rights g1 w1 H1 H2) as Hc.
    assert (Hi : m_Id (CreateRank E name rights g1 w1).1 = id) by (unfold CreateRank; destruct (_ <=? _); [exact H2|exact H2]).
    by destruct (CreateRank E name rights g1 w1). }
  do 4 (match goal with |- context [CreateRank E ?n ?r g ?w1] =>
      pose proof (Hstep n r g w1 Hh0 Hid) as Hc; destruct (CreateRank E n r g w1) as [? ?] end;
    clear Hh0 Hid g w0; destruct Hc as [Hh0 Hid];
    match type of Hh0 with held id ?g1 ?w1 => rename g1 into g, w1 into w0 end).
  pose proof (Hstep (GetMangosString E 4) (Z.lor GR_RIGHT_GCHATLISTEN GR_RIGHT_GCHATSPEAK) g w0 Hh0 Hid) as Hc.
  destruct (CreateRank E _ _ g w0). by destruct Hc.
Qed.

(** An online player who is in no guild is let in. *)
Lemma AddMember_online E k r g w p :
  FindPlayerNotInWorld k w = Some p -> pl_guildId p = 0 -> exists g' w', AddMember E k r g w = (OK, g', w').
Proof. intros Hp Hzero. unfold AddMember, already_in_guild, member_data. rewrite Hp, Hzero. by eexists _, _. Qed.

(** The rows of a new guild are new. *)
Lemma new_guild_held id g w name info motd now emblem :
  held_all w -> m_GuildMap w !! id = None -> members g = ∅ -> m_Ranks g = [] ->
  held id g (emits [PExecute (SqlDeleteMembersOf id); PExecute (SqlInsertGuild id name (m_LeaderGuid g) info motd now emblem)] w).
Proof.
  intros Hh Hfree HM HR. unfold held, held_all in *. cbn [m_GuildMap emits w_out]. rewrite run_app.
  cbn [run foldl out_exec sql_exec]. unfold sql_insert. cbn [t_guild set_t_member]. rewrite (sy_guild _ _ Hh), Hfree. cbn [fmap option_fmap option_map].
  assert (Hf : filter (fun kv : Z * (Z * Z) => fst (snd kv) <> id) (t_member (run t0 (w_out w))) = t_member (run t0 (w_out w))).
  { apply map_filter_id. intros k [j r] Hk Hj. cbn in Hj. subst j. apply (sy_member _ _ Hh) in Hk as (g0 & _ & Hg0 & _). congruence. }
  rewrite Hf. assert (He : forall t, set_t_member (t_member t) t = t) by (by intros []).
  rewrite He. eapply synced_new; [exact Hh|exact Hfree|done|exact HM|exact HR].
Qed.

Lemma Create_held E id p name w :
  world_ok w -> held_all w -> w_players w !! pl_guid p = Some p -> pl_guildId p = 0 -> is_u 32 id ->
  m_GuildMap w !! id = None ->
  let '(ok, g, w') := Create E id p name newGuild w in
  if ok then held id g w' /\ keyed g else held_all w'.
Proof.
  intros Hw Hh Hp Hzero Hu Hfree. destruct (player_facts w p Hw Hp) as (Hku & Hkz & _).
  unfold Create. destruct (GetGuildByName name w); [done|].
  set (g0 := mkGuild _ _ _ _ _ _ _ _ _ _ _ _ _ _). set (w0 := emits _ w).
  assert (Hh0 : held id g0 w0).
  { pose proof (new_guild_held id g0 w (escape_string E name) (escape_string E []) (escape_string E (str "No message set.")) (now E) (m_Emblem newGuild) Hh Hfree eq_refl eq_refl) as Hn.
    unfold w0, held in *. cbn [m_GuildMap emits w_out] in *. rewrite run_app in *. rewrite (player_counter _ Hku). exact Hn. }
  pose proof (default_ranks_held E id g0 w0 Hh0 eq_refl eq_refl) as Hr. pose proof (default_ranks E g0 w0 eq_refl) as Hd.
  destruct (CreateDefaultGuildRanks E g0 w0) as [g1 w1]. destruct Hd as (_ & (HP & HG & HI) & _ & HM & Hid & _).
  set (w2 := emits _ w1). cbn in HP, HG, HI, HM, Hid.
  assert (Hh2 : held id g1 w2) by (eapply held_talks; [exact Hr|unfold w2; auto with talk|apply same_rows_refl]).
  assert (Hon : FindPlayerNotInWorld (pl_guid p) w2 = Some p).
  { apply online_lookup; [done|]. cbn. by rewrite HP. }
  pose proof (AddMember_held E id (pl_guid p) GR_GUILDMASTER g1 w2 Hh2 Hid) as Ha.
  destruct (AddMember_online E (pl_guid p) GR_GUILDMASTER g1 w2 p Hon Hzero) as (g3 & w3 & Hadd). rewrite Hadd in Ha |- *.
  destruct Ha as [Hh3 Hk3].
  - unfold keyed. rewrite HM. apply map_Forall_empty.
  - unfold without. cbn. rewrite HP, HG, HI. apply inv_weaken, Hw.
  - rewrite HM. intros k' [? Hk']. by rewrite lookup_empty in Hk'.
  - done.
  - by rewrite Hon.
  - split; [|done]. eapply held_talks; [exact Hh3|auto with talk|apply same_rows_refl].
Qed.

(** A character who is turned away changes nothing. *)
Lemma AddMember_refused E k r g w st g' w' : AddMember E k r g w = (st, g', w') -> st <> OK -> g' = g /\ same w w'.
Proof.
  unfold AddMember. destruct (already_in_guild _ _ _); [intros Hx; injection Hx as <- <- <-; by split|].
  destruct (member_data E k _) as [st'|s]; [intros Hx _; injection Hx as <- <- <-; split; [done|apply withdraw_same]|].
  destruct (FindPlayerNotInWorld k w); intros Hx Hn; destruct Hn; symmetry;
    exact (f_equal (fun x => fst (fst x)) Hx).
Qed.

(** The signatures of a petition. *)
Lemma signatures_held E id l : forall g w,
  scripts_keep_masters E -> gw_ok id g w -> held id g w ->
  Forall (fun s => is_u 32 (sig_playerGuid s) /\
    (FindPlayerNotInWorld (sig_playerGuid s) w = None ->
     m_guid2guild w !! sig_playerGuid s = None \/ is_Some (members g !! sig_playerGuid s))) l ->
  let '(g', w') := foldl (fun '(g, w) s =>
        if IsEmpty (sig_playerGuid s) then (g, w)
        else let '(_, g, w) := AddMember E (sig_playerGuid s) (GetLowestRank g) g w in (g, w)) (g, w) l in
  held id g' w'.
Proof.
  induction l as [|s l IH]; intros g w HE Hw Hh Hl; [done|]. pose proof Hl as Hl0. apply Forall_cons in Hl as [[Hu Hoff] Hl].
  pose proof (signatures_ok E id [s] g w HE Hw ltac:(apply Forall_singleton; by split)) as H1. cbn [foldl] in *.
  destruct (IsEmpty (sig_playerGuid s)) eqn:Hemp; [by apply IH|].
  pose proof (inv_at _ _ _ _ _ Hw) as (Hid & _ & _ & Hok).
  pose proof (AddMember_held E id (sig_playerGuid s) (GetLowestRank g) g w Hh Hid (guild_ok_keyed g Hok) (gw_ok_without _ _ _ Hw)
    (fun k' => inv_own _ _ _ _ _ k' Hw) Hu Hoff) as Ha.
  destruct (AddMember E (sig_playerGuid s) (GetLowestRank g) g w) as [[st g1] w1] eqn:Eadd. destruct H1 as [Hw1 _].
  apply IH; [done|done| |].
  - destruct st; try apply Ha; destruct Ha as [-> Ht]; (eapply held_talks; [exact Hh|exact Ht|apply same_rows_refl]).
  - eapply Forall_impl; [exact Hl|]. intros s' [Hu' Hoff']. split; [done|]. intros Hnone.
    assert (Hd : st = OK \/ st <> OK) by (destruct st; auto). destruct Hd as [->|Hst]; [exact (offline_step _ _ _ _ _ _ _ _ Hu Eadd Hoff' Hnone)|].
    destruct (AddMember_refused _ _ _ _ _ _ _ _ Eadd Hst) as (-> & HsP & _ & HsI). unfold FindPlayerNotInWorld in *. rewrite HsP in Hnone. rewrite HsI. by apply Hoff'.
Qed.

End Ops.
