(* ===== verification/GuildPersistence.v ===== *)
(** * GuildPersistence: what the server writes is what it knows

    Every handler keeps the tables of GuildTables equal to the guilds in
    memory, so after any run of the server the database holds the guilds.
    The statements execute in the order in which they are queued. *)
From S2P Require Import Prelude ByteBuffer ObjectGuid GuildData Guild GuildRoster GuildHandlers GuildSafety GuildSuccession GuildTables.

Section Persistence.
Context `{HashIter} `{MemberSort}.
Variable days_offline : Z -> Z -> Z.
Variable t0 : tables.
#[local] Abbreviation held := (held t0).
#[local] Abbreviation held_all := (held_all t0).

(** ** What the handlers share *)

#[local] Ltac reply := eapply held_all_talks; [eassumption|solve [auto with talk]].

Lemma SendGuildCommandResult_talks p t s r w w0 : talks w0 w -> talks w0 (SendGuildCommandResult p t s r w).
Proof. intros Hw. unfold SendGuildCommandResult. auto with talk. Qed.

Lemma not_in_guild_talks p w w0 : talks w0 w -> talks w0 (not_in_guild p w).
Proof. apply SendGuildCommandResult_talks. Qed.

Lemma no_permission_talks p w w0 : talks w0 w -> talks w0 (no_permission p w).
Proof. apply SendGuildCommandResult_talks. Qed.

Lemma upd_player_talks k f w w0 : talks w0 w -> talks w0 (upd_player k f w).
Proof. apply talks_players. Qed.

Lemma send_query_talks p g w w0 : talks w0 w -> talks w0 (send_query p g w).
Proof. intros Hw. unfold send_query. auto with talk. Qed.

Lemma Roster_send_talks E s g w w0 : talks w0 w -> talks w0 (Roster_send days_offline E s g w).
Proof.
  intros Hw. unfold Roster_send, BroadcastPacket. destruct s; [auto with talk|]. apply talks_emits; [done|]. by apply quiet_send.
Qed.

#[local] Hint Resolve SendGuildCommandResult_talks not_in_guild_talks no_permission_talks upd_player_talks
  send_query_talks Roster_send_talks BroadcastEvent_talks withdraw_talks : talk.

Lemma held_all_reply w w' : held_all w -> talks w w' -> held_all w'.
Proof. apply held_all_talks. Qed.

Lemma held_soft id g g' w w' : held id g w -> talks w w' -> same_rows g g' -> held_all (store id (g', w')).
Proof. intros Hh Ht Hs. apply held_store. by eapply held_talks. Qed.

Lemma held_emit o w : held_all w -> (forall t, out_exec t o = t) -> held_all (emit o w).
Proof. intros Hh Ho. eapply held_all_talks; [exact Hh|]. by apply talks_emit; [apply talks_refl|]. Qed.

Lemma Log_held E id ty a b r g w :
  held id g w -> let '(g', w') := LogGuildEvent E ty a b r g w in held id g' w' /\ m_Id g' = m_Id g.
Proof.
  intros Hh. unfold LogGuildEvent. split; [|done]. eapply held_talks; [exact Hh| |done].
  apply talks_emits; [apply talks_refl|]. by repeat constructor.
Qed.

(** The end of a handler: an entry of the log, and an event. *)
Lemma log_event_held E id ty a b r ev who strs g w :
  held id g w ->
  held_all (let '(g, w) := LogGuildEvent E ty a b r g w in store id (g, BroadcastEvent E ev who (strs g) g w)).
Proof.
  intros Hh. pose proof (Log_held E id ty a b r g w Hh) as Hl. destruct (LogGuildEvent E ty a b r g w) as [g1 w1].
  destruct Hl as [Hh1 Hid1]. eapply held_soft; [exact Hh1|auto with talk|apply same_rows_refl].
Qed.

Lemma disband_held E id g w w' : held id g w -> gw_ok id g w -> disband E g w = Some w' -> held_all w'.
Proof.
  intros Hh Hw Hd. pose proof (inv_at _ _ _ _ _ Hw) as (Hid & _ & _ & Hok). unfold disband in Hd.
  destruct (Disband E true g w) as [[g2 w2]|] eqn:Hrun; [|done]. injection Hd as <-.
  eapply Disband_held; [exact Hh|exact Hid|by apply guild_ok_keyed|exact Hrun].
Qed.

(** Somebody who is not the leader, and in no other guild, goes. *)
Lemma DelMember_held E id k g w :
  held id g w -> gw_ok id g w -> is_u 32 k -> k <> m_LeaderGuid g ->
  (forall id', m_guid2guild w !! k = Some id' -> id' = id) ->
  let '(_, g', w') := DelMember E k false g w in held id g' w'.
Proof.
  intros Hh Hw Hu Hk Hidx. pose proof (gw_ok_guild _ _ _ Hw) as Hok.
  unfold DelMember. rewrite (proj2 (Z.eqb_neq _ _)) by done. cbn [andb].
  pose proof (erase_member_held t0 E id k false g w Hh (guild_ok_keyed g Hok) Hu) as He.
  specialize (He ltac:(intros j g0 Hn Hg0; apply eq_None_not_Some; intros Hs; apply Hn, Hidx;
    apply (inv_index _ _ _ (gw_ok_without _ _ _ Hw) j g0 k); [by rewrite lookup_delete_ne|done])).
  destruct (erase_member E k false g w) as [[last g1] w1]. by destruct He.
Qed.

(** ** The handlers *)

Lemma create_handler_held E id p name w :
  scripts_keep_masters E -> world_ok w -> held_all w -> w_players w !! pl_guid p = Some p -> is_u 32 id -> id <> 0 ->
  m_GuildMap w !! id = None -> held_all (HandleGuildCreateOpcode E id p name w).
Proof.
  intros HE Hw Hh Hp Hu Hn Hfree. unfold HandleGuildCreateOpcode. destruct (negb (pl_guildId p =? 0)) eqn:Hz; [done|]. to_prop.
  pose proof (Create_ok E id p name w HE Hw Hp Hu Hn Hfree) as Hc.
  pose proof (Create_held t0 E id p name w Hw Hh Hp Hz Hu Hfree) as Hc2.
  destruct (Create E id p name newGuild w) as [[ok g] w1]. destruct Hc as [_ Hc]. destruct ok; [|done].
  destruct Hc as (_ & Hid & _). destruct Hc2 as [Hh1 _]. unfold AddGuild. rewrite Hid.
  eapply held_all_reply; [apply held_store; exact Hh1|auto with talk].
Qed.

Lemma invite_handler_held E p name w : held_all w -> held_all (HandleGuildInviteOpcode E p name w).
Proof.
  intros Hh. unfold HandleGuildInviteOpcode.
  destruct (match normalizePlayerName E name _ _ with Some n => _ | None => _ end) as [nm player].
  destruct player as [q|]; [|eapply held_all_reply; [exact Hh|auto with talk]].
  destruct (GetGuildById (pl_guildId p) w) as [g|] eqn:Hg; [|eapply held_all_reply; [exact Hh|auto with talk]].
  repeat (match goal with |- held_all (if ?c then _ else _) => destruct c; [eapply held_all_reply; [exact Hh|auto with talk]|] end).
  pose proof (held_start t0 _ _ _ Hh Hg) as Hg0.
  assert (Hg1 : held (pl_guildId p) g (upd_player (pl_guid q) (SetGuildIdInvited (pl_guildId p)) w))
    by (eapply held_talks; [exact Hg0|auto with talk|apply same_rows_refl]).
  pose proof (Log_held E _ GUILD_EVENT_LOG_INVITE_PLAYER (pl_guid p) (pl_guid q) 0 _ _ Hg1) as Hl.
  destruct (LogGuildEvent E _ _ _ _ g _) as [g2 w2]. destruct Hl as [Hl _].
  eapply held_all_reply; [apply held_store; exact Hl|auto with talk].
Qed.

Lemma remove_handler_held E p name w w' :
  world_ok w -> held_all w -> HandleGuildRemoveOpcode E p name w = Some w' -> held_all w'.
Proof.
  intros Hw Hh Hrun. unfold HandleGuildRemoveOpcode in Hrun.
  destruct (normalizePlayerName E name _ _) as [nm|]; [|by simplify_eq]. destruct (negb (pl_inWorld p)); [by simplify_eq|].
  destruct (GetGuildById (pl_guildId p) w) as [g|] eqn:Hg; [|simplify_eq; eapply held_all_reply; [exact Hh|auto with talk]].
  destruct (negb (HasRankRight _ _ _)); [simplify_eq; eapply held_all_reply; [exact Hh|auto with talk]|].
  destruct (GetMemberSlot_name nm g) as [[key slot]|] eqn:Hs; [|simplify_eq; eapply held_all_reply; [exact Hh|auto with talk]].
  destruct (RankId slot =? GR_GUILDMASTER) eqn:Hgm; [simplify_eq; eapply held_all_reply; [exact Hh|auto with talk]|].
  destruct (RankId slot <=? pl_rank p); [simplify_eq; eapply held_all_reply; [exact Hh|auto with talk]|]. to_prop.
  apply find_name in Hs. pose proof (gw_ok_start _ _ _ Hw Hg) as Hgw. pose proof (gw_ok_guild _ _ _ Hgw) as Hok.
  destruct (go_self g key slot Hok Hs) as (Hu & Hz & Hkey & _). rewrite Hkey in Hrun.
  pose proof (slot_not_leader g key slot Hok Hs Hgm) as Hnl.
  pose proof (DelMember_ok E (pl_guildId p) key g w Hgw Hu Hnl) as Hd.
  assert (Hidx : forall id', m_guid2guild w !! key = Some id' -> id' = pl_guildId p)
    by (intros id' Hid'; rewrite (inv_own _ _ _ _ _ key Hgw (ltac:(by eexists))) in Hid'; congruence).
  specialize (Hd Hidx). pose proof (DelMember_held E (pl_guildId p) key g w (held_start t0 _ _ _ Hh Hg) Hgw Hu Hnl Hidx) as Hd2.
  destruct (DelMember E key false g w) as [[last g1] w1]. destruct Hd as (_ & -> & _).
  pose proof (log_event_held E _ GUILD_EVENT_LOG_UNINVITE_PLAYER (pl_guid p) key 0 GE_REMOVED 0 (fun _ => [nm; pl_name p]) g1 w1 Hd2) as Hl.
  destruct (LogGuildEvent E _ _ _ _ g1 w1) as [g2 w2]. by injection Hrun as <-.
Qed.

Lemma accept_handler_held E p w :
  world_ok w -> held_all w -> w_players w !! pl_guid p = Some p -> held_all (HandleGuildAcceptOpcode E p w).
Proof.
  intros Hw Hh Hp. destruct (player_facts w p Hw Hp) as (Hku & Hkz & _). unfold HandleGuildAcceptOpcode.
  destruct (GetGuildById _ w) as [g|] eqn:Hg; [|done]. destruct (negb _); [done|]. destruct (_ && _); [done|].
  pose proof (gw_ok_start _ _ _ Hw Hg) as Hgw. pose proof (inv_at _ _ _ _ _ Hgw) as (Hid & _ & _ & Hok).
  pose proof (AddMember_held t0 E _ (pl_guid p) (GetLowestRank g) g w (held_start t0 _ _ _ Hh Hg) Hid (guild_ok_keyed g Hok)
    (gw_ok_without _ _ _ Hgw) (fun k' => inv_own _ _ _ _ _ k' Hgw) Hku ltac:(rewrite (online_lookup w p Hkz Hp); done)) as Ha.
  assert (Hid1 : m_Id (AddMember E (pl_guid p) (GetLowestRank g) g w).1.2 = m_Id g).
  { unfold AddMember. destruct (already_in_guild _ _ _); [done|]. destruct (member_data _ _ _); [done|].
    by destruct (FindPlayerNotInWorld _ w). }
  destruct (AddMember E (pl_guid p) _ g w) as [[st g1] w1]. cbn [fst snd] in Hid1.
  destruct st; try (destruct Ha as [_ Ht]; by eapply held_all_reply). destruct Ha as [Ha _].
  pose proof (log_event_held E _ GUILD_EVENT_LOG_JOIN_GUILD (pl_guid p) 0 0 GE_JOINED (pl_guid p) (fun _ => [pl_name p]) g1 w1 Ha) as Hl.
  rewrite <- Hid, <- Hid1 in Hl. exact Hl.
Qed.

Lemma decline_handler_held p w : held_all w -> held_all (HandleGuildDeclineOpcode p w).
Proof.
  intros Hh. unfold HandleGuildDeclineOpcode. destruct (_ || _); [done|]. eapply held_all_reply; [exact Hh|]. apply upd_player_talks.
  destruct (GetGuildById _ w) as [g|]; [|auto with talk]. destruct (FindPlayer _ false w); auto with talk.
Qed.

Lemma info_handler_held p w : held_all w -> held_all (HandleGuildInfoOpcode p w).
Proof.
  intros Hh. unfold HandleGuildInfoOpcode. destruct (GetGuildById _ w) as [g|] eqn:Hg; [|reply].
  pose proof (held_start t0 _ _ _ Hh Hg) as Hg0. unfold GetAccountsNumber.
  destruct (negb _); destruct (m_Created g) as [[? ?] ?].
  - apply held_emit; [exact Hg0|done].
  - apply held_emit; [|done]. eapply held_soft; [exact Hg0|apply talks_refl|by split_and!].
Qed.

(** A promotion or a demotion. *)
Lemma rank_handler_held E p r key slot g w ty ev strs :
  world_ok w -> held_all w -> GetGuildById (pl_guildId p) w = Some g -> members g !! key = Some slot ->
  held_all (let '(g, w) := ChangeRank r key g w in
            let '(g, w) := LogGuildEvent E ty (pl_guid p) (ms_guid slot) r g w in
            store (pl_guildId p) (g, BroadcastEvent E ev 0 (strs g) g w)).
Proof.
  intros Hw Hh Hg Hs. pose proof (gw_ok_guild _ _ _ (gw_ok_start _ _ _ Hw Hg)) as Hok.
  pose proof (ChangeRank_held t0 _ r key g w slot (held_start t0 _ _ _ Hh Hg) (guild_ok_keyed g Hok) Hs) as Hc.
  destruct (ChangeRank r key g w) as [g1 w1]. destruct Hc as [Hc _]. by apply log_event_held.
Qed.

Lemma promote_handler_held E p name w : world_ok w -> held_all w -> held_all (HandleGuildPromoteOpcode E p name w).
Proof.
  intros Hw Hh. unfold HandleGuildPromoteOpcode. destruct (normalizePlayerName E name _ _) as [nm|]; [|done].
  destruct (GetGuildById (pl_guildId p) w) as [g|] eqn:Hg; [|reply]. destruct (negb _); [reply|].
  destruct (GetMemberSlot_name nm g) as [[key slot]|] eqn:Hs; [|reply]. destruct (_ =? _); [reply|].
  destruct (_ <=? _); [reply|]. apply find_name in Hs. by apply rank_handler_held.
Qed.

Lemma demote_handler_held E p name w : world_ok w -> held_all w -> held_all (HandleGuildDemoteOpcode E p name w).
Proof.
  intros Hw Hh. unfold HandleGuildDemoteOpcode. destruct (normalizePlayerName E name _ _) as [nm|]; [|done].
  destruct (GetGuildById (pl_guildId p) w) as [g|] eqn:Hg; [|reply]. destruct (negb _); [reply|].
  destruct (GetMemberSlot_name nm g) as [[key slot]|] eqn:Hs; [|reply]. destruct (_ =? _); [reply|].
  destruct (RankId slot <=? pl_rank p); [reply|]. destruct (GetLowestRank g <=? RankId slot); [reply|].
  apply find_name in Hs. by apply rank_handler_held.
Qed.

Lemma leave_handler_held E p w w' :
  world_ok w -> held_all w -> w_players w !! pl_guid p = Some p -> HandleGuildLeaveOpcode E p w = Some w' -> held_all w'.
Proof.
  intros Hw Hh Hp Hrun. destruct (player_facts w p Hw Hp) as (Hku & Hkz & _). unfold HandleGuildLeaveOpcode in Hrun.
  destruct (GetGuildById (pl_guildId p) w) as [g|] eqn:Hg; [|simplify_eq; reply]. destruct (_ && _); [simplify_eq; reply|].
  pose proof (gw_ok_start _ _ _ Hw Hg) as Hgw. pose proof (held_start t0 _ _ _ Hh Hg) as Hg0.
  destruct (_ =? _) eqn:Hl; [by eapply disband_held|]. to_prop. set (w0 := SendGuildCommandResult _ _ _ _ w) in *.
  assert (Hg1 : held (pl_guildId p) g w0) by (eapply held_talks; [exact Hg0|unfold w0; auto with talk|apply same_rows_refl]).
  assert (Hgw0 : gw_ok (pl_guildId p) g w0) by exact Hgw. 
  assert (Hidx : forall id', m_guid2guild w0 !! pl_guid p = Some id' -> id' = pl_guildId p)
    by (intros id' Hid'; by destruct (inv_gid _ _ _ Hw _ _ _ Hp Hid')).
  pose proof (DelMember_ok E (pl_guildId p) (pl_guid p) g w0 Hgw0 Hku Hl Hidx) as Hd.
  pose proof (DelMember_held E (pl_guildId p) (pl_guid p) g w0 Hg1 Hgw0 Hku Hl Hidx) as Hd2.
  destruct (DelMember E (pl_guid p) false g w0) as [[last g1] w1]. destruct Hd as (_ & -> & _).
  pose proof (log_event_held E _ GUILD_EVENT_LOG_LEAVE_GUILD (pl_guid p) 0 0 GE_LEFT (pl_guid p) (fun _ => [pl_name p]) g1 w1 Hd2) as Hlg.
  destruct (LogGuildEvent E _ _ _ _ g1 w1) as [g2 w2]. by injection Hrun as <-.
Qed.

Lemma disband_handler_held E p w w' :
  world_ok w -> held_all w -> HandleGuildDisbandOpcode E p w = Some w' -> held_all w'.
Proof.
  intros Hw Hh Hrun. unfold HandleGuildDisbandOpcode in Hrun.
  destruct (GetGuildById _ w) as [g|] eqn:Hg; [|simplify_eq; reply]. destruct (negb _); [simplify_eq; reply|].
  eapply disband_held; [exact (held_start t0 _ _ _ Hh Hg)|by apply gw_ok_start|exact Hrun].
Qed.

Lemma leader_handler_held E p name w :
  world_ok w -> held_all w -> w_players w !! pl_guid p = Some p -> held_all (HandleGuildLeaderOpcode E p name w).
Proof.
  intros Hw Hh Hp. destruct (player_facts w p Hw Hp) as (Hku & _). unfold HandleGuildLeaderOpcode.
  destruct (normalizePlayerName E name _ _) as [nm|]; [|done].
  destruct (GetGuildById (pl_guildId p) w) as [g|] eqn:Hg; [|reply]. destruct (negb _) eqn:Hl; [reply|].
  unfold GetMemberSlot. rewrite (player_counter _ Hku). destruct (members g !! pl_guid p) as [os|] eqn:Ho; cbn [fmap option_fmap option_map]; [|reply].
  destruct (GetMemberSlot_name nm g) as [[key slot]|] eqn:Hs; [|reply]. destruct (pl_guid p =? key) eqn:Hne; [reply|]. to_prop.
  apply find_name in Hs. destruct (inv_at _ _ _ _ _ (gw_ok_start _ _ _ Hw Hg)) as (Hid & _ & _ & Hok).
  pose proof (SetNewLeader_held t0 E _ key (pl_guid p) g w slot os (held_start t0 _ _ _ Hh Hg) Hid (guild_ok_keyed g Hok) Hs Ho
    ltac:(congruence)) as Hn.
  destruct (SetNewLeader E key (Some (pl_guid p)) g w) as [g' w']. by destruct Hn.
Qed.

(** A text of the guild. *)
Lemma text_held id g g' os w :
  held id g w -> quiet os -> same_rows g g' -> held_all (store id (g', emits os w)).
Proof. intros Hh Hq Hs. eapply held_soft; [exact Hh|by apply talks_emits; [apply talks_refl|]|exact Hs]. Qed.

Lemma motd_handler_held E p text w : held_all w -> held_all (HandleGuildMOTDOpcode E p text w).
Proof.
  intros Hh. unfold HandleGuildMOTDOpcode. destruct (_ <? _); [done|].
  destruct (GetGuildById _ w) as [g|] eqn:Hg; [|reply]. destruct (negb _); [reply|]. unfold SetMOTD.
  eapply held_soft; [exact (held_start t0 _ _ _ Hh Hg)| |by split_and!].
  apply BroadcastEvent_talks, talks_emits; [apply talks_refl|by repeat constructor].
Qed.

Lemma info_text_handler_held E p text w : held_all w -> held_all (HandleGuildChangeInfoTextOpcode E p text w).
Proof.
  intros Hh. unfold HandleGuildChangeInfoTextOpcode. destruct (normalizePlayerName E text _ _) as [t|]; [|done].
  destruct (_ <? _); [done|]. destruct (GetGuildById _ w) as [g|] eqn:Hg; [|reply]. destruct (negb _); [reply|].
  apply (text_held _ g); [exact (held_start t0 _ _ _ Hh Hg)|by repeat constructor|by split_and!].
Qed.

Lemma note_handler_held E right set p name note w :
  (forall n s, RankId (set n s).1 = RankId s /\ quiet (set n s).2) ->
  held_all w -> held_all (HandleGuildSetNote days_offline E right set p name note w).
Proof.
  intros Hset Hh. unfold HandleGuildSetNote.
  destruct (normalizePlayerName E name _ _) as [nm|]; [|done]. destruct (normalizePlayerName E note _ _) as [nt|]; [|done].
  destruct (GetGuildById (pl_guildId p) w) as [g|] eqn:Hg; [|reply]. destruct (negb _); [reply|].
  destruct (GetMemberSlot_name nm g) as [[key slot]|] eqn:Hs; [|reply]. destruct (_ <? _); [done|].
  apply find_name in Hs. destruct (Hset nt slot) as [Hrk Hq]. destruct (set nt slot) as [slot' out]. cbn in Hrk, Hq.
  eapply held_all_reply; [|apply Roster_send_talks, talks_refl].
  apply (text_held _ g); [exact (held_start t0 _ _ _ Hh Hg)|done|]. split_and!; [done| |done].
  intros k. cbn. destruct (decide (k = key)) as [->|Hne]; [|by rewrite lookup_insert_ne].
  rewrite lookup_insert_eq, Hs. cbn. by rewrite Hrk.
Qed.

Lemma public_note_quiet E n s : RankId (SetPublicNote E n s).1 = RankId s /\ quiet (SetPublicNote E n s).2.
Proof. unfold SetPublicNote. case_bool_decide; cbn; by repeat constructor. Qed.

Lemma officer_note_quiet E n s : RankId (SetOfficerNote E n s).1 = RankId s /\ quiet (SetOfficerNote E n s).2.
Proof. unfold SetOfficerNote. case_bool_decide; cbn; by repeat constructor. Qed.

(** The ranks. *)
Lemma leader_held p w k :
  held_all w -> world_ok w -> (forall g, held (pl_guildId p) g w -> gw_ok (pl_guildId p) g w -> held_all (k g)) -> held_all (as_leader p w k).
Proof.
  intros Hh Hw Hk. unfold as_leader. destruct (GetGuildById (pl_guildId p) w) as [g|] eqn:Hg; [|reply].
  destruct (negb _); [reply|]. apply Hk; [exact (held_start t0 _ _ _ Hh Hg)|by apply gw_ok_start].
Qed.

Lemma ranks_changed_held E p gw : held (pl_guildId p) gw.1 gw.2 -> held_all (ranks_changed days_offline E p gw).
Proof.
  intros Hh. unfold ranks_changed. eapply held_all_reply; [|apply Roster_send_talks, send_query_talks, talks_refl]. exact Hh.
Qed.

Lemma rank_opcode_held E p rankId rights name w :
  world_ok w -> held_all w -> 0 <= rankId -> held_all (HandleGuildRankOpcode days_offline E p rankId rights name w).
Proof.
  intros Hw Hh Hr. apply leader_held; [done|done|]. intros g Hg Hgw. destruct (normalizePlayerName E name _ _) as [nm|]; [|done].
  destruct (inv_at _ _ _ _ _ Hgw) as (Hid & _).
  pose proof (SetRankName_held t0 E _ rankId nm g w Hg) as Hn.
  assert (Hid1 : m_Id (SetRankName E rankId nm g w).1 = m_Id g) by (unfold SetRankName; by destruct (_ <=? _)).
  destruct (SetRankName E rankId nm g w) as [g1 w1]. cbn [fst] in Hid1. apply ranks_changed_held.
  set (r := if rankId =? GR_GUILDMASTER then GR_RIGHT_ALL else rights).
  pose proof (SetRankRights_held t0 _ rankId r g1 w1 Hn ltac:(congruence) Hr) as H2.
  by destruct (SetRankRights rankId r g1 w1).
Qed.

Lemma addrank_handler_held E p name w : world_ok w -> held_all w -> held_all (HandleGuildAddRankOpcode days_offline E p name w).
Proof.
  intros Hw Hh. unfold HandleGuildAddRankOpcode. destruct (normalizePlayerName E name _ _) as [nm|]; [|done].
  apply leader_held; [done|done|]. intros g Hg Hgw. destruct (_ <=? _); [done|]. destruct (inv_at _ _ _ _ _ Hgw) as (Hid & _).
  apply ranks_changed_held. set (r := Z.lor _ _). pose proof (CreateRank_held t0 E _ nm r g w Hg Hid) as Hc.
  by destruct (CreateRank E nm r g w).
Qed.

Lemma delrank_handler_held E p w : world_ok w -> held_all w -> held_all (HandleGuildDelRankOpcode days_offline E p w).
Proof.
  intros Hw Hh. apply leader_held; [done|done|]. intros g Hg Hgw. destruct (inv_at _ _ _ _ _ Hgw) as (Hid & _).
  apply ranks_changed_held. pose proof (DelRank_held t0 _ g w Hg Hid (proj2 (gw_ok_ranks _ _ _ Hgw))) as Hc. by destruct (DelRank g w).
Qed.

(** The petitions. *)
Lemma sign_handler_held E p item w : held_all w -> held_all (HandlePetitionSignOpcode E p item w).
Proof.
  intros Hh. unfold HandlePetitionSignOpcode. destruct (GetPetitionByCharterGuid item w) as [pt|]; [|done].
  repeat (match goal with |- held_all (if ?c then _ else _) => destruct c; [first [done|reply]|] end).
  destruct (GetSignatureForPlayer p pt); [destruct (GetPlayer _ _); reply|].
  assert (Ht : talks w (withdraw_signature (pl_guid p) w)) by auto with talk.
  set (w1 := withdraw_signature (pl_guid p) w) in *. clearbody w1. pose proof (held_all_talks t0 _ _ Hh Ht) as Hh1.
  destruct (GetPetitionById _ w1) as [pt'|]; [|done].
  assert (Hq : quiet (AddNewSignature E p pt').2) by (unfold AddNewSignature; repeat case_match; by repeat constructor).
  destruct (AddNewSignature E p pt') as [[ok pt2] out]. cbn [snd] in Hq. destruct (negb ok); [done|].
  destruct (GetPlayer _ _); reply.
Qed.

Lemma turn_in_held E id p charter w :
  scripts_keep_masters E -> world_ok w -> held_all w -> w_players w !! pl_guid p = Some p -> op_ok (OpTurnIn id charter) w ->
  held_all (HandleTurnInPetitionOpcode E id p charter w).
Proof.
  intros HE Hw Hh Hp (Hu & Hn & Hfree & Hsig). unfold HandleTurnInPetitionOpcode. destruct charter as [[item pid]|]; [|done].
  destruct (GetPetitionById pid w) as [pt|] eqn:Hpt; [|done]. destruct (negb (pl_guildId p =? 0)) eqn:Hz; [reply|]. to_prop.
  repeat (match goal with |- held_all (if ?c then _ else _) => destruct c; [first [done|reply]|] end).
  unfold Create_petition. pose proof (Create_ok E id p (pt_name pt) w HE Hw Hp Hu Hn Hfree) as Hc.
  pose proof (Create_held t0 E id p (pt_name pt) w Hw Hh Hp Hz Hu Hfree) as Hc2.
  destruct (Create E id p (pt_name pt) newGuild w) as [[ok g] w1]. destruct Hc as [HG Hc].
  destruct ok; cbn [negb]; [|exact Hc2]. destruct Hc as (Hgw & Hid & (f & HP1) & HI1). destruct Hc2 as [Hh1 _].
  pose proof (signers_ok w w1 g p f id _ Hw Hp HP1 HI1 (Hsig _ _ Hpt)) as Hsg.
  pose proof (signatures_ok E id (pt_signatures pt) g w1 HE Hgw Hsg) as Hs1.
  pose proof (signatures_held t0 E id (pt_signatures pt) g w1 HE Hgw Hh1 Hsg) as Hs2. revert Hs1 Hs2.
  destruct (foldl _ (g, w1) _) as [g2 w2]. intros [Hgw2 _] Hh2. destruct (inv_at _ _ _ _ _ Hgw2) as (Hid2 & _).
  cbn [negb]. unfold AddGuild. rewrite Hid2.
  assert (Ht : forall w, talks w (DeletePetition pt w)).
  { intros w3. unfold DeletePetition. apply talks_emits; [auto with talk|]. unfold Petition_Delete. destruct (pt_id pt =? 0); by repeat constructor. }
  eapply held_all_reply; [apply held_store; exact Hh2|]. apply talks_emits; [|by repeat constructor].
  eapply talks_trans; [|apply Ht]. by apply talks_emits; [apply talks_refl|repeat constructor].
Qed.

(** ** Every packet *)

Lemma op_apply_held E p op w w' :
  scripts_keep_masters E -> world_ok w -> held_all w -> w_players w !! pl_guid p = Some p -> op_ok op w ->
  op_apply days_offline E p op w = Some w' -> held_all w'.
Proof.
  intros HE Hw Hh Hp Hop Hrun. destruct op; cbn [op_apply] in Hrun; try (injection Hrun as <-).
  - destruct Hop as (? & ? & ?). by apply create_handler_held.
  - by apply invite_handler_held.
  - by eapply remove_handler_held.
  - by apply accept_handler_held.
  - by apply decline_handler_held.
  - by apply info_handler_held.
  - unfold HandleGuildRosterOpcode. destruct (GetGuildById _ w) as [g|]; [|done]. reply.
  - by apply promote_handler_held.
  - by apply demote_handler_held.
  - by eapply leave_handler_held.
  - by eapply disband_handler_held.
  - by apply leader_handler_held.
  - by apply motd_handler_held.
  - by apply note_handler_held; [apply public_note_quiet|].
  - by apply note_handler_held; [apply officer_note_quiet|].
  - apply rank_opcode_held; [done|done|]. cbn in Hop. unfold is_u in Hop. lia.
  - by apply addrank_handler_held.
  - by apply delrank_handler_held.
  - by apply info_text_handler_held.
  - by apply sign_handler_held.
  - by apply turn_in_held.
Qed.

Lemma server_step_held w w' : server_step days_offline w w' -> world_ok w -> held_all w -> held_all w'.
Proof. intros Hs Hw Hh. destruct Hs; [by eapply op_apply_held|done..]. Qed.

Lemma run_held w w' : rtc (server_step days_offline) w w' -> world_ok w -> held_all w -> held_all w'.
Proof. induction 1 as [|w1 w2 w3 Hs _ IH]; [done|]. intros Hw Hh. apply IH; [by eapply server_step_ok|by eapply server_step_held]. Qed.

End Persistence.

(** ** Properties *)

(** C8: the database follows the guilds: as long as the tables hold the guilds
    of a sound state at the start, then after any sequence of guild and
    petition packets, logins, logouts and loading screens, the statements
    queued since, executed in order, leave in the tables one row per guild
    with its leader, one row per member with his guild and rank, and one row
    per rank with its rights, and no other row. *)
Theorem tables_follow_guilds `{HashIter} `{MemberSort} days t0 w w' :
  world_ok w -> synced (m_GuildMap w) (run t0 (w_out w)) -> rtc (server_step days) w w' ->
  let t := run t0 (w_out w') in
  (forall id, t_guild t !! id = m_LeaderGuid <$> m_GuildMap w' !! id) /\
  (forall k id r, t_member t !! k = Some (id, r) <->
    exists g s, m_GuildMap w' !! id = Some g /\ members g !! k = Some s /\ RankId s = r) /\
  (forall id rid, t_rank t !! (id, rid) = m_GuildMap w' !! id ≫= rank_at rid).
Proof. intros Hw Hs Hsteps. by destruct (run_held days t0 w w' Hsteps Hw Hs). Qed.

(** The tables of the example world. *)
Definition example_tables : tables :=
  mkTables {[7 := 1]} {[1 := (7, 0); 2 := (7, 3)]}
    (list_to_map ((fun rid => ((7, rid), GR_RIGHT_ALL)) <$> [0; 1; 2; 3; 4])).

Lemma example_no_rank id rid : id <> 7 \/ ~ 0 <= rid <= 4 -> t_rank example_tables !! (id, rid) = None.
Proof.
  intros Hn. apply not_elem_of_list_to_map_1. cbn. rewrite !elem_of_cons, elem_of_nil. intros Hin.
  repeat destruct Hin as [Hin|Hin]; [injection Hin as -> ->; lia..|done].
Qed.

Lemma example_tables_synced : synced (m_GuildMap example_world) (run example_tables (w_out example_world)).
Proof.
  split; cbn [run foldl w_out example_world m_GuildMap].
  - intros id. destruct (decide (id = 7)) as [->|Hn]; [reflexivity|].
    cbn [t_guild example_tables]. by rewrite !lookup_singleton_ne.
  - intros k id r. cbn [t_member example_tables]. split.
    + intros [[<- [= <- <-]]|[Hn [<- [= <- <-]]%lookup_singleton_Some]]%lookup_insert_Some;
        eexists example_guild, _; (split; [by vm_compute|]); split; by vm_compute.
    + intros (g & s & [<- <-]%lookup_singleton_Some & Hk & <-). unfold example_guild in Hk. cbn [members] in Hk.
      apply lookup_insert_Some in Hk as [[<- <-]|[Hn [<- <-]%lookup_singleton_Some]]; reflexivity.
  - intros id rid. cbn [t_rank example_tables]. destruct (decide (id = 7)) as [->|Hn].
    + rewrite lookup_singleton_eq. cbn [mbind option_bind]. unfold rank_at. destruct (rid <? 0) eqn:Hz; to_prop.
      * apply example_no_rank. lia.
      * destruct (decide (rid <= 4)) as [Hle|Hgt].
        -- assert (Hc : rid = 0 \/ rid = 1 \/ rid = 2 \/ rid = 3 \/ rid = 4) by lia.
           destruct Hc as [->|[->|[->|[->| ->]]]]; reflexivity.
        -- rewrite lookup_ge_None_2 by (cbn; lia). apply example_no_rank. lia.
    + rewrite lookup_singleton_ne by done. apply example_no_rank. by left.
Qed.

Lemma tables_follow_guilds_witness :
  let _ := ordered_iter in let _ := rank_merge_sort in
  exists w', rtc (server_step (fun _ _ => 0)) example_world w' /\ t_guild (run example_tables (w_out w')) !! 7 = Some 2 /\
  t_member (run example_tables (w_out w')) !! 2 = Some (7, GR_GUILDMASTER).
Proof.
  intros Hord Hsort. set (w1 := set_players {[1 := example_player 1 0]} example_world).
  set (w2 := HandleGuildLeaderOpcode example_env (example_player 1 0) (str "Bob") w1).
  assert (Hsteps : rtc (server_step (fun _ _ => 0)) example_world w2).
  { eapply rtc_l; [apply (step_login _ (example_player 1 0)); cbn; [done|by vm_compute|done|by vm_compute|intros id [= <-]; done]|].
    eapply rtc_l; [|apply rtc_refl].
    apply (step_packet _ example_env (example_player 1 0) (OpLeader (str "Bob"))); [|by vm_compute|done|reflexivity].
    intros id guid r Hr. cbn. by rewrite u8_id. }
  exists w2. split; [exact Hsteps|].
  destruct (tables_follow_guilds (fun _ _ => 0) example_tables example_world w2 guild_world_ok example_tables_synced Hsteps) as (Hg & Hm & _).
  split; [rewrite Hg; by vm_compute|]. apply Hm. destruct (m_GuildMap w2 !! 7) as [g|] eqn:Eg; [|vm_compute in Eg; discriminate].
  destruct (members g !! 2) as [s|] eqn:Es; [|vm_compute in Eg; injection Eg as <-; vm_compute in Es; discriminate].
  exists g, s. split; [done|]. split; [done|]. vm_compute in Eg. injection Eg as <-. vm_compute in Es. by injection Es as <-.
Defined.

(** The statements queued between two worlds. *)
Definition queued (w w' : World) : Prop := exists l, w_out w' = w_out w ++ l.

Lemma CreateRank_queued E n r g w0 w : queued w0 w -> queued w0 (CreateRank E n r g w).2.
Proof.
  intros [l Hl]. unfold CreateRank. destruct (_ <=? _); [by exists l|].
  eexists. cbn [snd w_out emit]. rewrite Hl, <- app_assoc. reflexivity.
Qed.

Lemma default_ranks_queued E g w : queued (emit (PExecute (SqlDeleteRanksOf (m_Id g))) w) (CreateDefaultGuildRanks E g w).2.
Proof.
  unfold CreateDefaultGuildRanks. set (w0 := emit _ w). assert (Hq : queued w0 w0) by (exists []; by rewrite app_nil_r).
  do 4 (match goal with Hq : queued w0 ?w1 |- context [CreateRank E ?n ?r ?g1 ?w1] =>
    apply (CreateRank_queued E n r g1) in Hq; destruct (CreateRank E n r g1 w1) as [? ?]; cbn [snd] in Hq end).
  by apply CreateRank_queued.
Qed.

(** The order of the statements matters: [CreateDefaultGuildRanks] queues
    the deletion of the old ranks and the insertions one by one, outside a
    transaction; the same statements in another order, which the workers of
    the queue may produce, leave the guild without any rank row. *)
Theorem default_ranks_need_order E g w t :
  exists l l', w_out (CreateDefaultGuildRanks E g w).2 = w_out w ++ l /\ l' ≡ₚ l /\
  forall rid, t_rank (run t l') !! (m_Id g, rid) = None.
Proof.
  destruct (default_ranks_queued E g w) as [l Hl]. cbn [w_out emit] in Hl. rewrite <- app_assoc in Hl. exists (PExecute (SqlDeleteRanksOf (m_Id g)) :: l), (l ++ [PExecute (SqlDeleteRanksOf (m_Id g))]).
  split; [exact Hl|]. split; [symmetry; apply Permutation_cons_append|]. intros rid. rewrite run_app.
  cbn [run foldl out_exec sql_exec t_rank set_t_rank]. apply map_lookup_filter_None_2. right. by intros x _ Hx.
Qed.

(** ** The event log of a guild

    [LogGuildEvent] keeps the last events in memory, and the table
    [guild_eventlog] as a ring of [cfg_GUILD_EVENT_LOG_COUNT] rows. *)

(** The rows of one guild in [guild_eventlog], by their [LogGuid]; the
    identifier is part of the primary key, so an insertion does not overwrite. *)
Definition log_stmt (id : Z) (t : gmap Z GuildEventLogEntry) (o : Out) : gmap Z GuildEventLogEntry :=
  match o with
  | PExecute (SqlDeleteLog guildid n) => if guildid =? id then delete n t else t
  | PExecute (SqlInsertLog guildid n e) =>
    if (guildid =? id) && bool_decide (t !! n = None) then <[n := e]> t else t
  | PExecute (SqlDeleteLogsOf guildid) => if guildid =? id then ∅ else t
  | _ => t
  end.

(** An event to log: type, two characters, new rank. *)
Definition event : Type := Z * ObjectGuid * ObjectGuid * Z.
Definition entry (E : Env) (ev : event) : GuildEventLogEntry :=
  let '(ty, a, b, r) := ev in mkLogEntry ty (GetCounter a) (GetCounter b) (u8 r) (u32 (now E)).

Definition log_step (E : Env) (gw : Guild * World) (ev : event) : Guild * World :=
  let '(ty, a, b, r) := ev in LogGuildEvent E ty a b r gw.1 gw.2.

(** The identifier of the [i]-th event from now. *)
Definition ring_slot (E : Env) (g : Guild) (i : nat) : Z :=
  (u32 (m_GuildEventLogNextGuid g + 1) + Z.of_nat i) mod cfg_GUILD_EVENT_LOG_COUNT E.

Section Log.
Variable E : Env.
Hypothesis Hcount : 0 < cfg_GUILD_EVENT_LOG_COUNT E < 2 ^ 32.

Local Abbreviation C := (cfg_GUILD_EVENT_LOG_COUNT E).

Lemma ring_distinct g i j : (i < j)%nat -> (j < i + Z.to_nat C)%nat -> ring_slot E g i <> ring_slot E g j.
Proof.
  intros Hij Hj He. unfold ring_slot in He. set (x := u32 _) in He.
  pose proof (Z.mod_eq (x + Z.of_nat i) C ltac:(lia)) as H1. pose proof (Z.mod_eq (x + Z.of_nat j) C ltac:(lia)) as H2.
  set (q1 := (x + Z.of_nat i) / C) in *. set (q2 := (x + Z.of_nat j) / C) in *.
  assert (Hd : Z.of_nat j - Z.of_nat i = C * q2 - C * q1) by lia.
  assert (Hq : q1 < q2) by nia. nia.
Qed.

Lemma ring_step ev g w i : ring_slot E (log_step E (g, w) ev).1 i = ring_slot E g (S i).
Proof.
  destruct ev as [[[ty a] b] r]. unfold log_step, LogGuildEvent, ring_slot. cbn [fst snd m_GuildEventLogNextGuid set_log].
  set (x := u32 (m_GuildEventLogNextGuid g + 1)). pose proof (Z.mod_pos_bound x C ltac:(lia)) as Hb.
  rewrite u32_id by (unfold is_u; lia). rewrite <- Z.add_assoc, Zplus_mod_idemp_l. f_equal. lia.
Qed.

(** What a run of events leaves. *)
Record logged (g : Guild) (w : World) (t : gmap Z GuildEventLogEntry) (evs : list event) (gw : Guild * World) : Prop := {
  lg_memory : m_GuildEventLog gw.1 = drop (length (m_GuildEventLog g) + length evs - 100) (m_GuildEventLog g ++ (entry E <$> evs));
  lg_id : m_Id gw.1 = m_Id g;
  lg_next : forall i, ring_slot E gw.1 i = ring_slot E g (length evs + i);
  lg_table : exists outs, w_out gw.2 = w_out w ++ outs /\
    forall i ev, evs !! i = Some ev -> (length evs <= i + Z.to_nat C)%nat ->
      foldl (log_stmt (m_Id g)) t outs !! ring_slot E g i = Some (entry E ev)
}.

Lemma tail_drop {A} n : forall l : list A, tail (drop n l) = drop (S n) l.
Proof. induction n as [|n IH]; intros [|x l]; try done. apply IH. Qed.

(** One event more. *)
Lemma push_last {A} (l : list A) (e : A) n :
  (n <= 100)%nat -> (n = length l `min` 100)%nat ->
  (if GUILD_EVENTLOG_MAX_RECORDS <=? Z.of_nat n then tail (drop (length l - 100) l) else drop (length l - 100) l) ++ [e]
  = drop (length l + 1 - 100) (l ++ [e]).
Proof.
  intros Hn He. unfold GUILD_EVENTLOG_MAX_RECORDS. destruct (100 <=? Z.of_nat n) eqn:Hc; to_prop.
  - rewrite tail_drop, drop_app_le by lia. do 2 f_equal. lia.
  - rewrite !(proj2 (Nat.sub_0_le _ _)) by lia. done.
Qed.

Lemma log_step_ok g w t evs gw ev :
  (length (m_GuildEventLog g) <= 100)%nat -> logged g w t evs gw -> logged g w t (evs ++ [ev]) (log_step E gw ev).
Proof.
  intros Hlen [Hm Hid Hn (outs & Ho & Ht)]. destruct gw as [g1 w1]. cbn [fst snd] in *. split.
  - destruct ev as [[[ty a] b] r]. unfold log_step, LogGuildEvent. cbn [fst snd m_GuildEventLog set_log].
    set (l := m_GuildEventLog g ++ (entry E <$> evs)).
    assert (Hl : length l = (length (m_GuildEventLog g) + length evs)%nat) by (unfold l; by rewrite length_app, length_fmap).
    assert (Hn1 : length (m_GuildEventLog g1) = (length l `min` 100)%nat) by (rewrite Hm; fold l; rewrite length_drop, Hl; lia).
    rewrite Hn1, Hm. fold l. rewrite <- Hl, push_last by lia. rewrite fmap_app, app_assoc, length_app. fold l. cbn [length fmap list_fmap].
    f_equal. lia.
  - destruct ev as [[[ty a] b] r]. exact Hid.
  - intros i. rewrite ring_step, Hn, length_app. f_equal. cbn. lia.
  - specialize (Hn 0%nat). rewrite Nat.add_0_r in Hn. destruct ev as [[[ty a] b] r] eqn:Eev.
    set (n := ring_slot E g (length evs)) in *. unfold ring_slot in Hn. rewrite Z.add_0_r in Hn.
    exists (outs ++ [PExecute (SqlDeleteLog (m_Id g) n); PExecute (SqlInsertLog (m_Id g) n (entry E (ty, a, b, r)))]). split.
    + unfold log_step, LogGuildEvent. cbn [fst snd w_out emits entry]. by rewrite Ho, Hid, <- app_assoc, Hn.
    + intros i ev' Hi Hc. rewrite foldl_app. cbn [foldl log_stmt]. rewrite Z.eqb_refl, lookup_delete_eq, bool_decide_eq_true_2 by done. cbn [andb].
      rewrite length_app in Hc. cbn in Hc. apply lookup_app_Some in Hi as [Hi|[Hle Hi]].
      * pose proof (lookup_lt_Some _ _ _ Hi) as Hlt. pose proof (ring_distinct g i (length evs) Hlt ltac:(lia)) as Hne.
        fold n in Hne. rewrite lookup_insert_ne, lookup_delete_ne by congruence. apply Ht; [done|lia].
      * apply list_lookup_singleton_Some in Hi as [Hi ->]. assert (i = length evs) as -> by lia. unfold n. by rewrite lookup_insert_eq.
Qed.

(** The event log: after any run of events the guild remembers the last
    hundred in order, the oldest first, and the table holds each of the last
    [cfg_GUILD_EVENT_LOG_COUNT] events at the place of its turn in the ring,
    whatever the counter was when the run started. *)
Theorem event_log_keeps_the_last g w t evs :
  (length (m_GuildEventLog g) <= 100)%nat ->
  let gw := foldl (log_step E) (g, w) evs in
  m_GuildEventLog gw.1 = drop (length (m_GuildEventLog g) + length evs - 100) (m_GuildEventLog g ++ (entry E <$> evs)) /\
  exists outs, w_out gw.2 = w_out w ++ outs /\
    forall i ev, evs !! i = Some ev -> (length evs <= i + Z.to_nat C)%nat ->
      foldl (log_stmt (m_Id g)) t outs !! ring_slot E g i = Some (entry E ev).
Proof.
  intros Hlen. assert (Hl : logged g w t evs (foldl (log_step E) (g, w) evs)).
  { induction evs as [|ev evs IH] using rev_ind.
    - split; [|done|done|exists []; by rewrite app_nil_r]. cbn.
      rewrite app_nil_r, Nat.add_0_r, (proj2 (Nat.sub_0_le _ _)) by lia. done.
    - rewrite foldl_app. by apply log_step_ok. }
  by destruct Hl.
Qed.

End Log.

(** A hundred and three events into a ring of a hundred rows. *)
Definition example_events : list event := (fun i => (GUILD_EVENT_LOG_JOIN_GUILD, Z.of_nat i, 0, 0)) <$> seq 1 103.

Lemma event_log_keeps_the_last_witness :
  let gw := foldl (log_step example_env) (example_guild, example_world) example_events in
  length (m_GuildEventLog gw.1) = 100%nat /\ exists outs, w_out gw.2 = outs /\
    foldl (log_stmt 7) ∅ outs !! 3 = Some (entry example_env (GUILD_EVENT_LOG_JOIN_GUILD, 103, 0, 0)).
Proof.
  assert (H100 : 0 < cfg_GUILD_EVENT_LOG_COUNT example_env < 2 ^ 32) by (split; reflexivity).
  destruct (event_log_keeps_the_last example_env H100 example_guild example_world ∅ example_events) as (Hm & outs & Ho & Ht); [by vm_compute; lia|].
  cbn zeta. split; [rewrite Hm; by vm_compute|]. exists outs. split; [exact Ho|].
  exact (Ht 102%nat _ eq_refl ltac:(apply Nat.leb_le; by vm_compute)).
Defined.
