(* ===== verification/EconomyData.v ===== *)
(** * EconomyData: gold, items, mails and auctions as data

    The state the mail system (src/src/game/Mail, src/src/game/MapNodes/MasterPlayer.cpp)
    and the auction houses (src/src/game/AuctionHouse) share, and the part of
    Player, ObjectAccessor and ObjectMgr they use. [Player] joins the three
    objects of an online character: Player, MasterPlayer and WorldSession. A
    GUID of a character is its low part, as the high part is 0. What the
    characters who are not online have is in the tables: [w_gold] and [w_mail].
    Lines of log files are left out. *)
From S2P Require Import Prelude ByteBuffer ObjectGuid.

Definition MAX_MONEY_AMOUNT : Z := 0x7FFFFFFF - 1.
Definition MINUTE : Z := 60.
Definition HOUR : Z := MINUTE * 60.
Definition DAY : Z := HOUR * 24.
Definition SEC_PLAYER : Z := 0.

(** ** Items *)

Record ItemPrototype := mkProto {
  ip_Class : Z; ip_SubClass : Z; ip_InventoryType : Z; ip_Quality : Z; ip_RequiredLevel : Z;
  ip_Name1 : list Z; ip_Flags : Z; ip_Spell : Z
}.
Definition ITEM_FLAG_CONJURED : Z := 0x2.

Record Item := mkItem {
  it_guid : Z;                 (* GetGUIDLow() *)
  it_entry : Z;
  it_count : Z;
  it_enchant : Z;              (* the permanent enchantment *)
  it_randomProperty : Z;
  it_suffix : Z;
  it_charges : Z;
  it_duration : Z;
  it_inBank : bool;            (* IsBankPos(GetPos()) *)
  it_inWorld : bool;
  it_tradable : bool;          (* CanBeTraded() *)
  it_soulbound : bool;         (* IsSoulBound() *)
  it_boa : bool;               (* ITEM_DYNFLAG_BOA *)
  it_proto : ItemPrototype
}.

(** ** Mails *)

Definition MAIL_NORMAL : Z := 0.
Definition MAIL_AUCTION : Z := 2.
Definition MAIL_CHECK_MASK_READ : Z := 0x01.
Definition MAIL_CHECK_MASK_RETURNED : Z := 0x02.
Definition MAIL_CHECK_MASK_COPIED : Z := 0x04.
Definition MAIL_CHECK_MASK_COD_PAYMENT : Z := 0x08.
Definition MAIL_CHECK_MASK_HAS_BODY : Z := 0x10.
Definition MAIL_STATIONERY_DEFAULT : Z := 41.
Definition MAIL_STATIONERY_GM : Z := 61.
Definition MAIL_STATIONERY_AUCTION : Z := 62.

Inductive MailState := MAIL_STATE_UNCHANGED | MAIL_STATE_CHANGED | MAIL_STATE_DELETED | MAIL_STATE_HARD_DELETE.
#[export] Instance MailState_dec : EqDecision MailState.
Proof. solve_decision. Defined.

Record Mail := mkMail {
  messageID : Z; messageType : Z; stationery : Z; mailTemplateId : Z; sender : Z; receiverGuid : Z;
  subject : list Z; itemTextId : Z; has_items : bool;
  items : list (Z * Z);                       (* item_guid, item_template *)
  removedItems : list Z;
  expire_time : Z; deliver_time : Z; money : Z; COD : Z; checked : Z; m_state : MailState
}.

(** The fields the handlers change. *)
Definition mail_with (its : list (Z * Z)) (removed : list Z) (expire gold cod chk : Z) (st : MailState) (m : Mail) : Mail :=
  mkMail (messageID m) (messageType m) (stationery m) (mailTemplateId m) (sender m) (receiverGuid m) (subject m) (itemTextId m)
    (has_items m) its removed expire (deliver_time m) gold cod chk st.

(** ** Auctions *)

Record AuctionEntry := mkAuction {
  au_Id : Z; itemGuidLow : Z; itemTemplate : Z; owner : Z; ownerAccount : Z; startbid : Z; bid : Z; buyout : Z;
  lockedIpAddress : list Z; depositTime : Z; expireTime : Z; bidder : Z; deposit : Z;
  auctionHouseEntry : Z                       (* houseId *)
}.

(** An auction house. An [AuctionEntry] pointer is the [Id] of the entry; the
    two other maps are multimaps from a price or an account to it. *)
Record AuctionHouseObject := mkHouse {
  AuctionsMap : gmap Z AuctionEntry;
  OrderedAuctionMap : list (Z * Z);
  AccountAuctionMap : list (Z * Z)
}.

(** ** Characters *)

Record Player := mkPlayer {
  pl_guid : Z;
  pl_inWorld : bool;
  pl_account : Z;
  pl_security : Z;
  pl_hardcoreStatus : Z;
  pl_money : Z;                               (* PLAYER_FIELD_COINAGE *)
  pl_items : gmap ObjectGuid Item;            (* the inventory *)
  pl_address : list Z;                        (* GetRemoteAddress() *)
  pl_team : Z;
  pl_level : Z;
  pl_anonMail : bool;                         (* PLAYER_ANON_MAIL *)
  m_mail : list Mail;
  mMitems : gmap Z Item;
  m_mailsUpdated : bool;
  unReadMails : Z;
  m_nextMailDelivereTime : Z
}.

Definition set_money (g : Z) (p : Player) : Player :=
  mkPlayer (pl_guid p) (pl_inWorld p) (pl_account p) (pl_security p) (pl_hardcoreStatus p) g (pl_items p) (pl_address p)
    (pl_team p) (pl_level p) (pl_anonMail p) (m_mail p) (mMitems p) (m_mailsUpdated p) (unReadMails p) (m_nextMailDelivereTime p).
Definition set_items (its : gmap ObjectGuid Item) (p : Player) : Player :=
  mkPlayer (pl_guid p) (pl_inWorld p) (pl_account p) (pl_security p) (pl_hardcoreStatus p) (pl_money p) its (pl_address p)
    (pl_team p) (pl_level p) (pl_anonMail p) (m_mail p) (mMitems p) (m_mailsUpdated p) (unReadMails p) (m_nextMailDelivereTime p).
Definition set_mails (l : list Mail) (its : gmap Z Item) (updated : bool) (p : Player) : Player :=
  mkPlayer (pl_guid p) (pl_inWorld p) (pl_account p) (pl_security p) (pl_hardcoreStatus p) (pl_money p) (pl_items p) (pl_address p)
    (pl_team p) (pl_level p) (pl_anonMail p) l its updated (unReadMails p) (m_nextMailDelivereTime p).
Definition set_unread (n next : Z) (p : Player) : Player :=
  mkPlayer (pl_guid p) (pl_inWorld p) (pl_account p) (pl_security p) (pl_hardcoreStatus p) (pl_money p) (pl_items p) (pl_address p)
    (pl_team p) (pl_level p) (pl_anonMail p) (m_mail p) (mMitems p) (m_mailsUpdated p) n next.
Definition set_hardcore (status : Z) (p : Player) : Player :=
  mkPlayer (pl_guid p) (pl_inWorld p) (pl_account p) (pl_security p) status (pl_money p) (pl_items p) (pl_address p)
    (pl_team p) (pl_level p) (pl_anonMail p) (m_mail p) (mMitems p) (m_mailsUpdated p) (unReadMails p) (m_nextMailDelivereTime p).

Definition HARDCORE_MODE_STATUS_ALIVE : Z := 1.
Definition HARDCORE_MODE_STATUS_DEAD : Z := 3.
Definition HARDCORE_MODE_STATUS_HC60 : Z := 4.
Definition hardcore_status (s : Z) : bool :=
  (s =? HARDCORE_MODE_STATUS_ALIVE) || (s =? HARDCORE_MODE_STATUS_DEAD) || (s =? HARDCORE_MODE_STATUS_HC60).
Definition IsHardcore (p : Player) : bool := hardcore_status (pl_hardcoreStatus p).

(** [PlayerCacheData]: what the server keeps of every character. *)
Record PlayerCacheData := mkCacheData { uiAccount : Z; uiHardcoreStatus : Z; uiTeam : Z }.

(** ** Effects *)

Inductive Sql :=
  | SqlInsertMail (id messageType stationery template sender receiver : Z) (subject : list Z) (text : Z) (has_items : bool)
      (expire deliver money cod checked : Z)
  | SqlInsertMailItem (mail item template receiver : Z)
  | SqlUpdateMail (text : Z) (has_items : bool) (expire deliver money cod checked id : Z)
  | SqlSoftDeleteMail (id : Z)
  | SqlDeleteMailItem (item : Z)
  | SqlDeleteMailItemsOf (mail : Z)
  | SqlDeleteItem (guid : Z)
  | SqlDeleteItemText (id : Z)
  | SqlUpdateItemOwner (owner guid : Z)
  | SqlSaveItem (guid : Z)                      (* SaveToDB *)
  | SqlDeleteFromInventory (guid : Z)
  | SqlInsertAuction (a : AuctionEntry)
  | SqlUpdateAuctionBid (bidder bid id : Z)
  | SqlDeleteAuction (id : Z)
  | SqlSaveInventory (guid : Z)
  | SqlSaveGold (guid money : Z).

Inductive Out :=
  | SendPacket (who : Z) (opcode : Z) (data : list field)
  | PExecute (q : Sql)
  | MoneyChanged (who value : Z)                (* the quests that ask for money *)
  | DeleteItem (guid : Z)                       (* delete item *)
  | Notification (who : Z)                      (* a line of text on the screen *)
  | ProcessAnticheatAction (who : Z)
  | InsertLog (who : Z)
  | LogItem (who guid : Z)
  | RemoveFeignDeath (who : Z)
  | ScriptOnBeforeMailDraftSendMailTo (receiver : Z)
  | ScriptOnAuctionAdd (id : Z)
  | ScriptOnAuctionRemove (id : Z)
  | ScriptOnAuctionSuccessful (id : Z)
  | ScriptOnAuctionExpire (id : Z)
  | SendCastResult (who result : Z)
  | PrepareSpell (who spell : Z) (castItem : option Z)
  | SetGiftCreator (item who : Z)
  | SendToMap (who item : Z).                   (* a line on the map of a character *)

(** A mail that waits for the number of mails of its receiver. *)
Record AsyncMailSendRequest := mkRequest {
  rq_sender : Z; rq_receiver : Z; rq_itemGuid : ObjectGuid; rq_money : Z; rq_COD : Z;
  rq_subject : list Z; rq_body : list Z; rq_receiverPtr : bool; rq_rcTeam : Z; rq_mailsCount : Z
}.

Record World := mkWorld {
  w_players : gmap Z Player;                    (* online *)
  w_gold : gmap Z Z;                            (* characters.money of the others *)
  w_mail : list Mail;                           (* rows of mail to the others *)
  w_requests : list AsyncMailSendRequest;
  m_MailIds : Z;                                (* the next identifier *)
  m_mAuctionHouses : gmap Z Z;                  (* houseId: the house that serves it *)
  m_vRealAuctionHouses : gmap Z AuctionHouseObject;
  mAitems : gmap Z Item;
  m_AuctionsIds : gset Z;
  m_NextAuctionId : Z;
  w_out : list Out
}.

Definition emits (os : list Out) (w : World) : World :=
  mkWorld (w_players w) (w_gold w) (w_mail w) (w_requests w) (m_MailIds w) (m_mAuctionHouses w) (m_vRealAuctionHouses w)
    (mAitems w) (m_AuctionsIds w) (m_NextAuctionId w) (w_out w ++ os).
Definition emit (o : Out) : World -> World := emits [o].
Definition set_players (m : gmap Z Player) (w : World) : World :=
  mkWorld m (w_gold w) (w_mail w) (w_requests w) (m_MailIds w) (m_mAuctionHouses w) (m_vRealAuctionHouses w)
    (mAitems w) (m_AuctionsIds w) (m_NextAuctionId w) (w_out w).
Definition set_saved (gold : gmap Z Z) (l : list Mail) (w : World) : World :=
  mkWorld (w_players w) gold l (w_requests w) (m_MailIds w) (m_mAuctionHouses w) (m_vRealAuctionHouses w)
    (mAitems w) (m_AuctionsIds w) (m_NextAuctionId w) (w_out w).
Definition set_requests (l : list AsyncMailSendRequest) (w : World) : World :=
  mkWorld (w_players w) (w_gold w) (w_mail w) l (m_MailIds w) (m_mAuctionHouses w) (m_vRealAuctionHouses w)
    (mAitems w) (m_AuctionsIds w) (m_NextAuctionId w) (w_out w).
Definition set_mail_id (n : Z) (w : World) : World :=
  mkWorld (w_players w) (w_gold w) (w_mail w) (w_requests w) n (m_mAuctionHouses w) (m_vRealAuctionHouses w)
    (mAitems w) (m_AuctionsIds w) (m_NextAuctionId w) (w_out w).
Definition set_houses (m : gmap Z AuctionHouseObject) (w : World) : World :=
  mkWorld (w_players w) (w_gold w) (w_mail w) (w_requests w) (m_MailIds w) (m_mAuctionHouses w) m
    (mAitems w) (m_AuctionsIds w) (m_NextAuctionId w) (w_out w).
Definition set_aitems (m : gmap Z Item) (w : World) : World :=
  mkWorld (w_players w) (w_gold w) (w_mail w) (w_requests w) (m_MailIds w) (m_mAuctionHouses w) (m_vRealAuctionHouses w)
    m (m_AuctionsIds w) (m_NextAuctionId w) (w_out w).
Definition set_auction_ids (s : gset Z) (next : Z) (w : World) : World :=
  mkWorld (w_players w) (w_gold w) (w_mail w) (w_requests w) (m_MailIds w) (m_mAuctionHouses w) (m_vRealAuctionHouses w)
    (mAitems w) s next (w_out w).

Definition upd_player (k : Z) (f : Player -> Player) (w : World) : World := set_players (alter f k (w_players w)) w.

(** What the mails and auctions ask of the rest of the server. *)
Record Env := mkEnv {
  now : Z;                                                       (* time(nullptr) *)
  GetGameTime : Z;                                               (* sWorld.GetGameTime() *)
  OnMoneyChanged : Z -> Z -> Z;                                  (* the amount after the scripts *)
  GetPlayerDataByGUID : Z -> option PlayerCacheData;
  GetPlayerGuidByName : list Z -> Z;                             (* 0 when there is none *)
  normalizePlayerName : list Z -> option (list Z);
  escape_string : list Z -> list Z;
  CreateItemText : list Z -> Z;
  CheckMailBox : Player -> ObjectGuid -> bool;
  IsSuspicious : Player -> bool;
  MailCountReached : Player -> bool;                             (* mails per hour, and no high-level character *)
  LastMailOpenTime : Player -> Z;
  AccountMaxLevelBelowCod : Player -> bool;
  LowLevelMailer : Player -> bool;                               (* below the level of the mail spam check *)
  CanMail : Player -> Z -> bool;                                 (* AccountPersistentData *)
  CanStoreItem : Player -> Item -> Z;
  StoreItem : gmap ObjectGuid Item -> Item -> gmap ObjectGuid Item;
  GetCheckedAuctionHouseForAuctioneer : Player -> ObjectGuid -> option Z;
  AuctionCut : Z -> Z -> Z;                                      (* houseId, bid: floating point *)
  AuctionDeposit : Z -> Z -> Item -> Z;                          (* houseId, time: floating point *)
  AuctionTime : Z -> Z;                                          (* the rate of the duration *)
  cfg_GM_ALLOW_TRADES : bool;
  cfg_ACCOUNT_CONCURRENT_AUCTION_LIMIT : Z;
  cfg_MAIL_DELIVERY_DELAY : Z;
  cfg_MAILSPAM_MONEY : Z;
  cfg_MAILSPAM_ITEM : bool;
  cfg_ALLOW_TWO_SIDE_INTERACTION_MAIL : bool
}.

(** ** Lookups *)

Definition FindMasterPlayer (k : Z) (w : World) : option Player := if k =? 0 then None else w_players w !! k.
Definition GetPlayer (k : Z) (w : World) : option Player :=
  match FindMasterPlayer k w with Some p => if pl_inWorld p then Some p else None | None => None end.

Definition GetPlayerAccountIdByGUID (E : Env) (k : Z) (w : World) : Z :=
  match GetPlayer k w with
  | Some p => pl_account p
  | None => match GetPlayerDataByGUID E k with Some d => uiAccount d | None => 0 end
  end.

Definition IsPlayerHardcore (E : Env) (lowGuid : Z) : bool :=
  hardcore_status (match GetPlayerDataByGUID E lowGuid with Some d => uiHardcoreStatus d | None => 0 end).

Definition GetAItem (id : Z) (w : World) : option Item := mAitems w !! id.
Definition RemoveAItem (id : Z) (w : World) : World := set_aitems (delete id (mAitems w)) w.
(** [AddAItem]: the assertion that the item is new fails with [None]. *)
Definition AddAItem (it : Item) (w : World) : option World :=
  match mAitems w !! it_guid it with
  | Some _ => None
  | None => Some (set_aitems (<[it_guid it := it]> (mAitems w)) w)
  end.

(** ** Gold *)

Definition SetMoney (value : Z) (k : Z) (w : World) : World :=
  emit (MoneyChanged k value) (upd_player k (set_money value) w).

(** [ModifyMoney(d)] of the online character [k]: the purse stays between 0
    and [MAX_MONEY_AMOUNT]. *)
Definition ModifyMoney (E : Env) (d : Z) (k : Z) (w : World) : World :=
  match w_players w !! k with
  | None => w
  | Some p =>
    let amount := i32 (OnMoneyChanged E k d) in
    if amount <? 0 then
      SetMoney (if u32 (- amount) <? pl_money p then u32 (pl_money p + amount) else 0) k w
    else
      SetMoney (if pl_money p <? u32 (MAX_MONEY_AMOUNT - amount) then u32 (pl_money p + amount) else MAX_MONEY_AMOUNT) k w
  end.

Definition SaveGoldToDB (k : Z) (w : World) : World :=
  match w_players w !! k with Some p => emit (PExecute (SqlSaveGold k (pl_money p))) w | None => w end.
Definition SaveInventoryAndGoldToDB (k : Z) (w : World) : World :=
  SaveGoldToDB k (emit (PExecute (SqlSaveInventory k)) w).
