(* ===== verification/Mail.v ===== *)
(** * Mail: drafts, mailboxes and the mail packets

    MailDraft (src/src/game/Mail/Mail.cpp), the mailbox of a character
    (src/src/game/MapNodes/MasterPlayer.cpp) and the handlers of
    src/src/game/Handlers/MailHandler.cpp that change something. Drafts with
    items from a loot template, the list of mails (its times are floating
    point) and text items are left out. [p] is the session's character, and
    the other arguments are the operands of the packet. *)
From S2P Require Import Prelude ByteBuffer ObjectGuid EconomyData.

Definition SMSG_SEND_MAIL_RESULT : Z := 0x239.
Definition SMSG_RECEIVED_MAIL : Z := 0x285.
Definition MAIL_SEND : Z := 0.
Definition MAIL_MONEY_TAKEN : Z := 1.
Definition MAIL_ITEM_TAKEN : Z := 2.
Definition MAIL_RETURNED_TO_SENDER : Z := 3.
Definition MAIL_DELETED : Z := 4.
Definition MAIL_OK : Z := 0.
Definition MAIL_ERR_EQUIP_ERROR : Z := 1.
Definition MAIL_ERR_CANNOT_SEND_TO_SELF : Z := 2.
Definition MAIL_ERR_NOT_ENOUGH_MONEY : Z := 3.
Definition MAIL_ERR_RECIPIENT_NOT_FOUND : Z := 4.
Definition MAIL_ERR_NOT_YOUR_TEAM : Z := 5.
Definition MAIL_ERR_INTERNAL_ERROR : Z := 6.
Definition MAIL_ERR_DISABLED_FOR_TRIAL_ACC : Z := 14.
Definition MAIL_ERR_RECIPIENT_CAP_REACHED : Z := 15.
Definition EQUIP_ERR_OK : Z := 0.
Definition EQUIP_ERR_ITEM_NOT_FOUND : Z := 23.

(** ** MailDraft *)

Record MailDraft := mkDraft {
  md_template : Z; md_subject : list Z; md_bodyId : Z; md_items : gmap Z Item; md_money : Z; md_COD : Z
}.

(** [MailDraft(subject, text)]; without a text the body is 0. *)
Definition newDraft (E : Env) (subj text : list Z) : MailDraft :=
  mkDraft 0 subj (if bool_decide (text = []) then 0 else CreateItemText E text) ∅ 0 0.
Definition AddItem (it : Item) (d : MailDraft) : MailDraft :=
  mkDraft (md_template d) (md_subject d) (md_bodyId d) (<[it_guid it := it]> (md_items d)) (md_money d) (md_COD d).
Definition draft_SetMoney (g : Z) (d : MailDraft) : MailDraft :=
  mkDraft (md_template d) (md_subject d) (md_bodyId d) (md_items d) g (md_COD d).
Definition SetCOD (c : Z) (d : MailDraft) : MailDraft :=
  mkDraft (md_template d) (md_subject d) (md_bodyId d) (md_items d) (md_money d) c.

Record MailSender := mkSender { ms_type : Z; ms_id : Z; ms_stationery : Z }.
Definition MailSender_auction (a : AuctionEntry) : MailSender := mkSender MAIL_AUCTION (auctionHouseEntry a) MAIL_STATIONERY_AUCTION.
Definition MailSender_player (guid : Z) : MailSender := mkSender MAIL_NORMAL guid MAIL_STATIONERY_DEFAULT.

Definition deleteIncludedItems (inDB : bool) (d : MailDraft) : list Out :=
  flat_map (fun kv => (if inDB then [PExecute (SqlDeleteItem (it_guid (snd kv)))] else []) ++ [DeleteItem (it_guid (snd kv))])
    (map_iter (md_items d)).

(** ** MasterPlayer *)

Definition AddNewMailDeliverTime (E : Env) (time k : Z) (w : World) : World :=
  if time <=? now E then
    emit (SendPacket k SMSG_RECEIVED_MAIL [FU32 0])
      (upd_player k (fun p => set_unread (u8 (unReadMails p + 1)) (m_nextMailDelivereTime p) p) w)
  else
    upd_player k (fun p =>
      if (m_nextMailDelivereTime p =? 0) || (time <? m_nextMailDelivereTime p) then set_unread (unReadMails p) time p else p) w.

(** [AddMail] and [AddMItem] of every item. *)
Definition AddMail (m : Mail) (its : gmap Z Item) (p : Player) : Player :=
  set_mails (m :: m_mail p) (its ∪ mMitems p) (m_mailsUpdated p) p.

Definition GetMail (id : Z) (p : Player) : option Mail := List.find (fun m => messageID m =? id) (m_mail p).

(** A change of the mail [GetMail] finds, through its pointer. *)
Fixpoint upd_mail (id : Z) (f : Mail -> Mail) (l : list Mail) : list Mail :=
  match l with
  | [] => []
  | m :: l => if messageID m =? id then f m :: l else m :: upd_mail id f l
  end.
Definition change_mail (id : Z) (f : Mail -> Mail) (p : Player) : Player :=
  set_mails (upd_mail id f (m_mail p)) (mMitems p) true p.

Fixpoint remove_mail (id : Z) (l : list Mail) : list Mail :=
  match l with
  | [] => []
  | m :: l => if messageID m =? id then l else m :: remove_mail id l
  end.
Definition RemoveMail (id : Z) (p : Player) : Player := set_mails (remove_mail id (m_mail p)) (mMitems p) (m_mailsUpdated p) p.
Definition RemoveMItem (id : Z) (p : Player) : Player := set_mails (m_mail p) (delete id (mMitems p)) (m_mailsUpdated p) p.

Definition mail_state (st : MailState) (m : Mail) : Mail :=
  mail_with (items m) (removedItems m) (expire_time m) (money m) (COD m) (checked m) st m.

(** The statements [SaveMails] executes for one mail. *)
Definition save_mail (m : Mail) : list Out :=
  match m_state m with
  | MAIL_STATE_CHANGED =>
    PExecute (SqlUpdateMail (itemTextId m) (has_items m) (expire_time m) (deliver_time m) (money m) (COD m) (checked m) (messageID m))
    :: ((fun it => PExecute (SqlDeleteMailItem it)) <$> removedItems m)
  | MAIL_STATE_DELETED =>
    (if has_items m then (fun it => PExecute (SqlDeleteItem (fst it))) <$> items m else []) ++
    (if negb (itemTextId m =? 0) && negb (stationery m =? MAIL_STATIONERY_DEFAULT)
     then [PExecute (SqlDeleteItemText (itemTextId m))] else []) ++
    [PExecute (SqlSoftDeleteMail (messageID m)); PExecute (SqlDeleteMailItemsOf (messageID m))]
  | _ => []
  end.
Definition saved_mail (m : Mail) : Mail :=
  match m_state m with
  | MAIL_STATE_CHANGED => mail_with (items m) [] (expire_time m) (money m) (COD m) (checked m) MAIL_STATE_UNCHANGED m
  | _ => m
  end.

Definition SaveMails (k : Z) (w : World) : World :=
  match w_players w !! k with
  | Some p =>
    if m_mailsUpdated p then
      upd_player k (fun p => set_mails (filter (fun m => m_state m <> MAIL_STATE_DELETED) (saved_mail <$> m_mail p)) (mMitems p) false p)
        (emits (flat_map save_mail (m_mail p)) w)
    else w
  | None => w
  end.

(** ** Sending *)

Definition GenerateMailID (w : World) : Z * World := (m_MailIds w, set_mail_id (u32 (m_MailIds w + 1)) w).

Definition SendMailTo (E : Env) (d : MailDraft) (receiver : Z) (from : MailSender) (chk deliver_delay : Z) (w : World) : World :=
  let w := emit (ScriptOnBeforeMailDraftSendMailTo receiver) w in
  let '(mailId, w) := GenerateMailID w in
  let delivery := now E + deliver_delay in
  let expire_delay :=
    if (ms_type from =? MAIL_AUCTION) && bool_decide (md_items d = ∅) && (md_money d =? 0) then HOUR
    else if 0 <? md_COD d then 3 * DAY else 30 * DAY in
  let expiry := delivery + expire_delay in
  let its := (fun kv => (it_guid (snd kv), it_entry (snd kv))) <$> map_iter (md_items d) in
  let attached := negb (bool_decide (md_items d = ∅)) in
  let w := emits (PExecute (SqlInsertMail mailId (ms_type from) (ms_stationery from) (md_template d) (ms_id from) receiver
                    (escape_string E (md_subject d)) (md_bodyId d) attached expiry delivery (md_money d) (md_COD d) chk) ::
                  ((fun it => PExecute (SqlInsertMailItem mailId (fst it) (snd it) receiver)) <$> its)) w in
  let m := mkMail mailId (ms_type from) (ms_stationery from) (md_template d) (ms_id from) receiver (md_subject d) (md_bodyId d)
             attached its [] expiry delivery (md_money d) (md_COD d) chk MAIL_STATE_UNCHANGED in
  match FindMasterPlayer receiver w with
  | Some _ => upd_player receiver (AddMail m (md_items d)) (AddNewMailDeliverTime E delivery receiver w)
  | None => emits (deleteIncludedItems false d) (set_saved (w_gold w) (m :: w_mail w) w)
  end.

(** [SendReturnToSender]: [sender_guid] returns the mail to [receiver_guid]. *)
Definition SendReturnToSender (E : Env) (d : MailDraft) (sender_guid receiver_guid : Z) (w : World) : World :=
  let rc_account := match GetPlayer receiver_guid w with Some _ => 0 | None => GetPlayerAccountIdByGUID E receiver_guid w end in
  if bool_decide (GetPlayer receiver_guid w = None) && (rc_account =? 0) then emits (deleteIncludedItems true d) w
  else
    let w := emits (flat_map (fun kv => [PExecute (SqlSaveItem (it_guid (snd kv))); PExecute (SqlUpdateItemOwner receiver_guid (it_guid (snd kv)))])
               (map_iter (md_items d))) w in
    SendMailTo E d receiver_guid (MailSender_player sender_guid) MAIL_CHECK_MASK_RETURNED 0 w.

(** ** MailHandler.cpp: sending *)

Definition SendMailResult (p : Player) (mailId mailAction mailError equipError item_guid item_count : Z) (w : World) : World :=
  emit (SendPacket (pl_guid p) SMSG_SEND_MAIL_RESULT
    ([FU32 mailId; FU32 mailAction; FU32 mailError] ++
     (if mailError =? MAIL_ERR_EQUIP_ERROR then [FU32 equipError]
      else if mailAction =? MAIL_ITEM_TAKEN then [FU32 item_guid; FU32 item_count] else []))) w.
Definition mail_result (p : Player) (mailId mailAction mailError : Z) (w : World) : World :=
  SendMailResult p mailId mailAction mailError 0 0 0 w.

(** [MoveItemFromInventory]. *)
Definition MoveItemFromInventory (k : Z) (g : ObjectGuid) (w : World) : World :=
  upd_player k (fun p => set_items (delete g (pl_items p)) p) w.

(** The item of a request, or the error it is refused with. *)
Definition request_item (E : Env) (p : Player) (rq : AsyncMailSendRequest) (w : World) : option Item + unit :=
  if IsEmpty (rq_itemGuid rq) then inl None
  else
    match pl_items p !! rq_itemGuid rq with
    | None => inr tt
    | Some it =>
      if negb (it_inWorld it) then inr tt
      else if it_inBank it then inr tt
      else if negb (it_boa it) && negb (it_tradable it) then inr tt
      else if it_boa it && negb (GetPlayerAccountIdByGUID E (rq_sender rq) w =? GetPlayerAccountIdByGUID E (rq_receiver rq) w) then inr tt
      else if negb (it_tradable it) || it_soulbound it then inr tt
      else if negb (Z.land (ip_Flags (it_proto it)) ITEM_FLAG_CONJURED =? 0) || negb (it_duration it =? 0) then inr tt
      else inl (Some it)
    end.

(** The second half of [HandleSendMailCallback]: the mail with its item, which
    leaves the inventory of the sender, is on its way. *)
Definition attach_item (E : Env) (p : Player) (rq : AsyncMailSendRequest) (item : option Item) (w : World) : MailDraft * World :=
  let draft := newDraft E (rq_subject rq) (rq_body rq) in
  match item with
  | None => (draft, w)
  | Some it =>
    let w := MoveItemFromInventory (pl_guid p) (rq_itemGuid rq) (emit (LogItem (pl_guid p) (it_guid it)) w) in
    (AddItem it draft,
     emits [PExecute (SqlDeleteFromInventory (it_guid it)); PExecute (SqlSaveItem (it_guid it));
            PExecute (SqlUpdateItemOwner (rq_receiver rq) (it_guid it))] w)
  end.
Definition post_mail (E : Env) (p : Player) (rq : AsyncMailSendRequest) (item : option Item) (draft : MailDraft) (w : World) : World :=
  let me := pl_guid p in
  let deliver_delay := if IsEmpty (rq_itemGuid rq) then 0 else cfg_MAIL_DELIVERY_DELAY E in
  let '(from, deliver_delay) :=
    if pl_anonMail p then (mkSender MAIL_NORMAL 0 MAIL_STATIONERY_GM, 0) else (MailSender_player me, deliver_delay) in
  let '(cod, w) :=
    if bool_decide (item = None) && negb (rq_COD rq =? 0) then (0, emit (ProcessAnticheatAction me) w) else (rq_COD rq, w) in
  let w := SendMailTo E (SetCOD cod (draft_SetMoney (rq_money rq) draft)) (rq_receiver rq) from
             (if bool_decide (rq_body rq = []) then MAIL_CHECK_MASK_COPIED else MAIL_CHECK_MASK_HAS_BODY) deliver_delay w in
  SaveInventoryAndGoldToDB me w.

(** [p] is the sender, who is in the world. *)
Definition HandleSendMailCallback (E : Env) (p : Player) (rq : AsyncMailSendRequest) (w : World) : World :=
  let me := pl_guid p in
  let fail e w := mail_result p 0 MAIL_SEND e w in
  let reqmoney := u32 (rq_money rq + 30) in
  if reqmoney <? rq_money rq then fail MAIL_ERR_NOT_ENOUGH_MONEY (emit (ProcessAnticheatAction me) w)
  else if negb (reqmoney =? 0) && (pl_money p <? reqmoney) then fail MAIL_ERR_NOT_ENOUGH_MONEY w
  else if 100 <? rq_mailsCount rq then fail MAIL_ERR_RECIPIENT_CAP_REACHED w
  else if negb (cfg_ALLOW_TWO_SIDE_INTERACTION_MAIL E) && negb (pl_team p =? rq_rcTeam rq) && (pl_security p =? SEC_PLAYER) then
    emit (Notification me) (fail MAIL_ERR_NOT_YOUR_TEAM w)
  else
    let rc_account := GetPlayerAccountIdByGUID E (rq_receiver rq) w in
    match request_item E p rq w with
    | inr _ => fail MAIL_ERR_INTERNAL_ERROR w
    | inl item =>
      if LowLevelMailer E p && (rq_money rq <? cfg_MAILSPAM_MONEY E) && (cfg_MAILSPAM_ITEM E && IsEmpty (rq_itemGuid rq)) then
        emit (Notification me) (fail MAIL_ERR_RECIPIENT_CAP_REACHED w)
      else if negb (CanMail E p rc_account) then
        fail MAIL_OK (emits [InsertLog me; ProcessAnticheatAction me] w)
      else
        let w := ModifyMoney E (i32 (- i32 reqmoney)) me (fail MAIL_OK w) in
        let '(draft, w) := attach_item E p rq item w in
        post_mail E p rq item draft w
    end.

(** [AsyncMailSendRequest::Callback], with the count the query returned. *)
Definition Callback (E : Env) (rq : AsyncMailSendRequest) (result : option Z) (w : World) : World :=
  match w_players w !! rq_sender rq with
  | Some p =>
    if pl_inWorld p then
      HandleSendMailCallback E p
        (match result with
         | Some n => mkRequest (rq_sender rq) (rq_receiver rq) (rq_itemGuid rq) (rq_money rq) (rq_COD rq) (rq_subject rq)
                       (rq_body rq) (rq_receiverPtr rq) (rq_rcTeam rq) (u8 n)
         | None => rq
         end) w
    else w
  | None => w
  end.

(** A receiver who is not online is asked for his mails: the request waits for
    the answer in [w_requests]. *)
Definition HandleSendMail (E : Env) (p : Player) (mailbox : ObjectGuid) (receiverName subj body : list Z) (itemGuid : ObjectGuid)
    (gold cod : Z) (w : World) : World :=
  let me := pl_guid p in
  let fail e w := mail_result p 0 MAIL_SEND e w in
  let attached := negb (gold =? 0) || negb (cod =? 0) || negb (IsEmpty itemGuid) in
  if negb (CheckMailBox E p mailbox) then w
  else if IsSuspicious E p then w
  else if MailCountReached E p then emit (Notification me) (fail MAIL_ERR_RECIPIENT_CAP_REACHED w)
  else if (64 <? Z.of_nat (length subj)) || (500 <? Z.of_nat (length body)) then w
  else if 100000000 <? cod then emit (ProcessAnticheatAction me) w
  else
    let subj := if negb (cod =? 0) && AccountMaxLevelBelowCod E p then str "(COD) " ++ subj else subj in
    if negb (cfg_GM_ALLOW_TRADES E) && (SEC_PLAYER <? pl_security p) && (negb (IsEmpty itemGuid) || negb (gold =? 0)) then w
    else if bool_decide (receiverName = []) then w
    else
      let receiver := match normalizePlayerName E receiverName with Some n => GetPlayerGuidByName E n | None => 0 end in
      if receiver =? 0 then fail MAIL_ERR_RECIPIENT_NOT_FOUND w
      else if me =? receiver then fail MAIL_ERR_CANNOT_SEND_TO_SELF w
      else if IsHardcore p && attached then emit (Notification me) (fail MAIL_ERR_DISABLED_FOR_TRIAL_ACC w)
      else if negb (gold =? 0) && ((Z.of_nat (length subj) =? 1) && bool_decide (body = []) || (GetGameTime E <=? LastMailOpenTime E p + 1)) then
        emit (Notification me) (fail MAIL_ERR_NOT_ENOUGH_MONEY w)
      else
        match GetPlayer receiver w with
        | Some q =>
          if negb (IsHardcore p) && IsHardcore q && attached then emit (Notification me) (fail MAIL_ERR_RECIPIENT_NOT_FOUND w)
          else Callback E (mkRequest me receiver itemGuid gold cod subj body true (pl_team q) (u8 (Z.of_nat (length (m_mail q))))) None w
        | None =>
          if negb (IsHardcore p) && IsPlayerHardcore E receiver && attached then
            emit (Notification me) (fail MAIL_ERR_RECIPIENT_NOT_FOUND w)
          else
            let team := match GetPlayerDataByGUID E receiver with Some d => uiTeam d | None => 0 end in
            set_requests (mkRequest me receiver itemGuid gold cod subj body false team 0xFF :: w_requests w) w
        end.

(** ** MailHandler.cpp: mailboxes *)

Definition HandleMailMarkAsRead (E : Env) (p : Player) (mailbox : ObjectGuid) (mailId : Z) (w : World) : World :=
  let me := pl_guid p in
  if negb (CheckMailBox E p mailbox) then w
  else
    match GetMail mailId p with
    | None => w
    | Some m =>
      if decide (m_state m = MAIL_STATE_DELETED) then emit (ProcessAnticheatAction me) w
      else
        upd_player me (fun p => change_mail mailId (fun m =>
            let expiry := if (now E <? expire_time m) && (3 * DAY <? expire_time m - now E) then now E + 3 * DAY else expire_time m in
            mail_with (items m) (removedItems m) expiry (money m) (COD m) (Z.lor (checked m) MAIL_CHECK_MASK_READ) MAIL_STATE_CHANGED m)
          (set_unread (if unReadMails p =? 0 then 0 else unReadMails p - 1) (m_nextMailDelivereTime p) p)) w
    end.

Definition HandleMailDelete (E : Env) (p : Player) (mailbox : ObjectGuid) (mailId : Z) (w : World) : World :=
  let me := pl_guid p in
  if negb (CheckMailBox E p mailbox) then w
  else
    let w := upd_player me (fun p => set_mails (m_mail p) (mMitems p) true p) w in
    match GetMail mailId p with
    | Some m =>
      if negb (COD m =? 0) then mail_result p mailId MAIL_DELETED MAIL_ERR_INTERNAL_ERROR w
      else mail_result p mailId MAIL_DELETED MAIL_OK (upd_player me (change_mail mailId (mail_state MAIL_STATE_DELETED)) w)
    | None => mail_result p mailId MAIL_DELETED MAIL_OK w
    end.

(** A mail that can be opened: there, not deleted, delivered. *)
Definition open_mail (E : Env) (mailId : Z) (p : Player) : option Mail :=
  match GetMail mailId p with
  | Some m => if bool_decide (m_state m = MAIL_STATE_DELETED) || (now E <? deliver_time m) then None else Some m
  | None => None
  end.

Definition HandleMailReturnToSender (E : Env) (p : Player) (mailbox : ObjectGuid) (mailId : Z) (w : World) : World :=
  let me := pl_guid p in
  if negb (CheckMailBox E p mailbox) then w
  else
    match open_mail E mailId p with
    | None => mail_result p mailId MAIL_RETURNED_TO_SENDER MAIL_ERR_INTERNAL_ERROR w
    | Some m =>
      let w := upd_player me (RemoveMail mailId)
                 (emits [PExecute (SqlSoftDeleteMail mailId); PExecute (SqlDeleteMailItemsOf mailId)] w) in
      let w :=
        if (messageType m =? MAIL_NORMAL) && negb (sender m =? 0) && negb (IsPlayerHardcore E (sender m)) then
          let its := if has_items m then omap (fun it => mMitems p !! fst it) (items m) else [] in
          let draft := foldl (fun d it => AddItem it d)
                         (mkDraft (mailTemplateId m) (if mailTemplateId m =? 0 then subject m else [])
                            (if mailTemplateId m =? 0 then itemTextId m else 0) ∅ 0 0) its in
          let w := if has_items m then upd_player me (fun p => foldl (fun p it => RemoveMItem (fst it) p) p (items m)) w else w in
          SendReturnToSender E (draft_SetMoney (money m) draft) (receiverGuid m) (sender m) w
        else w in
      mail_result p mailId MAIL_RETURNED_TO_SENDER MAIL_OK w
    end.

(** The first item of a list [RemoveItem] finds. *)
Fixpoint remove_item (guid : Z) (l : list (Z * Z)) : list (Z * Z) :=
  match l with
  | [] => []
  | it :: l => if fst it =? guid then l else it :: remove_item guid l
  end.

Definition HandleMailTakeItem (E : Env) (p : Player) (mailbox : ObjectGuid) (mailId : Z) (w : World) : World :=
  let me := pl_guid p in
  let fail e w := mail_result p mailId MAIL_ITEM_TAKEN e w in
  if negb (CheckMailBox E p mailbox) then w
  else
    match open_mail E mailId p with
    | None => fail MAIL_ERR_INTERNAL_ERROR w
    | Some m =>
      match has_items m, items m with
      | true, (itemGuid, itemId) :: _ =>
        if pl_money p <? COD m then fail MAIL_ERR_NOT_ENOUGH_MONEY w
        else if negb (cfg_GM_ALLOW_TRADES E) && (SEC_PLAYER <? pl_security p) && negb (COD m =? 0) then fail MAIL_ERR_NOT_ENOUGH_MONEY w
        else
          match mMitems p !! itemGuid with
          | None => SendMailResult p mailId MAIL_ITEM_TAKEN MAIL_ERR_EQUIP_ERROR EQUIP_ERR_ITEM_NOT_FOUND 0 0 w
          | Some it =>
            let msg := CanStoreItem E p it in
            if negb (msg =? EQUIP_ERR_OK) then SendMailResult p mailId MAIL_ITEM_TAKEN MAIL_ERR_EQUIP_ERROR msg 0 0 w
            else
              let w :=
                if 0 <? COD m then
                  let w :=
                    if bool_decide (is_Some (GetPlayer (sender m) w)) || negb (GetPlayerAccountIdByGUID E (sender m) w =? 0) then
                      SendMailTo E (draft_SetMoney (COD m) (newDraft E (subject m) [])) (sender m) (MailSender_player me)
                        MAIL_CHECK_MASK_COD_PAYMENT 0 w
                    else w in
                  ModifyMoney E (i32 (- i32 (COD m))) me w
                else w in
              let w := upd_player me (change_mail mailId (fun m =>
                         mail_with (remove_item itemGuid (items m)) (removedItems m ++ [itemGuid]) (expire_time m) (money m) 0
                           (checked m) MAIL_STATE_CHANGED m)) w in
              let w := upd_player me (fun p => set_items (StoreItem E (pl_items p) it) (RemoveMItem (it_guid it) p))
                         (emit (LogItem me (it_guid it)) w) in
              SendMailResult p mailId MAIL_ITEM_TAKEN MAIL_OK 0 itemId (it_count it) (SaveMails me (SaveInventoryAndGoldToDB me w))
          end
      | _, _ => fail MAIL_ERR_INTERNAL_ERROR w
      end
    end.

(** The four kinds of stationery only differ in what is logged. *)
Definition HandleMailTakeMoney (E : Env) (p : Player) (mailbox : ObjectGuid) (mailId : Z) (w : World) : World :=
  let me := pl_guid p in
  if negb (CheckMailBox E p mailbox) then w
  else
    match open_mail E mailId p with
    | None => mail_result p mailId MAIL_MONEY_TAKEN MAIL_ERR_INTERNAL_ERROR w
    | Some m =>
      let w := mail_result p mailId MAIL_MONEY_TAKEN MAIL_OK w in
      let w := ModifyMoney E (i32 (money m)) me w in
      let w := upd_player me (change_mail mailId (fun m =>
                 mail_with (items m) (removedItems m) (expire_time m) 0 (COD m) (checked m) MAIL_STATE_CHANGED m)) w in
      SaveMails me (SaveGoldToDB me w)
    end.
