(* ===== verification/Auction.v ===== *)
(** * Auction: the auction houses

    src/src/game/AuctionHouse/AuctionHouseMgr.cpp and the handlers of
    src/src/game/Handlers/AuctionHouseHandler.cpp that create, bid on or
    cancel an auction. The listings are in AuctionListing. Cut, deposit and
    duration are computed in floating point: arguments of the model. *)
From stdpp Require Import pretty.
From S2P Require Import Prelude ByteBuffer ObjectGuid EconomyData Mail.

Definition MIN_AUCTION_TIME : Z := 2 * HOUR.
Definition AUCTION_OK : Z := 0.
Definition AUCTION_ERR_INVENTORY : Z := 1.
Definition AUCTION_ERR_DATABASE : Z := 2.
Definition AUCTION_ERR_NOT_ENOUGH_MONEY : Z := 3.
Definition AUCTION_ERR_ITEM_NOT_FOUND : Z := 4.
Definition AUCTION_ERR_HIGHER_BID : Z := 5.
Definition AUCTION_ERR_BID_INCREMENT : Z := 7.
Definition AUCTION_ERR_BID_OWN : Z := 10.
Definition AUCTION_STARTED : Z := 0.
Definition AUCTION_REMOVED : Z := 1.
Definition AUCTION_BID_PLACED : Z := 2.
Definition AUCTION_OUTBIDDED : Z := 0.
Definition AUCTION_WON : Z := 1.
Definition AUCTION_SUCCESSFUL : Z := 2.
Definition AUCTION_EXPIRED : Z := 3.
Definition AUCTION_CANCELLED_TO_BIDDER : Z := 4.
Definition AUCTION_CANCELED : Z := 5.
Definition SMSG_AUCTION_COMMAND_RESULT : Z := 0x25B.
Definition SMSG_AUCTION_BIDDER_NOTIFICATION : Z := 0x25E.
Definition SMSG_AUCTION_OWNER_NOTIFICATION : Z := 0x25F.
Definition SMSG_AUCTION_REMOVED_NOTIFICATION : Z := 0x28D.

(** ** The text of the mails: unsigned numbers in decimal, and in hexadecimal
    right-aligned in sixteen columns *)

Definition print (n : Z) : list Z := str (pretty (Z.to_N n)).

Definition hex_digit (d : Z) : Z := if d <? 10 then 48 + d else 87 + d.
Fixpoint hex_digits (fuel : nat) (n : Z) (acc : list Z) : list Z :=
  match fuel with
  | O => acc
  | S fuel => if n <? 16 then hex_digit n :: acc else hex_digits fuel (n / 16) (hex_digit (n mod 16) :: acc)
  end.
Definition print_hex (n : Z) : list Z :=
  let ds := hex_digits 8 n [] in replicate (16 - length ds) 32 ++ ds.

(** ** AuctionEntry *)

Definition set_bid (price who : Z) (a : AuctionEntry) : AuctionEntry :=
  mkAuction (au_Id a) (itemGuidLow a) (itemTemplate a) (owner a) (ownerAccount a) (startbid a) price (buyout a)
    (lockedIpAddress a) (depositTime a) (expireTime a) who (deposit a) (auctionHouseEntry a).
Definition unlock (a : AuctionEntry) : AuctionEntry :=
  mkAuction (au_Id a) (itemGuidLow a) (itemTemplate a) (owner a) (ownerAccount a) (startbid a) (bid a) (buyout a)
    [] (depositTime a) (expireTime a) (bidder a) (deposit a) (auctionHouseEntry a).

Definition GetAuctionCut (E : Env) (a : AuctionEntry) : Z := AuctionCut E (auctionHouseEntry a) (bid a).
Definition GetAuctionOutBid (a : AuctionEntry) : Z :=
  let outbid := u32 (bid a / 100 * 5) in if outbid =? 0 then 1 else outbid.
Definition IsAvailableFor (p : Player) (a : AuctionEntry) : bool :=
  if bool_decide (lockedIpAddress a = []) then true else bool_decide (lockedIpAddress a = pl_address p).

(** ** AuctionHouseObject *)

(** Erase the first element of the multimap at the key with this value. *)
Fixpoint mm_erase_first (k v : Z) (m : list (Z * Z)) : list (Z * Z) :=
  match m with
  | [] => []
  | kv :: m => if (fst kv =? k) && (snd kv =? v) then m else kv :: mm_erase_first k v m
  end.

Definition emptyHouse : AuctionHouseObject := mkHouse ∅ [] [].

(** ** Notifications *)

Definition random_property (a : AuctionEntry) (w : World) : Z :=
  match GetAItem (itemGuidLow a) w with Some it => it_randomProperty it | None => 0 end.

Definition SendAuctionCommandResult (p : Player) (a : option AuctionEntry) (action error invError : Z) (w : World) : World :=
  let get f := match a with Some a => f a | None => 0 end in
  emit (SendPacket (pl_guid p) SMSG_AUCTION_COMMAND_RESULT
    ([FU32 (get au_Id); FU32 action; FU32 error] ++
     (if error =? AUCTION_OK then if action =? AUCTION_BID_PLACED then [FU32 (get GetAuctionOutBid)] else []
      else if error =? AUCTION_ERR_INVENTORY then [FU32 invError]
      else if error =? AUCTION_ERR_HIGHER_BID then [FU64 (get bidder); FU32 (get bid); FU32 (get GetAuctionOutBid)]
      else []))) w.

Definition SendAuctionBidderNotification (who : Z) (a : AuctionEntry) (won : bool) (w : World) : World :=
  emit (SendPacket who SMSG_AUCTION_BIDDER_NOTIFICATION
    [FU32 (auctionHouseEntry a); FU32 (au_Id a); FU64 (bidder a); FU32 (if won then 0 else bid a); FU32 (GetAuctionOutBid a);
     FU32 (itemTemplate a); FU32 (u32 (random_property a w))]) w.

Definition SendAuctionOwnerNotification (who : Z) (a : AuctionEntry) (sold : bool) (w : World) : World :=
  emit (SendPacket who SMSG_AUCTION_OWNER_NOTIFICATION
    [FU32 (au_Id a); FU32 (bid a); FU32 (GetAuctionOutBid a); FU64 (if sold then 0 else bidder a); FU32 (itemTemplate a);
     FU32 (u32 (random_property a w))]) w.

Definition SendAuctionRemovedNotification (who : Z) (a : AuctionEntry) (w : World) : World :=
  emit (SendPacket who SMSG_AUCTION_REMOVED_NOTIFICATION
    [FU32 (au_Id a); FU32 (itemTemplate a); FU32 (u32 (random_property a w))]) w.

(** ** Mails about auctions *)

(** The receiver of a mail: whether he exists, online or not, and whether he
    plays hardcore. *)
Definition receiver_exists (E : Env) (k : Z) (w : World) : bool :=
  bool_decide (is_Some (GetPlayer k w)) || negb (GetPlayerAccountIdByGUID E k w =? 0).
Definition receiver_hardcore (E : Env) (k : Z) (w : World) : bool :=
  match GetPlayer k w with Some p => IsHardcore p | None => IsPlayerHardcore E k end.

Definition auction_subject (a : AuctionEntry) (answer : Z) : list Z := print (itemTemplate a) ++ str ":0:" ++ print answer.

Definition if_online (k : Z) (f : World -> World) (w : World) : World :=
  match GetPlayer k w with Some _ => f w | None => w end.

Definition destroy_item (it : Item) (w : World) : World :=
  emit (DeleteItem (it_guid it)) (RemoveAItem (it_guid it) (emit (PExecute (SqlDeleteItem (it_guid it))) w)).

Definition SendAuctionWonMail (E : Env) (a : AuctionEntry) (w : World) : World :=
  match GetAItem (itemGuidLow a) w with
  | None => w
  | Some it =>
    if receiver_exists E (bidder a) w && negb (receiver_hardcore E (bidder a) w) then
      let w := emit (PExecute (SqlUpdateItemOwner (bidder a) (it_guid it))) w in
      let w := match GetPlayer (bidder a) w with
               | Some _ => SendAuctionBidderNotification (bidder a) a true w
               | None => RemoveAItem (it_guid it) w
               end in
      let body := print_hex (owner a) ++ str ":" ++ print (bid a) ++ str ":" ++ print (buyout a) in
      SendMailTo E (AddItem it (newDraft E (auction_subject a AUCTION_WON) body)) (bidder a) (MailSender_auction a)
        MAIL_CHECK_MASK_COPIED 0 w
    else destroy_item it w
  end.

Definition SendAuctionSuccessfulMail (E : Env) (a : AuctionEntry) (w : World) : World :=
  if receiver_hardcore E (owner a) w then w
  else if receiver_exists E (owner a) w then
    let auctionCut := GetAuctionCut E a in
    let body := print_hex (bidder a) ++ str ":" ++ print (bid a) ++ str ":" ++ print (buyout a) ++ str ":" ++
                print (deposit a) ++ str ":" ++ print auctionCut in
    let profit := u32 (bid a + deposit a - auctionCut) in
    let w := if_online (owner a) (SendAuctionOwnerNotification (owner a) a true) w in
    SendMailTo E (draft_SetMoney profit (newDraft E (auction_subject a AUCTION_SUCCESSFUL) body)) (owner a) (MailSender_auction a)
      MAIL_CHECK_MASK_COPIED 0 w
  else w.

Definition SendAuctionExpiredMail (E : Env) (a : AuctionEntry) (w : World) : World :=
  match GetAItem (itemGuidLow a) w with
  | None => w
  | Some it =>
    if receiver_exists E (owner a) w && negb (receiver_hardcore E (owner a) w) then
      let w := match GetPlayer (owner a) w with
               | Some _ => SendAuctionOwnerNotification (owner a) a false w
               | None => RemoveAItem (it_guid it) w
               end in
      SendMailTo E (AddItem it (newDraft E (auction_subject a AUCTION_EXPIRED) [])) (owner a) (MailSender_auction a)
        MAIL_CHECK_MASK_COPIED 0 w
    else destroy_item it w
  end.

(** The refund of a bidder, with the notification he gets when he is online. *)
Definition refund_bidder (E : Env) (answer : Z) (notify : World -> World) (a : AuctionEntry) (w : World) : World :=
  if receiver_hardcore E (bidder a) w then w
  else if receiver_exists E (bidder a) w then
    SendMailTo E (draft_SetMoney (bid a) (newDraft E (auction_subject a answer) [])) (bidder a) (MailSender_auction a)
      MAIL_CHECK_MASK_COPIED 0 (if_online (bidder a) notify w)
  else w.
Definition SendAuctionOutbiddedMail (E : Env) (a : AuctionEntry) : World -> World :=
  refund_bidder E AUCTION_OUTBIDDED (SendAuctionBidderNotification (bidder a) a false) a.
Definition SendAuctionCancelledToBidderMail (E : Env) (a : AuctionEntry) : World -> World :=
  refund_bidder E AUCTION_CANCELLED_TO_BIDDER (SendAuctionRemovedNotification (bidder a) a) a.

(** ** ObjectMgr: identifiers of auctions *)

(** The search through the identifiers in use, from [m_NextAuctionId] on. *)
Fixpoint next_auction_id (next : Z) (l : list Z) : Z :=
  match l with
  | [] => next
  | x :: l => if x =? next then next_auction_id (u32 (next + 1)) l else next
  end.

Definition GenerateAuctionID (w : World) : Z * World :=
  let ids := filter (fun x => m_NextAuctionId w <= x) (merge_sort Z.le (elements (m_AuctionsIds w))) in
  let id := next_auction_id (m_NextAuctionId w) ids in
  (id, set_auction_ids ({[id]} ∪ m_AuctionsIds w) (u32 (id + 1)) w).
Definition FreeAuctionID (id : Z) (w : World) : World := set_auction_ids (m_AuctionsIds w ∖ {[id]}) (m_NextAuctionId w) w.

(** ** AuctionHouseObject: adding and removing *)

(** The house object that serves a [houseId], by its number. *)
Definition GetAuctionsMap (houseId : Z) (w : World) : option Z := m_mAuctionHouses w !! houseId.
Definition house_at (h : Z) (w : World) : AuctionHouseObject := default emptyHouse (m_vRealAuctionHouses w !! h).
Definition upd_house (h : Z) (f : AuctionHouseObject -> AuctionHouseObject) (w : World) : World :=
  set_houses (<[h := f (house_at h w)]> (m_vRealAuctionHouses w)) w.

Definition add_entry (a : AuctionEntry) (ho : AuctionHouseObject) : AuctionHouseObject :=
  mkHouse (<[au_Id a := a]> (AuctionsMap ho)) (mm_insert (buyout a) (au_Id a) (OrderedAuctionMap ho))
    (mm_insert (ownerAccount a) (au_Id a) (AccountAuctionMap ho)).
Definition AddAuction (h : Z) (a : AuctionEntry) (w : World) : World :=
  emit (ScriptOnAuctionAdd (au_Id a)) (upd_house h (add_entry a) w).

Definition remove_entry (a : AuctionEntry) (ho : AuctionHouseObject) : AuctionHouseObject :=
  mkHouse (delete (au_Id a) (AuctionsMap ho)) (mm_erase_first (buyout a) (au_Id a) (OrderedAuctionMap ho))
    (mm_erase_first (ownerAccount a) (au_Id a) (AccountAuctionMap ho)).
Definition RemoveAuction (h : Z) (a : AuctionEntry) (w : World) : bool * World :=
  let known := bool_decide (is_Some (AuctionsMap (house_at h w) !! au_Id a)) in
  let w := upd_house h (remove_entry a) w in
  if known then (true, emit (ScriptOnAuctionRemove (au_Id a)) (FreeAuctionID (au_Id a) w)) else (false, w).

(** The auctions of one account: [equal_range]. *)
Definition account_range (account : Z) (ho : AuctionHouseObject) : list Z :=
  snd <$> filter (fun kv => fst kv = account) (AccountAuctionMap ho).
Definition GetAccountAuctionCount (account : Z) (ho : AuctionHouseObject) : Z := Z.of_nat (length (account_range account ho)).

Definition RemoveAllAuctions (h : Z) (p : Player) (w : World) : World :=
  let ho := house_at h w in
  let deletable := filter (fun a => owner a = pl_guid p) (omap (fun id => AuctionsMap ho !! id) (account_range (pl_account p) ho)) in
  foldl (fun w a => snd (RemoveAuction h a w)) w deletable.

(** ** AuctionHouseObject::Update *)

Definition close_auction (h : Z) (a : AuctionEntry) (w : World) : World :=
  snd (RemoveAuction h a (RemoveAItem (itemGuidLow a) (emit (PExecute (SqlDeleteAuction (au_Id a))) w))).

(** The body of the loop, for the entry at [id]. *)
Definition update_entry (E : Env) (h id : Z) (w : World) : World :=
  match AuctionsMap (house_at h w) !! id with
  | None => w
  | Some a =>
    let a := if depositTime a + 5 * 60 <? GetGameTime E then unlock a else a in
    let w := upd_house h (fun ho => mkHouse (<[id := a]> (AuctionsMap ho)) (OrderedAuctionMap ho) (AccountAuctionMap ho)) w in
    if expireTime a <? GetGameTime E then
      close_auction h a
        (if bidder a =? 0 then SendAuctionExpiredMail E a (emit (ScriptOnAuctionExpire id) w)
         else SendAuctionWonMail E a (SendAuctionSuccessfulMail E a (emit (ScriptOnAuctionSuccessful id) w)))
    else w
  end.

Definition house_Update (E : Env) (h : Z) (w : World) : World :=
  foldl (fun w id => update_entry E h id w) w (fst <$> map_iter (AuctionsMap (house_at h w))).

(** [AuctionHouseMgr::Update]. *)
Definition Update (E : Env) (w : World) : World :=
  foldl (fun w h => house_Update E h w) w (fst <$> map_iter (m_vRealAuctionHouses w)).

(** [AuctionBidWinning(newbidder)]; [None] when no house serves the entry. *)
Definition AuctionBidWinning (E : Env) (newbidder : option Z) (a : AuctionEntry) (w : World) : option World :=
  let w := SendAuctionWonMail E a (SendAuctionSuccessfulMail E a w) in
  let w := RemoveAItem (itemGuidLow a) w in
  match GetAuctionsMap (auctionHouseEntry a) w with
  | None => None
  | Some h =>
    let w := emit (PExecute (SqlDeleteAuction (au_Id a))) (snd (RemoveAuction h a w)) in
    Some (match newbidder with Some k => SaveInventoryAndGoldToDB k w | None => w end)
  end.

(** ** AuctionHouseHandler.cpp *)

(** The item a player may offer, or the error. *)
Definition sellable (p : Player) (itemGuid : ObjectGuid) (w : World) : option Item :=
  match GetAItem (GetCounter itemGuid) w, pl_items p !! itemGuid with
  | None, Some it =>
    if it_inBank it || negb (it_tradable it) || it_soulbound it || negb (Z.land (ip_Flags (it_proto it)) ITEM_FLAG_CONJURED =? 0) ||
       negb (it_duration it =? 0) then None else Some it
  | _, _ => None
  end.

(** [None]: the assertion of [AddAItem] fails. *)
Definition HandleAuctionSellItem (E : Env) (p : Player) (auctioneer itemGuid : ObjectGuid) (startPrice buyoutPrice etime : Z)
    (w : World) : option World :=
  let me := pl_guid p in
  if (startPrice =? 0) || (etime =? 0) || IsSuspicious E p then Some w
  else if (2000000000 <? startPrice) || (2000000000 <? buyoutPrice) then Some (emit (ProcessAnticheatAction me) w)
  else if negb (buyoutPrice =? 0) && (buyoutPrice <? startPrice) then Some (emit (ProcessAnticheatAction me) w)
  else if negb (cfg_GM_ALLOW_TRADES E) && (SEC_PLAYER <? pl_security p) then Some w
  else
    match GetCheckedAuctionHouseForAuctioneer E p auctioneer with
    | None => Some w
    | Some houseId =>
      match GetAuctionsMap houseId w with
      | None => None
      | Some h =>
        let limit := cfg_ACCOUNT_CONCURRENT_AUCTION_LIMIT E in
        if negb (limit =? 0) && (limit <=? GetAccountAuctionCount (pl_account p) (house_at h w)) then
          Some (SendAuctionCommandResult p None AUCTION_STARTED AUCTION_ERR_DATABASE 0 (emit (Notification me) w))
        else
          let etime := u32 (etime * MINUTE) in
          if negb ((etime =? 1 * MIN_AUCTION_TIME) || (etime =? 4 * MIN_AUCTION_TIME) || (etime =? 12 * MIN_AUCTION_TIME)) then Some w
          else
            let w := emit (RemoveFeignDeath me) w in
            if IsEmpty itemGuid then Some w
            else
              match sellable p itemGuid w with
              | None => Some (SendAuctionCommandResult p None AUCTION_STARTED AUCTION_ERR_INVENTORY EQUIP_ERR_ITEM_NOT_FOUND w)
              | Some it =>
                let depositPaid := AuctionDeposit E houseId etime it in
                if pl_money p <? depositPaid then Some (SendAuctionCommandResult p None AUCTION_STARTED AUCTION_ERR_NOT_ENOUGH_MONEY 0 w)
                else
                  let w := ModifyMoney E (i32 (- i32 depositPaid)) me w in
                  let '(id, w) := GenerateAuctionID w in
                  let a := mkAuction id (it_guid it) (it_entry it) me (pl_account p) startPrice 0 buyoutPrice (pl_address p) (now E)
                             (now E + AuctionTime E etime) 0 depositPaid houseId in
                  let w := AddAuction h a (emit (LogItem me (it_guid it)) w) in
                  match AddAItem it w with
                  | None => None
                  | Some w =>
                    let w := MoveItemFromInventory me itemGuid w in
                    let w := emits [PExecute (SqlDeleteFromInventory (it_guid it)); PExecute (SqlSaveItem (it_guid it));
                                    PExecute (SqlInsertAuction a)] w in
                    Some (SendAuctionCommandResult p (Some a) AUCTION_STARTED AUCTION_OK 0 (SaveInventoryAndGoldToDB me w))
                  end
              end
      end
    end.

(** The payment of a bid of [price], and the refund of the bid before it. *)
Definition pay_bid (E : Env) (me price : Z) (a : AuctionEntry) (w : World) : World :=
  if me =? bidder a then
    ModifyMoney E (i32 (- i32 (u32 (price - bid a)))) me w
  else
    let w := ModifyMoney E (i32 (- i32 price)) me w in
    if negb (bidder a =? 0) then SendAuctionOutbiddedMail E a w else w.

Definition HandleAuctionPlaceBid (E : Env) (p : Player) (auctioneer : ObjectGuid) (auctionId price : Z) (w : World) : option World :=
  let me := pl_guid p in
  if negb (cfg_GM_ALLOW_TRADES E) && (SEC_PLAYER <? pl_security p) then Some w
  else if (auctionId =? 0) || (price =? 0) then Some w
  else
    match GetCheckedAuctionHouseForAuctioneer E p auctioneer with
    | None => Some w
    | Some houseId =>
      if IsSuspicious E p then Some w
      else
        match GetAuctionsMap houseId w with
        | None => None
        | Some h =>
          let w := emit (RemoveFeignDeath me) w in
          match AuctionsMap (house_at h w) !! auctionId with
          | None => Some (SendAuctionCommandResult p None AUCTION_BID_PLACED AUCTION_ERR_ITEM_NOT_FOUND 0 w)
          | Some a =>
            if owner a =? me then Some (SendAuctionCommandResult p None AUCTION_BID_PLACED AUCTION_ERR_BID_OWN 0 w)
            else if bool_decide (GetPlayer (owner a) w = None) && (GetPlayerAccountIdByGUID E (owner a) w =? pl_account p) then
              Some (SendAuctionCommandResult p None AUCTION_BID_PLACED AUCTION_ERR_BID_OWN 0 w)
            else if price <? startbid a then Some w
            else if price <=? bid a then Some (SendAuctionCommandResult p (Some a) AUCTION_BID_PLACED AUCTION_ERR_HIGHER_BID 0 w)
            else if ((price <? buyout a) || (buyout a =? 0)) && (price <? u32 (bid a + GetAuctionOutBid a)) then
              Some (SendAuctionCommandResult p (Some a) AUCTION_BID_PLACED AUCTION_ERR_BID_INCREMENT 0 w)
            else if pl_money p <? price then Some w
            else if (price <? buyout a) || (buyout a =? 0) then
              let w := pay_bid E me price a w in
              let a := set_bid price me a in
              let w := upd_house h (fun ho => mkHouse (<[auctionId := a]> (AuctionsMap ho)) (OrderedAuctionMap ho) (AccountAuctionMap ho)) w in
              let w := if_online (owner a) (SendAuctionOwnerNotification (owner a) a false) w in
              let w := emit (PExecute (SqlUpdateAuctionBid (bidder a) (bid a) (au_Id a))) w in
              Some (SaveInventoryAndGoldToDB me (SendAuctionCommandResult p (Some a) AUCTION_BID_PLACED AUCTION_OK 0 w))
            else
              let w := pay_bid E me (buyout a) a w in
              let a := set_bid (buyout a) me a in
              let w := SendAuctionWonMail E a (SendAuctionSuccessfulMail E a w) in
              let w := SendAuctionCommandResult p (Some a) AUCTION_BID_PLACED AUCTION_OK 0 w in
              let w := snd (RemoveAuction h a (RemoveAItem (itemGuidLow a) w)) in
              Some (SaveInventoryAndGoldToDB me (emit (PExecute (SqlDeleteAuction (au_Id a))) w))
          end
        end
    end.

Definition HandleAuctionRemoveItem (E : Env) (p : Player) (auctioneer : ObjectGuid) (auctionId : Z) (w : World) : option World :=
  let me := pl_guid p in
  match GetCheckedAuctionHouseForAuctioneer E p auctioneer with
  | None => Some w
  | Some houseId =>
    match GetAuctionsMap houseId w with
    | None => None
    | Some h =>
      let w := emit (RemoveFeignDeath me) w in
      match AuctionsMap (house_at h w) !! auctionId with
      | Some a =>
        if negb (owner a =? me) then Some (SendAuctionCommandResult p None AUCTION_REMOVED AUCTION_ERR_DATABASE 0 w)
        else
          match GetAItem (itemGuidLow a) w with
          | None => Some (SendAuctionCommandResult p None AUCTION_REMOVED AUCTION_ERR_INVENTORY EQUIP_ERR_ITEM_NOT_FOUND w)
          | Some it =>
            let auctionCut := GetAuctionCut E a in
            if (0 <? bidder a) && (pl_money p <? auctionCut) then Some w
            else
              let w := if 0 <? bidder a
                       then ModifyMoney E (i32 (- i32 auctionCut)) me (SendAuctionCancelledToBidderMail E a w) else w in
              let w := SendMailTo E (AddItem it (newDraft E (auction_subject a AUCTION_CANCELED) [])) me (MailSender_auction a)
                         MAIL_CHECK_MASK_COPIED 0 w in
              let w := SendAuctionCommandResult p (Some a) AUCTION_REMOVED AUCTION_OK 0 w in
              let w := SaveInventoryAndGoldToDB me (emit (PExecute (SqlDeleteAuction (au_Id a))) w) in
              Some (snd (RemoveAuction h a (RemoveAItem (itemGuidLow a) w)))
          end
      | None => Some (SendAuctionCommandResult p None AUCTION_REMOVED AUCTION_ERR_DATABASE 0 w)
      end
    end
  end.
