(* ===== verification/AuctionListing.v ===== *)
(** * AuctionListing: the lists of auctions

    The pages the client asks an auction house for:
    BuildAuctionInfo and the BuildList functions of
    src/src/game/AuctionHouse/AuctionHouseMgr.cpp, and the task that answers a
    query (src/src/game/Handlers/AuctionHouseHandler.cpp). A pointer to an
    entry is its [Id], so following a pointer to an entry that is no longer
    there is [None]. *)
From S2P Require Import Prelude ByteBuffer ObjectGuid EconomyData Mail Auction.

Definition INVTYPE_CHEST : Z := 5.
Definition INVTYPE_ROBE : Z := 20.
Definition ITEM_CLASS_RECIPE : Z := 9.
Definition SMSG_AUCTION_LIST_RESULT : Z := 0x25C.
Definition SMSG_AUCTION_OWNER_LIST_RESULT : Z := 0x25D.
Definition SMSG_AUCTION_BIDDER_LIST_RESULT : Z := 0x265.
Definition ANY : Z := 0xFFFFFFFF.

Inductive AuctionClientQueryType := AUCTION_QUERY_LIST | AUCTION_QUERY_LIST_OWNER | AUCTION_QUERY_LIST_BIDDER.

Record AuctionHouseClientQuery := mkQuery {
  wsearchedname : list Z; levelmin : Z; levelmax : Z; usable : Z; listfrom : Z; auctionSlotID : Z; auctionMainCategory : Z;
  auctionSubCategory : Z; quality : Z; outbiddedAuctionIds : list Z
}.

(** What a search asks of the rest of the server: the items and spells a
    character can use, and names in his language. *)
Record Search := mkSearch {
  CanUseItem : Player -> Item -> Z;
  TriggerSpell : Z -> option Z;                 (* GetSpellEntry: EffectTriggerSpell[0] *)
  HasSpell : Player -> Z -> bool;
  GetLocalizedNameWithSuffix : Player -> Item -> list Z;
  Utf8FitTo : list Z -> list Z -> bool
}.

(** ** One auction *)

Definition BuildAuctionInfo (E : Env) (w : World) (a : AuctionEntry) : option (list field) :=
  match GetAItem (itemGuidLow a) w with
  | None => None
  | Some it =>
    Some [FU32 (au_Id a); FU32 (it_entry it); FU32 (it_enchant it); FU32 (u32 (it_randomProperty it)); FU32 (u32 (it_suffix it));
          FU32 (it_count it); FU32 (u32 (it_charges it)); FU64 (owner a); FU32 (startbid a);
          FU32 (if bid a =? 0 then 0 else GetAuctionOutBid a); FU32 (buyout a); FU32 (u32 ((expireTime a - now E) * 1000));
          FU64 (bidder a); FU32 (bid a)]
  end.

(** ** Pages

    The three variables the functions share. *)
Record Listing := mkListing { ls_data : list field; ls_count : Z; ls_total : Z }.

(** An auction that is wanted: it counts, and is shown when it is on the page. *)
Definition list_one (E : Env) (w : World) (from : Z) (a : AuctionEntry) (s : Listing) : Listing :=
  let total := u32 (ls_total s + 1) in
  if (ls_count s <? 50) && (from <? total) then
    match BuildAuctionInfo E w a with
    | Some info => mkListing (ls_data s ++ info) (ls_count s + 1) total
    | None => mkListing (ls_data s) (ls_count s) total
    end
  else mkListing (ls_data s) (ls_count s) total.

Definition BuildListBidderItems (E : Env) (w : World) (h : Z) (p : Player) (from : Z) (s : Listing) : Listing :=
  foldl (fun s kv => if bidder (snd kv) =? pl_guid p then list_one E w from (snd kv) s else s) s
    (map_iter (AuctionsMap (house_at h w))).

Fixpoint owner_loop (E : Env) (w : World) (h : Z) (p : Player) (from : Z) (ids : list Z) (s : Listing) : option Listing :=
  match ids with
  | [] => Some s
  | id :: ids =>
    match AuctionsMap (house_at h w) !! id with
    | None => None
    | Some a => owner_loop E w h p from ids (if owner a =? pl_guid p then list_one E w from a s else s)
    end
  end.
Definition BuildListOwnerItems (E : Env) (w : World) (h : Z) (p : Player) (from : Z) (s : Listing) : option Listing :=
  owner_loop E w h p from (account_range (pl_account p) (house_at h w)) s.

(** ** The search *)

Definition any_auction (q : AuctionHouseClientQuery) : bool :=
  (auctionMainCategory q =? ANY) && (auctionSubCategory q =? ANY) && (auctionSlotID q =? ANY) && (quality q =? ANY) &&
  (levelmin q =? 0) && (levelmax q =? 0) && (usable q =? 0) && bool_decide (wsearchedname q = []).

(** The conditions of the loop, from the first [continue] to the last, for an
    auction of [it]. *)
Definition wanted (S : Search) (p : Player) (q : AuctionHouseClientQuery) (a : AuctionEntry) (it : Item) : bool :=
  let proto := it_proto it in
  if negb (auctionMainCategory q =? ANY) && negb (ip_Class proto =? auctionMainCategory q) then false
  else if negb (auctionSubCategory q =? ANY) && negb (ip_SubClass proto =? auctionSubCategory q) then false
  else if negb (auctionSlotID q =? ANY) && negb (ip_InventoryType proto =? auctionSlotID q) &&
          (negb (auctionSlotID q =? INVTYPE_CHEST) || (auctionSlotID q =? INVTYPE_CHEST) && negb (ip_InventoryType proto =? INVTYPE_ROBE))
       then false
  else if negb (quality q =? ANY) && (ip_Quality proto <? quality q) then false
  else if negb (levelmin q =? 0) &&
          ((ip_RequiredLevel proto <? levelmin q) || negb (levelmax q =? 0) && (levelmax q <? ip_RequiredLevel proto)) then false
  else if negb (usable q =? 0) && negb (CanUseItem S p it =? EQUIP_ERR_OK) then false
  else if negb (usable q =? 0) && (ip_Class proto =? ITEM_CLASS_RECIPE) &&
          match TriggerSpell S (ip_Spell proto) with Some s => HasSpell S p s | None => false end then false
  else if negb (IsAvailableFor p a) then false
  else if bool_decide (wsearchedname q = []) then true
  else if bool_decide (ip_Name1 proto = []) then false
  else Utf8FitTo S (GetLocalizedNameWithSuffix S p it) (wsearchedname q).

Fixpoint search_loop (E : Env) (S : Search) (w : World) (h : Z) (p : Player) (q : AuctionHouseClientQuery) (l : list (Z * Z))
    (s : Listing) : option Listing :=
  match l with
  | [] => Some s
  | (_, id) :: l =>
    match AuctionsMap (house_at h w) !! id with
    | None => None
    | Some a =>
      match GetAItem (itemGuidLow a) w with
      | None => search_loop E S w h p q l s
      | Some it =>
        if wanted S p q a it then
          let s := if (ls_count s <? 50) && (listfrom q <=? ls_total s)
                   then mkListing (ls_data s ++ default [] (BuildAuctionInfo E w a)) (ls_count s + 1) (ls_total s) else s in
          search_loop E S w h p q l (mkListing (ls_data s) (ls_count s) (u32 (ls_total s + 1)))
        else search_loop E S w h p q l s
      end
    end
  end.

(** The list of all auctions, from [std::advance] on. *)
Fixpoint any_loop (E : Env) (w : World) (h : Z) (p : Player) (l : list (Z * Z)) (s : Listing) : option Listing :=
  match l with
  | [] => Some s
  | (_, id) :: l =>
    match AuctionsMap (house_at h w) !! id with
    | None => None
    | Some a =>
      if negb (IsAvailableFor p a) then any_loop E w h p l s
      else
        let s := mkListing (ls_data s ++ default [] (BuildAuctionInfo E w a)) (ls_count s + 1) (ls_total s) in
        if 50 <=? ls_count s then Some s else any_loop E w h p l s
    end
  end.

Definition BuildListAuctionItems (E : Env) (S : Search) (w : World) (h : Z) (p : Player) (q : AuctionHouseClientQuery) (s : Listing)
    : option Listing :=
  let l := OrderedAuctionMap (house_at h w) in
  if any_auction q then
    let s := mkListing (ls_data s) (ls_count s) (u32 (Z.of_nat (length l))) in
    if listfrom q <? ls_total s then any_loop E w h p (drop (Z.to_nat (listfrom q)) l) s else Some s
  else search_loop E S w h p q l s.

(** ** The answer *)

Fixpoint outbidded_loop (E : Env) (w : World) (h : Z) (from : Z) (ids : list Z) (s : Listing) : Listing :=
  match ids with
  | [] => s
  | id :: ids =>
    outbidded_loop E w h from ids
      (match AuctionsMap (house_at h w) !! id with Some a => list_one E w from a s | None => s end)
  end.

(** [operator()], for the character of the session; the count is written
    before the auctions, and the total after them. *)
Definition AuctionHouseClientQueryTask (E : Env) (S : Search) (kind : AuctionClientQueryType) (h : Z) (p : Player)
    (q : AuctionHouseClientQuery) (w : World) : option World :=
  if negb (pl_inWorld p) then Some w
  else
    let s0 := mkListing [] 0 0 in
    let '(opcode, s) :=
      match kind with
      | AUCTION_QUERY_LIST => (SMSG_AUCTION_LIST_RESULT, BuildListAuctionItems E S w h p q s0)
      | AUCTION_QUERY_LIST_BIDDER =>
        (SMSG_AUCTION_BIDDER_LIST_RESULT,
         Some (BuildListBidderItems E w h p (listfrom q) (outbidded_loop E w h (listfrom q) (outbiddedAuctionIds q) s0)))
      | AUCTION_QUERY_LIST_OWNER => (SMSG_AUCTION_OWNER_LIST_RESULT, BuildListOwnerItems E w h p (listfrom q) s0)
      end in
    match s with
    | Some s => Some (emit (SendPacket (pl_guid p) opcode (FU32 (ls_count s) :: ls_data s ++ [FU32 (ls_total s)])) w)
    | None => None
    end.
