(* ===== verification/AuctionIndex.v ===== *)
(** * AuctionIndex: the maps of the auction houses agree

    [houses_ok]: in every house the multimaps by buyout and by account index
    exactly the auctions of the map, every auction has its own item among the
    items on offer, and its identifier is in use. Adding, changing and removing
    an auction keep it. *)
From S2P Require Import Prelude ByteBuffer ObjectGuid EconomyData Mail Auction.

(** ** One house *)

Definition by_key (f : AuctionEntry -> Z) (m : gmap Z AuctionEntry) : list (Z * Z) :=
  (fun kv => (f (snd kv), fst kv)) <$> map_to_list m.

Record index_ok (ho : AuctionHouseObject) : Prop := {
  ix_id : forall id a, AuctionsMap ho !! id = Some a -> au_Id a = id;
  ix_ordered : OrderedAuctionMap ho ≡ₚ by_key buyout (AuctionsMap ho);
  ix_account : AccountAuctionMap ho ≡ₚ by_key ownerAccount (AuctionsMap ho);
  ix_sorted : mm_sorted (OrderedAuctionMap ho) /\ mm_sorted (AccountAuctionMap ho)
}.

Lemma by_key_insert f m id a : m !! id = None -> by_key f (<[id := a]> m) ≡ₚ (f a, id) :: by_key f m.
Proof. intros Hid. unfold by_key. by rewrite map_to_list_insert. Qed.

Lemma by_key_delete f m id a : m !! id = Some a -> by_key f m ≡ₚ (f a, id) :: by_key f (delete id m).
Proof.
  intros Hid. rewrite <- (insert_id m id a Hid) at 1. rewrite <- insert_delete_eq. apply by_key_insert, lookup_delete_eq.
Qed.

Lemma by_key_set f m id a b : m !! id = Some a -> f b = f a -> by_key f (<[id := b]> m) ≡ₚ by_key f m.
Proof.
  intros Hid Hf. rewrite (by_key_delete f m id a Hid), <- insert_delete_eq, by_key_insert by apply lookup_delete_eq. by rewrite Hf.
Qed.

Lemma elem_of_by_key f m k id : (k, id) ∈ by_key f m <-> exists a, m !! id = Some a /\ f a = k.
Proof.
  unfold by_key. rewrite list_elem_of_fmap. split.
  - intros ([id' a] & [= -> ->] & Hin%elem_of_map_to_list). eauto.
  - intros (a & Hm & <-). exists (id, a). split; [done|]. by apply elem_of_map_to_list.
Qed.

(** ** Multimaps *)

Lemma mm_erase_perm k v m : (k, v) ∈ m -> m ≡ₚ (k, v) :: mm_erase_first k v m.
Proof.
  induction m as [|[k' v'] m IH]; [by intros ?%elem_of_nil|]. intros Hin. cbn.
  destruct (Z.eqb_spec k' k) as [->|]; destruct (Z.eqb_spec v' v) as [->|]; cbn; [done| | |];
    (apply elem_of_cons in Hin as [Heq|Hin]; [congruence|]); rewrite (IH Hin) at 1; apply Permutation_swap.
Qed.

Lemma mm_erase_none k v m : (k, v) ∉ m -> mm_erase_first k v m = m.
Proof.
  induction m as [|[k' v'] m IH]; [done|]. rewrite not_elem_of_cons. intros [Hne Hin]. cbn. rewrite (IH Hin).
  destruct (Z.eqb_spec k' k) as [->|]; destruct (Z.eqb_spec v' v) as [->|]; done.
Qed.

Lemma mm_erase_sorted k v m : mm_sorted m -> mm_sorted (mm_erase_first k v m).
Proof.
  induction 1 as [|x m Hs IH Hx]; cbn; [constructor|]. destruct (_ && _); [done|]. constructor; [done|].
  rewrite Forall_forall in Hx |- *. intros y Hy. apply Hx.
  destruct (decide ((k, v) ∈ m)) as [Hin|Hin]; [|by rewrite mm_erase_none in Hy].
  rewrite (mm_erase_perm k v m Hin). by apply elem_of_cons; right.
Qed.

(** ** Operations on a house *)

Lemma emptyHouse_ok : index_ok emptyHouse.
Proof. split; [done|done|done|]. split; constructor. Qed.

Lemma add_entry_ok ho a : index_ok ho -> AuctionsMap ho !! au_Id a = None -> index_ok (add_entry a ho).
Proof.
  intros [Hid Ho Ha [Hs1 Hs2]] Hn. split; cbn.
  - intros id b. rewrite lookup_insert_Some. intros [[<- <-]|[_ Hb]]; [done|by apply Hid].
  - by rewrite by_key_insert, mm_insert_perm, Ho.
  - by rewrite by_key_insert, mm_insert_perm, Ha.
  - split; by apply mm_insert_sorted.
Qed.

Lemma set_entry_ok ho id a b : index_ok ho -> AuctionsMap ho !! id = Some a ->
  au_Id b = au_Id a -> buyout b = buyout a -> ownerAccount b = ownerAccount a ->
  index_ok (mkHouse (<[id := b]> (AuctionsMap ho)) (OrderedAuctionMap ho) (AccountAuctionMap ho)).
Proof.
  intros [Hid Ho Ha Hs] Hat Hi Hb Hac. split; cbn; [|by rewrite (by_key_set _ _ _ a)..|done].
  intros id' c. rewrite lookup_insert_Some. intros [[<- <-]|[_ Hc]]; [rewrite Hi|]; by apply Hid.
Qed.

Lemma remove_entry_ok ho a : index_ok ho -> (AuctionsMap ho !! au_Id a = Some a \/ AuctionsMap ho !! au_Id a = None) ->
  index_ok (remove_entry a ho).
Proof.
  intros [Hid Ho Ha [Hs1 Hs2]] Hat. split; cbn.
  - intros id b. rewrite lookup_delete_Some. intros [_ Hb]. by apply Hid.
  - destruct Hat as [Hat|Hat].
    + apply (Permutation_cons_inv (a := (buyout a, au_Id a))). rewrite <- mm_erase_perm, <- by_key_delete by
        (done || rewrite Ho; apply elem_of_by_key; eauto). done.
    + rewrite delete_id, mm_erase_none by (done || rewrite Ho, elem_of_by_key; intros (? & ? & _); congruence). done.
  - destruct Hat as [Hat|Hat].
    + apply (Permutation_cons_inv (a := (ownerAccount a, au_Id a))). rewrite <- mm_erase_perm, <- by_key_delete by
        (done || rewrite Ha; apply elem_of_by_key; eauto). done.
    + rewrite delete_id, mm_erase_none by (done || rewrite Ha, elem_of_by_key; intros (? & ? & _); congruence). done.
  - split; by apply mm_erase_sorted.
Qed.

(** ** All houses *)

Definition hat (H : gmap Z AuctionHouseObject) (h : Z) : AuctionHouseObject := default emptyHouse (H !! h).
Definition open_at (H : gmap Z AuctionHouseObject) (h id : Z) (a : AuctionEntry) : Prop := AuctionsMap (hat H h) !! id = Some a.

Record auctions_ok (H : gmap Z AuctionHouseObject) (I : gmap Z Item) (S : gset Z) : Prop := {
  ao_index : forall h, index_ok (hat H h);
  ao_id : forall h id a, open_at H h id a -> id ∈ S;
  ao_item : forall h id a, open_at H h id a -> is_Some (I !! itemGuidLow a);
  ao_one : forall h id a h' id' a', open_at H h id a -> open_at H h' id' a' ->
    id = id' \/ itemGuidLow a = itemGuidLow a' -> h = h' /\ id = id';
  ao_guid : forall g it, I !! g = Some it -> it_guid it = g
}.
Definition houses_ok (w : World) : Prop := auctions_ok (m_vRealAuctionHouses w) (mAitems w) (m_AuctionsIds w).
Definition auction_at (w : World) : Z -> Z -> AuctionEntry -> Prop := open_at (m_vRealAuctionHouses w).

Lemma hat_insert H h ho : hat (<[h := ho]> H) h = ho.
Proof. unfold hat. by rewrite lookup_insert_eq. Qed.
Lemma hat_insert_ne H h h' ho : h' <> h -> hat (<[h := ho]> H) h' = hat H h'.
Proof. intros Hn. unfold hat. by rewrite lookup_insert_ne. Qed.

Section Auctions.
Context {H : gmap Z AuctionHouseObject} {I : gmap Z Item} {S : gset Z} (Hok : auctions_ok H I S).

Lemma index_insert h ho : index_ok ho -> forall h', index_ok (hat (<[h := ho]> H) h').
Proof using Hok. intros Hho h'. destruct (decide (h' = h)) as [->|Hn]; [by rewrite hat_insert|]. rewrite hat_insert_ne by done. apply Hok. Qed.

(** What is open after a removal was open before, and is another auction. *)
Lemma open_at_remove h a h' id' a' : open_at (<[h := remove_entry a (hat H h)]> H) h' id' a' ->
  open_at H h' id' a' /\ (h', id') <> (h, au_Id a).
Proof using.
  unfold open_at. destruct (decide (h' = h)) as [->|Hn].
  - rewrite hat_insert. cbn. rewrite lookup_delete_Some. intros [Hne Hat]. split; [done|congruence].
  - rewrite hat_insert_ne by done. intros Hat. split; [done|congruence].
Qed.

(** The removal of an auction, which frees its identifier. *)
Lemma auctions_ok_remove h a : open_at H h (au_Id a) a ->
  auctions_ok (<[h := remove_entry a (hat H h)]> H) I (S ∖ {[au_Id a]}).
Proof using Hok.
  intros Hat. split.
  - apply index_insert, remove_entry_ok; [apply Hok|by left].
  - intros h' id' a' [Hat' Hne]%open_at_remove. apply elem_of_difference. split; [by apply (ao_id _ _ _ Hok _ _ _ Hat')|].
    rewrite elem_of_singleton. intros ->. destruct (ao_one _ _ _ Hok _ _ _ _ _ _ Hat' Hat (or_introl eq_refl)) as [-> _]. done.
  - intros h' id' a' [Hat' _]%open_at_remove. by apply (ao_item _ _ _ Hok _ _ _ Hat').
  - intros h1 id1 a1 h2 id2 a2 [H1 _]%open_at_remove [H2 _]%open_at_remove. by apply (ao_one _ _ _ Hok _ _ _ _ _ _ H1 H2).
  - apply Hok.
Qed.

(** The removal of an auction that is not there changes nothing. *)
Lemma auctions_ok_remove_none h a : AuctionsMap (hat H h) !! au_Id a = None ->
  auctions_ok (<[h := remove_entry a (hat H h)]> H) I S.
Proof using Hok.
  intros Hn. split.
  - apply index_insert, remove_entry_ok; [apply Hok|by right].
  - intros h' id' a' [Hat' _]%open_at_remove. by apply (ao_id _ _ _ Hok _ _ _ Hat').
  - intros h' id' a' [Hat' _]%open_at_remove. by apply (ao_item _ _ _ Hok _ _ _ Hat').
  - intros h1 id1 a1 h2 id2 a2 [H1 _]%open_at_remove [H2 _]%open_at_remove. by apply (ao_one _ _ _ Hok _ _ _ _ _ _ H1 H2).
  - apply Hok.
Qed.

(** An item no open auction offers can go. *)
Lemma auctions_ok_item g : (forall h id a, open_at H h id a -> itemGuidLow a <> g) -> auctions_ok H (delete g I) S.
Proof using Hok.
  intros Hg. split; [apply Hok|apply Hok| |apply Hok|].
  - intros h id a Hat. rewrite lookup_delete_ne by (intros Heq; by apply (Hg _ _ _ Hat)). by apply (ao_item _ _ _ Hok _ _ _ Hat).
  - intros g' it. rewrite lookup_delete_Some. intros [_ Hit]. by apply Hok.
Qed.

(** The end of an auction: entry, identifier and item go together. *)
Lemma auctions_ok_close h a : open_at H h (au_Id a) a ->
  auctions_ok (<[h := remove_entry a (hat H h)]> H) (delete (itemGuidLow a) I) (S ∖ {[au_Id a]}).
Proof using Hok.
  intros Hat. pose proof (auctions_ok_remove h a Hat) as Hrm.
  destruct Hrm as [Hi Hid Hit Ho Hgu]. split; [done|done| |done|].
  - intros h' id' a' Hat'. rewrite lookup_delete_ne; [by apply (Hit _ _ _ Hat')|]. intros Heq.
    apply open_at_remove in Hat' as [Hat' Hne].
    destruct (ao_one _ _ _ Hok _ _ _ _ _ _ Hat' Hat (or_intror (eq_sym Heq))) as [-> ->]. done.
  - intros g' it. rewrite lookup_delete_Some. intros [_ Hg]. by apply Hgu.
Qed.

(** An entry changes bid, bidder or lock. *)
Lemma auctions_ok_set h id a b : open_at H h id a -> au_Id b = au_Id a -> buyout b = buyout a -> ownerAccount b = ownerAccount a ->
  itemGuidLow b = itemGuidLow a ->
  auctions_ok (<[h := mkHouse (<[id := b]> (AuctionsMap (hat H h))) (OrderedAuctionMap (hat H h)) (AccountAuctionMap (hat H h))]> H) I S.
Proof using Hok.
  intros Hat Hi Hb Hac Hit.
  assert (forall h' id' c, open_at (<[h := mkHouse (<[id := b]> (AuctionsMap (hat H h))) (OrderedAuctionMap (hat H h)) (AccountAuctionMap (hat H h))]> H) h' id' c ->
            exists d, open_at H h' id' d /\ itemGuidLow d = itemGuidLow c) as Hopen.
  { unfold open_at. intros h' id' c. destruct (decide (h' = h)) as [->|Hn]; [rewrite hat_insert|rewrite hat_insert_ne by done; eauto].
    cbn. rewrite lookup_insert_Some. intros [[<- <-]|[_ Hc]]; eauto. }
  split.
  - apply index_insert. apply (set_entry_ok _ _ a); [apply Hok|done..].
  - intros h' id' c (d & Hd & _)%Hopen. by apply (ao_id _ _ _ Hok _ _ _ Hd).
  - intros h' id' c (d & Hd & <-)%Hopen. by apply (ao_item _ _ _ Hok _ _ _ Hd).
  - intros h1 id1 c1 h2 id2 c2 (d1 & H1 & <-)%Hopen (d2 & H2 & <-)%Hopen. by apply (ao_one _ _ _ Hok _ _ _ _ _ _ H1 H2).
  - apply Hok.
Qed.

(** A new auction: a new identifier and a new item. *)
Lemma auctions_ok_add h a it : au_Id a ∉ S -> I !! itemGuidLow a = None -> it_guid it = itemGuidLow a ->
  auctions_ok (<[h := add_entry a (hat H h)]> H) (<[itemGuidLow a := it]> I) ({[au_Id a]} ∪ S).
Proof using Hok.
  intros Hid Hit Hguid.
  assert (forall h' id' c, open_at (<[h := add_entry a (hat H h)]> H) h' id' c ->
            (h' = h /\ id' = au_Id a /\ c = a) \/ (open_at H h' id' c /\ id' <> au_Id a /\ itemGuidLow c <> itemGuidLow a)) as Hopen.
  { assert (forall h' id' c, open_at H h' id' c -> id' <> au_Id a /\ itemGuidLow c <> itemGuidLow a) as Hother.
    { intros h' id' c Hc. split; [intros ->; by apply Hid, (ao_id _ _ _ Hok _ _ _ Hc)|].
      intros Heq. pose proof (ao_item _ _ _ Hok _ _ _ Hc) as [? Hx]. congruence. }
    intros h' id' c. unfold open_at at 1. destruct (decide (h' = h)) as [->|Hn].
    - rewrite hat_insert. cbn. rewrite lookup_insert_Some. intros [[<- <-]|[_ Hc]]; [by left|]. right. split; [done|]. by apply (Hother h).
    - rewrite hat_insert_ne by done. intros Hc. right. split; [done|]. by apply (Hother h'). }
  split.
  - apply index_insert, add_entry_ok; [apply Hok|]. apply eq_None_not_Some. intros [c Hc].
    apply Hid. by apply (ao_id _ _ _ Hok h _ c).
  - intros h' id' c [(-> & -> & ->)|(Hc & _)]%Hopen; [set_solver|]. apply elem_of_union. right. by apply (ao_id _ _ _ Hok _ _ _ Hc).
  - intros h' id' c [(-> & -> & ->)|(Hc & _ & Hne)]%Hopen; [by rewrite lookup_insert_eq|].
    rewrite lookup_insert_ne by congruence. by apply (ao_item _ _ _ Hok _ _ _ Hc).
  - intros h1 id1 c1 h2 id2 c2 [(-> & -> & ->)|(H1 & Hn1 & Hi1)]%Hopen [(-> & -> & ->)|(H2 & Hn2 & Hi2)]%Hopen Heq; [done| | |].
    + destruct Heq; congruence.
    + destruct Heq; congruence.
    + by apply (ao_one _ _ _ Hok _ _ _ _ _ _ H1 H2).
  - intros g it'. rewrite lookup_insert_Some. intros [[<- <-]|[_ Hg]]; [done|by apply Hok].
Qed.
End Auctions.
