(* ===== verification/EconomyFrame.v ===== *)
(** * EconomyFrame: what the operations leave alone

    Two views of a world: [aview], all the auction houses keep, and [chars],
    the characters online without their mailboxes. The operations of the mail
    system and the notifications change neither, and [ModifyMoney] changes one
    purse. Also the mailbox of a character, online or not, and that
    [SendMailTo] adds one mail to one mailbox. *)
From S2P Require Import Prelude ByteBuffer ObjectGuid EconomyData Mail Auction.

Definition aview (w : World) : gmap Z Z * gmap Z AuctionHouseObject * gmap Z Item * gset Z * Z :=
  (m_mAuctionHouses w, m_vRealAuctionHouses w, mAitems w, m_AuctionsIds w, m_NextAuctionId w).

Lemma aview_houses w w' : aview w = aview w' -> m_vRealAuctionHouses w = m_vRealAuctionHouses w'.
Proof. by intros [=]. Qed.

Lemma aview_served w w' : aview w = aview w' -> m_mAuctionHouses w = m_mAuctionHouses w'.
Proof. by intros [=]. Qed.

Definition strip (p : Player) : Player := set_mails [] ∅ false (set_unread 0 0 p).
Definition chars (w : World) : gmap Z Player := strip <$> w_players w.
Definition purse (k : Z) (w : World) : option Z := pl_money <$> w_players w !! k.

Lemma strip_guid p q : strip p = strip q -> pl_guid p = pl_guid q.
Proof. intros H. exact (f_equal pl_guid H). Qed.
Lemma strip_money p q : strip p = strip q -> pl_money p = pl_money q.
Proof. intros H. exact (f_equal pl_money H). Qed.
Lemma strip_set_mails l its b p : strip (set_mails l its b p) = strip p.
Proof. done. Qed.
Lemma strip_set_unread a b p : strip (set_unread a b p) = strip p.
Proof. done. Qed.
Lemma strip_AddMail m its p : strip (AddMail m its p) = strip p.
Proof. done. Qed.
Lemma strip_change_mail id f p : strip (change_mail id f p) = strip p.
Proof. done. Qed.

Lemma chars_lookup k w : chars w !! k = strip <$> w_players w !! k.
Proof. apply lookup_fmap. Qed.

Lemma purse_chars k w : purse k w = pl_money <$> chars w !! k.
Proof. unfold purse. rewrite chars_lookup. by destruct (w_players w !! k). Qed.

(** What only depends on the characters. *)
Lemma FindMasterPlayer_chars k w : is_Some (FindMasterPlayer k w) <-> k <> 0 /\ is_Some (chars w !! k).
Proof.
  unfold FindMasterPlayer. rewrite chars_lookup, fmap_is_Some. destruct (k =? 0) eqn:Hk; rewrite <- ?Z.eqb_neq, Hk; [|naive_solver].
  split; [by intros [? ?]|naive_solver].
Qed.

Lemma GetPlayer_strip k w : strip <$> GetPlayer k w =
  if k =? 0 then None else match chars w !! k with Some p => if pl_inWorld p then Some p else None | None => None end.
Proof.
  unfold GetPlayer, FindMasterPlayer. rewrite chars_lookup. destruct (k =? 0); [done|].
  destruct (w_players w !! k) as [p|]; [|done]. cbn. by destruct (pl_inWorld p).
Qed.

Lemma GetPlayer_chars k w w' : chars w = chars w' -> strip <$> GetPlayer k w = strip <$> GetPlayer k w'.
Proof. intros Hc. by rewrite !GetPlayer_strip, Hc. Qed.

Lemma GetPlayer_field {A} (f : Player -> A) k w w' : (forall p, f (strip p) = f p) -> chars w = chars w' ->
  f <$> GetPlayer k w = f <$> GetPlayer k w'.
Proof.
  intros Hf Hc%(GetPlayer_chars k). apply (f_equal (fmap f)) in Hc. rewrite <- !option_fmap_compose in Hc.
  destruct (GetPlayer k w), (GetPlayer k w'); cbn in *; rewrite ?Hf in Hc; congruence.
Qed.

Lemma GetPlayerAccountIdByGUID_chars E k w w' : chars w = chars w' ->
  GetPlayerAccountIdByGUID E k w = GetPlayerAccountIdByGUID E k w'.
Proof.
  intros Hc%(GetPlayer_field pl_account k); [|done]. unfold GetPlayerAccountIdByGUID.
  destruct (GetPlayer k w), (GetPlayer k w'); cbn in Hc; congruence.
Qed.

Lemma is_Some_GetPlayer_chars k w w' : chars w = chars w' -> is_Some (GetPlayer k w) <-> is_Some (GetPlayer k w').
Proof. intros Hc%(GetPlayer_chars k). by rewrite <- (fmap_is_Some strip), Hc, fmap_is_Some. Qed.

Lemma receiver_exists_chars E k w w' : chars w = chars w' -> receiver_exists E k w = receiver_exists E k w'.
Proof.
  intros Hc. unfold receiver_exists. rewrite (GetPlayerAccountIdByGUID_chars E k w w' Hc). f_equal.
  apply bool_decide_ext. by apply is_Some_GetPlayer_chars.
Qed.

Lemma receiver_hardcore_chars E k w w' : chars w = chars w' -> receiver_hardcore E k w = receiver_hardcore E k w'.
Proof.
  intros Hc%(GetPlayer_field IsHardcore k); [|done]. unfold receiver_hardcore.
  destruct (GetPlayer k w), (GetPlayer k w'); cbn in Hc; congruence.
Qed.

(** ** Changes of one character *)

Lemma chars_upd_player k f w : (forall p, strip (f p) = strip p) -> chars (upd_player k f w) = chars w.
Proof.
  intros Hf. apply map_eq. intros j. unfold chars. cbn. rewrite !lookup_fmap. destruct (decide (j = k)) as [->|Hn].
  - rewrite lookup_alter_eq. destruct (w_players w !! k); [|done]. cbn. by rewrite Hf.
  - by rewrite lookup_alter_ne.
Qed.

Lemma chars_SetMoney v k w : chars (SetMoney v k w) = alter (set_money v) k (chars w).
Proof.
  apply map_eq. intros j. unfold chars. cbn. rewrite lookup_fmap. destruct (decide (j = k)) as [->|Hn].
  - rewrite !lookup_alter_eq, lookup_fmap. by destruct (w_players w !! k).
  - by rewrite !lookup_alter_ne, lookup_fmap.
Qed.

(** ** Mails *)

Definition mailbox (k : Z) (w : World) : list Mail :=
  match FindMasterPlayer k w with Some p => m_mail p | None => filter (fun m => receiverGuid m = k) (w_mail w) end.

Lemma AddNewMailDeliverTime_player E t k w : exists f, (forall p, strip (f p) = strip p) /\
  (forall p, m_mail (f p) = m_mail p) /\
  w_players (AddNewMailDeliverTime E t k w) = alter f k (w_players w) /\
  w_gold (AddNewMailDeliverTime E t k w) = w_gold w /\ w_mail (AddNewMailDeliverTime E t k w) = w_mail w /\
  aview (AddNewMailDeliverTime E t k w) = aview w /\ w_requests (AddNewMailDeliverTime E t k w) = w_requests w.
Proof.
  unfold AddNewMailDeliverTime. destruct (t <=? now E).
  - by exists (fun p => set_unread (u8 (unReadMails p + 1)) (m_nextMailDelivereTime p) p).
  - exists (fun p => if (m_nextMailDelivereTime p =? 0) || (t <? m_nextMailDelivereTime p) then set_unread (unReadMails p) t p else p).
    split_and!; try done; intros p; by destruct (_ || _).
Qed.

(** The mail a draft becomes. *)
Definition sent_mail (E : Env) (d : MailDraft) (receiver : Z) (from : MailSender) (chk delay : Z) (w : World) (m : Mail) : Prop :=
  messageID m = m_MailIds w /\ receiverGuid m = receiver /\ sender m = ms_id from /\ messageType m = ms_type from /\
  money m = md_money d /\ COD m = md_COD d /\ checked m = chk /\ subject m = md_subject d /\ deliver_time m = now E + delay /\
  items m = ((fun kv => (it_guid (snd kv), it_entry (snd kv))) <$> map_iter (md_items d)) /\ m_state m = MAIL_STATE_UNCHANGED.

(** A mail goes to a character online with its items, and to the table of mails
    when its receiver is not. *)
Lemma SendMailTo_effect E d receiver from chk delay w : exists m, sent_mail E d receiver from chk delay w m /\
  (let w' := SendMailTo E d receiver from chk delay w in
   w_gold w' = w_gold w /\ w_requests w' = w_requests w /\ aview w' = aview w /\
   ((is_Some (FindMasterPlayer receiver w) /\ w_mail w' = w_mail w /\
     exists f, (forall p, strip (f p) = strip p) /\ (forall p, m_mail (f p) = m :: m_mail p) /\
       w_players w' = alter f receiver (w_players w)) \/
    (FindMasterPlayer receiver w = None /\ w_mail w' = m :: w_mail w /\ w_players w' = w_players w))).
Proof.
  unfold SendMailTo, GenerateMailID. eexists (mkMail _ _ _ _ _ _ _ _ _ _ _ _ _ _ _ _ _). split; [by split_and!|].
  match goal with |- context [FindMasterPlayer receiver (emits ?os ?w0)] =>
    change (FindMasterPlayer receiver (emits os w0)) with (FindMasterPlayer receiver w) end.
  destruct (FindMasterPlayer receiver w) as [p|] eqn:Hp; [|split_and!; try done; by right].
  match goal with |- context [AddNewMailDeliverTime E ?t receiver ?w0] =>
    destruct (AddNewMailDeliverTime_player E t receiver w0) as (f & Hs & Hm & Hpl & Hg & Hw & Ha & Hr) end.
  split_and!; [exact Hg|exact Hr|exact Ha|]. left. split_and!; [done|exact Hw|].
  eexists (AddMail _ _ ∘ f). split_and!; [intros q; cbn; rewrite strip_AddMail; apply Hs|intros q; cbn; by rewrite Hm|].
  cbn [w_players upd_player set_players]. rewrite Hpl. apply alter_alter.
Qed.

(** ** Frames: only mailboxes, mails of characters who are not online, and effects change *)

Definition frame (w w' : World) : Prop :=
  chars w' = chars w /\ aview w' = aview w /\ w_gold w' = w_gold w.
#[export] Instance frame_refl : Reflexive frame.
Proof. by intros w. Qed.
#[export] Instance frame_trans : Transitive frame.
Proof. intros w1 w2 w3 (Hc & Ha & Hg) (Hc' & Ha' & Hg'). split_and!; congruence. Qed.

Create HintDb frame.
Lemma frame_emits os w : frame w (emits os w).
Proof. done. Qed.
Lemma frame_emit o w : frame w (emit o w).
Proof. done. Qed.
Lemma frame_upd_player k f w : (forall p, strip (f p) = strip p) -> frame w (upd_player k f w).
Proof. intros Hf. split_and!; [by apply chars_upd_player|done|done]. Qed.
Lemma frame_set_requests l w : frame w (set_requests l w).
Proof. done. Qed.

Lemma frame_SendMailTo E d receiver from chk delay w : frame w (SendMailTo E d receiver from chk delay w).
Proof.
  destruct (SendMailTo_effect E d receiver from chk delay w) as (m & _ & Hg & _ & Ha & [(_ & _ & f & Hf & _ & Hp)|(_ & _ & Hp)]).
  - split_and!; [|done|done]. rewrite <- (chars_upd_player receiver f w Hf). unfold chars. by rewrite Hp.
  - split_and!; [|done|done]. unfold chars. by rewrite Hp.
Qed.

Lemma frame_mail_result p id act err w : frame w (mail_result p id act err w).
Proof. done. Qed.
Lemma frame_SendMailResult p id act err e g c w : frame w (SendMailResult p id act err e g c w).
Proof. done. Qed.
Lemma frame_SendAuctionCommandResult p a act err i w : frame w (SendAuctionCommandResult p a act err i w).
Proof. done. Qed.
Lemma frame_SaveGoldToDB k w : frame w (SaveGoldToDB k w).
Proof. unfold SaveGoldToDB. by destruct (w_players w !! k). Qed.
Lemma frame_SaveInventoryAndGoldToDB k w : frame w (SaveInventoryAndGoldToDB k w).
Proof. unfold SaveInventoryAndGoldToDB. by rewrite <- frame_SaveGoldToDB. Qed.
Lemma frame_SaveMails k w : frame w (SaveMails k w).
Proof.
  unfold SaveMails. destruct (w_players w !! k) as [p|]; [|done]. destruct (m_mailsUpdated p); [|done].
  by rewrite <- (frame_upd_player k _ (emits _ w)).
Qed.
Lemma frame_if_online k f w : (forall w, frame w (f w)) -> frame w (if_online k f w).
Proof. intros Hf. unfold if_online. destruct (GetPlayer k w); [apply Hf|done]. Qed.
#[export] Hint Resolve frame_emits frame_emit frame_SendMailTo frame_mail_result frame_SendMailResult frame_SaveGoldToDB
  frame_SaveInventoryAndGoldToDB frame_SaveMails frame_SendAuctionCommandResult frame_set_requests : frame.

Lemma frame_SendReturnToSender E d s r w : frame w (SendReturnToSender E d s r w).
Proof.
  unfold SendReturnToSender. destruct (_ && _); [apply frame_emits|]. by rewrite <- frame_SendMailTo.
Qed.

Lemma frame_SendAuctionSuccessfulMail E a w : frame w (SendAuctionSuccessfulMail E a w).
Proof.
  unfold SendAuctionSuccessfulMail. destruct (receiver_hardcore E (owner a) w); [done|].
  destruct (receiver_exists E (owner a) w); [|done]. rewrite <- frame_SendMailTo. by apply frame_if_online.
Qed.
Lemma frame_refund_bidder E answer notify a w : (forall w, frame w (notify w)) -> frame w (refund_bidder E answer notify a w).
Proof.
  intros Hn. unfold refund_bidder. destruct (receiver_hardcore E (bidder a) w); [done|].
  destruct (receiver_exists E (bidder a) w); [|done]. rewrite <- frame_SendMailTo. by apply frame_if_online.
Qed.
#[export] Hint Resolve frame_SendReturnToSender frame_SendAuctionSuccessfulMail : frame.

(** The mails that move an item may take it out of the table of items on
    offer, and nothing else there. *)
Definition frame_item (guid : Z) (w w' : World) : Prop :=
  chars w' = chars w /\ w_gold w' = w_gold w /\ m_mAuctionHouses w' = m_mAuctionHouses w /\
  m_vRealAuctionHouses w' = m_vRealAuctionHouses w /\ m_AuctionsIds w' = m_AuctionsIds w /\
  m_NextAuctionId w' = m_NextAuctionId w /\ delete guid (mAitems w') = delete guid (mAitems w).

Lemma frame_frame_item guid w w' : frame w w' -> frame_item guid w w'.
Proof. intros (Hc & [=] & Hg). split_and!; congruence. Qed.
#[export] Instance frame_item_refl guid : Reflexive (frame_item guid).
Proof. by intros w. Qed.
#[export] Instance frame_item_trans guid : Transitive (frame_item guid).
Proof. intros ??? (?&?&?&?&?&?&?) (?&?&?&?&?&?&?). split_and!; congruence. Qed.
Lemma frame_RemoveAItem guid w : frame_item guid w (RemoveAItem guid w).
Proof. split_and!; try done. apply delete_delete_eq. Qed.

Lemma frame_item_mail E d receiver from chk delay guid w w' :
  frame_item guid w w' -> frame_item guid w (SendMailTo E d receiver from chk delay w').
Proof. intros H. rewrite H. apply frame_frame_item, frame_SendMailTo. Qed.

Lemma frame_destroy_item it w : frame_item (it_guid it) w (destroy_item it w).
Proof.
  unfold destroy_item. transitivity (emit (PExecute (SqlDeleteItem (it_guid it))) w); [by apply frame_frame_item|].
  rewrite (frame_RemoveAItem (it_guid it)) at 1. by apply frame_frame_item.
Qed.

Section Item_mails.
Context (E : Env) (a : AuctionEntry) (w : World).
Context (Hkey : forall it, GetAItem (itemGuidLow a) w = Some it -> it_guid it = itemGuidLow a).

Lemma frame_SendAuctionWonMail : frame_item (itemGuidLow a) w (SendAuctionWonMail E a w).
Proof using Hkey.
  unfold SendAuctionWonMail. destruct (GetAItem (itemGuidLow a) w) as [it|]; [|done]. rewrite <- (Hkey it eq_refl).
  destruct (_ && _); [|apply frame_destroy_item]. cbv zeta. apply frame_item_mail.
  transitivity (emit (PExecute (SqlUpdateItemOwner (bidder a) (it_guid it))) w); [by apply frame_frame_item|].
  destruct (GetPlayer (bidder a) _); [by apply frame_frame_item|apply frame_RemoveAItem].
Qed.

Lemma frame_SendAuctionExpiredMail : frame_item (itemGuidLow a) w (SendAuctionExpiredMail E a w).
Proof using Hkey.
  unfold SendAuctionExpiredMail. destruct (GetAItem (itemGuidLow a) w) as [it|]; [|done]. rewrite <- (Hkey it eq_refl).
  destruct (_ && _); [|apply frame_destroy_item]. cbv zeta. apply frame_item_mail.
  destruct (GetPlayer (owner a) _); [by apply frame_frame_item|apply frame_RemoveAItem].
Qed.
End Item_mails.
