(* ===== verification/Gold.v ===== *)
(** * Gold: the mails and auctions create no gold

    [total] is all the gold of a world: purses, mails, bids and deposits.
    [gold_ok] bounds every amount. Both are followed through the operations of
    Mail and Auction, and then through every run of the system ([step]). *)
From S2P Require Import Prelude ByteBuffer ObjectGuid EconomyData Mail Auction EconomyFrame.

(** ** All the gold *)

Fixpoint mails_gold (l : list Mail) : Z :=
  match l with
  | [] => 0
  | m :: l => money m + mails_gold l
  end.
Definition player_gold (p : Player) : Z := pl_money p + mails_gold (m_mail p).
Definition entry_gold (a : AuctionEntry) : Z := bid a + deposit a.
Definition house_gold (ho : AuctionHouseObject) : Z := msum entry_gold (AuctionsMap ho).
Definition total (w : World) : Z :=
  msum player_gold (w_players w) + msum id (w_gold w) + mails_gold (w_mail w) + msum house_gold (m_vRealAuctionHouses w).

(** ** Amounts *)

Definition purse_ok (g : Z) : Prop := 0 <= g <= MAX_MONEY_AMOUNT.
Definition mail_ok (m : Mail) : Prop := is_u32 (money m) /\ is_u32 (COD m).
Definition auction_ok (id : Z) (a : AuctionEntry) : Prop :=
  au_Id a = id /\ purse_ok (bid a) /\ purse_ok (deposit a) /\ 0 <= buyout a /\ (buyout a <> 0 -> bid a < buyout a).
Definition player_ok (k : Z) (p : Player) : Prop :=
  k <> 0 /\ pl_guid p = k /\ purse_ok (pl_money p) /\ Forall mail_ok (m_mail p).
Definition house_ok (ho : AuctionHouseObject) : Prop := map_Forall auction_ok (AuctionsMap ho).
Definition gold_ok (w : World) : Prop :=
  map_Forall player_ok (w_players w) /\ map_Forall (fun _ g => purse_ok g) (w_gold w) /\ Forall mail_ok (w_mail w) /\
  map_Forall (fun _ ho => house_ok ho) (m_vRealAuctionHouses w) /\ Forall (fun rq => is_u32 (rq_money rq) /\ is_u32 (rq_COD rq)) (w_requests w).

(** Scripts leave amounts alone, the cut is a part of the bid, and a deposit
    is an unsigned number. *)
Class SoundEnv (E : Env) : Prop := {
  money_unchanged : forall k d, OnMoneyChanged E k d = d;
  cut_is_part : forall h b, 0 <= b -> 0 <= AuctionCut E h b <= b;
  deposit_range : forall h t it, is_u32 (AuctionDeposit E h t it)
}.

(** ** Mails *)

Lemma mails_gold_app l1 l2 : mails_gold (l1 ++ l2) = mails_gold l1 + mails_gold l2.
Proof. induction l1; cbn; lia. Qed.
#[export] Instance mails_gold_perm : Proper ((≡ₚ) ==> (=)) mails_gold.
Proof. induction 1; cbn; lia. Qed.
Lemma mails_gold_nonneg l : Forall mail_ok l -> 0 <= mails_gold l.
Proof. induction 1 as [|m l [[Hm _] _] _ IH]; cbn; lia. Qed.
Lemma mails_gold_filter (P : Mail -> Prop) `{forall m, Decision (P m)} l : Forall mail_ok l -> mails_gold (filter P l) <= mails_gold l.
Proof.
  induction 1 as [|m l [[Hm _] _] _ IH]; [done|]. destruct (decide (P m)).
  - rewrite filter_cons_True by done. cbn. lia.
  - rewrite filter_cons_False by done. cbn. lia.
Qed.
Lemma mails_gold_split (P : Mail -> Prop) `{forall m, Decision (P m)} l :
  mails_gold l = mails_gold (filter P l) + mails_gold (filter (fun m => ~ P m) l).
Proof.
  induction l as [|m l IH]; [done|]. destruct (decide (P m)).
  - rewrite filter_cons_True, (filter_cons_False (fun m => ~ P m)) by (done || by intros []). cbn. lia.
  - rewrite filter_cons_False, (filter_cons_True (fun m => ~ P m)) by done. cbn. lia.
Qed.

Lemma mails_gold_upd id f l m : List.find (fun m => messageID m =? id) l = Some m ->
  mails_gold (upd_mail id f l) = mails_gold l - money m + money (f m).
Proof.
  induction l as [|m' l IH]; cbn; [done|]. destruct (messageID m' =? id); [intros [= ->]; cbn; lia|].
  intros Hl. cbn. rewrite (IH Hl). lia.
Qed.
Lemma mails_gold_remove id l m : List.find (fun m => messageID m =? id) l = Some m ->
  mails_gold (remove_mail id l) = mails_gold l - money m.
Proof.
  induction l as [|m' l IH]; cbn; [done|]. destruct (messageID m' =? id); [intros [= ->]; lia|].
  intros Hl. cbn. rewrite (IH Hl). lia.
Qed.
Lemma upd_mail_ok id f l : (forall m, mail_ok m -> mail_ok (f m)) -> Forall mail_ok l -> Forall mail_ok (upd_mail id f l).
Proof. intros Hf. induction 1 as [|m l Hm Hl IH]; cbn; [done|]. destruct (_ =? _); constructor; auto. Qed.
Lemma remove_mail_ok id l : Forall mail_ok l -> Forall mail_ok (remove_mail id l).
Proof. induction 1 as [|m l Hm Hl IH]; cbn; [done|]. destruct (_ =? _); [done|by constructor]. Qed.
Lemma saved_mails_gold l : mails_gold (saved_mail <$> l) = mails_gold l.
Proof. induction l as [|m l IH]; cbn; [done|]. rewrite IH. unfold saved_mail. by destruct (m_state m). Qed.
Lemma saved_mails_ok l : Forall mail_ok l -> Forall mail_ok (saved_mail <$> l).
Proof. induction 1 as [|m l Hm Hl IH]; cbn; constructor; [|done]. unfold saved_mail. by destruct (m_state m). Qed.

Lemma GetMail_ok id p m : Forall mail_ok (m_mail p) -> GetMail id p = Some m -> mail_ok m.
Proof. intros Hl [Hin _]%find_some. rewrite Forall_forall in Hl. apply Hl. by apply list_elem_of_In. Qed.
Lemma open_mail_get E id p m : open_mail E id p = Some m -> GetMail id p = Some m.
Proof. unfold open_mail. destruct (GetMail id p); [|done]. destruct (_ || _); [done|]. by intros [= ->]. Qed.

(** ** Moving gold

    [moves n w w']: a change of the world that keeps every amount in its
    bounds and adds at most [n] to the total. *)

Definition moves (n : Z) (w w' : World) : Prop := gold_ok w -> gold_ok w' /\ total w' <= total w + n.

Create HintDb gold discriminated.
#[export] Hint Constants Opaque : gold.
Lemma moves_refl n w : 0 <= n -> moves n w w.
Proof. intros Hn Hw. split; [done|lia]. Qed.
Lemma moves_trans n1 n2 n w1 w2 w3 : moves n1 w1 w2 -> moves n2 w2 w3 -> n1 + n2 <= n -> moves n w1 w3.
Proof. intros H1 H2 Hn Hw. destruct (H1 Hw) as [Hw2 Ht2]. destruct (H2 Hw2) as [Hw3 Ht3]. split; [done|lia]. Qed.
Lemma moves_le n n' w w' : moves n w w' -> n <= n' -> moves n' w w'.
Proof. intros Hm Hn Hw. destruct (Hm Hw). split; [done|lia]. Qed.

(** Worlds with the same gold in them. *)
Lemma moves_same n w w' : w_players w' = w_players w -> w_gold w' = w_gold w -> w_mail w' = w_mail w ->
  m_vRealAuctionHouses w' = m_vRealAuctionHouses w -> w_requests w' = w_requests w -> 0 <= n -> moves n w w'.
Proof. intros Hp Hg Hm Hh Hr Hn. unfold moves, gold_ok, total. rewrite Hp, Hg, Hm, Hh, Hr. intros Hw. split; [done|lia]. Qed.

Lemma moves_emits os w : moves 0 w (emits os w).
Proof. by apply moves_same. Qed.
Lemma moves_emit o w : moves 0 w (emit o w).
Proof. by apply moves_same. Qed.
Lemma moves_RemoveAItem id w : moves 0 w (RemoveAItem id w).
Proof. by apply moves_same. Qed.
Lemma moves_mail_result p id act err w : moves 0 w (mail_result p id act err w).
Proof. by apply moves_same. Qed.
Lemma moves_SendMailResult p id act err e g c w : moves 0 w (SendMailResult p id act err e g c w).
Proof. by apply moves_same. Qed.
Lemma moves_SendAuctionCommandResult p a act err i w : moves 0 w (SendAuctionCommandResult p a act err i w).
Proof. by apply moves_same. Qed.
Lemma moves_SaveGoldToDB k w : moves 0 w (SaveGoldToDB k w).
Proof. unfold SaveGoldToDB. destruct (w_players w !! k); by apply moves_same. Qed.
Lemma moves_SaveInventoryAndGoldToDB k w : moves 0 w (SaveInventoryAndGoldToDB k w).
Proof. unfold SaveInventoryAndGoldToDB. eapply moves_trans; [apply moves_emit|apply moves_SaveGoldToDB|lia]. Qed.
Lemma moves_if_online k f w : (forall w, moves 0 w (f w)) -> moves 0 w (if_online k f w).
Proof. intros Hf. unfold if_online. destruct (GetPlayer k w); [apply Hf|by apply moves_refl]. Qed.
#[export] Hint Resolve moves_emits moves_emit moves_RemoveAItem moves_mail_result moves_SendMailResult moves_SendAuctionCommandResult
  moves_SaveGoldToDB moves_SaveInventoryAndGoldToDB : gold.

Lemma moves_upd_player n k f w p : w_players w !! k = Some p ->
  (player_ok k p -> player_ok k (f p) /\ player_gold (f p) <= player_gold p + n) -> moves n w (upd_player k f w).
Proof.
  intros Hk Hf (Hp & Hrest). destruct (Hf (Hp k p Hk)) as [Hok Hgold]. split.
  - split; [|done]. cbn. intros j q Hq. destruct (decide (j = k)) as [->|Hn].
    + rewrite lookup_alter_eq, Hk in Hq. by injection Hq as <-.
    + rewrite lookup_alter_ne in Hq by done. by apply Hp.
  - unfold total. cbn. rewrite (msum_alter player_gold _ k f p Hk). lia.
Qed.

(** A change that is worth nothing whether the character is there or not. *)
Lemma moves_upd_any k f w : (forall p, player_ok k p -> player_ok k (f p) /\ player_gold (f p) <= player_gold p) ->
  moves 0 w (upd_player k f w).
Proof.
  intros Hf. destruct (w_players w !! k) as [p|] eqn:Hk.
  - apply (moves_upd_player 0 k f w p Hk). intros Hp. destruct (Hf p Hp). split; [done|lia].
  - apply moves_same; try done. cbn. apply map_eq. intros j. destruct (decide (j = k)) as [->|Hn];
      [by rewrite lookup_alter_eq, Hk|by rewrite lookup_alter_ne].
Qed.

Lemma moves_SetMoney v k w p : w_players w !! k = Some p -> purse_ok v -> moves (v - pl_money p) w (SetMoney v k w).
Proof.
  intros Hk Hv. unfold SetMoney. refine (moves_trans (v - pl_money p) 0 _ _ _ _ _ (moves_emit _ _) _); [|lia].
  apply (moves_upd_player _ k _ w p Hk). intros (?&?&?&?). split; [done|]. unfold player_gold. cbn. lia.
Qed.

Lemma moves_SendMailTo E d receiver from chk delay w : is_u32 (md_money d) -> is_u32 (md_COD d) ->
  moves (md_money d) w (SendMailTo E d receiver from chk delay w).
Proof.
  intros Hmo Hc (Hp & Hg & Hm & Hh & Hr).
  destruct (SendMailTo_effect E d receiver from chk delay w) as (m & Hs & Hg' & Hr' & Ha & Hcases).
  destruct Hs as (_ & _ & _ & _ & Hmon & HCOD & _). assert (mail_ok m) as Hmok by (split; congruence).
  set (w' := SendMailTo _ _ _ _ _ _ _) in *. clearbody w'. cbv zeta in *. apply aview_houses in Ha.
  unfold gold_ok, total. rewrite Hg', Hr', Ha.
  destruct Hcases as [([p0 Hp0] & Hm' & f & Hf & Hfm & Hpl)|(Hn & Hm' & Hpl)]; rewrite Hm', Hpl.
  - unfold FindMasterPlayer in Hp0. destruct (receiver =? 0); [done|]. split.
    + split_and!; try done. intros j q Hq. destruct (decide (j = receiver)) as [->|Hn]; [|rewrite lookup_alter_ne in Hq by done; by apply Hp].
      rewrite lookup_alter_eq, Hp0 in Hq. injection Hq as <-. destruct (Hp _ _ Hp0) as (H1 & H2 & H3 & H4).
      specialize (Hf p0). split_and!; [done|by rewrite (strip_guid _ _ Hf)|by rewrite (strip_money _ _ Hf)|rewrite Hfm; by constructor].
    + rewrite (msum_alter _ _ _ _ _ Hp0). assert (player_gold (f p0) = md_money d + player_gold p0); [|lia].
      unfold player_gold. rewrite Hfm, (strip_money _ _ (Hf p0)). cbn. lia.
  - split; [|cbn; lia]. split_and!; try done. by constructor.
Qed.

Lemma moves_mail n E d receiver from chk delay w : md_money d = n -> is_u32 n -> is_u32 (md_COD d) ->
  moves n w (SendMailTo E d receiver from chk delay w).
Proof. intros <-. apply moves_SendMailTo. Qed.

Lemma moves_SendReturnToSender n E d s r w : md_money d = n -> is_u32 n -> is_u32 (md_COD d) ->
  moves n w (SendReturnToSender E d s r w).
Proof.
  intros <- Hm Hc. unfold SendReturnToSender. destruct (_ && _).
  - apply (moves_le 0); [apply moves_emits|]. unfold is_u in Hm. lia.
  - refine (moves_trans 0 (md_money d) _ _ _ _ (moves_emits _ _) (moves_SendMailTo _ _ _ _ _ _ _ _ _) _); [done|done|lia].
Qed.

(** ** Purses *)

Lemma purse_frame k w w' : frame w w' -> purse k w' = purse k w.
Proof. intros (Hc & _). by rewrite !purse_chars, Hc. Qed.

Lemma purse_lookup k g w : purse k w = Some g -> exists p, w_players w !! k = Some p /\ pl_money p = g.
Proof. unfold purse. destruct (w_players w !! k) as [p|]; [|done]. intros [= <-]. by exists p. Qed.

Section Purses.
Context (E : Env) `{!SoundEnv E} (k : Z) (w : World) (p : Player) (Hk : w_players w !! k = Some p) (Hp : purse_ok (pl_money p)).

(** A payment the purse covers is made in full. *)
Lemma ModifyMoney_pay x : 0 <= x <= pl_money p -> ModifyMoney E (i32 (- i32 x)) k w = SetMoney (pl_money p - x) k w.
Proof using All.
  intros Hx. unfold ModifyMoney. rewrite Hk, money_unchanged. unfold purse_ok, MAX_MONEY_AMOUNT in Hp.
  rewrite (i32_id x) by (unfold is_i32; lia). rewrite !(i32_id (- x)) by (unfold is_i32; lia). rewrite Z.opp_involutive.
  destruct (Z.ltb_spec (- x) 0) as [Hneg|Hneg].
  - rewrite (u32_id x) by (unfold is_u; lia). destruct (Z.ltb_spec x (pl_money p)).
    + f_equal. rewrite u32_id; [lia|unfold is_u; lia].
    + f_equal. lia.
  - assert (x = 0) as -> by lia. rewrite (u32_id (MAX_MONEY_AMOUNT - - 0)) by (unfold is_u, MAX_MONEY_AMOUNT; lia).
    unfold MAX_MONEY_AMOUNT. destruct (Z.ltb_spec (pl_money p) (0x7FFFFFFF - 1 - -0)).
    + f_equal. rewrite u32_id; [lia|unfold is_u; lia].
    + f_equal. lia.
Qed.

(** An income fills the purse up to the cap; a mail that holds 2^31 or more
    takes gold away. *)
Lemma ModifyMoney_income x : is_u32 x -> x <> MAX_MONEY_AMOUNT + 1 ->
  exists v, ModifyMoney E (i32 x) k w = SetMoney v k w /\ purse_ok v /\ v <= pl_money p + x /\
    (x <= MAX_MONEY_AMOUNT -> v = Z.min MAX_MONEY_AMOUNT (pl_money p + x)).
Proof using All.
  intros Hx Hcap. unfold ModifyMoney. rewrite Hk, money_unchanged. unfold purse_ok in *. pose proof (i32_range x) as Hr.
  unfold MAX_MONEY_AMOUNT, is_u in *. destruct (Z.le_gt_cases x (0x7FFFFFFF - 1)) as [Hs|Hs].
  - rewrite (i32_id x), i32_id by (unfold is_i32; lia). destruct (Z.ltb_spec x 0); [lia|].
    rewrite (u32_id (_ - x)) by (unfold is_u; lia). destruct (Z.ltb_spec (pl_money p) (0x7FFFFFFF - 1 - x)).
    + rewrite u32_id by (unfold is_u; lia). eexists. split; [reflexivity|]. lia.
    + eexists. split; [reflexivity|]. lia.
  - assert (i32 x = x - 2 ^ 32) as Hi.
    { unfold i32. replace (x + 2 ^ 31) with ((x - 2 ^ 31) + 1 * 2 ^ 32) by lia. rewrite Z_mod_plus_full, Z.mod_small; lia. }
    rewrite Hi, i32_id by (unfold is_i32; lia). destruct (Z.ltb_spec (x - 2 ^ 32) 0); [|lia].
    rewrite (u32_id (- _)) by (unfold is_u; lia). destruct (Z.ltb_spec (- (x - 2 ^ 32)) (pl_money p)).
    + rewrite u32_id by (unfold is_u; lia). eexists. split; [reflexivity|]. lia.
    + eexists. split; [reflexivity|]. lia.
Qed.
End Purses.

Lemma moves_pay E `{!SoundEnv E} k x g w : purse k w = Some g -> 0 <= x <= g -> moves (- x) w (ModifyMoney E (i32 (- i32 x)) k w).
Proof.
  intros (p & Hk & <-)%purse_lookup Hx Hw. pose proof (proj1 Hw k p Hk) as (_ & _ & Hp & _).
  rewrite (ModifyMoney_pay E k w p Hk Hp x Hx). revert Hw. apply (moves_le (pl_money p - x - pl_money p)); [|lia].
  apply moves_SetMoney; [done|]. unfold purse_ok in *. lia.
Qed.

Lemma moves_income E `{!SoundEnv E} k x g w : purse k w = Some g -> is_u32 x -> x <> MAX_MONEY_AMOUNT + 1 ->
  moves x w (ModifyMoney E (i32 x) k w).
Proof.
  intros (p & Hk & <-)%purse_lookup Hx Hc Hw. pose proof (proj1 Hw k p Hk) as (_ & _ & Hp & _).
  destruct (ModifyMoney_income E k w p Hk Hp x Hx Hc) as (v & -> & Hv & Hle & _). revert Hw.
  apply (moves_le (v - pl_money p)); [|lia]. by apply moves_SetMoney.
Qed.

(** ** Houses *)

Lemma house_at_ok h w : gold_ok w -> house_ok (house_at h w).
Proof.
  intros (_ & _ & _ & Hh & _). unfold house_at. destruct (m_vRealAuctionHouses w !! h) as [ho|] eqn:Ho; [by apply (Hh h)|].
  apply map_Forall_empty.
Qed.

Lemma moves_upd_house h f w : (house_ok (house_at h w) -> house_ok (f (house_at h w))) ->
  moves (house_gold (f (house_at h w)) - house_gold (house_at h w)) w (upd_house h f w).
Proof.
  intros Hf Hw. pose proof (house_at_ok h w Hw) as Hat. destruct Hw as (Hp & Hg & Hm & Hh & Hr). split.
  - split_and!; try done. cbn. apply map_Forall_insert_2; auto.
  - unfold total. cbn. rewrite msum_insert. unfold house_at. destruct (m_vRealAuctionHouses w !! h); cbn; [lia|].
    change (house_gold emptyHouse) with 0. lia.
Qed.

(** An entry written over another. *)
Lemma house_gold_insert ho om am id a : house_gold (mkHouse (<[id := a]> (AuctionsMap ho)) om am) =
  house_gold ho - from_option entry_gold 0 (AuctionsMap ho !! id) + entry_gold a.
Proof. apply msum_insert. Qed.

Lemma entry_gold_nonneg id a : auction_ok id a -> 0 <= entry_gold a.
Proof. intros (_ & Hb & Hd & _). unfold entry_gold, purse_ok in *. lia. Qed.

Lemma moves_set_entry h id a old w : AuctionsMap (house_at h w) !! id = Some old -> (auction_ok id old -> auction_ok id a) ->
  moves (entry_gold a - entry_gold old) w
    (upd_house h (fun ho => mkHouse (<[id := a]> (AuctionsMap ho)) (OrderedAuctionMap ho) (AccountAuctionMap ho)) w).
Proof.
  intros Hold Ha. eapply moves_le; [apply moves_upd_house|cbv beta; rewrite house_gold_insert, Hold; cbn; lia].
  intros Hho. apply map_Forall_insert_2; [|done]. apply Ha. by apply (Hho id).
Qed.

Lemma moves_AddAuction h a w : auction_ok (au_Id a) a -> moves (entry_gold a) w (AddAuction h a w).
Proof.
  intros Ha Hw. pose proof (house_at_ok h w Hw) as Hat. revert Hw. unfold AddAuction.
  refine (moves_trans (entry_gold a) 0 _ _ _ _ _ (moves_emit _ _) _); [|lia].
  eapply moves_le; [apply moves_upd_house|].
  - intros Hho. by apply map_Forall_insert_2.
  - unfold add_entry. rewrite house_gold_insert. destruct (AuctionsMap (house_at h w) !! au_Id a) as [b|] eqn:Hb; cbn; [|lia].
    pose proof (entry_gold_nonneg _ b (Hat _ _ Hb)). lia.
Qed.

Lemma moves_RemoveAuction h a old w : AuctionsMap (house_at h w) !! au_Id a = Some old ->
  moves (- entry_gold old) w (snd (RemoveAuction h a w)).
Proof.
  intros Hold. unfold RemoveAuction. rewrite Hold, bool_decide_true by done. cbn [snd].
  refine (moves_trans (- entry_gold old) 0 _ _ (upd_house h (remove_entry a) w) _ _ _ _); [|by apply moves_same|lia].
  eapply moves_le; [apply moves_upd_house|].
  - intros Hho. by apply map_Forall_delete.
  - unfold house_gold. cbn [AuctionsMap remove_entry]. rewrite (msum_delete _ _ _ _ Hold). lia.
Qed.

Lemma moves_RemoveAuction_any h a w : moves 0 w (snd (RemoveAuction h a w)).
Proof.
  intros Hw. pose proof (house_at_ok h w Hw) as Hat. revert Hw. destruct (AuctionsMap (house_at h w) !! au_Id a) as [old|] eqn:Hold.
  - eapply moves_le; [by apply moves_RemoveAuction|]. pose proof (entry_gold_nonneg _ old (Hat _ _ Hold)). lia.
  - unfold RemoveAuction. rewrite Hold, bool_decide_false by (by intros [? ?]). cbn [snd].
    eapply moves_le; [apply moves_upd_house|].
    + intros Hho. by apply map_Forall_delete.
    + unfold house_gold. cbn [AuctionsMap remove_entry]. rewrite delete_id by done. lia.
Qed.

(** ** The mails about an auction *)

Section Auction_mails.
Context (E : Env) `{!SoundEnv E} (a : AuctionEntry).
Context (Hbid : purse_ok (bid a)) (Hdep : purse_ok (deposit a)).

Lemma moves_refund_bidder answer notify w : (forall w, moves 0 w (notify w)) ->
  moves (bid a) w (refund_bidder E answer notify a w).
Proof using Hbid.
  intros Hn. unfold refund_bidder. unfold purse_ok, MAX_MONEY_AMOUNT in Hbid.
  destruct (receiver_hardcore E (bidder a) w); [apply moves_refl; lia|].
  destruct (receiver_exists E (bidder a) w); [|apply moves_refl; lia].
  refine (moves_trans 0 (bid a) _ _ _ _ (moves_if_online _ _ _ Hn) (moves_mail (bid a) _ _ _ _ _ _ _ _ _ _) _);
    [done|unfold is_u; lia|done|lia].
Qed.

(** The seller gets the bid and his deposit, less the cut. *)
Lemma moves_SendAuctionSuccessfulMail w : moves (entry_gold a - GetAuctionCut E a) w (SendAuctionSuccessfulMail E a w).
Proof using All.
  unfold SendAuctionSuccessfulMail. pose proof (cut_is_part (auctionHouseEntry a) (bid a) (proj1 Hbid)) as Hcut.
  change (AuctionCut E (auctionHouseEntry a) (bid a)) with (GetAuctionCut E a) in Hcut.
  unfold entry_gold, purse_ok, MAX_MONEY_AMOUNT in *.
  destruct (receiver_hardcore E (owner a) w); [apply moves_refl; lia|].
  destruct (receiver_exists E (owner a) w); [|apply moves_refl; lia].
  cbv zeta. rewrite (u32_id (bid a + deposit a - GetAuctionCut E a)) by (unfold is_u; lia).
  refine (moves_trans 0 (bid a + deposit a - GetAuctionCut E a) _ _ _ _ (moves_if_online _ _ _ _) (moves_mail _ _ _ _ _ _ _ _ _ _ _) _);
    [intros w'; apply moves_emit|done|unfold is_u; lia|done|lia].
Qed.
End Auction_mails.

Lemma moves_destroy_item it w : moves 0 w (destroy_item it w).
Proof. by apply moves_same. Qed.

Lemma moves_SendAuctionWonMail E a w : moves 0 w (SendAuctionWonMail E a w).
Proof.
  unfold SendAuctionWonMail. destruct (GetAItem (itemGuidLow a) w) as [it|]; [|by apply moves_refl].
  destruct (_ && _); [|apply moves_destroy_item]. cbv zeta.
  refine (moves_trans 0 0 _ _ _ _ _ (moves_mail 0 _ _ _ _ _ _ _ _ _ _) _); [|done..|lia].
  destruct (GetPlayer (bidder a) _); by apply moves_same.
Qed.

Lemma moves_SendAuctionExpiredMail E a w : moves 0 w (SendAuctionExpiredMail E a w).
Proof.
  unfold SendAuctionExpiredMail. destruct (GetAItem (itemGuidLow a) w) as [it|]; [|by apply moves_refl].
  destruct (_ && _); [|apply moves_destroy_item]. cbv zeta.
  refine (moves_trans 0 0 _ _ _ _ _ (moves_mail 0 _ _ _ _ _ _ _ _ _ _) _); [|done..|lia].
  destruct (GetPlayer (owner a) _); by apply moves_same.
Qed.
#[export] Hint Resolve moves_SendAuctionWonMail moves_SendAuctionExpiredMail moves_destroy_item moves_RemoveAuction_any : gold.

(** ** Proofs about handlers *)

Lemma moves_then n w1 w2 w3 : moves n w1 w2 -> moves 0 w2 w3 -> moves n w1 w3.
Proof. intros H1 H2. apply (moves_trans n 0 n w1 w2 w3 H1 H2). lia. Qed.

(** Drops the last operation of the goal when it is worth nothing. *)
Ltac peel := eapply moves_then; [|solve [eauto with gold]].

(** Splits on the next condition of a handler, and closes the branches that
    only report. *)
Ltac branches := repeat
  match goal with
  | |- moves 0 ?w ?w => by apply moves_refl
  | |- moves 0 _ (if ?b then _ else _) => destruct b
  | |- moves 0 _ (match ?o with Some _ => _ | None => _ end) => destruct o
  | |- moves 0 _ (emit _ _) => eapply moves_then; [|apply moves_emit]
  | |- moves 0 _ (mail_result _ _ _ _ _) => apply moves_mail_result
  end.

(** ** The mail packets create no gold

    For every handler of MailHandler.cpp: whatever the operands, it keeps the
    amounts in their bounds and adds nothing to the total. *)

Lemma mails_gold_upd_same id f l : (forall m, money (f m) = money m) -> mails_gold (upd_mail id f l) = mails_gold l.
Proof. intros Hf. induction l as [|m l IH]; cbn; [done|]. destruct (_ =? _); cbn; rewrite ?Hf, ?IH; done. Qed.

Lemma player_ok_mails k l its b p : Forall mail_ok l -> player_ok k p -> player_ok k (set_mails l its b p).
Proof. by intros Hl (?&?&?&?). Qed.

(** A change of mails that leaves the money in them. *)
Lemma moves_change_mail k id f w : (forall m, mail_ok m -> mail_ok (f m)) -> (forall m, money (f m) = money m) ->
  moves 0 w (upd_player k (change_mail id f) w).
Proof.
  intros Hok Hm. apply moves_upd_any. intros p Hp. split.
  - apply player_ok_mails; [|done]. apply upd_mail_ok; [done|]. apply Hp.
  - unfold player_gold. cbn. rewrite mails_gold_upd_same; [lia|done].
Qed.

Lemma moves_SaveMails k w : moves 0 w (SaveMails k w).
Proof.
  unfold SaveMails. destruct (w_players w !! k) as [p|]; [|by apply moves_refl].
  destruct (m_mailsUpdated p); [|by apply moves_refl]. eapply moves_then; [apply moves_emits|].
  apply moves_upd_any. intros q Hq. destruct Hq as (?&?&?&Hmails). split.
  - split_and!; try done. apply filter_Forall, saved_mails_ok, Hmails.
  - unfold player_gold. cbn. pose proof (mails_gold_filter (fun m => m_state m <> MAIL_STATE_DELETED) _ (saved_mails_ok _ Hmails)).
    rewrite saved_mails_gold in *. lia.
Qed.

Lemma moves_MoveItemFromInventory k g w : moves 0 w (MoveItemFromInventory k g w).
Proof. by apply moves_upd_any. Qed.
#[export] Hint Resolve moves_SaveMails moves_MoveItemFromInventory : gold.

Section Handlers.
Context (E : Env) `{!SoundEnv E} (p : Player) (w : World) (Hp : w_players w !! pl_guid p = Some p).

Lemma purse_of : purse (pl_guid p) w = Some (pl_money p).
Proof using Hp. unfold purse. by rewrite Hp. Qed.

Lemma moves_HandleMailMarkAsRead mailbox id : moves 0 w (HandleMailMarkAsRead E p mailbox id w).
Proof using Hp.
  unfold HandleMailMarkAsRead. destruct (negb _); [by apply moves_refl|].
  destruct (GetMail id p) as [m|]; [|by apply moves_refl]. destruct (decide _); [apply moves_emit|].
  apply moves_upd_any. intros q Hq. split.
  - apply player_ok_mails; [|by apply Hq]. by apply upd_mail_ok; [|apply Hq].
  - unfold player_gold. cbn. rewrite mails_gold_upd_same; [lia|done].
Qed.

Lemma moves_HandleMailDelete mailbox id : moves 0 w (HandleMailDelete E p mailbox id w).
Proof using Hp.
  unfold HandleMailDelete. destruct (negb _); [by apply moves_refl|]. cbv zeta.
  destruct (GetMail id p) as [m|]; [destruct (negb _)|].
  - peel. apply moves_upd_any. intros q Hq. split; [by apply player_ok_mails; [apply Hq|]|done].
  - peel. eapply moves_then; [|by apply moves_change_mail]. apply moves_upd_any. intros q Hq.
    split; [by apply player_ok_mails; [apply Hq|]|done].
  - peel. apply moves_upd_any. intros q Hq. split; [by apply player_ok_mails; [apply Hq|]|done].
Qed.

Lemma moves_RemoveMItems k (its : list (Z * Z)) w' : moves 0 w' (upd_player k (fun p => foldl (fun p it => RemoveMItem (fst it) p) p its) w').
Proof using.
  apply moves_upd_any. intros q. revert q. induction its as [|it its IH]; cbn; [done|]. intros q Hq. apply (IH (RemoveMItem (fst it) q) Hq).
Qed.

Lemma AddItem_fold_money its d : md_money (foldl (fun d it => AddItem it d) d its) = md_money d.
Proof using. revert d. induction its as [|it its IH]; cbn; [done|]. intros d. by rewrite IH. Qed.
Lemma AddItem_fold_COD its d : md_COD (foldl (fun d it => AddItem it d) d its) = md_COD d.
Proof using. revert d. induction its as [|it its IH]; cbn; [done|]. intros d. by rewrite IH. Qed.

Lemma moves_HandleMailReturnToSender mailbox id : moves 0 w (HandleMailReturnToSender E p mailbox id w).
Proof using Hp.
  unfold HandleMailReturnToSender. destruct (negb _); [by apply moves_refl|].
  destruct (open_mail E id p) as [m|] eqn:Hm; [|apply moves_mail_result]. apply open_mail_get in Hm. intros Hw.
  pose proof (proj1 Hw _ _ Hp) as (_ & _ & _ & Hmails). pose proof (GetMail_ok _ _ _ Hmails Hm) as [Hmon HCOD].
  revert Hw. peel.
  assert (forall os, moves (- money m) w (upd_player (pl_guid p) (RemoveMail id) (emits os w))) as Hrm.
  { intros os. refine (moves_trans 0 (- money m) _ _ (emits os w) _ (moves_emits os w) _ _); [|lia].
    apply (moves_upd_player _ _ _ (emits os w) p Hp). intros Hq. split.
    - apply player_ok_mails; [|done]. by apply remove_mail_ok.
    - unfold player_gold. cbn. rewrite (mails_gold_remove _ _ _ Hm). lia. }
  cbv zeta. destruct (_ && _ && _); [|eapply moves_le; [apply Hrm|unfold is_u in Hmon; lia]].
  refine (moves_trans (- money m) (money m) _ _ _ _ _ (moves_SendReturnToSender _ _ _ _ _ _ _ _ _) _);
    [|done|done| |lia].
  - destruct (has_items m); [|apply Hrm]. eapply moves_then; [apply Hrm|]. apply moves_RemoveMItems.
  - cbn. by rewrite AddItem_fold_COD.
Qed.

Lemma moves_HandleMailTakeMoney mailbox id : (forall m, GetMail id p = Some m -> money m <> MAX_MONEY_AMOUNT + 1) ->
  moves 0 w (HandleMailTakeMoney E p mailbox id w).
Proof using All.
  intros Hcap. unfold HandleMailTakeMoney. destruct (negb _); [by apply moves_refl|].
  destruct (open_mail E id p) as [m|] eqn:Hm; [|apply moves_mail_result]. apply open_mail_get in Hm. intros Hw.
  pose proof (proj1 Hw _ _ Hp) as (_ & _ & Hpurse & Hmails). pose proof (GetMail_ok _ _ _ Hmails Hm) as [Hmon _].
  cbv zeta. revert Hw. peel. peel.
  destruct (ModifyMoney_income E _ (mail_result p id MAIL_MONEY_TAKEN MAIL_OK w) p Hp Hpurse (money m) Hmon (Hcap m Hm))
    as (v & -> & Hv & Hle & _).
  eapply (moves_trans (v - pl_money p) (- money m)); [|eapply (moves_upd_player _ _ _ _ (set_money v p))|lia].
  - refine (moves_trans 0 (v - pl_money p) _ _ _ _ (moves_mail_result _ _ _ _ _) _ _); [by apply moves_SetMoney|lia].
  - cbn. by rewrite lookup_alter_eq, Hp.
  - intros Hq. split.
    + apply player_ok_mails; [|done]. apply upd_mail_ok; [|done]. intros m' [_ Hc]. split; [done|exact Hc].
    + unfold player_gold. cbn. rewrite (mails_gold_upd id _ _ m Hm). cbn. lia.
Qed.
(** The payment of a COD mail: what the receiver pays is what the sender is
    sent. *)
Definition pay_cod (m : Mail) (w : World) : World :=
  ModifyMoney E (i32 (- i32 (COD m))) (pl_guid p)
    (if bool_decide (is_Some (GetPlayer (sender m) w)) || negb (GetPlayerAccountIdByGUID E (sender m) w =? 0) then
       SendMailTo E (draft_SetMoney (COD m) (newDraft E (subject m) [])) (sender m) (MailSender_player (pl_guid p))
         MAIL_CHECK_MASK_COD_PAYMENT 0 w
     else w).

Lemma moves_pay_cod m : is_u32 (COD m) -> COD m <= pl_money p -> moves 0 w (pay_cod m w).
Proof using All.
  intros Hc Hle. unfold pay_cod. eapply (moves_trans (COD m) (- COD m)); [|apply (moves_pay E _ _ (pl_money p))|lia].
  - destruct (_ || _); [by apply moves_mail|]. apply moves_refl. unfold is_u in Hc. lia.
  - rewrite (purse_frame _ w); [apply purse_of|]. destruct (_ || _); [apply frame_SendMailTo|done].
  - unfold is_u in Hc. lia.
Qed.

Lemma moves_HandleMailTakeItem mailbox id : moves 0 w (HandleMailTakeItem E p mailbox id w).
Proof using All.
  unfold HandleMailTakeItem. destruct (negb _); [by apply moves_refl|].
  destruct (open_mail E id p) as [m|] eqn:Hm; [|apply moves_mail_result]. apply open_mail_get in Hm.
  destruct (has_items m); [|apply moves_mail_result].
  destruct (items m) as [|[itemGuid itemId] its]; [apply moves_mail_result|].
  destruct (Z.ltb_spec (pl_money p) (COD m)) as [Hlt|Hle]; [apply moves_mail_result|].
  destruct (_ && _ && _); [apply moves_mail_result|].
  destruct (mMitems p !! itemGuid) as [it|]; [|apply moves_SendMailResult].
  cbv zeta. destruct (negb (CanStoreItem E p it =? EQUIP_ERR_OK)); [apply moves_SendMailResult|].
  intros Hw. pose proof (proj1 Hw _ _ Hp) as (_ & _ & _ & Hmails). pose proof (GetMail_ok _ _ _ Hmails Hm) as [_ HCOD].
  revert Hw. do 3 peel. eapply moves_then; [|by apply moves_upd_any]. peel.
  eapply moves_then; [|apply moves_change_mail; [intros m' []; by split|done]].
  destruct (0 <? COD m); [by apply (moves_pay_cod m)|by apply moves_refl].
Qed.

Lemma moves_attach_item rq item w' : moves 0 w' (snd (attach_item E p rq item w')).
Proof using. destruct item as [it|]; [|by apply moves_refl]. cbn [attach_item snd]. do 2 peel. apply moves_emit. Qed.

Lemma moves_post_mail rq item draft w' : is_u32 (rq_money rq) -> is_u32 (rq_COD rq) ->
  moves (rq_money rq) w' (post_mail E p rq item draft w').
Proof using.
  intros Hm Hc. unfold post_mail. cbv zeta. destruct (if pl_anonMail p then _ else _) as [from delay].
  destruct (_ && _); peel; [|by apply moves_mail].
  refine (moves_trans 0 (rq_money rq) _ _ _ _ (moves_emit _ _) (moves_mail _ _ _ _ _ _ _ _ _ _ _) _); [done..|lia].
Qed.

(** The sender pays the postage and what he sends. *)
Lemma moves_HandleSendMailCallback rq : is_u32 (rq_money rq) -> is_u32 (rq_COD rq) -> moves 0 w (HandleSendMailCallback E p rq w).
Proof using All.
  intros Hm Hc. unfold HandleSendMailCallback. cbv zeta.
  destruct (Z.ltb_spec (u32 (rq_money rq + 30)) (rq_money rq)) as [Hw|Hov]; [peel; apply moves_emit|].
  destruct (negb _ && _) eqn:Hmoney; [apply moves_mail_result|].
  destruct (100 <? _); [apply moves_mail_result|]. destruct (negb (cfg_ALLOW_TWO_SIDE_INTERACTION_MAIL E) && _ && _); [peel; apply moves_mail_result|].
  destruct (request_item E p rq w) as [item|]; [|apply moves_mail_result].
  destruct (LowLevelMailer E p && _ && _); [peel; apply moves_mail_result|].
  destruct (negb (CanMail E p _)); [peel; apply moves_emits|].
  intros Hworld. pose proof (proj1 Hworld _ _ Hp) as (_ & _ & Hpurse & _). revert Hworld.
  set (cost := u32 (rq_money rq + 30)) in *. assert (0 <= cost <= pl_money p) as Hcost.
  { assert (is_u32 cost) by apply u32_range. unfold is_u, purse_ok in *.
    destruct (Z.eqb_spec cost 0); cbn in Hmoney; [|apply Z.ltb_ge in Hmoney]; lia. }
  destruct (attach_item E p rq item _) as [draft w'] eqn:Hattach.
  apply (f_equal snd) in Hattach as Hw'. cbn in Hw'. subst w'.
  eapply (moves_trans (- cost) (rq_money rq)); [|by apply moves_post_mail|lia].
  eapply moves_then; [|apply moves_attach_item].
  eapply (moves_trans 0 (- cost)); [apply moves_mail_result|apply (moves_pay E _ _ (pl_money p)); [apply purse_of|done]|lia].
Qed.

End Handlers.

(** The sender may have left when the answer comes. *)
Lemma moves_Callback E `{!SoundEnv E} rq result w : is_u32 (rq_money rq) -> is_u32 (rq_COD rq) -> moves 0 w (Callback E rq result w).
Proof.
  intros Hm Hc. unfold Callback. destruct (w_players w !! rq_sender rq) as [q|] eqn:Hq; [|by apply moves_refl].
  destruct (pl_inWorld q); [|by apply moves_refl]. intros Hw. pose proof (proj1 Hw _ _ Hq) as (_ & Hguid & _).
  revert Hw. apply moves_HandleSendMailCallback; [done|by rewrite Hguid|by destruct result..].
Qed.

Lemma moves_set_requests n l w : 0 <= n -> Forall (fun rq => is_u32 (rq_money rq) /\ is_u32 (rq_COD rq)) l ->
  moves n w (set_requests l w).
Proof. intros Hn Hl (?&?&?&?&?). split; [done|]. unfold total. cbn. lia. Qed.

Lemma moves_HandleSendMail E `{!SoundEnv E} p mailbox name subj body item gold cod w : is_u32 gold -> is_u32 cod ->
  moves 0 w (HandleSendMail E p mailbox name subj body item gold cod w).
Proof.
  intros Hg Hc. unfold HandleSendMail. cbv zeta.
  generalize (match normalizePlayerName E name with Some n => GetPlayerGuidByName E n | None => 0 end). intros receiver.
  branches.
  - by apply moves_Callback.
  - intros Hw. apply moves_set_requests; [done| |exact Hw]. constructor; [done|]. apply Hw.
Qed.
