(* ===== verification/GoldAuction.v ===== *)
(** * GoldAuction: the auction houses create no gold

    For the update of the houses, the end of an auction and every handler of
    AuctionHouseHandler.cpp: whatever the operands, they keep the amounts in
    their bounds and add nothing to the total. *)
From S2P Require Import Prelude ByteBuffer ObjectGuid EconomyData Mail Auction EconomyFrame Gold.

(** ** Frames of the houses *)

Lemma house_at_frame h w w' : frame w w' -> house_at h w' = house_at h w.
Proof. intros (_ & Ha%aview_houses & _). unfold house_at. by rewrite Ha. Qed.

Lemma houses_ModifyMoney E d k w : aview (ModifyMoney E d k w) = aview w.
Proof. unfold ModifyMoney. destruct (w_players w !! k); [|done]. by destruct (_ <? 0). Qed.
Lemma house_at_ModifyMoney h E d k w : house_at h (ModifyMoney E d k w) = house_at h w.
Proof. unfold house_at. by rewrite (aview_houses _ _ (houses_ModifyMoney E d k w)). Qed.

Lemma houses_SendAuctionWonMail E a w : m_vRealAuctionHouses (SendAuctionWonMail E a w) = m_vRealAuctionHouses w.
Proof.
  unfold SendAuctionWonMail. destruct (GetAItem (itemGuidLow a) w) as [it|]; [|done].
  destruct (_ && _); [|done]. cbv zeta. rewrite (aview_houses _ _ (proj1 (proj2 (frame_SendMailTo _ _ _ _ _ _ _)))).
  by destruct (GetPlayer (bidder a) _).
Qed.
Lemma houses_SendAuctionExpiredMail E a w : m_vRealAuctionHouses (SendAuctionExpiredMail E a w) = m_vRealAuctionHouses w.
Proof.
  unfold SendAuctionExpiredMail. destruct (GetAItem (itemGuidLow a) w) as [it|]; [|done].
  destruct (_ && _); [|done]. cbv zeta. rewrite (aview_houses _ _ (proj1 (proj2 (frame_SendMailTo _ _ _ _ _ _ _)))).
  by destruct (GetPlayer (owner a) _).
Qed.

Lemma served_SendAuctionWonMail E a w : m_mAuctionHouses (SendAuctionWonMail E a w) = m_mAuctionHouses w.
Proof.
  unfold SendAuctionWonMail. destruct (GetAItem (itemGuidLow a) w) as [it|]; [|done].
  destruct (_ && _); [|done]. cbv zeta. rewrite (aview_served _ _ (proj1 (proj2 (frame_SendMailTo _ _ _ _ _ _ _)))).
  by destruct (GetPlayer (bidder a) _).
Qed.
Lemma served_SendAuctionSuccessfulMail E a w : m_mAuctionHouses (SendAuctionSuccessfulMail E a w) = m_mAuctionHouses w.
Proof. apply aview_served, frame_SendAuctionSuccessfulMail. Qed.

Lemma house_at_SendAuctionWonMail h E a w : house_at h (SendAuctionWonMail E a w) = house_at h w.
Proof. unfold house_at. by rewrite houses_SendAuctionWonMail. Qed.
Lemma house_at_SendAuctionExpiredMail h E a w : house_at h (SendAuctionExpiredMail E a w) = house_at h w.
Proof. unfold house_at. by rewrite houses_SendAuctionExpiredMail. Qed.
Lemma house_at_SendAuctionSuccessfulMail h E a w : house_at h (SendAuctionSuccessfulMail E a w) = house_at h w.
Proof. apply house_at_frame, frame_SendAuctionSuccessfulMail. Qed.

(** Rewrites [house_at] through effects, statements and mails. *)
Ltac rewrite_house :=
  repeat first
    [ progress change (house_at ?h (RemoveAItem ?g ?w)) with (house_at h w)
    | progress change (house_at ?h (emit ?o ?w)) with (house_at h w)
    | progress change (house_at ?h (SendAuctionCommandResult ?p ?a ?b ?c ?d ?w)) with (house_at h w)
    | rewrite house_at_SendAuctionWonMail | rewrite house_at_SendAuctionExpiredMail | rewrite house_at_SendAuctionSuccessfulMail
    | rewrite house_at_ModifyMoney ].

Lemma house_at_upd_house h f w : house_at h (upd_house h f w) = f (house_at h w).
Proof. unfold house_at at 1. cbn. by rewrite lookup_insert_eq. Qed.
Lemma house_at_upd_house_ne h h' f w : h' <> h -> house_at h' (upd_house h f w) = house_at h' w.
Proof. intros Hn. unfold house_at. cbn. by rewrite lookup_insert_ne. Qed.

(** ** The end of an auction *)

Lemma unlock_gold a : entry_gold (unlock a) = entry_gold a.
Proof. done. Qed.

(** A sale: the seller gets bid and deposit less the cut, the winner the
    item, and the entry, with the bid and deposit it was made with, goes. *)
Lemma moves_sale E `{!SoundEnv E} h a old w w1 : AuctionsMap (house_at h w) !! au_Id a = Some old ->
  purse_ok (bid a) -> purse_ok (deposit a) -> deposit a = deposit old ->
  moves 0 (SendAuctionWonMail E a (SendAuctionSuccessfulMail E a w)) w1 -> house_at h w1 = house_at h w ->
  moves (bid a - bid old) w (snd (RemoveAuction h a w1)).
Proof.
  intros Hold Hb Hd Hdep Hmv Hh.
  apply (moves_trans (entry_gold a - GetAuctionCut E a) (- entry_gold old) _ _ w1); [|by apply moves_RemoveAuction; rewrite Hh|].
  - eapply moves_then; [|exact Hmv]. peel. by apply moves_SendAuctionSuccessfulMail.
  - pose proof (cut_is_part (auctionHouseEntry a) (bid a) (proj1 Hb)) as Hcut. unfold GetAuctionCut, entry_gold. lia.
Qed.

Section Closing.
Context (E : Env) `{!SoundEnv E}.

(** Expired without a bid: the deposit is lost. *)
Lemma moves_expire h a old w : AuctionsMap (house_at h w) !! au_Id a = Some old -> auction_ok (au_Id a) old ->
  moves 0 w (close_auction h a (SendAuctionExpiredMail E a w)).
Proof using.
  intros Hold Hok. unfold close_auction. set (w1 := RemoveAItem _ _).
  apply (moves_trans 0 (- entry_gold old) _ _ w1).
  - subst w1. do 2 peel. apply moves_SendAuctionExpiredMail.
  - apply moves_RemoveAuction. change (house_at h w1) with (house_at h (SendAuctionExpiredMail E a w)).
    by rewrite_house.
  - pose proof (entry_gold_nonneg _ _ Hok). lia.
Qed.

Lemma moves_close_sold h a w : AuctionsMap (house_at h w) !! au_Id a = Some a -> auction_ok (au_Id a) a ->
  moves 0 w (close_auction h a (SendAuctionWonMail E a (SendAuctionSuccessfulMail E a w))).
Proof using All.
  intros Hold (_ & Hb & Hd & _). unfold close_auction. eapply moves_le; [apply (moves_sale E h a a w)|]; try done; [|by rewrite_house|lia].
  peel. apply moves_emit.
Qed.

Lemma moves_update_entry h id w : moves 0 w (update_entry E h id w).
Proof using All.
  unfold update_entry. destruct (AuctionsMap (house_at h w) !! id) as [a0|] eqn:Ha0; [|by apply moves_refl].
  set (a := if _ : bool then unlock a0 else a0). cbv zeta. intros Hw. pose proof (house_at_ok h w Hw id a0 Ha0) as Hok. revert Hw.
  assert (auction_ok id a) as Ha by (subst a; by destruct (_ <? _)).
  assert (entry_gold a = entry_gold a0) as Hgold by (subst a; by destruct (_ <? _)). clearbody a.
  set (w1 := upd_house _ _ _).
  assert (moves 0 w w1) as Hset by (eapply moves_le; [by apply (moves_set_entry h id a a0)|lia]).
  assert (AuctionsMap (house_at h w1) !! id = Some a) as Hat by (subst w1; rewrite house_at_upd_house; apply lookup_insert_eq).
  clearbody w1. destruct (expireTime a <? GetGameTime E); [|done].
  destruct Ha as (<- & Ha). refine (moves_trans 0 0 _ _ _ _ Hset _ _); [|lia].
  destruct (bidder a =? 0).
  - refine (moves_trans 0 0 _ _ (emit _ w1) _ (moves_emit _ _) _ _); [|lia]. by apply (moves_expire h a a).
  - refine (moves_trans 0 0 _ _ (emit _ w1) _ (moves_emit _ _) _ _); [|lia]. by apply moves_close_sold.
Qed.

Lemma moves_fold {A} (f : World -> A -> World) l w : (forall w x, moves 0 w (f w x)) -> moves 0 w (foldl f w l).
Proof using.
  intros Hf. revert w. induction l as [|x l IH]; intros w; [by apply moves_refl|]. cbn.
  refine (moves_trans 0 0 _ _ _ _ (Hf w x) (IH _) _). lia.
Qed.

Lemma moves_Update w : moves 0 w (Update E w).
Proof using All. apply moves_fold. intros w' h. apply moves_fold. intros w'' id. apply moves_update_entry. Qed.

Lemma moves_RemoveAllAuctions h p w : moves 0 w (RemoveAllAuctions h p w).
Proof using. apply moves_fold. intros w' a. apply moves_RemoveAuction_any. Qed.

Lemma moves_AuctionBidWinning h k a w w' : GetAuctionsMap (auctionHouseEntry a) w = Some h ->
  AuctionsMap (house_at h w) !! au_Id a = Some a -> auction_ok (au_Id a) a ->
  AuctionBidWinning E k a w = Some w' -> moves 0 w w'.
Proof using All.
  intros Hmap Hold (_ & Hb & Hd & _). unfold AuctionBidWinning. set (w1 := RemoveAItem _ _).
  assert (GetAuctionsMap (auctionHouseEntry a) w1 = Some h) as ->.
  { rewrite <- Hmap. subst w1. unfold GetAuctionsMap. cbn. by rewrite served_SendAuctionWonMail, served_SendAuctionSuccessfulMail. }
  intros [= <-]. assert (moves 0 w (snd (RemoveAuction h a w1))) as Hsale.
  { eapply moves_le; [apply (moves_sale E h a a w)|]; try done; [apply moves_RemoveAItem|subst w1; by rewrite_house|lia]. }
  clearbody w1. set (w2 := snd (RemoveAuction h a w1)) in *. clearbody w2. destruct k; cbv zeta.
  - refine (moves_trans 0 0 _ _ (emit _ w2) _ _ (moves_SaveInventoryAndGoldToDB _ _) _); [|lia].
    exact (moves_then 0 _ _ _ Hsale (moves_emit _ _)).
  - exact (moves_then 0 _ _ _ Hsale (moves_emit _ _)).
Qed.
End Closing.

(** ** AuctionHouseHandler.cpp *)

Section Handlers.
Context (E : Env) `{!SoundEnv E} (p : Player) (w : World) (Hp : w_players w !! pl_guid p = Some p).

Lemma frame_notify (f : World -> World) k : (forall w, frame w (f w)) -> forall w, frame w (if_online k f w).
Proof using. intros Hf w'. by apply frame_if_online. Qed.

Lemma purse_of_w : purse (pl_guid p) w = Some (pl_money p).
Proof using Hp. unfold purse. by rewrite Hp. Qed.

(** The new bidder pays his bid, or what he adds to his last one; the old
    bidder has his bid back. *)
Lemma moves_pay_bid price a : 0 <= price <= pl_money p -> purse_ok (bid a) -> bid a <= price ->
  moves (bid a - price) w (pay_bid E (pl_guid p) price a w).
Proof using All.
  intros Hprice Hb Hle Hw. pose proof (proj1 Hw _ _ Hp) as (_ & _ & Hpurse & _). revert Hw. unfold pay_bid.
  unfold purse_ok, MAX_MONEY_AMOUNT in *. destruct (pl_guid p =? bidder a).
  - rewrite (u32_id (price - bid a)) by (unfold is_u; lia).
    eapply moves_le; [apply (moves_pay E _ _ (pl_money p)); [apply purse_of_w|lia]|lia].
  - cbv zeta. set (w1 := ModifyMoney _ _ _ _). assert (moves (- price) w w1) as Hpay.
    { apply (moves_pay E _ _ (pl_money p)); [apply purse_of_w|lia]. }
    destruct (negb _); [|eapply moves_le; [exact Hpay|lia]].
    refine (moves_trans (- price) (bid a) _ _ _ _ Hpay _ _); [|lia].
    apply moves_refund_bidder; [unfold purse_ok, MAX_MONEY_AMOUNT; lia|]. intros w'. apply moves_emit.
Qed.

Lemma house_at_pay_bid h price a w' : house_at h (pay_bid E (pl_guid p) price a w') = house_at h w'.
Proof using.
  unfold pay_bid. destruct (_ =? _); [apply house_at_ModifyMoney|]. cbv zeta. destruct (negb _); [|apply house_at_ModifyMoney].
  rewrite <- (house_at_ModifyMoney h E (i32 (- i32 price)) (pl_guid p) w'). apply house_at_frame.
  by apply frame_refund_bidder.
Qed.
End Handlers.

Section Bids.
Context (E : Env) `{!SoundEnv E} (p : Player) (w : World) (Hp : w_players w !! pl_guid p = Some p).

(** A bid below the buyout is written into the entry. *)
Lemma moves_bid h id price a os : AuctionsMap (house_at h w) !! id = Some a -> 0 <= price <= pl_money p -> bid a <= price ->
  (buyout a <> 0 -> price < buyout a) ->
  moves 0 w (upd_house h (fun ho => mkHouse (<[id := set_bid price (pl_guid p) a]> (AuctionsMap ho)) (OrderedAuctionMap ho) (AccountAuctionMap ho))
    (pay_bid E (pl_guid p) price a (emits os w))).
Proof using All.
  intros Ha Hprice Hle Hbuy Hw. pose proof (house_at_ok h w Hw id a Ha) as (Hid & Hb & Hd & Hbo & _).
  pose proof (proj1 Hw _ _ Hp) as (_ & _ & Hpurse & _). revert Hw.
  set (w1 := pay_bid _ _ _ _ _). apply (moves_trans (bid a - price) (price - bid a) _ _ w1); [| |lia].
  - refine (moves_trans 0 (bid a - price) _ _ _ _ (moves_emits os w) _ _); [|lia].
    subst w1. by apply moves_pay_bid.
  - eapply moves_le; [apply (moves_set_entry h id _ a)|unfold entry_gold; cbn; lia].
    + subst w1. by rewrite house_at_pay_bid.
    + intros _. unfold auction_ok, purse_ok in *. cbn. split_and!; try done; lia.
Qed.

(** A bid at the buyout ends the auction at that price. *)
Lemma moves_buyout h id a os act err i : AuctionsMap (house_at h w) !! id = Some a -> buyout a <> 0 -> buyout a <= pl_money p ->
  let a' := set_bid (buyout a) (pl_guid p) a in
  moves 0 w (snd (RemoveAuction h a' (RemoveAItem (itemGuidLow a') (SendAuctionCommandResult p (Some a') act err i
    (SendAuctionWonMail E a' (SendAuctionSuccessfulMail E a' (pay_bid E (pl_guid p) (buyout a) a (emits os w)))))))).
Proof using All.
  intros Ha Hnz Hbuy. cbv zeta. set (a' := set_bid _ _ a). intros Hw.
  pose proof (house_at_ok h w Hw id a Ha) as (Hid & Hb & Hd & Hbo & Hlt). specialize (Hlt Hnz).
  pose proof (proj1 Hw _ _ Hp) as (_ & _ & Hpurse & _). revert Hw.
  set (w1 := pay_bid _ _ _ _ _). apply (moves_trans (bid a - buyout a) (buyout a - bid a) _ _ w1); [| |lia].
  - refine (moves_trans 0 (bid a - buyout a) _ _ _ _ (moves_emits os w) _ _); [|lia].
    subst w1. apply moves_pay_bid; [done..|lia|done|lia].
  - apply (moves_sale E h a' a w1).
    + subst w1. rewrite house_at_pay_bid. cbn. by rewrite Hid.
    + unfold purse_ok in *. cbn. lia.
    + done.
    + done.
    + peel. apply moves_SendAuctionCommandResult.
    + by rewrite_house.
Qed.

End Bids.

(** The handlers, by cases on what they return. *)
Ltac refuse := intros [= <-]; first [by apply moves_refl | apply moves_emit | peel; first [apply moves_emit | peel; apply moves_emit]].

Section Auction_handlers.
Context (E : Env) `{!SoundEnv E} (p : Player) (w : World) (Hp : w_players w !! pl_guid p = Some p).

Lemma moves_HandleAuctionPlaceBid auctioneer id price w' : is_u32 price ->
  HandleAuctionPlaceBid E p auctioneer id price w = Some w' -> moves 0 w w'.
Proof using All.
  intros Hu. unfold HandleAuctionPlaceBid. cbv zeta. destruct (_ && _); [intros [= <-]; by apply moves_refl|].
  destruct (_ || _); [intros [= <-]; by apply moves_refl|].
  destruct (GetCheckedAuctionHouseForAuctioneer E p auctioneer) as [houseId|]; [|intros [= <-]; by apply moves_refl].
  destruct (IsSuspicious E p); [intros [= <-]; by apply moves_refl|].
  destruct (GetAuctionsMap houseId w) as [h|]; [|done].
  change (house_at h (emit ?o w)) with (house_at h w).
  destruct (AuctionsMap (house_at h w) !! id) as [a|] eqn:Ha; [|refuse].
  destruct (owner a =? pl_guid p); [refuse|]. destruct (_ && _); [refuse|]. destruct (price <? startbid a); [refuse|].
  destruct (Z.leb_spec price (bid a)); [refuse|]. destruct (_ && _); [refuse|].
  destruct (Z.ltb_spec (pl_money p) price) as [|Hmoney]; [refuse|]. unfold is_u in Hu.
  destruct ((price <? buyout a) || (buyout a =? 0)) eqn:Hbuy; intros [= <-].
  - do 3 peel. eapply moves_then; [|apply moves_if_online; intros; apply moves_emit].
    apply (moves_bid E p w Hp h id price a [_] Ha); [lia|lia|]. intros Hnz. apply orb_true_iff in Hbuy. lia.
  - do 2 peel. apply (moves_buyout E p w Hp h id a [_]); [done|lia..].
Qed.

Lemma moves_HandleAuctionRemoveItem auctioneer id w' : HandleAuctionRemoveItem E p auctioneer id w = Some w' -> moves 0 w w'.
Proof using All.
  unfold HandleAuctionRemoveItem. cbv zeta.
  destruct (GetCheckedAuctionHouseForAuctioneer E p auctioneer) as [houseId|]; [|refuse].
  destruct (GetAuctionsMap houseId w) as [h|]; [|done].
  change (house_at h (emit ?o w)) with (house_at h w). change (GetAItem ?i (emit ?o w)) with (GetAItem i w).
  destruct (AuctionsMap (house_at h w) !! id) as [a|] eqn:Ha; [|refuse].
  destruct (negb _); [refuse|]. destruct (GetAItem (itemGuidLow a) w) as [it|]; [|refuse].
  destruct (_ && _) eqn:Hcut; [refuse|]. set (o := RemoveFeignDeath _). intros [= <-] Hw.
  pose proof (house_at_ok h w Hw id a Ha) as (Hid & Hb & Hd & Hbo).
  pose proof (proj1 Hw _ _ Hp) as (_ & _ & Hpurse & _). revert Hw.
  pose proof (cut_is_part (auctionHouseEntry a) (bid a) (proj1 Hb)) as Hcutr.
  set (w1 := if 0 <? bidder a then _ else _). assert (moves (bid a) w w1) as H1.
  { subst w1. destruct (0 <? bidder a).
    - set (w2 := SendAuctionCancelledToBidderMail _ _ _). assert (moves (bid a) w w2 /\ frame w w2) as [Hm2 Hf2].
      { split.
        - refine (moves_trans 0 (bid a) _ _ _ _ (moves_emit o w) (moves_refund_bidder E a Hb _ _ _ _) _); [|lia].
          intros w'. apply moves_emit.
        - subst w2. unfold SendAuctionCancelledToBidderMail. by rewrite <- frame_refund_bidder. }
      apply (moves_trans (bid a) (- GetAuctionCut E a) _ _ w2); [done| |unfold GetAuctionCut; lia].
      apply (moves_pay E _ _ (pl_money p)); [|cbn in Hcut; apply Z.ltb_ge in Hcut; unfold GetAuctionCut in *; lia].
      rewrite (purse_frame _ w w2 Hf2). unfold purse. by rewrite Hp.
    - eapply moves_le; [apply moves_emit|]. unfold purse_ok in *. lia. }
  assert (house_at h w1 = house_at h w) as Hh1.
  { subst w1. destruct (0 <? bidder a); [|done]. rewrite house_at_ModifyMoney. rewrite <- (house_at_frame h w (emit o w)) by done.
    apply house_at_frame. by apply frame_refund_bidder. }
  clearbody w1. set (w2 := RemoveAItem _ _). apply (moves_trans (bid a) (- entry_gold a) _ _ w2).
  - subst w2. do 4 peel. eapply moves_then; [exact H1|]. by apply moves_mail.
  - apply moves_RemoveAuction. subst w2. rewrite_house. rewrite Hid.
    rewrite (house_at_frame h w1); [by rewrite Hh1|].
    etransitivity; [|apply frame_SaveInventoryAndGoldToDB].
    etransitivity; [|apply frame_emit]. etransitivity; [|apply frame_SendAuctionCommandResult]. apply frame_SendMailTo.
  - pose proof (entry_gold_nonneg id a ltac:(done)). unfold entry_gold in *. unfold purse_ok in *. lia.
Qed.
(** The deposit leaves the purse and stays in the entry. *)
Lemma moves_HandleAuctionSellItem auctioneer item start buyout etime w' : is_u32 buyout ->
  HandleAuctionSellItem E p auctioneer item start buyout etime w = Some w' -> moves 0 w w'.
Proof using All.
  intros Hu. unfold HandleAuctionSellItem. cbv zeta. do 4 (destruct (_ : bool); [refuse|]).
  destruct (GetCheckedAuctionHouseForAuctioneer E p auctioneer) as [houseId|]; [|refuse].
  destruct (GetAuctionsMap houseId w) as [h|]; [|done]. destruct (_ && _); [refuse|].
  destruct (negb _); [refuse|]. destruct (IsEmpty item); [refuse|].
  destruct (sellable p item _) as [it|]; [|refuse]. set (dep := AuctionDeposit _ _ _ _).
  destruct (Z.ltb_spec (pl_money p) dep) as [|Hmoney]; [refuse|].
  destruct (GenerateAuctionID _) as [id w1] eqn:Hgen. set (a := mkAuction id _ _ _ _ _ _ _ _ _ _ _ _ _).
  destruct (AddAItem it _) as [w2|] eqn:Hadd; [|done]. intros [= <-] Hw.
  pose proof (proj1 Hw _ _ Hp) as (_ & _ & Hpurse & _). revert Hw. pose proof (deposit_range houseId (u32 (etime * MINUTE)) it) as Hdep.
  fold dep in Hdep. unfold is_u, purse_ok, MAX_MONEY_AMOUNT in *.
  assert (moves (- dep) w w1) as H1.
  { unfold GenerateAuctionID in Hgen. injection Hgen as _ <-.
    eapply moves_then; [|by apply moves_same]. refine (moves_trans 0 (- dep) _ _ (emit (RemoveFeignDeath (pl_guid p)) w) _ (moves_emit _ _) _ _); [|lia].
    apply (moves_pay E _ _ (pl_money p)); [|lia]. unfold purse. cbn. by rewrite Hp. }
  assert (moves dep w1 w2) as H2.
  { unfold AddAItem in Hadd. destruct (mAitems _ !! it_guid it); [done|]. injection Hadd as <-.
    eapply moves_then; [|by apply moves_same].
    refine (moves_trans 0 dep _ _ (emit (LogItem (pl_guid p) (it_guid it)) w1) _ (moves_emit _ _) _ _); [|lia].
    eapply moves_le; [apply (moves_AddAuction h a)|unfold entry_gold; cbn; lia].
    unfold auction_ok, purse_ok, MAX_MONEY_AMOUNT. cbn. lia. }
  do 4 peel. exact (moves_trans _ _ 0 _ _ _ H1 H2 ltac:(lia)).
Qed.
End Auction_handlers.
