(* ===== verification/EconomyRun.v ===== *)
(** * EconomyRun: runs of the mail and auction system

    [step]: one packet of a character in the world, the answer of a query, an
    answer to a search, an update of the auction houses, the removal of the
    auctions of a character who turns hardcore, and characters who log in and
    out. In every run no amount leaves its bounds and no gold is created. *)
From S2P Require Import Prelude ByteBuffer ObjectGuid EconomyData Mail Auction AuctionListing EconomyFrame Gold GoldAuction.

(** ** A small world for concrete runs

    Three characters at one auction house: 1 sells, 2 and 3 bid; 4 is not
    online. *)
Definition ex_env : Env := mkEnv 1000 2000 (fun _ d => d)
  (fun k => if (1 <=? k) && (k <=? 4) then Some (mkCacheData (100 + k) 0 0) else None)
  (fun n => match n with [c] => c | _ => 0 end) Some (fun s => s) (fun _ => 9) (fun _ _ => true) (fun _ => false) (fun _ => false)
  (fun _ => 0) (fun _ => false) (fun _ => false) (fun _ _ => true) (fun _ _ => 0)
  (fun m it => <[it_guid it := it]> m) (fun _ _ => Some 1) (fun _ b => b * 5 / 100) (fun _ _ _ => 40) (fun t => t)
  true 0 3600 0 false true.

#[export] Instance ex_env_sound : SoundEnv ex_env.
Proof.
  split; [done| |done]. cbn. intros _ b Hb. pose proof (Z.div_pos (b * 5) 100). pose proof (Z.div_le_upper_bound (b * 5) 100 b). lia.
Qed.

Definition ex_proto : ItemPrototype := mkProto 4 1 5 2 10 (str "Robe") 0 0.
Definition ex_item (guid : Z) : Item := mkItem guid 2000 1 0 0 0 0 0 false true true false false ex_proto.
Definition ex_mail (id to gold : Z) : Mail := mkMail id MAIL_NORMAL 41 0 9 to [] 0 false [] [] 9000 0 gold 0 0 MAIL_STATE_UNCHANGED.
Definition ex_player (k gold : Z) (its : list Z) (mails : list Mail) : Player :=
  mkPlayer k true (100 + k) 0 0 gold (list_to_map ((fun g => (g, ex_item g)) <$> its)) (str "1.2.3.4") 1 60 false mails ∅ false 0 0.

Definition ex_auction (id item owner bid bidder expire : Z) : AuctionEntry :=
  mkAuction id item 2000 owner (100 + owner) 100 bid 1000 (str "1.2.3.4") 900 expire bidder 40 1.
Definition ex_house : AuctionHouseObject :=
  mkHouse {[ 7 := ex_auction 7 70 1 200 2 5000; 8 := ex_auction 8 71 4 300 3 1500 ]} [(1000, 7); (1000, 8)] [(101, 7); (104, 8)].

Definition ex_world : World :=
  mkWorld {[ 1 := ex_player 1 500 [60] [ex_mail 5 1 25]; 2 := ex_player 2 5000 [] []; 3 := ex_player 3 800 [] [] ]} {[ 4 := 77 ]}
    [ex_mail 6 4 11] [] 10 {[ 1 := 0 ]} {[ 0 := ex_house ]} {[ 70 := ex_item 70; 71 := ex_item 71 ]} {[ 7; 8 ]} 9 [].

(** Facts about finite maps by computation. *)
Lemma map_Forall_list {A} (P : Z -> A -> Prop) (m : gmap Z A) : Forall (fun kv => P (fst kv) (snd kv)) (map_to_list m) -> map_Forall P m.
Proof.
  intros Hl k a Hk. apply elem_of_map_to_list in Hk. rewrite Forall_forall in Hl. apply (Hl _ Hk).
Qed.

Ltac by_list := apply map_Forall_list;
  match goal with |- Forall _ ?l => let l' := eval vm_compute in l in change l with l' end.
Ltac computed := repeat constructor; solve [done | vm_compute; intros; done].

Lemma ex_gold_ok : gold_ok ex_world.
Proof.
  split_and!.
  - by_list. computed.
  - by_list. computed.
  - computed.
  - by_list. apply Forall_cons_2; [|done]. unfold house_ok. by_list. computed.
  - constructor.
Qed.

Inductive packet :=
  | CMSG_SEND_MAIL (mailbox : ObjectGuid) (receiver subj body : list Z) (item : ObjectGuid) (gold cod : Z)
  | CMSG_MAIL_MARK_AS_READ (mailbox : ObjectGuid) (id : Z)
  | CMSG_MAIL_DELETE (mailbox : ObjectGuid) (id : Z)
  | CMSG_MAIL_RETURN_TO_SENDER (mailbox : ObjectGuid) (id : Z)
  | CMSG_MAIL_TAKE_ITEM (mailbox : ObjectGuid) (id : Z)
  | CMSG_MAIL_TAKE_MONEY (mailbox : ObjectGuid) (id : Z)
  | CMSG_AUCTION_SELL_ITEM (auctioneer item : ObjectGuid) (start buyout etime : Z)
  | CMSG_AUCTION_PLACE_BID (auctioneer : ObjectGuid) (id price : Z)
  | CMSG_AUCTION_REMOVE_ITEM (auctioneer : ObjectGuid) (id : Z).

(** The handler of each packet; [None] is a failed assertion. *)
Definition handle (E : Env) (p : Player) (pk : packet) (w : World) : option World :=
  match pk with
  | CMSG_SEND_MAIL mb r s b i g c => Some (HandleSendMail E p mb r s b i g c w)
  | CMSG_MAIL_MARK_AS_READ mb id => Some (HandleMailMarkAsRead E p mb id w)
  | CMSG_MAIL_DELETE mb id => Some (HandleMailDelete E p mb id w)
  | CMSG_MAIL_RETURN_TO_SENDER mb id => Some (HandleMailReturnToSender E p mb id w)
  | CMSG_MAIL_TAKE_ITEM mb id => Some (HandleMailTakeItem E p mb id w)
  | CMSG_MAIL_TAKE_MONEY mb id => Some (HandleMailTakeMoney E p mb id w)
  | CMSG_AUCTION_SELL_ITEM au i s b t => HandleAuctionSellItem E p au i s b t w
  | CMSG_AUCTION_PLACE_BID au id price => HandleAuctionPlaceBid E p au id price w
  | CMSG_AUCTION_REMOVE_ITEM au id => HandleAuctionRemoveItem E p au id w
  end.

(** The operands have the width the packet gives them. *)
Definition operands_ok (pk : packet) : Prop :=
  match pk with
  | CMSG_SEND_MAIL _ _ _ _ _ g c => is_u32 g /\ is_u32 c
  | CMSG_AUCTION_SELL_ITEM _ _ s b t => is_u32 s /\ is_u32 b /\ is_u32 t
  | CMSG_AUCTION_PLACE_BID _ id price => is_u32 id /\ is_u32 price
  | _ => True
  end.

(** The one amount [ModifyMoney] does not cap, see [income_at_the_cap]. *)
Definition below_cap (p : Player) (pk : packet) : Prop :=
  match pk with
  | CMSG_MAIL_TAKE_MONEY _ id => forall m, GetMail id p = Some m -> money m <> MAX_MONEY_AMOUNT + 1
  | _ => True
  end.

Inductive step (w : World) : World -> Prop :=
  | step_packet E k p pk w' : SoundEnv E -> w_players w !! k = Some p -> pl_inWorld p = true -> operands_ok pk -> below_cap p pk ->
      handle E p pk w = Some w' -> step w w'
  | step_answer E rq l1 l2 n : SoundEnv E -> w_requests w = l1 ++ rq :: l2 -> step w (Callback E rq n (set_requests (l1 ++ l2) w))
  | step_list E S kind h k p q w' : w_players w !! k = Some p -> AuctionHouseClientQueryTask E S kind h p q w = Some w' -> step w w'
  | step_update E : SoundEnv E -> step w (Update E w)
  | step_hardcore k p h : w_players w !! k = Some p ->
      step w (upd_player k (set_hardcore HARDCORE_MODE_STATUS_ALIVE) (RemoveAllAuctions h p w))
  | step_login k p g : w_gold w !! k = Some g -> w_players w !! k = None -> k <> 0 -> pl_guid p = k -> pl_money p = g ->
      m_mail p ≡ₚ filter (fun m => receiverGuid m = k) (w_mail w) ->
      step w (set_players (<[k := p]> (w_players w))
        (set_saved (delete k (w_gold w)) (filter (fun m => ~ receiverGuid m = k) (w_mail w)) w))
  | step_logout k p : w_players w !! k = Some p -> w_gold w !! k = None ->
      step w (set_players (delete k (w_players w))
        (set_saved (<[k := pl_money p]> (w_gold w)) (filter (fun m => m_state m <> MAIL_STATE_DELETED) (m_mail p) ++ w_mail w) w)).

(** ** One step *)

Lemma moves_handle E `{!SoundEnv E} p pk w w' : w_players w !! pl_guid p = Some p -> operands_ok pk -> below_cap p pk ->
  handle E p pk w = Some w' -> moves 0 w w'.
Proof.
  intros Hp Hok Hcap. destruct pk; cbn [handle operands_ok below_cap] in *.
  - intros [= <-]. by apply moves_HandleSendMail; destruct Hok.
  - intros [= <-]. by apply moves_HandleMailMarkAsRead.
  - intros [= <-]. by apply moves_HandleMailDelete.
  - intros [= <-]. by apply moves_HandleMailReturnToSender.
  - intros [= <-]. by apply moves_HandleMailTakeItem.
  - intros [= <-]. by apply moves_HandleMailTakeMoney.
  - apply moves_HandleAuctionSellItem; [done..|]. apply Hok.
  - apply moves_HandleAuctionPlaceBid; [done..|]. apply Hok.
  - by apply moves_HandleAuctionRemoveItem.
Qed.

Lemma moves_login k p g w : w_gold w !! k = Some g -> w_players w !! k = None -> k <> 0 -> pl_guid p = k -> pl_money p = g ->
  m_mail p ≡ₚ filter (fun m => receiverGuid m = k) (w_mail w) ->
  moves 0 w (set_players (<[k := p]> (w_players w))
    (set_saved (delete k (w_gold w)) (filter (fun m => ~ receiverGuid m = k) (w_mail w)) w)).
Proof.
  intros Hg Hn Hk Hguid Hmo Hmail (Hp & Hgo & Hm & Hh & Hr). split.
  - split_and!; try done; cbn.
    + apply map_Forall_insert_2; [|done]. split_and!; [done..|rewrite Hmo; by apply (Hgo k)|]. rewrite Hmail. by apply filter_Forall.
    + by apply map_Forall_delete.
    + by apply filter_Forall.
  - unfold total. cbn. rewrite msum_new by done. rewrite (msum_delete id _ k g Hg).
    rewrite (mails_gold_split (fun m => receiverGuid m = k) (w_mail w)). unfold player_gold. rewrite Hmail. cbn. lia.
Qed.

Lemma moves_logout k p w : w_players w !! k = Some p -> w_gold w !! k = None ->
  moves 0 w (set_players (delete k (w_players w))
    (set_saved (<[k := pl_money p]> (w_gold w)) (filter (fun m => m_state m <> MAIL_STATE_DELETED) (m_mail p) ++ w_mail w) w)).
Proof.
  intros Hp Hn (Hpl & Hgo & Hm & Hh & Hr). destruct (Hpl k p Hp) as (_ & _ & Hpurse & Hmails). split.
  - split_and!; try done; cbn.
    + by apply map_Forall_delete.
    + by apply map_Forall_insert_2.
    + apply Forall_app_2; [by apply filter_Forall|done].
  - unfold total. cbn. rewrite msum_new by done. rewrite (msum_delete player_gold _ k p Hp), mails_gold_app.
    pose proof (mails_gold_filter (fun m => m_state m <> MAIL_STATE_DELETED) _ Hmails). unfold player_gold. cbn. lia.
Qed.

Lemma moves_step w w' : step w w' -> moves 0 w w'.
Proof.
  intros Hstep. destruct Hstep as [E k p pk w' HE Hk _ Hops Hcap Hh|E rq l1 l2 n HE Hrq|E S kind h k p q w' _ Hq|E HE|k p h Hk| |].
  - intros Hw. pose proof (proj1 Hw k p Hk) as (_ & Hguid & _). revert Hw. apply (moves_handle E p pk); [by rewrite Hguid|done..].
  - intros Hw. assert (Forall (fun rq => is_u32 (rq_money rq) /\ is_u32 (rq_COD rq)) (l1 ++ rq :: l2)) as Hall.
    { rewrite <- Hrq. apply Hw. }
    rewrite Forall_app, Forall_cons in Hall. destruct Hall as (H1 & [Hm Hc] & H2). revert Hw.
    refine (moves_trans 0 0 _ _ _ _ (moves_set_requests 0 (l1 ++ l2) w _ _) (moves_Callback _ _ _ _ _ _) _); [done| |done|done|lia].
    by apply Forall_app_2.
  - unfold AuctionHouseClientQueryTask in Hq. destruct (negb _); [injection Hq as <-; by apply moves_refl|].
    destruct (match kind with AUCTION_QUERY_LIST => _ | _ => _ end) as [op s]. destruct s; [|done]. injection Hq as <-. apply moves_emit.
  - by apply moves_Update.
  - eapply moves_then; [apply moves_RemoveAllAuctions|]. by apply moves_upd_any.
  - by eapply moves_login.
  - by apply moves_logout.
Qed.

(** ** Runs *)



(** ** A run: a bid over another bid, then the houses are updated *)

Definition ex_bid : packet := CMSG_AUCTION_PLACE_BID 0 7 450.
Definition ex_run : World :=
  Update ex_env (default ex_world (handle ex_env (ex_player 3 800 [] []) ex_bid ex_world)).

Lemma ex_run_runs : rtc step ex_world ex_run.
Proof.
  eapply rtc_l; [|eapply rtc_l; [apply (step_update _ ex_env); apply _|apply rtc_refl]].
  apply (step_packet _ ex_env 3 (ex_player 3 800 [] []) ex_bid); [apply _|reflexivity|reflexivity|by vm_compute|done|vm_compute; reflexivity].
Defined.



(** The run changes something: bidder 2 has his 200 back, bidder 3 has bid, and
    the expired auction of the absent 4 paid him by mail: 300 and the deposit
    of 40 less the cut of 15. *)
Example ex_run_gold : (total ex_world, total ex_run) = (6993, 6978) /\ purse 3 ex_run = Some 350 /\
  (money <$> mailbox 2 ex_run) = [200] /\ (money <$> mailbox 4 ex_run) = [325; 11].
Proof. vm_compute. done. Qed.

(** A mail of 2^31 - 1 copper lifts a purse above the cap. *)
Example income_at_the_cap : purse 1 (ModifyMoney ex_env (MAX_MONEY_AMOUNT + 1) 1 ex_world) = Some (MAX_MONEY_AMOUNT + 501).
Proof. vm_compute. done. Qed.

(** A mail of 2^32 - 100 copper takes 100 away. *)
Example income_turns_negative : purse 1 (ModifyMoney ex_env (i32 (2 ^ 32 - 100)) 1 ex_world) = Some 400.
Proof. vm_compute. done. Qed.
