(* ===== verification/AuctionSafety.v ===== *)
(** * AuctionSafety: the invariant of the auction houses in every run

    The mail packets leave the houses alone; the auction packets, the update
    and the removal of a hardcore character's auctions keep [houses_ok]. *)
From S2P Require Import Prelude ByteBuffer ObjectGuid EconomyData Mail Auction AuctionListing AuctionIndex EconomyFrame Gold GoldAuction EconomyRun.

(** ** Mail operations leave the houses alone *)

Lemma aview_frame w w' : frame w w' -> aview w' = aview w.
Proof. by intros (_ & Ha & _). Qed.
Lemma aview_emits os w : aview (emits os w) = aview w.
Proof. done. Qed.
Lemma aview_emit o w : aview (emit o w) = aview w.
Proof. done. Qed.
Lemma aview_upd_player k f w : aview (upd_player k f w) = aview w.
Proof. done. Qed.
Lemma aview_set_requests l w : aview (set_requests l w) = aview w.
Proof. done. Qed.
Lemma aview_set_saved a b w : aview (set_saved a b w) = aview w.
Proof. done. Qed.
Lemma aview_SendMailTo E d r f c delay w : aview (SendMailTo E d r f c delay w) = aview w.
Proof. apply aview_frame, frame_SendMailTo. Qed.
Lemma aview_SendReturnToSender E d s r w : aview (SendReturnToSender E d s r w) = aview w.
Proof. apply aview_frame, frame_SendReturnToSender. Qed.
Lemma aview_SaveInventoryAndGoldToDB k w : aview (SaveInventoryAndGoldToDB k w) = aview w.
Proof. apply aview_frame, frame_SaveInventoryAndGoldToDB. Qed.
Lemma aview_SaveGoldToDB k w : aview (SaveGoldToDB k w) = aview w.
Proof. apply aview_frame, frame_SaveGoldToDB. Qed.
Lemma aview_SaveMails k w : aview (SaveMails k w) = aview w.
Proof. apply aview_frame, frame_SaveMails. Qed.
Lemma aview_SendAuctionSuccessfulMail E a w : aview (SendAuctionSuccessfulMail E a w) = aview w.
Proof. apply aview_frame, frame_SendAuctionSuccessfulMail. Qed.
Lemma aview_mail_result p id act err w : aview (mail_result p id act err w) = aview w.
Proof. done. Qed.
Lemma aview_SendMailResult p id act err e g c w : aview (SendMailResult p id act err e g c w) = aview w.
Proof. done. Qed.
Lemma aview_SendAuctionCommandResult p a act err i w : aview (SendAuctionCommandResult p a act err i w) = aview w.
Proof. done. Qed.
Lemma aview_MoveItemFromInventory k g w : aview (MoveItemFromInventory k g w) = aview w.
Proof. done. Qed.
Lemma aview_if_online k f w : (forall w, aview (f w) = aview w) -> aview (if_online k f w) = aview w.
Proof. intros Hf. unfold if_online. by destruct (GetPlayer k w). Qed.
Lemma aview_refund_bidder E answer notify a w : (forall w, frame w (notify w)) -> aview (refund_bidder E answer notify a w) = aview w.
Proof. intros Hn. by apply aview_frame, frame_refund_bidder. Qed.
Lemma aview_attach_item E p rq item w : aview (snd (attach_item E p rq item w)) = aview w.
Proof. by destruct item. Qed.

Create Rewrite HintDb aview.
#[export] Hint Rewrite aview_emits aview_emit aview_upd_player aview_set_requests aview_set_saved aview_SendMailTo aview_SendReturnToSender
  aview_SaveInventoryAndGoldToDB aview_SaveGoldToDB aview_SaveMails aview_SendAuctionSuccessfulMail aview_mail_result
  aview_SendMailResult aview_SendAuctionCommandResult aview_MoveItemFromInventory houses_ModifyMoney aview_attach_item : aview.

(** Splits on the conditions of a handler and rewrites the view through what
    is left. *)
Ltac view := repeat match goal with
  | |- aview (if ?b then _ else _) = _ => destruct b
  | |- aview (match ?o with Some _ => _ | None => _ end) = _ => destruct o
  | |- aview (match ?o with inl _ => _ | inr _ => _ end) = _ => destruct o
  | |- aview _ = _ => progress autorewrite with aview
  end; try done.

Lemma aview_pay_bid E me price a w : aview (pay_bid E me price a w) = aview w.
Proof.
  unfold pay_bid. destruct (_ =? _); [apply houses_ModifyMoney|]. cbv zeta. destruct (negb _); [|apply houses_ModifyMoney].
  unfold SendAuctionOutbiddedMail. rewrite aview_refund_bidder; [apply houses_ModifyMoney|done].
Qed.
#[export] Hint Rewrite aview_pay_bid : aview.

Lemma aview_post_mail E p rq item d w : aview (post_mail E p rq item d w) = aview w.
Proof. unfold post_mail. cbv zeta. destruct (pl_anonMail p); destruct (_ && _); by autorewrite with aview. Qed.
#[export] Hint Rewrite aview_post_mail : aview.

Lemma aview_HandleSendMailCallback E p rq w : aview (HandleSendMailCallback E p rq w) = aview w.
Proof.
  unfold HandleSendMailCallback. cbv zeta. view.
  rewrite (surjective_pairing (attach_item _ _ _ _ _)). by autorewrite with aview.
Qed.

Lemma aview_Callback E rq n w : aview (Callback E rq n w) = aview w.
Proof. unfold Callback. destruct (w_players w !! _) as [q|]; [|done]. destruct (pl_inWorld q); [apply aview_HandleSendMailCallback|done]. Qed.
#[export] Hint Rewrite aview_Callback : aview.

Lemma aview_HandleSendMail E p mb name subj body item gold cod w : aview (HandleSendMail E p mb name subj body item gold cod w) = aview w.
Proof.
  unfold HandleSendMail. cbv zeta. generalize (match normalizePlayerName E name with Some n => GetPlayerGuidByName E n | None => 0 end).
  intros receiver. view.
Qed.

Lemma aview_mail_packet E p pk w w' : match pk with CMSG_AUCTION_SELL_ITEM _ _ _ _ _ | CMSG_AUCTION_PLACE_BID _ _ _ | CMSG_AUCTION_REMOVE_ITEM _ _ => False | _ => True end ->
  handle E p pk w = Some w' -> aview w' = aview w.
Proof.
  destruct pk as [mb r s b i g c|mb id|mb id|mb id|mb id|mb id| | |]; cbn [handle]; intros Hpk; try done; intros [= <-].
  - apply aview_HandleSendMail.
  - unfold HandleMailMarkAsRead. destruct (negb _); [done|]. destruct (GetMail id p); [|done]. by destruct (decide _).
  - unfold HandleMailDelete. cbv zeta. destruct (GetMail id p); view.
  - unfold HandleMailReturnToSender. cbv zeta. destruct (negb _); [done|]. destruct (open_mail E id p) as [m|]; [|done].
    view.
  - unfold HandleMailTakeItem. cbv zeta. destruct (negb _); [done|]. destruct (open_mail E id p) as [m|]; [|done].
    destruct (has_items m), (items m) as [|[ig ii] its]; try done. view.
  - unfold HandleMailTakeMoney. cbv zeta. destruct (negb _); [done|]. destruct (open_mail E id p) as [m|]; by autorewrite with aview.
Qed.

(** ** The end of an auction *)

Lemma houses_ok_aview w w' : aview w' = aview w -> houses_ok w -> houses_ok w'.
Proof. intros Ha. injection Ha. unfold houses_ok. by intros _ -> -> -> _. Qed.

Lemma auction_at_aview w w' h id a : aview w' = aview w -> auction_at w' h id a <-> auction_at w h id a.
Proof. intros Ha%aview_houses. unfold auction_at. by rewrite Ha. Qed.

Lemma item_guid w g it : houses_ok w -> GetAItem g w = Some it -> it_guid it = g.
Proof. intros Hw. apply Hw. Qed.

Lemma RemoveAuction_effect h a b w : auction_at w h (au_Id a) b ->
  let w' := snd (RemoveAuction h a w) in
  m_vRealAuctionHouses w' = <[h := remove_entry a (house_at h w)]> (m_vRealAuctionHouses w) /\
  m_AuctionsIds w' = m_AuctionsIds w ∖ {[au_Id a]} /\ mAitems w' = mAitems w.
Proof. intros Hat. unfold RemoveAuction. rewrite bool_decide_true; [done|]. eauto. Qed.

(** Every auction ends in these two steps, after mails that may already have
    taken the item. *)
Lemma close_ok h a w w1 : houses_ok w -> auction_at w h (au_Id a) a -> frame_item (itemGuidLow a) w w1 ->
  houses_ok (snd (RemoveAuction h a (RemoveAItem (itemGuidLow a) w1))).
Proof.
  intros Hw Hat (_ & _ & _ & Hh & Hids & _ & Hitems). set (w2 := RemoveAItem _ w1).
  assert (auction_at w2 h (au_Id a) a) as Hat2 by (unfold auction_at; cbn; by rewrite Hh).
  destruct (RemoveAuction_effect h a a w2 Hat2) as (H1 & H2 & H3). unfold houses_ok. rewrite H1, H2, H3. cbn.
  unfold house_at. cbn. rewrite Hh, Hids, Hitems. by apply auctions_ok_close.
Qed.

Lemma frame_item_won E a w : houses_ok w -> frame_item (itemGuidLow a) w (SendAuctionWonMail E a w).
Proof. intros Hw. apply frame_SendAuctionWonMail. intros it. by apply item_guid. Qed.
Lemma frame_item_expired E a w : houses_ok w -> frame_item (itemGuidLow a) w (SendAuctionExpiredMail E a w).
Proof. intros Hw. apply frame_SendAuctionExpiredMail. intros it. by apply item_guid. Qed.

(** The mails of a sale. *)
Lemma frame_item_sale E a w : houses_ok w -> frame_item (itemGuidLow a) w (SendAuctionWonMail E a (SendAuctionSuccessfulMail E a w)).
Proof.
  intros Hw. pose proof (frame_SendAuctionSuccessfulMail E a w) as Hf.
  rewrite (frame_frame_item (itemGuidLow a) _ _ Hf) at 1. apply frame_item_won.
  exact (houses_ok_aview w _ (aview_frame _ _ Hf) Hw).
Qed.

(** The change of an entry in place. *)
Lemma set_ok h id a b w : houses_ok w -> auction_at w h id a -> au_Id b = au_Id a -> buyout b = buyout a ->
  ownerAccount b = ownerAccount a -> itemGuidLow b = itemGuidLow a ->
  houses_ok (upd_house h (fun ho => mkHouse (<[id := b]> (AuctionsMap ho)) (OrderedAuctionMap ho) (AccountAuctionMap ho)) w).
Proof. intros. by apply (auctions_ok_set (H := m_vRealAuctionHouses w) ltac:(done) h id a b). Qed.

Lemma update_entry_cases E h id w : AuctionsMap (house_at h w) !! id = None /\ update_entry E h id w = w \/
  exists a0 a w1, auction_at w h id a0 /\ (a = a0 \/ a = unlock a0) /\
    w1 = upd_house h (fun ho => mkHouse (<[id := a]> (AuctionsMap ho)) (OrderedAuctionMap ho) (AccountAuctionMap ho)) w /\
    auction_at w1 h id a /\
    update_entry E h id w =
      if expireTime a <? GetGameTime E then
        close_auction h a
          (if bidder a =? 0 then SendAuctionExpiredMail E a (emit (ScriptOnAuctionExpire id) w1)
           else SendAuctionWonMail E a (SendAuctionSuccessfulMail E a (emit (ScriptOnAuctionSuccessful id) w1)))
      else w1.
Proof.
  unfold update_entry. destruct (AuctionsMap (house_at h w) !! id) as [a0|] eqn:Ha0; [|by left]. right.
  eexists a0, _, _. split_and!; [done| |reflexivity| |reflexivity].
  - destruct (_ <? _); auto.
  - unfold auction_at, open_at. cbn. rewrite hat_insert. cbn. apply lookup_insert_eq.
Qed.

(** What the update closes an entry with. *)
Lemma frame_item_close E a o o' w : houses_ok w -> frame_item (itemGuidLow a) w
  (emit (PExecute (SqlDeleteAuction (au_Id a)))
    (if bidder a =? 0 then SendAuctionExpiredMail E a (emit o w)
     else SendAuctionWonMail E a (SendAuctionSuccessfulMail E a (emit o' w)))).
Proof.
  intros Hw. transitivity (if bidder a =? 0 then SendAuctionExpiredMail E a (emit o w)
     else SendAuctionWonMail E a (SendAuctionSuccessfulMail E a (emit o' w))); [|by apply frame_frame_item].
  destruct (bidder a =? 0).
  - transitivity (emit o w); [by apply frame_frame_item|]. by apply frame_item_expired.
  - transitivity (emit o' w); [by apply frame_frame_item|]. by apply frame_item_sale.
Qed.

Lemma houses_ok_update_entry E h id w : houses_ok w -> houses_ok (update_entry E h id w).
Proof.
  intros Hw. destruct (update_entry_cases E h id w) as [[_ ->]|(a0 & a & w1 & Hat & Ha & Hw1 & Hat1 & ->)]; [done|].
  assert (houses_ok w1) as Hok1. { subst w1. apply (set_ok h id a0 a); [done|done|by destruct Ha as [->| ->]..]. }
  destruct (_ <? _); [|done]. assert (au_Id a = id) as <- by (apply (ix_id _ (ao_index _ _ _ Hok1 h)); apply Hat1).
  apply close_ok with (w := w1); [done|done|]. by apply frame_item_close.
Qed.

Lemma fold_keeps {A} (P : World -> Prop) (f : World -> A -> World) l w :
  (forall w x, P w -> P (f w x)) -> P w -> P (foldl f w l).
Proof. intros Hf. revert w. induction l as [|x l IH]; cbn; auto. Qed.

Lemma houses_ok_Update E w : houses_ok w -> houses_ok (Update E w).
Proof.
  intros Hw. unfold Update. apply fold_keeps; [|done]. intros w1 h H1. unfold house_Update. apply fold_keeps; [|done].
  intros w2 id H2. by apply houses_ok_update_entry.
Qed.

(** ** The removal of a character's auctions *)

Lemma RemoveAuction_any_ok h a w : houses_ok w -> (auction_at w h (au_Id a) a \/ AuctionsMap (house_at h w) !! au_Id a = None) ->
  houses_ok (snd (RemoveAuction h a w)).
Proof.
  intros Hw [Hat|Hn].
  - destruct (RemoveAuction_effect h a a w Hat) as (H1 & H2 & H3). unfold houses_ok. rewrite H1, H2, H3.
    by apply auctions_ok_remove.
  - unfold RemoveAuction. rewrite Hn, bool_decide_false by (by intros [? ?]). by apply (auctions_ok_remove_none Hw).
Qed.

Lemma RemoveAuction_others h a w b : (auction_at w h (au_Id b) b \/ AuctionsMap (house_at h w) !! au_Id b = None) ->
  let w' := snd (RemoveAuction h a w) in auction_at w' h (au_Id b) b \/ AuctionsMap (house_at h w') !! au_Id b = None.
Proof.
  intros Hb w'. assert (m_vRealAuctionHouses w' = <[h := remove_entry a (house_at h w)]> (m_vRealAuctionHouses w)) as Hw'.
  { subst w'. unfold RemoveAuction. by destruct (bool_decide _). }
  unfold auction_at, open_at, house_at. rewrite Hw'. change (default emptyHouse (<[h:=?x]> ?m !! h)) with (hat (<[h:=x]> m) h).
  rewrite hat_insert. cbn. destruct (decide (au_Id a = au_Id b)) as [->|Hn]; [right; apply lookup_delete_eq|].
  rewrite lookup_delete_ne by done. apply Hb.
Qed.

Lemma houses_ok_RemoveAllAuctions h p w : houses_ok w -> houses_ok (RemoveAllAuctions h p w).
Proof.
  intros Hw. unfold RemoveAllAuctions. set (l := filter _ _).
  assert (Forall (fun b => auction_at w h (au_Id b) b \/ AuctionsMap (house_at h w) !! au_Id b = None) l) as Hl.
  { apply Forall_forall. intros b [_ Hb]%list_elem_of_filter. apply list_elem_of_omap in Hb as (id & _ & Hb). left.
    unfold auction_at, open_at. by rewrite (ix_id _ (ao_index _ _ _ Hw h) id b Hb). }
  clearbody l. revert w Hw Hl. induction l as [|a l IH]; intros w Hw; [done|]. intros [Ha Hl]%Forall_cons. cbn. apply IH.
  - by apply RemoveAuction_any_ok.
  - eapply Forall_impl; [exact Hl|]. intros b. apply RemoveAuction_others.
Qed.

(** ** Identifiers *)

(** Identifiers are left: none in use is the last one. *)
Definition ids_left (w : World) : Prop := is_u32 (m_NextAuctionId w) /\ forall x, x ∈ m_AuctionsIds w -> 0 <= x < 2 ^ 32 - 1.

Lemma next_auction_id_fresh l : forall next, StronglySorted Z.le l -> NoDup l -> Forall (fun x => next <= x < 2 ^ 32 - 1) l ->
  0 <= next -> next <= next_auction_id next l /\ next_auction_id next l ∉ l.
Proof.
  induction l as [|x l IH]; intros next Hs Hnd Hl Hn; cbn; [split; [lia|apply not_elem_of_nil]|].
  apply StronglySorted_inv in Hs as [Hs Hx]. apply NoDup_cons in Hnd as [Hni Hnd]. apply Forall_cons in Hl as [Hxn Hl].
  rewrite Forall_forall in Hx, Hl. destruct (Z.eqb_spec x next) as [->|Hne].
  - rewrite u32_id by (unfold is_u; lia). destruct (IH (next + 1) Hs Hnd) as [Hle Hnot]; [|lia|].
    + apply Forall_forall. intros y Hy. specialize (Hx y Hy). specialize (Hl y Hy). assert (y <> next) by (intros ->; done). lia.
    + split; [lia|]. apply not_elem_of_cons. split; [lia|done].
  - split; [lia|]. apply not_elem_of_cons. split; [congruence|]. intros Hin. specialize (Hx _ Hin). specialize (Hl _ Hin). lia.
Qed.

Lemma GenerateAuctionID_fresh w id w' : ids_left w -> GenerateAuctionID w = (id, w') ->
  id ∉ m_AuctionsIds w /\ m_vRealAuctionHouses w' = m_vRealAuctionHouses w /\ mAitems w' = mAitems w /\
  m_AuctionsIds w' = {[id]} ∪ m_AuctionsIds w.
Proof.
  intros [Hnext Hids] [= Hid <-]. split_and!; [|done|done|by subst id]. subst id.
  set (l := filter _ _). assert (forall x, x ∈ l <-> m_NextAuctionId w <= x /\ x ∈ m_AuctionsIds w) as Hl.
  { intros x. subst l. rewrite list_elem_of_filter, merge_sort_Permutation, elem_of_elements. done. }
  destruct (next_auction_id_fresh l (m_NextAuctionId w)) as [Hge Hnot].
  - apply filter_sorted, StronglySorted_merge_sort; apply _.
  - apply NoDup_filter. rewrite merge_sort_Permutation. apply NoDup_elements.
  - apply Forall_forall. intros x [Hx Hin]%Hl. specialize (Hids x Hin). lia.
  - unfold is_u in Hnext. lia.
  - intros Hin. apply Hnot, Hl. done.
Qed.

(** ** The handlers *)

Ltac same Hw := intros [= <-]; refine (houses_ok_aview _ _ _ Hw); by autorewrite with aview.

Section Handlers.
Context (E : Env) (p : Player) (w : World) (Hw : houses_ok w).

Lemma houses_ok_PlaceBid auctioneer id price w' : HandleAuctionPlaceBid E p auctioneer id price w = Some w' -> houses_ok w'.
Proof using Hw.
  unfold HandleAuctionPlaceBid. cbv zeta. destruct (_ && _); [same Hw|]. destruct (_ || _); [same Hw|].
  destruct (GetCheckedAuctionHouseForAuctioneer E p auctioneer) as [houseId|]; [|same Hw].
  destruct (IsSuspicious E p); [same Hw|]. destruct (GetAuctionsMap houseId w) as [h|]; [|done].
  destruct (AuctionsMap (house_at h (emit _ w)) !! id) as [a|] eqn:Hat; [|same Hw].
  destruct (owner a =? pl_guid p); [same Hw|]. destruct (_ && _); [same Hw|]. destruct (price <? startbid a); [same Hw|].
  destruct (price <=? bid a); [same Hw|]. destruct (_ && _); [same Hw|]. destruct (pl_money p <? price); [same Hw|].
  assert (forall x, aview (pay_bid E (pl_guid p) x a (emit (RemoveFeignDeath (pl_guid p)) w)) = aview w) as Hpay
    by (intros x; by rewrite aview_pay_bid).
  destruct (_ || _); intros [= <-].
  - eapply houses_ok_aview; [autorewrite with aview; rewrite aview_if_online by done; reflexivity|].
    apply (set_ok h id a); [by refine (houses_ok_aview w _ _ Hw)| |done..]. by apply (auction_at_aview w).
  - eapply houses_ok_aview; [autorewrite with aview; reflexivity|]. set (a' := set_bid _ _ a).
    set (w1 := pay_bid _ _ _ _ _). assert (houses_ok w1) as Hok1 by (refine (houses_ok_aview w _ _ Hw); apply Hpay).
    assert (au_Id a = id) as Hid by apply (ix_id _ (ao_index _ _ _ Hw h) id a Hat).
    refine (close_ok h a w1 (SendAuctionCommandResult _ _ _ _ _ _) Hok1 _ _).
    + rewrite Hid. by apply (auction_at_aview w w1 h id a (Hpay _)).
    + rewrite (frame_item_sale E a' w1 Hok1) at 1. by apply frame_frame_item.
Qed.

Lemma houses_ok_RemoveItem auctioneer id w' : HandleAuctionRemoveItem E p auctioneer id w = Some w' -> houses_ok w'.
Proof using Hw.
  unfold HandleAuctionRemoveItem. cbv zeta.
  destruct (GetCheckedAuctionHouseForAuctioneer E p auctioneer) as [houseId|]; [|same Hw].
  destruct (GetAuctionsMap houseId w) as [h|]; [|done].
  destruct (AuctionsMap (house_at h (emit _ w)) !! id) as [a|] eqn:Hat; [|same Hw].
  destruct (negb _); [same Hw|]. destruct (GetAItem _ _) as [it|]; [|same Hw]. destruct (_ && _); [same Hw|].
  intros [= <-]. assert (au_Id a = id) as <- by apply (ix_id _ (ao_index _ _ _ Hw h) id a Hat).
  match goal with |- houses_ok (snd (RemoveAuction h a (RemoveAItem _ ?w0))) => set (w1 := w0) end.
  assert (aview w1 = aview w) as H1.
  { subst w1. autorewrite with aview. destruct (0 <? bidder a); [|done]. autorewrite with aview.
    unfold SendAuctionCancelledToBidderMail. by rewrite aview_refund_bidder. }
  refine (close_ok h a w1 w1 _ _ _); [by refine (houses_ok_aview w _ _ Hw)| |done]. by apply (auction_at_aview w w1 h _ a H1).
Qed.

Lemma houses_ok_SellItem auctioneer item start buyout etime w' : ids_left w ->
  HandleAuctionSellItem E p auctioneer item start buyout etime w = Some w' -> houses_ok w'.
Proof using Hw.
  intros Hleft. unfold HandleAuctionSellItem. cbv zeta. do 4 (destruct (_ : bool); [same Hw|]).
  destruct (GetCheckedAuctionHouseForAuctioneer E p auctioneer) as [houseId|]; [|same Hw].
  destruct (GetAuctionsMap houseId w) as [h|]; [|done]. destruct (_ && _); [same Hw|].
  destruct (negb _); [same Hw|]. destruct (IsEmpty item); [same Hw|].
  destruct (sellable p item _) as [it|]; [|same Hw]. destruct (_ <? _); [same Hw|].
  match goal with |- context [GenerateAuctionID ?w0] => set (w1 := w0) end.
  assert (aview w1 = aview w) as H1 by (subst w1; by autorewrite with aview). clearbody w1.
  destruct (GenerateAuctionID w1) as [id w2] eqn:Hgen. set (a := mkAuction id _ _ _ _ _ _ _ _ _ _ _ _ _).
  assert (ids_left w1) as Hleft1 by (injection H1; unfold ids_left; by intros -> -> _ _ _).
  apply GenerateAuctionID_fresh in Hgen as (Hfresh & Hh & Hi & Hids); [|done].
  unfold AddAItem. destruct (mAitems _ !! it_guid it) as [x|] eqn:Hnew; [done|]. intros [= <-].
  eapply houses_ok_aview; [autorewrite with aview; reflexivity|].
  assert (houses_ok w1) as Hok1 by by refine (houses_ok_aview w _ H1 Hw).
  unfold houses_ok. cbn. cbn in Hnew. unfold house_at. cbn. rewrite Hids, Hh, Hi in *.
  by apply (auctions_ok_add Hok1 h a it).
Qed.
End Handlers.

(** ** Every run *)

(** C9: the auction houses stay consistent in every run: in each house the
    multimaps sorted by buyout and by account index exactly the auctions of
    the map, each under its own identifier, so that no listing follows a
    dangling pointer; the identifier of every open auction is marked as in use;
    and every open auction has an item on offer of its own, in one house.
    Selling needs an identifier that is left. *)
Theorem auction_houses_stay_consistent w w' : rtc (fun w w' => ids_left w /\ step w w') w w' -> houses_ok w -> houses_ok w'.
Proof.
  induction 1 as [w|w w1 w' [Hleft Hstep] _ IH]; [done|]. intros Hw. apply IH. clear IH.
  destruct Hstep as [E k p pk w1 _ Hk _ _ _ Hh|E rq l1 l2 n _ _|E S kind h k p q w1 _ Hq|E _|k p h Hk| |].
  - destruct pk as [| | | | | |au i s b t|au id price|au id]; try (by refine (houses_ok_aview w _ (aview_mail_packet _ _ _ _ _ _ Hh) Hw)).
    + by apply (houses_ok_SellItem E p w Hw au i s b t).
    + by apply (houses_ok_PlaceBid E p w Hw au id price).
    + by apply (houses_ok_RemoveItem E p w Hw au id).
  - refine (houses_ok_aview w _ _ Hw). by autorewrite with aview.
  - unfold AuctionHouseClientQueryTask in Hq. destruct (negb _); [by injection Hq as <-|].
    destruct (match kind with AUCTION_QUERY_LIST => _ | _ => _ end) as [op s]. destruct s; [|done]. by injection Hq as <-.
  - by apply houses_ok_Update.
  - refine (houses_ok_aview _ _ (aview_upd_player _ _ _) _). by apply houses_ok_RemoveAllAuctions.
  - done.
  - done.
Qed.

Lemma ex_houses_ok : houses_ok ex_world.
Proof.
  assert (forall h id a, auction_at ex_world h id a -> h = 0 /\ (id = 7 /\ itemGuidLow a = 70 \/ id = 8 /\ itemGuidLow a = 71)) as Hopen.
  { intros h id a. unfold auction_at, open_at, hat. cbn. destruct (decide (h = 0)) as [->|Hn].
    - rewrite lookup_singleton_eq. cbn. rewrite lookup_insert_Some. intros [[<- <-]|[_ Hl]]; [by split; [|left]|].
      apply lookup_singleton_Some in Hl as [<- <-]. by split; [|right].
    - rewrite lookup_singleton_ne by done. cbn. by rewrite lookup_empty. }
  split.
  - intros h. destruct (decide (h = 0)) as [->|Hn].
    + change (hat (m_vRealAuctionHouses ex_world) 0) with ex_house. split; [|vm_compute; apply Permutation_refl || apply Permutation_swap..|].
      * intros id a. cbn. rewrite lookup_insert_Some. intros [[<- <-]|[_ Hl]]; [done|]. by apply lookup_singleton_Some in Hl as [<- <-].
      * split; repeat constructor; vm_compute; done.
    + unfold hat. change (m_vRealAuctionHouses ex_world) with ({[ 0 := ex_house ]} : gmap Z AuctionHouseObject).
      rewrite lookup_singleton_ne by done. apply emptyHouse_ok.
  - intros h id a (-> & [[-> _]|[-> _]])%Hopen; vm_compute; done.
  - intros h id a (-> & [[-> Hi]|[-> Hi]])%Hopen; rewrite Hi; vm_compute; eauto.
  - intros h id a h' id' a' (-> & H1)%Hopen (-> & H2)%Hopen Heq. split; [done|].
    destruct Heq as [->|Heq]; [done|]. destruct H1 as [[-> ?]|[-> ?]], H2 as [[-> ?]|[-> ?]]; congruence || lia.
  - intros g it. cbn. rewrite lookup_insert_Some. intros [[<- <-]|[_ Hl]]; [done|]. by apply lookup_singleton_Some in Hl as [<- <-].
Qed.

Lemma auction_houses_stay_consistent_witness : rtc (fun w w' => ids_left w /\ step w w') ex_world (Update ex_env ex_world) /\
  houses_ok (Update ex_env ex_world).
Proof.
  assert (rtc (fun w w' => ids_left w /\ step w w') ex_world (Update ex_env ex_world)) as Hrun.
  { eapply rtc_l; [|apply rtc_refl]. split.
    - split; [by vm_compute|]. intros x [->%elem_of_singleton| ->%elem_of_singleton]%elem_of_union; by vm_compute.
    - apply (step_update _ ex_env). apply _. }
  split; [exact Hrun|]. exact (auction_houses_stay_consistent _ _ Hrun ex_houses_ok).
Defined.
