(* ===== verification/AuctionOutcome.v ===== *)
(** * AuctionOutcome: what a bid and the end of an auction do

    Expired auctions close, the item and the gold reach the winner and the
    seller, and a bid is refused without a trace or takes effect. *)
From S2P Require Import Prelude ByteBuffer ObjectGuid EconomyData Mail Auction AuctionIndex EconomyFrame Gold GoldAuction EconomyRun AuctionSafety.

(** ** Expired auctions close *)

Lemma open_after_remove h a w w1 h' id' a' : m_vRealAuctionHouses w1 = m_vRealAuctionHouses w -> auction_at w h (au_Id a) a ->
  auction_at (snd (RemoveAuction h a w1)) h' id' a' -> auction_at w h' id' a' /\ (h', id') <> (h, au_Id a).
Proof.
  intros Hh Hat. assert (auction_at w1 h (au_Id a) a) as Hat1 by (unfold auction_at; by rewrite Hh).
  destruct (RemoveAuction_effect h a a w1 Hat1) as (H1 & _). unfold auction_at at 1. rewrite H1.
  change (house_at h w1) with (hat (m_vRealAuctionHouses w1) h). rewrite Hh. apply open_at_remove.
Qed.

Lemma update_entry_open E h id w h' id' a' : houses_ok w -> auction_at (update_entry E h id w) h' id' a' ->
  (exists a0, auction_at w h' id' a0 /\ expireTime a0 = expireTime a') /\ ((h', id') = (h, id) -> GetGameTime E <= expireTime a').
Proof.
  intros Hw. destruct (update_entry_cases E h id w) as [[Hn ->]|(a0 & a & w1 & Hat & Ha & Hw1 & Hat1 & ->)].
  - intros Hat. split; [by exists a'|]. intros [= -> ->]. unfold auction_at, open_at in Hat. unfold house_at in Hn. unfold hat in Hat. congruence.
  - assert (houses_ok w1) as Hok1. { subst w1. apply (set_ok h id a0 a); [done|done|by destruct Ha as [->| ->]..]. }
    assert (forall h' id' b, auction_at w1 h' id' b -> (exists b0, auction_at w h' id' b0 /\ expireTime b0 = expireTime b) /\
              ((h', id') = (h, id) -> b = a)) as Hback.
    { intros h1 id1 b. subst w1. unfold auction_at, open_at. cbn. destruct (decide (h1 = h)) as [->|Hn].
      - rewrite hat_insert. cbn. rewrite lookup_insert_Some. intros [[<- <-]|[Hne Hb]].
        + split; [|done]. exists a0. split; [done|]. by destruct Ha as [->| ->].
        + split; [by exists b|]. intros [= ->]. done.
      - rewrite hat_insert_ne by done. intros Hb. split; [by exists b|]. by intros [= -> ->]. }
    destruct (Z.ltb_spec (expireTime a) (GetGameTime E)) as [Hlt|Hge].
    + intros Hop. assert (au_Id a = id) as <- by (apply (ix_id _ (ao_index _ _ _ Hok1 h)); apply Hat1).
      unfold close_auction in Hop. apply (open_after_remove h a w1) in Hop as [Hop Hne]; [|by apply frame_item_close|done].
      destruct (Hback _ _ _ Hop) as [Hb _]. split; [done|]. intros Heq. done.
    + intros Hop. destruct (Hback _ _ _ Hop) as [Hb Heq]. split; [done|]. intros H. by rewrite (Heq H).
Qed.

Section Updating.
Context (E : Env).

(** The auctions that are left after a round over some identifiers. *)
Lemma round_open h ids w h' id' a' : houses_ok w -> auction_at (foldl (fun w id => update_entry E h id w) w ids) h' id' a' ->
  (exists a0, auction_at w h' id' a0 /\ expireTime a0 = expireTime a') /\ (h' = h -> id' ∈ ids -> GetGameTime E <= expireTime a').
Proof using.
  revert w. induction ids as [|id ids IH]; intros w Hw; cbn [foldl].
  - intros Hat. split; [by exists a'|]. intros _ ?%elem_of_nil. done.
  - intros Hat. destruct (IH _ (houses_ok_update_entry E h id w Hw) Hat) as [(b & Hb & Hexp) Hin].
    destruct (update_entry_open E h id w h' id' b Hw Hb) as [(c & Hc & Hexp') Hid]. split; [exists c; split; [done|congruence]|].
    intros -> [->|Hids]%elem_of_cons; [|by apply Hin]. rewrite <- Hexp. by apply Hid.
Qed.

Lemma house_Update_open h w h' id' a' : houses_ok w -> auction_at (house_Update E h w) h' id' a' ->
  (exists a0, auction_at w h' id' a0 /\ expireTime a0 = expireTime a') /\ (h' = h -> GetGameTime E <= expireTime a').
Proof using.
  intros Hw Hat. destruct (round_open h _ w h' id' a' Hw Hat) as [(a0 & Ha0 & Hexp) Hr]. split; [by exists a0|].
  intros ->. apply Hr; [done|]. apply list_elem_of_fmap. exists (id', a0). split; [done|]. by apply elem_of_map_iter.
Qed.

Lemma Update_open hs w h id a : houses_ok w -> auction_at (foldl (fun w h => house_Update E h w) w hs) h id a ->
  (exists a0, auction_at w h id a0 /\ expireTime a0 = expireTime a) /\ (h ∈ hs -> GetGameTime E <= expireTime a).
Proof using.
  revert w. induction hs as [|h1 hs IH]; intros w Hw; cbn [foldl].
  - intros Hat. split; [by exists a|]. by intros ?%elem_of_nil.
  - intros Hat. assert (houses_ok (house_Update E h1 w)) as Hw1.
    { unfold house_Update. apply fold_keeps; [|done]. intros w2 id2. apply houses_ok_update_entry. }
    destruct (IH _ Hw1 Hat) as [(b & Hb & Hexp) Hin].
    destruct (house_Update_open h1 w h id b Hw Hb) as [(c & Hc & Hexp') Hh]. split; [exists c; split; [done|congruence]|].
    intros [->|Hhs]%elem_of_cons; [|by apply Hin]. rewrite <- Hexp. by apply Hh.
Qed.

(** C28: an auction does not outlive its time: after an update of the auction
    houses every auction that is still open expires in the future, and was open
    before with the same time. *)
Theorem expired_auctions_close w h id a : houses_ok w -> auction_at (Update E w) h id a ->
  GetGameTime E <= expireTime a /\ exists a0, auction_at w h id a0 /\ expireTime a0 = expireTime a.
Proof using.
  intros Hw Hat. destruct (Update_open _ w h id a Hw Hat) as [Hb Hh]. split; [|done]. apply Hh.
  destruct Hb as (a0 & Ha0 & _). unfold auction_at, open_at, hat in Ha0.
  destruct (m_vRealAuctionHouses w !! h) as [ho|] eqn:Hho; [|by cbn in Ha0; rewrite lookup_empty in Ha0].
  apply list_elem_of_fmap. exists (h, ho). split; [done|]. by apply elem_of_map_iter.
Qed.
End Updating.

Lemma expired_auctions_close_witness : houses_ok ex_world /\ auction_at (Update ex_env ex_world) 0 7 (unlock (ex_auction 7 70 1 200 2 5000)) /\
  GetGameTime ex_env <= 5000.
Proof.
  assert (auction_at (Update ex_env ex_world) 0 7 (unlock (ex_auction 7 70 1 200 2 5000))) as Hat by (vm_compute; reflexivity).
  split; [exact ex_houses_ok|]. split; [exact Hat|]. exact (proj1 (expired_auctions_close ex_env ex_world 0 7 _ ex_houses_ok Hat)).
Defined.

(** ** Mailboxes *)

Lemma FindMasterPlayer_alter k j f w w' : w_players w' = alter f j (w_players w) ->
  FindMasterPlayer k w' = if decide (k = j) then f <$> FindMasterPlayer k w else FindMasterPlayer k w.
Proof.
  intros Hp. unfold FindMasterPlayer. rewrite Hp. destruct (decide (k = j)) as [->|Hn].
  - destruct (j =? 0); [done|]. apply lookup_alter_eq.
  - destruct (k =? 0); [done|]. by apply lookup_alter_ne.
Qed.

(** A mail arrives in one mailbox, whether its owner is online or not. *)
Lemma mailbox_SendMailTo E d receiver from chk delay w : exists m, sent_mail E d receiver from chk delay w m /\
  forall k, mailbox k (SendMailTo E d receiver from chk delay w) = if decide (k = receiver) then m :: mailbox k w else mailbox k w.
Proof.
  destruct (SendMailTo_effect E d receiver from chk delay w) as (m & Hs & _ & _ & _ & Hcases). exists m. split; [done|].
  set (w' := SendMailTo _ _ _ _ _ _ _) in *. clearbody w'. intros k. unfold mailbox.
  destruct Hcases as [([p Hp] & Hm & f & _ & Hf & Hpl)|(Hn & Hm & Hpl)].
  - rewrite (FindMasterPlayer_alter k receiver f w w' Hpl), Hm. destruct (decide (k = receiver)) as [->|Hne]; [|done].
    rewrite Hp. cbn. apply Hf.
  - assert (FindMasterPlayer k w' = FindMasterPlayer k w) as -> by (unfold FindMasterPlayer; by rewrite Hpl).
    destruct (decide (k = receiver)) as [->|Hne].
    + rewrite Hn, Hm, filter_cons_True; [done|]. apply Hs.
    + rewrite Hm, filter_cons_False; [done|]. destruct Hs as (_ & -> & _). congruence.
Qed.

(** The mail the goal sends. *)
Ltac deliver m Hs Hbox :=
  match goal with |- context [SendMailTo ?E ?d ?r ?f ?c ?dl ?w] =>
    destruct (mailbox_SendMailTo E d r f c dl w) as (m & Hs & Hbox)
  end.

(** ** Settlement *)

Section Settlement.
Context (E : Env) `{!SoundEnv E} (a : AuctionEntry).

(** Someone the server will send auction mails to. *)
Definition reachable (k : Z) (w : World) : Prop := receiver_exists E k w = true /\ receiver_hardcore E k w = false.

Lemma reachable_chars k w w' : chars w' = chars w -> reachable k w -> reachable k w'.
Proof using.
  intros Hc [H1 H2]. split; [by rewrite (receiver_exists_chars E k w' w)|by rewrite (receiver_hardcore_chars E k w' w)].
Qed.

Lemma mailbox_if_online k j f w : (forall w, mailbox k (f w) = mailbox k w) -> mailbox k (if_online j f w) = mailbox k w.
Proof using. intros Hf. unfold if_online. by destruct (GetPlayer j w). Qed.

Lemma mailbox_successful w : purse_ok (bid a) -> purse_ok (deposit a) -> reachable (owner a) w ->
  exists m, money m = bid a + deposit a - GetAuctionCut E a /\ items m = [] /\ messageType m = MAIL_AUCTION /\
    forall k, mailbox k (SendAuctionSuccessfulMail E a w) = if decide (k = owner a) then m :: mailbox k w else mailbox k w.
Proof using All.
  intros Hb Hd [He Hh]. unfold SendAuctionSuccessfulMail. rewrite Hh, He. cbv zeta.
  pose proof (cut_is_part (auctionHouseEntry a) (bid a) (proj1 Hb)) as Hcut. unfold GetAuctionCut, purse_ok, MAX_MONEY_AMOUNT in *.
  rewrite (u32_id (_ - _)) by (unfold is_u; lia).
  deliver m Hs Hbox. exists m. destruct Hs as (_ & _ & _ & Ht & Hm & _ & _ & _ & _ & Hits & _).
  split_and!; [by rewrite Hm|by rewrite Hits; cbn; unfold map_iter; rewrite map_to_list_empty|by rewrite Ht|]. intros k. rewrite Hbox.
  by rewrite (mailbox_if_online k) by done.
Qed.

Lemma mailbox_won w it : GetAItem (itemGuidLow a) w = Some it -> it_guid it = itemGuidLow a -> reachable (bidder a) w ->
  exists m, money m = 0 /\ COD m = 0 /\ items m = [(itemGuidLow a, it_entry it)] /\ messageType m = MAIL_AUCTION /\
    forall k, mailbox k (SendAuctionWonMail E a w) = if decide (k = bidder a) then m :: mailbox k w else mailbox k w.
Proof using.
  intros Hit Hguid [He Hh]. unfold SendAuctionWonMail. rewrite Hit, He, Hh. cbn [negb andb]. cbv zeta.
  deliver m Hs Hbox. exists m. destruct Hs as (_ & _ & _ & Ht & Hm & Hc & _ & _ & _ & Hits & _).
  split_and!; [by rewrite Hm|by rewrite Hc| |by rewrite Ht|].
  - rewrite Hits. cbn. unfold map_iter. rewrite insert_empty, map_to_list_singleton. cbn. by rewrite Hguid.
  - intros k. rewrite Hbox. by destruct (GetPlayer (bidder a) _).
Qed.

Lemma mailbox_expired w it : GetAItem (itemGuidLow a) w = Some it -> it_guid it = itemGuidLow a -> reachable (owner a) w ->
  exists m, money m = 0 /\ COD m = 0 /\ items m = [(itemGuidLow a, it_entry it)] /\ messageType m = MAIL_AUCTION /\
    forall k, mailbox k (SendAuctionExpiredMail E a w) = if decide (k = owner a) then m :: mailbox k w else mailbox k w.
Proof using.
  intros Hit Hguid [He Hh]. unfold SendAuctionExpiredMail. rewrite Hit, He, Hh. cbn [negb andb]. cbv zeta.
  deliver m Hs Hbox. exists m. destruct Hs as (_ & _ & _ & Ht & Hm & Hc & _ & _ & _ & Hits & _).
  split_and!; [by rewrite Hm|by rewrite Hc| |by rewrite Ht|].
  - rewrite Hits. cbn. unfold map_iter. rewrite insert_empty, map_to_list_singleton. cbn. by rewrite Hguid.
  - intros k. rewrite Hbox. by destruct (GetPlayer (owner a) _).
Qed.

Lemma mailbox_RemoveAuction k h w : mailbox k (snd (RemoveAuction h a w)) = mailbox k w.
Proof using. unfold RemoveAuction. by destruct (bool_decide _). Qed.

Lemma mailbox_close k h w : mailbox k (close_auction h a w) = mailbox k w.
Proof using. unfold close_auction. by rewrite mailbox_RemoveAuction. Qed.
Lemma chars_close h w : chars (close_auction h a w) = chars w.
Proof using. unfold close_auction, RemoveAuction. by destruct (bool_decide _). Qed.

(** The mails of a sale and of an auction without bids. *)
Lemma sale_mails w it : houses_ok w -> GetAItem (itemGuidLow a) w = Some it -> purse_ok (bid a) -> purse_ok (deposit a) ->
  reachable (owner a) w -> reachable (bidder a) w -> bidder a <> owner a ->
  exists goods pay, items goods = [(itemGuidLow a, it_entry it)] /\ money goods = 0 /\ COD goods = 0 /\
    money pay = bid a + deposit a - GetAuctionCut E a /\ items pay = [] /\
    forall k, mailbox k (SendAuctionWonMail E a (SendAuctionSuccessfulMail E a w)) =
      if decide (k = bidder a) then goods :: mailbox k w else if decide (k = owner a) then pay :: mailbox k w else mailbox k w.
Proof using All.
  intros Hw Hit Hb Hd Hown Hbid Hne. pose proof (frame_SendAuctionSuccessfulMail E a w) as Hf.
  destruct (mailbox_successful w Hb Hd Hown) as (pay & H1 & H2 & _ & Hpay).
  destruct (mailbox_won (SendAuctionSuccessfulMail E a w) it) as (goods & H3 & H4 & H5 & _ & Hgoods).
  - destruct Hf as (_ & Ha & _). unfold GetAItem. injection Ha. by intros _ _ -> _ _.
  - by apply (item_guid w).
  - by apply (reachable_chars _ w); [apply Hf|].
  - exists goods, pay. split_and!; try done. intros k. rewrite Hgoods, Hpay.
    destruct (decide (k = bidder a)) as [->|]; [|done]. by rewrite decide_False.
Qed.
End Settlement.

(** C19: what the end of an expired auction pays. With a bid, the seller gets one
    mail with the bid and his deposit less the cut, and the winner one mail with
    the item, without COD. Without a bid the seller gets the item back in one
    mail. Nobody else gets anything, the auction is closed and no purse
    changes. For a seller and bidder who exist and do not play hardcore, online
    or not. *)
Theorem expired_auction_settles E `{!SoundEnv E} h id a w : houses_ok w -> gold_ok w -> auction_at w h id a ->
  expireTime a < GetGameTime E -> reachable E (owner a) w -> (bidder a <> 0 -> reachable E (bidder a) w /\ bidder a <> owner a) ->
  let w' := update_entry E h id w in
  exists it goods, mAitems w !! itemGuidLow a = Some it /\
    items goods = [(itemGuidLow a, it_entry it)] /\ money goods = 0 /\ COD goods = 0 /\
    (if bidder a =? 0 then
       forall k, mailbox k w' = if decide (k = owner a) then goods :: mailbox k w else mailbox k w
     else exists pay, money pay = bid a + deposit a - GetAuctionCut E a /\ items pay = [] /\
       forall k, mailbox k w' = if decide (k = bidder a) then goods :: mailbox k w
                                else if decide (k = owner a) then pay :: mailbox k w else mailbox k w) /\
    (forall b, ~ auction_at w' h id b) /\ chars w' = chars w.
Proof.
  intros Hw Hgold Hat Hexp Hown Hbid w'. subst w'.
  pose proof (house_at_ok h w Hgold id a Hat) as (Hid & Hb & Hd & _).
  destruct (ao_item _ _ _ Hw h id a Hat) as [it Hit]. exists it.
  assert (forall b, ~ auction_at (update_entry E h id w) h id b) as Hclosed.
  { intros b Hop. destruct (update_entry_open E h id w h id b Hw Hop) as [(a0 & Ha0 & Heq) Hge].
    specialize (Hge eq_refl). unfold auction_at, open_at in *. rewrite Hat in Ha0. injection Ha0 as <-. lia. }
  pose proof (update_entry_cases E h id w) as [[Hn _]|(a0 & a' & w1 & Hat0 & Ha' & Hw1 & Hat1 & Heq)].
  { unfold auction_at, open_at, hat in Hat. unfold house_at in Hn. congruence. }
  assert (a0 = a) as -> by (unfold auction_at, open_at in *; congruence).
  assert (houses_ok w1) as Hok1. { subst w1. apply (set_ok h id a a'); [done|done|by destruct Ha' as [->| ->]..]. }
  assert (mAitems w1 = mAitems w /\ chars w1 = chars w /\ forall k, mailbox k w1 = mailbox k w) as (Hi1 & Hc1 & Hm1) by by subst w1.
  clear Hw1. rewrite Heq in *. clear Heq.
  assert (expireTime a' = expireTime a /\ bidder a' = bidder a /\ owner a' = owner a /\ itemGuidLow a' = itemGuidLow a /\ bid a' = bid a /\
    deposit a' = deposit a /\ GetAuctionCut E a' = GetAuctionCut E a) as (He & Hbi & Ho & Hg & Hbd & Hde & Hcut) by (by destruct Ha' as [->| ->]).
  destruct (Z.ltb_spec (expireTime a') (GetGameTime E)) as [_|]; [|lia]. rewrite Hbi. rewrite <- Hi1 in Hit.
  rewrite <- Hg, <- Ho, <- Hbi in *. rewrite <- Hbd, <- Hde in *. rewrite <- Hcut.
  assert (forall k, reachable E k w -> reachable E k w1) as Hr by (intros k; by apply reachable_chars).
  destruct (Z.eqb_spec (bidder a') 0) as [Hz|Hnz].
  - destruct (mailbox_expired E a' (emit (ScriptOnAuctionExpire id) w1) it Hit (item_guid w1 _ _ Hok1 Hit) (Hr _ Hown))
      as (goods & H1 & H2 & H3 & _ & H4).
    exists goods. split_and!; try done; [by rewrite <- Hi1|intros k; rewrite mailbox_close, H4; by rewrite <- (Hm1 k)|].
    rewrite chars_close, <- Hc1. by destruct (frame_item_expired E a' (emit (ScriptOnAuctionExpire id) w1) Hok1) as [-> _].
  - destruct (Hbid Hnz) as [Hbr Hne].
    destruct (sale_mails E a' (emit (ScriptOnAuctionSuccessful id) w1) it Hok1 Hit Hb Hd (Hr _ Hown) (Hr _ Hbr) Hne)
      as (goods & pay & H1 & H2 & H3 & H4 & H5 & H6).
    exists goods. split_and!; try done; [by rewrite <- Hi1| |].
    + exists pay. split_and!; [done..|]. intros k. rewrite mailbox_close, H6. by rewrite <- (Hm1 k).
    + rewrite chars_close, <- Hc1. by destruct (frame_item_sale E a' (emit (ScriptOnAuctionSuccessful id) w1) Hok1) as [-> _].
Qed.

Lemma expired_auction_settles_witness : exists it goods pay,
  mAitems ex_world !! 71 = Some it /\ items goods = [(71, it_entry it)] /\ money pay = 300 + 40 - 15 /\
  mailbox 3 (update_entry ex_env 0 8 ex_world) = [goods] /\
  mailbox 4 (update_entry ex_env 0 8 ex_world) = [pay; ex_mail 6 4 11].
Proof.
  destruct (expired_auction_settles ex_env 0 8 (ex_auction 8 71 4 300 3 1500) ex_world ex_houses_ok ex_gold_ok)
    as (it & goods & H1 & H2 & _ & _ & (pay & H3 & _ & H4) & _);
    [vm_compute; reflexivity|vm_compute; reflexivity|split; vm_compute; reflexivity
    |intros _; split; [split; vm_compute; reflexivity|discriminate]|].
  exists it, goods, pay. split; [exact H1|]. split; [exact H2|]. split; [exact H3|].
  split; [exact (H4 3)|exact (H4 4)].
Defined.

(** ** Bids *)

Lemma purse_eq k w w' : chars w' = chars w -> purse k w' = purse k w.
Proof. intros Hc. by rewrite !purse_chars, Hc. Qed.

Lemma purse_SetMoney k v w : is_Some (purse k w) -> purse k (SetMoney v k w) = Some v.
Proof. unfold purse. cbn. rewrite lookup_alter_eq, fmap_is_Some. by intros [p ->]. Qed.

Lemma mailbox_SetMoney j v k w : mailbox j (SetMoney v k w) = mailbox j w.
Proof.
  unfold mailbox. rewrite (FindMasterPlayer_alter j k (set_money v) w) by done. destruct (decide (j = k)); [|done].
  by destruct (FindMasterPlayer j w).
Qed.
Lemma mailbox_ModifyMoney j E d k w : mailbox j (ModifyMoney E d k w) = mailbox j w.
Proof. unfold ModifyMoney. destruct (w_players w !! k); [|done]. by destruct (_ <? 0); rewrite mailbox_SetMoney. Qed.

Lemma SetMoney_reachable E v j k w : reachable E k w -> reachable E k (SetMoney v j w).
Proof.
  assert (forall A (f : Player -> A), (forall p, f (set_money v p) = f p) -> f <$> GetPlayer k (SetMoney v j w) = f <$> GetPlayer k w) as Hf.
  { intros A f Hp. unfold GetPlayer. rewrite (FindMasterPlayer_alter k j (set_money v) w) by done. destruct (decide (k = j)); [|done].
    destruct (FindMasterPlayer k w) as [q|]; [|done]. cbn. destruct (pl_inWorld q); [|done]. cbn. by rewrite Hp. }
  unfold reachable, receiver_exists, receiver_hardcore, GetPlayerAccountIdByGUID.
  specialize (Hf _ (fun p => (pl_account p, IsHardcore p)) (fun _ => eq_refl)).
  destruct (GetPlayer k (SetMoney v j w)) as [q|], (GetPlayer k w) as [r|]; cbn in Hf; try done.
  assert (IsHardcore q = IsHardcore r) as -> by congruence. done.
Qed.

Section Paying.
Context (E : Env) `{!SoundEnv E} (p : Player) (w : World) (Hp : w_players w !! pl_guid p = Some p) (Hpurse : purse_ok (pl_money p)).

(** What the bidder pays for a bid of [price], and the refund of the last
    bidder, if he can have mail. *)
Definition bid_cost (price : Z) (a : AuctionEntry) : Z := if pl_guid p =? bidder a then price - bid a else price.

Lemma pay_bid_effect price a : 0 <= bid a -> bid a <= price <= pl_money p ->
  purse (pl_guid p) (pay_bid E (pl_guid p) price a w) = Some (pl_money p - bid_cost price a) /\
  (bidder a <> 0 -> bidder a <> pl_guid p -> reachable E (bidder a) w ->
    exists m, money m = bid a /\ items m = [] /\
      mailbox (bidder a) (pay_bid E (pl_guid p) price a w) = m :: mailbox (bidder a) w).
Proof using All.
  intros Hb Hprice. assert (is_Some (purse (pl_guid p) w)) as Hsome by (unfold purse; rewrite Hp; eauto).
  unfold purse_ok, MAX_MONEY_AMOUNT in *. unfold pay_bid, bid_cost. destruct (Z.eqb_spec (pl_guid p) (bidder a)) as [Heq|Hne].
  - split; [|intros _ Hn; congruence]. rewrite (u32_id (price - bid a)) by (unfold is_u; lia).
    rewrite (ModifyMoney_pay E _ w p Hp Hpurse) by lia. by apply purse_SetMoney.
  - cbv zeta. rewrite (ModifyMoney_pay E _ w p Hp Hpurse price) by lia. set (w1 := SetMoney _ _ w).
    assert (purse (pl_guid p) w1 = Some (pl_money p - price)) as H1 by by apply purse_SetMoney.
    split.
    + destruct (negb _); [|done]. rewrite <- H1. apply purse_frame. by apply frame_refund_bidder.
    + intros Hz _ Hr. destruct (Z.eqb_spec (bidder a) 0); [done|]. cbn [negb].
      apply (SetMoney_reachable E (pl_money p - price) (pl_guid p)) in Hr as [He Hh].
      unfold SendAuctionOutbiddedMail, refund_bidder. fold w1 in He, Hh. rewrite Hh, He. deliver m Hs Hbox. exists m.
      destruct Hs as (_ & _ & _ & _ & Hm & _ & _ & _ & _ & Hits & _).
      split_and!; [by rewrite Hm|by rewrite Hits; cbn; unfold map_iter; rewrite map_to_list_empty|].
      rewrite Hbox, decide_True by done. rewrite mailbox_if_online by done. subst w1. by rewrite mailbox_SetMoney.
Qed.
End Paying.

Lemma outbid_exact a : purse_ok (bid a) -> u32 (bid a + GetAuctionOutBid a) = bid a + Z.max 1 (bid a / 100 * 5).
Proof.
  intros Hb. unfold GetAuctionOutBid, purse_ok, MAX_MONEY_AMOUNT in *. pose proof (Z.div_pos (bid a) 100 ltac:(lia) ltac:(lia)).
  pose proof (Z.mul_div_le (bid a) 100 ltac:(lia)). rewrite (u32_id (bid a / 100 * 5)) by (unfold is_u; lia).
  destruct (Z.eqb_spec (bid a / 100 * 5) 0) as [->|]; rewrite u32_id by (unfold is_u; lia); lia.
Qed.

(** Worlds that differ in what was sent. *)
Definition only_sends (w w' : World) : Prop := exists os, w' = emits os w.
Lemma only_sends_refl w : only_sends w w.
Proof. exists []. destruct w. unfold emits. cbn. by rewrite app_nil_r. Qed.
Lemma only_sends_emit o w w' : only_sends w w' -> only_sends w (emit o w').
Proof. intros [os ->]. exists (os ++ [o]). unfold emit, emits. cbn. by rewrite app_assoc. Qed.
Lemma only_sends_result p a act err i w w' : only_sends w w' -> only_sends w (SendAuctionCommandResult p a act err i w').
Proof. apply only_sends_emit. Qed.
Ltac refused := intros [= <-]; left; repeat first [apply only_sends_result | apply only_sends_emit | apply only_sends_refl].

Lemma mailbox_Save j k w : mailbox j (SaveInventoryAndGoldToDB k w) = mailbox j w.
Proof. unfold SaveInventoryAndGoldToDB, SaveGoldToDB. by destruct (w_players _ !! k). Qed.

Lemma chars_Save k w : chars (SaveInventoryAndGoldToDB k w) = chars w.
Proof. apply frame_SaveInventoryAndGoldToDB. Qed.

(** The notifications and statements after a bid. *)
Lemma after_bid_chars k j f p a act err i o h g w : (forall w, frame w (f w)) ->
  chars (SaveInventoryAndGoldToDB k (SendAuctionCommandResult p a act err i (emit o (if_online j f (upd_house h g w))))) = chars w.
Proof.
  intros Hf. rewrite chars_Save. change (chars (if_online j f (upd_house h g w)) = chars w). by destruct (frame_if_online j f (upd_house h g w) Hf) as [-> _].
Qed.

(** C20: a bid is refused and only packets are sent, or it is on another's open
    auction, at least the start price and above the last bid, and covered by
    the purse; then the bidder pays exactly the bid, less what he had bid
    himself, capped at the buyout. Below the buyout it must also raise the last
    bid by the increment; the entry then shows the new bid and bidder and the
    last bidder has his gold back by mail. From the buyout on the auction ends. *)
Theorem bids_are_refused_or_paid E `{!SoundEnv E} p auctioneer id price w w' :
  houses_ok w -> gold_ok w -> w_players w !! pl_guid p = Some p -> HandleAuctionPlaceBid E p auctioneer id price w = Some w' ->
  only_sends w w' \/
  exists h a, auction_at w h id a /\ owner a <> pl_guid p /\ startbid a <= price /\ bid a < price <= pl_money p /\
    if (price <? buyout a) || (buyout a =? 0) then
      bid a + Z.max 1 (bid a / 100 * 5) <= price /\ purse (pl_guid p) w' = Some (pl_money p - bid_cost p price a) /\
      auction_at w' h id (set_bid price (pl_guid p) a) /\
      (bidder a <> 0 -> bidder a <> pl_guid p -> reachable E (bidder a) w ->
        exists m, money m = bid a /\ items m = [] /\ mailbox (bidder a) w' = m :: mailbox (bidder a) w)
    else purse (pl_guid p) w' = Some (pl_money p - bid_cost p (buyout a) a) /\ forall b, ~ auction_at w' h id b.
Proof.
  intros Hw Hgold Hp. unfold HandleAuctionPlaceBid. cbv zeta.
  destruct (_ && _); [refused|]. destruct (_ || _); [refused|].
  destruct (GetCheckedAuctionHouseForAuctioneer E p auctioneer) as [houseId|]; [|refused].
  destruct (IsSuspicious E p); [refused|]. destruct (GetAuctionsMap houseId w) as [h|]; [|done].
  set (w0 := emit (RemoveFeignDeath (pl_guid p)) w).
  destruct (AuctionsMap (house_at h w0) !! id) as [a|] eqn:Hat; [|refused].
  change (auction_at w h id a) in Hat. pose proof (house_at_ok h w Hgold id a Hat) as (Hid & Hb & Hd & Hbo & Hlt).
  pose proof (proj1 Hgold _ _ Hp) as (_ & _ & Hpurse & _).
  destruct (Z.eqb_spec (owner a) (pl_guid p)); [refused|]. destruct (_ && _); [refused|].
  destruct (Z.ltb_spec price (startbid a)); [refused|]. destruct (Z.leb_spec price (bid a)); [refused|].
  destruct (((price <? buyout a) || (buyout a =? 0)) && _) eqn:Hinc; [refused|].
  destruct (Z.ltb_spec (pl_money p) price); [refused|]. unfold purse_ok in *.
  destruct ((price <? buyout a) || (buyout a =? 0)) eqn:Hbuy; intros [= <-]; right; exists h, a; rewrite Hbuy; do 4 (split; [done || lia|]).
  - cbn in Hinc. apply Z.ltb_ge in Hinc. rewrite outbid_exact in Hinc by done. split; [done|].
    destruct (pay_bid_effect E p w0 Hp Hpurse price a) as [Hpay Hrefund]; [lia..|].
    set (w1 := pay_bid _ _ _ _ w0) in *. split_and!.
    + rewrite <- Hpay. apply purse_eq. by rewrite after_bid_chars.
    + apply (auction_at_aview (upd_house h (fun ho => mkHouse (<[id := set_bid price (pl_guid p) a]> (AuctionsMap ho))
               (OrderedAuctionMap ho) (AccountAuctionMap ho)) w1)).
      * autorewrite with aview. by rewrite aview_if_online.
      * unfold auction_at, open_at. cbn. rewrite hat_insert. apply lookup_insert_eq.
    + intros Hz Hme Hr. destruct (Hrefund Hz Hme Hr) as (m & Hm & Hits & Hbox). exists m. split_and!; [done|done|].
      rewrite mailbox_Save. transitivity (mailbox (bidder a) w1); [|exact Hbox]. 
      by refine (mailbox_if_online (bidder a) (owner a) (SendAuctionOwnerNotification (owner a) (set_bid price (pl_guid p) a) false)
                (upd_house h _ w1) _).
  - apply orb_false_iff in Hbuy as [Hge Hnz]. apply Z.ltb_ge in Hge. apply Z.eqb_neq in Hnz. specialize (Hlt Hnz).
    destruct (pay_bid_effect E p w0 Hp Hpurse (buyout a) a) as [Hpay _]; [lia..|].
    set (w1 := pay_bid _ _ _ _ w0) in *. set (a' := set_bid _ _ a).
    assert (aview w1 = aview w) as Hv by exact (aview_pay_bid E _ _ a w0).
    assert (houses_ok w1) as Hok1 by by refine (houses_ok_aview w _ Hv Hw).
    pose proof (frame_item_sale E a' w1 Hok1) as (Hc & _ & _ & Hh & _). split.
    + rewrite <- Hpay. apply purse_eq. rewrite <- Hc.
      rewrite chars_Save.
      unfold RemoveAuction. by destruct (bool_decide _).
    + intros b Hop. rewrite auction_at_aview in Hop by (autorewrite with aview; reflexivity).
      eapply (open_after_remove h a w1) in Hop as [_ Hne]; [by rewrite Hid in Hne|exact Hh|].
      rewrite Hid. by apply (auction_at_aview w w1 h id a Hv).
Qed.

Lemma bids_are_refused_or_paid_witness : exists w', HandleAuctionPlaceBid ex_env (ex_player 3 800 [] []) 0 7 450 ex_world = Some w' /\
  purse 3 w' = Some 350 /\ exists m, money m = 200 /\ mailbox 2 w' = [m].
Proof.
  destruct (HandleAuctionPlaceBid ex_env (ex_player 3 800 [] []) 0 7 450 ex_world) as [w'|] eqn:Hrun; [|vm_compute in Hrun; discriminate].
  exists w'. split; [reflexivity|].
  pose proof (bids_are_refused_or_paid ex_env (ex_player 3 800 [] []) 0 7 450 ex_world w' ex_houses_ok ex_gold_ok) as H.
  destruct (H ltac:(reflexivity) Hrun) as [[os Hos]|(h & a & Hat & _ & _ & _ & Hbid)].
  - exfalso. apply (f_equal (fun o => purse 3 (default ex_world o))) in Hrun. rewrite Hos in Hrun. vm_compute in Hrun. discriminate.
  - assert (h = 0 /\ a = ex_auction 7 70 1 200 2 5000) as [-> ->].
    { unfold auction_at, open_at, hat in Hat. destruct (decide (h = 0)) as [->|Hn].
      - split; [done|]. apply (inj Some). rewrite <- Hat. by vm_compute.
      - change (m_vRealAuctionHouses ex_world) with ({[ 0 := ex_house ]} : gmap Z AuctionHouseObject) in Hat.
        rewrite lookup_singleton_ne in Hat by done. cbn in Hat. by rewrite lookup_empty in Hat. }
    cbn [buyout ex_auction] in Hbid. destruct Hbid as (_ & Hp & _ & Hm). split; [exact Hp|].
    destruct Hm as (m & H1 & _ & H2); [discriminate|discriminate|split; vm_compute; reflexivity|]. by exists m.
Defined.
