(* ===== verification/ListingSpec.v ===== *)
(** * ListingSpec: a search answers with a page of the matching auctions

    The reference: filter the auctions of a house, sorted by buyout, take one
    page of fifty from a start. BuildListAuctionItems does it in one pass with
    two counters, and in a shorter one when every auction is wanted. *)
From S2P Require Import Prelude ByteBuffer ObjectGuid EconomyData Mail Auction AuctionListing AuctionIndex EconomyFrame Gold GoldAuction EconomyRun AuctionSafety.

Section Listing.
Context (E : Env) (S : Search) (w : World) (h : Z) (p : Player) (q : AuctionHouseClientQuery).

(** The auctions of the house in the order of their buyouts. *)
Definition open_list : list AuctionEntry :=
  omap (fun kv => AuctionsMap (house_at h w) !! snd kv) (OrderedAuctionMap (house_at h w)).
Definition shown (a : AuctionEntry) : bool :=
  match GetAItem (itemGuidLow a) w with Some it => wanted S p q a it | None => false end.
Definition matching (es : list AuctionEntry) : list AuctionEntry := filter (fun a => shown a = true) es.
Definition info (a : AuctionEntry) : list field := default [] (BuildAuctionInfo E w a).

Definition page (ms : list AuctionEntry) : list AuctionEntry := take 50 (drop (Z.to_nat (listfrom q)) ms).
Definition answer (ms : list AuctionEntry) : Listing :=
  mkListing (flat_map info (page ms)) (Z.of_nat (length (page ms))) (Z.of_nat (length ms)).

(** Every pointer of the index leads to an entry. *)
Definition resolved (l : list (Z * Z)) (es : list AuctionEntry) : Prop :=
  Forall2 (fun kv a => AuctionsMap (house_at h w) !! snd kv = Some a) l es.

Lemma resolved_open : index_ok (house_at h w) -> resolved (OrderedAuctionMap (house_at h w)) open_list.
Proof using.
  intros [_ Ho _ _]. unfold open_list, resolved.
  assert (forall kv, kv ∈ OrderedAuctionMap (house_at h w) -> is_Some (AuctionsMap (house_at h w) !! snd kv)) as Hall.
  { intros [k id] Hin. rewrite Ho in Hin. apply elem_of_by_key in Hin as (a & Ha & _). by exists a. }
  clear Ho. induction (OrderedAuctionMap (house_at h w)) as [|kv l IH]; cbn; [constructor|].
  destruct (Hall kv) as [a Ha]; [apply elem_of_cons; by left|]. rewrite Ha. constructor; [done|].
  apply IH. intros kv' Hin. apply Hall. apply elem_of_cons. by right.
Qed.

(** ** The search *)

(** What the rest of the pass adds, with [t] matches behind it. *)
Definition rest (c t : Z) (ms : list AuctionEntry) : list AuctionEntry :=
  take (Z.to_nat (50 - c)) (drop (Z.to_nat (listfrom q - t)) ms).

Lemma rest_shown c t a ms : 0 <= c < 50 -> listfrom q <= t -> rest c t (a :: ms) = a :: rest (c + 1) (t + 1) ms.
Proof using.
  intros Hc Ht. unfold rest. replace (Z.to_nat (listfrom q - t)) with 0%nat by lia. replace (Z.to_nat (listfrom q - (t + 1))) with 0%nat by lia.
  replace (Z.to_nat (50 - c)) with (Datatypes.S (Z.to_nat (50 - (c + 1)))) by lia. done.
Qed.

Lemma rest_skipped c t a ms : (c = 50 /\ listfrom q <= t) \/ t < listfrom q -> rest c t (a :: ms) = rest c (t + 1) ms.
Proof using.
  unfold rest. intros [[-> Ht]|Ht]; [done|].
  by replace (Z.to_nat (listfrom q - t)) with (Datatypes.S (Z.to_nat (listfrom q - (t + 1)))) by lia.
Qed.

Lemma search_loop_page l es : resolved l es -> forall d t, 0 <= t -> t + Z.of_nat (length l) < 2 ^ 32 ->
  let c := Z.min 50 (Z.max 0 (t - listfrom q)) in
  search_loop E S w h p q l (mkListing d c t) =
    Some (mkListing (d ++ flat_map info (rest c t (matching es))) (c + Z.of_nat (length (rest c t (matching es))))
           (t + Z.of_nat (length (matching es)))).
Proof using.
  induction 1 as [|[k id] a l es Hid _ IH]; intros d t Ht Hlen c; cbn [search_loop].
  - unfold rest. cbn. rewrite drop_nil, take_nil. cbn. by rewrite app_nil_r, !Z.add_0_r.
  - cbn in Hid. rewrite Hid. cbn [length] in Hlen. unfold matching. destruct (decide (shown a = true)) as [Hs|Hs].
    + rewrite filter_cons_True by done. fold (matching es). unfold shown in Hs.
      destruct (GetAItem (itemGuidLow a) w) as [it|] eqn:Hit; [|done]. rewrite Hs. cbn [ls_count ls_total ls_data].
      destruct (Z.leb_spec (listfrom q) t) as [Hle|Hgt].
      * destruct (Z.ltb_spec c 50) as [Hc|Hc]; cbn [andb ls_count ls_total ls_data]; rewrite u32_id by (unfold is_u; lia).
        -- subst c. rewrite rest_shown by lia.
           replace (Z.min 50 (Z.max 0 (t - listfrom q)) + 1) with (Z.min 50 (Z.max 0 (t + 1 - listfrom q))) by lia.
           rewrite IH by lia. cbn [flat_map length]. unfold info at 2. rewrite <- app_assoc. f_equal. f_equal; lia.
        -- subst c. rewrite rest_skipped by lia.
           replace (Z.min 50 (Z.max 0 (t - listfrom q))) with (Z.min 50 (Z.max 0 (t + 1 - listfrom q))) by lia.
           rewrite IH by lia. cbn [length]. f_equal. f_equal; lia.
      * rewrite andb_false_r. cbn [ls_count ls_total ls_data]. rewrite u32_id by (unfold is_u; lia). subst c. rewrite rest_skipped by lia.
        replace (Z.min 50 (Z.max 0 (t - listfrom q))) with (Z.min 50 (Z.max 0 (t + 1 - listfrom q))) by lia.
        rewrite IH by lia. cbn [length]. f_equal. f_equal; lia.
    + rewrite filter_cons_False by done. fold (matching es). unfold shown in Hs.
      destruct (GetAItem (itemGuidLow a) w) as [it|]; [destruct (wanted S p q a it); [done|]|]; by apply IH; lia.
Qed.

(** ** All auctions *)

Lemma any_loop_page l es : resolved l es -> Forall (fun a => IsAvailableFor p a = true) es -> forall d c t, 0 <= c < 50 ->
  any_loop E w h p l (mkListing d c t) =
    Some (mkListing (d ++ flat_map info (take (Z.to_nat (50 - c)) es)) (c + Z.of_nat (length (take (Z.to_nat (50 - c)) es))) t).
Proof using.
  induction 1 as [|[k id] a l es Hid _ IH]; intros Hall d c t Hc; cbn [any_loop].
  - rewrite take_nil. cbn. by rewrite app_nil_r, Z.add_0_r.
  - apply Forall_cons in Hall as [Ha Hall]. cbn in Hid. rewrite Hid, Ha. cbn [negb ls_count ls_total ls_data].
    replace (Z.to_nat (50 - c)) with (Datatypes.S (Z.to_nat (50 - (c + 1)))) by lia. cbn [take flat_map length].
    destruct (Z.leb_spec 50 (c + 1)).
    + replace (Z.to_nat (50 - (c + 1))) with 0%nat by lia. cbn. rewrite app_nil_r. f_equal.
    + rewrite IH by (done || lia). unfold info at 2. rewrite <- app_assoc. f_equal. f_equal. lia.
Qed.

Lemma any_auction_wanted a it : any_auction q = true -> wanted S p q a it = IsAvailableFor p a.
Proof using.
  unfold any_auction, wanted. rewrite !andb_true_iff, bool_decide_eq_true.
  intros [[[[[[[-> ->] ->] ->] ->] _] ->] ->]. cbn. by destruct (IsAvailableFor p a).
Qed.

End Listing.

(** ** Concrete searches *)

Definition ex_search : Search := mkSearch (fun _ _ => 0) (fun _ => None) (fun _ _ => false) (fun _ it => ip_Name1 (it_proto it)) (fun n x => bool_decide (n = x)).
Definition ex_query (from category : Z) (name : list Z) : AuctionHouseClientQuery := mkQuery name 0 0 0 from ANY category ANY ANY [].


(** Sixty auctions, every second one locked to another address: the page from
    50 on of the list of all auctions repeats what the page from 0 on showed. *)
Definition ex_locked (n : nat) : AuctionEntry :=
  mkAuction (Z.of_nat n) 70 2000 1 101 100 0 1000 (if Nat.even n then str "1.2.3.4" else str "5.6.7.8") 900 5000 0 40 1.
Definition ex_many : World :=
  set_houses {[ 0 := mkHouse (list_to_map ((fun n => (Z.of_nat n, ex_locked n)) <$> seq 1 60)) ((fun n => (1000, Z.of_nat n)) <$> seq 1 60) [] ]} ex_world.
Definition shown_ids (s : option Listing) : list Z :=
  match s with Some s => omap (fun i => match ls_data s !! (14 * i)%nat with Some (FU32 id) => Some id | _ => None end) (seq 0 60) | None => [] end.
Example pages_overlap :
  let page_from n := shown_ids (BuildListAuctionItems ex_env ex_search ex_many 0 (ex_player 3 800 [] []) (ex_query n ANY []) (mkListing [] 0 0)) in
  page_from 50 = [52; 54; 56; 58; 60] /\ drop 25 (page_from 0) = [52; 54; 56; 58; 60].
Proof. vm_compute. done. Qed.
