(* ===== verification/Trade.v ===== *)
(** * Trade: the trade window of two characters

    TradeData (src/src/game/Objects/Player.h, Player.cpp), the end of a trade
    (Player::TradeCancel), the spell a character puts on the item of the other
    (Spell::CheckCast) and the handlers of
    src/src/game/Handlers/TradeHandler.cpp, over the purses and inventories of
    EconomyData. A [TradeData] is owned by the character it belongs to and is
    addressed by that character's GUID. [None] is an access through a null or
    dangling pointer. Inventories are maps of items; where an item is stored is
    a parameter ([CanStoreAt], [StoreAt]). Log files, quest counters and the
    owner field of an item are left out. *)
From S2P Require Import Prelude ByteBuffer ObjectGuid EconomyData Mail.

(** ** Data *)

Definition TRADE_SLOT_COUNT : nat := 7.
Definition TRADE_SLOT_TRADED_COUNT : nat := 6.
Definition TRADE_SLOT_NONTRADED : nat := 6.

Definition SMSG_TRADE_STATUS : Z := 0x120.
Definition SMSG_TRADE_STATUS_EXTENDED : Z := 0x121.
Definition TRADE_STATUS_BUSY : Z := 0.
Definition TRADE_STATUS_BEGIN_TRADE : Z := 1.
Definition TRADE_STATUS_OPEN_WINDOW : Z := 2.
Definition TRADE_STATUS_TRADE_CANCELED : Z := 3.
Definition TRADE_STATUS_TRADE_ACCEPT : Z := 4.
Definition TRADE_STATUS_NO_TARGET : Z := 6.
Definition TRADE_STATUS_BACK_TO_TRADE : Z := 7.
Definition TRADE_STATUS_TRADE_COMPLETE : Z := 8.
Definition TRADE_STATUS_TRADE_REJECTED : Z := 9.
Definition TRADE_STATUS_TARGET_TO_FAR : Z := 10.
Definition TRADE_STATUS_WRONG_FACTION : Z := 11.
Definition TRADE_STATUS_CLOSE_WINDOW : Z := 12.
Definition TRADE_STATUS_IGNORE_YOU : Z := 14.
Definition TRADE_STATUS_YOU_STUNNED : Z := 15.
Definition TRADE_STATUS_TARGET_STUNNED : Z := 16.
Definition TRADE_STATUS_YOU_DEAD : Z := 17.
Definition TRADE_STATUS_TARGET_DEAD : Z := 18.
Definition TRADE_STATUS_YOU_LOGOUT : Z := 19.
Definition TRADE_STATUS_TARGET_LOGOUT : Z := 20.
Definition TRADE_STATUS_TRIAL_ACCOUNT : Z := 21.
Definition TRADE_STATUS_ONLY_CONJURED : Z := 22.

Definition SPELL_CAST_OK : Z := 0xFF.
Inductive SpellCastResult := SPELL_FAILED_DONT_REPORT | SPELL_FAILED_ITEM_NOT_READY | SPELL_FAILED_NOT_TRADING | SPELL_PASSED.

Definition INVENTORY_SLOT_BAG_0 : Z := 255.
Definition BANK_SLOT_ITEM_START : Z := 39.
Definition BANK_SLOT_ITEM_END : Z := 63.
Definition BANK_SLOT_BAG_START : Z := 63.
Definition BANK_SLOT_BAG_END : Z := 69.

(** [TradeData]; [m_player] is its key. *)
Record TradeData := mkTrade {
  m_trader : Z;
  m_accepted : bool;
  m_acceptProccess : bool;
  m_money : Z;
  m_spell : Z;
  m_spellCastItem : ObjectGuid;
  m_items : list ObjectGuid;
  m_lastModificationTime : Z;
  m_scamPreventionDelay : Z
}.

Definition newTradeData (trader : Z) : TradeData :=
  mkTrade trader false false 0 0 0 (replicate TRADE_SLOT_COUNT 0) 0 0.

Definition td_accepted (b : bool) (d : TradeData) : TradeData :=
  mkTrade (m_trader d) b (m_acceptProccess d) (m_money d) (m_spell d) (m_spellCastItem d) (m_items d)
    (m_lastModificationTime d) (m_scamPreventionDelay d).
Definition SetInAcceptProcess (b : bool) (d : TradeData) : TradeData :=
  mkTrade (m_trader d) (m_accepted d) b (m_money d) (m_spell d) (m_spellCastItem d) (m_items d)
    (m_lastModificationTime d) (m_scamPreventionDelay d).
Definition td_money (g : Z) (d : TradeData) : TradeData :=
  mkTrade (m_trader d) (m_accepted d) (m_acceptProccess d) g (m_spell d) (m_spellCastItem d) (m_items d)
    (m_lastModificationTime d) (m_scamPreventionDelay d).
Definition td_spell (spell : Z) (castItem : ObjectGuid) (d : TradeData) : TradeData :=
  mkTrade (m_trader d) (m_accepted d) (m_acceptProccess d) (m_money d) spell castItem (m_items d)
    (m_lastModificationTime d) (m_scamPreventionDelay d).
Definition td_items (its : list ObjectGuid) (d : TradeData) : TradeData :=
  mkTrade (m_trader d) (m_accepted d) (m_acceptProccess d) (m_money d) (m_spell d) (m_spellCastItem d) its
    (m_lastModificationTime d) (m_scamPreventionDelay d).
Definition SetLastModificationTime (t : Z) (d : TradeData) : TradeData :=
  mkTrade (m_trader d) (m_accepted d) (m_acceptProccess d) (m_money d) (m_spell d) (m_spellCastItem d) (m_items d)
    t (m_scamPreventionDelay d).
Definition SetScamPreventionDelay (t : Z) (d : TradeData) : TradeData :=
  mkTrade (m_trader d) (m_accepted d) (m_acceptProccess d) (m_money d) (m_spell d) (m_spellCastItem d) (m_items d)
    (m_lastModificationTime d) t.

(** The world with the trades in it. *)
Record TWorld := mkTWorld { t_world : World; m_trade : gmap Z TradeData }.

Definition on_world (f : World -> World) (t : TWorld) : TWorld := mkTWorld (f (t_world t)) (m_trade t).
Definition upd_trade (k : Z) (f : TradeData -> TradeData) (t : TWorld) : TWorld := mkTWorld (t_world t) (alter f k (m_trade t)).
Definition put_trade (k : Z) (d : TradeData) (t : TWorld) : TWorld := mkTWorld (t_world t) (<[k := d]> (m_trade t)).
Definition del_trade (k : Z) (t : TWorld) : TWorld := mkTWorld (t_world t) (delete k (m_trade t)).
Definition character (k : Z) (t : TWorld) : option Player := w_players (t_world t) !! k.

(** What a trade window shows of an item that is not in [Item]. *)
Record ItemLook := mkLook {
  lk_DisplayInfoID : Z; lk_wrapped : bool; lk_giftCreator : ObjectGuid; lk_creator : ObjectGuid; lk_LockID : Z;
  lk_maxDurability : Z; lk_durability : Z
}.

(** Positions in an inventory, with counts. *)
Definition ItemPosCountVec : Type := list (Z * Z).

(** What trades ask of the rest of the server; characters are GUIDs. *)
Record TradeEnv := mkTradeEnv {
  IsFingerprintBanned : Z -> bool;
  isLogingOut : Z -> bool;
  m_playerRecentlyLogout : Z -> bool;
  IsAlive : Z -> bool;
  IsStunned : Z -> bool;
  IsTaxiFlying : Z -> bool;
  HasMap : Z -> bool;                                            (* FindMap() *)
  SameMap : Z -> Z -> bool;
  TooFar : Z -> Z -> bool;                                       (* GetDistance3dToCenter > TRADE_DISTANCE *)
  OnTradeInit : Z -> Z -> bool;                                  (* scripts *)
  OnTradeAccept : Z -> Z -> bool;
  GetItemByPos : Player -> Z -> Z -> option ObjectGuid;
  CanBeTradedEvenIfSoulBound : Item -> bool;
  SoulBoundTradeRefused : Player -> Z -> Item -> bool;           (* other map or group, or not of that raid *)
  Look : Item -> ItemLook;
  SpellExists : Z -> bool;
  CheckCast : Player -> Z -> option Item -> option Item -> Z;    (* caster, spell, cast item, target *)
  CanStoreItems : Player -> list (option Item) -> list (option Item) -> Z;   (* items that leave, items that come *)
  CanStoreAt : Player -> ItemPosCountVec -> Item -> Z * ItemPosCountVec;
  StoreAt : gmap ObjectGuid Item -> ItemPosCountVec -> Item -> gmap ObjectGuid Item;
  cfg_ALLOW_TWO_SIDE_INTERACTION_TRADE : bool
}.

Definition IsBankPos (bag slot : Z) : bool :=
  if (bag =? INVENTORY_SLOT_BAG_0) && ((BANK_SLOT_ITEM_START <=? slot) && (slot <? BANK_SLOT_ITEM_END)) then true
  else if (bag =? INVENTORY_SLOT_BAG_0) && ((BANK_SLOT_BAG_START <=? slot) && (slot <? BANK_SLOT_BAG_END)) then true
  else (BANK_SLOT_BAG_START <=? bag) && (bag <? BANK_SLOT_BAG_END).

(** ** Packets *)

Definition trade_status (status : Z) : list field :=
  if status =? TRADE_STATUS_BEGIN_TRADE then [FU32 status; FU64 0]
  else if status =? TRADE_STATUS_OPEN_WINDOW then [FU32 status]
  else if status =? TRADE_STATUS_CLOSE_WINDOW then [FU32 status; FU32 0; FU8 0; FU32 0]
  else if status =? TRADE_STATUS_ONLY_CONJURED then [FU32 status; FU8 0]
  else [FU32 status].

(** A message to the session of [k]: the pointer to the character must be valid. *)
Definition to_session (k : Z) (o : Out) (t : TWorld) : option TWorld :=
  _ ← character k t; Some (on_world (emit o) t).
Definition SendTradeStatus (k status : Z) : TWorld -> option TWorld :=
  to_session k (SendPacket k SMSG_TRADE_STATUS (trade_status status)).
Definition SendNotification (k : Z) : TWorld -> option TWorld := to_session k (Notification k).

(** [GetItem(slot)] of the trade [d] of [p]. *)
Definition GetItem (p : Player) (d : TradeData) (slot : nat) : option Item :=
  let guid := m_items d !!! slot in
  if IsEmpty guid then None else pl_items p !! guid.
Definition HasItem (guid : ObjectGuid) (d : TradeData) : bool := existsb (fun g => g =? guid) (m_items d).
Definition HasSpellCastItem (d : TradeData) : bool := negb (IsEmpty (m_spellCastItem d)).
Definition GetSpellCastItem (p : Player) (d : TradeData) : option Item :=
  if IsEmpty (m_spellCastItem d) then None else pl_items p !! m_spellCastItem d.

Definition trade_item_fields (T : TradeEnv) (it : option Item) : list field :=
  match it with
  | Some it =>
    let lk := Look T it in
    [FU32 (it_entry it); FU32 (lk_DisplayInfoID lk); FU32 (it_count it); FU32 (if lk_wrapped lk then 1 else 0);
     FU64 (lk_giftCreator lk); FU32 (it_enchant it); FU64 (lk_creator lk); FU32 (u32 (it_charges it)); FU32 (it_suffix it);
     FU32 (u32 (it_randomProperty it)); FU32 (lk_LockID lk); FU32 (lk_maxDurability lk); FU32 (lk_durability lk)]
  | None => replicate 15 (FU32 0)
  end.
Definition trade_window (T : TradeEnv) (trader_state : bool) (p : Player) (view : TradeData) : list field :=
  [FU8 (if trader_state then 1 else 0); FU32 (Z.of_nat TRADE_SLOT_COUNT); FU32 (Z.of_nat TRADE_SLOT_COUNT);
   FU32 (m_money view); FU32 (m_spell view)] ++
  flat_map (fun i => FU8 (Z.of_nat i) :: trade_item_fields T (GetItem p view i)) (seq 0 TRADE_SLOT_COUNT).

(** [SendUpdateTrade] of the session of [k]. *)
Definition SendUpdateTrade (T : TradeEnv) (k : Z) (trader_state : bool) (t : TWorld) : option TWorld :=
  mine ← m_trade t !! k;
  let viewed := if trader_state then m_trader mine else k in
  view ← m_trade t !! viewed;
  p ← character viewed t;
  to_session k (SendPacket k SMSG_TRADE_STATUS_EXTENDED (trade_window T trader_state p view)) t.

(** ** TradeData *)

Definition TradeUpdate (T : TradeEnv) (k : Z) (for_trader : bool) (t : TWorld) : option TWorld :=
  d ← m_trade t !! k;
  if for_trader then SendUpdateTrade T (m_trader d) true t else SendUpdateTrade T k false t.

Definition SetAccepted (k : Z) (state crosssend : bool) (t : TWorld) : option TWorld :=
  d ← m_trade t !! k;
  let t := upd_trade k (td_accepted state) t in
  if state then Some t
  else SendTradeStatus (if crosssend then m_trader d else k) TRADE_STATUS_BACK_TO_TRADE t.

(** Both sides lose their acceptance. *)
Definition unaccept_both (k trader : Z) (t : TWorld) : option TWorld :=
  t ← SetAccepted k false false t; SetAccepted trader false false t.

Definition SetSpell (T : TradeEnv) (k spell_id : Z) (castItem : ObjectGuid) (t : TWorld) : option TWorld :=
  d ← m_trade t !! k;
  if (m_spell d =? spell_id) && (m_spellCastItem d =? castItem) then Some t
  else
    t ← unaccept_both k (m_trader d) (upd_trade k (td_spell spell_id castItem) t);
    t ← TradeUpdate T k true t;
    TradeUpdate T k false t.

Definition SetItem (T : TradeEnv) (k : Z) (slot : nat) (guid : ObjectGuid) (t : TWorld) : option TWorld :=
  d ← m_trade t !! k;
  if m_items d !!! slot =? guid then Some t
  else
    t ← unaccept_both k (m_trader d) (upd_trade k (td_items (<[slot := guid]> (m_items d))) t);
    t ← TradeUpdate T k true t;
    t ← (if (slot =? TRADE_SLOT_NONTRADED)%nat then SetSpell T (m_trader d) 0 0 t else Some t);
    SetSpell T k 0 0 t.

Definition SetTradeMoney (T : TradeEnv) (k gold : Z) (t : TWorld) : option TWorld :=
  d ← m_trade t !! k;
  if m_money d =? gold then Some t
  else
    t ← unaccept_both k (m_trader d) (upd_trade k (td_money gold) t);
    TradeUpdate T k true t.

(** ** The end of a trade *)

Definition SendCancelTrade (T : TradeEnv) (k status : Z) (t : TWorld) : option TWorld :=
  if m_playerRecentlyLogout T k then Some t else SendTradeStatus k status t.

Definition TradeCancel (T : TradeEnv) (k : Z) (sendback : bool) (status : Z) (t : TWorld) : option TWorld :=
  match m_trade t !! k with
  | None => Some t
  | Some d =>
    t ← (if sendback then SendCancelTrade T k status t else Some t);
    t ← SendCancelTrade T (m_trader d) status t;
    _ ← character (m_trader d) t;
    Some (del_trade (m_trader d) (del_trade k t))
  end.

(** The part of [Spell::CheckCast] about a spell whose target is a slot of the
    trade window. *)
Definition CheckCast_trade (T : TradeEnv) (caster spell : Z) (castItem : ObjectGuid) (slot : Z) (t : TWorld) :
    SpellCastResult * option TWorld :=
  match m_trade t !! caster with
  | None => (SPELL_FAILED_NOT_TRADING, Some t)
  | Some d =>
    if negb (slot =? Z.of_nat TRADE_SLOT_NONTRADED) then (SPELL_FAILED_ITEM_NOT_READY, Some t)
    else if m_acceptProccess d then (SPELL_PASSED, Some t)
    else (SPELL_FAILED_DONT_REPORT, SetSpell T caster spell castItem t)
  end.
