(* ===== verification/TradeHandlers.v ===== *)
(** * TradeHandlers: the packets of a trade

    The handlers of src/src/game/Handlers/TradeHandler.cpp and the exchange
    they end in: both sides are checked, what they offer leaves their
    inventories, is stored on the other side slot by slot, and the gold
    changes hands. *)
From S2P Require Import Prelude ByteBuffer ObjectGuid EconomyData Mail Trade.

(** ** The exchange *)

Definition traded (p : Player) (d : TradeData) : list (option Item) := GetItem p d <$> seq 0 TRADE_SLOT_TRADED_COUNT.

(** The spell one side casts on the item of the other when the trade ends. *)
Inductive SpellCheck := SpellReady (spell : option (Z * option Item)) | SpellInvalid | SpellFailed (res : Z).

Definition check_spell (T : TradeEnv) (p : Player) (d : TradeData) (q : Player) (h : TradeData) : SpellCheck :=
  if m_spell d =? 0 then SpellReady None
  else
    let castItem := GetSpellCastItem p d in
    let target := GetItem q h TRADE_SLOT_NONTRADED in
    if negb (SpellExists T (m_spell d)) || bool_decide (target = None) || (HasSpellCastItem d && bool_decide (castItem = None))
    then SpellInvalid
    else
      let res := CheckCast T p (m_spell d) castItem target in
      if res =? SPELL_CAST_OK then SpellReady (Some (m_spell d, castItem)) else SpellFailed res.

Definition setAcceptTradeMode (b : bool) (me trader : Z) (t : TWorld) : TWorld :=
  upd_trade trader (SetInAcceptProcess b) (upd_trade me (SetInAcceptProcess b) t).

(** 1. remove: the items of a slot leave the inventories of their owners. *)
Definition remove_offer (T : TradeEnv) (k : Z) (it : option Item) (w : World) : World :=
  match it with
  | None => w
  | Some it =>
    MoveItemFromInventory k (it_guid it)
      (if IsEmpty (lk_giftCreator (Look T it)) then w else emit (SetGiftCreator (it_guid it) k) w)
  end.
Definition remove_slot (T : TradeEnv) (me trader : Z) (w : World) (s : option Item * option Item) : World :=
  remove_offer T trader (snd s) (remove_offer T me (fst s) w).

(** [CanStoreItem(NULL_BAG, NULL_SLOT, dst, item)]: appends to [dst]. *)
Definition can_store (T : TradeEnv) (p : Player) (dst : ItemPosCountVec) (it : option Item) : bool * ItemPosCountVec :=
  match it with
  | None => (true, dst)
  | Some it => let '(res, dst) := CanStoreAt T p dst it in (res =? EQUIP_ERR_OK, dst)
  end.
Definition MoveItemToInventory (T : TradeEnv) (k : Z) (dst : ItemPosCountVec) (it : Item) (w : World) : World :=
  upd_player k (fun p => set_items (StoreAt T (pl_items p) dst it) p) w.

(** [ResetSoulBoundTradeData] of a soulbound item: it cannot be traded on. *)
Definition ResetSoulBoundTradeData (it : Item) : Item :=
  mkItem (it_guid it) (it_entry it) (it_count it) (it_enchant it) (it_randomProperty it) (it_suffix it) (it_charges it)
    (it_duration it) (it_inBank it) (it_inWorld it) false (it_soulbound it) (it_boa it) (it_proto it).

(** One item goes [from] its owner [to] the other; the map it is announced on
    is that of [me]. *)
Definition hand_over (T : TradeEnv) (me from to : Z) (dst : ItemPosCountVec) (it : option Item) (w : World) : World :=
  match it with
  | None => w
  | Some it =>
    let w := emits [LogItem from (it_guid it); LogItem to (it_guid it)] w in
    if it_soulbound it && CanBeTradedEvenIfSoulBound T it then
      MoveItemToInventory T to dst (ResetSoulBoundTradeData it)
        (if bool_decide (ip_Name1 (it_proto it) = []) then w else emit (SendToMap me (it_guid it)) w)
    else MoveItemToInventory T to dst it w
  end.
Definition take_back (T : TradeEnv) (k : Z) (dst : ItemPosCountVec) (it : option Item) (w : World) : World :=
  match it, w_players w !! k with
  | Some i, Some p =>
    let '(ok, dst) := can_store T p dst it in
    if ok then MoveItemToInventory T k dst i w else w
  | _, _ => w
  end.

(** 2. store: one round of [moveItems]. An item that cannot be taken back is
    gone. *)
Definition move_slot (T : TradeEnv) (me trader : Z) (w : World) (s : option Item * option Item) : World :=
  let '(mine, his) := s in
  match w_players w !! me, w_players w !! trader with
  | Some p, Some q =>
    let '(traderCanTrade, traderDst) := can_store T q [] mine in
    let '(playerCanTrade, playerDst) := can_store T p [] his in
    if traderCanTrade && playerCanTrade then hand_over T me trader me playerDst his (hand_over T me me trader traderDst mine w)
    else take_back T trader traderDst his (take_back T me playerDst mine w)
  | _, _ => w
  end.

(** 3. the gold. *)
Definition pay_gold (E : Env) (me trader mine his : Z) (w : World) : World :=
  let w := ModifyMoney E (i32 (- i32 mine)) me w in
  let w := ModifyMoney E (i32 his) me w in
  let w := ModifyMoney E (i32 (- i32 his)) trader w in
  ModifyMoney E (i32 mine) trader w.

Definition prepare_spell (caster : Z) (sp : option (Z * option Item)) : list Out :=
  match sp with Some (spell, castItem) => [PrepareSpell caster spell (it_guid <$> castItem)] | None => [] end.

Definition exchange (E : Env) (T : TradeEnv) (me trader : Z) (d h : TradeData) (items : list (option Item * option Item))
    (my_spell his_spell : option (Z * option Item)) (w : World) : World :=
  let w := fold_left (remove_slot T me trader) items w in
  let w := fold_left (move_slot T me trader) items w in
  emits (prepare_spell me my_spell ++ prepare_spell trader his_spell) (pay_gold E me trader (m_money d) (m_money h) w).

(** One side has no room. *)
Definition no_space (E : Env) (me trader : Z) (t : TWorld) : option TWorld :=
  let t := setAcceptTradeMode false me trader t in
  t ← SendNotification me t;
  t ← SendNotification trader t;
  t ← unaccept_both me trader t;
  Some (upd_trade trader (SetLastModificationTime (now E)) t).

(** Both have accepted, and the spells can be cast. *)
Definition finish_trade (E : Env) (T : TradeEnv) (me trader : Z) (p q : Player) (d h : TradeData)
    (my_spell his_spell : option (Z * option Item)) (t : TWorld) : option TWorld :=
  t ← SendTradeStatus trader TRADE_STATUS_TRADE_ACCEPT t;
  let myItems := traded p d in
  let hisItems := traded q h in
  if negb (CanStoreItems T p myItems hisItems =? EQUIP_ERR_OK) then no_space E me trader t
  else if negb (CanStoreItems T q hisItems myItems =? EQUIP_ERR_OK) then no_space E me trader t
  else
    let t := on_world (exchange E T me trader d h (zip myItems hisItems) my_spell his_spell) t in
    let t := del_trade trader (del_trade me t) in
    let t := on_world (fun w => SaveInventoryAndGoldToDB trader (SaveInventoryAndGoldToDB me w)) t in
    t ← SendTradeStatus trader TRADE_STATUS_TRADE_COMPLETE t;
    SendTradeStatus me TRADE_STATUS_TRADE_COMPLETE t.

Definition accept_both (E : Env) (T : TradeEnv) (me trader : Z) (p q : Player) (d h : TradeData) (t : TWorld) : option TWorld :=
  let t := setAcceptTradeMode true me trader t in
  match check_spell T p d q h with
  | SpellInvalid => SetSpell T me 0 0 (setAcceptTradeMode false me trader t)
  | SpellFailed res => SetSpell T me 0 0 (setAcceptTradeMode false me trader (on_world (emit (SendCastResult me res)) t))
  | SpellReady my_spell =>
    match check_spell T q h p d with
    | SpellInvalid => t ← SetSpell T trader 0 0 t; Some (setAcceptTradeMode false me trader t)
    | SpellFailed res => SetSpell T trader 0 0 (setAcceptTradeMode false me trader (on_world (emit (SendCastResult trader res)) t))
    | SpellReady his_spell => finish_trade E T me trader p q d h my_spell his_spell t
    end
  end.

(** ** Handlers *)

Definition untradable (it : option Item) : bool := match it with Some it => negb (it_tradable it) | None => false end.

Definition HandleAcceptTradeOpcode (E : Env) (T : TradeEnv) (me : Z) (t : TWorld) : option TWorld :=
  p ← character me t;
  if IsFingerprintBanned T me || IsSuspicious E p then Some t
  else
    match m_trade t !! me with
    | None => Some t
    | Some d =>
      if (now E - m_lastModificationTime d) * 1000 <? m_scamPreventionDelay d then SendTradeStatus me TRADE_STATUS_BACK_TO_TRADE t
      else
        let t := upd_trade me (SetLastModificationTime (now E)) t in
        let trader := m_trader d in
        q ← character trader t;
        match m_trade t !! trader with
        | None => Some t
        | Some h =>
          t ← SetAccepted me true false t;
          if TooFar T me trader then SendTradeStatus me TRADE_STATUS_TARGET_TO_FAR t
          else if pl_money p <? m_money d then t ← SendNotification me t; SetAccepted me false true t
          else if pl_money q <? m_money h then t ← SendNotification trader t; SetAccepted trader false true t
          else if negb (cfg_GM_ALLOW_TRADES E) && ((SEC_PLAYER <? pl_security q) || (SEC_PLAYER <? pl_security p)) then
            SendTradeStatus me TRADE_STATUS_TRADE_CANCELED t
          else if existsb untradable (traded p d ++ traded q h) then SendTradeStatus me TRADE_STATUS_TRADE_CANCELED t
          else if negb (OnTradeAccept T me trader) then
            t ← SendTradeStatus me TRADE_STATUS_TRADE_REJECTED t; SetAccepted me false true t
          else if m_accepted h then accept_both E T me trader p q d h t
          else SendTradeStatus trader TRADE_STATUS_TRADE_ACCEPT t
        end
    end.

Definition HandleUnacceptTradeOpcode (me : Z) (t : TWorld) : option TWorld :=
  match m_trade t !! me with None => Some t | Some _ => SetAccepted me false true t end.

Definition HandleBeginTradeOpcode (T : TradeEnv) (me : Z) (t : TWorld) : option TWorld :=
  if IsFingerprintBanned T me then Some t
  else
    match m_trade t !! me with
    | None => Some t
    | Some d =>
      t ← SendTradeStatus (m_trader d) TRADE_STATUS_OPEN_WINDOW t;
      SendTradeStatus me TRADE_STATUS_OPEN_WINDOW t
    end.

Definition HandleIgnoreTradeOpcode (T : TradeEnv) (me : Z) : TWorld -> option TWorld := TradeCancel T me true TRADE_STATUS_IGNORE_YOU.
Definition HandleBusyTradeOpcode (T : TradeEnv) (me : Z) : TWorld -> option TWorld := TradeCancel T me true TRADE_STATUS_BUSY.
Definition HandleCancelTradeOpcode (T : TradeEnv) (me : Z) : TWorld -> option TWorld := TradeCancel T me true TRADE_STATUS_TRADE_CANCELED.

Inductive HardcoreInteractionResult := Allowed | NotHardcore | TargetNotHardcore | LevelLimitExceeded.
#[export] Instance HardcoreInteractionResult_dec : EqDecision HardcoreInteractionResult.
Proof. solve_decision. Defined.
Definition HandleHardcoreInteraction (p target : Player) (checkLevelDiff : bool) : HardcoreInteractionResult :=
  if negb (IsHardcore p) && negb (IsHardcore target) then Allowed
  else if IsHardcore p then
    if negb (IsHardcore target) then TargetNotHardcore
    else if checkLevelDiff && (5 <? Z.abs (i32 (pl_level p - pl_level target))) then LevelLimitExceeded
    else Allowed
  else if IsHardcore target then NotHardcore
  else Allowed.

(** [GetMap()->GetPlayer(otherGuid)]. *)
Definition player_on_map (T : TradeEnv) (me other : Z) (t : TWorld) : option Player :=
  q ← GetPlayer other (t_world t); if SameMap T me other then Some q else None.

Definition HandleInitiateTradeOpcode (E : Env) (T : TradeEnv) (me other : Z) (t : TWorld) : option TWorld :=
  p ← character me t;
  let refuse status := SendTradeStatus me status t in
  if IsFingerprintBanned T me then Some t
  else if bool_decide (is_Some (m_trade t !! me)) then Some t
  else if negb (IsAlive T me) then refuse TRADE_STATUS_YOU_DEAD
  else if IsStunned T me then refuse TRADE_STATUS_YOU_STUNNED
  else if isLogingOut T me then refuse TRADE_STATUS_YOU_LOGOUT
  else if IsTaxiFlying T me || negb (HasMap T me) then refuse TRADE_STATUS_TARGET_TO_FAR
  else
    match player_on_map T me other t with
    | None => refuse TRADE_STATUS_NO_TARGET
    | Some q =>
      if (other =? me) || bool_decide (is_Some (m_trade t !! other)) then refuse TRADE_STATUS_BUSY
      else if negb (IsAlive T other) then refuse TRADE_STATUS_TARGET_DEAD
      else if IsTaxiFlying T other then refuse TRADE_STATUS_TARGET_TO_FAR
      else if IsStunned T other then refuse TRADE_STATUS_TARGET_STUNNED
      else if isLogingOut T other then refuse TRADE_STATUS_TARGET_LOGOUT
      else if negb (cfg_ALLOW_TWO_SIDE_INTERACTION_TRADE T) && negb (pl_team q =? pl_team p) then refuse TRADE_STATUS_WRONG_FACTION
      else if TooFar T me other then refuse TRADE_STATUS_TARGET_TO_FAR
      else if negb (bool_decide (HandleHardcoreInteraction p q true = Allowed)) then
        t ← SendNotification me t; SendTradeStatus me TRADE_STATUS_TRIAL_ACCOUNT t
      else if negb (OnTradeInit T me other) then refuse TRADE_STATUS_TRADE_REJECTED
      else
        let t := put_trade me (SetScamPreventionDelay 200 (newTradeData other)) t in
        let t := put_trade other (SetScamPreventionDelay 200 (newTradeData me)) t in
        to_session other (SendPacket other SMSG_TRADE_STATUS [FU32 TRADE_STATUS_BEGIN_TRADE; FU64 me]) t
    end.

(** The head of the packets that change an offer: both trades, or the packet
    is ignored. *)
Definition with_trades (me : Z) (f : Z -> TradeData -> TWorld -> option TWorld) (t : TWorld) : option TWorld :=
  match m_trade t !! me with
  | None => Some t
  | Some d =>
    _ ← character (m_trader d) t;
    if bool_decide (is_Some (m_trade t !! m_trader d)) then f (m_trader d) d t else Some t
  end.

(** The other side is no longer accepted and both clocks start again. *)
Definition touch_trades (E : Env) (me trader : Z) (t : TWorld) : option TWorld :=
  t ← SetAccepted trader false false t;
  Some (upd_trade me (SetLastModificationTime (now E)) (upd_trade trader (SetLastModificationTime (now E)) t)).

Definition HandleSetTradeGoldOpcode (E : Env) (T : TradeEnv) (me gold : Z) : TWorld -> option TWorld :=
  with_trades me (fun trader d t =>
    p ← character me t;
    if pl_money p <? gold then Some t
    else t ← touch_trades E me trader t; SetTradeMoney T me gold t).

Definition HandleSetTradeItemOpcode (E : Env) (T : TradeEnv) (me tradeSlot bag slot : Z) : TWorld -> option TWorld :=
  with_trades me (fun trader d t =>
    p ← character me t;
    let refuse := SendTradeStatus me TRADE_STATUS_TRADE_CANCELED t in
    let nontraded := tradeSlot =? Z.of_nat TRADE_SLOT_NONTRADED in
    if Z.of_nat TRADE_SLOT_COUNT <=? tradeSlot then refuse
    else
      match (GetItemByPos T p bag slot ≫= fun guid => pl_items p !! guid) with
      | None => refuse
      | Some item =>
        if negb nontraded && negb (it_tradable item) then refuse
        else if negb nontraded && it_soulbound item && SoulBoundTradeRefused T p trader item then refuse
        else if IsBankPos bag slot then refuse
        else if HasItem (it_guid item) d then refuse
        else t ← touch_trades E me trader t; SetItem T me (Z.to_nat tradeSlot) (it_guid item) t
      end).

Definition HandleClearTradeItemOpcode (E : Env) (T : TradeEnv) (me tradeSlot : Z) : TWorld -> option TWorld :=
  with_trades me (fun trader d t =>
    if Z.of_nat TRADE_SLOT_COUNT <=? tradeSlot then Some t
    else t ← touch_trades E me trader t; SetItem T me (Z.to_nat tradeSlot) 0 t).
