(* ===== verification/TradeSafety.v ===== *)
(** * TradeSafety: trades come in pairs

    [together a b t]: [a] and [b] are online and trade with each other.
    [talks a b t t']: between [t] and [t'] only these two trades changed, only
    messages were sent, and either both offers are the same and nobody accepted,
    or nobody is accepted any more. Every operation on a trade talks. From this
    [sound], the invariant of every handler, and that no handler follows a null
    or dangling pointer. *)
From S2P Require Import Prelude ByteBuffer ObjectGuid EconomyData Mail EconomyFrame Trade TradeHandlers.

(** ** Programs that return *)

Definition ok (P : TWorld -> Prop) (o : option TWorld) : Prop := exists t, o = Some t /\ P t.

Lemma ok_Some (P : TWorld -> Prop) t : P t -> ok P (Some t).
Proof. intros H. by exists t. Qed.
Lemma ok_bind (Q P : TWorld -> Prop) o f : ok Q o -> (forall t, Q t -> ok P (f t)) -> ok P (o ≫= f).
Proof. intros (t & -> & Ht) Hf. exact (Hf t Ht). Qed.
Lemma ok_mono (Q P : TWorld -> Prop) o : ok Q o -> (forall t, Q t -> P t) -> ok P o.
Proof. intros (t & -> & Ht) H. exists t. auto. Qed.

(** ** Pairs *)

Definition slots_ok (its : list ObjectGuid) : Prop :=
  length its = TRADE_SLOT_COUNT /\
  forall i j g, its !! i = Some g -> its !! j = Some g -> g <> 0 -> i = j.

Record together (a b : Z) (t : TWorld) : Prop := {
  tg_ne : a <> b;
  tg_fst : exists d, m_trade t !! a = Some d /\ m_trader d = b;
  tg_snd : exists d, m_trade t !! b = Some d /\ m_trader d = a;
  tg_fst_online : is_Some (character a t);
  tg_snd_online : is_Some (character b t)
}.

Lemma together_sym a b t : together a b t -> together b a t.
Proof. intros []. by constructor. Qed.

Definition offer (d : TradeData) : Z * Z * ObjectGuid * list ObjectGuid := (m_money d, m_spell d, m_spellCastItem d, m_items d).

(** What no operation on a trade changes. *)
Definition kept (d d' : TradeData) : Prop :=
  m_trader d' = m_trader d /\ m_acceptProccess d' = m_acceptProccess d /\
  (slots_ok (m_items d) /\ 0 <= m_money d -> slots_ok (m_items d') /\ 0 <= m_money d').
#[export] Instance kept_refl : Reflexive kept.
Proof. by intros d. Qed.
#[export] Instance kept_trans : Transitive kept.
Proof. intros d1 d2 d3 (?&?&?) (?&?&?). split_and!; [congruence..|auto]. Qed.

Definition calm (da da' hb hb' : TradeData) : Prop :=
  (offer da' = offer da /\ offer hb' = offer hb /\ (m_accepted da' = true -> m_accepted da = true) /\
   (m_accepted hb' = true -> m_accepted hb = true)) \/
  (m_accepted da' = false /\ m_accepted hb' = false).

Lemma calm_trans da da' da'' hb hb' hb'' : calm da da' hb hb' -> calm da' da'' hb' hb'' -> calm da da'' hb hb''.
Proof.
  intros [(?&?&?&?)|[Ha Hb]] [(?&?&Hc&Hd)|[??]]; [left; split_and!; [congruence..|auto|auto]|by right| |by right].
  right. destruct (m_accepted da''), (m_accepted hb''); naive_solver.
Qed.

Definition talks (a b : Z) (t t' : TWorld) : Prop :=
  exists os da hb da' hb', t_world t' = emits os (t_world t) /\ m_trade t !! a = Some da /\ m_trade t !! b = Some hb /\
    m_trade t' = <[b := hb']> (<[a := da']> (m_trade t)) /\ kept da da' /\ kept hb hb' /\ calm da da' hb hb'.

Lemma emits_emits os os' w : emits os' (emits os w) = emits (os ++ os') w.
Proof. unfold emits. cbn. by rewrite (assoc_L (++)). Qed.
Lemma emits_nil w : emits [] w = w.
Proof. destruct w. unfold emits. cbn. by rewrite app_nil_r. Qed.

Section Pair.
Context (a b : Z).

Lemma talks_sym t t' : a <> b -> talks a b t t' -> talks b a t t'.
Proof.
  intros Hn (os & da & hb & da' & hb' & Hw & Ha & Hb & Hm & Hka & Hkb & Hc). exists os, hb, da, hb', da'. split_and!; try done.
  - by rewrite Hm, insert_insert_ne.
  - destruct Hc as [(?&?&?&?)|[??]]; [by left|by right].
Qed.

Lemma talks_together t t' : together a b t -> talks a b t t' -> together a b t'.
Proof.
  intros [Hn (da0 & Ha0 & Hta) (hb0 & Hb0 & Htb) Hca Hcb] (os & da & hb & da' & hb' & Hw & Ha & Hb & Hm & Hka & Hkb & _).
  simplify_eq. constructor; [done|..].
  - exists da'. rewrite Hm, lookup_insert_ne, lookup_insert_eq by done. split; [done|apply Hka].
  - exists hb'. rewrite Hm, lookup_insert_eq. split; [done|]. destruct Hkb as [-> _]. done.
  - unfold character. rewrite Hw. done.
  - unfold character. rewrite Hw. done.
Qed.

Lemma negotiates_refl t : together a b t -> talks a b t t.
Proof.
  intros [Hn (da & Ha & _) (hb & Hb & _) _ _]. exists [], da, hb, da, hb. rewrite emits_nil. split_and!; try done.
  - by rewrite (insert_id (m_trade t) a), insert_id.
  - left. done.
Qed.

Lemma negotiates_trans t1 t2 t3 : a <> b -> talks a b t1 t2 -> talks a b t2 t3 -> talks a b t1 t3.
Proof.
  intros Hn (os & da & hb & da' & hb' & Hw & Ha & Hb & Hm & Hka & Hkb & Hc)
    (os2 & da2 & hb2 & da2' & hb2' & Hw2 & Ha2 & Hb2 & Hm2 & Hka2 & Hkb2 & Hc2).
  rewrite Hm in Ha2, Hb2. rewrite lookup_insert_ne, lookup_insert_eq in Ha2 by done. rewrite lookup_insert_eq in Hb2. simplify_eq.
  exists (os ++ os2), da, hb, da2', hb2'. split_and!; try done.
  - by rewrite Hw2, Hw, emits_emits.
  - rewrite Hm2, Hm. apply map_eq. intros k. destruct (decide (k = b)) as [->|]; [by rewrite !lookup_insert_eq|].
    rewrite !(lookup_insert_ne _ b) by done. destruct (decide (k = a)) as [->|]; [by rewrite !lookup_insert_eq|].
    by rewrite !lookup_insert_ne.
  - by transitivity da2.
  - by transitivity hb2.
  - by eapply calm_trans.
Qed.
End Pair.

(** [k] is one of the two. *)
Definition one_of (a b k : Z) : Prop := k = a \/ k = b.

Lemma upd_trade_lookup k f t d : m_trade t !! k = Some d -> m_trade (upd_trade k f t) = <[k := f d]> (m_trade t).
Proof.
  intros Hk. cbn. apply map_eq. intros j. destruct (decide (j = k)) as [->|].
  - by rewrite lookup_alter_eq, lookup_insert_eq, Hk.
  - by rewrite lookup_alter_ne, lookup_insert_ne.
Qed.

Section Talk.
Context (T : TradeEnv) (a b : Z).

Lemma negotiates_emit o t : together a b t -> talks a b t (on_world (emit o) t).
Proof.
  intros [Hn (da & Ha & _) (hb & Hb & _) _ _]. exists [o], da, hb, da, hb. split_and!; try done.
  - cbn. by rewrite (insert_id (m_trade t) a), insert_id.
  - by left.
Qed.

(** A change of one trade that changes no offer and accepts nothing. *)
Lemma talks_upd k f t : together a b t -> one_of a b k -> (forall d, kept d (f d)) -> (forall d, offer (f d) = offer d) ->
  (forall d, m_accepted (f d) = true -> m_accepted d = true) -> talks a b t (upd_trade k f t).
Proof.
  intros [Hn (da & Ha & _) (hb & Hb & _) _ _] Hk Hkept Hoff Hacc.
  destruct Hk as [-> | ->].
  - exists [], da, hb, (f da), hb. rewrite emits_nil. rewrite (upd_trade_lookup _ f t _ Ha). split_and!; try done.
    + rewrite (insert_id _ b hb); [done|]. by rewrite lookup_insert_ne.
    + left. auto.
  - exists [], da, hb, da, (f hb). rewrite emits_nil. rewrite (upd_trade_lookup _ f t _ Hb). split_and!; try done.
    + by rewrite (insert_id (m_trade t) a).
    + left. auto.
Qed.

Lemma ok_to_session k o t : together a b t -> one_of a b k -> ok (talks a b t) (to_session k o t).
Proof.
  intros Ht Hk. unfold to_session. assert (is_Some (character k t)) as [p Hp] by (destruct Ht, Hk; by subst).
  rewrite Hp. apply ok_Some. by apply negotiates_emit.
Qed.
Lemma ok_SendTradeStatus k s t : together a b t -> one_of a b k -> ok (talks a b t) (SendTradeStatus k s t).
Proof. apply ok_to_session. Qed.
Lemma ok_SendNotification k t : together a b t -> one_of a b k -> ok (talks a b t) (SendNotification k t).
Proof. apply ok_to_session. Qed.

(** Sequences of operations of the pair. *)
Lemma ok_then t o f : together a b t -> ok (talks a b t) o -> (forall t', together a b t' -> ok (talks a b t') (f t')) ->
  ok (talks a b t) (o ≫= f).
Proof.
  intros Ht Ho Hf. eapply ok_bind; [exact Ho|]. intros t' Htt. eapply ok_mono; [by apply Hf, (talks_together a b t)|].
  intros t2. apply negotiates_trans; [apply Ht|done].
Qed.

Lemma trade_lookup k t : together a b t -> one_of a b k ->
  exists d, m_trade t !! k = Some d /\ m_trader d = (if k =? a then b else a).
Proof.
  intros [Hn Ha Hb _ _] [-> | ->]; [by rewrite Z.eqb_refl|]. by rewrite (proj2 (Z.eqb_neq b a)) by done.
Qed.
Lemma partner_one_of k : one_of a b (if k =? a then b else a).
Proof. destruct (k =? a); [by right|by left]. Qed.

Lemma ok_SetAccepted k cross t : together a b t -> one_of a b k -> ok (talks a b t) (SetAccepted k false cross t).
Proof.
  intros Ht Hk. destruct (trade_lookup k t Ht Hk) as (d & Hd & Htr). unfold SetAccepted. rewrite Hd. cbn [mbind option_bind].
  assert (talks a b t (upd_trade k (td_accepted false) t)) as Hu by by apply talks_upd.
  eapply ok_mono; [apply ok_SendTradeStatus; [by apply (talks_together a b t)|]|].
  - destruct cross; [rewrite Htr; apply partner_one_of|done].
  - intros t2. apply negotiates_trans; [apply Ht|done].
Qed.

Lemma ok_SendUpdateTrade k s t : together a b t -> one_of a b k -> ok (talks a b t) (SendUpdateTrade T k s t).
Proof.
  intros Ht Hk. destruct (trade_lookup k t Ht Hk) as (d & Hd & Htr). unfold SendUpdateTrade. rewrite Hd. cbn [mbind option_bind].
  assert (one_of a b (if s then m_trader d else k)) as Hv by (destruct s; [rewrite Htr; apply partner_one_of|done]).
  set (v := if s then m_trader d else k) in *. clearbody v.
  destruct (trade_lookup v t Ht Hv) as (dv & Hdv & _). rewrite Hdv. cbn [mbind option_bind].
  assert (is_Some (character v t)) as [p Hp] by (destruct Ht, Hv; by subst).
  rewrite Hp. cbn [mbind option_bind]. by apply ok_to_session.
Qed.

Lemma ok_TradeUpdate k s t : together a b t -> one_of a b k -> ok (talks a b t) (TradeUpdate T k s t).
Proof.
  intros Ht Hk. destruct (trade_lookup k t Ht Hk) as (d & Hd & Htr). unfold TradeUpdate. rewrite Hd. cbn [mbind option_bind].
  destruct s; apply ok_SendUpdateTrade; try done. rewrite Htr. apply partner_one_of.
Qed.
End Talk.
Create HintDb trade.
#[export] Hint Resolve ok_SendTradeStatus ok_SendNotification ok_SetAccepted ok_TradeUpdate : trade.

(** ** Changes of an offer *)

(** A change of one offer that ends both acceptances. *)
Lemma ok_change a b k f t : together a b t -> one_of a b k -> (forall d, m_trade t !! k = Some d -> kept d (f d)) ->
  ok (talks a b t) (unaccept_both k (if k =? a then b else a) (upd_trade k f t)).
Proof.
  intros Ht Hk Hf. destruct Ht as [Hn (da & Ha & Hta) (hb & Hb & Htb) [p Hp] [q Hq]].
  assert (b =? a = false) as Hba by by apply Z.eqb_neq.
  destruct Hk as [-> | ->]; rewrite ?Z.eqb_refl, ?Hba; unfold unaccept_both, SetAccepted, SendTradeStatus, to_session.
  - specialize (Hf da Ha). cbn. rewrite !lookup_alter_eq, Ha. cbn. unfold character in *. cbn. rewrite Hp. cbn.
    rewrite !lookup_alter_ne, Hb by done. cbn. rewrite Hq. cbn. apply ok_Some.
    eexists [_; _], da, hb, (td_accepted false (f da)), (td_accepted false hb). refine (conj _ (conj Ha (conj Hb (conj _ (conj _ (conj _ (or_intror (conj eq_refl eq_refl))))))));
      [| |done..].
    + cbn. unfold emit. by rewrite emits_emits.
    + cbn. apply map_eq. intros j. destruct (decide (j = b)) as [->|]; [by rewrite lookup_insert_eq, lookup_alter_eq, !lookup_alter_ne, Hb|].
      rewrite lookup_insert_ne, lookup_alter_ne by done. destruct (decide (j = a)) as [->|].
      * by rewrite lookup_insert_eq, !lookup_alter_eq, Ha.
      * by rewrite lookup_insert_ne, !lookup_alter_ne.
  - specialize (Hf hb Hb). cbn. rewrite !lookup_alter_eq, Hb. cbn. unfold character in *. cbn. rewrite Hq. cbn.
    rewrite !lookup_alter_ne, Ha by done. cbn. rewrite Hp. cbn. apply ok_Some.
    eexists [_; _], da, hb, (td_accepted false da), (td_accepted false (f hb)). refine (conj _ (conj Ha (conj Hb (conj _ (conj _ (conj _ (or_intror (conj eq_refl eq_refl))))))));
      [| |done..].
    + cbn. unfold emit. by rewrite emits_emits.
    + cbn. apply map_eq. intros j. destruct (decide (j = b)) as [->|]; [by rewrite lookup_insert_eq, lookup_alter_ne, !lookup_alter_eq, Hb by done|].
      rewrite lookup_insert_ne by done. destruct (decide (j = a)) as [->|].
      * by rewrite lookup_insert_eq, lookup_alter_eq, !lookup_alter_ne, Ha.
      * by rewrite lookup_insert_ne, !lookup_alter_ne.
Qed.

Lemma slots_ok_insert its slot g : slots_ok its -> (g = 0 \/ g ∉ its) -> slots_ok (<[slot := g]> its).
Proof.
  intros [Hl Hu] Hg. split; [by rewrite length_insert|]. intros i j x Hi Hj Hx.
  rewrite list_lookup_insert_Some in Hi, Hj.
  destruct Hi as [(<- & <- & ?)|[? Hi]], Hj as [(<- & He & ?)|[? Hj]]; [done| | |by eapply Hu].
  - destruct Hg as [->|Hg]; [done|]. destruct Hg. by apply list_elem_of_lookup_2 in Hj.
  - subst x. destruct Hg as [->|Hg]; [done|]. destruct Hg. by apply list_elem_of_lookup_2 in Hi.
Qed.

Section Change.
Context (T : TradeEnv) (a b : Z).

Lemma ok_SetSpell k s c t : together a b t -> one_of a b k -> ok (talks a b t) (SetSpell T k s c t).
Proof.
  intros Ht Hk. destruct (trade_lookup a b k t Ht Hk) as (d & Hd & Htr). unfold SetSpell. rewrite Hd. cbn [mbind option_bind].
  destruct (_ && _); [by apply ok_Some, negotiates_refl|]. rewrite Htr.
  apply ok_then; [done|by apply ok_change|]. intros t1 Ht1. apply ok_then; auto with trade.
Qed.

Lemma ok_SetTradeMoney k g t : together a b t -> one_of a b k -> 0 <= g -> ok (talks a b t) (SetTradeMoney T k g t).
Proof.
  intros Ht Hk Hg. destruct (trade_lookup a b k t Ht Hk) as (d & Hd & Htr). unfold SetTradeMoney. rewrite Hd. cbn [mbind option_bind].
  destruct (m_money d =? g); [by apply ok_Some, negotiates_refl|]. rewrite Htr.
  apply ok_then; [done|apply ok_change; [done..|]|auto with trade]. intros d' _. split_and!; naive_solver.
Qed.

Lemma ok_SetItem k slot g t : together a b t -> one_of a b k ->
  (g = 0 \/ forall d, m_trade t !! k = Some d -> g ∉ m_items d) -> ok (talks a b t) (SetItem T k slot g t).
Proof.
  intros Ht Hk Hg. destruct (trade_lookup a b k t Ht Hk) as (d & Hd & Htr). unfold SetItem. rewrite Hd. cbn [mbind option_bind].
  destruct (m_items d !!! slot =? g); [by apply ok_Some, negotiates_refl|]. rewrite Htr.
  apply ok_then; [done|apply ok_change; [done..|]|].
  - intros d' Hd'. simplify_eq. split_and!; [done..|]. intros [Hs Hm]. split; [|done]. apply slots_ok_insert; [done|]. naive_solver.
  - intros t1 Ht1. apply ok_then; [done|auto with trade|]. intros t2 Ht2. apply ok_then; [done| |].
    + destruct (slot =? TRADE_SLOT_NONTRADED)%nat; [|by apply ok_Some, negotiates_refl]. apply ok_SetSpell; [done|]. apply partner_one_of.
    + intros t3 Ht3. by apply ok_SetSpell.
Qed.
End Change.
#[export] Hint Resolve ok_SetSpell ok_SetTradeMoney : trade.

(** ** The invariant *)

Record trade_ok (t : TWorld) (k : Z) (d : TradeData) : Prop := {
  to_together : together k (m_trader d) t;
  to_idle : m_acceptProccess d = false;
  to_slots : slots_ok (m_items d) /\ 0 <= m_money d
}.
Definition sound (t : TWorld) : Prop := map_Forall (trade_ok t) (m_trade t).

(** The trade of [k] and [b] cannot be with somebody else. *)
Lemma sound_partner t k a b d : sound t -> together a b t -> m_trade t !! k = Some d -> k <> a -> k <> b ->
  m_trader d <> a /\ m_trader d <> b.
Proof.
  intros Hs [_ (da & Ha & Hta) (hb & Hb & Htb) _ _] Hk Hka Hkb. destruct (to_together _ _ _ (Hs k d Hk)) as [_ _ (h & Hh & Hth) _ _].
  split; intros He; rewrite He in Hh; simplify_eq.
Qed.

Lemma sound_talks a b t t' : together a b t -> sound t -> talks a b t t' -> sound t'.
Proof.
  intros Ht Hs Htalk. pose proof (talks_together a b t t' Ht Htalk) as Ht'.
  destruct Htalk as (os & da & hb & da' & hb' & Hw & Ha & Hb & Hm & (Hta & Hpa & Hia) & (Htb & Hpb & Hib) & _).
  pose proof (Hs a da Ha) as [_ Hi1 Hs1]. pose proof (Hs b hb Hb) as [_ Hi2 Hs2].
  pose proof Ht as [Hn (da0 & Ha0 & Htra) (hb0 & Hb0 & Htrb) _ _].
  rewrite Ha in Ha0. injection Ha0 as <-. rewrite Hb in Hb0. injection Hb0 as <-.
  intros k d Hk. rewrite Hm in Hk. destruct (decide (k = b)) as [->|Hkb].
  { rewrite lookup_insert_eq in Hk. injection Hk as <-. constructor; [|congruence|auto].
    rewrite Htb, Htrb. by apply together_sym. }
  rewrite lookup_insert_ne in Hk by done. destruct (decide (k = a)) as [->|Hka].
  { rewrite lookup_insert_eq in Hk. injection Hk as <-. constructor; [|congruence|auto]. rewrite Hta, Htra. done. }
  rewrite lookup_insert_ne in Hk by done. destruct (Hs k d Hk) as [[Hnk (d1 & Hd1 & ?) (h & Hh & Hth) Hc1 Hc2] Hi Hsl].
  destruct (sound_partner t k _ _ d Hs Ht Hk Hka Hkb) as [Hn1 Hn2]. constructor; [|done|done].
  constructor.
  - done.
  - exists d. by rewrite Hm, !lookup_insert_ne.
  - exists h. by rewrite Hm, !lookup_insert_ne.
  - unfold character. rewrite Hw. done.
  - unfold character. rewrite Hw. done.
Qed.
