(* ===== verification/TradeSteps.v ===== *)
(** * TradeSteps: every event is a step of the protocol

    The protocol of a trade, as a relation: two characters [starts], [talks],
    one [agrees], the trade [ends], or the [deal] is made. [outcome] joins
    them, and every packet and every other event of a trade has one
    ([trade_refines]), without following a null or dangling pointer. *)
From S2P Require Import Prelude ByteBuffer ObjectGuid EconomyData Mail EconomyFrame Trade TradeHandlers TradeSafety.

(** ** The protocol *)

Definition starts (a b : Z) (t t' : TWorld) : Prop :=
  a <> b /\ m_trade t !! a = None /\ m_trade t !! b = None /\ is_Some (character a t) /\ is_Some (character b t) /\
  (exists os, t_world t' = emits os (t_world t)) /\
  m_trade t' = <[b := SetScamPreventionDelay 200 (newTradeData a)]> (<[a := SetScamPreventionDelay 200 (newTradeData b)]> (m_trade t)).

Definition ends (a b : Z) (t t' : TWorld) : Prop :=
  (exists os, t_world t' = emits os (t_world t)) /\ m_trade t' = delete b (delete a (m_trade t)).

(** [a] accepts what is on the table at time [now]. *)
Definition agrees (E : Env) (a b : Z) (t t' : TWorld) : Prop :=
  t' = upd_trade a (td_accepted true) (upd_trade a (SetLastModificationTime (now E)) t).

(** What [a] finds when the deal can be made. *)
Record deal_ready (T : TradeEnv) (a b : Z) (p q : Player) (d h : TradeData) (sa sb : option (Z * option Item)) (t : TWorld) : Prop := {
  dr_a : character a t = Some p;
  dr_b : character b t = Some q;
  dr_my_trade : m_trade t !! a = Some d;
  dr_his_trade : m_trade t !! b = Some h;
  dr_my_accept : m_accepted d = true;
  dr_his_accept : m_accepted h = true;
  dr_near : TooFar T a b = false;
  dr_my_money : m_money d <= pl_money p;
  dr_his_money : m_money h <= pl_money q;
  dr_tradable : forall it, Some it ∈ traded p d ++ traded q h -> it_tradable it = true;
  dr_my_spell : check_spell T p d q h = SpellReady sa;
  dr_his_spell : check_spell T q h p d = SpellReady sb;
  dr_my_room : CanStoreItems T p (traded p d) (traded q h) = EQUIP_ERR_OK;
  dr_his_room : CanStoreItems T q (traded q h) (traded p d) = EQUIP_ERR_OK
}.
Definition dealt (E : Env) (T : TradeEnv) (a b : Z) (p q : Player) (d h : TradeData) (sa sb : option (Z * option Item)) (t t' : TWorld) : Prop :=
  (exists os os', t_world t' =
    emits os' (SaveInventoryAndGoldToDB b (SaveInventoryAndGoldToDB a
      (exchange E T a b d h (zip (traded p d) (traded q h)) sa sb (emits os (t_world t)))))) /\
  m_trade t' = delete b (delete a (m_trade t)).
Definition deal (E : Env) (T : TradeEnv) (a b : Z) (t t' : TWorld) : Prop :=
  exists p q d h sa sb, deal_ready T a b p q d h sa sb t /\ dealt E T a b p q d h sa sb t t'.

(** [x]: it is the packet that accepts. *)
Inductive outcome (E : Env) (T : TradeEnv) (x : bool) (a : Z) (t t' : TWorld) : Prop :=
  | out_idle os : t_world t' = emits os (t_world t) -> m_trade t' = m_trade t -> outcome E T x a t t'
  | out_start b : starts a b t t' -> outcome E T x a t t'
  | out_talk b : together a b t -> talks a b t t' -> outcome E T x a t t'
  | out_agree b t1 : x = true -> together a b t -> agrees E a b t t1 -> talks a b t1 t' -> outcome E T x a t t'
  | out_deal b t1 : x = true -> together a b t -> agrees E a b t t1 -> deal E T a b t1 t' -> outcome E T x a t t'
  | out_end b : together a b t -> ends a b t t' -> outcome E T x a t t'.

(** ** Steps keep the invariant *)

Lemma together_agrees E a b t t1 : together a b t -> agrees E a b t t1 -> together a b t1.
Proof.
  intros [Hn (d & Hd & Hdt) (h & Hh & Hht) Hca Hcb] ->. constructor; try done.
  - exists (td_accepted true (SetLastModificationTime (now E) d)). cbn. rewrite !lookup_alter_eq, Hd. done.
  - exists h. cbn. by rewrite !lookup_alter_ne.
Qed.

Lemma sound_agrees E a b t t1 : sound t -> agrees E a b t t1 -> sound t1.
Proof.
  intros Hs ->. set (f := fun d => td_accepted true (SetLastModificationTime (now E) d)).
  assert (forall k, m_trade (upd_trade a (td_accepted true) (upd_trade a (SetLastModificationTime (now E)) t)) !! k =
    (if decide (k = a) then f else id) <$> m_trade t !! k) as Hl.
  { intros k. cbn. case_decide as Hk; [subst; rewrite !lookup_alter_eq; by destruct (m_trade t !! a)|].
    rewrite !lookup_alter_ne by done. by destruct (m_trade t !! k). }
  intros k d Hk. rewrite Hl in Hk. destruct (m_trade t !! k) as [d0|] eqn:Hk0; [|done]. cbn in Hk. injection Hk as <-.
  destruct (Hs k d0 Hk0) as [[Hn _ (h & Hh & Hht) Hca Hcb] Hi Hsl].
  assert (forall k d, m_trader ((if decide (k = a) then f else id) d) = m_trader d) as Htr by (intros k' d'; by case_decide).
  constructor.
  - rewrite Htr. constructor; [done|..|done|done].
    + eexists. rewrite Hl, Hk0. split; [done|]. apply Htr.
    + eexists. rewrite Hl, Hh. split; [done|]. by rewrite Htr.
  - by case_decide.
  - by case_decide.
Qed.

(** Trades that end leave the others alone. *)
Lemma sound_delete a b t t' : sound t -> together a b t -> m_trade t' = delete b (delete a (m_trade t)) ->
  (forall k, is_Some (character k t) -> is_Some (character k t')) -> sound t'.
Proof.
  intros Hs Ht Hm Hc k d Hk. rewrite Hm in Hk. apply lookup_delete_Some in Hk as [Hkb Hk]. apply lookup_delete_Some in Hk as [Hka Hk].
  destruct (Hs k d Hk) as [[Hn (d1 & Hd1 & Hd1t) (h & Hh & Hht) Hc1 Hc2] Hi Hsl].
  destruct (sound_partner t k a b d Hs Ht Hk) as [Hna Hnb]; [done..|]. constructor; [|done|done].
  constructor; auto.
  - exists d. by rewrite Hm, !lookup_delete_ne by done.
  - exists h. by rewrite Hm, !lookup_delete_ne by done.
Qed.

Lemma sound_ends a b t t' : sound t -> together a b t -> ends a b t t' -> sound t'.
Proof.
  intros Hs Ht [[os Hw] Hm]. apply (sound_delete a b t t' Hs Ht Hm). intros k. unfold character. by rewrite Hw.
Qed.

Lemma new_trade_ok a b t : together a b t -> trade_ok t a (SetScamPreventionDelay 200 (newTradeData b)).
Proof.
  intros Ht. constructor; [done|done|]. split; [|done]. split; [done|]. intros i j g Hi Hj Hg. apply lookup_replicate_1 in Hi as [-> _]. done.
Qed.

Lemma sound_starts a b t t' : sound t -> starts a b t t' -> sound t'.
Proof.
  intros Hs (Hn & Ha & Hb & Hca & Hcb & [os Hw] & Hm).
  assert (together a b t') as Ht.
  { constructor; [done|..|unfold character; by rewrite Hw|unfold character; by rewrite Hw].
    - eexists. rewrite Hm, lookup_insert_ne, lookup_insert_eq by done. done.
    - eexists. rewrite Hm, lookup_insert_eq. done. }
  intros k d Hk. rewrite Hm in Hk. destruct (decide (k = b)) as [->|Hkb].
  { rewrite lookup_insert_eq in Hk. injection Hk as <-. by apply new_trade_ok, together_sym. }
  rewrite lookup_insert_ne in Hk by done. destruct (decide (k = a)) as [->|Hka].
  { rewrite lookup_insert_eq in Hk. injection Hk as <-. by apply new_trade_ok. }
  rewrite lookup_insert_ne in Hk by done. destruct (Hs k d Hk) as [[Hnk (d1 & Hd1 & ?) (h & Hh & Hht) Hc1 Hc2] Hi Hsl].
  constructor; [|done|done]. constructor; [done|..|unfold character; by rewrite Hw|unfold character; by rewrite Hw].
  - exists d. rewrite Hm, !lookup_insert_ne by done. simplify_eq. done.
  - exists h. rewrite Hm, !lookup_insert_ne by congruence. done.
Qed.

(** ** The exchange leaves everybody online *)

Definition same_online (w w' : World) : Prop := forall k, is_Some (w_players w !! k) <-> is_Some (w_players w' !! k).
#[export] Instance same_online_refl : Reflexive same_online.
Proof. by intros w k. Qed.
#[export] Instance same_online_trans : Transitive same_online.
Proof. intros w1 w2 w3 H1 H2 k. by rewrite (H1 k), (H2 k). Qed.

Lemma online_upd k f w : same_online w (upd_player k f w).
Proof.
  intros j. cbn. destruct (decide (j = k)) as [->|]; [rewrite lookup_alter_eq; by destruct (w_players w !! k)|by rewrite lookup_alter_ne].
Qed.
Lemma online_ModifyMoney E d k w : same_online w (ModifyMoney E d k w).
Proof. unfold ModifyMoney. destruct (w_players w !! k); [|done]. case_match; apply online_upd. Qed.
Lemma online_SaveInventoryAndGoldToDB k w : same_online w (SaveInventoryAndGoldToDB k w).
Proof. unfold SaveInventoryAndGoldToDB, SaveGoldToDB. cbn. by destruct (w_players w !! k). Qed.

Lemma online_remove_offer T k it w : same_online w (remove_offer T k it w).
Proof. destruct it as [it|]; [|done]. cbn. unfold MoveItemFromInventory. rewrite <- online_upd. by destruct (IsEmpty _). Qed.
Lemma online_hand_over T me from to dst it w : same_online w (hand_over T me from to dst it w).
Proof.
  destruct it as [it|]; [|done]. cbn. unfold MoveItemToInventory. destruct (_ && _); rewrite <- online_upd; [|done].
  by case_bool_decide.
Qed.
Lemma online_take_back T k dst it w : same_online w (take_back T k dst it w).
Proof.
  unfold take_back. destruct it as [it|]; [|done]. destruct (w_players w !! k); [|done].
  destruct (can_store _ _ _ _) as [[] ?]; [apply online_upd|done].
Qed.
Lemma online_remove_slot T a b w s : same_online w (remove_slot T a b w s).
Proof. unfold remove_slot. by rewrite <- online_remove_offer, <- online_remove_offer. Qed.
Lemma online_move_slot T a b w s : same_online w (move_slot T a b w s).
Proof.
  destruct s as [mine his]. cbn. destruct (w_players w !! a); [|done]. destruct (w_players w !! b); [|done].
  destruct (can_store T _ _ mine) as [x ?], (can_store T _ _ his) as [y ?]. destruct (x && y).
  - by rewrite <- online_hand_over, <- online_hand_over.
  - by rewrite <- online_take_back, <- online_take_back.
Qed.
Lemma online_fold {A} (f : World -> A -> World) l w : (forall w x, same_online w (f w x)) -> same_online w (fold_left f l w).
Proof. intros Hf. revert w. induction l as [|x l IH]; intros w; cbn; [done|]. by rewrite <- IH. Qed.
Lemma online_emits os w : same_online w (emits os w).
Proof. done. Qed.
Lemma online_pay_gold E a b x y w : same_online w (pay_gold E a b x y w).
Proof. unfold pay_gold. cbv zeta. do 3 (etransitivity; [apply online_ModifyMoney|]). apply online_ModifyMoney. Qed.
Lemma online_exchange E T a b d h items sa sb w : same_online w (exchange E T a b d h items sa sb w).
Proof.
  unfold exchange. cbv zeta. etransitivity; [apply (online_fold (remove_slot T a b) items); intros; apply online_remove_slot|].
  etransitivity; [apply (online_fold (move_slot T a b) items); intros; apply online_move_slot|].
  etransitivity; [apply online_pay_gold|apply online_emits].
Qed.

Lemma dealt_online E T a b p q d h sa sb t t' k : dealt E T a b p q d h sa sb t t' -> is_Some (character k t) <-> is_Some (character k t').
Proof.
  intros [(os & os' & Hw) _]. unfold character. rewrite Hw. generalize k.
  change (same_online (t_world t) (emits os' (SaveInventoryAndGoldToDB b (SaveInventoryAndGoldToDB a
    (exchange E T a b d h (zip (traded p d) (traded q h)) sa sb (emits os (t_world t))))))).
  etransitivity; [apply (online_emits os)|]. etransitivity; [apply online_exchange|].
  etransitivity; [apply online_SaveInventoryAndGoldToDB|]. etransitivity; [apply online_SaveInventoryAndGoldToDB|]. apply online_emits.
Qed.

Lemma sound_outcome E T x a t t' : sound t -> outcome E T x a t t' -> sound t'.
Proof.
  intros Hs [os Hw Hm|b Ho|b Ht Ho|b t1 _ Ht Ha Ho|b t1 _ Ht Ha (p & q & d & h & sa & sb & _ & Ho)|b Ht Ho].
  - intros k d Hk. rewrite Hm in Hk. destruct (Hs k d Hk) as [[Hn H1 H2 Hc1 Hc2] Hi Hsl]. constructor; [|done|done].
    constructor; [done|by rewrite Hm|by rewrite Hm|unfold character; by rewrite Hw|unfold character; by rewrite Hw].
  - by eapply sound_starts.
  - by eapply sound_talks.
  - eapply sound_talks; [by eapply together_agrees| |done]. by eapply sound_agrees.
  - pose proof Ho as [_ Hm]. eapply sound_delete; [by eapply sound_agrees|by eapply together_agrees|done|].
    intros k Hk. by rewrite <- (dealt_online _ _ _ _ _ _ _ _ _ _ _ _ k Ho).
  - by eapply sound_ends.
Qed.

(** ** Events *)

Inductive tpacket :=
  | CMSG_INITIATE_TRADE (other : Z)
  | CMSG_BEGIN_TRADE
  | CMSG_BUSY_TRADE
  | CMSG_IGNORE_TRADE
  | CMSG_ACCEPT_TRADE
  | CMSG_UNACCEPT_TRADE
  | CMSG_CANCEL_TRADE
  | CMSG_SET_TRADE_ITEM (tradeSlot bag slot : Z)
  | CMSG_CLEAR_TRADE_ITEM (tradeSlot : Z)
  | CMSG_SET_TRADE_GOLD (gold : Z).

Definition handle_trade (E : Env) (T : TradeEnv) (me : Z) (pk : tpacket) : TWorld -> option TWorld :=
  match pk with
  | CMSG_INITIATE_TRADE other => HandleInitiateTradeOpcode E T me other
  | CMSG_BEGIN_TRADE => HandleBeginTradeOpcode T me
  | CMSG_BUSY_TRADE => HandleBusyTradeOpcode T me
  | CMSG_IGNORE_TRADE => HandleIgnoreTradeOpcode T me
  | CMSG_ACCEPT_TRADE => HandleAcceptTradeOpcode E T me
  | CMSG_UNACCEPT_TRADE => HandleUnacceptTradeOpcode me
  | CMSG_CANCEL_TRADE => HandleCancelTradeOpcode T me
  | CMSG_SET_TRADE_ITEM s b i => HandleSetTradeItemOpcode E T me s b i
  | CMSG_CLEAR_TRADE_ITEM s => HandleClearTradeItemOpcode E T me s
  | CMSG_SET_TRADE_GOLD g => HandleSetTradeGoldOpcode E T me g
  end.

(** A packet of a trade, a spell cast on a slot of the trade window, or a
    character who stops trading: by taking a taxi, walking away, leaving the
    world, or turning hardcore. *)
Inductive tevent :=
  | EPacket (me : Z) (pk : tpacket)
  | ECast (caster spell : Z) (castItem : ObjectGuid) (slot : Z)
  | ECancel (k : Z) (sendback : bool) (status : Z).

Definition handle_event (E : Env) (T : TradeEnv) (e : tevent) (t : TWorld) : option TWorld :=
  match e with
  | EPacket me pk => handle_trade E T me pk t
  | ECast k spell castItem slot => snd (CheckCast_trade T k spell castItem slot t)
  | ECancel k sendback status => TradeCancel T k sendback status t
  end.
Definition actor (e : tevent) : Z := match e with EPacket me _ => me | ECast k _ _ _ => k | ECancel k _ _ => k end.

(** ** Accepting *)

Lemma sound_together t a d : sound t -> m_trade t !! a = Some d -> together a (m_trader d) t.
Proof. intros Hs Ha. apply (Hs a d Ha). Qed.

Section Accepting.
Context (a b : Z).

Definition idle_pair (t : TWorld) : Prop :=
  together a b t /\ forall k d, one_of a b k -> m_trade t !! k = Some d -> m_acceptProccess d = false.

Lemma sound_idle t : sound t -> together a b t -> idle_pair t.
Proof. intros Hs Ht. split; [done|]. intros k d _ Hk. apply (Hs k d Hk). Qed.

Lemma mode_lookup x k t : a <> b ->
  m_trade (setAcceptTradeMode x a b t) !! k =
  (if decide (one_of a b k) then SetInAcceptProcess x else id) <$> m_trade t !! k.
Proof.
  intros Hn. cbn. unfold one_of. destruct (decide (k = b)) as [->|Hb].
  - rewrite lookup_alter_eq, lookup_alter_ne by done. rewrite decide_True by auto. done.
  - rewrite lookup_alter_ne by done. destruct (decide (k = a)) as [->|Ha].
    + rewrite lookup_alter_eq, decide_True by auto. done.
    + rewrite lookup_alter_ne, decide_False by naive_solver. by destruct (m_trade t !! k).
Qed.

Lemma mode_back t : idle_pair t -> setAcceptTradeMode false a b (setAcceptTradeMode true a b t) = t.
Proof.
  intros [Ht Hi]. pose proof (tg_ne _ _ _ Ht) as Hn. destruct t as [w m]. unfold setAcceptTradeMode, upd_trade. cbn. f_equal.
  apply map_eq. intros k. pose proof (mode_lookup false k (setAcceptTradeMode true a b (mkTWorld w m)) Hn) as Hl.
  rewrite (mode_lookup true k (mkTWorld w m) Hn) in Hl. cbn in Hl. rewrite Hl.
  destruct (m !! k) as [d|] eqn:Hk; [|done]. cbn. destruct (decide (one_of a b k)) as [Ho|]; [|done].
  f_equal. specialize (Hi k d Ho Hk). destruct d. cbn in *. by subst.
Qed.

Lemma mode_together x t : together a b t -> together a b (setAcceptTradeMode x a b t).
Proof.
  intros [Hn (d & Hd & Hdt) (h & Hh & Hht) Hca Hcb]. constructor; try done.
  - eexists. rewrite mode_lookup, Hd by done. split; [done|]. by case_decide.
  - eexists. rewrite mode_lookup, Hh by done. split; [done|]. by case_decide.
Qed.

Lemma mode_talks t t' : idle_pair t -> talks a b (setAcceptTradeMode true a b t) t' -> talks a b t (setAcceptTradeMode false a b t').
Proof.
  intros [Ht Hi] (os & da & hb & da' & hb' & Hw & Ha & Hb & Hm & (Hta & Hpa & Hsa) & (Htb & Hpb & Hsb) & Hc).
  pose proof Ht as [Hn (d & Hd & Hdt) (h & Hh & Hht) _ _]. pose proof (Hi a d (or_introl eq_refl) Hd) as Hid.
  pose proof (Hi b h (or_intror eq_refl) Hh) as Hih.
  rewrite mode_lookup in Ha, Hb by done. rewrite Hd in Ha. rewrite Hh in Hb. cbn in Ha, Hb.
  rewrite decide_True in Ha by (unfold one_of; auto). rewrite decide_True in Hb by (unfold one_of; auto).
  injection Ha as <-. injection Hb as <-.
  exists os, d, h, (SetInAcceptProcess false da'), (SetInAcceptProcess false hb').
  refine (conj Hw (conj Hd (conj Hh (conj _ (conj _ (conj _ Hc)))))).
  - apply map_eq. intros k. rewrite mode_lookup by done. rewrite Hm. destruct (decide (k = b)) as [->|Hkb].
    { rewrite !lookup_insert_eq, decide_True by (unfold one_of; auto). done. }
    rewrite !(lookup_insert_ne _ b) by done. destruct (decide (k = a)) as [->|Hka].
    { rewrite !lookup_insert_eq, decide_True by (unfold one_of; auto). done. }
    rewrite !lookup_insert_ne by done. rewrite mode_lookup, !decide_False by (done || unfold one_of; naive_solver).
    by destruct (m_trade t !! k).
  - exact (conj Hta (conj (eq_sym Hid) Hsa)).
  - exact (conj Htb (conj (eq_sym Hih) Hsb)).
Qed.
End Accepting.

Lemma untradable_false l : existsb untradable l = false -> forall it, Some it ∈ l -> it_tradable it = true.
Proof.
  intros Hl it Hin. destruct (it_tradable it) eqn:Ht; [done|]. assert (existsb untradable l = true); [|congruence].
  apply existsb_exists. exists (Some it). split; [by apply list_elem_of_In|]. cbn. by rewrite Ht.
Qed.

#[local] Opaque exchange SaveInventoryAndGoldToDB.

Section Accept.
Context (E : Env) (T : TradeEnv) (a b : Z).

Lemma ok_talks_then (P : TWorld -> Prop) t o f : together a b t -> ok (talks a b t) o ->
  (forall t', together a b t' -> talks a b t t' -> ok P (f t')) -> ok P (o ≫= f).
Proof. intros Ht Ho Hf. eapply ok_bind; [exact Ho|]. intros t' Htt. apply Hf; [by eapply talks_together|done]. Qed.

Lemma ok_after t t1 o : a <> b -> talks a b t t1 -> ok (talks a b t1) o -> ok (talks a b t) o.
Proof. intros Hn H1 Ho. eapply ok_mono; [exact Ho|]. intros t2. by apply negotiates_trans. Qed.

Lemma ok_status k s t : is_Some (character k t) -> ok (fun t' => exists o, t' = on_world (emit o) t) (SendTradeStatus k s t).
Proof. intros [p Hp]. unfold SendTradeStatus, to_session. rewrite Hp. apply ok_Some. by eexists. Qed.

Lemma dealt_emit p q d h sa sb t t' o : dealt E T a b p q d h sa sb t t' -> dealt E T a b p q d h sa sb t (on_world (emit o) t').
Proof.
  intros [(os & os' & Hw) Hm]. split; [|done]. exists os, (os' ++ [o]). unfold on_world. cbn [t_world].
  by rewrite Hw, <- emits_emits.
Qed.

Lemma ok_complete p q d h sa sb t t2 : together a b t -> dealt E T a b p q d h sa sb t t2 ->
  ok (dealt E T a b p q d h sa sb t)
    (SendTradeStatus b TRADE_STATUS_TRADE_COMPLETE t2 ≫= SendTradeStatus a TRADE_STATUS_TRADE_COMPLETE).
Proof.
  intros Ht Hd. pose proof (fun k => dealt_online _ _ _ _ _ _ _ _ _ _ _ _ k Hd) as Hon.
  eapply ok_bind; [apply ok_status, Hon, Ht|]. intros t3 [o3 ->]. eapply ok_mono; [apply ok_status; apply Hon, Ht|].
  intros t4 [o4 ->]. by apply dealt_emit, dealt_emit.
Qed.

(** Both go home with what they have. *)
Lemma dealt_made p q d h sa sb o t : together a b t ->
  dealt E T a b p q d h sa sb t
    (on_world (fun w => SaveInventoryAndGoldToDB b (SaveInventoryAndGoldToDB a w)) (del_trade b (del_trade a
      (on_world (exchange E T a b d h (zip (traded p d) (traded q h)) sa sb) (setAcceptTradeMode true a b (on_world (emit o) t)))))).
Proof.
  intros Ht. pose proof (tg_ne _ _ _ Ht) as Hn. split; [exists [o], []; by rewrite emits_nil|].
  cbn [on_world m_trade del_trade setAcceptTradeMode upd_trade]. apply map_eq. intros k.
  destruct (decide (k = b)) as [->|]; [by rewrite !lookup_delete_eq|]. rewrite !(lookup_delete_ne _ b) by done.
  destruct (decide (k = a)) as [->|]; [by rewrite !lookup_delete_eq|]. by rewrite !lookup_delete_ne, !lookup_alter_ne by done.
Qed.

Lemma ok_no_space t : idle_pair a b t -> ok (talks a b t) (no_space E a b (setAcceptTradeMode true a b t)).
Proof.
  intros Hi. unfold no_space. cbv zeta. rewrite mode_back by done. destruct Hi as [Ht _].
  apply (ok_then a b); [done|by apply ok_SendNotification; [|left]|]. intros t1 Ht1.
  apply (ok_then a b); [done|by apply ok_SendNotification; [|right]|]. intros t2 Ht2.
  apply (ok_then a b); [done| |].
  - unfold unaccept_both. apply (ok_then a b); [done|by apply ok_SetAccepted; [|left]|]. intros t3 Ht3.
    apply ok_SetAccepted; [done|by right].
  - intros t3 Ht3. apply ok_Some. apply talks_upd; [done|by right|done..].
Qed.

Lemma talks_idle t t1 : idle_pair a b t -> talks a b t t1 -> idle_pair a b t1.
Proof.
  intros [Ht Hi] Htalk. split; [by eapply talks_together|]. pose proof (tg_ne _ _ _ Ht).
  destruct Htalk as (os & da & hb & da' & hb' & _ & Ha & Hb & Hm & (_ & Hpa & _) & (_ & Hpb & _) & _).
  pose proof (Hi a da (or_introl eq_refl) Ha). pose proof (Hi b hb (or_intror eq_refl) Hb).
  intros k d Hk Hd. rewrite Hm in Hd. destruct Hk as [-> | ->].
  - rewrite lookup_insert_ne, lookup_insert_eq in Hd by done. simplify_eq. congruence.
  - rewrite lookup_insert_eq in Hd. simplify_eq. congruence.
Qed.

(** The end of an acceptance in [t], when the other has accepted. *)
Lemma ok_finish_trade p q d h sa sb t : idle_pair a b t ->
  (CanStoreItems T p (traded p d) (traded q h) = EQUIP_ERR_OK ->
     CanStoreItems T q (traded q h) (traded p d) = EQUIP_ERR_OK -> deal_ready T a b p q d h sa sb t) ->
  ok (fun t' => talks a b t t' \/ (deal_ready T a b p q d h sa sb t /\ dealt E T a b p q d h sa sb t t'))
    (finish_trade E T a b p q d h sa sb (setAcceptTradeMode true a b t)).
Proof.
  intros Hi Hready. pose proof Hi as [Ht _]. unfold finish_trade.
  eapply ok_bind; [apply ok_status; change (is_Some (character b t)); apply Ht|]. intros t0 [o ->].
  change (on_world (emit o) (setAcceptTradeMode true a b t)) with (setAcceptTradeMode true a b (on_world (emit o) t)).
  pose proof (negotiates_emit a b o t Ht) as He. pose proof (talks_idle _ _ Hi He) as Hie.
  pose proof (tg_ne _ _ _ Ht) as Hn. cbv zeta.
  destruct (Z.eqb_spec (CanStoreItems T p (traded p d) (traded q h)) EQUIP_ERR_OK) as [H1|H1]; cbn [negb].
  2:{ eapply ok_mono; [apply (ok_after t _ _ Hn He), ok_no_space, Hie|auto]. }
  destruct (Z.eqb_spec (CanStoreItems T q (traded q h) (traded p d)) EQUIP_ERR_OK) as [H2|H2]; cbn [negb].
  2:{ eapply ok_mono; [apply (ok_after t _ _ Hn He), ok_no_space, Hie|auto]. }
  eapply ok_mono; [apply (ok_complete p q d h sa sb t _ Ht), dealt_made, Ht|]. auto.
Qed.
(** Both have accepted: messages, or the deal. *)
Lemma ok_accept_both p q d h t : idle_pair a b t ->
  (forall sa sb, check_spell T p d q h = SpellReady sa -> check_spell T q h p d = SpellReady sb ->
     CanStoreItems T p (traded p d) (traded q h) = EQUIP_ERR_OK -> CanStoreItems T q (traded q h) (traded p d) = EQUIP_ERR_OK ->
     deal_ready T a b p q d h sa sb t) ->
  ok (fun t' => talks a b t t' \/ deal E T a b t t') (accept_both E T a b p q d h t).
Proof.
  intros Hi Hready. pose proof Hi as [Ht _]. pose proof (tg_ne _ _ _ Ht) as Hn. unfold accept_both. cbv zeta.
  destruct (check_spell T p d q h) as [sa| |res] eqn:Hsa.
  - destruct (check_spell T q h p d) as [sb| |res] eqn:Hsb.
    + eapply ok_mono; [apply ok_finish_trade; [done|auto]|]. intros t' [?|[? ?]]; [by left|right].
      by exists p, q, d, h, sa, sb.
    + eapply ok_bind; [apply (ok_SetSpell T a b b); [by apply mode_together|by right]|]. intros t1 Ht1.
      apply ok_Some. left. by apply mode_talks.
    + change (on_world ?f (setAcceptTradeMode true a b t)) with (setAcceptTradeMode true a b (on_world f t)).
      pose proof (negotiates_emit a b (SendCastResult b res) t Ht) as He.
      rewrite mode_back by by eapply talks_idle. eapply ok_mono; [apply (ok_after t _ _ Hn He)|auto].
      apply ok_SetSpell; [by apply (talks_together a b t)|by right].
  - rewrite mode_back by done. eapply ok_mono; [apply (ok_SetSpell T a b a); [done|by left]|auto].
  - change (on_world ?f (setAcceptTradeMode true a b t)) with (setAcceptTradeMode true a b (on_world f t)).
    pose proof (negotiates_emit a b (SendCastResult a res) t Ht) as He.
    rewrite mode_back by by eapply talks_idle. eapply ok_mono; [apply (ok_after t _ _ Hn He)|auto].
    apply ok_SetSpell; [by apply (talks_together a b t)|by left].
Qed.
End Accept.

Lemma SetAccepted_true k cross t d : m_trade t !! k = Some d -> SetAccepted k true cross t = Some (upd_trade k (td_accepted true) t).
Proof. intros Hk. unfold SetAccepted. by rewrite Hk. Qed.

Lemma ok_Accept E T a t : sound t -> is_Some (character a t) -> ok (outcome E T true a t) (HandleAcceptTradeOpcode E T a t).
Proof.
  intros Hs [p Hp]. unfold HandleAcceptTradeOpcode. rewrite Hp. cbn [mbind option_bind].
  assert (outcome E T true a t t) as Hidle by (apply (out_idle _ _ _ _ _ _ []); [by rewrite emits_nil|done]).
  destruct (_ || _); [by apply ok_Some|]. destruct (m_trade t !! a) as [d|] eqn:Hd; [|by apply ok_Some].
  pose proof (sound_together t a d Hs Hd) as Ht. pose proof (tg_ne _ _ _ Ht) as Hn.
  assert (one_of a (m_trader d) a) as H1 by by left. assert (one_of a (m_trader d) (m_trader d)) as H2 by by right.
  destruct (_ <? _); [eapply ok_mono; [by apply ok_SendTradeStatus|intros; by apply (out_talk _ _ _ _ _ _ (m_trader d))]|].
  destruct (tg_snd_online _ _ _ Ht) as [q Hq]. destruct (tg_snd _ _ _ Ht) as (h & Hh & Hht). cbv zeta.
  change (character (m_trader d) (upd_trade a ?f t)) with (character (m_trader d) t). rewrite Hq. cbn [mbind option_bind].
  set (t0 := upd_trade a (SetLastModificationTime (now E)) t). set (t1 := upd_trade a (td_accepted true) t0).
  assert (m_trade t0 !! m_trader d = Some h) as Hh0 by by (unfold t0; cbn; rewrite lookup_alter_ne). rewrite Hh0.
  assert (m_trade t0 !! a = Some (SetLastModificationTime (now E) d)) as Hd0 by (unfold t0; cbn; by rewrite lookup_alter_eq, Hd).
  rewrite (SetAccepted_true a false t0 _ Hd0). fold t1. cbn [mbind option_bind].
  assert (agrees E a (m_trader d) t t1) as Hag by done.
  assert (together a (m_trader d) t1) as Ht1 by by eapply together_agrees.
  assert (idle_pair a (m_trader d) t1) as Hi1 by by apply sound_idle; [eapply sound_agrees|].
  assert (m_trade t1 !! a = Some (td_accepted true (SetLastModificationTime (now E) d))) as Hd1.
  { unfold t1. cbn [upd_trade m_trade]. by rewrite lookup_alter_eq, Hd0. }
  assert (m_trade t1 !! m_trader d = Some h) as Hh1 by by (unfold t1; cbn [upd_trade m_trade]; rewrite lookup_alter_ne).
  change (character a t) with (character a t1) in Hp. change (character (m_trader d) t) with (character (m_trader d) t1) in Hq.
  clearbody t1. clear t0 Hh0 Hd0. set (b := m_trader d) in *.
  assert (forall t', talks a b t1 t' -> outcome E T true a t t') as Hout by (intros; by eapply out_agree).
  assert (forall o, ok (talks a b t1) o -> ok (outcome E T true a t) o) as Hok by (intros o Ho; by eapply ok_mono).
  destruct (TooFar T a b) eqn:Hfar; [by apply Hok, ok_SendTradeStatus|].
  destruct (Z.ltb_spec (pl_money p) (m_money d)) as [|Hpm].
  { apply Hok, ok_then; [done|by apply ok_SendNotification|]. intros t2 Ht2. by apply ok_SetAccepted. }
  destruct (Z.ltb_spec (pl_money q) (m_money h)) as [|Hqm].
  { apply Hok, ok_then; [done|by apply ok_SendNotification|]. intros t2 Ht2. by apply ok_SetAccepted. }
  destruct (negb _ && _); [by apply Hok, ok_SendTradeStatus|].
  destruct (existsb untradable _) eqn:Hun; [by apply Hok, ok_SendTradeStatus|].
  destruct (negb (OnTradeAccept T a b)).
  { apply Hok, ok_then; [done|by apply ok_SendTradeStatus|]. intros t2 Ht2. by apply ok_SetAccepted. }
  destruct (m_accepted h) eqn:Hacc; [|by apply Hok, ok_SendTradeStatus].
  change (accept_both E T a b p q d h t1) with (accept_both E T a b p q (td_accepted true (SetLastModificationTime (now E) d)) h t1).
  eapply ok_mono; [apply ok_accept_both; [done|]|].
  - intros sa sb Hsa Hsb Hra Hrb. constructor; try done. by apply untradable_false.
  - intros t' [?|?]; [auto|by eapply out_deal].
Qed.

(** ** The other events *)

Section Events.
Context (E : Env) (T : TradeEnv) (x : bool) (a : Z) (t : TWorld) (Hs : sound t) (Hon : is_Some (character a t)).

Lemma out_same : outcome E T x a t t.
Proof using All. apply (out_idle _ _ _ _ _ _ []); [by rewrite emits_nil|done]. Qed.
Lemma ok_same : ok (outcome E T x a t) (Some t).
Proof using All. apply ok_Some, out_same. Qed.

(** The session of [a] gets a message. *)
Lemma ok_refuse s : ok (outcome E T x a t) (SendTradeStatus a s t).
Proof using All. eapply ok_mono; [by apply ok_status|]. intros t' [o ->]. by apply (out_idle _ _ _ _ _ _ [o]). Qed.

Lemma ok_trading d o : m_trade t !! a = Some d -> (together a (m_trader d) t -> ok (talks a (m_trader d) t) o) -> ok (outcome E T x a t) o.
Proof using All.
  intros Hd Ho. pose proof (sound_together t a d Hs Hd) as Ht. eapply ok_mono; [by apply Ho|]. intros t' Htalk.
  by eapply out_talk.
Qed.

Lemma ok_Unaccept : ok (outcome E T x a t) (HandleUnacceptTradeOpcode a t).
Proof using All.
  unfold HandleUnacceptTradeOpcode. destruct (m_trade t !! a) as [d|] eqn:Hd; [|apply ok_same].
  apply (ok_trading d); [done|]. intros Ht. apply ok_SetAccepted; [done|by left].
Qed.

Lemma ok_Begin : ok (outcome E T x a t) (HandleBeginTradeOpcode T a t).
Proof using All.
  unfold HandleBeginTradeOpcode. destruct (IsFingerprintBanned T a); [apply ok_same|].
  destruct (m_trade t !! a) as [d|] eqn:Hd; [|apply ok_same]. apply (ok_trading d); [done|]. intros Ht.
  apply ok_then; [done|apply ok_SendTradeStatus; [done|by right]|]. intros t' Ht'. apply ok_SendTradeStatus; [done|by left].
Qed.

Lemma ok_SendCancelTrade k s t0 : is_Some (character k t0) -> ok (fun t' => exists os, t' = on_world (emits os) t0) (SendCancelTrade T k s t0).
Proof.
  intros Hk. unfold SendCancelTrade. destruct (m_playerRecentlyLogout T k).
  - apply ok_Some. exists []. unfold on_world. rewrite emits_nil. by destruct t0.
  - eapply ok_mono; [by apply ok_status|]. intros t' [o ->]. by exists [o].
Qed.

Lemma ok_TradeCancel sendback s : ok (outcome E T x a t) (TradeCancel T a sendback s t).
Proof using All.
  unfold TradeCancel. destruct (m_trade t !! a) as [d|] eqn:Hd; [|apply ok_same].
  pose proof (sound_together t a d Hs Hd) as Ht. pose proof (tg_snd_online _ _ _ Ht) as Hb.
  apply (ok_bind (fun t' => exists os, t' = on_world (emits os) t)).
  { destruct sendback; [by apply ok_SendCancelTrade|]. apply ok_Some. exists []. unfold on_world. rewrite emits_nil. by destruct t. }
  intros t1 [os1 ->]. eapply ok_bind; [by apply ok_SendCancelTrade|]. intros t2 [os2 ->]. destruct Hb as [q Hq].
  change (character (m_trader d) (on_world ?f (on_world ?g t))) with (character (m_trader d) t). rewrite Hq. apply ok_Some.
  apply (out_end _ _ _ _ _ _ (m_trader d)); [done|]. split; [|done]. exists (os1 ++ os2). cbn. by rewrite emits_emits.
Qed.

Lemma ok_Initiate other : ok (outcome E T x a t) (HandleInitiateTradeOpcode E T a other t).
Proof using All.
  unfold HandleInitiateTradeOpcode. destruct Hon as [p Hp]. rewrite Hp. cbn [mbind option_bind]. cbv zeta.
  destruct (IsFingerprintBanned T a); [apply ok_same|]. case_bool_decide as Hnone; [apply ok_same|].
  destruct (negb (IsAlive T a)); [apply ok_refuse|]. destruct (IsStunned T a); [apply ok_refuse|].
  destruct (isLogingOut T a); [apply ok_refuse|]. destruct (_ || negb (HasMap T a)); [apply ok_refuse|].
  unfold player_on_map, GetPlayer, FindMasterPlayer. destruct (other =? 0); [apply ok_refuse|].
  destruct (w_players (t_world t) !! other) as [q|] eqn:Hq; [|apply ok_refuse]. destruct (pl_inWorld q); [|apply ok_refuse].
  cbn [mbind option_bind]. destruct (SameMap T a other); [|apply ok_refuse].
  destruct (Z.eqb_spec other a) as [|Hne]; [apply ok_refuse|]. cbn [orb]. case_bool_decide as Hnone'; [apply ok_refuse|].
  destruct (negb (IsAlive T other)); [apply ok_refuse|]. destruct (IsTaxiFlying T other); [apply ok_refuse|].
  destruct (IsStunned T other); [apply ok_refuse|]. destruct (isLogingOut T other); [apply ok_refuse|].
  destruct (negb _ && _); [apply ok_refuse|]. destruct (TooFar T a other); [apply ok_refuse|].
  destruct (negb (bool_decide _)).
  { unfold SendNotification, to_session at 1. rewrite Hp. cbn [mbind option_bind].
    eapply ok_mono; [by apply ok_status; exists p|]. intros t' [o ->]. by apply (out_idle _ _ _ _ _ _ [Notification a; o]); [cbn; unfold emit; rewrite emits_emits|]. }
  destruct (negb (OnTradeInit T a other)); [apply ok_refuse|].
  unfold to_session. change (character other (put_trade _ _ _)) with (w_players (t_world t) !! other). rewrite Hq. apply ok_Some.
  apply (out_start _ _ _ _ _ _ other). split_and!; try done.
  - by apply eq_None_not_Some.
  - by apply eq_None_not_Some.
  - by eexists [_].
Qed.

(** The packets that change an offer. *)
Lemma ok_with_trades f : (forall d, m_trade t !! a = Some d -> together a (m_trader d) t -> ok (outcome E T x a t) (f (m_trader d) d t)) ->
  ok (outcome E T x a t) (with_trades a f t).
Proof using All.
  intros Hf. unfold with_trades. destruct (m_trade t !! a) as [d|] eqn:Hd; [|apply ok_same].
  pose proof (sound_together t a d Hs Hd) as Ht. destruct (tg_snd_online _ _ _ Ht) as [q Hq]. rewrite Hq. cbn [mbind option_bind].
  destruct (tg_snd _ _ _ Ht) as (h & Hh & _). rewrite bool_decide_true by (rewrite Hh; by eexists). by apply Hf.
Qed.

Lemma ok_touch b : together a b t ->
  ok (fun t' => talks a b t t' /\ m_items <$> m_trade t' !! a = m_items <$> m_trade t !! a) (touch_trades E a b t).
Proof using All.
  intros Ht. pose proof (tg_ne _ _ _ Ht) as Hn. unfold touch_trades.
  assert (ok (fun t' => talks a b t t' /\ m_items <$> m_trade t' !! a = m_items <$> m_trade t !! a) (SetAccepted b false false t)) as H1.
  { destruct (ok_SetAccepted a b b false t Ht (or_intror eq_refl)) as (t1 & Heq & Htalk). exists t1. split; [done|]. split; [done|].
    revert Heq. unfold SetAccepted. destruct (tg_snd _ _ _ Ht) as (h & Hh & _). rewrite Hh. cbn [mbind option_bind].
    unfold SendTradeStatus, to_session. change (character b (upd_trade b ?f t)) with (character b t).
    destruct (tg_snd_online _ _ _ Ht) as [q ->]. cbn. intros [= <-]. cbn. by rewrite lookup_alter_ne. }
  eapply ok_bind; [exact H1|]. intros t1 [Htalk Hits]. apply ok_Some.
  assert (together a b t1) as Ht1 by by eapply talks_together.
  assert (talks a b t1 (upd_trade b (SetLastModificationTime (now E)) t1)) as Hu by (apply talks_upd; [done|by right|done..]).
  assert (together a b (upd_trade b (SetLastModificationTime (now E)) t1)) as Ht2 by by eapply talks_together.
  split.
  - eapply negotiates_trans; [done|exact Htalk|]. eapply negotiates_trans; [done|exact Hu|]. apply talks_upd; [done|by left|done..].
  - rewrite <- Hits. cbn. rewrite lookup_alter_eq, lookup_alter_ne by done. by destruct (m_trade t1 !! a).
Qed.

Lemma ok_change_offer b f : together a b t -> (forall t1, together a b t1 -> m_items <$> m_trade t1 !! a = m_items <$> m_trade t !! a ->
    ok (talks a b t1) (f t1)) ->
  ok (outcome E T x a t) (touch_trades E a b t ≫= f).
Proof using All.
  intros Ht Hf. eapply ok_bind; [by apply ok_touch|]. intros t1 [Htalk Hits].
  eapply ok_mono; [apply Hf; [by eapply talks_together|done]|]. intros t2 Htalk2. apply (out_talk _ _ _ _ _ _ b); [done|].
  eapply negotiates_trans; [by apply tg_ne in Ht|done|done].
Qed.

Lemma ok_SetTradeGold g : 0 <= g -> ok (outcome E T x a t) (HandleSetTradeGoldOpcode E T a g t).
Proof using All.
  intros Hg. apply ok_with_trades. intros d Hd Ht. destruct Hon as [p Hp]. rewrite Hp. cbn [mbind option_bind].
  destruct (_ <? _); [apply ok_same|]. apply ok_change_offer; [done|]. intros t1 Ht1 _. apply ok_SetTradeMoney; [done|by left|done].
Qed.

Lemma ok_ClearTradeItem s : ok (outcome E T x a t) (HandleClearTradeItemOpcode E T a s t).
Proof using All.
  apply ok_with_trades. intros d Hd Ht. destruct (_ <=? _); [apply ok_same|].
  apply ok_change_offer; [done|]. intros t1 Ht1 _. apply ok_SetItem; [done|by left|by left].
Qed.

Lemma HasItem_false guid d : HasItem guid d = false -> guid ∉ m_items d.
Proof.
  intros Hf Hin. assert (HasItem guid d = true); [|congruence]. apply existsb_exists. exists guid.
  split; [by apply list_elem_of_In|apply Z.eqb_refl].
Qed.

Lemma ok_SetTradeItem s bag slot : ok (outcome E T x a t) (HandleSetTradeItemOpcode E T a s bag slot t).
Proof using All.
  apply ok_with_trades. intros d Hd Ht. destruct Hon as [p Hp]. rewrite Hp.
  change (Some p ≫= ?f) with (f p). cbv beta zeta.
  destruct (_ <=? s); [apply ok_refuse|]. destruct (GetItemByPos T p bag slot ≫= _) as [it|]; [|apply ok_refuse].
  destruct (negb _ && negb _); [apply ok_refuse|]. destruct (_ && _ && _); [apply ok_refuse|].
  destruct (IsBankPos bag slot); [apply ok_refuse|]. destruct (HasItem (it_guid it) d) eqn:Hhas; [apply ok_refuse|].
  apply ok_change_offer; [done|]. intros t1 Ht1 Hits. apply ok_SetItem; [done|by left|]. right. intros d1 Hd1.
  rewrite Hd1, Hd in Hits. injection Hits as ->. by apply HasItem_false.
Qed.

Lemma ok_Cast spell castItem slot : ok (outcome E T x a t) (snd (CheckCast_trade T a spell castItem slot t)).
Proof using All.
  unfold CheckCast_trade. destruct (m_trade t !! a) as [d|] eqn:Hd; [|apply ok_same].
  destruct (negb _); [apply ok_same|]. destruct (m_acceptProccess d); [apply ok_same|].
  apply (ok_trading d); [done|]. intros Ht. apply ok_SetSpell; [done|by left].
Qed.
End Events.

Definition accepts (e : tevent) : bool := match e with EPacket _ CMSG_ACCEPT_TRADE => true | _ => false end.
(** The operand has the width of the packet. *)
Definition event_ok (e : tevent) : Prop := match e with EPacket _ (CMSG_SET_TRADE_GOLD g) => is_u32 g | _ => True end.

Lemma ok_event E T e t : sound t -> is_Some (character (actor e) t) -> event_ok e ->
  ok (outcome E T (accepts e) (actor e) t) (handle_event E T e t).
Proof.
  intros Hs Hon Hok. destruct e as [me pk|k spell c slot|k sb s]; cbn [actor handle_event] in *; [|by apply ok_Cast|by apply ok_TradeCancel].
  destruct pk; cbn [handle_trade].
  - by apply ok_Initiate.
  - by apply ok_Begin.
  - by apply ok_TradeCancel.
  - by apply ok_TradeCancel.
  - by apply ok_Accept.
  - by apply ok_Unaccept.
  - by apply ok_TradeCancel.
  - by apply ok_SetTradeItem.
  - by apply ok_ClearTradeItem.
  - apply ok_SetTradeGold; [done..|apply Hok].
Qed.
