(* ===== verification/TradeRun.v ===== *)
(** * TradeRun: runs of the server with trades in them

    [tstep]: an event of a trade, or a step of the mail and auction system
    that takes nobody out of the world who trades (a character who leaves
    cancels the trade first). A run keeps the history of its events with the
    states after them. Trades stay paired, and whoever is marked as having
    accepted has seen the offers as they are. *)
From S2P Require Import Prelude ByteBuffer ObjectGuid EconomyData Mail EconomyFrame Gold EconomyRun Trade TradeHandlers TradeSafety TradeSteps.

Inductive tstep : option tevent -> TWorld -> TWorld -> Prop :=
  | ts_event E T e t t' : SoundEnv E -> is_Some (character (actor e) t) -> event_ok e -> handle_event E T e t = Some t' ->
      tstep (Some e) t t'
  | ts_world t w' : step (t_world t) w' -> (forall k, is_Some (m_trade t !! k) -> is_Some (w_players w' !! k)) ->
      tstep None t (mkTWorld w' (m_trade t)).

Definition history : Type := list (option tevent * TWorld).
Inductive truns (t0 : TWorld) : history -> TWorld -> Prop :=
  | tr_nil : truns t0 [] t0
  | tr_snoc h t e t' : truns t0 h t -> tstep e t t' -> truns t0 (h ++ [(e, t')]) t'.

(** ** The invariant of runs *)

Lemma sound_empty t : m_trade t = ∅ -> sound t.
Proof. intros He. unfold sound. rewrite He. apply map_Forall_empty. Qed.

Lemma handled_outcome E T e t t' : sound t -> is_Some (character (actor e) t) -> event_ok e -> handle_event E T e t = Some t' ->
  outcome E T (accepts e) (actor e) t t'.
Proof. intros Hs Hon Hok Hh. destruct (ok_event E T e t Hs Hon Hok) as (t2 & H2 & Ho). rewrite Hh in H2. by injection H2 as ->. Qed.

Lemma sound_tstep e t t' : sound t -> tstep e t t' -> sound t'.
Proof.
  intros Hs Hstep. destruct Hstep as [E T ev t1 t2 HE Hon Hok Hh|t1 w' Hw Hstay].
  - exact (sound_outcome _ _ _ _ _ _ Hs (handled_outcome _ _ _ _ _ Hs Hon Hok Hh)).
  - intros k d Hk. destruct (Hs k d Hk) as [[Hn (d1 & Hd1 & Ht1) (h & Hh & Hht) Hc1 Hc2] Hi Hsl].
    constructor; [|done|done]. constructor.
    + done.
    + exists d1. exact (conj Hd1 Ht1).
    + exists h. exact (conj Hh Hht).
    + apply Hstay. by exists d.
    + apply Hstay. by exists h.
Qed.

Lemma sound_truns t0 h t : m_trade t0 = ∅ -> truns t0 h t -> sound t.
Proof. intros H0. induction 1 as [|h t e t' _ IH Hstep]; [by apply sound_empty|by eapply sound_tstep]. Qed.

(** C10: in every run, whatever trade packets, spells on the trade window,
    cancellations, mails and auctions come in whatever order, the trades of a
    server come in pairs of two different characters, both online and each the
    trader of the other, outside a handler nobody is in the process of
    accepting, no item is in two slots of a window, and the gold on the table
    is not negative; and then every event of a trade returns without following
    a null or dangling pointer. *)
Theorem trades_stay_paired t0 h t : m_trade t0 = ∅ -> truns t0 h t ->
  (forall k d, m_trade t !! k = Some d ->
     k <> m_trader d /\ is_Some (character k t) /\ is_Some (character (m_trader d) t) /\
     (exists d', m_trade t !! m_trader d = Some d' /\ m_trader d' = k) /\ m_acceptProccess d = false /\ 0 <= m_money d /\
     length (m_items d) = TRADE_SLOT_COUNT /\ (forall i j g, m_items d !! i = Some g -> m_items d !! j = Some g -> g <> 0 -> i = j)) /\
  (forall E T e, is_Some (character (actor e) t) -> event_ok e -> is_Some (handle_event E T e t)).
Proof.
  intros H0 Hr. pose proof (sound_truns t0 h t H0 Hr) as Hs. split.
  - intros k d Hk. destruct (Hs k d Hk) as [[Hn _ Hsnd Hc1 Hc2] Hi [[Hl Hu] Hm]]. by split_and!.
  - intros E T e Hon Hok. destruct (ok_event E T e t Hs Hon Hok) as (t' & -> & _). by eexists.
Qed.

(** ** Who accepts has seen the offers *)

Definition offer_of (k : Z) (t : TWorld) : option (Z * (Z * Z * ObjectGuid * list ObjectGuid)) :=
  (fun d => (m_trader d, offer d)) <$> m_trade t !! k.

(** [k]'s acceptance in [t'] is new, or was there in [t] with both offers as
    they are. *)
Definition accepted_before (k : Z) (d' : TradeData) (t t' : TWorld) : Prop :=
  exists d, m_trade t !! k = Some d /\ m_accepted d = true /\ m_trader d = m_trader d' /\
    offer_of k t = offer_of k t' /\ offer_of (m_trader d') t = offer_of (m_trader d') t'.

(** Trades of others. *)
Lemma accepted_others a b t t' k d' : sound t -> together a b t -> k <> a -> k <> b ->
  (forall j, j <> a -> j <> b -> m_trade t' !! j = m_trade t !! j) -> m_trade t' !! k = Some d' -> m_accepted d' = true ->
  accepted_before k d' t t'.
Proof.
  intros Hs Ht Hka Hkb Hsame Hk Hacc. rewrite Hsame in Hk by done. destruct (sound_partner t k a b d' Hs Ht Hk Hka Hkb) as [Hna Hnb].
  exists d'. unfold offer_of. by rewrite !Hsame.
Qed.

Lemma talks_others a b t t' j : talks a b t t' -> j <> a -> j <> b -> m_trade t' !! j = m_trade t !! j.
Proof. intros (os & da & hb & da' & hb' & _ & _ & _ & -> & _) Ha Hb. by rewrite !lookup_insert_ne. Qed.

Lemma talks_accepted a b t t' k d' : sound t -> together a b t -> talks a b t t' -> m_trade t' !! k = Some d' -> m_accepted d' = true ->
  accepted_before k d' t t'.
Proof.
  intros Hs Ht Htalk Hk Hacc. pose proof (tg_ne _ _ _ Ht) as Hn.
  destruct (decide (k = a)) as [Hka|Hka]; [|destruct (decide (k = b)) as [Hkb|Hkb]];
    [| |by eapply accepted_others; try done; intros j; apply talks_others].
  all: pose proof Ht as [_ (d1 & Hd1 & Ht1) (h1 & Hh1 & Hht1) _ _];
    destruct Htalk as (os & da & hb & da' & hb' & _ & Ha & Hb & Hm & (Hta & _) & (Htb & _) & Hc);
    rewrite Hd1 in Ha; injection Ha as <-; rewrite Hh1 in Hb; injection Hb as <-.
  - subst k. rewrite Hm, lookup_insert_ne, lookup_insert_eq in Hk by done. injection Hk as <-.
    destruct Hc as [(Ho1 & Ho2 & Hac & _)|[Hf _]]; [|congruence]. exists d1. unfold offer_of.
    rewrite Hm, Hta, Ht1, Hd1, Hh1, lookup_insert_eq, lookup_insert_ne, lookup_insert_eq by done.
    cbn. rewrite Ho1, Ho2, Hta, Htb. auto.
  - subst k. rewrite Hm, lookup_insert_eq in Hk. injection Hk as <-.
    destruct Hc as [(Ho1 & Ho2 & _ & Hac)|[_ Hf]]; [|congruence]. exists h1. unfold offer_of.
    rewrite Hm, Htb, Hht1, Hd1, Hh1, lookup_insert_eq, lookup_insert_ne, lookup_insert_eq by done.
    cbn. rewrite Ho1, Ho2, Hta, Htb. auto.
Qed.

Lemma agrees_offer E a b t t1 k : agrees E a b t t1 -> offer_of k t1 = offer_of k t.
Proof.
  intros ->. unfold offer_of. cbn. destruct (decide (k = a)) as [->|]; [rewrite !lookup_alter_eq|by rewrite !lookup_alter_ne].
  by destruct (m_trade t !! a).
Qed.
Lemma agrees_others E a b t t1 k : agrees E a b t t1 -> k <> a -> m_trade t1 !! k = m_trade t !! k.
Proof. intros -> Hk. cbn. by rewrite !lookup_alter_ne. Qed.

(** Every acceptance is new or still about the same offers. *)
Lemma outcome_accepted E T x a t t' k d' : sound t -> outcome E T x a t t' -> m_trade t' !! k = Some d' -> m_accepted d' = true ->
  (x = true /\ k = a) \/ accepted_before k d' t t'.
Proof.
  intros Hs [os Hw Hm|b Ho|b Ht Ho|b t1 Hx Ht Ha Ho|b t1 Hx Ht Ha (p & q & d & h & sa & sb & _ & Ho)|b Ht Ho] Hk Hacc.
  - right. rewrite Hm in Hk. exists d'. unfold offer_of. by rewrite Hm.
  - right. destruct Ho as (Hn & Ha & Hb & _ & _ & _ & Hm). rewrite Hm in Hk.
    apply lookup_insert_Some in Hk as [[<- <-]|[Hkb Hk]]; [done|]. apply lookup_insert_Some in Hk as [[<- <-]|[Hka Hk]]; [done|].
    destruct (to_together _ _ _ (Hs k d' Hk)) as [_ _ (h & Hh & _) _ _]. exists d'. unfold offer_of.
    rewrite Hm, !lookup_insert_ne; [done|congruence..].
  - right. by eapply talks_accepted.
  - destruct (decide (k = a)) as [->|Hka]; [by left|]. right.
    destruct (talks_accepted a b t1 t' k d') as (d & Hd & Hda & Hdt & Ho1 & Ho2); try done.
    { by eapply sound_agrees. } { by eapply together_agrees. }
    rewrite (agrees_offer _ _ _ _ _ _ Ha) in Ho1. rewrite (agrees_offer _ _ _ _ _ _ Ha) in Ho2. exists d. rewrite (agrees_others E a b t t1) in Hd by done. auto.
  - right. destruct Ho as [_ Hm]. rewrite Hm in Hk. apply lookup_delete_Some in Hk as [Hkb Hk]. apply lookup_delete_Some in Hk as [Hka Hk].
    apply (accepted_others a b); try done.
    + intros j Hja Hjb. rewrite Hm, !lookup_delete_ne by done. by eapply agrees_others.
    + rewrite Hm, !lookup_delete_ne by done. done.
  - right. destruct Ho as [_ Hm]. assert (k <> a /\ k <> b) as [Hka Hkb].
    { rewrite Hm in Hk. apply lookup_delete_Some in Hk as [Hkb Hk]. apply lookup_delete_Some in Hk as [Hka Hk]. done. }
    apply (accepted_others a b); try done. intros j Hja Hjb. by rewrite Hm, !lookup_delete_ne.
Qed.

