(* ===== verification/TradeDeal.v ===== *)
(** * TradeDeal: what changes hands

    The exchange of a trade followed through purses and inventories. Where an
    item is stored is a parameter: [SoundStore] states what the deal relies on
    (an item stored adds its count; what fits together fits one by one). *)
From S2P Require Import Prelude ByteBuffer ObjectGuid EconomyData Mail EconomyFrame Gold EconomyRun Trade TradeHandlers TradeSafety TradeSteps.

(** ** Counting items *)

Definition weight (e : Z) (it : Item) : Z := if it_entry it =? e then it_count it else 0.
(** The items of template [e] in an inventory. *)
Definition count (e : Z) (inv : gmap ObjectGuid Item) : Z := msum (weight e) inv.
Fixpoint offered (e : Z) (its : list (option Item)) : Z :=
  match its with
  | [] => 0
  | None :: its => offered e its
  | Some it :: its => weight e it + offered e its
  end.

Definition inventory (k : Z) (w : World) : option (gmap ObjectGuid Item) := pl_items <$> w_players w !! k.

Definition taken (it : option Item) (inv : gmap ObjectGuid Item) : gmap ObjectGuid Item :=
  match it with Some it => delete (it_guid it) inv | None => inv end.
Definition remove_all (its : list (option Item)) (inv : gmap ObjectGuid Item) : gmap ObjectGuid Item :=
  fold_left (fun inv it => taken it inv) its inv.

(** An item as it is stored on the other side. *)
Definition handed (T : TradeEnv) (it : Item) : Item :=
  if it_soulbound it && CanBeTradedEvenIfSoulBound T it then ResetSoulBoundTradeData it else it.
Definition stored (T : TradeEnv) (p : Player) (it : option Item) : Player :=
  match it with
  | None => p
  | Some it => set_items (StoreAt T (pl_items p) (snd (CanStoreAt T p [] it)) (handed T it)) p
  end.
Definition fits_one (T : TradeEnv) (p : Player) (it : option Item) : Prop :=
  match it with Some it => fst (CanStoreAt T p [] it) = EQUIP_ERR_OK | None => True end.
Fixpoint fits (T : TradeEnv) (p : Player) (its : list (option Item)) : Prop :=
  match its with [] => True | it :: its => fits_one T p it /\ fits T (stored T p it) its end.

Class SoundStore (T : TradeEnv) : Prop := {
  store_count : forall e p it, fst (CanStoreAt T p [] it) = EQUIP_ERR_OK -> pl_items p !! it_guid it = None ->
    count e (pl_items (stored T p (Some it))) = count e (pl_items p) + weight e it;
  store_keys : forall p it g, fst (CanStoreAt T p [] it) = EQUIP_ERR_OK ->
    is_Some (pl_items (stored T p (Some it)) !! g) -> g = it_guid it \/ is_Some (pl_items p !! g);
  store_room : forall p out its, CanStoreItems T p out its = EQUIP_ERR_OK -> fits T (set_items (remove_all out (pl_items p)) p) its
}.

(** ** Two characters in a world *)

Definition has (k : Z) (w : World) (p : Player) : Prop := w_players w !! k = Some p.
(** What [w'] has of the characters other than [a] and [b] is what [w] has. *)
Definition others (a b : Z) (w w' : World) : Prop := forall k, k <> a -> k <> b -> w_players w' !! k = w_players w !! k.
#[export] Instance others_refl a b : Reflexive (others a b).
Proof. by intros w k. Qed.
#[export] Instance others_trans a b : Transitive (others a b).
Proof. intros w1 w2 w3 H1 H2 k Ha Hb. by rewrite H2, H1. Qed.

Lemma has_upd k f w p : has k w p -> has k (upd_player k f w) (f p).
Proof. unfold has. intros Hk. cbn. by rewrite lookup_alter_eq, Hk. Qed.
Lemma has_upd_ne j k f w p : k <> j -> has k w p -> has k (upd_player j f w) p.
Proof. unfold has. intros Hn Hk. cbn. by rewrite lookup_alter_ne. Qed.
Lemma others_upd a b k f w : one_of a b k -> others a b w (upd_player k f w).
Proof. intros Hk j Ha Hb. cbn. rewrite lookup_alter_ne; [done|]. destruct Hk; congruence. Qed.
Lemma set_items_twice x y p : set_items x (set_items y p) = set_items x p.
Proof. done. Qed.
Lemma set_items_same p : set_items (pl_items p) p = p.
Proof. by destruct p. Qed.

Section Pair.
Context (T : TradeEnv) (a b : Z) (Hn : a <> b).

Lemma remove_offer_has k it w p q j : k <> j -> has k w p -> has j w q -> one_of a b k ->
  has k (remove_offer T k it w) (set_items (taken it (pl_items p)) p) /\ has j (remove_offer T k it w) q /\
  others a b w (remove_offer T k it w).
Proof.
  intros Hkj Hk Hj Ho. destruct it as [it|]; cbn; [|by rewrite set_items_same]. unfold MoveItemFromInventory.
  assert (forall w0, w_players w0 = w_players w ->
    has k (upd_player k (fun p => set_items (delete (it_guid it) (pl_items p)) p) w0) (set_items (delete (it_guid it) (pl_items p)) p) /\
    has j (upd_player k (fun p => set_items (delete (it_guid it) (pl_items p)) p) w0) q /\
    others a b w (upd_player k (fun p => set_items (delete (it_guid it) (pl_items p)) p) w0)) as H.
  { intros w0 Hw. split_and!; [apply (has_upd k (fun p => set_items (delete (it_guid it) (pl_items p)) p) w0 p); unfold has; by rewrite Hw|apply has_upd_ne; [done|unfold has; by rewrite Hw]|].
    intros i Hia Hib. rewrite (others_upd a b) by done. by rewrite Hw. }
  destruct (IsEmpty _); by apply H.
Qed.

Lemma remove_slots_has l w p q : has a w p -> has b w q ->
  has a (fold_left (remove_slot T a b) l w) (set_items (remove_all l.*1 (pl_items p)) p) /\
  has b (fold_left (remove_slot T a b) l w) (set_items (remove_all l.*2 (pl_items q)) q) /\
  others a b w (fold_left (remove_slot T a b) l w).
Proof using Hn.
  revert w p q. induction l as [|[x y] l IH]; intros w p q Ha Hb; cbn; [by rewrite !set_items_same|].
  unfold remove_slot at 2 4 6. cbn.
  destruct (remove_offer_has a x w p q b) as (Ha1 & Hb1 & Ho1); [done|done|done|by left|].
  destruct (remove_offer_has b y (remove_offer T a x w) q (set_items (taken x (pl_items p)) p) a) as (Hb2 & Ha2 & Ho2); [done|done|done|by right|].
  destruct (IH _ _ _ Ha2 Hb2) as (Ha3 & Hb3 & Ho3). rewrite set_items_twice in Ha3, Hb3. split_and!; [done|done|].
  etransitivity; [exact Ho1|]. by etransitivity; [exact Ho2|].
Qed.

Lemma can_store_fits p it : fits_one T p it -> can_store T p [] it = (true, match it with Some it => snd (CanStoreAt T p [] it) | None => [] end).
Proof.
  destruct it as [it|]; [|done]. cbn. destruct (CanStoreAt T p [] it) as [res dst]. cbn. intros ->. done.
Qed.

Lemma hand_over_has me from to dst it w p q j : to <> j -> has to w p -> has j w q -> one_of a b to ->
  dst = match it with Some it => snd (CanStoreAt T p [] it) | None => [] end ->
  has to (hand_over T me from to dst it w) (stored T p it) /\ has j (hand_over T me from to dst it w) q /\
  others a b w (hand_over T me from to dst it w).
Proof.
  intros Hne Hto Hj Ho ->. destruct it as [it|]; cbn; [|done]. unfold handed.
  destruct (it_soulbound it && CanBeTradedEvenIfSoulBound T it); [destruct (bool_decide _)|];
    (split_and!; [unfold MoveItemToInventory; by apply (has_upd to (fun p => set_items _ p) _ p)|by apply (has_upd_ne to)|exact (fun i Hia Hib => others_upd a b to _ _ Ho i Hia Hib)]).
Qed.

Lemma move_slot_has x y w p q : has a w p -> has b w q -> fits_one T q x -> fits_one T p y ->
  has a (move_slot T a b w (x, y)) (stored T p y) /\ has b (move_slot T a b w (x, y)) (stored T q x) /\
  others a b w (move_slot T a b w (x, y)).
Proof using Hn.
  intros Ha Hb Hx Hy. unfold move_slot. unfold has in Ha, Hb. rewrite Ha, Hb, (can_store_fits q x Hx), (can_store_fits p y Hy). cbn [andb].
  destruct (hand_over_has a a b _ x w q p a (not_eq_sym Hn) Hb Ha (or_intror eq_refl) eq_refl) as (Hb1 & Ha1 & Ho1).
  destruct (hand_over_has a b a _ y _ p _ b Hn Ha1 Hb1 (or_introl eq_refl) eq_refl) as (Ha2 & Hb2 & Ho2).
  split_and!; [done|done|]. by etransitivity; [exact Ho1|].
Qed.

Lemma move_slots_has l w p q : has a w p -> has b w q -> fits T q l.*1 -> fits T p l.*2 ->
  has a (fold_left (move_slot T a b) l w) (fold_left (stored T) l.*2 p) /\
  has b (fold_left (move_slot T a b) l w) (fold_left (stored T) l.*1 q) /\
  others a b w (fold_left (move_slot T a b) l w).
Proof using Hn.
  revert w p q. induction l as [|[x y] l IH]; intros w p q Ha Hb Hx Hy; [done|]. destruct Hx as [Hx Hxs], Hy as [Hy Hys].
  destruct (move_slot_has x y w p q Ha Hb Hx Hy) as (Ha1 & Hb1 & Ho1).
  destruct (IH _ _ _ Ha1 Hb1 Hxs Hys) as (Ha2 & Hb2 & Ho2). split_and!; [exact Ha2|exact Hb2|]. cbn [fold_left]. by etransitivity; [exact Ho1|].
Qed.
End Pair.

(** ** Counts *)

Definition guids (its : list (option Item)) : list Z := it_guid <$> omap id its.
(** The items are different ones of the inventory. *)
Definition owned (inv : gmap ObjectGuid Item) (its : list (option Item)) : Prop :=
  (forall it, Some it ∈ its -> inv !! it_guid it = Some it) /\ NoDup (guids its).

Lemma guids_in it its : Some it ∈ its -> it_guid it ∈ guids its.
Proof. intros Hin. apply list_elem_of_fmap. exists it. split; [done|]. apply list_elem_of_omap. by exists (Some it). Qed.

Lemma remove_all_sub its inv g x : remove_all its inv !! g = Some x -> inv !! g = Some x.
Proof.
  revert inv. induction its as [|it its IH]; intros inv; cbn; [done|]. intros H%IH. destruct it as [it|]; cbn in H; [|done].
  by apply lookup_delete_Some in H as [_ H].
Qed.

Lemma count_remove_all e its inv : owned inv its -> count e (remove_all its inv) = count e inv - offered e its.
Proof.
  revert inv. induction its as [|it its IH]; intros inv [Hin Hnd]; cbn; [lia|]. destruct it as [it|]; cbn.
  - pose proof (Hin it ltac:(left)) as Hit. unfold guids in Hnd. cbn in Hnd. apply NoDup_cons in Hnd as [Hni Hnd]. rewrite IH.
    + unfold count. rewrite (msum_delete (weight e) inv _ it Hit). lia.
    + split; [|done]. intros x Hx. rewrite lookup_delete_ne; [apply Hin; by right|]. intros Heq. apply Hni. rewrite Heq. by apply guids_in.
  - rewrite IH; [lia|]. split; [|done]. intros x Hx. apply Hin. by right.
Qed.

Lemma count_stored T `{!SoundStore T} e its p : fits T p its -> (forall it, Some it ∈ its -> pl_items p !! it_guid it = None) ->
  NoDup (guids its) -> count e (pl_items (fold_left (stored T) its p)) = count e (pl_items p) + offered e its.
Proof.
  revert p. induction its as [|it its IH]; intros p Hf Hfresh Hnd; cbn; [lia|]. destruct Hf as [Hf1 Hf]. destruct it as [it|]; cbn.
  - unfold guids in Hnd. cbn in Hnd. apply NoDup_cons in Hnd as [Hni Hnd]. rewrite IH; [| |intros x Hx|done].
    + pose proof (store_count e p it Hf1 (Hfresh it ltac:(left))) as Hc. cbn [stored] in Hc. lia.
    + exact Hf.
    + apply eq_None_not_Some. intros Hx2. destruct (store_keys p it (it_guid x) Hf1 Hx2) as [Heq|Hs].
      * apply Hni. rewrite <- Heq. by apply guids_in.
      * rewrite Hfresh in Hs by by right. by destruct Hs.
  - apply IH; [done| |done]. intros x Hx. apply Hfresh. by right.
Qed.

(** ** What a trade window offers *)

Definition keyed (inv : gmap ObjectGuid Item) : Prop := map_Forall (fun g it => it_guid it = g) inv.

Lemma GetItem_Some p d i it : keyed (pl_items p) -> GetItem p d i = Some it ->
  m_items d !!! i = it_guid it /\ it_guid it <> 0 /\ pl_items p !! it_guid it = Some it.
Proof.
  unfold GetItem, IsEmpty. intros Hk. destruct (Z.eqb_spec (m_items d !!! i) 0) as [|Hz]; [done|]. intros Hit.
  pose proof (Hk _ _ Hit) as Heq. cbn in Heq. rewrite Heq. done.
Qed.

Lemma owned_slots p d l : keyed (pl_items p) -> slots_ok (m_items d) -> NoDup l -> Forall (fun i => (i < TRADE_SLOT_COUNT)%nat) l ->
  owned (pl_items p) (GetItem p d <$> l).
Proof.
  intros Hk [Hlen Hu] Hnd Hl. split.
  - intros it (i & Hi & _)%list_elem_of_fmap. symmetry in Hi. by apply GetItem_Some in Hi as (_ & _ & ?).
  - induction l as [|i l IH]; [constructor|]. apply NoDup_cons in Hnd as [Hni Hnd]. apply Forall_cons in Hl as [Hi Hl].
    unfold guids. cbn. destruct (GetItem p d i) as [it|] eqn:Hit; cbn; [|by apply IH]. constructor; [|by apply IH].
    intros (it' & Heq & (x & (j & Hj & Hjl)%list_elem_of_fmap & Hx)%list_elem_of_omap)%list_elem_of_fmap. cbn in Hx. rewrite Hj in Hx. clear Hj. rename Hx into Hj.
    apply GetItem_Some in Hit as (Hi1 & Hz & _); [|done]. apply GetItem_Some in Hj as (Hj1 & _ & _); [|done].
    rewrite Forall_forall in Hl. specialize (Hl j Hjl). apply Hni.
    replace i with j; [done|]. apply (Hu j i (it_guid it)); [| |done].
    + rewrite <- Hlen in Hl. apply list_lookup_lookup_total_lt in Hl as Hj2.
      rewrite Hj2. congruence.
    + rewrite <- Hlen in Hi. apply list_lookup_lookup_total_lt in Hi as Hi2. rewrite Hi2. congruence.
Qed.

Lemma owned_traded p d : keyed (pl_items p) -> slots_ok (m_items d) -> owned (pl_items p) (traded p d).
Proof.
  intros Hk Hs. apply owned_slots; [done|done|apply NoDup_seq|]. apply Forall_forall. intros i Hi. apply elem_of_seq in Hi.
  unfold TRADE_SLOT_TRADED_COUNT, TRADE_SLOT_COUNT in *. lia.
Qed.

(** ** The gold *)

Lemma has_SetMoney v k w p : has k w p -> has k (SetMoney v k w) (set_money v p).
Proof. intros Hk. apply (has_upd k (set_money v) w p Hk). Qed.
Lemma has_SetMoney_ne v j k w p : k <> j -> has k w p -> has k (SetMoney v j w) p.
Proof. intros Hn Hk. by apply (has_upd_ne j k (set_money v)). Qed.
Lemma others_SetMoney a b v k w : one_of a b k -> others a b w (SetMoney v k w).
Proof. intros Ho j Ha Hb. by apply (others_upd a b k (set_money v) w Ho). Qed.

Section Gold.
Context (E : Env) `{!SoundEnv E} (a b : Z) (Hn : a <> b).

(** One character pays [x] and is paid [y]. *)
Lemma pay_and_income k w p x y : one_of a b k -> has k w p -> purse_ok (pl_money p) -> 0 <= x <= pl_money p -> purse_ok y ->
  exists w', ModifyMoney E (i32 y) k (ModifyMoney E (i32 (- i32 x)) k w) = w' /\
    has k w' (set_money (Z.min MAX_MONEY_AMOUNT (pl_money p - x + y)) p) /\ others a b w w' /\
    forall j q, j <> k -> has j w q -> has j w' q.
Proof using All.
  intros Ho Hk Hp Hx Hy. eexists. split; [reflexivity|]. rewrite (ModifyMoney_pay E k w p Hk Hp x Hx).
  assert (purse_ok (pl_money p - x)) as Hp1 by (unfold purse_ok in *; lia).
  pose proof (has_SetMoney (pl_money p - x) k w p Hk) as Hk1.
  destruct (ModifyMoney_income E k (SetMoney (pl_money p - x) k w) (set_money (pl_money p - x) p) Hk1 Hp1 y) as (v & -> & _ & _ & Hv).
  - unfold purse_ok, MAX_MONEY_AMOUNT, is_u in *. lia.
  - unfold purse_ok in *. lia.
  - rewrite Hv by (unfold purse_ok in *; lia). split_and!.
    + apply (has_SetMoney _ k _ _ Hk1).
    + etransitivity; by apply others_SetMoney.
    + intros j q Hj Hq. apply has_SetMoney_ne; [done|]. by apply has_SetMoney_ne.
Qed.

Lemma pay_gold_has x y w p q : has a w p -> has b w q -> purse_ok (pl_money p) -> purse_ok (pl_money q) ->
  0 <= x <= pl_money p -> 0 <= y <= pl_money q ->
  has a (pay_gold E a b x y w) (set_money (Z.min MAX_MONEY_AMOUNT (pl_money p - x + y)) p) /\
  has b (pay_gold E a b x y w) (set_money (Z.min MAX_MONEY_AMOUNT (pl_money q - y + x)) q) /\
  others a b w (pay_gold E a b x y w).
Proof using All.
  intros Ha Hb Hp Hq Hx Hy. unfold pay_gold. cbv zeta.
  destruct (pay_and_income a w p x y) as (w1 & -> & Ha1 & Ho1 & Hk1); [by left|done|done|done|unfold purse_ok in *; lia|].
  destruct (pay_and_income b w1 q y x) as (w2 & -> & Hb2 & Ho2 & Hk2); [by right|by apply Hk1|done|done|unfold purse_ok in *; lia|].
  split_and!; [by apply Hk2|done|]. by etransitivity.
Qed.
End Gold.

(** ** The deal *)

Lemma stored_money T its p : pl_money (fold_left (stored T) its p) = pl_money p.
Proof. revert p. induction its as [|[it|] its IH]; intros p; cbn; [done| |apply IH]. by rewrite IH. Qed.

Lemma zip_traded p d q h : (zip (traded p d) (traded q h)).*1 = traded p d /\ (zip (traded p d) (traded q h)).*2 = traded q h.
Proof. split; [apply fst_zip|apply snd_zip]; unfold traded; by rewrite !length_fmap. Qed.

Lemma others_Save a b k w : others a b w (SaveInventoryAndGoldToDB k w).
Proof. unfold SaveInventoryAndGoldToDB, SaveGoldToDB. cbn. intros j _ _. by destruct (w_players w !! k). Qed.
Lemma players_Save k w : w_players (SaveInventoryAndGoldToDB k w) = w_players w.
Proof. unfold SaveInventoryAndGoldToDB, SaveGoldToDB. cbn. by destruct (w_players w !! k). Qed.

(** What a character owns after giving [out] and getting [its]. *)
Definition after_deal (T : TradeEnv) (p : Player) (out its : list (option Item)) (gold : Z) : Player :=
  set_money (Z.min MAX_MONEY_AMOUNT gold) (fold_left (stored T) its (set_items (remove_all out (pl_items p)) p)).

Lemma has_emits os k w p : has k w p -> has k (emits os w) p.
Proof. done. Qed.
Lemma others_emits a b os w : others a b w (emits os w).
Proof. done. Qed.

Lemma exchange_has E T `{!SoundEnv E} `{!SoundStore T} a b p q d h sa sb w : a <> b -> has a w p -> has b w q ->
  purse_ok (pl_money p) -> purse_ok (pl_money q) -> 0 <= m_money d <= pl_money p -> 0 <= m_money h <= pl_money q ->
  CanStoreItems T p (traded p d) (traded q h) = EQUIP_ERR_OK -> CanStoreItems T q (traded q h) (traded p d) = EQUIP_ERR_OK ->
  let w' := exchange E T a b d h (zip (traded p d) (traded q h)) sa sb w in
  has a w' (after_deal T p (traded p d) (traded q h) (pl_money p - m_money d + m_money h)) /\
  has b w' (after_deal T q (traded q h) (traded p d) (pl_money q - m_money h + m_money d)) /\ others a b w w'.
Proof.
  intros Hn Ha Hb Hp Hq Hd Hh Hra Hrb. cbv zeta. unfold exchange. cbv zeta.
  destruct (zip_traded p d q h) as [H1 H2]. set (l := zip _ _) in *. clearbody l.
  destruct (remove_slots_has T a b Hn l w p q Ha Hb) as (Ha1 & Hb1 & Ho1). rewrite H1 in Ha1. rewrite H2 in Hb1.
  set (w1 := fold_left (remove_slot T a b) l w) in *. clearbody w1.
  destruct (move_slots_has T a b Hn l w1 _ _ Ha1 Hb1) as (Ha2 & Hb2 & Ho2).
  { rewrite H1. by apply store_room. } { rewrite H2. by apply store_room. }
  rewrite H2 in Ha2. rewrite H1 in Hb2. set (w2 := fold_left (move_slot T a b) l w1) in *. clearbody w2.
  destruct (pay_gold_has E a b Hn (m_money d) (m_money h) w2 _ _ Ha2 Hb2) as (Ha3 & Hb3 & Ho3); rewrite ?stored_money; [done..|].
  rewrite stored_money in Ha3, Hb3. split_and!; [apply has_emits, Ha3|apply has_emits, Hb3|].
  etransitivity; [exact Ho1|]. etransitivity; [exact Ho2|]. etransitivity; [exact Ho3|]. apply others_emits.
Qed.

Lemma count_after_deal T `{!SoundStore T} i p out its gold : owned (pl_items p) out -> fits T (set_items (remove_all out (pl_items p)) p) its ->
  (forall it, Some it ∈ its -> pl_items p !! it_guid it = None) -> NoDup (guids its) ->
  count i (pl_items (after_deal T p out its gold)) = count i (pl_items p) - offered i out + offered i its.
Proof.
  intros Hout Hfit Hfresh Hnd. unfold after_deal. cbn [set_money pl_items].
  rewrite (count_stored T i its _ Hfit); [|intros it Hit|done].
  - cbn [set_items pl_items]. rewrite (count_remove_all i out _ Hout). done.
  - cbn [set_items pl_items]. destruct (remove_all out (pl_items p) !! it_guid it) as [x|] eqn:Hx; [|done].
    apply remove_all_sub in Hx. rewrite Hfresh in Hx; done.
Qed.

(** Inventories are keyed by the GUIDs of their items, and no item is in two. *)
Definition items_ok (t : TWorld) : Prop :=
  (forall k p, character k t = Some p -> keyed (pl_items p)) /\
  (forall k j p q, k <> j -> character k t = Some p -> character j t = Some q -> pl_items p ##ₘ pl_items q).

Lemma owned_fresh its inv inv' : owned inv its -> inv ##ₘ inv' -> forall it, Some it ∈ its -> inv' !! it_guid it = None.
Proof. intros [Hin _] Hd it Hit. specialize (Hin it Hit). rewrite map_disjoint_spec in Hd. apply eq_None_not_Some. intros [y Hy]. by eapply Hd. Qed.

(** [p] of [a] and [q] of [b] have made the deal of [d] and [h]. *)
Definition exact_deal (a b : Z) (p q : Player) (d h : TradeData) (t' : TWorld) : Prop :=
  exists p' q', character a t' = Some p' /\ character b t' = Some q' /\
    pl_money p' = Z.min MAX_MONEY_AMOUNT (pl_money p - m_money d + m_money h) /\
    pl_money q' = Z.min MAX_MONEY_AMOUNT (pl_money q - m_money h + m_money d) /\
    forall i, count i (pl_items p') = count i (pl_items p) - offered i (traded p d) + offered i (traded q h) /\
      count i (pl_items q') = count i (pl_items q) - offered i (traded q h) + offered i (traded p d).

Lemma has_Save j k w p : has k w p -> has k (SaveInventoryAndGoldToDB j w) p.
Proof. unfold has. by rewrite players_Save. Qed.

Lemma dealt_has E T `{!SoundEnv E} `{!SoundStore T} a b p q d h sa sb t t' : a <> b -> sound t -> gold_ok (t_world t) ->
  deal_ready T a b p q d h sa sb t -> dealt E T a b p q d h sa sb t t' ->
  has a (t_world t') (after_deal T p (traded p d) (traded q h) (pl_money p - m_money d + m_money h)) /\
  has b (t_world t') (after_deal T q (traded q h) (traded p d) (pl_money q - m_money h + m_money d)) /\
  others a b (t_world t) (t_world t').
Proof.
  intros Hn Hs (Hg & _) [Hp Hq Hd Hh _ _ _ Hpm Hqm _ _ _ Hra Hrb] [(os & os' & ->) _].
  pose proof (Hs a d Hd) as [_ _ [_ Hm1]]. pose proof (Hs b h Hh) as [_ _ [_ Hm2]].
  pose proof (Hg a p Hp) as (_ & _ & Hpurse1 & _). pose proof (Hg b q Hq) as (_ & _ & Hpurse2 & _).
  destruct (exchange_has E T a b p q d h sa sb (emits os (t_world t)) Hn (has_emits os a _ p Hp) (has_emits os b _ q Hq))
    as (Ha & Hb & Ho); [done..|].
  split_and!; [by apply has_emits, has_Save, has_Save|by apply has_emits, has_Save, has_Save|].
  etransitivity; [apply (others_emits a b os)|]. etransitivity; [exact Ho|].
  etransitivity; [apply others_Save|]. etransitivity; [apply others_Save|]. apply others_emits.
Qed.

Lemma deal_exact E T `{!SoundEnv E} `{!SoundStore T} a b p q d h sa sb t t' : a <> b -> sound t -> gold_ok (t_world t) -> items_ok t ->
  deal_ready T a b p q d h sa sb t -> dealt E T a b p q d h sa sb t t' ->
  exact_deal a b p q d h t' /\ (forall k, k <> a -> k <> b -> character k t' = character k t).
Proof.
  intros Hn Hs Hg [Hkey Hdis] Hr Hdealt. destruct (dealt_has E T a b p q d h sa sb t t' Hn Hs Hg Hr Hdealt) as (Ha & Hb & Ho).
  split; [|intros k Hka Hkb; by apply Ho]. destruct Hr as [Hp Hq Hd Hh _ _ _ _ _ _ _ _ Hra Hrb].
  pose proof (Hs a d Hd) as [_ _ [Hsl1 _]]. pose proof (Hs b h Hh) as [_ _ [Hsl2 _]].
  pose proof (owned_traded p d (Hkey a p Hp) Hsl1) as Ho1. pose proof (owned_traded q h (Hkey b q Hq) Hsl2) as Ho2.
  eexists _, _. split; [exact Ha|]. split; [exact Hb|]. split; [done|]. split; [done|]. intros i. split.
  - apply count_after_deal; [done|done|by apply store_room| |by destruct Ho2].
    apply (owned_fresh _ _ _ Ho2). by apply (Hdis b a).
  - apply count_after_deal; [done|done|by apply store_room| |by destruct Ho1].
    apply (owned_fresh _ _ _ Ho1). by apply (Hdis a b).
Qed.

(** Events that are no deal leave every character as he was. *)
Lemma outcome_no_deal E T x a t t' : outcome E T x a t t' ->
  w_players (t_world t') = w_players (t_world t) \/
  exists b t1, x = true /\ together a b t /\ agrees E a b t t1 /\ deal E T a b t1 t'.
Proof.
  intros [os Hw _|b (_ & _ & _ & _ & _ & [os Hw] & _)|b Ht (os & da & hb & da' & hb' & Hw & _)
    |b t1 Hx Ht -> (os & da & hb & da' & hb' & Hw & _)|b t1 Hx Ht Ha Ho|b Ht [[os Hw] _]].
  1-4,6: left; rewrite Hw; done.
  right. by exists b, t1.
Qed.
