(* ===== verification/TradeGold.v ===== *)
(** * TradeGold: trades, mails and auctions together

    No run of the three creates gold, and what a trade event changes in the
    purses and inventories is nothing or an exact deal. *)
From S2P Require Import Prelude ByteBuffer ObjectGuid EconomyData Mail EconomyFrame Gold EconomyRun Trade TradeHandlers TradeSafety TradeSteps TradeRun TradeDeal.

(** ** Moving items moves no gold *)

Lemma moves_items k f w : moves 0 w (upd_player k (fun p => set_items (f p) p) w).
Proof. by apply moves_upd_any. Qed.

Lemma moves_remove_offer T k it w : moves 0 w (remove_offer T k it w).
Proof.
  destruct it as [it|]; [|by apply moves_refl]. cbn. unfold MoveItemFromInventory.
  destruct (IsEmpty _); [apply moves_items|]. eapply moves_then; [apply moves_emit|apply moves_items].
Qed.
Lemma moves_store T k dst it w : moves 0 w (MoveItemToInventory T k dst it w).
Proof. apply moves_items. Qed.
Lemma moves_hand_over T me from to dst it w : moves 0 w (hand_over T me from to dst it w).
Proof.
  destruct it as [it|]; [|by apply moves_refl]. cbn. eapply moves_then; [apply moves_emits|].
  destruct (_ && _); [|apply moves_store]. eapply moves_then; [|apply moves_store].
  destruct (bool_decide _); [by apply moves_refl|apply moves_emit].
Qed.
Lemma moves_take_back T k dst it w : moves 0 w (take_back T k dst it w).
Proof.
  unfold take_back. destruct it; [|by apply moves_refl]. destruct (w_players w !! k); [|by apply moves_refl].
  destruct (can_store _ _ _ _) as [[] ?]; [apply moves_store|by apply moves_refl].
Qed.
#[local] Hint Resolve moves_remove_offer moves_hand_over moves_take_back : gold.

Lemma moves_remove_slot T a b w s : moves 0 w (remove_slot T a b w s).
Proof. unfold remove_slot. peel. apply moves_remove_offer. Qed.
Lemma moves_move_slot T a b w s : moves 0 w (move_slot T a b w s).
Proof.
  destruct s as [x y]. cbn. destruct (w_players w !! a); [|by apply moves_refl]. destruct (w_players w !! b); [|by apply moves_refl].
  destruct (can_store T _ _ x) as [b1 ?], (can_store T _ _ y) as [b2 ?]. destruct (b1 && b2); peel; eauto with gold.
Qed.
Lemma moves_slots {A} (f : World -> A -> World) l w : (forall w x, moves 0 w (f w x)) -> moves 0 w (fold_left f l w).
Proof. intros Hf. revert w. induction l as [|x l IH]; intros w; [by apply moves_refl|]. eapply moves_then; [apply Hf|apply IH]. Qed.

(** Purses through the items. *)
Lemma purse_upd_items j k f w : purse k (upd_player j (fun p => set_items (f p) p) w) = purse k w.
Proof.
  unfold purse. cbn. destruct (decide (k = j)) as [->|]; [rewrite lookup_alter_eq; by destruct (w_players w !! j)|by rewrite lookup_alter_ne].
Qed.
Lemma purse_remove_offer T j k it w : purse k (remove_offer T j it w) = purse k w.
Proof. destruct it as [it|]; [|done]. cbn. unfold MoveItemFromInventory. rewrite purse_upd_items. by destruct (IsEmpty _). Qed.
Lemma purse_hand_over T me from to k dst it w : purse k (hand_over T me from to dst it w) = purse k w.
Proof.
  destruct it as [it|]; [|done]. cbn. unfold MoveItemToInventory. destruct (_ && _); rewrite purse_upd_items; [|done].
  by destruct (bool_decide _).
Qed.
Lemma purse_take_back T j k dst it w : purse k (take_back T j dst it w) = purse k w.
Proof.
  unfold take_back. destruct it; [|done]. destruct (w_players w !! j); [|done].
  destruct (can_store _ _ _ _) as [[] ?]; [apply purse_upd_items|done].
Qed.
Lemma purse_remove_slot T a b k w s : purse k (remove_slot T a b w s) = purse k w.
Proof. unfold remove_slot. by rewrite !purse_remove_offer. Qed.
Lemma purse_move_slot T a b k w s : purse k (move_slot T a b w s) = purse k w.
Proof.
  destruct s as [x y]. cbn. destruct (w_players w !! a); [|done]. destruct (w_players w !! b); [|done].
  destruct (can_store T _ _ x) as [b1 ?], (can_store T _ _ y) as [b2 ?]. destruct (b1 && b2).
  - by rewrite !purse_hand_over.
  - by rewrite !purse_take_back.
Qed.
Lemma purse_fold {A} (f : World -> A -> World) k l w : (forall w x, purse k (f w x) = purse k w) -> purse k (fold_left f l w) = purse k w.
Proof. intros Hf. revert w. induction l as [|x l IH]; intros w; [done|]. cbn. by rewrite IH. Qed.

Lemma purse_ModifyMoney_ne E d j k w : k <> j -> purse k (ModifyMoney E d j w) = purse k w.
Proof. intros Hn. unfold purse, ModifyMoney. destruct (w_players w !! j); [|done]. case_match; cbn; by rewrite lookup_alter_ne. Qed.
Lemma purse_ModifyMoney E d k w g : purse k w = Some g -> is_Some (purse k (ModifyMoney E d k w)).
Proof.
  unfold purse, ModifyMoney. destruct (w_players w !! k) as [p|] eqn:Hk; [|done]. intros _.
  case_match; cbn; rewrite lookup_alter_eq, Hk; by eexists.
Qed.

Lemma moves_pay_gold E `{!SoundEnv E} a b x y gx gy w : a <> b -> purse a w = Some gx -> purse b w = Some gy ->
  0 <= x <= gx -> 0 <= y <= gy -> gx <= MAX_MONEY_AMOUNT -> gy <= MAX_MONEY_AMOUNT -> moves 0 w (pay_gold E a b x y w).
Proof.
  intros Hn Ha Hb Hx Hy Hgx Hgy. unfold pay_gold. cbv zeta.
  set (w1 := ModifyMoney E (i32 (- i32 x)) a w). destruct (purse_ModifyMoney E (i32 (- i32 x)) a w gx Ha) as [g1 H1]. fold w1 in H1.
  set (w2 := ModifyMoney E (i32 y) a w1).
  assert (purse b w2 = Some gy) as Hb2 by (unfold w2, w1; by rewrite !purse_ModifyMoney_ne).
  destruct (purse_ModifyMoney E (i32 (- i32 y)) b w2 gy Hb2) as [g3 H3].
  refine (moves_trans (- x) x 0 w w1 _ (moves_pay E a x gx w Ha Hx) _ _); [|lia].
  refine (moves_trans y (x - y) x w1 w2 _ (moves_income E a y g1 w1 H1 _ _) _ _); [| | |lia].
  { unfold is_u, MAX_MONEY_AMOUNT in *. lia. } { lia. }
  refine (moves_trans (- y) x _ w2 _ _ (moves_pay E b y gy w2 Hb2 Hy) (moves_income E b x g3 _ H3 _ _) _); [|lia|lia].
  unfold is_u, MAX_MONEY_AMOUNT in *. lia.
Qed.

Lemma moves_exchange E T `{!SoundEnv E} a b d h items sa sb w gx gy : a <> b -> purse a w = Some gx -> purse b w = Some gy ->
  0 <= m_money d <= gx -> 0 <= m_money h <= gy -> gx <= MAX_MONEY_AMOUNT -> gy <= MAX_MONEY_AMOUNT ->
  moves 0 w (exchange E T a b d h items sa sb w).
Proof.
  intros Hn Ha Hb Hx Hy Hgx Hgy. unfold exchange. cbv zeta. eapply moves_then; [|apply moves_emits].
  eapply moves_then; [apply (moves_slots (remove_slot T a b) items); intros; apply moves_remove_slot|].
  eapply moves_then; [apply (moves_slots (move_slot T a b) items); intros; apply moves_move_slot|].
  eapply moves_pay_gold; [done|done| | |exact Hx|exact Hy|done|done];
    (rewrite !purse_fold; [done|intros..]; first [apply purse_remove_slot|apply purse_move_slot]).
Qed.

(** ** Runs *)

Lemma moves_outcome E T `{!SoundEnv E} x a t t' : sound t -> outcome E T x a t t' -> moves 0 (t_world t) (t_world t').
Proof.
  intros Hs [os Hw _|b (_ & _ & _ & _ & _ & [os Hw] & _)|b Ht (os & da & hb & da' & hb' & Hw & _)
    |b t1 Hx Ht -> (os & da & hb & da' & hb' & Hw & _)
    |b t1 Hx Ht Ha (p & q & d & h & sa & sb & [Hp Hq Hd Hh _ _ _ Hpm Hqm _ _ _ _ _] & [(os & os' & Hw) _])|b Ht [[os Hw] _]].
  1-4,6: rewrite Hw; apply moves_emits.
  pose proof (sound_agrees E a b t t1 Hs Ha) as Hs1. pose proof (Hs1 a d Hd) as [_ _ [_ Hm1]]. pose proof (Hs1 b h Hh) as [_ _ [_ Hm2]].
  assert (t_world t1 = t_world t) as Hw1 by by rewrite Ha.
  assert (moves 0 (t_world t) (emits os' (SaveInventoryAndGoldToDB b (SaveInventoryAndGoldToDB a
    (exchange E T a b d h (zip (traded p d) (traded q h)) sa sb (emits os (t_world t1))))))) as Hm; [|by rewrite Hw].
  rewrite <- Hw1. intros Hg. pose proof (proj1 Hg a p Hp) as (_ & _ & [_ Hpa] & _). pose proof (proj1 Hg b q Hq) as (_ & _ & [_ Hpb] & _).
  revert Hg. eapply moves_then; [|apply moves_emits]. do 2 (eapply moves_then; [|apply moves_SaveInventoryAndGoldToDB]).
  eapply moves_then; [apply (moves_emits os)|].
  apply (moves_exchange E T a b d h _ sa sb _ (pl_money p) (pl_money q)); try done.
  - by apply tg_ne in Ht.
  - unfold purse. cbn. unfold character in Hp. by rewrite Hp.
  - unfold purse. cbn. unfold character in Hq. by rewrite Hq.
Qed.

Lemma moves_tstep e t t' : sound t -> tstep e t t' -> moves 0 (t_world t) (t_world t').
Proof.
  intros Hs Hstep. destruct Hstep as [E T ev t1 t2 HE Hon Hok Hh|t1 w' Hw _]; [|by apply moves_step].
  apply (moves_outcome E T (accepts ev) (actor ev)); [done|]. by apply handled_outcome.
Qed.

Lemma moves_truns t0 h t : m_trade t0 = ∅ -> truns t0 h t -> moves 0 (t_world t0) (t_world t).
Proof.
  intros H0. induction 1 as [|h t e t' Hr IH Hstep]; [by apply moves_refl|]. eapply moves_then; [done|].
  eapply moves_tstep; [by eapply sound_truns|done].
Qed.



(** ** Concrete trades

    Two trades of the characters of [EconomyRun], played packet by packet:
    one that is made as agreed, and one whose offer is mailed away before the
    second acceptance. *)

(** ** A server *)

Definition ex_env_at (time : Z) : Env := mkEnv time 2000 (fun _ d => d)
  (fun k => if (1 <=? k) && (k <=? 4) then Some (mkCacheData (100 + k) 0 0) else None)
  (fun n => match n with [c] => c | _ => 0 end) Some (fun s => s) (fun _ => 9) (fun _ _ => true) (fun _ => false) (fun _ => false)
  (fun _ => 0) (fun _ => false) (fun _ => false) (fun _ _ => true) (fun _ _ => 0)
  (fun m it => <[it_guid it := it]> m) (fun _ _ => Some 1) (fun _ b => b * 5 / 100) (fun _ _ _ => 40) (fun t => t)
  true 0 3600 0 false true.
#[export] Instance ex_env_at_sound time : SoundEnv (ex_env_at time).
Proof. split; [done|intros h b Hb; exact (cut_is_part (E := ex_env) h b Hb)|done]. Qed.

(** Bags without stacks: an item goes into a free slot; the backpack starts at slot 23. *)
Definition ex_tenv : TradeEnv := mkTradeEnv (fun _ => false) (fun _ => false) (fun _ => false) (fun _ => true) (fun _ => false)
  (fun _ => false) (fun _ => true) (fun _ _ => true) (fun _ _ => false) (fun _ _ => true) (fun _ _ => true)
  (fun p bag slot => nth_error (fst <$> map_to_list (pl_items p)) (Z.to_nat (slot - 23))) (fun _ => false) (fun _ _ _ => false)
  (fun _ => mkLook 7 false 0 0 0 50 50) (fun _ => true) (fun _ _ _ _ => SPELL_CAST_OK) (fun _ _ _ => EQUIP_ERR_OK)
  (fun _ dst _ => (EQUIP_ERR_OK, dst)) (fun inv _ it => <[it_guid it := it]> inv) true.

#[export] Instance ex_store : SoundStore ex_tenv.
Proof.
  assert (forall it, handed ex_tenv it = it) as Hh by (intros it; unfold handed; by rewrite andb_false_r).
  split.
  - intros e p it _ Hf. cbn. rewrite Hh. unfold count. rewrite msum_new by done. lia.
  - intros p it g _. cbn. rewrite Hh. intros [x [[<- _]|[_ Hx]]%lookup_insert_Some]; [by left|right; by eexists].
  - intros p out its _. generalize (set_items (remove_all out (pl_items p)) p). induction its as [|[it|] its IH]; cbn; auto.
Qed.

(** ** Playing packets *)

(** A trade event at a time. *)
Definition move : Type := Z * tevent.
Definition play_one (m : move) (t : TWorld) : option TWorld :=
  _ ← character (actor (snd m)) t; handle_event (ex_env_at (fst m)) ex_tenv (snd m) t.
Fixpoint play (l : list move) (t : TWorld) : option history :=
  match l with
  | [] => Some []
  | m :: l => t' ← play_one m t; h ← play l t'; Some ((Some (snd m), t') :: h)
  end.
Definition end_of (t : TWorld) (h : history) : TWorld := default t (snd <$> last h).

Lemma end_of_cons t s h : end_of t (s :: h) = end_of (snd s) h.
Proof. unfold end_of. rewrite last_cons. by destruct (last h). Qed.

Lemma play_truns t0 l t h h' : truns t0 h t -> play l t = Some h' -> Forall (fun m => event_ok (snd m)) l ->
  truns t0 (h ++ h') (end_of t h').
Proof.
  intros Hr Hp Hl. revert t h h' Hr Hp. induction Hl as [|[time ev] l Hok Hl IH]; intros t h h' Hr Hp.
  { injection Hp as <-. by rewrite app_nil_r. }
  cbn in Hp. destruct (play_one (time, ev) t) as [t1|] eqn:Hone; [|done]. cbn in Hp.
  destruct (play l t1) as [h1|] eqn:Hrest; [|done]. injection Hp as <-.
  rewrite end_of_cons. replace (h ++ (Some ev, t1) :: h1) with ((h ++ [(Some ev, t1)]) ++ h1) by by rewrite <- app_assoc.
  apply IH; [|done]. apply (tr_snoc _ _ t); [done|]. unfold play_one in Hone. cbn in Hone.
  destruct (character (actor ev) t) as [p|] eqn:Hc; [|done].
  eapply ts_event; [apply ex_env_at_sound|by eexists|done|exact Hone].
Qed.

Definition ex_trade_start : TWorld := mkTWorld ex_world ∅.

(** 1 offers item 60 and 2 offers 100 copper; both accept. *)
Definition ex_offers : list move :=
  [(1000, EPacket 1 (CMSG_INITIATE_TRADE 2)); (1001, EPacket 2 CMSG_BEGIN_TRADE);
   (1002, EPacket 1 (CMSG_SET_TRADE_ITEM 0 255 23)); (1003, EPacket 2 (CMSG_SET_TRADE_GOLD 100));
   (1010, EPacket 2 CMSG_ACCEPT_TRADE)].
Definition ex_accept : tevent := EPacket 1 CMSG_ACCEPT_TRADE.
Definition ex_history : history := Eval vm_compute in default [] (play ex_offers ex_trade_start).
Definition ex_table : TWorld := end_of ex_trade_start ex_history.

Lemma ex_history_runs : truns ex_trade_start ex_history ex_table.
Proof.
  apply (play_truns ex_trade_start ex_offers ex_trade_start []); [constructor|vm_compute; reflexivity|].
  repeat constructor; by vm_compute.
Qed.

Lemma trades_stay_paired_witness : m_trade ex_trade_start = ∅ /\ truns ex_trade_start ex_history ex_table /\
  is_Some (handle_event (ex_env_at 1010) ex_tenv ex_accept ex_table).
Proof.
  split; [reflexivity|]. split; [exact ex_history_runs|].
  apply (trades_stay_paired ex_trade_start ex_history ex_table eq_refl ex_history_runs); [by eexists|exact I].
Defined.

(** 2 has accepted: his packet is the last of the history. *)
Definition ex_his_trade : TradeData := mkTrade 1 true false 100 0 0 (replicate TRADE_SLOT_COUNT 0) 1010 200.


Lemma ex_table_items : items_ok ex_table.
Proof.
  assert (w_players (t_world ex_table) = w_players ex_world) as Hw by by vm_compute.
  split.
  - intros k p. unfold character. rewrite Hw. revert k p.
    refine (_ : map_Forall (fun k p => keyed (pl_items p)) (w_players ex_world)). by_list. unfold keyed.
    repeat apply Forall_cons_2; [..|done]; by_list; computed.
  - intros k j p q Hkj. unfold character. rewrite Hw. intros Hp Hq.
    assert (forall k p, w_players ex_world !! k = Some p -> k = 1 \/ pl_items p = ∅) as Hone.
    { refine (_ : map_Forall (fun k p => k = 1 \/ pl_items p = ∅) (w_players ex_world)). by_list.
      repeat apply Forall_cons_2; [..|done]; vm_compute; auto. }
    destruct (Hone k p Hp) as [->|Hk]; [|rewrite Hk; apply map_disjoint_empty_l].
    destruct (Hone j q Hq) as [->|Hj]; [done|rewrite Hj; apply map_disjoint_empty_r].
Qed.

Definition ex_settled : TWorld := Eval vm_compute in default ex_table (handle_event (ex_env_at 1010) ex_tenv ex_accept ex_table).

(** The deal: 100 copper against item 60. *)
Example ex_settled_deal : (purse 1 (t_world ex_settled), purse 2 (t_world ex_settled)) = (Some 600, Some 4900) /\
  (count 2000 <$> inventory 1 (t_world ex_settled), count 2000 <$> inventory 2 (t_world ex_settled)) = (Some 0, Some 1).
Proof. by vm_compute. Qed.

(** ** An offer that is emptied

    After 2 has accepted, 1 sends the item on the table to 3 by mail, and then
    accepts. *)
Definition ex_mail_away : packet := CMSG_SEND_MAIL 9 [3] (str "x") (str "y") 60 0 0.
Definition ex_mailed_world : World := Eval vm_compute in
  default ex_world (handle (ex_env_at 1011) (ex_player 1 500 [60] [ex_mail 5 1 25]) ex_mail_away (t_world ex_table)).
Definition ex_mailed : TWorld := mkTWorld ex_mailed_world (m_trade ex_table).
Definition ex_emptied : TWorld := Eval vm_compute in default ex_mailed (handle_event (ex_env_at 1012) ex_tenv ex_accept ex_mailed).

Lemma ex_mailed_runs : truns ex_trade_start (ex_history ++ [(None, ex_mailed)]) ex_mailed.
Proof.
  apply (tr_snoc _ _ ex_table); [exact ex_history_runs|]. apply ts_world.
  - apply (step_packet _ (ex_env_at 1011) 1 (ex_player 1 500 [60] [ex_mail 5 1 25]) ex_mail_away); [apply _|by vm_compute|done|by vm_compute|done|].
    vm_compute. reflexivity.
  - assert (map_Forall (fun k _ => is_Some (w_players ex_mailed_world !! k)) (m_trade ex_table)) as Hall.
    { by_list. repeat apply Forall_cons_2; [..|done]; vm_compute; by eexists. }
    intros k [d Hd]. by apply (Hall k d).
Qed.

(** An offer that was accepted can be emptied by mail: in a run in which 2
    accepted item 60 for 100 copper and both offers still read the same, the
    item has left the inventory of 1; the acceptance of 1 then makes the deal,
    and 2 has paid and got nothing. *)
Theorem accepted_offers_can_be_emptied : exists h t t', truns ex_trade_start h t /\
  handle_event (ex_env_at 1012) ex_tenv (EPacket 1 CMSG_ACCEPT_TRADE) t = Some t' /\
  (exists s h1 h2, h = h1 ++ (Some (EPacket 2 CMSG_ACCEPT_TRADE), s) :: h2 /\ offer_of 1 s = offer_of 1 t /\
     (inventory 1 (t_world s) ≫= lookup 60) = Some (ex_item 60) /\ (inventory 1 (t_world t) ≫= lookup 60) = None) /\
  (m_items <$> m_trade t !! 1) = Some [60; 0; 0; 0; 0; 0; 0] /\
  purse 2 (t_world t) = Some 5000 /\ purse 2 (t_world t') = Some 4900 /\
  inventory 2 (t_world t') = inventory 2 (t_world t) /\ m_trade t' = ∅.
Proof.
  exists (ex_history ++ [(None, ex_mailed)]), ex_mailed, ex_emptied. split; [exact ex_mailed_runs|].
  split; [vm_compute; reflexivity|]. split.
  - exists ex_table, (take 4 ex_history), [(None, ex_mailed)]. split_and!; vm_compute; reflexivity.
  - split_and!; vm_compute; reflexivity.
Qed.
