(* ===== verification/GroupData.v ===== *)
(** * GroupData: what groups, loot rolls and the queue of the meeting stones work on

    The data of src/src/game/Group/Group.h, GroupReference.h, the part of
    src/src/game/LootMgr.h that rolls touch and src/src/game/LFG/LFGMgr.h, and
    the state [World]. Groups and loots live on a heap: a pointer is the key of
    an object in [w_groups] or [w_loots], and [w_ub] records that the code
    followed a pointer to an object that is gone, read past the end of a list
    or broke an assertion. A player is named by its GUID. What the code does to
    instances, quests, pets and inventories is emitted. *)
From S2P Require Import Prelude ByteBuffer ObjectGuid.

(** ** Constants *)

Definition MAX_GROUP_SIZE : Z := 5.
Definition MAX_RAID_SIZE : Z := 40.
Definition MAX_RAID_SUBGROUPS : Z := MAX_RAID_SIZE / MAX_GROUP_SIZE.
Definition TARGET_ICON_COUNT : Z := 8.

(** [LootMethod] *)
Definition FREE_FOR_ALL : Z := 0.
Definition MASTER_LOOT : Z := 2.
Definition GROUP_LOOT : Z := 3.
Definition NEED_BEFORE_GREED : Z := 4.

(** [RemoveMethod] and [InviteMethod] *)
Definition GROUP_LEAVE : Z := 0.
Definition GROUP_KICK : Z := 1.
Definition GROUP_JOIN : Z := 0.
Definition GROUP_LFG : Z := 1.

Inductive RollVote := ROLL_PASS | ROLL_NEED | ROLL_GREED | ROLL_NOT_EMITED_YET | ROLL_NOT_VALID.
#[export] Instance RollVote_dec : EqDecision RollVote.
Proof. solve_decision. Defined.
Definition MAX_ROLL_FROM_CLIENT : Z := 3.
Definition RollVote_of (v : Z) : RollVote :=
  if v =? 0 then ROLL_PASS else if v =? 1 then ROLL_NEED else if v =? 2 then ROLL_GREED
  else if v =? 3 then ROLL_NOT_EMITED_YET else ROLL_NOT_VALID.

Definition MEMBER_STATUS_OFFLINE : Z := 0x0000.
Definition MEMBER_STATUS_ONLINE : Z := 0x0001.
Definition MEMBER_STATUS_PVP : Z := 0x0002.
Definition MEMBER_STATUS_DEAD : Z := 0x0004.
Definition MEMBER_STATUS_GHOST : Z := 0x0008.
Definition MEMBER_STATUS_PVP_FFA : Z := 0x0010.
Definition MEMBER_STATUS_AFK : Z := 0x0040.
Definition MEMBER_STATUS_DND : Z := 0x0080.

Definition GROUP_UPDATE_FULL : Z := 0x001FFFFF.
Definition GROUP_UPDATE_FLAG_NONE : Z := 0.

Definition TEAM_NONE : Z := 0.
Definition TEAM_CROSSFACTION : Z := 1.
Definition HORDE : Z := 67.
Definition ALLIANCE : Z := 469.

Definition RACE_HUMAN : Z := 1.
Definition RACE_DWARF : Z := 3.
Definition RACE_NIGHTELF : Z := 4.
Definition RACE_GNOME : Z := 7.
Definition RACE_HIGH_ELF : Z := 10.

Definition ITEM_QUALITY_NORMAL : Z := 1.
Definition ITEM_QUALITY_UNCOMMON : Z := 2.
Definition ITEM_QUALITY_LEGENDARY : Z := 5.
Definition EQUIP_ERR_OK : Z := 0.
Definition MINUTE : Z := 60.
Definition IN_MILLISECONDS : Z := 1000.
Definition LOOT_ROLL_TIMEOUT : Z := 1 * MINUTE * IN_MILLISECONDS.

(** [PartyOperation] and [PartyResult] *)
Definition PARTY_OP_INVITE : Z := 0.
Definition PARTY_OP_LEAVE : Z := 2.
Definition ERR_PARTY_RESULT_OK : Z := 0.
Definition ERR_BAD_PLAYER_NAME_S : Z := 1.
Definition ERR_TARGET_NOT_IN_GROUP_S : Z := 2.
Definition ERR_GROUP_FULL : Z := 3.
Definition ERR_ALREADY_IN_GROUP_S : Z := 4.
Definition ERR_NOT_IN_GROUP : Z := 5.
Definition ERR_NOT_LEADER : Z := 6.
Definition ERR_PLAYER_WRONG_FACTION : Z := 7.
Definition ERR_IGNORING_YOU_S : Z := 8.
Definition ERR_INTERNAL_BATTLEGROUND : Z := 10.

Definition SMSG_GROUP_INVITE : Z := 0x06F.
Definition SMSG_GROUP_DECLINE : Z := 0x074.
Definition SMSG_GROUP_UNINVITE : Z := 0x077.
Definition SMSG_GROUP_SET_LEADER : Z := 0x079.
Definition SMSG_GROUP_DESTROYED : Z := 0x07C.
Definition SMSG_GROUP_LIST : Z := 0x07D.
Definition SMSG_PARTY_COMMAND_RESULT : Z := 0x07F.
Definition MSG_MINIMAP_PING : Z := 0x1D5.
Definition MSG_RANDOM_ROLL : Z := 0x1FB.
Definition SMSG_MEETINGSTONE_SETQUEUE : Z := 0x295.
Definition SMSG_MEETINGSTONE_COMPLETE : Z := 0x297.
Definition SMSG_MEETINGSTONE_IN_PROGRESS : Z := 0x298.
Definition SMSG_MEETINGSTONE_MEMBER_ADDED : Z := 0x299.
Definition SMSG_LOOT_ALL_PASSED : Z := 0x29E.
Definition SMSG_LOOT_ROLL_WON : Z := 0x29F.
Definition SMSG_LOOT_START_ROLL : Z := 0x2A1.
Definition SMSG_LOOT_ROLL : Z := 0x2A2.
Definition SMSG_LOOT_MASTER_LIST : Z := 0x2A4.
Definition SMSG_MEETINGSTONE_JOINFAILED : Z := 0x2BB.
Definition MSG_RAID_TARGET_UPDATE : Z := 0x321.
Definition MSG_RAID_READY_CHECK : Z := 0x322.

Definition MEETINGSTONE_STATUS_LEAVE_QUEUE : Z := 0.
Definition MEETINGSTONE_STATUS_JOINED_QUEUE : Z := 1.
Definition MEETINGSTONE_STATUS_PARTY_MEMBER_LEFT_LFG : Z := 2.
Definition MEETINGSTONE_STATUS_PARTY_MEMBER_REMOVED_PARTY_REMOVED : Z := 3.
Definition MEETINGSTONE_STATUS_LOOKING_FOR_NEW_PARTY_IN_QUEUE : Z := 4.
Definition MEETINGSTONE_STATUS_NONE : Z := 5.
Definition MEETINGSTONE_FAIL_PARTYLEADER : Z := 1.
Definition MEETINGSTONE_FAIL_FULL_GROUP : Z := 2.
Definition MEETINGSTONE_FAIL_RAID_GROUP : Z := 3.

(** ** Players *)

(** What groups only read of an online character. *)
Record PlayerInfo := mkInfo {
  pi_name : list Z;
  pi_session : bool;               (* GetSession() *)
  pi_logout : bool;                (* PlayerLogout() *)
  pi_bot : bool;                   (* GetSession()->GetBot() *)
  pi_team : Z; pi_class : Z; pi_level : Z; pi_hardcore : bool;
  pi_pvp : bool; pi_dead : bool; pi_ghost : bool; pi_ffa : bool; pi_afk : bool; pi_dnd : bool;
  pi_inBattleGround : bool;
  pi_mapId : Z; pi_instanceId : Z;
  pi_ignores : list ObjectGuid;    (* GetSocial() *)
  pi_auras : Z                     (* GetAuraApplicationMask() *)
}.

(** A link to a group, and the subgroup last set in it. *)
Record GroupReference := mkRef { gr_target : option Z; iSubGroup : Z }.

Record Player := mkPlayer {
  pl_guid : ObjectGuid;
  pl_inWorld : bool;
  pl_info : PlayerInfo;
  pl_items : list (Z * Z);         (* what rolls stored: entry, count *)
  m_group : GroupReference;
  m_originalGroup : GroupReference;
  m_groupInvite : option Z;
  pl_leaderFlag : bool;            (* PLAYER_FLAGS_GROUP_LEADER *)
  m_groupUpdateMask : Z;
  m_auraUpdateMask : Z
}.

Definition set_group_refs (gr orig : GroupReference) (p : Player) : Player :=
  mkPlayer (pl_guid p) (pl_inWorld p) (pl_info p) (pl_items p) gr orig (m_groupInvite p) (pl_leaderFlag p)
    (m_groupUpdateMask p) (m_auraUpdateMask p).
Definition SetGroupInvite (group : option Z) (p : Player) : Player :=
  mkPlayer (pl_guid p) (pl_inWorld p) (pl_info p) (pl_items p) (m_group p) (m_originalGroup p) group (pl_leaderFlag p)
    (m_groupUpdateMask p) (m_auraUpdateMask p).
Definition set_leader_flag (b : bool) (p : Player) : Player :=
  mkPlayer (pl_guid p) (pl_inWorld p) (pl_info p) (pl_items p) (m_group p) (m_originalGroup p) (m_groupInvite p) b
    (m_groupUpdateMask p) (m_auraUpdateMask p).
Definition set_masks (group aura : Z) (p : Player) : Player :=
  mkPlayer (pl_guid p) (pl_inWorld p) (pl_info p) (pl_items p) (m_group p) (m_originalGroup p) (m_groupInvite p)
    (pl_leaderFlag p) group aura.
Definition add_item (entry count : Z) (p : Player) : Player :=
  mkPlayer (pl_guid p) (pl_inWorld p) (pl_info p) (pl_items p ++ [(entry, count)]) (m_group p) (m_originalGroup p)
    (m_groupInvite p) (pl_leaderFlag p) (m_groupUpdateMask p) (m_auraUpdateMask p).

(** ** Loot *)

Record LootItem := mkLootItem {
  li_itemid : Z; randomPropertyId : Z; li_count : Z;
  is_looted : bool; is_blocked : bool; freeforall : bool; is_underthreshold : bool;
  lootOwner : ObjectGuid
}.
Definition set_loot_item (looted blocked under : bool) (owner : ObjectGuid) (i : LootItem) : LootItem :=
  mkLootItem (li_itemid i) (randomPropertyId i) (li_count i) looted blocked (freeforall i) under owner.

Record Loot := mkLoot {
  lt_items : list LootItem;
  unlootedCount : Z;                     (* uint8 *)
  m_playersLooting : list ObjectGuid;
  m_allowedLooters : list ObjectGuid
}.
Definition set_loot (its : list LootItem) (n : Z) (looting : list ObjectGuid) (l : Loot) : Loot :=
  mkLoot its n looting (m_allowedLooters l).

Record Roll := mkRoll {
  lootedTargetGUID : ObjectGuid; itemid : Z; itemRandomPropId : Z;
  playerVote : gmap ObjectGuid RollVote; (* std::unordered_map *)
  totalPlayersRolling : Z; totalNeed : Z; totalGreed : Z; totalPass : Z;   (* uint8 *)
  itemSlot : Z;                          (* uint8 *)
  getLoot : option Z                     (* the link, cut when the loot is cleared *)
}.
Definition set_votes (votes : gmap ObjectGuid RollVote) (rolling need greed pass : Z) (r : Roll) : Roll :=
  mkRoll (lootedTargetGUID r) (itemid r) (itemRandomPropId r) votes rolling need greed pass (itemSlot r) (getLoot r).
Definition set_roll_loot (l : option Z) (r : Roll) : Roll :=
  mkRoll (lootedTargetGUID r) (itemid r) (itemRandomPropId r) (playerVote r) (totalPlayersRolling r) (totalNeed r)
    (totalGreed r) (totalPass r) (itemSlot r) l.
Definition isValid (r : Roll) : bool := bool_decide (getLoot r <> None).

(** ** Groups *)

Record MemberSlot := mkSlot { ms_guid : ObjectGuid; ms_name : list Z; ms_group : Z; ms_assistant : bool }.

Record Group := mkGroup {
  m_Id : Z;
  m_memberSlots : list MemberSlot;
  m_memberMgr : list (ObjectGuid * bool);   (* linked references; true for m_originalGroup *)
  m_invitees : gset ObjectGuid;             (* std::set<Player*> *)
  m_leaderGuid : ObjectGuid;
  m_leaderName : list Z;
  m_leaderLastOnline : Z;
  m_mainTankGuid : ObjectGuid;
  m_mainAssistantGuid : ObjectGuid;
  isRaidGroup : bool;                       (* m_groupType == GROUPTYPE_RAID *)
  m_bgGroup : option Z;
  m_targetIcons : list ObjectGuid;
  m_lootMethod : Z;
  m_lootThreshold : Z;
  m_looterGuid : ObjectGuid;
  RollId : list Roll;
  m_subGroupsCounts : option (list Z);      (* MAX_RAID_SUBGROUPS bytes *)
  m_groupTeam : Z;
  m_LFGAreaId : Z;
  m_isCrossfaction : bool
}.

Definition newGroup : Group :=
  mkGroup 0 [] [] ∅ 0 [] 0 0 0 false None (repeat 0 8) FREE_FOR_ALL ITEM_QUALITY_UNCOMMON 0 [] None TEAM_NONE 0 false.

Definition set_id (i : Z) (g : Group) : Group :=
  mkGroup i (m_memberSlots g) (m_memberMgr g) (m_invitees g) (m_leaderGuid g) (m_leaderName g) (m_leaderLastOnline g)
    (m_mainTankGuid g) (m_mainAssistantGuid g) (isRaidGroup g) (m_bgGroup g) (m_targetIcons g) (m_lootMethod g)
    (m_lootThreshold g) (m_looterGuid g) (RollId g) (m_subGroupsCounts g) (m_groupTeam g) (m_LFGAreaId g) (m_isCrossfaction g).
Definition set_slots (l : list MemberSlot) (counts : option (list Z)) (g : Group) : Group :=
  mkGroup (m_Id g) l (m_memberMgr g) (m_invitees g) (m_leaderGuid g) (m_leaderName g) (m_leaderLastOnline g)
    (m_mainTankGuid g) (m_mainAssistantGuid g) (isRaidGroup g) (m_bgGroup g) (m_targetIcons g) (m_lootMethod g)
    (m_lootThreshold g) (m_looterGuid g) (RollId g) counts (m_groupTeam g) (m_LFGAreaId g) (m_isCrossfaction g).
Definition set_member_mgr (l : list (ObjectGuid * bool)) (g : Group) : Group :=
  mkGroup (m_Id g) (m_memberSlots g) l (m_invitees g) (m_leaderGuid g) (m_leaderName g) (m_leaderLastOnline g)
    (m_mainTankGuid g) (m_mainAssistantGuid g) (isRaidGroup g) (m_bgGroup g) (m_targetIcons g) (m_lootMethod g)
    (m_lootThreshold g) (m_looterGuid g) (RollId g) (m_subGroupsCounts g) (m_groupTeam g) (m_LFGAreaId g) (m_isCrossfaction g).
Definition set_invitees (s : gset ObjectGuid) (g : Group) : Group :=
  mkGroup (m_Id g) (m_memberSlots g) (m_memberMgr g) s (m_leaderGuid g) (m_leaderName g) (m_leaderLastOnline g)
    (m_mainTankGuid g) (m_mainAssistantGuid g) (isRaidGroup g) (m_bgGroup g) (m_targetIcons g) (m_lootMethod g)
    (m_lootThreshold g) (m_looterGuid g) (RollId g) (m_subGroupsCounts g) (m_groupTeam g) (m_LFGAreaId g) (m_isCrossfaction g).
Definition set_leader (guid : ObjectGuid) (name : list Z) (last : Z) (g : Group) : Group :=
  mkGroup (m_Id g) (m_memberSlots g) (m_memberMgr g) (m_invitees g) guid name last
    (m_mainTankGuid g) (m_mainAssistantGuid g) (isRaidGroup g) (m_bgGroup g) (m_targetIcons g) (m_lootMethod g)
    (m_lootThreshold g) (m_looterGuid g) (RollId g) (m_subGroupsCounts g) (m_groupTeam g) (m_LFGAreaId g) (m_isCrossfaction g).
Definition set_main (tank assistant : ObjectGuid) (g : Group) : Group :=
  mkGroup (m_Id g) (m_memberSlots g) (m_memberMgr g) (m_invitees g) (m_leaderGuid g) (m_leaderName g) (m_leaderLastOnline g)
    tank assistant (isRaidGroup g) (m_bgGroup g) (m_targetIcons g) (m_lootMethod g)
    (m_lootThreshold g) (m_looterGuid g) (RollId g) (m_subGroupsCounts g) (m_groupTeam g) (m_LFGAreaId g) (m_isCrossfaction g).
Definition set_raid (raid : bool) (counts : option (list Z)) (g : Group) : Group :=
  mkGroup (m_Id g) (m_memberSlots g) (m_memberMgr g) (m_invitees g) (m_leaderGuid g) (m_leaderName g) (m_leaderLastOnline g)
    (m_mainTankGuid g) (m_mainAssistantGuid g) raid (m_bgGroup g) (m_targetIcons g) (m_lootMethod g)
    (m_lootThreshold g) (m_looterGuid g) (RollId g) counts (m_groupTeam g) (m_LFGAreaId g) (m_isCrossfaction g).
Definition set_icons (l : list ObjectGuid) (g : Group) : Group :=
  mkGroup (m_Id g) (m_memberSlots g) (m_memberMgr g) (m_invitees g) (m_leaderGuid g) (m_leaderName g) (m_leaderLastOnline g)
    (m_mainTankGuid g) (m_mainAssistantGuid g) (isRaidGroup g) (m_bgGroup g) l (m_lootMethod g)
    (m_lootThreshold g) (m_looterGuid g) (RollId g) (m_subGroupsCounts g) (m_groupTeam g) (m_LFGAreaId g) (m_isCrossfaction g).
Definition set_looting (method threshold : Z) (looter : ObjectGuid) (g : Group) : Group :=
  mkGroup (m_Id g) (m_memberSlots g) (m_memberMgr g) (m_invitees g) (m_leaderGuid g) (m_leaderName g) (m_leaderLastOnline g)
    (m_mainTankGuid g) (m_mainAssistantGuid g) (isRaidGroup g) (m_bgGroup g) (m_targetIcons g) method
    threshold looter (RollId g) (m_subGroupsCounts g) (m_groupTeam g) (m_LFGAreaId g) (m_isCrossfaction g).
Definition set_rolls (l : list Roll) (g : Group) : Group :=
  mkGroup (m_Id g) (m_memberSlots g) (m_memberMgr g) (m_invitees g) (m_leaderGuid g) (m_leaderName g) (m_leaderLastOnline g)
    (m_mainTankGuid g) (m_mainAssistantGuid g) (isRaidGroup g) (m_bgGroup g) (m_targetIcons g) (m_lootMethod g)
    (m_lootThreshold g) (m_looterGuid g) l (m_subGroupsCounts g) (m_groupTeam g) (m_LFGAreaId g) (m_isCrossfaction g).
Definition set_teams (team : Z) (crossfaction : bool) (g : Group) : Group :=
  mkGroup (m_Id g) (m_memberSlots g) (m_memberMgr g) (m_invitees g) (m_leaderGuid g) (m_leaderName g) (m_leaderLastOnline g)
    (m_mainTankGuid g) (m_mainAssistantGuid g) (isRaidGroup g) (m_bgGroup g) (m_targetIcons g) (m_lootMethod g)
    (m_lootThreshold g) (m_looterGuid g) (RollId g) (m_subGroupsCounts g) team (m_LFGAreaId g) crossfaction.
Definition SetLFGAreaId (area : Z) (g : Group) : Group :=
  mkGroup (m_Id g) (m_memberSlots g) (m_memberMgr g) (m_invitees g) (m_leaderGuid g) (m_leaderName g) (m_leaderLastOnline g)
    (m_mainTankGuid g) (m_mainAssistantGuid g) (isRaidGroup g) (m_bgGroup g) (m_targetIcons g) (m_lootMethod g)
    (m_lootThreshold g) (m_looterGuid g) (RollId g) (m_subGroupsCounts g) (m_groupTeam g) area (m_isCrossfaction g).

(** ** The queue of the meeting stones *)

Record LFGPlayerQueueInfo := mkQueuedPlayer {
  qp_roleMask : Z; qp_team : Z; qp_areaId : Z; qp_timeInLFG : Z; qp_hasQueuePriority : bool; qp_isHardcore : bool;
  qp_name : list Z;
  qp_rolePriority : list (Z * Z)           (* role, priority *)
}.
Record LFGGroupQueueInfo := mkQueuedGroup {
  qg_availableRoles : Z; qg_dpsCount : Z; qg_team : Z; qg_areaId : Z; qg_isHardcore : bool; qg_groupTimer : Z
}.

(** ** Effects *)

Inductive Sql :=
  | SqlDeleteGroup (id : Z)
  | SqlDeleteMembersOf (id : Z)
  | SqlInsertGroup (id leader tank assistant method looter threshold : Z) (icons : list Z) (raid : bool)
  | SqlUpdateRaid (id : Z)
  | SqlUpdateLeader (id leader : Z)
  | SqlUpdateMainTank (id guid : Z)
  | SqlUpdateMainAssistant (id guid : Z)
  | SqlInsertMember (id guid : Z) (assistant : bool) (subgroup : Z)
  | SqlDeleteMember (guid : Z)
  | SqlUpdateSubgroup (guid subgroup : Z)
  | SqlUpdateAssistant (guid : Z) (assistant : bool)
  | SqlDeleteInstances (leader new : Z)            (* group_instance *)
  | SqlUpdateInstances (leader new : Z).

Inductive Out :=
  | SendPacket (who : ObjectGuid) (opcode : Z) (data : list field)
  | SendSysMessage (who : ObjectGuid)
  | Notification (who : ObjectGuid)
  | PExecute (q : Sql)
  | UpdateForQuestWorldObjects (who : ObjectGuid)
  | ConvertInstancesToGroup (player : option ObjectGuid) (id : Z) (leader : ObjectGuid)
  | PlayerResetInstances (who : ObjectGuid)        (* INSTANCE_RESET_GROUP_JOIN *)
  | RevalidateInstance (who : ObjectGuid) (id : Z) (* compares the binds of player and group *)
  | HomebindIfInstance (who : ObjectGuid)
  | RemovePermanentBinds (id : Z)
  | ResetInstances (id : Z) (remaining : option ObjectGuid)
  | UnbindGroup (id : Z)                           (* state->RemoveGroup(this) *)
  | PetAuraUpdate (who : ObjectGuid)
  | MemberStatsChanged (to about : ObjectGuid)     (* SMSG_PARTY_MEMBER_STATS *)
  | ForceValuesUpdate (who : ObjectGuid)
  | StartGroupLoot (creature : ObjectGuid) (id timer : Z)
  | LogLoot (who : ObjectGuid) (item count : Z)
  | NotifyLootItemRemoved (who : ObjectGuid) (slot : Z)
  | OnReceivedItem (who : ObjectGuid) (item count : Z)   (* after CheckSoulboundException *)
  | SendEquipError (who : ObjectGuid) (msg item : Z)
  | ScriptOnCreate (id : Z) (leader : ObjectGuid)
  | ScriptOnInviteMember (who : ObjectGuid)
  | ScriptOnAddMember (id : Z) (who : ObjectGuid)
  | ScriptOnRemoveMember (id : Z) (who : ObjectGuid) (method : Z)
  | ScriptOnChangeLeader (id : Z) (new old : ObjectGuid)
  | ScriptOnDisband (id : Z).

Record World := mkWorld {
  w_players : gmap ObjectGuid Player;        (* HashMapHolder<Player> *)
  w_groups : gmap Z Group;                   (* the heap *)
  w_nextGroup : Z;                           (* the address the next group gets *)
  m_GroupMap : gmap Z Z;                     (* std::unordered_map<uint32, Group*> *)
  m_GroupIds : Z;                            (* the next identifier *)
  w_loots : gmap Z Loot;
  m_QueuedPlayers : gmap ObjectGuid LFGPlayerQueueInfo;
  m_OfflinePlayers : gmap ObjectGuid LFGPlayerQueueInfo;
  m_QueuedGroups : gmap Z LFGGroupQueueInfo;
  w_draws : nat;                             (* random numbers drawn so far *)
  w_ub : bool;
  w_out : list Out
}.

Definition emits (os : list Out) (w : World) : World :=
  mkWorld (w_players w) (w_groups w) (w_nextGroup w) (m_GroupMap w) (m_GroupIds w) (w_loots w) (m_QueuedPlayers w)
    (m_OfflinePlayers w) (m_QueuedGroups w) (w_draws w) (w_ub w) (w_out w ++ os).
Definition emit (o : Out) : World -> World := emits [o].
Definition set_players (m : gmap ObjectGuid Player) (w : World) : World :=
  mkWorld m (w_groups w) (w_nextGroup w) (m_GroupMap w) (m_GroupIds w) (w_loots w) (m_QueuedPlayers w)
    (m_OfflinePlayers w) (m_QueuedGroups w) (w_draws w) (w_ub w) (w_out w).
Definition set_groups (m : gmap Z Group) (next : Z) (w : World) : World :=
  mkWorld (w_players w) m next (m_GroupMap w) (m_GroupIds w) (w_loots w) (m_QueuedPlayers w)
    (m_OfflinePlayers w) (m_QueuedGroups w) (w_draws w) (w_ub w) (w_out w).
Definition set_group_map (m : gmap Z Z) (ids : Z) (w : World) : World :=
  mkWorld (w_players w) (w_groups w) (w_nextGroup w) m ids (w_loots w) (m_QueuedPlayers w)
    (m_OfflinePlayers w) (m_QueuedGroups w) (w_draws w) (w_ub w) (w_out w).
Definition set_loots (m : gmap Z Loot) (w : World) : World :=
  mkWorld (w_players w) (w_groups w) (w_nextGroup w) (m_GroupMap w) (m_GroupIds w) m (m_QueuedPlayers w)
    (m_OfflinePlayers w) (m_QueuedGroups w) (w_draws w) (w_ub w) (w_out w).
Definition set_queues (q off : gmap ObjectGuid LFGPlayerQueueInfo) (gq : gmap Z LFGGroupQueueInfo) (w : World) : World :=
  mkWorld (w_players w) (w_groups w) (w_nextGroup w) (m_GroupMap w) (m_GroupIds w) (w_loots w) q off gq
    (w_draws w) (w_ub w) (w_out w).
Definition draw (w : World) : World :=
  mkWorld (w_players w) (w_groups w) (w_nextGroup w) (m_GroupMap w) (m_GroupIds w) (w_loots w) (m_QueuedPlayers w)
    (m_OfflinePlayers w) (m_QueuedGroups w) (S (w_draws w)) (w_ub w) (w_out w).
Definition undefined (w : World) : World :=
  mkWorld (w_players w) (w_groups w) (w_nextGroup w) (m_GroupMap w) (m_GroupIds w) (w_loots w) (m_QueuedPlayers w)
    (m_OfflinePlayers w) (m_QueuedGroups w) (w_draws w) true (w_out w).

Definition upd_player (k : ObjectGuid) (f : Player -> Player) (w : World) : World := set_players (alter f k (w_players w)) w.
Definition upd_group (gp : Z) (f : Group -> Group) (w : World) : World :=
  set_groups (alter f gp (w_groups w)) (w_nextGroup w) w.

(** Following a pointer to a group. *)
Definition deref (gp : Z) (w : World) (k : Group -> World) : World :=
  match w_groups w !! gp with Some g => k g | None => undefined w end.
(** A test of the object behind a pointer. *)
Definition test_group (gp : Z) (w : World) (t : Group -> bool) : bool :=
  match w_groups w !! gp with Some g => t g | None => false end.

(** A cached row of the table [characters]. *)
Record PlayerCacheData := mkCacheData {
  sName : list Z; uiRace : Z; uiTeam : Z; uiClass : Z; uiLevel : Z; uiHardcoreStatus : Z
}.

(** What the groups ask of the rest of the server. *)
Record Env := mkEnv {
  now : Z;                                                     (* time(nullptr) *)
  urand : nat -> Z -> Z -> Z;                                  (* the n-th number drawn, between two bounds *)
  GetPlayerDataByGUID : Z -> option PlayerCacheData;
  GetPlayerGuidByName : list Z -> ObjectGuid;                  (* 0 when there is none *)
  FindPlayerByName : list Z -> option ObjectGuid;              (* playerNameToPlayerPointer, normalised *)
  normalizePlayerName : list Z -> option (list Z);
  CanMemberAccept : Z -> ObjectGuid -> bool;                   (* the scripts *)
  GetItemQuality : Z -> option Z;                              (* GetItemPrototype(id)->Quality *)
  CanUseItem : Player -> Z -> bool;
  AllowedForPlayer : LootItem -> Player -> ObjectGuid -> bool;
  IsWithinLootXPDist : Player -> ObjectGuid -> bool;
  GetGroupLootTimer : Player -> ObjectGuid -> Z;
  CanStoreNewItem : Player -> Z -> Z -> Z;                     (* InventoryResult *)
  ItemCreated : Z -> Z -> bool;                                (* StoreNewItem returns an item *)
  SeesMember : Player -> Player -> bool;                       (* on the same map, and IsInVisibleList *)
  SessionLoading : ObjectGuid -> bool;                         (* a session of the account is loading a character *)
  IsMachineDriven : Player -> bool;
  MeetingStoneArea : Player -> ObjectGuid -> option Z;         (* GetGameObjectIfCanInteractWith, its areaID *)
  cfg_ALLOW_TWO_SIDE_INTERACTION_GROUP : bool
}.

(** ** Lookups *)

Definition FindPlayerNotInWorld (guid : ObjectGuid) (w : World) : option Player :=
  if IsEmpty guid then None else w_players w !! guid.
Definition GetPlayer (guid : ObjectGuid) (w : World) : option Player :=
  match FindPlayerNotInWorld guid w with Some p => if pl_inWorld p then Some p else None | None => None end.
Definition GetPlayer_name (E : Env) (name : list Z) (w : World) : option Player :=
  match FindPlayerByName E name with
  | Some guid => match w_players w !! guid with Some p => if pl_inWorld p then Some p else None | None => None end
  | None => None
  end.

Definition GetGroupById (id : Z) (w : World) : option Z := m_GroupMap w !! id.
Definition AddGroup (gp : Z) (w : World) : World :=
  deref gp w (fun g => set_group_map (<[m_Id g := gp]> (m_GroupMap w)) (m_GroupIds w) w).
Definition RemoveGroup (gp : Z) (w : World) : World :=
  deref gp w (fun g => set_group_map (delete (m_Id g) (m_GroupMap w)) (m_GroupIds w) w).
Definition GenerateGroupId (w : World) : Z * World := (m_GroupIds w, set_group_map (m_GroupMap w) (u32 (m_GroupIds w + 1)) w).

Definition GetGroup (p : Player) : option Z := gr_target (m_group p).
Definition GetSubGroup (p : Player) : Z := iSubGroup (m_group p).
Definition GetOriginalGroup (p : Player) : option Z := gr_target (m_originalGroup p).
Definition GetOriginalSubGroup (p : Player) : Z := iSubGroup (m_originalGroup p).
Definition GetName (p : Player) : list Z := pi_name (pl_info p).
Definition GetTeam (p : Player) : Z := pi_team (pl_info p).
Definition GetSession (p : Player) : bool := pi_session (pl_info p).
Definition IsHardcore (p : Player) : bool := pi_hardcore (pl_info p).

Definition GetPlayerClassByGUID (E : Env) (guid : ObjectGuid) (w : World) : Z :=
  match GetPlayer guid w with
  | Some p => pi_class (pl_info p)
  | None => match GetPlayerDataByGUID E (GetCounter guid) with Some d => uiClass d | None => 0 end
  end.

(** [GetPlayerDataByGUID(guid)->uiHardcoreStatus] counts as hardcore in three states. *)
Definition hardcore_status (s : Z) : bool := (s =? 1) || (s =? 3) || (s =? 4).

(** [HandleHardcoreInteraction(target, true) == Allowed] *)
Definition PlayerHardcoreAllowed (p target : Player) : bool :=
  if IsHardcore p then IsHardcore target && (Z.abs (pi_level (pl_info p) - pi_level (pl_info target)) <=? 5)
  else negb (IsHardcore target).

(** ** References of players to groups *)

(** [LinkMember] and [delink()]: the list the target keeps of its references. *)
Definition LinkMember (ref : ObjectGuid * bool) (g : Group) : Group := set_member_mgr (ref :: m_memberMgr g) g.
Definition delink_member (ref : ObjectGuid * bool) (g : Group) : Group :=
  set_member_mgr (filter (fun r => r <> ref) (m_memberMgr g)) g.

Definition get_ref (orig : bool) (p : Player) : GroupReference := if orig then m_originalGroup p else m_group p.
Definition set_ref (orig : bool) (r : GroupReference) (p : Player) : Player :=
  if orig then set_group_refs (m_group p) r p else set_group_refs r (m_originalGroup p) p.

(** [unlink()]: the subgroup stays in the reference. *)
Definition unlink (orig : bool) (k : ObjectGuid) (w : World) : World :=
  match w_players w !! k with
  | None => undefined w
  | Some p =>
    let w := upd_player k (set_ref orig (mkRef None (iSubGroup (get_ref orig p)))) w in
    match gr_target (get_ref orig p) with
    | None => w
    | Some gp => upd_group gp (delink_member (k, orig)) w
    end
  end.

(** [link(group, this)] then [setSubGroup]. *)
Definition link (orig : bool) (gp : Z) (subgroup : Z) (k : ObjectGuid) (w : World) : World :=
  let w := unlink orig k w in
  let w := upd_player k (set_ref orig (mkRef (Some gp) (u8 subgroup))) w in
  deref gp w (fun _ => upd_group gp (LinkMember (k, orig)) w).

(** The subgroup is an [int8] that must not be negative. *)
Definition SetGroup (gs : option (Z * Z)) (k : ObjectGuid) (w : World) : World :=
  match gs with None => unlink false k w | Some (gp, sub) => if sub <? 128 then link false gp sub k w else undefined w end.
Definition SetOriginalGroup (gs : option (Z * Z)) (k : ObjectGuid) (w : World) : World :=
  match gs with None => unlink true k w | Some (gp, sub) => if sub <? 128 then link true gp sub k w else undefined w end.

Definition SetBattleGroundRaid (gp sub : Z) (k : ObjectGuid) (w : World) : World :=
  match w_players w !! k with
  | None => undefined w
  | Some p =>
    let w := SetOriginalGroup ((fun g => (g, GetSubGroup p)) <$> GetGroup p) k w in
    link false gp sub k w
  end.

Definition RemoveFromBattleGroundRaid (k : ObjectGuid) (w : World) : World :=
  match w_players w !! k with
  | None => undefined w
  | Some p =>
    let w := unlink false k w in
    let w := match GetOriginalGroup p with Some gp => link false gp (GetOriginalSubGroup p) k w | None => w end in
    SetOriginalGroup None k w
  end.

Definition set_sub_group (orig : bool) (sub : Z) (k : ObjectGuid) : World -> World :=
  upd_player k (fun p => set_ref orig (mkRef (gr_target (get_ref orig p)) (u8 sub)) p).

Definition UpdateGroupLeaderFlag (remove : bool) (k : ObjectGuid) (w : World) : World :=
  match w_players w !! k with
  | None => undefined w
  | Some p =>
    let is_leader := match GetGroup p with Some gp => test_group gp w (fun g => m_leaderGuid g =? k) | None => false end in
    if pl_leaderFlag p then
      if remove || negb is_leader then upd_player k (set_leader_flag false) w else w
    else if negb remove && is_leader then upd_player k (set_leader_flag true) w else w
  end.
