(* ===== verification/GroupPackets.v ===== *)
(** * GroupPackets: what a group tells its members

    The queries of Group (src/src/game/Group/Group.h) and the methods of
    Group.cpp that send packets or move the target icons. *)
From S2P Require Import Prelude ByteBuffer ObjectGuid GroupData.

(** ** Queries *)

Definition isBGGroup (g : Group) : bool := bool_decide (m_bgGroup g <> None).
Definition GetMembersCount (g : Group) : Z := Z.of_nat (length (m_memberSlots g)).
Definition GetMembersMinCount (g : Group) : Z := if isBGGroup g then 1 else 2.
Definition IsCreated (g : Group) : bool := 0 <? GetMembersCount g.
Definition IsFull (g : Group) : bool :=
  if negb (isRaidGroup g) then MAX_GROUP_SIZE <=? GetMembersCount g else MAX_RAID_SIZE <=? GetMembersCount g.
Definition isInLFG (g : Group) : bool := 0 <? m_LFGAreaId g.

Definition _getMemberSlot (guid : ObjectGuid) (g : Group) : option MemberSlot :=
  List.find (fun s => ms_guid s =? guid) (m_memberSlots g).
Definition IsMember (guid : ObjectGuid) (g : Group) : bool := bool_decide (_getMemberSlot guid g <> None).
Definition IsLeader (guid : ObjectGuid) (g : Group) : bool := m_leaderGuid g =? guid.
Definition IsAssistant (guid : ObjectGuid) (g : Group) : bool :=
  match _getMemberSlot guid g with Some s => ms_assistant s | None => false end.
Definition GetMemberGuid (name : list Z) (g : Group) : ObjectGuid :=
  match List.find (fun s => bool_decide (ms_name s = name)) (m_memberSlots g) with Some s => ms_guid s | None => 0 end.
Definition GetMemberGroup (guid : ObjectGuid) (g : Group) : Z :=
  match _getMemberSlot guid g with Some s => ms_group s | None => MAX_RAID_SUBGROUPS + 1 end.

(** [m_subGroupsCounts[subgroup]] for a subgroup below [MAX_RAID_SUBGROUPS]. *)
Definition sub_count (counts : list Z) (subgroup : Z) : Z := default 0 (counts !! Z.to_nat subgroup).
Definition HasFreeSlotSubGroup (subgroup : Z) (g : Group) : bool :=
  match m_subGroupsCounts g with Some c => sub_count c subgroup <? MAX_GROUP_SIZE | None => false end.

Definition SameSubGroup (gp : Z) (m1 m2 : Player) : bool :=
  bool_decide (GetGroup m1 = Some gp) && bool_decide (GetGroup m2 = Some gp) && (GetSubGroup m1 =? GetSubGroup m2).

Definition GetGroupMemberStatus (member : option Player) : Z :=
  match member with
  | None => MEMBER_STATUS_OFFLINE
  | Some p =>
    let i := pl_info p in
    let flag (b : bool) (f : Z) := if b then f else 0 in
    if pi_session i && negb (pi_logout i) then
      Z.lor MEMBER_STATUS_ONLINE (Z.lor (flag (pi_pvp i) MEMBER_STATUS_PVP) (Z.lor (flag (pi_dead i) MEMBER_STATUS_DEAD)
        (Z.lor (flag (pi_ghost i) MEMBER_STATUS_GHOST) (Z.lor (flag (pi_ffa i) MEMBER_STATUS_PVP_FFA)
        (Z.lor (flag (pi_afk i) MEMBER_STATUS_AFK) (flag (pi_dnd i) MEMBER_STATUS_DND))))))
    else MEMBER_STATUS_OFFLINE
  end.

(** The references of a group with the players they come from, [GetFirstMember()] first. *)
Definition references (g : Group) (w : World) : list (bool * Player) :=
  omap (fun r => (fun p => (r.2, p)) <$> w_players w !! r.1) (m_memberMgr g).

(** ** Packets to the members *)

(** [BroadcastPacket(packet, ignorePlayersInBGRaid, group, ignore)] *)
Definition broadcast_to (gp : Z) (ignoreBG : bool) (group : Z) (ignore : ObjectGuid) (r : bool * Player) : bool :=
  let p := r.2 in
  negb ((negb (IsEmpty ignore) && (pl_guid p =? ignore)) || (ignoreBG && negb (bool_decide (GetGroup p = Some gp))))
  && GetSession p && ((group =? -1) || (iSubGroup (get_ref r.1 p) =? group)).

Definition BroadcastPacket (gp : Z) (opcode : Z) (data : list field) (ignoreBG : bool) (group : Z) (ignore : ObjectGuid)
    (w : World) : World :=
  deref gp w (fun g =>
    emits ((fun r => SendPacket (pl_guid r.2) opcode data) <$>
             filter (fun r => broadcast_to gp ignoreBG group ignore r = true) (references g w)) w).

Definition member_flags (s : MemberSlot) : Z := u8 (Z.lor (ms_group s) (if ms_assistant s then 0x80 else 0)).

Definition group_list_packet (g : Group) (w : World) (me : MemberSlot) : list field :=
  let others := filter (fun s => ms_guid s <> ms_guid me) (m_memberSlots g) in
  [FU8 (if isRaidGroup g then 1 else 0); FU8 (member_flags me); FU32 (Z.of_nat (length others))]
  ++ concat ((fun s => [FStr (ms_name s); FU64 (ms_guid s); FU8 (GetGroupMemberStatus (GetPlayer (ms_guid s) w));
                         FU8 (member_flags s)]) <$> others)
  ++ [FU64 (m_leaderGuid g)]
  ++ match others with
     | [] => []
     | _ => [FU8 (u8 (m_lootMethod g)); FU64 (if m_lootMethod g =? MASTER_LOOT then m_looterGuid g else 0);
             FU8 (u8 (m_lootThreshold g)); FU8 0]
     end.

(** The icons that are set, with their numbers. *)
Definition icon_fields (icons : list ObjectGuid) : list field :=
  concat (imap (fun i guid => if IsEmpty guid then [] else [FU8 (Z.of_nat i); FU64 guid]) icons).

Definition send_update_to (gp : Z) (g : Group) (w : World) (me : MemberSlot) : list Out :=
  match GetPlayer (ms_guid me) w with
  | Some p =>
    if GetSession p && bool_decide (GetGroup p = Some gp) then
      SendPacket (pl_guid p) SMSG_GROUP_LIST (group_list_packet g w me)
      :: (if negb (isRaidGroup g) && existsb (fun guid => negb (IsEmpty guid)) (m_targetIcons g)
          then [SendPacket (pl_guid p) MSG_RAID_TARGET_UPDATE (FU8 1 :: icon_fields (m_targetIcons g))] else [])
    else []
  | None => []
  end.

Definition SendUpdate (gp : Z) (w : World) : World :=
  deref gp w (fun g => emits (concat (send_update_to gp g w <$> m_memberSlots g)) w).

Definition SendTargetIconList (gp : Z) (to : ObjectGuid) (w : World) : World :=
  deref gp w (fun g => emit (SendPacket to MSG_RAID_TARGET_UPDATE (FU8 1 :: icon_fields (m_targetIcons g))) w).

Definition UpdatePlayerOutOfRange (E : Env) (gp : Z) (k : ObjectGuid) (w : World) : World :=
  match w_players w !! k with
  | None => undefined w
  | Some p =>
    if negb (pl_inWorld p) then w
    else if m_groupUpdateMask p =? GROUP_UPDATE_FLAG_NONE then w
    else deref gp w (fun g =>
      emits ((fun r => MemberStatsChanged (pl_guid r.2) k) <$>
               filter (fun r => pl_guid r.2 <> k /\ SeesMember E r.2 p = false) (references g w)) w)
  end.

Definition UpdatePlayerOnlineStatus (E : Env) (gp : Z) (k : ObjectGuid) (online : bool) (w : World) : World :=
  deref gp w (fun g =>
    if negb (IsMember k g) then w
    else
      let w := SendUpdate gp w in
      if online then
        let w := upd_player k (fun p => set_masks (Z.lor (m_groupUpdateMask p) GROUP_UPDATE_FULL) (m_auraUpdateMask p) p) w in
        UpdatePlayerOutOfRange E gp k w
      else if IsLeader k g then upd_group gp (fun g => set_leader (m_leaderGuid g) (m_leaderName g) (now E) g) w
      else w).

(** [BroadcastGroupUpdate]: the fields of the members that depend on the group. *)
Definition BroadcastGroupUpdate (gp : Z) (w : World) : World :=
  deref gp w (fun g =>
    emits (omap (fun s => (fun p => ForceValuesUpdate (pl_guid p)) <$> GetPlayer (ms_guid s) w) (m_memberSlots g)) w).

(** ** Target icons *)

(** [SetTargetIcon(id, targetGuid)] without the search for the target. *)
Definition put_icon (gp : Z) (id : nat) (targetGuid : ObjectGuid) (w : World) : World :=
  let w := upd_group gp (fun g => set_icons (<[id := targetGuid]> (m_targetIcons g)) g) w in
  BroadcastPacket gp MSG_RAID_TARGET_UPDATE [FU8 0; FU8 (Z.of_nat id); FU64 targetGuid] true (-1) 0 w.

Definition has_icon (gp : Z) (i : nat) (guid : ObjectGuid) (w : World) : bool :=
  test_group gp w (fun g => bool_decide (m_targetIcons g !! i = Some guid)).

(** The icon a target had is taken away first; the recursive call of the source
    has an empty target and does not search again. *)
Definition SetTargetIcon (gp : Z) (id : Z) (targetGuid : ObjectGuid) (w : World) : World :=
  if TARGET_ICON_COUNT <=? id then w
  else
    let w := if IsEmpty targetGuid then w
             else foldl (fun w i => if has_icon gp i targetGuid w then put_icon gp i 0 w else w) w (seq 0 8) in
    put_icon gp (Z.to_nat id) targetGuid w.

Definition ClearTargetIcon (gp : Z) (targetGuid : ObjectGuid) (w : World) : World :=
  match List.find (fun i => has_icon gp i targetGuid w) (seq 0 8) with
  | Some i => SetTargetIcon gp (Z.of_nat i) 0 w
  | None => w
  end.

Definition BroadcastReadyCheck (gp : Z) (opcode : Z) (data : list field) (w : World) : World :=
  deref gp w (fun g =>
    emits ((fun r => SendPacket (pl_guid r.2) opcode data) <$>
             filter (fun r => GetSession r.2 && (IsLeader (pl_guid r.2) g || IsAssistant (pl_guid r.2) g) = true)
               (references g w)) w).
