(* ===== verification/GroupLoot.v ===== *)
(** * GroupLoot: rolls for loot, and whose turn it is to loot

    The loot system of Group (src/src/game/Group/Group.cpp, lines 757-1300 and
    [UpdateLooterGuid]) and what it uses of Loot. A roll is an element of
    [RollId], addressed by its index. *)
From S2P Require Import Prelude ByteBuffer ObjectGuid GroupData GroupPackets.

Section Loot.
Context `{HashIter}.
Context (E : Env).

(** ** Packets *)

(** The players a packet about a roll goes to. *)
Definition roll_recipients (r : Roll) (w : World) : list ObjectGuid :=
  omap (fun kv => match GetPlayer kv.1 w with
                  | Some p => if GetSession p && negb (bool_decide (kv.2 = ROLL_NOT_VALID)) then Some (pl_guid p) else None
                  | None => None
                  end) (hash_iter (playerVote r)).

Definition to_rollers (r : Roll) (opcode : Z) (data : list field) (w : World) : World :=
  emits ((fun k => SendPacket k opcode data) <$> roll_recipients r w) w.

Definition start_roll_fields (CountDown : Z) (r : Roll) : list field :=
  [FU64 (lootedTargetGUID r); FU32 (itemSlot r); FU32 (itemid r); FU32 0; FU32 (u32 (itemRandomPropId r)); FU32 CountDown].
Definition SendLootStartRoll (CountDown : Z) (r : Roll) : World -> World :=
  to_rollers r SMSG_LOOT_START_ROLL (start_roll_fields CountDown r).
Definition SendLootRoll (target : ObjectGuid) (rollNumber rollType : Z) (r : Roll) : World -> World :=
  to_rollers r SMSG_LOOT_ROLL
    [FU64 (lootedTargetGUID r); FU32 (itemSlot r); FU64 target; FU32 (itemid r); FU32 0; FU32 (u32 (itemRandomPropId r));
     FU8 rollNumber; FU8 rollType].
Definition SendLootRollWon (target : ObjectGuid) (rollNumber rollType : Z) (r : Roll) : World -> World :=
  to_rollers r SMSG_LOOT_ROLL_WON
    [FU64 (lootedTargetGUID r); FU32 (itemSlot r); FU32 (itemid r); FU32 0; FU32 (u32 (itemRandomPropId r)); FU64 target;
     FU8 rollNumber; FU8 rollType].
Definition SendLootAllPassed (r : Roll) : World -> World :=
  to_rollers r SMSG_LOOT_ALL_PASSED
    [FU64 (lootedTargetGUID r); FU32 (itemSlot r); FU32 (itemid r); FU32 (u32 (itemRandomPropId r)); FU32 0].

(** ** Loot *)

Definition upd_loot (lp : Z) (f : Loot -> Loot) (w : World) : World := set_loots (alter f lp (w_loots w)) w.
(** A change of [items[slot]]; past the end it is undefined. *)
Definition upd_item (lp slot : Z) (f : LootItem -> LootItem) (w : World) : World :=
  match w_loots w !! lp with
  | Some l =>
    match lt_items l !! Z.to_nat slot with
    | Some i => upd_loot lp (fun l => set_loot (<[Z.to_nat slot := f i]> (lt_items l)) (unlootedCount l) (m_playersLooting l) l) w
    | None => undefined w
    end
  | None => undefined w
  end.
Definition loot_item (lp slot : Z) (w : World) : option LootItem :=
  match w_loots w !! lp with Some l => lt_items l !! Z.to_nat slot | None => None end.

Definition NotifyItemRemoved (lp slot : Z) (w : World) : World :=
  match w_loots w !! lp with
  | None => undefined w
  | Some l =>
    let here := filter (fun k => GetPlayer k w <> None) (m_playersLooting l) in
    emits ((fun k => NotifyLootItemRemoved k slot) <$> here)
      (upd_loot lp (fun l => set_loot (lt_items l) (unlootedCount l) here l) w)
  end.

(** [clear()]: every roll for the loot loses it. *)
Definition clear_loot (lp : Z) (w : World) : World :=
  let cut r := if bool_decide (getLoot r = Some lp) then set_roll_loot None r else r in
  let w := upd_loot lp (fun _ => mkLoot [] 0 [] []) w in
  set_groups ((fun g => set_rolls (cut <$> RollId g) g) <$> w_groups w) (w_nextGroup w) w.

(** ** The end of a roll *)

(** The numbers drawn for the voters who voted [v]: the largest and the first
    who drew it, starting from [(0, best)]. *)
Fixpoint roll_dice (v : RollVote) (code : Z) (r : Roll) (votes : list (ObjectGuid * RollVote)) (maxresul : Z)
    (maxguid : ObjectGuid) (w : World) : Z * ObjectGuid * World :=
  match votes with
  | [] => (maxresul, maxguid, w)
  | (k, vote) :: votes =>
    if bool_decide (vote = v) then
      let randomN := u8 (urand E (w_draws w) 1 100) in
      let w := SendLootRoll k randomN code r (draw w) in
      if maxresul <? randomN then roll_dice v code r votes randomN k w else roll_dice v code r votes maxresul maxguid w
    else roll_dice v code r votes maxresul maxguid w
  end.

(** The item goes to the winner, or waits for the winner in the loot. *)
Definition award (need : bool) (r : Roll) (lp : Z) (maxguid : ObjectGuid) (w : World) : World :=
  let later := if need then upd_item lp (itemSlot r) (fun i => set_loot_item (is_looted i) (is_blocked i) (is_underthreshold i) maxguid i) w
               else w in
  match GetPlayer maxguid w with
  | None => later
  | Some p =>
    if negb (GetSession p) then later
    else match loot_item lp (itemSlot r) w with
    | None => undefined w
    | Some item =>
      let msg := CanStoreNewItem E p (itemid r) (li_count item) in
      if msg =? EQUIP_ERR_OK then
        let w := upd_item lp (itemSlot r) (fun i => set_loot_item true (is_blocked i) (is_underthreshold i) (lootOwner i) i) w in
        let w := NotifyItemRemoved lp (itemSlot r) w in
        let w := upd_loot lp (fun l => set_loot (lt_items l) (u8 (unlootedCount l - 1)) (m_playersLooting l) l) w in
        let w := emit (LogLoot maxguid (li_itemid item) (li_count item)) w in
        if ItemCreated E (itemid r) (li_count item) then
          emit (OnReceivedItem maxguid (itemid r) (li_count item)) (upd_player maxguid (add_item (itemid r) (li_count item)) w)
        else w
      else
        emit (SendEquipError maxguid msg (itemid r))
          (upd_item lp (itemSlot r) (fun i => set_loot_item (is_looted i) false (is_underthreshold i) maxguid i) w)
    end
  end.

(** One of the two kinds of roll, when somebody voted at all. *)
Definition decide_roll (need : bool) (r : Roll) (lp : Z) (w : World) : World :=
  match hash_iter (playerVote r) with
  | [] => w
  | ((first, _) :: _) as votes =>
    let code := if need then 1 else 2 in
    let '(maxresul, maxguid, w) := roll_dice (if need then ROLL_NEED else ROLL_GREED) code r votes 0 first w in
    award need r lp maxguid (SendLootRollWon maxguid maxresul code r w)
  end.

Definition erase_roll (gp : Z) (i : nat) : World -> World :=
  upd_group gp (fun g => set_rolls (delete i (RollId g)) g).

Definition CountTheRoll (gp : Z) (i : nat) (w : World) : World :=
  deref gp w (fun g =>
    match RollId g !! i with
    | None => undefined w
    | Some r =>
      match getLoot r with
      | None => erase_roll gp i w
      | Some lp =>
        let w := if 0 <? totalNeed r then decide_roll true r lp w
                 else if 0 <? totalGreed r then decide_roll false r lp w
                 else upd_item lp (itemSlot r) (fun i => set_loot_item (is_looted i) false (is_underthreshold i) (lootOwner i) i)
                        (SendLootAllPassed r w) in
        erase_roll gp i w
      end
    end).

(** ** Votes *)

Definition upd_roll (gp : Z) (i : nat) (f : Roll -> Roll) : World -> World :=
  upd_group gp (fun g => set_rolls (alter f i (RollId g)) g).

Definition loot_empty (r : Roll) (w : World) : bool :=
  match getLoot r with
  | Some lp => match w_loots w !! lp with Some l => bool_decide (lt_items l = []) | None => false end
  | None => false
  end.

(** The vote in the roll, and the counter it adds to. *)
Definition record_vote (k : ObjectGuid) (vote : RollVote) (r : Roll) : Roll :=
  let votes := <[k := vote]> (playerVote r) in
  match vote with
  | ROLL_PASS => set_votes votes (totalPlayersRolling r) (totalNeed r) (totalGreed r) (u8 (totalPass r + 1)) r
  | ROLL_NEED => set_votes votes (totalPlayersRolling r) (u8 (totalNeed r + 1)) (totalGreed r) (totalPass r) r
  | ROLL_GREED => set_votes votes (totalPlayersRolling r) (totalNeed r) (u8 (totalGreed r + 1)) (totalPass r) r
  | _ => r
  end.

Definition send_vote (k : ObjectGuid) (vote : RollVote) (r : Roll) (w : World) : World :=
  match vote with
  | ROLL_PASS => SendLootRoll k 128 128 r w
  | ROLL_NEED => SendLootRoll k 0 0 r w
  | ROLL_GREED => SendLootRoll k 128 2 r w
  | _ => w
  end.

Definition votes_counted (r : Roll) : bool := totalPlayersRolling r <=? totalPass r + totalNeed r + totalGreed r.

(** [CountRollVote(playerGUID, rollI, vote)]: true when the iterator has moved
    on, or should have. *)
Definition CountRollVote_at (gp : Z) (k : ObjectGuid) (i : nat) (vote : RollVote) (w : World) : bool * World :=
  match w_groups w !! gp with
  | None => (false, undefined w)
  | Some g =>
    match RollId g !! i with
    | None => (false, undefined w)
    | Some r =>
      match playerVote r !! k with
      | None => (true, w)
      | Some _ =>
        if loot_empty r w then (false, w)
        else
          let r' := record_vote k vote r in
          let w := upd_roll gp i (fun _ => r') (send_vote k vote r w) in
          if votes_counted r' then (true, CountTheRoll gp i w) else (false, w)
      end
    end
  end.

(** The roll a vote is for. *)
Definition is_roll (target : ObjectGuid) (slot : Z) (r : Roll) : Prop :=
  isValid r = true /\ lootedTargetGUID r = target /\ itemSlot r = slot.
#[global] Instance is_roll_dec target slot r : Decision (is_roll target slot r).
Proof. unfold is_roll. apply _. Defined.

Definition CountRollVote (gp : Z) (k : ObjectGuid) (lootedTarget : ObjectGuid) (slot : Z) (vote : RollVote) (w : World) : bool * World :=
  match w_groups w !! gp with
  | None => (false, undefined w)
  | Some g =>
    match list_find (is_roll lootedTarget slot) (RollId g) with
    | None => (false, w)
    | Some (i, _) => (true, snd (CountRollVote_at gp k i vote w))
    end
  end.

(** ** The start of a roll *)

Definition can_roll (method : Z) (creature : ObjectGuid) (l : Loot) (item : LootItem) (p : Player) : bool :=
  GetSession p && pl_inWorld p && (negb (method =? NEED_BEFORE_GREED) || CanUseItem E p (li_itemid item))
  && AllowedForPlayer E item p creature && bool_decide (pl_guid p ∈ m_allowedLooters l) && IsWithinLootXPDist E p creature.

Definition StartLootRoll (gp : Z) (creature : ObjectGuid) (method lp slot : Z) (w : World) : World :=
  deref gp w (fun g =>
    match w_loots w !! lp with
    | None => undefined w
    | Some l =>
      match lt_items l !! Z.to_nat slot with
      | None => w
      | Some item =>
        let rolling := filter (fun p => can_roll method creature l item p = true) (snd <$> references g w) in
        let votes := foldl (fun m p => <[pl_guid p := ROLL_NOT_EMITED_YET]> m) ∅ rolling in
        let r := mkRoll creature (li_itemid item) (randomPropertyId item) votes (u8 (Z.of_nat (length rolling))) 0 0 0 slot (Some lp) in
        if 0 <? totalPlayersRolling r then
          let w := SendLootStartRoll LOOT_ROLL_TIMEOUT r w in
          let w := upd_item lp slot (fun i => set_loot_item (is_looted i) true (is_underthreshold i) (lootOwner i) i) w in
          let w := emit (StartGroupLoot creature (m_Id g) LOOT_ROLL_TIMEOUT) w in
          upd_group gp (fun g => set_rolls (RollId g ++ [r]) g) w
        else w
      end
    end).

(** [GroupLoot] and [NeedBeforeGreed], for one item. *)
Definition roll_or_leave (gp : Z) (creature : ObjectGuid) (method lp : Z) (w : World) (slot : nat) : World :=
  deref gp w (fun g =>
    match loot_item lp (Z.of_nat slot) w with
    | None => w
    | Some item =>
      if freeforall item then w
      else match GetItemQuality E (li_itemid item) with
           | None => w
           | Some q =>
             if m_lootThreshold g <=? q then StartLootRoll gp creature method lp (Z.of_nat slot) w
             else upd_item lp (Z.of_nat slot) (fun i => set_loot_item (is_looted i) (is_blocked i) true (lootOwner i) i) w
           end
    end).

Definition loot_size (lp : Z) (w : World) : nat := match w_loots w !! lp with Some l => length (lt_items l) | None => 0 end.
Definition GroupLoot (gp : Z) (creature : ObjectGuid) (lp : Z) (w : World) : World :=
  foldl (roll_or_leave gp creature GROUP_LOOT lp) w (seq 0 (loot_size lp w)).
Definition NeedBeforeGreed (gp : Z) (creature : ObjectGuid) (lp : Z) (w : World) : World :=
  foldl (roll_or_leave gp creature NEED_BEFORE_GREED lp) w (seq 0 (loot_size lp w)).

Definition MasterLoot (gp : Z) (creature : ObjectGuid) (lp : Z) (player : ObjectGuid) (w : World) : World :=
  deref gp w (fun g =>
    match w_loots w !! lp with
    | None => undefined w
    | Some l =>
      let mark i := match GetItemQuality E (li_itemid i) with
                    | Some q => if q <? m_lootThreshold g then set_loot_item (is_looted i) (is_blocked i) true (lootOwner i) i else i
                    | None => i
                    end in
      let w := upd_loot lp (fun l => set_loot (mark <$> lt_items l) (unlootedCount l) (m_playersLooting l) l) w in
      let looters := filter (fun p => pl_inWorld p && IsWithinLootXPDist E p creature
                                      && bool_decide (pl_guid p ∈ m_allowedLooters l) = true) (snd <$> references g w) in
      emit (SendPacket player SMSG_LOOT_MASTER_LIST
              (FU8 (u8 (Z.of_nat (length looters))) :: ((fun p => FU64 (pl_guid p)) <$> looters))) w
    end).

(** The open rolls, for a player who logs in. *)
Definition SendLootStartRollsForPlayer (gp : Z) (k : ObjectGuid) (w : World) : World :=
  match w_players w !! k with
  | None => w
  | Some p =>
    if negb (GetSession p) then w
    else deref gp w (fun g =>
      emits (omap (fun r =>
               if isValid r && bool_decide (playerVote r !! k = Some ROLL_NOT_EMITED_YET)
                  && negb (GetGroupLootTimer E p (lootedTargetGUID r) =? 0)
               then Some (SendPacket k SMSG_LOOT_START_ROLL (start_roll_fields (GetGroupLootTimer E p (lootedTargetGUID r)) r))
               else None) (RollId g)) w)
  end.

(** ** Rolls that are cut short *)

(** [EndRoll]: the search starts again after every roll it ends. *)
Fixpoint EndRoll_loop (fuel : nat) (gp lp : Z) (w : World) : World :=
  match fuel with
  | O => undefined w
  | S fuel =>
    deref gp w (fun g =>
      match list_find (fun r => getLoot r = Some lp) (RollId g) with
      | None => w
      | Some (i, _) => EndRoll_loop fuel gp lp (CountTheRoll gp i w)
      end)
  end.
Definition roll_count (gp : Z) (w : World) : nat :=
  match w_groups w !! gp with Some g => length (RollId g) | None => 0 end.
Definition EndRoll (gp lp : Z) (w : World) : World := EndRoll_loop (S (roll_count gp w)) gp lp w.

(** [Creature::StopGroupLoot], called when the timer of the rolls runs out. *)
Definition StopGroupLoot (groupLootId lp : Z) (w : World) : World :=
  if groupLootId =? 0 then w
  else match GetGroupById groupLootId w with Some gp => EndRoll gp lp w | None => w end.

(** The rolls a disbanded group had. *)
Fixpoint end_all_rolls (fuel : nat) (gp : Z) (w : World) : World :=
  match fuel with
  | O => w
  | S fuel => end_all_rolls fuel gp (CountTheRoll gp 0 w)
  end.

Definition take_vote (k : ObjectGuid) (v : RollVote) (r : Roll) : Roll :=
  set_votes (delete k (playerVote r))
    (if bool_decide (v <> ROLL_NOT_VALID) then u8 (totalPlayersRolling r - 1) else totalPlayersRolling r)
    (if bool_decide (v = ROLL_NEED) then u8 (totalNeed r - 1) else totalNeed r)
    (if bool_decide (v = ROLL_GREED) then u8 (totalGreed r - 1) else totalGreed r)
    (if bool_decide (v = ROLL_PASS) then u8 (totalPass r - 1) else totalPass r) r.

Fixpoint removeRolls_loop (fuel : nat) (gp : Z) (k : ObjectGuid) (it : nat) (w : World) : World :=
  match fuel with
  | O => undefined w
  | S fuel =>
    deref gp w (fun g =>
      match RollId g !! it with
      | None => w
      | Some r =>
        match playerVote r !! k with
        | None => removeRolls_loop fuel gp k (S it) w
        | Some v =>
          let '(b, w) := CountRollVote_at gp k it ROLL_NOT_EMITED_YET (upd_roll gp it (take_vote k v) w) in
          removeRolls_loop fuel gp k (if b then it else S it) w
        end
      end)
  end.
(** [_removeRolls] *)
Definition removeRolls (gp : Z) (k : ObjectGuid) (w : World) : World :=
  removeRolls_loop (S (2 * roll_count gp w)) gp k 0 w.

(** ** Round robin *)

Definition next_looters (old : ObjectGuid) (slots : list MemberSlot) : list MemberSlot :=
  match list_find (fun s => ms_guid s = old) slots with
  | Some (i, _) => drop (S i) slots ++ take (S i) slots
  | None => slots
  end.

(** [UpdateLooterGuid(pLootedObject, ifneed)] *)
Definition UpdateLooterGuid (gp : Z) (object : ObjectGuid) (ifneed : bool) (w : World) : World :=
  deref gp w (fun g =>
    if (m_lootMethod g =? MASTER_LOOT) || (m_lootMethod g =? FREE_FOR_ALL) then w
    else
      let old := m_looterGuid g in
      let near guid := match GetPlayer guid w with Some p => IsWithinLootXPDist E p object | None => false end in
      if IsMember old g && ifneed && near old then w
      else
        let set guid w := SendUpdate gp (upd_group gp (fun g => set_looting (m_lootMethod g) (m_lootThreshold g) guid g) w) in
        match List.find (fun s => near (ms_guid s)) (next_looters old (m_memberSlots g)) with
        | Some s => if ms_guid s =? old then w else set (ms_guid s) w
        | None => set 0 w
        end).
End Loot.
