(* ===== verification/MeetingStone.v ===== *)
(** * MeetingStone: the queue for groups

    LFGQueue (src/src/game/LFG/LFGMgr.cpp, .h) without the matching of
    [Update], which is in [GroupHandlers], and the roles a group still looks for
    ([Group::CalculateLFGRoles]). *)
From S2P Require Import Prelude ByteBuffer ObjectGuid GroupData GroupPackets.

Definition LFG_ROLE_NONE : Z := 0x00.
Definition LFG_ROLE_TANK : Z := 0x01.
Definition LFG_ROLE_HEALER : Z := 0x02.
Definition LFG_ROLE_DPS : Z := 0x04.
Definition LFG_PRIORITY_NONE : Z := 0.
Definition LFG_PRIORITY_LOW : Z := 1.
Definition LFG_PRIORITY_NORMAL : Z := 2.
Definition LFG_PRIORITY_HIGH : Z := 3.

Definition CLASS_WARRIOR : Z := 1.
Definition CLASS_PALADIN : Z := 2.
Definition CLASS_HUNTER : Z := 3.
Definition CLASS_ROGUE : Z := 4.
Definition CLASS_PRIEST : Z := 5.
Definition CLASS_SHAMAN : Z := 7.
Definition CLASS_MAGE : Z := 8.
Definition CLASS_WARLOCK : Z := 9.
Definition CLASS_DRUID : Z := 11.

Definition PotentialRoles : list Z := [LFG_ROLE_TANK; LFG_ROLE_HEALER; LFG_ROLE_DPS].
Definition GetMaximumDPSSlots : Z := 3.
Definition groupTimer_start : Z := 5 * MINUTE * IN_MILLISECONDS.

(** [CalculateRoles(playerClass)] *)
Definition CalculateRoles (playerClass : Z) : Z :=
  if (playerClass =? CLASS_DRUID) || (playerClass =? CLASS_PALADIN) then
    Z.lor LFG_ROLE_TANK (Z.lor LFG_ROLE_DPS LFG_ROLE_HEALER)
  else if (playerClass =? CLASS_PRIEST) || (playerClass =? CLASS_SHAMAN) then Z.lor LFG_ROLE_DPS LFG_ROLE_HEALER
  else if playerClass =? CLASS_WARRIOR then Z.lor LFG_ROLE_TANK LFG_ROLE_DPS
  else if (playerClass =? CLASS_HUNTER) || (playerClass =? CLASS_MAGE) || (playerClass =? CLASS_ROGUE)
          || (playerClass =? CLASS_WARLOCK) then LFG_ROLE_DPS
  else LFG_ROLE_NONE.

Definition getPriority (playerClass playerRole : Z) : Z :=
  if playerRole =? LFG_ROLE_TANK then
    if (playerClass =? CLASS_DRUID) || (playerClass =? CLASS_PALADIN) then LFG_PRIORITY_NORMAL
    else if playerClass =? CLASS_WARRIOR then LFG_PRIORITY_HIGH else LFG_PRIORITY_NONE
  else if playerRole =? LFG_ROLE_HEALER then
    if (playerClass =? CLASS_DRUID) || (playerClass =? CLASS_PALADIN) || (playerClass =? CLASS_PRIEST)
       || (playerClass =? CLASS_SHAMAN) then LFG_PRIORITY_HIGH else LFG_PRIORITY_NONE
  else if playerRole =? LFG_ROLE_DPS then
    if (playerClass =? CLASS_HUNTER) || (playerClass =? CLASS_MAGE) || (playerClass =? CLASS_ROGUE)
       || (playerClass =? CLASS_WARLOCK) then LFG_PRIORITY_HIGH
    else if (playerClass =? CLASS_DRUID) || (playerClass =? CLASS_PALADIN) || (playerClass =? CLASS_SHAMAN)
            || (playerClass =? CLASS_WARRIOR) then LFG_PRIORITY_NORMAL
    else if playerClass =? CLASS_PRIEST then LFG_PRIORITY_LOW else LFG_PRIORITY_NONE
  else LFG_PRIORITY_NONE.

Definition has_role (mask role : Z) : bool := negb (Z.land mask role =? 0).

(** [LFGPlayerQueueInfo::GetRolePriority(role)] *)
Definition GetRolePriority (role : Z) (q : LFGPlayerQueueInfo) : Z :=
  match List.find (fun rp => fst rp =? role) (qp_rolePriority q) with Some (_, p) => p | None => LFG_PRIORITY_NONE end.

(** ** The roles a group looks for *)

(** What [CalculateLFGRoles] threads: [InitRoles], [DpsCount], [processed]. *)
Definition premade : Type := Z * Z * list ObjectGuid.

(** The switch of [FillPremadeLFG] and [FindRoleToGroup]: a role is taken. *)
Definition take_role (role : Z) (roles dps : Z) : Z * Z :=
  if role =? LFG_ROLE_TANK then (Z.ldiff roles LFG_ROLE_TANK, dps)
  else if role =? LFG_ROLE_HEALER then (Z.ldiff roles LFG_ROLE_HEALER, dps)
  else if role =? LFG_ROLE_DPS then
    if dps <? GetMaximumDPSSlots then
      (if GetMaximumDPSSlots <=? dps + 1 then Z.ldiff roles LFG_ROLE_DPS else roles, dps + 1)
    else (roles, dps)
  else (roles, dps).

Definition FillPremadeLFG (E : Env) (g : Group) (w : World) (plrGuid : ObjectGuid) (playerClass requiredRole : Z)
    (s : premade) : bool * premade :=
  let '(roles, dps, processed) := s in
  if existsb (fun m => negb (ms_guid m =? plrGuid) && negb (bool_decide (ms_guid m ∈ processed))
                       && (getPriority playerClass requiredRole <? getPriority (GetPlayerClassByGUID E (ms_guid m) w) requiredRole))
       (m_memberSlots g)
  then (false, s)
  else let '(roles, dps) := take_role requiredRole roles dps in (true, (roles, dps, processed ++ [plrGuid])).

Fixpoint premade_member (E : Env) (g : Group) (w : World) (guid : ObjectGuid) (cls : Z) (rs : list Z) (s : premade) : premade :=
  match rs with
  | [] => s
  | role :: rs =>
    if negb (has_role (CalculateRoles cls) role) then premade_member E g w guid cls rs s
    else if Z.land role s.1.1 =? role then
      let '(b, s) := FillPremadeLFG E g w guid cls role s in
      if b then s else premade_member E g w guid cls rs s
    else premade_member E g w guid cls rs s
  end.

Definition CalculateLFGRoles (E : Env) (g : Group) (w : World) (q : LFGGroupQueueInfo) : LFGGroupQueueInfo :=
  let all := Z.lor LFG_ROLE_TANK (Z.lor LFG_ROLE_DPS LFG_ROLE_HEALER) in
  let '(roles, dps, _) :=
    foldl (fun s m => premade_member E g w (ms_guid m) (GetPlayerClassByGUID E (ms_guid m) w) PotentialRoles s)
      (all, 0, []) (m_memberSlots g) in
  mkQueuedGroup roles dps (qg_team q) (qg_areaId q) (qg_isHardcore q) (qg_groupTimer q).

(** ** The queue *)

Definition set_queue_packet (areaId status : Z) : list field := [FU32 areaId; FU8 status].
Definition SendMeetingstoneSetqueue (areaId status : Z) (k : ObjectGuid) : World -> World :=
  emit (SendPacket k SMSG_MEETINGSTONE_SETQUEUE (set_queue_packet areaId status)).
Definition SendMeetingstoneFailed (status : Z) (k : ObjectGuid) : World -> World :=
  emit (SendPacket k SMSG_MEETINGSTONE_JOINFAILED [FU8 status]).

Definition set_queued_players (m : gmap ObjectGuid LFGPlayerQueueInfo) (w : World) : World :=
  set_queues m (m_OfflinePlayers w) (m_QueuedGroups w) w.
Definition set_queued_groups (m : gmap Z LFGGroupQueueInfo) (w : World) : World :=
  set_queues (m_QueuedPlayers w) (m_OfflinePlayers w) m w.

Definition AddToQueue (E : Env) (leader : ObjectGuid) (queueAreaID : Z) (w : World) : World :=
  match w_players w !! leader with
  | None => w
  | Some p =>
    match GetGroup p with
    | Some gp =>
      deref gp w (fun g =>
        if IsLeader leader g then
          let q := default (mkQueuedGroup 0 0 0 0 false 0) (m_QueuedGroups w !! m_Id g) in
          let q := CalculateLFGRoles E g w q in
          let q := mkQueuedGroup (qg_availableRoles q) (qg_dpsCount q) (GetTeam p) queueAreaID (IsHardcore p) groupTimer_start in
          let w := set_queued_groups (<[m_Id g := q]> (m_QueuedGroups w)) w in
          let w := upd_group gp (SetLFGAreaId queueAreaID) w in
          BroadcastPacket gp SMSG_MEETINGSTONE_SETQUEUE (set_queue_packet queueAreaID MEETINGSTONE_STATUS_JOINED_QUEUE) true (-1) 0 w
        else w)
    | None =>
      let old := default (mkQueuedPlayer 0 0 0 0 false false [] []) (m_QueuedPlayers w !! leader) in
      let cls := pi_class (pl_info p) in
      let q := mkQueuedPlayer (CalculateRoles cls) (GetTeam p) queueAreaID (qp_timeInLFG old) false (IsHardcore p) (GetName p)
                 (qp_rolePriority old ++ ((fun role => (role, getPriority cls role)) <$> PotentialRoles)) in
      SendMeetingstoneSetqueue queueAreaID MEETINGSTONE_STATUS_JOINED_QUEUE leader
        (set_queued_players (<[leader := q]> (m_QueuedPlayers w)) w)
    end
  end.

Definition RestoreOfflinePlayer (k : ObjectGuid) (w : World) : World :=
  match w_players w !! k with
  | None => w
  | Some p =>
    if negb (GetSession p) then w
    else match m_OfflinePlayers w !! k with
    | Some q =>
      SendMeetingstoneSetqueue (qp_areaId q) MEETINGSTONE_STATUS_JOINED_QUEUE k
        (set_queues (<[k := q]> (m_QueuedPlayers w)) (delete k (m_OfflinePlayers w)) (m_QueuedGroups w) w)
    | None => SendMeetingstoneSetqueue 0 MEETINGSTONE_STATUS_NONE k w
    end
  end.

Definition UpdateGroup (E : Env) (groupId : Z) (w : World) : World :=
  match m_QueuedGroups w !! groupId, GetGroupById groupId w with
  | Some q, Some gp =>
    deref gp w (fun g =>
      if IsFull g then w else set_queued_groups (<[groupId := CalculateLFGRoles E g w q]> (m_QueuedGroups w)) w)
  | _, _ => w
  end.

(** [RemovePlayerFromQueue(plrGuid, leaveMethod)], [client] when the player asked for it. *)
Definition RemovePlayerFromQueue (plrGuid : ObjectGuid) (client : bool) (w : World) : World :=
  match m_QueuedPlayers w !! plrGuid with
  | None => w
  | Some _ =>
    let w := match GetPlayer plrGuid w with
             | Some p => if client && GetSession p then SendMeetingstoneSetqueue 0 MEETINGSTONE_STATUS_LEAVE_QUEUE plrGuid w else w
             | None => w
             end in
    set_queued_players (delete plrGuid (m_QueuedPlayers w)) w
  end.

Definition RemoveGroupFromQueue (groupId : Z) (client : bool) (w : World) : World :=
  match m_QueuedGroups w !! groupId with
  | None => w
  | Some _ =>
    let w := match GetGroupById groupId w with
             | Some gp =>
               let w := if client
                        then BroadcastPacket gp SMSG_MEETINGSTONE_SETQUEUE (set_queue_packet 0 MEETINGSTONE_STATUS_LEAVE_QUEUE) true (-1) 0 w
                        else BroadcastPacket gp SMSG_MEETINGSTONE_SETQUEUE (set_queue_packet 0 MEETINGSTONE_STATUS_NONE) true (-1) 0
                               (BroadcastPacket gp SMSG_MEETINGSTONE_COMPLETE [] true (-1) 0 w) in
               upd_group gp (SetLFGAreaId 0) w
             | None => w
             end in
    set_queued_groups (delete groupId (m_QueuedGroups w)) w
  end.
