(* ===== verification/Group.v ===== *)
(** * Group: members, invitations and leaders

    The operations of Group (src/src/game/Group/Group.cpp) that create,
    change and disband groups, with the methods of Player that end a
    membership. A method of Group takes the pointer [gp] of the object. *)
From S2P Require Import Prelude ByteBuffer ObjectGuid GroupData GroupPackets GroupLoot MeetingStone.

Section Group.
Context `{HashIter}.
Context (E : Env).

Definition test (gp : Z) (t : Group -> bool) (w : World) : bool := test_group gp w t.
Definition members_count (gp : Z) (w : World) : Z :=
  match w_groups w !! gp with Some g => GetMembersCount g | None => 0 end.

(** ** Subgroup counters *)

Definition bump (d : Z) (subgroup : Z) (c : list Z) : list Z := alter (fun n => u8 (n + d)) (Z.to_nat subgroup) c.
Definition count_slots (l : list MemberSlot) : list Z := foldl (fun c s => bump 1 (ms_group s) c) (repeat 0 8) l.

(** A subgroup past the array is undefined. *)
Definition initRaidSubGroupsCounter (gp : Z) (w : World) : World :=
  deref gp w (fun g =>
    let w := upd_group gp (set_slots (m_memberSlots g) (Some (count_slots (m_memberSlots g)))) w in
    if forallb (fun s => ms_group s <? MAX_RAID_SUBGROUPS) (m_memberSlots g) then w else undefined w).

Definition SubGroupCounter (d : Z) (gp subgroup : Z) (w : World) : World :=
  deref gp w (fun g =>
    match m_subGroupsCounts g with
    | None => w
    | Some c => if subgroup <? MAX_RAID_SUBGROUPS then upd_group gp (set_slots (m_memberSlots g) (Some (bump d subgroup c))) w
                else undefined w
    end).
Definition SubGroupCounterIncrease : Z -> Z -> World -> World := SubGroupCounter 1.
Definition SubGroupCounterDecrease : Z -> Z -> World -> World := SubGroupCounter (-1).

(** ** Invitations *)

(** The assertion is that the invitation of a player in the set is to this group. *)
Definition clear_invite (gp : Z) (k : ObjectGuid) (w : World) : World :=
  match w_players w !! k with
  | Some p => if bool_decide (m_groupInvite p = Some gp) then upd_player k (SetGroupInvite None) w else undefined w
  | None => undefined w
  end.

Definition RemoveInvite (gp : Z) (k : ObjectGuid) (w : World) : World :=
  deref gp w (fun g =>
    if bool_decide (k ∈ m_invitees g) then clear_invite gp k (upd_group gp (fun g => set_invitees (m_invitees g ∖ {[k]}) g) w)
    else w).

Definition RemoveAllInvites (gp : Z) (w : World) : World :=
  deref gp w (fun g =>
    upd_group gp (set_invitees ∅) (foldl (fun w k => clear_invite gp k w) w (elements (m_invitees g)))).

(** The group of a player that is not one of a battleground. *)
Definition own_group (p : Player) (w : World) : option Z :=
  match GetGroup p with
  | Some gp => if test_group gp w isBGGroup then GetOriginalGroup p else Some gp
  | None => None
  end.

Definition AddInvite (gp : Z) (k : ObjectGuid) (w : World) : bool * World :=
  match w_players w !! k with
  | None => (false, w)
  | Some p =>
    if bool_decide (m_groupInvite p <> None) || bool_decide (own_group p w <> None) then (false, w)
    else
      let w := RemoveInvite gp k w in
      let w := upd_group gp (fun g => set_invitees ({[k]} ∪ m_invitees g) g) w in
      let w := upd_player k (SetGroupInvite (Some gp)) w in
      (true, emit (ScriptOnInviteMember k) w)
  end.

(** The pointers of the set are compared by address: some order. *)
Definition GetInvited_guid (guid : ObjectGuid) (g : Group) : option ObjectGuid :=
  if bool_decide (guid ∈ m_invitees g) then Some guid else None.
Definition GetInvited_name (name : list Z) (g : Group) (w : World) : option ObjectGuid :=
  fst <$> List.find (fun kv => match w_players w !! fst kv with Some p => bool_decide (GetName p = name) | None => false end)
            (hash_iter (gset_to_gmap tt (m_invitees g))).

(** ** Leaders *)

Definition updateLeaderFlag (remove : bool) (gp : Z) (w : World) : World :=
  deref gp w (fun g =>
    match GetPlayer (m_leaderGuid g) w with Some p => UpdateGroupLeaderFlag remove (pl_guid p) w | None => w end).

Definition AddLeaderInvite (gp : Z) (k : ObjectGuid) (w : World) : bool * World :=
  let '(b, w) := AddInvite gp k w in
  if negb b then (false, w)
  else match w_players w !! k with
  | None => (false, undefined w)
  | Some p =>
    let w := updateLeaderFlag true gp w in
    let w := upd_group gp (fun g => set_leader k (GetName p) (m_leaderLastOnline g) g) w in
    (true, updateLeaderFlag false gp w)
  end.

Definition setLeader (gp : Z) (guid : ObjectGuid) (w : World) : World :=
  deref gp w (fun g =>
    match _getMemberSlot guid g with
    | None => w
    | Some slot =>
      let w := if isBGGroup g then w
               else
                 let new := GetCounter (ms_guid slot) in
                 let old := GetCounter (m_leaderGuid g) in
                 let player := pl_guid <$> GetPlayer (ms_guid slot) w in
                 emits ([PExecute (SqlDeleteInstances old new)]
                        ++ (match player with Some _ => [RemovePermanentBinds (m_Id g)] | None => [] end)
                        ++ [PExecute (SqlUpdateInstances old new); ConvertInstancesToGroup player (m_Id g) (ms_guid slot);
                            PExecute (SqlUpdateLeader (m_Id g) new)]) w in
      let w := updateLeaderFlag true gp w in
      let w := upd_group gp (set_leader (ms_guid slot) (ms_name slot) (now E)) w in
      updateLeaderFlag false gp w
    end).

Definition ChangeLeader (gp : Z) (guid : ObjectGuid) (w : World) : World :=
  deref gp w (fun g =>
    match _getMemberSlot guid g with
    | None => w
    | Some slot =>
      let w := setLeader gp guid w in
      let w := BroadcastPacket gp SMSG_GROUP_SET_LEADER [FStr (ms_name slot)] true (-1) 0 w in
      let w := SendUpdate gp w in
      emit (ScriptOnChangeLeader (m_Id g) guid (m_leaderGuid g)) w
    end).

(** A member who may follow as leader: online, with a session and in this group. *)
Definition candidate (gp : Z) (g : Group) (w : World) (s : MemberSlot) : bool :=
  negb (ms_guid s =? m_leaderGuid g) &&
  match GetPlayer (ms_guid s) w with Some p => GetSession p && bool_decide (GetGroup p = Some gp) | None => false end.

(** The loop of [_chooseLeader]: the first candidate, in a raid the first who is an assistant. *)
Definition find_leader (gp : Z) (g : Group) (w : World) : option ObjectGuid :=
  let c := filter (fun s => candidate gp g w s = true) (m_memberSlots g) in
  let best := if isRaidGroup g then List.find ms_assistant c else head c in
  match best with Some s => Some (ms_guid s) | None => ms_guid <$> head c end.

Definition chooseLeader (gp : Z) (offline : bool) (w : World) : World :=
  deref gp w (fun g =>
    if GetMembersCount g <? GetMembersMinCount g then w
    else
      let elect := if offline then ChangeLeader gp else setLeader gp in
      match find_leader gp g w with
      | Some guid => elect guid w
      | None =>
        if offline then w
        else match head (m_memberSlots g) with Some s => elect (ms_guid s) w | None => undefined w end
      end).

Definition UpdateOfflineLeader (gp : Z) (time delay : Z) (w : World) : World :=
  deref gp w (fun g =>
    if isBGGroup g then w
    else match GetPlayer (m_leaderGuid g) w with
    | Some _ => upd_group gp (set_leader (m_leaderGuid g) (m_leaderName g) time) w
    | None =>
      if (time - m_leaderLastOnline g <? delay) || SessionLoading E (m_leaderGuid g) then w
      else chooseLeader gp true w
    end).

(** ** Factions *)

Definition ally_race (race : Z) : bool :=
  (race =? RACE_DWARF) || (race =? RACE_GNOME) || (race =? RACE_HIGH_ELF) || (race =? RACE_HUMAN) || (race =? RACE_NIGHTELF).
Definition is_horde (w : World) (s : MemberSlot) : bool :=
  match FindPlayerNotInWorld (ms_guid s) w with
  | Some p => negb (GetTeam p =? ALLIANCE)
  | None => match GetPlayerDataByGUID E (GetCounter (ms_guid s)) with Some d => negb (ally_race (uiRace d)) | None => false end
  end.
Definition UpdateCrossfaction (gp : Z) (w : World) : World :=
  deref gp w (fun g =>
    let hordeCount := length (filter (fun s => is_horde w s = true) (m_memberSlots g)) in
    upd_group gp (set_teams (m_groupTeam g)
      (negb (hordeCount =? 0)%nat && negb (hordeCount =? length (m_memberSlots g))%nat)) w).
Definition IsCrossfaction (g : Group) : bool := if isBGGroup g then false else m_isCrossfaction g.

(** The team of the group when a member of [team] joins. *)
Definition join_team (team old : Z) : Z :=
  let t := if ((old =? ALLIANCE) && (team =? HORDE)) || ((old =? HORDE) && (team =? ALLIANCE)) then TEAM_CROSSFACTION else old in
  if t =? TEAM_NONE then team else t.

(** ** New members *)

(** The first subgroup with a free place. *)
Definition free_subgroup (g : Group) : option Z :=
  match m_subGroupsCounts g with
  | None => Some 0
  | Some c => List.find (fun sub => sub_count c sub <? MAX_GROUP_SIZE) (seqZ 0 MAX_RAID_SUBGROUPS)
  end.

(** [_addMember(guid, name, isAssistant, group)] *)
Definition addMember_at (gp : Z) (guid : ObjectGuid) (name : list Z) (isAssistant : bool) (group : Z) (w : World) : bool * World :=
  match w_groups w !! gp with
  | None => (false, undefined w)
  | Some g =>
    if IsFull g || IsEmpty guid then (false, w)
    else
      let w := upd_group gp (set_slots (m_memberSlots g ++ [mkSlot guid name group isAssistant]) (m_subGroupsCounts g)) w in
      let w := SubGroupCounterIncrease gp group w in
      let player := GetPlayer guid w in
      let w := match player with
               | None => w
               | Some p =>
                 let w := match m_groupInvite p with Some invited => RemoveInvite invited guid w | None => w end in
                 let w := upd_player guid (SetGroupInvite None) w in
                 let w := match GetGroup p with
                          | Some _ => if isBGGroup g then SetBattleGroundRaid gp group guid w
                                      else SetOriginalGroup (Some (gp, group)) guid w
                          | None => SetGroup (Some (gp, group)) guid w
                          end in
                 emit (RevalidateInstance guid (m_Id g)) w
               end in
      let bot := match player with Some p => pi_bot (pl_info p) | None => false end in
      let w := if negb (isBGGroup g) && negb bot
               then emit (PExecute (SqlInsertMember (m_Id g) (GetCounter guid) isAssistant group)) w else w in
      (true, w)
  end.

(** [_addMember(guid, name, isAssistant)] *)
Definition addMember (gp : Z) (guid : ObjectGuid) (name : list Z) (isAssistant : bool) (w : World) : bool * World :=
  match w_groups w !! gp with
  | None => (false, undefined w)
  | Some g => match free_subgroup g with Some sub => addMember_at gp guid name isAssistant sub w | None => (false, w) end
  end.

(** The notice that members of both factions are in the group. *)
Definition announce_factions (gp : Z) (guid : ObjectGuid) (w : World) : World :=
  deref gp w (fun g =>
    if isBGGroup g || (GetMembersCount g =? 1) then w
    else
      let was := IsCrossfaction g in
      let w := UpdateCrossfaction gp w in
      let now_mixed := test gp m_isCrossfaction w in
      if negb was && now_mixed then
        emits (omap (fun s => match GetPlayer (ms_guid s) w with
                              | Some p => if GetSession p && bool_decide (GetGroup p = Some gp) then Some (SendSysMessage (pl_guid p)) else None
                              | None => None
                              end) (m_memberSlots g)) w
      else if was then match GetPlayer guid w with Some p => emit (SendSysMessage (pl_guid p)) w | None => w end
      else w).

Definition AddMember (gp : Z) (guid : ObjectGuid) (name : list Z) (joinMethod : Z) (w : World) : bool * World :=
  let '(b, w) := addMember gp guid name false w in
  if negb b then (false, w)
  else
    let w := SendUpdate gp w in
    let w := announce_factions gp guid w in
    let w := match GetPlayer guid w with
             | None => w
             | Some p => deref gp w (fun g =>
               let w := upd_group gp (set_teams (join_team (GetTeam p) (m_groupTeam g)) (m_isCrossfaction g)) w in
               let w := if negb (IsLeader guid g) && negb (isBGGroup g) then emit (PlayerResetInstances guid) w else w in
               let w := upd_player guid (fun p => set_masks (Z.lor (m_groupUpdateMask p) GROUP_UPDATE_FULL) (pi_auras (pl_info p)) p) w in
               let w := emit (PetAuraUpdate guid) w in
               let w := if isRaidGroup g then emit (UpdateForQuestWorldObjects guid) w else w in
               let w := if isInLFG g && negb (joinMethod =? GROUP_LFG)
                        then UpdateGroup E (m_Id g) (SendMeetingstoneSetqueue (m_LFGAreaId g) MEETINGSTONE_STATUS_JOINED_QUEUE guid w)
                        else w in
               emit (RevalidateInstance guid (m_Id g)) w)
             end in
    (true, deref gp w (fun g => emit (ScriptOnAddMember (m_Id g) guid) w)).

(** [Create(guid, name)] *)
Definition Create (gp : Z) (guid : ObjectGuid) (name : list Z) (w : World) : bool * World :=
  match w_groups w !! gp with
  | None => (false, undefined w)
  | Some g =>
    let raid := isBGGroup g in
    let w := upd_group gp (fun g => set_raid raid (m_subGroupsCounts g) (set_leader guid name (now E) g)) w in
    let w := if raid then initRaidSubGroupsCounter gp w else w in
    let w := upd_group gp (set_looting GROUP_LOOT ITEM_QUALITY_UNCOMMON guid) w in
    let w := if isBGGroup g then w
             else
               let '(id, w) := GenerateGroupId w in
               let w := upd_group gp (set_id id) w in
               emits [ConvertInstancesToGroup (pl_guid <$> GetPlayer guid w) id guid;
                      PExecute (SqlDeleteGroup id); PExecute (SqlDeleteMembersOf id);
                      PExecute (SqlInsertGroup id (GetCounter guid) (GetCounter (m_mainTankGuid g)) (GetCounter (m_mainAssistantGuid g))
                                  GROUP_LOOT (GetCounter guid) ITEM_QUALITY_UNCOMMON (m_targetIcons g) raid)] w in
    let '(b, w) := AddMember gp guid name GROUP_JOIN w in
    if negb b then (false, w)
    else
      let w := updateLeaderFlag false gp w in
      (true, deref gp w (fun g => emit (ScriptOnCreate (m_Id g) (m_leaderGuid g)) w))
  end.

Definition ConvertToRaid (gp : Z) (w : World) : World :=
  let w := upd_group gp (fun g => set_raid true (m_subGroupsCounts g) g) w in
  let w := initRaidSubGroupsCounter gp w in
  deref gp w (fun g =>
    let w := if isBGGroup g then w else emit (PExecute (SqlUpdateRaid (m_Id g))) w in
    let w := SendUpdate gp w in
    emits (omap (fun s => (fun p => UpdateForQuestWorldObjects (pl_guid p)) <$> GetPlayer (ms_guid s) w) (m_memberSlots g)) w).

(** ** The end of a membership *)

Definition leave_ref (gp : Z) (bg : bool) (k : ObjectGuid) (p : Player) (w : World) : World :=
  if bg then RemoveFromBattleGroundRaid k w
  else if bool_decide (GetOriginalGroup p = Some gp) then SetOriginalGroup None k w
  else SetGroup None k w.

Definition erase_slot (guid : ObjectGuid) (l : list MemberSlot) : list MemberSlot :=
  match list_find (fun s => ms_guid s = guid) l with Some (i, _) => delete i l | None => l end.

(** [_removeMember]: whether the leader has changed. *)
Definition removeMember (gp : Z) (guid : ObjectGuid) (w : World) : bool * World :=
  match w_groups w !! gp with
  | None => (false, undefined w)
  | Some g =>
    let w := match GetPlayer guid w with Some p => leave_ref gp (isBGGroup g) guid p w | None => w end in
    let w := removeRolls E gp guid w in
    let w := match _getMemberSlot guid g with
             | Some s => upd_group gp (fun g => set_slots (erase_slot guid (m_memberSlots g)) (m_subGroupsCounts g) g)
                           (SubGroupCounterDecrease gp (ms_group s) w)
             | None => w
             end in
    let w := if isBGGroup g then w else emit (PExecute (SqlDeleteMember (GetCounter guid))) w in
    if m_leaderGuid g =? guid then (true, chooseLeader gp false (updateLeaderFlag true gp w)) else (false, w)
  end.

Definition empty_group_list : list field := [FU64 0; FU64 0; FU64 0].

(** The update a player who has left gets. *)
Definition send_own_group (k : ObjectGuid) (w : World) : World :=
  match w_players w !! k with
  | None => undefined w
  | Some p => match GetGroup p with
              | Some other => SendUpdate other w
              | None => emit (SendPacket k SMSG_GROUP_LIST empty_group_list) w
              end
  end.

Definition has_own_group (k : ObjectGuid) (w : World) : bool :=
  match w_players w !! k with Some p => bool_decide (GetGroup p <> None) | None => false end.

(** The loop of [Disband] over the members, with the player who remains. *)
Definition disband_member (gp : Z) (hideDestroy : bool) (initiator : ObjectGuid) (sw : option ObjectGuid * World)
    (s : MemberSlot) : option ObjectGuid * World :=
  let '(remaining, w) := sw in
  match w_groups w !! gp with
  | None => (remaining, undefined w)
  | Some g =>
    match GetPlayer (ms_guid s) w with
    | None => (remaining, w)
    | Some p =>
      let k := ms_guid s in
      let w := leave_ref gp (isBGGroup g) k p w in
      let w := if isRaidGroup g then emit (UpdateForQuestWorldObjects k) w else w in
      if negb (GetSession p) then (remaining, w)
      else
        let w := if hideDestroy then w else emit (SendPacket k SMSG_GROUP_DESTROYED []) w in
        let alone := negb (has_own_group k w) in
        let w := send_own_group k w in
        let w := if alone && isInLFG g
                 then emit (SendPacket k SMSG_MEETINGSTONE_SETQUEUE [FU32 0; FU32 MEETINGSTONE_STATUS_NONE])
                        (RemoveGroupFromQueue (m_Id g) true w)
                 else w in
        if IsEmpty initiator || (initiator =? k) then (remaining, emit (HomebindIfInstance k) w) else (Some k, w)
    end
  end.

Definition Disband (gp : Z) (hideDestroy : bool) (initiator : ObjectGuid) (w : World) : World :=
  deref gp w (fun g0 =>
    let w := emit (ScriptOnDisband (m_Id g0)) w in
    let '(remaining, w) := foldl (disband_member gp hideDestroy initiator) (None, w) (m_memberSlots g0) in
    let w := end_all_rolls E (roll_count gp w) gp w in
    let w := upd_group gp (fun g => set_slots [] (m_subGroupsCounts g) g) w in
    let w := RemoveAllInvites gp w in
    let w := if isBGGroup g0 then w
             else emits [PExecute (SqlDeleteGroup (m_Id g0)); PExecute (SqlDeleteMembersOf (m_Id g0)); ResetInstances (m_Id g0) remaining] w in
    let w := updateLeaderFlag true gp w in
    upd_group gp (fun g => set_leader 0 [] (m_leaderLastOnline g) g) w).

(** [delete group]: the destructor, and the links of the players it cuts. *)
Definition delete_group (gp : Z) (w : World) : World :=
  let w := RemoveAllInvites gp w in
  deref gp w (fun g =>
    let cut w r := upd_player (fst r) (fun p => set_ref (snd r) (mkRef None (iSubGroup (get_ref (snd r) p))) p) w in
    let w := emit (UnbindGroup (m_Id g)) (foldl cut w (m_memberMgr g)) in
    set_groups (delete gp (w_groups w)) (w_nextGroup w) w).

Definition new_group (w : World) : Z * World :=
  (w_nextGroup w, set_groups (<[w_nextGroup w := newGroup]> (w_groups w)) (w_nextGroup w + 1) w).

(** [RemoveMember(guid, removeMethod)]: the members that are left. *)
Definition RemoveMember (gp : Z) (guid : ObjectGuid) (removeMethod : Z) (w : World) : Z * World :=
  match w_groups w !! gp with
  | None => (0, undefined w)
  | Some g =>
    let w :=
      if GetMembersMinCount g <? GetMembersCount g then
        let '(leaderChanged, w) := removeMember gp guid w in
        let w := UpdateCrossfaction gp w in
        let w := match GetPlayer guid w with
                 | None => w
                 | Some p =>
                   let w := if isRaidGroup g then emit (UpdateForQuestWorldObjects guid) w else w in
                   let w := if removeMethod =? GROUP_KICK then
                              let w := emit (SendPacket guid SMSG_GROUP_UNINVITE []) w in
                              if isInLFG g then
                                let w := BroadcastPacket gp SMSG_MEETINGSTONE_SETQUEUE
                                           [FU32 0; FU8 MEETINGSTONE_STATUS_PARTY_MEMBER_REMOVED_PARTY_REMOVED] true (-1) 0 w in
                                let w := RemoveGroupFromQueue (m_Id g) true w in
                                let area := match w_groups w !! gp with Some g => m_LFGAreaId g | None => 0 end in
                                let w := SendMeetingstoneSetqueue area MEETINGSTONE_STATUS_LOOKING_FOR_NEW_PARTY_IN_QUEUE guid w in
                                AddToQueue E guid area w
                              else w
                            else w in
                   let w := if (removeMethod =? GROUP_LEAVE) && test gp isInLFG w then
                              let w := SendMeetingstoneSetqueue 0 MEETINGSTONE_STATUS_NONE guid w in
                              BroadcastPacket gp SMSG_MEETINGSTONE_SETQUEUE
                                [FU32 (m_LFGAreaId g); FU8 MEETINGSTONE_STATUS_PARTY_MEMBER_LEFT_LFG] true (-1) 0 w
                            else w in
                   emit (HomebindIfInstance guid) (send_own_group guid w)
                 end in
        let w := if leaderChanged then
                   deref gp w (fun g => RemoveGroupFromQueue (m_Id g) true
                                          (BroadcastPacket gp SMSG_GROUP_SET_LEADER [FStr (m_leaderName g)] true (-1) 0 w))
                 else w in
        let w := if test gp isInLFG w then UpdateGroup E (m_Id g) w else w in
        emit (ScriptOnRemoveMember (m_Id g) guid removeMethod) (SendUpdate gp w)
      else Disband gp true guid w in
    (members_count gp w, w)
  end.

(** [Player::RemoveFromGroup(group, guid)] *)
Definition RemoveFromGroup (gp : Z) (guid : ObjectGuid) (w : World) : World :=
  let '(n, w) := RemoveMember gp guid 0 w in
  if n <=? 1 then delete_group gp (RemoveGroup gp w) else w.

(** [Player::UninviteFromGroup()] *)
Definition UninviteFromGroup (k : ObjectGuid) (w : World) : World :=
  match w_players w !! k with
  | None => undefined w
  | Some p =>
    match m_groupInvite p with
    | None => w
    | Some gp =>
      let w := RemoveInvite gp k w in
      deref gp w (fun g =>
        if GetMembersCount g <=? 1 then
          delete_group gp (if IsCreated g then RemoveGroup gp (Disband gp true 0 w) else RemoveAllInvites gp w)
        else w)
    end
  end.

(** [Player::CanUninviteFromGroup(uninvitedGuid)] *)
Definition CanUninviteFromGroup (p : Player) (uninvitedGuid : ObjectGuid) (w : World) : Z :=
  match GetGroup p with
  | None => ERR_NOT_IN_GROUP
  | Some gp =>
    if test gp (fun g => m_leaderGuid g =? uninvitedGuid) w then ERR_NOT_LEADER
    else if negb (test gp (IsLeader (pl_guid p)) w) && negb (test gp (IsAssistant (pl_guid p)) w) then ERR_NOT_LEADER
    else if pi_inBattleGround (pl_info p) then ERR_INTERNAL_BATTLEGROUND
    else ERR_PARTY_RESULT_OK
  end.

(** ** Slots of members *)

Definition set_slot (guid : ObjectGuid) (f : MemberSlot -> MemberSlot) (l : list MemberSlot) : list MemberSlot :=
  match list_find (fun s => ms_guid s = guid) l with Some (i, _) => alter f i l | None => l end.
Definition upd_slot (gp : Z) (guid : ObjectGuid) (f : MemberSlot -> MemberSlot) : World -> World :=
  upd_group gp (fun g => set_slots (set_slot guid f (m_memberSlots g)) (m_subGroupsCounts g) g).
Definition slot_group (group : Z) (s : MemberSlot) : MemberSlot := mkSlot (ms_guid s) (ms_name s) group (ms_assistant s).
Definition slot_assistant (b : bool) (s : MemberSlot) : MemberSlot := mkSlot (ms_guid s) (ms_name s) (ms_group s) b.

Definition setMembersGroup (gp : Z) (guid : ObjectGuid) (group : Z) (w : World) : bool * World :=
  match w_groups w !! gp with
  | None => (false, undefined w)
  | Some g =>
    if negb (IsMember guid g) then (false, w)
    else
      let w := SubGroupCounterIncrease gp group (upd_slot gp guid (slot_group group) w) in
      (true, if isBGGroup g then w else emit (PExecute (SqlUpdateSubgroup (GetCounter guid) group)) w)
  end.

Definition swapMembersGroup (gp : Z) (guid swapGuid : ObjectGuid) (w : World) : bool * World :=
  match w_groups w !! gp with
  | None => (false, undefined w)
  | Some g =>
    match _getMemberSlot guid g, _getMemberSlot swapGuid g with
    | Some a, Some b =>
      let w := upd_slot gp guid (slot_group (ms_group b)) (upd_slot gp swapGuid (slot_group (ms_group a)) w) in
      (true, if isBGGroup g then w
             else emits [PExecute (SqlUpdateSubgroup (GetCounter guid) (ms_group b));
                         PExecute (SqlUpdateSubgroup (GetCounter swapGuid) (ms_group a))] w)
    | _, _ => (false, w)
    end
  end.

(** The subgroup in the link of a member who is online. *)
Definition set_member_sub_group (gp : Z) (k : ObjectGuid) (sub : Z) (w : World) : World :=
  match w_players w !! k with
  | Some p => set_sub_group (negb (bool_decide (GetGroup p = Some gp))) sub k w
  | None => w
  end.

(** [ChangeMembersGroup(player, group)] *)
Definition ChangeMembersGroup_player (gp : Z) (k : ObjectGuid) (group : Z) (w : World) : World :=
  deref gp w (fun g =>
    if negb (isRaidGroup g) || (MAX_RAID_SUBGROUPS <=? group) then w
    else
      let prev := GetMemberGroup k g in
      if (prev =? group) || (MAX_RAID_SUBGROUPS <=? prev) then w
      else if match m_subGroupsCounts g with Some c => MAX_GROUP_SIZE <=? sub_count c group | None => false end then w
      else
        let '(b, w) := setMembersGroup gp k group w in
        if negb b then w
        else match w_players w !! k with
        | None => undefined w
        | Some p =>
          let prev := if bool_decide (GetGroup p = Some gp) then prev else GetOriginalSubGroup p in
          SendUpdate gp (SubGroupCounterDecrease gp prev (set_member_sub_group gp k group w))
        end).

(** [ChangeMembersGroup(guid, group)] *)
Definition ChangeMembersGroup (gp : Z) (guid : ObjectGuid) (group : Z) (w : World) : World :=
  deref gp w (fun g =>
    if negb (isRaidGroup g) || (MAX_RAID_SUBGROUPS <=? group) then w
    else if match m_subGroupsCounts g with Some c => MAX_GROUP_SIZE <=? sub_count c group | None => false end then w
    else match GetPlayer guid w with
    | Some p => ChangeMembersGroup_player gp (pl_guid p) group w
    | None =>
      let prev := GetMemberGroup guid g in
      if prev =? group then w
      else
        let '(b, w) := setMembersGroup gp guid group w in
        if b then SendUpdate gp (SubGroupCounterDecrease gp prev w) else w
    end).

(** [SwapMembersGroup]: both overloads, one of the players may be offline. *)
Definition SwapMembersGroup (gp : Z) (guid swapGuid : ObjectGuid) (w : World) : World :=
  deref gp w (fun g =>
    if negb (isRaidGroup g) then w
    else
      let group := GetMemberGroup guid g in
      let swapGroup := GetMemberGroup swapGuid g in
      if (group =? swapGroup) || (MAX_RAID_SUBGROUPS <=? group) || (MAX_RAID_SUBGROUPS <=? swapGroup) then w
      else
        let '(b, w) := swapMembersGroup gp guid swapGuid w in
        if negb b then w
        else
          let upd k sub w := match GetPlayer k w with Some _ => set_member_sub_group gp k sub w | None => w end in
          SendUpdate gp (upd swapGuid group (upd guid swapGroup w))).

Definition setAssistantFlag (gp : Z) (guid : ObjectGuid) (state : bool) (w : World) : bool * World :=
  match w_groups w !! gp with
  | None => (false, undefined w)
  | Some g =>
    if negb (IsMember guid g) then (false, w)
    else
      let w := upd_slot gp guid (slot_assistant state) w in
      (true, if isBGGroup g then w else emit (PExecute (SqlUpdateAssistant (GetCounter guid) state)) w)
  end.
Definition SetAssistant (gp : Z) (guid : ObjectGuid) (state : bool) (w : World) : World :=
  deref gp w (fun g =>
    if negb (isRaidGroup g) then w
    else let '(b, w) := setAssistantFlag gp guid state w in if b then SendUpdate gp w else w).

(** [_setMainTank] and [_setMainAssistant]: one takes the other's place away. *)
Definition save_main_tank (g : Group) (guid : ObjectGuid) (w : World) : World :=
  if isBGGroup g then w else emit (PExecute (SqlUpdateMainTank (m_Id g) (GetCounter guid))) w.
Definition save_main_assistant (g : Group) (guid : ObjectGuid) (w : World) : World :=
  if isBGGroup g then w else emit (PExecute (SqlUpdateMainAssistant (m_Id g) (GetCounter guid))) w.

Definition SetMainTank (gp : Z) (guid : ObjectGuid) (w : World) : World :=
  deref gp w (fun g =>
    if negb (isRaidGroup g) || (m_mainTankGuid g =? guid) || (negb (IsEmpty guid) && negb (IsMember guid g)) then w
    else
      let w := if negb (IsEmpty guid) && (m_mainAssistantGuid g =? guid)
               then save_main_assistant g 0 (upd_group gp (fun g => set_main (m_mainTankGuid g) 0 g) w) else w in
      SendUpdate gp (save_main_tank g guid (upd_group gp (fun g => set_main guid (m_mainAssistantGuid g) g) w))).

Definition SetMainAssistant (gp : Z) (guid : ObjectGuid) (w : World) : World :=
  deref gp w (fun g =>
    if negb (isRaidGroup g) || (m_mainAssistantGuid g =? guid) || (negb (IsEmpty guid) && negb (IsMember guid g)) then w
    else
      let w := if negb (IsEmpty guid) && (m_mainTankGuid g =? guid)
               then save_main_tank g 0 (upd_group gp (fun g => set_main 0 (m_mainAssistantGuid g) g) w) else w in
      SendUpdate gp (save_main_assistant g guid (upd_group gp (fun g => set_main (m_mainTankGuid g) guid g) w))).

(** ** Hardcore characters *)

Definition member_accepts (invitee : Player) (w : World) (s : MemberSlot) : bool :=
  match GetPlayer (ms_guid s) w with
  | Some member => PlayerHardcoreAllowed member invitee
  | None =>
    let d := GetPlayerDataByGUID E (GetCounter (ms_guid s)) in
    let status := match d with Some d => u8 (uiHardcoreStatus d) | None => 0 end in
    let level := match d with Some d => u8 (uiLevel d) | None => 0 end in
    if hardcore_status status then IsHardcore invitee && (Z.abs (pi_level (pl_info invitee) - level) <=? 5)
    else negb (IsHardcore invitee)
  end.
Definition HandleHardcoreInteraction (gp : Z) (invitee : Player) (w : World) : bool :=
  test gp (fun g => forallb (member_accepts invitee w) (m_memberSlots g)) w.

(** The part of [Player::SetupHardcoreMode] that leaves the group. *)
Definition leave_for_hardcore (k : ObjectGuid) (w : World) : World :=
  match w_players w !! k with
  | None => undefined w
  | Some p => match GetGroup p with
              | Some gp => snd (RemoveMember gp k GROUP_LEAVE (RemoveAllInvites gp w))
              | None => w
              end
  end.
End Group.
