(* ===== verification/GroupHandlers.v ===== *)
(** * GroupHandlers: packets, sessions, the update of the queue and loading

    The handlers of src/src/game/Handlers/GroupHandler.cpp and LFGHandler.cpp,
    [LFGQueue::Update], what a login and a logout do to groups, and
    [ObjectMgr::LoadGroups]. [k] is the player of the session. *)
From S2P Require Import Prelude ByteBuffer ObjectGuid GroupData GroupPackets GroupLoot MeetingStone Group.

Section Handlers.
Context `{HashIter}.
Context (E : Env).

Definition with_player (k : ObjectGuid) (w : World) (f : Player -> World) : World :=
  match w_players w !! k with Some p => f p | None => undefined w end.
(** [GetPlayer()->GetGroup()], with nothing done when there is none. *)
Definition with_group (p : Player) (w : World) (f : Z -> Group -> World) : World :=
  match GetGroup p with Some gp => deref gp w (f gp) | None => w end.

Definition SendPartyResult (operation : Z) (member : list Z) (res : Z) (k : ObjectGuid) : World -> World :=
  emit (SendPacket k SMSG_PARTY_COMMAND_RESULT [FU32 operation; FStr member; FU32 res]).

(** ** Invitations *)

(** The checks of an invitation before the groups are looked at: the answer, if any. *)
Definition invite_refused (p player : Player) : option (option Z) :=
  let i := pl_info p in
  let j := pl_info player in
  if negb (PlayerHardcoreAllowed p player) then Some (Some ERR_BAD_PLAYER_NAME_S)
  else if negb (cfg_ALLOW_TWO_SIDE_INTERACTION_GROUP E) && negb (pi_team i =? pi_team j) then Some (Some ERR_PLAYER_WRONG_FACTION)
  else if (1 <? pi_mapId i) && negb (pi_instanceId i =? 0) && negb (pi_instanceId j =? 0)
          && negb (pi_instanceId i =? pi_instanceId j) && (pi_mapId i =? pi_mapId j) then Some None
  else if bool_decide (pl_guid p ∈ pi_ignores j) then Some (Some ERR_IGNORING_YOU_S)
  else None.

Definition HandleGroupInviteOpcode (k : ObjectGuid) (membername : list Z) (w : World) : World :=
  with_player k w (fun p =>
    match normalizePlayerName E membername with
    | None => SendPartyResult PARTY_OP_INVITE membername ERR_BAD_PLAYER_NAME_S k w
    | Some name =>
      match GetPlayer_name E name w with
      | None => SendPartyResult PARTY_OP_INVITE name ERR_BAD_PLAYER_NAME_S k w
      | Some player =>
        match invite_refused p player with
        | Some (Some err) =>
          let w := SendPartyResult PARTY_OP_INVITE name err k w in
          if negb (PlayerHardcoreAllowed p player) then emit (Notification k) w else w
        | Some None => w
        | None =>
          let invited := pl_guid player in
          let answer w := SendPartyResult PARTY_OP_INVITE name ERR_PARTY_RESULT_OK k
                            (emit (SendPacket invited SMSG_GROUP_INVITE [FStr (GetName p)]) w) in
          if bool_decide (own_group player w <> None) || bool_decide (m_groupInvite player <> None)
          then SendPartyResult PARTY_OP_INVITE name ERR_ALREADY_IN_GROUP_S k w
          else match own_group p w with
          | Some gp => deref gp w (fun g =>
              if negb (IsLeader k g) && negb (IsAssistant k g) then SendPartyResult PARTY_OP_INVITE [] ERR_NOT_LEADER k w
              else if IsFull g then SendPartyResult PARTY_OP_INVITE [] ERR_GROUP_FULL k w
              else if negb (HandleHardcoreInteraction E gp player w)
              then emit (Notification k) (SendPartyResult PARTY_OP_INVITE name ERR_BAD_PLAYER_NAME_S k w)
              else let '(b, w) := AddInvite gp invited w in if b then answer w else w)
          | None =>
            let '(gp, w) := new_group w in
            let '(b, w) := AddLeaderInvite gp k w in
            if negb b then delete_group gp w
            else
              let '(b, w) := AddInvite gp invited w in
              if b then answer w else delete_group gp w
          end
        end
      end
    end).

Definition HandleGroupAcceptOpcode (k : ObjectGuid) (w : World) : World :=
  with_player k w (fun p =>
    match m_groupInvite p with
    | None => w
    | Some gp => deref gp w (fun g =>
      if m_leaderGuid g =? k then w
      else if negb (CanMemberAccept E gp k) then w
      else
        let w := RemoveInvite gp k w in
        if IsFull g then SendPartyResult PARTY_OP_INVITE [] ERR_GROUP_FULL k w
        else if negb (HandleHardcoreInteraction E gp p w) then emit (Notification k) w
        else
          let '(ok, w) :=
            if IsCreated g then (true, w)
            else
              let w := match GetPlayer (m_leaderGuid g) w with Some l => RemoveInvite gp (pl_guid l) w | None => w end in
              let '(b, w) := Create E gp (m_leaderGuid g) (m_leaderName g) w in
              if b then (true, AddGroup gp w) else (false, w) in
          if negb ok then w
          else
            let '(b, w) := AddMember E gp k (GetName p) GROUP_JOIN w in
            if b then BroadcastGroupUpdate gp w else w)
    end).

Definition HandleGroupDeclineOpcode (k : ObjectGuid) (w : World) : World :=
  with_player k w (fun p =>
    match m_groupInvite p with
    | None => w
    | Some gp => deref gp w (fun g =>
      let leader := GetPlayer (m_leaderGuid g) w in
      let w := UninviteFromGroup E k w in
      match leader with
      | Some l => if GetSession l then emit (SendPacket (pl_guid l) SMSG_GROUP_DECLINE [FStr (GetName p)]) w else w
      | None => w
      end)
    end).

Definition HandleGroupUninviteGuidOpcode (k guid : ObjectGuid) (w : World) : World :=
  with_player k w (fun p =>
    if guid =? k then w
    else
      let res := CanUninviteFromGroup p guid w in
      if negb (res =? ERR_PARTY_RESULT_OK) then SendPartyResult PARTY_OP_LEAVE [] res k w
      else with_group p w (fun gp g =>
        if IsMember guid g then RemoveFromGroup E gp guid w
        else match GetInvited_guid guid g with
        | Some plr => UninviteFromGroup E plr w
        | None => SendPartyResult PARTY_OP_LEAVE [] ERR_TARGET_NOT_IN_GROUP_S k w
        end)).

Definition HandleGroupUninviteOpcode (k : ObjectGuid) (membername : list Z) (w : World) : World :=
  with_player k w (fun p =>
    match normalizePlayerName E membername with
    | None => w
    | Some name =>
      if bool_decide (GetName p = name) then w
      else with_group p w (fun gp g =>
        let checked guid f :=
          let res := CanUninviteFromGroup p guid w in
          if negb (res =? ERR_PARTY_RESULT_OK) then SendPartyResult PARTY_OP_LEAVE [] res k w else f in
        let guid := GetMemberGuid name g in
        if negb (IsEmpty guid) then checked guid (RemoveFromGroup E gp guid w)
        else match GetInvited_name name g w with
        | Some plr => checked plr (UninviteFromGroup E plr w)
        | None => SendPartyResult PARTY_OP_LEAVE name ERR_TARGET_NOT_IN_GROUP_S k w
        end)
    end).

(** ** Leaders and members *)

Definition HandleGroupSetLeaderOpcode (k guid : ObjectGuid) (w : World) : World :=
  with_player k w (fun p => with_group p w (fun gp g =>
    match GetPlayer guid w with
    | Some player =>
      if negb (IsLeader k g) || negb (bool_decide (GetGroup player = Some gp)) then w else ChangeLeader E gp guid w
    | None => w
    end)).

Definition HandleGroupDisbandOpcode (k : ObjectGuid) (w : World) : World :=
  with_player k w (fun p => with_group p w (fun gp _ =>
    if pi_inBattleGround (pl_info p) then w
    else
      let w := SendPartyResult PARTY_OP_LEAVE (GetName p) ERR_PARTY_RESULT_OK k w in
      RemoveFromGroup E gp k (BroadcastGroupUpdate gp w))).

Definition HandleLootMethodOpcode (k : ObjectGuid) (lootMethod : Z) (lootMaster : ObjectGuid) (lootThreshold : Z) (w : World) : World :=
  with_player k w (fun p =>
    if 4 <? lootMethod then w
    else if (lootThreshold <? ITEM_QUALITY_NORMAL) || (ITEM_QUALITY_LEGENDARY <? lootThreshold) then w
    else
      let group := match GetGroup p with
                   | Some gp => if test_group gp w isBGGroup then GetOriginalGroup p else Some gp
                   | None => GetOriginalGroup p
                   end in
      match group with
      | None => w
      | Some gp => deref gp w (fun g =>
        if negb (IsLeader k g) then w
        else SendUpdate gp (upd_group gp (set_looting lootMethod lootThreshold lootMaster) w))
      end).

Definition HandleLootRoll (k : ObjectGuid) (lootedTarget : ObjectGuid) (slot rollType : Z) (w : World) : World :=
  with_player k w (fun p => with_group p w (fun gp _ =>
    if MAX_ROLL_FROM_CLIENT <=? rollType then w
    else snd (CountRollVote E gp k lootedTarget slot (RollVote_of rollType) w))).

Definition HandleMinimapPingOpcode (k : ObjectGuid) (x y : Z) (w : World) : World :=
  with_player k w (fun p => with_group p w (fun gp _ =>
    BroadcastPacket gp MSG_MINIMAP_PING [FU64 k; FU32 x; FU32 y] true (-1) k w)).

Definition HandleRandomRollOpcode (k : ObjectGuid) (minimum maximum : Z) (w : World) : World :=
  with_player k w (fun p =>
    if (maximum <? minimum) || (10000 <? maximum) then w
    else
      let data := [FU32 minimum; FU32 maximum; FU32 (urand E (w_draws w) minimum maximum); FU64 k] in
      match GetGroup p with
      | Some gp => BroadcastPacket gp MSG_RANDOM_ROLL data false (-1) 0 (draw w)
      | None => emit (SendPacket k MSG_RANDOM_ROLL data) (draw w)
      end).

Definition is_officer (k : ObjectGuid) (g : Group) : bool := IsLeader k g || IsAssistant k g.

Definition HandleRaidTargetUpdateOpcode (k : ObjectGuid) (x : Z) (guid : ObjectGuid) (w : World) : World :=
  with_player k w (fun p =>
    match (match GetGroup p with Some gp => Some gp | None => GetOriginalGroup p end) with
    | None => w
    | Some gp =>
      if x =? 0xFF then SendTargetIconList gp k w
      else deref gp w (fun g => if negb (is_officer k g) then w else SetTargetIcon gp x guid w)
    end).

Definition HandleGroupRaidConvertOpcode (k : ObjectGuid) (w : World) : World :=
  with_player k w (fun p => with_group p w (fun gp g =>
    if pi_inBattleGround (pl_info p) then w
    else if negb (IsLeader k g) || (GetMembersCount g <? GetMembersMinCount g) then w
    else ConvertToRaid gp (SendPartyResult PARTY_OP_INVITE [] ERR_PARTY_RESULT_OK k w))).

Definition HandleGroupChangeSubGroupOpcode (k : ObjectGuid) (name : list Z) (groupNr : Z) (w : World) : World :=
  with_player k w (fun p =>
    if MAX_RAID_SUBGROUPS <=? groupNr then w
    else with_group p w (fun gp g =>
      if negb (is_officer k g) then w
      else if negb (HasFreeSlotSubGroup groupNr g) then w
      else match GetPlayer_name E name w with
      | Some player => ChangeMembersGroup_player gp (pl_guid player) groupNr w
      | None =>
        let guid := GetPlayerGuidByName E name in
        if IsEmpty guid then w else ChangeMembersGroup gp guid groupNr w
      end)).

Definition HandleGroupSwapSubGroupOpcode (k : ObjectGuid) (name nameSwapWith : list Z) (w : World) : World :=
  with_player k w (fun p => with_group p w (fun gp g =>
    if negb (is_officer k g) then w
    else match GetPlayer_name E name w, GetPlayer_name E nameSwapWith w with
    | Some player, Some swapPlayer => SwapMembersGroup gp (pl_guid player) (pl_guid swapPlayer) w
    | _, _ =>
      let swapGuid := GetPlayerGuidByName E name in
      let swapWithGuid := GetPlayerGuidByName E nameSwapWith in
      if IsEmpty swapGuid || IsEmpty swapWithGuid then w else SwapMembersGroup gp swapGuid swapWithGuid w
    end)).

Definition HandleGroupAssistantLeaderOpcode (k guid : ObjectGuid) (flag : Z) (w : World) : World :=
  with_player k w (fun p => with_group p w (fun gp g =>
    if negb (IsLeader k g) then w else SetAssistant gp guid (negb (flag =? 0)) w)).

(** A request, or the [state] a member answers with. *)
Definition HandleRaidReadyCheckOpcode (k : ObjectGuid) (answer : option Z) (w : World) : World :=
  with_player k w (fun p => with_group p w (fun gp g =>
    match answer with
    | None => if negb (is_officer k g) then w else BroadcastPacket gp MSG_RAID_READY_CHECK [] false (-1) 0 w
    | Some state =>
      match GetPlayer (m_leaderGuid g) w with
      | Some l => emit (SendPacket (pl_guid l) MSG_RAID_READY_CHECK [FU64 k; FU8 state]) w
      | None => w
      end
    end)).

(** ** Meeting stones *)

Definition HandleMeetingStoneJoinOpcode (k guid : ObjectGuid) (w : World) : World :=
  with_player k w (fun p =>
    match MeetingStoneArea E p guid with
    | None => w
    | Some area =>
      match GetGroup p with
      | Some gp => deref gp w (fun g =>
        if negb (IsLeader k g) then SendMeetingstoneFailed MEETINGSTONE_FAIL_PARTYLEADER k w
        else if isRaidGroup g then SendMeetingstoneFailed MEETINGSTONE_FAIL_RAID_GROUP k w
        else if IsFull g then SendMeetingstoneFailed MEETINGSTONE_FAIL_FULL_GROUP k w
        else AddToQueue E k area w)
      | None => AddToQueue E k area w
      end
    end).

Definition HandleMeetingStoneLeaveOpcode (k : ObjectGuid) (w : World) : World :=
  with_player k w (fun p =>
    match GetGroup p with
    | Some gp => deref gp w (fun g =>
      if IsLeader k g && isInLFG g then RemoveGroupFromQueue (m_Id g) true w
      else SendMeetingstoneSetqueue 0 MEETINGSTONE_STATUS_NONE k w)
    | None => RemovePlayerFromQueue k true w
    end).

Definition HandleMeetingStoneInfoOpcode (k : ObjectGuid) (w : World) : World :=
  with_player k w (fun p =>
    match GetGroup p with
    | Some gp => deref gp w (fun g =>
      if isInLFG g then SendMeetingstoneSetqueue (m_LFGAreaId g) MEETINGSTONE_STATUS_JOINED_QUEUE k w
      else SendMeetingstoneSetqueue 0 MEETINGSTONE_STATUS_NONE k w)
    | None => RestoreOfflinePlayer k w
    end).

(** ** The update of the queue *)

Definition queue_tick (diff : Z) (w : World) (kq : ObjectGuid * LFGPlayerQueueInfo) : World :=
  let '(k, q) := kq in
  match GetPlayer k w with
  | None => set_queues (delete k (m_QueuedPlayers w)) (<[k := q]> (m_OfflinePlayers w)) (m_QueuedGroups w) w
  | Some _ =>
    let t := u32 (qp_timeInLFG q + diff) in
    let q := mkQueuedPlayer (qp_roleMask q) (qp_team q) (qp_areaId q) t
               (qp_hasQueuePriority q || (30 * MINUTE * IN_MILLISECONDS <=? t)) (qp_isHardcore q) (qp_name q) (qp_rolePriority q) in
    set_queued_players (<[k := q]> (m_QueuedPlayers w)) w
  end.

(** Another player of the queue comes first. The priorities of the classes are
    truncated to [bool]. *)
Definition is_ahead (k : ObjectGuid) (q : LFGPlayerQueueInfo) (role : Z) (other : ObjectGuid * LFGPlayerQueueInfo) : bool :=
  let '(j, o) := other in
  negb (k =? j) && (qp_areaId q =? qp_areaId o) && (qp_team q =? qp_team o) && (Z.land (qp_roleMask o) role =? role)
  && (let classPriority := negb (GetRolePriority role q =? 0) in
      let otherClassPriority := negb (GetRolePriority role o =? 0) in
      let otherLongerInQueue := qp_timeInLFG q <? qp_timeInLFG o in
      (otherClassPriority && negb classPriority) || (qp_hasQueuePriority o && otherLongerInQueue)
      || (negb (qp_hasQueuePriority q) && otherLongerInQueue)).

Definition FindRoleToGroup (k : ObjectGuid) (gp : Z) (role : Z) (w : World) : bool * World :=
  match w_groups w !! gp with
  | None => (false, undefined w)
  | Some g =>
    match m_QueuedGroups w !! m_Id g, m_QueuedPlayers w !! k with
    | Some qg, Some qp =>
      if existsb (is_ahead k qp role) (map_iter (m_QueuedPlayers w)) then (false, w)
      else
        let '(roles, dps) := take_role role (qg_availableRoles qg) (qg_dpsCount qg) in
        let qg := mkQueuedGroup roles dps (qg_team qg) (qg_areaId qg) (qg_isHardcore qg) (qg_groupTimer qg) in
        let w := set_queued_groups (<[m_Id g := qg]> (m_QueuedGroups w)) w in
        let w := BroadcastPacket gp SMSG_MEETINGSTONE_MEMBER_ADDED [FU64 k] true (-1) 0 w in
        let '(_, w) := AddMember E gp k (qp_name qp) GROUP_LFG w in
        (true, RemovePlayerFromQueue k false w)
    | _, _ => (false, w)
    end
  end.

(** The roles are tried in the order of [PotentialRoles]. *)
Fixpoint find_role (k : ObjectGuid) (gp id : Z) (rs : list Z) (w : World) : bool * World :=
  match rs with
  | [] => (false, w)
  | role :: rs =>
    match m_QueuedPlayers w !! k, m_QueuedGroups w !! id with
    | Some qp, Some qg =>
      if has_role (qp_roleMask qp) role && (Z.land role (qg_availableRoles qg) =? role) then
        let '(b, w) := FindRoleToGroup k gp role w in
        if b then (true, w) else find_role k gp id rs w
      else find_role k gp id rs w
    | _, _ => (false, w)
    end
  end.

Definition suits (qp : LFGPlayerQueueInfo) (qg : LFGGroupQueueInfo) : bool :=
  (qp_team qp =? qg_team qg) && (qp_areaId qp =? qg_areaId qg) && eqb (qp_isHardcore qp) (qg_isHardcore qg).

Fixpoint fill_group (gp id : Z) (ks : list ObjectGuid) (w : World) : World :=
  match ks with
  | [] => w
  | k :: ks =>
    match m_QueuedPlayers w !! k, m_QueuedGroups w !! id with
    | Some qp, Some qg =>
      if suits qp qg then
        let '(b, w) := find_role k gp id PotentialRoles w in
        if b && test_group gp w IsFull then w else fill_group gp id ks w
      else fill_group gp id ks w
    | _, _ => fill_group gp id ks w
    end
  end.

Definition group_tick (diff : Z) (gp id : Z) (w : World) : World :=
  match m_QueuedGroups w !! id with
  | None => w
  | Some qg =>
    let set t := mkQueuedGroup (qg_availableRoles qg) (qg_dpsCount qg) (qg_team qg) (qg_areaId qg) (qg_isHardcore qg) t in
    if qg_groupTimer qg <=? diff then
      set_queued_groups (<[id := set groupTimer_start]> (m_QueuedGroups w))
        (BroadcastPacket gp SMSG_MEETINGSTONE_IN_PROGRESS [] true (-1) 0 w)
    else set_queued_groups (<[id := set (qg_groupTimer qg - diff)]> (m_QueuedGroups w)) w
  end.

(** The loop over the queued groups; a full one ends it. *)
Fixpoint fill_groups (diff : Z) (ids : list Z) (w : World) : World :=
  match ids with
  | [] => w
  | id :: ids =>
    match GetGroupById id w with
    | None => fill_groups diff ids (set_queued_groups (delete id (m_QueuedGroups w)) w)
    | Some gp =>
      if test_group gp w IsFull then RemoveGroupFromQueue id false w
      else
        let w := fill_group gp id (fst <$> map_iter (m_QueuedPlayers w)) w in
        if test_group gp w IsFull then RemoveGroupFromQueue id false w
        else fill_groups diff ids (group_tick diff gp id w)
    end
  end.

Definition FindInArea (area team : Z) (exclude : ObjectGuid) (w : World) : list ObjectGuid :=
  fst <$> filter (fun kq => fst kq <> exclude /\ qp_areaId (snd kq) = area /\ qp_team (snd kq) = team) (map_iter (m_QueuedPlayers w)).

(** A new group of the first player of the queue and the next for the same area. *)
Definition form_group (w : World) : World :=
  match map_iter (m_QueuedPlayers w) with
  | [] => w
  | (leader, q) :: _ =>
    let playersInArea := FindInArea (qp_areaId q) (qp_team q) leader w in
    match playersInArea with
    | [] => w
    | front :: _ =>
      if (length playersInArea <? 4)%nat then w
      else match GetPlayer leader w, GetPlayer front w with
      | Some pLeader, Some pMember =>
        let '(gp, w) := new_group w in
        let '(b, w) := Create E gp leader (GetName pLeader) w in
        if negb b then w
        else
          let w := AddGroup gp w in
          let w := emit (SendPacket leader SMSG_MEETINGSTONE_MEMBER_ADDED [FU64 front]) w in
          let '(_, w) := AddMember E gp front (GetName pMember) GROUP_LFG w in
          let w := AddToQueue E leader (qp_areaId q) w in
          RemovePlayerFromQueue front false (RemovePlayerFromQueue leader false w)
      | _, _ => w
      end
    end
  end.

Definition LFG_Update (diff : Z) (w : World) : World :=
  if bool_decide (m_QueuedGroups w = ∅) && bool_decide (m_QueuedPlayers w = ∅) then w
  else
    let w := foldl (queue_tick diff) w (map_iter (m_QueuedPlayers w)) in
    let w := fill_groups diff (fst <$> map_iter (m_QueuedGroups w)) w in
    if (5 <=? base.size (m_QueuedPlayers w))%nat then form_group w else w.

(** ** Login and logout *)

(** [_LoadGroup], with the group of the row of [group_member]. *)
Definition LoadGroup (k : ObjectGuid) (row : option Z) (w : World) : World :=
  let w := match row with
           | Some groupId =>
             match GetGroupById groupId w with
             | Some gp => deref gp w (fun g => SetGroup (Some (gp, GetMemberGroup k g)) k w)
             | None => w
             end
           | None => w
           end in
  UpdateGroupLeaderFlag false k w.

(** A character comes online: the object, its group, and the notice to the members. *)
Definition Login (k : ObjectGuid) (info : PlayerInfo) (row : option Z) (w : World) : World :=
  let w := set_players (<[k := mkPlayer k true info [] (mkRef None 0) (mkRef None 0) None false 0 0]> (w_players w)) w in
  let w := LoadGroup k row w in
  with_player k w (fun p => match GetGroup p with Some gp => UpdatePlayerOnlineStatus E gp k true w | None => w end).

(** The members a character who logs out takes along: those offline and those driven by the server. *)
Definition machine_driven (k : ObjectGuid) (w : World) (g : Group) : list ObjectGuid :=
  omap (fun s => if ms_guid s =? k then None
                 else match GetPlayer (ms_guid s) w with
                      | Some p => if IsMachineDriven E p then Some (ms_guid s) else None
                      | None => Some (ms_guid s)
                      end) (m_memberSlots g).

Definition evict (k : ObjectGuid) (w : World) (guid : ObjectGuid) : World :=
  with_player k w (fun p => match GetGroup p with Some gp => RemoveFromGroup E gp guid w | None => w end).

(** The part of [LogoutPlayer] about groups; [socket] when the client asked to log out. *)
Definition LogoutPlayer (k : ObjectGuid) (socket : bool) (w : World) : World :=
  let w := UninviteFromGroup E k w in
  let w := with_player k w (fun p =>
             match GetGroup p with
             | Some gp => deref gp w (fun g =>
               if negb (isRaidGroup g) && socket then
                 let w := foldl (evict k) w (machine_driven k w g) in evict k w k
               else w)
             | None => w
             end) in
  let w := with_player k w (fun p =>
             match GetGroup p with Some gp => UpdatePlayerOnlineStatus E gp k false w | None => w end) in
  let w := unlink true k (unlink false k w) in
  set_players (delete k (w_players w)) w.

(** [World::Update]: the groups whose leader is away. *)
Definition UpdateOfflineLeaders (time delay : Z) (w : World) : World :=
  if delay =? 0 then w
  else foldl (fun w kv => UpdateOfflineLeader E (snd kv) time delay w) w (hash_iter (m_GroupMap w)).

(** ** Loading *)

Record GroupRow := mkGroupRow {
  gr_mainTank : Z; gr_mainAssistant : Z; gr_lootMethod : Z; gr_looterGuid : Z; gr_lootThreshold : Z; gr_icons : list Z;
  gr_isRaid : bool; gr_leaderGuid : Z; gr_groupId : Z
}.
Record MemberRow := mkMemberRow { mr_memberGuid : Z; mr_assistant : bool; mr_subgroup : Z; mr_groupId : Z }.

Definition LoadGroupFromDB (gp : Z) (r : GroupRow) (w : World) : bool * World :=
  let guid := ObjectGuid_low HIGHGUID_PLAYER in
  let w := upd_group gp (fun g => set_leader (guid (gr_leaderGuid r)) (m_leaderName g) (m_leaderLastOnline g) (set_id (gr_groupId r) g)) w in
  match GetPlayerDataByGUID E (GetCounter (guid (gr_leaderGuid r))) with
  | None => (false, w)
  | Some d =>
    let w := upd_group gp (fun g => set_raid (gr_isRaid r) (m_subGroupsCounts g) (set_leader (m_leaderGuid g) (sName d) (now E) g)) w in
    let w := if gr_isRaid r then initRaidSubGroupsCounter gp w else w in
    (true, upd_group gp (fun g => set_main (guid (gr_mainTank r)) (guid (gr_mainAssistant r))
             (set_looting (u8 (gr_lootMethod r)) (u16 (gr_lootThreshold r)) (guid (gr_looterGuid r)) (set_icons (gr_icons r) g))) w)
  end.

Definition LoadMemberFromDB (gp : Z) (r : MemberRow) (w : World) : bool * World :=
  match GetPlayerDataByGUID E (mr_memberGuid r) with
  | None => (false, w)
  | Some d =>
    let m := mkSlot (ObjectGuid_low HIGHGUID_PLAYER (mr_memberGuid r)) (sName d) (mr_subgroup r) (mr_assistant r) in
    let w := upd_group gp (fun g => set_slots (m_memberSlots g ++ [m]) (m_subGroupsCounts g) g) w in
    let w := SubGroupCounterIncrease gp (mr_subgroup r) w in
    (true, upd_group gp (fun g => set_teams (join_team (uiTeam d) (m_groupTeam g)) (m_isCrossfaction g) g) w)
  end.

Definition load_group (w : World) (r : GroupRow) : World :=
  let '(gp, w) := new_group w in
  let '(b, w) := LoadGroupFromDB gp r w in
  if b then AddGroup gp w else delete_group gp (Disband E gp false 0 w).

Definition load_member (w : World) (r : MemberRow) : World :=
  match GetGroupById (mr_groupId r) w with
  | None => emit (PExecute (SqlDeleteMember (mr_memberGuid r))) w
  | Some gp =>
    let '(b, w) := LoadMemberFromDB gp r w in
    if b then w else emit (PExecute (SqlDeleteMember (mr_memberGuid r))) w
  end.

(** Groups too small or too large are disbanded and erased from the map. *)
Definition clean_group (w : World) (kv : Z * Z) : World :=
  let '(id, gp) := kv in
  deref gp w (fun g =>
    if (GetMembersCount g <? 2) || (40 <? GetMembersCount g) then
      let w := delete_group gp (Disband E gp false 0 w) in
      set_group_map (delete id (m_GroupMap w)) (m_GroupIds w) w
    else w).

Definition LoadGroups (groups : list GroupRow) (members : list MemberRow) (w : World) : World :=
  match groups with
  | [] => w
  | _ =>
    let w := foldl load_group w groups in
    let w := foldl load_member w members in
    foldl clean_group w (hash_iter (m_GroupMap w))
  end.
End Handlers.
