(* ===== verification/GroupCore.v ===== *)
(** * GroupCore: who is in which group

    [core] is the part of a world the soundness of groups is about: links,
    slots, invitations, counters, leaders and the map of groups. Most of the
    code does not change it: [quiet] says so of a step, and that a step starts
    no roll and leaves the size of every loot alone. *)
From S2P Require Import Prelude ByteBuffer ObjectGuid GroupData GroupPackets GroupLoot MeetingStone Group GroupHandlers.

(** ** Views *)

Record PView := mkPV {
  pv_guid : ObjectGuid; pv_inWorld : bool; pv_group : option Z; pv_sub : Z; pv_orig : option Z; pv_invite : option Z
}.
Record GView := mkGV {
  gv_id : Z; gv_slots : list MemberSlot; gv_mgr : list (ObjectGuid * bool); gv_inv : gset ObjectGuid;
  gv_leader : ObjectGuid; gv_raid : bool; gv_bg : option Z; gv_counts : option (list Z)
}.
Record Core := mkCore {
  c_players : gmap ObjectGuid PView; c_groups : gmap Z GView; c_next : Z; c_map : gmap Z Z; c_ids : Z; c_ub : bool
}.

Definition pview (p : Player) : PView :=
  mkPV (pl_guid p) (pl_inWorld p) (GetGroup p) (GetSubGroup p) (GetOriginalGroup p) (m_groupInvite p).
Definition gview (g : Group) : GView :=
  mkGV (m_Id g) (m_memberSlots g) (m_memberMgr g) (m_invitees g) (m_leaderGuid g) (isRaidGroup g) (m_bgGroup g) (m_subGroupsCounts g).
Definition core (w : World) : Core :=
  mkCore (pview <$> w_players w) (gview <$> w_groups w) (w_nextGroup w) (m_GroupMap w) (m_GroupIds w) (w_ub w).

Definition live (gp : Z) (w : World) : Prop := is_Some (w_groups w !! gp).
Definition online (k : ObjectGuid) (w : World) : Prop := is_Some (w_players w !! k).

Lemma live_core gp w : live gp w <-> is_Some (c_groups (core w) !! gp).
Proof. unfold live, core. cbn. by rewrite lookup_fmap, fmap_is_Some. Qed.
Lemma online_core k w : online k w <-> is_Some (c_players (core w) !! k).
Proof. unfold online, core. cbn. by rewrite lookup_fmap, fmap_is_Some. Qed.

Lemma live_same gp w w' : core w' = core w -> live gp w -> live gp w'.
Proof. intros Hc. by rewrite !live_core, Hc. Qed.
Lemma online_same k w w' : core w' = core w -> online k w -> online k w'.
Proof. intros Hc. by rewrite !online_core, Hc. Qed.

Lemma core_group gp g w : w_groups w !! gp = Some g -> c_groups (core w) !! gp = Some (gview g).
Proof. intros Hg. unfold core. cbn. by rewrite lookup_fmap, Hg. Qed.
Lemma core_player k p w : w_players w !! k = Some p -> c_players (core w) !! k = Some (pview p).
Proof. intros Hp. unfold core. cbn. by rewrite lookup_fmap, Hp. Qed.
Lemma group_core gp v w : c_groups (core w) !! gp = Some v -> exists g, w_groups w !! gp = Some g /\ gview g = v.
Proof. unfold core. cbn. rewrite lookup_fmap, fmap_Some. intros (g & ? & ->). eauto. Qed.
Lemma player_core k v w : c_players (core w) !! k = Some v -> exists p, w_players w !! k = Some p /\ pview p = v.
Proof. unfold core. cbn. rewrite lookup_fmap, fmap_Some. intros (p & ? & ->). eauto. Qed.

(** ** Rolls *)

(** The open rolls: the loot and the slot of each. *)
Definition open_roll (w : World) (lp slot : Z) : Prop :=
  exists gp g r, w_groups w !! gp = Some g /\ r ∈ RollId g /\ getLoot r = Some lp /\ itemSlot r = slot.
Definition loot_sizes (w : World) : gmap Z nat := (fun l => length (lt_items l)) <$> w_loots w.
(** Every open roll is for an item that is there. *)
Definition rolls_ok (w : World) : Prop :=
  forall lp slot, open_roll w lp slot -> exists n, loot_sizes w !! lp = Some n /\ (Z.to_nat slot < n)%nat.

Record kept (w w' : World) : Prop := {
  kept_sizes : loot_sizes w' = loot_sizes w;
  kept_rolls : forall lp slot, open_roll w' lp slot -> open_roll w lp slot
}.
Record quiet (w w' : World) : Prop := { quiet_core : core w' = core w; quiet_kept : kept w w' }.

#[export] Instance kept_preorder : PreOrder kept.
Proof.
  split; [intros w; by split|]. intros w1 w2 w3 [Hs Hr] [Hs' Hr']. split; [congruence|eauto].
Qed.
#[export] Instance quiet_preorder : PreOrder quiet.
Proof. split; [intros w; by split|]. intros w1 w2 w3 [Hc Hk] [Hc' Hk']. split; [congruence|by etrans]. Qed.

Lemma kept_ok w w' : kept w w' -> rolls_ok w -> rolls_ok w'.
Proof. intros [Hs Hr] Hok lp slot Ho. rewrite Hs. auto. Qed.

Lemma quiet_live gp w w' : quiet w w' -> live gp w -> live gp w'.
Proof. intros [Hc _]. by apply live_same. Qed.
Lemma quiet_online k w w' : quiet w w' -> online k w -> online k w'.
Proof. intros [Hc _]. by apply online_same. Qed.

(** ** Primitive steps *)

Lemma kept_same w w' : w_groups w' = w_groups w -> w_loots w' = w_loots w -> kept w w'.
Proof. intros Hg Hl. split; [unfold loot_sizes; by rewrite Hl|]. unfold open_roll. by rewrite Hg. Qed.

Lemma quiet_same w w' :
  w_players w' = w_players w -> w_groups w' = w_groups w -> w_nextGroup w' = w_nextGroup w -> m_GroupMap w' = m_GroupMap w ->
  m_GroupIds w' = m_GroupIds w -> w_ub w' = w_ub w -> w_loots w' = w_loots w -> quiet w w'.
Proof. intros. split; [unfold core; congruence|by apply kept_same]. Qed.

(** A change of a group that starts no roll. *)
Lemma kept_upd_group gp f w :
  (forall g r, r ∈ RollId (f g) -> exists r', r' ∈ RollId g /\ getLoot r' = getLoot r /\ itemSlot r' = itemSlot r) ->
  kept w (upd_group gp f w).
Proof.
  intros Hf. split; [done|]. intros lp slot (gp' & g & r & Hg & Hr & Hl & Hs). unfold upd_group, set_groups in Hg. cbn in Hg.
  destruct (decide (gp' = gp)) as [->|Hn]; [|rewrite lookup_alter_ne in Hg by done; by exists gp', g, r].
  rewrite lookup_alter_eq, fmap_Some in Hg. destruct Hg as (g0 & Hg0 & ->).
  destruct (Hf _ _ Hr) as (r' & Hr' & Hl' & Hs'). exists gp, g0, r'. repeat split; congruence.
Qed.

Lemma kept_upd_group_id gp f w : (forall g, RollId (f g) = RollId g) -> kept w (upd_group gp f w).
Proof. intros Hf. apply kept_upd_group. intros g r. rewrite Hf. eauto. Qed.

Lemma core_upd_group_same gp f w : (forall g, gview (f g) = gview g) -> core (upd_group gp f w) = core w.
Proof.
  intros Hv. unfold core, upd_group, set_groups. cbn. f_equal.
  apply map_eq. intros j. rewrite !lookup_fmap. destruct (decide (j = gp)) as [->|Hn]; [|by rewrite lookup_alter_ne].
  rewrite lookup_alter_eq. destruct (w_groups w !! gp); cbn; [by rewrite Hv|done].
Qed.

Lemma quiet_upd_group gp f w :
  (forall g, gview (f g) = gview g) -> (forall g, RollId (f g) = RollId g) -> quiet w (upd_group gp f w).
Proof. intros Hv Hr. split; [by apply core_upd_group_same|by apply kept_upd_group_id]. Qed.

Lemma quiet_upd_player k f w : (forall p, pview (f p) = pview p) -> quiet w (upd_player k f w).
Proof.
  intros Hv. split; [|by apply kept_same]. unfold core, upd_player, set_players. cbn. f_equal.
  apply map_eq. intros j. rewrite !lookup_fmap. destruct (decide (j = k)) as [->|Hn]; [|by rewrite lookup_alter_ne].
  rewrite lookup_alter_eq. destruct (w_players w !! k); cbn; [by rewrite Hv|done].
Qed.

(** ** Steps in a chain: what a quiet prefix [w -> w1] is extended with *)

Create HintDb quiet discriminated.
#[export] Hint Constants Opaque : quiet.

Section Steps.
Context (w : World).

Lemma q_refl : quiet w w.
Proof. done. Qed.
Lemma q_emits os w1 : quiet w w1 -> quiet w (emits os w1).
Proof. intros. etrans; [done|]. by apply quiet_same. Qed.
Lemma q_emit o w1 : quiet w w1 -> quiet w (emit o w1).
Proof. apply q_emits. Qed.
Lemma q_draw w1 : quiet w w1 -> quiet w (draw w1).
Proof. intros. etrans; [done|]. by apply quiet_same. Qed.
Lemma q_queues q o g w1 : quiet w w1 -> quiet w (set_queues q o g w1).
Proof. intros. etrans; [done|]. by apply quiet_same. Qed.
Lemma q_upd_group gp f w1 :
  (forall g, gview (f g) = gview g) -> (forall g, RollId (f g) = RollId g) -> quiet w w1 -> quiet w (upd_group gp f w1).
Proof. intros. etrans; [done|]. by apply quiet_upd_group. Qed.
Lemma q_upd_player k f w1 : (forall p, pview (f p) = pview p) -> quiet w w1 -> quiet w (upd_player k f w1).
Proof. intros. etrans; [done|]. by apply quiet_upd_player. Qed.
Lemma q_deref gp w1 f : live gp w -> quiet w w1 -> (forall g, w_groups w1 !! gp = Some g -> quiet w (f g)) -> quiet w (deref gp w1 f).
Proof. intros Hl Hq Hf. destruct (quiet_live gp _ _ Hq Hl) as [g Hg]. unfold deref. rewrite Hg. auto. Qed.
Lemma q_test (b : bool) w1 w2 : quiet w w1 -> quiet w w2 -> quiet w (if b then w1 else w2).
Proof. by destruct b. Qed.
Lemma q_opt {A} (o : option A) f w2 : (forall a, o = Some a -> quiet w (f a)) -> quiet w w2 -> quiet w (match o with Some a => f a | None => w2 end).
Proof. destruct o; auto. Qed.
Lemma q_fold {A} (f : World -> A -> World) l w1 :
  (forall w2 a, quiet w w2 -> a ∈ l -> quiet w (f w2 a)) -> quiet w w1 -> quiet w (foldl f w1 l).
Proof.
  revert w1. induction l as [|a l IH]; cbn; [done|]. intros w1 Hf Hq.
  apply IH; [intros w2 b H2 Hb; apply Hf; [done|]; by right|]. apply Hf; [done|]. left.
Qed.
End Steps.
#[export] Hint Resolve q_refl q_emits q_emit q_draw q_queues : quiet.
#[export] Hint Extern 2 (quiet _ (upd_group _ _ _)) => apply q_upd_group; [done|done|] : quiet.
#[export] Hint Extern 2 (quiet _ (upd_player _ _ _)) => apply q_upd_player; [done|] : quiet.
#[export] Hint Extern 2 (quiet _ (if _ then _ else _)) => apply q_test : quiet.
#[export] Hint Extern 3 (quiet _ (match _ with Some _ => _ | None => _ end)) => apply q_opt; [intros ? ?|] : quiet.
#[export] Hint Extern 2 (quiet _ (deref _ _ _)) => apply q_deref; [| |intros ? ?] : quiet.
#[export] Hint Extern 1 (live _ _) => assumption : quiet.
#[export] Hint Extern 1 (quiet _ _) => assumption : quiet.
Ltac quiet := cbn zeta; eauto 400 with quiet nocore.

(** ** The quiet operations *)

Lemma q_BroadcastPacket w gp op data b n i w1 : live gp w -> quiet w w1 -> quiet w (BroadcastPacket gp op data b n i w1).
Proof. intros. unfold BroadcastPacket. quiet. Qed.
Lemma q_SendUpdate w gp w1 : live gp w -> quiet w w1 -> quiet w (SendUpdate gp w1).
Proof. intros. unfold SendUpdate. quiet. Qed.
Lemma q_SendTargetIconList w gp k w1 : live gp w -> quiet w w1 -> quiet w (SendTargetIconList gp k w1).
Proof. intros. unfold SendTargetIconList. quiet. Qed.
Lemma q_BroadcastGroupUpdate w gp w1 : live gp w -> quiet w w1 -> quiet w (BroadcastGroupUpdate gp w1).
Proof. intros. unfold BroadcastGroupUpdate. quiet. Qed.
#[export] Hint Resolve q_BroadcastPacket q_SendUpdate q_SendTargetIconList q_BroadcastGroupUpdate : quiet.

Lemma q_put_icon w gp i t w1 : live gp w -> quiet w w1 -> quiet w (put_icon gp i t w1).
Proof. intros. unfold put_icon. quiet. Qed.
#[export] Hint Resolve q_put_icon : quiet.
Lemma q_SetTargetIcon w gp i t w1 : live gp w -> quiet w w1 -> quiet w (SetTargetIcon gp i t w1).
Proof.
  intros. unfold SetTargetIcon. apply q_test; [done|]. apply q_put_icon; [done|]. apply q_test; [done|].
  apply q_fold; [|done]. intros. quiet.
Qed.
#[export] Hint Resolve q_SetTargetIcon : quiet.

(** An online player is found. *)
Lemma q_player w k w1 f : online k w -> quiet w w1 -> (forall p, w_players w1 !! k = Some p -> quiet w (f p)) ->
  quiet w (match w_players w1 !! k with Some p => f p | None => undefined w1 end).
Proof. intros Ho Hq Hf. destruct (quiet_online k _ _ Hq Ho) as [p Hp]. rewrite Hp. auto. Qed.
Lemma q_player' w k w1 f : online k w -> quiet w w1 -> (forall p, w_players w1 !! k = Some p -> quiet w (f p)) ->
  quiet w (match w_players w1 !! k with None => undefined w1 | Some p => f p end).
Proof. intros Ho Hq Hf. destruct (quiet_online k _ _ Hq Ho) as [p Hp]. rewrite Hp. auto. Qed.
Lemma q_with_player w k w1 f : online k w -> quiet w w1 -> (forall p, w_players w1 !! k = Some p -> quiet w (f p)) ->
  quiet w (with_player k w1 f).
Proof. apply q_player. Qed.

Lemma q_UpdateGroupLeaderFlag w b k w1 : online k w -> quiet w w1 -> quiet w (UpdateGroupLeaderFlag b k w1).
Proof. intros. unfold UpdateGroupLeaderFlag. apply q_player'; [done|done|]. intros. quiet. Qed.
#[export] Hint Resolve q_UpdateGroupLeaderFlag : quiet.

Lemma q_UpdatePlayerOutOfRange w E gp k w1 :
  live gp w -> online k w -> quiet w w1 -> quiet w (UpdatePlayerOutOfRange E gp k w1).
Proof. intros. unfold UpdatePlayerOutOfRange. apply q_player'; [done|done|]. intros. quiet. Qed.
#[export] Hint Resolve q_UpdatePlayerOutOfRange : quiet.
Lemma q_UpdatePlayerOnlineStatus w E gp k b w1 :
  live gp w -> online k w -> quiet w w1 -> quiet w (UpdatePlayerOnlineStatus E gp k b w1).
Proof. intros. unfold UpdatePlayerOnlineStatus. quiet. Qed.
#[export] Hint Resolve q_UpdatePlayerOnlineStatus : quiet.

(** *** The queue *)

Lemma q_SendMeetingstoneSetqueue w a s k w1 : quiet w w1 -> quiet w (SendMeetingstoneSetqueue a s k w1).
Proof. intros. unfold SendMeetingstoneSetqueue. quiet. Qed.
Lemma q_SendMeetingstoneFailed w s k w1 : quiet w w1 -> quiet w (SendMeetingstoneFailed s k w1).
Proof. intros. unfold SendMeetingstoneFailed. quiet. Qed.
Lemma q_queued_players w m w1 : quiet w w1 -> quiet w (set_queued_players m w1).
Proof. intros. unfold set_queued_players. quiet. Qed.
Lemma q_queued_groups w m w1 : quiet w w1 -> quiet w (set_queued_groups m w1).
Proof. intros. unfold set_queued_groups. quiet. Qed.
#[export] Hint Resolve q_SendMeetingstoneSetqueue q_SendMeetingstoneFailed q_queued_players q_queued_groups : quiet.

(** The map of groups leads to groups. *)
Definition map_live (w : World) : Prop := forall id gp, m_GroupMap w !! id = Some gp -> live gp w.
Definition links_live (w : World) : Prop := forall k p gp, w_players w !! k = Some p -> GetGroup p = Some gp -> live gp w.

Lemma map_live_quiet w w1 id gp : map_live w -> quiet w w1 -> GetGroupById id w1 = Some gp -> live gp w.
Proof. intros Hm [Hc _] Hg. apply (Hm id). unfold GetGroupById in Hg. by injection Hc as _ _ _ <- _ _. Qed.
Lemma links_live_quiet w w1 k p gp : links_live w -> quiet w w1 -> w_players w1 !! k = Some p -> GetGroup p = Some gp -> live gp w.
Proof.
  intros Hm [Hc _] Hp Hg. apply core_player in Hp. rewrite Hc in Hp. apply player_core in Hp as (p' & Hp' & Hv).
  apply (Hm k p'); [done|]. injection Hv. congruence.
Qed.

Lemma q_UpdateGroup w E id w1 : map_live w -> quiet w w1 -> quiet w (UpdateGroup E id w1).
Proof.
  intros Hm Hq. unfold UpdateGroup. destruct (m_QueuedGroups w1 !! id); [|done].
  destruct (GetGroupById id w1) as [gp|] eqn:E1; [|done]. pose proof (map_live_quiet _ _ _ _ Hm Hq E1). quiet.
Qed.
Lemma q_RemovePlayerFromQueue w k b w1 : quiet w w1 -> quiet w (RemovePlayerFromQueue k b w1).
Proof. intros. unfold RemovePlayerFromQueue. quiet. Qed.
Lemma q_RemoveGroupFromQueue w id b w1 : map_live w -> quiet w w1 -> quiet w (RemoveGroupFromQueue id b w1).
Proof.
  intros Hm Hq. unfold RemoveGroupFromQueue. destruct (m_QueuedGroups w1 !! id); [|done]. apply q_queued_groups.
  destruct (GetGroupById id w1) as [gp|] eqn:E1; [|done]. pose proof (map_live_quiet _ _ _ _ Hm Hq E1). quiet.
Qed.
Lemma q_AddToQueue w E k a w1 : links_live w -> quiet w w1 -> quiet w (AddToQueue E k a w1).
Proof.
  intros Hm Hq. unfold AddToQueue. destruct (w_players w1 !! k) as [p|] eqn:Hp; [|done].
  destruct (GetGroup p) as [gp|] eqn:Hg; [|quiet]. pose proof (links_live_quiet _ _ _ _ _ Hm Hq Hp Hg). quiet.
Qed.
Lemma q_RestoreOfflinePlayer w k w1 : quiet w w1 -> quiet w (RestoreOfflinePlayer k w1).
Proof. intros. unfold RestoreOfflinePlayer. quiet. Qed.
#[export] Hint Resolve q_UpdateGroup q_RemovePlayerFromQueue q_RemoveGroupFromQueue q_AddToQueue q_RestoreOfflinePlayer : quiet.
#[export] Hint Extern 1 (map_live _) => assumption : quiet.
#[export] Hint Extern 1 (links_live _) => assumption : quiet.
#[export] Hint Extern 1 (online _ _) => assumption : quiet.
