(* ===== verification/GroupRolls.v ===== *)
(** * GroupRolls: what rolls change

    Rolls leave the members alone and stay inside their loot: every operation
    of [GroupLoot] is quiet. A member who leaves is taken out of every roll,
    in one pass. *)
From S2P Require Import Prelude ByteBuffer ObjectGuid GroupData GroupPackets GroupLoot MeetingStone Group GroupHandlers GroupCore.

Definition in_loot (w : World) (lp slot : Z) : Prop := exists n, loot_sizes w !! lp = Some n /\ (Z.to_nat slot < n)%nat.

Lemma in_loot_quiet w w1 lp slot : quiet w w1 -> in_loot w lp slot -> in_loot w1 lp slot.
Proof. intros [_ [Hs _]]. unfold in_loot. by rewrite Hs. Qed.

Lemma in_loot_item w lp slot :
  in_loot w lp slot -> exists l i, w_loots w !! lp = Some l /\ lt_items l !! Z.to_nat slot = Some i.
Proof.
  intros (n & Hn & Hlt). unfold loot_sizes in Hn. rewrite lookup_fmap, fmap_Some in Hn. destruct Hn as (l & Hl & ->).
  destruct (lookup_lt_is_Some_2 (lt_items l) (Z.to_nat slot)) as [i Hi]; [done|]. eauto.
Qed.

Section Steps.
Context `{HashIter}.
Context (E : Env).
Implicit Types (w : World).

Lemma q_upd_loot w lp f w1 :
  (forall l, length (lt_items (f l)) = length (lt_items l)) -> quiet w w1 -> quiet w (upd_loot lp f w1).
Proof.
  intros Hf Hq. etrans; [done|]. unfold upd_loot, set_loots. split; [done|]. split; [|done].
  unfold loot_sizes. cbn. apply map_eq. intros j. rewrite !lookup_fmap.
  destruct (decide (j = lp)) as [->|Hn]; [|by rewrite lookup_alter_ne]. rewrite lookup_alter_eq.
  destruct (w_loots w1 !! lp); cbn; [by rewrite Hf|done].
Qed.

Lemma q_upd_item w lp slot f w1 : in_loot w lp slot -> quiet w w1 -> quiet w (upd_item lp slot f w1).
Proof.
  intros Hi Hq. destruct (in_loot_item w1 lp slot) as (l & i & Hl & Hit); [by eapply in_loot_quiet|].
  unfold upd_item. rewrite Hl, Hit. etrans; [exact Hq|]. unfold upd_loot, set_loots. split; [done|]. split; [|done].
  unfold loot_sizes. cbn. apply map_eq. intros j. rewrite !lookup_fmap.
  destruct (decide (j = lp)) as [->|Hn]; [|by rewrite lookup_alter_ne]. rewrite lookup_alter_eq, Hl. cbn.
  by rewrite length_insert.
Qed.

Lemma q_to_rollers w r op data w1 : quiet w w1 -> quiet w (to_rollers r op data w1).
Proof. intros. unfold to_rollers. quiet. Qed.

Lemma q_NotifyItemRemoved w lp slot w1 : in_loot w lp slot -> quiet w w1 -> quiet w (NotifyItemRemoved lp slot w1).
Proof.
  intros Hi Hq. destruct (in_loot_item w1 lp slot) as (l & i & Hl & _); [by eapply in_loot_quiet|].
  unfold NotifyItemRemoved. rewrite Hl. apply q_emits. by apply q_upd_loot.
Qed.

Lemma q_roll_dice w v code r votes m k w1 : quiet w w1 -> quiet w (snd (roll_dice E v code r votes m k w1)).
Proof.
  revert m k w1. induction votes as [|[j x] votes IH]; intros m k w1 Hq; [done|]. cbn [roll_dice].
  case_bool_decide; [|by apply IH]. cbn zeta. case_match; apply IH; unfold SendLootRoll; apply q_to_rollers; quiet.
Qed.

Lemma q_award w need r lp k w1 : in_loot w lp (itemSlot r) -> quiet w w1 -> quiet w (award E need r lp k w1).
Proof.
  intros Hi Hq. destruct (in_loot_item w1 lp (itemSlot r)) as (l & i & Hl & Hit); [by eapply in_loot_quiet|].
  assert (Hlater : quiet w (if need then upd_item lp (itemSlot r)
      (fun i => set_loot_item (is_looted i) (is_blocked i) (is_underthreshold i) k i) w1 else w1)).
  { destruct need; [by apply q_upd_item|done]. }
  unfold award. cbn zeta. destruct (GetPlayer k w1) as [p|]; [|exact Hlater].
  destruct (negb (GetSession p)); [exact Hlater|]. unfold loot_item. rewrite Hl, Hit.
  destruct (CanStoreNewItem E p (itemid r) (li_count i) =? EQUIP_ERR_OK).
  - assert (Hstored : quiet w (emit (LogLoot k (li_itemid i) (li_count i))
      (upd_loot lp (fun l => set_loot (lt_items l) (u8 (unlootedCount l - 1)) (m_playersLooting l) l)
        (NotifyItemRemoved lp (itemSlot r)
          (upd_item lp (itemSlot r) (fun i => set_loot_item true (is_blocked i) (is_underthreshold i) (lootOwner i) i) w1))))).
    { apply q_emit, q_upd_loot; [done|]. apply q_NotifyItemRemoved; [done|]. by apply q_upd_item. }
    apply q_test; [|done]. apply q_emit, q_upd_player; [done|done].
  - apply q_emit. by apply q_upd_item.
Qed.

Lemma q_decide_roll w need r lp w1 : in_loot w lp (itemSlot r) -> quiet w w1 -> quiet w (decide_roll E need r lp w1).
Proof.
  intros Hi Hq. unfold decide_roll. destruct (hash_iter (playerVote r)) as [|[f v] l] eqn:El; [done|]. cbn zeta.
  match goal with |- quiet _ (let '(_, _) := ?d in _) => destruct d as [[m k] w2] eqn:Ed end.
  apply q_award; [done|]. unfold SendLootRollWon. apply q_to_rollers.
  match type of Ed with ?d = _ => change w2 with (snd (m, k, w2)); rewrite <- Ed end. by apply q_roll_dice.
Qed.

Lemma q_erase_roll w gp i w1 : quiet w w1 -> quiet w (erase_roll gp i w1).
Proof.
  intros Hq. etrans; [done|]. split; [by apply core_upd_group_same|].
  apply kept_upd_group. intros g r Hr. exists r. split; [|done]. cbn in Hr.
  apply list_elem_of_lookup in Hr as [j Hj]. apply list_elem_of_lookup.
  rewrite list_lookup_delete in Hj. case_decide; eauto.
Qed.

(** ** The rolls of a group *)

Definition rolls (gp : Z) (w : World) : list Roll := match w_groups w !! gp with Some g => RollId g | None => [] end.

Lemma rolls_open w gp r lp : rolls_ok w -> r ∈ rolls gp w -> getLoot r = Some lp -> in_loot w lp (itemSlot r).
Proof.
  unfold rolls. intros Hok Hr Hl. destruct (w_groups w !! gp) as [g|] eqn:Hg; [|by apply elem_of_nil in Hr].
  apply Hok. by exists gp, g, r.
Qed.

Lemma rolls_upd_group gp f w : live gp w -> exists g, w_groups w !! gp = Some g /\ rolls gp (upd_group gp f w) = RollId (f g).
Proof.
  intros [g Hg]. exists g. split; [done|]. unfold rolls, upd_group, set_groups. cbn. by rewrite lookup_alter_eq, Hg.
Qed.

Lemma upd_item_groups lp slot f w : w_groups (upd_item lp slot f w) = w_groups w.
Proof. unfold upd_item. by repeat case_match. Qed.
Lemma roll_dice_groups v code r votes m k w : w_groups (snd (roll_dice E v code r votes m k w)) = w_groups w.
Proof.
  revert m k w. induction votes as [|[j x] votes IH]; intros; [done|]. cbn [roll_dice].
  case_bool_decide; [|by apply IH]. cbn zeta. case_match; by rewrite IH.
Qed.
Lemma NotifyItemRemoved_groups lp slot w : w_groups (NotifyItemRemoved lp slot w) = w_groups w.
Proof. unfold NotifyItemRemoved. by repeat case_match. Qed.
Lemma award_groups need r lp k w : w_groups (award E need r lp k w) = w_groups w.
Proof.
  unfold award. cbn zeta. repeat case_match; rewrite ?upd_item_groups; try done;
    cbn; by rewrite ?NotifyItemRemoved_groups, ?upd_item_groups.
Qed.
Lemma decide_roll_groups need r lp w : w_groups (decide_roll E need r lp w) = w_groups w.
Proof.
  unfold decide_roll. destruct (hash_iter (playerVote r)) as [|[f v] l] eqn:El; [done|]. cbn zeta.
  match goal with |- context [let '(_, _) := ?d in _] => destruct d as [[m k] w2] eqn:Ed end.
  rewrite award_groups. cbn.
  match type of Ed with ?d = _ => change w2 with (snd (m, k, w2)); rewrite <- Ed end. apply roll_dice_groups.
Qed.

(** What a roll that ends does before it is erased. *)
Definition settle (r : Roll) (w : World) : World :=
  match getLoot r with
  | None => w
  | Some lp =>
    if 0 <? totalNeed r then decide_roll E true r lp w
    else if 0 <? totalGreed r then decide_roll E false r lp w
    else upd_item lp (itemSlot r) (fun i => set_loot_item (is_looted i) false (is_underthreshold i) (lootOwner i) i)
           (SendLootAllPassed r w)
  end.

Lemma CountTheRoll_settle gp i r w : rolls gp w !! i = Some r -> CountTheRoll E gp i w = erase_roll gp i (settle r w).
Proof.
  unfold rolls, CountTheRoll, deref, settle. destruct (w_groups w !! gp) as [g|]; [|done].
  intros ->. destruct (getLoot r); [|done]. cbn zeta. by repeat case_match.
Qed.

Lemma settle_groups r w : w_groups (settle r w) = w_groups w.
Proof.
  unfold settle. repeat case_match; rewrite ?decide_roll_groups; try done. rewrite upd_item_groups. done.
Qed.

Lemma rolls_CountTheRoll gp i r w : rolls gp w !! i = Some r -> rolls gp (CountTheRoll E gp i w) = delete i (rolls gp w).
Proof.
  intros Hr. rewrite (CountTheRoll_settle gp i r w Hr). unfold erase_roll, rolls, upd_group, set_groups. cbn.
  rewrite lookup_alter_eq, settle_groups. by destruct (w_groups w !! gp).
Qed.

Lemma q_settle w r w1 :
  (forall lp, getLoot r = Some lp -> in_loot w lp (itemSlot r)) -> quiet w w1 -> quiet w (settle r w1).
Proof.
  intros Hi Hq. unfold settle. destruct (getLoot r) as [lp|]; [|done]. specialize (Hi lp eq_refl).
  repeat apply q_test; [by apply q_decide_roll..|]. apply q_upd_item; [done|]. by apply q_to_rollers.
Qed.

Lemma quiet_rolls_ok w w1 : quiet w w1 -> rolls_ok w -> rolls_ok w1.
Proof. intros [_ Hk]. by apply kept_ok. Qed.

Lemma quiet_settle gp i r w : rolls_ok w -> rolls gp w !! i = Some r -> quiet w (CountTheRoll E gp i w).
Proof.
  intros Hok Hr. rewrite (CountTheRoll_settle gp i r w Hr). apply q_erase_roll, q_settle; [|done].
  intros lp Hl. eapply rolls_open; [done| |done]. by eapply list_elem_of_lookup_2.
Qed.

(** ** Votes *)

Lemma q_record_vote w gp i k v g r w1 :
  w_groups w1 !! gp = Some g -> RollId g !! i = Some r -> quiet w w1 -> quiet w (upd_roll gp i (fun _ => record_vote k v r) w1).
Proof.
  intros Hg Hr Hq. etrans; [done|]. split; [by apply core_upd_group_same|]. split; [done|].
  intros lp slot (gp' & g' & r' & Hg' & Hr' & Hl & Hs). unfold upd_roll, upd_group, set_groups in Hg'. cbn in Hg'.
  destruct (decide (gp' = gp)) as [->|Hn]; [|rewrite lookup_alter_ne in Hg' by done; by exists gp', g', r'].
  rewrite lookup_alter_eq, Hg in Hg'. cbn in Hg'. injection Hg' as <-. cbn in Hr'.
  apply list_elem_of_lookup in Hr' as [j Hj]. destruct (decide (j = i)) as [->|Hn].
  - rewrite list_lookup_alter_eq, Hr in Hj. injection Hj as <-. exists gp, g, r.
    split; [done|]. split; [by eapply list_elem_of_lookup_2|]. by destruct v.
  - rewrite list_lookup_alter_ne in Hj by done. exists gp, g, r'. split; [done|]. split; [by eapply list_elem_of_lookup_2|done].
Qed.

Lemma q_CountRollVote_at w gp k i v w1 :
  live gp w -> rolls_ok w -> is_Some (rolls gp w1 !! i) -> quiet w w1 -> quiet w (snd (CountRollVote_at E gp k i v w1)).
Proof.
  intros Hl Hok [r Hr] Hq. unfold CountRollVote_at. pose proof Hr as Hr0. unfold rolls in Hr.
  destruct (w_groups w1 !! gp) as [g|] eqn:Hg; [|done]. rewrite Hr.
  destruct (playerVote r !! k); [|done]. destruct (loot_empty r w1); [done|]. cbn zeta.
  assert (Hsent : w_groups (send_vote k v r w1) = w_groups w1) by by destruct v.
  assert (Hq1 : quiet w (upd_roll gp i (fun _ => record_vote k v r) (send_vote k v r w1))).
  { apply (q_record_vote w gp i k v g); [by rewrite Hsent|done|].
    destruct v; cbn; unfold SendLootRoll; try apply q_to_rollers; done. }
  destruct (votes_counted _); cbn; [|done]. etrans; [exact Hq1|].
  apply (quiet_settle gp i (record_vote k v r)); [by eapply quiet_rolls_ok|].
  unfold rolls, upd_roll, upd_group, set_groups. cbn. rewrite lookup_alter_eq, Hsent, Hg. cbn.
  by rewrite list_lookup_alter_eq, Hr.
Qed.

Lemma q_CountRollVote w gp k target slot v w1 :
  live gp w -> rolls_ok w -> quiet w w1 -> quiet w (snd (CountRollVote E gp k target slot v w1)).
Proof.
  intros Hl Hok Hq. unfold CountRollVote. destruct (quiet_live gp _ _ Hq Hl) as [g Hg]. rewrite Hg.
  destruct (list_find _ _) as [[i r]|] eqn:Ef; [|done]. cbn. apply q_CountRollVote_at; [done..| |done].
  apply list_find_Some in Ef as (Hr & _). unfold rolls. rewrite Hg, Hr. done.
Qed.

(** ** Rolls that are cut short *)

Lemma end_all_rolls_ok fuel gp w :
  live gp w -> rolls_ok w -> fuel = length (rolls gp w) ->
  quiet w (end_all_rolls E fuel gp w) /\ rolls gp (end_all_rolls E fuel gp w) = [].
Proof.
  revert w. induction fuel as [|fuel IH]; intros w Hl Hok Hf; cbn.
  - split; [done|]. by apply nil_length_inv.
  - destruct (rolls gp w) as [|r rs] eqn:Hr; [done|].
    assert (H0 : rolls gp w !! 0%nat = Some r) by by rewrite Hr.
    pose proof (quiet_settle gp 0 r w Hok H0) as Hq. pose proof (rolls_CountTheRoll gp 0 r w H0) as Hd. rewrite Hr in Hd.
    destruct (IH (CountTheRoll E gp 0 w)) as [Hq2 He].
    + by eapply quiet_live.
    + by eapply quiet_rolls_ok.
    + rewrite Hd. cbn in *. lia.
    + split; [by etrans|done].
Qed.

Definition of_loot (lp : Z) (r : Roll) : Prop := getLoot r = Some lp.
#[global] Instance of_loot_dec lp r : Decision (of_loot lp r).
Proof. unfold of_loot. apply _. Defined.

Lemma EndRoll_loop_ok fuel gp lp w :
  live gp w -> rolls_ok w -> (length (rolls gp w) < fuel)%nat ->
  quiet w (EndRoll_loop E fuel gp lp w)
  /\ rolls gp (EndRoll_loop E fuel gp lp w) = filter (fun r => ~ of_loot lp r) (rolls gp w).
Proof.
  revert w. induction fuel as [|fuel IH]; intros w Hl Hok Hf; [lia|]. cbn. unfold deref. pose proof Hl as [g Hg]. rewrite Hg.
  assert (Hrg : rolls gp w = RollId g) by (unfold rolls; by rewrite Hg).
  destruct (list_find (fun r => getLoot r = Some lp) (RollId g)) as [[i r]|] eqn:Ef.
  - apply list_find_Some in Ef as (Hi & Hr & Hbefore). rewrite <- Hrg in Hi.
    pose proof (quiet_settle gp i r w Hok Hi) as Hq. pose proof (rolls_CountTheRoll gp i r w Hi) as Hd.
    destruct (IH (CountTheRoll E gp i w)) as [Hq2 He].
    + by eapply quiet_live.
    + by eapply quiet_rolls_ok.
    + rewrite Hd, length_delete by done. apply lookup_lt_Some in Hi. lia.
    + split; [by etrans|]. rewrite He, Hd. rewrite <- (take_drop_middle (rolls gp w) i r Hi) at 2.
      rewrite delete_take_drop, !filter_app, filter_cons_False; [done|]. intros Hno. by apply Hno.
  - split; [done|]. rewrite filter_all; [done|]. rewrite Hrg. apply list_find_None in Ef. exact Ef.
Qed.

Lemma roll_count_length gp w : roll_count gp w = length (rolls gp w).
Proof. unfold roll_count, rolls. by destruct (w_groups w !! gp). Qed.

Lemma q_EndRoll w gp lp w1 : live gp w -> rolls_ok w -> quiet w w1 -> quiet w (EndRoll E gp lp w1).
Proof.
  intros Hl Hok Hq. etrans; [done|]. apply EndRoll_loop_ok; [by eapply quiet_live|by eapply quiet_rolls_ok|].
  rewrite roll_count_length. lia.
Qed.

(** ** A member who leaves *)

Definition without_vote (k : ObjectGuid) (r : Roll) : Roll :=
  match playerVote r !! k with Some v => take_vote k v r | None => r end.

Lemma without_vote_none k r : playerVote (without_vote k r) !! k = None.
Proof. unfold without_vote. destruct (playerVote r !! k) eqn:E1; [apply lookup_delete_eq|done]. Qed.

Definition set_group_rolls (gp : Z) (l : list Roll) : World -> World := upd_group gp (set_rolls l).

Lemma upd_group_twice gp f g w : upd_group gp f (upd_group gp g w) = upd_group gp (f ∘ g) w.
Proof. unfold upd_group, set_groups. cbn. f_equal. apply alter_alter. Qed.

Lemma upd_group_ext gp f f' g w : w_groups w !! gp = Some g -> f g = f' g -> upd_group gp f w = upd_group gp f' w.
Proof.
  intros Hg Hf. unfold upd_group, set_groups. f_equal. apply map_eq. intros j.
  destruct (decide (j = gp)) as [->|Hn]; [|by rewrite !lookup_alter_ne]. rewrite !lookup_alter_eq, Hg. cbn. by rewrite Hf.
Qed.

Lemma upd_group_none gp f w : w_groups w !! gp = None -> upd_group gp f w = w.
Proof.
  intros Hg. unfold upd_group, set_groups. destruct w; cbn in *. f_equal. apply map_eq. intros j.
  destruct (decide (j = gp)) as [->|Hn]; [rewrite lookup_alter_eq, Hg; done|by rewrite lookup_alter_ne].
Qed.

(** The loop from [it] on: the rolls before it have been visited. *)
Lemma removeRolls_loop_spec fuel gp k it w g :
  w_groups w !! gp = Some g ->
  (2 * (length (RollId g) - it) < fuel)%nat ->
  removeRolls_loop E fuel gp k it w
  = upd_group gp (fun g => set_rolls (take it (RollId g) ++ (without_vote k <$> drop it (RollId g))) g) w.
Proof.
  revert it w g. induction fuel as [fuel IH] using lt_wf_ind. intros it w g Hg Hf.
  destruct fuel as [|fuel]; [lia|]. cbn [removeRolls_loop]. unfold deref. rewrite Hg.
  destruct (RollId g !! it) as [r|] eqn:Hr.
  - assert (Hlt := lookup_lt_Some _ _ _ Hr). destruct (playerVote r !! k) as [v|] eqn:Hv.
    + set (w1 := upd_roll gp it (take_vote k v) w).
      set (g1 := set_rolls (alter (take_vote k v) it (RollId g)) g).
      assert (Hg1 : w_groups w1 !! gp = Some g1).
      { unfold w1, upd_roll, upd_group, set_groups. cbn. by rewrite lookup_alter_eq, Hg. }
      assert (Hr1 : RollId g1 !! it = Some (take_vote k v r)).
      { unfold g1. cbn. by rewrite list_lookup_alter_eq, Hr. }
      assert (Hc : CountRollVote_at E gp k it ROLL_NOT_EMITED_YET w1 = (true, w1)).
      { unfold CountRollVote_at. rewrite Hg1, Hr1. unfold take_vote. cbn. by rewrite lookup_delete_eq. }
      rewrite Hc. destruct fuel as [|fuel]; [lia|]. cbn [removeRolls_loop]. unfold deref. rewrite Hg1, Hr1.
      assert (playerVote (take_vote k v r) !! k = None) as -> by (unfold take_vote; cbn; by rewrite lookup_delete_eq).
      rewrite (IH fuel ltac:(lia) (S it) w1 g1 Hg1); [|unfold g1; cbn; rewrite length_alter; lia].
      unfold w1, upd_roll. rewrite upd_group_twice. apply (upd_group_ext _ _ _ g); [done|]. cbn. unfold set_rolls. cbn. f_equal.
      rewrite (take_S_r _ it (take_vote k v r)) by (by rewrite list_lookup_alter_eq, Hr).
      rewrite take_alter_ge, drop_alter_lt by lia. rewrite (drop_S _ _ _ Hr). cbn. rewrite <- app_assoc. cbn. do 2 f_equal.
      unfold without_vote. by rewrite Hv.
    + rewrite (IH fuel ltac:(lia) (S it) w g Hg) by lia. apply (upd_group_ext _ _ _ g); [done|]. unfold set_rolls. f_equal.
      rewrite (take_S_r _ _ _ Hr), (drop_S _ _ _ Hr). cbn. rewrite <- app_assoc. cbn. do 2 f_equal. unfold without_vote. by rewrite Hv.
  - apply lookup_ge_None in Hr. rewrite (upd_group_ext _ _ (fun g => g) g); [|done|].
    + unfold upd_group, set_groups. destruct w; cbn in *. f_equal. apply map_eq. intros j.
      destruct (decide (j = gp)) as [->|Hn]; [by rewrite lookup_alter_eq, Hg|by rewrite lookup_alter_ne].
    + rewrite take_ge, drop_ge by done. cbn. rewrite app_nil_r. by destruct g.
Qed.

Lemma removeRolls_spec gp k w :
  live gp w -> removeRolls E gp k w = upd_group gp (fun g => set_rolls (without_vote k <$> RollId g) g) w.
Proof.
  intros [g Hg]. unfold removeRolls. rewrite (removeRolls_loop_spec _ gp k 0 w g Hg); [done|].
  unfold roll_count. rewrite Hg. lia.
Qed.

Lemma q_removeRolls w gp k w1 : live gp w -> quiet w w1 -> quiet w (removeRolls E gp k w1).
Proof.
  intros Hl Hq. rewrite removeRolls_spec by (by eapply quiet_live). etrans; [done|].
  split; [by apply core_upd_group_same|]. apply kept_upd_group. intros g r Hr. cbn in Hr.
  apply list_elem_of_fmap in Hr as (r' & -> & Hr'). exists r'. split; [done|]. unfold without_vote. by destruct (playerVote r' !! k).
Qed.
End Steps.
