(* ===== verification/GroupKept.v ===== *)
(** * GroupKept: no operation invents a roll

    Every operation of a group except the start of a roll keeps the sizes of
    the loots and adds no open roll: [kept], in the form "what [kept] holds of
    is extended by the operation". *)
From S2P Require Import Prelude ByteBuffer ObjectGuid GroupData GroupPackets GroupLoot MeetingStone Group GroupHandlers GroupCore GroupRolls.

Create HintDb kept discriminated.
#[export] Hint Constants Opaque : kept.

(** The world of an operation that also returns a value. *)
Definition kept_by {A} (w w1 : World) (f : World -> A * World) : Prop := kept w w1 -> kept w (snd (f w1)).

Section Steps.
Context `{HashIter}.
Context (E : Env) (w : World).

Lemma k_refl : kept w w.
Proof. done. Qed.
Lemma k_same w1 w2 : w_groups w2 = w_groups w1 -> w_loots w2 = w_loots w1 -> kept w w1 -> kept w w2.
Proof. intros. etrans; [done|]. by apply kept_same. Qed.
Lemma k_emits os w1 : kept w w1 -> kept w (emits os w1).
Proof. by apply k_same. Qed.
Lemma k_emit o w1 : kept w w1 -> kept w (emit o w1).
Proof. by apply k_same. Qed.
Lemma k_undefined w1 : kept w w1 -> kept w (undefined w1).
Proof. by apply k_same. Qed.
Lemma k_draw w1 : kept w w1 -> kept w (draw w1).
Proof. by apply k_same. Qed.
Lemma k_queues q o g w1 : kept w w1 -> kept w (set_queues q o g w1).
Proof. by apply k_same. Qed.
Lemma k_group_map m i w1 : kept w w1 -> kept w (set_group_map m i w1).
Proof. by apply k_same. Qed.
Lemma k_players m w1 : kept w w1 -> kept w (set_players m w1).
Proof. by apply k_same. Qed.
Lemma k_upd_player k f w1 : kept w w1 -> kept w (upd_player k f w1).
Proof. by apply k_same. Qed.
Lemma k_upd_group gp f w1 : (forall g, RollId (f g) = RollId g) -> kept w w1 -> kept w (upd_group gp f w1).
Proof. intros. etrans; [done|]. by apply kept_upd_group_id. Qed.
Lemma k_deref gp w1 f : kept w w1 -> (forall g, kept w (f g)) -> kept w (deref gp w1 f).
Proof. intros. unfold deref. case_match; [done|by apply k_undefined]. Qed.
Lemma k_test (b : bool) w1 w2 : kept w w1 -> kept w w2 -> kept w (if b then w1 else w2).
Proof. by destruct b. Qed.
Lemma k_opt {A} (o : option A) f w2 : (forall a, kept w (f a)) -> kept w w2 -> kept w (match o with Some a => f a | None => w2 end).
Proof. destruct o; auto. Qed.
Lemma k_fold {A} (f : World -> A -> World) l w1 :
  (forall w2 a, kept w w2 -> kept w (f w2 a)) -> kept w w1 -> kept w (foldl f w1 l).
Proof. revert w1. induction l as [|a l IH]; cbn; [done|]. intros w1 Hf Hq. apply IH; auto. Qed.
Lemma k_pair {A} (r : A * World) (f : A -> World -> World) :
  kept w (snd r) -> (forall a w2, kept w w2 -> kept w (f a w2)) -> kept w (let '(a, w2) := r in f a w2).
Proof. destruct r. auto. Qed.
Lemma k_pair_snd {A B} (r : A * World) (f : A -> World -> B * World) :
  kept w (snd r) -> (forall a w2, kept w w2 -> kept w (snd (f a w2))) -> kept w (snd (let '(a, w2) := r in f a w2)).
Proof. destruct r. auto. Qed.
Lemma k_test_snd {A} (b : bool) (r1 r2 : A * World) : kept w (snd r1) -> kept w (snd r2) -> kept w (snd (if b then r1 else r2)).
Proof. by destruct b. Qed.
Lemma k_opt_snd {A B} (o : option A) (f : A -> B * World) r :
  (forall a, kept w (snd (f a))) -> kept w (snd r) -> kept w (snd (match o with Some a => f a | None => r end)).
Proof. destruct o; auto. Qed.
Lemma k_snd {A} (a : A) w1 : kept w w1 -> kept w (snd (a, w1)).
Proof. done. Qed.
End Steps.
#[export] Hint Resolve k_refl k_emits k_emit k_undefined k_draw k_queues k_group_map k_players k_upd_player k_snd : kept.
#[export] Hint Extern 1 (kept _ _) => assumption : kept.
#[export] Hint Extern 2 (kept _ (upd_group _ _ _)) => apply k_upd_group; [done|] : kept.
#[export] Hint Extern 2 (kept _ (deref _ _ _)) => apply k_deref; [|intros ?] : kept.
#[export] Hint Extern 2 (kept _ (if _ then _ else _)) => apply k_test : kept.
#[export] Hint Extern 3 (kept _ (match _ with Some _ => _ | None => _ end)) => apply k_opt; [intros ?|] : kept.
#[export] Hint Extern 3 (kept _ (foldl _ _ _)) => apply k_fold; [intros ? ? ?|] : kept.
#[export] Hint Extern 4 (kept _ (let '(_, _) := _ in _)) => apply k_pair; [|intros ? ? ?] : kept.
#[export] Hint Extern 2 (kept _ (snd (if _ then _ else _))) => apply k_test_snd : kept.
#[export] Hint Extern 3 (kept _ (snd (match _ with Some _ => _ | None => _ end))) => apply k_opt_snd; [intros ?|] : kept.
#[export] Hint Extern 4 (kept _ (snd (let '(_, _) := _ in _))) => apply k_pair_snd; [|intros ? ? ?] : kept.
Ltac kept := cbn zeta; eauto 400 with kept nocore.

(** Unfold an operation and walk through it. *)
Tactic Notation "kept_op" reference(f) := intros; unfold f; kept.

Section Ops.
Context `{HashIter}.
Context (E : Env) (w : World).

(** ** Rolls *)

Lemma k_upd_loot lp f w1 : (forall l, length (lt_items (f l)) = length (lt_items l)) -> kept w w1 -> kept w (upd_loot lp f w1).
Proof. intros Hf Hk. etrans; [done|]. by apply (q_upd_loot w1 lp f w1). Qed.
Lemma k_upd_item lp slot f w1 : kept w w1 -> kept w (upd_item lp slot f w1).
Proof.
  intros Hk. unfold upd_item. destruct (w_loots w1 !! lp) as [l|] eqn:Hl; [|by apply k_undefined].
  destruct (lt_items l !! Z.to_nat slot) as [i|] eqn:Hi; [|by apply k_undefined]. etrans; [exact Hk|].
  pose proof (q_upd_item w1 lp slot f w1) as [_ Hq]; [|done|].
  - exists (length (lt_items l)). unfold loot_sizes. rewrite lookup_fmap, Hl. split; [done|]. by apply lookup_lt_Some in Hi.
  - unfold upd_item in Hq. by rewrite Hl, Hi in Hq.
Qed.
Lemma k_to_rollers r op data w1 : kept w w1 -> kept w (to_rollers r op data w1).
Proof. kept_op to_rollers. Qed.
Hint Resolve k_upd_item k_to_rollers : kept.
Lemma k_NotifyItemRemoved lp slot w1 : kept w w1 -> kept w (NotifyItemRemoved lp slot w1).
Proof. intros. unfold NotifyItemRemoved. case_match; [|kept]. apply k_emits. by apply k_upd_loot. Qed.
Hint Resolve k_NotifyItemRemoved : kept.
Lemma k_roll_dice v code r votes m k w1 : kept w w1 -> kept w (snd (roll_dice E v code r votes m k w1)).
Proof.
  revert m k w1. induction votes as [|[j x] votes IH]; intros m k w1 Hq; [done|]. cbn [roll_dice].
  case_bool_decide; [|by apply IH]. cbn zeta. case_match; apply IH; unfold SendLootRoll; kept.
Qed.
Lemma k_award need r lp k w1 : kept w w1 -> kept w (award E need r lp k w1).
Proof.
  intros. unfold award. cbn zeta. repeat case_match; try kept.
  all: try (apply k_emit, k_upd_player); apply k_emit, k_upd_loot; [done|]; kept.
Qed.
Lemma k_decide_roll need r lp w1 : kept w w1 -> kept w (decide_roll E need r lp w1).
Proof.
  intros Hq. unfold decide_roll. destruct (hash_iter (playerVote r)) as [|[f v] l] eqn:El; [done|]. cbn zeta.
  match goal with |- kept _ (let '(_, _) := ?d in _) => destruct d as [[m k] w2] eqn:Ed end.
  apply k_award. unfold SendLootRollWon. apply k_to_rollers.
  match type of Ed with ?d = _ => change w2 with (snd (m, k, w2)); rewrite <- Ed end. by apply k_roll_dice.
Qed.
Hint Resolve k_decide_roll : kept.
Lemma k_erase_roll gp i w1 : kept w w1 -> kept w (erase_roll gp i w1).
Proof. intros Hq. etrans; [done|]. by apply (q_erase_roll w1 gp i w1). Qed.
Hint Resolve k_erase_roll : kept.
Lemma k_CountTheRoll gp i w1 : kept w w1 -> kept w (CountTheRoll E gp i w1).
Proof.
  intros Hk. unfold CountTheRoll. apply k_deref; [done|]. intros g. apply k_opt; [|kept]. intros r. apply k_opt; [|kept].
  intros lp. apply k_erase_roll. unfold SendLootAllPassed. kept.
Qed.
Hint Resolve k_CountTheRoll : kept.
Lemma k_end_all_rolls fuel gp w1 : kept w w1 -> kept w (end_all_rolls E fuel gp w1).
Proof. revert w1. induction fuel as [|fuel IH]; intros w1 Hk; cbn; [done|]. apply IH. kept. Qed.
Lemma k_removeRolls gp k w1 : kept w w1 -> kept w (removeRolls E gp k w1).
Proof.
  intros Hk. destruct (w_groups w1 !! gp) as [g|] eqn:Hg.
  - etrans; [exact Hk|]. by apply (q_removeRolls E w1 gp k w1); [exists g|].
  - unfold removeRolls, roll_count. rewrite Hg. cbn. unfold deref. rewrite Hg. by apply k_undefined.
Qed.
Hint Resolve k_end_all_rolls k_removeRolls : kept.

(** ** Packets *)

Lemma k_BroadcastPacket gp op data b n i w1 : kept w w1 -> kept w (BroadcastPacket gp op data b n i w1).
Proof. kept_op BroadcastPacket. Qed.
Lemma k_SendUpdate gp w1 : kept w w1 -> kept w (SendUpdate gp w1).
Proof. kept_op SendUpdate. Qed.
Lemma k_BroadcastGroupUpdate gp w1 : kept w w1 -> kept w (BroadcastGroupUpdate gp w1).
Proof. kept_op BroadcastGroupUpdate. Qed.
Lemma k_UpdatePlayerOutOfRange gp k w1 : kept w w1 -> kept w (UpdatePlayerOutOfRange E gp k w1).
Proof. kept_op UpdatePlayerOutOfRange. Qed.
Hint Resolve k_BroadcastPacket k_SendUpdate k_UpdatePlayerOutOfRange k_BroadcastGroupUpdate : kept.
Lemma k_UpdatePlayerOnlineStatus gp k b w1 : kept w w1 -> kept w (UpdatePlayerOnlineStatus E gp k b w1).
Proof. kept_op UpdatePlayerOnlineStatus. Qed.

(** ** The queue *)

Lemma k_SendMeetingstoneSetqueue a s k w1 : kept w w1 -> kept w (SendMeetingstoneSetqueue a s k w1).
Proof. kept_op SendMeetingstoneSetqueue. Qed.
Lemma k_queued_players m w1 : kept w w1 -> kept w (set_queued_players m w1).
Proof. kept_op set_queued_players. Qed.
Lemma k_queued_groups m w1 : kept w w1 -> kept w (set_queued_groups m w1).
Proof. kept_op set_queued_groups. Qed.
Hint Resolve k_SendMeetingstoneSetqueue k_queued_players k_queued_groups : kept.
Lemma k_UpdateGroup id w1 : kept w w1 -> kept w (UpdateGroup E id w1).
Proof. kept_op UpdateGroup. Qed.
Lemma k_RemovePlayerFromQueue k b w1 : kept w w1 -> kept w (RemovePlayerFromQueue k b w1).
Proof. kept_op RemovePlayerFromQueue. Qed.
Lemma k_RemoveGroupFromQueue id b w1 : kept w w1 -> kept w (RemoveGroupFromQueue id b w1).
Proof. kept_op RemoveGroupFromQueue. Qed.
Lemma k_AddToQueue k a w1 : kept w w1 -> kept w (AddToQueue E k a w1).
Proof. kept_op AddToQueue. Qed.
Hint Resolve k_UpdateGroup k_RemovePlayerFromQueue k_RemoveGroupFromQueue k_AddToQueue : kept.

(** ** References and invitations *)

Lemma k_unlink o k w1 : kept w w1 -> kept w (unlink o k w1).
Proof. kept_op unlink. Qed.
Hint Resolve k_unlink : kept.
Lemma k_link o gp sub k w1 : kept w w1 -> kept w (link o gp sub k w1).
Proof. kept_op link. Qed.
Hint Resolve k_link : kept.
Lemma k_SetGroup gs k w1 : kept w w1 -> kept w (SetGroup gs k w1).
Proof. intros. unfold SetGroup. destruct gs as [[? ?]|]; kept. Qed.
Lemma k_SetOriginalGroup gs k w1 : kept w w1 -> kept w (SetOriginalGroup gs k w1).
Proof. intros. unfold SetOriginalGroup. destruct gs as [[? ?]|]; kept. Qed.
Hint Resolve k_SetGroup k_SetOriginalGroup : kept.
Lemma k_SetBattleGroundRaid gp sub k w1 : kept w w1 -> kept w (SetBattleGroundRaid gp sub k w1).
Proof. kept_op SetBattleGroundRaid. Qed.
Lemma k_RemoveFromBattleGroundRaid k w1 : kept w w1 -> kept w (RemoveFromBattleGroundRaid k w1).
Proof. kept_op RemoveFromBattleGroundRaid. Qed.
Lemma k_UpdateGroupLeaderFlag b k w1 : kept w w1 -> kept w (UpdateGroupLeaderFlag b k w1).
Proof. kept_op UpdateGroupLeaderFlag. Qed.
Lemma k_clear_invite gp k w1 : kept w w1 -> kept w (clear_invite gp k w1).
Proof. kept_op clear_invite. Qed.
Hint Resolve k_SetBattleGroundRaid k_RemoveFromBattleGroundRaid k_UpdateGroupLeaderFlag k_clear_invite : kept.
Lemma k_RemoveInvite gp k w1 : kept w w1 -> kept w (RemoveInvite gp k w1).
Proof. kept_op RemoveInvite. Qed.
Lemma k_RemoveAllInvites gp w1 : kept w w1 -> kept w (RemoveAllInvites gp w1).
Proof. kept_op RemoveAllInvites. Qed.
Hint Resolve k_RemoveInvite k_RemoveAllInvites : kept.
Lemma k_AddInvite gp k w1 : kept w w1 -> kept w (snd (AddInvite gp k w1)).
Proof. kept_op AddInvite. Qed.
Lemma k_updateLeaderFlag b gp w1 : kept w w1 -> kept w (updateLeaderFlag b gp w1).
Proof. kept_op updateLeaderFlag. Qed.
Hint Resolve k_AddInvite k_updateLeaderFlag : kept.
Lemma k_AddLeaderInvite gp k w1 : kept w w1 -> kept w (snd (AddLeaderInvite gp k w1)).
Proof. kept_op AddLeaderInvite. Qed.

(** ** Leaders and members *)

Lemma k_setLeader gp k w1 : kept w w1 -> kept w (setLeader E gp k w1).
Proof. kept_op setLeader. Qed.
Hint Resolve k_setLeader : kept.
Lemma k_ChangeLeader gp k w1 : kept w w1 -> kept w (ChangeLeader E gp k w1).
Proof. kept_op ChangeLeader. Qed.
Hint Resolve k_ChangeLeader : kept.
Lemma k_chooseLeader gp b w1 : kept w w1 -> kept w (chooseLeader E gp b w1).
Proof. intros. unfold chooseLeader. destruct b; kept. Qed.
Hint Resolve k_chooseLeader : kept.
Lemma k_UpdateOfflineLeader gp t d w1 : kept w w1 -> kept w (UpdateOfflineLeader E gp t d w1).
Proof. intros. unfold UpdateOfflineLeader. apply k_deref; [done|]. intros. apply k_test; [done|]. case_match; kept. Qed.
Lemma k_UpdateCrossfaction gp w1 : kept w w1 -> kept w (UpdateCrossfaction E gp w1).
Proof. kept_op UpdateCrossfaction. Qed.
Lemma k_SubGroupCounter d gp sub w1 : kept w w1 -> kept w (SubGroupCounter d gp sub w1).
Proof. kept_op SubGroupCounter. Qed.
Lemma k_SubGroupCounterIncrease gp sub w1 : kept w w1 -> kept w (SubGroupCounterIncrease gp sub w1).
Proof. apply k_SubGroupCounter. Qed.
Lemma k_SubGroupCounterDecrease gp sub w1 : kept w w1 -> kept w (SubGroupCounterDecrease gp sub w1).
Proof. apply k_SubGroupCounter. Qed.
Lemma k_initRaid gp w1 : kept w w1 -> kept w (initRaidSubGroupsCounter gp w1).
Proof. kept_op initRaidSubGroupsCounter. Qed.
Hint Resolve k_UpdateCrossfaction k_SubGroupCounterIncrease k_SubGroupCounterDecrease k_initRaid : kept.
Lemma k_addMember_at gp k n a sub w1 : kept w w1 -> kept w (snd (addMember_at gp k n a sub w1)).
Proof.
  intros. unfold addMember_at. cbn zeta. apply k_opt_snd; [|kept]. intros g. apply k_test_snd; [kept|]. apply k_snd.
  apply k_test; [apply k_emit|]; (apply k_opt; [intros p|]; kept).
Qed.
Hint Resolve k_addMember_at : kept.
Lemma k_addMember gp k n a w1 : kept w w1 -> kept w (snd (addMember gp k n a w1)).
Proof. kept_op addMember. Qed.
Hint Resolve k_addMember : kept.
Lemma k_announce_factions gp k w1 : kept w w1 -> kept w (announce_factions E gp k w1).
Proof. kept_op announce_factions. Qed.
Hint Resolve k_announce_factions : kept.
Lemma k_AddMember gp k n j w1 : kept w w1 -> kept w (snd (AddMember E gp k n j w1)).
Proof. kept_op AddMember. Qed.
Hint Resolve k_AddMember : kept.
Lemma k_Create gp k n w1 : kept w w1 -> kept w (snd (Create E gp k n w1)).
Proof. intros. unfold Create, GenerateGroupId. kept. Qed.
Lemma k_ConvertToRaid gp w1 : kept w w1 -> kept w (ConvertToRaid gp w1).
Proof. kept_op ConvertToRaid. Qed.
Lemma k_leave_ref gp b k p w1 : kept w w1 -> kept w (leave_ref gp b k p w1).
Proof. kept_op leave_ref. Qed.
Hint Resolve k_leave_ref : kept.
Lemma k_removeMember gp k w1 : kept w w1 -> kept w (snd (removeMember E gp k w1)).
Proof. kept_op removeMember. Qed.
Lemma k_send_own_group k w1 : kept w w1 -> kept w (send_own_group k w1).
Proof. kept_op send_own_group. Qed.
Hint Resolve k_removeMember k_send_own_group : kept.
Lemma k_disband_member gp b i sw s : kept w (snd sw) -> kept w (snd (disband_member gp b i sw s)).
Proof. destruct sw as [r w1]. cbn. intros. unfold disband_member. kept. Qed.
Lemma k_disband_members gp b i l sw : kept w (snd sw) -> kept w (snd (foldl (disband_member gp b i) sw l)).
Proof. revert sw. induction l as [|s l IH]; intros sw Hk; [done|]. apply IH. by apply k_disband_member. Qed.
Lemma k_Disband gp b i w1 : kept w w1 -> kept w (Disband E gp b i w1).
Proof.
  intros Hk. unfold Disband. apply k_deref; [done|]. intros g. cbn zeta.
  apply k_pair; [apply k_disband_members; kept|]. intros r w2 Hk2. kept.
Qed.
Hint Resolve k_Disband : kept.
Lemma k_RemoveMember gp k m w1 : kept w w1 -> kept w (snd (RemoveMember E gp k m w1)).
Proof. kept_op RemoveMember. Qed.
Lemma k_RemoveGroup gp w1 : kept w w1 -> kept w (RemoveGroup gp w1).
Proof. kept_op RemoveGroup. Qed.
Lemma k_AddGroup gp w1 : kept w w1 -> kept w (AddGroup gp w1).
Proof. kept_op AddGroup. Qed.
Lemma k_forget gp n w1 : kept w w1 -> kept w (set_groups (delete gp (w_groups w1)) n w1).
Proof.
  intros Hk. etrans; [done|]. split; [done|]. intros lp slot (gp' & g & r & Hg & ?). exists gp', g, r. split; [|done].
  cbn in Hg. by apply lookup_delete_Some in Hg as [_ ?].
Qed.
Hint Resolve k_RemoveMember k_RemoveGroup k_AddGroup k_forget : kept.
Lemma k_delete_group gp w1 : kept w w1 -> kept w (delete_group gp w1).
Proof.
  intros Hk. unfold delete_group. apply k_deref; [kept|]. intros g. apply k_forget. kept.
Qed.
Hint Resolve k_delete_group : kept.
Lemma k_RemoveFromGroup gp k w1 : kept w w1 -> kept w (RemoveFromGroup E gp k w1).
Proof. kept_op RemoveFromGroup. Qed.
Lemma k_UninviteFromGroup k w1 : kept w w1 -> kept w (UninviteFromGroup E k w1).
Proof. kept_op UninviteFromGroup. Qed.
Lemma k_upd_slot gp k f w1 : kept w w1 -> kept w (upd_slot gp k f w1).
Proof. kept_op upd_slot. Qed.
Hint Resolve k_upd_slot : kept.
Lemma k_setMembersGroup gp k sub w1 : kept w w1 -> kept w (snd (setMembersGroup gp k sub w1)).
Proof. kept_op setMembersGroup. Qed.
Lemma k_swapMembersGroup gp k j w1 : kept w w1 -> kept w (snd (swapMembersGroup gp k j w1)).
Proof. intros. unfold swapMembersGroup. apply k_opt_snd; [|kept]. intros g. repeat case_match; kept. Qed.
Lemma k_set_member_sub_group gp k sub w1 : kept w w1 -> kept w (set_member_sub_group gp k sub w1).
Proof. intros. unfold set_member_sub_group, set_sub_group. kept. Qed.
Hint Resolve k_setMembersGroup k_swapMembersGroup k_set_member_sub_group : kept.
Lemma k_ChangeMembersGroup_player gp k sub w1 : kept w w1 -> kept w (ChangeMembersGroup_player gp k sub w1).
Proof. kept_op ChangeMembersGroup_player. Qed.
Hint Resolve k_ChangeMembersGroup_player : kept.
Lemma k_ChangeMembersGroup gp k sub w1 : kept w w1 -> kept w (ChangeMembersGroup gp k sub w1).
Proof. kept_op ChangeMembersGroup. Qed.
Lemma k_SwapMembersGroup gp k j w1 : kept w w1 -> kept w (SwapMembersGroup gp k j w1).
Proof. kept_op SwapMembersGroup. Qed.
Lemma k_setAssistantFlag gp k b w1 : kept w w1 -> kept w (snd (setAssistantFlag gp k b w1)).
Proof. kept_op setAssistantFlag. Qed.
Hint Resolve k_setAssistantFlag : kept.
Lemma k_SetAssistant gp k b w1 : kept w w1 -> kept w (SetAssistant gp k b w1).
Proof. kept_op SetAssistant. Qed.
Lemma k_new_group w1 : kept w w1 -> kept w (snd (new_group w1)).
Proof.
  intros Hk. etrans; [done|]. split; [done|]. intros lp slot (gp' & g & r & Hg & Hr & ?). exists gp', g, r. split; [|done].
  cbn in Hg. apply lookup_insert_Some in Hg as [[_ <-]|[_ ?]]; [|done]. by apply elem_of_nil in Hr.
Qed.
End Ops.
#[export] Hint Resolve k_upd_item k_to_rollers k_NotifyItemRemoved k_decide_roll k_erase_roll k_CountTheRoll k_end_all_rolls k_removeRolls
  k_BroadcastPacket k_SendUpdate k_UpdatePlayerOutOfRange k_BroadcastGroupUpdate k_UpdatePlayerOnlineStatus
  k_SendMeetingstoneSetqueue k_queued_players k_queued_groups k_UpdateGroup k_RemovePlayerFromQueue k_RemoveGroupFromQueue
  k_AddToQueue k_unlink k_link k_SetGroup k_SetOriginalGroup k_UpdateGroupLeaderFlag k_clear_invite k_RemoveInvite
  k_RemoveAllInvites k_AddInvite k_updateLeaderFlag k_AddLeaderInvite k_setLeader k_ChangeLeader k_chooseLeader
  k_UpdateOfflineLeader k_UpdateCrossfaction k_SubGroupCounterIncrease k_SubGroupCounterDecrease k_initRaid k_addMember_at
  k_addMember k_announce_factions k_AddMember k_Create k_ConvertToRaid k_leave_ref k_removeMember k_send_own_group k_Disband
  k_RemoveMember k_RemoveGroup k_AddGroup k_delete_group k_RemoveFromGroup k_UninviteFromGroup k_upd_slot k_setMembersGroup
  k_swapMembersGroup k_set_member_sub_group k_ChangeMembersGroup_player k_ChangeMembersGroup k_SwapMembersGroup
  k_setAssistantFlag k_SetAssistant k_new_group : kept.
