(* ===== verification/GroupSound.v ===== *)
(** * GroupSound: sound memberships

    [wf]: what holds of the core of a world at every point of the code, and
    [sound]: what holds between two packets. The steps the code is made of, as
    functions on the core, keep [wf]. *)
From S2P Require Import Prelude ByteBuffer ObjectGuid GroupData GroupPackets GroupLoot MeetingStone Group GroupHandlers GroupCore.

(** ** Slots and counters *)

Definition guids (l : list MemberSlot) : list ObjectGuid := ms_guid <$> l.
Definition subgroup_size (i : Z) (l : list MemberSlot) : nat := length (filter (fun s => ms_group s = i) l).

Record raid_slots (l : list MemberSlot) (counts : option (list Z)) : Prop := {
  rs_counts : exists c, counts = Some c /\ length c = 8%nat
    /\ forall i, 0 <= i < 8 -> c !! Z.to_nat i = Some (Z.of_nat (subgroup_size i l));
  rs_range : Forall (fun s => 0 <= ms_group s < MAX_RAID_SUBGROUPS) l;
  rs_size : forall i, (subgroup_size i l <= 5)%nat
}.
Record party_slots (l : list MemberSlot) (counts : option (list Z)) : Prop := {
  ps_counts : counts = None;
  ps_group : Forall (fun s => ms_group s = 0) l
}.
Record slots_ok (raid : bool) (l : list MemberSlot) (counts : option (list Z)) : Prop := {
  so_nodup : NoDup (guids l);
  so_guid : 0 ∉ guids l;
  so_size : Z.of_nat (length l) <= if raid then MAX_RAID_SIZE else MAX_GROUP_SIZE;
  so_subgroups : if raid then raid_slots l counts else party_slots l counts
}.

(** The slot of a member. *)
Definition slot_of (k : ObjectGuid) (l : list MemberSlot) : option MemberSlot := List.find (fun s => ms_guid s =? k) l.

Lemma slot_of_Some k l s : slot_of k l = Some s -> s ∈ l /\ ms_guid s = k.
Proof. intros [Hin Hk]%find_some. apply Z.eqb_eq in Hk. split; [by apply list_elem_of_In|done]. Qed.
Lemma slot_of_None k l : slot_of k l = None <-> k ∉ guids l.
Proof.
  unfold slot_of, guids. rewrite list_elem_of_fmap. split.
  - intros Hn (s & -> & Hs). apply list_elem_of_In in Hs. apply (find_none _ _ Hn) in Hs. by rewrite Z.eqb_refl in Hs.
  - intros Hn. destruct (List.find _ l) as [s|] eqn:E; [|done]. apply slot_of_Some in E as [? <-]. destruct Hn. eauto.
Qed.
Lemma slot_of_elem k l : k ∈ guids l -> exists s, slot_of k l = Some s.
Proof. intros Hk. destruct (slot_of k l) as [s|] eqn:E; [eauto|]. by apply slot_of_None in E. Qed.
Lemma slot_of_in l s : NoDup (guids l) -> s ∈ l -> slot_of (ms_guid s) l = Some s.
Proof.
  intros Hnd Hs. destruct (slot_of_elem (ms_guid s) l) as [s' Hs']; [by apply list_elem_of_fmap_2|].
  pose proof (slot_of_Some _ _ _ Hs') as [Hin Hg]. by rewrite Hs', (NoDup_key ms_guid l s' s Hnd Hin Hs Hg).
Qed.

(** ** Well-formed cores *)

Definition member_of (k : ObjectGuid) (gp : Z) (c : Core) : Prop :=
  exists g, c_groups c !! gp = Some g /\ k ∈ guids (gv_slots g).

Record links (c : Core) : Prop := {
  wf_ub : c_ub c = false;
  wf_player : forall k p, c_players c !! k = Some p -> k <> 0 /\ pv_guid p = k /\ pv_inWorld p = true /\ pv_orig p = None;
  wf_group : forall gp g, c_groups c !! gp = Some g -> gp < c_next c /\ gv_bg g = None /\ NoDup (gv_mgr g);
  wf_mgr : forall gp g k b, c_groups c !! gp = Some g ->
    ((k, b) ∈ gv_mgr g <-> b = false /\ exists p, c_players c !! k = Some p /\ pv_group p = Some gp);
  wf_link : forall k p gp, c_players c !! k = Some p -> (pv_group p = Some gp <-> member_of k gp c);
  wf_sub : forall k p gp g s, c_players c !! k = Some p -> c_groups c !! gp = Some g ->
    slot_of k (gv_slots g) = Some s -> ms_group s = pv_sub p;
  wf_one : forall k gp gp', member_of k gp c -> member_of k gp' c -> gp = gp';
  wf_inv : forall gp g k, c_groups c !! gp = Some g ->
    (k ∈ gv_inv g <-> exists p, c_players c !! k = Some p /\ pv_invite p = Some gp);
  wf_invite : forall k p gp, c_players c !! k = Some p -> pv_invite p = Some gp -> is_Some (c_groups c !! gp) /\ pv_group p = None;
  wf_map : forall id gp, c_map c !! id = Some gp -> id < c_ids c /\ exists g, c_groups c !! gp = Some g /\ gv_id g = id
}.
Definition counted (c : Core) : Prop :=
  forall gp g, c_groups c !! gp = Some g -> slots_ok (gv_raid g) (gv_slots g) (gv_counts g).
Definition wf (c : Core) : Prop := links c /\ counted c.

(** A group that exists has at least two members and one of them leads it; one
    that waits for its first member is led by the player who invited. *)
Record group_sound (c : Core) (gp : Z) (g : GView) : Prop := {
  gs_created : gv_slots g <> [] ->
    (2 <= length (gv_slots g))%nat /\ gv_leader g ∈ guids (gv_slots g) /\ c_map c !! gv_id g = Some gp;
  gs_forming : gv_slots g = [] ->
    gv_raid g = false /\ (forall id, c_map c !! id <> Some gp)
    /\ exists p, c_players c !! gv_leader g = Some p /\ pv_invite p = Some gp
}.
Record sound (c : Core) : Prop := {
  sound_wf : wf c;
  sound_group : forall gp g, c_groups c !! gp = Some g -> group_sound c gp g
}.

(** ** Steps on the core *)

Definition cp (k : ObjectGuid) (f : PView -> PView) (c : Core) : Core :=
  mkCore (alter f k (c_players c)) (c_groups c) (c_next c) (c_map c) (c_ids c) (c_ub c).
Definition cg (gp : Z) (f : GView -> GView) (c : Core) : Core :=
  mkCore (c_players c) (alter f gp (c_groups c)) (c_next c) (c_map c) (c_ids c) (c_ub c).

Definition pv_set_group (gp : option Z) (sub : Z) (p : PView) : PView :=
  mkPV (pv_guid p) (pv_inWorld p) gp sub (pv_orig p) (pv_invite p).
Definition pv_set_invite (gp : option Z) (p : PView) : PView :=
  mkPV (pv_guid p) (pv_inWorld p) (pv_group p) (pv_sub p) (pv_orig p) gp.
Definition gv_set_slots (l : list MemberSlot) (counts : option (list Z)) (g : GView) : GView :=
  mkGV (gv_id g) l (gv_mgr g) (gv_inv g) (gv_leader g) (gv_raid g) (gv_bg g) counts.
Definition gv_set_mgr (l : list (ObjectGuid * bool)) (g : GView) : GView :=
  mkGV (gv_id g) (gv_slots g) l (gv_inv g) (gv_leader g) (gv_raid g) (gv_bg g) (gv_counts g).
Definition gv_set_inv (s : gset ObjectGuid) (g : GView) : GView :=
  mkGV (gv_id g) (gv_slots g) (gv_mgr g) s (gv_leader g) (gv_raid g) (gv_bg g) (gv_counts g).
Definition gv_set_leader (k : ObjectGuid) (g : GView) : GView :=
  mkGV (gv_id g) (gv_slots g) (gv_mgr g) (gv_inv g) k (gv_raid g) (gv_bg g) (gv_counts g).
Definition gv_set_raid (raid : bool) (counts : option (list Z)) (g : GView) : GView :=
  mkGV (gv_id g) (gv_slots g) (gv_mgr g) (gv_inv g) (gv_leader g) raid (gv_bg g) counts.
Definition gv_set_id (id : Z) (g : GView) : GView :=
  mkGV id (gv_slots g) (gv_mgr g) (gv_inv g) (gv_leader g) (gv_raid g) (gv_bg g) (gv_counts g).

Lemma core_upd_player k f f' w : (forall p, pview (f p) = f' (pview p)) -> core (upd_player k f w) = cp k f' (core w).
Proof.
  intros Hf. unfold core, cp, upd_player, set_players. cbn. f_equal. apply map_eq. intros j. rewrite lookup_fmap.
  destruct (decide (j = k)) as [->|Hn].
  - rewrite !lookup_alter_eq, lookup_fmap. destruct (w_players w !! k); cbn; [by rewrite Hf|done].
  - by rewrite !lookup_alter_ne, lookup_fmap.
Qed.
Lemma core_upd_group gp f f' w : (forall g, gview (f g) = f' (gview g)) -> core (upd_group gp f w) = cg gp f' (core w).
Proof.
  intros Hf. unfold core, cg, upd_group, set_groups. cbn. f_equal. apply map_eq. intros j. rewrite lookup_fmap.
  destruct (decide (j = gp)) as [->|Hn].
  - rewrite !lookup_alter_eq, lookup_fmap. destruct (w_groups w !! gp); cbn; [by rewrite Hf|done].
  - by rewrite !lookup_alter_ne, lookup_fmap.
Qed.
(** A change that depends on the player, or the group, it is applied to. *)
Lemma core_upd_player_at k f f' p w :
  w_players w !! k = Some p -> pview (f p) = f' (pview p) -> core (upd_player k f w) = cp k f' (core w).
Proof.
  intros Hp Hf. unfold core, cp, upd_player, set_players. cbn. f_equal. apply map_eq. intros j. rewrite lookup_fmap.
  destruct (decide (j = k)) as [->|Hn].
  - rewrite !lookup_alter_eq, lookup_fmap, Hp. cbn. by rewrite Hf.
  - by rewrite !lookup_alter_ne, lookup_fmap.
Qed.
Lemma core_upd_group_at gp f f' g w :
  w_groups w !! gp = Some g -> gview (f g) = f' (gview g) -> core (upd_group gp f w) = cg gp f' (core w).
Proof.
  intros Hg Hf. unfold core, cg, upd_group, set_groups. cbn. f_equal. apply map_eq. intros j. rewrite lookup_fmap.
  destruct (decide (j = gp)) as [->|Hn].
  - rewrite !lookup_alter_eq, lookup_fmap, Hg. cbn. by rewrite Hf.
  - by rewrite !lookup_alter_ne, lookup_fmap.
Qed.

Lemma cp_lookup k f c j : c_players (cp k f c) !! j = if decide (j = k) then f <$> c_players c !! k else c_players c !! j.
Proof. cbn. case_decide; subst; [by rewrite lookup_alter_eq|by rewrite lookup_alter_ne]. Qed.
Lemma cg_lookup gp f c j : c_groups (cg gp f c) !! j = if decide (j = gp) then f <$> c_groups c !! gp else c_groups c !! j.
Proof. cbn. case_decide; subst; [by rewrite lookup_alter_eq|by rewrite lookup_alter_ne]. Qed.

Lemma cp_const k p f c : c_players c !! k = Some p -> cp k f c = cp k (fun _ => f p) c.
Proof.
  intros Hp. unfold cp. f_equal. apply map_eq. intros j. destruct (decide (j = k)) as [->|Hn]; [|by rewrite !lookup_alter_ne].
  by rewrite !lookup_alter_eq, Hp.
Qed.
Lemma cg_const gp g f c : c_groups c !! gp = Some g -> cg gp f c = cg gp (fun _ => f g) c.
Proof.
  intros Hg. unfold cg. f_equal. apply map_eq. intros j. destruct (decide (j = gp)) as [->|Hn]; [|by rewrite !lookup_alter_ne].
  by rewrite !lookup_alter_eq, Hg.
Qed.
Lemma cg_cg gp f h c : cg gp f (cg gp h c) = cg gp (f ∘ h) c.
Proof. unfold cg. cbn. f_equal. apply alter_alter. Qed.
Lemma cp_cp k f h c : cp k f (cp k h c) = cp k (f ∘ h) c.
Proof. unfold cp. cbn. f_equal. apply alter_alter. Qed.
Lemma cp_cg k f gp h c : cp k f (cg gp h c) = cg gp h (cp k f c).
Proof. done. Qed.

(** One group changes, nobody online joins or leaves it. *)
Section UpdateGroup.
Context (c : Core) (gp : Z) (g g' : GView).
Context (Hc : links c) (Hg : c_groups c !! gp = Some g).
Context (Hbg : gv_bg g' = None) (Hmgr : gv_mgr g' = gv_mgr g) (Hinv : gv_inv g' = gv_inv g).
Context (Hslots : forall k p, c_players c !! k = Some p -> ms_group <$> slot_of k (gv_slots g') = ms_group <$> slot_of k (gv_slots g)).
Context (Hnew : forall k gp', member_of k gp' c -> gp' <> gp -> k ∉ guids (gv_slots g')).
Context (Hid : forall id, c_map c !! id = Some gp -> gv_id g' = gv_id g).

Local Notation c' := (cg gp (fun _ => g') c).

Lemma group_cases gp1 g1 : c_groups c' !! gp1 = Some g1 -> (gp1 = gp /\ g1 = g') \/ (gp1 <> gp /\ c_groups c !! gp1 = Some g1).
Proof. rewrite cg_lookup. case_decide; [rewrite Hg; intros [= <-]; by left|by right]. Qed.

Lemma in_slots_same k p : c_players c !! k = Some p -> (k ∈ guids (gv_slots g') <-> k ∈ guids (gv_slots g)).
Proof.
  intros Hp. pose proof (Hslots k p Hp) as Hs.
  assert (Hd : slot_of k (gv_slots g') = None <-> slot_of k (gv_slots g) = None).
  { destruct (slot_of k (gv_slots g)), (slot_of k (gv_slots g')); naive_solver. }
  rewrite !slot_of_None in Hd. destruct (decide (k ∈ guids (gv_slots g))), (decide (k ∈ guids (gv_slots g'))); tauto.
Qed.

Lemma member_of_cases k gp1 :
  member_of k gp1 c' <-> (gp1 = gp /\ k ∈ guids (gv_slots g')) \/ (gp1 <> gp /\ member_of k gp1 c).
Proof.
  unfold member_of. split.
  - intros (g1 & H1 & Hk). apply group_cases in H1 as [[-> ->]|[Hn H1]]; [by left|right; eauto].
  - intros [[-> Hk]|[Hn (g1 & H1 & Hk)]].
    + exists g'. by rewrite cg_lookup, decide_True, Hg by done.
    + exists g1. by rewrite cg_lookup, decide_False by done.
Qed.

Lemma links_update_group : links c'.
Proof.
  constructor.
  - apply (wf_ub c Hc).
  - apply (wf_player c Hc).
  - intros gp1 g1 H1. apply group_cases in H1 as [[-> ->]|[Hn H1]]; [|by apply (wf_group c Hc)].
    destruct (wf_group c Hc gp g Hg) as (? & ? & ?). rewrite Hmgr. done.
  - intros gp1 g1 k b H1. apply group_cases in H1 as [[-> ->]|[Hn H1]]; [|by apply (wf_mgr c Hc)].
    rewrite Hmgr. by apply (wf_mgr c Hc).
  - intros k p gp1 Hp. rewrite (wf_link c Hc k p gp1 Hp), member_of_cases. destruct (decide (gp1 = gp)) as [->|Hn].
    + rewrite (in_slots_same k p Hp). unfold member_of. split; [intros (g1 & ? & ?); left; naive_solver|].
      intros [[_ ?]|[? _]]; [eauto|done].
    + split; [by right|]. intros [[? _]|[_ ?]]; done.
  - intros k p gp1 g1 s Hp H1. apply group_cases in H1 as [[-> ->]|[Hn H1]]; [|by apply (wf_sub c Hc k p gp1)].
    intros Hs. pose proof (Hslots k p Hp) as He. rewrite Hs in He. cbn in He.
    destruct (slot_of k (gv_slots g)) as [t|] eqn:Et; [|done]. injection He as He. rewrite He. by apply (wf_sub c Hc k p gp g).
  - intros k gp1 gp2 [[-> Hk1]|[Hn1 Hm1]]%member_of_cases [[-> Hk2]|[Hn2 Hm2]]%member_of_cases; [done| | |].
    + by destruct (Hnew k gp2 Hm2 Hn2).
    + by destruct (Hnew k gp1 Hm1 Hn1).
    + by apply (wf_one c Hc k).
  - intros gp1 g1 k H1. apply group_cases in H1 as [[-> ->]|[Hn H1]]; [|by apply (wf_inv c Hc)].
    rewrite Hinv. by apply (wf_inv c Hc).
  - intros k p gp1 Hp Hi. destruct (wf_invite c Hc k p gp1 Hp Hi) as [Hl ?]. split; [|done].
    rewrite cg_lookup. case_decide; [by rewrite Hg|done].
  - intros id gp1 Hm. destruct (wf_map c Hc id gp1 Hm) as [? (g1 & H1 & Hi)]. split; [done|].
    destruct (decide (gp1 = gp)) as [->|Hn].
    + exists g'. rewrite cg_lookup, decide_True, Hg by done. split; [done|]. rewrite (Hid id Hm). congruence.
    + exists g1. by rewrite cg_lookup, decide_False.
Qed.
End UpdateGroup.

(** One player and one group change. *)
Section UpdateBoth.
Context (c : Core) (k : ObjectGuid) (p p' : PView) (gp : Z) (g g' : GView).
Context (Hc : links c) (Hp : c_players c !! k = Some p) (Hg : c_groups c !! gp = Some g).
Context (Hguid : pv_guid p' = pv_guid p) (Hworld : pv_inWorld p' = pv_inWorld p) (Horig : pv_orig p' = pv_orig p).
Context (Hbg : gv_bg g' = None) (Hnd : NoDup (gv_mgr g')) (Hid : gv_id g' = gv_id g).
Context (Hmgr : forall j b, (j, b) ∈ gv_mgr g' <-> if decide (j = k) then b = false /\ pv_group p' = Some gp else (j, b) ∈ gv_mgr g).
Context (Hinv : forall j, j ∈ gv_inv g' <-> if decide (j = k) then pv_invite p' = Some gp else j ∈ gv_inv g).
Context (Hothers : forall j, j <> k -> slot_of j (gv_slots g') = slot_of j (gv_slots g)).
Context (Hlink : pv_group p' = Some gp <-> k ∈ guids (gv_slots g')).
Context (Hsub : forall s, slot_of k (gv_slots g') = Some s -> ms_group s = pv_sub p').
Context (Helse : forall gp1, gp1 <> gp -> pv_group p <> Some gp1 /\ pv_group p' <> Some gp1).
Context (Hinvites : forall gp1, gp1 <> gp -> (pv_invite p' = Some gp1 <-> pv_invite p = Some gp1)).
Context (Hinvited : pv_invite p' <> None -> pv_group p' = None).

Local Notation c' := (cp k (fun _ => p') (cg gp (fun _ => g') c)).

Lemma player_cases j q : c_players c' !! j = Some q -> (j = k /\ q = p') \/ (j <> k /\ c_players c !! j = Some q).
Proof. rewrite cp_lookup. cbn [cg c_players]. case_decide; [rewrite Hp; intros [= <-]; by left|by right]. Qed.

Lemma new_player : c_players c' !! k = Some p'.
Proof. rewrite cp_lookup, decide_True by done. cbn [cg c_players]. by rewrite Hp. Qed.
Lemma old_player j : j <> k -> c_players c' !! j = c_players c !! j.
Proof. intros. by rewrite cp_lookup, decide_False. Qed.

Lemma elsewhere gp1 : gp1 <> gp -> ~ member_of k gp1 c.
Proof. intros Hn Hm. destruct (Helse gp1 Hn) as [Hne _]. apply Hne. by apply (wf_link c Hc k p). Qed.

Lemma other_slots j : j <> k -> (j ∈ guids (gv_slots g') <-> j ∈ guids (gv_slots g)).
Proof.
  intros Hn. pose proof (Hothers j Hn) as Hs. destruct (decide (j ∈ guids (gv_slots g))) as [Hi|Hi].
  - split; [done|]. intros _. destruct (decide (j ∈ guids (gv_slots g'))) as [|Hni]; [done|].
    apply slot_of_None in Hni. rewrite Hs in Hni. by apply slot_of_None in Hni.
  - split; [|done]. intros Hi'. apply slot_of_None in Hi. rewrite <- Hs in Hi. by apply slot_of_None in Hi.
Qed.

Lemma member_both j gp1 : member_of j gp1 c' <-> if decide (j = k) then gp1 = gp /\ pv_group p' = Some gp else member_of j gp1 c.
Proof.
  change (member_of j gp1 c') with (member_of j gp1 (cg gp (fun _ => g') c)).
  rewrite (member_of_cases c gp g g' Hg). case_decide; subst.
  - rewrite Hlink. split; [intros [[-> ?]|[Hn Hm]]; [done|by destruct (elsewhere gp1 Hn)]|]. intros [-> ?]. by left.
  - rewrite other_slots by done. unfold member_of at 2. destruct (decide (gp1 = gp)) as [->|Hn].
    + split; [intros [[_ ?]|[? _]]; [eauto|done]|]. intros (g1 & H1 & ?). left. split; [done|]. congruence.
    + unfold member_of. split; [intros [[? _]|[_ ?]]; done|]. by right.
Qed.

Lemma links_update : links c'.
Proof.
  constructor.
  - apply (wf_ub c Hc).
  - intros j q [[-> ->]|[Hn Hq]]%player_cases; [|by apply (wf_player c Hc)].
    destruct (wf_player c Hc k p Hp) as (? & ? & ? & ?). rewrite Hguid, Hworld, Horig. done.
  - intros gp1 g1 H1. apply (group_cases c gp g g' Hg) in H1 as [[-> ->]|[Hn H1]]; [|by apply (wf_group c Hc)].
    destruct (wf_group c Hc gp g Hg) as (? & ? & ?). done.
  - intros gp1 g1 j b H1. destruct (decide (j = k)) as [->|Hj].
    + apply (group_cases c gp g g' Hg) in H1 as [[-> ->]|[Hn H1]].
      * rewrite Hmgr, decide_True by done. split; [intros [-> ?]; split; [done|]; eexists; split; [apply new_player|done]|].
        intros [-> (q & Hq & ?)]. rewrite new_player in Hq. injection Hq as <-. done.
      * rewrite (wf_mgr c Hc gp1 g1 k b H1). destruct (Helse gp1 Hn) as [Hne Hne'].
        split; intros [-> (q & Hq & ?)]; [|rewrite new_player in Hq]; congruence.
    + rewrite old_player by done. apply (group_cases c gp g g' Hg) in H1 as [[-> ->]|[Hn H1]]; [|by apply (wf_mgr c Hc)].
      rewrite Hmgr, decide_False by done. by apply (wf_mgr c Hc).
  - intros j q gp1 Hq. rewrite member_both. apply player_cases in Hq as [[-> ->]|[Hn Hq]].
    + rewrite decide_True by done. split; [|intros [-> ?]; done]. intros H1. destruct (decide (gp1 = gp)) as [->|Hn]; [done|].
      by destruct (Helse gp1 Hn).
    + rewrite decide_False by done. by apply (wf_link c Hc).
  - intros j q gp1 g1 s Hq H1 Hs. apply player_cases in Hq as [[-> ->]|[Hn Hq]].
    + apply (group_cases c gp g g' Hg) in H1 as [[-> ->]|[Hn H1]]; [by apply Hsub|].
      destruct (elsewhere gp1 Hn). exists g1. split; [done|]. apply slot_of_Some in Hs as [? <-]. by apply list_elem_of_fmap_2.
    + apply (group_cases c gp g g' Hg) in H1 as [[-> ->]|[Hn1 H1]]; [|by apply (wf_sub c Hc j q gp1 g1)].
      rewrite Hothers in Hs by done. by apply (wf_sub c Hc j q gp g).
  - intros j gp1 gp2. rewrite !member_both. case_decide; [intros [-> _] [-> _]; done|]. apply (wf_one c Hc).
  - intros gp1 g1 j H1. destruct (decide (j = k)) as [->|Hj].
    + apply (group_cases c gp g g' Hg) in H1 as [[-> ->]|[Hn H1]].
      * rewrite Hinv, decide_True by done. split; [intros ?; eexists; split; [apply new_player|done]|].
        intros (q & Hq & ?). rewrite new_player in Hq. congruence.
      * rewrite (wf_inv c Hc gp1 g1 k H1). pose proof (Hinvites gp1 Hn) as Hi.
        split; intros (q & Hq & H2); [exists p'; split; [apply new_player|]; apply Hi; congruence|].
        rewrite new_player in Hq. exists p. split; [done|]. apply Hi. congruence.
    + rewrite old_player by done. apply (group_cases c gp g g' Hg) in H1 as [[-> ->]|[Hn H1]]; [|by apply (wf_inv c Hc)].
      rewrite Hinv, decide_False by done. by apply (wf_inv c Hc).
  - intros j q gp1 Hq Hi. apply player_cases in Hq as [[-> ->]|[Hn Hq]].
    + split; [|apply Hinvited; by rewrite Hi]. destruct (decide (gp1 = gp)) as [->|Hn].
      * change (c_groups c') with (c_groups (cg gp (fun _ => g') c)). rewrite cg_lookup, decide_True, Hg by done. done.
      * apply (Hinvites gp1 Hn) in Hi. destruct (wf_invite c Hc k p gp1 Hp Hi) as [Hl _].
        change (c_groups c') with (c_groups (cg gp (fun _ => g') c)). by rewrite cg_lookup, decide_False.
    + destruct (wf_invite c Hc j q gp1 Hq Hi) as [Hl ?]. split; [|done].
      change (c_groups c') with (c_groups (cg gp (fun _ => g') c)). rewrite cg_lookup. case_decide; [by rewrite Hg|done].
  - intros id gp1 Hm. destruct (wf_map c Hc id gp1 Hm) as [? (g1 & H1 & Hi)]. split; [done|].
    change (c_groups c') with (c_groups (cg gp (fun _ => g') c)). destruct (decide (gp1 = gp)) as [->|Hn].
    + exists g'. rewrite cg_lookup, decide_True, Hg by done. split; [done|]. congruence.
    + exists g1. by rewrite cg_lookup, decide_False.
Qed.
End UpdateBoth.
