(* ===== verification/GroupSlots.v ===== *)
(** * GroupSlots: members, subgroups and their counters

    The counters of a raid are kept by hand, one up and one down at a time.
    Here: every way the slots change keeps [slots_ok]. *)
From S2P Require Import Prelude ByteBuffer ObjectGuid GroupData GroupPackets GroupLoot MeetingStone Group GroupHandlers GroupCore GroupSound.

Implicit Types (l : list MemberSlot) (s : MemberSlot).

(** ** Subgroups up to the order of the members *)

#[export] Instance subgroup_size_perm i : Proper ((≡ₚ) ==> eq) (subgroup_size i).
Proof. intros l1 l2 Hl. unfold subgroup_size. by rewrite Hl. Qed.
#[export] Instance guids_perm : Proper ((≡ₚ) ==> (≡ₚ)) guids.
Proof. intros l1 l2 Hl. unfold guids. by rewrite Hl. Qed.

Lemma subgroup_size_cons i s l : subgroup_size i (s :: l) = ((if decide (ms_group s = i) then 1 else 0) + subgroup_size i l)%nat.
Proof. unfold subgroup_size. rewrite filter_cons. by case_decide. Qed.

(** The slots of the others. *)
Definition others (k : ObjectGuid) l : list MemberSlot := filter (fun s => ms_guid s <> k) l.

Lemma others_all k l : k ∉ guids l -> others k l = l.
Proof.
  intros Hk. apply filter_all. apply Forall_forall. intros s Hs <-. apply Hk. by apply list_elem_of_fmap_2.
Qed.
Lemma guids_others k l j : j ∈ guids (others k l) <-> j <> k /\ j ∈ guids l.
Proof.
  unfold guids, others. rewrite !list_elem_of_fmap. split.
  - intros (s & -> & [Hn Hs]%list_elem_of_filter). eauto.
  - intros [Hn (s & -> & Hs)]. exists s. split; [done|]. by apply list_elem_of_filter.
Qed.

Lemma slot_of_cons k s l : slot_of k (s :: l) = if decide (ms_guid s = k) then Some s else slot_of k l.
Proof. unfold slot_of. cbn. destruct (Z.eqb_spec (ms_guid s) k); case_decide; done. Qed.
Lemma slot_of_app k l1 l2 : slot_of k (l1 ++ l2) = match slot_of k l1 with Some s => Some s | None => slot_of k l2 end.
Proof. induction l1 as [|s l1 IH]; [done|]. cbn [app]. rewrite !slot_of_cons. by case_decide. Qed.
Lemma slot_of_others k l j : slot_of j (others k l) = if decide (j = k) then None else slot_of j l.
Proof.
  induction l as [|s l IH]; [by case_decide|]. unfold others in *. rewrite filter_cons, slot_of_cons.
  destruct (decide (ms_guid s <> k)) as [Hn|Hn].
  - rewrite slot_of_cons, IH. repeat case_decide; congruence.
  - rewrite IH. repeat case_decide; try done. exfalso. apply Hn. congruence.
Qed.

Lemma slot_split k s l : NoDup (guids l) -> slot_of k l = Some s -> exists l1 l2, l = l1 ++ s :: l2 /\ k ∉ guids l1 /\ k ∉ guids l2.
Proof.
  intros Hnd Hs. pose proof (slot_of_Some _ _ _ Hs) as [Hin <-]. apply list_elem_of_split in Hin as (l1 & l2 & ->).
  unfold guids in *. rewrite fmap_app, fmap_cons in Hnd. apply NoDup_app in Hnd as (_ & Hd & [Hni _]%NoDup_cons).
  exists l1, l2. split; [done|]. split; [|done]. intros Hin. apply (Hd _ Hin). by left.
Qed.

Lemma erase_slot_others k l : NoDup (guids l) -> erase_slot k l = others k l.
Proof.
  intros Hnd. destruct (slot_of k l) as [s|] eqn:Hs.
  - pose proof (slot_of_Some _ _ _ Hs) as [_ Hg]. destruct (slot_split k s l Hnd Hs) as (l1 & l2 & -> & H1 & H2).
    unfold erase_slot, others. assert (list_find (fun s => ms_guid s = k) (l1 ++ s :: l2) = Some (length l1, s)) as ->.
    { apply list_find_Some. split; [by apply list_lookup_middle|]. split; [done|]. intros j y Hy Hlt ?. apply H1.
      rewrite lookup_app_l in Hy by done. apply list_elem_of_fmap. exists y. split; [done|]. by eapply list_elem_of_lookup_2. }
    rewrite delete_middle, filter_app, filter_cons_False by naive_solver.
    by rewrite <- (others_all k l1 H1) at 1; rewrite <- (others_all k l2 H2) at 1.
  - apply slot_of_None in Hs. rewrite others_all by done. unfold erase_slot.
    destruct (list_find _ l) as [[i s]|] eqn:E; [|done]. apply list_find_Some in E as (Hi & Hg & _). destruct Hs.
    apply list_elem_of_fmap. exists s. split; [done|]. by eapply list_elem_of_lookup_2.
Qed.

(** Change the slot of one member. *)
Definition on_slot (k : ObjectGuid) (f : MemberSlot -> MemberSlot) s : MemberSlot := if decide (ms_guid s = k) then f s else s.

Lemma on_slot_none k f l : k ∉ guids l -> on_slot k f <$> l = l.
Proof.
  intros Hk. rewrite <- (list_fmap_id l) at 2. apply list_fmap_ext. intros i s Hs. unfold on_slot. case_decide; [|done].
  destruct Hk. apply list_elem_of_fmap. exists s. split; [done|]. by eapply list_elem_of_lookup_2.
Qed.

Lemma set_slot_map k f l : NoDup (guids l) -> set_slot k f l = on_slot k f <$> l.
Proof.
  intros Hnd. destruct (slot_of k l) as [s|] eqn:Hs.
  - pose proof (slot_of_Some _ _ _ Hs) as [_ Hg]. destruct (slot_split k s l Hnd Hs) as (l1 & l2 & -> & H1 & H2).
    unfold set_slot. assert (list_find (fun s => ms_guid s = k) (l1 ++ s :: l2) = Some (length l1, s)) as ->.
    { apply list_find_Some. split; [by apply list_lookup_middle|]. split; [done|]. intros j y Hy Hlt ?. apply H1.
      rewrite lookup_app_l in Hy by done. apply list_elem_of_fmap. exists y. split; [done|]. by eapply list_elem_of_lookup_2. }
    rewrite fmap_app, fmap_cons, (on_slot_none k f l1 H1), (on_slot_none k f l2 H2).
    rewrite alter_app_r_alt by lia. rewrite Nat.sub_diag. cbn. unfold on_slot. by rewrite decide_True.
  - apply slot_of_None in Hs. rewrite on_slot_none by done. unfold set_slot.
    destruct (list_find _ l) as [[i s]|] eqn:E; [|done]. apply list_find_Some in E as (Hi & Hg & _). destruct Hs.
    apply list_elem_of_fmap. exists s. split; [done|]. by eapply list_elem_of_lookup_2.
Qed.

Definition keeps_guid (f : MemberSlot -> MemberSlot) : Prop := forall s, ms_guid (f s) = ms_guid s.

Lemma guids_on_slot k f l : keeps_guid f -> guids (on_slot k f <$> l) = guids l.
Proof. intros Hf. unfold guids. rewrite <- list_fmap_compose. apply list_fmap_ext. intros i s _. cbn. unfold on_slot. by case_decide. Qed.
Lemma slot_of_on_slot k f l j :
  keeps_guid f -> slot_of j (on_slot k f <$> l) = if decide (j = k) then f <$> slot_of j l else slot_of j l.
Proof.
  intros Hf. assert (Hg : forall s, ms_guid (on_slot k f s) = ms_guid s) by (intros s; unfold on_slot; by case_decide).
  induction l as [|s l IH]; [by case_decide|]. rewrite fmap_cons, !slot_of_cons, Hg, IH.
  destruct (decide (ms_guid s = j)) as [<-|Hj]; [|done]. unfold on_slot. by destruct (decide (ms_guid s = k)).
Qed.

Lemma slot_perm k s l : NoDup (guids l) -> slot_of k l = Some s -> l ≡ₚ s :: others k l.
Proof.
  intros Hnd Hs. pose proof (slot_of_Some _ _ _ Hs) as [_ Hg]. destruct (slot_split k s l Hnd Hs) as (l1 & l2 & -> & H1 & H2).
  unfold others. rewrite filter_app, filter_cons_False by naive_solver.
  pose proof (others_all k l1 H1) as E1. pose proof (others_all k l2 H2) as E2. unfold others in E1, E2. rewrite E1, E2.
  by rewrite Permutation_middle.
Qed.
Lemma on_slot_perm k f s l : NoDup (guids l) -> slot_of k l = Some s -> on_slot k f <$> l ≡ₚ f s :: others k l.
Proof.
  intros Hnd Hs. pose proof (slot_of_Some _ _ _ Hs) as [_ Hg]. destruct (slot_split k s l Hnd Hs) as (l1 & l2 & -> & H1 & H2).
  unfold others. rewrite filter_app, filter_cons_False by naive_solver.
  pose proof (others_all k l1 H1) as E1. pose proof (others_all k l2 H2) as E2. unfold others in E1, E2. rewrite E1, E2.
  rewrite fmap_app, fmap_cons, (on_slot_none k f l1 H1), (on_slot_none k f l2 H2). unfold on_slot. rewrite decide_True by done.
  by rewrite Permutation_middle.
Qed.

(** ** Counters *)

Definition counts_ok (c : list Z) l : Prop :=
  length c = 8%nat /\ forall i, 0 <= i < 8 -> c !! Z.to_nat i = Some (Z.of_nat (subgroup_size i l)).

Lemma bump_lookup d sub c i n :
  0 <= sub < 8 -> 0 <= i < 8 -> c !! Z.to_nat i = Some n ->
  bump d sub c !! Z.to_nat i = Some (if decide (i = sub) then u8 (n + d) else n).
Proof.
  intros Hs Hi Hn. unfold bump. case_decide; subst.
  - by rewrite list_lookup_alter_eq, Hn.
  - rewrite list_lookup_alter_ne by lia. done.
Qed.

(** The counters after a change of the sizes of one subgroup. *)
Lemma counts_bump d sub c l l' :
  0 <= sub < 8 -> counts_ok c l ->
  (forall i, 0 <= i < 8 -> Z.of_nat (subgroup_size i l') = Z.of_nat (subgroup_size i l) + if decide (i = sub) then d else 0) ->
  Z.of_nat (subgroup_size sub l') < 256 -> counts_ok (bump d sub c) l'.
Proof.
  intros Hs [Hlen Hc] Hd Hb. split; [unfold bump; by rewrite length_alter|].
  intros i Hi. rewrite (bump_lookup d sub c i _ Hs Hi (Hc i Hi)). f_equal. specialize (Hd i Hi).
  case_decide; subst; [|lia]. rewrite <- Hd. apply u8_id. unfold is_u. lia.
Qed.

Lemma sub_count_ok c l i : counts_ok c l -> 0 <= i < 8 -> sub_count c i = Z.of_nat (subgroup_size i l).
Proof. intros [_ Hc] Hi. unfold sub_count. by rewrite (Hc i Hi). Qed.

Lemma count_slots_ok l :
  Forall (fun s => 0 <= ms_group s < MAX_RAID_SUBGROUPS) l -> (length l < 256)%nat -> counts_ok (count_slots l) l.
Proof.
  unfold count_slots. induction l as [|s l IH] using rev_ind; intros Hr Hl.
  - split; [done|]. intros i Hi. change (subgroup_size i []) with 0%nat. 
    change (replicate 8 0 !! Z.to_nat i = Some 0). apply lookup_replicate. split; [done|]. lia.
  - rewrite length_app in Hl. cbn in Hl. apply Forall_app in Hr as [Hr Hs]. rewrite Forall_singleton in Hs.
    rewrite foldl_app. cbn [foldl]. apply (counts_bump 1 (ms_group s) _ l); [exact Hs|apply IH; [done|lia]| |].
    + intros i Hi. rewrite (Permutation_app_comm l [s]). cbn [app]. rewrite subgroup_size_cons.
      repeat case_decide; subst; lia || congruence.
    + pose proof (length_filter (fun t => ms_group t = ms_group s) (l ++ [s])) as Hlf. rewrite length_app in Hlf. cbn in Hlf.
      unfold subgroup_size. lia.
Qed.

(** ** [slots_ok] is kept *)

Lemma raid_counts l c : raid_slots l (Some c) -> counts_ok c l.
Proof. intros [(c' & [= <-] & ? & ?) _ _]. by split. Qed.
Lemma raid_counts_some l o : raid_slots l o -> exists c, o = Some c.
Proof. intros [(c & -> & _) _ _]. eauto. Qed.
Lemma to_raid_slots l c :
  counts_ok c l -> Forall (fun s => 0 <= ms_group s < MAX_RAID_SUBGROUPS) l -> (forall i, (subgroup_size i l <= 5)%nat) -> raid_slots l (Some c).
Proof. intros [? ?] ? ?. split; [by exists c|done|done]. Qed.

Definition bump_opt (d sub : Z) (o : option (list Z)) : option (list Z) := bump d sub <$> o.

Lemma slots_ok_add raid l o s :
  slots_ok raid l o -> ms_guid s ∉ guids l -> ms_guid s <> 0 ->
  Z.of_nat (length l) < (if raid then MAX_RAID_SIZE else MAX_GROUP_SIZE) ->
  (if raid then 0 <= ms_group s < 8 /\ (subgroup_size (ms_group s) l < 5)%nat else ms_group s = 0) ->
  slots_ok raid (l ++ [s]) (bump_opt 1 (ms_group s) o).
Proof.
  intros [Hnd H0 Hsz Hsub] Hnew Hz Hfull Hs. constructor.
  - unfold guids in *. rewrite fmap_app. apply NoDup_app. split; [done|]. split; [|apply NoDup_singleton].
    intros j Hj [= ->]%list_elem_of_singleton. done.
  - unfold guids in *. rewrite fmap_app. intros [?|Hj]%elem_of_app; [done|]. apply list_elem_of_singleton in Hj. congruence.
  - rewrite length_app. cbn. lia.
  - destruct raid.
    + destruct (raid_counts_some _ _ Hsub) as [c ->]. cbn. destruct Hs as [Hr Hlt].
      assert (Hsize : forall i, subgroup_size i (l ++ [s]) = ((if decide (ms_group s = i) then 1 else 0) + subgroup_size i l)%nat).
      { intros i. rewrite (Permutation_app_comm l [s]). cbn [app]. apply subgroup_size_cons. }
      apply to_raid_slots.
      * apply (counts_bump 1 _ _ l); [done|by apply raid_counts| |].
        -- intros i Hi. rewrite Hsize. repeat case_decide; subst; lia || congruence.
        -- rewrite Hsize, decide_True by done. lia.
      * apply Forall_app. split; [apply (rs_range _ _ Hsub)|]. by apply Forall_singleton.
      * intros i. rewrite Hsize. pose proof (rs_size _ _ Hsub i). case_decide; subst; lia.
    + destruct Hsub as [-> Hg]. constructor; [done|]. apply Forall_app. split; [done|]. by apply Forall_singleton.
Qed.

Lemma slots_ok_erase raid l o k s :
  slots_ok raid l o -> slot_of k l = Some s -> slots_ok raid (others k l) (bump_opt (-1) (ms_group s) o).
Proof.
  intros [Hnd H0 Hsz Hsub] Hs. pose proof (slot_perm k s l Hnd Hs) as Hp. pose proof (slot_of_Some _ _ _ Hs) as [Hin Hk].
  constructor.
  - eapply sublist_NoDup; [exact Hnd|]. unfold guids, others. apply fmap_sublist, sublist_filter.
  - rewrite guids_others. tauto.
  - rewrite Hp in Hsz. cbn in Hsz. lia.
  - assert (Hsize : forall i, subgroup_size i l = ((if decide (ms_group s = i) then 1 else 0) + subgroup_size i (others k l))%nat).
    { intros i. rewrite Hp at 1. apply subgroup_size_cons. }
    destruct raid.
    + destruct (raid_counts_some _ _ Hsub) as [c ->]. cbn. pose proof (rs_size _ _ Hsub) as H5.
      assert (Hr : 0 <= ms_group s < 8) by (pose proof (rs_range _ _ Hsub) as Hf; rewrite Forall_forall in Hf; exact (Hf s Hin)).
      apply to_raid_slots.
      * apply (counts_bump (-1) _ _ l); [done|by apply raid_counts| |].
        -- intros i Hi. rewrite Hsize. repeat case_decide; subst; lia || congruence.
        -- pose proof (Hsize (ms_group s)). pose proof (H5 (ms_group s)). lia.
      * apply filter_Forall, (rs_range _ _ Hsub).
      * intros i. specialize (Hsize i). specialize (H5 i). lia.
    + destruct Hsub as [-> Hg]. constructor; [done|]. by apply filter_Forall.
Qed.

Lemma slots_ok_raid l o : slots_ok false l o -> slots_ok true l (Some (count_slots l)).
Proof.
  intros [Hnd H0 Hsz [-> Hg]]. unfold MAX_GROUP_SIZE in Hsz.
  assert (Hr : Forall (fun s => 0 <= ms_group s < MAX_RAID_SUBGROUPS) l).
  { eapply Forall_impl; [exact Hg|]. intros s ->. by compute. }
  constructor; [done|done|change MAX_RAID_SIZE with 40; lia|]. apply to_raid_slots; [apply count_slots_ok; [done|lia]|done|].
  intros i. unfold subgroup_size. etrans; [apply length_filter|]. lia.
Qed.
(** Converting a raid again changes nothing. *)
Lemma slots_ok_recount l o : slots_ok true l o -> slots_ok true l (Some (count_slots l)).
Proof.
  intros [Hnd H0 Hsz Hsub]. change MAX_RAID_SIZE with 40 in Hsz. constructor; [done|done|done|].
  apply to_raid_slots; [apply count_slots_ok; [apply (rs_range _ _ Hsub)|lia]|apply (rs_range _ _ Hsub)|apply (rs_size _ _ Hsub)].
Qed.

(** A member moves to a subgroup with a free place. *)
Lemma slots_ok_move l c k s sub :
  slots_ok true l (Some c) -> slot_of k l = Some s -> 0 <= sub < 8 -> ms_group s <> sub -> (subgroup_size sub l < 5)%nat ->
  slots_ok true (on_slot k (slot_group sub) <$> l) (Some (bump (-1) (ms_group s) (bump 1 sub c))).
Proof.
  intros [Hnd H0 Hsz Hsub] Hs Hr Hne Hlt. pose proof (slot_perm k s l Hnd Hs) as Hp. pose proof (slot_of_Some _ _ _ Hs) as [Hin Hk].
  pose proof (on_slot_perm k (slot_group sub) s l Hnd Hs) as Hp'.
  assert (Hrange : 0 <= ms_group s < 8) by (pose proof (rs_range _ _ Hsub) as Hf; rewrite Forall_forall in Hf; exact (Hf s Hin)).
  assert (Hsize : forall i, subgroup_size i l = ((if decide (ms_group s = i) then 1 else 0) + subgroup_size i (others k l))%nat).
  { intros i. rewrite Hp at 1. apply subgroup_size_cons. }
  assert (Hsize' : forall i, subgroup_size i (on_slot k (slot_group sub) <$> l)
                             = ((if decide (sub = i) then 1 else 0) + subgroup_size i (others k l))%nat).
  { intros i. rewrite Hp'. apply subgroup_size_cons. }
  pose proof (rs_size _ _ Hsub) as H5. constructor.
  - by rewrite guids_on_slot.
  - by rewrite guids_on_slot.
  - by rewrite length_fmap.
  - apply to_raid_slots.
    + apply (counts_bump (-1) _ _ (slot_group sub s :: l)).
      * done.
      * apply (counts_bump 1 _ _ l); [done|by apply raid_counts| |].
        -- intros i Hi. rewrite subgroup_size_cons. cbn. repeat case_decide; subst; lia || congruence.
        -- rewrite subgroup_size_cons. cbn. pose proof (H5 sub). rewrite decide_True by done. lia.
      * intros i Hi. rewrite Hsize', subgroup_size_cons, Hsize. change (ms_group (slot_group sub s)) with sub.
        destruct (decide (sub = i)), (decide (ms_group s = i)), (decide (i = ms_group s)); try congruence; lia.
      * rewrite Hsize'. pose proof (Hsize (ms_group s)). pose proof (H5 (ms_group s)).
        destruct (decide (sub = ms_group s)); [congruence|lia].
    + rewrite Hp'. constructor; [done|]. apply filter_Forall, (rs_range _ _ Hsub).
    + intros i. rewrite Hsize'. pose proof (Hsize i). pose proof (H5 i). destruct (decide (sub = i)); subst; lia.
Qed.

(** Two members change places. *)
Lemma slots_ok_swap l o k1 k2 s1 s2 :
  slots_ok true l o -> slot_of k1 l = Some s1 -> slot_of k2 l = Some s2 -> k1 <> k2 ->
  slots_ok true (on_slot k1 (slot_group (ms_group s2)) <$> (on_slot k2 (slot_group (ms_group s1)) <$> l)) o.
Proof.
  intros [Hnd H0 Hsz Hsub] H1 H2 Hne. set (l1 := on_slot k2 (slot_group (ms_group s1)) <$> l).
  assert (Hnd1 : NoDup (guids l1)) by (unfold l1; by rewrite guids_on_slot).
  assert (Hs1 : slot_of k1 l1 = Some s1) by (unfold l1; rewrite slot_of_on_slot, decide_False by done; done).
  pose proof (slot_perm k2 s2 l Hnd H2) as P2. pose proof (on_slot_perm k2 (slot_group (ms_group s1)) s2 l Hnd H2) as P2'. fold l1 in P2'.
  pose proof (slot_perm k1 s1 l1 Hnd1 Hs1) as P1. pose proof (on_slot_perm k1 (slot_group (ms_group s2)) s1 l1 Hnd1 Hs1) as P1'.
  assert (Hsize : forall i, subgroup_size i (on_slot k1 (slot_group (ms_group s2)) <$> l1) = subgroup_size i l).
  { intros i. rewrite P1', subgroup_size_cons. cbn.
    assert (E1 : subgroup_size i l1 = ((if decide (ms_group s1 = i) then 1 else 0) + subgroup_size i (others k1 l1))%nat)
      by (rewrite P1 at 1; apply subgroup_size_cons).
    assert (E2 : subgroup_size i l1 = ((if decide (ms_group s1 = i) then 1 else 0) + subgroup_size i (others k2 l))%nat)
      by (rewrite P2', subgroup_size_cons; done).
    assert (E3 : subgroup_size i l = ((if decide (ms_group s2 = i) then 1 else 0) + subgroup_size i (others k2 l))%nat)
      by (rewrite P2 at 1; apply subgroup_size_cons). lia. }
  assert (Hrange : forall s, s ∈ l -> 0 <= ms_group s < MAX_RAID_SUBGROUPS)
    by (pose proof (rs_range _ _ Hsub) as Hf; by rewrite Forall_forall in Hf).
  constructor.
  - by rewrite guids_on_slot.
  - unfold l1. by rewrite !guids_on_slot.
  - unfold l1. by rewrite !length_fmap.
  - destruct (raid_counts_some _ _ Hsub) as [c ->]. destruct (raid_counts _ _ Hsub) as [Hlen Hc]. apply to_raid_slots.
    + split; [done|]. intros i Hi. rewrite Hsize. by apply Hc.
    + rewrite Forall_forall. intros s Hs. rewrite P1' in Hs. apply elem_of_cons in Hs as [->|Hs].
      * cbn. apply Hrange. by apply slot_of_Some in H2 as [? _].
      * apply list_elem_of_filter in Hs as [_ Hs]. unfold l1 in Hs. apply list_elem_of_fmap in Hs as (t & -> & Ht).
        unfold on_slot. case_decide; [|by apply Hrange]. cbn. apply Hrange. by apply slot_of_Some in H1 as [? _].
    + intros i. rewrite Hsize. apply (rs_size _ _ Hsub).
Qed.

(** A change that leaves the subgroups alone. *)
Lemma slots_ok_same raid l o k f :
  slots_ok raid l o -> keeps_guid f -> (forall s, ms_group (f s) = ms_group s) -> slots_ok raid (on_slot k f <$> l) o.
Proof.
  intros [Hnd H0 Hsz Hsub] Hf Hg. assert (Hgr : forall s, ms_group (on_slot k f s) = ms_group s) by (intros s; unfold on_slot; by case_decide).
  assert (Hall : forall P : Z -> Prop, Forall (fun s => P (ms_group s)) l -> Forall (fun s => P (ms_group s)) (on_slot k f <$> l)).
  { intros P HP. apply Forall_fmap. eapply Forall_impl; [exact HP|]. intros s. cbn. by rewrite Hgr. }
  assert (Hsize : forall i, subgroup_size i (on_slot k f <$> l) = subgroup_size i l).
  { intros i. clear -Hgr. induction l as [|s l IH]; [done|]. rewrite fmap_cons, !subgroup_size_cons, IH, Hgr. done. }
  constructor.
  - by rewrite guids_on_slot.
  - by rewrite guids_on_slot.
  - by rewrite length_fmap.
  - destruct raid.
    + destruct (raid_counts_some _ _ Hsub) as [c ->]. destruct (raid_counts _ _ Hsub) as [Hlen Hc]. apply to_raid_slots.
      * split; [done|]. intros i Hi. rewrite Hsize. by apply Hc.
      * apply (Hall (fun g => 0 <= g < MAX_RAID_SUBGROUPS)), (rs_range _ _ Hsub).
      * intros i. rewrite Hsize. apply (rs_size _ _ Hsub).
    + destruct Hsub as [-> Hz]. constructor; [done|]. by apply (Hall (fun g => g = 0)).
Qed.
