(* ===== verification/GroupSteps.v ===== *)
(** * GroupSteps: the steps that change memberships

    Joining, leaving, inviting, leading, moving and dissolving as functions on
    the core. Each keeps [wf] and touches one group only. *)
From S2P Require Import Prelude ByteBuffer ObjectGuid GroupData GroupPackets GroupLoot MeetingStone Group GroupHandlers GroupCore GroupSound GroupSlots.

#[global] Arguments slot_of : simpl never.
#[global] Arguments guids : simpl never.
#[global] Arguments others : simpl never.

Implicit Types (c : Core) (g : GView) (p : PView).

(** ** Steps on one group *)

(** What a step on the group [gp] leaves alone. *)
Record only (gp : Z) c c' : Prop := {
  only_groups : forall gp', gp' <> gp -> c_groups c' !! gp' = c_groups c !! gp';
  only_map : forall id gp', gp' <> gp -> c_map c' !! id = Some gp' <-> c_map c !! id = Some gp';
  only_invites : forall k p gp', gp' <> gp -> c_players c !! k = Some p -> pv_invite p = Some gp' ->
    exists p', c_players c' !! k = Some p' /\ pv_invite p' = Some gp'
}.
#[export] Instance only_preorder gp : PreOrder (only gp).
Proof.
  split.
  - intros c. split; [done|done|eauto].
  - intros c1 c2 c3 [G M I] [G' M' I']. split.
    + intros gp' Hn. by rewrite G', G.
    + intros id gp' Hn. by rewrite M', M.
    + intros k p gp' Hn Hp Hi. destruct (I k p gp' Hn Hp Hi) as (p' & Hp' & Hi'). eauto.
Qed.

(** Everything but the group a handler is working on is sound. *)
Definition sound_but (gp : Z) c : Prop := wf c /\ forall gp' g, gp' <> gp -> c_groups c !! gp' = Some g -> group_sound c gp' g.

Lemma group_sound_only gp gp' c c' g : only gp c c' -> gp' <> gp -> group_sound c gp' g -> group_sound c' gp' g.
Proof.
  intros [G M I] Hn [Hc Hf]. constructor.
  - intros Hs. destruct (Hc Hs) as (? & ? & Hm). split; [done|]. split; [done|]. by apply M.
  - intros Hs. destruct (Hf Hs) as (? & Hm & (p & Hp & Hi)). split; [done|]. split.
    + intros id Hid. apply (Hm id). by apply M.
    + by apply (I _ p).
Qed.
Lemma sound_but_only gp c c' : sound_but gp c -> only gp c c' -> wf c' -> sound_but gp c'.
Proof.
  intros [_ Hs] Ho Hw. split; [done|]. intros gp' g Hn Hg. rewrite (only_groups _ _ _ Ho gp' Hn) in Hg.
  apply (group_sound_only gp gp' c c'); [done|done|]. by apply Hs.
Qed.
Lemma sound_sound_but gp c : sound c -> sound_but gp c.
Proof. intros [Hw Hs]. split; [done|]. eauto. Qed.
Lemma sound_but_sound gp c : sound_but gp c -> (forall g, c_groups c !! gp = Some g -> group_sound c gp g) -> sound c.
Proof. intros [Hw Hs] Hg. split; [done|]. intros gp' g Hgp. destruct (decide (gp' = gp)) as [->|Hn]; eauto. Qed.

(** ** Shapes of steps *)

Lemma both_const k p gp g f h c :
  c_players c !! k = Some p -> c_groups c !! gp = Some g -> cp k f (cg gp h c) = cp k (fun _ => f p) (cg gp (fun _ => h g) c).
Proof. intros Hp Hg. rewrite (cg_const gp g h c Hg). by apply cp_const. Qed.

Lemma cp_none k f c : c_players c !! k = None -> cp k f c = c.
Proof.
  intros Hp. destruct c. unfold cp. cbn in *. f_equal. apply map_eq. intros j.
  destruct (decide (j = k)) as [->|Hj]; [by rewrite lookup_alter_eq, Hp|by rewrite lookup_alter_ne].
Qed.

Lemma cg_same gp g c : c_groups c !! gp = Some g -> cg gp (fun _ => g) c = c.
Proof.
  intros Hg. destruct c. unfold cg. cbn in *. f_equal. apply map_eq. intros j.
  destruct (decide (j = gp)) as [->|Hj]; [by rewrite lookup_alter_eq, Hg|by rewrite lookup_alter_ne].
Qed.

Lemma only_cg gp f c : only gp c (cg gp f c).
Proof.
  split; [|done|intros k p gp' _ Hp Hi; eauto]. intros gp' Hn. by rewrite cg_lookup, decide_False.
Qed.
(** A player's invitations to the other groups stay. *)
Lemma only_cp gp k f c :
  (forall p gp', c_players c !! k = Some p -> gp' <> gp -> pv_invite p = Some gp' -> pv_invite (f p) = Some gp') -> only gp c (cp k f c).
Proof.
  intros Hf. split; [done|done|]. intros j p gp' Hn Hp Hi. rewrite cp_lookup. destruct (decide (j = k)) as [->|Hj]; [|eauto].
  rewrite Hp. cbn. eauto.
Qed.

(** Every other group keeps its counters. *)
Lemma counted_cg gp g f c :
  c_groups c !! gp = Some g -> counted c -> slots_ok (gv_raid (f g)) (gv_slots (f g)) (gv_counts (f g)) -> counted (cg gp f c).
Proof.
  intros Hg Hc Hf gp' g' Hg'. rewrite cg_lookup in Hg'. destruct (decide (gp' = gp)) as [->|Hn]; [|by apply (Hc gp')].
  rewrite Hg in Hg'. by injection Hg' as <-.
Qed.
Lemma counted_cp k f c : counted c -> counted (cp k f c).
Proof. done. Qed.

(** A player has no group exactly when no group has the player. *)
Lemma no_group c k p : links c -> c_players c !! k = Some p -> pv_group p = None -> forall gp, ~ member_of k gp c.
Proof. intros Hc Hp Hn gp Hm. apply (wf_link c Hc k p gp Hp) in Hm. congruence. Qed.
Lemma not_invited c k p gp g : links c -> c_players c !! k = Some p -> pv_invite p <> Some gp -> c_groups c !! gp = Some g -> k ∉ gv_inv g.
Proof. intros Hc Hp Hn Hg Hk. apply (wf_inv c Hc gp g k Hg) in Hk as (p' & Hp' & ?). congruence. Qed.
Lemma not_linked c k p gp g b : links c -> c_players c !! k = Some p -> pv_group p <> Some gp -> c_groups c !! gp = Some g -> (k, b) ∉ gv_mgr g.
Proof. intros Hc Hp Hn Hg Hk. apply (wf_mgr c Hc gp g k b Hg) in Hk as [_ (p' & Hp' & ?)]. congruence. Qed.

(** ** Joining *)

Definition pv_join (gp sub : Z) p : PView := mkPV (pv_guid p) (pv_inWorld p) (Some gp) sub (pv_orig p) None.
Definition gv_join (s : MemberSlot) g : GView :=
  mkGV (gv_id g) (gv_slots g ++ [s]) ((ms_guid s, false) :: gv_mgr g) (gv_inv g) (gv_leader g) (gv_raid g) (gv_bg g)
    (bump_opt 1 (ms_group s) (gv_counts g)).
Definition c_join (gp : Z) (s : MemberSlot) c : Core := cp (ms_guid s) (pv_join gp (ms_group s)) (cg gp (gv_join s) c).

Lemma slot_of_snoc k l s : ms_guid s <> k -> slot_of k (l ++ [s]) = slot_of k l.
Proof. intros Hn. rewrite slot_of_app, slot_of_cons, decide_False by done. by destruct (slot_of k l). Qed.

Section Join.
Context (c : Core) (gp : Z) (s : MemberSlot) (p : PView) (g : GView).
Context (Hc : links c) (Hp : c_players c !! ms_guid s = Some p) (Hg : c_groups c !! gp = Some g).
Context (Hgroup : pv_group p = None) (Hinvite : pv_invite p = None).

Lemma links_join : links (c_join gp s c).
Proof.
  set (k := ms_guid s). assert (Hk : k ∉ guids (gv_slots g)).
  { intros Hk. apply (no_group c k p Hc Hp Hgroup gp). by exists g. }
  unfold c_join. rewrite (both_const k p gp g _ _ c Hp Hg).
  destruct (wf_group c Hc gp g Hg) as (Hlt & Hbg & Hnd). apply (links_update c k p _ gp g); try done; cbn.
  - constructor; [|done]. apply (not_linked c k p gp g false); [done|done|congruence|done].
  - intros j b. rewrite elem_of_cons. destruct (decide (j = k)) as [->|Hj].
    + split; [intros [[= ->]|Hin]; [done|]|intros [-> _]; by left].
      by apply (not_linked c k p gp g b Hc Hp ltac:(congruence) Hg) in Hin.
    + split; [|by right]. intros [[= -> ->]|?]; done.
  - intros j. destruct (decide (j = k)) as [->|Hj]; [|done].
    split; [|done]. intros Hin. by apply (not_invited c k p gp g Hc Hp ltac:(congruence) Hg) in Hin.
  - intros j Hj. apply slot_of_snoc. unfold k in Hj. congruence.
  - split; [|done]. intros _. unfold guids. rewrite fmap_app. apply elem_of_app. right. by left.
  - intros t. rewrite slot_of_app, slot_of_cons. apply slot_of_None in Hk. rewrite Hk, decide_True by done. by intros [= <-].
  - intros gp1 Hn. rewrite Hgroup. split; congruence.
  - intros gp1 Hn. by rewrite Hinvite.
Qed.

Lemma counted_join :
  counted c -> ms_guid s <> 0 -> Z.of_nat (length (gv_slots g)) < (if gv_raid g then MAX_RAID_SIZE else MAX_GROUP_SIZE) ->
  (if gv_raid g then 0 <= ms_group s < 8 /\ (subgroup_size (ms_group s) (gv_slots g) < 5)%nat else ms_group s = 0) ->
  counted (c_join gp s c).
Proof.
  intros Hok Hz Hfull Hs. apply counted_cp, (counted_cg gp g); [done|done|]. cbn. apply slots_ok_add; [exact (Hok gp g Hg)| |done|done|done].
  intros Hk. apply (no_group c _ p Hc Hp Hgroup gp). by exists g.
Qed.

Lemma only_join : only gp c (c_join gp s c).
Proof.
  unfold c_join. etrans; [apply only_cg|]. apply only_cp. intros p' gp' Hp' Hn Hi. cbn [cg c_players] in Hp'. congruence.
Qed.
End Join.

(** ** Leaving *)

Definition pv_leave p : PView := pv_set_group None (pv_sub p) p.
Definition gv_leave (k : ObjectGuid) (sub : Z) g : GView :=
  mkGV (gv_id g) (others k (gv_slots g)) (filter (fun r => r <> (k, false)) (gv_mgr g)) (gv_inv g) (gv_leader g) (gv_raid g) (gv_bg g)
    (bump_opt (-1) sub (gv_counts g)).
Definition c_leave (gp : Z) (k : ObjectGuid) (sub : Z) c : Core := cp k pv_leave (cg gp (gv_leave k sub) c).

Lemma guids_not_others k l : k ∉ guids (others k l).
Proof. rewrite guids_others. tauto. Qed.

Section Leave.
Context (c : Core) (gp : Z) (g : GView) (s : MemberSlot).
Context (Hc : links c) (Hg : c_groups c !! gp = Some g) (Hs : slot_of (ms_guid s) (gv_slots g) = Some s).
Local Notation k := (ms_guid s).

Lemma leaver_member : member_of k gp c.
Proof. exists g. split; [done|]. pose proof (slot_of_Some _ _ _ Hs) as [? _]. by apply list_elem_of_fmap_2. Qed.

Lemma links_leave sub : links (c_leave gp k sub c).
Proof.
  destruct (wf_group c Hc gp g Hg) as (Hlt & Hbg & Hnd). unfold c_leave. destruct (c_players c !! k) as [p|] eqn:Hp.
  - assert (Hgp : pv_group p = Some gp) by (apply (wf_link c Hc k p gp Hp), leaver_member).
    rewrite (both_const k p gp g _ _ c Hp Hg). apply (links_update c k p _ gp g); try done; cbn.
    + by apply NoDup_filter.
    + intros j b. rewrite list_elem_of_filter. destruct (decide (j = k)) as [->|Hj].
      * split; [|by intros [_ ?]]. intros [Hn Hin]. apply (wf_mgr c Hc gp g k b Hg) in Hin as [-> _]. done.
      * split; [by intros [_ ?]|]. intros Hin. split; [congruence|done].
    + intros j. destruct (decide (j = k)) as [->|Hj]; [|done]. rewrite (wf_inv c Hc gp g k Hg). split.
      * intros (p' & Hp' & ?). congruence.
      * intros Hi. destruct (wf_invite c Hc k p gp Hp Hi). congruence.
    + intros j Hj. by rewrite slot_of_others, decide_False.
    + split; [done|]. intros Hk. by apply guids_not_others in Hk.
    + intros t. rewrite slot_of_others, decide_True by done. done.
    + intros gp1 Hn. split; congruence.
  - rewrite cp_none by done. rewrite (cg_const gp g _ c Hg). apply (links_update_group c gp g); try done; cbn.
    + apply filter_all. apply Forall_forall. intros r Hr ->. apply (wf_mgr c Hc gp g k false Hg) in Hr as [_ (p & Hp' & _)]. congruence.
    + intros j p Hj. rewrite slot_of_others, decide_False; [done|]. intros ->. congruence.
    + intros j gp' Hm Hn Hj. apply guids_others in Hj as [_ Hj]. apply Hn. apply (wf_one c Hc j); [done|]. by exists g.
Qed.

Lemma counted_leave : counted c -> counted (c_leave gp k (ms_group s) c).
Proof.
  intros Hok. apply counted_cp, (counted_cg gp g); [done|done|]. cbn. by apply slots_ok_erase; [exact (Hok gp g Hg)|].
Qed.
Lemma only_leave sub : only gp c (c_leave gp k sub c).
Proof. unfold c_leave. etrans; [apply only_cg|]. by apply only_cp. Qed.
End Leave.

(** ** Invitations *)

Definition c_uninvite (gp : Z) (k : ObjectGuid) c : Core :=
  cp k (pv_set_invite None) (cg gp (fun g => gv_set_inv (gv_inv g ∖ {[k]}) g) c).
Definition c_invite (gp : Z) (k : ObjectGuid) c : Core :=
  cp k (pv_set_invite (Some gp)) (cg gp (fun g => gv_set_inv ({[k]} ∪ gv_inv g) g) c).

Section Invite.
Context (c : Core) (gp : Z) (k : ObjectGuid) (p : PView) (g : GView).
Context (Hc : links c) (Hp : c_players c !! k = Some p) (Hg : c_groups c !! gp = Some g).

Context (Hno : pv_group p = None).

(** The invitation of [k] to [gp] changes. *)
Lemma links_set_invite o inv :
  (forall j, j ∈ inv <-> if decide (j = k) then o = Some gp else j ∈ gv_inv g) ->
  o = None \/ o = Some gp -> pv_invite p = None \/ pv_invite p = Some gp ->
  links (cp k (pv_set_invite o) (cg gp (gv_set_inv inv) c)).
Proof.
  intros Hinv Ho Hi. destruct (wf_group c Hc gp g Hg) as (Hlt & Hbg & Hnd).
  rewrite (both_const k p gp g _ _ c Hp Hg). apply (links_update c k p _ gp g); try done; cbn.
  - intros j b. destruct (decide (j = k)) as [->|Hj]; [|done]. rewrite (wf_mgr c Hc gp g k b Hg).
    split; [intros [-> (p' & Hp' & ?)]; split; [done|congruence]|]. intros [-> ?]. eauto.
  - rewrite (wf_link c Hc k p gp Hp). unfold member_of. split; [intros (g' & ? & ?); congruence|eauto].
  - intros s Hs. apply (wf_sub c Hc k p gp g s Hp Hg Hs).
  - intros gp1 Hn. rewrite Hno. done.
  - intros gp1 Hn. destruct Ho as [->| ->], Hi as [->| ->]; split; congruence.
Qed.

Lemma links_uninvite : pv_invite p = Some gp -> links (c_uninvite gp k c).
Proof.
  intros Hi. unfold c_uninvite. rewrite (cg_const gp g _ c Hg).
  change (fun _ => gv_set_inv (gv_inv g ∖ {[k]}) g) with (fun _ : GView => (gv_set_inv (gv_inv g ∖ {[k]})) g).
  rewrite <- (cg_const gp g (gv_set_inv (gv_inv g ∖ {[k]})) c Hg). apply links_set_invite; [|by left|by right].
  intros j. rewrite elem_of_difference, elem_of_singleton. case_decide; [naive_solver|tauto].
Qed.
Lemma links_invite : pv_invite p = None -> links (c_invite gp k c).
Proof.
  intros Hi. unfold c_invite. rewrite (cg_const gp g _ c Hg).
  change (fun _ => gv_set_inv ({[k]} ∪ gv_inv g) g) with (fun _ : GView => (gv_set_inv ({[k]} ∪ gv_inv g)) g).
  rewrite <- (cg_const gp g (gv_set_inv ({[k]} ∪ gv_inv g)) c Hg). apply links_set_invite; [|by right|by left].
  intros j. rewrite elem_of_union, elem_of_singleton. case_decide; tauto.
Qed.
Lemma only_invite o f : o = None \/ o = Some gp -> pv_invite p = None \/ pv_invite p = Some gp -> only gp c (cp k (pv_set_invite o) (cg gp f c)).
Proof.
  intros Ho Hi. etrans; [apply only_cg|]. apply only_cp. intros p' gp' Hp' Hn Hi'. cbn [cg c_players] in Hp'.
  assert (p' = p) as -> by congruence. destruct Hi as [Hi|Hi]; congruence.
Qed.
End Invite.

Lemma counted_set_inv gp f c : (forall g, exists inv, f g = gv_set_inv inv g) -> counted c -> counted (cg gp f c).
Proof.
  intros Hf Hc. destruct (c_groups c !! gp) as [g|] eqn:Hg.
  - apply (counted_cg gp g); [done|done|]. destruct (Hf g) as [inv ->]. exact (Hc gp g Hg).
  - intros gp' g' Hg'. rewrite cg_lookup in Hg'. destruct (decide (gp' = gp)) as [->|Hn]; [by rewrite Hg in Hg'|by apply (Hc gp')].
Qed.

(** ** Leaders, raids, assistants *)

(** A step on the group alone that keeps members where they are. *)
Lemma links_inside c gp g g' :
  links c -> c_groups c !! gp = Some g -> gv_bg g' = gv_bg g -> gv_mgr g' = gv_mgr g -> gv_inv g' = gv_inv g ->
  guids (gv_slots g') = guids (gv_slots g) ->
  (forall k p, c_players c !! k = Some p -> ms_group <$> slot_of k (gv_slots g') = ms_group <$> slot_of k (gv_slots g)) ->
  (gv_id g' = gv_id g \/ forall id, c_map c !! id <> Some gp) -> links (cg gp (fun _ => g') c).
Proof.
  intros Hc Hg Hbg Hmgr Hinv Hgu Hsub Hid. destruct (wf_group c Hc gp g Hg) as (_ & Hbg0 & _).
  apply (links_update_group c gp g g'); try done.
  - congruence.
  - intros k gp' Hm Hn Hk. rewrite Hgu in Hk. apply Hn. apply (wf_one c Hc k); [done|]. by exists g.
  - intros id Hm. destruct Hid as [?|Hno]; [done|]. by destruct (Hno id).
Qed.

Lemma wf_inside c gp g f :
  wf c -> c_groups c !! gp = Some g -> gv_bg (f g) = gv_bg g -> gv_mgr (f g) = gv_mgr g -> gv_inv (f g) = gv_inv g ->
  guids (gv_slots (f g)) = guids (gv_slots g) ->
  (forall k p, c_players c !! k = Some p -> ms_group <$> slot_of k (gv_slots (f g)) = ms_group <$> slot_of k (gv_slots g)) ->
  (gv_id (f g) = gv_id g \/ forall id, c_map c !! id <> Some gp) ->
  slots_ok (gv_raid (f g)) (gv_slots (f g)) (gv_counts (f g)) -> wf (cg gp f c).
Proof.
  intros [Hc Hok] Hg. intros. split; [|by apply (counted_cg gp g)]. rewrite (cg_const gp g f c Hg). by apply (links_inside c gp g).
Qed.

Definition c_leader (gp : Z) (k : ObjectGuid) : Core -> Core := cg gp (gv_set_leader k).
Definition c_id (gp id : Z) : Core -> Core := cg gp (gv_set_id id).
Definition c_raid (gp : Z) : Core -> Core := cg gp (fun g => gv_set_raid true (Some (count_slots (gv_slots g))) g).
Definition c_assistant (gp : Z) (k : ObjectGuid) (b : bool) : Core -> Core :=
  cg gp (fun g => gv_set_slots (on_slot k (slot_assistant b) <$> gv_slots g) (gv_counts g) g).

Section Inside.
Context (c : Core) (gp : Z) (g : GView) (Hc : wf c) (Hg : c_groups c !! gp = Some g).

Lemma wf_leader k : wf (c_leader gp k c).
Proof. apply (wf_inside c gp g); try done; [by left|]. exact (proj2 Hc gp g Hg). Qed.
Lemma wf_id id : (forall i, c_map c !! i <> Some gp) -> wf (c_id gp id c).
Proof. intros Hn. apply (wf_inside c gp g); try done; [by right|]. exact (proj2 Hc gp g Hg). Qed.
Lemma wf_raid : wf (c_raid gp c).
Proof.
  apply (wf_inside c gp g); try done; [by left|]. cbn. pose proof (proj2 Hc gp g Hg) as Hs.
  destruct (gv_raid g); [by eapply slots_ok_recount|by eapply slots_ok_raid].
Qed.
Lemma wf_assistant k b : wf (c_assistant gp k b c).
Proof.
  apply (wf_inside c gp g); try done; cbn.
  - by apply guids_on_slot.
  - intros j p _. rewrite slot_of_on_slot by done. case_decide; [|done]. by destruct (slot_of j (gv_slots g)).
  - by left.
  - apply slots_ok_same; [exact (proj2 Hc gp g Hg)|done|done].
Qed.
End Inside.

(** ** Moving to another subgroup *)

Definition pv_set_sub (sub : Z) p : PView := pv_set_group (pv_group p) sub p.
Definition gv_move (k : ObjectGuid) (sub : Z) g : GView := gv_set_slots (on_slot k (slot_group sub) <$> gv_slots g) (gv_counts g) g.
Definition c_place (gp : Z) (k : ObjectGuid) (sub : Z) c : Core := cp k (pv_set_sub sub) (cg gp (gv_move k sub) c).

(** The counters are another matter: a move changes two of them, a swap none. *)
Lemma links_place c gp g s sub :
  links c -> c_groups c !! gp = Some g -> slot_of (ms_guid s) (gv_slots g) = Some s -> links (c_place gp (ms_guid s) sub c).
Proof.
  intros Hc Hg Hs. set (k := ms_guid s). destruct (wf_group c Hc gp g Hg) as (Hlt & Hbg & Hnd). unfold c_place.
  assert (Hgu : guids (gv_slots (gv_move k sub g)) = guids (gv_slots g)) by by apply guids_on_slot.
  destruct (c_players c !! k) as [p|] eqn:Hp.
  - assert (Hgp : pv_group p = Some gp).
    { apply (wf_link c Hc k p gp Hp). exists g. split; [done|]. pose proof (slot_of_Some _ _ _ Hs) as [? _]. by apply list_elem_of_fmap_2. }
    rewrite (both_const k p gp g _ _ c Hp Hg). apply (links_update c k p _ gp g); try done.
    + intros j b. cbn [gv_move gv_set_slots gv_mgr]. destruct (decide (j = k)) as [->|Hj]; [|done]. rewrite (wf_mgr c Hc gp g k b Hg). cbn.
      split; [intros [-> (p' & Hp' & ?)]; split; [done|congruence]|]. intros [-> ?]. eauto.
    + intros j. destruct (decide (j = k)) as [->|Hj]; [|done]. cbn. rewrite (wf_inv c Hc gp g k Hg).
      split; [intros (p' & Hp' & ?); congruence|eauto].
    + intros j Hj. cbn. by rewrite slot_of_on_slot, decide_False.
    + rewrite Hgu. cbn. rewrite (wf_link c Hc k p gp Hp). unfold member_of. split; [intros (g' & ? & ?); congruence|eauto].
    + intros t Ht. cbn in Ht. rewrite slot_of_on_slot, decide_True in Ht by done. destruct (slot_of k (gv_slots g)); [|done].
      by injection Ht as <-.
    + intros gp1 Hn. cbn. split; congruence.
    + cbn. intros Hi. destruct (pv_invite p) as [gp2|] eqn:Ei; [|done]. by apply (wf_invite c Hc k p gp2).
  - rewrite cp_none by done. rewrite (cg_const gp g _ c Hg). apply (links_inside c gp g); try done; [|by left].
    intros j p Hj. cbn. rewrite slot_of_on_slot, decide_False; [done| |done]. intros ->. congruence.
Qed.
Lemma only_place c gp k sub : only gp c (c_place gp k sub c).
Proof. unfold c_place. etrans; [apply only_cg|]. by apply only_cp. Qed.

Definition c_move (gp : Z) (k : ObjectGuid) (from sub : Z) c : Core :=
  cg gp (fun g => gv_set_slots (gv_slots g) (bump_opt (-1) from (bump_opt 1 sub (gv_counts g))) g) (c_place gp k sub c).

Lemma wf_move c gp g s sub :
  wf c -> c_groups c !! gp = Some g -> slot_of (ms_guid s) (gv_slots g) = Some s -> gv_raid g = true -> 0 <= sub < 8 ->
  ms_group s <> sub -> (subgroup_size sub (gv_slots g) < 5)%nat -> wf (c_move gp (ms_guid s) (ms_group s) sub c).
Proof.
  intros [Hc Hok] Hg Hs Hraid Hr Hne Hlt. pose proof (links_place c gp g s sub Hc Hg Hs) as Hl.
  set (c1 := c_place gp (ms_guid s) sub c) in *.
  assert (Hg1 : c_groups c1 !! gp = Some (gv_move (ms_guid s) sub g)).
  { unfold c1, c_place. change (c_groups (cg gp (gv_move (ms_guid s) sub) c) !! gp = Some (gv_move (ms_guid s) sub g)).
    by rewrite cg_lookup, decide_True, Hg. }
  split.
  - unfold c_move. fold c1. rewrite (cg_const gp _ _ c1 Hg1). apply (links_inside c1 gp _ _ Hl Hg1); try done. by left.
  - intros gp' g' Hg'. unfold c_move in Hg'. fold c1 in Hg'. rewrite cg_lookup in Hg'. destruct (decide (gp' = gp)) as [->|Hn].
    + rewrite Hg1 in Hg'. injection Hg' as <-. cbn. rewrite Hraid. pose proof (Hok gp g Hg) as Hsl. rewrite Hraid in Hsl.
      destruct (raid_counts_some _ _ (so_subgroups _ _ _ Hsl)) as [n Hcn]. rewrite Hcn in *. cbn. by apply slots_ok_move.
    + apply (Hok gp'). rewrite <- Hg'. unfold c1, c_place. symmetry. by apply (only_groups gp _ _ (only_place c gp (ms_guid s) sub)).
Qed.

Lemma wf_swap c gp g s1 s2 :
  wf c -> c_groups c !! gp = Some g -> slot_of (ms_guid s1) (gv_slots g) = Some s1 -> slot_of (ms_guid s2) (gv_slots g) = Some s2 ->
  gv_raid g = true -> ms_guid s1 <> ms_guid s2 ->
  wf (c_place gp (ms_guid s1) (ms_group s2) (c_place gp (ms_guid s2) (ms_group s1) c)).
Proof.
  intros [Hc Hok] Hg Hs1 Hs2 Hraid Hne. pose proof (links_place c gp g s2 (ms_group s1) Hc Hg Hs2) as Hl.
  set (c1 := c_place gp (ms_guid s2) (ms_group s1) c) in *.
  assert (Hg1 : c_groups c1 !! gp = Some (gv_move (ms_guid s2) (ms_group s1) g)).
  { unfold c1, c_place. change (c_groups (cg gp (gv_move (ms_guid s2) (ms_group s1)) c) !! gp = Some (gv_move (ms_guid s2) (ms_group s1) g)).
    by rewrite cg_lookup, decide_True, Hg. }
  assert (Hs1' : slot_of (ms_guid s1) (gv_slots (gv_move (ms_guid s2) (ms_group s1) g)) = Some s1).
  { cbn. by rewrite slot_of_on_slot, decide_False. }
  split; [by apply (links_place c1 gp _ s1 _ Hl Hg1)|].
  intros gp' g' Hg'. destruct (decide (gp' = gp)) as [->|Hn].
  - change (c_groups (cg gp (gv_move (ms_guid s1) (ms_group s2)) c1) !! gp = Some g') in Hg'.
    rewrite cg_lookup, decide_True, Hg1 in Hg' by done. injection Hg' as <-. cbn. rewrite Hraid.
    pose proof (Hok gp g Hg) as Hsl. rewrite Hraid in Hsl. by apply slots_ok_swap.
  - apply (Hok gp'). rewrite <- Hg'. symmetry. etrans; [by apply (only_groups gp _ _ (only_place c1 gp _ _))|].
    by apply (only_groups gp _ _ (only_place c gp _ _)).
Qed.
