(* ===== verification/GroupEnds.v ===== *)
(** * GroupEnds: the first and the last step of a group

    A group is allocated, gets an identifier and its place in the map, and is
    in the end dissolved: on the core, and that [wf] is kept. *)
From S2P Require Import Prelude ByteBuffer ObjectGuid GroupData GroupPackets GroupLoot MeetingStone Group GroupHandlers GroupCore GroupSound GroupSlots GroupSteps.

Implicit Types (c : Core) (g : GView) (p : PView).

(** ** A new group *)

Definition c_new c : Core :=
  mkCore (c_players c) (<[c_next c := gview newGroup]> (c_groups c)) (c_next c + 1) (c_map c) (c_ids c) (c_ub c).

Lemma fresh_group c : links c -> c_groups c !! c_next c = None.
Proof. intros Hc. destruct (c_groups c !! c_next c) as [g|] eqn:Hg; [|done]. destruct (wf_group c Hc _ g Hg). lia. Qed.

Lemma new_cases c gp' g :
  c_groups (c_new c) !! gp' = Some g <-> (gp' = c_next c /\ g = gview newGroup) \/ (gp' <> c_next c /\ c_groups c !! gp' = Some g).
Proof. cbn. rewrite lookup_insert_Some. naive_solver. Qed.
Section New.
Context (c : Core) (Hc : wf c).
Local Notation gp := (c_next c).

Lemma member_of_new k gp' : member_of k gp' (c_new c) <-> member_of k gp' c.
Proof.
  unfold member_of. split; intros (g & Hg & Hk).
  - apply new_cases in Hg as [[_ ->]|[_ Hg]]; [by apply elem_of_nil in Hk|eauto].
  - exists g. rewrite new_cases. split; [right|done]. split; [|done]. intros ->. by rewrite (fresh_group c (proj1 Hc)) in Hg.
Qed.
(** Nothing points to the new group. *)
Lemma not_to_new k p : c_players c !! k = Some p -> pv_group p <> Some gp /\ pv_invite p <> Some gp.
Proof.
  destruct Hc as [Hl _]. intros Hp. split; intros E.
  - apply (wf_link c Hl k p gp Hp) in E as (g & Hg & _). by rewrite (fresh_group c Hl) in Hg.
  - destruct (wf_invite c Hl k p gp Hp E) as [[g Hg] _]. by rewrite (fresh_group c Hl) in Hg.
Qed.

Lemma wf_new : wf (c_new c).
Proof.
  pose proof Hc as [Hl Hok]. split; [constructor|].
  - apply (wf_ub c Hl).
  - apply (wf_player c Hl).
  - intros gp' g [[-> ->]|[Hn Hg]]%new_cases; cbn; [split; [lia|]; split; [done|apply NoDup_nil_2]|].
    destruct (wf_group c Hl gp' g Hg) as (? & ? & ?). split; [lia|done].
  - intros gp' g k b [[-> ->]|[Hn Hg]]%new_cases; cbn; [|by apply (wf_mgr c Hl)].
    split; [by intros ?%elem_of_nil|]. intros [_ (p & Hp & E)]. by apply (not_to_new k) in Hp as [? _].
  - intros k p gp' Hp. rewrite member_of_new. by apply (wf_link c Hl).
  - intros k p gp' g s Hp [[-> ->]|[Hn Hg]]%new_cases Hs; [done|]. by apply (wf_sub c Hl k p gp' g).
  - intros k gp1 gp2. rewrite !member_of_new. apply (wf_one c Hl).
  - intros gp' g k [[-> ->]|[Hn Hg]]%new_cases; cbn; [|by apply (wf_inv c Hl)].
    split; [by intros ?%elem_of_empty|]. intros (p & Hp & E). by apply (not_to_new k) in Hp as [_ ?].
  - intros k p gp' Hp E. destruct (wf_invite c Hl k p gp' Hp E) as [Hx ?]. split; [|done]. cbn.
    destruct (decide (gp' = gp)) as [->|Hn]; [by rewrite lookup_insert_eq|by rewrite lookup_insert_ne].
  - intros id gp' Hm. destruct (wf_map c Hl id gp' Hm) as [? (g & Hg & ?)]. split; [done|]. exists g. cbn.
    rewrite lookup_insert_ne; [done|]. intros <-. by rewrite (fresh_group c Hl) in Hg.
  - intros gp' g [[-> ->]|[Hn Hg]]%new_cases; [|exact (Hok gp' g Hg)]. cbn.
    constructor; [apply NoDup_nil_2|by intros ?%elem_of_nil|by compute|]. constructor; [done|constructor].
Qed.
Lemma only_new : only gp c (c_new c).
Proof. split; [|done|eauto]. intros gp' Hn. cbn. by rewrite lookup_insert_ne. Qed.
End New.

(** ** Identifiers *)

Definition c_generate c : Core := mkCore (c_players c) (c_groups c) (c_next c) (c_map c) (c_ids c + 1) (c_ub c).
Definition c_register (gp id : Z) c : Core :=
  mkCore (c_players c) (c_groups c) (c_next c) (<[id := gp]> (c_map c)) (c_ids c) (c_ub c).

Lemma register_cases gp id c id' gp' :
  c_map (c_register gp id c) !! id' = Some gp' <-> (id' = id /\ gp' = gp) \/ (id' <> id /\ c_map c !! id' = Some gp').
Proof. cbn. rewrite lookup_insert_Some. naive_solver. Qed.

Lemma wf_generate c : wf c -> wf (c_generate c).
Proof.
  intros [[U P G M L S O V W Mp] Hok]. split; [|exact Hok]. constructor; try done.
  intros id gp Hm. destruct (Mp id gp Hm). cbn. split; [lia|done].
Qed.
Lemma only_generate gp c : only gp c (c_generate c).
Proof. split; [done|done|eauto]. Qed.

Lemma wf_register c gp g : wf c -> c_groups c !! gp = Some g -> gv_id g < c_ids c -> wf (c_register gp (gv_id g) c).
Proof.
  intros [[U P G M L S O V W Mp] Hok] Hg Hlt. split; [|exact Hok]. constructor; try done.
  intros id gp' [[-> ->]|[Hn Hm]]%register_cases; [eauto|]. by apply Mp.
Qed.
Lemma only_register c gp id : c_map c !! id = None -> only gp c (c_register gp id c).
Proof.
  intros Hno. split; [done| |eauto]. intros id' gp' Hn. rewrite register_cases. split; [naive_solver|].
  intros Hm. right. split; [|done]. intros ->. congruence.
Qed.

(** ** The end *)

Definition pv_drop (gp : Z) p : PView :=
  mkPV (pv_guid p) (pv_inWorld p) (if decide (pv_group p = Some gp) then None else pv_group p) (pv_sub p) (pv_orig p)
    (if decide (pv_invite p = Some gp) then None else pv_invite p).
Definition c_dissolve (gp : Z) c : Core :=
  mkCore (pv_drop gp <$> c_players c) (delete gp (c_groups c)) (c_next c) (filter (fun kv => kv.2 <> gp) (c_map c)) (c_ids c) (c_ub c).

Lemma drop_group gp gp' p : pv_group (pv_drop gp p) = Some gp' <-> gp' <> gp /\ pv_group p = Some gp'.
Proof. cbn. case_decide; naive_solver. Qed.
Lemma drop_invite gp gp' p : pv_invite (pv_drop gp p) = Some gp' <-> gp' <> gp /\ pv_invite p = Some gp'.
Proof. cbn. case_decide; naive_solver. Qed.

Section Dissolve.
Context (c : Core) (gp : Z) (Hc : wf c).

Lemma dissolve_player k p : c_players (c_dissolve gp c) !! k = Some p <-> exists p0, c_players c !! k = Some p0 /\ p = pv_drop gp p0.
Proof. cbn. rewrite lookup_fmap, fmap_Some. done. Qed.
Lemma dissolve_group gp' g : c_groups (c_dissolve gp c) !! gp' = Some g <-> gp' <> gp /\ c_groups c !! gp' = Some g.
Proof. cbn. rewrite lookup_delete_Some. naive_solver. Qed.
Lemma dissolve_map id gp' : c_map (c_dissolve gp c) !! id = Some gp' <-> gp' <> gp /\ c_map c !! id = Some gp'.
Proof. cbn. rewrite map_lookup_filter_Some. tauto. Qed.
Lemma dissolve_member k gp' : member_of k gp' (c_dissolve gp c) <-> gp' <> gp /\ member_of k gp' c.
Proof. unfold member_of. setoid_rewrite dissolve_group. naive_solver. Qed.

Lemma wf_dissolve : wf (c_dissolve gp c).
Proof.
  pose proof Hc as [Hl Hok]. split; [constructor|].
  - apply (wf_ub c Hl).
  - intros k p (p0 & Hp & ->)%dissolve_player. exact (wf_player c Hl k p0 Hp).
  - intros gp' g [_ Hg]%dissolve_group. by apply (wf_group c Hl).
  - intros gp' g k b [Hn Hg]%dissolve_group. rewrite (wf_mgr c Hl gp' g k b Hg). setoid_rewrite dissolve_player.
    split; intros [-> (p & Hp & E)]; (split; [done|]).
    + exists (pv_drop gp p). split; [eauto|]. by apply drop_group.
    + destruct Hp as (p0 & Hp & ->). apply drop_group in E as [_ E]. eauto.
  - intros k p gp' (p0 & Hp & ->)%dissolve_player. rewrite dissolve_member, drop_group. by rewrite (wf_link c Hl k p0 gp' Hp).
  - intros k p gp' g s (p0 & Hp & ->)%dissolve_player [Hn Hg]%dissolve_group Hs. by apply (wf_sub c Hl k p0 gp' g).
  - intros k gp1 gp2 [_ H1]%dissolve_member [_ H2]%dissolve_member. by apply (wf_one c Hl k).
  - intros gp' g k [Hn Hg]%dissolve_group. rewrite (wf_inv c Hl gp' g k Hg). setoid_rewrite dissolve_player.
    split; intros (p & Hp & E).
    + exists (pv_drop gp p). split; [eauto|]. by apply drop_invite.
    + destruct Hp as (p0 & Hp & ->). apply drop_invite in E as [_ E]. eauto.
  - intros k p gp' (p0 & Hp & ->)%dissolve_player [Hn E]%drop_invite. destruct (wf_invite c Hl k p0 gp' Hp E) as [[g Hg] Hno]. split.
    + exists g. by apply dissolve_group.
    + cbn. rewrite Hno. by case_decide.
  - intros id gp' [Hn Hm]%dissolve_map. destruct (wf_map c Hl id gp' Hm) as [? (g & Hg & ?)]. split; [done|]. exists g.
    by rewrite dissolve_group.
  - intros gp' g [_ Hg]%dissolve_group. exact (Hok gp' g Hg).
Qed.
Lemma only_dissolve : only gp c (c_dissolve gp c).
Proof.
  split.
  - intros gp' Hn. cbn. by rewrite lookup_delete_ne.
  - intros id gp' Hn. rewrite dissolve_map. tauto.
  - intros k p gp' Hn Hp E. exists (pv_drop gp p). rewrite dissolve_player, drop_invite. eauto.
Qed.
Lemma sound_dissolve : sound_but gp c -> sound (c_dissolve gp c).
Proof.
  intros Hs. apply (sound_but_sound gp); [by apply (sound_but_only gp c); [|apply only_dissolve|apply wf_dissolve]|].
  intros g [? _]%dissolve_group. done.
Qed.
End Dissolve.

(** ** Every invitation is withdrawn *)

Definition c_clear (gp : Z) (inv : gset ObjectGuid) c : Core :=
  mkCore (map_imap (fun j p => Some (if decide (j ∈ inv) then pv_set_invite None p else p)) (c_players c))
    (alter (gv_set_inv ∅) gp (c_groups c)) (c_next c) (c_map c) (c_ids c) (c_ub c).

Lemma clear_player gp inv c j :
  c_players (c_clear gp inv c) !! j = (fun p => if decide (j ∈ inv) then pv_set_invite None p else p) <$> c_players c !! j.
Proof. cbn. rewrite map_lookup_imap. by destruct (c_players c !! j). Qed.

Section Clear.
Context (c : Core) (gp : Z) (g : GView) (Hc : wf c) (Hg : c_groups c !! gp = Some g).
Local Notation c' := (c_clear gp (gv_inv g) c).

Lemma clear_invite_lost k p gp' :
  c_players c !! k = Some p ->
  pv_invite (if decide (k ∈ gv_inv g) then pv_set_invite None p else p) = Some gp' <-> gp' <> gp /\ pv_invite p = Some gp'.
Proof.
  intros Hp. pose proof (wf_inv c (proj1 Hc) gp g k Hg) as Hi. case_decide as Hk.
  - cbn. apply Hi in Hk as (q & Hq & E). split; [done|]. intros [? ?]. congruence.
  - split; [|by intros [_ ?]]. intros E. split; [|done]. intros ->. apply Hk, Hi. eauto.
Qed.
Lemma clear_player_cases k p' :
  c_players c' !! k = Some p' ->
  exists p, c_players c !! k = Some p /\ pv_guid p' = pv_guid p /\ pv_inWorld p' = pv_inWorld p /\ pv_group p' = pv_group p
    /\ pv_sub p' = pv_sub p /\ pv_orig p' = pv_orig p /\ forall gp', pv_invite p' = Some gp' <-> gp' <> gp /\ pv_invite p = Some gp'.
Proof.
  rewrite clear_player, fmap_Some. intros (p & Hp & E). exists p. split; [done|]. pose proof (fun gp' => clear_invite_lost k p gp' Hp) as Hi.
  rewrite <- E in Hi. rewrite E in *. by case_decide.
Qed.
Lemma clear_player_some k p :
  c_players c !! k = Some p -> exists p', c_players c' !! k = Some p' /\ pv_group p' = pv_group p
    /\ forall gp', pv_invite p' = Some gp' <-> gp' <> gp /\ pv_invite p = Some gp'.
Proof.
  intros Hp. eexists. rewrite clear_player, Hp. split; [done|]. split; [by case_decide|]. intros gp'. by apply clear_invite_lost.
Qed.
Lemma clear_group gp' g' :
  c_groups c' !! gp' = Some g' -> exists g0, c_groups c !! gp' = Some g0 /\ g' = if decide (gp' = gp) then gv_set_inv ∅ g0 else g0.
Proof.
  cbn. case_decide; subst; [rewrite lookup_alter_eq, fmap_Some; intros (? & ? & ->); eauto|]. rewrite lookup_alter_ne by done. eauto.
Qed.
Lemma clear_member k gp' : member_of k gp' c' <-> member_of k gp' c.
Proof.
  unfold member_of. split.
  - intros (g' & (g0 & Hg0 & ->)%clear_group & Hk). exists g0. split; [done|]. by case_decide.
  - intros (g0 & Hg0 & Hk). cbn. destruct (decide (gp' = gp)) as [->|Hn].
    + exists (gv_set_inv ∅ g0). by rewrite lookup_alter_eq, Hg0.
    + exists g0. by rewrite lookup_alter_ne.
Qed.
Lemma clear_links_group gp' : is_Some (c_groups c !! gp') -> is_Some (c_groups c' !! gp').
Proof. intros [g0 Hg0]. cbn. destruct (decide (gp' = gp)) as [->|Hn]; [by rewrite lookup_alter_eq, Hg0|by rewrite lookup_alter_ne, Hg0]. Qed.

Lemma wf_clear : wf c'.
Proof.
  pose proof Hc as [Hl Hok]. split; [constructor|].
  - apply (wf_ub c Hl).
  - intros k p' (p & Hp & -> & -> & _ & _ & -> & _)%clear_player_cases. by apply (wf_player c Hl).
  - intros gp' g' (g0 & Hg0 & ->)%clear_group. pose proof (wf_group c Hl gp' g0 Hg0). by case_decide.
  - intros gp' g' k b (g0 & Hg0 & ->)%clear_group. assert (gv_mgr (if decide (gp' = gp) then gv_set_inv ∅ g0 else g0) = gv_mgr g0) as -> by by case_decide.
    rewrite (wf_mgr c Hl gp' g0 k b Hg0). split; intros [-> (p & Hp & E)]; (split; [done|]).
    + destruct (clear_player_some k p Hp) as (p' & Hp' & E' & _). exists p'. split; [done|congruence].
    + apply clear_player_cases in Hp as (p0 & Hp0 & _ & _ & E' & _). exists p0. split; [done|congruence].
  - intros k p' gp' (p & Hp & _ & _ & -> & _)%clear_player_cases. rewrite clear_member. by apply (wf_link c Hl).
  - intros k p' gp' g' s (p & Hp & _ & _ & _ & -> & _)%clear_player_cases (g0 & Hg0 & ->)%clear_group Hs.
    apply (wf_sub c Hl k p gp' g0); [done|done|]. by case_decide.
  - intros k gp1 gp2. rewrite !clear_member. apply (wf_one c Hl).
  - intros gp' g' k (g0 & Hg0 & ->)%clear_group. pose proof (wf_inv c Hl gp' g0 k Hg0) as Hi. case_decide as Hn.
    + split; [by intros ?%elem_of_empty|]. intros (p' & (p & _ & _ & _ & _ & _ & _ & Hinv)%clear_player_cases & E). by apply Hinv in E as [? _].
    + rewrite Hi. split; intros (p & Hp & E).
      * destruct (clear_player_some k p Hp) as (p' & Hp' & _ & Hinv). exists p'. split; [done|]. by apply Hinv.
      * apply clear_player_cases in Hp as (p0 & Hp0 & _ & _ & _ & _ & _ & Hinv). apply Hinv in E as [_ E]. eauto.
  - intros k p' gp' (p & Hp & _ & _ & E & _ & _ & Hinv)%clear_player_cases [Hn Ei]%Hinv.
    destruct (wf_invite c Hl k p gp' Hp Ei) as [Hx Hno]. split; [by apply clear_links_group|congruence].
  - intros id gp' Hm. destruct (wf_map c Hl id gp' Hm) as [? (g0 & Hg0 & ?)]. split; [done|]. cbn.
    destruct (decide (gp' = gp)) as [->|Hn]; [rewrite lookup_alter_eq, Hg0; eexists; split; [done|done]|rewrite lookup_alter_ne by done; eauto].
  - intros gp' g' (g0 & Hg0 & ->)%clear_group. pose proof (Hok gp' g0 Hg0). by case_decide.
Qed.
Lemma only_clear : only gp c c'.
Proof.
  split; [|done|].
  - intros gp' Hn. cbn. by rewrite lookup_alter_ne.
  - intros k p gp' Hn Hp E. destruct (clear_player_some k p Hp) as (p' & Hp' & _ & Hinv). exists p'. split; [done|]. by apply Hinv.
Qed.
End Clear.
