(* ===== verification/GroupOps.v ===== *)
(** * GroupOps: what the operations of a group do to the core

    Under [links], every operation that changes a membership is one of the
    steps of [GroupSteps] and [GroupEnds] on the core; the rest of what it does
    is quiet. *)
From S2P Require Import Prelude ByteBuffer ObjectGuid GroupData GroupPackets GroupLoot MeetingStone Group GroupHandlers GroupCore GroupRolls GroupKept GroupSound GroupSlots GroupSteps GroupEnds.

#[global] Arguments core : simpl never.

(** ** Consequences of [links] *)

(** Everybody online is in the world under the right key, and has one group at most. *)
Definition present (w : World) : Prop :=
  forall k p, w_players w !! k = Some p -> k <> 0 /\ pl_guid p = k /\ pl_inWorld p = true /\ GetOriginalGroup p = None.

Lemma links_present w : links (core w) -> present w.
Proof. intros Hl k p Hp. exact (wf_player _ Hl k _ (core_player k p w Hp)). Qed.
Lemma present_GetPlayer w k : present w -> GetPlayer k w = w_players w !! k.
Proof.
  intros Hpr. unfold GetPlayer, FindPlayerNotInWorld. destruct (w_players w !! k) as [p|] eqn:Hp; [|by destruct (IsEmpty k)].
  destruct (Hpr k p Hp) as (Hk & _ & Hw & _). unfold IsEmpty. destruct (Z.eqb_spec k 0); [done|]. by rewrite Hw.
Qed.
Lemma present_quiet w w1 : quiet w w1 -> present w -> present w1.
Proof.
  intros [Hc _] Hpr k p1 Hp1. apply core_player in Hp1. rewrite Hc in Hp1. apply player_core in Hp1 as (p & Hp & Hv).
  pose proof (Hpr k p Hp) as H1. unfold pview in Hv. injection Hv as E1 E2 _ _ E3 _. by rewrite E1, E2, E3 in H1.
Qed.

Section Links.
Context (w : World) (Hl : links (core w)).

Lemma links_player k p : w_players w !! k = Some p -> k <> 0 /\ pl_guid p = k /\ pl_inWorld p = true /\ GetOriginalGroup p = None.
Proof. apply links_present, Hl. Qed.
Lemma links_GetPlayer k : GetPlayer k w = w_players w !! k.
Proof. apply present_GetPlayer, links_present, Hl. Qed.
Lemma links_not_bg gp g : w_groups w !! gp = Some g -> isBGGroup g = false.
Proof. intros Hg. destruct (wf_group _ Hl gp _ (core_group gp g w Hg)) as (_ & Hbg & _). unfold isBGGroup. cbn in Hbg. by rewrite Hbg. Qed.
Lemma links_map_live : map_live w.
Proof. intros id gp Hm. apply live_core. destruct (wf_map _ Hl id gp Hm) as (_ & g & Hg & _). eauto. Qed.
Lemma links_links_live : links_live w.
Proof.
  intros k p gp Hp Hg. apply live_core. apply core_player in Hp. apply (wf_link _ Hl k _ gp Hp) in Hg as (g & Hgp & _). eauto.
Qed.
Lemma links_member k p gp : w_players w !! k = Some p -> GetGroup p = Some gp -> exists g, w_groups w !! gp = Some g /\ k ∈ guids (m_memberSlots g).
Proof.
  intros Hp Hg. apply core_player in Hp. apply (wf_link _ Hl k _ gp Hp) in Hg as (v & Hv & Hk).
  apply group_core in Hv as (g & Hg & <-). eauto.
Qed.
Lemma links_own_group p : (exists k, w_players w !! k = Some p) -> own_group p w = GetGroup p.
Proof.
  intros [k Hp]. unfold own_group. destruct (GetGroup p) as [gp|] eqn:Hg; [|done].
  destruct (links_member k p gp Hp Hg) as (g & Hgp & _). unfold test_group. by rewrite Hgp, (links_not_bg gp g Hgp).
Qed.
Lemma links_invitee gp g k : w_groups w !! gp = Some g -> k ∈ m_invitees g <-> exists p, w_players w !! k = Some p /\ m_groupInvite p = Some gp.
Proof.
  intros Hg. pose proof (wf_inv _ Hl gp _ k (core_group gp g w Hg)) as Hi. cbn in Hi. rewrite Hi. split.
  - intros (v & Hv & E). apply player_core in Hv as (p & Hp & <-). eauto.
  - intros (p & Hp & E). exists (pview p). split; [by apply core_player|done].
Qed.
Lemma links_invite_no_group k p gp : w_players w !! k = Some p -> m_groupInvite p = Some gp -> live gp w /\ GetGroup p = None.
Proof.
  intros Hp Hi. apply core_player in Hp. destruct (wf_invite _ Hl k _ gp Hp Hi) as [Hlv Hno]. split; [by apply live_core|done].
Qed.
End Links.
#[export] Hint Resolve links_map_live links_links_live links_present : quiet.
#[export] Hint Extern 1 (present _) => assumption : quiet.
#[export] Hint Extern 1 (links _) => assumption : quiet.
#[export] Hint Extern 3 (live _ _) => by eexists : quiet.
#[export] Hint Extern 3 (online _ _) => by eexists : quiet.

Lemma is_getMemberSlot k g : _getMemberSlot k g = slot_of k (m_memberSlots g).
Proof. done. Qed.
Lemma IsMember_guids k g : IsMember k g = true <-> k ∈ guids (m_memberSlots g).
Proof.
  unfold IsMember. rewrite bool_decide_eq_true, is_getMemberSlot, slot_of_None.
  destruct (decide (k ∈ guids (m_memberSlots g))); tauto.
Qed.

(** ** Links and counters *)

Definition gv_filter_mgr (k : ObjectGuid) (g : GView) : GView := gv_set_mgr (filter (fun r => r <> (k, false)) (gv_mgr g)) g.

Lemma core_unlink k p w :
  w_players w !! k = Some p ->
  core (unlink false k w) = cp k pv_leave (match GetGroup p with Some gp => cg gp (gv_filter_mgr k) (core w) | None => core w end).
Proof.
  intros Hp. unfold unlink. rewrite Hp. cbn zeta.
  set (w1 := upd_player k _ w). assert (core w1 = cp k pv_leave (core w)) as Hw1.
  { by apply (core_upd_player_at k _ _ p). }
  change (gr_target (get_ref false p)) with (GetGroup p). destruct (GetGroup p) as [gp|]; [|done].
  rewrite (core_upd_group gp _ (gv_filter_mgr k)) by done. rewrite Hw1. done.
Qed.

Lemma pv_leave_none p : pv_group p = None -> pv_leave p = p.
Proof. destruct p. cbn. by intros ->. Qed.
Lemma cp_id k f c p : c_players c !! k = Some p -> f p = p -> cp k f c = c.
Proof.
  intros Hp Hf. destruct c. unfold cp. cbn in *. f_equal. apply map_eq. intros j.
  destruct (decide (j = k)) as [->|Hj]; [rewrite lookup_alter_eq, Hp; cbn; by rewrite Hf|by rewrite lookup_alter_ne].
Qed.

Lemma core_SetGroup k p gp sub w :
  w_players w !! k = Some p -> GetGroup p = None -> live gp w -> 0 <= sub < 128 ->
  core (SetGroup (Some (gp, sub)) k w)
  = cp k (pv_set_group (Some gp) sub) (cg gp (fun g => gv_set_mgr ((k, false) :: gv_mgr g) g) (core w)).
Proof.
  intros Hp Hno Hlv Hs. unfold SetGroup. destruct (Z.ltb_spec sub 128); [|lia]. unfold link. cbn zeta.
  assert (Hc1 : core (unlink false k w) = core w).
  { rewrite (core_unlink k p w Hp), Hno. apply (cp_id k _ _ (pview p)); [by apply core_player|by apply pv_leave_none]. }
  set (w2 := upd_player k _ _).
  assert (Hc2 : core w2 = cp k (pv_set_group (Some gp) sub) (core w)).
  { unfold w2. rewrite (core_upd_player k _ (pv_set_group (Some gp) (u8 sub))) by done. rewrite Hc1, u8_id; [done|]. unfold is_u. lia. }
  assert (live gp w2) as [g Hg].
  { apply live_core. rewrite Hc2. by apply live_core in Hlv. }
  unfold deref. rewrite Hg, (core_upd_group gp _ (fun g => gv_set_mgr ((k, false) :: gv_mgr g) g)) by done. by rewrite Hc2.
Qed.

Lemma core_SubGroupCounter d gp sub w g :
  w_groups w !! gp = Some g -> (m_subGroupsCounts g <> None -> sub < MAX_RAID_SUBGROUPS) ->
  core (SubGroupCounter d gp sub w) = cg gp (fun g => gv_set_slots (gv_slots g) (bump_opt d sub (gv_counts g)) g) (core w).
Proof.
  intros Hg Hs. unfold SubGroupCounter, deref. rewrite Hg. destruct (m_subGroupsCounts g) as [n|] eqn:Hn.
  - destruct (Z.ltb_spec sub MAX_RAID_SUBGROUPS); [|exfalso; specialize (Hs ltac:(done)); lia].
    apply (core_upd_group_at gp _ _ g); [done|]. unfold gview, gv_set_slots. cbn. by rewrite Hn.
  - rewrite (cg_const gp (gview g)) by by apply core_group. unfold gv_set_slots, bump_opt. cbn. rewrite Hn. cbn.
    symmetry. apply cg_same. rewrite (core_group gp g w Hg). unfold gview. by rewrite Hn.
Qed.

(** ** Quiet operations that look players up *)

Section Ops.
Context `{HashIter}.
Context (E : Env).

Lemma q_updateLeaderFlag w b gp w1 : present w -> live gp w -> quiet w w1 -> quiet w (updateLeaderFlag b gp w1).
Proof.
  intros Hpr Hlv Hq. unfold updateLeaderFlag. apply q_deref; [done|done|]. intros g Hg.
  rewrite present_GetPlayer by (by eapply present_quiet). destruct (w_players w1 !! m_leaderGuid g) as [p|] eqn:Hp; [|done].
  destruct (present_quiet w w1 Hq Hpr _ p Hp) as (_ & Hk & _). apply q_UpdateGroupLeaderFlag; [|done].
  rewrite Hk. apply online_core. rewrite <- (quiet_core _ _ Hq). apply online_core. by exists p.
Qed.
Lemma q_send_own_group w k w1 : links_live w -> online k w -> quiet w w1 -> quiet w (send_own_group k w1).
Proof.
  intros Hll Ho Hq. unfold send_own_group. apply q_player'; [done|done|]. intros p Hp.
  destruct (GetGroup p) as [gp|] eqn:Hg; [|quiet]. pose proof (links_live_quiet w w1 k p gp Hll Hq Hp Hg). quiet.
Qed.
Lemma q_UpdateCrossfaction w gp w1 : live gp w -> quiet w w1 -> quiet w (UpdateCrossfaction E gp w1).
Proof. intros. unfold UpdateCrossfaction. quiet. Qed.
Hint Resolve q_updateLeaderFlag q_send_own_group q_UpdateCrossfaction : quiet.
Lemma q_announce_factions w gp k w1 : live gp w -> quiet w w1 -> quiet w (announce_factions E gp k w1).
Proof. intros. unfold announce_factions. quiet. Qed.

(** ** Leaders *)

Lemma core_setLeader gp k w g :
  present w -> w_groups w !! gp = Some g -> k ∈ guids (m_memberSlots g) -> core (setLeader E gp k w) = c_leader gp k (core w).
Proof.
  intros Hpr Hg Hk. unfold setLeader, deref. rewrite Hg, is_getMemberSlot.
  destruct (slot_of_elem k _ Hk) as [s Hs]. rewrite Hs. cbn zeta. pose proof (slot_of_Some _ _ _ Hs) as [_ <-].
  match goal with |- core (updateLeaderFlag false gp (upd_group gp ?f (updateLeaderFlag true gp ?w2))) = _ =>
    set (w1 := w2); set (fl := f) end.
  assert (Hq1 : quiet w (updateLeaderFlag true gp w1)).
  { apply q_updateLeaderFlag; [done|by exists g|]. unfold w1. quiet. }
  set (w2 := updateLeaderFlag true gp w1) in *.
  assert (Hc : core (upd_group gp fl w2) = c_leader gp (ms_guid s) (core w)).
  { rewrite <- (quiet_core _ _ Hq1). by apply core_upd_group. }
  assert (Hq2 : quiet (upd_group gp fl w2) (updateLeaderFlag false gp (upd_group gp fl w2))).
  { apply q_updateLeaderFlag; [by apply (present_quiet w w2)| |done]. apply live_core. rewrite Hc. unfold c_leader.
    rewrite cg_lookup, decide_True by done. rewrite (core_group gp g w Hg). done. }
  by rewrite (quiet_core _ _ Hq2).
Qed.

Lemma find_leader_member gp g w k : find_leader gp g w = Some k -> k ∈ guids (m_memberSlots g) /\ k <> m_leaderGuid g.
Proof.
  unfold find_leader. cbn zeta. set (l := filter _ _).
  assert (Hl : forall s, s ∈ l -> ms_guid s ∈ guids (m_memberSlots g) /\ ms_guid s <> m_leaderGuid g).
  { intros s [Hs Hin]%list_elem_of_filter. split; [by apply list_elem_of_fmap_2|]. unfold candidate in Hs.
    apply andb_true_iff in Hs as [Hs _]. by destruct (Z.eqb_spec (ms_guid s) (m_leaderGuid g)). }
  assert (Hh : forall s, head l = Some s -> s ∈ l) by (intros s; destruct l; [done|]; cbn; intros [= ->]; by left).
  destruct (if isRaidGroup g then List.find ms_assistant l else head l) as [s|] eqn:Eb.
  - intros [= <-]. apply Hl. destruct (isRaidGroup g); [|by apply Hh]. apply find_some in Eb as [Hin _].
    by apply list_elem_of_In.
  - rewrite fmap_Some. intros (s & Hs & ->). by apply Hl, Hh.
Qed.

(** The member who follows a leader who has left. *)
Definition elected (gp : Z) (g : Group) (w : World) : ObjectGuid :=
  match find_leader gp g w with
  | Some k => k
  | None => match head (m_memberSlots g) with Some s => ms_guid s | None => 0 end
  end.

Lemma core_chooseLeader gp w g :
  links (core w) -> w_groups w !! gp = Some g -> (2 <= length (m_memberSlots g))%nat ->
  elected gp g w ∈ guids (m_memberSlots g) /\ core (chooseLeader E gp false w) = c_leader gp (elected gp g w) (core w).
Proof.
  intros Hl Hg Hlen. unfold chooseLeader, elected, deref. rewrite Hg. unfold GetMembersMinCount, GetMembersCount.
  rewrite (links_not_bg w Hl gp g Hg). destruct (Z.ltb_spec (Z.of_nat (length (m_memberSlots g))) 2); [lia|]. cbn zeta.
  destruct (find_leader gp g w) as [k|] eqn:Ef.
  - apply find_leader_member in Ef as [Hk _]. split; [done|]. by apply (core_setLeader gp k w g (links_present w Hl)).
  - destruct (m_memberSlots g) as [|s l] eqn:Em; [cbn in Hlen; lia|]. cbn. split; [by left|].
    apply (core_setLeader gp _ w g (links_present w Hl) Hg). rewrite Em. by left.
Qed.
End Ops.
#[export] Hint Resolve q_updateLeaderFlag q_send_own_group q_UpdateCrossfaction q_announce_factions : quiet.

(** ** Who follows as leader

    What [_chooseLeader] decides after a member has been taken out, in the
    terms of the world before: it reads only who is online, with a session. *)

Definition has_session (k : ObjectGuid) (w : World) : bool :=
  match GetPlayer k w with Some p => GetSession p | None => false end.

(** The first of the others who is online; in a raid the first assistant of
    these; when nobody is online the first of the others. *)
Definition successor (g : Group) (k : ObjectGuid) (w : World) : ObjectGuid :=
  let rest := others k (m_memberSlots g) in
  let here := filter (fun s => has_session (ms_guid s) w = true) rest in
  let first l := match head l with Some s => ms_guid s | None => 0 end in
  match (if isRaidGroup g then List.find ms_assistant here else head here) with
  | Some s => ms_guid s
  | None => match here with [] => first rest | _ => first here end
  end.

(** ** What groups read of the players does not change *)

Definition infos (w : World) : gmap ObjectGuid PlayerInfo := pl_info <$> w_players w.

Lemma infos_upd_player k f w : (forall p, pl_info (f p) = pl_info p) -> infos (upd_player k f w) = infos w.
Proof.
  intros Hf. unfold infos, upd_player, set_players. cbn. apply map_eq. intros j. rewrite !lookup_fmap.
  destruct (decide (j = k)) as [->|Hn]; [|by rewrite lookup_alter_ne]. rewrite lookup_alter_eq. destruct (w_players w !! k); cbn; [by rewrite Hf|done].
Qed.

Section Infos.
Context `{HashIter}.
Context (E : Env).
Implicit Types (w : World).

Lemma infos_UpdateGroupLeaderFlag b k w : infos (UpdateGroupLeaderFlag b k w) = infos w.
Proof. unfold UpdateGroupLeaderFlag. repeat case_match; try done; by apply infos_upd_player. Qed.
Lemma infos_updateLeaderFlag b gp w : infos (updateLeaderFlag b gp w) = infos w.
Proof. unfold updateLeaderFlag, deref. repeat case_match; try done. apply infos_UpdateGroupLeaderFlag. Qed.
Lemma infos_unlink orig k w : infos (unlink orig k w) = infos w.
Proof.
  unfold unlink. destruct (w_players w !! k) as [p|]; [|done]. cbn zeta.
  assert (Hi : infos (upd_player k (set_ref orig (mkRef None (iSubGroup (get_ref orig p)))) w) = infos w) by (apply infos_upd_player; intros q; by destruct orig).
  by destruct (gr_target (get_ref orig p)).
Qed.
Lemma infos_leave_ref gp k p w : GetOriginalGroup p <> Some gp -> infos (leave_ref gp false k p w) = infos w.
Proof. intros Ho. unfold leave_ref. rewrite bool_decide_false by done. apply infos_unlink. Qed.
Lemma infos_SubGroupCounter d gp sub w : infos (SubGroupCounter d gp sub w) = infos w.
Proof. unfold SubGroupCounter, deref. by repeat case_match. Qed.
Lemma infos_removeRolls gp k w : live gp w -> infos (removeRolls E gp k w) = infos w.
Proof. intros Hl. by rewrite (removeRolls_spec E gp k w Hl). Qed.

(** ** The election *)

Lemma filter_ext_in {A} (P Q : A -> Prop) `{forall x, Decision (P x)} `{forall x, Decision (Q x)} (l : list A) :
  (forall x, x ∈ l -> P x <-> Q x) -> filter P l = filter Q l.
Proof.
  induction l as [|x l IH]; intros He; [done|]. rewrite !filter_cons.
  rewrite IH by (intros y Hy; apply He; by right). assert (Hx : P x <-> Q x) by (apply He; by left).
  repeat case_decide; tauto || done.
Qed.

Lemma has_session_same k w w1 : links (core w) -> links (core w1) -> infos w1 = infos w -> has_session k w1 = has_session k w.
Proof.
  intros Hl Hl1 Hi. unfold has_session. rewrite !links_GetPlayer by done. apply (f_equal (fun m => m !! k)) in Hi. unfold infos in Hi.
  rewrite !lookup_fmap in Hi. destruct (w_players w !! k), (w_players w1 !! k); cbn in Hi; try done. injection Hi as Hi. unfold GetSession. by rewrite Hi.
Qed.

Lemma candidate_session gp g w s :
  links (core w) -> w_groups w !! gp = Some g -> s ∈ m_memberSlots g -> ms_guid s <> m_leaderGuid g ->
  candidate gp g w s = has_session (ms_guid s) w.
Proof.
  intros Hl Hg Hs Hn. unfold candidate, has_session. destruct (Z.eqb_spec (ms_guid s) (m_leaderGuid g)); [done|]. cbn [negb andb].
  rewrite links_GetPlayer by done. destruct (w_players w !! ms_guid s) as [p|] eqn:Hp; [|done].
  assert (GetGroup p = Some gp) as ->; [|by rewrite bool_decide_true, andb_true_r].
  apply (wf_link _ Hl _ _ gp (core_player _ p w Hp)). exists (gview g). split; [by apply core_group|]. by apply list_elem_of_fmap_2.
Qed.

(** The election held after [k] is gone, in the terms of the world before. *)
Lemma elected_successor gp g k w g1 w1 :
  links (core w) -> links (core w1) -> w_groups w1 !! gp = Some g1 ->
  m_memberSlots g1 = others k (m_memberSlots g) -> isRaidGroup g1 = isRaidGroup g -> m_leaderGuid g1 = k -> infos w1 = infos w ->
  elected gp g1 w1 = successor g k w.
Proof.
  intros Hl Hl1 Hg1 Hs Hr Hld Hi. unfold elected, find_leader, successor. cbn zeta. rewrite <- Hs, Hr.
  assert (Hf : filter (fun s => candidate gp g1 w1 s = true) (m_memberSlots g1) = filter (fun s => has_session (ms_guid s) w = true) (m_memberSlots g1)).
  { apply filter_ext_in. intros s Hin. rewrite (candidate_session gp g1 w1 s Hl1 Hg1 Hin).
    - by rewrite (has_session_same _ w w1).
    - rewrite Hld. intros Hk. rewrite Hs in Hin. apply (list_elem_of_fmap_2 ms_guid) in Hin. change (ms_guid s ∈ guids (others k (m_memberSlots g))) in Hin.
      by apply guids_others in Hin as [? _]. }
  rewrite Hf. generalize (filter (fun s => has_session (ms_guid s) w = true) (m_memberSlots g1)). intros c.
  destruct (if isRaidGroup g then List.find ms_assistant c else head c); [done|]. by destruct c.
Qed.
End Infos.
