(* ===== verification/GroupMoves.v ===== *)
(** * GroupMoves: members come, go and move

    The operations that change the members of a group, as steps on the core. *)
From S2P Require Import Prelude ByteBuffer ObjectGuid GroupData GroupPackets GroupLoot MeetingStone Group GroupHandlers GroupCore GroupRolls GroupKept GroupSound GroupSlots GroupSteps GroupEnds GroupOps.

(** A group and a player of the core are those of the world. *)
Lemma core_group_eq gp g w w' : core w' = core w -> w_groups w !! gp = Some g -> exists g', w_groups w' !! gp = Some g' /\ gview g' = gview g.
Proof. intros Hc Hg. apply core_group in Hg. rewrite <- Hc in Hg. by apply group_core in Hg. Qed.
Lemma core_player_eq k p w w' : core w' = core w -> w_players w !! k = Some p -> exists p', w_players w' !! k = Some p' /\ pview p' = pview p.
Proof. intros Hc Hp. apply core_player in Hp. rewrite <- Hc in Hp. by apply player_core in Hp. Qed.

Lemma SubGroupCounter_players d gp sub w : w_players (SubGroupCounter d gp sub w) = w_players w.
Proof. unfold SubGroupCounter, deref. by repeat case_match. Qed.
Lemma GetPlayer_players k w w' : w_players w' = w_players w -> GetPlayer k w' = GetPlayer k w.
Proof. intros He. unfold GetPlayer, FindPlayerNotInWorld. by rewrite He. Qed.

(** ** Invitations *)

Lemma core_RemoveInvite_some gp k p w :
  links (core w) -> w_players w !! k = Some p -> m_groupInvite p = Some gp -> core (RemoveInvite gp k w) = c_uninvite gp k (core w).
Proof.
  intros Hl Hp Hi. destruct (links_invite_no_group w Hl k p gp Hp Hi) as [[g Hg] _]. unfold RemoveInvite, deref. rewrite Hg.
  rewrite bool_decide_true by (apply (links_invitee w Hl gp g k Hg); eauto). unfold clear_invite.
  cbn [upd_group set_groups w_players]. rewrite Hp, bool_decide_true by done.
  by rewrite (core_upd_player k _ (pv_set_invite None)), (core_upd_group gp _ (fun g => gv_set_inv (gv_inv g ∖ {[k]}) g)) by done.
Qed.
Lemma core_RemoveInvite_none gp k p w :
  links (core w) -> live gp w -> w_players w !! k = Some p -> m_groupInvite p <> Some gp -> RemoveInvite gp k w = w.
Proof.
  intros Hl [g Hg] Hp Hi. unfold RemoveInvite, deref. rewrite Hg, bool_decide_false; [done|].
  intros (p' & Hp' & Hi')%(links_invitee w Hl gp g k Hg). congruence.
Qed.

Lemma wf_uninvite gp k p w :
  wf (core w) -> w_players w !! k = Some p -> m_groupInvite p = Some gp ->
  wf (c_uninvite gp k (core w)) /\ only gp (core w) (c_uninvite gp k (core w)).
Proof.
  intros [Hl Hok] Hp Hi. destruct (links_invite_no_group w Hl k p gp Hp Hi) as [[g Hg] Hno]. split; [split|].
  - apply (links_uninvite _ gp k (pview p) (gview g)); [done|by apply core_player|by apply core_group|done|done].
  - apply counted_cp, counted_set_inv; [|done]. eauto.
  - apply (only_invite _ gp k (pview p)); [by apply core_player|by left|by right].
Qed.

(** A player without group and invitation is invited. *)
Lemma core_AddInvite `{HashIter} gp k p w :
  links (core w) -> live gp w -> w_players w !! k = Some p -> m_groupInvite p = None -> GetGroup p = None ->
  fst (AddInvite gp k w) = true /\ core (snd (AddInvite gp k w)) = c_invite gp k (core w).
Proof.
  intros Hl Hlv Hp Hi Hno. unfold AddInvite. rewrite Hp, Hi. rewrite (links_own_group w Hl p) by eauto. rewrite Hno. cbn.
  split; [done|]. change (core (emit _ ?w0)) with (core w0).
  rewrite (core_upd_player k _ (pv_set_invite (Some gp))), (core_upd_group gp _ (fun g => gv_set_inv ({[k]} ∪ gv_inv g) g)) by done.
  by rewrite (core_RemoveInvite_none gp k p w) by congruence.
Qed.
Lemma AddInvite_refused `{HashIter} gp k p w :
  links (core w) -> w_players w !! k = Some p -> m_groupInvite p <> None \/ GetGroup p <> None -> AddInvite gp k w = (false, w).
Proof.
  intros Hl Hp Hr. unfold AddInvite. rewrite Hp. rewrite (links_own_group w Hl p) by eauto.
  rewrite (proj2 (orb_true_iff _ _)); [done|]. destruct Hr; [left|right]; by apply bool_decide_eq_true.
Qed.
Lemma wf_invite_step gp k p w :
  wf (core w) -> live gp w -> w_players w !! k = Some p -> m_groupInvite p = None -> GetGroup p = None ->
  wf (c_invite gp k (core w)) /\ only gp (core w) (c_invite gp k (core w)).
Proof.
  intros [Hl Hok] [g Hg] Hp Hi Hno. split; [split|].
  - apply (links_invite _ gp k (pview p) (gview g)); [done|by apply core_player|by apply core_group|done|done].
  - apply counted_cp, counted_set_inv; [|done]. eauto.
  - apply (only_invite _ gp k (pview p)); [by apply core_player|by right|by left].
Qed.

(** ** New members *)

Section Ops.
Context `{HashIter}.
Context (E : Env).

Lemma core_addMember_at gp k name a sub p g w :
  links (core w) -> w_groups w !! gp = Some g -> IsFull g = false -> w_players w !! k = Some p -> GetGroup p = None ->
  m_groupInvite p = None -> 0 <= sub < MAX_RAID_SUBGROUPS ->
  fst (addMember_at gp k name a sub w) = true
  /\ core (snd (addMember_at gp k name a sub w)) = c_join gp (mkSlot k name sub a) (core w).
Proof.
  intros Hl Hg Hfull Hp Hno Hi Hs. destruct (links_player w Hl k p Hp) as (Hk & _ & Hw & _). unfold addMember_at. rewrite Hg, Hfull.
  unfold IsEmpty. destruct (Z.eqb_spec k 0); [done|]. cbn [orb]. cbn zeta. split; [by case_match|].
  set (s := mkSlot k name sub a). set (w1 := SubGroupCounterIncrease gp sub _).
  assert (Hc1 : core w1 = cg gp (fun g => gv_set_slots (gv_slots g ++ [s]) (bump_opt 1 sub (gv_counts g)) g) (core w)).
  { unfold w1, SubGroupCounterIncrease. erewrite core_SubGroupCounter.
    - rewrite (core_upd_group_at gp _ (fun g => gv_set_slots (gv_slots g ++ [s]) (gv_counts g) g) g) by done. by rewrite cg_cg.
    - cbn. by rewrite lookup_alter_eq, Hg.
    - intros _. apply Hs. }
  assert (Hp1 : w_players w1 = w_players w) by (unfold w1, SubGroupCounterIncrease; by rewrite SubGroupCounter_players).
  rewrite (GetPlayer_players k w w1 Hp1), (links_GetPlayer w Hl), Hp, Hi. rewrite Hno.
  set (w2 := upd_player k (SetGroupInvite None) w1).
  assert (Hc2 : core w2 = cp k (pv_set_invite None) (core w1)) by by apply core_upd_player.
  assert (Hc3 : core (SetGroup (Some (gp, sub)) k w2) = c_join gp s (core w)).
  { rewrite (core_SetGroup k (SetGroupInvite None p) gp sub w2).
    - rewrite Hc2, Hc1, !cp_cg, cg_cg, cp_cp. done.
    - unfold w2, upd_player, set_players. cbn. by rewrite lookup_alter_eq, Hp1, Hp.
    - done.
    - apply live_core. rewrite Hc2, Hc1. cbn. rewrite lookup_alter_eq. by rewrite (core_group gp g w Hg).
    - change MAX_RAID_SUBGROUPS with 8 in Hs. lia. }
  rewrite <- Hc3. by case_match.
Qed.

Lemma free_subgroup_range g sub : free_subgroup g = Some sub -> 0 <= sub < MAX_RAID_SUBGROUPS.
Proof.
  unfold free_subgroup. destruct (m_subGroupsCounts g) as [n|]; [|by intros [= <-]].
  intros [Hin _]%find_some. apply list_elem_of_In, elem_of_seqZ in Hin. change MAX_RAID_SUBGROUPS with 8 in *. lia.
Qed.

(** The place [addMember] finds fits the counters. *)
Lemma free_subgroup_fits w gp g sub :
  counted (core w) -> w_groups w !! gp = Some g -> free_subgroup g = Some sub ->
  if isRaidGroup g then 0 <= sub < 8 /\ (subgroup_size sub (m_memberSlots g) < 5)%nat else sub = 0.
Proof.
  intros Hok Hg Hf. pose proof (free_subgroup_range g sub Hf) as Hr. change MAX_RAID_SUBGROUPS with 8 in Hr.
  pose proof (Hok gp _ (core_group gp g w Hg)) as Hs. cbn in Hs. pose proof (so_subgroups _ _ _ Hs) as Hsub. unfold free_subgroup in Hf.
  destruct (isRaidGroup g).
  - split; [done|]. destruct (raid_counts_some _ _ Hsub) as [n Hn]. rewrite Hn in *.
    apply find_some in Hf as [_ Hlt]. rewrite (sub_count_ok n _ sub (raid_counts _ _ Hsub) Hr) in Hlt.
    change MAX_GROUP_SIZE with 5 in Hlt. apply Z.ltb_lt in Hlt. lia.
  - destruct Hsub as [Hn _]. rewrite Hn in Hf. by injection Hf.
Qed.

Lemma IsFull_size g : IsFull g = false -> Z.of_nat (length (m_memberSlots g)) < (if isRaidGroup g then MAX_RAID_SIZE else MAX_GROUP_SIZE).
Proof. unfold IsFull, GetMembersCount. destruct (isRaidGroup g); cbn; intros ?%Z.leb_gt; done. Qed.

(** A player joins, or nothing happens: the raid has no place. *)
Lemma core_addMember gp k name a p g w :
  wf (core w) -> w_groups w !! gp = Some g -> IsFull g = false -> w_players w !! k = Some p -> GetGroup p = None ->
  m_groupInvite p = None ->
  addMember gp k name a w = (false, w) /\ isRaidGroup g = true
  \/ exists s, ms_guid s = k /\ fst (addMember gp k name a w) = true /\ core (snd (addMember gp k name a w)) = c_join gp s (core w)
       /\ wf (c_join gp s (core w)) /\ only gp (core w) (c_join gp s (core w)).
Proof.
  intros [Hl Hok] Hg Hfull Hp Hno Hi. unfold addMember. rewrite Hg. destruct (free_subgroup g) as [sub|] eqn:Hf.
  - right. exists (mkSlot k name sub a). pose proof (free_subgroup_range g sub Hf) as Hr.
    destruct (core_addMember_at gp k name a sub p g w Hl Hg Hfull Hp Hno Hi Hr) as [Hb Hc].
    split; [done|]. split; [done|]. split; [done|]. split; [split|].
    + apply (links_join _ gp (mkSlot k name sub a) (pview p) (gview g)); [done|by apply core_player|by apply core_group|done|done].
    + apply (counted_join _ gp (mkSlot k name sub a) (pview p) (gview g)); try done.
      * by apply core_player.
      * by apply core_group.
      * apply (links_player w Hl k p Hp).
      * by apply IsFull_size.
      * by apply (free_subgroup_fits w gp g sub).
    + by apply (only_join _ gp (mkSlot k name sub a) (pview p)); [apply core_player|..].
  - left. split; [done|]. unfold free_subgroup in Hf. pose proof (Hok gp _ (core_group gp g w Hg)) as Hs. cbn in Hs.
    pose proof (so_subgroups _ _ _ Hs) as Hsub. destruct (isRaidGroup g); [done|]. destruct Hsub as [Hn _]. by rewrite Hn in Hf.
Qed.

(** What [AddMember] does after the player is in the group. *)
Lemma core_AddMember gp k name j p g w :
  wf (core w) -> w_groups w !! gp = Some g -> IsFull g = false -> w_players w !! k = Some p -> GetGroup p = None ->
  m_groupInvite p = None ->
  AddMember E gp k name j w = (false, w) /\ isRaidGroup g = true
  \/ exists s, ms_guid s = k /\ fst (AddMember E gp k name j w) = true /\ core (snd (AddMember E gp k name j w)) = c_join gp s (core w)
       /\ wf (c_join gp s (core w)) /\ only gp (core w) (c_join gp s (core w)).
Proof.
  intros Hw Hg Hfull Hp Hno Hi. unfold AddMember.
  destruct (core_addMember gp k name false p g w Hw Hg Hfull Hp Hno Hi) as [[-> ?]|(s & Hk & Hb & Hc & Hwf & Ho)]; [by left|].
  right. exists s. destruct (addMember gp k name false w) as [b w1]. cbn in Hb, Hc. subst b. cbn zeta. cbn [negb fst snd].
  split; [done|]. split; [done|]. split; [|done]. rewrite <- Hc. apply quiet_core.
  assert (Hl1 : links (core w1)) by (rewrite Hc; apply Hwf).
  assert (live gp w1).
  { apply live_core. rewrite Hc. unfold c_join. cbn. rewrite lookup_alter_eq, (core_group gp g w Hg). done. }
  assert (Hq : quiet w1 (announce_factions E gp k (SendUpdate gp w1))) by (apply q_announce_factions; quiet).
  set (w2 := announce_factions E gp k (SendUpdate gp w1)) in *. quiet.
Qed.

(** ** Members who leave *)

Lemma core_leave_ref gp g s w :
  links (core w) -> w_groups w !! gp = Some g -> slot_of (ms_guid s) (m_memberSlots g) = Some s ->
  core (match GetPlayer (ms_guid s) w with Some p => leave_ref gp (isBGGroup g) (ms_guid s) p w | None => w end)
  = cp (ms_guid s) pv_leave (cg gp (gv_filter_mgr (ms_guid s)) (core w)).
Proof.
  intros Hl Hg Hs. set (k := ms_guid s). rewrite (links_GetPlayer w Hl). destruct (w_players w !! k) as [p|] eqn:Hp.
  - destruct (links_player w Hl k p Hp) as (_ & _ & _ & Ho). unfold leave_ref. rewrite (links_not_bg w Hl gp g Hg), Ho.
    rewrite bool_decide_false by done. cbn [SetGroup]. rewrite (core_unlink k p w Hp).
    assert (GetGroup p = Some gp) as ->; [|done].
    apply (wf_link _ Hl k _ gp (core_player k p w Hp)). apply (leaver_member _ gp (gview g)); [by apply core_group|done].
  - assert (Hn : c_players (core w) !! k = None) by (unfold core; cbn; by rewrite lookup_fmap, Hp).
    rewrite cp_none by done. rewrite (cg_const gp (gview g)) by by apply core_group. unfold gv_filter_mgr.
    rewrite filter_all; [symmetry; apply cg_same; by apply core_group|].
    apply Forall_forall. intros r Hr ->. apply (wf_mgr _ Hl gp _ k false (core_group gp g w Hg)) in Hr as [_ (p & Hp' & _)]. congruence.
Qed.

(** The world in which the slot of [k] is gone and the leader not yet replaced. *)
Lemma core_removeMember gp k g s w :
  wf (core w) -> w_groups w !! gp = Some g -> slot_of k (m_memberSlots g) = Some s -> (3 <= length (m_memberSlots g))%nat ->
  exists k', k' ∈ guids (others k (m_memberSlots g)) /\ (m_leaderGuid g = k -> k' = successor g k w)
    /\ fst (removeMember E gp k w) = (m_leaderGuid g =? k)
    /\ core (snd (removeMember E gp k w))
       = (if m_leaderGuid g =? k then c_leader gp k' else (fun c => c)) (c_leave gp k (ms_group s) (core w)).
Proof.
  intros [Hl Hok] Hg Hs Hlen. pose proof (slot_of_Some _ _ _ Hs) as [Hin Hk].
  pose proof (Hok gp _ (core_group gp g w Hg)) as Hsl. pose proof (so_nodup _ _ _ Hsl) as Hnd. cbn in Hsl, Hnd.
  assert (Hperm := slot_perm k s _ Hnd Hs). apply Permutation_length in Hperm. cbn in Hperm.
  unfold removeMember. rewrite Hg, is_getMemberSlot, Hs.
  set (w1 := match GetPlayer k w with Some p => _ | None => w end).
  assert (Hc1 : core w1 = cp k pv_leave (cg gp (gv_filter_mgr k) (core w))).
  { unfold w1. subst k. by apply (core_leave_ref gp g s). }
  assert (Hi1 : infos w1 = infos w).
  { unfold w1. rewrite (links_GetPlayer w Hl). destruct (w_players w !! k) as [p|] eqn:Hp; [|done]. rewrite (links_not_bg w Hl gp g Hg).
    apply infos_leave_ref. destruct (links_player w Hl k p Hp) as (_ & _ & _ & Ho). by rewrite Ho. }
  assert (Hg1 : c_groups (core w1) !! gp = Some (gv_filter_mgr k (gview g))).
  { rewrite Hc1. cbn. by rewrite lookup_alter_eq, (core_group gp g w Hg). }
  assert (Hlv : live gp w1) by (apply live_core; by eexists).
  cbn zeta. set (w2 := removeRolls E gp k w1).
  assert (Hq2 : quiet w1 w2) by (apply q_removeRolls; quiet).
  pose proof Hg1 as Hg2. rewrite <- (quiet_core _ _ Hq2) in Hg2. apply group_core in Hg2 as (g2 & Hg2 & Hv2).
  assert (Hsub : m_subGroupsCounts g2 <> None -> ms_group s < MAX_RAID_SUBGROUPS).
  { assert (m_subGroupsCounts g2 = m_subGroupsCounts g) as -> by exact (f_equal gv_counts Hv2).
    pose proof (so_subgroups _ _ _ Hsl) as Hs1. destruct (isRaidGroup g).
    - intros _. pose proof (rs_range _ _ Hs1) as Hr. rewrite Forall_forall in Hr. by apply Hr.
    - by destruct Hs1 as [-> _]. }
  set (w3 := SubGroupCounterDecrease gp (ms_group s) w2). set (w4 := upd_group gp _ w3).
  assert (Hc4 : core w4 = c_leave gp k (ms_group s) (core w)).
  { unfold w4. rewrite (core_upd_group gp _ (fun g => gv_set_slots (erase_slot k (gv_slots g)) (gv_counts g) g)) by done.
    unfold w3, SubGroupCounterDecrease. rewrite (core_SubGroupCounter _ gp _ w2 g2 Hg2 Hsub), (quiet_core _ _ Hq2), Hc1.
    rewrite !cp_cg, !cg_cg. unfold c_leave. rewrite cp_cg. rewrite (cg_const gp (gview g)) by by apply core_group.
    rewrite (cg_const gp (gview g) (gv_leave _ _)) by by apply core_group. f_equal. cbn. by rewrite erase_slot_others. }
  rewrite (links_not_bg w Hl gp g Hg). set (w5 := emit _ w4).
  assert (Hl5 : links (core w5)).
  { change (core w5) with (core w4). rewrite Hc4. subst k. apply (links_leave _ gp (gview g)); [done|by apply core_group|done]. }
  assert (Hg5 : c_groups (core w5) !! gp = Some (gv_leave k (ms_group s) (gview g))).
  { change (core w5) with (core w4). rewrite Hc4. cbn. by rewrite lookup_alter_eq, (core_group gp g w Hg). }
  destruct (Z.eqb_spec (m_leaderGuid g) k) as [Hld|Hld].
  - pose proof Hg5 as Hg6. assert (Hq6 : quiet w5 (updateLeaderFlag true gp w5)).
    { apply q_updateLeaderFlag; [by apply links_present|apply live_core; by eexists|done]. }
    rewrite <- (quiet_core _ _ Hq6) in Hg6. apply group_core in Hg6 as (g6 & Hg6 & Hv6).
    assert (Hs6 : m_memberSlots g6 = others k (m_memberSlots g)) by exact (f_equal gv_slots Hv6).
    assert (Hl6 : links (core (updateLeaderFlag true gp w5))) by by rewrite (quiet_core _ _ Hq6).
    destruct (core_chooseLeader E gp (updateLeaderFlag true gp w5) g6 Hl6 Hg6) as (Hk' & Hc7); [rewrite Hs6; lia|].
    assert (He : elected gp g6 (updateLeaderFlag true gp w5) = successor g k w).
    { apply elected_successor; try done; [exact (f_equal gv_raid Hv6)|rewrite <- Hld; exact (f_equal gv_leader Hv6)|].
      rewrite infos_updateLeaderFlag. change (infos w5) with (infos w3). unfold w3, SubGroupCounterDecrease.
      rewrite infos_SubGroupCounter. unfold w2. rewrite infos_removeRolls by done. exact Hi1. }
    rewrite He in Hk', Hc7.
    exists (successor g k w). rewrite <- Hs6. split; [done|]. split; [done|]. split; [done|]. cbn [snd]. rewrite Hc7, (quiet_core _ _ Hq6). by rewrite <- Hc4.
  - destruct (others k (m_memberSlots g)) as [|s' l] eqn:Eo; [cbn in *; lia|]. exists (ms_guid s'). split; [by left|]. done.
Qed.
End Ops.
