(* ===== verification/GroupDisband.v ===== *)
(** * GroupDisband: a group is disbanded and deleted

    [Disband] unlinks the members one by one while their slots are still in
    the group. Here: with the removal from the map and the destructor it is
    [c_dissolve]. *)
From S2P Require Import Prelude ByteBuffer ObjectGuid GroupData GroupPackets GroupLoot MeetingStone Group GroupHandlers GroupCore GroupRolls GroupKept GroupSound GroupSlots GroupSteps GroupEnds GroupOps GroupMoves.

Implicit Types (c : Core) (ks : list ObjectGuid).

(** ** Players put out, one by one *)

Definition c_out (gp : Z) ks c : Core :=
  mkCore (map_imap (fun j p => Some (if decide (j ∈ ks) then pv_leave p else p)) (c_players c))
    (alter (fun g => gv_set_mgr (filter (fun r => r.2 = true \/ r.1 ∉ ks) (gv_mgr g)) g) gp (c_groups c))
    (c_next c) (c_map c) (c_ids c) (c_ub c).

Lemma out_player gp ks c j : c_players (c_out gp ks c) !! j = (fun p => if decide (j ∈ ks) then pv_leave p else p) <$> c_players c !! j.
Proof. cbn. rewrite map_lookup_imap. by destruct (c_players c !! j). Qed.
Lemma out_group gp ks c g :
  c_groups c !! gp = Some g ->
  c_groups (c_out gp ks c) !! gp = Some (gv_set_mgr (filter (fun r => r.2 = true \/ r.1 ∉ ks) (gv_mgr g)) g).
Proof. intros Hg. cbn. by rewrite lookup_alter_eq, Hg. Qed.

Lemma out_nil gp c : c_out gp [] c = c.
Proof.
  destruct c as [ps gs n m i u]. unfold c_out. cbn. f_equal.
  - apply map_eq. intros j. rewrite map_lookup_imap. by destruct (ps !! j).
  - apply map_eq. intros j. destruct (decide (j = gp)) as [->|Hn]; [|by rewrite lookup_alter_ne]. rewrite lookup_alter_eq.
    destruct (gs !! gp) as [g|]; [|done]. cbn. rewrite filter_all; [by destruct g|]. apply Forall_forall. intros r _. right.
    by intros ?%elem_of_nil.
Qed.

Lemma out_snoc gp ks k c : cp k pv_leave (cg gp (gv_filter_mgr k) (c_out gp ks c)) = c_out gp (ks ++ [k]) c.
Proof.
  unfold cp, cg. destruct c as [ps gs n m i u]. unfold c_out. cbn. f_equal.
  - apply map_eq. intros j. rewrite map_lookup_imap.
    destruct (decide (j = k)) as [->|Hn]; [rewrite lookup_alter_eq|rewrite lookup_alter_ne by done];
      rewrite map_lookup_imap; destruct (ps !! _) as [p|]; [|done| |done]; cbn; f_equal.
    + rewrite (decide_True (P := k ∈ ks ++ [k])); [by case_decide|]. apply elem_of_app. right. by left.
    + apply decide_ext. rewrite elem_of_app, list_elem_of_singleton. tauto.
  - apply map_eq. intros j. destruct (decide (j = gp)) as [->|Hn]; [|by rewrite !lookup_alter_ne].
    rewrite !lookup_alter_eq. destruct (gs !! gp) as [g|]; [|done]. cbn. f_equal. unfold gv_filter_mgr, gv_set_mgr. cbn. f_equal.
    rewrite list_filter_filter. apply list_filter_iff. intros [j b]. cbn. rewrite elem_of_app, list_elem_of_singleton.
    destruct b; naive_solver.
Qed.

(** ** Invitations withdrawn *)

Definition invited_by (gp : Z) (w : World) (k : ObjectGuid) : Prop := exists p, w_players w !! k = Some p /\ m_groupInvite p = Some gp.

Lemma clear_invites gp l w :
  NoDup l -> (forall k, k ∈ l -> invited_by gp w k) ->
  core (foldl (fun w k => clear_invite gp k w) w l)
  = mkCore (map_imap (fun j p => Some (if decide (j ∈ l) then pv_set_invite None p else p)) (c_players (core w)))
      (c_groups (core w)) (c_next (core w)) (c_map (core w)) (c_ids (core w)) (c_ub (core w)).
Proof.
  revert w. induction l as [|k l IH]; intros w Hnd Hin.
  - destruct (core w) as [ps gs n m i u] eqn:Ec. cbn. rewrite Ec. f_equal. apply map_eq. intros j. rewrite map_lookup_imap.
    by destruct (ps !! j).
  - apply NoDup_cons in Hnd as [Hk Hnd]. destruct (Hin k ltac:(by left)) as (p & Hp & Hi). cbn [foldl].
    assert (Hc : clear_invite gp k w = upd_player k (SetGroupInvite None) w) by (unfold clear_invite; by rewrite Hp, bool_decide_true).
    rewrite Hc, IH; [|done|].
    + rewrite (core_upd_player k _ (pv_set_invite None)) by done. unfold cp. cbn. f_equal. apply map_eq. intros j.
      rewrite !map_lookup_imap. destruct (decide (j = k)) as [->|Hn].
      * rewrite lookup_alter_eq. destruct (c_players (core w) !! k); [|done]. cbn.
        rewrite (decide_True (P := k ∈ k :: l)) by by left. by rewrite decide_False.
      * rewrite lookup_alter_ne by done. destruct (c_players (core w) !! j); [|done]. cbn. f_equal. apply decide_ext.
        rewrite elem_of_cons. tauto.
    + intros j Hj. destruct (Hin j ltac:(by right)) as (q & Hq & Hqi). exists q. split; [|done]. unfold upd_player, set_players. cbn.
      rewrite lookup_alter_ne; [done|]. intros <-. done.
Qed.

Lemma core_RemoveAllInvites gp g w :
  w_groups w !! gp = Some g -> (forall k, k ∈ m_invitees g -> invited_by gp w k) ->
  core (RemoveAllInvites gp w) = c_clear gp (m_invitees g) (core w).
Proof.
  intros Hg Hin. unfold RemoveAllInvites, deref. rewrite Hg. rewrite (core_upd_group gp _ (gv_set_inv ∅)) by done.
  rewrite clear_invites; [|apply NoDup_elements|intros k Hk; apply Hin; by apply elem_of_elements].
  unfold cg, c_clear. cbn. f_equal. apply map_eq. intros j. rewrite !map_lookup_imap. destruct (c_players (core w) !! j); [|done].
  cbn. f_equal. apply decide_ext. by rewrite elem_of_elements.
Qed.

(** ** The destructor *)

Lemma core_delete_group gp g w :
  w_groups w !! gp = Some g -> m_memberMgr g = [] -> (forall k, k ∈ m_invitees g -> invited_by gp w k) ->
  core (delete_group gp w)
  = mkCore (c_players (c_clear gp (m_invitees g) (core w))) (delete gp (c_groups (core w))) (c_next (core w)) (c_map (core w))
      (c_ids (core w)) (c_ub (core w)).
Proof.
  intros Hg Hm Hin. pose proof (core_RemoveAllInvites gp g w Hg Hin) as Hc. set (w1 := RemoveAllInvites gp w) in *.
  assert (Hg1 : c_groups (core w1) !! gp = Some (gv_set_inv ∅ (gview g))).
  { rewrite Hc. cbn. by rewrite lookup_alter_eq, (core_group gp g w Hg). }
  apply group_core in Hg1 as (g1 & Hg1 & Hv1). unfold delete_group. fold w1. unfold deref. rewrite Hg1.
  assert (m_memberMgr g1 = []) as -> by (rewrite <- Hm; exact (f_equal gv_mgr Hv1)). cbn zeta. cbn [foldl].
  set (w2 := emit _ w1). assert (Hc2 : core w2 = c_clear gp (m_invitees g) (core w)) by done. clearbody w2. clear Hc Hg1 Hv1 w1.
  unfold core, set_groups. cbn. unfold core, c_clear in Hc2. injection Hc2 as E1 E2 E3 E4 E5 E6. f_equal; try done.
  rewrite fmap_delete, E2. unfold core. cbn. apply map_eq. intros j. destruct (decide (j = gp)) as [->|Hn].
  - by rewrite !lookup_delete_eq.
  - by rewrite !lookup_delete_ne, lookup_alter_ne.
Qed.

Section Disband.
Context `{HashIter}.
Context (E : Env).
Context (w0 : World) (gp : Z) (g0 : Group) (Hl : links (core w0)) (Hg0 : w_groups w0 !! gp = Some g0).

(** The invariant of the loop. *)
Definition being_left (ks : list ObjectGuid) (w : World) : Prop := core w = c_out gp ks (core w0).

Section Left.
Context (ks : list ObjectGuid) (w : World) (Hks : being_left ks w).

Lemma left_group : exists g, w_groups w !! gp = Some g /\ isBGGroup g = false /\ m_Id g = m_Id g0
  /\ m_memberSlots g = m_memberSlots g0 /\ m_memberMgr g = filter (fun r => r.2 = true \/ r.1 ∉ ks) (m_memberMgr g0)
  /\ m_invitees g = m_invitees g0.
Proof.
  pose proof (out_group gp ks _ _ (core_group gp g0 w0 Hg0)) as Ho. rewrite <- Hks in Ho. apply group_core in Ho as (g & Hg & Hv).
  exists g. split; [done|]. unfold gview in Hv. injection Hv as E1 E2 E3 E4 E5 E6 E7 E8. split; [|done].
  unfold isBGGroup. rewrite E7. change (isBGGroup g0 = false). by apply (links_not_bg w0 Hl gp).
Qed.
Lemma left_present : present w.
Proof.
  intros k p Hp. apply core_player in Hp. rewrite Hks, out_player, fmap_Some in Hp. destruct Hp as (v & Hv & E1).
  pose proof (wf_player _ Hl k v Hv) as (H1 & H2 & H3 & H4).
  assert (E2 : pview p = v \/ pview p = pv_leave v) by (rewrite E1; case_decide; auto).
  destruct E2 as [E2|E2]; apply (f_equal pv_guid) in E2 as F1; apply (f_equal pv_inWorld) in E2 as F2;
    apply (f_equal pv_orig) in E2 as F3; cbn in *; repeat split; congruence.
Qed.
Lemma left_map_live : map_live w.
Proof.
  intros id gp' Hm. apply live_core. assert (Hm0 : c_map (core w0) !! id = Some gp') by (apply (f_equal c_map) in Hks; cbn in Hks; by rewrite <- Hks).
  destruct (wf_map _ Hl id gp' Hm0) as (_ & v & Hv & _). rewrite Hks. cbn. destruct (decide (gp' = gp)) as [->|Hn].
  - rewrite lookup_alter_eq, Hv. done.
  - by rewrite lookup_alter_ne, Hv.
Qed.
Lemma left_player k p : w_players w !! k = Some p -> exists p0, w_players w0 !! k = Some p0 /\ GetGroup p = if decide (k ∈ ks) then None else GetGroup p0.
Proof.
  intros Hp. apply core_player in Hp. rewrite Hks, out_player, fmap_Some in Hp. destruct Hp as (v & Hv & E1).
  apply player_core in Hv as (p0 & Hp0 & <-). exists p0. split; [done|]. apply (f_equal pv_group) in E1. cbn in E1. rewrite E1. by case_decide.
Qed.
Lemma left_links_live : links_live w.
Proof.
  intros k p gp' Hp Hg. apply left_player in Hp as (p0 & Hp0 & Hgr). rewrite Hgr in Hg. case_decide; [done|].
  apply live_core. pose proof (links_links_live w0 Hl k p0 gp' Hp0 Hg) as Hlv. apply live_core in Hlv as [v Hv]. rewrite Hks. cbn.
  destruct (decide (gp' = gp)) as [->|Hn]; [by rewrite lookup_alter_eq, Hv|by rewrite lookup_alter_ne, Hv].
Qed.
End Left.

(** One member: the player is unlinked, the rest is quiet. *)
Lemma left_step ks w r b i s :
  being_left ks w -> s ∈ m_memberSlots g0 -> ms_guid s ∉ ks -> being_left (ks ++ [ms_guid s]) (snd (disband_member gp b i (r, w) s)).
Proof.
  intros Hks Hs Hnew. unfold being_left. rewrite <- out_snoc. rewrite <- Hks. set (k := ms_guid s) in *.
  destruct (left_group ks w Hks) as (g & Hg & Hbg & _). unfold disband_member. rewrite Hg. fold k.
  rewrite (present_GetPlayer w k (left_present ks w Hks)). destruct (w_players w !! k) as [p|] eqn:Hp.
  - destruct (left_present ks w Hks k p Hp) as (_ & _ & _ & Ho). cbn zeta.
    set (w1 := leave_ref gp (isBGGroup g) k p w).
    assert (Hc1 : core w1 = cp k pv_leave (cg gp (gv_filter_mgr k) (core w))).
    { unfold w1, leave_ref. rewrite Hbg, Ho, bool_decide_false by done. cbn [SetGroup]. rewrite (core_unlink k p w Hp).
      destruct (left_player ks w Hks k p Hp) as (p0 & Hp0 & Hgr). rewrite decide_False in Hgr by done.
      assert (GetGroup p0 = Some gp) as Hg1.
      { apply (wf_link _ Hl k _ gp (core_player k p0 w0 Hp0)). exists (gview g0). split; [by apply core_group|]. by apply list_elem_of_fmap_2. }
      by rewrite Hgr, Hg1. }
    assert (Hks1 : being_left (ks ++ [k]) w1) by (unfold being_left; by rewrite Hc1, Hks, out_snoc).
    rewrite <- Hc1. apply quiet_core.
    destruct (left_group _ w1 Hks1) as (g1 & Hg1 & _). assert (Hlv : live gp w1) by by exists g1.
    pose proof (left_links_live _ w1 Hks1) as Hll. pose proof (left_map_live _ w1 Hks1) as Hml.
    assert (Hon : online k w1).
    { apply online_core. rewrite Hc1, cp_lookup, decide_True by done. cbn. unfold core. cbn. by rewrite lookup_fmap, Hp. }
    set (w2 := if isRaidGroup g then _ else w1). assert (Hq2 : quiet w1 w2) by (unfold w2; quiet).
    destruct (negb (GetSession p)); [done|]. set (w3 := if b then w2 else _). assert (Hq3 : quiet w1 w3) by (unfold w3; quiet).
    pose proof (q_send_own_group w1 k w3 Hll Hon Hq3) as Hq4. set (w4 := send_own_group k w3) in *.
    set (w5 := if negb (has_own_group k w3) && isInLFG g then _ else w4).
    assert (Hq5 : quiet w1 w5) by (unfold w5; apply q_test; [|done]; apply q_emit; by apply q_RemoveGroupFromQueue).
    destruct (IsEmpty i || (i =? k)); cbn [snd]; quiet.
  - assert (Hn : c_players (core w) !! k = None) by (unfold core; cbn; by rewrite lookup_fmap, Hp).
    rewrite cp_none by done. cbn. symmetry. rewrite (cg_const gp (gview g)) by by apply core_group. unfold gv_filter_mgr.
    rewrite filter_all; [apply cg_same; by apply core_group|].
    apply Forall_forall. intros x Hx ->. destruct (left_group ks w Hks) as (g' & Hg' & _ & _ & _ & Hm & _).
    assert (g' = g) as -> by congruence. cbn in Hx. rewrite Hm in Hx. apply list_elem_of_filter in Hx as [_ Hx].
    apply (wf_mgr _ Hl gp _ k false (core_group gp g0 w0 Hg0)) in Hx as [_ (v & Hv & _)].
    rewrite Hks, out_player, Hv in Hn. done.
Qed.

Lemma left_all b i l ks w r :
  being_left ks w -> (forall s, s ∈ l -> s ∈ m_memberSlots g0) -> NoDup (ks ++ guids l) ->
  being_left (ks ++ guids l) (snd (foldl (disband_member gp b i) (r, w) l)).
Proof.
  revert ks w r. induction l as [|s l IH]; intros ks w r Hks Hin Hnd; [by rewrite app_nil_r|]. cbn [foldl guids fmap list_fmap].
  assert (Hnew : ms_guid s ∉ ks).
  { apply NoDup_app in Hnd as (_ & Hd & _). intros Hk. apply (Hd _ Hk). by left. }
  pose proof (left_step ks w r b i s Hks (Hin s ltac:(by left)) Hnew) as Hst.
  destruct (disband_member gp b i (r, w) s) as [r1 w1]. cbn [snd] in Hst.
  change (guids (s :: l)) with ([ms_guid s] ++ guids l) in *. rewrite app_assoc in *. apply IH; [done| |done].
  intros t Ht. apply Hin. by right.
Qed.

(** *** The whole of [Disband] *)

Definition c_disbanded (g : Group) (c : Core) : Core :=
  mkCore (pv_drop gp <$> c_players c) (<[gp := mkGV (m_Id g) [] [] ∅ 0 (isRaidGroup g) None (m_subGroupsCounts g)]> (c_groups c))
    (c_next c) (c_map c) (c_ids c) (c_ub c).

(** Who is out and whose invitation is withdrawn is gone from the group. *)
Lemma dropped_players k :
  (fun p => if decide (k ∈ m_invitees g0) then pv_set_invite None p else p) <$>
    ((fun p => if decide (k ∈ guids (m_memberSlots g0)) then pv_leave p else p) <$> c_players (core w0) !! k)
  = pv_drop gp <$> c_players (core w0) !! k.
Proof.
  destruct (c_players (core w0) !! k) as [v|] eqn:Hv; [|done]. cbn. f_equal.
  assert (Hm : k ∈ guids (m_memberSlots g0) <-> pv_group v = Some gp).
  { rewrite (wf_link _ Hl k v gp Hv). unfold member_of. rewrite (core_group gp g0 w0 Hg0). split; [|intros (g & [= <-] & ?); done].
    intros Hk. by exists (gview g0). }
  assert (Hi : k ∈ m_invitees g0 <-> pv_invite v = Some gp).
  { pose proof (wf_inv _ Hl gp _ k (core_group gp g0 w0 Hg0)) as Hi. cbn in Hi. rewrite Hi, Hv.
    split; [intros (? & [= <-] & ?); done|eauto]. }
  unfold pv_drop, pv_leave. destruct v as [a b c d e f]. cbn in *.
  destruct (decide (k ∈ m_invitees g0)), (decide (k ∈ guids (m_memberSlots g0))), (decide (c = Some gp)), (decide (f = Some gp));
    try tauto; cbn; f_equal; intuition congruence.
Qed.

(** Everybody is out, the slots are erased, the invitations withdrawn. *)
Lemma all_out : filter (fun r => r.2 = true \/ r.1 ∉ guids (m_memberSlots g0)) (m_memberMgr g0) = [].
Proof.
  apply filter_none. apply Forall_forall. intros [k x] Hx Hn. pose proof (core_group gp g0 w0 Hg0) as Hv0.
  pose proof Hx as Hx'. apply (wf_mgr _ Hl gp _ k x Hv0) in Hx' as [-> (v & Hv & Hgr)]. destruct Hn as [?|Hn]; [done|]. apply Hn. cbn.
  apply (wf_link _ Hl k v gp Hv) in Hgr as (g & Hg & Hk). rewrite Hv0 in Hg. by injection Hg as <-.
Qed.

Definition c_erased (c : Core) : Core :=
  cg gp (fun g => gv_set_slots [] (gv_counts g) g) (c_out gp (guids (m_memberSlots g0)) c).

Lemma erased_group :
  c_groups (c_erased (core w0)) !! gp
  = Some (mkGV (m_Id g0) [] [] (m_invitees g0) (m_leaderGuid g0) (isRaidGroup g0) None (m_subGroupsCounts g0)).
Proof.
  unfold c_erased. rewrite cg_lookup, decide_True, (out_group gp _ _ _ (core_group gp g0 w0 Hg0)) by done. cbn.
  unfold gv_set_slots, gv_set_mgr. cbn. rewrite all_out. do 2 f_equal. apply (wf_group _ Hl gp _ (core_group gp g0 w0 Hg0)).
Qed.

(** From the erased slots on. *)
Section Erased.
Context (w4 : World) (Hc4 : core w4 = c_erased (core w0)).

Lemma erased_w : exists g4, w_groups w4 !! gp = Some g4 /\ m_invitees g4 = m_invitees g0.
Proof.
  pose proof erased_group as Hg4. rewrite <- Hc4 in Hg4. apply group_core in Hg4 as (g4 & Hg4 & Hv4).
  exists g4. split; [done|]. exact (f_equal gv_inv Hv4).
Qed.
Lemma erased_player k : c_players (core w4) !! k
  = (fun p => if decide (k ∈ guids (m_memberSlots g0)) then pv_leave p else p) <$> c_players (core w0) !! k.
Proof. rewrite Hc4. cbn [c_erased cg c_players]. apply out_player. Qed.

Lemma core_cleared : core (RemoveAllInvites gp w4) = c_clear gp (m_invitees g0) (c_erased (core w0)).
Proof.
  destruct erased_w as (g4 & Hg4 & Hi4). rewrite (core_RemoveAllInvites gp g4 w4 Hg4); [by rewrite Hi4, Hc4|].
  intros k Hk. rewrite Hi4 in Hk. apply (links_invitee w0 Hl gp g0 k Hg0) in Hk as (p & Hp & Hi). apply core_player in Hp.
  pose proof (erased_player k) as Hp4. rewrite Hp in Hp4. apply player_core in Hp4 as (q & Hq & Hqv). exists q. split; [done|].
  apply (f_equal pv_invite) in Hqv. cbn in Hqv. rewrite Hqv. by case_decide.
Qed.

Lemma cleared_player k : c_players (core (RemoveAllInvites gp w4)) !! k = pv_drop gp <$> c_players (core w0) !! k.
Proof. rewrite core_cleared, clear_player, <- Hc4, erased_player. apply dropped_players. Qed.

Lemma cleared_present : present (RemoveAllInvites gp w4).
Proof.
  intros k p Hp. apply core_player in Hp. rewrite cleared_player, fmap_Some in Hp. destruct Hp as (v & Hv & Hpv).
  pose proof (wf_player _ Hl k v Hv) as (? & ? & ? & ?). apply (f_equal pv_guid) in Hpv as F1; apply (f_equal pv_inWorld) in Hpv as F2;
    apply (f_equal pv_orig) in Hpv as F3. cbn in *. repeat split; congruence.
Qed.
Lemma cleared_core : cg gp (gv_set_leader 0) (core (RemoveAllInvites gp w4)) = c_disbanded g0 (core w0).
Proof.
  unfold cg, c_disbanded. f_equal; [| |by rewrite core_cleared..].
  - apply map_eq. intros j. by rewrite cleared_player, lookup_fmap.
  - apply map_eq. intros j. destruct (decide (j = gp)) as [->|Hn].
    + rewrite lookup_alter_eq, lookup_insert_eq, core_cleared. cbn [c_clear c_groups]. by rewrite lookup_alter_eq, erased_group.
    + rewrite lookup_alter_ne, lookup_insert_ne, core_cleared by done. cbn. by rewrite !lookup_alter_ne.
Qed.
End Erased.

Lemma core_Disband b i : wf (core w0) -> rolls_ok w0 -> core (Disband E gp b i w0) = c_disbanded g0 (core w0).
Proof.
  intros [_ Hok] Hrolls. unfold Disband, deref. rewrite Hg0. cbn zeta. set (w1 := emit _ w0).
  assert (Hks : being_left [] w1) by (unfold being_left; by rewrite out_nil).
  pose proof (so_nodup _ _ _ (Hok gp _ (core_group gp g0 w0 Hg0))) as Hnd. cbn in Hnd.
  pose proof (left_all b i (m_memberSlots g0) [] w1 None Hks ltac:(done) Hnd) as Hall. cbn [app] in Hall.
  pose proof (k_disband_members w0 gp b i (m_memberSlots g0) (None, w1)) as Hkp. cbn [snd] in Hkp. specialize (Hkp ltac:(kept)).
  destruct (foldl (disband_member gp b i) (None, w1) (m_memberSlots g0)) as [rem w2]. cbn [snd] in Hall, Hkp.
  destruct (left_group _ w2 Hall) as (g2 & Hg2 & _).
  assert (Hlv2 : live gp w2) by by exists g2. pose proof (kept_ok w0 w2 Hkp Hrolls) as Hr2.
  destruct (end_all_rolls_ok E (roll_count gp w2) gp w2 Hlv2 Hr2 (roll_count_length gp w2)) as [Hq3 _].
  set (w3 := end_all_rolls E (roll_count gp w2) gp w2) in *. set (w4 := upd_group gp _ w3).
  assert (Hc4 : core w4 = c_erased (core w0)).
  { unfold w4. rewrite (core_upd_group gp _ (fun g => gv_set_slots [] (gv_counts g) g)) by done. by rewrite (quiet_core _ _ Hq3), Hall. }
  rewrite (links_not_bg w0 Hl gp g0 Hg0). set (w6 := emits _ (RemoveAllInvites gp w4)).
  assert (Hlv6 : live gp w6).
  { change (live gp (RemoveAllInvites gp w4)). apply live_core. rewrite (core_cleared w4 Hc4). cbn [c_clear c_groups].
    by rewrite lookup_alter_eq, erased_group. }
  pose proof (q_updateLeaderFlag w6 true gp w6 (cleared_present w4 Hc4) Hlv6 ltac:(done)) as Hq7.
  rewrite (core_upd_group gp _ (gv_set_leader 0)) by done. rewrite (quiet_core _ _ Hq7). apply (cleared_core w4 Hc4).
Qed.

(** *** With the removal from the map and the destructor *)

Lemma map_without : wf (core w0) -> c_map (core w0) !! m_Id g0 = Some gp ->
  delete (m_Id g0) (c_map (core w0)) = filter (fun kv => kv.2 <> gp) (c_map (core w0)).
Proof.
  intros _ Hm. apply map_eq. intros id. apply option_eq. intros gp'. rewrite lookup_delete_Some, map_lookup_filter_Some. cbn. split.
  - intros [Hn Hid]. split; [done|]. intros ->. destruct (wf_map _ Hl id gp Hid) as (_ & v & Hv & Hi).
    rewrite (core_group gp g0 w0 Hg0) in Hv. injection Hv as <-. done.
  - intros [Hid Hn]. split; [|done]. intros <-. congruence.
Qed.

Lemma core_dissolve b i :
  wf (core w0) -> rolls_ok w0 -> c_map (core w0) !! m_Id g0 = Some gp ->
  members_count gp (Disband E gp b i w0) = 0
  /\ core (delete_group gp (RemoveGroup gp (Disband E gp b i w0))) = c_dissolve gp (core w0).
Proof.
  intros Hw Hrolls Hm. pose proof (core_Disband b i Hw Hrolls) as Hc. set (w1 := Disband E gp b i w0) in *.
  assert (Hg1 : c_groups (core w1) !! gp = Some (mkGV (m_Id g0) [] [] ∅ 0 (isRaidGroup g0) None (m_subGroupsCounts g0))).
  { rewrite Hc. cbn. by rewrite lookup_insert_eq. }
  apply group_core in Hg1 as (g1 & Hg1 & Hv1). pose proof Hv1 as Hv. unfold gview in Hv. injection Hv as E1 E2 E3 E4 E5 E6 E7 E8. split.
  - unfold members_count. rewrite Hg1. unfold GetMembersCount. by rewrite E2.
  - unfold RemoveGroup, deref. rewrite Hg1. set (w2 := set_group_map _ _ w1).
    rewrite (core_delete_group gp g1 w2); [|done|done|rewrite E4; by intros ? ?%elem_of_empty].
    rewrite E4. unfold w2. rewrite E1. unfold c_dissolve. f_equal.
    + apply map_eq. intros j. rewrite clear_player. change (c_players (core (set_group_map ?m ?i w1))) with (c_players (core w1)).
      rewrite Hc. cbn. rewrite !lookup_fmap. by destruct (c_players (core w0) !! j).
    + change (c_groups (core (set_group_map ?m ?i w1))) with (c_groups (core w1)). rewrite Hc. cbn. apply delete_insert_eq.
    + change (c_next (core (set_group_map ?m ?i w1))) with (c_next (core w1)). by rewrite Hc.
    + change (c_map (core (set_group_map ?m ?i w1))) with m. rewrite <- (map_without Hw Hm).
      change (m_GroupMap w1) with (c_map (core w1)). by rewrite Hc.
    + change (c_ids (core (set_group_map ?m ?i w1))) with i. change (m_GroupIds w1) with (c_ids (core w1)). by rewrite Hc.
    + change (c_ub (core (set_group_map ?m ?i w1))) with (c_ub (core w1)). by rewrite Hc.
Qed.

(** A group that waits for its first member is deleted at once. *)
Lemma core_delete_forming :
  wf (core w0) -> m_memberSlots g0 = [] -> (forall id, c_map (core w0) !! id <> Some gp) ->
  core (delete_group gp w0) = c_dissolve gp (core w0).
Proof.
  intros Hw Hs Hno. pose proof all_out as Hm. rewrite Hs in Hm. rewrite filter_all in Hm.
  2:{ apply Forall_forall. intros r _. right. by intros ?%elem_of_nil. }
  rewrite (core_delete_group gp g0 w0 Hg0 Hm); [|by intros k Hk; apply (links_invitee w0 Hl gp g0 k Hg0)].
  unfold c_dissolve. f_equal.
  - apply map_eq. intros j. rewrite clear_player, lookup_fmap, <- dropped_players, Hs.
    destruct (c_players (core w0) !! j); [|done]. done.
  - symmetry. apply map_filter_id. intros id gp' Hid. cbn. intros ->. by apply (Hno id).
Qed.
End Disband.
