(* ===== verification/GroupEffects.v ===== *)
(** * GroupEffects: operations between two sound states

    The operations handlers are made of, from a sound state to a sound state. *)
From S2P Require Import Prelude ByteBuffer ObjectGuid GroupData GroupPackets GroupLoot MeetingStone Group GroupHandlers GroupCore GroupRolls GroupKept GroupSound GroupSlots GroupSteps GroupEnds GroupOps GroupMoves GroupDisband.

(** ** Groups of a sound state *)

Section Sound.
Context (w : World) (Hs : sound (core w)).

Lemma sound_links : links (core w).
Proof. apply (sound_wf _ Hs). Qed.
Lemma sound_created gp g :
  w_groups w !! gp = Some g -> m_memberSlots g <> [] ->
  (2 <= length (m_memberSlots g))%nat /\ m_leaderGuid g ∈ guids (m_memberSlots g) /\ m_GroupMap w !! m_Id g = Some gp.
Proof. intros Hg Hne. exact (gs_created _ _ _ (sound_group _ Hs gp _ (core_group gp g w Hg)) Hne). Qed.
Lemma sound_forming gp g :
  w_groups w !! gp = Some g -> m_memberSlots g = [] ->
  isRaidGroup g = false /\ (forall id, m_GroupMap w !! id <> Some gp)
  /\ exists p, w_players w !! m_leaderGuid g = Some p /\ m_groupInvite p = Some gp.
Proof.
  intros Hg He. destruct (gs_forming _ _ _ (sound_group _ Hs gp _ (core_group gp g w Hg)) He) as (? & ? & v & Hv & Hi).
  apply player_core in Hv as (p & Hp & <-). split; [done|]. split; [done|]. eauto.
Qed.
(** A player's group is created. *)
Lemma sound_group_of k p gp : w_players w !! k = Some p -> GetGroup p = Some gp ->
  exists g s, w_groups w !! gp = Some g /\ slot_of k (m_memberSlots g) = Some s /\ m_memberSlots g <> [].
Proof.
  intros Hp Hg. destruct (links_member w sound_links k p gp Hp Hg) as (g & Hgp & Hk). destruct (slot_of_elem k _ Hk) as [s Hsl].
  exists g, s. split; [done|]. split; [done|]. intros He. by rewrite He in Hsl.
Qed.
Lemma sound_sizes gp g : w_groups w !! gp = Some g -> slots_ok (isRaidGroup g) (m_memberSlots g) (m_subGroupsCounts g).
Proof. intros Hg. exact (proj2 (sound_wf _ Hs) gp _ (core_group gp g w Hg)). Qed.
End Sound.

Lemma member_count gp w g : c_groups (core w) !! gp = Some g -> members_count gp w = Z.of_nat (length (gv_slots g)).
Proof. intros (g' & Hg & <-)%group_core. unfold members_count. by rewrite Hg. Qed.

(** ** A member is removed *)

(** One member less, and another leader when the leader is gone. *)
Definition c_removed (gp : Z) (k : ObjectGuid) (sub : Z) (new : option ObjectGuid) (c : Core) : Core :=
  match new with Some k' => c_leader gp k' | None => fun c => c end (c_leave gp k sub c).

Section Effects.
Context `{HashIter}.
Context (E : Env).

Lemma core_RemoveMember gp k m g s w :
  wf (core w) -> w_groups w !! gp = Some g -> slot_of k (m_memberSlots g) = Some s -> (3 <= length (m_memberSlots g))%nat ->
  exists new, (forall k', new = Some k' -> k' ∈ guids (others k (m_memberSlots g))) /\ (new = None -> m_leaderGuid g <> k)
    /\ new = (if m_leaderGuid g =? k then Some (successor g k w) else None)
    /\ fst (RemoveMember E gp k m w) = Z.of_nat (length (m_memberSlots g)) - 1
    /\ core (snd (RemoveMember E gp k m w)) = c_removed gp k (ms_group s) new (core w).
Proof.
  intros Hw Hg Hs Hlen. destruct (core_removeMember E gp k g s w Hw Hg Hs Hlen) as (k' & Hk' & Hsu & Hb & Hc).
  exists (if m_leaderGuid g =? k then Some k' else None). split; [destruct (Z.eqb_spec (m_leaderGuid g) k); [by intros ? [= <-]|done]|].
  split; [by destruct (Z.eqb_spec (m_leaderGuid g) k)|]. split; [destruct (Z.eqb_spec (m_leaderGuid g) k); [by rewrite Hsu|done]|].
  set (new := if m_leaderGuid g =? k then Some k' else None).
  assert (Hc1 : core (snd (removeMember E gp k w)) = c_removed gp k (ms_group s) new (core w)).
  { rewrite Hc. unfold c_removed, new. by destruct (m_leaderGuid g =? k). }
  clear Hc Hb. clearbody new. unfold RemoveMember. rewrite Hg. unfold GetMembersMinCount, GetMembersCount.
  rewrite (links_not_bg w (proj1 Hw) gp g Hg). destruct (Z.ltb_spec 2 (Z.of_nat (length (m_memberSlots g)))); [|lia].
  destruct (removeMember E gp k w) as [b w1]. cbn [snd] in Hc1.
  assert (Hl1 : links (core w1)).
  { pose proof (slot_of_Some _ _ _ Hs) as [_ <-]. pose proof (links_leave _ gp (gview g) s (proj1 Hw) (core_group gp g w Hg) Hs (ms_group s)) as Hl.
    rewrite Hc1. unfold c_removed. destruct new as [k''|]; [|done]. unfold c_leader.
    assert (Hg1 : c_groups (c_leave gp (ms_guid s) (ms_group s) (core w)) !! gp = Some (gv_leave (ms_guid s) (ms_group s) (gview g))).
    { unfold c_leave. cbn. by rewrite lookup_alter_eq, (core_group gp g w Hg). }
    rewrite (cg_const gp _ _ _ Hg1). apply (links_inside _ gp _ _ Hl Hg1); try done. by left. }
  assert (Hg1 : exists v, c_groups (core w1) !! gp = Some v /\ gv_slots v = others k (m_memberSlots g)).
  { rewrite Hc1. unfold c_removed. destruct new; cbn; rewrite ?lookup_alter_eq, (core_group gp g w Hg); by eexists. }
  destruct Hg1 as (v1 & Hg1 & Hv1). assert (Hlv : live gp w1) by (apply live_core; by eexists).
  cbn zeta. match goal with |- context [members_count gp ?w2] => set (w' := w2) end.
  assert (Hq : quiet w1 w').
  { unfold w'. clear w'. pose proof (links_GetPlayer w1 Hl1 k) as Hgp. destruct (w_players w1 !! k) as [p|] eqn:Hp.
    - assert (online k w1) by by exists p. quiet.
    - assert (forall w2, quiet w1 w2 -> GetPlayer k w2 = None) as Hnone.
      { intros w2 Hq2. unfold GetPlayer, FindPlayerNotInWorld. destruct (IsEmpty k); [done|].
        destruct (w_players w2 !! k) as [p2|] eqn:Hp2; [|done]. apply core_player in Hp2. rewrite (quiet_core _ _ Hq2) in Hp2.
        apply player_core in Hp2 as (p & Hp' & _). congruence. }
      rewrite Hnone by quiet. quiet. }
  cbn [fst snd]. split; [|by rewrite (quiet_core _ _ Hq)].
  rewrite (member_count gp w' v1) by by rewrite (quiet_core _ _ Hq). rewrite Hv1.
  pose proof (so_nodup _ _ _ (proj2 Hw gp _ (core_group gp g w Hg))) as Hnd. cbn in Hnd.
  pose proof (Permutation_length (slot_perm k s _ Hnd Hs)) as Hpl. cbn in Hpl. lia.
Qed.

Lemma removed_facts gp k g s new c :
  sound c -> c_groups c !! gp = Some g -> slot_of k (gv_slots g) = Some s -> (3 <= length (gv_slots g))%nat ->
  (forall k', new = Some k' -> k' ∈ guids (others k (gv_slots g))) -> (new = None -> gv_leader g <> k) ->
  sound (c_removed gp k (ms_group s) new c).
Proof.
  intros Hsd Hg Hs Hlen Hnew Hnone. pose proof (sound_wf _ Hsd) as [Hl Hok]. pose proof (slot_of_Some _ _ _ Hs) as [Hin Hk]. subst k.
  set (c1 := c_leave gp (ms_guid s) (ms_group s) c).
  assert (Hw1 : wf c1) by (split; [by apply (links_leave c gp g s)|by apply (counted_leave c gp g s)]).
  assert (Hg1 : c_groups c1 !! gp = Some (gv_leave (ms_guid s) (ms_group s) g)) by (cbn; by rewrite lookup_alter_eq, Hg).
  assert (Hne : gv_slots g <> []) by (intros He; by rewrite He in Hs).
  destruct (gs_created _ _ _ (sound_group _ Hsd gp g Hg) Hne) as (_ & Hld & Hm).
  pose proof (Permutation_length (slot_perm (ms_guid s) s _ (so_nodup _ _ _ (Hok gp g Hg)) Hs)) as Hpl. cbn in Hpl.
  assert (Hlen1 : (2 <= length (others (ms_guid s) (gv_slots g)))%nat) by lia.
  assert (Hw2 : wf (c_removed gp (ms_guid s) (ms_group s) new c)).
  { unfold c_removed. fold c1. destruct new; [|done]. by apply (wf_leader c1 gp (gv_leave (ms_guid s) (ms_group s) g)). }
  apply (sound_but_sound gp).
  - apply (sound_but_only gp c); [by apply sound_sound_but| |done]. unfold c_removed. destruct new; [|apply only_leave].
    etrans; [apply only_leave|apply only_cg].
  - intros g' Hg'. assert (Hslots : gv_slots g' = others (ms_guid s) (gv_slots g) /\ gv_id g' = gv_id g
        /\ gv_leader g' = match new with Some k' => k' | None => gv_leader g end).
    { unfold c_removed in Hg'. fold c1 in Hg'. destruct new as [k'|]; [|rewrite Hg1 in Hg'; by injection Hg' as <-].
      unfold c_leader in Hg'. rewrite cg_lookup, decide_True, Hg1 in Hg' by done. by injection Hg' as <-. }
    destruct Hslots as (Hsl & Hid & Hld'). constructor; rewrite Hsl; [|intros He; rewrite He in Hlen1; cbn in Hlen1; lia].
    intros _. split; [done|]. split.
    + rewrite Hld'. destruct new as [k'|]; [by apply Hnew|]. rewrite guids_others. split; [by apply Hnone|done].
    + rewrite Hid. unfold c_removed. by destruct new.
Qed.

(** [RemoveFromGroup]: a group of three goes on without the member. *)
Lemma core_RemoveFromGroup_large gp k g s w :
  sound (core w) -> w_groups w !! gp = Some g -> slot_of k (m_memberSlots g) = Some s -> (3 <= length (m_memberSlots g))%nat ->
  let new := if m_leaderGuid g =? k then Some (successor g k w) else None in
  sound (core (RemoveFromGroup E gp k w)) /\ core (RemoveFromGroup E gp k w) = c_removed gp k (ms_group s) new (core w).
Proof.
  intros Hsd Hg Hs H3 new0. pose proof (sound_wf _ Hsd) as Hw. unfold RemoveFromGroup.
  destruct (core_RemoveMember gp k 0 g s w Hw Hg Hs H3) as (new & Hn1 & Hn2 & Hsu & Hf & Hc). subst new0. rewrite <- Hsu.
  destruct (RemoveMember E gp k 0 w) as [n w1]. cbn [fst snd] in *. destruct (Z.leb_spec n 1); [lia|]. split; [|done].
  rewrite Hc. apply (removed_facts gp k (gview g) s new (core w)); [done|by apply core_group|done|done|done|done].
Qed.

(** The last two are dissolved. *)
Lemma core_RemoveFromGroup_small gp k g w :
  sound (core w) -> rolls_ok w -> w_groups w !! gp = Some g -> m_memberSlots g <> [] -> (length (m_memberSlots g) < 3)%nat ->
  core (RemoveFromGroup E gp k w) = c_dissolve gp (core w).
Proof.
  intros Hsd Hrolls Hg Hne H3. pose proof (sound_wf _ Hsd) as Hw. destruct (sound_created w Hsd gp g Hg Hne) as (Hlen & _ & Hm).
  unfold RemoveFromGroup, RemoveMember. rewrite Hg. unfold GetMembersMinCount, GetMembersCount. rewrite (links_not_bg w (proj1 Hw) gp g Hg).
  destruct (Z.ltb_spec 2 (Z.of_nat (length (m_memberSlots g)))); [lia|]. cbn zeta.
  destruct (core_dissolve E w gp g (proj1 Hw) Hg true k Hw Hrolls Hm) as [Hn Hc]. rewrite Hn. cbn. by rewrite Hc.
Qed.

Lemma core_RemoveFromGroup gp k g w :
  sound (core w) -> rolls_ok w -> w_groups w !! gp = Some g -> k ∈ guids (m_memberSlots g) ->
  sound (core (RemoveFromGroup E gp k w))
  /\ (core (RemoveFromGroup E gp k w) = c_dissolve gp (core w)
      \/ exists sub new, core (RemoveFromGroup E gp k w) = c_removed gp k sub new (core w)).
Proof.
  intros Hsd Hrolls Hg Hk. destruct (slot_of_elem k _ Hk) as [s Hs].
  assert (Hne : m_memberSlots g <> []) by (intros He; by rewrite He in Hs).
  destruct (decide (3 <= length (m_memberSlots g))%nat) as [H3|H3].
  - destruct (core_RemoveFromGroup_large gp k g s w Hsd Hg Hs H3) as [? ?]. eauto.
  - rewrite (core_RemoveFromGroup_small gp k g w) by (done || lia). split; [|by left]. apply sound_dissolve; [by apply sound_wf|by apply sound_sound_but].
Qed.

Lemma removed_member gp k sub new c j gp' : j <> k -> member_of j gp' (c_removed gp k sub new c) <-> member_of j gp' c.
Proof.
  intros Hj. assert (Hg : forall gp1 g1, c_groups (c_removed gp k sub new c) !! gp1 = Some g1 ->
      exists g0, c_groups c !! gp1 = Some g0 /\ (j ∈ guids (gv_slots g1) <-> j ∈ guids (gv_slots g0))).
  { intros gp1 g1. unfold c_removed. destruct (decide (gp1 = gp)) as [->|Hn].
    - destruct new; cbn; rewrite ?lookup_alter_eq; destruct (c_groups c !! gp) as [g0|]; cbn; try done;
        intros [= <-]; exists g0; (split; [done|]); cbn; rewrite guids_others; tauto.
    - destruct new; cbn; rewrite ?lookup_alter_ne by done; eauto. }
  assert (Hg2 : forall gp1 g0, c_groups c !! gp1 = Some g0 -> exists g1, c_groups (c_removed gp k sub new c) !! gp1 = Some g1).
  { intros gp1 g0 H0. unfold c_removed. destruct (decide (gp1 = gp)) as [->|Hn].
    - destruct new; cbn; rewrite ?lookup_alter_eq, H0; eauto.
    - destruct new; cbn; rewrite ?lookup_alter_ne by done; eauto. }
  unfold member_of. split.
  - intros (g1 & H1 & Hin). destruct (Hg gp' g1 H1) as (g0 & H0 & Hiff). exists g0. tauto.
  - intros (g0 & H0 & Hin). destruct (Hg2 gp' g0 H0) as (g1 & H1). destruct (Hg gp' g1 H1) as (g0' & H0' & Hiff).
    exists g1. split; [done|]. apply Hiff. congruence.
Qed.
Lemma removed_online gp k sub new c j : is_Some (c_players (c_removed gp k sub new c) !! j) <-> is_Some (c_players c !! j).
Proof.
  assert (Hp : c_players (c_removed gp k sub new c) = alter pv_leave k (c_players c)) by (unfold c_removed; by destruct new).
  rewrite Hp. destruct (decide (j = k)) as [->|Hn]; [by rewrite lookup_alter_eq, fmap_is_Some|by rewrite lookup_alter_ne].
Qed.

(** What a removal leaves of the other memberships. *)
Lemma RemoveFromGroup_others gp k g w :
  sound (core w) -> rolls_ok w -> w_groups w !! gp = Some g -> k ∈ guids (m_memberSlots g) ->
  (forall j, online j (RemoveFromGroup E gp k w) <-> online j w)
  /\ (forall j gp', member_of j gp' (core (RemoveFromGroup E gp k w)) -> member_of j gp' (core w))
  /\ ((forall j, ~ member_of j gp (core (RemoveFromGroup E gp k w)))
      \/ forall j, j <> k -> member_of j gp (core w) -> member_of j gp (core (RemoveFromGroup E gp k w))).
Proof.
  intros Hsd Hrolls Hg Hk. destruct (core_RemoveFromGroup gp k g w Hsd Hrolls Hg Hk) as [_ [Hc|(sub & new & Hc)]].
  - split; [|split].
    + intros j. rewrite !online_core, Hc. cbn. by rewrite lookup_fmap, fmap_is_Some.
    + intros j gp'. rewrite Hc, dissolve_member by apply (sound_wf _ Hsd). tauto.
    + left. intros j. rewrite Hc, dissolve_member by apply (sound_wf _ Hsd). tauto.
  - split; [|split].
    + intros j. by rewrite !online_core, Hc, removed_online.
    + intros j gp'. rewrite Hc. destruct (decide (j = k)) as [->|Hj]; [|by rewrite removed_member].
      intros (g1 & H1 & Hin). unfold member_of. destruct (decide (gp' = gp)) as [->|Hn].
      * exists (gview g). split; [by apply core_group|done].
      * exists g1. split; [|done]. unfold c_removed in H1. destruct new; cbn in H1; by rewrite ?lookup_alter_ne in H1.
    + right. intros j Hj Hm. by rewrite Hc, removed_member.
Qed.

Lemma RemoveFromGroup_invite gp k g w j p' :
  sound (core w) -> rolls_ok w -> w_groups w !! gp = Some g -> k ∈ guids (m_memberSlots g) ->
  w_players (RemoveFromGroup E gp k w) !! j = Some p' ->
  exists p, w_players w !! j = Some p /\ (m_groupInvite p = None -> m_groupInvite p' = None).
Proof.
  intros Hsd Hrolls Hg Hk Hp'. apply core_player in Hp'.
  destruct (core_RemoveFromGroup gp k g w Hsd Hrolls Hg Hk) as [_ [Hc|(sub & new & Hc)]]; rewrite Hc in Hp'.
  - cbn in Hp'. rewrite lookup_fmap, fmap_Some in Hp'. destruct Hp' as (v & Hv & E1). apply player_core in Hv as (p & Hp & <-).
    exists p. split; [done|]. intros Hi. apply (f_equal pv_invite) in E1. cbn in E1. rewrite E1, Hi. by case_decide.
  - assert (Hpl : c_players (c_removed gp k sub new (core w)) = alter pv_leave k (c_players (core w))) by (unfold c_removed; by destruct new).
    rewrite Hpl in Hp'. assert (Hv : exists v, c_players (core w) !! j = Some v /\ pv_invite (pview p') = pv_invite v).
    { destruct (decide (j = k)) as [->|Hn].
      - rewrite lookup_alter_eq, fmap_Some in Hp'. destruct Hp' as (v & Hv & ->). eauto.
      - rewrite lookup_alter_ne in Hp' by done. eauto. }
    destruct Hv as (v & Hv & E1). apply player_core in Hv as (p & Hp & <-). exists p. split; [done|]. cbn in E1. by rewrite E1.
Qed.
End Effects.
