(* ===== verification/GroupInvites.v ===== *)
(** * GroupInvites: invitations, from a sound state to a sound state

    Inviting into a group or a new one, withdrawing, accepting: the group is
    created when the first invitation is accepted. *)
From S2P Require Import Prelude ByteBuffer ObjectGuid GroupData GroupPackets GroupLoot MeetingStone Group GroupHandlers GroupCore GroupRolls GroupKept GroupSound GroupSlots GroupSteps GroupEnds GroupOps GroupMoves GroupDisband GroupEffects.

(** ** Withdrawn invitations *)

Lemma uninvite_group gp k c gp' : c_groups (c_uninvite gp k c) !! gp' = (if decide (gp' = gp) then (fun g => gv_set_inv (gv_inv g ∖ {[k]}) g) <$> c_groups c !! gp else c_groups c !! gp').
Proof. exact (cg_lookup gp _ c gp'). Qed.
Lemma uninvite_player gp k c j : c_players (c_uninvite gp k c) !! j = if decide (j = k) then pv_set_invite None <$> c_players c !! k else c_players c !! j.
Proof. exact (cp_lookup k _ c j). Qed.

(** A member's group, or a forming one that keeps its leader, stays sound. *)
Lemma sound_uninvite w gp k p g :
  sound (core w) -> w_players w !! k = Some p -> m_groupInvite p = Some gp -> w_groups w !! gp = Some g ->
  m_memberSlots g <> [] \/ m_leaderGuid g <> k -> sound (c_uninvite gp k (core w)).
Proof.
  intros Hs Hp Hi Hg Hor. destruct (wf_uninvite gp k p w (sound_wf _ Hs) Hp Hi) as [Hw Ho].
  apply (sound_but_sound gp); [apply (sound_but_only gp (core w)); [by apply sound_sound_but|done|done]|].
  intros g' Hg'. rewrite uninvite_group, decide_True, (core_group gp g w Hg) in Hg' by done. injection Hg' as <-.
  destruct (sound_group _ Hs gp _ (core_group gp g w Hg)) as [Hc Hf]. constructor; [exact Hc|].
  intros He. destruct (Hf He) as (? & ? & v & Hv & Hvi). split; [done|]. split; [done|]. exists v. split; [|done].
  cbn in He. rewrite uninvite_player, decide_False; [done|]. cbn. destruct Hor; [done|]. congruence.
Qed.

Section Invites.
Context `{HashIter}.
Context (E : Env).

(** A forming group is deleted with all its invitations. *)
Lemma core_delete_cleared w gp g :
  wf (core w) -> w_groups w !! gp = Some g -> m_memberSlots g = [] -> (forall id, m_GroupMap w !! id <> Some gp) ->
  core (delete_group gp (RemoveAllInvites gp w)) = c_dissolve gp (c_clear gp (m_invitees g) (core w)).
Proof.
  intros Hw Hg He Hno.
  assert (Hc : core (RemoveAllInvites gp w) = c_clear gp (m_invitees g) (core w)).
  { apply (core_RemoveAllInvites gp g w Hg). intros k Hk. by apply (links_invitee w (proj1 Hw) gp g k Hg). }
  assert (Hg1 : c_groups (core (RemoveAllInvites gp w)) !! gp = Some (gv_set_inv ∅ (gview g))).
  { rewrite Hc. cbn. by rewrite lookup_alter_eq, (core_group gp g w Hg). }
  apply group_core in Hg1 as (g1 & Hg1 & Hv1). rewrite <- Hc.
  assert (Hw1 : wf (core (RemoveAllInvites gp w))).
  { rewrite Hc. exact (wf_clear (core w) gp (gview g) Hw (core_group gp g w Hg)). }
  apply (core_delete_forming _ gp g1 (proj1 Hw1) Hg1 Hw1).
  - rewrite <- He. exact (f_equal gv_slots Hv1).
  - intros id. rewrite Hc. exact (Hno id).
Qed.

Lemma core_UninviteFromGroup k p w :
  sound (core w) -> w_players w !! k = Some p ->
  sound (core (UninviteFromGroup E k w))
  /\ match m_groupInvite p with
     | None => UninviteFromGroup E k w = w
     | Some gp => core (UninviteFromGroup E k w) = c_uninvite gp k (core w)
         \/ exists inv, core (UninviteFromGroup E k w) = c_dissolve gp (c_clear gp inv (c_uninvite gp k (core w)))
     end.
Proof.
  intros Hs Hp. pose proof (sound_links w Hs) as Hl. unfold UninviteFromGroup. rewrite Hp.
  destruct (m_groupInvite p) as [gp|] eqn:Hi; [|done].
  destruct (links_invite_no_group w Hl k p gp Hp Hi) as [[g Hg] Hno].
  pose proof (core_RemoveInvite_some gp k p w Hl Hp Hi) as Hc1. set (w1 := RemoveInvite gp k w) in *. cbn zeta.
  destruct (wf_uninvite gp k p w (sound_wf _ Hs) Hp Hi) as [Hw1 Ho1].
  assert (Hg1 : c_groups (core w1) !! gp = Some (gv_set_inv (m_invitees g ∖ {[k]}) (gview g))).
  { rewrite Hc1, uninvite_group, decide_True, (core_group gp g w Hg) by done. done. }
  pose proof Hg1 as Hg1v. apply group_core in Hg1 as (g1 & Hg1 & Hv1).
  assert (Hsl : m_memberSlots g1 = m_memberSlots g) by exact (f_equal gv_slots Hv1).
  unfold deref. rewrite Hg1. unfold GetMembersCount. rewrite Hsl.
  destruct (Z.leb_spec (Z.of_nat (length (m_memberSlots g))) 1) as [Hle|Hgt].
  - destruct (m_memberSlots g) as [|s l] eqn:Em.
    + assert (IsCreated g1 = false) as -> by (unfold IsCreated, GetMembersCount; by rewrite Hsl).
      destruct (sound_forming w Hs gp g Hg Em) as (_ & Hmap & _).
      assert (Hmap1 : forall id, m_GroupMap w1 !! id <> Some gp).
      { intros id. change (m_GroupMap w1) with (c_map (core w1)). rewrite Hc1. apply Hmap. }
      assert (Hwf1 : wf (core w1)) by by rewrite Hc1.
      rewrite (core_delete_cleared w1 gp g1 Hwf1 Hg1 Hsl Hmap1). split; [|rewrite Hc1; eauto].
      pose proof (wf_clear _ gp _ Hwf1 (core_group gp g1 w1 Hg1)) as Hwc. cbn in Hwc. apply sound_dissolve; [done|].
      apply (sound_but_only gp (core w)); [by apply sound_sound_but| |done]. etrans; [exact Ho1|]. rewrite <- Hc1.
      exact (only_clear _ gp _ Hwf1 (core_group gp g1 w1 Hg1)).
    + destruct (sound_created w Hs gp g Hg) as (Hlen & _); [by rewrite Em|]. rewrite Em in Hlen. cbn in *. lia.
  - rewrite Hc1. split; [|by left]. apply (sound_uninvite w gp k p g); try done. left. intros He. rewrite He in Hgt. cbn in Hgt. lia.
Qed.

(** The player has no invitation any more. *)
Lemma uninvited k p w :
  sound (core w) -> w_players w !! k = Some p ->
  exists p', w_players (UninviteFromGroup E k w) !! k = Some p' /\ m_groupInvite p' = None.
Proof.
  intros Hs Hp. destruct (core_UninviteFromGroup k p w Hs Hp) as [_ Hc]. destruct (m_groupInvite p) as [gp|] eqn:Hi; [|rewrite Hc; eauto].
  assert (Hu : c_players (c_uninvite gp k (core w)) !! k = Some (pv_set_invite None (pview p))).
  { rewrite uninvite_player, decide_True by done. by rewrite (core_player k p w Hp). }
  destruct Hc as [Hc|(inv & Hc)].
  - rewrite <- Hc in Hu. apply player_core in Hu as (p' & Hp' & Hv). exists p'. split; [done|]. by apply (f_equal pv_invite) in Hv.
  - assert (Hd : exists v, c_players (core (UninviteFromGroup E k w)) !! k = Some v /\ pv_invite v = None).
    { rewrite Hc. cbn [c_dissolve c_players]. rewrite lookup_fmap, clear_player, Hu. cbn [fmap option_fmap option_map]. eexists. split; [done|].
      by destruct (decide (k ∈ inv)). }
    destruct Hd as (v & Hv & E1). apply player_core in Hv as (p' & Hp' & <-). eauto.
Qed.

(** ** A member joins a created group *)

Definition created (gp : Z) (c : Core) : Prop :=
  exists g, c_groups c !! gp = Some g /\ gv_slots g <> [] /\ gv_leader g ∈ guids (gv_slots g) /\ c_map c !! gv_id g = Some gp.

Lemma join_group gp s c : c_groups (c_join gp s c) !! gp = gv_join s <$> c_groups c !! gp.
Proof. unfold c_join. cbn. apply lookup_alter_eq. Qed.

Lemma sound_join c gp s : sound_but gp c -> created gp c -> wf (c_join gp s c) -> only gp c (c_join gp s c) -> sound (c_join gp s c).
Proof.
  intros Hs (g & Hg & Hne & Hld & Hm) Hw Ho. apply (sound_but_sound gp); [by apply (sound_but_only gp c)|].
  intros g' Hg'. rewrite join_group, Hg in Hg'. injection Hg' as <-. constructor; cbn.
  - intros _. split; [rewrite length_app; cbn; destruct (gv_slots g); [done|cbn; lia]|]. split; [|done].
    unfold guids in *. rewrite fmap_app. apply elem_of_app. by left.
  - intros He. by destruct (gv_slots g).
Qed.

Lemma sound_is_created w gp g : sound (core w) -> w_groups w !! gp = Some g -> m_memberSlots g <> [] -> created gp (core w).
Proof.
  intros Hs Hg Hne. destruct (sound_created w Hs gp g Hg Hne) as (_ & ? & ?). exists (gview g). split; [by apply core_group|done].
Qed.

(** [AddMember] to a created group with a place: the player joins, or the raid has no free subgroup. *)
Lemma sound_AddMember gp k name j p g w :
  sound_but gp (core w) -> created gp (core w) -> w_groups w !! gp = Some g -> IsFull g = false -> w_players w !! k = Some p ->
  GetGroup p = None -> m_groupInvite p = None -> (isRaidGroup g = true -> sound (core w)) ->
  sound (core (snd (AddMember E gp k name j w)))
  /\ (fst (AddMember E gp k name j w) = true \/ snd (AddMember E gp k name j w) = w).
Proof.
  intros Hs Hcr Hg Hfull Hp Hno Hi Hraid.
  destruct (core_AddMember E gp k name j p g w (proj1 Hs) Hg Hfull Hp Hno Hi) as [[-> Hr]|(s & _ & Hb & Hc & Hw & Ho)].
  - split; [by apply Hraid|by right].
  - rewrite Hc. split; [by apply sound_join|by left].
Qed.

(** ** A group is created *)

Lemma core_Create gp k name p g w :
  wf (core w) -> w_groups w !! gp = Some g -> m_memberSlots g = [] -> isRaidGroup g = false ->
  (forall id, m_GroupMap w !! id <> Some gp) -> w_players w !! k = Some p -> GetGroup p = None -> m_groupInvite p = None ->
  0 <= m_GroupIds w -> m_GroupIds w + 1 < 4294967296 ->
  let c1 := c_id gp (m_GroupIds w) (c_generate (c_leader gp k (core w))) in
  exists s, ms_guid s = k /\ fst (Create E gp k name w) = true /\ core (snd (Create E gp k name w)) = c_join gp s c1
    /\ wf (c_join gp s c1) /\ only gp (core w) (c_join gp s c1).
Proof.
  intros Hw Hg He Hraid Hmap Hp Hno Hi Hid0 Hid c1. unfold Create. rewrite Hg, (links_not_bg w (proj1 Hw) gp g Hg). cbn zeta.
  set (w1 := upd_group gp (fun g => set_raid false (m_subGroupsCounts g) (set_leader k name (now E) g)) w).
  set (w2 := upd_group gp (set_looting GROUP_LOOT ITEM_QUALITY_UNCOMMON k) w1). cbn [GenerateGroupId].
  set (w3 := upd_group gp (set_id (m_GroupIds w2)) (set_group_map (m_GroupMap w2) (u32 (m_GroupIds w2 + 1)) w2)).
  set (w4 := emits _ w3).
  assert (Hc1 : core w1 = c_leader gp k (core w)).
  { apply (core_upd_group_at gp _ _ g); [done|]. unfold gview, gv_set_leader. cbn. by rewrite Hraid. }
  assert (Hc2 : core w2 = core w1) by (apply core_upd_group_same; done).
  assert (Hc4 : core w4 = c1).
  { change (core w4) with (core w3). unfold w3. rewrite (core_upd_group gp _ (gv_set_id (m_GroupIds w))) by done.
    unfold c1, c_id. f_equal. transitivity (c_generate (core w2)); [|by rewrite Hc2, Hc1].
    unfold core, c_generate, set_group_map. cbn. f_equal. apply u32_id. unfold is_u. lia. }
  pose proof (wf_leader _ gp (gview g) Hw (core_group gp g w Hg) k) as Hwl.
  assert (Hwc : wf c1).
  { apply (wf_id _ gp (gv_set_leader k (gview g)) (wf_generate _ Hwl)); [|exact Hmap].
    change (c_groups (c_leader gp k (core w)) !! gp = Some (gv_set_leader k (gview g))). unfold c_leader.
    by rewrite cg_lookup, decide_True, (core_group gp g w Hg). }
  assert (Hoc : only gp (core w) c1).
  { unfold c1, c_id. etrans; [|apply only_cg]. etrans; [|apply only_generate]. apply only_cg. }
  assert (Hg4 : c_groups (core w4) !! gp = Some (gv_set_id (m_GroupIds w) (gv_set_leader k (gview g)))).
  { rewrite Hc4. unfold c1, c_id. rewrite cg_lookup, decide_True by done.
    change (c_groups (c_generate ?c)) with (c_groups c). unfold c_leader. by rewrite cg_lookup, decide_True, (core_group gp g w Hg). }
  apply group_core in Hg4 as (g4 & Hg4 & Hv4).
  assert (Hfull : IsFull g4 = false).
  { unfold IsFull, GetMembersCount. assert (isRaidGroup g4 = false) as -> by (rewrite <- Hraid; exact (f_equal gv_raid Hv4)).
    assert (m_memberSlots g4 = []) as -> by (rewrite <- He; exact (f_equal gv_slots Hv4)). done. }
  assert (Hwc4 : wf (core w4)) by by rewrite Hc4.
  destruct (core_AddMember E gp k name GROUP_JOIN p g4 w4 Hwc4 Hg4 Hfull Hp Hno Hi) as [[_ Hr]|(s & Hk & Hb & Hc & Hwj & Hoj)].
  { assert (isRaidGroup g4 = false) as Hr0 by (rewrite <- Hraid; exact (f_equal gv_raid Hv4)). congruence. }
  exists s. destruct (AddMember E gp k name GROUP_JOIN w4) as [b w5]. cbn [fst snd] in Hb, Hc. subst b. cbn [negb fst snd].
  rewrite Hc4 in Hc, Hwj, Hoj. split; [done|]. split; [done|]. split; [|split; [done|by etrans]]. rewrite <- Hc. apply quiet_core.
  assert (Hl5 : links (core w5)) by (rewrite Hc; apply Hwj).
  assert (live gp w5). { apply live_core. rewrite Hc, join_group, <- Hc4, (core_group gp g4 w4 Hg4). done. }
  quiet.
Qed.

Lemma core_AddGroup gp g w : w_groups w !! gp = Some g -> core (AddGroup gp w) = c_register gp (m_Id g) (core w).
Proof. intros Hg. unfold AddGroup, deref. by rewrite Hg. Qed.

(** ** An invitation is accepted *)

(** Without its invitation a player is the same. *)
Lemma uninvited_player gp k j p w w1 :
  core w1 = c_uninvite gp k (core w) -> w_players w !! j = Some p ->
  exists p1, w_players w1 !! j = Some p1 /\ GetGroup p1 = GetGroup p /\ (j = k -> m_groupInvite p1 = None)
    /\ (j <> k -> m_groupInvite p1 = m_groupInvite p).
Proof.
  intros Hc Hp. apply core_player in Hp. pose proof (uninvite_player gp k (core w) j) as Hq. rewrite <- Hc in Hq.
  destruct (decide (j = k)) as [->|Hj]; rewrite Hp in Hq; apply player_core in Hq as (p1 & Hp1 & Hv); exists p1; (split; [done|]);
    apply (f_equal pv_group) in Hv as F1; apply (f_equal pv_invite) in Hv as F2; cbn in F1, F2; split; done.
Qed.
Lemma uninvited_group gp k gp' g w w1 :
  core w1 = c_uninvite gp k (core w) -> w_groups w !! gp' = Some g ->
  exists g1, w_groups w1 !! gp' = Some g1 /\ m_memberSlots g1 = m_memberSlots g /\ isRaidGroup g1 = isRaidGroup g /\ m_leaderGuid g1 = m_leaderGuid g /\ m_Id g1 = m_Id g.
Proof.
  intros Hc Hg. apply core_group in Hg. pose proof (uninvite_group gp k (core w) gp') as Hq. rewrite <- Hc in Hq.
  destruct (decide (gp' = gp)) as [->|Hn]; rewrite Hg in Hq; apply group_core in Hq as (g1 & Hg1 & Hv); exists g1; (split; [done|]);
    apply (f_equal gv_slots) in Hv as F1; apply (f_equal gv_raid) in Hv as F2; apply (f_equal gv_leader) in Hv as F3;
    apply (f_equal gv_id) in Hv as F4; done.
Qed.

(** The first acceptance: the leader becomes the first member, the group gets its place in the map. *)
Lemma sound_first_accept gp k p g w :
  sound_but gp (core w) -> w_groups w !! gp = Some g -> m_memberSlots g = [] -> isRaidGroup g = false ->
  (forall id, m_GroupMap w !! id <> Some gp) -> w_players w !! m_leaderGuid g = Some p -> m_groupInvite p = Some gp ->
  m_leaderGuid g <> k -> 0 <= m_GroupIds w -> m_GroupIds w + 1 < 4294967296 -> forall name,
  let w2 := RemoveInvite gp (m_leaderGuid g) w in
  fst (Create E gp (m_leaderGuid g) name w2) = true
  /\ let w4 := AddGroup gp (snd (Create E gp (m_leaderGuid g) name w2)) in
     sound_but gp (core w4) /\ created gp (core w4)
     /\ (exists g4, w_groups w4 !! gp = Some g4 /\ IsFull g4 = false /\ isRaidGroup g4 = false)
     /\ (forall q, w_players w !! k = Some q -> exists q4, w_players w4 !! k = Some q4 /\ GetGroup q4 = GetGroup q /\ m_groupInvite q4 = m_groupInvite q).
Proof.
  intros Hs Hg He Hraid Hmap Hp Hi Hk Hid0 Hid name w2. pose proof (proj1 Hs) as Hw.
  pose proof (core_RemoveInvite_some gp _ p w (proj1 Hw) Hp Hi : core w2 = _) as Hc2.
  destruct (wf_uninvite gp _ p w Hw Hp Hi) as [Hw2 Ho2].
  destruct (uninvited_player gp _ _ p w w2 Hc2 Hp) as (p2 & Hp2 & Hgr2 & Hi2 & _). specialize (Hi2 eq_refl).
  destruct (uninvited_group gp _ gp g w w2 Hc2 Hg) as (g2 & Hg2 & Hsl2 & Hr2 & Hld2 & _).
  destruct (links_invite_no_group w (proj1 Hw) _ p gp Hp Hi) as [_ Hno].
  assert (Hmap2 : m_GroupMap w2 = m_GroupMap w) by exact (f_equal c_map Hc2).
  assert (Hids2 : m_GroupIds w2 = m_GroupIds w) by exact (f_equal c_ids Hc2).
  destruct (core_Create gp (m_leaderGuid g) name p2 g2 w2) as (s & Hsk & Hb & Hc & Hwj & Hoj);
    [by rewrite Hc2|done|congruence|congruence|by rewrite Hmap2|done|congruence|done|lia|lia|].
  split; [done|]. set (w3 := snd (Create E gp (m_leaderGuid g) name w2)) in *. cbn zeta.
  set (c1 := c_id gp (m_GroupIds w2) _) in *.
  assert (Hg1 : c_groups c1 !! gp = Some (gv_set_id (m_GroupIds w) (gv_set_leader (m_leaderGuid g) (gview g2)))).
  { unfold c1, c_id. rewrite cg_lookup, decide_True by done. change (c_groups (c_generate ?c)) with (c_groups c).
    unfold c_leader. by rewrite cg_lookup, decide_True, (core_group gp g2 w2 Hg2), Hids2. }
  assert (Hg3 : c_groups (core w3) !! gp = Some (gv_join s (gv_set_id (m_GroupIds w) (gv_set_leader (m_leaderGuid g) (gview g2))))).
  { rewrite Hc, join_group, Hg1. done. }
  pose proof Hg3 as Hg3v. apply group_core in Hg3 as (g3 & Hg3 & Hv3). set (w4 := AddGroup gp w3).
  assert (Hid3 : m_Id g3 = m_GroupIds w) by exact (f_equal gv_id Hv3).
  pose proof (core_AddGroup gp g3 w3 Hg3 : core w4 = _) as Hc4. rewrite Hid3 in Hc4.
  assert (Hm3 : c_map (core w3) = m_GroupMap w) by (rewrite Hc; exact Hmap2).
  assert (Hfresh : c_map (core w3) !! m_GroupIds w = None).
  { rewrite Hm3. destruct (m_GroupMap w !! m_GroupIds w) as [gp'|] eqn:Em; [|done].
    destruct (wf_map _ (proj1 Hw) _ _ Em) as [Hlt _]. change (c_ids (core w)) with (m_GroupIds w) in Hlt. lia. }
  assert (Hids3 : c_ids (core w3) = m_GroupIds w + 1) by (rewrite Hc; change (m_GroupIds w2 + 1 = m_GroupIds w + 1); lia).
  assert (Hw4 : wf (core w4)).
  { rewrite Hc4. rewrite <- Hid3. apply (wf_register (core w3) gp (gview g3)); [by rewrite Hc|by apply core_group|].
    change (gv_id (gview g3)) with (m_Id g3). lia. }
  assert (Hs4 : sound_but gp (core w4)).
  { apply (sound_but_only gp (core w)); [done| |done]. rewrite Hc4. etrans; [exact Ho2|]. rewrite <- Hc2. etrans; [exact Hoj|].
    rewrite <- Hc. by apply only_register. }
  assert (Hgv4 : c_groups (core w4) !! gp = c_groups (core w3) !! gp) by by rewrite Hc4.
  split; [done|]. split; [|split].
  - exists (gv_join s (gv_set_id (m_GroupIds w) (gv_set_leader (m_leaderGuid g) (gview g2)))). rewrite Hgv4. split; [done|]. cbn.
    split; [by destruct (m_memberSlots g2)|]. split; [|rewrite Hc4; cbn; by rewrite lookup_insert_eq].
    unfold guids. rewrite fmap_app. apply elem_of_app. right. rewrite <- Hsk. by left.
  - rewrite Hg3v in Hgv4. apply group_core in Hgv4 as (g4 & Hg4 & Hv4). exists g4. split; [done|].
    assert (m_memberSlots g4 = [s]) as Hs41 by (transitivity (m_memberSlots g2 ++ [s]); [exact (f_equal gv_slots Hv4)|by rewrite Hsl2, He]).
    assert (isRaidGroup g4 = false) as Hr4 by (rewrite <- Hraid, <- Hr2; exact (f_equal gv_raid Hv4)).
    split; [|done]. unfold IsFull, GetMembersCount. by rewrite Hr4, Hs41.
  - intros q Hq. destruct (uninvited_player gp _ k q w w2 Hc2 Hq) as (q2 & Hq2 & Hqg & _ & Hqi).
    apply core_player in Hq2. assert (Hq4 : c_players (core w4) !! k = Some (pview q2)).
    { rewrite Hc4. change (c_players (c_register ?a ?b ?c)) with (c_players c). rewrite Hc. unfold c_join. rewrite cp_lookup, decide_False by congruence.
      exact Hq2. }
    apply player_core in Hq4 as (q4 & Hq4 & Hqv). exists q4. split; [done|].
    apply (f_equal pv_group) in Hqv as F1; apply (f_equal pv_invite) in Hqv as F2. cbn in F1, F2.
    split; [congruence|]. rewrite F2. apply Hqi. congruence.
Qed.

Lemma sound_Accept k p w :
  sound (core w) -> w_players w !! k = Some p -> 0 <= m_GroupIds w -> m_GroupIds w + 1 < 4294967296 ->
  sound (core (HandleGroupAcceptOpcode E k w)).
Proof.
  intros Hs Hp Hid0 Hid. pose proof (sound_links w Hs) as Hl. unfold HandleGroupAcceptOpcode, with_player. rewrite Hp.
  destruct (m_groupInvite p) as [gp|] eqn:Hi; [|done]. destruct (links_invite_no_group w Hl k p gp Hp Hi) as [[g Hg] Hno].
  unfold deref at 1. rewrite Hg. destruct (Z.eqb_spec (m_leaderGuid g) k) as [|Hne]; [done|].
  destruct (negb (CanMemberAccept E gp k)); [done|]. cbn zeta.
  pose proof (core_RemoveInvite_some gp k p w Hl Hp Hi) as Hc1. set (w1 := RemoveInvite gp k w) in *.
  pose proof (sound_uninvite w gp k p g Hs Hp Hi Hg ltac:(by right)) as Hs1. rewrite <- Hc1 in Hs1.
  destruct (IsFull g) eqn:Hfull; [done|]. destruct (negb _); [done|].
  destruct (uninvited_player gp k k p w w1 Hc1 Hp) as (p1 & Hp1 & Hgr1 & Hi1 & _). specialize (Hi1 eq_refl).
  destruct (uninvited_group gp k gp g w w1 Hc1 Hg) as (g1 & Hg1 & Hsl1 & Hr1 & Hld1 & _).
  assert (Hfull1 : IsFull g1 = false) by (rewrite <- Hfull; unfold IsFull, GetMembersCount; by rewrite Hsl1, Hr1).
  assert (Hlast : forall w4 g4 p4, sound_but gp (core w4) -> created gp (core w4) -> w_groups w4 !! gp = Some g4 -> IsFull g4 = false ->
      w_players w4 !! k = Some p4 -> GetGroup p4 = None -> m_groupInvite p4 = None -> (isRaidGroup g4 = true -> sound (core w4)) ->
      sound (core (let '(b, w) := AddMember E gp k (GetName p) GROUP_JOIN w4 in if b then BroadcastGroupUpdate gp w else w))).
  { intros w4 g4 p4 Hs4 Hcr4 Hg4 Hf4 Hp4 Hgr4 Hi4 Hr4.
    destruct (sound_AddMember gp k (GetName p) GROUP_JOIN p4 g4 w4 Hs4 Hcr4 Hg4 Hf4 Hp4 Hgr4 Hi4 Hr4) as [Hs5 _].
    destruct (core_AddMember E gp k (GetName p) GROUP_JOIN p4 g4 w4 (proj1 Hs4) Hg4 Hf4 Hp4 Hgr4 Hi4) as [[Ha Hr]|(s & _ & Hb & Hc & _)];
      [rewrite Ha; by apply Hr4|].
    destruct (AddMember E gp k (GetName p) GROUP_JOIN w4) as [b w5]. cbn [fst snd] in Hb, Hc, Hs5. subst b.
    assert (live gp w5) by (apply live_core; rewrite Hc, join_group, (core_group gp g4 w4 Hg4); done).
    assert (Hq : quiet w5 (BroadcastGroupUpdate gp w5)) by quiet. by rewrite (quiet_core _ _ Hq). }
  destruct (IsCreated g) eqn:Hcr.
  - apply (Hlast w1 g1 p1); [by apply sound_sound_but| |done|done|done|congruence|done|done].
    apply (sound_is_created w1 gp g1 Hs1 Hg1). rewrite Hsl1. intros He. unfold IsCreated, GetMembersCount in Hcr. by rewrite He in Hcr.
  - assert (He : m_memberSlots g = []).
    { unfold IsCreated, GetMembersCount in Hcr. destruct (m_memberSlots g); [done|]. cbn in Hcr. apply Z.ltb_ge in Hcr. lia. }
    destruct (sound_forming w1 Hs1 gp g1 Hg1) as (Hraid1 & Hmap1 & l & Hpl & Hil); [congruence|].
    rewrite <- Hld1. rewrite (links_GetPlayer w1 (sound_links w1 Hs1)), Hpl.
    destruct (links_player w1 (sound_links w1 Hs1) _ l Hpl) as (_ & -> & _).
    assert (Hids : m_GroupIds w1 = m_GroupIds w) by exact (f_equal c_ids Hc1).
    destruct (sound_first_accept gp k l g1 w1 (sound_sound_but gp _ Hs1) Hg1 ltac:(congruence) Hraid1 Hmap1 Hpl Hil ltac:(congruence)
                ltac:(lia) ltac:(lia) (m_leaderName g)) as (Hb & Hs4 & Hcr4 & (g4 & Hg4 & Hf4 & Hr4) & Hq4).
    destruct (Create E gp (m_leaderGuid g1) (m_leaderName g) (RemoveInvite gp (m_leaderGuid g1) w1)) as [b w3]. cbn [fst snd] in *. subst b.
    cbn [negb]. destruct (Hq4 p1 Hp1) as (q4 & Hq4p & Hq4g & Hq4i).
    apply (Hlast _ g4 q4); try done; congruence.
Qed.
End Invites.
