(* ===== verification/GroupSafety.v ===== *)
(** * GroupSafety: every packet leaves the groups sound

    The handlers, logins and logouts from a sound state to a sound state. *)
From S2P Require Import Prelude ByteBuffer ObjectGuid GroupData GroupPackets GroupLoot MeetingStone Group GroupHandlers GroupCore GroupRolls GroupKept GroupSound GroupSlots GroupSteps GroupEnds GroupOps GroupMoves GroupDisband GroupEffects GroupInvites.

Section Safety.
Context `{HashIter}.
Context (E : Env).
Implicit Types (w : World).

(** ** Invitations *)

Lemma created_sound_but gp c : sound_but gp c -> created gp c -> (forall g, c_groups c !! gp = Some g -> (2 <= length (gv_slots g))%nat) -> sound c.
Proof.
  intros Hs (g & Hg & Hne & Hld & Hm) Hlen. apply (sound_but_sound gp); [done|]. intros g' Hg'. assert (g' = g) as -> by congruence.
  constructor; [|done]. intros _. split; [by apply Hlen|done].
Qed.

Lemma sound_invite w gp k p g :
  sound (core w) -> w_groups w !! gp = Some g -> m_memberSlots g <> [] -> w_players w !! k = Some p -> m_groupInvite p = None ->
  GetGroup p = None -> sound (c_invite gp k (core w)).
Proof.
  intros Hs Hg Hne Hp Hi Hno. destruct (wf_invite_step gp k p w (sound_wf _ Hs)) as [Hw Ho]; [by exists g|done|done|done|].
  destruct (sound_created w Hs gp g Hg Hne) as (Hlen & Hld & Hm).
  assert (Hg' : c_groups (c_invite gp k (core w)) !! gp = Some (gv_set_inv ({[k]} ∪ m_invitees g) (gview g))).
  { change (c_groups (cg gp (fun g => gv_set_inv ({[k]} ∪ gv_inv g) g) (core w)) !! gp = Some (gv_set_inv ({[k]} ∪ m_invitees g) (gview g))).
    by rewrite cg_lookup, decide_True, (core_group gp g w Hg). }
  apply (created_sound_but gp).
  - apply (sound_but_only gp (core w)); [by apply sound_sound_but|done|done].
  - eexists. split; [exact Hg'|done].
  - intros g' Hg2. rewrite Hg' in Hg2. by injection Hg2 as <-.
Qed.

Lemma core_AddLeaderInvite gp k p w :
  links (core w) -> live gp w -> w_players w !! k = Some p -> m_groupInvite p = None -> GetGroup p = None ->
  fst (AddLeaderInvite gp k w) = true /\ core (snd (AddLeaderInvite gp k w)) = c_leader gp k (c_invite gp k (core w)).
Proof.
  intros Hl Hlv Hp Hi Hno. unfold AddLeaderInvite. destruct (core_AddInvite gp k p w Hl Hlv Hp Hi Hno) as [Hb Hc].
  destruct (AddInvite gp k w) as [b w1]. cbn [fst snd] in *. subst b. cbn [negb].
  assert (Hl1 : links (core w1)).
  { rewrite Hc. destruct Hlv as [g Hg]. by apply (links_invite _ gp k (pview p) (gview g)); [|apply core_player|apply core_group|..]. }
  assert (Hp1 : exists p1, w_players w1 !! k = Some p1).
  { assert (Hx : c_players (core w1) !! k = Some (pv_set_invite (Some gp) (pview p))).
    { rewrite Hc. unfold c_invite. rewrite cp_lookup, decide_True by done. cbn [cg c_players]. by rewrite (core_player k p w Hp). }
    apply player_core in Hx as (p1 & ? & _). eauto. }
  destruct Hp1 as [p1 Hp1]. rewrite Hp1. cbn zeta. cbn [fst snd]. split; [done|].
  assert (Hlv1 : live gp w1).
  { apply live_core. rewrite Hc. unfold c_invite. cbn. rewrite lookup_alter_eq. apply live_core in Hlv as [v Hv]. by rewrite Hv. }
  assert (Hq : quiet w1 (updateLeaderFlag true gp w1)) by quiet. set (w2 := updateLeaderFlag true gp w1) in *.
  set (w3 := upd_group gp _ w2). assert (Hc3 : core w3 = c_leader gp k (core w1)).
  { unfold w3. rewrite (core_upd_group gp _ (gv_set_leader k)) by done. by rewrite (quiet_core _ _ Hq). }
  assert (Hlv3 : live gp w3).
  { apply live_core. rewrite Hc3. unfold c_leader. rewrite cg_lookup, decide_True by done. apply live_core in Hlv1 as [v Hv]. by rewrite Hv. }
  assert (Hpr3 : present w3) by (intros j q Hq3; apply (present_quiet _ _ Hq (links_present w1 Hl1) j q Hq3)).
  assert (Hq3 : quiet w3 (updateLeaderFlag false gp w3)) by quiet. by rewrite (quiet_core _ _ Hq3), Hc3, Hc.
Qed.

Lemma core_new_group w : core (snd (new_group w)) = c_new (core w).
Proof. unfold new_group, core, c_new. cbn. f_equal. apply fmap_insert. Qed.

(** A player without a group invites another. *)
Section NewInvite.
Context (w : World) (k : ObjectGuid) (p : Player) (Hs : sound (core w)) (Hp : w_players w !! k = Some p).
Local Notation gp := (w_nextGroup w).
Local Notation w1 := (snd (new_group w)).

Lemma new_sound_but : sound_but gp (core w1).
Proof.
  rewrite core_new_group. apply (sound_but_only gp (core w)); [by apply sound_sound_but|exact (only_new (core w))|].
  apply wf_new, (sound_wf _ Hs).
Qed.
Lemma new_no_map id : m_GroupMap w !! id <> Some gp.
Proof. intros Hm. destruct (wf_map _ (sound_links w Hs) id gp Hm) as (_ & g & Hg & _). pose proof (fresh_group (core w) (sound_links w Hs) : c_groups (core w) !! gp = None). congruence. Qed.

(** The new group is dropped again. *)
Lemma sound_dropped w2 g2 :
  sound_but gp (core w2) -> w_groups w2 !! gp = Some g2 -> m_memberSlots g2 = [] -> m_GroupMap w2 = m_GroupMap w ->
  sound (core (delete_group gp w2)).
Proof.
  intros Hs2 Hg2 He Hm. rewrite (core_delete_forming w2 gp g2 (proj1 (proj1 Hs2)) Hg2 (proj1 Hs2) He).
  - by apply sound_dissolve; [apply Hs2|].
  - intros id. change (c_map (core w2)) with (m_GroupMap w2). rewrite Hm. apply new_no_map.
Qed.

Lemma sound_new_invite invited q :
  w_players w !! invited = Some q -> m_groupInvite q = None -> GetGroup q = None -> GetGroup p = None ->
  forall answer : World -> World, (forall w', core (answer w') = core w') ->
  sound (core (let '(b, w2) := AddLeaderInvite gp k w1 in
               if negb b then delete_group gp w2
               else let '(b, w3) := AddInvite gp invited w2 in if b then answer w3 else delete_group gp w3)).
Proof.
  intros Hq Hqi Hqg Hpg answer Ha. pose proof new_sound_but as Hs1. pose proof (proj1 (proj1 Hs1)) as Hl1.
  assert (Hg1 : w_groups w1 !! gp = Some newGroup) by apply lookup_insert_eq.
  destruct (m_groupInvite p) as [gp0|] eqn:Hi.
  - unfold AddLeaderInvite. rewrite (AddInvite_refused gp k p w1 Hl1 Hp ltac:(left; congruence)). cbn [negb].
    by apply (sound_dropped w1 newGroup).
  - destruct (core_AddLeaderInvite gp k p w1 Hl1 ltac:(by eexists) Hp Hi Hpg) as [Hb Hc].
    destruct (wf_invite_step gp k p w1 (proj1 Hs1) ltac:(by eexists) Hp Hi Hpg) as [Hwi Hoi].
    destruct (AddLeaderInvite gp k w1) as [b w2]. cbn [fst snd] in *. subst b. cbn [negb].
    assert (Hgi : c_groups (c_invite gp k (core w1)) !! gp = Some (gv_set_inv ({[k]} ∪ ∅) (gview newGroup))).
    { change (c_groups (cg gp (fun g => gv_set_inv ({[k]} ∪ gv_inv g) g) (core w1)) !! gp = Some (gv_set_inv ({[k]} ∪ ∅) (gview newGroup))).
      by rewrite cg_lookup, decide_True, (core_group gp newGroup w1 Hg1). }
    assert (Hs2 : sound_but gp (core w2)).
    { rewrite Hc. apply (sound_but_only gp (core w1)); [done| |by apply (wf_leader _ gp (gv_set_inv ({[k]} ∪ ∅) (gview newGroup)))].
      etrans; [exact Hoi|apply only_cg]. }
    assert (Hg2v : c_groups (core w2) !! gp = Some (gv_set_leader k (gv_set_inv ({[k]} ∪ ∅) (gview newGroup)))).
    { rewrite Hc. unfold c_leader. by rewrite cg_lookup, decide_True, Hgi. }
    pose proof Hg2v as Hg2. apply group_core in Hg2 as (g2 & Hg2 & Hv2).
    assert (He2 : m_memberSlots g2 = []) by exact (f_equal gv_slots Hv2).
    assert (Hm2 : m_GroupMap w2 = m_GroupMap w) by exact (f_equal c_map Hc).
    assert (Hk2 : c_players (core w2) !! k = Some (pv_set_invite (Some gp) (pview p))).
    { rewrite Hc. unfold c_invite. change (c_players (c_leader gp k ?c)) with (c_players c). rewrite cp_lookup, decide_True by done.
      cbn [cg c_players]. by rewrite (core_player k p w1 Hp). }
    destruct (decide (invited = k)) as [->|Hne].
    + pose proof Hk2 as Hk2'. apply player_core in Hk2' as (p2 & Hp2 & Hpv).
      rewrite (AddInvite_refused gp k p2 w2 (proj1 (proj1 Hs2)) Hp2); [by apply (sound_dropped w2 g2)|].
      left. apply (f_equal pv_invite) in Hpv. cbn in Hpv. congruence.
    + assert (Hq2 : c_players (core w2) !! invited = Some (pview q)).
      { rewrite Hc. unfold c_invite. change (c_players (c_leader gp k ?c)) with (c_players c). rewrite cp_lookup, decide_False by done.
        cbn [cg c_players]. exact (core_player invited q w1 Hq). }
      apply player_core in Hq2 as (q2 & Hq2 & Hqv). apply (f_equal pv_group) in Hqv as F1; apply (f_equal pv_invite) in Hqv as F2.
      cbn in F1, F2. destruct (core_AddInvite gp invited q2 w2 (proj1 (proj1 Hs2)) ltac:(by exists g2) Hq2 ltac:(congruence) ltac:(congruence)) as [Hb3 Hc3].
      destruct (wf_invite_step gp invited q2 w2 (proj1 Hs2) ltac:(by exists g2) Hq2 ltac:(congruence) ltac:(congruence)) as [Hw3 Ho3].
      destruct (AddInvite gp invited w2) as [b w3]. cbn [fst snd] in *. subst b. rewrite Ha, Hc3.
      apply (sound_but_sound gp); [by apply (sound_but_only gp (core w2))|]. intros g3 Hg3.
      assert (g3 = gv_set_inv ({[invited]} ∪ ({[k]} ∪ ∅)) (gv_set_leader k (gv_set_inv ({[k]} ∪ ∅) (gview newGroup)))) as ->.
      { change (c_groups (cg gp (fun g => gv_set_inv ({[invited]} ∪ gv_inv g) g) (core w2)) !! gp = Some g3) in Hg3.
        rewrite cg_lookup, decide_True, Hg2v in Hg3 by done. by injection Hg3 as <-. }
      constructor; [done|]. intros _. split; [done|]. split.
      * intros id. change (c_map (c_invite gp invited (core w2))) with (m_GroupMap w2). rewrite Hm2. apply new_no_map.
      * exists (pv_set_invite (Some gp) (pview p)). split; [|done]. unfold c_invite. rewrite cp_lookup, decide_False by done. exact Hk2.
Qed.
End NewInvite.

Lemma GetPlayer_name_found name w q : links (core w) -> GetPlayer_name E name w = Some q -> w_players w !! pl_guid q = Some q.
Proof.
  intros Hl. unfold GetPlayer_name. destruct (FindPlayerByName E name) as [j|]; [|done].
  destruct (w_players w !! j) as [q'|] eqn:Hq; [|done]. destruct (pl_inWorld q'); [|done]. intros [= <-].
  by destruct (links_player w Hl j q' Hq) as (_ & -> & _).
Qed.

Lemma sound_Invite k p name w : sound (core w) -> w_players w !! k = Some p -> sound (core (HandleGroupInviteOpcode E k name w)).
Proof.
  intros Hs Hp. pose proof (sound_links w Hs) as Hl. unfold HandleGroupInviteOpcode, with_player. rewrite Hp.
  destruct (normalizePlayerName E name) as [name'|]; [|done]. destruct (GetPlayer_name E name' w) as [q|] eqn:Hq; [|done].
  apply (GetPlayer_name_found _ _ _ Hl) in Hq.
  destruct (invite_refused E p q) as [[err|]|]; [cbn zeta; by destruct (negb _)|done|]. cbn zeta.
  rewrite (links_own_group w Hl q) by eauto. rewrite (links_own_group w Hl p) by eauto.
  destruct (bool_decide (GetGroup q <> None) || bool_decide (m_groupInvite q <> None)) eqn:Eb; [done|].
  apply orb_false_iff in Eb as [Eg%bool_decide_eq_false Ei%bool_decide_eq_false].
  assert (Hqg : GetGroup q = None) by (destruct (GetGroup q); [destruct Eg|]; done).
  assert (Hqi : m_groupInvite q = None) by (destruct (m_groupInvite q); [destruct Ei|]; done).
  destruct (GetGroup p) as [gp|] eqn:Hgp.
  - destruct (sound_group_of w Hs k p gp Hp Hgp) as (g & s & Hg & _ & Hne). unfold deref. rewrite Hg.
    destruct (negb (IsLeader k g) && negb (IsAssistant k g)); [done|]. destruct (IsFull g); [done|]. destruct (negb _); [done|].
    destruct (core_AddInvite gp (pl_guid q) q w Hl ltac:(by exists g) Hq Hqi Hqg) as [Hb Hc].
    destruct (AddInvite gp (pl_guid q) w) as [b w1]. cbn [fst snd] in *. subst b.
    change (core _) with (core w1). rewrite Hc. by apply (sound_invite w gp (pl_guid q) q g).
  - pose proof (sound_new_invite w k p Hs Hp (pl_guid q) q Hq Hqi Hqg Hgp
      (fun w => SendPartyResult PARTY_OP_INVITE name' ERR_PARTY_RESULT_OK k (emit (SendPacket (pl_guid q) SMSG_GROUP_INVITE [FStr (GetName p)]) w))
      ltac:(done)) as Hn.
    exact Hn.
Qed.
End Safety.
