(* ===== verification/GroupRaids.v ===== *)
(** * GroupRaids: leaders, raids and subgroups, from a sound state to a sound state *)
From S2P Require Import Prelude ByteBuffer ObjectGuid GroupData GroupPackets GroupLoot MeetingStone Group GroupHandlers GroupCore GroupRolls GroupKept GroupSound GroupSlots GroupSteps GroupEnds GroupOps GroupMoves GroupDisband GroupEffects GroupInvites GroupSafety.

Section Raids.
Context `{HashIter}.
Context (E : Env).
Implicit Types (w : World).

(** A step on one group that keeps identifier and size, and a leader who is a member. *)
Lemma sound_inside gp g f c :
  sound c -> c_groups c !! gp = Some g -> gv_slots g <> [] -> gv_id (f g) = gv_id g -> length (gv_slots (f g)) = length (gv_slots g) ->
  gv_leader (f g) ∈ guids (gv_slots (f g)) -> wf (cg gp f c) -> sound (cg gp f c).
Proof.
  intros Hs Hg Hne Hid Hlen Hld Hw. apply (sound_but_sound gp).
  - apply (sound_but_only gp c); [by apply sound_sound_but|apply only_cg|done].
  - intros g' Hg'. rewrite cg_lookup, decide_True, Hg in Hg' by done. injection Hg' as <-.
    destruct (gs_created _ _ _ (sound_group _ Hs gp g Hg) Hne) as (? & _ & Hm). constructor.
    + intros _. rewrite Hlen, Hid. done.
    + intros He. rewrite He in Hlen. by destruct (gv_slots g).
Qed.

(** ** Leaders *)

Lemma sound_leader gp k g c : sound c -> c_groups c !! gp = Some g -> k ∈ guids (gv_slots g) -> sound (c_leader gp k c).
Proof.
  intros Hs Hg Hk. apply (sound_inside gp g); try done.
  - intros He. rewrite He in Hk. by apply elem_of_nil in Hk.
  - by apply (wf_leader c gp g (sound_wf _ Hs) Hg).
Qed.

Lemma core_ChangeLeader gp k g w :
  sound (core w) -> w_groups w !! gp = Some g ->
  core (ChangeLeader E gp k w) = if decide (k ∈ guids (m_memberSlots g)) then c_leader gp k (core w) else core w.
Proof.
  intros Hs Hg. unfold ChangeLeader, deref at 1. rewrite Hg, is_getMemberSlot. case_decide as Hk.
  - destruct (slot_of_elem k _ Hk) as [s Hsl]. rewrite Hsl. cbn zeta.
    pose proof (core_setLeader E gp k w g (links_present w (sound_links w Hs)) Hg Hk) as Hc. set (w1 := setLeader E gp k w) in *.
    assert (live gp w1).
    { apply live_core. rewrite Hc. unfold c_leader. by rewrite cg_lookup, decide_True, (core_group gp g w Hg). }
    rewrite <- Hc. apply quiet_core. quiet.
  - apply slot_of_None in Hk. by rewrite Hk.
Qed.
Lemma sound_ChangeLeader gp k g w : sound (core w) -> w_groups w !! gp = Some g -> sound (core (ChangeLeader E gp k w)).
Proof.
  intros Hs Hg. rewrite (core_ChangeLeader gp k g w Hs Hg). case_decide; [|done].
  by apply (sound_leader gp k (gview g)); [|apply core_group|].
Qed.

Lemma sound_UpdateOfflineLeader gp g t d w :
  sound (core w) -> w_groups w !! gp = Some g ->
  sound (core (UpdateOfflineLeader E gp t d w)) /\ m_GroupMap (UpdateOfflineLeader E gp t d w) = m_GroupMap w.
Proof.
  intros Hs Hg. unfold UpdateOfflineLeader, deref. rewrite Hg, (links_not_bg w (sound_links w Hs) gp g Hg).
  destruct (GetPlayer (m_leaderGuid g) w).
  - assert (Hc : core (upd_group gp (set_leader (m_leaderGuid g) (m_leaderName g) t) w) = core w).
    { rewrite (core_upd_group_at gp _ (fun _ => gview g) g) by done. apply cg_same. by apply core_group. }
    by rewrite Hc.
  - destruct (_ || _); [done|]. unfold chooseLeader, deref. rewrite Hg. destruct (_ <? _); [done|]. cbn zeta.
    destruct (find_leader gp g w) as [k|]; [|done]. split; [by apply (sound_ChangeLeader gp k g)|].
    change (c_map (core (ChangeLeader E gp k w)) = c_map (core w)). rewrite (core_ChangeLeader gp k g w Hs Hg). by case_decide.
Qed.

Lemma sound_UpdateOfflineLeaders t d w : sound (core w) -> sound (core (UpdateOfflineLeaders E t d w)).
Proof.
  intros Hs. unfold UpdateOfflineLeaders. destruct (d =? 0); [done|].
  assert (Hl : forall id gp, (id, gp) ∈ hash_iter (m_GroupMap w) -> m_GroupMap w !! id = Some gp) by (intros id gp; apply elem_of_hash_iter).
  assert (Hgen : forall l w1, (forall id gp, (id, gp) ∈ l -> m_GroupMap w1 !! id = Some gp) -> sound (core w1) ->
    sound (core (foldl (fun w kv => UpdateOfflineLeader E (snd kv) t d w) w1 l))).
  { intros l. induction l as [|[id gp] l IH]; intros w1 Hin Hs1; [done|]. cbn [foldl snd].
    destruct (links_map_live w1 (sound_links w1 Hs1) id gp (Hin id gp ltac:(by left))) as [g Hg].
    destruct (sound_UpdateOfflineLeader gp g t d w1 Hs1 Hg) as [Hs2 Hm2]. apply IH; [|done].
    intros id' gp' Hx. rewrite Hm2. apply Hin. by right. }
  by apply Hgen.
Qed.

(** ** Raids *)

Lemma core_ConvertToRaid gp g w :
  sound (core w) -> w_groups w !! gp = Some g -> core (ConvertToRaid gp w) = c_raid gp (core w).
Proof.
  intros Hs Hg. unfold ConvertToRaid. set (w1 := upd_group gp (fun g => set_raid true (m_subGroupsCounts g) g) w).
  assert (Hg1 : w_groups w1 !! gp = Some (set_raid true (m_subGroupsCounts g) g)).
  { unfold w1, upd_group, set_groups. cbn. by rewrite lookup_alter_eq, Hg. }
  assert (Hr : forallb (fun s => ms_group s <? MAX_RAID_SUBGROUPS) (m_memberSlots g) = true).
  { apply forallb_forall. intros s Hin%list_elem_of_In. apply Z.ltb_lt. change MAX_RAID_SUBGROUPS with 8.
    pose proof (so_subgroups _ _ _ (sound_sizes w Hs gp g Hg)) as Hsub. destruct (isRaidGroup g).
    - pose proof (rs_range _ _ Hsub) as Hf. rewrite Forall_forall in Hf. change MAX_RAID_SUBGROUPS with 8 in Hf. by apply Hf.
    - pose proof (ps_group _ _ Hsub) as Hf. rewrite Forall_forall in Hf. rewrite (Hf s Hin). lia. }
  set (w2 := initRaidSubGroupsCounter gp w1). assert (Hc2 : core w2 = c_raid gp (core w)).
  { unfold w2, initRaidSubGroupsCounter, deref. rewrite Hg1. cbn zeta. cbn [m_memberSlots set_raid]. rewrite Hr.
    rewrite (core_upd_group_at gp _ (fun v => gv_set_slots (gv_slots v) (Some (count_slots (gv_slots v))) v) _ w1 Hg1) by done.
    unfold w1. rewrite (core_upd_group gp _ (fun v => gv_set_raid true (gv_counts v) v)) by done. by rewrite cg_cg. }
  rewrite <- Hc2. apply quiet_core. assert (live gp w2).
  { apply live_core. rewrite Hc2. unfold c_raid. by rewrite cg_lookup, decide_True, (core_group gp g w Hg). }
  quiet.
Qed.
Lemma sound_ConvertToRaid gp g w :
  sound (core w) -> w_groups w !! gp = Some g -> m_memberSlots g <> [] -> sound (core (ConvertToRaid gp w)).
Proof.
  intros Hs Hg Hne. rewrite (core_ConvertToRaid gp g w Hs Hg). apply (sound_inside gp (gview g)); try done.
  - by apply core_group.
  - apply (sound_created w Hs gp g Hg Hne).
  - apply (wf_raid (core w) gp (gview g) (sound_wf _ Hs)). by apply core_group.
Qed.

Lemma sound_SetAssistant gp k b g w : sound (core w) -> w_groups w !! gp = Some g -> m_memberSlots g <> [] -> sound (core (SetAssistant gp k b w)).
Proof.
  intros Hs Hg Hne. unfold SetAssistant, deref. rewrite Hg. destruct (isRaidGroup g); cbn [negb]; [|done].
  unfold setAssistantFlag. rewrite Hg, (links_not_bg w (sound_links w Hs) gp g Hg). destruct (IsMember k g); cbn [negb]; [|done]. cbn zeta.
  set (w1 := upd_slot gp k (slot_assistant b) w).
  assert (Hc1 : core w1 = c_assistant gp k b (core w)).
  { apply (core_upd_group_at gp _ _ g); [done|]. unfold gview, gv_set_slots. cbn.
    by rewrite (set_slot_map k _ _ (so_nodup _ _ _ (sound_sizes w Hs gp g Hg))). }
  assert (live gp w1).
  { apply live_core. rewrite Hc1. unfold c_assistant. by rewrite cg_lookup, decide_True, (core_group gp g w Hg). }
  set (w2 := emit _ w1). assert (Hq : quiet w1 (SendUpdate gp w2)) by (unfold w2; quiet). rewrite (quiet_core _ _ Hq), Hc1.
  apply (sound_inside gp (gview g)); try done.
  - by apply core_group.
  - cbn. by rewrite length_fmap.
  - cbn. rewrite guids_on_slot by done. apply (sound_created w Hs gp g Hg Hne).
  - apply (wf_assistant (core w) gp (gview g) (sound_wf _ Hs)). by apply core_group.
Qed.

(** ** Subgroups *)

Lemma core_upd_slot gp k f g w :
  NoDup (guids (m_memberSlots g)) -> w_groups w !! gp = Some g ->
  core (upd_slot gp k f w) = cg gp (fun v => gv_set_slots (on_slot k f <$> gv_slots v) (gv_counts v) v) (core w).
Proof. intros Hnd Hg. apply (core_upd_group_at gp _ _ g); [done|]. unfold gview, gv_set_slots. cbn. by rewrite (set_slot_map k f _ Hnd). Qed.

Lemma core_set_member_sub_group gp k sub w :
  0 <= sub < 256 -> (forall p, w_players w !! k = Some p -> GetGroup p = Some gp) ->
  core (set_member_sub_group gp k sub w) = cp k (pv_set_sub sub) (core w).
Proof.
  intros Hr Hgr. unfold set_member_sub_group. destruct (w_players w !! k) as [p|] eqn:Hp.
  - rewrite (bool_decide_true _ (Hgr p eq_refl)). unfold set_sub_group. cbn [negb].
    rewrite (core_upd_player k _ (pv_set_sub (u8 sub))) by done. rewrite u8_id; [done|]. unfold is_u8, is_u. lia.
  - symmetry. apply cp_none. unfold core. cbn. by rewrite lookup_fmap, Hp.
Qed.

(** The counters go up, the place in the link changes, the counters go down. *)
Lemma core_setMembersGroup gp k sub g w :
  links (core w) -> NoDup (guids (m_memberSlots g)) -> w_groups w !! gp = Some g -> k ∈ guids (m_memberSlots g) -> sub < MAX_RAID_SUBGROUPS ->
  fst (setMembersGroup gp k sub w) = true
  /\ w_players (snd (setMembersGroup gp k sub w)) = w_players w
  /\ core (snd (setMembersGroup gp k sub w))
     = cg gp (fun v => gv_set_slots (gv_slots v) (bump_opt 1 sub (gv_counts v)) v) (cg gp (gv_move k sub) (core w)).
Proof.
  intros Hl Hnd Hg Hk Hr. unfold setMembersGroup. rewrite Hg, (proj2 (IsMember_guids k g) Hk), (links_not_bg w Hl gp g Hg). cbn zeta. cbn [negb fst snd].
  split; [done|]. split; [exact (SubGroupCounter_players 1 gp sub (upd_slot gp k (slot_group sub) w))|]. change (core (emit _ ?w0)) with (core w0).
  set (w1 := upd_slot gp k (slot_group sub) w).
  assert (Hg1 : w_groups w1 !! gp = Some (set_slots (set_slot k (slot_group sub) (m_memberSlots g)) (m_subGroupsCounts g) g)).
  { unfold w1, upd_slot, upd_group, set_groups. cbn. by rewrite lookup_alter_eq, Hg. }
  unfold SubGroupCounterIncrease. rewrite (core_SubGroupCounter 1 gp sub w1 _ Hg1) by done.
  unfold w1. by rewrite (core_upd_slot gp k _ g w Hnd Hg).
Qed.

Lemma move_end gp k from sub w w1 g :
  links (core w) -> w_groups w !! gp = Some g -> from < MAX_RAID_SUBGROUPS ->
  core w1 = cp k (pv_set_sub sub) (cg gp (fun v => gv_set_slots (gv_slots v) (bump_opt 1 sub (gv_counts v)) v) (cg gp (gv_move k sub) (core w))) ->
  core (SubGroupCounterDecrease gp from w1) = c_move gp k from sub (core w).
Proof.
  intros Hl Hg Hr Hc1. assert (Hv : exists v, c_groups (core w1) !! gp = Some v).
  { rewrite Hc1. cbn [cp c_groups]. rewrite cg_lookup, decide_True, cg_lookup, decide_True, (core_group gp g w Hg) by done. cbn. eauto. }
  destruct Hv as (v & Hv). apply group_core in Hv as (g1 & Hg1 & _). unfold SubGroupCounterDecrease.
  rewrite (core_SubGroupCounter (-1) gp from w1 g1 Hg1) by done. rewrite Hc1. unfold c_move, c_place. by rewrite !cp_cg, !cg_cg.
Qed.
Lemma sound_move gp g s sub c :
  sound c -> c_groups c !! gp = Some g -> slot_of (ms_guid s) (gv_slots g) = Some s -> gv_raid g = true -> 0 <= sub < 8 ->
  ms_group s <> sub -> (subgroup_size sub (gv_slots g) < 5)%nat -> sound (c_move gp (ms_guid s) (ms_group s) sub c).
Proof.
  intros Hs Hg Hsl Hraid Hr Hne Hlt. pose proof (wf_move c gp g s sub (sound_wf _ Hs) Hg Hsl Hraid Hr Hne Hlt) as Hw.
  assert (Hnil : gv_slots g <> []) by (intros He; by rewrite He in Hsl).
  destruct (gs_created _ _ _ (sound_group _ Hs gp g Hg) Hnil) as (Hlen & Hld & Hm).
  apply (sound_but_sound gp).
  - apply (sound_but_only gp c); [by apply sound_sound_but| |done]. unfold c_move. etrans; [apply only_place|apply only_cg].
  - intros g' Hg'. unfold c_move, c_place in Hg'. rewrite cg_lookup, decide_True in Hg' by done. cbn [cp c_groups] in Hg'.
    rewrite cg_lookup, decide_True, Hg in Hg' by done. injection Hg' as <-. constructor; cbn.
    + intros _. rewrite length_fmap, guids_on_slot by done. done.
    + intros He. apply fmap_nil_inv in He. done.
Qed.

Lemma sound_ChangeMembersGroup_player gp k sub g w :
  sound (core w) -> w_groups w !! gp = Some g -> online k w -> 0 <= sub -> sound (core (ChangeMembersGroup_player gp k sub w)).
Proof.
  intros Hs Hg Ho H0. pose proof (sound_links w Hs) as Hl. unfold ChangeMembersGroup_player, deref. rewrite Hg.
  destruct (isRaidGroup g) eqn:Hraid; cbn [negb orb]; [|done]. destruct (Z.leb_spec MAX_RAID_SUBGROUPS sub) as [|Hsub]; [done|]. cbn zeta.
  unfold GetMemberGroup. rewrite is_getMemberSlot. destruct (slot_of k (m_memberSlots g)) as [s|] eqn:Hsl.
  2:{ change (MAX_RAID_SUBGROUPS <=? MAX_RAID_SUBGROUPS + 1) with true. by rewrite orb_true_r. }
  pose proof (slot_of_Some _ _ _ Hsl) as [Hin Hk]. pose proof (sound_sizes w Hs gp g Hg) as Hsz. rewrite Hraid in Hsz.
  pose proof (so_subgroups _ _ _ Hsz) as Hrs. cbn in Hrs. pose proof (rs_range _ _ Hrs) as Hf. rewrite Forall_forall in Hf. specialize (Hf s Hin).
  destruct (Z.eqb_spec (ms_group s) sub) as [|Hne]; [done|]. destruct (Z.leb_spec MAX_RAID_SUBGROUPS (ms_group s)); [lia|]. cbn [orb].
  destruct (raid_counts_some _ _ Hrs) as [n Hn]. rewrite Hn in *. change MAX_RAID_SUBGROUPS with 8 in *.
  rewrite (sub_count_ok n _ sub (raid_counts _ _ Hrs) ltac:(lia)). change MAX_GROUP_SIZE with 5. destruct (Z.leb_spec 5 (Z.of_nat (subgroup_size sub (m_memberSlots g)))); [done|].
  assert (Hkg : k ∈ guids (m_memberSlots g)) by (rewrite <- Hk; by apply list_elem_of_fmap_2).
  destruct (core_setMembersGroup gp k sub g w Hl (so_nodup _ _ _ Hsz) Hg Hkg Hsub) as (Hb & Hp1 & Hc1).
  destruct (setMembersGroup gp k sub w) as [b w1]. cbn [fst snd] in *. subst b. cbn [negb]. destruct Ho as [p Hp]. rewrite Hp1, Hp.
  assert (Hgr : GetGroup p = Some gp).
  { apply (wf_link _ Hl k _ gp (core_player k p w Hp)). exists (gview g). split; [by apply core_group|done]. }
  rewrite (bool_decide_true _ Hgr).
  assert (Hc2 : core (SubGroupCounterDecrease gp (ms_group s) (set_member_sub_group gp k sub w1)) = c_move gp k (ms_group s) sub (core w)).
  { apply (move_end gp k (ms_group s) sub w _ g Hl Hg ltac:(done)). rewrite core_set_member_sub_group; [by rewrite Hc1|lia|].
    intros p'. rewrite Hp1, Hp. by intros [= <-]. }
  set (w2 := SubGroupCounterDecrease _ _ _) in *.
  assert (live gp w2).
  { apply live_core. rewrite Hc2. unfold c_move. rewrite cg_lookup, decide_True by done. unfold c_place. cbn [cp c_groups].
    by rewrite cg_lookup, decide_True, (core_group gp g w Hg). }
  assert (Hq : quiet w2 (SendUpdate gp w2)) by quiet. rewrite (quiet_core _ _ Hq), Hc2, <- Hk.
  apply (sound_move gp (gview g)); [done|by apply core_group|by rewrite Hk|done|lia|done|cbn [gview gv_slots]; lia].
Qed.

Lemma sound_ChangeMembersGroup gp k sub g w :
  sound (core w) -> w_groups w !! gp = Some g -> 0 <= sub -> sound (core (ChangeMembersGroup gp k sub w)).
Proof.
  intros Hs Hg H0. pose proof (sound_links w Hs) as Hl. unfold ChangeMembersGroup, deref. rewrite Hg.
  destruct (isRaidGroup g) eqn:Hraid; cbn [negb orb]; [|done]. destruct (Z.leb_spec MAX_RAID_SUBGROUPS sub) as [|Hsub]; [done|].
  pose proof (sound_sizes w Hs gp g Hg) as Hsz. rewrite Hraid in Hsz. pose proof (so_subgroups _ _ _ Hsz) as Hrs. cbn in Hrs.
  destruct (raid_counts_some _ _ Hrs) as [n Hn]. rewrite Hn in *. change MAX_RAID_SUBGROUPS with 8 in *.
  rewrite (sub_count_ok n _ sub (raid_counts _ _ Hrs) ltac:(lia)). change MAX_GROUP_SIZE with 5.
  destruct (Z.leb_spec 5 (Z.of_nat (subgroup_size sub (m_memberSlots g)))); [done|]. rewrite (links_GetPlayer w Hl).
  destruct (w_players w !! k) as [p|] eqn:Hp.
  - destruct (links_player w Hl k p Hp) as (_ & -> & _). apply (sound_ChangeMembersGroup_player gp k sub g); try done. by exists p.
  - cbn zeta. unfold GetMemberGroup. rewrite is_getMemberSlot. destruct (slot_of k (m_memberSlots g)) as [s|] eqn:Hsl.
    2:{ destruct (_ =? _); [done|]. unfold setMembersGroup. rewrite Hg. unfold IsMember. rewrite is_getMemberSlot, Hsl. done. }
    pose proof (slot_of_Some _ _ _ Hsl) as [Hin Hk]. pose proof (rs_range _ _ Hrs) as Hf. rewrite Forall_forall in Hf. specialize (Hf s Hin).
    destruct (Z.eqb_spec (ms_group s) sub) as [|Hne]; [done|].
    assert (Hkg : k ∈ guids (m_memberSlots g)) by (rewrite <- Hk; by apply list_elem_of_fmap_2).
    destruct (core_setMembersGroup gp k sub g w Hl (so_nodup _ _ _ Hsz) Hg Hkg Hsub) as (Hb & Hp1 & Hc1).
    destruct (setMembersGroup gp k sub w) as [b w1]. cbn [fst snd] in *. subst b.
    assert (Hc2 : core (SubGroupCounterDecrease gp (ms_group s) w1) = c_move gp k (ms_group s) sub (core w)).
    { apply (move_end gp k (ms_group s) sub w _ g Hl Hg); [apply Hf|]. rewrite Hc1, cp_none; [done|]. unfold core. cbn. by rewrite lookup_fmap, Hp. }
    set (w2 := SubGroupCounterDecrease _ _ _) in *.
    assert (live gp w2).
    { apply live_core. rewrite Hc2. unfold c_move. rewrite cg_lookup, decide_True by done. unfold c_place. cbn [cp c_groups].
      by rewrite cg_lookup, decide_True, (core_group gp g w Hg). }
    assert (Hq : quiet w2 (SendUpdate gp w2)) by quiet. rewrite (quiet_core _ _ Hq), Hc2, <- Hk.
    apply (sound_move gp (gview g)); [done|by apply core_group|by rewrite Hk|done|lia|done|cbn [gview gv_slots]; lia].
Qed.

(** ** Two members change places *)

Lemma cp_comm k j f h c : k <> j -> cp k f (cp j h c) = cp j h (cp k f c).
Proof.
  intros Hn. unfold cp. cbn. f_equal. apply map_eq. intros i.
  destruct (decide (i = k)) as [->|Hk]; [by rewrite lookup_alter_eq, lookup_alter_ne, lookup_alter_ne, lookup_alter_eq by congruence|].
  rewrite lookup_alter_ne by done. destruct (decide (i = j)) as [->|Hj]; [by rewrite lookup_alter_eq, lookup_alter_eq, lookup_alter_ne|].
  by rewrite !lookup_alter_ne.
Qed.

Lemma sound_swap gp g s1 s2 c :
  sound c -> c_groups c !! gp = Some g -> slot_of (ms_guid s1) (gv_slots g) = Some s1 -> slot_of (ms_guid s2) (gv_slots g) = Some s2 ->
  gv_raid g = true -> ms_guid s1 <> ms_guid s2 ->
  sound (c_place gp (ms_guid s1) (ms_group s2) (c_place gp (ms_guid s2) (ms_group s1) c)).
Proof.
  intros Hs Hg H1 H2 Hraid Hne. pose proof (wf_swap c gp g s1 s2 (sound_wf _ Hs) Hg H1 H2 Hraid Hne) as Hw.
  assert (Hnil : gv_slots g <> []) by (intros He; by rewrite He in H1).
  destruct (gs_created _ _ _ (sound_group _ Hs gp g Hg) Hnil) as (Hlen & Hld & Hm). apply (sound_but_sound gp).
  - apply (sound_but_only gp c); [by apply sound_sound_but| |done]. etrans; apply only_place.
  - intros g' Hg'. unfold c_place in Hg'. rewrite cp_cg in Hg'. cbn [cp c_groups] in Hg'.
    rewrite cg_lookup, decide_True in Hg' by done. cbn [cp c_groups] in Hg'. rewrite cg_lookup, decide_True, Hg in Hg' by done.
    injection Hg' as <-. constructor; cbn.
    + intros _. rewrite !length_fmap, !guids_on_slot by done. done.
    + intros He. by apply fmap_nil_inv, fmap_nil_inv in He.
Qed.

Lemma core_swapMembersGroup gp s1 s2 g w :
  links (core w) -> NoDup (guids (m_memberSlots g)) -> w_groups w !! gp = Some g ->
  slot_of (ms_guid s1) (m_memberSlots g) = Some s1 -> slot_of (ms_guid s2) (m_memberSlots g) = Some s2 ->
  fst (swapMembersGroup gp (ms_guid s1) (ms_guid s2) w) = true
  /\ w_players (snd (swapMembersGroup gp (ms_guid s1) (ms_guid s2) w)) = w_players w
  /\ core (snd (swapMembersGroup gp (ms_guid s1) (ms_guid s2) w))
     = cg gp (gv_move (ms_guid s1) (ms_group s2)) (cg gp (gv_move (ms_guid s2) (ms_group s1)) (core w)).
Proof.
  intros Hl Hnd Hg H1 H2. unfold swapMembersGroup. rewrite Hg, !is_getMemberSlot, H1, H2, (links_not_bg w Hl gp g Hg). cbn zeta. cbn [fst snd].
  split; [done|]. split; [done|]. change (core (emits _ ?w0)) with (core w0). set (w1 := upd_slot gp (ms_guid s2) _ w).
  set (g1 := set_slots (set_slot (ms_guid s2) (slot_group (ms_group s1)) (m_memberSlots g)) (m_subGroupsCounts g) g).
  assert (Hg1 : w_groups w1 !! gp = Some g1) by (unfold w1, upd_slot, upd_group, set_groups; cbn; by rewrite lookup_alter_eq, Hg).
  rewrite (core_upd_slot gp _ _ g1 w1); [|by cbn; rewrite (set_slot_map _ _ _ Hnd), guids_on_slot|done].
  unfold w1. by rewrite (core_upd_slot gp _ _ g w Hnd Hg).
Qed.

Lemma core_sub_of gp k sub w w1 :
  (forall q, w_players w1 !! k = Some q -> GetGroup q = Some gp) -> present w1 -> 0 <= sub < 256 -> core w1 = core w ->
  core (match GetPlayer k w1 with Some _ => set_member_sub_group gp k sub w1 | None => w1 end) = cp k (pv_set_sub sub) (core w).
Proof.
  intros Hgr Hpr Hr Hc. rewrite (present_GetPlayer w1 k Hpr), <- Hc, <- (core_set_member_sub_group gp k sub w1 Hr Hgr).
  destruct (w_players w1 !! k) as [q|] eqn:Hq; [done|]. unfold set_member_sub_group. by rewrite Hq.
Qed.

Lemma sound_SwapMembersGroup gp k1 k2 g w :
  sound (core w) -> w_groups w !! gp = Some g -> sound (core (SwapMembersGroup gp k1 k2 w)).
Proof.
  intros Hs Hg. pose proof (sound_links w Hs) as Hl. unfold SwapMembersGroup, deref. rewrite Hg. destruct (isRaidGroup g) eqn:Hraid; cbn [negb]; [|done].
  cbn zeta. unfold GetMemberGroup. rewrite !is_getMemberSlot. change MAX_RAID_SUBGROUPS with 8.
  pose proof (sound_sizes w Hs gp g Hg) as Hsz. rewrite Hraid in Hsz. pose proof (rs_range _ _ (so_subgroups _ _ _ Hsz : raid_slots _ _)) as Hf.
  rewrite Forall_forall in Hf. change MAX_RAID_SUBGROUPS with 8 in Hf.
  destruct (slot_of k1 (m_memberSlots g)) as [s1|] eqn:H1; [|by cbn; rewrite orb_true_r].
  destruct (slot_of k2 (m_memberSlots g)) as [s2|] eqn:H2; [|by cbn; rewrite orb_true_r].
  pose proof (slot_of_Some _ _ _ H1) as [Hin1 <-]. pose proof (slot_of_Some _ _ _ H2) as [Hin2 <-]. pose proof (Hf s1 Hin1). pose proof (Hf s2 Hin2).
  destruct (Z.eqb_spec (ms_group s1) (ms_group s2)) as [|Hne]; [done|]. destruct (Z.leb_spec 8 (ms_group s1)); [lia|].
  destruct (Z.leb_spec 8 (ms_group s2)); [lia|]. cbn [orb]. assert (Hnek : ms_guid s1 <> ms_guid s2) by (intros He; rewrite He in H1; congruence).
  destruct (core_swapMembersGroup gp s1 s2 g w Hl (so_nodup _ _ _ Hsz) Hg H1 H2) as (Hb & Hp1 & Hc1).
  destruct (swapMembersGroup gp (ms_guid s1) (ms_guid s2) w) as [b w1]. cbn [fst snd] in *. subst b. cbn [negb].
  assert (Hgr : forall s q, s ∈ m_memberSlots g -> w_players w !! ms_guid s = Some q -> GetGroup q = Some gp).
  { intros s q Hin Hq. apply (wf_link _ Hl _ _ gp (core_player _ q w Hq)). exists (gview g). split; [by apply core_group|]. by apply list_elem_of_fmap_2. }
  assert (Hpr1 : present w1) by (intros j q; rewrite Hp1; apply (links_present w Hl)).
  set (w2 := match GetPlayer (ms_guid s1) w1 with Some _ => set_member_sub_group gp (ms_guid s1) (ms_group s2) w1 | None => w1 end).
  assert (Hc2 : core w2 = cp (ms_guid s1) (pv_set_sub (ms_group s2)) (core w1)).
  { apply core_sub_of; [intros q; rewrite Hp1; by apply Hgr|done|lia|done]. }
  assert (Hp2 : w_players w2 !! ms_guid s2 = w_players w1 !! ms_guid s2 /\ present w2).
  { split.
    - unfold w2. destruct (GetPlayer _ w1); [|done]. unfold set_member_sub_group, set_sub_group. destruct (w_players w1 !! ms_guid s1); [|done].
      unfold upd_player, set_players. cbn. by rewrite lookup_alter_ne.
    - intros j q Hq. apply core_player in Hq. rewrite Hc2, cp_lookup in Hq.
      assert (Hv : exists v, c_players (core w1) !! j = Some v /\ (pview q = v \/ pview q = pv_set_sub (ms_group s2) v)).
      { case_decide as Hd; [|by eauto]. subst j. apply fmap_Some in Hq as (v & Hv & ->). eauto. }
      destruct Hv as (v & Hv & Hqv). apply player_core in Hv as (q1 & Hq1 & <-). pose proof (Hpr1 j q1 Hq1) as (? & ? & ? & ?).
      destruct Hqv as [Hqv|Hqv]; apply (f_equal pv_guid) in Hqv as F1; apply (f_equal pv_inWorld) in Hqv as F2;
        apply (f_equal pv_orig) in Hqv as F3; cbn in *; repeat split; congruence. }
  destruct Hp2 as [Hp2 Hpr2]. set (w3 := match GetPlayer (ms_guid s2) w2 with Some _ => _ | None => w2 end).
  assert (Hc3 : core w3 = c_place gp (ms_guid s1) (ms_group s2) (c_place gp (ms_guid s2) (ms_group s1) (core w))).
  { transitivity (cp (ms_guid s2) (pv_set_sub (ms_group s1)) (core w2)).
    - apply core_sub_of; [intros q; rewrite Hp2, Hp1; by apply Hgr|done|lia|done].
    - rewrite Hc2, Hc1. unfold c_place. rewrite !cp_cg. by rewrite (cp_comm (ms_guid s2)) by congruence. }
  assert (live gp w3).
  { apply live_core. rewrite Hc3. unfold c_place. rewrite cp_cg. cbn [cp c_groups]. rewrite cg_lookup, decide_True by done. cbn [cp c_groups].
    rewrite cg_lookup, decide_True, (core_group gp g w Hg) by done. done. }
  assert (Hq : quiet w3 (SendUpdate gp w3)) by quiet. rewrite (quiet_core _ _ Hq), Hc3.
  apply (sound_swap gp (gview g)); [done|by apply core_group|done|done|done|done].
Qed.
End Raids.
