(* ===== verification/GroupSessions.v ===== *)
(** * GroupSessions: logins and logouts, from a sound state to a sound state *)
From S2P Require Import Prelude ByteBuffer ObjectGuid GroupData GroupPackets GroupLoot MeetingStone Group GroupHandlers GroupCore GroupRolls GroupKept GroupSound GroupSlots GroupSteps GroupEnds GroupOps GroupMoves GroupDisband GroupEffects GroupInvites.

Implicit Types (c : Core).

(** ** On the core *)

Definition with_mgr (o : option Z) (f : GView -> GView) c : Core := match o with Some gp => cg gp f c | None => c end.
Definition c_login (k : ObjectGuid) (o : option Z) (sub : Z) c : Core :=
  let c := with_mgr o (fun g => gv_set_mgr ((k, false) :: gv_mgr g) g) c in
  mkCore (<[k := mkPV k true o sub None None]> (c_players c)) (c_groups c) (c_next c) (c_map c) (c_ids c) (c_ub c).
Definition c_logout (k : ObjectGuid) (o : option Z) c : Core :=
  let c := with_mgr o (gv_filter_mgr k) c in
  mkCore (delete k (c_players c)) (c_groups c) (c_next c) (c_map c) (c_ids c) (c_ub c).

(** A step that changes only the references a group keeps. *)
Definition same_but_mgr (c c' : Core) : Prop :=
  forall gp, (fun g => gv_set_mgr [] g) <$> c_groups c' !! gp = (fun g => gv_set_mgr [] g) <$> c_groups c !! gp.

Lemma with_mgr_same o f c : (forall g, gv_set_mgr [] (f g) = gv_set_mgr [] g) -> same_but_mgr c (with_mgr o f c).
Proof.
  intros Hf gp. destruct o as [gp0|]; [|done]. cbn. destruct (decide (gp = gp0)) as [->|Hn]; [|by rewrite lookup_alter_ne].
  rewrite lookup_alter_eq. destruct (c_groups c !! gp0); cbn; [by rewrite Hf|done].
Qed.
Lemma same_mgr_group c c' gp g' :
  same_but_mgr c c' -> c_groups c' !! gp = Some g' -> exists g, c_groups c !! gp = Some g /\ gv_set_mgr [] g' = gv_set_mgr [] g.
Proof.
  intros Hs Hg. specialize (Hs gp). rewrite Hg in Hs. cbn in Hs. symmetry in Hs. apply fmap_Some in Hs as (g & Hg0 & He). eauto.
Qed.
Lemma set_mgr_eq g g' : gv_set_mgr [] g' = gv_set_mgr [] g ->
  gv_id g' = gv_id g /\ gv_slots g' = gv_slots g /\ gv_inv g' = gv_inv g /\ gv_leader g' = gv_leader g /\ gv_raid g' = gv_raid g
  /\ gv_bg g' = gv_bg g /\ gv_counts g' = gv_counts g.
Proof. unfold gv_set_mgr. by intros [= ]. Qed.
Lemma same_mgr_sym c c' : same_but_mgr c c' -> same_but_mgr c' c.
Proof. by intros Hs gp. Qed.
Lemma same_mgr_member c c' k gp : same_but_mgr c c' -> member_of k gp c' <-> member_of k gp c.
Proof.
  intros Hs. unfold member_of. split.
  - intros (g' & Hg & Hk). destruct (same_mgr_group c c' gp g' Hs Hg) as (g & Hg0 & He). exists g. apply set_mgr_eq in He as (_ & <- & _). done.
  - intros (g' & Hg & Hk). destruct (same_mgr_group c' c gp g' (same_mgr_sym _ _ Hs) Hg) as (g & Hg0 & He). exists g. apply set_mgr_eq in He as (_ & <- & _). done.
Qed.

Section Login.
Context (c : Core) (k : ObjectGuid) (o : option Z) (sub : Z).
Context (Hs : sound c) (Hk : k <> 0) (Hnew : c_players c !! k = None).
Context (Ho : forall gp, o = Some gp <-> member_of k gp c).
Context (Hsub : forall gp g s, o = Some gp -> c_groups c !! gp = Some g -> slot_of k (gv_slots g) = Some s -> ms_group s = sub).
Local Notation c' := (c_login k o sub c).

Lemma login_same : same_but_mgr c c'.
Proof. exact (with_mgr_same o (fun g => gv_set_mgr ((k, false) :: gv_mgr g) g) c (fun g => eq_refl)). Qed.
Lemma login_player j q : c_players c' !! j = Some q <-> (j = k /\ q = mkPV k true o sub None None) \/ (j <> k /\ c_players c !! j = Some q).
Proof.
  assert (Hp : c_players c' = <[k := mkPV k true o sub None None]> (c_players c)) by (by destruct o).
  rewrite Hp, lookup_insert_Some. naive_solver.
Qed.
Lemma login_mgr gp g' : c_groups c' !! gp = Some g' -> exists g, c_groups c !! gp = Some g
  /\ gv_mgr g' = if decide (o = Some gp) then (k, false) :: gv_mgr g else gv_mgr g.
Proof.
  unfold c_login. destruct o as [gp0|]; cbn; [|eauto]. destruct (decide (gp = gp0)) as [->|Hn].
  - rewrite lookup_alter_eq, fmap_Some. intros (g & Hg & ->). exists g. by rewrite decide_True.
  - rewrite lookup_alter_ne by done. intros Hg. exists g'. by rewrite decide_False by congruence.
Qed.

Lemma wf_login : wf c'.
Proof.
  pose proof (sound_wf _ Hs) as [Hl Hok]. pose proof login_same as Hsm.
  assert (Hrest : c_next c' = c_next c /\ c_map c' = c_map c /\ c_ids c' = c_ids c /\ c_ub c' = c_ub c) by by destruct o.
  destruct Hrest as (En & Em & Ei & Eu).
  assert (Hnok : forall gp g, c_groups c !! gp = Some g -> forall b, (k, b) ∉ gv_mgr g).
  { intros gp g Hg b Hin. apply (wf_mgr c Hl gp g k b Hg) in Hin as [_ (p & Hp & _)]. congruence. }
  split; [constructor|].
  - rewrite Eu. apply (wf_ub c Hl).
  - intros j q [[-> ->]|[_ Hq]]%login_player; [done|by apply (wf_player c Hl)].
  - intros gp g' Hg'. destruct (login_mgr gp g' Hg') as (g & Hg & Hm). destruct (same_mgr_group _ _ _ _ Hsm Hg') as (g0 & Hg0 & He).
    assert (g0 = g) as -> by congruence. apply set_mgr_eq in He as (_ & _ & _ & _ & _ & Hb & _).
    destruct (wf_group c Hl gp g Hg) as (? & ? & ?). rewrite En, Hb, Hm. split; [done|]. split; [done|]. case_decide; [|done].
    constructor; [by apply (Hnok gp)|done].
  - intros gp g' j b Hg'. destruct (login_mgr gp g' Hg') as (g & Hg & ->). setoid_rewrite login_player.
    pose proof (wf_mgr c Hl gp g j b Hg) as Hiff. destruct (decide (j = k)) as [->|Hj].
    + split.
      * case_decide as Hd; [|by intros ?%(Hnok gp g Hg)]. intros [[= ->]|Hin]%elem_of_cons; [|by apply (Hnok gp g Hg) in Hin].
        split; [done|]. eexists. split; [by left|done].
      * intros [-> (q & [[_ ->]|[? _]] & Hgr)]; [|done]. cbn in Hgr. rewrite decide_True by done. by left.
    + transitivity ((j, b) ∈ gv_mgr g).
      * case_decide; [|done]. rewrite elem_of_cons. split; [|by right]. intros [[= -> _]|?]; done.
      * rewrite Hiff. split; intros [-> (q & Hq & Hgr)]; (split; [done|]); exists q; [split; [by right|done]|].
        destruct Hq as [[? _]|[_ Hq]]; done.
  - intros j q gp [[-> ->]|[Hj Hq]]%login_player; rewrite (same_mgr_member _ _ _ _ Hsm); [cbn; by apply Ho|by apply (wf_link c Hl)].
  - intros j q gp g' s Hq Hg' Hsl. destruct (same_mgr_group _ _ _ _ Hsm Hg') as (g & Hg & He). apply set_mgr_eq in He as (_ & He & _).
    rewrite He in Hsl. apply login_player in Hq as [[-> ->]|[Hj Hq]]; [|by apply (wf_sub c Hl j q gp g)]. cbn. apply (Hsub gp g s); [|done|done].
    apply Ho. exists g. split; [done|]. apply slot_of_Some in Hsl as [? <-]. by apply list_elem_of_fmap_2.
  - intros j gp1 gp2. rewrite !(same_mgr_member _ _ _ _ Hsm). apply (wf_one c Hl).
  - intros gp g' j Hg'. destruct (same_mgr_group _ _ _ _ Hsm Hg') as (g & Hg & He). apply set_mgr_eq in He as (_ & _ & -> & _).
    rewrite (wf_inv c Hl gp g j Hg). setoid_rewrite login_player. split; intros (q & Hq & E).
    + exists q. split; [right; split; [congruence|done]|done].
    + destruct Hq as [[-> ->]|[_ Hq]]; [done|eauto].
  - intros j q gp [[-> ->]|[Hj Hq]]%login_player E; [done|]. destruct (wf_invite c Hl j q gp Hq E) as [[g Hg] ?]. split; [|done].
    destruct (same_mgr_group _ _ _ _ (same_mgr_sym _ _ Hsm) Hg) as (g' & Hg' & _). by eexists.
  - intros id gp. rewrite Em, Ei. intros Hm. destruct (wf_map c Hl id gp Hm) as [? (g & Hg & <-)]. split; [done|].
    destruct (same_mgr_group _ _ _ _ (same_mgr_sym _ _ Hsm) Hg) as (g' & Hg' & He). exists g'. split; [done|].
    apply set_mgr_eq in He as (He & _). congruence.
  - intros gp g' Hg'. destruct (same_mgr_group _ _ _ _ Hsm Hg') as (g & Hg & He). apply set_mgr_eq in He as (_ & -> & _ & _ & -> & _ & ->).
    exact (Hok gp g Hg).
Qed.

Lemma sound_login : sound c'.
Proof.
  split; [apply wf_login|]. intros gp g' Hg'. destruct (same_mgr_group _ _ _ _ login_same Hg') as (g & Hg & He).
  apply set_mgr_eq in He as (E1 & E2 & _ & E4 & E5 & _). destruct (sound_group _ Hs gp g Hg) as [Hc Hf].
  assert (Em : c_map c' = c_map c) by by destruct o. constructor; rewrite ?E1, ?E2, ?E4, ?E5, ?Em; [done|].
  intros Hn. destruct (Hf Hn) as (? & ? & p & Hp & Hi). split; [done|]. split; [done|]. exists p. split; [|done].
  apply login_player. right. split; [congruence|done].
Qed.
End Login.

Section Logout.
Context (c : Core) (k : ObjectGuid) (p : PView) (Hs : sound c) (Hp : c_players c !! k = Some p) (Hi : pv_invite p = None).
Local Notation c' := (c_logout k (pv_group p) c).

Lemma logout_same : same_but_mgr c c'.
Proof. exact (with_mgr_same (pv_group p) (gv_filter_mgr k) c (fun g => eq_refl)). Qed.
Lemma logout_player j q : c_players c' !! j = Some q <-> j <> k /\ c_players c !! j = Some q.
Proof.
  assert (Hd : c_players c' = delete k (c_players c)) by (unfold c_logout; by destruct (pv_group p)).
  rewrite Hd, lookup_delete_Some. naive_solver.
Qed.
Lemma logout_mgr gp g' r : c_groups c' !! gp = Some g' -> exists g, c_groups c !! gp = Some g /\ (r ∈ gv_mgr g' <-> r ∈ gv_mgr g /\ r.1 <> k)
  /\ (NoDup (gv_mgr g) -> NoDup (gv_mgr g')).
Proof.
  pose proof (sound_wf _ Hs) as [Hl _]. intros Hg'. destruct (same_mgr_group _ _ _ _ logout_same Hg') as (g & Hg & _). exists g. split; [done|].
  pose proof (fun b => wf_mgr c Hl gp g k b Hg) as Hm. unfold c_logout in Hg'. destruct (decide (pv_group p = Some gp)) as [Hgr|Hgr].
  - rewrite Hgr in Hg'. cbn in Hg'. rewrite lookup_alter_eq, Hg in Hg'. injection Hg' as <-. cbn. split; [|by apply NoDup_filter].
    rewrite list_elem_of_filter. destruct r as [j b]. cbn. split; [|intros [? ?]; split; [congruence|done]].
    intros [Hn Hin]. split; [done|]. intros ->. apply Hm in Hin as Hb. destruct Hb as [-> _]. done.
  - assert (g' = g) as ->.
    { destruct (pv_group p) as [gp0|]; cbn in Hg'; [rewrite lookup_alter_ne in Hg' by congruence|]; congruence. }
    split; [|done]. destruct r as [j b]. cbn. split; [|by intros [? _]]. intros Hin. split; [done|]. intros ->.
    apply Hm in Hin as [_ (q & Hq & ?)]. congruence.
Qed.

Lemma wf_logout : wf c'.
Proof.
  pose proof (sound_wf _ Hs) as [Hl Hok]. pose proof logout_same as Hsm.
  assert (Hrest : c_next c' = c_next c /\ c_map c' = c_map c /\ c_ids c' = c_ids c /\ c_ub c' = c_ub c) by (unfold c_logout; by destruct (pv_group p)).
  destruct Hrest as (En & Em & Ei & Eu). split; [constructor|].
  - rewrite Eu. apply (wf_ub c Hl).
  - intros j q [_ Hq]%logout_player. by apply (wf_player c Hl).
  - intros gp g' Hg'. destruct (logout_mgr gp g' (k, false) Hg') as (g & Hg & _ & Hnd). destruct (same_mgr_group _ _ _ _ Hsm Hg') as (g0 & Hg0 & He).
    assert (g0 = g) as -> by congruence. apply set_mgr_eq in He as (_ & _ & _ & _ & _ & Hb & _).
    destruct (wf_group c Hl gp g Hg) as (? & ? & ?). rewrite En, Hb. split; [done|]. split; [done|]. by apply Hnd.
  - intros gp g' j b Hg'. destruct (logout_mgr gp g' (j, b) Hg') as (g & Hg & Hm & _). rewrite Hm, (wf_mgr c Hl gp g j b Hg).
    setoid_rewrite logout_player. cbn. naive_solver.
  - intros j q gp [Hj Hq]%logout_player. rewrite (same_mgr_member _ _ _ _ Hsm). by apply (wf_link c Hl).
  - intros j q gp g' s [_ Hq]%logout_player Hg' Hsl. destruct (same_mgr_group _ _ _ _ Hsm Hg') as (g & Hg & He). apply set_mgr_eq in He as (_ & He & _).
    rewrite He in Hsl. by apply (wf_sub c Hl j q gp g).
  - intros j gp1 gp2. rewrite !(same_mgr_member _ _ _ _ Hsm). apply (wf_one c Hl).
  - intros gp g' j Hg'. destruct (same_mgr_group _ _ _ _ Hsm Hg') as (g & Hg & He). apply set_mgr_eq in He as (_ & _ & -> & _).
    rewrite (wf_inv c Hl gp g j Hg). setoid_rewrite logout_player. split; intros (q & Hq & E); [|naive_solver].
    exists q. split; [|done]. split; [|done]. intros ->. congruence.
  - intros j q gp [_ Hq]%logout_player E. destruct (wf_invite c Hl j q gp Hq E) as [[g Hg] ?]. split; [|done].
    destruct (same_mgr_group _ _ _ _ (same_mgr_sym _ _ Hsm) Hg) as (g' & Hg' & _). by eexists.
  - intros id gp. rewrite Em, Ei. intros Hm. destruct (wf_map c Hl id gp Hm) as [? (g & Hg & <-)]. split; [done|].
    destruct (same_mgr_group _ _ _ _ (same_mgr_sym _ _ Hsm) Hg) as (g' & Hg' & He). exists g'. split; [done|].
    apply set_mgr_eq in He as (He & _). congruence.
  - intros gp g' Hg'. destruct (same_mgr_group _ _ _ _ Hsm Hg') as (g & Hg & He). apply set_mgr_eq in He as (_ & -> & _ & _ & -> & _ & ->).
    exact (Hok gp g Hg).
Qed.

Lemma sound_logout : sound c'.
Proof.
  split; [apply wf_logout|]. intros gp g' Hg'. destruct (same_mgr_group _ _ _ _ logout_same Hg') as (g & Hg & He).
  apply set_mgr_eq in He as (E1 & E2 & _ & E4 & E5 & _). destruct (sound_group _ Hs gp g Hg) as [Hc Hf].
  assert (Em : c_map c' = c_map c) by (unfold c_logout; by destruct (pv_group p)).
  constructor; rewrite ?E1, ?E2, ?E4, ?E5, ?Em; [done|].
  intros Hn. destruct (Hf Hn) as (? & ? & q & Hq & Hqi). split; [done|]. split; [done|]. exists q. split; [|done].
  apply logout_player. split; [|done]. intros He. rewrite He in Hq. congruence.
Qed.
End Logout.

(** ** In the world *)

Section Sessions.
Context `{HashIter}.
Context (E : Env).
Implicit Types (w : World).

(** The group the row of [group_member] leads to. *)
Definition row_group (row : option Z) (w : World) : option Z := match row with Some id => m_GroupMap w !! id | None => None end.
(** The table agrees with the groups. *)
Definition row_agrees (k : ObjectGuid) (row : option Z) (w : World) : Prop :=
  forall gp, row_group row w = Some gp <-> member_of k gp (core w).

Lemma core_LoadGroup k row p w :
  w_players w !! k = Some p -> GetGroup p = None ->
  (forall gp, row_group row w = Some gp -> exists g, w_groups w !! gp = Some g /\ 0 <= GetMemberGroup k g < 128) ->
  core (LoadGroup k row w)
  = match row_group row w with
    | Some gp => cp k (pv_set_group (Some gp) (match w_groups w !! gp with Some g => GetMemberGroup k g | None => 0 end))
                   (cg gp (fun g => gv_set_mgr ((k, false) :: gv_mgr g) g) (core w))
    | None => core w
    end.
Proof.
  intros Hp Hno Hrow. unfold LoadGroup. cbn zeta. set (w1 := match row with Some _ => _ | None => w end).
  assert (Hc1 : core w1 = match row_group row w with
    | Some gp => cp k (pv_set_group (Some gp) (match w_groups w !! gp with Some g => GetMemberGroup k g | None => 0 end))
                   (cg gp (fun g => gv_set_mgr ((k, false) :: gv_mgr g) g) (core w))
    | None => core w end).
  { unfold w1. unfold row_group in *. destruct row as [id|]; [|done]. unfold GetGroupById. destruct (m_GroupMap w !! id) as [gp|]; [|done].
    destruct (Hrow gp eq_refl) as (g & Hg & Hr). unfold deref. rewrite Hg. apply (core_SetGroup k p gp _ w); [done|done|by exists g|done]. }
  rewrite <- Hc1. apply quiet_core, q_UpdateGroupLeaderFlag; [|done]. apply online_core. rewrite Hc1. destruct (row_group row w).
  - rewrite cp_lookup, decide_True by done. cbn [cg c_players]. by rewrite (core_player k p w Hp).
  - by rewrite (core_player k p w Hp).
Qed.

Lemma sound_Login k info row w :
  sound (core w) -> k <> 0 -> w_players w !! k = None -> row_agrees k row w -> sound (core (Login E k info row w)).
Proof.
  intros Hs Hk Hnew Hrow. unfold Login. cbn zeta. set (p0 := mkPlayer k true info [] (mkRef None 0) (mkRef None 0) None false 0 0).
  set (w1 := set_players _ w). pose proof (sound_wf _ Hs) as [Hl Hok].
  assert (Hmem : forall gp, row_group row w = Some gp -> exists g s, w_groups w !! gp = Some g /\ slot_of k (m_memberSlots g) = Some s /\ 0 <= ms_group s < 128).
  { intros gp Hgp. apply Hrow in Hgp as (v & Hv & Hin). apply group_core in Hv as (g & Hg & <-). destruct (slot_of_elem k _ Hin) as [s Hsl].
    exists g, s. split; [done|]. split; [done|]. pose proof (slot_of_Some _ _ _ Hsl) as [Hins _]. pose proof (so_subgroups _ _ _ (sound_sizes w Hs gp g Hg)) as Hsub.
    destruct (isRaidGroup g).
    - pose proof (rs_range _ _ Hsub) as Hf. rewrite Forall_forall in Hf. specialize (Hf s Hins). change MAX_RAID_SUBGROUPS with 8 in Hf. lia.
    - pose proof (ps_group _ _ Hsub) as Hf. rewrite Forall_forall in Hf. rewrite (Hf s Hins). lia. }
  set (sub := match row_group row w with Some gp => match w_groups w !! gp with Some g => GetMemberGroup k g | None => 0 end | None => 0 end).
  assert (Hc1 : core w1 = mkCore (<[k := pview p0]> (c_players (core w))) (c_groups (core w)) (c_next (core w)) (c_map (core w)) (c_ids (core w)) (c_ub (core w))).
  { unfold core, w1, set_players. cbn. f_equal. apply fmap_insert. }
  assert (Hc2 : core (LoadGroup k row w1) = c_login k (row_group row w) sub (core w)).
  { rewrite (core_LoadGroup k row p0 w1); [|apply lookup_insert_eq|done|].
    - change (row_group row w1) with (row_group row w). unfold sub. destruct (row_group row w) as [gp|].
      + change (w_groups w1) with (w_groups w). rewrite Hc1. unfold cp, cg, c_login, with_mgr, cg. cbn. f_equal. apply map_eq. intros j.
        destruct (decide (j = k)) as [->|Hj]; [by rewrite lookup_alter_eq, !lookup_insert_eq|by rewrite lookup_alter_ne, !lookup_insert_ne].
      + rewrite Hc1. done.
    - intros gp Hgp. destruct (Hmem gp Hgp) as (g & s & Hg & Hsl & Hr). exists g. split; [done|]. unfold GetMemberGroup. by rewrite is_getMemberSlot, Hsl. }
  assert (Hs2 : sound (core (LoadGroup k row w1))).
  { rewrite Hc2. apply sound_login; [done|done|unfold core; cbn; by rewrite lookup_fmap, Hnew|exact Hrow|].
    intros gp v s Hgp Hv Hsl. unfold sub. rewrite Hgp. apply group_core in Hv as (g & Hg & <-). rewrite Hg. unfold GetMemberGroup.
    cbn in Hsl. by rewrite is_getMemberSlot, Hsl. }
  set (w2 := LoadGroup k row w1) in *. unfold with_player.
  assert (Hp2 : is_Some (w_players w2 !! k)).
  { apply (online_core k). rewrite Hc2. unfold c_login. destruct (row_group row w); cbn; by rewrite lookup_insert_eq. }
  destruct Hp2 as [p2 Hp2]. rewrite Hp2. destruct (GetGroup p2) as [gp|] eqn:Hgr; [|done].
  pose proof (links_links_live w2 (sound_links w2 Hs2) k p2 gp Hp2 Hgr) as Hlv. assert (online k w2) by by exists p2.
  assert (Hq : quiet w2 (UpdatePlayerOnlineStatus E gp k true w2)) by quiet. by rewrite (quiet_core _ _ Hq).
Qed.

(** *** The members a character who logs out takes along *)

Lemma machine_driven_sublist k w g : machine_driven E k w g `sublist_of` guids (m_memberSlots g) /\ k ∉ machine_driven E k w g.
Proof.
  unfold machine_driven, guids. induction (m_memberSlots g) as [|s l [IH1 IH2]]; [split; [done|apply not_elem_of_nil]|]. cbn.
  destruct (Z.eqb_spec (ms_guid s) k); [split; [by apply sublist_cons|done]|].
  destruct (GetPlayer (ms_guid s) w) as [p|]; [destruct (IsMachineDriven E p)|].
  all: try (split; [by apply sublist_cons|done]). all: split; [by apply sublist_skip|apply not_elem_of_cons; by split].
Qed.

(** While members are evicted. *)
Record evicting (k : ObjectGuid) (l : list ObjectGuid) (w : World) : Prop := {
  ev_sound : sound (core w);
  ev_rolls : rolls_ok w;
  ev_player : exists p, w_players w !! k = Some p /\ m_groupInvite p = None;
  ev_members : forall p gp j, w_players w !! k = Some p -> GetGroup p = Some gp -> j ∈ l -> member_of j gp (core w)
}.

Lemma evict_step k j l w : evicting k (j :: l) w -> j ∉ l -> evicting k l (evict E k w j).
Proof.
  intros [Hs Hr (p & Hp & Hi) Hm] Hj. unfold evict, with_player. rewrite Hp. destruct (GetGroup p) as [gp|] eqn:Hgr.
  2:{ constructor; [done|done|eauto|]. intros q gp j' Hq Hqg. congruence. }
  destruct (Hm p gp j Hp Hgr ltac:(by left)) as (v & Hv & Hin). apply group_core in Hv as (g & Hg & <-).
  pose proof (core_RemoveFromGroup E gp j g w Hs Hr Hg Hin) as [Hs' _].
  destruct (RemoveFromGroup_others E gp j g w Hs Hr Hg Hin) as (Hon & Hsub & Hor).
  assert (Hr' : rolls_ok (RemoveFromGroup E gp j w)) by (apply (kept_ok w); [kept|done]).
  destruct (proj2 (Hon k) ltac:(by exists p)) as [p' Hp'].
  destruct (RemoveFromGroup_invite E gp j g w k p' Hs Hr Hg Hin Hp') as (p0 & Hp0 & Hi'). assert (p0 = p) as -> by congruence.
  constructor; [done|done|by exists p'; auto|]. intros q gp' j' Hq Hqg Hj'. assert (q = p') as -> by congruence.
  apply core_player in Hq as Hqv. pose proof (proj1 (wf_link _ (proj1 (sound_wf _ Hs')) k _ gp' Hqv) Hqg) as Hk'.
  assert (gp' = gp) as ->.
  { apply Hsub in Hk'. apply (wf_one _ (sound_links w Hs) k); [done|]. apply (wf_link _ (sound_links w Hs) k _ gp (core_player k p w Hp)). done. }
  destruct Hor as [Hnone|Hor]; [by apply Hnone in Hk'|]. apply Hor; [intros ->; done|].
  apply (Hm p gp j' Hp Hgr). by right.
Qed.
Lemma evict_all k l w : evicting k l w -> NoDup l -> evicting k [] (foldl (evict E k) w l).
Proof.
  revert w. induction l as [|j l IH]; intros w He Hnd; [done|]. apply NoDup_cons in Hnd as [Hj Hnd]. cbn [foldl].
  apply IH; [by apply evict_step|done].
Qed.

Lemma core_unlink_orig k p w : w_players w !! k = Some p -> GetOriginalGroup p = None -> core (unlink true k w) = core w.
Proof.
  intros Hp Ho. unfold unlink. rewrite Hp. cbn zeta. change (gr_target (get_ref true p)) with (GetOriginalGroup p). rewrite Ho.
  rewrite (core_upd_player_at k _ (fun _ => pview p) p); [|done|unfold pview; cbn; by rewrite Ho].
  apply (cp_id k _ _ (pview p)); [by apply core_player|done].
Qed.

Lemma core_end_of_session k p w :
  sound (core w) -> w_players w !! k = Some p ->
  let w1 := unlink true k (unlink false k w) in
  core (set_players (delete k (w_players w1)) w1) = c_logout k (GetGroup p) (core w).
Proof.
  intros Hs Hp w1. pose proof (core_unlink k p w Hp) as Hc. set (w0 := unlink false k w) in *.
  assert (Hp0 : exists p0, w_players w0 !! k = Some p0 /\ GetOriginalGroup p0 = None).
  { destruct (links_player w (sound_links w Hs) k p Hp) as (_ & _ & _ & Ho).
    assert (Hx : c_players (core w0) !! k = Some (pv_leave (pview p))).
    { rewrite Hc, cp_lookup, decide_True by done. destruct (GetGroup p); cbn [cg c_players]; by rewrite (core_player k p w Hp). }
    apply player_core in Hx as (p0 & Hp0 & Hv). exists p0. split; [done|]. apply (f_equal pv_orig) in Hv. cbn in Hv. congruence. }
  destruct Hp0 as (p0 & Hp0 & Ho). pose proof (core_unlink_orig k p0 w0 Hp0 Ho : core w1 = core w0) as Hc1.
  assert (Hd : core (set_players (delete k (w_players w1)) w1)
    = mkCore (delete k (c_players (core w1))) (c_groups (core w1)) (c_next (core w1)) (c_map (core w1)) (c_ids (core w1)) (c_ub (core w1))).
  { unfold core, set_players. cbn. f_equal. apply fmap_delete. }
  rewrite Hd, Hc1, Hc. unfold c_logout, with_mgr, cp. cbn. destruct (GetGroup p); cbn; f_equal; apply delete_alter_eq.
Qed.

Lemma sound_LogoutPlayer k socket p w :
  sound (core w) -> rolls_ok w -> w_players w !! k = Some p -> sound (core (LogoutPlayer E k socket w)).
Proof.
  intros Hs Hr Hp. unfold LogoutPlayer. cbn zeta. destruct (core_UninviteFromGroup E k p w Hs Hp) as [Hs1 _].
  destruct (uninvited E k p w Hs Hp) as (p1 & Hp1 & Hi1).
  assert (Hr1 : rolls_ok (UninviteFromGroup E k w)) by (apply (kept_ok w); [kept|done]).
  set (w1 := UninviteFromGroup E k w) in *. set (w2 := with_player k w1 _).
  assert (He2 : evicting k [] w2).
  { unfold w2, with_player. rewrite Hp1. assert (He1 : evicting k [] w1).
    { constructor; [done|done|eauto|]. intros q gp j _ _ Hj. by apply elem_of_nil in Hj. }
    destruct (GetGroup p1) as [gp|] eqn:Hgr; [|done]. destruct (sound_group_of w1 Hs1 k p1 gp Hp1 Hgr) as (g & s & Hg & Hsl & Hne).
    unfold deref. rewrite Hg. destruct (negb (isRaidGroup g) && socket); [|done].
    assert (Hk : k ∈ guids (m_memberSlots g)) by (apply slot_of_Some in Hsl as [? <-]; by apply list_elem_of_fmap_2).
    destruct (machine_driven_sublist k w1 g) as [Hsub Hnk]. pose proof (so_nodup _ _ _ (sound_sizes w1 Hs1 gp g Hg)) as Hnd.
    assert (Hx : evict E k (foldl (evict E k) w1 (machine_driven E k w1 g)) k = foldl (evict E k) w1 (machine_driven E k w1 g ++ [k])) by by rewrite foldl_app.
    rewrite Hx. apply evict_all.
    - constructor; [done|done|eauto|]. intros q gp' j Hq Hqg Hj. assert (q = p1) as -> by congruence. assert (gp' = gp) as -> by congruence.
      exists (gview g). split; [by apply core_group|]. cbn. apply elem_of_app in Hj as [Hj|Hj%list_elem_of_singleton]; [|by subst].
      eapply elem_of_sublist; [exact Hj|done].
    - apply NoDup_app. split; [by eapply sublist_NoDup|]. split; [|apply NoDup_singleton]. intros j Hj ->%list_elem_of_singleton. done. }
  destruct He2 as [Hs2 Hr2 (p2 & Hp2 & Hi2) _]. clearbody w2. set (w3 := with_player k w2 _).
  assert (Hq3 : quiet w2 w3).
  { unfold w3, with_player. rewrite Hp2. destruct (GetGroup p2) as [gp|] eqn:Hgr; [|done].
    pose proof (links_links_live w2 (sound_links w2 Hs2) k p2 gp Hp2 Hgr). assert (online k w2) by by exists p2. quiet. }
  destruct (core_player_eq k p2 w2 w3 (quiet_core _ _ Hq3) Hp2) as (p3 & Hp3 & Hv3).
  assert (Hs3 : sound (core w3)) by by rewrite (quiet_core _ _ Hq3).
  rewrite (core_end_of_session k p3 w3 Hs3 Hp3).
  apply (sound_logout (core w3) k (pview p3) Hs3 (core_player k p3 w3 Hp3)). apply (f_equal pv_invite) in Hv3. cbn in *. congruence.
Qed.
End Sessions.
