(* ===== verification/GroupReach.v ===== *)
(** * GroupReach: what holds of groups in every reachable state

    The events that reach groups, rolls and the queue: packets, logins and
    logouts, the timers of the world and the loot of creatures. [allowed] says
    when an event can happen; from the empty server on, every state is sound. *)
From S2P Require Import Prelude ByteBuffer ObjectGuid GroupData GroupPackets GroupLoot MeetingStone Group GroupHandlers GroupCore GroupRolls GroupKept GroupSound GroupSlots GroupSteps GroupEnds GroupOps GroupMoves GroupDisband GroupEffects GroupInvites GroupSafety GroupRaids GroupSessions.

(** ** Events *)

Inductive Packet :=
  | GroupInvite (membername : list Z)
  | GroupAccept
  | GroupDecline
  | GroupUninviteGuid (guid : ObjectGuid)
  | GroupUninvite (membername : list Z)
  | GroupSetLeader (guid : ObjectGuid)
  | GroupDisband
  | LootMethod (lootMethod : Z) (lootMaster : ObjectGuid) (lootThreshold : Z)
  | LootRoll (lootedTarget : ObjectGuid) (slot rollType : Z)
  | MinimapPing (x y : Z)
  | RandomRoll (minimum maximum : Z)
  | RaidTargetUpdate (x : Z) (guid : ObjectGuid)
  | GroupRaidConvert
  | GroupChangeSubGroup (name : list Z) (groupNr : Z)
  | GroupSwapSubGroup (name nameSwapWith : list Z)
  | GroupAssistantLeader (guid : ObjectGuid) (flag : Z)
  | RaidReadyCheck (answer : option Z)
  | MeetingStoneJoin (guid : ObjectGuid)
  | MeetingStoneLeave
  | MeetingStoneInfo.

Inductive Event :=
  | EPacket (k : ObjectGuid) (m : Packet)
  | ELogin (k : ObjectGuid) (info : PlayerInfo) (row : option Z)
  | ELogout (k : ObjectGuid) (socket : bool)
  | EHardcore (k : ObjectGuid)
  | EOfflineLeaders (time delay : Z)
  | ENewLoot (lp : Z) (l : Loot)
  | EClearLoot (lp : Z)
  | EGroupLoot (gp : Z) (creature : ObjectGuid) (method lp : Z)
  | EMasterLoot (gp : Z) (creature : ObjectGuid) (lp : Z) (player : ObjectGuid)
  | EStopGroupLoot (groupLootId lp : Z)
  | EUpdateLooter (gp : Z) (object : ObjectGuid) (ifneed : bool).

Section Reach.
Context `{HashIter}.
Context (E : Env).
Implicit Types (w : World).

Definition handle (k : ObjectGuid) (m : Packet) (w : World) : World :=
  match m with
  | GroupInvite name => HandleGroupInviteOpcode E k name w
  | GroupAccept => HandleGroupAcceptOpcode E k w
  | GroupDecline => HandleGroupDeclineOpcode E k w
  | GroupUninviteGuid guid => HandleGroupUninviteGuidOpcode E k guid w
  | GroupUninvite name => HandleGroupUninviteOpcode E k name w
  | GroupSetLeader guid => HandleGroupSetLeaderOpcode E k guid w
  | GroupDisband => HandleGroupDisbandOpcode E k w
  | LootMethod method master threshold => HandleLootMethodOpcode k method master threshold w
  | LootRoll target slot rollType => HandleLootRoll E k target slot rollType w
  | MinimapPing x y => HandleMinimapPingOpcode k x y w
  | RandomRoll minimum maximum => HandleRandomRollOpcode E k minimum maximum w
  | RaidTargetUpdate x guid => HandleRaidTargetUpdateOpcode k x guid w
  | GroupRaidConvert => HandleGroupRaidConvertOpcode k w
  | GroupChangeSubGroup name n => HandleGroupChangeSubGroupOpcode E k name n w
  | GroupSwapSubGroup name name' => HandleGroupSwapSubGroupOpcode E k name name' w
  | GroupAssistantLeader guid flag => HandleGroupAssistantLeaderOpcode k guid flag w
  | RaidReadyCheck answer => HandleRaidReadyCheckOpcode k answer w
  | MeetingStoneJoin guid => HandleMeetingStoneJoinOpcode E k guid w
  | MeetingStoneLeave => HandleMeetingStoneLeaveOpcode k w
  | MeetingStoneInfo => HandleMeetingStoneInfoOpcode k w
  end.

Definition apply_event (e : Event) (w : World) : World :=
  match e with
  | EPacket k m => handle k m w
  | ELogin k info row => Login E k info row w
  | ELogout k socket => LogoutPlayer E k socket w
  | EHardcore k => leave_for_hardcore E k w
  | EOfflineLeaders time delay => UpdateOfflineLeaders E time delay w
  | ENewLoot lp l => set_loots (<[lp := l]> (w_loots w)) w
  | EClearLoot lp => clear_loot lp w
  | EGroupLoot gp creature method lp =>
      if method =? GROUP_LOOT then GroupLoot E gp creature lp w else NeedBeforeGreed E gp creature lp w
  | EMasterLoot gp creature lp player => MasterLoot E gp creature lp player w
  | EStopGroupLoot id lp => StopGroupLoot E id lp w
  | EUpdateLooter gp object ifneed => UpdateLooterGuid E gp object ifneed w
  end.

(** A subgroup is an [uint8]; identifiers are left. *)
Definition packet_ok (m : Packet) (w : World) : Prop :=
  match m with
  | GroupAccept => 0 <= m_GroupIds w /\ m_GroupIds w + 1 < 4294967296
  | GroupChangeSubGroup _ n => 0 <= n
  | _ => True
  end.

(** When an event can happen. A hardcore character leaves a group of more than
    two: the last two are not dissolved by that code. *)
Definition allowed (e : Event) (w : World) : Prop :=
  match e with
  | EPacket k m => online k w /\ packet_ok m w
  | ELogin k _ row => k <> 0 /\ w_players w !! k = None /\ row_agrees k row w
  | ELogout k _ => online k w
  | EHardcore k => exists p, w_players w !! k = Some p
      /\ forall gp g, GetGroup p = Some gp -> w_groups w !! gp = Some g -> (3 <= length (m_memberSlots g))%nat
  | EOfflineLeaders _ _ => True
  | ENewLoot lp _ => w_loots w !! lp = None
  | EClearLoot _ => True
  | EGroupLoot gp _ _ lp => live gp w /\ is_Some (w_loots w !! lp)
  | EMasterLoot gp _ lp _ => live gp w /\ is_Some (w_loots w !! lp)
  | EStopGroupLoot _ _ => True
  | EUpdateLooter gp _ _ => live gp w
  end.

Definition start : World := mkWorld ∅ ∅ 1 ∅ 1 ∅ ∅ ∅ ∅ 0 false [].

Inductive reachable : World -> Prop :=
  | reach_start : reachable start
  | reach_step e w : reachable w -> allowed e w -> reachable (apply_event e w).

(** ** Packets keep the groups sound *)

Definition good (w : World) : Prop := sound (core w) /\ rolls_ok w.

Lemma quiet_sound w w1 : sound (core w) -> quiet w w1 -> sound (core w1).
Proof. intros Hs [Hc _]. by rewrite Hc. Qed.

(** The group of the session's player. *)
Lemma sound_with_group k p w f :
  sound (core w) -> w_players w !! k = Some p ->
  (forall gp g, GetGroup p = Some gp -> w_groups w !! gp = Some g -> m_memberSlots g <> [] -> k ∈ guids (m_memberSlots g) -> sound (core (f gp g))) ->
  sound (core (with_group p w f)).
Proof.
  intros Hs Hp Hf. unfold with_group. destruct (GetGroup p) as [gp|] eqn:Hgr; [|done].
  destruct (sound_group_of w Hs k p gp Hp Hgr) as (g & s & Hg & Hsl & Hne). unfold deref. rewrite Hg.
  apply (Hf gp g eq_refl Hg Hne). apply slot_of_Some in Hsl as [? <-]. by apply list_elem_of_fmap_2.
Qed.

Lemma sound_Uninvite k p w : sound (core w) -> w_players w !! k = Some p -> sound (core (UninviteFromGroup E k w)).
Proof. intros Hs Hp. by apply (core_UninviteFromGroup E k p w). Qed.
Lemma sound_invitee_out gp g k w :
  sound (core w) -> w_groups w !! gp = Some g -> k ∈ m_invitees g -> sound (core (UninviteFromGroup E k w)).
Proof. intros Hs Hg Hk. apply (links_invitee w (sound_links w Hs) gp g k Hg) in Hk as (p & Hp & _). by apply (sound_Uninvite k p). Qed.

Lemma GetMemberGuid_in name g : GetMemberGuid name g <> 0 -> GetMemberGuid name g ∈ guids (m_memberSlots g).
Proof.
  unfold GetMemberGuid. destruct (List.find _ (m_memberSlots g)) as [s|] eqn:Ef; [|done]. intros _.
  apply find_some in Ef as [Hin _]. apply list_elem_of_fmap_2. by apply list_elem_of_In.
Qed.
Lemma GetInvited_name_in name g w k : GetInvited_name name g w = Some k -> k ∈ m_invitees g.
Proof.
  unfold GetInvited_name. rewrite fmap_Some. intros ([j []] & Hf & ->). apply find_some in Hf as [Hin _]. cbn.
  apply list_elem_of_In, elem_of_hash_iter in Hin. rewrite lookup_gset_to_gmap in Hin.
  destruct (decide (j ∈ m_invitees g)); [done|]. rewrite option_guard_False in Hin by done. done.
Qed.

Lemma sound_uninvites k p m w :
  sound (core w) -> rolls_ok w -> w_players w !! k = Some p ->
  (exists guid, m = GroupUninviteGuid guid) \/ (exists name, m = GroupUninvite name) -> sound (core (handle k m w)).
Proof.
  intros Hs Hr Hp [[guid ->]|[name ->]]; cbn [handle].
  - unfold HandleGroupUninviteGuidOpcode, with_player. rewrite Hp. destruct (guid =? k); [done|]. cbn zeta. destruct (negb _); [done|].
    apply (sound_with_group k p w); [done|done|]. intros gp g _ Hg Hne _. destruct (IsMember guid g) eqn:Hm.
    + apply (core_RemoveFromGroup E gp guid g w); [done|done|done|by apply IsMember_guids].
    + unfold GetInvited_guid. case_bool_decide; [|done]. by apply (sound_invitee_out gp g).
  - unfold HandleGroupUninviteOpcode, with_player. rewrite Hp. destruct (normalizePlayerName E name) as [name'|]; [|done].
    case_bool_decide; [done|]. apply (sound_with_group k p w); [done|done|]. intros gp g _ Hg Hne _. cbn beta zeta.
    destruct (negb (IsEmpty (GetMemberGuid name' g))) eqn:Hgu.
    + destruct (negb (_ =? ERR_PARTY_RESULT_OK)); [done|]. apply (core_RemoveFromGroup E gp _ g w); [done|done|done|]. apply GetMemberGuid_in. intros He.
      rewrite He in Hgu. done.
    + destruct (GetInvited_name name' g w) as [j|] eqn:Hj; [|done]. destruct (negb (_ =? ERR_PARTY_RESULT_OK)); [done|].
      apply (sound_invitee_out gp g); [done|done|]. by eapply GetInvited_name_in.
Qed.

(** Packets that change no membership. *)
Definition is_quiet (m : Packet) : Prop :=
  match m with
  | LootMethod _ _ _ | LootRoll _ _ _ | MinimapPing _ _ | RandomRoll _ _ | RaidTargetUpdate _ _ | RaidReadyCheck _
  | MeetingStoneJoin _ | MeetingStoneLeave | MeetingStoneInfo => True
  | _ => False
  end.

Lemma q_with_group w p k f : sound (core w) -> w_players w !! k = Some p ->
  (forall gp g, live gp w -> w_groups w !! gp = Some g -> quiet w (f gp g)) -> quiet w (with_group p w f).
Proof.
  intros Hs Hp Hf. unfold with_group. destruct (GetGroup p) as [gp|] eqn:Hgr; [|done].
  pose proof (links_links_live w (sound_links w Hs) k p gp Hp Hgr) as [g Hg]. unfold deref. rewrite Hg. apply Hf; [by exists g|done].
Qed.

Lemma quiet_packet k p m w : sound (core w) -> rolls_ok w -> w_players w !! k = Some p -> is_quiet m -> quiet w (handle k m w).
Proof.
  intros Hs Hr Hp Hq. pose proof (sound_links w Hs) as Hl.
  assert (Hlive : forall gp, GetGroup p = Some gp -> live gp w) by (intros gp Hgr; by apply (links_links_live w Hl k p gp)).
  destruct (links_player w Hl k p Hp) as (_ & _ & _ & Ho).
  destruct m; try done; cbn [handle].
  - unfold HandleLootMethodOpcode, with_player. rewrite Hp. do 2 (destruct (_ : bool); [done|]). cbn zeta.
    assert (Hgr : (match GetGroup p with Some gp => if test_group gp w isBGGroup then GetOriginalGroup p else Some gp
                   | None => GetOriginalGroup p end) = GetGroup p).
    { rewrite Ho. destruct (GetGroup p) as [gp|] eqn:Hgr; [|done]. destruct (Hlive gp eq_refl) as [g Hg]. unfold test_group.
      by rewrite Hg, (links_not_bg w Hl gp g Hg). }
    rewrite Hgr. destruct (GetGroup p) as [gp|]; [|done]. pose proof (Hlive gp eq_refl). quiet.
  - unfold HandleLootRoll, with_player. rewrite Hp. apply (q_with_group w p k); [done|done|]. intros gp g Hlv Hg.
    destruct (MAX_ROLL_FROM_CLIENT <=? rollType); [done|]. by apply q_CountRollVote.
  - unfold HandleMinimapPingOpcode, with_player. rewrite Hp. apply (q_with_group w p k); [done|done|]. intros gp g Hlv Hg. quiet.
  - unfold HandleRandomRollOpcode, with_player. rewrite Hp. destruct (_ || _); [done|]. cbn zeta.
    destruct (GetGroup p) as [gp|]; [pose proof (Hlive gp eq_refl)|]; quiet.
  - unfold HandleRaidTargetUpdateOpcode, with_player. rewrite Hp. rewrite Ho. destruct (GetGroup p) as [gp|]; [|done].
    pose proof (Hlive gp eq_refl). quiet.
  - unfold HandleRaidReadyCheckOpcode, with_player. rewrite Hp. apply (q_with_group w p k); [done|done|]. intros gp g Hlv Hg.
    destruct answer; quiet.
  - unfold HandleMeetingStoneJoinOpcode, with_player. rewrite Hp. destruct (MeetingStoneArea E p guid); [|done].
    destruct (GetGroup p) as [gp|]; [pose proof (Hlive gp eq_refl)|]; quiet.
  - unfold HandleMeetingStoneLeaveOpcode, with_player. rewrite Hp. destruct (GetGroup p) as [gp|]; [pose proof (Hlive gp eq_refl)|]; quiet.
  - unfold HandleMeetingStoneInfoOpcode, with_player. rewrite Hp. destruct (GetGroup p) as [gp|]; [pose proof (Hlive gp eq_refl)|]; quiet.
Qed.

Lemma sound_packet k m w : sound (core w) -> rolls_ok w -> online k w -> packet_ok m w -> sound (core (handle k m w)).
Proof.
  intros Hs Hr [p Hp] Hok. pose proof (sound_links w Hs) as Hl.
  destruct m; try (apply (quiet_sound w); [done|by apply (quiet_packet k p)]); cbn [handle].
  - by apply (sound_Invite E k p).
  - destruct Hok. by apply (sound_Accept E k p).
  - unfold HandleGroupDeclineOpcode, with_player. rewrite Hp. destruct (m_groupInvite p) as [gp|] eqn:Hi; [|done].
    destruct (links_invite_no_group w Hl k p gp Hp Hi) as [[g Hg] _]. unfold deref. rewrite Hg. cbn zeta.
    pose proof (sound_Uninvite k p w Hs Hp) as Hs1. destruct (GetPlayer (m_leaderGuid g) w) as [l|]; [|done].
    by destruct (GetSession l).
  - apply (sound_uninvites k p (GroupUninviteGuid guid)); eauto.
  - apply (sound_uninvites k p (GroupUninvite membername)); eauto.
  - unfold HandleGroupSetLeaderOpcode, with_player. rewrite Hp. apply (sound_with_group k p w); [done|done|]. intros gp g _ Hg _ _.
    destruct (GetPlayer guid w); [|done]. destruct (_ || _); [done|]. by apply (sound_ChangeLeader E gp guid g).
  - unfold HandleGroupDisbandOpcode, with_player. rewrite Hp. apply (sound_with_group k p w); [done|done|]. intros gp g Hgr Hg Hne Hk.
    destruct (pi_inBattleGround (pl_info p)); [done|]. cbn zeta. set (w1 := BroadcastGroupUpdate gp _).
    assert (live gp w) by by exists g. assert (Hq : quiet w w1) by (unfold w1, SendPartyResult; quiet).
    destruct (core_group_eq gp g w w1 (quiet_core _ _ Hq) Hg) as (g1 & Hg1 & Hv).
    apply (core_RemoveFromGroup E gp k g1 w1); [by apply (quiet_sound w)|by apply (kept_ok w); [apply quiet_kept|]|done|].
    by rewrite (f_equal gv_slots Hv : m_memberSlots g1 = m_memberSlots g).
  - unfold HandleGroupRaidConvertOpcode, with_player. rewrite Hp. apply (sound_with_group k p w); [done|done|]. intros gp g Hgr Hg Hne Hk.
    destruct (pi_inBattleGround (pl_info p)); [done|]. destruct (_ || _); [done|].
    by apply (sound_ConvertToRaid gp g).
  - unfold HandleGroupChangeSubGroupOpcode, with_player. rewrite Hp. destruct (_ <=? _); [done|].
    apply (sound_with_group k p w); [done|done|]. intros gp g Hgr Hg Hne Hk.
    destruct (negb _); [done|]. destruct (negb _); [done|]. destruct (GetPlayer_name E name w) as [q|] eqn:Hq.
    + apply (GetPlayer_name_found E name w q Hl) in Hq. apply (sound_ChangeMembersGroup_player gp (pl_guid q) groupNr g); [done|done|by exists q|done].
    + cbn zeta. destruct (IsEmpty _); [done|]. by apply (sound_ChangeMembersGroup gp _ groupNr g).
  - unfold HandleGroupSwapSubGroupOpcode, with_player. rewrite Hp. apply (sound_with_group k p w); [done|done|]. intros gp g Hgr Hg Hne Hk.
    destruct (negb _); [done|]. cbn zeta.
    assert (Hsw : forall a b, sound (core (SwapMembersGroup gp a b w))) by (intros a b; by apply (sound_SwapMembersGroup gp a b g)).
    destruct (GetPlayer_name E name w), (GetPlayer_name E nameSwapWith w); try apply Hsw; destruct (_ || _); done.
  - unfold HandleGroupAssistantLeaderOpcode, with_player. rewrite Hp. apply (sound_with_group k p w); [done|done|]. intros gp g Hgr Hg Hne Hk.
    destruct (negb _); [done|]. by apply (sound_SetAssistant gp guid _ g).
Qed.

(** ** Loot *)

Lemma core_same_groups w w1 :
  w_players w1 = w_players w -> w_nextGroup w1 = w_nextGroup w -> m_GroupMap w1 = m_GroupMap w -> m_GroupIds w1 = m_GroupIds w ->
  w_ub w1 = w_ub w -> gview <$> w_groups w1 = gview <$> w_groups w -> core w1 = core w.
Proof. intros. unfold core. congruence. Qed.

Lemma good_new_loot lp l w : good w -> w_loots w !! lp = None -> good (set_loots (<[lp := l]> (w_loots w)) w).
Proof.
  intros [Hs Hr] Hn. split; [done|]. intros lp' slot Ho. destruct (Hr lp' slot Ho) as (n & Hsz & Hlt). exists n. split; [|done].
  unfold loot_sizes in *. cbn. rewrite lookup_fmap in *. rewrite lookup_insert_ne; [done|]. intros <-. by rewrite Hn in Hsz.
Qed.

Lemma good_clear_loot lp w : good w -> good (clear_loot lp w).
Proof.
  intros [Hs Hr]. split.
  - assert (Hc : core (clear_loot lp w) = core w); [|by rewrite Hc]. apply core_same_groups; try done. unfold clear_loot. cbn.
    rewrite <- map_fmap_compose. by apply map_fmap_ext.
  - intros lp' slot (gp & g & r & Hg & Hin & Hl & Hsl). unfold clear_loot in Hg. cbn in Hg. rewrite lookup_fmap, fmap_Some in Hg.
    destruct Hg as (g0 & Hg0 & ->). cbn in Hin. apply list_elem_of_fmap in Hin as (r0 & -> & Hin). case_bool_decide as Hb; [done|].
    destruct (Hr lp' slot) as (n & Hsz & Hlt); [by exists gp, g0, r0|]. exists n. split; [|done].
    unfold loot_sizes, clear_loot in *. cbn. rewrite lookup_fmap in *. rewrite lookup_alter_ne; [done|]. congruence.
Qed.

Definition rollable (gp lp : Z) (w : World) : Prop := good w /\ live gp w /\ is_Some (w_loots w !! lp).

Lemma rollable_quiet gp lp w w1 : rollable gp lp w -> quiet w w1 -> rollable gp lp w1.
Proof.
  intros ([Hs Hr] & Hlv & [l Hl]) Hq. split; [split; [by apply (quiet_sound w)|by apply (kept_ok w); [apply quiet_kept|]]|].
  split; [by eapply quiet_live|]. pose proof (f_equal (fun m => m !! lp) (kept_sizes _ _ (quiet_kept _ _ Hq))) as He. cbn in He.
  unfold loot_sizes in He. rewrite !lookup_fmap, Hl in He. cbn in He. apply fmap_Some in He as (l' & -> & _). done.
Qed.

Lemma rollable_start gp creature method lp slot w : rollable gp lp w -> rollable gp lp (StartLootRoll E gp creature method lp slot w).
Proof.
  intros Hrb. pose proof Hrb as ([Hs Hr] & [g Hg] & [l Hl]). unfold StartLootRoll, deref. rewrite Hg, Hl.
  destruct (lt_items l !! Z.to_nat slot) as [item|] eqn:Hi; [|done]. cbn zeta.
  match goal with |- context [0 <? totalPlayersRolling ?x] => set (r := x) end. destruct (0 <? totalPlayersRolling r); [|done].
  assert (Hin : in_loot w lp slot).
  { exists (length (lt_items l)). unfold loot_sizes. rewrite lookup_fmap, Hl. split; [done|]. by apply lookup_lt_Some in Hi. }
  match goal with |- rollable _ _ (upd_group gp _ ?w0) => set (w1 := w0) end.
  assert (Hq : quiet w w1).
  { unfold w1. apply q_emit, q_upd_item; [done|]. unfold SendLootStartRoll. by apply q_to_rollers. }
  pose proof (rollable_quiet gp lp w w1 Hrb Hq) as ([Hs1 Hr1] & Hlv1 & Hl1). split; [split|].
  - by rewrite core_upd_group_same.
  - intros lp' slot' (gp' & g' & r' & Hg' & Hin' & Hl' & Hsl'). unfold upd_group, set_groups in Hg'. cbn in Hg'.
    destruct (decide (gp' = gp)) as [->|Hn]; [|rewrite lookup_alter_ne in Hg' by done; apply Hr1; by exists gp', g', r'].
    rewrite lookup_alter_eq, fmap_Some in Hg'. destruct Hg' as (g0 & Hg0 & ->). cbn in Hin'. apply elem_of_app in Hin' as [Hin'|Hin'%list_elem_of_singleton].
    + apply Hr1. by exists gp, g0, r'.
    + subst r'. injection Hl' as <-. subst slot'. exact (in_loot_quiet w w1 lp slot Hq Hin).
  - split; [|done]. apply live_core. rewrite core_upd_group_same by done. by apply live_core.
Qed.

Lemma rollable_item gp creature method lp w slot : rollable gp lp w -> rollable gp lp (roll_or_leave E gp creature method lp w slot).
Proof.
  intros Hrb. pose proof Hrb as (_ & [g Hg] & [l Hl]). unfold roll_or_leave, deref. rewrite Hg.
  destruct (loot_item lp (Z.of_nat slot) w) as [item|] eqn:Hi; [|done]. destruct (freeforall item); [done|].
  destruct (GetItemQuality E (li_itemid item)); [|done]. destruct (_ <=? _); [by apply rollable_start|].
  apply (rollable_quiet gp lp w); [done|]. apply q_upd_item; [|done].
  unfold loot_item in Hi. rewrite Hl in Hi. exists (length (lt_items l)). unfold loot_sizes. rewrite lookup_fmap, Hl. split; [done|].
  by apply lookup_lt_Some in Hi.
Qed.
Lemma rollable_items gp creature method lp l w : rollable gp lp w -> rollable gp lp (foldl (roll_or_leave E gp creature method lp) w l).
Proof. revert w. induction l as [|i l IH]; intros w Hr; [done|]. cbn [foldl]. by apply IH, rollable_item. Qed.

Lemma quiet_MasterLoot gp creature lp player w : live gp w -> is_Some (w_loots w !! lp) -> quiet w (MasterLoot E gp creature lp player w).
Proof.
  intros [g Hg] [l Hl]. unfold MasterLoot, deref. rewrite Hg, Hl. cbn zeta. apply q_emit, q_upd_loot; [|done].
  intros l0. cbn. by rewrite length_fmap.
Qed.
Lemma quiet_UpdateLooterGuid gp object ifneed w : live gp w -> quiet w (UpdateLooterGuid E gp object ifneed w).
Proof. intros Hlv. unfold UpdateLooterGuid. quiet. Qed.

(** ** Hardcore characters *)

Lemma sound_clear gp g w :
  sound (core w) -> w_groups w !! gp = Some g -> m_memberSlots g <> [] ->
  core (RemoveAllInvites gp w) = c_clear gp (m_invitees g) (core w) /\ sound (core (RemoveAllInvites gp w)).
Proof.
  intros Hs Hg Hne. assert (Hc : core (RemoveAllInvites gp w) = c_clear gp (m_invitees g) (core w)).
  { apply (core_RemoveAllInvites gp g w Hg). intros k Hk. by apply (links_invitee w (sound_links w Hs) gp g k Hg). }
  split; [done|]. rewrite Hc. pose proof (core_group gp g w Hg) as Hv.
  apply (sound_but_sound gp).
  - apply (sound_but_only gp (core w)); [by apply sound_sound_but|exact (only_clear _ gp _ (sound_wf _ Hs) Hv)|exact (wf_clear _ gp _ (sound_wf _ Hs) Hv)].
  - intros g' Hg'. cbn in Hg'. rewrite lookup_alter_eq, Hv in Hg'. injection Hg' as <-.
    destruct (sound_created w Hs gp g Hg Hne) as (? & ? & ?). by constructor.
Qed.

Lemma sound_leave_for_hardcore k p w :
  sound (core w) -> w_players w !! k = Some p ->
  (forall gp g, GetGroup p = Some gp -> w_groups w !! gp = Some g -> (3 <= length (m_memberSlots g))%nat) ->
  sound (core (leave_for_hardcore E k w)).
Proof.
  intros Hs Hp Hlen. unfold leave_for_hardcore. rewrite Hp. destruct (GetGroup p) as [gp|] eqn:Hgr; [|done].
  destruct (sound_group_of w Hs k p gp Hp Hgr) as (g & s & Hg & Hsl & Hne). specialize (Hlen gp g eq_refl Hg).
  destruct (sound_clear gp g w Hs Hg Hne) as [Hc1 Hs1]. set (w1 := RemoveAllInvites gp w) in *.
  assert (Hg1 : c_groups (core w1) !! gp = Some (gv_set_inv ∅ (gview g))).
  { rewrite Hc1. cbn. by rewrite lookup_alter_eq, (core_group gp g w Hg). }
  apply group_core in Hg1 as (g1 & Hg1 & Hv1). assert (Hsl1 : m_memberSlots g1 = m_memberSlots g) by exact (f_equal gv_slots Hv1).
  destruct (core_RemoveMember E gp k GROUP_LEAVE g1 s w1 (sound_wf _ Hs1) Hg1) as (new & Hn1 & Hn2 & _ & _ & Hc2); [by rewrite Hsl1|by rewrite Hsl1|].
  rewrite Hc2. apply (removed_facts gp k (gview g1) s new); [done|by apply core_group|cbn; by rewrite Hsl1|cbn; by rewrite Hsl1|done|done].
Qed.

(** ** Rolls *)

Lemma k_with_player k w f : (forall p, kept w (f p)) -> kept w (with_player k w f).
Proof. intros Hf. unfold with_player. destruct (w_players w !! k); [apply Hf|]. by apply k_undefined. Qed.
Lemma k_with_group p w f : (forall gp g, kept w (f gp g)) -> kept w (with_group p w f).
Proof. intros Hf. unfold with_group. destruct (GetGroup p); [|done]. apply k_deref; [done|]. intros g. apply Hf. Qed.

Lemma k_packet k m w : ~ is_quiet m -> kept w (handle k m w).
Proof.
  intros Hq. destruct m; try (by destruct Hq); cbn [handle].
  - unfold HandleGroupInviteOpcode, SendPartyResult. apply k_with_player. intros p. kept.
  - unfold HandleGroupAcceptOpcode, SendPartyResult. apply k_with_player. intros p. kept.
  - unfold HandleGroupDeclineOpcode. apply k_with_player. intros p. kept.
  - unfold HandleGroupUninviteGuidOpcode, SendPartyResult. apply k_with_player. intros p. cbn zeta.
    repeat (apply k_test; [kept|]). apply k_with_group. intros gp g. kept.
  - unfold HandleGroupUninviteOpcode, SendPartyResult. apply k_with_player. intros p. apply k_opt; [|kept]. intros name.
    apply k_test; [kept|]. apply k_with_group. intros gp g. cbn beta zeta. kept.
  - unfold HandleGroupSetLeaderOpcode. apply k_with_player. intros p. apply k_with_group. intros gp g. kept.
  - unfold HandleGroupDisbandOpcode, SendPartyResult. apply k_with_player. intros p. apply k_with_group. intros gp g. kept.
  - unfold HandleGroupRaidConvertOpcode, SendPartyResult. apply k_with_player. intros p. apply k_with_group. intros gp g. kept.
  - unfold HandleGroupChangeSubGroupOpcode. apply k_with_player. intros p. apply k_test; [kept|]. apply k_with_group. intros gp g. kept.
  - unfold HandleGroupSwapSubGroupOpcode. apply k_with_player. intros p. apply k_with_group. intros gp g. cbn zeta.
    apply k_test; [kept|]. destruct (GetPlayer_name E name w), (GetPlayer_name E nameSwapWith w); kept.
  - unfold HandleGroupAssistantLeaderOpcode. apply k_with_player. intros p. apply k_with_group. intros gp g. kept.
Qed.

Lemma k_session e w :
  match e with ELogin _ _ _ | ELogout _ _ | EHardcore _ | EOfflineLeaders _ _ => True | _ => False end -> kept w (apply_event e w).
Proof.
  destruct e; try done; intros _; cbn [apply_event].
  - unfold Login, LoadGroup, with_player. kept.
  - unfold LogoutPlayer, evict, with_player. kept.
  - unfold leave_for_hardcore. kept.
  - unfold UpdateOfflineLeaders. kept.
Qed.

(** ** Every event *)

Lemma good_quiet w w1 : good w -> quiet w w1 -> good w1.
Proof. intros [Hs Hr] Hq. split; [by apply (quiet_sound w)|]. by apply (kept_ok w); [apply quiet_kept|]. Qed.

Lemma is_quiet_dec m : is_quiet m \/ ~ is_quiet m.
Proof. destruct m; cbn; tauto. Qed.

Lemma good_step e w : good w -> allowed e w -> good (apply_event e w).
Proof.
  intros Hgood Ha. pose proof Hgood as [Hs Hr]. destruct e; cbn [allowed] in Ha; cbn [apply_event].
  - destruct Ha as [Hk Hok]. split; [by apply sound_packet|]. destruct (is_quiet_dec m) as [Hq|Hq].
    + destruct Hk as [p Hp]. apply (kept_ok w); [|done]. apply quiet_kept. by apply (quiet_packet k p).
    + apply (kept_ok w); [|done]. by apply k_packet.
  - destruct Ha as (? & ? & ?). split; [by apply sound_Login|]. by apply (kept_ok w); [apply (k_session (ELogin k info row))|].
  - destruct Ha as [p Hp]. split; [by apply (sound_LogoutPlayer E k socket p)|]. by apply (kept_ok w); [apply (k_session (ELogout k socket))|].
  - destruct Ha as (p & Hp & Hlen). split; [by apply (sound_leave_for_hardcore k p)|]. by apply (kept_ok w); [apply (k_session (EHardcore k))|].
  - split; [by apply sound_UpdateOfflineLeaders|]. by apply (kept_ok w); [apply (k_session (EOfflineLeaders time delay))|].
  - by apply good_new_loot.
  - by apply good_clear_loot.
  - destruct Ha as [Hlv Hl]. unfold GroupLoot, NeedBeforeGreed. destruct (method =? GROUP_LOOT); by apply (rollable_items gp creature _ lp).
  - destruct Ha as [Hlv Hl]. apply (good_quiet w); [done|]. by apply quiet_MasterLoot.
  - apply (good_quiet w); [done|]. unfold StopGroupLoot. destruct (groupLootId =? 0); [done|].
    destruct (GetGroupById groupLootId w) as [gp|] eqn:Hg; [|done]. apply q_EndRoll; [|done|done].
    by apply (links_map_live w (sound_links w Hs) groupLootId).
  - apply (good_quiet w); [done|]. by apply quiet_UpdateLooterGuid.
Qed.

Lemma core_start : core start = mkCore ∅ ∅ 1 ∅ 1 false.
Proof. unfold core. cbn. by rewrite !fmap_empty. Qed.
Lemma good_start : good start.
Proof.
  split; [|intros lp slot (gp & g & r & Hg & _); cbn in Hg; by rewrite lookup_empty in Hg]. rewrite core_start.
  assert (Hm : forall k gp, ~ member_of k gp (mkCore ∅ ∅ 1 ∅ 1 false)) by (intros k gp (g & Hg & _); cbn in Hg; by rewrite lookup_empty in Hg).
  split; [split; [constructor|]|]; try done; cbn.
  all: intros; exfalso; try (by eapply Hm).
  all: match goal with Hx : _ !! _ = Some _ |- _ => by rewrite lookup_empty in Hx end.
Qed.
Lemma reachable_good w : reachable w -> good w.
Proof. induction 1; [apply good_start|by apply good_step]. Qed.
End Reach.

(** ** A small server to evaluate the groups on

    An instance of [Env] and characters for witnesses: names are one letter
    that is the GUID, everybody stores everything, and the n-th number drawn
    is [lo + n mod (hi - lo + 1)]. *)

Definition name_of (k : Z) : list Z := [k].
Definition ex_info (k cls : Z) : PlayerInfo :=
  mkInfo (name_of k) true false false ALLIANCE cls 60 false false false false false false false false 0 0 [] 0.

Definition ex_env : Env := {|
  now := 1000;
  urand := fun n lo hi => lo + Z.of_nat n mod (hi - lo + 1);
  GetPlayerDataByGUID := fun k => Some (mkCacheData (name_of k) RACE_HUMAN ALLIANCE CLASS_WARRIOR 60 0);
  GetPlayerGuidByName := fun name => match name with [k] => k | _ => 0 end;
  FindPlayerByName := fun name => match name with [k] => Some k | _ => None end;
  normalizePlayerName := fun name => Some name;
  CanMemberAccept := fun _ _ => true;
  GetItemQuality := fun _ => Some 3;
  CanUseItem := fun _ _ => true;
  AllowedForPlayer := fun _ _ _ => true;
  IsWithinLootXPDist := fun _ _ => true;
  GetGroupLootTimer := fun _ _ => LOOT_ROLL_TIMEOUT;
  CanStoreNewItem := fun _ _ _ => EQUIP_ERR_OK;
  ItemCreated := fun _ _ => true;
  SeesMember := fun _ _ => true;
  SessionLoading := fun _ => false;
  IsMachineDriven := fun _ => false;
  MeetingStoneArea := fun _ guid => if guid =? 0 then None else Some guid;
  cfg_ALLOW_TWO_SIDE_INTERACTION_GROUP := true
|}.

(** [k] invites [j], who accepts. *)
Definition joins (k j : Z) : list Event := [EPacket k (GroupInvite (name_of j)); EPacket j GroupAccept].

#[export] Existing Instance ordered_iter.

Definition run (es : list Event) (w : World) : World := foldl (fun w e => apply_event ex_env e w) w es.
Definition logins (ks : list Z) : list Event := (fun k => ELogin k (ex_info k CLASS_WARRIOR) None) <$> ks.

Definition party_of_three : World := run (logins [1; 2; 3] ++ joins 1 2 ++ joins 1 3) start.
