(* ===== verification/GroupRollSpec.v ===== *)
(** * GroupRollSpec: who wins a roll, and when it ends *)
From S2P Require Import Prelude ByteBuffer ObjectGuid GroupData GroupPackets GroupLoot MeetingStone Group GroupHandlers GroupCore GroupRolls GroupKept GroupReach.

(** ** The dice *)

Section Dice.
Context `{HashIter}.
Context (E : Env).
Implicit Types (w : World) (r : Roll).

(** The number of the j-th voter from here on. *)
Definition die w (j : nat) : Z := u8 (urand E (w_draws w + j) 1 100).
Definition voters (v : RollVote) (votes : list (ObjectGuid * RollVote)) : list ObjectGuid := (filter (fun kv => kv.2 = v) votes).*1.

(** The same players and loots. *)
Definition same_stock w w' : Prop := w_players w' = w_players w /\ w_loots w' = w_loots w.

Lemma dice_stock v code r votes m k w : same_stock w (snd (roll_dice E v code r votes m k w)).
Proof.
  revert m k w. induction votes as [|[j x] votes IH]; intros m k w; [done|]. cbn [roll_dice].
  case_bool_decide; [|apply IH]. cbn zeta. set (n := u8 _). set (w1 := SendLootRoll j n code r (draw w)).
  destruct (m <? n); [exact (IH n j w1)|exact (IH m k w1)].
Qed.

(** The largest number wins, the first of equal ones. *)
Lemma dice_winner v code r votes m k w :
  let ks := voters v votes in
  exists m' k', fst (roll_dice E v code r votes m k w) = (m', k') /\
    ((m' = m /\ k' = k /\ forall i, (i < length ks)%nat -> die w i <= m)
     \/ exists j, ks !! j = Some k' /\ m' = die w j /\ m < die w j
          /\ (forall i, (i < length ks)%nat -> die w i <= die w j) /\ (forall i, (i < j)%nat -> die w i < die w j)).
Proof.
  revert m k w. induction votes as [|[j x] votes IH]; intros m k w ks.
  - exists m, k. split; [done|]. left. split; [done|]. split; [done|]. intros i Hi. cbn in Hi. lia.
  - cbn [roll_dice]. unfold ks, voters. rewrite filter_cons. cbn [snd]. case_bool_decide as Hx.
    2:{ rewrite decide_False by done. apply IH. }
    rewrite decide_True by done. cbn [fmap list_fmap fst]. cbn zeta.
    set (w1 := SendLootRoll j (u8 (urand E (w_draws w) 1 100)) code r (draw w)).
    assert (Hd : forall i, die w1 i = die w (S i)) by (intros i; unfold die; cbn; do 2 f_equal; lia).
    assert (H0 : u8 (urand E (w_draws w) 1 100) = die w 0) by (unfold die; by rewrite Nat.add_0_r). rewrite H0.
    destruct (Z.ltb_spec m (die w 0)) as [Hlt|Hge].
    + destruct (IH (die w 0) j w1) as (m' & k' & -> & [(-> & -> & Hall)|(i & Hi & -> & Hm & Hall & Hbefore)]);
        do 2 eexists; (split; [reflexivity|]); right.
      * exists 0%nat. split; [done|]. split; [done|]. split; [done|]. split; [|lia].
        intros [|i] Hi; [lia|]. rewrite <- Hd. apply Hall. cbn in Hi. unfold voters. lia.
      * exists (S i). rewrite <- Hd. split; [done|]. split; [done|]. split; [lia|]. split.
        -- intros [|i'] Hi'; [lia|]. rewrite <- Hd. apply Hall. cbn in Hi'. unfold voters. lia.
        -- intros [|i'] Hi'; [lia|]. rewrite <- Hd. apply Hbefore. lia.
    + destruct (IH m k w1) as (m' & k' & -> & [(-> & -> & Hall)|(i & Hi & -> & Hm & Hall & Hbefore)]);
        do 2 eexists; (split; [reflexivity|]).
      * left. split; [done|]. split; [done|]. intros [|i] Hi; [lia|]. rewrite <- Hd. apply Hall. cbn in Hi. unfold voters. lia.
      * right. exists (S i). rewrite <- Hd. split; [done|]. split; [done|]. split; [done|]. split.
        -- intros [|i'] Hi'; [lia|]. rewrite <- Hd. apply Hall. cbn in Hi'. unfold voters. lia.
        -- intros [|i'] Hi'; [lia|]. rewrite <- Hd. apply Hbefore. lia.
Qed.

(** ** The prize *)

Lemma loot_item_upd lp slot f l i w :
  w_loots w !! lp = Some l -> lt_items l !! Z.to_nat slot = Some i -> loot_item lp slot (upd_item lp slot f w) = Some (f i).
Proof.
  intros Hl Hi. unfold upd_item. rewrite Hl, Hi. unfold loot_item, upd_loot, set_loots. cbn. rewrite lookup_alter_eq, Hl. cbn.
  by rewrite list_lookup_insert_eq by (by apply lookup_lt_Some in Hi).
Qed.
Lemma loot_item_keep lp slot f w : (forall l, lt_items (f l) = lt_items l) -> loot_item lp slot (upd_loot lp f w) = loot_item lp slot w.
Proof.
  intros Hf. unfold loot_item, upd_loot, set_loots. cbn. rewrite lookup_alter_eq. destruct (w_loots w !! lp); cbn; [by rewrite Hf|done].
Qed.
Lemma loot_item_notify lp slot n w : loot_item lp slot (NotifyItemRemoved lp n w) = loot_item lp slot w.
Proof. unfold NotifyItemRemoved. destruct (w_loots w !! lp); [|done]. cbn zeta. change (loot_item lp slot (emits _ ?x)) with (loot_item lp slot x). by apply loot_item_keep. Qed.
Lemma upd_item_players lp slot f w : w_players (upd_item lp slot f w) = w_players w.
Proof. unfold upd_item. by repeat case_match. Qed.
Lemma NotifyItemRemoved_players lp n w : w_players (NotifyItemRemoved lp n w) = w_players w.
Proof. unfold NotifyItemRemoved. by case_match. Qed.

(** What becomes of the item when [k] has won it. *)
Definition won_item (need : bool) r (k : ObjectGuid) w (item : LootItem) : LootItem :=
  match GetPlayer k w with
  | Some p =>
    if GetSession p then
      if CanStoreNewItem E p (itemid r) (li_count item) =? EQUIP_ERR_OK
      then set_loot_item true (is_blocked item) (is_underthreshold item) (lootOwner item) item
      else set_loot_item (is_looted item) false (is_underthreshold item) k item
    else if need then set_loot_item (is_looted item) (is_blocked item) (is_underthreshold item) k item else item
  | None => if need then set_loot_item (is_looted item) (is_blocked item) (is_underthreshold item) k item else item
  end.
(** The winner is online and has room. *)
Definition takes_item r (k : ObjectGuid) w (item : LootItem) : bool :=
  match GetPlayer k w with
  | Some p => GetSession p && (CanStoreNewItem E p (itemid r) (li_count item) =? EQUIP_ERR_OK) && ItemCreated E (itemid r) (li_count item)
  | None => false
  end.

Lemma GetPlayer_lookup k w p : GetPlayer k w = Some p -> w_players w !! k = Some p.
Proof. unfold GetPlayer, FindPlayerNotInWorld. destruct (IsEmpty k); [done|]. destruct (w_players w !! k) as [q|]; [|done]. by destruct (pl_inWorld q). Qed.

Lemma award_item need r lp k l item w :
  w_loots w !! lp = Some l -> lt_items l !! Z.to_nat (itemSlot r) = Some item ->
  loot_item lp (itemSlot r) (award E need r lp k w) = Some (won_item need r k w item)
  /\ w_players (award E need r lp k w)
     = if takes_item r k w item then alter (add_item (itemid r) (li_count item)) k (w_players w) else w_players w.
Proof.
  intros Hl Hi. assert (Hit : loot_item lp (itemSlot r) w = Some item) by (unfold loot_item; by rewrite Hl).
  assert (Hlater : forall f, loot_item lp (itemSlot r) (if need then upd_item lp (itemSlot r) f w else w) = Some (if need then f item else item)
      /\ w_players (if need then upd_item lp (itemSlot r) f w else w) = w_players w).
  { intros f. destruct need; [|done]. split; [by apply (loot_item_upd lp _ f l)|apply upd_item_players]. }
  specialize (Hlater (fun i => set_loot_item (is_looted i) (is_blocked i) (is_underthreshold i) k i)).
  unfold award, won_item, takes_item. cbn zeta. destruct (GetPlayer k w) as [p|]; [|exact Hlater].
  destruct (GetSession p); cbn [negb]; [|exact Hlater]. rewrite Hit.
  destruct (CanStoreNewItem E p (itemid r) (li_count item) =? EQUIP_ERR_OK); cbn [andb].
  - set (w1 := upd_item lp (itemSlot r) _ w). assert (Hi1 : loot_item lp (itemSlot r) w1 = Some (set_loot_item true (is_blocked item) (is_underthreshold item) (lootOwner item) item)).
    { exact (loot_item_upd lp (itemSlot r) (fun i => set_loot_item true (is_blocked i) (is_underthreshold i) (lootOwner i) i) l item w Hl Hi). }
    set (w2 := upd_loot lp _ _). assert (Hi2 : loot_item lp (itemSlot r) w2 = loot_item lp (itemSlot r) w1).
    { unfold w2. rewrite loot_item_keep by done. apply loot_item_notify. }
    assert (Hp2 : w_players w2 = w_players w).
    { unfold w2, upd_loot, set_loots. cbn. rewrite NotifyItemRemoved_players. apply upd_item_players. }
    destruct (ItemCreated E (itemid r) (li_count item)).
    + split; [by rewrite <- Hi1, <- Hi2|]. exact (f_equal (alter (add_item (itemid r) (li_count item)) k) Hp2).
    + split; [by rewrite <- Hi1, <- Hi2|exact Hp2].
  - split; [exact (loot_item_upd lp (itemSlot r) (fun i => set_loot_item (is_looted i) false (is_underthreshold i) k i) l item w Hl Hi)|].
    exact (upd_item_players lp (itemSlot r) _ w).
Qed.

Lemma decide_roll_first need r lp w :
  hash_iter (playerVote r) <> [] -> exists first, decide_roll E need r lp w
    = let '(m, k, w) := roll_dice E (if need then ROLL_NEED else ROLL_GREED) (if need then 1 else 2) r (hash_iter (playerVote r)) 0 first w in
      award E need r lp k (SendLootRollWon k m (if need then 1 else 2) r w).
Proof.
  intros Hne. unfold decide_roll. destruct (hash_iter (playerVote r)) as [|[first fv] votes]; [done|]. exists first. reflexivity.
Qed.
End Dice.

(** C17: a roll of one need vote at least is won by the need voter with the
    largest number, the first of those in the order of the vote map when
    several have it, a roll without need votes in the same way by a greed
    voter; the roll is closed. A winner with room gets the item, which is gone
    from the loot; without room it stays in the loot, unblocked, for the winner
    alone. For a winner who is offline a needed item is kept in the loot; an
    item rolled for by greed stays as it was, blocked and nobody's. *)
Theorem roll_is_won `{HashIter} (E : Env) (need : bool) gp (i : nat) r lp l item w :
  rolls gp w !! i = Some r -> getLoot r = Some lp -> w_loots w !! lp = Some l -> lt_items l !! Z.to_nat (itemSlot r) = Some item ->
  (if need then 0 < totalNeed r else totalNeed r <= 0 /\ 0 < totalGreed r) ->
  (forall n, 1 <= urand E n 1 100 <= 100) ->
  let ks := voters (if need then ROLL_NEED else ROLL_GREED) (hash_iter (playerVote r)) in
  let d j := urand E (w_draws w + j) 1 100 in
  let w' := CountTheRoll E gp i w in
  ks <> [] ->
  exists j k, ks !! j = Some k
    /\ (forall j', (j' < length ks)%nat -> d j' <= d j) /\ (forall j', (j' < j)%nat -> d j' < d j)
    /\ rolls gp w' = delete i (rolls gp w)
    /\ loot_item lp (itemSlot r) w' = Some (won_item E need r k w item)
    /\ w_players w' = if takes_item E r k w item then alter (add_item (itemid r) (li_count item)) k (w_players w) else w_players w.
Proof.
  intros Hr Hlp Hl Hi Hkind Hrand ks d w' Hks.
  assert (Hdie : forall w0 j, die E w0 j = urand E (w_draws w0 + j) 1 100).
  { intros w0 j. unfold die. apply u8_id. unfold is_u8, is_u. specialize (Hrand (w_draws w0 + j)%nat). lia. }
  assert (Hs : settle E r w = decide_roll E need r lp w).
  { unfold settle. rewrite Hlp. destruct need.
    - destruct (Z.ltb_spec 0 (totalNeed r)); [done|lia].
    - destruct Hkind. destruct (Z.ltb_spec 0 (totalNeed r)); [lia|]. destruct (Z.ltb_spec 0 (totalGreed r)); [done|lia]. }
  assert (Hw' : w' = erase_roll gp i (decide_roll E need r lp w)) by (unfold w'; by rewrite (CountTheRoll_settle E gp i r w Hr), Hs).
  assert (Hne : hash_iter (playerVote r) <> []) by (intros He; apply Hks; unfold ks; by rewrite He).
  destruct (decide_roll_first E need r lp w Hne) as [first Hdec]. rewrite Hdec in Hw'. clear Hdec.
  set (v := if need then ROLL_NEED else ROLL_GREED) in *. set (code := if need then 1 else 2) in *.
  destruct (dice_winner E v code r (hash_iter (playerVote r)) 0 first w) as (m & k & Hd & Hcase).
  pose proof (dice_stock E v code r (hash_iter (playerVote r)) 0 first w) as [Hp1 Hl1].
  destruct (roll_dice E v code r (hash_iter (playerVote r)) 0 first w) as [[m' k'] w1]. cbn [fst snd] in *. injection Hd as -> ->.
  destruct Hcase as [(-> & -> & Hall)|(j & Hj & -> & _ & Hall & Hbefore)].
  { exfalso. assert (Hpos : (0 < length ks)%nat) by (clearbody ks; destruct ks; [done|cbn; lia]).
    specialize (Hall 0%nat Hpos). rewrite Hdie in Hall.
    specialize (Hrand (w_draws w + 0)%nat). lia. }
  exists j, k. split; [done|]. split; [intros j' Hj'; unfold d; rewrite <- !Hdie; by apply Hall|].
  split; [intros j' Hj'; unfold d; rewrite <- !Hdie; by apply Hbefore|]. split; [by apply (rolls_CountTheRoll E gp i r)|].
  set (w2 := SendLootRollWon k (die E w j) code r w1) in *.
  assert (HP : GetPlayer k w2 = GetPlayer k w).
  { unfold GetPlayer, FindPlayerNotInWorld. change (w_players w2) with (w_players w1). by rewrite Hp1. }
  destruct (award_item E need r lp k l item w2) as [Ha1 Ha2]; [change (w_loots w2) with (w_loots w1); by rewrite Hl1|done|].
  assert (Hwi : won_item E need r k w2 item = won_item E need r k w item) by (unfold won_item; by rewrite HP).
  assert (Hti : takes_item E r k w2 item = takes_item E r k w item) by (unfold takes_item; by rewrite HP).
  rewrite Hw'. split; [by rewrite <- Hwi, <- Ha1|]. change (w_players (erase_roll gp i ?x)) with (w_players x).
  rewrite Ha2, Hti. change (w_players w2) with (w_players w1). by rewrite Hp1.
Qed.

(** ** Votes *)

Section Votes.
Context `{HashIter}.
Context (E : Env).
Implicit Types (w : World) (r : Roll).

(** A vote in a packet: the player and the number of the vote. *)
Definition cast (target : ObjectGuid) (slot : Z) (w : World) (kv : ObjectGuid * Z) : World :=
  HandleLootRoll E kv.1 target slot kv.2 w.
Definition votes_in r : Z := totalPass r + totalNeed r + totalGreed r.

(** The roll [r] is the one votes on [target] and [slot] are for. *)
Record open_for (gp : Z) (target : ObjectGuid) (slot : Z) (i : nat) r w : Prop := {
  of_roll : list_find (is_roll target slot) (rolls gp w) = Some (i, r);
  of_live : live gp w;
  of_loot : loot_empty r w = false;
  of_counts : 0 <= totalPass r /\ 0 <= totalNeed r /\ 0 <= totalGreed r /\ totalPlayersRolling r < 256;
  of_more : votes_in r < totalPlayersRolling r
}.

Lemma recorded k v r :
  v <> ROLL_NOT_EMITED_YET -> v <> ROLL_NOT_VALID ->
  0 <= totalPass r /\ 0 <= totalNeed r /\ 0 <= totalGreed r /\ totalPlayersRolling r < 256 -> votes_in r < totalPlayersRolling r ->
  votes_in (record_vote k v r) = votes_in r + 1 /\ totalPlayersRolling (record_vote k v r) = totalPlayersRolling r
  /\ 0 <= totalPass (record_vote k v r) /\ 0 <= totalNeed (record_vote k v r) /\ 0 <= totalGreed (record_vote k v r)
  /\ (forall j, is_Some (playerVote r !! j) -> is_Some (playerVote (record_vote k v r) !! j)).
Proof.
  intros H1 H2 (Hp & Hn & Hg & Ht) Hm. unfold votes_in in *.
  assert (Hd : forall j, is_Some (playerVote r !! j) -> is_Some (<[k := v]> (playerVote r) !! j)).
  { intros j Hj. destruct (decide (j = k)) as [->|]; [rewrite lookup_insert_eq; done|by rewrite lookup_insert_ne]. }
  destruct v; try done; cbn; rewrite u8_id by (unfold is_u8, is_u; change (2 ^ 8) with 256; lia);
    (split; [lia|]; split; [done|]; split; [lia|]; split; [lia|]; split; [lia|exact Hd]).
Qed.

Lemma list_find_alter {A} (P : A -> Prop) `{forall x, Decision (P x)} (l : list A) i x y :
  list_find P l = Some (i, x) -> P y -> list_find P (<[i := y]> l) = Some (i, y).
Proof.
  intros (Hi & Hx & Hb)%list_find_Some Hy. apply list_find_Some. pose proof (lookup_lt_Some _ _ _ Hi).
  split; [by rewrite list_lookup_insert_eq|]. split; [done|]. intros j z Hj Hlt. rewrite list_lookup_insert_ne in Hj by lia. eauto.
Qed.

Lemma delete_list_insert {A} (l : list A) i x : delete i (<[i := x]> l) = delete i l.
Proof. rewrite !delete_take_drop, take_insert_ge, drop_insert_lt by lia. done. Qed.

(** What is not a group stays until the last vote. *)
Definition same_world w w' : Prop := w_players w' = w_players w /\ w_loots w' = w_loots w.

Lemma CountRollVote_step gp target slot i r k v w :
  open_for gp target slot i r w -> is_Some (playerVote r !! k) -> v <> ROLL_NOT_EMITED_YET -> v <> ROLL_NOT_VALID ->
  let w' := snd (CountRollVote E gp k target slot v w) in
  if votes_in r + 1 <? totalPlayersRolling r
  then open_for gp target slot i (record_vote k v r) w' /\ same_world w w' /\ rolls gp w' = <[i := record_vote k v r]> (rolls gp w)
  else rolls gp w' = delete i (rolls gp w).
Proof.
  intros [Hr [g Hg] Hl Hc Hm] [v0 Hk] Hv1 Hv2. pose proof Hr as Hr0. unfold rolls in Hr. rewrite Hg in Hr.
  unfold CountRollVote. rewrite Hg, Hr. cbn [snd].
  pose proof Hr as (Hi & Hroll & _)%list_find_Some. unfold CountRollVote_at. rewrite Hg, Hi, Hk, Hl. cbn zeta.
  destruct (recorded k v r Hv1 Hv2 Hc Hm) as (Hsum & Htot & Hp & Hn & Hgr & Hd). set (r' := record_vote k v r) in *.
  set (w1 := upd_roll gp i (fun _ => r') (send_vote k v r w)).
  assert (Hsent : w_groups (send_vote k v r w) = w_groups w) by by destruct v.
  assert (Hrs : rolls gp w1 = <[i := r']> (rolls gp w)).
  { unfold w1, rolls, upd_roll, upd_group, set_groups. cbn. rewrite lookup_alter_eq, Hsent, Hg. cbn.
    apply list_eq. intros j. destruct (decide (j = i)) as [->|Hn'].
    - rewrite list_lookup_alter_eq, Hi, list_lookup_insert_eq by (by eapply lookup_lt_Some). done.
    - by rewrite list_lookup_alter_ne, list_lookup_insert_ne. }
  assert (Hsame : same_world w w1) by by destruct v.
  unfold votes_counted. fold (votes_in r'). rewrite Htot, Hsum.
  destruct (Z.ltb_spec (votes_in r + 1) (totalPlayersRolling r)); destruct (Z.leb_spec (totalPlayersRolling r) (votes_in r + 1)); try lia; cbn [snd].
  - split; [|done]. split.
    + rewrite Hrs. apply (list_find_alter _ _ i r); [done|]. destruct Hroll as (Ha1 & Ha2 & Ha3). unfold r'. by destruct v.
    + apply live_core. unfold w1, upd_roll, upd_group, set_groups, core. cbn. rewrite lookup_fmap, lookup_alter_eq, Hsent, Hg. done.
    + destruct Hsame as [_ Hlo]. unfold loot_empty in *. rewrite Hlo. replace (getLoot r') with (getLoot r) by by destruct v. done.
    + destruct Hc as (? & ? & ? & ?). rewrite Htot. done.
    + lia.
  - rewrite (rolls_CountTheRoll E gp i r').
    + by rewrite Hrs, delete_list_insert.
    + rewrite Hrs. apply list_lookup_insert_eq. unfold rolls. rewrite Hg. by eapply lookup_lt_Some.
Qed.

(** Somebody in the group who was asked, with a vote the client may send. *)
Definition may_cast (gp : Z) r w (kv : ObjectGuid * Z) : Prop :=
  (exists p, w_players w !! kv.1 = Some p /\ GetGroup p = Some gp) /\ is_Some (playerVote r !! kv.1) /\ 0 <= kv.2 < MAX_ROLL_FROM_CLIENT.

Lemma cast_step gp target slot i r kv w :
  open_for gp target slot i r w -> may_cast gp r w kv -> cast target slot w kv = snd (CountRollVote E gp kv.1 target slot (RollVote_of kv.2) w)
    /\ RollVote_of kv.2 <> ROLL_NOT_EMITED_YET /\ RollVote_of kv.2 <> ROLL_NOT_VALID.
Proof.
  intros Ho ((p & Hp & Hgr) & Hk & H0 & H3). pose proof (of_live _ _ _ _ _ _ Ho) as [g Hg]. destruct kv as [k v]. cbn [fst snd] in *.
  unfold cast, HandleLootRoll, with_player, with_group, deref. cbn [fst snd]. rewrite Hp, Hgr, Hg.
  change MAX_ROLL_FROM_CLIENT with 3 in *. destruct (Z.leb_spec 3 v); [lia|]. split; [done|]. unfold RollVote_of.
  destruct (Z.eqb_spec v 0); [done|]. destruct (Z.eqb_spec v 1); [done|]. destruct (Z.eqb_spec v 2); [done|lia].
Qed.

Lemma cast_all gp target slot i vs r w :
  open_for gp target slot i r w -> Forall (may_cast gp r w) vs ->
  (votes_in r + Z.of_nat (length vs) = totalPlayersRolling r -> rolls gp (foldl (cast target slot) w vs) = delete i (rolls gp w))
  /\ (votes_in r + Z.of_nat (length vs) < totalPlayersRolling r -> exists r', open_for gp target slot i r' (foldl (cast target slot) w vs)).
Proof.
  revert r w. induction vs as [|kv vs IH]; intros r w Ho Hvs.
  - cbn. pose proof (of_more _ _ _ _ _ _ Ho). split; [lia|eauto].
  - apply Forall_cons_1 in Hvs as [Hkv Hvs]. destruct (cast_step gp target slot i r kv w Ho Hkv) as (Hs & Hv1 & Hv2). cbn [foldl length].
    pose proof Hkv as (_ & Hk & _). pose proof (CountRollVote_step gp target slot i r kv.1 (RollVote_of kv.2) w Ho Hk Hv1 Hv2) as Hst.
    cbn zeta in Hst. rewrite <- Hs in Hst. set (w1 := cast target slot w kv) in *. set (r' := record_vote kv.1 (RollVote_of kv.2) r) in *.
    destruct (Z.ltb_spec (votes_in r + 1) (totalPlayersRolling r)) as [Hlt|Hge].
    + destruct Hst as (Ho1 & [Hpl _] & Hrs).
      destruct (recorded kv.1 _ r Hv1 Hv2 (of_counts _ _ _ _ _ _ Ho) (of_more _ _ _ _ _ _ Ho)) as (Hsum & Htot & _ & _ & _ & Hd).
      fold r' in Hsum, Htot, Hd. destruct (IH r' w1 Ho1) as [Hclose Hopen].
      { eapply Forall_impl; [exact Hvs|]. intros kv' (Hp & Hk' & Hr). split; [by rewrite Hpl|]. split; [by apply Hd|done]. }
      rewrite Hsum, Htot in Hclose, Hopen. split; [|intros; apply Hopen; lia].
      intros Hlen. rewrite Hclose by lia. by rewrite Hrs, delete_list_insert.
    + split; [|cbn; lia]. intros Hlen. destruct vs; [|cbn in Hlen; lia]. exact Hst.
Qed.
End Votes.

(** C29: a roll takes exactly as many votes as players roll: whoever of those
    asked sends them, in whatever order, it stays open before the last of them
    and is gone after it, and no other roll with it. Nothing asks that they are
    votes of different players. *)
Theorem rolls_close `{HashIter} (E : Env) gp target slot (i : nat) r (vs : list (ObjectGuid * Z)) w :
  open_for gp target slot i r w -> votes_in r = 0 -> Forall (may_cast gp r w) vs ->
  Z.of_nat (length vs) = totalPlayersRolling r ->
  rolls gp (foldl (cast E target slot) w vs) = delete i (rolls gp w)
  /\ forall n, (n < length vs)%nat -> exists r', open_for gp target slot i r' (foldl (cast E target slot) w (take n vs)).
Proof.
  intros Ho H0 Hvs Hlen. split; [apply (cast_all E gp target slot i vs r w Ho Hvs); lia|]. intros n Hn.
  apply (cast_all E gp target slot i (take n vs) r w Ho).
  - rewrite Forall_forall in *. intros kv Hkv%elem_of_take. apply Hvs. destruct Hkv as (j & Hj & _). by eapply list_elem_of_lookup_2.
  - rewrite length_take. lia.
Qed.

(** ** A roll of three *)

Definition a_loot : Loot := mkLoot [mkLootItem 500 0 1 false false false false 0] 1 [] [1; 2; 3].
Definition rolling_party : World := run [ENewLoot 7 a_loot; EGroupLoot 1 99 GROUP_LOOT 7] party_of_three.
Definition need_votes : World := foldl (cast ex_env 99 0) rolling_party [(1, 1); (2, 1)].

Definition no_roll : Roll := mkRoll 0 0 0 ∅ 0 0 0 0 0 None.
Definition roll_of_three (w : World) : Roll := default no_roll (head (rolls 1 w)).

Lemma ex_urand n : 1 <= urand ex_env n 1 100 <= 100.
Proof.
  change (urand ex_env n 1 100) with (1 + Z.of_nat n mod 100). pose proof (Z.mod_pos_bound (Z.of_nat n) 100 ltac:(lia)). lia.
Qed.

Lemma roll_is_won_witness :
  exists j k, voters ROLL_NEED (hash_iter (playerVote (roll_of_three need_votes))) !! j = Some k
    /\ rolls 1 (CountTheRoll ex_env 1 0 need_votes) = delete 0%nat (rolls 1 need_votes).
Proof.
  destruct (roll_is_won ex_env true 1 0 (roll_of_three need_votes) 7 (mkLoot [mkLootItem 500 0 1 false true false false 0] 1 [] [1; 2; 3])
    (mkLootItem 500 0 1 false true false false 0) need_votes) as (j & k & Hj & _ & _ & Hr & _).
  - by vm_compute.
  - by vm_compute.
  - by vm_compute.
  - by vm_compute.
  - by vm_compute.
  - exact ex_urand.
  - by vm_compute.
  - exists j, k. split; [exact Hj|exact Hr].
Defined.

(** One player alone ends the roll of three. *)
Lemma rolls_close_witness :
  rolls 1 (foldl (cast ex_env 99 0) rolling_party [(1, 0); (1, 0); (1, 0)]) = delete 0%nat (rolls 1 rolling_party).
Proof.
  refine (proj1 (rolls_close ex_env 1 99 0 0 (roll_of_three rolling_party) _ _ _ _ _ _)); [|done| |done].
  - split; [by vm_compute| |by vm_compute|by vm_compute|by vm_compute].
    assert (He : bool_decide (is_Some (w_groups rolling_party !! 1)) = true) by by vm_compute. by apply bool_decide_eq_true in He.
  - assert (Hc : may_cast 1 (roll_of_three rolling_party) rolling_party (1, 0)).
    { split; [|split; [|done]].
      - destruct (w_players rolling_party !! 1) as [p|] eqn:Hp; [|by vm_compute in Hp]. exists p. split; [done|]. vm_compute in Hp. by injection Hp as <-.
      - by vm_compute; eexists. }
    by repeat (apply Forall_cons; split; [exact Hc|]).
Defined.
