(* ===== verification/GroupLeave.v ===== *)
(** * GroupLeave: members who leave, and what takes an office *)
From S2P Require Import Prelude ByteBuffer ObjectGuid GroupData GroupPackets GroupLoot MeetingStone Group GroupHandlers GroupCore GroupRolls GroupKept GroupSound GroupSlots GroupSteps GroupEnds GroupOps GroupMoves GroupDisband GroupEffects GroupInvites GroupSafety GroupRaids GroupSessions GroupReach.

(** ** Groups in reachable states

    The state of groups and players after any run of events, in the terms of
    the code. *)
(** ** Groups *)

(** A group with members, in the terms of Group.h. *)
Record group_in_order (w : World) (gp : Z) (g : Group) : Prop := {
  go_registered : GetGroupById (m_Id g) w = Some gp;
  go_leader : IsMember (m_leaderGuid g) g = true;
  go_once : NoDup (ms_guid <$> m_memberSlots g);
  go_least : 2 <= GetMembersCount g;
  go_most : GetMembersCount g <= if isRaidGroup g then MAX_RAID_SIZE else MAX_GROUP_SIZE;
  go_subgroups : isRaidGroup g = true -> exists c, m_subGroupsCounts g = Some c
    /\ forall sub, 0 <= sub < MAX_RAID_SUBGROUPS ->
         sub_count c sub = Z.of_nat (length (filter (fun s => ms_group s = sub) (m_memberSlots g))) /\ sub_count c sub <= MAX_GROUP_SIZE;
  go_ranges : Forall (fun s => 0 <= ms_group s < MAX_RAID_SUBGROUPS) (m_memberSlots g)
}.

Lemma sound_in_order w gp g : sound (core w) -> w_groups w !! gp = Some g -> m_memberSlots g <> [] -> group_in_order w gp g.
Proof.
  intros Hs Hg Hne. destruct (sound_created w Hs gp g Hg Hne) as (Hlen & Hld & Hm). pose proof (sound_sizes w Hs gp g Hg) as [Hnd H0 Hsz Hsub].
  constructor; try done.
  - by apply IsMember_guids.
  - unfold GetMembersCount. lia.
  - intros Hr. rewrite Hr in Hsub. destruct (raid_counts_some _ _ Hsub) as [c Hc]. exists c. split; [done|]. intros sub Hsb.
    rewrite Hc in Hsub. pose proof (sub_count_ok c _ sub (raid_counts _ _ Hsub) Hsb) as He. pose proof (rs_size _ _ Hsub sub) as H5.
    rewrite He. split; [done|]. change MAX_GROUP_SIZE with 5. lia.
  - destruct (isRaidGroup g); [apply (rs_range _ _ Hsub)|]. eapply Forall_impl; [apply (ps_group _ _ Hsub)|]. intros s ->. by compute.
Qed.

(** The group of a player: the link, the slot and the subgroup agree. *)
Definition linked (w : World) (k : ObjectGuid) (gp : Z) : Prop :=
  exists g s, w_groups w !! gp = Some g /\ _getMemberSlot k g = Some s /\
    forall p, w_players w !! k = Some p -> ms_group s = GetSubGroup p.

Lemma sound_linked w k p gp : sound (core w) -> w_players w !! k = Some p -> GetGroup p = Some gp <-> linked w k gp.
Proof.
  intros Hs Hp. pose proof (sound_links w Hs) as Hl. pose proof (core_player k p w Hp) as Hv. split.
  - intros Hgr. destruct (sound_group_of w Hs k p gp Hp Hgr) as (g & s & Hg & Hsl & _). exists g, s. split; [done|]. split; [done|].
    intros q Hq. assert (q = p) as -> by congruence. exact (wf_sub _ Hl k _ gp _ s Hv (core_group gp g w Hg) Hsl).
  - intros (g & s & Hg & Hsl & _). apply (wf_link _ Hl k _ gp Hv). exists (gview g). split; [by apply core_group|].
    rewrite is_getMemberSlot in Hsl. apply slot_of_Some in Hsl as [? <-]. by apply list_elem_of_fmap_2.
Qed.


(** A run all of whose events are allowed. *)
Lemma reach_run es w : reachable ex_env w -> (forall n e, es !! n = Some e -> allowed e (run (take n es) w)) -> reachable ex_env (run es w).
Proof.
  revert w. induction es as [|e es IH]; intros w Hw Ha; [done|]. cbn [run foldl]. apply IH.
  - apply reach_step; [done|]. exact (Ha 0%nat e eq_refl).
  - intros n e' He. exact (Ha (S n) e' He).
Qed.

(** A row that leads nowhere agrees with a world without groups. *)
Lemma no_row_agrees k w : w_groups w = ∅ -> row_agrees k None w.
Proof.
  intros Hg gp. split; [done|]. intros (g & Hx & _). unfold core in Hx. cbn in Hx. by rewrite Hg, fmap_empty, lookup_empty in Hx.
Qed.

Lemma reachable_party : reachable ex_env party_of_three.
Proof.
  apply reach_run; [constructor|]. intros n e He.
  do 7 (destruct n as [|n]; [injection He as <-; cbn [allowed];
    first [split; [done|split; [by vm_compute|by apply no_row_agrees]] | split; [by vm_compute; eexists|by vm_compute]]|]). done.
Qed.


(** C18: when a member of a group of three or more leaves or is kicked, exactly
    its slot goes, and exactly its link if it is online; a leader is followed
    by the first of the others who is online, in a raid by the first assistant
    of these, and when nobody is online by the first of the others. A group of
    two is dissolved: it is deleted and its identifier unregistered, and no
    player is linked to it. *)
Theorem a_member_leaves `{HashIter} (E : Env) gp g k w :
  reachable E w -> w_groups w !! gp = Some g -> IsMember k g = true ->
  let w' := RemoveFromGroup E gp k w in
  (3 <= GetMembersCount g ->
     (exists g', w_groups w' !! gp = Some g' /\ m_memberSlots g' = others k (m_memberSlots g)
        /\ m_leaderGuid g' = if m_leaderGuid g =? k then successor g k w else m_leaderGuid g)
     /\ (forall j p', w_players w' !! j = Some p' -> exists p, w_players w !! j = Some p
           /\ GetGroup p' = if j =? k then None else GetGroup p))
  /\ (GetMembersCount g = 2 ->
        w_groups w' !! gp = None /\ GetGroupById (m_Id g) w' = None
        /\ forall j p', w_players w' !! j = Some p' -> GetGroup p' <> Some gp).
Proof.
  intros [Hs Hr]%reachable_good Hg Hk%IsMember_guids w'. destruct (slot_of_elem k _ Hk) as [s Hsl].
  assert (Hne : m_memberSlots g <> []) by (intros He; by rewrite He in Hsl). unfold GetMembersCount. split.
  - intros H3. destruct (core_RemoveFromGroup_large E gp k g s w Hs Hg Hsl ltac:(lia)) as [_ Hc]. fold w' in Hc. split.
    + assert (Hg' : exists v, c_groups (core w') !! gp = Some v /\ gv_slots v = others k (m_memberSlots g)
        /\ gv_leader v = if m_leaderGuid g =? k then successor g k w else m_leaderGuid g).
      { rewrite Hc. unfold c_removed. destruct (m_leaderGuid g =? k); cbn; rewrite ?lookup_alter_eq, (core_group gp g w Hg); by eexists. }
      destruct Hg' as (v & Hv & Hv1 & Hv2). apply group_core in Hv as (g' & Hg' & <-). by exists g'.
    + intros j p' Hp'%core_player. assert (Hpl : c_players (core w') = alter pv_leave k (c_players (core w))).
      { rewrite Hc. unfold c_removed. by destruct (m_leaderGuid g =? k). }
      rewrite Hpl in Hp'. destruct (Z.eqb_spec j k) as [->|Hn].
      * rewrite lookup_alter_eq, fmap_Some in Hp'. destruct Hp' as (v & Hv & Hp'). apply player_core in Hv as (p & Hp & <-).
        exists p. split; [done|]. exact (f_equal pv_group Hp').
      * rewrite lookup_alter_ne in Hp' by done. apply player_core in Hp' as (p & Hp & Hv). exists p. split; [done|].
        symmetry. exact (f_equal pv_group Hv).
  - intros H2. assert (Hc : core w' = c_dissolve gp (core w)) by (apply (core_RemoveFromGroup_small E gp k g); [done|done|done|done|lia]).
    split; [|split].
    + destruct (w_groups w' !! gp) as [g'|] eqn:Hg'; [|done]. apply core_group in Hg'. rewrite Hc in Hg'. by apply dissolve_group in Hg' as [? _].
    + unfold GetGroupById. destruct (m_GroupMap w' !! m_Id g) as [gp'|] eqn:Hm; [|done]. change (c_map (core w') !! m_Id g = Some gp') in Hm.
      rewrite Hc in Hm. apply dissolve_map in Hm as [Hn Hm]. destruct (sound_created w Hs gp g Hg Hne) as (_ & _ & Hm'). exfalso.
      change (c_map (core w) !! m_Id g = Some gp) in Hm'. congruence.
    + intros j p' Hp'%core_player. rewrite Hc in Hp'. apply dissolve_player in Hp' as (v & _ & Hv).
      intros Hgr. apply (f_equal pv_group) in Hv. change (GetGroup p' = pv_group (pv_drop gp v)) in Hv. rewrite Hgr in Hv. symmetry in Hv.
      by apply drop_group in Hv as [? _].
Qed.

Lemma a_member_leaves_witness :
  exists g', w_groups (RemoveFromGroup ex_env 1 1 party_of_three) !! 1 = Some g' /\ m_leaderGuid g' = 2.
Proof.
  destruct (w_groups party_of_three !! 1) as [g|] eqn:Hg; [|by vm_compute in Hg].
  assert (H1 : IsMember 1 g = true /\ GetMembersCount g = 3 /\ m_leaderGuid g = 1 /\ successor g 1 party_of_three = 2) by (vm_compute in Hg; injection Hg as <-; by vm_compute).
  destruct H1 as (Hm & Hn & Hl & Hs).
  destruct (proj1 (a_member_leaves ex_env 1 g 1 party_of_three reachable_party Hg Hm) ltac:(lia)) as [(g' & Hg' & _ & Hld) _].
  exists g'. split; [exact Hg'|]. rewrite Hld, Hl, Hs. done.
Defined.

(** ** Offices *)

(** The packets a leader may send for the group, and those an assistant may send as well. *)
Definition needs_leader (m : Packet) : bool :=
  match m with
  | GroupSetLeader _ | LootMethod _ _ _ | GroupRaidConvert | GroupAssistantLeader _ _ | MeetingStoneJoin _ => true
  | _ => false
  end.
Definition needs_officer (m : Packet) : bool :=
  match m with
  | GroupInvite _ | GroupUninviteGuid _ | GroupUninvite _ | GroupChangeSubGroup _ _ | GroupSwapSubGroup _ _ | RaidReadyCheck None => true
  | RaidTargetUpdate x _ => negb (x =? 0xFF)
  | _ => false
  end.
Definition holds_office (m : Packet) (k : ObjectGuid) (g : Group) : bool :=
  implb (needs_leader m) (IsLeader k g) && implb (needs_officer m) (is_officer k g).

(** An answer to the sender. *)
Definition answers (k : ObjectGuid) (w w' : World) : Prop :=
  exists os, w' = emits os w /\ Forall (fun o => match o with SendPacket j _ _ | Notification j => j = k | _ => False end) os.
Lemma answers_nothing k w : answers k w w.
Proof. exists []. split; [|done]. unfold emits. rewrite app_nil_r. by destruct w. Qed.
Lemma answers_packet k op data w : answers k w (emit (SendPacket k op data) w).
Proof. exists [SendPacket k op data]. split; [done|]. by apply Forall_singleton. Qed.
Lemma answers_refusal k op data w : answers k w (emit (Notification k) (emit (SendPacket k op data) w)).
Proof. exists [SendPacket k op data; Notification k]. split; [unfold emit, emits; cbn; by rewrite <- app_assoc|]. by repeat constructor. Qed.
#[export] Hint Resolve answers_nothing answers_packet answers_refusal : core.

Lemma refused_kick p k gp g guid w :
  links (core w) -> w_players w !! k = Some p -> GetGroup p = Some gp -> w_groups w !! gp = Some g -> is_officer k g = false ->
  CanUninviteFromGroup p guid w = ERR_NOT_LEADER.
Proof.
  intros Hl Hp Hgr Hg Hof. destruct (links_player w Hl k p Hp) as (_ & Hk & _). apply orb_false_iff in Hof as [H1 H2].
  unfold CanUninviteFromGroup. rewrite Hgr. unfold test, test_group. rewrite Hg, Hk, H1, H2. by destruct (m_leaderGuid g =? guid).
Qed.

(** Of a member who does not lead the group, or is not even an assistant,
    the packets that take this office change nothing at all, whatever they name:
    at most an answer goes back to the sender. *)
Theorem without_office_nothing_changes `{HashIter} (E : Env) k p gp g m w :
  reachable E w -> w_players w !! k = Some p -> GetGroup p = Some gp -> w_groups w !! gp = Some g ->
  holds_office m k g = false -> answers k w (handle E k m w).
Proof.
  intros [Hs _]%reachable_good Hp Hgr Hg Hno. pose proof (sound_links w Hs) as Hl. pose proof (links_not_bg w Hl gp g Hg) as Hbg.
  assert (Hown : own_group p w = Some gp) by (rewrite links_own_group by eauto; done).
  assert (Hkick : is_officer k g = false -> forall guid, CanUninviteFromGroup p guid w = ERR_NOT_LEADER).
  { intros Hof guid. by apply (refused_kick p k gp g). }
  unfold holds_office in Hno. destruct m; cbn [needs_leader needs_officer implb andb handle] in *; rewrite ?andb_true_r in Hno; try done.
  - unfold HandleGroupInviteOpcode, with_player, SendPartyResult. rewrite Hp. destruct (normalizePlayerName E membername); [|auto].
    destruct (GetPlayer_name E l w) as [q|]; [|auto]. destruct (invite_refused E p q) as [[err|]|]; cbn zeta; [|auto|].
    { by destruct (negb _). }
    destruct (_ || _); [auto|]. rewrite Hown. unfold deref. rewrite Hg. unfold is_officer in Hno. apply orb_false_iff in Hno as [-> ->].
    apply answers_packet.
  - unfold HandleGroupUninviteGuidOpcode, with_player, SendPartyResult. rewrite Hp. destruct (guid =? k); [auto|]. cbn zeta.
    rewrite (Hkick Hno). apply answers_packet.
  - unfold HandleGroupUninviteOpcode, with_player, with_group, deref, SendPartyResult. rewrite Hp. destruct (normalizePlayerName E membername); [|auto].
    case_bool_decide; [auto|]. rewrite Hgr, Hg. cbn zeta. 
    destruct (negb (IsEmpty (GetMemberGuid l g))); [rewrite (Hkick Hno); apply answers_packet|].
    destruct (GetInvited_name l g w); [rewrite (Hkick Hno); apply answers_packet|auto].
  - unfold HandleGroupSetLeaderOpcode, with_player, with_group, deref. rewrite Hp, Hgr, Hg, Hno. by destruct (GetPlayer guid w).
  - unfold HandleLootMethodOpcode, with_player, deref. rewrite Hp. destruct (4 <? lootMethod); [auto|]. destruct (_ || _); [auto|]. cbn zeta.
    rewrite Hgr. unfold test_group. rewrite Hg, Hbg, Hg, Hno. auto.
  - unfold HandleRaidTargetUpdateOpcode, with_player, deref. rewrite Hp, Hgr, Hg. destruct (x =? 0xFF); [done|]. cbn in Hno. rewrite Hno. auto.
  - unfold HandleGroupRaidConvertOpcode, with_player, with_group, deref. rewrite Hp, Hgr, Hg, Hno. by destruct (pi_inBattleGround _).
  - unfold HandleGroupChangeSubGroupOpcode, with_player, with_group, deref. rewrite Hp, Hgr, Hg, Hno. by destruct (_ <=? _).
  - unfold HandleGroupSwapSubGroupOpcode, with_player, with_group, deref. rewrite Hp, Hgr, Hg, Hno. auto.
  - unfold HandleGroupAssistantLeaderOpcode, with_player, with_group, deref. rewrite Hp, Hgr, Hg, Hno. auto.
  - destruct answer; [done|]. unfold HandleRaidReadyCheckOpcode, with_player, with_group, deref. rewrite Hp, Hgr, Hg. cbn in Hno. rewrite Hno. auto.
  - unfold HandleMeetingStoneJoinOpcode, with_player, deref. rewrite Hp. destruct (MeetingStoneArea E p guid); [|auto]. rewrite Hgr, Hg, Hno.
    apply answers_packet.
Qed.

Lemma without_office_nothing_changes_witness : answers 2 party_of_three (handle ex_env 2 (GroupUninviteGuid 3) party_of_three).
Proof.
  destruct (w_players party_of_three !! 2) as [p|] eqn:Hp; [|by vm_compute in Hp].
  destruct (w_groups party_of_three !! 1) as [g|] eqn:Hg; [|by vm_compute in Hg].
  apply (without_office_nothing_changes ex_env 2 p 1 g); [exact reachable_party|exact Hp| |exact Hg|].
  - vm_compute in Hp. by injection Hp as <-.
  - vm_compute in Hg. by injection Hg as <-.
Defined.

(** ** The queue of the meeting stones against the groups

    [LFG_Update] is not among the events of [GroupReach]: run on a world that
    is reachable without it, it breaks what these worlds guarantee. *)

(** Five players queue for the area 100; one of them is invited by a sixth and accepts. *)
Definition queue_then_party : list Event :=
  logins [1; 2; 3; 4; 5; 6] ++ ((fun k => EPacket k (MeetingStoneJoin 100)) <$> [1; 2; 3; 4; 5]) ++ joins 6 2.
Definition queued_world : World := run queue_then_party start.

Lemma reachable_queued : reachable ex_env queued_world.
Proof.
  apply reach_run; [constructor|]. intros n e He.
  do 13 (destruct n as [|n]; [injection He as <-; cbn [allowed];
    first [split; [done|split; [by vm_compute|by apply no_row_agrees]] | split; [by vm_compute; eexists|by vm_compute]]|]). done.
Qed.

(** A queued player who joins a party stays queued, and the next update of
    the queue puts him into the group it forms as well: after five players
    queued and one of them accepted an invitation, the update leaves this one
    a member of two groups. *)
Theorem queue_forgets_the_party :
  exists w gp1 gp2 g1 g2, reachable ex_env w /\ gp1 <> gp2
    /\ w_groups (LFG_Update ex_env 1000 w) !! gp1 = Some g1 /\ w_groups (LFG_Update ex_env 1000 w) !! gp2 = Some g2
    /\ IsMember 2 g1 = true /\ IsMember 2 g2 = true.
Proof.
  exists queued_world, 1, 2.
  destruct (w_groups (LFG_Update ex_env 1000 queued_world) !! 1) as [g1|] eqn:H1; [|by vm_compute in H1].
  destruct (w_groups (LFG_Update ex_env 1000 queued_world) !! 2) as [g2|] eqn:H2; [|by vm_compute in H2].
  exists g1, g2. split; [exact reachable_queued|]. split; [done|]. split; [done|]. split; [done|].
  vm_compute in H1, H2. injection H1 as <-. injection H2 as <-. by vm_compute.
Qed.
