(* ===== verification/Inventory.v ===== *)
(** * Inventory: the items of a character and where new ones fit

    The slots of Player, the positions and counts of
    src/src/game/Objects/Player.cpp, Bag.h, Bag.cpp, the parts of Item.h and
    Item.cpp that storage asks for, and the decisions that come before a move:
    [CanStoreItem], [CanBankItem], [CanStoreItems], [CanEquipItem],
    [CanUnequipItem].

    Items are objects on a heap, shared by pointers: an item is addressed by
    its GUID ([heap]), the slots of a character and of a bag hold GUIDs.
    [deref] reads an object through its pointer; the proofs show that the
    pointers that occur are live and that what is cast to Bag is a bag. Item
    templates ([protos]) are content. Field updates for clients, statistics,
    auras and durations of enchantments are left out. *)
From S2P Require Import Prelude.

(** ** Slots *)

Definition NULL_BAG : Z := 0.
Definition NULL_SLOT : Z := 255.
Definition INVENTORY_SLOT_BAG_0 : Z := 255.
Definition EQUIPMENT_SLOT_START : Z := 0.
Definition EQUIPMENT_SLOT_MAINHAND : Z := 15.
Definition EQUIPMENT_SLOT_OFFHAND : Z := 16.
Definition EQUIPMENT_SLOT_RANGED : Z := 17.
Definition EQUIPMENT_SLOT_END : Z := 19.
Definition INVENTORY_SLOT_BAG_START : Z := 19.
Definition INVENTORY_SLOT_BAG_END : Z := 23.
Definition INVENTORY_SLOT_ITEM_START : Z := 23.
Definition INVENTORY_SLOT_ITEM_END : Z := 39.
Definition BANK_SLOT_ITEM_START : Z := 39.
Definition BANK_SLOT_ITEM_END : Z := 63.
Definition BANK_SLOT_BAG_START : Z := 63.
Definition BANK_SLOT_BAG_END : Z := 69.
Definition BUYBACK_SLOT_START : Z := 69.
Definition BUYBACK_SLOT_END : Z := 81.
Definition KEYRING_SLOT_START : Z := 81.
Definition KEYRING_SLOT_END : Z := 113.
Definition PLAYER_SLOT_END : Z := 118.
Definition MAX_BAG_SIZE : Z := 36.
(** LAST_ITEM_SLOT_FIELD as a distance from PLAYER_FIELD_INV_SLOT_HEAD: the
    sizes of the fields before the last key. *)
Definition LAST_ITEM_SLOT_FIELD : Z := 46 + 32 + 48 + 12 + 24 + 62.
Definition GetMaxKeyringSize : Z := KEYRING_SLOT_END - KEYRING_SLOT_START.

(** ** Results *)

Definition InventoryResult : Type := Z.
Definition EQUIP_ERR_OK : InventoryResult := 0.
Definition EQUIP_ERR_ITEM_DOESNT_GO_TO_SLOT : InventoryResult := 3.
Definition EQUIP_ERR_NONEMPTY_BAG_OVER_OTHER_BAG : InventoryResult := 5.
Definition EQUIP_ERR_NO_EQUIPMENT_SLOT_AVAILABLE : InventoryResult := 9.
Definition EQUIP_ERR_CANT_EQUIP_WITH_TWOHANDED : InventoryResult := 13.
Definition EQUIP_ERR_CANT_DUAL_WIELD : InventoryResult := 14.
Definition EQUIP_ERR_ITEM_DOESNT_GO_INTO_BAG : InventoryResult := 15.
Definition EQUIP_ERR_CANT_CARRY_MORE_OF_THIS : InventoryResult := 17.
Definition EQUIP_ERR_ITEM_CANT_STACK : InventoryResult := 19.
Definition EQUIP_ERR_ITEM_CANT_BE_EQUIPPED : InventoryResult := 20.
Definition EQUIP_ERR_ITEMS_CANT_BE_SWAPPED : InventoryResult := 21.
Definition EQUIP_ERR_ITEM_NOT_FOUND : InventoryResult := 23.
Definition EQUIP_ERR_CANT_DROP_SOULBOUND : InventoryResult := 24.
Definition EQUIP_ERR_TRIED_TO_SPLIT_MORE_THAN_COUNT : InventoryResult := 26.
Definition EQUIP_ERR_COULDNT_SPLIT_ITEMS : InventoryResult := 27.
Definition EQUIP_ERR_CAN_ONLY_DO_WITH_EMPTY_BAGS : InventoryResult := 31.
Definition EQUIP_ERR_DONT_OWN_THAT_ITEM : InventoryResult := 32.
Definition EQUIP_ERR_CAN_EQUIP_ONLY1_QUIVER : InventoryResult := 33.
Definition EQUIP_ERR_MUST_PURCHASE_THAT_BAG_SLOT : InventoryResult := 34.
Definition EQUIP_ERR_YOU_ARE_STUNNED : InventoryResult := 37.
Definition EQUIP_ERR_YOU_ARE_DEAD : InventoryResult := 38.
Definition EQUIP_ERR_CANT_DO_RIGHT_NOW : InventoryResult := 39.
Definition EQUIP_ERR_CAN_EQUIP_ONLY1_AMMOPOUCH : InventoryResult := 42.
Definition EQUIP_ERR_ALREADY_LOOTED : InventoryResult := 49.
Definition EQUIP_ERR_INVENTORY_FULL : InventoryResult := 50.
Definition EQUIP_ERR_BANK_FULL : InventoryResult := 51.
Definition EQUIP_ERR_NONE : InventoryResult := 59.
Definition EQUIP_ERR_NOT_IN_COMBAT : InventoryResult := 60.
Definition EQUIP_ERR_CANT_EQUIP_REPUTATION : InventoryResult := 64.

(** ** Templates *)

Record ItemPrototype := mkProto {
  Class_ : Z; SubClass : Z; Flags : Z; InventoryType : Z; MaxCount : Z; Stackable : Z; ContainerSlots : Z;
  Bonding : Z; Area : Z; Map_ : Z; BagFamily : Z;
  RequiredReputation : bool;   (* RequiredReputationFaction != 0 *)
  Restorable : bool            (* what HandleDestroyItemOpcode asks of duration, charges, quality, zone and quest *)
}.
Definition GetMaxStackSize (p : ItemPrototype) : Z := Stackable p.

Definition ITEM_CLASS_CONSUMABLE : Z := 0.
Definition ITEM_CLASS_CONTAINER : Z := 1.
Definition ITEM_CLASS_WEAPON : Z := 2.
Definition ITEM_CLASS_PROJECTILE : Z := 6.
Definition ITEM_CLASS_QUIVER : Z := 11.
Definition ITEM_SUBCLASS_CONTAINER : Z := 0.
Definition ITEM_SUBCLASS_SOUL_CONTAINER : Z := 1.
Definition ITEM_SUBCLASS_HERB_CONTAINER : Z := 2.
Definition ITEM_SUBCLASS_ENCHANTING_CONTAINER : Z := 3.
Definition ITEM_SUBCLASS_ENGINEERING_CONTAINER : Z := 4.
Definition ITEM_SUBCLASS_QUIVER : Z := 2.
Definition ITEM_SUBCLASS_AMMO_POUCH : Z := 3.
Definition BAG_FAMILY_ARROWS : Z := 1.
Definition BAG_FAMILY_BULLETS : Z := 2.
Definition BAG_FAMILY_SOUL_SHARDS : Z := 3.
Definition BAG_FAMILY_HERBS : Z := 6.
Definition BAG_FAMILY_ENCHANTING_SUPP : Z := 7.
Definition BAG_FAMILY_ENGINEERING_SUPP : Z := 8.
Definition BAG_FAMILY_KEYS : Z := 9.
Definition INVTYPE_BAG : Z := 18.
Definition INVTYPE_2HWEAPON : Z := 17.
Definition INVTYPE_WEAPON : Z := 13.
Definition INVTYPE_SHIELD : Z := 14.
Definition INVTYPE_WEAPONOFFHAND : Z := 22.
Definition INVTYPE_HOLDABLE : Z := 23.
Definition INVTYPE_RELIC : Z := 28.
Definition BIND_WHEN_PICKED_UP : Z := 1.
Definition BIND_WHEN_EQUIPPED : Z := 2.
Definition BIND_QUEST_ITEM : Z := 4.
Definition BIND_ACCOUNT : Z := 6.
Definition ITEM_FLAG_CONJURED : Z := 0x2.
Definition ITEM_FLAG_INDESTRUCTIBLE : Z := 0x20.
Definition ITEM_FLAG_UNIQUE_EQUIPPED : Z := 0x80000.

Definition CanChangeEquipStateInCombat (p : ItemPrototype) : bool :=
  if (InventoryType p =? INVTYPE_RELIC) || (InventoryType p =? INVTYPE_SHIELD) || (InventoryType p =? INVTYPE_HOLDABLE) then true
  else (Class_ p =? ITEM_CLASS_WEAPON) || (Class_ p =? ITEM_CLASS_PROJECTILE).
Definition IsOffHandItem (p : ItemPrototype) : bool :=
  (InventoryType p =? INVTYPE_SHIELD) || (InventoryType p =? INVTYPE_WEAPONOFFHAND) || (InventoryType p =? INVTYPE_HOLDABLE).
Definition IsConjuredConsumable (p : ItemPrototype) : bool :=
  (Class_ p =? ITEM_CLASS_CONSUMABLE) && negb (Z.land (Flags p) ITEM_FLAG_CONJURED =? 0).

Definition ItemCanGoIntoBag (pProto pBagProto : ItemPrototype) : bool :=
  if Class_ pBagProto =? ITEM_CLASS_CONTAINER then
    if SubClass pBagProto =? ITEM_SUBCLASS_CONTAINER then true
    else if SubClass pBagProto =? ITEM_SUBCLASS_SOUL_CONTAINER then BagFamily pProto =? BAG_FAMILY_SOUL_SHARDS
    else if SubClass pBagProto =? ITEM_SUBCLASS_HERB_CONTAINER then BagFamily pProto =? BAG_FAMILY_HERBS
    else if SubClass pBagProto =? ITEM_SUBCLASS_ENCHANTING_CONTAINER then BagFamily pProto =? BAG_FAMILY_ENCHANTING_SUPP
    else if SubClass pBagProto =? ITEM_SUBCLASS_ENGINEERING_CONTAINER then BagFamily pProto =? BAG_FAMILY_ENGINEERING_SUPP
    else false
  else if Class_ pBagProto =? ITEM_CLASS_QUIVER then
    if SubClass pBagProto =? ITEM_SUBCLASS_QUIVER then BagFamily pProto =? BAG_FAMILY_ARROWS
    else if SubClass pBagProto =? ITEM_SUBCLASS_AMMO_POUCH then BagFamily pProto =? BAG_FAMILY_BULLETS
    else false
  else false.

(** ** Items and inventories *)

(** An item; the fields from [i_numSlots] on are those of its subclass Bag,
    without use in an item that is no bag. *)
Record Item := mkItem {
  i_entry : Z;
  i_count : Z;
  i_owner : Z;
  i_binded : bool;             (* ITEM_DYNFLAG_BINDED *)
  i_boa : bool;                (* ITEM_DYNFLAG_BOA *)
  i_wrapped : bool;            (* ITEM_DYNFLAG_WRAPPED *)
  i_generatedLoot : bool;      (* HasGeneratedLoot() *)
  i_temporaryLoot : bool;      (* HasTemporaryLoot() *)
  i_inTrade : bool;            (* mb_in_trade *)
  i_tradeUntil : Z;            (* m_tradeAllowedUntil *)
  i_slot : Z;                  (* m_slot *)
  i_container : option Z;      (* m_container *)
  i_numSlots : Z;              (* CONTAINER_FIELD_NUM_SLOTS *)
  i_bagslot : gmap Z Z         (* m_bagslot *)
}.
Definition noItem : Item := mkItem 0 0 0 false false false false false false 0 NULL_SLOT None 0 ∅.

(** What moves of items ask of the character: what Player and its session
    answer at the time of the packet. *)
Record Character := mkCharacter {
  ch_guid : Z;
  ch_class : Z;
  ch_alive : bool;
  ch_stunned : bool;
  ch_combat : bool;
  ch_loggingOut : bool;
  ch_weaponTimer : bool;                                  (* m_weaponChangeTimer != 0 *)
  ch_dualWield : bool;
  ch_canUseBank : bool;                                   (* WorldSession::CanUseBank() *)
  ch_bankBagSlots : Z;                                    (* GetBankBagSlotCount() *)
  ch_suspicious : bool;                                   (* IsSuspicious() *)
  ch_looting : bool;                                      (* GetLootGuid() *)
  ch_time : Z;                                            (* the game time *)
  ch_tradeSlots : list Z;                                 (* items in the own trade window *)
  ch_challengeForbids : ItemPrototype -> option Item -> bool;
  ch_canUseProto : ItemPrototype -> bool -> InventoryResult;   (* class, race, skill, spell, honor and level *)
  ch_reputationTooLow : ItemPrototype -> bool
}.

(** What is sent, logged or handed to other systems. *)
Inductive Out :=
| EquipError (msg : InventoryResult) (item item2 : option Z)
| CheatAction (what : string)
| QuestItemAdded (entry count : Z)
| QuestItemRemoved (entry count : Z)
| ItemRemoved (guid : Z)                       (* SetState(ITEM_REMOVED): deleted with its row *)
| GiftDeleted (guid : Z)                       (* DELETE FROM character_gifts *)
| PetitionOf (guid : Z)                        (* the petition of a destroyed charter *)
| DestroyedItemSaved (entry count : Z)         (* INSERT INTO character_destroyed_items *)
| ItemMailed (guid : Z) (item : Item)
| NewItemPushed (guid count : Z)                (* SMSG_ITEM_PUSH_RESULT *)
| SysMessage (text : string)
| LootReleased.

Record Inventory := mkInventory {
  inv_char : Character;
  m_items : gmap Z Z;
  heap : gmap Z Item;
  inv_next : Z;                                (* the generator of low GUIDs of items *)
  inv_out : list Out
}.

Definition set_items (m : gmap Z Z) (inv : Inventory) : Inventory :=
  mkInventory (inv_char inv) m (heap inv) (inv_next inv) (inv_out inv).
Definition set_heap (h : gmap Z Item) (inv : Inventory) : Inventory :=
  mkInventory (inv_char inv) (m_items inv) h (inv_next inv) (inv_out inv).
Definition emit (o : Out) (inv : Inventory) : Inventory :=
  mkInventory (inv_char inv) (m_items inv) (heap inv) (inv_next inv) (inv_out inv ++ [o]).
Definition upd (g : Z) (f : Item -> Item) (inv : Inventory) : Inventory := set_heap (alter f g (heap inv)) inv.

Definition deref (inv : Inventory) (g : Z) : Item := default noItem (heap inv !! g).
Definition GetCount (inv : Inventory) (g : Z) : Z := i_count (deref inv g).
Definition GetEntry (inv : Inventory) (g : Z) : Z := i_entry (deref inv g).
Definition GetSlot (inv : Inventory) (g : Z) : Z := i_slot (deref inv g).
Definition GetBagSlot (inv : Inventory) (g : Z) : Z :=
  match i_container (deref inv g) with Some b => GetSlot inv b | None => INVENTORY_SLOT_BAG_0 end.
(** [bag << 8 | slot] of two bytes. *)
Definition pos_of (bag slot : Z) : Z := bag * 256 + slot.
Definition GetPos (inv : Inventory) (g : Z) : Z := pos_of (GetBagSlot inv g) (GetSlot inv g).
Definition GetBagSize (inv : Inventory) (b : Z) : Z := i_numSlots (deref inv b).
Definition IsEquipped (inv : Inventory) (g : Z) : bool :=
  bool_decide (i_container (deref inv g) = None) && (GetSlot inv g <? EQUIPMENT_SLOT_END).

(** The slots of a loop [for (i = lo; i < hi; ++i)]. *)
Definition slots (lo hi : Z) : list Z := seqZ lo (hi - lo).

(** Bag::IsEmpty *)
Definition IsEmpty (inv : Inventory) (b : Z) : bool :=
  forallb (fun j => bool_decide (i_bagslot (deref inv b) !! j = None)) (slots 0 (GetBagSize inv b)).
(** Bag::GetItemByPos *)
Definition Bag_GetItemByPos (inv : Inventory) (b slot : Z) : option Z :=
  if slot <? GetBagSize inv b then i_bagslot (deref inv b) !! slot else None.

(** ** Positions *)

Definition is_bag_slot (bag : Z) : bool := (INVENTORY_SLOT_BAG_START <=? bag) && (bag <? INVENTORY_SLOT_BAG_END).
Definition is_bank_bag_slot (bag : Z) : bool := (BANK_SLOT_BAG_START <=? bag) && (bag <? BANK_SLOT_BAG_END).

Definition GetItemByPos (inv : Inventory) (bag slot : Z) : option Z :=
  if (bag =? INVENTORY_SLOT_BAG_0) && ((slot <? BANK_SLOT_BAG_END) || ((KEYRING_SLOT_START <=? slot) && (slot <? KEYRING_SLOT_END)))
  then m_items inv !! slot
  else if is_bag_slot bag || is_bank_bag_slot bag then
    match m_items inv !! bag with
    | Some pBag => Bag_GetItemByPos inv pBag slot
    | None => None
    end
  else None.
Definition GetItemByPos_pos (inv : Inventory) (pos : Z) : option Z := GetItemByPos inv (pos / 256) (pos mod 256).

Definition IsInventoryPos (bag slot : Z) : bool :=
  if (bag =? INVENTORY_SLOT_BAG_0) && (slot =? NULL_SLOT) then true
  else if (bag =? INVENTORY_SLOT_BAG_0) && ((INVENTORY_SLOT_ITEM_START <=? slot) && (slot <? INVENTORY_SLOT_ITEM_END)) then true
  else if is_bag_slot bag then true
  else (bag =? INVENTORY_SLOT_BAG_0) && ((KEYRING_SLOT_START <=? slot) && (slot <? KEYRING_SLOT_END)).
Definition IsEquipmentPos (bag slot : Z) : bool :=
  if (bag =? INVENTORY_SLOT_BAG_0) && (slot <? EQUIPMENT_SLOT_END) then true
  else (bag =? INVENTORY_SLOT_BAG_0) && is_bag_slot slot.
Definition IsBankPos (bag slot : Z) : bool :=
  if (bag =? INVENTORY_SLOT_BAG_0) && ((BANK_SLOT_ITEM_START <=? slot) && (slot <? BANK_SLOT_ITEM_END)) then true
  else if (bag =? INVENTORY_SLOT_BAG_0) && is_bank_bag_slot slot then true
  else is_bank_bag_slot bag.
Definition IsBagPos (bag slot : Z) : bool :=
  if (bag =? INVENTORY_SLOT_BAG_0) && is_bag_slot slot then true
  else (bag =? INVENTORY_SLOT_BAG_0) && is_bank_bag_slot slot.
Definition IsValidPos (inv : Inventory) (bag slot : Z) (explicit_pos : bool) : bool :=
  if (bag =? NULL_BAG) && negb explicit_pos then true
  else if bag =? INVENTORY_SLOT_BAG_0 then
    if (slot =? NULL_SLOT) && negb explicit_pos then true
    else if slot <? EQUIPMENT_SLOT_END then true
    else if is_bag_slot slot then true
    else if (INVENTORY_SLOT_ITEM_START <=? slot) && (slot <? INVENTORY_SLOT_ITEM_END) then true
    else if (KEYRING_SLOT_START <=? slot) && (slot <? KEYRING_SLOT_END) then true
    else if (BANK_SLOT_ITEM_START <=? slot) && (slot <? BANK_SLOT_ITEM_END) then true
    else is_bank_bag_slot slot
  else if is_bag_slot bag || is_bank_bag_slot bag then
    match GetItemByPos inv INVENTORY_SLOT_BAG_0 bag with
    | None => false
    | Some pBag => if (slot =? NULL_SLOT) && negb explicit_pos then true else slot <? GetBagSize inv pBag
    end
  else false.

(** ** Counting *)

(** The positions a loop over the own slots or over the bags visits. *)
Definition main_positions (lo hi : Z) : list (Z * Z) := (fun i => (INVENTORY_SLOT_BAG_0, i)) <$> slots lo hi.
Definition bag_positions (inv : Inventory) (lo hi : Z) : list (Z * Z) :=
  i ← slots lo hi;
  match GetItemByPos inv INVENTORY_SLOT_BAG_0 i with
  | Some pBag => (fun j => (i, j)) <$> slots 0 (GetBagSize inv pBag)
  | None => []
  end.
Definition items_at (inv : Inventory) (ps : list (Z * Z)) : list Z := omap (fun p => GetItemByPos inv (fst p) (snd p)) ps.

(** The items [ApplyForAllItems] applies its function to, in order. *)
Definition own_positions (inv : Inventory) (inBank : bool) : list (Z * Z) :=
  main_positions EQUIPMENT_SLOT_START INVENTORY_SLOT_ITEM_END ++ main_positions KEYRING_SLOT_START KEYRING_SLOT_END ++
  bag_positions inv INVENTORY_SLOT_BAG_START INVENTORY_SLOT_BAG_END ++
  if inBank then main_positions BANK_SLOT_ITEM_START BANK_SLOT_BAG_END ++ bag_positions inv BANK_SLOT_BAG_START BANK_SLOT_BAG_END
  else [].
Definition ApplyForAllItems (inv : Inventory) (inBank : bool) : list Z := items_at inv (own_positions inv inBank).

Definition GetItemCount (inv : Inventory) (item : Z) (inBankAlso : bool) (skipItem : option Z) : Z :=
  fold_left (fun count g =>
      if negb (bool_decide (Some g = skipItem)) && (GetEntry inv g =? item) then u32 (count + GetCount inv g) else count)
    (ApplyForAllItems inv inBankAlso) 0.

Fixpoint HasItemCount_loop (inv : Inventory) (item count tempcount : Z) (ps : list (Z * Z)) : bool :=
  match ps with
  | [] => false
  | (bag, slot) :: ps =>
      match GetItemByPos inv bag slot with
      | Some pItem =>
          if (GetEntry inv pItem =? item) && negb (i_inTrade (deref inv pItem)) then
            let tempcount := u32 (tempcount + GetCount inv pItem) in
            if count <=? tempcount then true else HasItemCount_loop inv item count tempcount ps
          else HasItemCount_loop inv item count tempcount ps
      | None => HasItemCount_loop inv item count tempcount ps
      end
  end.
Definition HasItemCount (inv : Inventory) (item count : Z) (inBankAlso : bool) : bool :=
  HasItemCount_loop inv item count 0 (own_positions inv inBankAlso).

Fixpoint HasItemWithIdEquipped_loop (inv : Inventory) (item count except_slot tempcount : Z) (js : list Z) : bool :=
  match js with
  | [] => false
  | i :: js =>
      if i =? except_slot then HasItemWithIdEquipped_loop inv item count except_slot tempcount js
      else match GetItemByPos inv INVENTORY_SLOT_BAG_0 i with
      | Some pItem =>
          if GetEntry inv pItem =? item then
            let tempcount := u32 (tempcount + GetCount inv pItem) in
            if count <=? tempcount then true else HasItemWithIdEquipped_loop inv item count except_slot tempcount js
          else HasItemWithIdEquipped_loop inv item count except_slot tempcount js
      | None => HasItemWithIdEquipped_loop inv item count except_slot tempcount js
      end
  end.
Definition HasItemWithIdEquipped (inv : Inventory) (item count except_slot : Z) : bool :=
  HasItemWithIdEquipped_loop inv item count except_slot 0 (slots EQUIPMENT_SLOT_START EQUIPMENT_SLOT_END).

Definition GetItemByGuid (inv : Inventory) (guid : Z) : option Z :=
  List.find (Z.eqb guid) (items_at inv
    (main_positions EQUIPMENT_SLOT_START INVENTORY_SLOT_ITEM_END ++ main_positions KEYRING_SLOT_START KEYRING_SLOT_END ++
     bag_positions inv INVENTORY_SLOT_BAG_START INVENTORY_SLOT_BAG_END ++
     main_positions BANK_SLOT_ITEM_START BANK_SLOT_ITEM_END ++ bag_positions inv BANK_SLOT_BAG_START BANK_SLOT_BAG_END)).

(** Where items go, as a list of positions and counts; the count is a byte. *)
Definition ItemPosCountVec : Type := list (Z * Z).
Definition ItemPosCount (pos count : Z) : Z * Z := (u16 pos, u8 count).
Definition isContainedIn (p : Z * Z) (vec : ItemPosCountVec) : bool := existsb (fun q => fst q =? fst p) vec.

Definition noProto : ItemPrototype := mkProto 0 0 0 0 0 0 0 0 0 0 0 false false.

Section Templates.
Variable protos : Z -> option ItemPrototype.   (* sObjectMgr.GetItemPrototype *)

(** Item::GetProto; items have a template ([Item::Create] and
    [Item::LoadFromDB] refuse others). *)
Definition GetProto (inv : Inventory) (g : Z) : ItemPrototype := default noProto (protos (GetEntry inv g)).
Definition IsBag (inv : Inventory) (g : Z) : bool := InventoryType (GetProto inv g) =? INVTYPE_BAG.
Definition NonEmptyBag (inv : Inventory) (pSrcItem : option Z) : bool :=
  match pSrcItem with Some g => IsBag inv g && negb (IsEmpty inv g) | None => false end.

Definition CanBeTradedEvenIfSoulBound (inv : Inventory) (g : Z) : bool := ch_time (inv_char inv) <? i_tradeUntil (deref inv g).
Definition IsSoulBound (inv : Inventory) (g : Z) : bool := i_binded (deref inv g) || i_boa (deref inv g).
Definition IsBindedNotWith (inv : Inventory) (g : Z) : bool :=
  if i_owner (deref inv g) =? ch_guid (inv_char inv) then false
  else if i_generatedLoot (deref inv g) then true
  else negb (negb (IsSoulBound inv g) || CanBeTradedEvenIfSoulBound inv g).

Definition CanBeMergedPartlyWith (inv : Inventory) (g item : Z) (proto : ItemPrototype) : InventoryResult :=
  if negb (GetEntry inv g =? item) then EQUIP_ERR_ITEM_CANT_STACK
  else if GetMaxStackSize proto <=? GetCount inv g then EQUIP_ERR_ITEM_CANT_STACK
  else if i_generatedLoot (deref inv g) then EQUIP_ERR_ALREADY_LOOTED
  else EQUIP_ERR_OK.

(** The result and [no_space_count], 0 when it is left alone. *)
Definition CanTakeMoreSimilarItems_ (inv : Inventory) (entry count : Z) (pItem : option Z) : InventoryResult * Z :=
  match protos entry with
  | None => (EQUIP_ERR_CANT_CARRY_MORE_OF_THIS, count)
  | Some pProto =>
      if 0 <? MaxCount pProto then
        let curcount := GetItemCount inv entry true pItem in
        if MaxCount pProto <? u32 (curcount + count)
        then (EQUIP_ERR_CANT_CARRY_MORE_OF_THIS, u32 (count + curcount - MaxCount pProto))
        else (EQUIP_ERR_OK, 0)
      else (EQUIP_ERR_OK, 0)
  end.
Definition CanTakeMoreSimilarItems (inv : Inventory) (pItem : Z) : InventoryResult :=
  fst (CanTakeMoreSimilarItems_ inv (GetEntry inv pItem) (GetCount inv pItem) (Some pItem)).

(** ** Where an item fits

    The searches extend the positions found so far and lower the count that is
    left: both are threaded as a pair. [item] is [pProto->ItemId]. *)
Definition Found : Type := ItemPosCountVec * Z.

(** [dest.push_back] and [count -=], unless the position is there already. *)
Definition push (bag slot need_space : Z) (f : Found) : Found :=
  let '(dest, count) := f in
  let need_space := if count <? need_space then count else need_space in
  let newPosition := ItemPosCount (pos_of bag slot) need_space in
  if isContainedIn newPosition dest then f else (dest ++ [newPosition], u32 (count - need_space)).

(** The item at a position, without the item that is moved. *)
Definition other_item (inv : Inventory) (bag slot : Z) (pSrcItem : option Z) : option Z :=
  let pItem2 := GetItemByPos inv bag slot in
  if bool_decide (pItem2 = pSrcItem) then None else pItem2.

Definition CanStoreItem_InSpecificSlot (inv : Inventory) (bag slot : Z) (item : Z) (pProto : ItemPrototype) (swap : bool)
    (pSrcItem : option Z) (f : Found) : InventoryResult * Found :=
  let pItem2 := other_item inv bag slot pSrcItem in
  if NonEmptyBag inv pSrcItem then (EQUIP_ERR_CAN_ONLY_DO_WITH_EMPTY_BAGS, f)
  else match (if swap then None else pItem2) with
  | None =>
      if bag =? INVENTORY_SLOT_BAG_0 then
        if (KEYRING_SLOT_START <=? slot) && (slot <? KEYRING_SLOT_START + GetMaxKeyringSize) && negb (BagFamily pProto =? BAG_FAMILY_KEYS)
        then (EQUIP_ERR_ITEM_DOESNT_GO_INTO_BAG, f)
        else if ((BUYBACK_SLOT_START <=? slot) && (slot <? BUYBACK_SLOT_END)) || (PLAYER_SLOT_END <=? slot)
        then (EQUIP_ERR_ITEM_DOESNT_GO_INTO_BAG, f)
        else (EQUIP_ERR_OK, push bag slot (Stackable pProto) f)
      else match GetItemByPos inv INVENTORY_SLOT_BAG_0 bag with
      | None => (EQUIP_ERR_ITEM_DOESNT_GO_INTO_BAG, f)
      | Some pBag =>
          if bool_decide (Some pBag = pSrcItem) then (EQUIP_ERR_ITEM_DOESNT_GO_INTO_BAG, f)
          else if ContainerSlots (GetProto inv pBag) <=? slot then (EQUIP_ERR_ITEM_DOESNT_GO_INTO_BAG, f)
          else if negb (ItemCanGoIntoBag pProto (GetProto inv pBag)) then (EQUIP_ERR_ITEM_DOESNT_GO_INTO_BAG, f)
          else (EQUIP_ERR_OK, push bag slot (Stackable pProto) f)
      end
  | Some pItem2 =>
      let res := CanBeMergedPartlyWith inv pItem2 item pProto in
      if negb (res =? EQUIP_ERR_OK) then (res, f)
      else (EQUIP_ERR_OK, push bag slot (u32 (Stackable pProto - GetCount inv pItem2)) f)
  end.

(** One turn of the loops over slots: the items found afterwards, and whether
    the loop ends because nothing is left. *)
Definition try_slot (inv : Inventory) (bag j : Z) (item : Z) (pProto : ItemPrototype) (merge : bool) (pSrcItem : option Z)
    (f : Found) : Found * bool :=
  let pItem2 := other_item inv bag j pSrcItem in
  if negb (Bool.eqb (bool_decide (pItem2 <> None)) merge) then (f, false)
  else
    let put need_space :=
      let f' := push bag j need_space f in
      (f', negb (isContainedIn (ItemPosCount (pos_of bag j) 0) (fst f)) && (snd f' =? 0)) in
    match pItem2 with
    | Some g =>
        if negb (CanBeMergedPartlyWith inv g item pProto =? EQUIP_ERR_OK) then (f, false)
        else put (u32 (GetMaxStackSize pProto - GetCount inv g))
    | None => put (GetMaxStackSize pProto)
    end.
Fixpoint try_slots (inv : Inventory) (bag : Z) (item : Z) (pProto : ItemPrototype) (merge : bool) (pSrcItem : option Z)
    (skip : Z -> bool) (js : list Z) (f : Found) : Found :=
  match js with
  | [] => f
  | j :: js =>
      if skip j then try_slots inv bag item pProto merge pSrcItem skip js f
      else let '(f', done) := try_slot inv bag j item pProto merge pSrcItem f in
           if done : bool then f' else try_slots inv bag item pProto merge pSrcItem skip js f'
  end.

Definition plain_container (p : ItemPrototype) : bool := (Class_ p =? ITEM_CLASS_CONTAINER) && (SubClass p =? ITEM_SUBCLASS_CONTAINER).

Definition CanStoreItem_InBag (inv : Inventory) (bag : Z) (item : Z) (pProto : ItemPrototype) (merge non_specialized : bool)
    (pSrcItem : option Z) (skip_bag skip_slot : Z) (f : Found) : InventoryResult * Found :=
  if bag =? skip_bag then (EQUIP_ERR_ITEM_DOESNT_GO_INTO_BAG, f)
  else match GetItemByPos inv INVENTORY_SLOT_BAG_0 bag with
  | None => (EQUIP_ERR_ITEM_DOESNT_GO_INTO_BAG, f)
  | Some pBag =>
      if bool_decide (Some pBag = pSrcItem) then (EQUIP_ERR_ITEM_DOESNT_GO_INTO_BAG, f)
      else if NonEmptyBag inv pSrcItem then (EQUIP_ERR_CAN_ONLY_DO_WITH_EMPTY_BAGS, f)
      else if negb (Bool.eqb non_specialized (plain_container (GetProto inv pBag))) then (EQUIP_ERR_ITEM_DOESNT_GO_INTO_BAG, f)
      else if negb (ItemCanGoIntoBag pProto (GetProto inv pBag)) then (EQUIP_ERR_ITEM_DOESNT_GO_INTO_BAG, f)
      else (EQUIP_ERR_OK,
            try_slots inv bag item pProto merge pSrcItem (fun j => j =? skip_slot) (slots 0 (GetBagSize inv pBag)) f)
  end.

Definition CanStoreItem_InInventorySlots (inv : Inventory) (slot_begin slot_end : Z) (item : Z) (pProto : ItemPrototype)
    (merge : bool) (pSrcItem : option Z) (skip_bag skip_slot : Z) (f : Found) : InventoryResult * Found :=
  if NonEmptyBag inv pSrcItem then (EQUIP_ERR_CAN_ONLY_DO_WITH_EMPTY_BAGS, f)
  else (EQUIP_ERR_OK,
        try_slots inv INVENTORY_SLOT_BAG_0 item pProto merge pSrcItem
          (fun j => (INVENTORY_SLOT_BAG_0 =? skip_bag) && (j =? skip_slot)) (slots slot_begin slot_end) f).

(** How a search goes on: the pattern that follows each stage of
    [CanStoreItem] and [CanBankItem]. [no_similar_count] items are too many.
    The result carries [dest] and [no_space_count], [None] when it is not
    written. *)
Definition Outcome : Type := InventoryResult * ItemPosCountVec * option Z.
Definition all_found (no_similar_count : Z) (f : Found) : Outcome :=
  if no_similar_count =? 0 then (EQUIP_ERR_OK, fst f, None)
  else (EQUIP_ERR_CANT_CARRY_MORE_OF_THIS, fst f, Some (u32 (snd f + no_similar_count))).
(** A stage whose error ends the search. *)
Definition must (no_similar_count : Z) (r : InventoryResult * Found) (k : Found -> Outcome) : Outcome :=
  let '(res, f) := r in
  if negb (res =? EQUIP_ERR_OK) then (res, fst f, Some (u32 (snd f + no_similar_count)))
  else if snd f =? 0 then all_found no_similar_count f
  else k f.
(** Stages whose errors are passed over: a loop over bags. *)
Fixpoint bags (no_similar_count : Z) (stage : Z -> Found -> InventoryResult * Found) (js : list Z) (f : Found) (k : Found -> Outcome)
    : Outcome :=
  match js with
  | [] => k f
  | i :: js =>
      let '(res, f') := stage i f in
      if negb (res =? EQUIP_ERR_OK) then bags no_similar_count stage js f' k
      else if snd f' =? 0 then all_found no_similar_count f'
      else bags no_similar_count stage js f' k
  end.
Definition guarded (b : bool) (stage : (Found -> Outcome) -> Found -> Outcome) (k : Found -> Outcome) (f : Found) : Outcome :=
  if b then stage k f else k f.
(** A bag tried as a special one, then as a plain one. *)
Definition either_kind (stage : bool -> Found -> InventoryResult * Found) (f : Found) : InventoryResult * Found :=
  let '(res, f') := stage false f in if negb (res =? EQUIP_ERR_OK) then stage true f' else (res, f').

(** The stages, for one item that is to be stored. *)
Section Stages.
Variables (inv : Inventory) (item : Z) (pProto : ItemPrototype) (pItem : option Z) (no_similar_count bag slot : Z).

Definition in_slots (lo hi : Z) (merge : bool) (k : Found -> Outcome) (f : Found) : Outcome :=
  must no_similar_count (CanStoreItem_InInventorySlots inv lo hi item pProto merge pItem bag slot f) k.
Definition in_that_bag (merge : bool) (k : Found -> Outcome) (f : Found) : Outcome :=
  must no_similar_count
    (either_kind (fun plain => CanStoreItem_InBag inv bag item pProto merge plain pItem NULL_BAG slot) f) k.
Definition in_bags (lo hi : Z) (merge plain : bool) (k : Found -> Outcome) (f : Found) : Outcome :=
  bags no_similar_count (fun i => CanStoreItem_InBag inv i item pProto merge plain pItem bag slot) (slots lo hi) f k.
Definition in_keyring (k : Found -> Outcome) (f : Found) : Outcome :=
  in_slots KEYRING_SLOT_START (KEYRING_SLOT_START + GetMaxKeyringSize) false k f.

Definition stacks : bool := 1 <? Stackable pProto.
Definition of_a_family : bool := negb (BagFamily pProto =? 0).
Definition is_key : bool := BagFamily pProto =? BAG_FAMILY_KEYS.

(** The whole inventory: stacks, special bags, free slots. *)
Definition store_merging (k : Found -> Outcome) : Found -> Outcome :=
  in_slots KEYRING_SLOT_START KEYRING_SLOT_END true
    (in_slots INVENTORY_SLOT_ITEM_START INVENTORY_SLOT_ITEM_END true
       (guarded of_a_family (in_bags INVENTORY_SLOT_BAG_START INVENTORY_SLOT_BAG_END true false)
          (in_bags INVENTORY_SLOT_BAG_START INVENTORY_SLOT_BAG_END true true k))).
Definition store_special (k : Found -> Outcome) : Found -> Outcome :=
  guarded is_key in_keyring (in_bags INVENTORY_SLOT_BAG_START INVENTORY_SLOT_BAG_END false false k).
Definition store_free (f : Found) : Outcome :=
  if NonEmptyBag inv pItem then (EQUIP_ERR_NONEMPTY_BAG_OVER_OTHER_BAG, fst f, None)
  else
    in_slots INVENTORY_SLOT_ITEM_START INVENTORY_SLOT_ITEM_END false
      (in_bags INVENTORY_SLOT_BAG_START INVENTORY_SLOT_BAG_END false true
         (fun f => (EQUIP_ERR_INVENTORY_FULL, fst f, Some (u32 (snd f + no_similar_count))))) f.
Definition store_anywhere : Found -> Outcome :=
  guarded stacks store_merging (guarded of_a_family store_special store_free).

(** The bag that is asked for, when one is. *)
Definition store_in_bag (k : Found -> Outcome) (f : Found) : Outcome :=
  if bag =? NULL_BAG then k f
  else if bag =? INVENTORY_SLOT_BAG_0 then
    guarded stacks
      (fun k => in_slots KEYRING_SLOT_START KEYRING_SLOT_END true (in_slots INVENTORY_SLOT_ITEM_START INVENTORY_SLOT_ITEM_END true k))
      (guarded is_key in_keyring (in_slots INVENTORY_SLOT_ITEM_START INVENTORY_SLOT_ITEM_END false k)) f
  else guarded stacks (in_that_bag true) (in_that_bag false k) f.

(** The slot that is asked for, when one is. *)
Definition store_in_slot (swap : bool) (k : Found -> Outcome) (f : Found) : Outcome :=
  if negb (bag =? NULL_BAG) && negb (slot =? NULL_SLOT) then
    if (bag =? INVENTORY_SLOT_BAG_0) && (LAST_ITEM_SLOT_FIELD <? slot * 2) then (EQUIP_ERR_ITEM_DOESNT_GO_TO_SLOT, fst f, None)
    else must no_similar_count (CanStoreItem_InSpecificSlot inv bag slot item pProto swap pItem f) k
  else k f.

(** The bank. *)
Definition bank_merging (k : Found -> Outcome) : Found -> Outcome :=
  in_slots BANK_SLOT_ITEM_START BANK_SLOT_ITEM_END true
    (guarded of_a_family (in_bags BANK_SLOT_BAG_START BANK_SLOT_BAG_END true false)
       (in_bags BANK_SLOT_BAG_START BANK_SLOT_BAG_END true true k)).
Definition bank_free : Found -> Outcome :=
  in_slots BANK_SLOT_ITEM_START BANK_SLOT_ITEM_END false
    (in_bags BANK_SLOT_BAG_START BANK_SLOT_BAG_END false true (fun f => (EQUIP_ERR_BANK_FULL, fst f, None))).
Definition bank_anywhere : Found -> Outcome :=
  guarded stacks bank_merging
    (guarded of_a_family (in_bags BANK_SLOT_BAG_START BANK_SLOT_BAG_END false false) bank_free).
Definition bank_in_bag (k : Found -> Outcome) (f : Found) : Outcome :=
  if bag =? NULL_BAG then k f
  else if (InventoryType pProto =? INVTYPE_BAG) && negb (match pItem with Some g => IsEmpty inv g | None => true end)
  then (EQUIP_ERR_NONEMPTY_BAG_OVER_OTHER_BAG, fst f, None)
  else if bag =? INVENTORY_SLOT_BAG_0 then
    guarded stacks (in_slots BANK_SLOT_ITEM_START BANK_SLOT_ITEM_END true)
      (in_slots BANK_SLOT_ITEM_START BANK_SLOT_ITEM_END false k) f
  else guarded stacks (in_that_bag true) (in_that_bag false k) f.
End Stages.

(** The result, the positions, and [no_space_count] when it is written. *)
Definition CanStoreItem_ (inv : Inventory) (bag slot : Z) (dest : ItemPosCountVec) (entry count : Z) (pItem : option Z) (swap : bool)
    : Outcome :=
  match protos entry with
  | None => (if swap then EQUIP_ERR_ITEMS_CANT_BE_SWAPPED else EQUIP_ERR_ITEM_NOT_FOUND, dest, Some count)
  | Some pProto =>
      let refused : option Outcome :=
        match pItem with
        | Some g =>
            if i_temporaryLoot (deref inv g) then Some (EQUIP_ERR_ALREADY_LOOTED, dest, Some count)
            else if IsBindedNotWith inv g then Some (EQUIP_ERR_DONT_OWN_THAT_ITEM, dest, Some count)
            else None
        | None => None
        end in
      match refused with
      | Some r => r
      | None =>
          let '(res, no_similar_count) := CanTakeMoreSimilarItems_ inv entry count pItem in
          if negb (res =? EQUIP_ERR_OK) && (count =? no_similar_count) then (res, dest, Some no_similar_count)
          else
            let count := if negb (res =? EQUIP_ERR_OK) then u32 (count - no_similar_count) else count in
            store_in_slot inv entry pProto pItem no_similar_count bag slot swap
              (store_in_bag inv entry pProto pItem no_similar_count bag slot
                 (store_anywhere inv entry pProto pItem no_similar_count bag slot))
              (dest, count)
      end
  end.
Definition CanStoreNewItem (inv : Inventory) (bag slot : Z) (dest : ItemPosCountVec) (item count : Z) : Outcome :=
  CanStoreItem_ inv bag slot dest item count None false.
Definition CanStoreItem (inv : Inventory) (bag slot : Z) (dest : ItemPosCountVec) (pItem : Z) (swap : bool)
    : InventoryResult * ItemPosCountVec :=
  fst (CanStoreItem_ inv bag slot dest (GetEntry inv pItem) (GetCount inv pItem) (Some pItem) swap).

Definition CanUseItem_proto (inv : Inventory) (pProto : ItemPrototype) (not_loading : bool) : InventoryResult :=
  ch_canUseProto (inv_char inv) pProto not_loading.
Definition CanUseItem (inv : Inventory) (pItem : Z) (not_loading : bool) : InventoryResult :=
  if negb (ch_alive (inv_char inv)) && not_loading then EQUIP_ERR_YOU_ARE_DEAD
  else if IsBindedNotWith inv pItem then EQUIP_ERR_DONT_OWN_THAT_ITEM
  else
    let msg := CanUseItem_proto inv (GetProto inv pItem) not_loading in
    if negb (msg =? EQUIP_ERR_OK) then msg
    else if RequiredReputation (GetProto inv pItem) && ch_reputationTooLow (inv_char inv) (GetProto inv pItem)
    then EQUIP_ERR_CANT_EQUIP_REPUTATION
    else EQUIP_ERR_OK.

Definition CanBankItem (inv : Inventory) (bag slot : Z) (dest : ItemPosCountVec) (pItem : Z) (swap not_loading : bool)
    : InventoryResult * ItemPosCountVec :=
  let pProto := GetProto inv pItem in
  let item := GetEntry inv pItem in
  let f := (dest, GetCount inv pItem) in
  if i_temporaryLoot (deref inv pItem) then (EQUIP_ERR_ALREADY_LOOTED, dest)
  else if IsBindedNotWith inv pItem then (EQUIP_ERR_DONT_OWN_THAT_ITEM, dest)
  else if negb (Area pProto =? 0) || negb (Map_ pProto =? 0) then (EQUIP_ERR_ITEM_DOESNT_GO_INTO_BAG, dest)
  else
    let res := CanTakeMoreSimilarItems inv pItem in
    if negb (res =? EQUIP_ERR_OK) then (res, dest)
    else
      let rest := bank_in_bag inv item pProto (Some pItem) 0 bag slot (bank_anywhere inv item pProto (Some pItem) 0 bag slot) in
      if negb (bag =? NULL_BAG) && negb (slot =? NULL_SLOT) then
        let refused :=
          if is_bank_bag_slot slot then
            if negb (IsBag inv pItem) then EQUIP_ERR_ITEM_DOESNT_GO_TO_SLOT
            else if ch_bankBagSlots (inv_char inv) <=? slot - BANK_SLOT_BAG_START then EQUIP_ERR_MUST_PURCHASE_THAT_BAG_SLOT
            else CanUseItem inv pItem not_loading
          else EQUIP_ERR_OK in
        if negb (refused =? EQUIP_ERR_OK) then (refused, dest)
        else fst (must 0 (CanStoreItem_InSpecificSlot inv bag slot item pProto swap (Some pItem) f) rest)
      else fst (rest f).

(** ** Several items at once: CanStoreItems

    The table of the free space: counts at positions of the keyring, the pack
    and the bags; 0 is a free slot. *)
Definition Space : Type := Z -> Z -> Z.
Definition set_space (bag slot n : Z) (t : Space) : Space :=
  fun b s => if (b =? bag) && (s =? slot) then n else t b s.
Definition space_table (inv : Inventory) : Space :=
  fun bag slot =>
    match GetItemByPos inv bag slot with
    | Some g => if i_inTrade (deref inv g) then 0 else GetCount inv g
    | None => 0
    end.

(** The first position of a loop that passes a test. *)
Definition merge_slot (inv : Inventory) (item : Z) (pProto : ItemPrototype) (n : Z) (t : Space) (p : Z * Z) : bool :=
  match GetItemByPos inv (fst p) (snd p) with
  | Some pItem2 =>
      (CanBeMergedPartlyWith inv pItem2 item pProto =? EQUIP_ERR_OK) && (u32 (t (fst p) (snd p) + n) <=? GetMaxStackSize pProto)
  | None => false
  end.
Definition free_slot (t : Space) (p : Z * Z) : bool := t (fst p) (snd p) =? 0.

(** The positions of the bags of a kind. *)
Definition kind_positions (inv : Inventory) (ok : ItemPrototype -> bool) : list (Z * Z) :=
  t ← slots INVENTORY_SLOT_BAG_START INVENTORY_SLOT_BAG_END;
  match GetItemByPos inv INVENTORY_SLOT_BAG_0 t with
  | Some pBag => if ok (GetProto inv pBag) then (fun j => (t, j)) <$> slots 0 (GetBagSize inv pBag) else []
  | None => []
  end.

Definition place_one (inv : Inventory) (pItem : Z) (t : Space) : option Space :=
  let pProto := GetProto inv pItem in
  let merged :=
    if 1 <? Stackable pProto then
      List.find (merge_slot inv (GetEntry inv pItem) pProto (GetCount inv pItem) t)
        (main_positions KEYRING_SLOT_START KEYRING_SLOT_END ++ main_positions INVENTORY_SLOT_ITEM_START INVENTORY_SLOT_ITEM_END ++
         kind_positions inv (fun _ => true))
    else None in
  match merged with
  | Some (b, s) => Some (set_space b s (u32 (t b s + GetCount inv pItem)) t)
  | None =>
      let special :=
        if negb (BagFamily pProto =? 0) then
          List.find (free_slot t)
            ((if BagFamily pProto =? BAG_FAMILY_KEYS then main_positions KEYRING_SLOT_START (KEYRING_SLOT_START + GetMaxKeyringSize) else []) ++
             kind_positions inv (fun pBagProto => negb (plain_container pBagProto) && ItemCanGoIntoBag pProto pBagProto))
        else None in
      match special with
      | Some (b, s) => Some (set_space b s 1 t)
      | None =>
          match List.find (free_slot t)
                  (main_positions INVENTORY_SLOT_ITEM_START INVENTORY_SLOT_ITEM_END ++ kind_positions inv plain_container) with
          | Some (b, s) => Some (set_space b s 1 t)
          | None => None
          end
      end
  end.
Fixpoint CanStoreItems_loop (inv : Inventory) (pItems : list (option Z)) (t : Space) : InventoryResult :=
  match pItems with
  | [] => EQUIP_ERR_OK
  | None :: pItems => CanStoreItems_loop inv pItems t
  | Some pItem :: pItems =>
      if NonEmptyBag inv (Some pItem) then EQUIP_ERR_CAN_ONLY_DO_WITH_EMPTY_BAGS
      else if i_temporaryLoot (deref inv pItem) then EQUIP_ERR_ALREADY_LOOTED
      else if IsBindedNotWith inv pItem then EQUIP_ERR_DONT_OWN_THAT_ITEM
      else
        let res := CanTakeMoreSimilarItems inv pItem in
        if negb (res =? EQUIP_ERR_OK) then res
        else match place_one inv pItem t with
             | Some t => CanStoreItems_loop inv pItems t
             | None => EQUIP_ERR_INVENTORY_FULL
             end
  end.
Definition CanStoreItems (inv : Inventory) (pItems : list (option Z)) : InventoryResult :=
  CanStoreItems_loop inv pItems (space_table inv).

(** ** Equipment *)

Definition IsTwoHandUsed (inv : Inventory) : bool :=
  match GetItemByPos inv INVENTORY_SLOT_BAG_0 EQUIPMENT_SLOT_MAINHAND with
  | Some mainItem => InventoryType (GetProto inv mainItem) =? INVTYPE_2HWEAPON
  | None => false
  end.

(** The slots of an inventory type, in the order of the array [slots];
    [None] is the default case. *)
Definition equip_slots (inv : Inventory) (p : ItemPrototype) : option (list Z) :=
  let c := ch_class (inv_char inv) in
  match InventoryType p with
  | 1 => Some [0] | 2 => Some [1] | 3 => Some [2] | 4 => Some [3] | 5 => Some [4] | 20 => Some [4]
  | 6 => Some [5] | 7 => Some [6] | 8 => Some [7] | 9 => Some [8] | 10 => Some [9]
  | 11 => Some [10; 11] | 12 => Some [12; 13] | 16 => Some [14]
  | 13 => Some (if ch_dualWield (inv_char inv) then [15; 16] else [15])
  | 14 => Some [16] | 15 => Some [17] | 17 => Some [15] | 19 => Some [18] | 21 => Some [15] | 22 => Some [16] | 23 => Some [16]
  | 25 => Some [17] | 26 => Some [17]
  | 18 => Some [19; 20; 21; 22]
  | 28 =>
      Some (if ((SubClass p =? 7) && (c =? 2)) || ((SubClass p =? 8) && (c =? 11)) || ((SubClass p =? 9) && (c =? 7)) ||
               ((SubClass p =? 0) && (c =? 9)) then [17] else [])
  | _ => None
  end.

Definition FindEquipSlot (inv : Inventory) (proto : ItemPrototype) (slot : Z) (swap : bool) : Z :=
  match equip_slots inv proto with
  | None => NULL_SLOT
  | Some slots =>
      if negb (slot =? NULL_SLOT) then
        if swap || bool_decide (GetItemByPos inv INVENTORY_SLOT_BAG_0 slot = None) then
          if existsb (Z.eqb slot) slots then slot else NULL_SLOT
        else NULL_SLOT
      else
        match List.find (fun s => bool_decide (GetItemByPos inv INVENTORY_SLOT_BAG_0 s = None) &&
                                  (negb (s =? EQUIPMENT_SLOT_OFFHAND) || negb (IsTwoHandUsed inv))) slots with
        | Some s => s
        | None => if swap then default NULL_SLOT (head slots) else NULL_SLOT
        end
  end.

Definition CanEquipUniqueItem (inv : Inventory) (entry : Z) (itemProto : ItemPrototype) (except_slot : Z) : InventoryResult :=
  if negb (Z.land (Flags itemProto) ITEM_FLAG_UNIQUE_EQUIPPED =? 0) && HasItemWithIdEquipped inv entry 1 except_slot
  then EQUIP_ERR_ITEM_CANT_BE_EQUIPPED else EQUIP_ERR_OK.

Definition CanUnequipItem (inv : Inventory) (bag slot : Z) (swap : bool) : InventoryResult :=
  if negb (IsEquipmentPos bag slot) && negb (IsBagPos bag slot) then EQUIP_ERR_OK
  else match GetItemByPos inv bag slot with
  | None => EQUIP_ERR_OK
  | Some pItem =>
      if i_temporaryLoot (deref inv pItem) then EQUIP_ERR_ALREADY_LOOTED
      else if negb (CanChangeEquipStateInCombat (GetProto inv pItem)) && ch_combat (inv_char inv) then EQUIP_ERR_NOT_IN_COMBAT
      else if ch_loggingOut (inv_char inv) then EQUIP_ERR_YOU_ARE_STUNNED
      else if negb swap && NonEmptyBag inv (Some pItem) then EQUIP_ERR_CAN_ONLY_DO_WITH_EMPTY_BAGS
      else EQUIP_ERR_OK
  end.

(** The state of the character that forbids equipping, the checks under
    [not_loading]. *)
Definition equip_forbidden (inv : Inventory) (pProto : ItemPrototype) (pItem : option Z) : option InventoryResult :=
  let c := inv_char inv in
  if ch_stunned c then Some EQUIP_ERR_YOU_ARE_STUNNED
  else if negb (CanChangeEquipStateInCombat pProto) && ch_combat c then Some EQUIP_ERR_NOT_IN_COMBAT
  else if ch_loggingOut c then Some EQUIP_ERR_YOU_ARE_STUNNED
  else if ch_combat c && (Class_ pProto =? ITEM_CLASS_WEAPON) && ch_weaponTimer c then Some EQUIP_ERR_CANT_DO_RIGHT_NOW
  else if ch_challengeForbids c pProto (deref inv <$> pItem) then Some EQUIP_ERR_CANT_DO_RIGHT_NOW
  else None.
(** A second quiver or ammunition pouch. *)
Definition quiver_conflict (inv : Inventory) (pProto : ItemPrototype) (pItem : option Z) (swap : bool) (eslot : Z) : option InventoryResult :=
  if Class_ pProto =? ITEM_CLASS_QUIVER then
    List.find (fun i =>
        match GetItemByPos inv INVENTORY_SLOT_BAG_0 i with
        | Some pBag =>
            negb (bool_decide (Some pBag = pItem)) && (Class_ (GetProto inv pBag) =? Class_ pProto) &&
            (negb swap || negb (GetSlot inv pBag =? eslot))
        | None => false
        end) (slots INVENTORY_SLOT_BAG_START INVENTORY_SLOT_BAG_END)
    ≫= fun i => GetItemByPos inv INVENTORY_SLOT_BAG_0 i
    ≫= fun pBag => Some (if SubClass (GetProto inv pBag) =? ITEM_SUBCLASS_AMMO_POUCH then EQUIP_ERR_CAN_EQUIP_ONLY1_AMMOPOUCH
                         else EQUIP_ERR_CAN_EQUIP_ONLY1_QUIVER)
  else None.
(** The hands. *)
Definition hands_conflict (inv : Inventory) (pProto : ItemPrototype) (swap not_loading : bool) (eslot : Z) : option InventoryResult :=
  let type := InventoryType pProto in
  let offhand :=
    if eslot =? EQUIPMENT_SLOT_OFFHAND then
      if ((type =? INVTYPE_WEAPON) || (type =? INVTYPE_WEAPONOFFHAND)) && negb (ch_dualWield (inv_char inv)) then Some EQUIP_ERR_CANT_DUAL_WIELD
      else if type =? INVTYPE_2HWEAPON then Some EQUIP_ERR_CANT_DUAL_WIELD
      else if IsTwoHandUsed inv then Some EQUIP_ERR_CANT_EQUIP_WITH_TWOHANDED
      else None
    else None in
  match offhand with
  | Some r => Some r
  | None =>
      if type =? INVTYPE_2HWEAPON then
        if negb (eslot =? EQUIPMENT_SLOT_MAINHAND) then Some EQUIP_ERR_ITEM_CANT_BE_EQUIPPED
        else match GetItemByPos inv INVENTORY_SLOT_BAG_0 EQUIPMENT_SLOT_OFFHAND with
        | Some offItem =>
            if negb not_loading || negb (CanUnequipItem inv INVENTORY_SLOT_BAG_0 EQUIPMENT_SLOT_OFFHAND false =? EQUIP_ERR_OK) ||
               negb (fst (CanStoreItem inv NULL_BAG NULL_SLOT [] offItem false) =? EQUIP_ERR_OK)
            then Some (if swap then EQUIP_ERR_ITEMS_CANT_BE_SWAPPED else EQUIP_ERR_INVENTORY_FULL)
            else None
        | None => None
        end
      else None
  end.

(** The result and the slot of the equipment, 0 when there is none. *)
Definition CanEquipItem_ (inv : Inventory) (slot : Z) (entry : Z) (pProto : ItemPrototype) (pItem : option Z) (swap not_loading : bool)
    : InventoryResult * Z :=
  let refused :=
    match pItem with
    | Some g =>
        if i_temporaryLoot (deref inv g) then Some EQUIP_ERR_ALREADY_LOOTED
        else if IsBindedNotWith inv g then Some EQUIP_ERR_DONT_OWN_THAT_ITEM
        else None
    | None => None
    end in
  match refused with
  | Some r => (r, 0)
  | None =>
      let res := match pItem with
                 | Some g => CanTakeMoreSimilarItems inv g
                 | None => fst (CanTakeMoreSimilarItems_ inv entry 1 None)
                 end in
      if negb (res =? EQUIP_ERR_OK) then (res, 0)
      else match (if not_loading then equip_forbidden inv pProto pItem else None) with
      | Some r => (r, 0)
      | None =>
          let eslot := FindEquipSlot inv pProto slot swap in
          if eslot =? NULL_SLOT then (EQUIP_ERR_ITEM_CANT_BE_EQUIPPED, 0)
          else
            let msg := match pItem with
                       | Some g => CanUseItem inv g not_loading
                       | None => CanUseItem_proto inv pProto not_loading
                       end in
            if negb (msg =? EQUIP_ERR_OK) then (msg, 0)
            else if negb swap && bool_decide (GetItemByPos inv INVENTORY_SLOT_BAG_0 eslot <> None)
            then (EQUIP_ERR_NO_EQUIPMENT_SLOT_AVAILABLE, 0)
            else
              let res2 := CanEquipUniqueItem inv entry pProto (if swap then eslot else NULL_SLOT) in
              if negb (res2 =? EQUIP_ERR_OK) then (res2, 0)
              else match quiver_conflict inv pProto pItem swap eslot with
              | Some r => (r, 0)
              | None =>
                  match hands_conflict inv pProto swap not_loading eslot with
                  | Some r => (r, 0)
                  | None => (EQUIP_ERR_OK, pos_of INVENTORY_SLOT_BAG_0 eslot)
                  end
              end
      end
  end.
Definition CanEquipItem (inv : Inventory) (slot : Z) (pItem : Z) (swap not_loading : bool) : InventoryResult * Z :=
  CanEquipItem_ inv slot (GetEntry inv pItem) (GetProto inv pItem) (Some pItem) swap not_loading.
Definition CanEquipNewItem (inv : Inventory) (slot item : Z) (swap : bool) : InventoryResult * Z :=
  match protos item with
  | Some pProto => CanEquipItem_ inv slot item pProto None swap true
  | None => (EQUIP_ERR_ITEM_NOT_FOUND, 0)
  end.
End Templates.
