(* ===== verification/InventoryMoves.v ===== *)
(** * InventoryMoves: storing, removing, destroying, splitting and swapping

    What changes the items of a character: Item::CreateItem, CloneItem, the
    slots of Bag, and of src/src/game/Objects/Player.cpp StoreItem, EquipItem,
    RemoveItem, MoveItem..., Destroy..., SplitItem, SwapItem and the automatic
    unequipping; then the packets of src/src/game/Handlers/ItemHandler.cpp that
    move items. An item that is removed leaves the heap: it is in no slot and
    waits for the next save to delete its row. An assertion that fails leaves
    the state as it is; in a sound inventory none does. *)
From S2P Require Import Prelude Inventory.

(** ** Fields of items *)

Definition SetCount (n : Z) (it : Item) : Item :=
  mkItem (i_entry it) n (i_owner it) (i_binded it) (i_boa it) (i_wrapped it) (i_generatedLoot it) (i_temporaryLoot it)
    (i_inTrade it) (i_tradeUntil it) (i_slot it) (i_container it) (i_numSlots it) (i_bagslot it).
Definition SetOwnerGuid (o : Z) (it : Item) : Item :=
  mkItem (i_entry it) (i_count it) o (i_binded it) (i_boa it) (i_wrapped it) (i_generatedLoot it) (i_temporaryLoot it)
    (i_inTrade it) (i_tradeUntil it) (i_slot it) (i_container it) (i_numSlots it) (i_bagslot it).
Definition SetFlags (binded boa : bool) (it : Item) : Item :=
  mkItem (i_entry it) (i_count it) (i_owner it) binded boa (i_wrapped it) (i_generatedLoot it) (i_temporaryLoot it)
    (i_inTrade it) (i_tradeUntil it) (i_slot it) (i_container it) (i_numSlots it) (i_bagslot it).
Definition SetSlot (s : Z) (it : Item) : Item :=
  mkItem (i_entry it) (i_count it) (i_owner it) (i_binded it) (i_boa it) (i_wrapped it) (i_generatedLoot it) (i_temporaryLoot it)
    (i_inTrade it) (i_tradeUntil it) s (i_container it) (i_numSlots it) (i_bagslot it).
Definition SetContainer (b : option Z) (it : Item) : Item :=
  mkItem (i_entry it) (i_count it) (i_owner it) (i_binded it) (i_boa it) (i_wrapped it) (i_generatedLoot it) (i_temporaryLoot it)
    (i_inTrade it) (i_tradeUntil it) (i_slot it) b (i_numSlots it) (i_bagslot it).
Definition SetBagslot (m : gmap Z Z) (it : Item) : Item :=
  mkItem (i_entry it) (i_count it) (i_owner it) (i_binded it) (i_boa it) (i_wrapped it) (i_generatedLoot it) (i_temporaryLoot it)
    (i_inTrade it) (i_tradeUntil it) (i_slot it) (i_container it) (i_numSlots it) m.

(** [delete pItem] *)
Definition delete_item (g : Z) (inv : Inventory) : Inventory := set_heap (delete g (heap inv)) inv.
(** Item::SetState(ITEM_REMOVED) *)
Definition remove_item (g : Z) (inv : Inventory) : Inventory := emit (ItemRemoved g) (delete_item g inv).
Definition put_slot (slot g : Z) (inv : Inventory) : Inventory := set_items (<[slot := g]> (m_items inv)) inv.
Definition clear_slot (slot : Z) (inv : Inventory) : Inventory := set_items (delete slot (m_items inv)) inv.

(** ** Bag *)

Definition Bag_RemoveItem (b slot : Z) (inv : Inventory) : Inventory :=
  if slot <? MAX_BAG_SIZE then
    let inv := match i_bagslot (deref inv b) !! slot with Some g => upd g (SetContainer None) inv | None => inv end in
    upd b (fun bag => SetBagslot (delete slot (i_bagslot bag)) bag) inv
  else inv.
Definition Bag_StoreItem (b slot g : Z) (inv : Inventory) : Inventory :=
  if slot <? MAX_BAG_SIZE then
    let inv := upd b (fun bag => SetBagslot (<[slot := g]> (i_bagslot bag)) bag) inv in
    upd g (fun it => SetSlot slot (SetContainer (Some b) (SetOwnerGuid (i_owner (deref inv b)) it))) inv
  else inv.

Section Moves.
Variable protos : Z -> option ItemPrototype.

(** ** New items *)

Definition new_item (owner entry count : Z) (p : ItemPrototype) : Item :=
  mkItem entry count owner false false false false false false 0 0 None
    (if InventoryType p =? INVTYPE_BAG then ContainerSlots p else 0) ∅.
(** Item::CreateItem, with Bag::Create. *)
Definition CreateItem (inv : Inventory) (item count : Z) : option Z * Inventory :=
  if count <? 1 then (None, inv)
  else match protos item with
  | None => (None, inv)
  | Some pProto =>
      let count := if GetMaxStackSize pProto <? count then GetMaxStackSize pProto else count in
      let g := inv_next inv in
      let inv := mkInventory (inv_char inv) (m_items inv) (heap inv) (g + 1) (inv_out inv) in
      if (InventoryType pProto =? INVTYPE_BAG) && (MAX_BAG_SIZE <? ContainerSlots pProto) then (None, inv)
      else (Some g, set_heap (<[g := new_item (ch_guid (inv_char inv)) item count pProto]> (heap inv)) inv)
  end.
Definition CloneItem (inv : Inventory) (g count : Z) : option Z * Inventory :=
  let src := deref inv g in
  match CreateItem inv (i_entry src) count with
  | (Some n, inv) =>
      (Some n, upd n (fun it => mkItem (i_entry it) (i_count it) (i_owner it) (i_binded src) (i_boa src) (i_wrapped src)
                                 (i_generatedLoot it) (i_temporaryLoot it) (i_inTrade it) (i_tradeUntil it) (i_slot it)
                                 (i_container it) (i_numSlots it) (i_bagslot it)) inv)
  | (None, inv) => (None, inv)
  end.

(** ** Storing *)

(** The flags an item gets in its place. *)
Definition bind_at (inv : Inventory) (bag slot g : Z) : Inventory :=
  let b := Bonding (GetProto protos inv g) in
  let inv := if (b =? BIND_WHEN_PICKED_UP) || (b =? BIND_QUEST_ITEM) || ((b =? BIND_WHEN_EQUIPPED) && IsBagPos bag slot)
             then upd g (fun it => SetFlags true (i_boa it) it) inv else inv in
  if b =? BIND_ACCOUNT then upd g (fun it => SetFlags (i_binded it) true it) inv else inv.

(** An item in no slot is put into a free one. *)
Definition put_at (inv : Inventory) (bag slot g : Z) : Inventory :=
  if bag =? INVENTORY_SLOT_BAG_0 then
    upd g (fun it => SetContainer None (SetSlot slot (SetOwnerGuid (ch_guid (inv_char inv)) it))) (put_slot slot g inv)
  else match GetItemByPos inv INVENTORY_SLOT_BAG_0 bag with
  | Some pBag => Bag_StoreItem pBag slot g inv
  | None => inv
  end.

Definition StoreItem_ (inv : Inventory) (pos pItem count : Z) (clone : bool) : option Z * Inventory :=
  let bag := pos / 256 in
  let slot := pos mod 256 in
  match GetItemByPos inv bag slot with
  | None =>
      match (if clone then CloneItem inv pItem count else (Some pItem, upd pItem (SetCount count) inv)) with
      | (None, inv) => (None, inv)
      | (Some pItem, inv) => (Some pItem, put_at (bind_at inv bag slot pItem) bag slot pItem)
      end
  | Some pItem2 =>
      let inv := bind_at inv bag slot pItem2 in
      let inv := upd pItem2 (fun it => SetCount (u32 (i_count it + count)) it) inv in
      (Some pItem2, if clone then inv else remove_item pItem inv)
  end.
Fixpoint StoreItem (inv : Inventory) (dest : ItemPosCountVec) (pItem : Z) (lastItem : option Z) : option Z * Inventory :=
  match dest with
  | [] => (lastItem, inv)
  | [(pos, count)] => StoreItem_ inv pos pItem count false
  | (pos, count) :: dest =>
      let '(lastItem, inv) := StoreItem_ inv pos pItem count true in
      StoreItem inv dest pItem lastItem
  end.
Definition Store (inv : Inventory) (dest : ItemPosCountVec) (pItem : Z) : Inventory := snd (StoreItem inv dest pItem (Some pItem)).

Definition StoreNewItem (inv : Inventory) (dest : ItemPosCountVec) (item : Z) : option Z * Inventory :=
  let count := fold_left (fun n p => u32 (n + snd p)) dest 0 in
  match CreateItem inv item count with
  | (None, inv) => (None, inv)
  | (Some pItem, inv) => StoreItem (emit (QuestItemAdded item count) inv) dest pItem (Some pItem)
  end.
Definition SendNewItem (inv : Inventory) (item count : Z) : Inventory := emit (NewItemPushed item count) inv.
Definition AddItem (inv : Inventory) (itemId count : Z) : option Z * Inventory :=
  let '(msg, dest, no_space) := CanStoreNewItem protos inv NULL_BAG NULL_SLOT [] itemId count in
  let noSpaceForCount := default 0 no_space in
  let count := if negb (msg =? EQUIP_ERR_OK) then noSpaceForCount else count in
  if (count =? 0) || (match dest with [] => true | _ => false end)
  then (None, emit (SysMessage "You don't have any space in your bags.") inv)
  else match StoreNewItem inv dest itemId with
  | (Some item, inv) => (Some item, SendNewItem inv item count)
  | (None, inv) => (None, inv)
  end.

(** Player::EquipItem with VisualizeItem; the slot of the position counts. *)
Definition VisualizeItem (inv : Inventory) (slot g : Z) : Inventory :=
  let b := Bonding (GetProto protos inv g) in
  let inv := if (b =? BIND_WHEN_EQUIPPED) || (b =? BIND_WHEN_PICKED_UP) || (b =? BIND_QUEST_ITEM)
             then upd g (fun it => SetFlags true (i_boa it) it) inv else inv in
  upd g (fun it => SetContainer None (SetSlot slot (SetOwnerGuid (ch_guid (inv_char inv)) it))) (put_slot slot g inv).
Definition EquipItem (inv : Inventory) (pos pItem : Z) : Inventory :=
  let bag := pos / 256 in
  let slot := pos mod 256 in
  match GetItemByPos inv bag slot with
  | None => VisualizeItem inv slot pItem
  | Some pItem2 =>
      remove_item pItem (upd pItem2 (fun it => SetCount (u32 (i_count it + GetCount inv pItem)) it) inv)
  end.

(** ** Removing and destroying *)

Definition RemoveItem (inv : Inventory) (bag slot : Z) : Inventory :=
  match GetItemByPos inv bag slot with
  | None => inv
  | Some pItem =>
      let inv :=
        if bag =? INVENTORY_SLOT_BAG_0 then clear_slot slot inv
        else match GetItemByPos inv INVENTORY_SLOT_BAG_0 bag with
        | Some pBag => Bag_RemoveItem pBag slot inv
        | None => inv
        end in
      upd pItem (SetSlot NULL_SLOT) inv
  end.
Definition MoveItemFromInventory (inv : Inventory) (bag slot : Z) : Inventory :=
  match GetItemByPos inv bag slot with
  | None => inv
  | Some it => RemoveItem (emit (QuestItemRemoved (GetEntry inv it) (GetCount inv it)) inv) bag slot
  end.
Definition MoveItemToInventory (inv : Inventory) (dest : ItemPosCountVec) (pItem : Z) : option Z * Inventory :=
  let inv := emit (QuestItemAdded (GetEntry inv pItem) (GetCount inv pItem)) inv in
  let '(pLastItem, inv) := StoreItem inv dest pItem (Some pItem) in
  (pLastItem, if bool_decide (pLastItem = Some pItem) then upd pItem (SetOwnerGuid (ch_guid (inv_char inv))) inv else inv).

(** The contents of a bag are destroyed first; a bag in a bag is empty. *)
Fixpoint DestroyItem_ (fuel : nat) (inv : Inventory) (bag slot : Z) : Inventory :=
  match fuel with
  | O => inv
  | S fuel =>
      match GetItemByPos inv bag slot with
      | None => inv
      | Some pItem =>
          let inv :=
            if IsBag protos inv pItem then
              if IsEquipped inv pItem then fold_left (fun inv i => DestroyItem_ fuel inv slot i) (slots 0 MAX_BAG_SIZE) inv
              else if negb (IsEmpty inv pItem) then emit (CheatAction "Player::DestroyItem: destroying non equipped bag with items inside!") inv
              else inv
            else inv in
          let inv := if i_wrapped (deref inv pItem) then emit (GiftDeleted pItem) inv else inv in
          let inv := emit (QuestItemRemoved (GetEntry inv pItem) (GetCount inv pItem)) inv in
          let inv :=
            if bag =? INVENTORY_SLOT_BAG_0 then clear_slot slot inv
            else match GetItemByPos inv INVENTORY_SLOT_BAG_0 bag with
            | Some pBag => Bag_RemoveItem pBag slot inv
            | None => inv
            end in
          let inv := if GetEntry inv pItem =? 5863 then emit (PetitionOf pItem) inv else inv in
          remove_item pItem inv
      end
  end.
Definition DestroyItem : Inventory -> Z -> Z -> Inventory := DestroyItem_ 2.

(** One turn of a loop of [DestroyItemCount]: the inventory, [remcount], and
    whether the function returns. [told] is whether quests are told of a
    stack that shrinks, [may] whether a whole stack may be destroyed. *)
Definition Sweep : Type := Inventory * Z * bool.
Definition sweep_at (item count : Z) (told : bool) (skip may : Inventory -> Z -> Z -> bool) (s : Sweep) (p : Z * Z) : Sweep :=
  let '(inv, remcount, done) := s in
  let '(bag, slot) := p in
  if done : bool then s
  else match GetItemByPos inv bag slot with
  | None => s
  | Some pItem =>
      if (GetEntry inv pItem =? item) && negb (i_inTrade (deref inv pItem)) && negb (skip inv slot pItem) then
        if u32 (GetCount inv pItem + remcount) <=? count then
          if may inv slot pItem then
            let remcount := u32 (remcount + GetCount inv pItem) in
            (DestroyItem inv bag slot, remcount, count <=? remcount)
          else s
        else
          let inv := if told then emit (QuestItemRemoved (GetEntry inv pItem) (u32 (count - remcount))) inv else inv in
          (upd pItem (fun it => SetCount (u32 (i_count it - count + remcount)) it) inv, remcount, true)
      else s
  end.
Definition sweep (item count : Z) (told : bool) (skip may : Inventory -> Z -> Z -> bool) (ps : Inventory -> list (Z * Z)) (s : Sweep) : Sweep :=
  fold_left (sweep_at item count told skip may) (ps (fst (fst s))) s.
Definition never (inv : Inventory) (slot g : Z) : bool := false.
Definition always (inv : Inventory) (slot g : Z) : bool := true.

Definition DestroyItemCount (inv : Inventory) (item count : Z) (unequip_check check_bank : bool) : Inventory :=
  let s := (inv, 0, false) in
  let s := sweep item count true never always (fun _ => main_positions INVENTORY_SLOT_ITEM_START INVENTORY_SLOT_ITEM_END) s in
  let s := sweep item count true never always (fun _ => main_positions KEYRING_SLOT_START KEYRING_SLOT_END) s in
  let s := sweep item count true never always (fun inv => bag_positions inv INVENTORY_SLOT_BAG_START INVENTORY_SLOT_BAG_END) s in
  let s := sweep item count true (fun inv _ g => NonEmptyBag protos inv (Some g))
             (fun inv i _ => negb unequip_check || (CanUnequipItem protos inv INVENTORY_SLOT_BAG_0 i false =? EQUIP_ERR_OK))
             (fun _ => main_positions EQUIPMENT_SLOT_START INVENTORY_SLOT_BAG_END) s in
  let s := if check_bank then
             sweep item count false never always (fun inv => bag_positions inv BANK_SLOT_BAG_START BANK_SLOT_BAG_END)
               (sweep item count false never always (fun _ => main_positions BANK_SLOT_ITEM_START BANK_SLOT_ITEM_END) s)
           else s in
  fst (fst s).

Definition DestroyItemCount_item (inv : Inventory) (pItem count : Z) : Inventory * Z :=
  if GetCount inv pItem <=? count then
    (DestroyItem inv (GetBagSlot inv pItem) (GetSlot inv pItem), u32 (count - GetCount inv pItem))
  else
    (upd pItem (fun it => SetCount (u32 (i_count it - count)) it) (emit (QuestItemRemoved (GetEntry inv pItem) count) inv), 0).

Fixpoint DestroyEquippedItem_loop (inv : Inventory) (itemId : Z) (js : list Z) : bool * Inventory :=
  match js with
  | [] => (false, inv)
  | i :: js =>
      match GetItemByPos inv INVENTORY_SLOT_BAG_0 i with
      | Some pItem =>
          if (GetEntry inv pItem =? itemId) && negb (i_inTrade (deref inv pItem))
          then (true, DestroyItem inv INVENTORY_SLOT_BAG_0 i)
          else DestroyEquippedItem_loop inv itemId js
      | None => DestroyEquippedItem_loop inv itemId js
      end
  end.
Definition DestroyEquippedItem (inv : Inventory) (itemId : Z) : bool * Inventory :=
  DestroyEquippedItem_loop inv itemId (slots EQUIPMENT_SLOT_START EQUIPMENT_SLOT_END).

(** Loops that destroy every item that passes a test. *)
Definition destroy_where (test : Inventory -> Z -> bool) (ps : Inventory -> list (Z * Z)) (inv : Inventory) : Inventory :=
  fold_left (fun inv p =>
      match GetItemByPos inv (fst p) (snd p) with
      | Some pItem => if test inv pItem then DestroyItem inv (fst p) (snd p) else inv
      | None => inv
      end) (ps inv) inv.
Definition IsLimitedToAnotherMapOrZone (cur_mapId cur_zoneId : Z) (inv : Inventory) (g : Z) : bool :=
  let proto := GetProto protos inv g in
  (negb (Map_ proto =? 0) && negb (Map_ proto =? cur_mapId)) || (negb (Area proto =? 0) && negb (Area proto =? cur_zoneId)).
Definition DestroyZoneLimitedItem (inv : Inventory) (map new_zone : Z) : Inventory :=
  let limited := IsLimitedToAnotherMapOrZone map new_zone in
  let inv := destroy_where limited (fun _ => main_positions INVENTORY_SLOT_ITEM_START INVENTORY_SLOT_ITEM_END) inv in
  let inv := destroy_where limited (fun _ => main_positions KEYRING_SLOT_START KEYRING_SLOT_END) inv in
  let inv := destroy_where limited (fun inv => bag_positions inv INVENTORY_SLOT_BAG_START INVENTORY_SLOT_BAG_END) inv in
  destroy_where limited (fun _ => main_positions EQUIPMENT_SLOT_START INVENTORY_SLOT_BAG_END) inv.
Definition DestroyConjuredItems (inv : Inventory) : Inventory :=
  let conjured inv g := IsConjuredConsumable (GetProto protos inv g) in
  let inv := destroy_where conjured (fun _ => main_positions INVENTORY_SLOT_ITEM_START INVENTORY_SLOT_ITEM_END) inv in
  let inv := destroy_where conjured (fun inv => bag_positions inv INVENTORY_SLOT_BAG_START INVENTORY_SLOT_BAG_END) inv in
  destroy_where conjured (fun _ => main_positions EQUIPMENT_SLOT_START INVENTORY_SLOT_BAG_END) inv.

(** ** Automatic unequipping *)

Definition AutoUnequipItemFromSlot (inv : Inventory) (slot : Z) (sendMail : bool) : Inventory :=
  match GetItemByPos inv INVENTORY_SLOT_BAG_0 slot with
  | None => inv
  | Some pItem =>
      let '(main_msg, itemDestination) := CanStoreItem protos inv NULL_BAG NULL_SLOT [] pItem false in
      if main_msg =? EQUIP_ERR_OK then Store (RemoveItem inv INVENTORY_SLOT_BAG_0 slot) itemDestination pItem
      else if sendMail then
        let inv := MoveItemFromInventory inv INVENTORY_SLOT_BAG_0 slot in
        emit (ItemMailed pItem (deref inv pItem)) (delete_item pItem inv)
      else inv
  end.
Definition AutoUnequipOffhandIfNeed (inv : Inventory) : Inventory :=
  if IsTwoHandUsed protos inv then AutoUnequipItemFromSlot inv EQUIPMENT_SLOT_OFFHAND true else inv.

(** ** Where an item goes: inventory, bank or equipment

    The three cases that SplitItem and SwapItem repeat: whether an item can
    move to a position and to where ([Way]), and the move. *)
Inductive Way := Slots (dest : ItemPosCountVec) | Equip (dest : Z) | Nowhere.

Definition can_move (inv : Inventory) (bag slot g : Z) (swap : bool) : InventoryResult * Way :=
  if IsInventoryPos bag slot then
    let '(msg, dest) := CanStoreItem protos inv bag slot [] g swap in (msg, Slots dest)
  else if IsBankPos bag slot then
    let '(msg, dest) := CanBankItem protos inv bag slot [] g swap true in (msg, Slots dest)
  else if IsEquipmentPos bag slot then
    let '(msg, dest) := CanEquipItem protos inv slot g swap true in (msg, Equip dest)
  else (EQUIP_ERR_OK, Nowhere).
Definition move_to (inv : Inventory) (w : Way) (g : Z) : Inventory :=
  match w with
  | Slots dest => Store inv dest g
  | Equip dest => EquipItem inv dest g
  | Nowhere => inv
  end.
Definition equips (w : Way) : bool := match w with Equip _ => true | _ => false end.

(** ** SplitItem *)

Definition SplitItem (inv : Inventory) (src dst count : Z) : Inventory :=
  let '(srcbag, srcslot) := (src / 256, src mod 256) in
  let '(dstbag, dstslot) := (dst / 256, dst mod 256) in
  match GetItemByPos inv srcbag srcslot with
  | None => emit (EquipError EQUIP_ERR_ITEM_NOT_FOUND None None) inv
  | Some pSrcItem =>
      if i_generatedLoot (deref inv pSrcItem) then emit (EquipError EQUIP_ERR_COULDNT_SPLIT_ITEMS (Some pSrcItem) None) inv
      else if GetCount inv pSrcItem =? count then
        emit (EquipError EQUIP_ERR_COULDNT_SPLIT_ITEMS (Some pSrcItem) None) (emit (CheatAction "Attempt to split full item stack") inv)
      else if GetCount inv pSrcItem <? count then
        emit (EquipError EQUIP_ERR_TRIED_TO_SPLIT_MORE_THAN_COUNT (Some pSrcItem) None)
          (emit (CheatAction "Attempt to split more items than have") inv)
      else if existsb (Z.eqb pSrcItem) (ch_tradeSlots (inv_char inv)) then emit (CheatAction "Attempt to split item in trade") inv
      else
        match CloneItem inv pSrcItem count with
        | (None, inv) => emit (EquipError EQUIP_ERR_ITEM_NOT_FOUND (Some pSrcItem) None) inv
        | (Some pNewItem, inv) =>
            if IsInventoryPos dstbag dstslot || IsBankPos dstbag dstslot || IsEquipmentPos dstbag dstslot then
              let inv := upd pSrcItem (fun it => SetCount (u32 (i_count it - count)) it) inv in
              let '(msg, way) := can_move inv dstbag dstslot pNewItem false in
              if negb (msg =? EQUIP_ERR_OK) then
                emit (EquipError msg (Some pSrcItem) None)
                  (upd pSrcItem (fun it => SetCount (u32 (i_count it + count)) it) (delete_item pNewItem inv))
              else
                let inv := move_to inv way pNewItem in
                if equips way then AutoUnequipOffhandIfNeed inv else inv
            else inv
        end
  end.

(** ** SwapItem *)

(** The contents of a full bag move into an empty one, from slot 0 on. *)
Fixpoint exchange_loop (inv : Inventory) (fullBag emptyBag count : Z) (js : list Z) : Inventory :=
  match js with
  | [] => inv
  | i :: js =>
      match Bag_GetItemByPos inv fullBag i with
      | None => exchange_loop inv fullBag emptyBag count js
      | Some bagItem =>
          exchange_loop (Bag_StoreItem emptyBag count bagItem (Bag_RemoveItem fullBag i inv)) fullBag emptyBag (count + 1) js
      end
  end.
Definition exchange_contents (inv : Inventory) (emptyBag fullBag : Z) : InventoryResult * Inventory :=
  let contents := omap (Bag_GetItemByPos inv fullBag) (slots 0 (GetBagSize inv fullBag)) in
  if negb (forallb (fun g => ItemCanGoIntoBag (GetProto protos inv g) (GetProto protos inv emptyBag)) contents)
  then (EQUIP_ERR_NONEMPTY_BAG_OVER_OTHER_BAG, inv)
  else if GetBagSize inv emptyBag <? Z.of_nat (length contents) then (EQUIP_ERR_ITEMS_CANT_BE_SWAPPED, inv)
  else (EQUIP_ERR_OK, exchange_loop inv fullBag emptyBag 0 (slots 0 (GetBagSize inv fullBag))).

(** An item of the bag is being looted. *)
Definition looted_inside (inv : Inventory) (b : Z) : bool :=
  existsb (fun g => i_generatedLoot (deref inv g)) (omap (Bag_GetItemByPos inv b) (slots 0 (GetBagSize inv b))).

Section Swap.
Variables srcbag srcslot dstbag dstslot : Z.

(** To a free position. *)
Definition swap_move (inv : Inventory) (pSrcItem : Z) : Inventory :=
  if IsInventoryPos dstbag dstslot || IsBankPos dstbag dstslot || IsEquipmentPos dstbag dstslot then
    let '(msg, way) := can_move inv dstbag dstslot pSrcItem false in
    if negb (msg =? EQUIP_ERR_OK) then emit (EquipError msg (Some pSrcItem) None) inv
    else
      let inv := move_to (RemoveItem inv srcbag srcslot) way pSrcItem in
      if equips way then AutoUnequipOffhandIfNeed inv else inv
  else inv.

(** Onto a stack it can be merged with; [None] when it cannot. *)
Definition swap_merge (inv : Inventory) (pSrcItem pDstItem : Z) : option Inventory :=
  let '(msg, way) := can_move inv dstbag dstslot pSrcItem false in
  match way with
  | Nowhere => Some inv
  | _ =>
      if msg =? EQUIP_ERR_OK then
        let max := GetMaxStackSize (GetProto protos inv pSrcItem) in
        if u32 (GetCount inv pSrcItem + GetCount inv pDstItem) <=? max then
          let inv := move_to (RemoveItem inv srcbag srcslot) way pSrcItem in
          Some (if equips way then AutoUnequipOffhandIfNeed inv else inv)
        else
          let inv := upd pSrcItem (SetCount (u32 (GetCount inv pSrcItem + GetCount inv pDstItem - max))) inv in
          Some (upd pDstItem (SetCount max) inv)
      else None
  end.

(** What a swap asks of one side: a place, and that what is there can leave. *)
Definition can_swap_to (inv : Inventory) (bag slot g : Z) : InventoryResult * Way :=
  let '(msg, way) := can_move inv bag slot g true in
  match way with
  | Equip dest =>
      if msg =? EQUIP_ERR_OK then (CanUnequipItem protos inv (dest / 256) (dest mod 256) true, way) else (msg, way)
  | _ => (msg, way)
  end.

(** Two bags, one of them empty and not in use as a bag. *)
Definition swap_contents (inv : Inventory) (pSrcItem pDstItem : Z) : InventoryResult * Inventory :=
  if IsBag protos inv pSrcItem && IsBag protos inv pDstItem then
    if IsEmpty inv pSrcItem && negb (IsBagPos srcbag srcslot) then exchange_contents inv pSrcItem pDstItem
    else if IsEmpty inv pDstItem && negb (IsBagPos dstbag dstslot) then exchange_contents inv pDstItem pSrcItem
    else (EQUIP_ERR_OK, inv)
  else (EQUIP_ERR_OK, inv).

Definition release_loot (inv : Inventory) (pSrcItem pDstItem : Z) : Inventory :=
  if ch_looting (inv_char inv) &&
     ((IsBagPos srcbag srcslot && looted_inside inv pSrcItem) || (IsBagPos dstbag dstslot && looted_inside inv pDstItem))
  then emit LootReleased inv else inv.

Definition swap_real (inv : Inventory) (pSrcItem pDstItem : Z) : Inventory :=
  let '(msg, way) := can_swap_to inv dstbag dstslot pSrcItem in
  if negb (msg =? EQUIP_ERR_OK) then emit (EquipError msg (Some pSrcItem) (Some pDstItem)) inv
  else
    let '(msg2, way2) := can_swap_to inv srcbag srcslot pDstItem in
    if negb (msg2 =? EQUIP_ERR_OK) then emit (EquipError msg2 (Some pDstItem) (Some pSrcItem)) inv
    else
      let '(msg3, inv) := swap_contents inv pSrcItem pDstItem in
      if negb (msg3 =? EQUIP_ERR_OK) then emit (EquipError msg3 (Some pSrcItem) (Some pDstItem)) inv
      else
        let inv := RemoveItem inv dstbag dstslot in
        let inv := RemoveItem inv srcbag srcslot in
        let inv := move_to inv way pSrcItem in
        let inv := move_to inv way2 pDstItem in
        AutoUnequipOffhandIfNeed (release_loot inv pSrcItem pDstItem).

Definition empty_bag (inv : Inventory) (g : option Z) : bool :=
  match g with Some g => IsBag protos inv g && IsEmpty inv g | None => false end.

(** The checks before any move: the error and the items it names. *)
Definition swap_refused (inv : Inventory) (pSrcItem : Z) (pDstItem : option Z) : option Inventory :=
  let src_equip := IsEquipmentPos srcbag srcslot || IsBagPos srcbag srcslot in
  let dst_equip := IsEquipmentPos dstbag dstslot || IsBagPos dstbag dstslot in
  let msg := if src_equip then
               CanUnequipItem protos inv srcbag srcslot
                 (negb (IsBagPos srcbag srcslot) || IsBagPos dstbag dstslot || empty_bag inv pDstItem)
             else EQUIP_ERR_OK in
  let msg2 := if bool_decide (pDstItem <> None) && dst_equip then
                CanUnequipItem protos inv dstbag dstslot
                  (negb (IsBagPos dstbag dstslot) || IsBagPos srcbag srcslot || empty_bag inv (Some pSrcItem))
              else EQUIP_ERR_OK in
  if negb (ch_alive (inv_char inv)) && negb (IsInventoryPos srcbag srcslot && IsInventoryPos dstbag dstslot)
  then Some (emit (EquipError EQUIP_ERR_YOU_ARE_DEAD (Some pSrcItem) pDstItem) inv)
  else if negb (msg =? EQUIP_ERR_OK) then Some (emit (EquipError msg (Some pSrcItem) pDstItem) inv)
  else if IsBagPos srcbag srcslot && (srcslot =? dstbag) then
    Some (emit (EquipError EQUIP_ERR_NONEMPTY_BAG_OVER_OTHER_BAG (Some pSrcItem) pDstItem)
            (emit (CheatAction "SwapItem: put equipped/bank bag in self (srcslot == dstbag)") inv))
  else if IsBagPos dstbag dstslot && (dstslot =? srcbag) then
    Some (emit (EquipError EQUIP_ERR_NONEMPTY_BAG_OVER_OTHER_BAG pDstItem (Some pSrcItem))
            (emit (CheatAction "SwapItem: put equipped/bank bag in self (dstslot == srcbag)") inv))
  else if negb (msg2 =? EQUIP_ERR_OK) then Some (emit (EquipError msg2 (Some pSrcItem) pDstItem) inv)
  else None.

Definition swap_items (inv : Inventory) : Inventory :=
  match GetItemByPos inv srcbag srcslot with
  | None => inv
  | Some pSrcItem =>
      match swap_refused inv pSrcItem (GetItemByPos inv dstbag dstslot) with
      | Some inv => inv
      | None =>
          match GetItemByPos inv dstbag dstslot with
          | None => swap_move inv pSrcItem
          | Some pDstItem =>
              match (if negb (IsBag protos inv pSrcItem) && negb (IsBag protos inv pDstItem)
                     then swap_merge inv pSrcItem pDstItem else None) with
              | Some inv => inv
              | None => swap_real inv pSrcItem pDstItem
              end
          end
      end
  end.
End Swap.
Definition SwapItem (inv : Inventory) (src dst : Z) : Inventory :=
  swap_items (src / 256) (src mod 256) (dst / 256) (dst mod 256) inv.

(** ** The packets *)

Definition equip_error (msg : InventoryResult) (a b : option Z) (inv : Inventory) : Inventory := emit (EquipError msg a b) inv.

Definition HandleSplitItemOpcode (inv : Inventory) (srcbag srcslot dstbag dstslot count : Z) : Inventory :=
  let src := pos_of srcbag srcslot in
  let dst := pos_of dstbag dstslot in
  if src =? dst then inv
  else if count =? 0 then inv
  else if negb (IsValidPos inv srcbag srcslot true) then equip_error EQUIP_ERR_ITEM_NOT_FOUND None None inv
  else if negb (IsValidPos inv dstbag dstslot false) then equip_error EQUIP_ERR_ITEM_DOESNT_GO_TO_SLOT None None inv
  else SplitItem inv src dst count.

Definition HandleSwapInvItemOpcode (inv : Inventory) (srcslot dstslot : Z) : Inventory :=
  if srcslot =? dstslot then inv
  else if negb (IsValidPos inv INVENTORY_SLOT_BAG_0 srcslot true) then equip_error EQUIP_ERR_ITEM_NOT_FOUND None None inv
  else if negb (IsValidPos inv INVENTORY_SLOT_BAG_0 dstslot true) then equip_error EQUIP_ERR_ITEM_DOESNT_GO_TO_SLOT None None inv
  else if (IsBankPos INVENTORY_SLOT_BAG_0 srcslot || IsBankPos INVENTORY_SLOT_BAG_0 dstslot) && negb (ch_canUseBank (inv_char inv)) then inv
  else SwapItem inv (pos_of INVENTORY_SLOT_BAG_0 srcslot) (pos_of INVENTORY_SLOT_BAG_0 dstslot).

Definition HandleAutoEquipItemSlotOpcode (inv : Inventory) (itemGuid dstslot : Z) : Inventory :=
  if negb (IsEquipmentPos INVENTORY_SLOT_BAG_0 dstslot) then inv
  else
    let dstpos := pos_of INVENTORY_SLOT_BAG_0 dstslot in
    match GetItemByGuid inv itemGuid with
    | None => inv
    | Some item => if GetPos inv item =? dstpos then inv else SwapItem inv (GetPos inv item) dstpos
    end.

Definition HandleSwapItem (inv : Inventory) (dstbag dstslot srcbag srcslot : Z) : Inventory :=
  let src := pos_of srcbag srcslot in
  let dst := pos_of dstbag dstslot in
  if src =? dst then inv
  else if negb (IsValidPos inv srcbag srcslot true) then equip_error EQUIP_ERR_ITEM_NOT_FOUND None None inv
  else if negb (IsValidPos inv dstbag dstslot true) then equip_error EQUIP_ERR_ITEM_DOESNT_GO_TO_SLOT None None inv
  else if (IsBankPos srcbag srcslot || IsBankPos dstbag dstslot) && negb (ch_canUseBank (inv_char inv)) then inv
  else SwapItem inv src dst.

(** An occupied slot: where the item there goes. The positions found by a
    failed attempt stay in the vector of the next. *)
Definition auto_equip_back (inv : Inventory) (srcbag srcslot src pDstItem : Z) : InventoryResult * Way :=
  let '(sb, ss) := (src / 256, src mod 256) in
  if IsInventoryPos sb ss then
    let '(msg, d) := CanStoreItem protos inv srcbag srcslot [] pDstItem true in
    let '(msg, d) := if negb (msg =? EQUIP_ERR_OK) then CanStoreItem protos inv srcbag NULL_SLOT d pDstItem true else (msg, d) in
    let '(msg, d) := if negb (msg =? EQUIP_ERR_OK) then CanStoreItem protos inv NULL_BAG NULL_SLOT d pDstItem true else (msg, d) in
    (msg, Slots d)
  else if IsBankPos sb ss then
    let '(msg, d) := CanBankItem protos inv srcbag srcslot [] pDstItem true true in
    let '(msg, d) := if negb (msg =? EQUIP_ERR_OK) then CanBankItem protos inv srcbag NULL_SLOT d pDstItem true true else (msg, d) in
    let '(msg, d) := if negb (msg =? EQUIP_ERR_OK) then CanBankItem protos inv NULL_BAG NULL_SLOT d pDstItem true true else (msg, d) in
    (msg, Slots d)
  else if IsEquipmentPos sb ss then
    let '(msg, eSrc) := CanEquipItem protos inv srcslot pDstItem true true in
    (if msg =? EQUIP_ERR_OK then CanUnequipItem protos inv (eSrc / 256) (eSrc mod 256) true else msg, Equip eSrc)
  else (EQUIP_ERR_OK, Nowhere).

Definition HandleAutoEquipItemOpcode (inv : Inventory) (srcbag srcslot : Z) : Inventory :=
  match GetItemByPos inv srcbag srcslot with
  | None => inv
  | Some pSrcItem =>
      let inv :=
        if IsOffHandItem (GetProto protos inv pSrcItem) && IsTwoHandUsed protos inv
        then AutoUnequipItemFromSlot inv EQUIPMENT_SLOT_MAINHAND false else inv in
      let swap := negb (IsBag protos inv pSrcItem) in
      let '(msg, dest) := CanEquipItem protos inv NULL_SLOT pSrcItem swap true in
      if negb (msg =? EQUIP_ERR_OK) then equip_error msg (Some pSrcItem) None inv
      else
        let src := GetPos inv pSrcItem in
        if dest =? src then inv
        else match GetItemByPos_pos inv dest with
        | None => AutoUnequipOffhandIfNeed (EquipItem (RemoveItem inv srcbag srcslot) dest pSrcItem)
        | Some pDstItem =>
            let dstbag := GetBagSlot inv pDstItem in
            let dstslot := GetSlot inv pDstItem in
            let msg := CanUnequipItem protos inv (dest / 256) (dest mod 256) swap in
            if negb (msg =? EQUIP_ERR_OK) then equip_error msg (Some pDstItem) None inv
            else
              let '(msg, way) := auto_equip_back inv srcbag srcslot src pDstItem in
              if negb (msg =? EQUIP_ERR_OK) then equip_error msg (Some pDstItem) (Some pSrcItem) inv
              else
                let inv := RemoveItem inv dstbag dstslot in
                let inv := RemoveItem inv srcbag srcslot in
                AutoUnequipOffhandIfNeed (move_to (EquipItem inv dest pSrcItem) way pDstItem)
        end
  end.

Definition HandleDestroyItemOpcode (inv : Inventory) (bag slot count : Z) : Inventory :=
  if ch_suspicious (inv_char inv) then inv
  else
    let msg := if IsEquipmentPos bag slot || IsBagPos bag slot then CanUnequipItem protos inv bag slot false else EQUIP_ERR_OK in
    if negb (msg =? EQUIP_ERR_OK) then equip_error msg (GetItemByPos inv bag slot) None inv
    else match GetItemByPos inv bag slot with
    | None => equip_error EQUIP_ERR_ITEM_NOT_FOUND None None inv
    | Some pItem =>
        let pProto := GetProto protos inv pItem in
        if negb (Z.land (Flags pProto) ITEM_FLAG_INDESTRUCTIBLE =? 0) then equip_error EQUIP_ERR_CANT_DROP_SOULBOUND None None inv
        else
          let inv := if Restorable pProto && (count <=? GetCount inv pItem)
                     then emit (DestroyedItemSaved (GetEntry inv pItem) (if count =? 0 then GetCount inv pItem else count)) inv else inv in
          if negb (count =? 0) then fst (DestroyItemCount_item inv pItem count) else DestroyItem inv bag slot
    end.

(** Storing where nothing would move only clears the grey state. *)
Definition same_place (dest : ItemPosCountVec) (src : Z) : bool :=
  match dest with [(pos, _)] => pos =? src | _ => false end.

Definition HandleAutoStoreBagItemOpcode (inv : Inventory) (srcbag srcslot dstbag : Z) : Inventory :=
  match GetItemByPos inv srcbag srcslot with
  | None => inv
  | Some pItem =>
      if negb (IsValidPos inv dstbag NULL_SLOT false) then equip_error EQUIP_ERR_ITEM_DOESNT_GO_TO_SLOT None None inv
      else if (IsBankPos srcbag srcslot || is_bank_bag_slot dstbag) && negb (ch_canUseBank (inv_char inv)) then inv
      else
        let src := GetPos inv pItem in
        let '(sb, ss) := (src / 256, src mod 256) in
        let msg := if IsEquipmentPos sb ss || IsBagPos sb ss then CanUnequipItem protos inv sb ss (negb (IsBagPos sb ss)) else EQUIP_ERR_OK in
        if negb (msg =? EQUIP_ERR_OK) then equip_error msg (Some pItem) None inv
        else
          let '(msg, dest) := CanStoreItem protos inv dstbag NULL_SLOT [] pItem false in
          if negb (msg =? EQUIP_ERR_OK) then equip_error msg (Some pItem) None inv
          else if same_place dest src then equip_error EQUIP_ERR_NONE (Some pItem) None inv
          else Store (RemoveItem inv srcbag srcslot) dest pItem
  end.

Definition HandleAutoBankItemOpcode (inv : Inventory) (srcbag srcslot : Z) : Inventory :=
  match GetItemByPos inv srcbag srcslot with
  | None => inv
  | Some pItem =>
      if negb (ch_canUseBank (inv_char inv)) then inv
      else
        let '(msg, dest) := CanBankItem protos inv NULL_BAG NULL_SLOT [] pItem false true in
        if negb (msg =? EQUIP_ERR_OK) then equip_error msg (Some pItem) None inv
        else if same_place dest (GetPos inv pItem) then equip_error EQUIP_ERR_NONE (Some pItem) None inv
        else Store (RemoveItem inv srcbag srcslot) dest pItem
  end.

Definition HandleAutoStoreBankItemOpcode (inv : Inventory) (srcbag srcslot : Z) : Inventory :=
  match GetItemByPos inv srcbag srcslot with
  | None => inv
  | Some pItem =>
      if negb (ch_canUseBank (inv_char inv)) then inv
      else if IsBankPos srcbag srcslot then
        let '(msg, dest) := CanStoreItem protos inv NULL_BAG NULL_SLOT [] pItem false in
        if negb (msg =? EQUIP_ERR_OK) then equip_error msg (Some pItem) None inv
        else
          let '(storedItem, inv) := StoreItem (RemoveItem inv srcbag srcslot) dest pItem (Some pItem) in
          match storedItem with Some g => emit (QuestItemAdded (GetEntry inv g) 0) inv | None => inv end
      else
        let '(msg, dest) := CanBankItem protos inv NULL_BAG NULL_SLOT [] pItem false true in
        if negb (msg =? EQUIP_ERR_OK) then equip_error msg (Some pItem) None inv
        else Store (RemoveItem inv srcbag srcslot) dest pItem
  end.
End Moves.
