(* ===== verification/InventorySound.v ===== *)
(** * InventorySound: the invariant of an inventory

    [sound]: pointers are live, an item is where it says it is and nowhere
    else, what is used as a bag is a bag, and only bags in use have contents.
    [H] are the items in no slot: in the hand of an operation, or lost. The
    operations are built from a few steps (take, put, change, drop, create)
    that keep it; [amount] is what the slots hold of a template. *)
From S2P Require Import Prelude Inventory InventoryMoves.

(** ** Sums over the items outside a set *)

Definition hsum {A} (f : A -> Z) (H : gset Z) (m : gmap Z A) : Z := msum f (filter (fun kv => kv.1 ∉ H) m).

Section Hsum.
Context {A : Type} (f : A -> Z).
Implicit Types (m : gmap Z A) (H : gset Z).

Lemma hsum_insert_in H m k a : k ∈ H -> hsum f H (<[k := a]> m) = hsum f H m.
Proof.
  intros Hk. unfold hsum. rewrite map_filter_insert_False by (cbn; set_solver).
  f_equal. apply map_filter_delete_not. cbn. set_solver.
Qed.
Lemma hsum_delete_in H m k : k ∈ H -> hsum f H (delete k m) = hsum f H m.
Proof. intros Hk. unfold hsum. f_equal. apply map_filter_delete_not. cbn. set_solver. Qed.
Lemma hsum_insert_out H m k a : k ∉ H -> hsum f H (<[k := a]> m) = hsum f H m - from_option f 0 (m !! k) + f a.
Proof.
  intros Hk. unfold hsum. rewrite map_filter_insert_True by done. rewrite msum_insert. do 2 f_equal.
  destruct (m !! k) as [b|] eqn:E.
  - by rewrite (proj2 (map_lookup_filter_Some _ _ _ _) (conj E Hk)).
  - by rewrite map_lookup_filter_None_2 by (left; done).
Qed.
Lemma hsum_take H m k a : k ∉ H -> m !! k = Some a -> hsum f ({[k]} ∪ H) m = hsum f H m - f a.
Proof.
  intros Hk Ha. unfold hsum.
  rewrite (msum_delete f (filter (fun kv => kv.1 ∉ H) m) k a) by (by apply map_lookup_filter_Some).
  replace (filter (fun kv => kv.1 ∉ {[k]} ∪ H) m) with (delete k (filter (fun kv : Z * A => kv.1 ∉ H) m)); [lia|].
  apply map_eq. intros i. apply option_eq. intros x. rewrite lookup_delete_Some, !map_lookup_filter_Some. cbn. set_solver.
Qed.
Lemma hsum_give H m k a : k ∈ H -> m !! k = Some a -> hsum f (H ∖ {[k]}) m = hsum f H m + f a.
Proof.
  intros Hk Ha. assert (Hn : k ∉ H ∖ {[k]}) by set_solver. pose proof (hsum_take _ _ _ _ Hn Ha) as E.
  replace ({[k]} ∪ H ∖ {[k]}) with H in E; [lia|]. apply set_eq. intros x. destruct (decide (x = k)); set_solver.
Qed.
Lemma alter_as_insert m k g a : m !! k = Some a -> alter g k m = <[k := g a]> m.
Proof. intros E. apply map_eq. intros i. destruct (decide (i = k)) as [->|]; by rewrite ?lookup_alter_eq, ?lookup_insert_eq, ?lookup_alter_ne, ?lookup_insert_ne, ?E. Qed.
Lemma hsum_alter_in H m k g : k ∈ H -> hsum f H (alter g k m) = hsum f H m.
Proof.
  intros Hk. destruct (m !! k) as [a|] eqn:E.
  - rewrite (alter_as_insert m k g a E). by apply hsum_insert_in.
  - replace (alter g k m) with m; [done|]. apply map_eq. intros i. destruct (decide (i = k)) as [->|]; by rewrite ?lookup_alter_eq, ?lookup_alter_ne, ?E.
Qed.
Lemma hsum_alter_out H m k g a : k ∉ H -> m !! k = Some a -> hsum f H (alter g k m) = hsum f H m - f a + f (g a).
Proof. intros Hk E. rewrite (alter_as_insert m k g a E), hsum_insert_out, E by done. done. Qed.
Lemma hsum_fresh H m k : m !! k = None -> hsum f ({[k]} ∪ H) m = hsum f H m.
Proof.
  intros Hk. unfold hsum. f_equal. apply map_eq. intros i. apply option_eq. intros x.
  rewrite !map_lookup_filter_Some. cbn. split; intros [Hi ?]; (split; [done|]); assert (i <> k) by congruence; set_solver.
Qed.
Lemma hsum_gone H m k : k ∈ H -> hsum f (H ∖ {[k]}) (delete k m) = hsum f H m.
Proof.
  intros Hk. unfold hsum. f_equal. apply map_eq. intros i. apply option_eq. intros x.
  rewrite !map_lookup_filter_Some, lookup_delete_Some. cbn. set_solver.
Qed.
End Hsum.

(** ** Templates as the server loads them (ObjectMgr::LoadItemPrototypes) *)

Class SaneTemplates (protos : Z -> option ItemPrototype) : Prop :=
  sane_templates : forall e p, protos e = Some p -> 1 <= Stackable p <= 255 /\ 0 <= ContainerSlots p <= MAX_BAG_SIZE.

Definition bag_place (s : Z) : Prop := is_bag_slot s || is_bank_bag_slot s = true.
(** The slots of a character the moves here use; those for buying back are not among them. *)
Definition own_slot (s : Z) : Prop := 0 <= s < BANK_SLOT_BAG_END \/ KEYRING_SLOT_START <= s < KEYRING_SLOT_END.
#[export] Instance bag_place_dec s : Decision (bag_place s).
Proof. unfold bag_place. apply _. Defined.

Section Sound.
Context (protos : Z -> option ItemPrototype).
Implicit Types (inv : Inventory) (H : gset Z).

Definition template (it : Item) : ItemPrototype := default noProto (protos (i_entry it)).
Definition is_bag (it : Item) : Prop := InventoryType (template it) = INVTYPE_BAG.

(** A single item: known, of a size its template allows. *)
Record item_ok (inv : Inventory) (g : Z) (it : Item) : Prop := {
  io_proto : protos (i_entry it) = Some (template it);
  io_count : 1 <= i_count it <= Stackable (template it);
  io_guid : g < inv_next inv;
  io_size : i_numSlots it = if InventoryType (template it) =? INVTYPE_BAG then ContainerSlots (template it) else 0
}.

Record main_ok (inv : Inventory) (H : gset Z) (s : Z) (it : Item) : Prop := {
  mo_slot : i_slot it = s;
  mo_container : i_container it = None;
  mo_own : own_slot s;
  mo_bag : bag_place s -> is_bag it
}.
(** What the bag [b] holds at [j]; [b] is in use or in the hand. *)
Record held_ok (inv : Inventory) (H : gset Z) (b : Z) (bag : Item) (j : Z) (it : Item) : Prop := {
  ho_slot : i_slot it = j;
  ho_container : i_container it = Some b;
  ho_range : 0 <= j < i_numSlots bag;
  ho_empty : i_bagslot it = ∅;
  ho_used : b ∈ H \/ (i_container bag = None /\ bag_place (i_slot bag) /\ m_items inv !! i_slot bag = Some b)
}.
Definition placed (inv : Inventory) (g : Z) (it : Item) : Prop :=
  match i_container it with
  | None => m_items inv !! i_slot it = Some g
  | Some b => exists bag, heap inv !! b = Some bag /\ i_bagslot bag !! i_slot it = Some g
  end.

Record sound (inv : Inventory) (H : gset Z) : Prop := {
  s_item : forall g it, heap inv !! g = Some it -> item_ok inv g it;
  s_main : forall s g, m_items inv !! s = Some g -> g ∉ H /\ exists it, heap inv !! g = Some it /\ main_ok inv H s it;
  s_held : forall b bag j g, heap inv !! b = Some bag -> i_bagslot bag !! j = Some g ->
             g ∉ H /\ exists it, heap inv !! g = Some it /\ held_ok inv H b bag j it;
  s_all : forall g it, heap inv !! g = Some it -> g ∉ H -> placed inv g it;
  s_hand : forall g, g ∈ H -> g < inv_next inv
}.

Definition weight (e : Z) (it : Item) : Z := if i_entry it =? e then i_count it else 0.
(** What the slots hold of the template [e]. *)
Definition amount (e : Z) (inv : Inventory) (H : gset Z) : Z := hsum (weight e) H (heap inv).

(** ** The invariant sees slots, heap and generator *)

Lemma sound_ext inv inv' H :
  m_items inv' = m_items inv -> heap inv' = heap inv -> inv_next inv <= inv_next inv' -> sound inv H -> sound inv' H.
Proof.
  intros Em Eh En [Hi Hm Hh Ha Hn]. split; rewrite ?Em, ?Eh; unfold placed; rewrite ?Em, ?Eh.
  - intros g it Hg. destruct (Hi _ _ Hg). split; auto; lia.
  - intros s g Hs. destruct (Hm _ _ Hs) as [? (it & ? & [])]. split; [done|]. exists it. done.
  - intros b bag j g Hb Hj. destruct (Hh _ _ _ _ Hb Hj) as [? (it & ? & [])]. split; [done|]. exists it. split; [done|].
    split; auto. by rewrite Em.
  - intros g it Hg HgH. exact (Ha _ _ Hg HgH).
  - intros g Hg. specialize (Hn _ Hg). lia.
Qed.
Lemma sound_emit o inv H : sound inv H -> sound (emit o inv) H.
Proof. by apply sound_ext. Qed.

(** ** Changing an item in its place *)

Record stays (it it' : Item) : Prop := {
  st_entry : i_entry it' = i_entry it;
  st_slot : i_slot it' = i_slot it;
  st_container : i_container it' = i_container it;
  st_size : i_numSlots it' = i_numSlots it;
  st_bagslot : i_bagslot it' = i_bagslot it;
  st_count : 1 <= i_count it' <= Stackable (template it)
}.

Lemma upd_lookup g f inv k : heap (upd g f inv) !! k = if decide (k = g) then f <$> heap inv !! g else heap inv !! k.
Proof. cbn. destruct (decide (k = g)) as [->|]; [apply lookup_alter_eq|by apply lookup_alter_ne]. Qed.

Lemma sound_upd g f inv H :
  sound inv H -> (forall it, heap inv !! g = Some it -> stays it (f it)) -> sound (upd g f inv) H.
Proof.
  intros [Hi Hm Hh Ha Hn] Hf.
  assert (Hback : forall k it', heap (upd g f inv) !! k = Some it' ->
            exists it, heap inv !! k = Some it /\ i_entry it' = i_entry it /\ i_slot it' = i_slot it /\ i_container it' = i_container it /\
              i_numSlots it' = i_numSlots it /\ i_bagslot it' = i_bagslot it /\ 1 <= i_count it' <= Stackable (template it)).
  { intros k it'. rewrite upd_lookup. destruct (decide (k = g)) as [->|].
    - intros (it & E & ->)%fmap_Some. exists it. destruct (Hf _ E). done.
    - intros E. exists it'. destruct (Hi _ _ E). done. }
  assert (Hforth : forall k it, heap inv !! k = Some it -> exists it', heap (upd g f inv) !! k = Some it' /\ i_entry it' = i_entry it /\
              i_slot it' = i_slot it /\ i_container it' = i_container it /\ i_numSlots it' = i_numSlots it /\ i_bagslot it' = i_bagslot it).
  { intros k it E. rewrite upd_lookup. destruct (decide (k = g)) as [->|].
    - exists (f it). rewrite E. destruct (Hf _ E). done.
    - exists it. done. }
  assert (Ht : forall it it', i_entry it' = i_entry it -> template it' = template it) by (unfold template; by intros ?? ->).
  split.
  - intros k it' Hk. destruct (Hback _ _ Hk) as (it & E & Ee & _ & _ & Es & _ & Hc). destruct (Hi _ _ E).
    split; rewrite ?(Ht _ _ Ee), ?Ee, ?Es; auto.
  - intros s k Hs. destruct (Hm _ _ Hs) as [? (it & E & [])]. split; [done|].
    destruct (Hforth _ _ E) as (it' & E' & Ee & Esl & Ec & _ & _). exists it'. split; [done|].
    split; unfold is_bag; rewrite ?(Ht _ _ Ee), ?Esl, ?Ec; auto.
  - intros b bag' j k Hb Hj. destruct (Hback _ _ Hb) as (bag & Eb & Ebe & Ebs & Ebc & Ebn & Ebb & _). rewrite Ebb in Hj.
    destruct (Hh _ _ _ _ Eb Hj) as [? (it & E & [])]. split; [done|].
    destruct (Hforth _ _ E) as (it' & E' & Ee & Esl & Ec & _ & Ebg). exists it'. split; [done|].
    split; rewrite ?Esl, ?Ec, ?Ebn, ?Ebg, ?Ebc, ?Ebs; auto.
  - intros k it' Hk HkH. destruct (Hback _ _ Hk) as (it & E & _ & Esl & Ec & _ & _ & _). specialize (Ha _ _ E HkH).
    unfold placed in *. rewrite Ec, Esl. destruct (i_container it) as [b|]; [|done].
    destruct Ha as (bag & Eb & Hj). destruct (Hforth _ _ Eb) as (bag' & Eb' & _ & _ & _ & _ & Ebb). exists bag'. by rewrite Ebb.
  - done.
Qed.

(** ** Taking an item out of its slot *)

(** The item after it is taken: of no place, with all it holds. *)
Record same_things (it it' : Item) : Prop := {
  sm_entry : i_entry it' = i_entry it;
  sm_count : i_count it' = i_count it;
  sm_size : i_numSlots it' = i_numSlots it;
  sm_bagslot : i_bagslot it' = i_bagslot it
}.
Lemma item_ok_same inv inv' g it it' :
  inv_next inv <= inv_next inv' -> same_things it it' -> item_ok inv g it -> item_ok inv' g it'.
Proof.
  intros Hn [Ee Ec Es _] []. assert (template it' = template it) as Ht by (unfold template; by rewrite Ee).
  split; rewrite ?Ht, ?Ee, ?Ec, ?Es; auto; lia.
Qed.

Lemma sound_take_main inv H s g f :
  sound inv H -> m_items inv !! s = Some g -> (forall it, same_things it (f it)) ->
  sound (upd g f (clear_slot s inv)) ({[g]} ∪ H).
Proof.
  intros [Hi Hm Hh Ha Hn] Hs Hf. destruct (Hm _ _ Hs) as [HgH (it & Eg & [Mslot Mcont Mown Mbag])].
  assert (Hheap : forall k, heap (upd g f (clear_slot s inv)) !! k = if decide (k = g) then Some (f it) else heap inv !! k).
  { intros k. rewrite upd_lookup. cbn. destruct (decide (k = g)); [by rewrite Eg|done]. }
  assert (Hbag : forall b bag, heap (upd g f (clear_slot s inv)) !! b = Some bag ->
            exists bag0, heap inv !! b = Some bag0 /\ i_bagslot bag = i_bagslot bag0 /\ i_numSlots bag = i_numSlots bag0 /\ (b <> g -> bag = bag0)).
  { intros b bag. rewrite Hheap. destruct (decide (b = g)) as [->|]; [intros [= <-]; exists it; destruct (Hf it); done|].
    intros E. exists bag. done. }
  split.
  - intros k it' . rewrite Hheap. destruct (decide (k = g)) as [->|].
    + intros [= <-]. eapply item_ok_same; [|apply Hf|exact (Hi _ _ Eg)]. cbn. lia.
    + intros E. destruct (Hi _ _ E). split; auto.
  - intros s' k. cbn. rewrite lookup_delete_Some. intros [Hne Hk]. destruct (Hm _ _ Hk) as [HkH (it' & E & [])].
    assert (k <> g) as Hkg. { intros ->. simplify_eq. }
    split; [set_solver|]. exists it'. change (heap _ !! k) with (heap (upd g f (clear_slot s inv)) !! k).
    rewrite Hheap, decide_False by done. split; [done|]. by split.
  - intros b bag j k Hb Hj. destruct (Hbag _ _ Hb) as (bag0 & Eb & Ebb & Ebn & Hsame). rewrite Ebb in Hj.
    destruct (Hh _ _ _ _ Eb Hj) as [HkH (it' & E & [Ho1 Ho2 Ho3 Ho4 Ho5])].
    assert (k <> g) as Hkg. { intros ->. simplify_eq. }
    split; [set_solver|]. exists it'. rewrite Hheap, decide_False by done. split; [done|].
    split; rewrite ?Ebn; auto. destruct (decide (b = g)) as [->|Hbg]; [left; set_solver|].
    destruct Ho5 as [?|(Hc & Hp & Hb0)]; [left; set_solver|]. right. rewrite (Hsame Hbg). split_and!; [done|done|].
    cbn. rewrite lookup_delete_Some. split; [|done]. intros ->. simplify_eq.
  - intros k it'. rewrite Hheap. destruct (decide (k = g)) as [->|Hkg]; [set_solver|]. intros E HkH.
    assert (k ∉ H) as HkH' by set_solver. specialize (Ha _ _ E HkH'). unfold placed in *. destruct (i_container it') as [b|] eqn:Ec.
    + destruct Ha as (bag & Eb & Hj). destruct (decide (b = g)) as [->|].
      * exists (f it). rewrite Hheap, decide_True by done. simplify_eq. destruct (Hf bag). split; [done|congruence].
      * exists bag. by rewrite Hheap, decide_False.
    + cbn. rewrite lookup_delete_Some. split; [|done]. intros ->. simplify_eq.
  - intros k. cbn. rewrite elem_of_union, elem_of_singleton. intros [->|HkH]; [by apply (io_guid _ _ _ (Hi _ _ Eg))|auto].
Qed.

Lemma same_things_refl it : same_things it it.
Proof. done. Qed.
(** A bag without, or with, an item at [j]. *)
Lemma held_not_self inv H b bag j g : sound inv H -> heap inv !! b = Some bag -> i_bagslot bag !! j = Some g -> g <> b.
Proof.
  intros Hs Hb Hj ->. destruct (s_held _ _ Hs _ _ _ _ Hb Hj) as [_ (it & E & [])]. simplify_eq.
  rewrite ho_empty0 in Hj. by rewrite lookup_empty in Hj.
Qed.

Lemma sound_take_held_view inv inv' H b bag j g it it' :
  sound inv H -> heap inv !! b = Some bag -> i_bagslot bag !! j = Some g -> heap inv !! g = Some it -> same_things it it' ->
  m_items inv' = m_items inv -> inv_next inv' = inv_next inv ->
  (forall k, heap inv' !! k = if decide (k = g) then Some it' else if decide (k = b) then Some (SetBagslot (delete j (i_bagslot bag)) bag)
                              else heap inv !! k) ->
  sound inv' ({[g]} ∪ H).
Proof.
  intros Hs Eb Hj Eg Hit Em En Hheap. pose proof (held_not_self _ _ _ _ _ _ Hs Eb Hj) as Hgb. destruct Hs as [Hi Hm Hh Ha Hn].
  destruct (Hh _ _ _ _ Eb Hj) as [HgH (it0 & Eg0 & [Hslot Hcont Hrange Hempty Hused])]. simplify_eq.
  assert (Hgempty : i_bagslot it' = ∅) by (rewrite (sm_bagslot _ _ Hit); done).
  assert (Hbag : forall c cbag, heap inv' !! c = Some cbag -> forall j' k, i_bagslot cbag !! j' = Some k ->
            exists cbag0, heap inv !! c = Some cbag0 /\ i_bagslot cbag0 !! j' = Some k /\ i_numSlots cbag = i_numSlots cbag0 /\
              i_container cbag = i_container cbag0 /\ i_slot cbag = i_slot cbag0 /\ (c = b -> j' <> i_slot it)).
  { intros c cbag. rewrite Hheap. destruct (decide (c = g)) as [->|].
    - intros [= <-] j' k. rewrite Hgempty, lookup_empty. done.
    - destruct (decide (c = b)) as [->|].
      + intros [= <-] j' k. cbn. rewrite lookup_delete_Some. intros [? ?]. exists bag. split_and!; auto.
      + intros E j' k Hk. exists cbag. split_and!; done. }
  split.
  - intros k kt. rewrite Hheap. destruct (decide (k = g)) as [->|].
    + intros [= <-]. eapply item_ok_same; [|exact Hit|exact (Hi _ _ Eg)]. lia.
    + destruct (decide (k = b)) as [->|].
      * intros [= <-]. destruct (Hi _ _ Eb). split; cbn; rewrite ?En; auto.
      * intros E. destruct (Hi _ _ E). split; rewrite ?En; auto.
  - intros s k. rewrite Em. intros Hk. destruct (Hm _ _ Hk) as [HkH (kt & E & Hko)].
    assert (k <> g) as Hkg. { intros ->. destruct Hko. simplify_eq. }
    split; [set_solver|]. rewrite Hheap, decide_False by done. destruct (decide (k = b)) as [->|].
    + eexists. split; [reflexivity|]. simplify_eq. by destruct Hko.
    + exists kt. split; [done|]. by destruct Hko.
  - intros c cbag j' k Hc Hk. destruct (Hbag _ _ Hc _ _ Hk) as (cbag0 & Ec & Hk0 & Ens & Econt & Eslot & Hne).
    destruct (Hh _ _ _ _ Ec Hk0) as [HkH (kt & E & [Ho1 Ho2 Ho3 Ho4 Ho5])].
    assert (k <> g) as Hkg. { intros ->. simplify_eq. destruct (Hne eq_refl). done. }
    assert (k <> b) as Hkb. { intros ->. simplify_eq. rewrite Ho4, lookup_empty in Hj. done. }
    split; [set_solver|]. exists kt. rewrite Hheap, decide_False, decide_False by done. split; [done|].
    split; rewrite ?Ens, ?Econt, ?Eslot, ?Em; auto. destruct Ho5 as [?|?]; [left; set_solver|by right].
  - intros k kt. rewrite Hheap. destruct (decide (k = g)) as [->|Hkg]; [set_solver|]. intros E HkH.
    assert (Ek : exists kt0, heap inv !! k = Some kt0 /\ i_container kt = i_container kt0 /\ i_slot kt = i_slot kt0).
    { destruct (decide (k = b)) as [->|]; [|by exists kt]. exists bag. by simplify_eq. }
    destruct Ek as (kt0 & Ek & Econt & Eslot). specialize (Ha _ _ Ek ltac:(set_solver)). unfold placed in *.
    rewrite Econt, Eslot, Em. destruct (i_container kt0) as [c|] eqn:Ec; [|done]. destruct Ha as (cbag & Ecb & Hck).
    rewrite Hheap. destruct (decide (c = g)) as [->|].
    { simplify_eq. rewrite Hempty, lookup_empty in Hck. done. }
    destruct (decide (c = b)) as [->|]; [|by exists cbag]. eexists. split; [reflexivity|]. cbn. simplify_eq.
    rewrite lookup_delete_Some. split; [|done]. intros E'. rewrite <- E' in Hck. congruence.
  - intros k. rewrite En, elem_of_union, elem_of_singleton. intros [->|HkH]; [by apply (io_guid _ _ _ (Hi _ _ Eg))|auto].
Qed.

(** ** Putting an item into a free slot *)

Lemma sound_put_main_view inv inv' H s g it it' :
  sound inv H -> g ∈ H -> heap inv !! g = Some it -> m_items inv !! s = None -> own_slot s ->
  (bag_place s -> is_bag it) -> (i_bagslot it <> ∅ -> bag_place s) ->
  i_entry it' = i_entry it -> i_count it' = i_count it -> i_numSlots it' = i_numSlots it -> i_bagslot it' = i_bagslot it ->
  i_slot it' = s -> i_container it' = None ->
  m_items inv' = <[s := g]> (m_items inv) -> inv_next inv' = inv_next inv ->
  (forall k, heap inv' !! k = if decide (k = g) then Some it' else heap inv !! k) ->
  sound inv' (H ∖ {[g]}).
Proof.
  intros [Hi Hm Hh Ha Hn] HgH Eg Hs Hown Hbp Hfull Ee Ec Ens Ebs Eslot Econt Em En Hheap.
  assert (Hst : same_things it it') by done.
  assert (Ht : template it' = template it) by (unfold template; by rewrite Ee).
  assert (Hbag : forall b bag, heap inv' !! b = Some bag ->
            exists bag0, heap inv !! b = Some bag0 /\ i_bagslot bag = i_bagslot bag0 /\ i_numSlots bag = i_numSlots bag0 /\ (b <> g -> bag = bag0)).
  { intros b bag. rewrite Hheap. destruct (decide (b = g)) as [->|]; [intros [= <-]; by exists it|]. intros E. by exists bag. }
  split.
  - intros k kt. rewrite Hheap. destruct (decide (k = g)) as [->|].
    + intros [= <-]. eapply item_ok_same; [|exact Hst|exact (Hi _ _ Eg)]. lia.
    + intros E. destruct (Hi _ _ E). split; rewrite ?En; auto.
  - intros s' k. rewrite Em. intros [[<- <-]|[Hne Hk]]%lookup_insert_Some.
    + split; [set_solver|]. exists it'. rewrite Hheap, decide_True by done. split; [done|].
      split; unfold is_bag; rewrite ?Ht; auto.
    + destruct (Hm _ _ Hk) as [HkH (kt & E & Hko)]. split; [set_solver|].
      exists kt. rewrite Hheap, decide_False by set_solver. split; [done|]. by destruct Hko.
  - intros b bag j k Hb Hj. destruct (Hbag _ _ Hb) as (bag0 & Eb & Ebb & Ebn & Hsame). rewrite Ebb in Hj.
    destruct (Hh _ _ _ _ Eb Hj) as [HkH (kt & E & [Ho1 Ho2 Ho3 Ho4 Ho5])]. split; [set_solver|].
    exists kt. rewrite Hheap, decide_False by set_solver. split; [done|]. split; rewrite ?Ebn; auto.
    destruct (decide (b = g)) as [->|Hbg].
    + right. rewrite Hheap, decide_True in Hb by done. simplify_eq. rewrite Em, lookup_insert_eq.
      split_and!; [done| |done]. apply Hfull. intros E0. rewrite E0, lookup_empty in Hj. done.
    + rewrite (Hsame Hbg). destruct Ho5 as [?|(Hc & Hp & Hb0)]; [left; set_solver|]. right. split_and!; [done|done|].
      rewrite Em, lookup_insert_ne; [done|]. intros ->. congruence.
  - intros k kt. rewrite Hheap. destruct (decide (k = g)) as [->|Hkg].
    + intros [= <-] _. unfold placed. by rewrite Econt, Eslot, Em, lookup_insert_eq.
    + intros E HkH. assert (k ∉ H) as HkH' by set_solver. specialize (Ha _ _ E HkH'). unfold placed in *.
      destruct (i_container kt) as [b|] eqn:Ek.
      * destruct Ha as (bag & Eb & Hj). destruct (decide (b = g)) as [->|].
        -- exists it'. rewrite Hheap, decide_True by done. simplify_eq. by rewrite Ebs.
        -- exists bag. by rewrite Hheap, decide_False.
      * rewrite Em, lookup_insert_ne; [done|]. intros ->. congruence.
  - intros k. rewrite En. intros Hk. apply Hn. set_solver.
Qed.

Lemma sound_put_held_view inv inv' H b bag j g it it' :
  sound inv H -> g ∈ H -> heap inv !! g = Some it -> i_bagslot it = ∅ -> b <> g ->
  heap inv !! b = Some bag -> (b ∈ H \/ (i_container bag = None /\ bag_place (i_slot bag) /\ m_items inv !! i_slot bag = Some b)) ->
  0 <= j < i_numSlots bag -> i_bagslot bag !! j = None ->
  i_entry it' = i_entry it -> i_count it' = i_count it -> i_numSlots it' = i_numSlots it -> i_bagslot it' = i_bagslot it ->
  i_slot it' = j -> i_container it' = Some b ->
  m_items inv' = m_items inv -> inv_next inv' = inv_next inv ->
  (forall k, heap inv' !! k = if decide (k = g) then Some it' else if decide (k = b) then Some (SetBagslot (<[j := g]> (i_bagslot bag)) bag)
                              else heap inv !! k) ->
  sound inv' (H ∖ {[g]}).
Proof.
  intros [Hi Hm Hh Ha Hn] HgH Eg Hempty Hbg Eb Hused Hj Hfree Ee Ec Ens Ebs Eslot Econt Em En Hheap.
  assert (Hst : same_things it it') by done.
  assert (Hk0 : forall k kt, k <> g -> heap inv !! k = Some kt -> exists kt', heap inv' !! k = Some kt' /\ i_entry kt' = i_entry kt /\
            i_slot kt' = i_slot kt /\ i_container kt' = i_container kt /\ (k <> b -> kt' = kt)).
  { intros k kt Hk E. rewrite Hheap, decide_False by done. destruct (decide (k = b)) as [->|]; [|by exists kt].
    simplify_eq. eexists. split; [reflexivity|]. done. }
  assert (Hbag : forall c cbag, heap inv' !! c = Some cbag -> forall j' k, i_bagslot cbag !! j' = Some k -> (c = b /\ j' = j /\ k = g) \/
            exists cbag0, heap inv !! c = Some cbag0 /\ i_bagslot cbag0 !! j' = Some k /\ i_numSlots cbag = i_numSlots cbag0 /\
              i_container cbag = i_container cbag0 /\ i_slot cbag = i_slot cbag0).
  { intros c cbag. rewrite Hheap. destruct (decide (c = g)) as [->|].
    - intros [= <-] j' k. rewrite Ebs, Hempty, lookup_empty. done.
    - destruct (decide (c = b)) as [->|].
      + intros [= <-] j' k. cbn. intros [[<- <-]|[? ?]]%lookup_insert_Some; [by left|]. right. by exists bag.
      + intros E j' k Hk. right. by exists cbag. }
  split.
  - intros k kt. rewrite Hheap. destruct (decide (k = g)) as [->|]; [|destruct (decide (k = b)) as [->|]].
    + intros [= <-]. eapply item_ok_same; [|exact Hst|exact (Hi _ _ Eg)]. lia.
    + intros [= <-]. destruct (Hi _ _ Eb). split; cbn; rewrite ?En; auto.
    + intros E. destruct (Hi _ _ E). split; rewrite ?En; auto.
  - intros s k. rewrite Em. intros Hk. destruct (Hm _ _ Hk) as [HkH (kt & E & [M1 M2 M3 M4])]. split; [set_solver|].
    destruct (Hk0 k kt ltac:(set_solver) E) as (kt' & E' & Ee' & Es' & Ec' & _). exists kt'. split; [done|].
    split; unfold is_bag, template; rewrite ?Es', ?Ec', ?Ee'; auto.
  - intros c cbag j' k Hc Hk. destruct (Hbag _ _ Hc _ _ Hk) as [(-> & -> & ->)|(cbag0 & Ec0 & Hk' & Ens' & Econt' & Eslot')].
    + split; [set_solver|]. exists it'. rewrite Hheap, decide_True by done. split; [done|].
      rewrite Hheap, decide_False, decide_True in Hc by done. simplify_eq. split; cbn; rewrite ?Em; auto; [congruence|].
      destruct Hused as [?|?]; [left; set_solver|by right].
    + destruct (Hh _ _ _ _ Ec0 Hk') as [HkH (kt & E & [Ho1 Ho2 Ho3 Ho4 Ho5])]. split; [set_solver|].
      assert (k <> b) as Hkb. { intros ->. simplify_eq. destruct Hused as [?|(? & _)]; [done|congruence]. }
      destruct (Hk0 k kt ltac:(set_solver) E) as (kt' & E' & _ & _ & _ & Hsame). rewrite (Hsame Hkb) in E'. exists kt. split; [done|].
      split; rewrite ?Ens', ?Econt', ?Eslot', ?Em; auto. destruct Ho5 as [?|?]; [|by right].
      destruct (decide (c = g)) as [->|]; [|left; set_solver]. simplify_eq. rewrite Hempty, lookup_empty in Hk'. done.
  - intros k kt Hk HkH. unfold placed. destruct (decide (k = g)) as [->|Hkg].
    + rewrite Hheap, decide_True in Hk by done. simplify_eq. rewrite Econt. eexists. rewrite Hheap, decide_False, decide_True by done.
      split; [reflexivity|]. cbn. by rewrite lookup_insert_eq.
    + assert (Ek : exists kt0, heap inv !! k = Some kt0 /\ i_container kt = i_container kt0 /\ i_slot kt = i_slot kt0).
      { rewrite Hheap, decide_False in Hk by done. destruct (decide (k = b)) as [->|]; [|by exists kt]. exists bag. by simplify_eq. }
      destruct Ek as (kt0 & Ek & Econt' & Eslot'). specialize (Ha _ _ Ek ltac:(set_solver)). unfold placed in Ha.
      rewrite Econt', Eslot', Em. destruct (i_container kt0) as [c|] eqn:Ec0; [|done]. destruct Ha as (cbag & Ecb & Hck).
      destruct (decide (c = g)) as [->|]. { simplify_eq. rewrite Hempty, lookup_empty in Hck. done. }
      rewrite Hheap, decide_False by done. destruct (decide (c = b)) as [->|]; [|by exists cbag].
      eexists. split; [reflexivity|]. cbn. simplify_eq. rewrite lookup_insert_ne; [done|]. intros E'. rewrite <- E' in Hck. congruence.
  - intros k. rewrite En. intros Hk. apply Hn. set_solver.
Qed.

(** ** Items that go and items that come *)

Lemma sound_drop inv H g :
  sound inv H -> g ∈ H -> (forall it, heap inv !! g = Some it -> i_bagslot it = ∅) -> sound (delete_item g inv) H.
Proof.
  intros [Hi Hm Hh Ha Hn] HgH Hempty.
  assert (Hheap : forall k kt, heap (delete_item g inv) !! k = Some kt -> k <> g /\ heap inv !! k = Some kt).
  { intros k kt. cbn. rewrite lookup_delete_Some. intros [? ?]. done. }
  split.
  - intros k kt [_ E]%Hheap. destruct (Hi _ _ E). by split.
  - intros s k Hk. destruct (Hm _ _ Hk) as [HkH (kt & E & [])]. split; [done|]. exists kt. cbn. rewrite lookup_delete_ne by set_solver. done.
  - intros b bag j k [_ Eb]%Hheap Hj. destruct (Hh _ _ _ _ Eb Hj) as [HkH (kt & E & [])]. split; [done|]. exists kt. cbn.
    rewrite lookup_delete_ne by set_solver. done.
  - intros k kt [Hkg E]%Hheap HkH. specialize (Ha _ _ E HkH). unfold placed in *. destruct (i_container kt) as [b|]; [|done].
    destruct Ha as (bag & Eb & Hj). exists bag. cbn. rewrite lookup_delete_ne; [done|]. intros <-.
    rewrite (Hempty _ Eb), lookup_empty in Hj. done.
  - done.
Qed.
(** An item that is gone is in nobody's hand. *)
Lemma sound_forget inv H g : sound inv H -> heap inv !! g = None -> sound inv (H ∖ {[g]}).
Proof.
  intros [Hi Hm Hh Ha Hn] Hg. split.
  - exact Hi.
  - intros s k Hk. destruct (Hm _ _ Hk) as [HkH (kt & E & [])]. split; [set_solver|]. by exists kt.
  - intros b bag j k Eb Hj. destruct (Hh _ _ _ _ Eb Hj) as [HkH (kt & E & [])]. split; [set_solver|]. exists kt. split; [done|].
    split; auto. destruct ho_used0 as [?|?]; [left|by right]. assert (b <> g) by congruence. set_solver.
  - intros k kt E HkH. apply (Ha _ _ E). intros ?. apply HkH. assert (k <> g) by congruence. set_solver.
  - intros k Hk. apply Hn. set_solver.
Qed.

Lemma fresh_lookup inv H : sound inv H -> heap inv !! inv_next inv = None.
Proof. intros Hs. apply eq_None_not_Some. intros [it E]. pose proof (io_guid _ _ _ (s_item _ _ Hs _ _ E)). lia. Qed.

Lemma sound_create inv inv' H it :
  sound inv H -> protos (i_entry it) = Some (template it) -> 1 <= i_count it <= Stackable (template it) ->
  (i_numSlots it = if InventoryType (template it) =? INVTYPE_BAG then ContainerSlots (template it) else 0) -> i_bagslot it = ∅ ->
  m_items inv' = m_items inv -> inv_next inv' = inv_next inv + 1 -> heap inv' = <[inv_next inv := it]> (heap inv) ->
  sound inv' ({[inv_next inv]} ∪ H).
Proof.
  intros Hs Hp Hc Hsz Hemp Em En Eh. pose proof (fresh_lookup _ _ Hs) as Hf. destruct Hs as [Hi Hm Hh Ha Hn].
  set (g := inv_next inv) in *.
  assert (Hold : forall k kt, heap inv !! k = Some kt -> heap inv' !! k = Some kt).
  { intros k kt E. rewrite Eh, lookup_insert_ne; [done|]. intros <-. congruence. }
  assert (Hnew : forall k kt, heap inv' !! k = Some kt -> (k = g /\ kt = it) \/ heap inv !! k = Some kt).
  { intros k kt. rewrite Eh, lookup_insert_Some. naive_solver. }
  split.
  - intros k kt E. destruct (Hnew _ _ E) as [[-> ->]|E']; [split; auto; lia|]. destruct (Hi _ _ E'). split; auto. lia.
  - intros s k. rewrite Em. intros Hk. destruct (Hm _ _ Hk) as [HkH (kt & E & [])].
    assert (k <> g) by congruence. split; [set_solver|]. exists kt. split; [by apply Hold|]. done.
  - intros b bag j k Eb Hj. destruct (Hnew _ _ Eb) as [[-> ->]|Eb']; [by rewrite Hemp, lookup_empty in Hj|].
    destruct (Hh _ _ _ _ Eb' Hj) as [HkH (kt & E & [])]. assert (k <> g) by congruence. split; [set_solver|].
    exists kt. split; [by apply Hold|]. split; rewrite ?Em; auto. destruct ho_used0; [left; set_solver|by right].
  - intros k kt E HkH. destruct (Hnew _ _ E) as [[-> ->]|E']; [set_solver|]. specialize (Ha _ _ E' ltac:(set_solver)).
    unfold placed in *. rewrite Em. destruct (i_container kt); [|done]. destruct Ha as (bag & Eb & Hj). exists bag. split; [by apply Hold|done].
  - intros k. rewrite En, elem_of_union, elem_of_singleton. intros [->|HkH]; [lia|]. specialize (Hn _ HkH). lia.
Qed.
End Sound.
