(* ===== verification/InventoryPlaces.v ===== *)
(** * InventoryPlaces: positions, and spots with room

    What a position holds in a sound inventory; [spot]: a position where a
    count of an item fits, given that the items [V] will have left their
    slots; how spots survive when items are taken out ([lifted]) or stored
    elsewhere ([spared]). *)
From S2P Require Import Prelude Inventory InventoryMoves InventorySound.

Lemma bag_place_spec s : bag_place s <-> (19 <= s < 23 \/ 63 <= s < 69).
Proof.
  unfold bag_place, is_bag_slot, is_bank_bag_slot, INVENTORY_SLOT_BAG_START, INVENTORY_SLOT_BAG_END, BANK_SLOT_BAG_START, BANK_SLOT_BAG_END.
  rewrite orb_true_iff, !andb_true_iff, !Z.leb_le, !Z.ltb_lt. lia.
Qed.
Lemma bag_place_own s : bag_place s -> own_slot s.
Proof. rewrite bag_place_spec. unfold own_slot, BANK_SLOT_BAG_END. lia. Qed.
Lemma own_slot_byte s : own_slot s -> 0 <= s < 256.
Proof. unfold own_slot, BANK_SLOT_BAG_END, KEYRING_SLOT_START, KEYRING_SLOT_END. lia. Qed.
Lemma not_bag_place_255 : ~ bag_place 255.
Proof. rewrite bag_place_spec. lia. Qed.

(** Positions are pairs of bytes. *)
Lemma pos_of_div b s : 0 <= s < 256 -> pos_of b s / 256 = b.
Proof. intros Hs. unfold pos_of. rewrite Z.add_comm, Z.div_add by lia. rewrite Z.div_small by lia. lia. Qed.
Lemma pos_of_mod b s : 0 <= s < 256 -> pos_of b s mod 256 = s.
Proof. intros Hs. unfold pos_of. rewrite Z.add_comm, Z.mod_add by lia. by apply Z.mod_small. Qed.
Lemma pos_of_inj b s b' s' : 0 <= s < 256 -> 0 <= s' < 256 -> pos_of b s = pos_of b' s' -> b = b' /\ s = s'.
Proof. unfold pos_of. lia. Qed.

(** [GetItemByPos] unfolded. *)
Lemma look_main inv s : own_slot s -> GetItemByPos inv 255 s = m_items inv !! s.
Proof.
  intros Hs. unfold GetItemByPos. change (255 =? INVENTORY_SLOT_BAG_0) with true. cbn [andb].
  replace ((s <? BANK_SLOT_BAG_END) || ((KEYRING_SLOT_START <=? s) && (s <? KEYRING_SLOT_END))) with true; [done|].
  symmetry. rewrite orb_true_iff, andb_true_iff, Z.ltb_lt, Z.leb_le, Z.ltb_lt. unfold own_slot in Hs. lia.
Qed.
Lemma look_bag inv b s : bag_place b -> GetItemByPos inv b s = m_items inv !! b ≫= fun bg => Bag_GetItemByPos inv bg s.
Proof.
  intros Hb. unfold GetItemByPos. assert (b <> 255) as Hne by (intros ->; by apply not_bag_place_255).
  unfold INVENTORY_SLOT_BAG_0. rewrite (proj2 (Z.eqb_neq b 255) Hne). cbn [andb].
  unfold bag_place in Hb. rewrite Hb. by destruct (m_items inv !! b).
Qed.
Lemma look_bag_main inv b : bag_place b -> GetItemByPos inv INVENTORY_SLOT_BAG_0 b = m_items inv !! b.
Proof. intros Hb. apply look_main, bag_place_own, Hb. Qed.
Lemma look_some inv b s g :
  GetItemByPos inv b s = Some g -> (b = 255 /\ m_items inv !! s = Some g) \/ (bag_place b /\ exists bg, m_items inv !! b = Some bg /\
    Bag_GetItemByPos inv bg s = Some g).
Proof.
  unfold GetItemByPos. destruct (Z.eqb_spec b INVENTORY_SLOT_BAG_0) as [->|Hb]; cbn [andb].
  - destruct (_ || _); [by left|]. by cbn.
  - destruct (is_bag_slot b || is_bank_bag_slot b) eqn:E; [|done]. destruct (m_items inv !! b) as [bg|]; [|done].
    intros Hl. right. split; [exact E|]. by exists bg.
Qed.

Section Places.
Context (protos : Z -> option ItemPrototype) `{Sane : !SaneTemplates protos}.
Implicit Types (inv : Inventory) (H V : gset Z).
Abbreviation sound := (sound protos).
Abbreviation template := (template protos).
Abbreviation is_bag := (is_bag protos).

Lemma deref_heap inv g it : heap inv !! g = Some it -> deref inv g = it.
Proof. unfold deref. by intros ->. Qed.

(** Where an item found at a position is. *)
Inductive found inv (b s g : Z) (it : Item) : Prop :=
| found_main : b = 255 -> m_items inv !! s = Some g -> own_slot s -> i_container it = None -> (bag_place s -> is_bag it) ->
    found inv b s g it
| found_held bg bag : bag_place b -> m_items inv !! b = Some bg -> heap inv !! bg = Some bag -> i_bagslot bag !! s = Some g ->
    i_container it = Some bg -> i_bagslot it = ∅ -> 0 <= s < i_numSlots bag -> i_slot bag = b -> is_bag bag -> bg <> g ->
    found inv b s g it.

Lemma look_found inv H b s g :
  sound inv H -> GetItemByPos inv b s = Some g ->
  g ∉ H /\ exists it, heap inv !! g = Some it /\ i_slot it = s /\ GetBagSlot inv g = b /\ found inv b s g it.
Proof.
  intros Hs [[-> Hm]|(Hb & bg & Hm & Hl)]%look_some.
  - destruct (s_main _ _ _ Hs _ _ Hm) as [HgH (it & E & [])]. split; [done|]. exists it. split_and!; [done|done| |by constructor].
    unfold GetBagSlot. by rewrite (deref_heap _ _ _ E), mo_container.
  - destruct (s_main _ _ _ Hs _ _ Hm) as [HbgH (bag & Eb & [])].
    unfold Bag_GetItemByPos in Hl. destruct (s <? GetBagSize inv bg); [|done]. rewrite (deref_heap _ _ _ Eb) in Hl.
    pose proof (held_not_self _ _ _ _ _ _ _ Hs Eb Hl) as Hne.
    destruct (s_held _ _ _ Hs _ _ _ _ Eb Hl) as [HgH (it & E & [])]. split; [done|]. exists it. split_and!; [done|done| |].
    + unfold GetBagSlot. rewrite (deref_heap _ _ _ E), ho_container. unfold GetSlot. by rewrite (deref_heap _ _ _ Eb).
    + eapply found_held; eauto.
Qed.
Lemma look_slot inv H b s g : sound inv H -> GetItemByPos inv b s = Some g -> GetBagSlot inv g = b /\ GetSlot inv g = s.
Proof.
  intros Hs Hl. destruct (look_found _ _ _ _ _ Hs Hl) as (_ & it & E & <- & Hb & _). split; [done|].
  unfold GetSlot. by rewrite (deref_heap _ _ _ E).
Qed.
Lemma look_inj inv H b s b' s' g :
  sound inv H -> GetItemByPos inv b s = Some g -> GetItemByPos inv b' s' = Some g -> b = b' /\ s = s'.
Proof.
  intros Hs Hl Hl'. destruct (look_slot _ _ _ _ _ Hs Hl) as [<- <-]. by destruct (look_slot _ _ _ _ _ Hs Hl') as [<- <-].
Qed.
Lemma bag_size inv H b bg :
  sound inv H -> bag_place b -> m_items inv !! b = Some bg ->
  exists bag, heap inv !! bg = Some bag /\ is_bag bag /\ i_slot bag = b /\ i_container bag = None /\ bg ∉ H /\
    GetBagSize inv bg = i_numSlots bag /\ GetBagSize inv bg = ContainerSlots (GetProto protos inv bg) /\ 0 <= GetBagSize inv bg <= MAX_BAG_SIZE.
Proof.
  intros Hs Hb Hm. destruct (s_main _ _ _ Hs _ _ Hm) as [HbgH (bag & Eb & [])]. exists bag.
  pose proof (s_item _ _ _ Hs _ _ Eb) as []. specialize (mo_bag Hb). unfold is_bag in mo_bag.
  rewrite (proj2 (Z.eqb_eq _ _) mo_bag) in io_size. pose proof (sane_templates _ _ io_proto) as [_ Hc].
  assert (GetBagSize inv bg = i_numSlots bag) as Hn by (unfold GetBagSize; by rewrite (deref_heap _ _ _ Eb)).
  split_and!; try done; try (rewrite Hn, io_size; lia).
  rewrite Hn, io_size. unfold GetProto, GetEntry. by rewrite (deref_heap _ _ _ Eb).
Qed.
(** Only bags have contents. *)
Lemma contents_is_bag inv H g it : sound inv H -> heap inv !! g = Some it -> i_bagslot it <> ∅ -> is_bag it.
Proof.
  intros Hs E Hne. destruct (map_choose _ Hne) as (j & k & Hk). destruct (s_held _ _ _ Hs _ _ _ _ E Hk) as [_ (kt & _ & [])].
  pose proof (io_size _ _ _ _ (s_item _ _ _ Hs _ _ E)) as Hz. unfold is_bag.
  destruct (Z.eqb_spec (InventoryType (template it)) INVTYPE_BAG); [done|]. lia.
Qed.

(** ** Positions an item may get, and room there *)

Inductive usable inv V (b s : Z) : Prop :=
| usable_main : b = 255 -> own_slot s -> usable inv V b s
| usable_held bg : bag_place b -> m_items inv !! b = Some bg -> bg ∉ V -> 0 <= s < GetBagSize inv bg -> usable inv V b s.

Record spot inv V (item : Z) (p : ItemPrototype) (b s n : Z) : Prop := {
  sp_usable : usable inv V b s;
  sp_byte : 0 <= s < 256;
  sp_count : 1 <= n <= Stackable p;
  sp_bag : b = 255 -> bag_place s -> InventoryType p = INVTYPE_BAG;
  sp_room : forall g, GetItemByPos inv b s = Some g -> g ∉ V -> GetEntry inv g = item /\ GetCount inv g + n <= Stackable p
}.
Definition spot_at inv V item p (q : Z * Z) : Prop := exists b s, q.1 = pos_of b s /\ spot inv V item p b s q.2.
(** A list of positions and counts to store an item at. *)
Definition fits inv V item p (dest : ItemPosCountVec) : Prop := NoDup dest.*1 /\ Forall (spot_at inv V item p) dest.
Definition sum_counts (dest : ItemPosCountVec) : Z := foldr (fun q n => q.2 + n) 0 dest.
#[global] Arguments sum_counts : simpl never.

Lemma sum_counts_app d d' : sum_counts (d ++ d') = sum_counts d + sum_counts d'.
Proof. unfold sum_counts. induction d as [|q d IH]; cbn; lia. Qed.

(** *** Items leave *)

Record lifted inv inv' V : Prop := {
  li_back : forall b s g, GetItemByPos inv' b s = Some g -> GetItemByPos inv b s = Some g;
  li_forth : forall b s g, usable inv V b s -> GetItemByPos inv b s = Some g -> g ∉ V -> GetItemByPos inv' b s = Some g;
  li_keeps : forall g, g ∉ V -> is_Some (heap inv !! g) -> is_Some (heap inv' !! g) /\ GetEntry inv' g = GetEntry inv g /\
               GetCount inv' g = GetCount inv g /\ GetBagSize inv' g = GetBagSize inv g
}.
Lemma usable_lifted inv inv' H V b s : sound inv H -> lifted inv inv' V -> usable inv V b s -> usable inv' V b s.
Proof.
  intros Hs Hl [-> Ho|bg Hb Hm Hv Hr]; [by constructor|]. pose proof (bag_place_own _ Hb) as Ho.
  destruct (bag_size _ _ _ _ Hs Hb Hm) as (bag & Eb & _). apply (usable_held _ _ _ _ bg Hb); [|done|].
  - rewrite <- (look_main inv' b Ho). apply (li_forth _ _ _ Hl); [by constructor| |done]. by rewrite look_main.
  - destruct (li_keeps _ _ _ Hl bg Hv) as (_ & _ & _ & ->); [by exists bag|done].
Qed.
Lemma spot_lifted inv inv' H V item p b s n :
  sound inv H -> lifted inv inv' V -> spot inv V item p b s n -> spot inv' V item p b s n.
Proof.
  intros Hs Hl [Hu Hb Hc Hbag Hr]. split; auto; [by eapply usable_lifted|]. intros g Hg Hv.
  pose proof (li_back _ _ _ Hl _ _ _ Hg) as Hg0. destruct (look_found _ _ _ _ _ Hs Hg0) as (_ & it & E & _).
  destruct (li_keeps _ _ _ Hl g Hv) as (_ & -> & -> & _); [by exists it|]. auto.
Qed.
Lemma fits_lifted inv inv' H V item p dest : sound inv H -> lifted inv inv' V -> fits inv V item p dest -> fits inv' V item p dest.
Proof.
  intros Hs Hl [Hn Hf]. split; [done|]. eapply Forall_impl; [exact Hf|]. intros q (b & s & E & Hq). exists b, s.
  split; [done|]. by eapply spot_lifted.
Qed.
Lemma lifted_trans inv inv' inv'' H V : sound inv H -> lifted inv inv' V -> lifted inv' inv'' V -> lifted inv inv'' V.
Proof.
  intros Hs [B1 F1 K1] [B2 F2 K2]. split.
  - auto.
  - intros b s g Hu Hg Hv. apply F2; auto. by eapply usable_lifted.
  - intros g Hv Hg. destruct (K1 g Hv Hg) as (Hg' & <- & <- & <-). by apply K2.
Qed.
(** Once they have left, they are of no concern. *)
Lemma fits_gone inv H V item p dest :
  sound inv H -> V ⊆ H -> fits inv V item p dest -> fits inv ∅ item p dest.
Proof.
  intros Hs Hv [Hn Hf]. split; [done|]. eapply Forall_impl; [exact Hf|]. intros q (b & s & E & [Hu Hb Hc Hbag Hr]). exists b, s.
  split; [done|]. split; auto.
  - destruct Hu as [|bg]; [by constructor|]. eapply usable_held; eauto. set_solver.
  - intros g Hg _. apply Hr; [done|]. destruct (look_found _ _ _ _ _ Hs Hg) as [HgH _]. set_solver.
Qed.
(** More items may leave, when they are not bags in use. *)
Lemma fits_weaken inv H V V' item p dest :
  sound inv H -> V ⊆ V' -> (forall b bg, bag_place b -> m_items inv !! b = Some bg -> bg ∈ V' -> bg ∈ V) ->
  fits inv V item p dest -> fits inv V' item p dest.
Proof.
  intros Hs Hv Hbags [Hn Hf]. split; [done|]. eapply Forall_impl; [exact Hf|]. intros q (b & s & E & [Hu Hb Hc Hbag Hr]). exists b, s.
  split; [done|]. split; auto.
  destruct Hu as [|bg]; [by constructor|]. eapply usable_held; eauto.
Qed.
End Places.
