(* ===== verification/InventoryStore.v ===== *)
(** * InventoryStore: what storing and removing an item does

    RemoveItem, StoreItem and EquipItem on a sound inventory: they keep the
    invariant, take away or add exactly what the item counts, and leave the
    other positions alone. *)
From S2P Require Import Prelude Inventory InventoryMoves InventorySound InventoryPlaces.

Section Store.
Context (protos : Z -> option ItemPrototype) `{Sane : !SaneTemplates protos}.
Implicit Types (inv : Inventory) (H V : gset Z).
Abbreviation sound := (sound protos).
Abbreviation template := (template protos).
Abbreviation is_bag := (is_bag protos).

Lemma deref_upd g f inv k : is_Some (heap inv !! g) -> deref (upd g f inv) k = if decide (k = g) then f (deref inv g) else deref inv k.
Proof. intros [it E]. unfold deref. rewrite upd_lookup. destruct (decide (k = g)) as [->|]; [|done]. by rewrite E. Qed.

(** ** Amounts *)

Lemma amount_upd_in e g f inv H : g ∈ H -> amount e (upd g f inv) H = amount e inv H.
Proof. apply hsum_alter_in. Qed.
Lemma amount_upd_out e g f inv H it :
  g ∉ H -> heap inv !! g = Some it -> amount e (upd g f inv) H = amount e inv H - weight e it + weight e (f it).
Proof. apply hsum_alter_out. Qed.
Lemma amount_upd_same e g f inv H :
  (forall it, i_entry (f it) = i_entry it) -> (forall it, i_count (f it) = i_count it) -> amount e (upd g f inv) H = amount e inv H.
Proof.
  intros He Hc. destruct (decide (g ∈ H)); [by apply amount_upd_in|]. destruct (heap inv !! g) as [it|] eqn:E.
  - rewrite (amount_upd_out _ _ _ _ _ it) by done. unfold weight. rewrite He, Hc. lia.
  - unfold amount. f_equal. cbn. apply map_eq. intros k. destruct (decide (k = g)) as [->|]; by rewrite ?lookup_alter_eq, ?lookup_alter_ne, ?E.
Qed.
Lemma amount_take e inv H g it : g ∉ H -> heap inv !! g = Some it -> amount e inv ({[g]} ∪ H) = amount e inv H - weight e it.
Proof. apply hsum_take. Qed.
Lemma amount_give e inv H g it : g ∈ H -> heap inv !! g = Some it -> amount e inv (H ∖ {[g]}) = amount e inv H + weight e it.
Proof. apply hsum_give. Qed.
Lemma amount_heap e inv inv' H : heap inv' = heap inv -> amount e inv' H = amount e inv H.
Proof. unfold amount. by intros ->. Qed.

(** ** The same positions *)

Lemma bag_look_same inv inv' b s :
  i_numSlots (deref inv' b) = i_numSlots (deref inv b) -> i_bagslot (deref inv' b) = i_bagslot (deref inv b) ->
  Bag_GetItemByPos inv' b s = Bag_GetItemByPos inv b s.
Proof. unfold Bag_GetItemByPos, GetBagSize. by intros -> ->. Qed.
Lemma look_same inv inv' b s :
  m_items inv' = m_items inv -> (forall k, i_numSlots (deref inv' k) = i_numSlots (deref inv k)) ->
  (forall k, i_bagslot (deref inv' k) = i_bagslot (deref inv k)) -> GetItemByPos inv' b s = GetItemByPos inv b s.
Proof.
  intros Em Hn Hb. unfold GetItemByPos. rewrite Em. destruct (_ && _); [done|]. destruct (_ || _); [|done].
  destruct (m_items inv !! b); [|done]. by apply bag_look_same.
Qed.
Definition keeps_bag (f : Item -> Item) : Prop := forall it, i_numSlots (f it) = i_numSlots it /\ i_bagslot (f it) = i_bagslot it.
Lemma look_upd g f inv b s : keeps_bag f -> is_Some (heap inv !! g) -> GetItemByPos (upd g f inv) b s = GetItemByPos inv b s.
Proof.
  intros Hf Hg. apply look_same; [done| |]; intros k; rewrite deref_upd by done; destruct (decide (k = g)) as [->|]; [apply Hf|done|apply Hf|done].
Qed.

(** ** RemoveItem *)

Record removed inv inv' H g (it : Item) : Prop := {
  rm_sound : sound inv' ({[g]} ∪ H);
  rm_item : exists it', heap inv' !! g = Some it' /\ same_things it it';
  rm_amount : forall e, amount e inv' ({[g]} ∪ H) = amount e inv H - weight e it;
  rm_lifted : forall V, g ∈ V -> lifted inv inv' V;
  rm_hand : forall k, k ∈ H -> heap inv' !! k = heap inv !! k;
  rm_out : inv_out inv' = inv_out inv;
  rm_char : inv_char inv' = inv_char inv
}.

Lemma RemoveItem_main inv H s g it :
  sound inv H -> m_items inv !! s = Some g -> heap inv !! g = Some it ->
  removed inv (upd g (SetSlot NULL_SLOT) (clear_slot s inv)) H g it.
Proof.
  intros Hs Hm E. destruct (s_main _ _ _ Hs _ _ Hm) as [HgH (it0 & E0 & Hok)]. simplify_eq.
  set (inv' := upd g (SetSlot NULL_SLOT) (clear_slot s inv)).
  assert (Hd : forall k, i_entry (deref inv' k) = i_entry (deref inv k) /\ i_count (deref inv' k) = i_count (deref inv k) /\
            i_numSlots (deref inv' k) = i_numSlots (deref inv k) /\ i_bagslot (deref inv' k) = i_bagslot (deref inv k)).
  { intros k. unfold inv'. rewrite deref_upd by (by exists it). by destruct (decide (k = g)) as [->|]. }
  split.
  - by apply sound_take_main.
  - exists (SetSlot NULL_SLOT it). unfold inv'. rewrite upd_lookup, decide_True by done. cbn [heap clear_slot set_items]. by rewrite E.
  - intros e. unfold inv'. rewrite amount_upd_in by set_solver. rewrite (amount_heap e inv) by done. by apply amount_take.
  - intros V HgV. split.
    + intros b s' k. intros [[-> Hk]|(Hb & bg & Hk & Hl)]%look_some; cbn in Hk; apply lookup_delete_Some in Hk as [Hne Hk].
      * destruct (s_main _ _ _ Hs _ _ Hk) as [_ (kt & _ & [])]. by rewrite look_main.
      * rewrite look_bag, Hk by done. cbn. rewrite <- Hl. symmetry. apply bag_look_same; apply Hd.
    + intros b s' k [-> Ho|bg Hb Hbm Hv Hr] Hk HkV.
      * rewrite look_main in * by done. cbn. rewrite lookup_delete_ne; [done|]. intros <-. congruence.
      * rewrite look_bag in * by done. cbn. rewrite lookup_delete_ne; [|intros <-; congruence]. rewrite Hbm in *. cbn in *. rewrite <- Hk.
        apply bag_look_same; apply Hd.
    + intros k HkV [kt Hkt]. split; [|unfold GetEntry, GetCount, GetBagSize; split_and!; apply Hd].
      exists kt. unfold inv'. rewrite upd_lookup, decide_False by (intros ->; done). done.
  - intros k Hk. unfold inv'. rewrite upd_lookup, decide_False by (intros ->; done). done.
  - done.
  - done.
Qed.

Definition unbag (bg s g : Z) (inv : Inventory) : Inventory :=
  upd g (SetSlot NULL_SLOT) (upd bg (fun bag => SetBagslot (delete s (i_bagslot bag)) bag) (upd g (SetContainer None) inv)).
Lemma unbag_heap bg s g inv it bag :
  bg <> g -> heap inv !! g = Some it -> heap inv !! bg = Some bag -> forall k,
  heap (unbag bg s g inv) !! k = if decide (k = g) then Some (SetSlot NULL_SLOT (SetContainer None it))
    else if decide (k = bg) then Some (SetBagslot (delete s (i_bagslot bag)) bag) else heap inv !! k.
Proof.
  intros Hne Eg Eb k. unfold unbag. rewrite upd_lookup. destruct (decide (k = g)) as [->|Hk].
  - rewrite upd_lookup, decide_False, upd_lookup, decide_True, Eg by done. done.
  - rewrite upd_lookup. destruct (decide (k = bg)) as [->|]; rewrite upd_lookup, decide_False by done; [by rewrite Eb|done].
Qed.

Lemma RemoveItem_held inv H b s g it bg :
  sound inv H -> bag_place b -> m_items inv !! b = Some bg -> Bag_GetItemByPos inv bg s = Some g -> heap inv !! g = Some it ->
  removed inv (unbag bg s g inv) H g it.
Proof.
  intros Hs Hb Hm Hl E. destruct (bag_size _ _ _ _ _ Hs Hb Hm) as (bag & Eb & Hbag & Hslot & Hcont & HbH & Hsz & _ & _).
  assert (Hj : i_bagslot bag !! s = Some g).
  { unfold Bag_GetItemByPos in Hl. destruct (s <? _); [|done]. by rewrite (deref_heap _ _ _ Eb) in Hl. }
  pose proof (held_not_self _ _ _ _ _ _ _ Hs Eb Hj) as Hne. destruct (s_held _ _ _ Hs _ _ _ _ Eb Hj) as [HgH (it0 & E0 & Hok)]. simplify_eq.
  assert (Hheap := unbag_heap bg s g inv it bag ltac:(done) E Eb). set (inv' := unbag bg s g inv) in *.
  assert (Hd : forall k, i_entry (deref inv' k) = i_entry (deref inv k) /\ i_count (deref inv' k) = i_count (deref inv k) /\
            i_numSlots (deref inv' k) = i_numSlots (deref inv k) /\ (k <> bg -> i_bagslot (deref inv' k) = i_bagslot (deref inv k))).
  { intros k. unfold deref. rewrite Hheap. destruct (decide (k = g)) as [->|]; [by rewrite E|].
    destruct (decide (k = bg)) as [->|]; [by rewrite Eb|done]. }
  assert (Hbg : i_bagslot (deref inv' bg) = delete s (i_bagslot bag)).
  { unfold deref. by rewrite Hheap, decide_False, decide_True by done. }
  assert (Hbl : forall b' s', Bag_GetItemByPos inv' b' s' = if decide (b' = bg /\ s' = s) then None else Bag_GetItemByPos inv b' s').
  { intros b' s'. unfold Bag_GetItemByPos, GetBagSize. destruct (Hd b') as (_ & _ & -> & Hk). destruct (decide (b' = bg)) as [->|Hb'].
    - rewrite Hbg, (deref_heap _ _ _ Eb). destruct (decide (s' = s)) as [->|Hs'].
      + rewrite decide_True, lookup_delete_eq by done. by destruct (s <? _).
      + rewrite decide_False, lookup_delete_ne by (done || intros [? ?]; done). done.
    - rewrite decide_False by (intros [? ?]; done). by rewrite (Hk Hb'). }
  split.
  - eapply sound_take_held_view; [exact Hs|exact Eb|exact Hj|exact E| | | |exact Hheap]; done.
  - eexists. rewrite Hheap, decide_True by done. split; [reflexivity|]. done.
  - intros e. unfold inv', unbag. rewrite amount_upd_in by set_solver. rewrite amount_upd_same by done.
    rewrite amount_upd_in by set_solver. by apply amount_take.
  - intros V HgV. split.
    + intros b' s' k. intros [[-> Hk]|(Hb' & bg' & Hk & Hl')]%look_some; cbn in Hk.
      * destruct (s_main _ _ _ Hs _ _ Hk) as [_ (kt & _ & [])]. by rewrite look_main.
      * rewrite look_bag, Hk by done. cbn. rewrite Hbl in Hl'. by destruct (decide _).
    + intros b' s' k [-> Ho|bg' Hb' Hbm Hv Hr] Hk HkV.
      * rewrite look_main in * by done. done.
      * rewrite look_bag in * by done. cbn. rewrite Hbm in *. cbn in *. rewrite Hbl. destruct (decide _) as [[-> ->]|]; [|done].
        rewrite Hl in Hk. by simplify_eq.
    + intros k HkV [kt Hkt]. split; [|unfold GetEntry, GetCount, GetBagSize; split_and!; apply Hd].
      rewrite Hheap. destruct (decide (k = g)); [done|]. destruct (decide (k = bg)); [done|]. by exists kt.
  - intros k Hk. rewrite Hheap, !decide_False by (intros ->; done). done.
  - done.
  - done.
Qed.

Lemma RemoveItem_removed inv H b s g :
  sound inv H -> GetItemByPos inv b s = Some g -> removed inv (RemoveItem inv b s) H g (deref inv g).
Proof.
  intros Hs Hl. destruct (look_found _ _ _ _ _ _ Hs Hl) as (HgH & it & E & _). rewrite (deref_heap _ _ _ E).
  unfold RemoveItem. rewrite Hl. destruct (look_some _ _ _ _ Hl) as [[-> Hm]|(Hb & bg & Hm & Hbl)].
  - by apply RemoveItem_main.
  - assert (b <> 255) as Hne by (intros ->; by apply not_bag_place_255).
    unfold INVENTORY_SLOT_BAG_0. rewrite (proj2 (Z.eqb_neq b 255) Hne). rewrite (look_bag_main _ _ Hb), Hm.
    destruct (bag_size _ _ _ _ _ Hs Hb Hm) as (bag & Eb & _ & _ & _ & _ & Hsz & _ & Hmax).
    pose proof Hbl as Hbl0. unfold Bag_GetItemByPos in Hbl0. destruct (Z.ltb_spec s (GetBagSize inv bg)) as [Hlt|]; [|done].
    unfold Bag_RemoveItem. rewrite (proj2 (Z.ltb_lt s MAX_BAG_SIZE)) by lia. rewrite Hbl0. by eapply (RemoveItem_held inv H b).
Qed.

(** ** One item changed *)

Record patched inv inv' g (it' : Item) : Prop := {
  pa_heap : forall k, heap inv' !! k = if decide (k = g) then Some it' else heap inv !! k;
  pa_items : m_items inv' = m_items inv;
  pa_next : inv_next inv' = inv_next inv;
  pa_out : inv_out inv' = inv_out inv;
  pa_char : inv_char inv' = inv_char inv
}.
Lemma patched_upd inv g f it : heap inv !! g = Some it -> patched inv (upd g f inv) g (f it).
Proof. intros E. split; try done. intros k. rewrite upd_lookup. destruct (decide (k = g)) as [->|]; [by rewrite E|done]. Qed.
Lemma patched_refl inv g it : heap inv !! g = Some it -> patched inv inv g it.
Proof. intros E. split; try done. intros k. by destruct (decide (k = g)) as [->|]. Qed.
Lemma patched_trans inv inv' inv'' g it' it'' : patched inv inv' g it' -> patched inv' inv'' g it'' -> patched inv inv'' g it''.
Proof.
  intros [E1 I1 N1 O1 C1] [E2 I2 N2 O2 C2]. split; try congruence. intros k. rewrite E2. destruct (decide (k = g)) eqn:D; [done|].
  rewrite E1. by rewrite D.
Qed.
Lemma patched_lookup inv inv' g it' : patched inv inv' g it' -> heap inv' !! g = Some it'.
Proof. intros [E _ _ _ _]. by rewrite E, decide_True. Qed.
Lemma patched_deref inv inv' g it' k : patched inv inv' g it' -> deref inv' k = if decide (k = g) then it' else deref inv k.
Proof. intros [E _ _ _ _]. unfold deref. rewrite E. by destruct (decide (k = g)). Qed.

Lemma sound_patched inv inv' g it it' H :
  patched inv inv' g it' -> heap inv !! g = Some it -> stays protos it it' -> sound inv H -> sound inv' H.
Proof.
  intros Hp E Hst Hs. apply (sound_ext _ (upd g (fun _ => it') inv)).
  - apply Hp.
  - apply map_eq. intros k. rewrite (pa_heap _ _ _ _ Hp), upd_lookup, E. done.
  - cbn. by rewrite (pa_next _ _ _ _ Hp).
  - apply sound_upd; [done|]. intros it0 E0. by simplify_eq.
Qed.
Lemma amount_patched e inv inv' g it it' H :
  patched inv inv' g it' -> heap inv !! g = Some it ->
  amount e inv' H = amount e inv H + (if decide (g ∈ H) then 0 else weight e it' - weight e it).
Proof.
  intros Hp E. assert (heap inv' = heap (upd g (fun _ => it') inv)) as Eh.
  { apply map_eq. intros k. rewrite (pa_heap _ _ _ _ Hp), upd_lookup, E. done. }
  rewrite (amount_heap e _ _ _ Eh). destruct (decide (g ∈ H)).
  - rewrite amount_upd_in by done. lia.
  - rewrite (amount_upd_out _ _ _ _ _ it) by done. lia.
Qed.
Lemma look_patched inv inv' g it it' b s :
  patched inv inv' g it' -> heap inv !! g = Some it -> i_numSlots it' = i_numSlots it -> i_bagslot it' = i_bagslot it ->
  GetItemByPos inv' b s = GetItemByPos inv b s.
Proof.
  intros Hp E Hn Hb. apply look_same; [apply Hp| |]; intros k; rewrite (patched_deref _ _ _ _ _ Hp);
    destruct (decide (k = g)) as [->|]; rewrite ?(deref_heap _ _ _ E); done.
Qed.

(** An item that only differs in its flags or its owner. *)
Record flagged (it it' : Item) : Prop := {
  fl_entry : i_entry it' = i_entry it;
  fl_count : i_count it' = i_count it;
  fl_slot : i_slot it' = i_slot it;
  fl_container : i_container it' = i_container it;
  fl_size : i_numSlots it' = i_numSlots it;
  fl_bagslot : i_bagslot it' = i_bagslot it
}.
Lemma flagged_trans it it' it'' : flagged it it' -> flagged it' it'' -> flagged it it''.
Proof. intros [] []. split; congruence. Qed.
Lemma flagged_flags b o it : flagged it (SetFlags b o it).
Proof. done. Qed.
Lemma flagged_refl it : flagged it it.
Proof. done. Qed.

Lemma if_upd_patched (c : bool) inv g f it :
  heap inv !! g = Some it -> (forall x, flagged x (f x)) ->
  exists it', flagged it it' /\ patched inv (if c then upd g f inv else inv) g it'.
Proof.
  intros E Hf. destruct c.
  - exists (f it). split; [done|]. by apply patched_upd.
  - exists it. split; [done|]. by apply patched_refl.
Qed.
Lemma bind_at_patched inv b s g it :
  heap inv !! g = Some it -> exists it', flagged it it' /\ patched inv (bind_at protos inv b s g) g it'.
Proof.
  intros E. unfold bind_at. cbv zeta.
  destruct (if_upd_patched ((Bonding (GetProto protos inv g) =? BIND_WHEN_PICKED_UP) || (Bonding (GetProto protos inv g) =? BIND_QUEST_ITEM) ||
     ((Bonding (GetProto protos inv g) =? BIND_WHEN_EQUIPPED) && IsBagPos b s)) inv g (fun it => SetFlags true (i_boa it) it) it E ltac:(done))
    as (it1 & F1 & P1).
  destruct (if_upd_patched (Bonding (GetProto protos inv g) =? BIND_ACCOUNT) _ g (fun it => SetFlags (i_binded it) true it) it1
    (patched_lookup _ _ _ _ P1) ltac:(done)) as (it2 & F2 & P2).
  exists it2. split; [by eapply flagged_trans|]. by eapply patched_trans.
Qed.
Lemma flagged_stays it it' inv g : item_ok protos inv g it -> flagged it it' -> stays protos it it'.
Proof. intros [] []. split; auto. congruence. Qed.

(** ** What storing leaves alone *)

Record spared inv inv' (P : list Z) : Prop := {
  sd_look : forall b s, 0 <= s < 256 -> pos_of b s ∉ P -> GetItemByPos inv' b s = GetItemByPos inv b s;
  sd_item : forall b s g, 0 <= s < 256 -> pos_of b s ∉ P -> GetItemByPos inv b s = Some g ->
              GetEntry inv' g = GetEntry inv g /\ GetCount inv' g = GetCount inv g;
  sd_bags : forall b bg, bag_place b -> m_items inv !! b = Some bg ->
              m_items inv' !! b = Some bg /\ GetBagSize inv' bg = GetBagSize inv bg
}.
Lemma spared_refl inv P : spared inv inv P.
Proof. split; auto. Qed.
Lemma spared_mono inv inv' P P' : spared inv inv' P -> P ⊆ P' -> spared inv inv' P'.
Proof. intros [A B C] Hp. split; eauto. Qed.
Lemma spared_trans inv inv' inv'' P : spared inv inv' P -> spared inv' inv'' P -> spared inv inv'' P.
Proof.
  intros [A B C] [A' B' C']. split.
  - intros b s Hs Hp. rewrite A', A by done. done.
  - intros b s g Hs Hp Hl. destruct (B _ _ _ Hs Hp Hl) as [<- <-]. apply (B' b s); auto. by rewrite A.
  - intros b bg Hb Hm. destruct (C _ _ Hb Hm) as [Hm' <-]. by apply C'.
Qed.
Lemma spot_spared inv inv' P item p q : spared inv inv' P -> q.1 ∉ P -> spot_at inv ∅ item p q -> spot_at inv' ∅ item p q.
Proof.
  intros [A B C] Hp (b & s & E & [Hu Hs Hc Hb Hr]). exists b, s. split; [done|]. rewrite E in Hp. split; auto.
  - destruct Hu as [|bg Hbp Hm _ Hrg]; [by constructor|]. destruct (C _ _ Hbp Hm) as [Hm' Hsz].
    apply (usable_held _ _ _ _ bg); [done|done|set_solver|]. by rewrite Hsz.
  - intros g Hg Hv. rewrite A in Hg by done. destruct (B _ _ _ Hs Hp Hg) as [-> ->]. auto.
Qed.

(** The outcome of storing [n] of an item somewhere. *)
Record gained inv inv' H H' e n (P : list Z) : Prop := {
  gn_sound : sound inv' H';
  gn_amount : forall e', amount e' inv' H' = amount e' inv H + (if e =? e' then n else 0);
  gn_spared : spared inv inv' P;
  gn_hand : forall k, k ∈ H' -> heap inv' !! k = heap inv !! k;
  gn_out : exists os, inv_out inv' = inv_out inv ++ os /\ Forall (fun o => match o with ItemMailed _ _ => False | _ => True end) os;
  gn_char : inv_char inv' = inv_char inv
}.

(** ** Putting an item at a free position *)

Lemma spared_patched inv inv' H g it it' P :
  sound inv H -> patched inv inv' g it' -> heap inv !! g = Some it -> i_numSlots it' = i_numSlots it -> i_bagslot it' = i_bagslot it ->
  (g ∈ H \/ (i_entry it' = i_entry it /\ i_count it' = i_count it) \/ (exists b s, pos_of b s ∈ P /\ GetItemByPos inv b s = Some g)) ->
  spared inv inv' P.
Proof.
  intros Hs Hp E Hn Hb Hg. split.
  - intros b s _ _. by eapply look_patched.
  - intros b s k _ HnP Hl. unfold GetEntry, GetCount. rewrite (patched_deref _ _ _ _ _ Hp). destruct (decide (k = g)) as [->|]; [|done].
    rewrite (deref_heap _ _ _ E). destruct Hg as [HgH|[?|(b' & s' & HP & Hl')]]; [|done|].
    + destruct (look_found _ _ _ _ _ _ Hs Hl) as [? _]. done.
    + destruct (look_inj _ _ _ _ _ _ _ _ Hs Hl Hl') as [<- <-]. done.
  - intros b bg _ Hm. rewrite (pa_items _ _ _ _ Hp). split; [done|]. unfold GetBagSize. rewrite (patched_deref _ _ _ _ _ Hp).
    destruct (decide (bg = g)) as [->|]; [by rewrite (deref_heap _ _ _ E)|done].
Qed.

Record put_down inv inv' H b s g (it : Item) : Prop := {
  pd_sound : sound inv' (H ∖ {[g]});
  pd_amount : forall e, amount e inv' (H ∖ {[g]}) = amount e inv H + weight e it;
  pd_spared : i_bagslot it = ∅ -> spared inv inv' [pos_of b s];
  pd_main : forall s', b = 255 -> s' <> s -> m_items inv' !! s' = m_items inv !! s';
  pd_hand : forall k, k ∈ H ∖ {[g]} -> heap inv' !! k = heap inv !! k;
  pd_out : inv_out inv' = inv_out inv;
  pd_char : inv_char inv' = inv_char inv
}.

Lemma put_main inv H s g it f :
  sound inv H -> g ∈ H -> heap inv !! g = Some it -> m_items inv !! s = None -> own_slot s ->
  (bag_place s -> is_bag it) -> (i_bagslot it <> ∅ -> bag_place s) -> flagged it (f it) ->
  put_down inv (upd g (fun it => SetContainer None (SetSlot s (f it))) (put_slot s g inv)) H 255 s g it.
Proof.
  intros Hs HgH E Hm Ho Hb Hfull Hf. set (it' := SetContainer None (SetSlot s (f it))).
  set (inv' := upd g _ _).
  assert (Hheap : forall k, heap inv' !! k = if decide (k = g) then Some it' else heap inv !! k).
  { intros k. unfold inv'. rewrite upd_lookup. cbn. destruct (decide (k = g)) as [->|]; [by rewrite E|done]. }
  assert (Hd : forall k, deref inv' k = if decide (k = g) then it' else deref inv k).
  { intros k. unfold deref. rewrite Hheap. by destruct (decide (k = g)). }
  pose proof (own_slot_byte _ Ho) as Hs8.
  assert (Hsound : sound inv' (H ∖ {[g]})).
  { destruct Hf. eapply (sound_put_main_view protos inv inv' H s g it it'); eauto. }
  destruct Hf as [Fe Fc _ _ Fn Fb].
  split.
  - done.
  - intros e. assert (amount e inv' H = amount e inv H) as <-.
    { unfold inv'. rewrite amount_upd_in by done. by apply amount_heap. }
    rewrite (amount_give e inv' H g it') by (done || by rewrite Hheap, decide_True). unfold it', weight. cbn. by rewrite Fe, Fc.
  - intros Hemp. split.
    + intros b j Hj HP. assert (~ (b = 255 /\ j = s)) as Hne by (intros [-> ->]; apply HP; set_solver).
      unfold GetItemByPos. cbn [m_items inv' upd set_heap put_slot set_items].
      destruct (Z.eqb_spec b INVENTORY_SLOT_BAG_0) as [->|Hb0]; cbn [andb].
      * destruct (_ || _); [|done]. rewrite lookup_insert_ne; [done|]. intros <-. by apply Hne.
      * destruct (is_bag_slot b || is_bank_bag_slot b) eqn:Eb; [|done]. destruct (decide (b = s)) as [->|Hbs].
        -- rewrite lookup_insert_eq, Hm. unfold Bag_GetItemByPos. rewrite Hd, decide_True by done. unfold it'. cbn. rewrite Fb, Hemp, lookup_empty.
           by destruct (_ <? _).
        -- rewrite lookup_insert_ne by done. destruct (m_items inv !! b) as [bg|] eqn:Em; [|done].
           apply bag_look_same; rewrite Hd; destruct (decide (bg = g)) as [->|]; try done.
           ++ by rewrite (deref_heap _ _ _ E).
           ++ by rewrite (deref_heap _ _ _ E).
    + intros b j k _ _ Hl. destruct (look_found _ _ _ _ _ _ Hs Hl) as [HkH _]. unfold GetEntry, GetCount.
      rewrite Hd, decide_False by (intros ->; done). done.
    + intros b bg _ Hbm. destruct (s_main _ _ _ Hs _ _ Hbm) as [HbH _]. cbn. rewrite lookup_insert_ne by (intros <-; congruence).
      split; [done|]. unfold GetBagSize. rewrite Hd, decide_False by (intros ->; done). done.
  - intros s' _ Hne. cbn. by rewrite lookup_insert_ne.
  - intros k Hk. rewrite Hheap, decide_False by set_solver. done.
  - done.
  - done.
Qed.

Lemma put_held inv H b s g it bg :
  sound inv H -> g ∈ H -> heap inv !! g = Some it -> i_bagslot it = ∅ -> bag_place b -> m_items inv !! b = Some bg ->
  0 <= s < GetBagSize inv bg -> Bag_GetItemByPos inv bg s = None ->
  put_down inv (Bag_StoreItem bg s g inv) H b s g it.
Proof.
  intros Hs HgH E Hemp Hb Hm Hr Hfree. destruct (bag_size _ _ _ _ _ Hs Hb Hm) as (bag & Eb & _ & Hslot & Hcont & HbH & Hsz & _ & Hmax).
  assert (bg <> g) as Hne by (intros ->; done).
  assert (Hj : i_bagslot bag !! s = None).
  { unfold Bag_GetItemByPos in Hfree. rewrite (proj2 (Z.ltb_lt _ _)), (deref_heap _ _ _ Eb) in Hfree by lia. done. }
  unfold Bag_StoreItem. rewrite (proj2 (Z.ltb_lt s MAX_BAG_SIZE)) by lia.
  set (it' := SetSlot s (SetContainer (Some bg) (SetOwnerGuid (i_owner (deref inv bg)) it))).
  set (bag' := SetBagslot (<[s := g]> (i_bagslot bag)) bag). set (inv' := upd g _ _).
  assert (Hheap : forall k, heap inv' !! k = if decide (k = g) then Some it' else if decide (k = bg) then Some bag' else heap inv !! k).
  { intros k. unfold inv'. rewrite upd_lookup. destruct (decide (k = g)) as [->|].
    - rewrite upd_lookup, decide_False by done. rewrite E. cbn. unfold it'. do 3 f_equal. unfold deref.
      rewrite upd_lookup, decide_True by done. by rewrite Eb.
    - rewrite upd_lookup. destruct (decide (k = bg)); [by rewrite Eb|done]. }
  assert (Hd : forall k, deref inv' k = if decide (k = g) then it' else if decide (k = bg) then bag' else deref inv k).
  { intros k. unfold deref. rewrite Hheap. by destruct (decide (k = g)), (decide (k = bg)). }
  assert (Hbl : forall b' j, Bag_GetItemByPos inv' b' j = if decide (b' = bg /\ j = s) then Some g else Bag_GetItemByPos inv b' j).
  { intros b' j. unfold Bag_GetItemByPos, GetBagSize. rewrite Hd. destruct (decide (b' = g)) as [->|].
    - rewrite decide_False by (intros [? ?]; done). rewrite (deref_heap _ _ _ E). done.
    - destruct (decide (b' = bg)) as [->|]; [|by rewrite decide_False by (intros [? ?]; done)].
      rewrite (deref_heap _ _ _ Eb). unfold bag'. cbn. destruct (decide (j = s)) as [->|].
      + rewrite decide_True, lookup_insert_eq by done. by rewrite (proj2 (Z.ltb_lt _ _)) by lia.
      + rewrite decide_False, lookup_insert_ne by (done || intros [? ?]; done). done. }
  assert (Hsound : sound inv' (H ∖ {[g]})).
  { eapply (sound_put_held_view protos inv inv' H bg bag s g it it'); eauto; try lia.
    right. rewrite Hslot. split_and!; [done|done|exact Hm]. }
  split.
  - done.
  - intros e. assert (amount e inv' H = amount e inv H) as <-.
    { unfold inv'. rewrite amount_upd_in by done. by apply amount_upd_same. }
    rewrite (amount_give e inv' H g it') by (done || by rewrite Hheap, decide_True). done.
  - intros _. split.
    + intros b' j Hjb HP. assert (~ (b' = b /\ j = s)) as Hn by (intros [-> ->]; apply HP; set_solver).
      unfold GetItemByPos. cbn [m_items inv' upd set_heap]. destruct (_ && _); [done|]. destruct (_ || _) eqn:Eb'; [|done].
      destruct (m_items inv !! b') as [bg'|] eqn:Em; [|done]. rewrite Hbl. destruct (decide _) as [[-> ->]|]; [|done].
      exfalso. apply Hn. split; [|done]. destruct (s_main _ _ _ Hs _ _ Em) as [_ (bag0 & E0 & [Hs0 _ _ _])]. simplify_eq. done.
    + intros b' j k _ _ Hl. destruct (look_found _ _ _ _ _ _ Hs Hl) as [HkH _]. unfold GetEntry, GetCount.
      rewrite Hd, decide_False by (intros ->; done). destruct (decide (k = bg)) as [->|]; [|done].
      by rewrite (deref_heap _ _ _ Eb).
    + intros b' bg' _ Hbm. destruct (s_main _ _ _ Hs _ _ Hbm) as [HbH' _]. split; [done|]. unfold GetBagSize.
      rewrite Hd, decide_False by (intros ->; done). destruct (decide (bg' = bg)) as [->|]; [|done]. by rewrite (deref_heap _ _ _ Eb).
  - intros s' -> _. by apply not_bag_place_255 in Hb.
  - intros k Hk. rewrite Hheap, !decide_False by set_solver. done.
  - done.
  - done.
Qed.

(** [put_at] at a usable free position. *)
Lemma put_at_down inv H b s g it :
  sound inv H -> g ∈ H -> heap inv !! g = Some it -> i_bagslot it = ∅ -> usable inv ∅ b s -> GetItemByPos inv b s = None ->
  (b = 255 -> bag_place s -> is_bag it) -> put_down inv (put_at inv b s g) H b s g it.
Proof.
  intros Hs HgH E Hemp [-> Ho|bg Hb Hm _ Hr] Hfree Hbag; unfold put_at.
  - rewrite look_main in Hfree by done. change (255 =? INVENTORY_SLOT_BAG_0) with true. cbn [negb]. apply put_main; auto; try done.
  - assert (b <> 255) as Hne by (intros ->; by apply not_bag_place_255).
    unfold INVENTORY_SLOT_BAG_0. rewrite (proj2 (Z.eqb_neq b 255) Hne). rewrite (look_bag_main _ _ Hb), Hm.
    rewrite look_bag, Hm in Hfree by done. by apply put_held.
Qed.

(** ** New items *)

Record created inv inv' H g' entry n : Prop := {
  cr_guid : g' = inv_next inv;
  cr_sound : sound inv' ({[g']} ∪ H);
  cr_item : exists it', heap inv' !! g' = Some it' /\ i_entry it' = entry /\ i_count it' = n /\ i_bagslot it' = ∅;
  cr_amount : forall e, amount e inv' ({[g']} ∪ H) = amount e inv H;
  cr_spared : spared inv inv' [];
  cr_heap : forall k, k <> g' -> heap inv' !! k = heap inv !! k;
  cr_items : m_items inv' = m_items inv;
  cr_out : inv_out inv' = inv_out inv;
  cr_char : inv_char inv' = inv_char inv
}.

Lemma created_view inv inv' H it' :
  sound inv H -> protos (i_entry it') = Some (template it') -> 1 <= i_count it' <= Stackable (template it') ->
  (i_numSlots it' = if InventoryType (template it') =? INVTYPE_BAG then ContainerSlots (template it') else 0) -> i_bagslot it' = ∅ ->
  m_items inv' = m_items inv -> inv_next inv' = inv_next inv + 1 -> heap inv' = <[inv_next inv := it']> (heap inv) ->
  inv_out inv' = inv_out inv -> inv_char inv' = inv_char inv ->
  created inv inv' H (inv_next inv) (i_entry it') (i_count it').
Proof.
  intros Hs Hp Hc Hsz Hemp Em En Eh Eo Ech. pose proof (fresh_lookup _ _ _ Hs) as Hf.
  assert (Hd : forall k, is_Some (heap inv !! k) -> deref inv' k = deref inv k).
  { intros k [kt E]. unfold deref. rewrite Eh, lookup_insert_ne; [done|]. intros <-. congruence. }
  assert (Hl : forall b s, GetItemByPos inv' b s = GetItemByPos inv b s).
  { intros b s. unfold GetItemByPos. rewrite Em. destruct (_ && _); [done|]. destruct (_ || _); [|done].
    destruct (m_items inv !! b) as [bg|] eqn:Eb; [|done]. destruct (s_main _ _ _ Hs _ _ Eb) as [_ (bag & Ebg & _)].
    apply bag_look_same; by rewrite Hd by (by exists bag). }
  split; try done.
  - by eapply sound_create.
  - exists it'. by rewrite Eh, lookup_insert_eq.
  - intros e. unfold amount. rewrite Eh, hsum_insert_in by set_solver. by apply hsum_fresh.
  - split.
    + intros b s _ _. apply Hl.
    + intros b s k _ _ Hk. destruct (look_found _ _ _ _ _ _ Hs Hk) as (_ & kt & E & _). unfold GetEntry, GetCount. by rewrite Hd by (by exists kt).
    + intros b bg _ Hb. rewrite Em. split; [done|]. destruct (s_main _ _ _ Hs _ _ Hb) as [_ (bag & E & _)].
      unfold GetBagSize. by rewrite Hd by (by exists bag).
  - intros k Hk. by rewrite Eh, lookup_insert_ne.
Qed.

Lemma CreateItem_created inv H item n p :
  sound inv H -> protos item = Some p -> 1 <= n <= Stackable p ->
  exists g' inv', CreateItem protos inv item n = (Some g', inv') /\ created inv inv' H g' item n.
Proof.
  intros Hs Hp Hn. unfold CreateItem. rewrite (proj2 (Z.ltb_ge n 1)) by lia. rewrite Hp. unfold GetMaxStackSize.
  rewrite (proj2 (Z.ltb_ge (Stackable p) n)) by lia. pose proof (sane_templates _ _ Hp) as [_ Hc].
  rewrite (proj2 (Z.ltb_ge MAX_BAG_SIZE (ContainerSlots p))), andb_false_r by lia. cbn.
  eexists _, _. split; [reflexivity|].
  apply (created_view _ _ H (new_item (ch_guid (inv_char inv)) item n p)); try done; unfold InventorySound.template; cbn; rewrite Hp; cbn; done.
Qed.
Lemma CloneItem_created inv H g n it :
  sound inv H -> heap inv !! g = Some it -> 1 <= n <= Stackable (template it) ->
  exists g' inv', CloneItem protos inv g n = (Some g', inv') /\ created inv inv' H g' (i_entry it) n.
Proof.
  intros Hs E Hn. pose proof (io_proto _ _ _ _ (s_item _ _ _ Hs _ _ E)) as Hp.
  unfold CloneItem. rewrite (deref_heap _ _ _ E).
  destruct (CreateItem_created inv H (i_entry it) n (template it) Hs Hp Hn) as (g' & inv1 & -> & Hcr).
  eexists _, _. split; [reflexivity|]. destruct Hcr as [Hg Hs1 (it1 & E1 & Ee & Ec & Eb) Ham Hsp Hh Hi Ho Hch].
  match goal with |- created _ (upd _ ?f _) _ _ _ _ => set (F := f) end.
  assert (Hfl : flagged it1 (F it1)) by done.
  pose proof (patched_upd inv1 g' F it1 E1) as Hpt. split; try done.
  - eapply sound_patched; [exact Hpt|exact E1| |exact Hs1]. eapply flagged_stays; [|exact Hfl]. by apply (s_item _ _ _ Hs1).
  - exists (F it1). rewrite (patched_lookup _ _ _ _ Hpt). done.
  - intros e. rewrite (amount_patched _ _ _ _ _ _ _ Hpt E1), decide_True by set_solver. rewrite Ham. lia.
  - eapply spared_trans; [exact Hsp|]. eapply (spared_patched _ _ _ _ _ _ _ Hs1 Hpt E1); try done. left. set_solver.
  - intros k Hk. rewrite (pa_heap _ _ _ _ Hpt), decide_False by done. auto.
Qed.

(** ** StoreItem *)

Lemma spot_255 b s inv V item p n : spot inv V item p b s n -> 0 <= s < 256.
Proof. by intros []. Qed.

(** Onto a stack. *)
Lemma grow_stack inv H b s g2 it n :
  sound inv H -> GetItemByPos inv b s = Some g2 -> spot inv ∅ (i_entry it) (template it) b s n ->
  exists it2 it2', heap inv !! g2 = Some it2 /\ i_entry it2 = i_entry it /\ i_entry it2' = i_entry it /\
    patched inv (upd g2 (fun x => SetCount (u32 (i_count x + n)) x) (bind_at protos inv b s g2)) g2 it2' /\
    gained inv (upd g2 (fun x => SetCount (u32 (i_count x + n)) x) (bind_at protos inv b s g2)) H H (i_entry it) n [pos_of b s].
Proof.
  intros Hs Hl Hsp. destruct (look_found _ _ _ _ _ _ Hs Hl) as (HgH & it2 & E2 & _ & _ & _).
  destruct (sp_room _ _ _ _ _ _ _ Hsp g2 Hl ltac:(set_solver)) as [He Hroom].
  unfold GetEntry, GetCount in *. rewrite (deref_heap _ _ _ E2) in *.
  destruct (bind_at_patched inv b s g2 it2 E2) as (it3 & F & P1).
  pose proof (s_item _ _ _ Hs _ _ E2) as Hok. assert (template it2 = template it) as Ht by (unfold InventorySound.template; by rewrite He).
  pose proof (sane_templates _ _ (io_proto _ _ _ _ Hok)) as [Hst _]. pose proof (io_count _ _ _ _ Hok) as Hc. rewrite Ht in *.
  pose proof (sp_count _ _ _ _ _ _ _ Hsp) as Hn.
  assert (u32 (i_count it3 + n) = i_count it2 + n) as Hu.
  { rewrite (fl_count _ _ F). apply u32_id. unfold is_u. change (2 ^ 32) with 4294967296. lia. }
  set (inv1 := upd g2 _ _). assert (P : patched inv inv1 g2 (SetCount (u32 (i_count it3 + n)) it3)).
  { exact (patched_trans _ _ _ _ _ _ P1 (patched_upd _ _ (fun x => SetCount (u32 (i_count x + n)) x) _ (patched_lookup _ _ _ _ P1))). }
  rewrite Hu in P. exists it2, (SetCount (i_count it2 + n) it3). destruct F as [Fe Fc Fs Fco Fn Fb].
  split_and!; [done|done|cbn; congruence|exact P|]. split.
  - eapply sound_patched; [exact P|exact E2| |done]. split; cbn; auto; try congruence. rewrite Ht. lia.
  - intros e. rewrite (amount_patched _ _ _ _ _ _ _ P E2), decide_False by done. unfold weight. cbn. rewrite Fe, He.
    destruct (i_entry it =? e); lia.
  - eapply (spared_patched _ _ _ _ _ _ _ Hs P E2); try done. right. right. exists b, s. split; [set_solver|done].
  - intros k Hk. rewrite (pa_heap _ _ _ _ P), decide_False by (intros ->; done). done.
  - exists []. rewrite (pa_out _ _ _ _ P), app_nil_r. done.
  - apply P.
Qed.

(** Into a free slot, when the item is in the hand. *)
Lemma bind_and_put inv H b s g it :
  sound inv H -> g ∈ H -> heap inv !! g = Some it -> i_bagslot it = ∅ -> usable inv ∅ b s -> 0 <= s < 256 ->
  GetItemByPos inv b s = None -> (b = 255 -> bag_place s -> is_bag it) ->
  gained inv (put_at (bind_at protos inv b s g) b s g) H (H ∖ {[g]}) (i_entry it) (i_count it) [pos_of b s].
Proof.
  intros Hs HgH E Hemp Hu Hs8 Hfree Hbag. destruct (bind_at_patched inv b s g it E) as (it1 & F & P).
  set (inv1 := bind_at protos inv b s g) in *. pose proof F as [Fe Fc Fs Fco Fn Fb].
  assert (Hs1 : sound inv1 H). { eapply sound_patched; [exact P|exact E| |done]. eapply flagged_stays; [by apply (s_item _ _ _ Hs)|done]. }
  assert (Hl : forall b s, GetItemByPos inv1 b s = GetItemByPos inv b s) by (intros; by eapply look_patched).
  assert (Hsp1 : spared inv inv1 [pos_of b s]) by (eapply (spared_patched _ _ _ _ _ _ _ Hs P E); auto).
  assert (Hu1 : usable inv1 ∅ b s).
  { destruct Hu as [|bg Hb Hm _ Hr]; [by constructor|]. destruct (sd_bags _ _ _ Hsp1 _ _ Hb Hm) as [Hm1 Hsz].
    apply (usable_held _ _ _ _ bg); [done|done|set_solver|]. by rewrite Hsz. }
  pose proof (put_at_down inv1 H b s g it1 Hs1 HgH (patched_lookup _ _ _ _ P) ltac:(congruence) Hu1 ltac:(by rewrite Hl)) as Hpd.
  destruct Hpd as [D1 D2 D3 D4 D5 D6 D7].
  { intros Hb Hp. specialize (Hbag Hb Hp). unfold InventorySound.is_bag, InventorySound.template in *. by rewrite Fe. }
  split.
  - done.
  - intros e. rewrite D2, (amount_patched _ _ _ _ _ _ _ P E), decide_True by done. unfold weight. rewrite Fe, Fc. lia.
  - eapply spared_trans; [exact Hsp1|]. apply D3. congruence.
  - intros k Hk. rewrite D5, (pa_heap _ _ _ _ P), decide_False by set_solver. done.
  - exists []. rewrite D6, (pa_out _ _ _ _ P), app_nil_r. done.
  - rewrite D7. apply P.
Qed.

Lemma gained_after_created inv inv1 inv' H g' e m n P :
  created inv inv1 H g' e m -> sound inv H -> gained inv1 inv' ({[g']} ∪ H) (({[g']} ∪ H) ∖ {[g']}) e n P -> gained inv inv' H H e n P.
Proof.
  intros [Hg C1 _ C3 C4 C5 C6 C7 C8] Hs [G1 G2 G3 G4 (os & G5 & G6) G7].
  assert (g' ∉ H) as Hn. { intros Hin. pose proof (s_hand _ _ _ Hs _ Hin). lia. }
  replace (({[g']} ∪ H) ∖ {[g']}) with H in * by (apply set_eq; set_solver). split.
  - done.
  - intros e'. by rewrite G2, C3.
  - eapply spared_trans; [|exact G3]. eapply spared_mono; [exact C4|set_solver].
  - intros k Hk. rewrite G4 by done. apply C5. intros ->. done.
  - exists os. by rewrite G5, C7.
  - congruence.
Qed.

Lemma StoreItem_clone inv H b s g it n :
  sound inv H -> g ∈ H -> heap inv !! g = Some it -> spot inv ∅ (i_entry it) (template it) b s n ->
  gained inv (snd (StoreItem_ protos inv (pos_of b s) g n true)) H H (i_entry it) n [pos_of b s].
Proof.
  intros Hs HgH E Hsp. pose proof (spot_255 _ _ _ _ _ _ _ Hsp) as Hs8. unfold StoreItem_.
  rewrite (pos_of_div _ _ Hs8), (pos_of_mod _ _ Hs8). destruct (GetItemByPos inv b s) as [g2|] eqn:Hl.
  - destruct (grow_stack inv H b s g2 it n Hs Hl Hsp) as (_ & _ & _ & _ & _ & _ & Hg). exact Hg.
  - destruct (CloneItem_created inv H g n it Hs E (sp_count _ _ _ _ _ _ _ Hsp)) as (g' & inv1 & -> & Hcr). cbn [snd].
    eapply gained_after_created; [exact Hcr|done|]. pose proof Hcr as [Hg C1 (it1 & E1 & Ee & Ec & Eb) C3 C4 C5 C6 C7 C8].
    rewrite <- Ee, <- Ec. apply bind_and_put; auto.
    + set_solver.
    + destruct (sp_usable _ _ _ _ _ _ _ Hsp) as [|bg Hb Hm _ Hr]; [by constructor|].
      destruct (sd_bags _ _ _ C4 _ _ Hb Hm) as [Hm1 Hsz]. apply (usable_held _ _ _ _ bg); [done|done|set_solver|]. by rewrite Hsz.
    + rewrite (sd_look _ _ _ C4) by (done || set_solver). done.
    + intros Hb Hp. pose proof (sp_bag _ _ _ _ _ _ _ Hsp Hb Hp) as Hi. unfold InventorySound.is_bag, InventorySound.template in *. by rewrite Ee.
Qed.

Lemma StoreItem_last inv H b s g it n :
  sound inv H -> g ∈ H -> heap inv !! g = Some it -> i_bagslot it = ∅ -> spot inv ∅ (i_entry it) (template it) b s n ->
  gained inv (snd (StoreItem_ protos inv (pos_of b s) g n false)) H (H ∖ {[g]}) (i_entry it) n [pos_of b s].
Proof.
  intros Hs HgH E Hemp Hsp. pose proof (spot_255 _ _ _ _ _ _ _ Hsp) as Hs8. unfold StoreItem_.
  rewrite (pos_of_div _ _ Hs8), (pos_of_mod _ _ Hs8). destruct (GetItemByPos inv b s) as [g2|] eqn:Hl.
  - destruct (grow_stack inv H b s g2 it n Hs Hl Hsp) as (it2 & it2' & E2 & _ & _ & P & [G1 G2 G3 G4 (os & G5 & G6) G7]).
    cbn [snd]. set (inv1 := upd g2 _ _) in *. destruct (look_found _ _ _ _ _ _ Hs Hl) as (Hg2H & _).
    assert (E1 : heap inv1 !! g = Some it) by (rewrite G4; done).
    assert (Hgone : heap (remove_item g inv1) = delete g (heap inv1)) by done.
    assert (Hs' : sound (remove_item g inv1) H).
    { apply sound_emit, sound_drop; [done|done|]. intros it0. rewrite E1. by intros [= <-]. }
    split.
    + apply sound_forget; [done|]. rewrite Hgone. apply lookup_delete_eq.
    + intros e. rewrite <- G2. unfold amount. rewrite Hgone. by apply hsum_gone.
    + eapply spared_trans; [exact G3|]. split.
      * intros b' s' _ _. unfold GetItemByPos. change (m_items (remove_item g inv1)) with (m_items inv1).
        destruct (_ && _); [done|]. destruct (_ || _); [|done]. destruct (m_items inv1 !! b') as [bg|] eqn:Em; [|done].
        destruct (s_main _ _ _ G1 _ _ Em) as [HbH _]. apply bag_look_same; unfold deref; rewrite Hgone, lookup_delete_ne by (intros ->; done); done.
      * intros b' s' k _ _ Hk. destruct (look_found _ _ _ _ _ _ G1 Hk) as [HkH _]. unfold GetEntry, GetCount, deref.
        rewrite Hgone, lookup_delete_ne by (intros ->; done). done.
      * intros b' bg _ Hm. destruct (s_main _ _ _ G1 _ _ Hm) as [HbH _]. split; [done|]. unfold GetBagSize, deref.
        rewrite Hgone, lookup_delete_ne by (intros ->; done). done.
    + intros k Hk. rewrite Hgone, lookup_delete_ne by set_solver. apply G4. set_solver.
    + exists (os ++ [ItemRemoved g]). change (inv_out (remove_item g inv1)) with (inv_out inv1 ++ [ItemRemoved g]). rewrite G5, app_assoc. split; [done|]. apply Forall_app. split; [done|by constructor].
    + done.
  - cbn [snd]. pose proof (patched_upd inv g (SetCount n) it E) as P. set (inv1 := upd g (SetCount n) inv) in *.
    assert (Hs1 : sound inv1 H). { eapply sound_patched; [exact P|exact E| |done]. split; try done. apply Hsp. }
    assert (Hsp1 : spared inv inv1 [pos_of b s]) by (eapply (spared_patched _ _ _ _ _ _ _ Hs P E); auto).
    pose proof (bind_and_put inv1 H b s g (SetCount n it) Hs1 HgH (patched_lookup _ _ _ _ P) Hemp) as Hbp.
    destruct Hbp as [G1 G2 G3 G4 (os & G5 & G6) G7].
    + destruct (sp_usable _ _ _ _ _ _ _ Hsp) as [|bg Hb Hm _ Hr]; [by constructor|].
      destruct (sd_bags _ _ _ Hsp1 _ _ Hb Hm) as [Hm1 Hsz]. apply (usable_held _ _ _ _ bg); [done|done|set_solver|]. by rewrite Hsz.
    + done.
    + rewrite <- Hl. by eapply look_patched.
    + intros Hb Hp. exact (sp_bag _ _ _ _ _ _ _ Hsp Hb Hp).
    + split; [done| | | | |].
      * intros e. rewrite G2, (amount_patched _ _ _ _ _ _ _ P E), decide_True by done. cbn. lia.
      * by eapply spared_trans.
      * intros k Hk. rewrite G4, (pa_heap _ _ _ _ P), decide_False by set_solver. done.
      * exists os. by split.
      * done.
Qed.

Lemma gained_trans inv inv1 inv2 H H' e n m P P' :
  H' ⊆ H -> gained inv inv1 H H e n P -> gained inv1 inv2 H H' e m P' -> gained inv inv2 H H' e (n + m) (P ++ P').
Proof.
  intros Hsub [A1 A2 A3 A4 (os & A5 & A6) A7] [B1 B2 B3 B4 (os' & B5 & B6) B7]. split.
  - done.
  - intros e'. rewrite B2, A2. destruct (e =? e'); lia.
  - eapply spared_trans; [eapply spared_mono; [exact A3|set_solver]|eapply spared_mono; [exact B3|set_solver]].
  - intros k Hk. rewrite B4, A4 by set_solver. done.
  - exists (os ++ os'). rewrite B5, A5, app_assoc. split; [done|]. by apply Forall_app.
  - congruence.
Qed.

Lemma StoreItem_gained H g it dest :
  dest <> [] -> g ∈ H -> i_bagslot it = ∅ -> forall inv last,
  sound inv H -> heap inv !! g = Some it -> fits inv ∅ (i_entry it) (template it) dest ->
  gained inv (snd (StoreItem protos inv dest g last)) H (H ∖ {[g]}) (i_entry it) (sum_counts dest) dest.*1.
Proof.
  intros Hne HgH Hemp. induction dest as [|[pos n] dest IH]; [done|]. intros inv last Hs E [Hnd Hf].
  apply Forall_cons in Hf as [(b & s & Epos & Hsp) Hf]. cbn in Epos, Hsp. subst pos.
  destruct dest as [|q dest].
  - cbn [StoreItem]. replace (sum_counts [(pos_of b s, n)]) with n by (unfold sum_counts; cbn; lia). by apply StoreItem_last.
  - set (tl := q :: dest) in *. cbn [StoreItem]. fold tl.
    change (match tl with [] => _ | _ => _ end) with
      (let '(lastItem, inv) := StoreItem_ protos inv (pos_of b s) g n true in StoreItem protos inv tl g lastItem).
    pose proof (StoreItem_clone inv H b s g it n Hs HgH E Hsp) as Hc.
    destruct (StoreItem_ protos inv (pos_of b s) g n true) as [last1 inv1]. cbn [snd] in Hc.
    rewrite fmap_cons in Hnd. apply NoDup_cons in Hnd as [Hnin Hnd].
    change (sum_counts ((pos_of b s, n) :: tl)) with (n + sum_counts tl). change (((pos_of b s, n) :: tl).*1) with ([pos_of b s] ++ tl.*1).
    eapply gained_trans; [set_solver|exact Hc|]. apply IH; [done|apply Hc| |].
    + by rewrite (gn_hand _ _ _ _ _ _ _ Hc).
    + split; [done|]. rewrite Forall_forall in *. intros x Hx. eapply spot_spared; [apply Hc| |by apply Hf].
      rewrite list_elem_of_singleton. intros Ex. apply Hnin. cbn [fst]. rewrite <- Ex. exact (list_elem_of_fmap_2 fst tl x Hx).
Qed.

(** ** EquipItem into a free slot *)

Lemma EquipItem_down inv H s g it :
  sound inv H -> g ∈ H -> heap inv !! g = Some it -> m_items inv !! s = None -> own_slot s ->
  (bag_place s -> is_bag it) -> (i_bagslot it <> ∅ -> bag_place s) ->
  put_down inv (EquipItem protos inv (pos_of 255 s) g) H 255 s g it.
Proof.
  intros Hs HgH E Hm Ho Hb Hfull. pose proof (own_slot_byte _ Ho) as Hs8. unfold EquipItem.
  rewrite (pos_of_div _ _ Hs8), (pos_of_mod _ _ Hs8), (look_main _ _ Ho), Hm. unfold VisualizeItem. cbv zeta.
  destruct (if_upd_patched ((Bonding (GetProto protos inv g) =? BIND_WHEN_EQUIPPED) || (Bonding (GetProto protos inv g) =? BIND_WHEN_PICKED_UP) ||
     (Bonding (GetProto protos inv g) =? BIND_QUEST_ITEM)) inv g (fun it => SetFlags true (i_boa it) it) it E ltac:(done)) as (it1 & F & P).
  set (inv1 := if _ : bool then _ else inv) in *. pose proof F as [Fe Fc Fs Fco Fn Fb].
  assert (Hs1 : sound inv1 H). { eapply sound_patched; [exact P|exact E| |done]. eapply flagged_stays; [by apply (s_item _ _ _ Hs)|done]. }
  destruct (put_main inv1 H s g it1 (SetOwnerGuid (ch_guid (inv_char inv1))) Hs1 HgH (patched_lookup _ _ _ _ P)) as [D1 D2 D3 D4 D5 D6 D7]; auto.
  - by rewrite (pa_items _ _ _ _ P).
  - intros Hp. unfold InventorySound.is_bag, InventorySound.template in *. rewrite Fe. auto.
  - rewrite Fb. auto.
  - done.
  - split.
    + exact D1.
    + intros e. rewrite D2, (amount_patched _ _ _ _ _ _ _ P E), decide_True by done. unfold weight. rewrite Fe, Fc. lia.
    + intros Hemp. eapply spared_trans; [|apply D3; congruence]. eapply (spared_patched _ _ _ _ _ _ _ Hs P E); auto.
    + intros s' _ Hne. rewrite D4, (pa_items _ _ _ _ P) by done. done.
    + intros k Hk. rewrite D5, (pa_heap _ _ _ _ P), decide_False by set_solver. done.
    + rewrite D6. apply P.
    + rewrite D7. apply P.
Qed.
End Store.
