(* ===== verification/InventoryFits.v ===== *)
(** * InventoryFits: the positions CanStoreItem and CanBankItem find

    Whatever the searches answer, the positions found are distinct and have
    room, and what they hold and what is reported as too much add up to the
    count that was asked for. *)
From S2P Require Import Prelude Inventory InventoryMoves InventorySound InventoryPlaces.

Section Fits.
Context (protos : Z -> option ItemPrototype) `{Sane : !SaneTemplates protos}.
Context (inv : Inventory) (H : gset Z) (Hsound : sound protos inv H).
Context (item : Z) (p : ItemPrototype) (Hp : protos item = Some p) (pItem : option Z).

Definition moved : gset Z := match pItem with Some g => {[g]} | None => ∅ end.
Abbreviation V := moved.
Abbreviation fits := (fits inv V item p).
Abbreviation spot := (spot inv V item p).
Abbreviation usable := (usable inv V).

Lemma stack_size : 1 <= Stackable p <= 255.
Proof. by apply (sane_templates item p). Qed.
Lemma u32_small x : 0 <= x < 4294967296 -> u32 x = x.
Proof. intros. apply u32_id. unfold is_u. change (2 ^ 32) with 4294967296. lia. Qed.
Lemma byte_pos b s : 0 <= b < 256 -> 0 <= s < 256 -> u16 (pos_of b s) = pos_of b s.
Proof. intros. apply u16_id. unfold is_u, pos_of. change (2 ^ 16) with 65536. lia. Qed.
Lemma spot_less b s n m : spot b s n -> 1 <= m <= n -> spot b s m.
Proof. intros [Hu Hs Hc Hb Hr] Hm. split; auto; [lia|]. intros g Hg Hv. destruct (Hr g Hg Hv). split; [done|lia]. Qed.
Lemma usable_byte b s : usable b s -> 0 <= b < 256.
Proof. intros [-> _|bg Hb _ _ _]; [lia|]. apply bag_place_spec in Hb. lia. Qed.

(** ** One position more *)

(** [N] items are looked after: [f] has found places for all but [snd f]. *)
Record finds (N : Z) (f : Found) : Prop := {
  fi_fits : fits f.1;
  fi_sum : sum_counts f.1 + f.2 = N;
  fi_left : 0 <= f.2 <= N;
  fi_word : N < 4294967296
}.

Lemma isContainedIn_spec q d : isContainedIn q d = true <-> q.1 ∈ d.*1.
Proof.
  unfold isContainedIn. rewrite existsb_exists. split.
  - intros (x & Hx & E). apply Z.eqb_eq in E. rewrite <- E. apply (list_elem_of_fmap_2 fst). by apply list_elem_of_In.
  - intros (x & E & Hx)%list_elem_of_fmap. exists x. split; [by apply list_elem_of_In|]. by apply Z.eqb_eq.
Qed.

Lemma push_finds N b s need f :
  finds N f -> 1 <= f.2 -> spot b s need ->
  finds N (push b s need f) /\
  (isContainedIn (ItemPosCount (pos_of b s) 0) f.1 = true -> push b s need f = f).
Proof.
  intros [[Hnd Hf] Hsum Hl HN] Hpos Hsp. pose proof (usable_byte _ _ (sp_usable _ _ _ _ _ _ _ Hsp)) as Hb.
  pose proof (sp_byte _ _ _ _ _ _ _ Hsp) as Hs. pose proof (sp_count _ _ _ _ _ _ _ Hsp) as Hn. pose proof stack_size as Hst.
  destruct f as [dest count]. unfold push, ItemPosCount. cbn [fst snd] in *. set (n := if count <? need then count else need).
  assert (1 <= n <= need /\ n <= count) as [Hn1 Hn2] by (unfold n; destruct (Z.ltb_spec count need); lia).
  assert (u8 n = n) as Hu8 by (apply u8_id; unfold is_u; change (2 ^ 8) with 256; lia).
  rewrite byte_pos, Hu8 by done.
  replace (isContainedIn (pos_of b s, u8 0) dest) with (isContainedIn (pos_of b s, n) dest) by done.
  destruct (isContainedIn (pos_of b s, n) dest) eqn:E; [by split|]. split; [|done].
  assert (pos_of b s ∉ dest.*1) as Hnin. { intros Hin. by rewrite (proj2 (isContainedIn_spec (pos_of b s, n) dest) Hin) in E. }
  split; cbn [fst snd].
  - split.
    + rewrite fmap_app. cbn. apply NoDup_app. split_and!; [done| |apply NoDup_singleton]. intros x Hx. rewrite list_elem_of_singleton. by intros ->.
    + apply Forall_app. split; [done|]. apply Forall_singleton. exists b, s. split; [done|]. eapply spot_less; [exact Hsp|done].
  - rewrite sum_counts_app, u32_small by lia. unfold sum_counts at 2. cbn. lia.
  - rewrite u32_small by lia. lia.
  - done.
Qed.

(** ** The loops over slots *)

Lemma other_item_spec b s :
  (other_item inv b s pItem = None -> forall g, GetItemByPos inv b s = Some g -> g ∈ V) /\
  (forall g, other_item inv b s pItem = Some g -> GetItemByPos inv b s = Some g).
Proof.
  unfold other_item. case_bool_decide as E; split; try done.
  - intros _ g Hg. rewrite E in Hg. unfold moved. rewrite Hg. set_solver.
  - intros Hn g Hg. by rewrite Hn in Hg.
Qed.
Lemma merge_room b s g :
  GetItemByPos inv b s = Some g -> CanBeMergedPartlyWith inv g item p = EQUIP_ERR_OK ->
  GetEntry inv g = item /\ 1 <= u32 (Stackable p - GetCount inv g) /\ GetCount inv g + u32 (Stackable p - GetCount inv g) <= Stackable p /\
  1 <= GetCount inv g.
Proof.
  intros Hl. unfold CanBeMergedPartlyWith. destruct (Z.eqb_spec (GetEntry inv g) item) as [He|]; [|done]. cbn [negb].
  destruct (Z.leb_spec (GetMaxStackSize p) (GetCount inv g)) as [|Hlt]; [done|]. intros _.
  destruct (look_found _ _ _ _ _ _ Hsound Hl) as (_ & it & E & _).
  assert (1 <= GetCount inv g) as Hc. { unfold GetCount. rewrite (deref_heap _ _ _ E). apply (io_count _ _ _ _ (s_item _ _ _ Hsound _ _ E)). }
  pose proof stack_size as Hst. unfold GetMaxStackSize in *. rewrite u32_small by lia. split_and!; try done; lia.
Qed.
(** A position that has room has room for a whole stack or for the rest of one. *)
Lemma free_spot b s :
  usable b s -> 0 <= s < 256 -> (b = 255 -> bag_place s -> InventoryType p = INVTYPE_BAG) -> other_item inv b s pItem = None -> spot b s (Stackable p).
Proof.
  intros Hu Hs Hb Ho. pose proof stack_size. split; auto; [lia|]. intros g Hg Hv. by specialize (proj1 (other_item_spec b s) Ho g Hg).
Qed.
Lemma stack_spot b s g :
  usable b s -> 0 <= s < 256 -> (b = 255 -> bag_place s -> InventoryType p = INVTYPE_BAG) -> other_item inv b s pItem = Some g ->
  CanBeMergedPartlyWith inv g item p = EQUIP_ERR_OK -> spot b s (u32 (Stackable p - GetCount inv g)).
Proof.
  intros Hu Hs Hb Ho Hm. pose proof (proj2 (other_item_spec b s) g Ho) as Hl. destruct (merge_room _ _ _ Hl Hm) as (He & H1 & H2 & H3).
  split; auto; [lia|]. intros g' Hg' _. rewrite Hl in Hg'. simplify_eq. done.
Qed.

Lemma try_slot_finds N b j merge f :
  finds N f -> 1 <= f.2 -> usable b j -> 0 <= j < 256 -> (b = 255 -> bag_place j -> InventoryType p = INVTYPE_BAG) ->
  let '(f', done) := try_slot inv b j item p merge pItem f in finds N f' /\ (done = false -> 1 <= f'.2).
Proof.
  intros Hf Hpos Hu Hj Hb. unfold try_slot. destruct (negb _); [by split|].
  assert (Hput : forall need, spot b j need ->
    finds N (push b j need f) /\ (negb (isContainedIn (ItemPosCount (pos_of b j) 0) f.1) && ((push b j need f).2 =? 0) = false -> 1 <= (push b j need f).2)).
  { intros need Hsp. destruct (push_finds N b j need f Hf Hpos Hsp) as [Hfi Hsame]. split; [done|].
    destruct (isContainedIn _ _); [by rewrite Hsame|]. cbn. intros Hz%Z.eqb_neq. pose proof (fi_left _ _ Hfi). lia. }
  destruct (other_item inv b j pItem) as [g|] eqn:Ho.
  - destruct (Z.eqb_spec (CanBeMergedPartlyWith inv g item p) EQUIP_ERR_OK) as [Hm|]; [|by split]. cbn [negb]. apply Hput. by apply stack_spot.
  - apply Hput. by apply free_spot.
Qed.
Lemma try_slots_finds N b merge skip js : forall f,
  finds N f -> 1 <= f.2 ->
  (forall j, j ∈ js -> usable b j /\ 0 <= j < 256 /\ (b = 255 -> bag_place j -> InventoryType p = INVTYPE_BAG)) ->
  finds N (try_slots inv b item p merge pItem skip js f).
Proof.
  induction js as [|j js IH]; intros f Hf Hpos Hjs; [done|]. cbn [try_slots].
  assert (Hjs' : forall j, j ∈ js -> usable b j /\ 0 <= j < 256 /\ (b = 255 -> bag_place j -> InventoryType p = INVTYPE_BAG)).
  { intros k Hk. apply Hjs. by apply list_elem_of_further. }
  destruct (skip j); [by apply IH|]. destruct (Hjs j (list_elem_of_here _ _)) as (Hu & Hj & Hb).
  pose proof (try_slot_finds N b j merge f Hf Hpos Hu Hj Hb) as Ht. destruct (try_slot _ _ _ _ _ _ _ _) as [f' fin]. destruct Ht as [Hf' Hd].
  destruct fin; [done|]. apply IH; auto.
Qed.
Lemma slots_elem lo hi j : j ∈ slots lo hi <-> lo <= j < hi.
Proof. unfold slots. rewrite elem_of_seqZ. lia. Qed.

(** ** The stages *)

Context (N too_many : Z) (Hnn : 0 <= too_many).

Definition ok_outcome (o : Outcome) : Prop :=
  fits o.1.2 /\ (o.1.1 = EQUIP_ERR_OK -> too_many = 0 /\ sum_counts o.1.2 = N) /\
  (N + too_many < 4294967296 -> forall n, o.2 = Some n -> sum_counts o.1.2 + n = N + too_many /\ sum_counts o.1.2 <= N).
Definition good (k : Found -> Outcome) : Prop := forall f, finds N f -> 1 <= f.2 -> ok_outcome (k f).

Lemma left_over f : N + too_many < 4294967296 -> finds N f -> sum_counts f.1 + u32 (f.2 + too_many) = N + too_many.
Proof. intros Hw [_ Hs Hl _]. rewrite u32_small by lia. lia. Qed.
Lemma ok_error res f ns :
  res <> EQUIP_ERR_OK -> finds N f -> (ns = None \/ ns = Some (u32 (f.2 + too_many))) -> ok_outcome (res, f.1, ns).
Proof.
  intros Hr Hf Hns. split_and!; cbn; [apply Hf|done|]. intros Hw n E. destruct Hns as [-> | ->]; simplify_eq. split; [by apply left_over|].
  pose proof (fi_sum _ _ Hf). pose proof (fi_left _ _ Hf). lia.
Qed.
Lemma all_found_ok f : finds N f -> f.2 = 0 -> ok_outcome (all_found too_many f).
Proof.
  intros Hf Hz. unfold all_found. destruct (Z.eqb_spec too_many 0) as [Ht|].
  - split_and!; cbn; [apply Hf| |done]. intros _. split; [done|]. pose proof (fi_sum _ _ Hf). lia.
  - apply ok_error; [done|done|by right].
Qed.
Lemma must_ok r k : finds N r.2 -> good k -> ok_outcome (must too_many r k).
Proof.
  intros Hf Hk. destruct r as [res f]. unfold must. cbn in Hf. destruct (Z.eqb_spec res EQUIP_ERR_OK) as [->|Hr]; cbn [negb].
  - destruct (Z.eqb_spec f.2 0) as [Hz|Hz]; [by apply all_found_ok|]. apply Hk; [done|]. pose proof (fi_left _ _ Hf). lia.
  - apply ok_error; [done|done|by right].
Qed.
Lemma bags_ok stage k js : forall f,
  (forall i f, i ∈ js -> finds N f -> 1 <= f.2 -> finds N (stage i f).2 /\ ((stage i f).1 <> EQUIP_ERR_OK -> (stage i f).2 = f)) ->
  good k -> finds N f -> 1 <= f.2 -> ok_outcome (bags too_many stage js f k).
Proof.
  induction js as [|i js IH]; intros f Hst Hk Hf Hpos; cbn [bags]; [by apply Hk|].
  destruct (Hst i f (list_elem_of_here _ _) Hf Hpos) as [Hf' Herr]. destruct (stage i f) as [res f'] eqn:E. cbn [fst snd] in *.
  assert (Hst' : forall i f, i ∈ js -> finds N f -> 1 <= f.2 -> finds N (stage i f).2 /\ ((stage i f).1 <> EQUIP_ERR_OK -> (stage i f).2 = f)).
  { intros k' f0 Hi. apply Hst. by apply list_elem_of_further. }
  destruct (Z.eqb_spec res EQUIP_ERR_OK) as [->|Hr]; cbn [negb].
  - destruct (Z.eqb_spec f'.2 0) as [Hz|Hz]; [by apply all_found_ok|]. apply IH; auto. pose proof (fi_left _ _ Hf'). lia.
  - rewrite (Herr Hr). by apply IH.
Qed.
Lemma guarded_good b stage k : (good k -> good (stage k)) -> good k -> good (guarded b stage k).
Proof. intros Hs Hk. unfold guarded. destruct b; [by apply Hs|exact Hk]. Qed.

(** A range of own slots without places of bags. *)
Definition plain_range (lo hi : Z) : Prop := forall j, lo <= j < hi -> own_slot j /\ ~ bag_place j.
Lemma in_slots_good bag slot lo hi merge k :
  plain_range lo hi -> good k -> good (in_slots protos inv item p pItem too_many bag slot lo hi merge k).
Proof.
  intros Hr Hk f Hf Hpos. unfold in_slots. apply must_ok; [|done]. unfold CanStoreItem_InInventorySlots.
  destruct (NonEmptyBag protos inv pItem); cbn [snd]; [done|]. unfold INVENTORY_SLOT_BAG_0.
  apply try_slots_finds; [done|done|]. intros j Hj%slots_elem. destruct (Hr j Hj) as [Ho Hb]. split_and!; [by constructor|apply (own_slot_byte _ Ho)|..|done].
  apply (own_slot_byte _ Ho).
Qed.
Lemma InBag_finds bag merge plain skip_bag skip_slot f :
  bag_place bag -> finds N f -> 1 <= f.2 ->
  let r := CanStoreItem_InBag protos inv bag item p merge plain pItem skip_bag skip_slot f in
  finds N r.2 /\ (r.1 <> EQUIP_ERR_OK -> r.2 = f).
Proof.
  intros Hb Hf Hpos. unfold CanStoreItem_InBag. rewrite (look_bag_main _ _ Hb).
  destruct (bag =? skip_bag); [by split|]. destruct (m_items inv !! bag) as [pBag|] eqn:Em; [|by split].
  case_bool_decide as Eb; [by split|]. destruct (NonEmptyBag _ _ _); [by split|]. destruct (negb _); [by split|]. destruct (negb _); [by split|].
  cbn. split; [|done]. destruct (bag_size _ _ _ _ _ Hsound Hb Em) as (bg & _ & _ & _ & _ & _ & _ & _ & Hsz). unfold MAX_BAG_SIZE in Hsz.
  apply try_slots_finds; [done|done|]. intros j Hj%slots_elem. split_and!; [|lia|lia|].
  - apply (usable_held _ _ _ _ pBag); [done|done| |lia]. unfold moved. destruct pItem as [g|]; set_solver.
  - intros ->. by apply not_bag_place_255 in Hb.
Qed.
Lemma in_bags_good bag slot lo hi merge plain k :
  (forall i, lo <= i < hi -> bag_place i) -> good k -> good (in_bags protos inv item p pItem too_many bag slot lo hi merge plain k).
Proof.
  intros Hr Hk f Hf Hpos. unfold in_bags. apply bags_ok; auto. intros i f0 Hi%slots_elem Hf0 Hpos0. by apply InBag_finds; auto.
Qed.
Lemma in_that_bag_good bag slot merge k :
  bag_place bag -> good k -> good (in_that_bag protos inv item p pItem too_many bag slot merge k).
Proof.
  intros Hb Hk f Hf Hpos. unfold in_that_bag. apply must_ok; [|done]. unfold either_kind.
  destruct (InBag_finds bag merge false NULL_BAG slot f Hb Hf Hpos) as [Hf1 He1].
  destruct (CanStoreItem_InBag _ _ _ _ _ merge false _ _ _ f) as [res f'] eqn:E. cbn [fst snd] in *.
  destruct (Z.eqb_spec res EQUIP_ERR_OK) as [->|Hne]; cbn [negb]; [done|]. rewrite (He1 Hne).
  by destruct (InBag_finds bag merge true NULL_BAG slot f Hb Hf Hpos) as [Hf2 _].
Qed.

Lemma keyring_range : plain_range KEYRING_SLOT_START KEYRING_SLOT_END.
Proof. intros j Hj. rewrite bag_place_spec. unfold own_slot, KEYRING_SLOT_START, KEYRING_SLOT_END, BANK_SLOT_BAG_END in *. lia. Qed.
Lemma pack_range : plain_range INVENTORY_SLOT_ITEM_START INVENTORY_SLOT_ITEM_END.
Proof. intros j Hj. rewrite bag_place_spec. unfold own_slot, INVENTORY_SLOT_ITEM_START, INVENTORY_SLOT_ITEM_END, BANK_SLOT_BAG_END in *. lia. Qed.
Lemma bank_range : plain_range BANK_SLOT_ITEM_START BANK_SLOT_ITEM_END.
Proof. intros j Hj. rewrite bag_place_spec. unfold own_slot, BANK_SLOT_ITEM_START, BANK_SLOT_ITEM_END, BANK_SLOT_BAG_END in *. lia. Qed.
Lemma bag_range i : INVENTORY_SLOT_BAG_START <= i < INVENTORY_SLOT_BAG_END -> bag_place i.
Proof. rewrite bag_place_spec. unfold INVENTORY_SLOT_BAG_START, INVENTORY_SLOT_BAG_END. lia. Qed.
Lemma bank_bag_range i : BANK_SLOT_BAG_START <= i < BANK_SLOT_BAG_END -> bag_place i.
Proof. rewrite bag_place_spec. unfold BANK_SLOT_BAG_START, BANK_SLOT_BAG_END. lia. Qed.

(** The searches of the inventory and of the bank. *)
Definition some_bag (bag : Z) : Prop := bag = NULL_BAG \/ bag = INVENTORY_SLOT_BAG_0 \/ bag_place bag.

Lemma store_anywhere_good bag slot : good (store_anywhere protos inv item p pItem too_many bag slot).
Proof.
  unfold store_anywhere.
  assert (Hfree : good (store_free protos inv item p pItem too_many bag slot)).
  { intros f Hf Hpos. unfold store_free. destruct (NonEmptyBag _ _ _); [apply ok_error; auto; done|].
    apply in_slots_good; [apply pack_range| |done|done]. apply in_bags_good; [apply bag_range|].
    intros f0 Hf0 _. apply ok_error; [done|done|by right]. }
  assert (Hspecial : good (guarded (of_a_family p) (store_special protos inv item p pItem too_many bag slot) (store_free protos inv item p pItem too_many bag slot))).
  { apply guarded_good; [|done]. intros _. unfold store_special. apply guarded_good.
    - apply in_slots_good. apply keyring_range.
    - by apply in_bags_good; [apply bag_range|]. }
  apply guarded_good; [|done]. intros _. unfold store_merging. apply in_slots_good; [apply keyring_range|]. apply in_slots_good; [apply pack_range|].
  apply guarded_good; [|by apply in_bags_good; [apply bag_range|]]. by apply in_bags_good, bag_range.
Qed.
Lemma store_in_bag_good bag slot k : some_bag bag -> good k -> good (store_in_bag protos inv item p pItem too_many bag slot k).
Proof.
  intros Hb Hk f Hf Hpos. unfold store_in_bag. destruct (Z.eqb_spec bag NULL_BAG) as [|Hn]; [by apply Hk|].
  destruct (Z.eqb_spec bag INVENTORY_SLOT_BAG_0) as [|Hn'].
  - refine (guarded_good _ _ _ _ _ f Hf Hpos).
    + intros Hg. by apply in_slots_good; [apply keyring_range|]; apply in_slots_good; [apply pack_range|].
    + apply guarded_good; [apply in_slots_good, keyring_range|]. by apply in_slots_good; [apply pack_range|].
  - assert (bag_place bag) as Hbp by (destruct Hb as [?|[?|?]]; done).
    refine (guarded_good _ _ _ _ _ f Hf Hpos); [by apply in_that_bag_good|]. by apply in_that_bag_good.
Qed.
Lemma bank_anywhere_good bag slot : good (bank_anywhere protos inv item p pItem too_many bag slot).
Proof.
  unfold bank_anywhere.
  assert (Hfree : good (bank_free protos inv item p pItem too_many bag slot)).
  { apply in_slots_good; [apply bank_range|]. apply in_bags_good; [apply bank_bag_range|].
    intros f0 Hf0 _. apply ok_error; [done|done|by left]. }
  assert (Hspecial : good (guarded (of_a_family p) (in_bags protos inv item p pItem too_many bag slot BANK_SLOT_BAG_START BANK_SLOT_BAG_END false false)
    (bank_free protos inv item p pItem too_many bag slot))).
  { apply guarded_good; [|done]. by apply in_bags_good, bank_bag_range. }
  apply guarded_good; [|done]. intros _. unfold bank_merging. apply in_slots_good; [apply bank_range|].
  apply guarded_good; [by apply in_bags_good, bank_bag_range|]. by apply in_bags_good; [apply bank_bag_range|].
Qed.
Lemma bank_in_bag_good bag slot k : some_bag bag -> good k -> good (bank_in_bag protos inv item p pItem too_many bag slot k).
Proof.
  intros Hb Hk f Hf Hpos. unfold bank_in_bag. destruct (Z.eqb_spec bag NULL_BAG) as [|Hn]; [by apply Hk|].
  destruct (_ && _); [apply ok_error; auto; done|]. destruct (Z.eqb_spec bag INVENTORY_SLOT_BAG_0) as [|Hn'].
  - refine (guarded_good _ _ _ _ _ f Hf Hpos); [apply in_slots_good, bank_range|]. by apply in_slots_good; [apply bank_range|].
  - assert (bag_place bag) as Hbp by (destruct Hb as [?|[?|?]]; done).
    refine (guarded_good _ _ _ _ _ f Hf Hpos); [by apply in_that_bag_good|]. by apply in_that_bag_good.
Qed.

(** ** The slot that is asked for *)

Lemma contents_nonempty g it j k : heap inv !! g = Some it -> i_bagslot it !! j = Some k -> NonEmptyBag protos inv (Some g) = true.
Proof.
  intros E Hk. destruct (s_held _ _ _ Hsound _ _ _ _ E Hk) as [_ (kt & _ & [_ _ Hr _ _])]. unfold NonEmptyBag. apply andb_true_iff. split.
  - assert (Hb : is_bag protos it). { apply (contents_is_bag protos inv H g it Hsound E). intros E0. rewrite E0, lookup_empty in Hk. done. }
    unfold IsBag, GetProto, GetEntry. rewrite (deref_heap _ _ _ E). by apply Z.eqb_eq.
  - apply negb_true_iff, not_true_iff_false. unfold IsEmpty, GetBagSize. rewrite (deref_heap _ _ _ E), forallb_forall. intros Hall.
    specialize (Hall j). rewrite <- list_elem_of_In, slots_elem in Hall. specialize (Hall Hr). rewrite Hk in Hall. by rewrite bool_decide_eq_false_2 in Hall.
Qed.

(** A slot that can be asked for. *)
Record asked (bag slot : Z) : Prop := {
  as_byte : 0 <= slot < 256;
  as_bag : some_bag bag;
  as_main : bag = INVENTORY_SLOT_BAG_0 -> slot <> NULL_SLOT -> own_slot slot /\ (bag_place slot -> InventoryType p = INVTYPE_BAG)
}.

Lemma InSpecificSlot_finds bag slot f :
  asked bag slot -> bag <> NULL_BAG -> slot <> NULL_SLOT -> finds N f -> 1 <= f.2 ->
  finds N (CanStoreItem_InSpecificSlot protos inv bag slot item p false pItem f).2.
Proof.
  intros [Hs8 Hbag Hmain] Hb0 Hs0 Hf Hpos. unfold CanStoreItem_InSpecificSlot. destruct (NonEmptyBag protos inv pItem) eqn:Hne; [done|].
  assert (Hbagp : bag <> 255 -> bag_place bag) by (intros; destruct Hbag as [?|[?|?]]; done).
  assert (H255 : bag = 255 -> bag_place slot -> InventoryType p = INVTYPE_BAG) by (intros ->; by apply Hmain).
  destruct (other_item inv bag slot pItem) as [g2|] eqn:Ho.
  - destruct (Z.eqb_spec (CanBeMergedPartlyWith inv g2 item p) EQUIP_ERR_OK) as [Hm|]; cbn [negb snd]; [|done].
    apply push_finds; [done|done|]. pose proof (proj2 (other_item_spec bag slot) g2 Ho) as Hl.
    apply stack_spot; auto. destruct (look_found _ _ _ _ _ _ Hsound Hl) as (_ & it & E & _ & _ & [-> _ Hown _ _|bg bgi Hbp Hm' Ebg Hheld _ _ Hr _ _ _]).
    + by constructor.
    + apply (usable_held _ _ _ _ bg); [done|done| |unfold GetBagSize; by rewrite (deref_heap _ _ _ Ebg)].
      unfold moved. destruct pItem as [g|]; [|set_solver]. rewrite elem_of_singleton. intros ->.
      by rewrite (contents_nonempty _ _ _ _ Ebg Hheld) in Hne.
  - destruct (Z.eqb_spec bag INVENTORY_SLOT_BAG_0) as [E255|E255].
    + destruct (_ && _); [done|]. destruct (_ || _); [done|]. cbn [snd]. apply push_finds; [done|done|].
      apply free_spot; auto. constructor; [done|]. by apply Hmain.
    + specialize (Hbagp E255). rewrite (look_bag_main _ _ Hbagp). destruct (m_items inv !! bag) as [pBag|] eqn:Em; [|done].
      case_bool_decide as Eb; [done|]. destruct (bag_size _ _ _ _ _ Hsound Hbagp Em) as (bg & _ & _ & _ & _ & _ & _ & Hsz & _).
      rewrite <- Hsz. destruct (Z.leb_spec (GetBagSize inv pBag) slot); [done|]. destruct (negb _); [done|]. cbn [snd].
      apply push_finds; [done|done|]. apply free_spot; auto. apply (usable_held _ _ _ _ pBag); [done|done| |lia].
      unfold moved. destruct pItem; set_solver.
Qed.
Lemma store_in_slot_good bag slot swap k :
  asked bag slot -> (swap = false \/ bag = NULL_BAG \/ slot = NULL_SLOT) -> good k ->
  good (store_in_slot protos inv item p pItem too_many bag slot swap k).
Proof.
  intros Ha Hsw Hk f Hf Hpos. unfold store_in_slot.
  destruct (Z.eqb_spec bag NULL_BAG) as [|Hb]; cbn [negb andb]; [by apply Hk|].
  destruct (Z.eqb_spec slot NULL_SLOT) as [|Hs]; cbn [negb]; [by apply Hk|].
  destruct (_ && _); [apply ok_error; auto; done|]. destruct Hsw as [->|[?|?]]; [|done|done].
  apply must_ok; [|done]. by apply InSpecificSlot_finds.
Qed.
End Fits.

Section Results.
Context (protos : Z -> option ItemPrototype) `{Sane : !SaneTemplates protos}.
Implicit Types (inv : Inventory) (H : gset Z).

Lemma u32_bound x : 0 <= u32 x < 4294967296.
Proof. pose proof (u32_range x) as Hr. unfold is_u in Hr. change (2 ^ 32) with 4294967296 in Hr. done. Qed.
Lemma CanTake_spec inv entry count pItem p :
  protos entry = Some p ->
  let '(res, too_many) := CanTakeMoreSimilarItems_ protos inv entry count pItem in
  0 <= too_many < 4294967296 /\ (res = EQUIP_ERR_OK <-> too_many = 0) /\
  (0 <= count -> MaxCount p < 4294967296 -> count + MaxCount p < 4294967296 ->
   GetItemCount inv entry true pItem <= MaxCount p -> 0 <= GetItemCount inv entry true pItem -> too_many <= count) /\
  (MaxCount p <= 0 -> too_many = 0) /\
  (res = EQUIP_ERR_OK -> 0 <= GetItemCount inv entry true pItem + count < 4294967296 -> 0 < MaxCount p ->
   GetItemCount inv entry true pItem + count <= MaxCount p) /\
  (res <> EQUIP_ERR_OK -> 0 <= GetItemCount inv entry true pItem + count < 4294967296 -> 0 <= count ->
   too_many = GetItemCount inv entry true pItem + count - MaxCount p).
Proof.
  intros Hp. unfold CanTakeMoreSimilarItems_. rewrite Hp. destruct (Z.ltb_spec 0 (MaxCount p)); [|split_and!; try done; lia].
  set (cur := GetItemCount inv entry true pItem). destruct (Z.ltb_spec (MaxCount p) (u32 (cur + count))) as [Hlt|Hle].
  2: { split_and!; try done. intros _ Hb _. by rewrite u32_small in Hle by lia. }
  pose proof (u32_bound (cur + count)) as Hb. pose proof (u32_bound (count + cur - MaxCount p)) as Hb'. split_and!; try lia.
  - split; [done|]. intros Hz. exfalso.
    assert (u32 (count + cur - MaxCount p) = u32 (cur + count) - MaxCount p) as E; [|lia].
    unfold u32, wrapu in *. change (2 ^ 32) with 4294967296 in *. rewrite <- (Z.mod_small (_ mod _ - _) 4294967296) by lia.
    rewrite Zminus_mod_idemp_l. f_equal. lia.
  - intros. rewrite (u32_small (cur + count)) in Hlt by lia. rewrite u32_small by lia. lia.
  - done.
  - intros _ Hw Hc. rewrite (u32_small (cur + count)) in Hlt by lia. rewrite u32_small by lia. lia.
Qed.

Lemma finds_nothing inv item p pItem N : 0 <= N < 4294967296 -> finds inv item p pItem N ([], N).
Proof. intros HN. split; cbn; [split; [constructor|constructor]|done|lia|lia]. Qed.

Lemma rest_nonneg sum n c N : sum + n = c -> sum <= N -> N <= c -> 0 <= n.
Proof. lia. Qed.
(** What [CanStoreItem_] answers, when nothing was found before. *)
Lemma CanStoreItem_spec inv H bag slot entry count pItem swap p :
  sound protos inv H -> protos entry = Some p -> 1 <= count < 4294967296 -> asked p bag slot ->
  (swap = false \/ bag = NULL_BAG \/ slot = NULL_SLOT) ->
  let o := CanStoreItem_ protos inv bag slot [] entry count pItem swap in
  (o.1.1 = EQUIP_ERR_OK -> fits inv (moved pItem) entry p o.1.2 /\ sum_counts o.1.2 = count) /\
  (MaxCount p + count < 4294967296 -> 0 <= GetItemCount inv entry true pItem <= MaxCount p \/ MaxCount p <= 0 ->
   fits inv (moved pItem) entry p o.1.2 /\
   (o.1.1 = EQUIP_ERR_OK -> 0 < MaxCount p -> GetItemCount inv entry true pItem + count <= MaxCount p) /\
   forall n, o.2 = Some n -> sum_counts o.1.2 + n = count /\ 0 <= n /\
     (0 < MaxCount p -> GetItemCount inv entry true pItem + sum_counts o.1.2 <= MaxCount p)).
Proof.
  intros Hs Hp Hc Ha Hsw. unfold CanStoreItem_. rewrite Hp.
  assert (Hnil : fits inv (moved pItem) entry p []) by (split; constructor).
  assert (Hearly : forall res, res <> EQUIP_ERR_OK ->
    let o : Outcome := (res, [], Some count) in
    (o.1.1 = EQUIP_ERR_OK -> fits inv (moved pItem) entry p o.1.2 /\ sum_counts o.1.2 = count) /\
    (MaxCount p + count < 4294967296 -> 0 <= GetItemCount inv entry true pItem <= MaxCount p \/ MaxCount p <= 0 ->
     fits inv (moved pItem) entry p o.1.2 /\
     (o.1.1 = EQUIP_ERR_OK -> 0 < MaxCount p -> GetItemCount inv entry true pItem + count <= MaxCount p) /\
     forall n, o.2 = Some n -> sum_counts o.1.2 + n = count /\ 0 <= n /\
       (0 < MaxCount p -> GetItemCount inv entry true pItem + sum_counts o.1.2 <= MaxCount p))).
  { intros res Hr. cbn. split; [done|]. intros _ Hl. split; [done|]. split; [done|]. intros n [= <-]. split; [done|]. split; [lia|]. change (sum_counts []) with 0. lia. }
  destruct (match pItem with Some g => _ | None => None end) as [o|] eqn:Eo.
  { destruct pItem as [g|]; [|done]. destruct (i_temporaryLoot _); [|destruct (IsBindedNotWith _ _); [|done]]; simplify_eq; by apply Hearly. }
  pose proof (CanTake_spec inv entry count pItem p Hp) as Ht.
  destruct (CanTakeMoreSimilarItems_ protos inv entry count pItem) as [res too_many]. destruct Ht as (Htm & Hres & Hlim & Hno & Hfit & Hexc).
  destruct (negb (res =? EQUIP_ERR_OK) && (count =? too_many)) eqn:E.
  { apply andb_true_iff in E as [E1%negb_true_iff%Z.eqb_neq E2%Z.eqb_eq]. subst too_many. by apply Hearly. }
  assert (Hgood : forall N, 1 <= N < 4294967296 ->
     ok_outcome inv entry p pItem N too_many
       (store_in_slot protos inv entry p pItem too_many bag slot swap
          (store_in_bag protos inv entry p pItem too_many bag slot (store_anywhere protos inv entry p pItem too_many bag slot)) ([], N))).
  { intros N HN. eapply store_in_slot_good; eauto; [lia| |apply finds_nothing; lia|cbn; lia].
    eapply store_in_bag_good; eauto; [lia|apply Ha|]. eapply store_anywhere_good; eauto. lia. }
  destruct (Z.eqb_spec res EQUIP_ERR_OK) as [Hok|Hne]; cbn [negb andb] in *.
  - rewrite (proj1 Hres Hok) in *. destruct (Hgood count Hc) as (G1 & G2 & G3). split.
    + intros Ho. split; [done|]. by apply G2.
    + intros Hw Hcur. split; [done|]. split; [intros _ Hpos; apply Hfit; auto; lia|].
      intros n Hn. destruct (G3 ltac:(lia) n Hn) as [G4 G5]. rewrite Z.add_0_r in G4. split; [exact G4|].
      split; [exact (rest_nonneg _ _ _ _ G4 G5 (Z.le_refl _))|].
      intros Hpos. destruct Hcur as [Hcur|]; [|lia]. pose proof (Hfit Hok ltac:(lia) Hpos). eapply Z.le_trans; [apply Z.add_le_mono_l; exact G5|lia].
  - assert (Htne : too_many <> 0) by (intros ?; apply Hne; by apply Hres). apply Z.eqb_neq in E.
    pose proof (u32_bound (count - too_many)) as Hb.
    assert (Hz : u32 (count - too_many) <> 0).
    { unfold u32, wrapu. change (2 ^ 32) with 4294967296. intros Hz. apply Z.mod_divide in Hz as [q Hq]; [|lia]. assert (q = 0) by lia. lia. }
    destruct (Hgood (u32 (count - too_many)) ltac:(lia)) as (G1 & G2 & G3). split.
    + intros Ho. destruct (G2 Ho). done.
    + intros Hw Hcur. split; [done|]. split; [intros Ho; by destruct (G2 Ho)|]. intros n Hn. destruct Hcur as [Hcur|Hcur].
      * pose proof (Hexc Hne ltac:(lia) ltac:(lia)) as Htoo. rewrite (u32_small (count - too_many)) in G3 at 1 by lia. destruct (G3 ltac:(lia) n Hn) as [G4 G5].
        rewrite (u32_small (count - too_many)) in G4 at 2 by lia. rewrite (u32_small (count - too_many)) in G5 at 2 by lia.
        split; [etransitivity; [exact G4|lia]|]. split; [exact (rest_nonneg _ _ _ _ G4 G5 ltac:(lia))|]. intros Hpos. eapply Z.le_trans; [apply Z.add_le_mono_l; exact G5|lia].
      * by rewrite (Hno Hcur) in Htne.
Qed.

(** ** Too many never fit *)

Definition refuses (k : Found -> Outcome) : Prop := forall f, (k f).1.1 <> EQUIP_ERR_OK.
Section Refused.
Context (too_many : Z) (Htm : too_many <> 0).
Lemma all_found_refused f : (all_found too_many f).1.1 <> EQUIP_ERR_OK.
Proof. unfold all_found. by rewrite (proj2 (Z.eqb_neq _ _) Htm). Qed.
Lemma must_refused r k : refuses k -> (must too_many r k).1.1 <> EQUIP_ERR_OK.
Proof.
  intros Hk. destruct r as [res f]. unfold must. destruct (Z.eqb_spec res EQUIP_ERR_OK); cbn [negb]; [|done].
  destruct (f.2 =? 0); [apply all_found_refused|apply Hk].
Qed.
Lemma bags_refused stage k js : refuses k -> forall f, (bags too_many stage js f k).1.1 <> EQUIP_ERR_OK.
Proof.
  intros Hk. induction js as [|i js IH]; intros f; cbn [bags]; [apply Hk|]. destruct (stage i f) as [res f'].
  destruct (negb _); [apply IH|]. destruct (f'.2 =? 0); [apply all_found_refused|apply IH].
Qed.
Lemma guarded_refused b stage k : (forall k, refuses k -> refuses (stage k)) -> refuses k -> refuses (guarded b stage k).
Proof. intros Hs Hk f. unfold guarded. destruct b; [by apply Hs|apply Hk]. Qed.

Context (inv : Inventory) (item : Z) (p : ItemPrototype) (pItem : option Z) (bag slot : Z).
Lemma in_slots_refused lo hi merge k : refuses k -> refuses (in_slots protos inv item p pItem too_many bag slot lo hi merge k).
Proof. intros Hk f. by apply must_refused. Qed.
Lemma in_bags_refused lo hi merge plain k : refuses k -> refuses (in_bags protos inv item p pItem too_many bag slot lo hi merge plain k).
Proof. intros Hk f. by apply bags_refused. Qed.
Lemma in_that_bag_refused merge k : refuses k -> refuses (in_that_bag protos inv item p pItem too_many bag slot merge k).
Proof. intros Hk f. by apply must_refused. Qed.
Lemma store_rest_refused :
  refuses (store_in_bag protos inv item p pItem too_many bag slot (store_anywhere protos inv item p pItem too_many bag slot)).
Proof.
  assert (Hfree : refuses (store_free protos inv item p pItem too_many bag slot)).
  { intros f. unfold store_free. destruct (NonEmptyBag _ _ _); [done|]. apply in_slots_refused. by apply in_bags_refused. }
  assert (Hany : refuses (store_anywhere protos inv item p pItem too_many bag slot)).
  { unfold store_anywhere, store_merging, store_special, in_keyring.
    repeat first [assumption | apply in_slots_refused | apply in_bags_refused | apply guarded_refused; [intros ? ?|]]. }
  intros f. unfold store_in_bag, in_keyring. destruct (_ =? _); [apply Hany|]. destruct (_ =? _); generalize f;
    repeat first [exact Hany | apply in_slots_refused | apply in_that_bag_refused | apply guarded_refused; [intros ? ?|] | assumption].
Qed.
End Refused.

(** ** A slot asked for in a swap: what is there will leave *)

Definition there (inv : Inventory) (bag slot : Z) : gset Z := match GetItemByPos inv bag slot with Some g => {[g]} | None => ∅ end.

Record swap_ok inv g p bag slot (dest : ItemPosCountVec) : Prop := {
  sw_dest : dest = [(pos_of bag slot, GetCount inv g)];
  sw_fits : fits inv ({[g]} ∪ there inv bag slot) (GetEntry inv g) p dest;
  sw_empty : NonEmptyBag protos inv (Some g) = false
}.

Lemma swap_slot inv H g it bag slot too_many k o :
  sound protos inv H -> heap inv !! g = Some it -> asked (template protos it) bag slot -> bag <> NULL_BAG -> slot <> NULL_SLOT ->
  must too_many (CanStoreItem_InSpecificSlot protos inv bag slot (i_entry it) (template protos it) true (Some g) ([], i_count it)) k = o ->
  o.1.1 = EQUIP_ERR_OK -> too_many = 0 /\ swap_ok inv g (template protos it) bag slot o.1.2.
Proof.
  intros Hs E [Hs8 Hbag Hmain] Hb0 Hs0 Ho Hok. pose proof (s_item _ _ _ Hs _ _ E) as Hio. set (p := template protos it) in *.
  pose proof (io_count _ _ _ _ Hio) as Hc. pose proof (sane_templates _ _ (io_proto _ _ _ _ Hio)) as [Hst _]. fold p in Hc, Hst.
  assert (Hge : GetEntry inv g = i_entry it /\ GetCount inv g = i_count it) by (unfold GetEntry, GetCount; by rewrite (deref_heap _ _ _ E)).
  destruct Hge as [Hge Hgc].
  assert (Hpush : forall V, usable inv V bag slot -> V = {[g]} ∪ there inv bag slot -> NonEmptyBag protos inv (Some g) = false ->
     must too_many (EQUIP_ERR_OK, push bag slot (Stackable p) ([], i_count it)) k = o ->
     too_many = 0 /\ swap_ok inv g p bag slot o.1.2).
  { intros V Hu HV Hne. unfold push, ItemPosCount. cbn [isContainedIn existsb app].
    assert ((if i_count it <? Stackable p then i_count it else Stackable p) = i_count it) as -> by (destruct (Z.ltb_spec (i_count it) (Stackable p)); lia).
    assert (0 <= bag < 256) as Hb8 by (destruct Hu as [->|? Hbp]; [lia|]; apply bag_place_spec in Hbp; lia).
    rewrite byte_pos by done. replace (u8 (i_count it)) with (i_count it)
      by (symmetry; apply u8_id; unfold is_u; change (2 ^ 8) with 256; lia).
    replace (u32 (i_count it - i_count it)) with 0 by (rewrite Z.sub_diag; done). unfold must, all_found. cbn.
    destruct (Z.eqb_spec too_many 0) as [->|]; intros <-; [|done]. split; [done|]. split.
    - by rewrite Hgc.
    - split; [apply NoDup_singleton|]. apply Forall_singleton. exists bag, slot. split; [done|]. split; cbn [fst snd]; try done.
      + by rewrite <- HV.
      + intros ->. by apply Hmain.
      + intros g' Hg' Hv. exfalso. apply Hv. unfold there. rewrite Hg'. set_solver.
    - done. }
  unfold CanStoreItem_InSpecificSlot in Ho. destruct (NonEmptyBag protos inv (Some g)) eqn:Hne.
  { rewrite <- Ho in Hok. done. }
  destruct (Z.eqb_spec bag INVENTORY_SLOT_BAG_0) as [E255|E255].
  - destruct (_ && _) in Ho; [by rewrite <- Ho in Hok|]. destruct (_ || _) in Ho; [by rewrite <- Ho in Hok|].
    eapply Hpush; [|reflexivity|done|exact Ho]. apply usable_main; [done|]. by apply Hmain.
  - assert (bag_place bag) as Hbp by (destruct Hbag as [?|[?|?]]; done). rewrite (look_bag_main _ _ Hbp) in Ho.
    destruct (m_items inv !! bag) as [pBag|] eqn:Em; [|by rewrite <- Ho in Hok].
    case_bool_decide as Eb; [by rewrite <- Ho in Hok|]. destruct (bag_size _ _ _ _ _ Hs Hbp Em) as (bg & _ & _ & _ & _ & _ & _ & Hsz & _).
    rewrite <- Hsz in Ho. destruct (Z.leb_spec (GetBagSize inv pBag) slot); [by rewrite <- Ho in Hok|].
    destruct (negb _) in Ho; [by rewrite <- Ho in Hok|]. eapply Hpush; [|reflexivity|done|exact Ho].
    apply (usable_held _ _ _ _ pBag); [done|done| |lia]. unfold there. destruct (GetItemByPos inv bag slot) as [d|] eqn:El; [|set_solver].
    destruct (look_found _ _ _ _ _ _ Hs El) as (_ & dt & Ed & _ & _ & [-> _ _ _ _|bg' bagi _ Hm' Eb' Hj _ _ _ _ _ Hbd]); [done|].
    simplify_eq. set_solver.
Qed.

(** ** Full bags never fit *)

Section Full.
Context (inv : Inventory) (pItem : option Z) (Hne : NonEmptyBag protos inv pItem = true).
Context (item : Z) (p : ItemPrototype) (too_many bag slot : Z).
Lemma in_slots_full lo hi merge k : refuses (in_slots protos inv item p pItem too_many bag slot lo hi merge k).
Proof. intros f. unfold in_slots, CanStoreItem_InInventorySlots. by rewrite Hne. Qed.
Lemma InBag_full b merge plain sb ss f :
  exists res, res <> EQUIP_ERR_OK /\ CanStoreItem_InBag protos inv b item p merge plain pItem sb ss f = (res, f).
Proof.
  unfold CanStoreItem_InBag. rewrite Hne.
  destruct (_ =? _); [|destruct (GetItemByPos _ _ _); [destruct (bool_decide _)|]]; (eexists; split; [|reflexivity]); done.
Qed.
Lemma in_bags_full lo hi merge plain k : refuses k -> refuses (in_bags protos inv item p pItem too_many bag slot lo hi merge plain k).
Proof.
  intros Hk f. unfold in_bags. induction (slots lo hi) as [|i js IH]; cbn [bags]; [apply Hk|].
  destruct (InBag_full i merge plain bag slot f) as (res & Hr & ->). by rewrite (proj2 (Z.eqb_neq _ _) Hr).
Qed.
Lemma in_that_bag_full merge k : refuses (in_that_bag protos inv item p pItem too_many bag slot merge k).
Proof.
  intros f. unfold in_that_bag, either_kind. destruct (InBag_full bag merge false NULL_BAG slot f) as (r1 & H1 & ->).
  rewrite (proj2 (Z.eqb_neq _ _) H1). cbn [negb]. destruct (InBag_full bag merge true NULL_BAG slot f) as (r2 & H2 & ->).
  unfold must. by rewrite (proj2 (Z.eqb_neq _ _) H2).
Qed.
Lemma specific_full swap k f : (must too_many (CanStoreItem_InSpecificSlot protos inv bag slot item p swap pItem f) k).1.1 <> EQUIP_ERR_OK.
Proof. unfold CanStoreItem_InSpecificSlot. by rewrite Hne. Qed.

Lemma store_full swap :
  refuses (store_in_slot protos inv item p pItem too_many bag slot swap
    (store_in_bag protos inv item p pItem too_many bag slot (store_anywhere protos inv item p pItem too_many bag slot))).
Proof.
  assert (Hfree : refuses (store_free protos inv item p pItem too_many bag slot)) by (intros f; unfold store_free; by rewrite Hne).
  assert (Hany : refuses (store_anywhere protos inv item p pItem too_many bag slot)).
  { unfold store_anywhere, store_merging, store_special, in_keyring.
    repeat first [assumption | apply in_slots_full | apply in_bags_full | apply guarded_refused; [intros ? ?|]]. }
  assert (Hbag : refuses (store_in_bag protos inv item p pItem too_many bag slot (store_anywhere protos inv item p pItem too_many bag slot))).
  { intros f. unfold store_in_bag, in_keyring. destruct (_ =? _); [apply Hany|]. destruct (_ =? _); generalize f;
      repeat first [exact Hany | apply in_slots_full | apply in_that_bag_full | apply guarded_refused; [intros ? ?|] | assumption]. }
  intros f. unfold store_in_slot. destruct (_ && _); [|apply Hbag]. destruct (_ && _); [done|]. apply specific_full.
Qed.
Lemma bank_full :
  refuses (bank_in_bag protos inv item p pItem too_many bag slot (bank_anywhere protos inv item p pItem too_many bag slot)).
Proof.
  assert (Hany : refuses (bank_anywhere protos inv item p pItem too_many bag slot)).
  { unfold bank_anywhere, bank_merging, bank_free.
    repeat first [assumption | apply in_slots_full | apply in_bags_full | apply guarded_refused; [intros ? ?|]]. }
  intros f. unfold bank_in_bag. destruct (_ =? _); [apply Hany|]. destruct (_ && _); [done|]. destruct (_ =? _); generalize f;
    repeat first [exact Hany | apply in_slots_full | apply in_that_bag_full | apply guarded_refused; [intros ? ?|] | assumption].
Qed.
End Full.

Lemma empty_contents inv H g it : sound protos inv H -> heap inv !! g = Some it -> NonEmptyBag protos inv (Some g) = false -> i_bagslot it = ∅.
Proof.
  intros Hs E Hne. apply map_empty. intros j. apply eq_None_not_Some. intros [k Hk].
  rewrite (contents_nonempty protos inv H Hs g it j k E Hk) in Hne. done.
Qed.

(** ** Where an item in hand can be stored *)

Record can_store inv (W : gset Z) (it : Item) (dest : ItemPosCountVec) : Prop := {
  cs_fits : fits inv W (i_entry it) (template protos it) dest;
  cs_sum : sum_counts dest = i_count it;
  cs_empty : i_bagslot it = ∅
}.
(** What leaves its place when an item goes to a slot that is asked for. *)
Definition leaves inv g bag slot (swap : bool) : gset Z :=
  if swap && negb (bag =? NULL_BAG) && negb (slot =? NULL_SLOT) then {[g]} ∪ there inv bag slot else {[g]}.

Lemma leaves_no_swap inv g bag slot swap :
  swap = false \/ bag = NULL_BAG \/ slot = NULL_SLOT -> leaves inv g bag slot swap = {[g]}.
Proof. intros [->|[->| ->]]; unfold leaves; cbn; rewrite ?andb_false_r; done. Qed.

Lemma CanStoreItem_fits inv H g it bag slot swap dest :
  sound protos inv H -> heap inv !! g = Some it -> asked (template protos it) bag slot ->
  CanStoreItem protos inv bag slot [] g swap = (EQUIP_ERR_OK, dest) ->
  can_store inv (leaves inv g bag slot swap) it dest /\
  (swap = true -> bag <> NULL_BAG -> slot <> NULL_SLOT -> dest = [(pos_of bag slot, i_count it)]).
Proof.
  intros Hs E Ha Hr. pose proof (s_item _ _ _ Hs _ _ E) as Hio. pose proof (io_proto _ _ _ _ Hio) as Hp.
  pose proof (io_count _ _ _ _ Hio) as Hc. pose proof (sane_templates _ _ Hp) as [Hst _].
  assert (GetEntry inv g = i_entry it /\ GetCount inv g = i_count it) as [Ee Ec] by (unfold GetEntry, GetCount; by rewrite (deref_heap _ _ _ E)).
  unfold CanStoreItem in Hr. rewrite Ee, Ec in Hr. set (o := CanStoreItem_ _ _ _ _ _ _ _ _ _) in Hr.
  assert (o.1.1 = EQUIP_ERR_OK /\ o.1.2 = dest) as [Hok Hdest] by (by rewrite Hr).
  assert (Hrest : exists N tm, (tm = 0 -> N = i_count it) /\ o = store_in_slot protos inv (i_entry it) (template protos it) (Some g) tm bag slot swap
     (store_in_bag protos inv (i_entry it) (template protos it) (Some g) tm bag slot
        (store_anywhere protos inv (i_entry it) (template protos it) (Some g) tm bag slot)) ([], N)).
  { unfold o in *. clear o. unfold CanStoreItem_ in *. rewrite Hp in *. destruct (i_temporaryLoot _); [done|]. destruct (IsBindedNotWith _ _); [done|].
    pose proof (CanTake_spec inv (i_entry it) (i_count it) (Some g) _ Hp) as Ht.
    destruct (CanTakeMoreSimilarItems_ _ _ _ _ _) as [res tm]. destruct Ht as (_ & Hres & _).
    destruct (Z.eqb_spec res EQUIP_ERR_OK) as [Er|Er]; cbn [negb andb] in *.
    - exists (i_count it), tm. split; [done|]. done.
    - destruct (i_count it =? tm); [cbn in Hok; done|]. eexists _, tm. split; [|reflexivity]. intros ->. by destruct (Er (proj2 Hres eq_refl)). }
  assert (Hfull : NonEmptyBag protos inv (Some g) = false).
  { destruct (NonEmptyBag protos inv (Some g)) eqn:Hne; [|done]. destruct Hrest as (N & tm & _ & Eo). rewrite Eo in Hok.
    by apply store_full in Hok. }
  pose proof (empty_contents _ _ _ _ Hs E Hfull) as Hemp.
  destruct (decide (swap = false \/ bag = NULL_BAG \/ slot = NULL_SLOT)) as [Hsw|Hsw].
  - destruct (CanStoreItem_spec inv H bag slot (i_entry it) (i_count it) (Some g) swap _ Hs Hp ltac:(lia) Ha Hsw) as [Hspec _].
    fold o in Hspec. destruct (Hspec Hok) as [Hf Hsum]. rewrite Hdest in *. split; [|naive_solver]. rewrite leaves_no_swap by done. by split.
  - destruct swap; [|naive_solver]. assert (bag <> NULL_BAG) as Hb by naive_solver. assert (slot <> NULL_SLOT) as Hsl by naive_solver.
    destruct Hrest as (N & tm & HN & Eo). unfold store_in_slot in Eo. rewrite (proj2 (Z.eqb_neq _ _) Hb), (proj2 (Z.eqb_neq _ _) Hsl) in Eo. cbn [negb andb] in Eo.
    destruct (_ && _) in Eo; [by rewrite Eo in Hok|]. destruct (Z.eq_dec tm 0) as [->|Htm].
    + rewrite HN in Eo by done. destruct (swap_slot inv H g it bag slot 0 _ o Hs E Ha Hb Hsl (eq_sym Eo) Hok) as [_ [S1 S2 S3]].
      rewrite Hdest, Ec in S1. rewrite Hdest, Ee in S2. split; [|done]. unfold leaves.
      rewrite (proj2 (Z.eqb_neq _ _) Hb), (proj2 (Z.eqb_neq _ _) Hsl). cbn. split; [done| |done]. rewrite S1. unfold sum_counts. cbn. lia.
    + exfalso. rewrite Eo in Hok. revert Hok. apply must_refused; [done|]. by apply store_rest_refused.
Qed.

Lemma IsBankPos_main slot : IsBankPos INVENTORY_SLOT_BAG_0 slot = true -> own_slot slot /\ (bag_place slot -> is_bank_bag_slot slot = true).
Proof.
  unfold IsBankPos. intros Hb.
  assert (39 <= slot < 63 \/ is_bank_bag_slot slot = true) as [Hr|Hr].
  { destruct (Z.leb_spec BANK_SLOT_ITEM_START slot), (Z.ltb_spec slot BANK_SLOT_ITEM_END); cbn in Hb;
      unfold BANK_SLOT_ITEM_START, BANK_SLOT_ITEM_END in *; try (left; lia); right; by destruct (is_bank_bag_slot slot). }
  - split; [unfold own_slot, BANK_SLOT_BAG_END; lia|]. rewrite bag_place_spec. lia.
  - split; [|done]. apply bag_place_own. unfold bag_place. by rewrite Hr, orb_true_r.
Qed.

Lemma CanBankItem_fits inv H g it bag slot swap not_loading dest :
  sound protos inv H -> heap inv !! g = Some it -> 0 <= slot < 256 -> some_bag bag ->
  (bag = INVENTORY_SLOT_BAG_0 -> slot <> NULL_SLOT -> IsBankPos INVENTORY_SLOT_BAG_0 slot = true) ->
  CanBankItem protos inv bag slot [] g swap not_loading = (EQUIP_ERR_OK, dest) ->
  can_store inv (leaves inv g bag slot swap) it dest /\
  (swap = true -> bag <> NULL_BAG -> slot <> NULL_SLOT -> dest = [(pos_of bag slot, i_count it)]).
Proof.
  intros Hs E Hs8 Hbag Hbank Hr. pose proof (s_item _ _ _ Hs _ _ E) as Hio. pose proof (io_proto _ _ _ _ Hio) as Hp.
  pose proof (io_count _ _ _ _ Hio) as Hc. pose proof (sane_templates _ _ Hp) as [Hst _].
  assert (GetEntry inv g = i_entry it /\ GetCount inv g = i_count it) as [Ee Ec] by (unfold GetEntry, GetCount; by rewrite (deref_heap _ _ _ E)).
  assert (Hgp : GetProto protos inv g = template protos it) by (unfold GetProto; by rewrite Ee).
  unfold CanBankItem in Hr. rewrite Ee, Ec, Hgp in Hr. set (p := template protos it) in *.
  destruct (i_temporaryLoot _) in Hr; [done|]. destruct (IsBindedNotWith _ _) in Hr; [done|]. destruct (_ || _) in Hr; [done|].
  destruct (CanTakeMoreSimilarItems _ _ _ =? _) eqn:Et in Hr; cbn [negb] in Hr; [|apply Z.eqb_neq in Et; by simplify_eq].
  set (rest := bank_in_bag _ _ _ _ _ _ _ _ _) in Hr.
  assert (Hfin : finds inv (i_entry it) p (Some g) (i_count it) ([], i_count it)) by (apply finds_nothing; lia).
  assert (Hrest : good inv (i_entry it) p (Some g) (i_count it) 0 rest).
  { eapply bank_in_bag_good; eauto; [done|]. by eapply bank_anywhere_good. }
  assert (Hfinish : forall o : Outcome, o.1 = (EQUIP_ERR_OK, dest) -> (NonEmptyBag protos inv (Some g) = true -> o.1.1 <> EQUIP_ERR_OK) ->
     ok_outcome inv (i_entry it) p (Some g) (i_count it) 0 o -> can_store inv {[g]} it dest).
  { intros o Ho Hfull (G1 & G2 & _). rewrite Ho in Hfull, G1, G2. cbn [fst snd] in Hfull, G1, G2. destruct (G2 eq_refl) as [_ Hsum]. split; [exact G1|done|].
    eapply empty_contents; [exact Hs|exact E|]. destruct (NonEmptyBag protos inv (Some g)) eqn:Hne; [|done]. exfalso. by apply (Hfull eq_refl). }
  assert (Hbankfull : NonEmptyBag protos inv (Some g) = true -> forall f, (rest f).1.1 <> EQUIP_ERR_OK) by (intros Hne f; by apply bank_full).
  destruct (Z.eqb_spec bag NULL_BAG) as [Hb|Hb]; [|destruct (Z.eqb_spec slot NULL_SLOT) as [Hsl|Hsl]]; cbn [negb andb] in Hr.
  - split; [|done]. rewrite leaves_no_swap by auto. eapply Hfinish; [exact Hr|auto|]. apply Hrest; [done|cbn; lia].
  - split; [|done]. rewrite leaves_no_swap by auto. eapply Hfinish; [exact Hr|auto|]. apply Hrest; [done|cbn; lia].
  - set (refused := if is_bank_bag_slot slot then _ else _) in Hr. destruct (Z.eqb_spec refused EQUIP_ERR_OK) as [Hrf|Hrf]; cbn [negb] in Hr; [|by simplify_eq].
    assert (Ha : asked p bag slot).
    { split; [done|done|]. intros Eb Hn. destruct (IsBankPos_main slot (Hbank Eb Hn)) as [Ho Hbb]. split; [done|]. intros Hbp. unfold refused in Hrf.
      rewrite (Hbb Hbp) in Hrf. unfold IsBag in Hrf. rewrite Hgp in Hrf. fold p in Hrf. destruct (Z.eqb_spec (InventoryType p) INVTYPE_BAG); [done|]. done. }
    destruct swap.
    + set (m := must _ _ _) in Hr. assert (Hm : m.1.1 = EQUIP_ERR_OK) by (by rewrite Hr).
      destruct (swap_slot inv H g it bag slot 0 rest m Hs E Ha Hb Hsl eq_refl Hm) as [_ [S1 S2 S3]]. fold p in S1, S2, S3. rewrite Hr in S1, S2. cbn in S1, S2. rewrite Ec in S1. split; [|done].
      unfold leaves. rewrite (proj2 (Z.eqb_neq _ _) Hb), (proj2 (Z.eqb_neq _ _) Hsl). cbn. rewrite Ee in S2. split; [done| |].
      * rewrite S1. unfold sum_counts. cbn. lia.
      * by eapply empty_contents.
    + split; [|done]. rewrite leaves_no_swap by auto. eapply Hfinish; [exact Hr|intros Hne; by apply specific_full|].
      eapply must_ok; [lia| |exact Hrest]. eapply InSpecificSlot_finds; eauto; [exact (Z.le_refl 0)|cbn; lia].
Qed.
End Results.
