(* ===== verification/InventoryEquip.v ===== *)
(** * InventoryEquip: where an item may be equipped, and moving an item

    What [CanEquipItem] promises, the ways [can_move] finds ([can_go]), and
    what taking such a way does to a sound inventory ([arrives]). *)
From S2P Require Import Prelude Inventory InventoryMoves InventorySound InventoryPlaces InventoryStore InventoryFits.

Section Equip.
Context (protos : Z -> option ItemPrototype).
Implicit Types (inv : Inventory) (H : gset Z).
Abbreviation sound := (sound protos).
Abbreviation template := (template protos).
Abbreviation is_bag := (is_bag protos).

(** ** Slots of the equipment *)

Definition equip_slot (p : ItemPrototype) (s : Z) : Prop := 0 <= s < 23 /\ (bag_place s <-> InventoryType p = INVTYPE_BAG).

Lemma equip_slot_of p s : 0 <= s < 19 -> InventoryType p <> INVTYPE_BAG -> equip_slot p s.
Proof. intros Hs Hn. split; [lia|]. rewrite bag_place_spec. lia. Qed.
Lemma equip_slots_spec inv p l : equip_slots inv p = Some l -> Forall (equip_slot p) l.
Proof.
  unfold equip_slots. intros El. destruct (Z.eqb_spec (InventoryType p) INVTYPE_BAG) as [Hb|Hb].
  - rewrite Hb in El. change INVTYPE_BAG with 18 in El. cbn in El. simplify_eq.
    repeat constructor; try lia; rewrite bag_place_spec; lia || done.
  - assert (Hall : Forall (fun s => 0 <= s < 19) l -> Forall (equip_slot p) l).
    { intros Hf. eapply Forall_impl; [exact Hf|]. intros s Hs. by apply equip_slot_of. }
    apply Hall. clear Hall. change INVTYPE_BAG with 18 in Hb. repeat case_match; simplify_eq; try done; repeat constructor; lia.
Qed.

Lemma FindEquipSlot_spec inv p slot swap s :
  FindEquipSlot protos inv p slot swap = s -> s <> NULL_SLOT -> equip_slot p s /\ (slot <> NULL_SLOT -> s = slot).
Proof.
  intros <- Hn. unfold FindEquipSlot in *. destruct (equip_slots inv p) as [l|] eqn:El; [|done].
  pose proof (equip_slots_spec _ _ _ El) as Hl. rewrite Forall_forall in Hl. destruct (Z.eqb_spec slot NULL_SLOT) as [->|Hs]; cbn [negb] in *.
  - split; [|done]. destruct (List.find _ l) as [s|] eqn:Ef.
    + apply Hl. apply List.find_some in Ef as [Hin _]. by apply list_elem_of_In.
    + destruct swap; [|done]. destruct l as [|s l]; [done|]. apply Hl. by left.
  - destruct (_ || _); [|done]. destruct (existsb _ l) eqn:Ex; [|done]. split; [|done]. apply Hl.
    apply existsb_exists in Ex as (x & Hx & ->%Z.eqb_eq). by apply list_elem_of_In.
Qed.

(** Refusals are errors. *)
Definition errs (r : option InventoryResult) : Prop := r <> Some EQUIP_ERR_OK.
Lemma equip_forbidden_errs inv p pItem : errs (equip_forbidden inv p pItem).
Proof. unfold equip_forbidden, errs. by repeat case_match. Qed.
Lemma quiver_conflict_errs inv p pItem swap eslot : errs (quiver_conflict protos inv p pItem swap eslot).
Proof.
  unfold quiver_conflict, errs. destruct (_ =? _); [|done]. destruct (List.find _ _) as [i|]; [|done]. cbn.
  destruct (GetItemByPos inv _ i); [|done]. cbn. by destruct (_ =? _).
Qed.
Lemma hands_conflict_errs inv p swap not_loading eslot : errs (hands_conflict protos inv p swap not_loading eslot).
Proof. unfold hands_conflict, errs. by repeat case_match; simplify_eq. Qed.

Lemma CanEquipItem_spec inv g it slot swap not_loading dest :
  heap inv !! g = Some it -> CanEquipItem protos inv slot g swap not_loading = (EQUIP_ERR_OK, dest) ->
  exists e, dest = pos_of 255 e /\ 0 <= e < 23 /\ (bag_place e <-> is_bag it) /\ (swap = false -> m_items inv !! e = None) /\
    (slot <> NULL_SLOT -> e = slot).
Proof.
  intros E. assert (Hp : GetProto protos inv g = template it) by (unfold GetProto, GetEntry; by rewrite (deref_heap _ _ _ E)).
  unfold CanEquipItem. rewrite Hp. unfold CanEquipItem_.
  destruct (i_temporaryLoot _); [done|]. destruct (IsBindedNotWith _ _); [done|].
  destruct (CanTakeMoreSimilarItems _ _ _ =? _) eqn:Et; cbn [negb]; [|apply Z.eqb_neq in Et; by intros [= ? _]].
  destruct (if not_loading then _ else _) as [r|] eqn:Er.
  { intros [= -> _]. destruct not_loading; [|done]. by apply equip_forbidden_errs in Er. }
  set (e := FindEquipSlot _ _ _ _ _). destruct (Z.eqb_spec e NULL_SLOT) as [|Hn]; [done|].
  destruct (FindEquipSlot_spec _ _ _ _ e eq_refl Hn) as [[He Hbag] Hslot].
  destruct (CanUseItem _ _ _ _ =? _) eqn:Eu; cbn [negb]; [|apply Z.eqb_neq in Eu; by intros [= ? _]].
  destruct (negb swap && _) eqn:Eo; [done|].
  destruct (CanEquipUniqueItem _ _ _ _ =? _) eqn:Eq; cbn [negb]; [|apply Z.eqb_neq in Eq; by intros [= ? _]].
  destruct (quiver_conflict _ _ _ _ _ _) as [r|] eqn:Eqv; [intros [= -> _]; by apply quiver_conflict_errs in Eqv|].
  destruct (hands_conflict _ _ _ _ _ _) as [r|] eqn:Eh; [intros [= -> _]; by apply hands_conflict_errs in Eh|].
  intros [= <-]. exists e. split_and!; try done; try lia. intros ->. cbn in Eo. apply bool_decide_eq_false in Eo.
  apply dec_stable in Eo. rewrite look_main in Eo; [done|]. unfold own_slot, BANK_SLOT_BAG_END. lia.
Qed.
End Equip.

(** ** Ways *)

Section Ways.
Context (protos : Z -> option ItemPrototype) `{Sane : !SaneTemplates protos}.
Implicit Types (inv : Inventory) (H W : gset Z).
Abbreviation sound := (sound protos).
Abbreviation template := (template protos).
Abbreviation is_bag := (is_bag protos).

(** Where the item may go when the items [W] have left. *)
Inductive can_go inv W (it : Item) : Way -> Prop :=
| go_slots dest : can_store protos inv W it dest -> dest <> [] -> can_go inv W it (Slots dest)
| go_equip e : 0 <= e < 23 -> (bag_place e <-> is_bag it) -> (forall k, m_items inv !! e = Some k -> k ∈ W) ->
    can_go inv W it (Equip (pos_of 255 e)).

(** A place that a packet names. *)
Record target (bag slot : Z) : Prop := {
  ta_byte : 0 <= slot < 256;
  ta_bag : some_bag bag
}.
Lemma IsInventoryPos_main slot : IsInventoryPos 255 slot = true -> slot <> NULL_SLOT -> 0 <= slot -> own_slot slot /\ ~ bag_place slot.
Proof.
  unfold IsInventoryPos. change (255 =? INVENTORY_SLOT_BAG_0) with true. cbn [andb].
  destruct (Z.eqb_spec slot NULL_SLOT); [done|]. intros Hi _ _.
  assert (23 <= slot < 39 \/ 81 <= slot < 113) as Hr.
  { destruct (_ && _) eqn:E1 in Hi; [apply andb_true_iff in E1 as [?%Z.leb_le ?%Z.ltb_lt];
      unfold INVENTORY_SLOT_ITEM_START, INVENTORY_SLOT_ITEM_END in *; lia|].
    change (is_bag_slot 255) with false in Hi. apply andb_true_iff in Hi as [?%Z.leb_le ?%Z.ltb_lt].
    unfold KEYRING_SLOT_START, KEYRING_SLOT_END in *. lia. }
  split; [unfold own_slot, BANK_SLOT_BAG_END, KEYRING_SLOT_START, KEYRING_SLOT_END; lia|]. rewrite bag_place_spec. lia.
Qed.
Lemma inventory_asked p bag slot : target bag slot -> IsInventoryPos bag slot = true -> asked p bag slot.
Proof.
  intros [Hb Hs] Hi. split; [done|done|]. intros -> Hn. destruct (IsInventoryPos_main slot Hi Hn ltac:(lia)) as [? ?]. done.
Qed.
Lemma can_store_nonempty inv W it dest : 1 <= i_count it -> can_store protos inv W it dest -> dest <> [].
Proof. intros Hc [_ Hs _] ->. unfold sum_counts in Hs. cbn in Hs. lia. Qed.

Lemma IsEquipmentPos_bag bag slot : IsEquipmentPos bag slot = true -> bag = 255 /\ slot < 23.
Proof.
  unfold IsEquipmentPos, is_bag_slot. destruct (Z.eqb_spec bag INVENTORY_SLOT_BAG_0) as [->|]; [|done]. cbn [andb].
  destruct (Z.ltb_spec slot EQUIPMENT_SLOT_END) as [?|?]; unfold EQUIPMENT_SLOT_END in *; [intros _; split; [done|lia]|].
  intros [?%Z.leb_le ?%Z.ltb_lt]%andb_true_iff. unfold INVENTORY_SLOT_BAG_END in *. done.
Qed.

Lemma can_move_go inv H g it bag slot swap way :
  sound inv H -> heap inv !! g = Some it -> target bag slot ->
  can_move protos inv bag slot g swap = (EQUIP_ERR_OK, way) -> way <> Nowhere ->
  can_go inv (leaves inv g bag slot swap) it way /\
  (swap = true -> bag <> NULL_BAG -> slot <> NULL_SLOT -> way = Slots [(pos_of bag slot, i_count it)] \/ way = Equip (pos_of bag slot)).
Proof.
  intros Hs E Ht Hm Hw. pose proof (io_count _ _ _ _ (s_item _ _ _ Hs _ _ E)) as Hc. unfold can_move in Hm.
  destruct (IsInventoryPos bag slot) eqn:Ei; [|destruct (IsBankPos bag slot) eqn:Eb; [|destruct (IsEquipmentPos bag slot) eqn:Ee]].
  - destruct (CanStoreItem _ _ _ _ _ _ _) as [msg dest] eqn:Ec. simplify_eq.
    destruct (CanStoreItem_fits protos inv H g it bag slot swap dest Hs E) as [Hf Hd]; [by apply inventory_asked|done|].
    split; [|intros; left; f_equal; auto]. constructor; [done|]. eapply can_store_nonempty; [|exact Hf]. lia.
  - destruct (CanBankItem _ _ _ _ _ _ _) as [msg dest] eqn:Ec. simplify_eq.
    destruct (CanBankItem_fits protos inv H g it bag slot swap true dest Hs E) as [Hf Hd]; [apply Ht|apply Ht|by intros ->|done|].
    split; [|intros; left; f_equal; auto]. constructor; [done|]. eapply can_store_nonempty; [|exact Hf]. lia.
  - destruct (CanEquipItem _ _ _ _ _ _) as [msg dest] eqn:Ec. simplify_eq. destruct (IsEquipmentPos_bag _ _ Ee) as [-> Hslot].
    destruct (CanEquipItem_spec protos inv g it slot swap true dest E Ec) as (e & -> & He & Hb & Hfree & Hes).
    assert (slot <> NULL_SLOT) as Hn by (unfold NULL_SLOT; lia). specialize (Hes Hn) as ->.
    split; [|by right]. constructor; [done|done|]. intros k Hk. destruct swap; [|by rewrite Hfree in Hk].
    unfold leaves. rewrite (proj2 (Z.eqb_neq _ _) Hn). cbn. unfold there. rewrite look_main, Hk; [set_solver|].
    unfold own_slot, BANK_SLOT_BAG_END. lia.
  - simplify_eq.
Qed.

(** ** The effect of going there *)

Definition unmailed (os : list Out) : Prop := Forall (fun o => match o with ItemMailed _ _ => False | _ => True end) os.
Record arrives inv inv' H g (it : Item) : Prop := {
  ar_sound : sound inv' (H ∖ {[g]});
  ar_amount : forall e, amount e inv' (H ∖ {[g]}) = amount e inv H + weight e it;
  ar_hand : forall k, k ∈ H ∖ {[g]} -> heap inv' !! k = heap inv !! k;
  ar_out : exists os, inv_out inv' = inv_out inv ++ os /\ unmailed os;
  ar_char : inv_char inv' = inv_char inv
}.
(** The item in the hand as it was when the way was found, but for its place. *)
Lemma same_is_bag it it' : same_things it it' -> is_bag it -> is_bag it'.
Proof. intros [Ee _ _ _]. unfold InventorySound.is_bag, InventorySound.template. by rewrite Ee. Qed.

Lemma equip_own e : 0 <= e < 23 -> own_slot e.
Proof. unfold own_slot, BANK_SLOT_BAG_END. lia. Qed.

Lemma equip_arrives inv H g it e :
  sound inv H -> g ∈ H -> heap inv !! g = Some it -> 0 <= e < 23 -> (bag_place e <-> is_bag it) -> m_items inv !! e = None ->
  put_down protos inv (EquipItem protos inv (pos_of 255 e) g) H 255 e g it /\
  arrives inv (EquipItem protos inv (pos_of 255 e) g) H g it.
Proof.
  intros Hs HgH E He Hb Hfree.
  pose proof (EquipItem_down protos inv H e g it Hs HgH E Hfree (equip_own _ He) (proj1 Hb)) as Hd.
  assert (Hpd : put_down protos inv (EquipItem protos inv (pos_of 255 e) g) H 255 e g it).
  { apply Hd. intros Hne. apply Hb. by eapply contents_is_bag. }
  split; [done|]. destruct Hpd. split; try done. exists []. rewrite app_nil_r. by split; [|constructor].
Qed.
Lemma gained_arrives inv inv' H g it P : gained protos inv inv' H (H ∖ {[g]}) (i_entry it) (i_count it) P -> arrives inv inv' H g it.
Proof. intros [G1 G2 G3 G4 G5 G6]. split; auto. Qed.
End Ways.
