(* ===== verification/InventoryRun.v ===== *)
(** * InventoryRun: moving items conserves them

    Every packet that moves items keeps the invariant, and what a character
    has of each template, counting what the server mails to the character
    when a shield or an off hand weapon has no place ([total]), is what it was. *)
From S2P Require Import Prelude Inventory InventoryMoves InventorySound InventoryPlaces InventoryStore InventoryFits InventoryEquip.

Definition mailed (e : Z) (os : list Out) : Z :=
  foldr (fun o n => match o with ItemMailed _ it => weight e it | _ => 0 end + n) 0 os.
Definition total (e : Z) (inv : Inventory) (H : gset Z) : Z := amount e inv H + mailed e (inv_out inv).

Lemma mailed_app e os os' : mailed e (os ++ os') = mailed e os + mailed e os'.
Proof. induction os as [|o os IH]; [done|]. unfold mailed in *. cbn. rewrite IH. lia. Qed.
Lemma mailed_none e os : unmailed os -> mailed e os = 0.
Proof. induction 1 as [|o os Ho _ IH]; [done|]. unfold mailed in *. cbn. rewrite IH. by destruct o. Qed.

Section Kept.
Context (protos : Z -> option ItemPrototype).
Implicit Types (inv : Inventory) (H W : gset Z).
Abbreviation sound := (sound protos).

Record kept inv inv' H : Prop := {
  kp_sound : sound inv' H;
  kp_total : forall e, total e inv' H = total e inv H
}.
Lemma kept_refl inv H : sound inv H -> kept inv inv H.
Proof. done. Qed.
Lemma kept_trans inv inv' inv'' H : kept inv inv' H -> kept inv' inv'' H -> kept inv inv'' H.
Proof. intros [A B] [C D]. split; [done|]. intros e. by rewrite D, B. Qed.
Lemma kept_then inv inv' inv'' H : kept inv inv' H -> (sound inv' H -> kept inv' inv'' H) -> kept inv inv'' H.
Proof. intros Hk Hn. eapply kept_trans; [exact Hk|]. apply Hn, Hk. Qed.
Lemma kept_emit o inv H : match o with ItemMailed _ _ => False | _ => True end -> sound inv H -> kept inv (emit o inv) H.
Proof.
  intros Ho Hs. split; [by apply sound_emit|]. intros e. unfold total. cbn [emit inv_out]. rewrite mailed_app.
  rewrite (mailed_none e [o]) by (constructor; [done|constructor]). rewrite Z.add_0_r. done.
Qed.
Lemma emit_kept o inv inv' H : match o with ItemMailed _ _ => False | _ => True end -> kept inv inv' H -> kept inv (emit o inv') H.
Proof. intros Ho Hk. eapply kept_then; [exact Hk|]. by apply kept_emit. Qed.
(** An item that is taken and arrives again. *)
Lemma kept_moved inv inv1 inv2 H g it it' :
  removed protos inv inv1 H g it -> same_things it it' -> arrives protos inv1 inv2 ({[g]} ∪ H) g it' -> g ∉ H -> kept inv inv2 H.
Proof.
  intros [R1 R2 R3 R4 R5 R6 R7] [Ee Ec _ _] [A1 A2 A3 (os & A4 & A5) A6] Hg.
  replace (({[g]} ∪ H) ∖ {[g]}) with H in * by (apply set_eq; set_solver). split; [done|]. intros e.
  unfold total. rewrite A2, R3, A4, R6, mailed_app, (mailed_none _ _ A5). unfold weight. rewrite Ee, Ec. lia.
Qed.
End Kept.

Section Run.
Context (protos : Z -> option ItemPrototype) `{Sane : !SaneTemplates protos}.
Implicit Types (inv : Inventory) (H W : gset Z).
Abbreviation sound := (sound protos).
Abbreviation template := (template protos).
Abbreviation is_bag := (is_bag protos).
Abbreviation kept := (kept protos).
Abbreviation can_go := (can_go protos).

(** ** Going a way that was found *)

(** The item after others have left. *)
Record sheds (it it' : Item) : Prop := {
  sh_entry : i_entry it' = i_entry it;
  sh_count : i_count it' = i_count it;
  sh_bagslot : i_bagslot it = ∅ -> i_bagslot it' = ∅
}.
Lemma same_sheds it it' : same_things it it' -> sheds it it'.
Proof. intros [Ee Ec _ Eb]. split; congruence. Qed.
Lemma sheds_trans it it' it'' : sheds it it' -> sheds it' it'' -> sheds it it''.
Proof. intros [A B C] [A' B' C']. split; [congruence|congruence|auto]. Qed.

Lemma can_go_lifted inv inv1 H H1 W it it' way :
  sound inv H -> lifted inv inv1 W -> W ⊆ H1 -> sound inv1 H1 -> sheds it it' -> can_go inv W it way -> can_go inv1 ∅ it' way.
Proof.
  intros Hs Hl HW Hs1 [Ee Ec Eb] [dest [Hf Hsum Hemp] Hne|e He Hb Hv].
  - constructor; [|done]. assert (template it' = template it) as Ht by (unfold InventorySound.template; by rewrite Ee).
    split; rewrite ?Ee, ?Ht, ?Ec; auto. apply (fits_gone protos _ H1 W _ _ _ Hs1 HW). by apply (fits_lifted protos inv _ H).
  - constructor; [done| |].
    + unfold InventorySound.is_bag, InventorySound.template in *. by rewrite Ee.
    + intros k Hk. exfalso. destruct (s_main _ _ _ Hs1 _ _ Hk) as [HkH _]. apply HkH, HW, Hv.
      rewrite <- look_main in Hk |- * by (by apply equip_own). by apply (li_back _ _ _ Hl).
Qed.

Lemma go_arrives inv H g it way :
  sound inv H -> g ∈ H -> heap inv !! g = Some it -> can_go inv ∅ it way -> arrives protos inv (move_to protos inv way g) H g it.
Proof.
  intros Hs HgH E [dest [Hf Hsum Hemp] Hne|e He Hb Hv].
  - apply (gained_arrives protos _ _ _ _ _ dest.*1). rewrite <- Hsum. by apply StoreItem_gained.
  - apply equip_arrives; auto. destruct (m_items inv !! e) as [k|] eqn:Ek; [|done]. specialize (Hv _ eq_refl). set_solver.
Qed.

Lemma take_and_go inv H b s g way :
  sound inv H -> GetItemByPos inv b s = Some g -> can_go inv {[g]} (deref inv g) way ->
  kept inv (move_to protos (RemoveItem inv b s) way g) H.
Proof.
  intros Hs Hl Hgo. destruct (look_found _ _ _ _ _ _ Hs Hl) as (HgH & _). pose proof (RemoveItem_removed protos inv H b s g Hs Hl) as Hr.
  destruct (rm_item _ _ _ _ _ _ Hr) as (it' & E' & Hsame). eapply kept_moved; [exact Hr|exact Hsame| |done].
  apply go_arrives; [apply Hr|set_solver|done|]. eapply can_go_lifted; [exact Hs| | |apply Hr|exact (same_sheds _ _ Hsame)|exact Hgo].
  - apply (rm_lifted _ _ _ _ _ _ Hr). set_solver.
  - set_solver.
Qed.

(** ** The off hand *)

(** An item with contents that is in a slot is a bag in its place. *)
Lemma full_in_bag_place inv H b s g it :
  sound inv H -> GetItemByPos inv b s = Some g -> heap inv !! g = Some it -> i_bagslot it <> ∅ -> b = 255 /\ bag_place s.
Proof.
  intros Hs Hl E Hne. destruct (look_found _ _ _ _ _ _ Hs Hl) as (HgH & it0 & E0 & Hsl & _ & Hf). simplify_eq.
  destruct (map_choose _ Hne) as (j & k & Hk). destruct (s_held _ _ _ Hs _ _ _ _ E Hk) as [_ (kt & _ & [_ _ _ _ Hu])].
  destruct Hu as [?|(_ & Hp & _)]; [done|]. destruct Hf; [done|]. by destruct Hne.
Qed.

Lemma anywhere_asked p : asked p NULL_BAG NULL_SLOT.
Proof. split; unfold NULL_SLOT; [lia|by left|done]. Qed.
Lemma store_anywhere_go inv H g it dest :
  sound inv H -> heap inv !! g = Some it -> CanStoreItem protos inv NULL_BAG NULL_SLOT [] g false = (EQUIP_ERR_OK, dest) ->
  can_go inv {[g]} it (Slots dest).
Proof.
  intros Hs E Hc. destruct (CanStoreItem_fits protos inv H g it NULL_BAG NULL_SLOT false dest Hs E (anywhere_asked _) Hc) as [Hf _].
  rewrite leaves_no_swap in Hf by auto. constructor; [done|]. eapply can_store_nonempty; [|exact Hf].
  pose proof (io_count _ _ _ _ (s_item _ _ _ Hs _ _ E)). lia.
Qed.

Lemma mail_away inv H b s g it :
  sound inv H -> GetItemByPos inv b s = Some g -> heap inv !! g = Some it -> ~ bag_place s ->
  let inv1 := MoveItemFromInventory inv b s in kept inv (emit (ItemMailed g (deref inv1 g)) (delete_item g inv1)) H.
Proof.
  intros Hs Hl E Hn. unfold MoveItemFromInventory. rewrite Hl. cbv zeta. set (inv0 := emit _ inv).
  assert (Hs0 : sound inv0 H) by (by apply sound_emit). assert (Hl0 : GetItemByPos inv0 b s = Some g) by done.
  assert (E0 : heap inv0 !! g = Some it) by done.
  destruct (look_found _ _ _ _ _ _ Hs0 Hl0) as (HgH & _). pose proof (RemoveItem_removed protos inv0 H b s g Hs0 Hl0) as [R1 R2 R3 R4 R5 R6 R7].
  destruct R2 as (it' & E' & [Ee Ec _ Eb]). set (inv1 := RemoveItem inv0 b s) in *. rewrite (deref_heap _ _ _ E') in *.
  rewrite (deref_heap _ _ _ E0) in *. assert (Hgone : heap (delete_item g inv1) = delete g (heap inv1)) by done.
  assert (Hemp : i_bagslot it' = ∅).
  { rewrite Eb. destruct (decide (i_bagslot it = ∅)) as [|Hne]; [done|]. by destruct (full_in_bag_place _ _ _ _ _ _ Hs Hl E Hne). }
  assert (Hsd : sound (delete_item g inv1) ({[g]} ∪ H)).
  { apply sound_drop; [done|set_solver|]. intros it0. rewrite E'. by intros [= <-]. }
  assert (({[g]} ∪ H) ∖ {[g]} = H) as EH by (apply set_eq; set_solver). split.
  - apply sound_emit. rewrite <- EH. apply sound_forget; [done|]. rewrite Hgone. apply lookup_delete_eq.
  - intros e. unfold total. cbn [emit inv_out]. change (inv_out (delete_item g inv1)) with (inv_out inv1). rewrite mailed_app, R6.
    change (inv_out inv0) with (inv_out inv ++ [QuestItemRemoved (GetEntry inv g) (GetCount inv g)]). rewrite mailed_app.
    assert (amount e (emit (ItemMailed g it') (delete_item g inv1)) H = amount e inv H - weight e it) as ->.
    { change (amount e (delete_item g inv1) H = amount e inv H - weight e it). rewrite <- EH at 1. unfold amount at 1. rewrite Hgone.
      rewrite (hsum_gone (weight e)) by set_solver. exact (R3 e). }
    unfold mailed. cbn. unfold weight. rewrite Ee, Ec. lia.
Qed.

Lemma AutoUnequipItemFromSlot_kept inv H slot mail :
  sound inv H -> ~ bag_place slot -> kept inv (AutoUnequipItemFromSlot protos inv slot mail) H.
Proof.
  intros Hs Hn. unfold AutoUnequipItemFromSlot. destruct (GetItemByPos _ _ _) as [g|] eqn:Hl; [|by apply kept_refl].
  destruct (look_found _ _ _ _ _ _ Hs Hl) as (_ & it & E & _). destruct (CanStoreItem _ _ _ _ _ _ _) as [msg dest] eqn:Ec.
  destruct (Z.eqb_spec msg EQUIP_ERR_OK) as [->|_].
  - change (Store protos ?i dest g) with (move_to protos i (Slots dest) g). apply take_and_go; [done|done|].
    rewrite (deref_heap _ _ _ E). by eapply store_anywhere_go.
  - destruct mail; [|by apply kept_refl]. by apply (mail_away inv H INVENTORY_SLOT_BAG_0 slot g it).
Qed.
Lemma AutoUnequipOffhandIfNeed_kept inv H : sound inv H -> kept inv (AutoUnequipOffhandIfNeed protos inv) H.
Proof.
  intros Hs. unfold AutoUnequipOffhandIfNeed. destruct (IsTwoHandUsed _ _); [|by apply kept_refl].
  apply AutoUnequipItemFromSlot_kept; [done|]. rewrite bag_place_spec. unfold EQUIPMENT_SLOT_OFFHAND. lia.
Qed.
Lemma offhand_after inv inv' H (c : bool) :
  kept inv inv' H -> kept inv (if c then AutoUnequipOffhandIfNeed protos inv' else inv') H.
Proof. intros Hk. destruct c; [|done]. eapply kept_then; [exact Hk|]. by apply AutoUnequipOffhandIfNeed_kept. Qed.

(** ** SwapItem onto a free slot and onto a stack *)

Lemma move_kept inv H srcbag srcslot dstbag dstslot g way :
  sound inv H -> target dstbag dstslot -> GetItemByPos inv srcbag srcslot = Some g ->
  can_move protos inv dstbag dstslot g false = (EQUIP_ERR_OK, way) -> way <> Nowhere ->
  kept inv (move_to protos (RemoveItem inv srcbag srcslot) way g) H.
Proof.
  intros Hs Ht Hl Hm Hw. destruct (look_found _ _ _ _ _ _ Hs Hl) as (_ & it & E & _).
  destruct (can_move_go protos inv H g it dstbag dstslot false way Hs E Ht Hm Hw) as [Hgo _]. rewrite leaves_no_swap in Hgo by auto.
  apply take_and_go; [done|done|]. by rewrite (deref_heap _ _ _ E).
Qed.
Lemma can_move_somewhere inv bag slot g swap :
  IsInventoryPos bag slot || IsBankPos bag slot || IsEquipmentPos bag slot = true -> (can_move protos inv bag slot g swap).2 <> Nowhere.
Proof.
  unfold can_move. destruct (IsInventoryPos bag slot); [by destruct (CanStoreItem _ _ _ _ _ _ _)|].
  destruct (IsBankPos bag slot); [by destruct (CanBankItem _ _ _ _ _ _ _)|].
  destruct (IsEquipmentPos bag slot); [by destruct (CanEquipItem _ _ _ _ _ _)|done].
Qed.

Lemma swap_move_kept inv H srcbag srcslot dstbag dstslot g :
  sound inv H -> target dstbag dstslot -> GetItemByPos inv srcbag srcslot = Some g ->
  kept inv (swap_move protos srcbag srcslot dstbag dstslot inv g) H.
Proof.
  intros Hs Ht Hl. unfold swap_move. destruct (_ || _) eqn:Ep; [|by apply kept_refl].
  pose proof (can_move_somewhere inv dstbag dstslot g false Ep) as Hw.
  destruct (can_move _ _ _ _ _ _) as [msg way] eqn:Em. destruct (Z.eqb_spec msg EQUIP_ERR_OK) as [->|_]; cbn [negb]; [|by apply kept_emit].
  apply offhand_after. by eapply move_kept.
Qed.

(** Where one is, only the same can be added. *)
Lemma InSpecificSlot_same inv bag slot item p g g2 f :
  GetItemByPos inv bag slot = Some g2 -> g <> g2 ->
  (CanStoreItem_InSpecificSlot protos inv bag slot item p false (Some g) f).1 = EQUIP_ERR_OK -> GetEntry inv g2 = item.
Proof.
  intros Hl Hne. unfold CanStoreItem_InSpecificSlot. destruct (NonEmptyBag _ _ _); [done|]. unfold other_item. rewrite Hl.
  rewrite bool_decide_eq_false_2 by congruence. unfold CanBeMergedPartlyWith. by destruct (Z.eqb_spec (GetEntry inv g2) item).
Qed.
Lemma must_inv n r k : (must n r k).1.1 = EQUIP_ERR_OK -> r.1 = EQUIP_ERR_OK.
Proof. destruct r as [res f]. unfold must. destruct (Z.eqb_spec res EQUIP_ERR_OK); cbn [negb]; [done|]. done. Qed.

Lemma merges_same inv H bag slot g g2 way :
  sound inv H -> GetItemByPos inv bag slot = Some g2 -> g <> g2 -> bag <> NULL_BAG -> slot <> NULL_SLOT ->
  is_Some (heap inv !! g) -> can_move protos inv bag slot g false = (EQUIP_ERR_OK, way) -> way <> Nowhere -> GetEntry inv g2 = GetEntry inv g.
Proof.
  intros Hs Hl Hne Hb Hn [it E] Hm Hw. apply Z.eqb_neq in Hb as Hb', Hn as Hn'. unfold can_move in Hm.
  destruct (IsInventoryPos bag slot); [|destruct (IsBankPos bag slot); [|destruct (IsEquipmentPos bag slot) eqn:Ee; [|by simplify_eq]]].
  - destruct (CanStoreItem _ _ _ _ _ _ _) as [msg dest] eqn:Ec. simplify_eq. unfold CanStoreItem in Ec.
    assert (Hok : (CanStoreItem_ protos inv bag slot [] (GetEntry inv g) (GetCount inv g) (Some g) false).1.1 = EQUIP_ERR_OK) by (by rewrite Ec).
    clear Ec. unfold CanStoreItem_ in Hok. destruct (protos _) as [p|]; [|done]. destruct (i_temporaryLoot _); [done|].
    destruct (IsBindedNotWith _ _); [done|]. destruct (CanTakeMoreSimilarItems_ _ _ _ _ _) as [res n].
    destruct (negb (res =? _) && _) eqn:Er in Hok; [apply andb_true_iff in Er as [Er%negb_true_iff%Z.eqb_neq _]; done|]. unfold store_in_slot in Hok. rewrite Hb', Hn' in Hok. cbn [negb andb] in Hok.
    destruct (_ && _) in Hok; [done|]. apply must_inv in Hok. by eapply InSpecificSlot_same.
  - destruct (CanBankItem _ _ _ _ _ _ _) as [msg dest] eqn:Ec. simplify_eq. unfold CanBankItem in Ec. rewrite Hb', Hn' in Ec. cbn [negb andb] in Ec.
    destruct (i_temporaryLoot _); [done|]. destruct (IsBindedNotWith _ _); [done|]. destruct (_ || _); [done|].
    destruct (CanTakeMoreSimilarItems _ _ _ =? _) eqn:Et in Ec; cbn [negb] in Ec; [|apply Z.eqb_neq in Et; by simplify_eq].
    match type of Ec with (if negb (?x =? _) then _ else _) = _ => destruct (Z.eqb_spec x EQUIP_ERR_OK) as [_|]; cbn [negb] in Ec; [|by simplify_eq] end.
    match type of Ec with ?o.1 = _ => assert (Hok : o.1.1 = EQUIP_ERR_OK) by (by rewrite Ec) end. apply must_inv in Hok. by eapply InSpecificSlot_same.
  - destruct (CanEquipItem _ _ _ _ _ _) as [msg dest] eqn:Ec. simplify_eq. destruct (IsEquipmentPos_bag _ _ Ee) as [-> Hslot].
    destruct (CanEquipItem_spec protos inv g it slot false true dest E Ec) as (e & -> & He & _ & Hfree & Hes).
    specialize (Hes Hn) as ->. rewrite look_main, Hfree in Hl by (done || by apply equip_own). done.
Qed.

(** The part that fits goes over. *)
Lemma pour_kept inv H g g2 it it2 :
  sound inv H -> g ∉ H -> g2 ∉ H -> g <> g2 -> heap inv !! g = Some it -> heap inv !! g2 = Some it2 -> i_entry it2 = i_entry it ->
  let max := Stackable (template it) in max < i_count it + i_count it2 ->
  kept inv (upd g2 (SetCount max) (upd g (SetCount (u32 (i_count it + i_count it2 - max))) inv)) H.
Proof.
  intros Hs Hg Hg2 Hne E E2 Ee max Hmax. assert (template it2 = template it) as Ht by (unfold InventorySound.template; by rewrite Ee).
  pose proof (s_item _ _ _ Hs _ _ E) as [Hp Hc _ _]. pose proof (s_item _ _ _ Hs _ _ E2) as [_ Hc2 _ _]. rewrite Ht in Hc2.
  pose proof (sane_templates _ _ Hp) as [Hst _]. fold max in Hc, Hc2, Hst. rewrite u32_small by lia.
  set (n := i_count it + i_count it2 - max). set (inv1 := upd g (SetCount n) inv).
  assert (Hs1 : sound inv1 H).
  { apply sound_upd; [done|]. intros it0. rewrite E. intros [= <-]. split; try done. cbn. fold max. lia. }
  assert (E21 : heap inv1 !! g2 = Some it2) by (unfold inv1; rewrite upd_lookup, decide_False by done; done). split.
  - apply sound_upd; [done|]. intros it0. rewrite E21. intros [= <-]. split; try done. cbn. rewrite Ht. fold max. lia.
  - intros e. unfold total. cbn [inv_out upd set_heap inv1]. f_equal. rewrite (amount_upd_out _ _ _ _ _ it2) by done.
    unfold inv1. rewrite (amount_upd_out _ _ _ _ _ it) by done. unfold weight. cbn. rewrite Ee. destruct (_ =? e); lia.
Qed.

Lemma found_target inv H b s g : sound inv H -> GetItemByPos inv b s = Some g -> target b s /\ b <> NULL_BAG /\ s <> NULL_SLOT.
Proof.
  intros Hs Hl. destruct (look_found _ _ _ _ _ _ Hs Hl) as (_ & it & E & Hsl & _ & [-> Hm Ho _ _|bg bag Hb Hm Eb Hj _ _ Hr _ _ _]).
  - pose proof (own_slot_byte _ Ho). split_and!; [split; [done|by right; left]|done|]. unfold own_slot, NULL_SLOT, BANK_SLOT_BAG_END, KEYRING_SLOT_START, KEYRING_SLOT_END in *. lia.
  - destruct (bag_size protos inv H b bg Hs Hb Hm) as (bag' & Eb' & _ & _ & _ & _ & Hsz & _ & Hmax). simplify_eq. unfold MAX_BAG_SIZE in *.
    split_and!; [split; [lia|by right; right]| |unfold NULL_SLOT; lia]. intros ->. apply bag_place_spec in Hb. unfold NULL_BAG in *. lia.
Qed.

Lemma swap_merge_kept inv H srcbag srcslot dstbag dstslot g g2 inv' :
  sound inv H -> GetItemByPos inv srcbag srcslot = Some g -> GetItemByPos inv dstbag dstslot = Some g2 -> g <> g2 ->
  swap_merge protos srcbag srcslot dstbag dstslot inv g g2 = Some inv' -> kept inv inv' H.
Proof.
  intros Hs Hl Hl2 Hne. destruct (look_found _ _ _ _ _ _ Hs Hl) as (HgH & it & E & _).
  destruct (look_found _ _ _ _ _ _ Hs Hl2) as (Hg2H & it2 & E2 & _). destruct (found_target _ _ _ _ _ Hs Hl2) as (Ht & Hb & Hn).
  unfold swap_merge. destruct (can_move _ _ _ _ _ _) as [msg way] eqn:Em.
  assert (way = Nowhere \/ way <> Nowhere) as [->|Hw] by (destruct way; auto); [intros [= <-]; by apply kept_refl|].
  assert (forall A (a b : A), match way with Nowhere => a | _ => b end = b) as -> by (by intros; destruct way).
  destruct (Z.eqb_spec msg EQUIP_ERR_OK) as [->|]; [|done]. cbv zeta.
  assert (GetEntry inv g2 = GetEntry inv g) as Ee by (eapply merges_same; eauto).
  assert (GetMaxStackSize (GetProto protos inv g) = Stackable (template it)) as Emax.
  { unfold GetMaxStackSize, GetProto, GetEntry. by rewrite (deref_heap _ _ _ E). }
  unfold GetEntry, GetCount in *. rewrite Emax, ?(deref_heap _ _ _ E), ?(deref_heap _ _ _ E2) in *.
  pose proof (s_item _ _ _ Hs _ _ E) as [Hp Hc _ _]. pose proof (s_item _ _ _ Hs _ _ E2) as [Hp2 Hc2 _ _].
  pose proof (sane_templates _ _ Hp) as [Hst _]. pose proof (sane_templates _ _ Hp2) as [Hst2 _].
  rewrite u32_small by lia. destruct (Z.leb_spec (i_count it + i_count it2) (Stackable (template it))) as [_|Hlt]; intros [= <-].
  - apply offhand_after. by eapply move_kept.
  - by apply pour_kept.
Qed.
End Run.
