(* ===== verification/InventorySwap.v ===== *)
(** * InventorySwap: SwapItem exchanges two items

    The part of SwapItem where both positions hold an item that does not
    merge: each goes to the place of the other. *)
From S2P Require Import Prelude Inventory InventoryMoves InventorySound InventoryPlaces InventoryStore InventoryFits InventoryEquip InventoryRun.

Section Swap.
Context (protos : Z -> option ItemPrototype) `{Sane : !SaneTemplates protos}.
Implicit Types (inv : Inventory) (H W : gset Z).
Abbreviation sound := (sound protos).
Abbreviation template := (template protos).
Abbreviation is_bag := (is_bag protos).
Abbreviation kept := (kept protos).
Abbreviation can_go := (can_go protos).

(** ** A way after another was gone *)

Definition goes_to (way : Way) (b s : Z) : Prop := (exists n, way = Slots [(pos_of b s, n)]) \/ way = Equip (pos_of b s).

(** What going to a place leaves alone: all else, or, for a bag with
    contents, all other slots of the character. *)
Lemma go_spares inv H g it way b s :
  sound inv H -> g ∈ H -> heap inv !! g = Some it -> can_go inv ∅ it way -> goes_to way b s -> 0 <= s < 256 ->
  spared inv (move_to protos inv way g) [pos_of b s] \/
  (i_bagslot it <> ∅ /\ b = 255 /\ forall s', s' <> s -> m_items (move_to protos inv way g) !! s' = m_items inv !! s').
Proof.
  intros Hs HgH E Hgo Hto Hs8. destruct Hgo as [dest [Hf Hsum Hemp] Hne|e He Hb Hv].
  - left. destruct Hto as [[n [= ->]]|[=]]. exact (gn_spared _ _ _ _ _ _ _ _ (StoreItem_gained protos H g it _ Hne HgH Hemp inv (Some g) Hs E Hf)).
  - destruct Hto as [[n [=]]|[= Hpos]]. apply pos_of_inj in Hpos as [<- <-]; [|lia|lia].
    assert (Hfree : m_items inv !! e = None). { destruct (m_items inv !! e) as [k|] eqn:Ek; [|done]. specialize (Hv _ eq_refl). set_solver. }
    destruct (equip_arrives protos inv H g it e Hs HgH E He Hb Hfree) as [Hd _]. destruct (decide (i_bagslot it = ∅)) as [Hemp|Hne].
    + left. by apply (pd_spared _ _ _ _ _ _ _ _ Hd).
    + right. split_and!; [done|done|]. intros s'. by apply (pd_main _ _ _ _ _ _ _ _ Hd).
Qed.

Lemma go_after inv H g it it2 way1 way2 b1 s1 b2 s2 :
  sound inv H -> g ∈ H -> heap inv !! g = Some it -> can_go inv ∅ it way1 -> goes_to way1 b1 s1 -> 0 <= s1 < 256 ->
  can_go inv ∅ it2 way2 -> goes_to way2 b2 s2 -> 0 <= s2 < 256 -> pos_of b2 s2 <> pos_of b1 s1 ->
  GetItemByPos inv b2 s2 = None -> (i_bagslot it <> ∅ -> b2 = 255) ->
  can_go (move_to protos inv way1 g) ∅ it2 way2.
Proof.
  intros Hs HgH E Hgo1 Hto1 Hs1 Hgo2 Hto2 Hs2 Hne Hnone Hfull.
  destruct (go_spares inv H g it way1 b1 s1 Hs HgH E Hgo1 Hto1 Hs1) as [Hsp|(Hne1 & -> & Hm)].
  - destruct Hgo2 as [dest [[Hnd Hf] Hsum Hemp] Hd|e He Hb Hv].
    + destruct Hto2 as [[n [= ->]]|[=]]. constructor; [|done]. split; [|done|done]. split; [done|].
      apply Forall_cons in Hf as [Hf _]. constructor; [|constructor]. apply (spot_spared _ inv _ _ _ _ _ Hsp); [cbn; set_solver|exact Hf].
    + destruct Hto2 as [[n [=]]|[= Hpos]]. constructor; [done|done|]. intros k Hk. apply Hv.
      rewrite <- look_main in Hk |- * by (by apply equip_own). rewrite <- Hk. symmetry. apply (sd_look _ _ _ Hsp); [lia|].
      rewrite Hpos. set_solver.
  - rewrite (Hfull Hne1) in *. assert (Hs12 : s2 <> s1) by (intros ->; done). destruct Hgo2 as [dest [[Hnd Hf] Hsum Hemp] Hd|e He Hb Hv].
    + destruct Hto2 as [[n [= ->]]|[=]]. constructor; [|done]. split; [|done|done]. split; [done|].
      apply Forall_cons in Hf as [(b & s & Epos & [Hu Hb8 Hc Hbag Hr]) _]. constructor; [|constructor]. exists b, s. split; [done|].
      cbn [fst] in Epos. apply pos_of_inj in Epos as [<- <-]; [|done|done]. destruct Hu as [_ Ho|bg Hbp]; [|by apply not_bag_place_255 in Hbp].
      split; [by constructor|done|done|done|]. intros k Hk _. rewrite look_main, Hm, <- (look_main inv), Hnone in Hk by done. done.
    + destruct Hto2 as [[n [=]]|[= Hpos]]. apply pos_of_inj in Hpos as [_ ->]; [|lia|done]. constructor; [done|done|]. intros k Hk. apply Hv. by rewrite Hm in Hk.
Qed.

(** ** The contents of bags are never exchanged *)

(** An item with contents only goes to another place for bags. *)
Lemma go_empty inv W it way b s :
  can_go inv W it way -> goes_to way b s -> 0 <= s < 256 -> is_bag it -> IsBagPos b s = false -> i_bagslot it = ∅.
Proof.
  intros [dest [_ _ Hemp] _|e He Hb _] Hto Hs Hbag Hp; [done|]. destruct Hto as [[n [=]]|[= Hpos]]. apply pos_of_inj in Hpos as [<- <-]; [|lia|done].
  unfold IsBagPos in Hp. change (255 =? INVENTORY_SLOT_BAG_0) with true in Hp. cbn [andb] in Hp.
  pose proof (proj2 Hb Hbag) as Hpl. unfold bag_place in Hpl. destruct (is_bag_slot e); [done|]. by rewrite Hp in Hpl.
Qed.

Lemma bag_looks_empty inv b i : i_bagslot (deref inv b) = ∅ -> Bag_GetItemByPos inv b i = None.
Proof. intros E. unfold Bag_GetItemByPos. rewrite E, lookup_empty. by destruct (_ <? _). Qed.
Lemma omap_empty {A B} (f : A -> option B) l : (forall x, f x = None) -> omap f l = [].
Proof. intros Hf. induction l as [|x l IH]; [done|]. cbn. by rewrite Hf. Qed.
Lemma exchange_loop_empty inv full empty n l : i_bagslot (deref inv full) = ∅ -> exchange_loop inv full empty n l = inv.
Proof. intros E. induction l as [|i l IH]; [done|]. cbn. by rewrite bag_looks_empty. Qed.
Lemma exchange_empty inv H empty full it :
  sound inv H -> heap inv !! empty = Some it -> i_bagslot (deref inv full) = ∅ -> exchange_contents protos inv empty full = (EQUIP_ERR_OK, inv).
Proof.
  intros Hs E Hf. unfold exchange_contents. rewrite (omap_empty (Bag_GetItemByPos inv full)) by (intros; by apply bag_looks_empty).
  cbn [forallb negb length]. change (Z.of_nat 0) with 0. pose proof (s_item _ _ _ Hs _ _ E) as [Hp _ _ Hsz].
  pose proof (sane_templates _ _ Hp) as [_ Hc]. rewrite (proj2 (Z.ltb_ge (GetBagSize inv empty) 0)).
  - by rewrite exchange_loop_empty.
  - unfold GetBagSize. rewrite (deref_heap _ _ _ E), Hsz. destruct (_ =? _); lia.
Qed.

Lemma swap_contents_same inv H sb ss db ds g g2 W W2 way way2 :
  sound inv H -> GetItemByPos inv sb ss = Some g -> GetItemByPos inv db ds = Some g2 ->
  can_go inv W (deref inv g) way -> goes_to way db ds -> can_go inv W2 (deref inv g2) way2 -> goes_to way2 sb ss ->
  swap_contents protos sb ss db ds inv g g2 = (EQUIP_ERR_OK, inv).
Proof.
  intros Hs Hl Hl2 Hgo Hto Hgo2 Hto2. unfold swap_contents. destruct (look_found _ _ _ _ _ _ Hs Hl) as (_ & it & E & _).
  destruct (look_found _ _ _ _ _ _ Hs Hl2) as (_ & it2 & E2 & _).
  destruct (found_target protos inv H sb ss g Hs Hl) as ([Hs8 _] & _). destruct (found_target protos inv H db ds g2 Hs Hl2) as ([Hs82 _] & _).
  destruct (IsBag protos inv g && IsBag protos inv g2) eqn:Eb; [|done]. apply andb_true_iff in Eb as [Eb%Z.eqb_eq Eb2%Z.eqb_eq].
  unfold GetProto, GetEntry in Eb, Eb2.
  destruct (IsEmpty inv g && negb (IsBagPos sb ss)) eqn:C1; [|destruct (IsEmpty inv g2 && negb (IsBagPos db ds)) eqn:C2; [|done]].
  - apply andb_true_iff in C1 as [_ C1%negb_true_iff]. eapply exchange_empty; [exact Hs|exact E|]. by eapply go_empty.
  - apply andb_true_iff in C2 as [_ C2%negb_true_iff]. eapply exchange_empty; [exact Hs|exact E2|]. by eapply go_empty.
Qed.

(** ** Both items change places *)

Lemma can_swap_to_ok inv b s g way :
  can_swap_to protos inv b s g = (EQUIP_ERR_OK, way) -> can_move protos inv b s g true = (EQUIP_ERR_OK, way).
Proof.
  unfold can_swap_to. destruct (can_move _ _ _ _ _ _) as [msg w]. destruct w; try done.
  destruct (Z.eqb_spec msg EQUIP_ERR_OK) as [->|Hne]; intros [= ? <-]; [done|by subst].
Qed.
Lemma if_or (a b : bool) : (if a then true else b) = a || b.
Proof. done. Qed.
Lemma found_somewhere inv H b s g :
  sound inv H -> GetItemByPos inv b s = Some g -> IsInventoryPos b s || IsBankPos b s || IsEquipmentPos b s = true.
Proof.
  intros Hs Hl. destruct (look_found _ _ _ _ _ _ Hs Hl) as (_ & it & _ & _ & _ & [-> _ Ho _ _|bg bag Hb _ _ _ _ _ _ _ _ _]).
  - unfold IsInventoryPos, IsBankPos, IsEquipmentPos. change (255 =? INVENTORY_SLOT_BAG_0) with true. cbn [andb].
    unfold is_bag_slot, is_bank_bag_slot, own_slot, EQUIPMENT_SLOT_END, INVENTORY_SLOT_BAG_START, INVENTORY_SLOT_BAG_END, INVENTORY_SLOT_ITEM_START,
      INVENTORY_SLOT_ITEM_END, BANK_SLOT_ITEM_START, BANK_SLOT_ITEM_END, BANK_SLOT_BAG_START, BANK_SLOT_BAG_END, KEYRING_SLOT_START, KEYRING_SLOT_END in *.
    rewrite !if_or. lia.
  - unfold IsInventoryPos, IsBankPos. unfold bag_place in Hb. destruct (is_bag_slot b); [by repeat case_match|].
    cbn [orb] in Hb. rewrite Hb. rewrite orb_true_iff. left. rewrite orb_true_iff. right. by repeat case_match.
Qed.
Lemma swap_way inv H b s g g2 it way :
  sound inv H -> heap inv !! g = Some it -> GetItemByPos inv b s = Some g2 -> can_swap_to protos inv b s g = (EQUIP_ERR_OK, way) ->
  can_go inv ({[g]} ∪ {[g2]}) it way /\ goes_to way b s.
Proof.
  intros Hs E Hl Hc%can_swap_to_ok. destruct (found_target protos inv H b s g2 Hs Hl) as (Ht & Hb & Hn).
  assert (way <> Nowhere) as Hw.
  { pose proof (can_move_somewhere protos inv b s g true (found_somewhere _ _ _ _ _ Hs Hl)) as Hw. by rewrite Hc in Hw. }
  destruct (can_move_go protos inv H g it b s true way Hs E Ht Hc Hw) as [Hgo Hto]. split.
  - unfold leaves, there in Hgo. rewrite (proj2 (Z.eqb_neq _ _) Hb), (proj2 (Z.eqb_neq _ _) Hn), Hl in Hgo. exact Hgo.
  - destruct (Hto eq_refl Hb Hn) as [->| ->]; [left; by eexists|by right].
Qed.

(** A bag and what is in it do not change places. *)
Lemma not_inside inv H sb ss db ds g g2 it2 W way2 :
  sound inv H -> GetItemByPos inv sb ss = Some g -> GetItemByPos inv db ds = Some g2 -> heap inv !! g2 = Some it2 ->
  can_go inv W it2 way2 -> goes_to way2 sb ss -> usable inv {[g2]} sb ss.
Proof.
  intros Hs Hl Hl2 E2 Hgo Hto. destruct (look_found _ _ _ _ _ _ Hs Hl) as (_ & it & E & _ & _ & [-> _ Ho _ _|bg bag Hb Hm Eb Hj _ _ Hr _ _ _]); [by constructor|].
  destruct (bag_size protos inv H sb bg Hs Hb Hm) as (bag' & Eb' & _ & _ & _ & _ & Hsz & _ & Hmax). simplify_eq. unfold MAX_BAG_SIZE in *.
  apply (usable_held _ _ _ _ bg); [done|done| |by rewrite Hsz]. intros ->%elem_of_singleton. simplify_eq.
  destruct Hgo as [dest [_ _ Hemp] _|e He _ _]; [by rewrite Hemp, lookup_empty in Hj|]. destruct Hto as [[n [=]]|[= Hpos]].
  apply pos_of_inj in Hpos as [<- _]; [|lia|lia]. by apply not_bag_place_255 in Hb.
Qed.

(** A bag that was empty still is. *)
Lemma lifted_empty inv inv1 H H1 V b s g it it1 :
  sound inv H -> sound inv1 H1 -> lifted inv inv1 V -> GetItemByPos inv1 b s = Some g -> heap inv !! g = Some it -> heap inv1 !! g = Some it1 ->
  i_bagslot it = ∅ -> i_bagslot it1 = ∅.
Proof.
  intros Hs Hs1 Hli Hl E E1 Hemp. destruct (decide (i_bagslot it1 = ∅)) as [|Hne]; [done|]. exfalso.
  destruct (full_in_bag_place protos inv1 H1 b s g it1 Hs1 Hl E1 Hne) as [-> Hp]. pose proof (bag_place_own _ Hp) as Ho.
  pose proof (li_back _ _ _ Hli _ _ _ Hl) as Hl0. rewrite look_main in Hl, Hl0 by done.
  destruct (map_choose _ Hne) as (j & k & Hk). destruct (s_held _ _ _ Hs1 _ _ _ _ E1 Hk) as [_ (kt & _ & [_ _ Hr _ _])].
  assert (Hj : GetItemByPos inv1 s j = Some k).
  { rewrite look_bag, Hl by done. cbn. unfold Bag_GetItemByPos, GetBagSize. rewrite (deref_heap _ _ _ E1). by rewrite (proj2 (Z.ltb_lt _ _)) by lia. }
  apply (li_back _ _ _ Hli) in Hj. rewrite look_bag, Hl0 in Hj by done. cbn in Hj. unfold Bag_GetItemByPos in Hj.
  rewrite (deref_heap _ _ _ E), Hemp, lookup_empty in Hj. by destruct (_ <? _).
Qed.

(** Both taken out, in the order of the code. *)
Record both_taken inv inv2 H g g2 (it it2 : Item) : Prop := {
  bt_sound : sound inv2 ({[g]} ∪ ({[g2]} ∪ H));
  bt_item : exists it', heap inv2 !! g = Some it' /\ sheds it it';
  bt_item2 : exists it', heap inv2 !! g2 = Some it' /\ sheds it2 it';
  bt_amount : forall e, amount e inv2 ({[g]} ∪ ({[g2]} ∪ H)) = amount e inv H - weight e it2 - weight e it;
  bt_lifted : lifted inv inv2 ({[g]} ∪ {[g2]});
  bt_out : inv_out inv2 = inv_out inv;
  bt_char : inv_char inv2 = inv_char inv
}.
Lemma take_both inv H sb ss db ds g g2 :
  sound inv H -> GetItemByPos inv sb ss = Some g -> GetItemByPos inv db ds = Some g2 -> g <> g2 -> usable inv {[g2]} sb ss ->
  both_taken inv (RemoveItem (RemoveItem inv db ds) sb ss) H g g2 (deref inv g) (deref inv g2).
Proof.
  intros Hs Hl Hl2 Hne Hu. destruct (look_found _ _ _ _ _ _ Hs Hl) as (HgH & it & E & _).
  pose proof (RemoveItem_removed protos inv H db ds g2 Hs Hl2) as [A1 A2 A3 A4 A5 A6 A7]. set (inv1 := RemoveItem inv db ds) in *.
  assert (Hl1 : GetItemByPos inv1 sb ss = Some g).
  { apply (li_forth _ _ _ (A4 {[g2]} ltac:(set_solver))); [done|done|set_solver]. }
  pose proof (RemoveItem_removed protos inv1 ({[g2]} ∪ H) sb ss g A1 Hl1) as [B1 B2 B3 B4 B5 B6 B7].
  destruct (li_keeps _ _ _ (A4 {[g2]} ltac:(set_solver)) g ltac:(set_solver) ltac:(by exists it)) as ([it1 E1] & Ee & Ec & _).
  unfold GetEntry, GetCount in *. split.
  - done.
  - destruct B2 as (it' & E' & Hsame). exists it'. split; [done|]. eapply sheds_trans; [|exact (same_sheds _ _ Hsame)]. split; [done|done|].
    rewrite (deref_heap _ _ _ E), (deref_heap _ _ _ E1). by apply (lifted_empty inv inv1 H _ {[g2]} sb ss g it it1 Hs A1 (A4 {[g2]} ltac:(set_solver))).
  - destruct A2 as (it' & E' & Hsame). exists it'. rewrite B5 by set_solver. split; [done|]. by apply same_sheds.
  - intros e. rewrite B3, A3. unfold weight. by rewrite Ee, Ec.
  - apply (lifted_trans protos inv inv1 _ H); [done|apply A4; set_solver|apply B4; set_solver].
  - by rewrite B6.
  - by rewrite B7.
Qed.

Lemma exchange_kept inv H sb ss db ds g g2 way way2 :
  sound inv H -> GetItemByPos inv sb ss = Some g -> GetItemByPos inv db ds = Some g2 -> g <> g2 ->
  can_go inv ({[g]} ∪ {[g2]}) (deref inv g) way -> goes_to way db ds ->
  can_go inv ({[g2]} ∪ {[g]}) (deref inv g2) way2 -> goes_to way2 sb ss ->
  kept inv (move_to protos (move_to protos (RemoveItem (RemoveItem inv db ds) sb ss) way g) way2 g2) H.
Proof.
  intros Hs Hl Hl2 Hne Hgo Hto Hgo2 Hto2. destruct (look_found _ _ _ _ _ _ Hs Hl) as (HgH & it & E & _).
  destruct (look_found _ _ _ _ _ _ Hs Hl2) as (Hg2H & it2 & E2 & _).
  destruct (found_target protos inv H sb ss g Hs Hl) as ([Hs8 _] & _). destruct (found_target protos inv H db ds g2 Hs Hl2) as ([Hs82 _] & _).
  pose proof (not_inside inv H sb ss db ds g g2 _ _ _ Hs Hl Hl2 E2 ltac:(by rewrite <- (deref_heap _ _ _ E2)) Hto2) as Hu.
  destruct (take_both inv H sb ss db ds g g2 Hs Hl Hl2 Hne Hu) as [B1 (it' & E' & Hsh) (it2' & E2' & Hsh2) B4 B5 B6 B7].
  set (inv2 := RemoveItem (RemoveItem inv db ds) sb ss) in *. set (H2 := {[g]} ∪ ({[g2]} ∪ H)) in *.
  assert (Hgo' : can_go inv2 ∅ it' way) by (eapply (can_go_lifted protos inv inv2 H H2); [exact Hs|exact B5|set_solver|exact B1|exact Hsh|exact Hgo]).
  rewrite (union_comm_L {[g2]}) in Hgo2.
  assert (Hgo2' : can_go inv2 ∅ it2' way2) by (eapply (can_go_lifted protos inv inv2 H H2); [exact Hs|exact B5|set_solver|exact B1|exact Hsh2|exact Hgo2]).
  pose proof (go_arrives protos inv2 H2 g it' way B1 ltac:(set_solver) E' Hgo') as [C1 C2 C3 (os & C4 & C5) C6].
  assert (Hgo3 : can_go (move_to protos inv2 way g) ∅ it2' way2).
  { apply (go_after inv2 H2 g it' it2' way way2 db ds sb ss); auto; [set_solver| | |].
    - intros Hpos. apply Hne. apply pos_of_inj in Hpos as [-> ->]; [|done|done]. congruence.
    - destruct (GetItemByPos inv2 sb ss) as [k|] eqn:Hk; [|done]. exfalso. destruct (look_found _ _ _ _ _ _ B1 Hk) as [HkH _].
      apply (li_back _ _ _ B5) in Hk. rewrite Hl in Hk. set_solver.
    - intros Hfull. destruct (full_in_bag_place protos inv H sb ss g it Hs Hl E) as [-> _]; [|done]. intros Hemp. apply Hfull.
      rewrite (deref_heap _ _ _ E) in Hsh. by apply (sh_bagslot _ _ Hsh). }
  set (inv3 := move_to protos inv2 way g) in *. assert (g2 ∈ H2 ∖ {[g]}) as Hg23 by set_solver.
  pose proof (go_arrives protos inv3 _ g2 it2' way2 C1 Hg23 ltac:(by rewrite C3) Hgo3) as [D1 D2 D3 (os' & D4 & D5) D6].
  assert ((H2 ∖ {[g]}) ∖ {[g2]} = H) as EH by (apply set_eq; set_solver). rewrite EH in D1, D2. split; [done|].
  intros e. unfold total. rewrite D2, C2, B4, D4, C4, B6, !mailed_app, (mailed_none _ _ C5), (mailed_none _ _ D5). unfold weight.
  rewrite (sh_entry _ _ Hsh), (sh_count _ _ Hsh), (sh_entry _ _ Hsh2), (sh_count _ _ Hsh2). lia.
Qed.

Lemma swap_real_kept inv H sb ss db ds g g2 :
  sound inv H -> GetItemByPos inv sb ss = Some g -> GetItemByPos inv db ds = Some g2 -> g <> g2 ->
  kept inv (swap_real protos sb ss db ds inv g g2) H.
Proof.
  intros Hs Hl Hl2 Hne. destruct (look_found _ _ _ _ _ _ Hs Hl) as (HgH & it & E & _). destruct (look_found _ _ _ _ _ _ Hs Hl2) as (Hg2H & it2 & E2 & _).
  unfold swap_real. destruct (can_swap_to _ _ _ _ _) as [msg way] eqn:Em. destruct (Z.eqb_spec msg EQUIP_ERR_OK) as [->|]; cbn [negb]; [|by apply kept_emit].
  destruct (can_swap_to protos inv sb ss g2) as [msg2 way2] eqn:Em2. destruct (Z.eqb_spec msg2 EQUIP_ERR_OK) as [->|]; cbn [negb]; [|by apply kept_emit].
  destruct (swap_way inv H db ds g g2 it way Hs E Hl2 Em) as [Hgo Hto]. destruct (swap_way inv H sb ss g2 g it2 way2 Hs E2 Hl Em2) as [Hgo2 Hto2].
  rewrite <- (deref_heap _ _ _ E) in Hgo. rewrite <- (deref_heap _ _ _ E2) in Hgo2.
  erewrite swap_contents_same by eauto. cbn [negb]. change (EQUIP_ERR_OK =? EQUIP_ERR_OK) with true. cbn [negb].
  eapply kept_then; [exact (exchange_kept inv H sb ss db ds g g2 way way2 Hs Hl Hl2 Hne Hgo Hto Hgo2 Hto2)|]. intros Hs'. eapply kept_then; [|intros; by apply AutoUnequipOffhandIfNeed_kept].
  unfold release_loot. destruct (_ && _); [by apply kept_emit|by apply kept_refl].
Qed.

Lemma swap_refused_kept inv H sb ss db ds g o inv' :
  sound inv H -> swap_refused protos sb ss db ds inv g o = Some inv' -> kept inv inv' H.
Proof.
  intros Hs. unfold swap_refused. repeat case_match; intros; simplify_eq; repeat (apply emit_kept; [done|]); by apply kept_refl.
Qed.

(** SwapItem, for two positions that differ. *)
Lemma SwapItem_kept inv H sb ss db ds :
  sound inv H -> 0 <= ss < 256 -> target db ds -> pos_of sb ss <> pos_of db ds ->
  kept inv (SwapItem protos inv (pos_of sb ss) (pos_of db ds)) H.
Proof.
  intros Hs Hs8 Ht Hne. unfold SwapItem. rewrite !pos_of_div, !pos_of_mod by (done || apply Ht). unfold swap_items.
  destruct (GetItemByPos inv sb ss) as [g|] eqn:Hl; [|by apply kept_refl].
  destruct (swap_refused _ _ _ _ _ _ _ _) as [inv'|] eqn:Hr; [by eapply swap_refused_kept|].
  destruct (GetItemByPos inv db ds) as [g2|] eqn:Hl2; [|by apply swap_move_kept].
  assert (g <> g2) as Hgg. { intros ->. destruct (look_inj _ _ _ _ _ _ _ _ Hs Hl Hl2) as [-> ->]. done. }
  destruct (if _ : bool then swap_merge _ _ _ _ _ _ _ _ else None) as [inv'|] eqn:Hm; [|exact (swap_real_kept inv H sb ss db ds g g2 Hs Hl Hl2 Hgg)].
  destruct (_ && _) in Hm; [|done]. exact (swap_merge_kept protos inv H sb ss db ds g g2 inv' Hs Hl Hl2 Hgg Hm).
Qed.
End Swap.
