(* ===== verification/InventoryPackets.v ===== *)
(** * InventoryPackets: the packets that move items

    SplitItem, the automatic stores and the bank; then any sequence of the
    packets that move items ([run]): the invariant holds after it and nothing
    is gained or lost, but for what a split to no bag takes out of sight. *)
From S2P Require Import Prelude Inventory InventoryMoves InventorySound InventoryPlaces InventoryStore InventoryFits InventoryEquip InventoryRun InventorySwap.

Section Packets.
Context (protos : Z -> option ItemPrototype) `{Sane : !SaneTemplates protos}.
Implicit Types (inv : Inventory) (H W : gset Z).
Abbreviation sound := (sound protos).
Abbreviation template := (template protos).
Abbreviation kept := (kept protos).
Abbreviation can_go := (can_go protos).

(** ** SplitItem *)

Lemma lifted_refl inv V : lifted inv inv V.
Proof. split; [done|done|]. intros g _ Hg. done. Qed.
Lemma can_go_hand inv H W it way : sound inv H -> W ⊆ H -> can_go inv W it way -> can_go inv ∅ it way.
Proof. intros Hs Hw. apply (can_go_lifted protos inv inv H H W); [done|apply lifted_refl|done|done|done]. Qed.

(** The new item and the rest of the stack. *)
Record split inv inv2 H src new n (it : Item) : Prop := {
  sp_sound : sound inv2 ({[new]} ∪ H);
  sp_new : new ∉ H /\ new <> src;
  sp_src : heap inv2 !! src = Some (SetCount (i_count it - n) it);
  sp_item : exists it', heap inv2 !! new = Some it' /\ i_entry it' = i_entry it /\ i_count it' = n /\ i_bagslot it' = ∅;
  sp_amount : forall e, amount e inv2 ({[new]} ∪ H) = amount e inv H - (if i_entry it =? e then n else 0);
  sp_out : inv_out inv2 = inv_out inv
}.
Lemma split_made inv inv1 H src new n it :
  sound inv H -> src ∉ H -> heap inv !! src = Some it -> 1 <= n < i_count it -> created protos inv inv1 H new (i_entry it) n ->
  split inv (upd src (fun it => SetCount (u32 (i_count it - n)) it) inv1) H src new n it.
Proof.
  intros Hs Hsrc E Hn [Hg C1 (it' & E' & Ee & Ec & Eb) C3 C4 C5 C6 C7 C8]. pose proof (s_item _ _ _ Hs _ _ E) as [Hp Hc Hgn _].
  pose proof (sane_templates _ _ Hp) as [Hst _]. assert (new <> src) as Hne by lia.
  assert (new ∉ H) as HnH. { intros Hin. pose proof (s_hand _ _ _ Hs _ Hin). lia. }
  assert (E1 : heap inv1 !! src = Some it) by (by rewrite C5). assert (u32 (i_count it - n) = i_count it - n) as Hu by (apply u32_small; lia).
  split.
  - apply sound_upd; [done|]. intros it0. rewrite E1. intros [= <-]. split; try done. cbn. rewrite Hu. lia.
  - done.
  - by rewrite upd_lookup, decide_True, E1; cbn; rewrite ?Hu.
  - exists it'. by rewrite upd_lookup, decide_False.
  - intros e. rewrite (amount_upd_out _ _ _ _ _ it) by (done || set_solver). rewrite C3. unfold weight. cbn. rewrite Hu. destruct (_ =? e); lia.
  - done.
Qed.

(** A split that is refused is undone. *)
Lemma split_undone inv inv2 H src new n it :
  sound inv H -> src ∉ H -> heap inv !! src = Some it -> 1 <= n < i_count it -> split inv inv2 H src new n it ->
  kept inv (upd src (fun it => SetCount (u32 (i_count it + n)) it) (delete_item new inv2)) H.
Proof.
  intros Hs Hsrc E Hn [S1 [S2 S3] S4 (it' & E' & Ee & Ec & Eb) S6 S7]. pose proof (s_item _ _ _ Hs _ _ E) as [Hp Hc Hgn _].
  pose proof (sane_templates _ _ Hp) as [Hst _]. assert (({[new]} ∪ H) ∖ {[new]} = H) as EH by (apply set_eq; set_solver).
  assert (Hd : sound (delete_item new inv2) H).
  { rewrite <- EH. apply sound_forget; [|apply lookup_delete_eq]. apply sound_drop; [done|set_solver|]. intros it0. rewrite E'. by intros [= <-]. }
  assert (Es : heap (delete_item new inv2) !! src = Some (SetCount (i_count it - n) it)) by (cbn; by rewrite lookup_delete_ne).
  assert (u32 (i_count it - n + n) = i_count it) as Hu by (rewrite u32_small; lia). split.
  - apply sound_upd; [done|]. intros it0. rewrite Es. intros [= <-]. split; try done. cbn [i_count SetCount]. rewrite Hu. exact Hc.
  - intros e. unfold total. change (inv_out (upd src _ _)) with (inv_out inv2). rewrite S7. f_equal.
    rewrite (amount_upd_out _ _ _ _ _ _ Hsrc Es). rewrite <- EH at 1. unfold amount at 1. change (heap (delete_item new inv2)) with (delete new (heap inv2)).
    rewrite (hsum_gone (weight e)) by set_solver. specialize (S6 e). unfold amount at 1 in S6. rewrite S6. unfold weight. cbn [i_count i_entry SetCount].
    rewrite Hu. destruct (_ =? e); lia.
Qed.

(** Items stay in their slots, those in the hand too, and the amounts with
    what is mailed add up. *)
Record kept_but inv inv' H H' : Prop := {
  kb_sound : sound inv' H';
  kb_hand : H ⊆ H';
  kb_total : forall e, total e inv' H' = total e inv H
}.
Lemma kept_all inv inv' H : kept inv inv' H -> kept_but inv inv' H H.
Proof. by intros []. Qed.

Lemma SplitItem_kept inv H sb ss db ds n :
  sound inv H -> 0 <= ss < 256 -> target db ds -> 1 <= n ->
  exists H', kept_but inv (SplitItem protos inv (pos_of sb ss) (pos_of db ds) n) H H' /\
    (IsInventoryPos db ds || IsBankPos db ds || IsEquipmentPos db ds = true -> H' = H).
Proof.
  intros Hs Hs8 Ht Hn. unfold SplitItem. rewrite !pos_of_div, !pos_of_mod by (done || apply Ht).
  assert (Hemit : forall o, match o with ItemMailed _ _ => False | _ => True end -> exists H', kept_but inv (emit o inv) H H' /\
     (IsInventoryPos db ds || IsBankPos db ds || IsEquipmentPos db ds = true -> H' = H)).
  { intros o Ho. exists H. split; [|done]. by apply kept_all, kept_emit. }
  destruct (GetItemByPos inv sb ss) as [g|] eqn:Hl; [|by apply Hemit].
  destruct (look_found _ _ _ _ _ _ Hs Hl) as (HgH & it & E & _). unfold GetCount. rewrite (deref_heap _ _ _ E).
  destruct (i_generatedLoot it); [by apply Hemit|]. destruct (Z.eqb_spec (i_count it) n) as [|Hne].
  { exists H. split; [|done]. apply kept_all, emit_kept; [done|]. by apply kept_emit. }
  destruct (Z.ltb_spec (i_count it) n) as [|Hle].
  { exists H. split; [|done]. apply kept_all, emit_kept; [done|]. by apply kept_emit. }
  destruct (existsb _ _); [by apply Hemit|]. pose proof (io_count _ _ _ _ (s_item _ _ _ Hs _ _ E)) as Hc.
  destruct (CloneItem_created protos inv H g n it Hs E ltac:(lia)) as (new & inv1 & -> & Hcr).
  destruct (IsInventoryPos db ds || IsBankPos db ds || IsEquipmentPos db ds) eqn:Ep.
  - exists H. split; [|done]. apply kept_all. pose proof (split_made inv inv1 H g new n it Hs HgH E ltac:(lia) Hcr) as Hsp.
    set (inv2 := upd g _ inv1) in *. destruct (sp_item _ _ _ _ _ _ _ Hsp) as (it' & E' & Ee & Ec & Eb).
    pose proof (can_move_somewhere protos inv2 db ds new false Ep) as Hw.
    destruct (can_move protos inv2 db ds new false) as [msg way] eqn:Em. destruct (Z.eqb_spec msg EQUIP_ERR_OK) as [->|_]; cbn [negb].
    + apply offhand_after; [done|]. destruct (can_move_go protos inv2 _ new it' db ds false way (sp_sound _ _ _ _ _ _ _ Hsp) E' Ht Em Hw) as [Hgo _].
      rewrite leaves_no_swap in Hgo by auto. apply (can_go_hand _ ({[new]} ∪ H)) in Hgo; [|apply Hsp|set_solver].
      destruct (go_arrives protos inv2 _ new it' way (sp_sound _ _ _ _ _ _ _ Hsp) ltac:(set_solver) E' Hgo) as [A1 A2 A3 (os & A4 & A5) A6].
      assert (({[new]} ∪ H) ∖ {[new]} = H) as EH by (destruct (sp_new _ _ _ _ _ _ _ Hsp); apply set_eq; set_solver). rewrite EH in *. split; [done|].
      intros e. unfold total. rewrite A2, (sp_amount _ _ _ _ _ _ _ Hsp), A4, (sp_out _ _ _ _ _ _ _ Hsp), mailed_app, (mailed_none _ _ A5).
      unfold weight. rewrite Ee, Ec. lia.
    + apply emit_kept; [done|]. eapply (split_undone _ _ _ _ new _ it); [done|done|done|lia|done].
  - exists ({[new]} ∪ H). split; [|done]. destruct Hcr as [Hg C1 _ C3 C4 C5 C6 C7 C8]. split; [done|set_solver|]. intros e. unfold total. by rewrite C3, C7.
Qed.

(** ** Items that find their own place *)

Lemma bank_anywhere_go inv H g it dest :
  sound inv H -> heap inv !! g = Some it -> CanBankItem protos inv NULL_BAG NULL_SLOT [] g false true = (EQUIP_ERR_OK, dest) ->
  can_go inv {[g]} it (Slots dest).
Proof.
  intros Hs E Hc. destruct (CanBankItem_fits protos inv H g it NULL_BAG NULL_SLOT false true dest Hs E ltac:(done) ltac:(by left) ltac:(done) Hc) as [Hf _].
  rewrite leaves_no_swap in Hf by auto. constructor; [done|]. eapply can_store_nonempty; [|exact Hf].
  pose proof (io_count _ _ _ _ (s_item _ _ _ Hs _ _ E)). lia.
Qed.
Lemma store_in_bag_go inv H g it bag dest :
  sound inv H -> heap inv !! g = Some it -> some_bag bag -> CanStoreItem protos inv bag NULL_SLOT [] g false = (EQUIP_ERR_OK, dest) ->
  can_go inv {[g]} it (Slots dest).
Proof.
  intros Hs E Hb Hc. destruct (CanStoreItem_fits protos inv H g it bag NULL_SLOT false dest Hs E ltac:(by split) Hc) as [Hf _].
  rewrite leaves_no_swap in Hf by auto. constructor; [done|]. eapply can_store_nonempty; [|exact Hf].
  pose proof (io_count _ _ _ _ (s_item _ _ _ Hs _ _ E)). lia.
Qed.
Lemma store_kept inv H b s g it dest :
  sound inv H -> GetItemByPos inv b s = Some g -> heap inv !! g = Some it -> can_go inv {[g]} it (Slots dest) ->
  kept inv (Store protos (RemoveItem inv b s) dest g) H.
Proof.
  intros Hs Hl E Hgo. apply (take_and_go protos inv H b s g (Slots dest)); [done|done|].
  by rewrite (deref_heap _ _ _ E).
Qed.
Lemma HandleAutoBankItem_kept inv H b s : sound inv H -> kept inv (HandleAutoBankItemOpcode protos inv b s) H.
Proof.
  intros Hs. unfold HandleAutoBankItemOpcode. destruct (GetItemByPos inv b s) as [g|] eqn:Hl; [|by apply kept_refl].
  destruct (look_found _ _ _ _ _ _ Hs Hl) as (_ & it & E & _). destruct (negb _); [by apply kept_refl|].
  destruct (CanBankItem _ _ _ _ _ _ _) as [msg dest] eqn:Hc. destruct (Z.eqb_spec msg EQUIP_ERR_OK) as [->|_]; cbn [negb]; [|by apply kept_emit].
  destruct (same_place _ _); [by apply kept_emit|]. eapply store_kept; [done|done|exact E|]. by eapply bank_anywhere_go.
Qed.
Lemma HandleAutoStoreBankItem_kept inv H b s : sound inv H -> kept inv (HandleAutoStoreBankItemOpcode protos inv b s) H.
Proof.
  intros Hs. unfold HandleAutoStoreBankItemOpcode. destruct (GetItemByPos inv b s) as [g|] eqn:Hl; [|by apply kept_refl].
  destruct (look_found _ _ _ _ _ _ Hs Hl) as (_ & it & E & _). destruct (negb _); [by apply kept_refl|]. destruct (IsBankPos b s).
  - destruct (CanStoreItem _ _ _ _ _ _ _) as [msg dest] eqn:Hc. destruct (Z.eqb_spec msg EQUIP_ERR_OK) as [->|_]; cbn [negb]; [|by apply kept_emit].
    pose proof (store_kept inv H b s g it dest Hs Hl E ltac:(by eapply store_anywhere_go)) as Hk. unfold Store in Hk.
    destruct (StoreItem _ _ _ _ _) as [[st|] inv'] eqn:Est; [|done]. by apply emit_kept.
  - destruct (CanBankItem _ _ _ _ _ _ _) as [msg dest] eqn:Hc. destruct (Z.eqb_spec msg EQUIP_ERR_OK) as [->|_]; cbn [negb]; [|by apply kept_emit].
    eapply store_kept; [done|done|exact E|]. by eapply bank_anywhere_go.
Qed.

(** ** Positions of packets *)

Lemma IsValidPos_bag inv b s e : IsValidPos inv b s e = true -> some_bag b.
Proof.
  unfold IsValidPos. destruct (Z.eqb_spec b NULL_BAG) as [->|_]; [by left|]. cbn [andb].
  destruct (Z.eqb_spec b INVENTORY_SLOT_BAG_0) as [->|_]; [by right; left|]. destruct (is_bag_slot b || is_bank_bag_slot b) eqn:Eb; [|done].
  intros _. right. right. exact Eb.
Qed.
Lemma IsValidPos_target inv b s e : IsValidPos inv b s e = true -> 0 <= s < 256 -> target b s.
Proof. intros Hv Hs. split; [done|]. by eapply IsValidPos_bag. Qed.

(** A valid position, of the character or of a bag, is one of the three kinds. *)
Lemma valid_somewhere inv b s e : IsValidPos inv b s e = true -> b <> NULL_BAG -> IsInventoryPos b s || IsBankPos b s || IsEquipmentPos b s = true.
Proof.
  unfold IsValidPos, IsInventoryPos, IsBankPos, IsEquipmentPos. intros Hv Hb. apply Z.eqb_neq in Hb. rewrite Hb in Hv. cbn [andb] in Hv.
  destruct (b =? INVENTORY_SLOT_BAG_0) eqn:E; cbn [andb].
  - destruct (s =? NULL_SLOT), (s <? EQUIPMENT_SLOT_END), (is_bag_slot s), (is_bank_bag_slot s), (is_bag_slot b), (is_bank_bag_slot b),
      ((INVENTORY_SLOT_ITEM_START <=? s) && (s <? INVENTORY_SLOT_ITEM_END)), ((KEYRING_SLOT_START <=? s) && (s <? KEYRING_SLOT_END)),
      ((BANK_SLOT_ITEM_START <=? s) && (s <? BANK_SLOT_ITEM_END)), e; done.
  - by destruct (is_bag_slot b), (is_bank_bag_slot b).
Qed.

Lemma HandleAutoStoreBagItem_kept inv H b s db : sound inv H -> kept inv (HandleAutoStoreBagItemOpcode protos inv b s db) H.
Proof.
  intros Hs. unfold HandleAutoStoreBagItemOpcode. destruct (GetItemByPos inv b s) as [g|] eqn:Hl; [|by apply kept_refl].
  destruct (look_found _ _ _ _ _ _ Hs Hl) as (_ & it & E & _). destruct (IsValidPos inv db NULL_SLOT false) eqn:Hv; cbn [negb]; [|by apply kept_emit].
  destruct (_ && _); [by apply kept_refl|]. match goal with |- context[if negb (?m =? _) then _ else _] => destruct (m =? EQUIP_ERR_OK) end; cbn [negb]; [|by apply kept_emit].
  destruct (CanStoreItem _ _ _ _ _ _ _) as [msg dest] eqn:Hc. destruct (Z.eqb_spec msg EQUIP_ERR_OK) as [->|_]; cbn [negb]; [|by apply kept_emit].
  destruct (same_place _ _); [by apply kept_emit|]. eapply store_kept; [done|done|exact E|]. eapply store_in_bag_go; [done|done| |done]. by eapply IsValidPos_bag.
Qed.

Lemma HandleSwapItem_kept inv H db ds sb ss : sound inv H -> 0 <= ss < 256 -> 0 <= ds < 256 -> kept inv (HandleSwapItem protos inv db ds sb ss) H.
Proof.
  intros Hs Hss Hds. unfold HandleSwapItem. destruct (Z.eqb_spec (pos_of sb ss) (pos_of db ds)) as [|Hne]; [by apply kept_refl|].
  destruct (IsValidPos inv sb ss true); cbn [negb]; [|by apply kept_emit]. destruct (IsValidPos inv db ds true) eqn:Hv; cbn [negb]; [|by apply kept_emit].
  destruct (_ && _); [by apply kept_refl|]. apply SwapItem_kept; auto. by eapply IsValidPos_target.
Qed.
Lemma HandleSwapInvItem_kept inv H ss ds : sound inv H -> 0 <= ss < 256 -> 0 <= ds < 256 -> kept inv (HandleSwapInvItemOpcode protos inv ss ds) H.
Proof.
  intros Hs Hss Hds. unfold HandleSwapInvItemOpcode. destruct (Z.eqb_spec ss ds) as [|Hne]; [by apply kept_refl|].
  destruct (IsValidPos inv INVENTORY_SLOT_BAG_0 ss true); cbn [negb]; [|by apply kept_emit].
  destruct (IsValidPos inv INVENTORY_SLOT_BAG_0 ds true) eqn:Hv; cbn [negb]; [|by apply kept_emit]. destruct (_ && _); [by apply kept_refl|].
  apply SwapItem_kept; auto; [by eapply IsValidPos_target|]. intros Hp. apply pos_of_inj in Hp as [_ ?]; done.
Qed.
Lemma items_at_look inv ps g : g ∈ items_at inv ps -> exists b s, GetItemByPos inv b s = Some g.
Proof. intros ([b s] & _ & Hg)%list_elem_of_omap. by exists b, s. Qed.
Lemma HandleAutoEquipItemSlot_kept inv H guid ds : sound inv H -> 0 <= ds < 256 -> kept inv (HandleAutoEquipItemSlotOpcode protos inv guid ds) H.
Proof.
  intros Hs Hds. unfold HandleAutoEquipItemSlotOpcode. destruct (IsEquipmentPos INVENTORY_SLOT_BAG_0 ds); cbn [negb]; [|by apply kept_refl].
  destruct (GetItemByGuid inv guid) as [g|] eqn:Hg; [|by apply kept_refl]. apply List.find_some in Hg as [Hin _].
  apply list_elem_of_In, items_at_look in Hin as (b & s & Hl). destruct (look_slot _ _ _ _ _ _ Hs Hl) as [Eb Es].
  unfold GetPos. rewrite Eb, Es. destruct (Z.eqb_spec (pos_of b s) (pos_of INVENTORY_SLOT_BAG_0 ds)) as [|Hne]; [by apply kept_refl|].
  destruct (found_target protos inv H b s g Hs Hl) as ([Hs8 _] & _). apply SwapItem_kept; auto. split; [done|by right; left].
Qed.
Lemma HandleSplitItem_kept inv H sb ss db ds n :
  sound inv H -> 0 <= ss < 256 -> 0 <= ds < 256 -> 0 <= n ->
  exists H', kept_but inv (HandleSplitItemOpcode protos inv sb ss db ds n) H H' /\ (db <> NULL_BAG -> H' = H).
Proof.
  intros Hs Hss Hds Hn. unfold HandleSplitItemOpcode.
  assert (Hsame : forall inv', kept inv inv' H -> exists H', kept_but inv inv' H H' /\ (db <> NULL_BAG -> H' = H)).
  { intros inv' Hk. exists H. split; [by apply kept_all|done]. }
  destruct (_ =? _); [by apply Hsame, kept_refl|]. destruct (Z.eqb_spec n 0) as [|Hn0]; [by apply Hsame, kept_refl|].
  destruct (IsValidPos inv sb ss true); cbn [negb]; [|by apply Hsame, kept_emit].
  destruct (IsValidPos inv db ds false) eqn:Hv; cbn [negb]; [|by apply Hsame, kept_emit].
  destruct (SplitItem_kept inv H sb ss db ds n Hs Hss ltac:(by eapply IsValidPos_target) ltac:(lia)) as (H' & Hk & Hsm).
  exists H'. split; [done|]. intros Hb. apply Hsm. by eapply valid_somewhere.
Qed.

(** ** Sequences of packets *)

Inductive Packet :=
| SplitItemPacket (srcbag srcslot dstbag dstslot count : Z)
| SwapInvItemPacket (srcslot dstslot : Z)
| AutoEquipItemSlotPacket (guid dstslot : Z)
| SwapItemPacket (dstbag dstslot srcbag srcslot : Z)
| AutoStoreBagItemPacket (srcbag srcslot dstbag : Z)
| AutoBankItemPacket (srcbag srcslot : Z)
| AutoStoreBankItemPacket (srcbag srcslot : Z).

Definition handle (inv : Inventory) (p : Packet) : Inventory :=
  match p with
  | SplitItemPacket srcbag srcslot dstbag dstslot count => HandleSplitItemOpcode protos inv srcbag srcslot dstbag dstslot count
  | SwapInvItemPacket srcslot dstslot => HandleSwapInvItemOpcode protos inv srcslot dstslot
  | AutoEquipItemSlotPacket guid dstslot => HandleAutoEquipItemSlotOpcode protos inv guid dstslot
  | SwapItemPacket dstbag dstslot srcbag srcslot => HandleSwapItem protos inv dstbag dstslot srcbag srcslot
  | AutoStoreBagItemPacket srcbag srcslot dstbag => HandleAutoStoreBagItemOpcode protos inv srcbag srcslot dstbag
  | AutoBankItemPacket srcbag srcslot => HandleAutoBankItemOpcode protos inv srcbag srcslot
  | AutoStoreBankItemPacket srcbag srcslot => HandleAutoStoreBankItemOpcode protos inv srcbag srcslot
  end.
Definition run (inv : Inventory) (ps : list Packet) : Inventory := fold_left handle ps inv.

Definition byte (n : Z) : bool := (0 <=? n) && (n <? 256).
(** The fields of a packet are bytes. *)
Definition bytes (p : Packet) : bool :=
  match p with
  | SplitItemPacket a b c d n => byte a && byte b && byte c && byte d && byte n
  | SwapInvItemPacket a b => byte a && byte b
  | AutoEquipItemSlotPacket _ a => byte a
  | SwapItemPacket a b c d => byte a && byte b && byte c && byte d
  | AutoStoreBagItemPacket a b c => byte a && byte b && byte c
  | AutoBankItemPacket a b => byte a && byte b
  | AutoStoreBankItemPacket a b => byte a && byte b
  end.
(** A split that names no bag. *)
Definition splits_to_no_bag (p : Packet) : bool :=
  match p with SplitItemPacket _ _ dstbag _ _ => dstbag =? NULL_BAG | _ => false end.

Lemma byte_range n : byte n = true -> 0 <= n < 256.
Proof. unfold byte. rewrite andb_true_iff, Z.leb_le, Z.ltb_lt. done. Qed.

Lemma handle_kept inv H p :
  sound inv H -> bytes p = true -> exists H', kept_but inv (handle inv p) H H' /\ (splits_to_no_bag p = false -> H' = H).
Proof.
  intros Hs Hb. assert (Hsame : forall inv', kept inv inv' H -> exists H', kept_but inv inv' H H' /\ (splits_to_no_bag p = false -> H' = H)).
  { intros inv' Hk. exists H. split; [by apply kept_all|done]. }
  destruct p; cbn [bytes] in Hb; rewrite ?andb_true_iff in Hb; destruct_and?;
    repeat match goal with E : byte _ = true |- _ => apply byte_range in E end; cbn [handle].
  - destruct (HandleSplitItem_kept inv H srcbag srcslot dstbag dstslot count) as (H' & Hk & Hn); try done; [lia|].
    exists H'. split; [done|]. intros Hz%Z.eqb_neq. auto.
  - by apply Hsame, HandleSwapInvItem_kept.
  - by apply Hsame, HandleAutoEquipItemSlot_kept.
  - by apply Hsame, HandleSwapItem_kept.
  - by apply Hsame, HandleAutoStoreBagItem_kept.
  - by apply Hsame, HandleAutoBankItem_kept.
  - by apply Hsame, HandleAutoStoreBankItem_kept.
Qed.
Lemma run_kept ps : forall inv H, sound inv H -> Forall (fun p => bytes p = true) ps ->
  exists H', kept_but inv (run inv ps) H H' /\ (Forall (fun p => splits_to_no_bag p = false) ps -> H' = H).
Proof.
  induction ps as [|p ps IH]; intros inv H Hs Hb; [exists H; split; [by split|done]|]. apply Forall_cons in Hb as [Hp Hb].
  destruct (handle_kept inv H p Hs Hp) as (H1 & [K1 K2 K3] & Hn1). destruct (IH (handle inv p) H1 K1 Hb) as (H2 & [L1 L2 L3] & Hn2).
  exists H2. split; [split; [done|set_solver|]|]; [intros e; by rewrite <- K3, <- L3|].
  intros [Hn Hns]%Forall_cons. by rewrite Hn2, Hn1.
Qed.

End Packets.
