(* ===== verification/InventoryCount.v ===== *)
(** * InventoryCount: counting the items of a character

    The loops of GetItemCount and HasItemCount visit every item of a sound
    inventory once: they compute the sum over the heap. *)
From S2P Require Import Prelude Inventory InventoryMoves InventorySound InventoryPlaces InventoryStore InventoryFits.

(** ** Sums over lists *)

Definition lsum {A} (f : A -> Z) (l : list A) : Z := foldr (fun x n => f x + n) 0 l.
Lemma lsum_app {A} (f : A -> Z) l l' : lsum f (l ++ l') = lsum f l + lsum f l'.
Proof. induction l as [|x l IH]; [done|]. unfold lsum in *. cbn. rewrite IH. lia. Qed.
Lemma lsum_cons {A} (f : A -> Z) x l : lsum f (x :: l) = f x + lsum f l.
Proof. done. Qed.
Lemma lsum_ext {A} (f f' : A -> Z) l : (forall x, x ∈ l -> f x = f' x) -> lsum f l = lsum f' l.
Proof.
  induction l as [|x l IH]; intros H; [done|]. rewrite !lsum_cons, (H x) by (by left). rewrite IH; [done|]. intros y Hy. apply H. by right.
Qed.
Lemma lsum_bounds {A} (f : A -> Z) k l : (forall x, x ∈ l -> 0 <= f x <= k) -> 0 <= lsum f l <= k * Z.of_nat (length l).
Proof.
  induction l as [|x l IH]; intros H; [unfold lsum; cbn; lia|]. rewrite lsum_cons. pose proof (H x ltac:(by left)).
  pose proof (IH ltac:(intros y Hy; apply H; by right)). cbn [length]. lia.
Qed.
#[global] Arguments lsum : simpl never.

(** The sum over a map, along a list of its keys. *)
Lemma msum_keys {A} (f : A -> Z) (m : gmap Z A) l :
  NoDup l -> (forall k, k ∈ l <-> is_Some (m !! k)) -> msum f m = lsum (fun k => from_option f 0 (m !! k)) l.
Proof.
  revert m. induction l as [|k l IH]; intros m Hnd Hk.
  - replace m with (∅ : gmap Z A); [done|]. symmetry. apply map_empty. intros k. apply eq_None_not_Some. rewrite <- Hk. apply not_elem_of_nil.
  - apply NoDup_cons in Hnd as [Hnin Hnd]. destruct (proj1 (Hk k) ltac:(by left)) as [a Ha]. rewrite (msum_delete f m k a Ha), lsum_cons, Ha. f_equal.
    rewrite (IH (delete k m) Hnd).
    + apply lsum_ext. intros j Hj. rewrite lookup_delete_ne by (intros ->; done). done.
    + intros j. rewrite lookup_delete_is_Some, <- Hk, elem_of_cons. split; [intros Hj; split; [intros ->; done|by right]|]. intros [Hne [->|]]; done.
Qed.

(** ** Positions *)

Lemma elem_of_slots x lo hi : x ∈ slots lo hi <-> lo <= x < hi.
Proof. unfold slots. rewrite elem_of_seqZ. lia. Qed.
Lemma elem_of_main_positions p lo hi : p ∈ main_positions lo hi <-> p.1 = 255 /\ lo <= p.2 < hi.
Proof.
  unfold main_positions. rewrite list_elem_of_fmap. setoid_rewrite elem_of_slots. destruct p as [b s]. cbn. split.
  - intros (i & [= -> ->] & Hi). done.
  - intros [-> Hs]. by exists s.
Qed.
Lemma elem_of_bag_positions inv p lo hi :
  p ∈ bag_positions inv lo hi <-> lo <= p.1 < hi /\ exists bg, GetItemByPos inv 255 p.1 = Some bg /\ 0 <= p.2 < GetBagSize inv bg.
Proof.
  unfold bag_positions. rewrite list_elem_of_bind. setoid_rewrite elem_of_slots. destruct p as [b s]. cbn [fst snd]. split.
  - intros (i & Hin & Hi). change INVENTORY_SLOT_BAG_0 with 255 in Hin. destruct (GetItemByPos inv 255 i) as [bg|] eqn:E; [|by apply not_elem_of_nil in Hin].
    apply list_elem_of_fmap in Hin as (j & [= -> ->] & Hj%elem_of_slots). split; [done|]. by exists bg.
  - intros [Hb (bg & E & Hs)]. exists b. change INVENTORY_SLOT_BAG_0 with 255. rewrite E. split; [|done]. apply list_elem_of_fmap. exists s.
    by rewrite elem_of_slots.
Qed.
Lemma NoDup_slots lo hi : NoDup (slots lo hi).
Proof. apply NoDup_seqZ. Qed.
Lemma NoDup_main_positions lo hi : NoDup (main_positions lo hi).
Proof. apply (NoDup_fmap_2 (fun i => (INVENTORY_SLOT_BAG_0, i))), NoDup_slots. Qed.
Lemma NoDup_bag_positions inv lo hi : NoDup (bag_positions inv lo hi).
Proof.
  unfold bag_positions. apply NoDup_bind; [| |apply NoDup_slots].
  - intros i i' [b s] _ _ Hi Hi'. destruct (GetItemByPos inv _ i), (GetItemByPos inv _ i'); try by apply not_elem_of_nil in Hi || by apply not_elem_of_nil in Hi'.
    apply list_elem_of_fmap in Hi as (? & [= -> ->] & _). by apply list_elem_of_fmap in Hi' as (? & [= -> ->] & _).
  - intros i _. destruct (GetItemByPos inv _ i); [|constructor]. apply NoDup_fmap_2; [|apply NoDup_slots]. by intros ?? [=].
Qed.
Lemma length_slots lo hi : length (slots lo hi) = Z.to_nat (hi - lo).
Proof. apply length_seqZ. Qed.

Section Count.
Context (protos : Z -> option ItemPrototype) `{Sane : !SaneTemplates protos}.
Context (inv : Inventory) (H : gset Z) (Hs : sound protos inv H).
(** What is in the hand holds nothing. *)
Context (Hhand : forall b bag, b ∈ H -> heap inv !! b = Some bag -> i_bagslot bag = ∅).

Ltac positions := rewrite ?elem_of_app, ?elem_of_main_positions, ?elem_of_bag_positions in *.
Ltac consts := unfold own_slot, EQUIPMENT_SLOT_START, INVENTORY_SLOT_ITEM_END, KEYRING_SLOT_START, KEYRING_SLOT_END, INVENTORY_SLOT_BAG_START, INVENTORY_SLOT_BAG_END,
  BANK_SLOT_ITEM_START, BANK_SLOT_ITEM_END, BANK_SLOT_BAG_START, BANK_SLOT_BAG_END, INVENTORY_SLOT_ITEM_START in *.

Lemma NoDup_own_positions b : NoDup (own_positions inv b).
Proof.
  unfold own_positions. destruct b; rewrite ?app_nil_r, !NoDup_app; split_and!; try apply NoDup_main_positions; try apply NoDup_bag_positions.
  all: intros [b0 s0] Hp Hp'; positions; consts; cbn [fst snd] in *; lia.
Qed.

(** Every item in a slot is at one of the positions. *)
Lemma own_positions_all g it : heap inv !! g = Some it -> g ∉ H -> exists p, p ∈ own_positions inv true /\ GetItemByPos inv p.1 p.2 = Some g.
Proof.
  intros E HgH. pose proof (s_all _ _ _ Hs _ _ E HgH) as Hp. unfold placed in Hp. destruct (i_container it) as [b|] eqn:Ec.
  - destruct Hp as (bag & Eb & Hj). destruct (s_held _ _ _ Hs _ _ _ _ Eb Hj) as [_ (it0 & E0 & [_ _ Hr _ Hu])]. simplify_eq.
    destruct Hu as [HbH|(Hc & Hpl & Hm)]; [by rewrite (Hhand _ _ HbH Eb), lookup_empty in Hj|].
    exists (i_slot bag, i_slot it). cbn. assert (Hsz : GetBagSize inv b = i_numSlots bag) by (unfold GetBagSize; by rewrite (deref_heap _ _ _ Eb)).
    split.
    + pose proof (look_bag_main inv _ Hpl) as Hlm. change INVENTORY_SLOT_BAG_0 with 255 in Hlm. rewrite Hm in Hlm. apply bag_place_spec in Hpl.
      unfold own_positions. positions. consts. destruct Hpl as [Hpl|Hpl].
      * right. right. left. cbn. split; [lia|]. exists b. rewrite Hsz. done.
      * do 4 right. cbn. split; [lia|]. exists b. rewrite Hsz. done.
    + rewrite look_bag, Hm by done. cbn. unfold Bag_GetItemByPos. rewrite Hsz, (proj2 (Z.ltb_lt _ _)), (deref_heap _ _ _ Eb) by lia. done.
  - destruct (s_main _ _ _ Hs _ _ Hp) as [_ (it0 & E0 & [_ _ Ho _])]. simplify_eq. exists (255, i_slot it). cbn. split; [|by rewrite look_main].
    unfold own_positions. positions. consts. cbn. destruct Ho; [|by right; left]. destruct (Z.lt_ge_cases (i_slot it) 39); [left; lia|].
    do 3 right. left. lia.
Qed.

Lemma items_at_NoDup ps : NoDup ps -> NoDup (items_at inv ps).
Proof.
  unfold items_at. induction 1 as [|p ps Hnin Hnd IH]; cbn; [constructor|]. destruct (GetItemByPos inv p.1 p.2) as [g|] eqn:E; [|done].
  constructor; [|done]. intros ([b s] & Hin & Hl)%list_elem_of_omap. destruct p as [b' s']. cbn in *.
  destruct (look_inj _ _ _ _ _ _ _ _ Hs E Hl) as [-> ->]. done.
Qed.
Lemma items_at_elem ps g : g ∈ items_at inv ps <-> exists p, p ∈ ps /\ GetItemByPos inv p.1 p.2 = Some g.
Proof. unfold items_at. by rewrite list_elem_of_omap. Qed.

(** A sum over the positions is a sum over the heap. *)
Lemma positions_sum (f : Item -> Z) : lsum (fun g => f (deref inv g)) (items_at inv (own_positions inv true)) = hsum f H (heap inv).
Proof.
  unfold hsum. rewrite (msum_keys f _ (items_at inv (own_positions inv true))).
  - apply lsum_ext. intros g ([b s] & _ & Hl)%items_at_elem. destruct (look_found _ _ _ _ _ _ Hs Hl) as (HgH & it & E & _).
    rewrite (deref_heap _ _ _ E). by rewrite (map_lookup_filter_Some_2 (fun kv => kv.1 ∉ H) (heap inv) g it).
  - apply items_at_NoDup, NoDup_own_positions.
  - intros g. rewrite items_at_elem. split.
    + intros ([b s] & _ & Hl). destruct (look_found _ _ _ _ _ _ Hs Hl) as (HgH & it & E & _). exists it. by apply map_lookup_filter_Some.
    + intros [it [E HgH]%map_lookup_filter_Some]. by eapply own_positions_all.
Qed.

(** ** Few positions, small stacks *)

Lemma length_bag_positions lo hi : (forall s, lo <= s < hi -> bag_place s) -> Z.of_nat (length (bag_positions inv lo hi)) <= 36 * Z.max 0 (hi - lo).
Proof.
  intros Hb. unfold bag_positions. assert (Hl : forall s, s ∈ slots lo hi -> bag_place s) by (intros s Hin; apply Hb; by apply elem_of_slots).
  replace (Z.max 0 (hi - lo)) with (Z.of_nat (length (slots lo hi))) by (rewrite length_slots; lia).
  clear Hb. induction (slots lo hi) as [|s l IH]; [done|]. specialize (IH ltac:(intros; apply Hl; by right)).
  assert (Hs0 : bag_place s) by (apply Hl; by left). rewrite bind_cons, length_app.
  rewrite (look_bag_main inv s Hs0). cbn [length]. destruct (m_items inv !! s) as [bg|] eqn:Em; [|cbn [length]; lia].
  destruct (bag_size _ _ _ _ _ Hs Hs0 Em) as (_ & _ & _ & _ & _ & _ & _ & _ & Hsz). rewrite length_fmap, length_slots. unfold MAX_BAG_SIZE in Hsz. lia.
Qed.
Lemma length_own_positions b : Z.of_nat (length (own_positions inv b)) <= 1000.
Proof.
  assert (Hb : forall lo hi, (19 <= lo /\ hi <= 23 \/ 63 <= lo /\ hi <= 69) -> Z.of_nat (length (bag_positions inv lo hi)) <= 36 * Z.max 0 (hi - lo)).
  { intros lo hi Hr. apply length_bag_positions. intros s Hin. apply bag_place_spec. lia. }
  unfold own_positions. consts. rewrite !length_app.
  pose proof (Hb 19 23 ltac:(lia)). pose proof (Hb 63 69 ltac:(lia)).
  assert (Hm : forall lo hi, length (main_positions lo hi) = Z.to_nat (hi - lo)) by (intros; unfold main_positions; by rewrite length_fmap, length_slots).
  destruct b; rewrite ?length_app; cbn [length]; rewrite !Hm; lia.
Qed.
Lemma length_items_at ps : (length (items_at inv ps) <= length ps)%nat.
Proof. unfold items_at. induction ps as [|p ps IH]; [done|]. cbn. destruct (GetItemByPos inv p.1 p.2); cbn; lia. Qed.

Definition looked (f : Item -> Z) (ps : list (Z * Z)) : Z := lsum (fun g => f (deref inv g)) (items_at inv ps).
(** A part of the stack of each item. *)
Definition partial (f : Item -> Z) : Prop := forall it, f it = 0 \/ f it = i_count it.

Lemma stack_bounds g b s : GetItemByPos inv b s = Some g -> 1 <= GetCount inv g <= 255.
Proof.
  intros Hl. destruct (look_found _ _ _ _ _ _ Hs Hl) as (_ & it & E & _). unfold GetCount. rewrite (deref_heap _ _ _ E).
  pose proof (s_item _ _ _ Hs _ _ E) as [Hp Hc _ _]. pose proof (sane_templates _ _ Hp). lia.
Qed.
Lemma looked_bounds f ps : partial f -> 0 <= looked f ps <= 255 * Z.of_nat (length ps).
Proof.
  intros Hf. pose proof (length_items_at ps). unfold looked.
  pose proof (lsum_bounds (fun g => f (deref inv g)) 255 (items_at inv ps)) as Hb.
  enough (forall g, g ∈ items_at inv ps -> 0 <= f (deref inv g) <= 255) as Hall by (specialize (Hb Hall); lia).
  intros g ([b s] & _ & Hl)%items_at_elem. pose proof (stack_bounds _ _ _ Hl) as Hc. unfold GetCount in Hc. destruct (Hf (deref inv g)) as [->| ->]; lia.
Qed.

(** ** What the loops compute *)

Definition counted (e : Z) (skipItem : option Z) (g : Z) : Z := if bool_decide (Some g = skipItem) then 0 else weight e (deref inv g).
Definition untraded (e : Z) (it : Item) : Z := if i_inTrade it then 0 else weight e it.
Lemma weight_partial e : partial (weight e).
Proof. intros it. unfold weight. case_match; auto. Qed.
Lemma untraded_partial e : partial (untraded e).
Proof. intros it. unfold untraded. case_match; [auto|apply weight_partial]. Qed.

Lemma GetItemCount_sum e b skipItem : GetItemCount inv e b skipItem = lsum (counted e skipItem) (items_at inv (own_positions inv b)).
Proof.
  unfold GetItemCount, ApplyForAllItems. set (step := fun count g => _).
  pose proof (length_own_positions b) as Hlen. pose proof (length_items_at (own_positions inv b)) as Hle.
  assert (Hall : forall g, g ∈ items_at inv (own_positions inv b) -> 1 <= GetCount inv g <= 255).
  { intros g ([b0 s0] & _ & Hl)%items_at_elem. by eapply stack_bounds. }
  enough (Hg : forall gs n, (forall g, g ∈ gs -> 1 <= GetCount inv g <= 255) -> 0 <= n -> n + 255 * Z.of_nat (length gs) < 2 ^ 32 ->
            fold_left step gs n = n + lsum (counted e skipItem) gs) by (rewrite Hg; [lia|done|lia|lia]).
  clear. intros gs. induction gs as [|g gs IH]; intros n Hc Hn Hb; [unfold lsum; cbn; lia|].
  pose proof (Hc g ltac:(by left)) as Hcg. cbn [fold_left length] in *. rewrite lsum_cons.
  assert (Hst : step n g = n + counted e skipItem g).
  { unfold step, counted, weight. change (GetEntry inv g) with (i_entry (deref inv g)). change (GetCount inv g) with (i_count (deref inv g)) in *.
    case_bool_decide; cbn [negb andb]; [lia|]. destruct (Z.eqb_spec (i_entry (deref inv g)) e); [|lia]. rewrite u32_small; lia. }
  assert (0 <= counted e skipItem g <= 255).
  { unfold counted, weight. change (GetCount inv g) with (i_count (deref inv g)) in *. repeat case_match; lia. }
  rewrite IH; [lia| |lia|lia]. intros k Hk. apply Hc. by right.
Qed.

Lemma HasItemCount_loop_spec e n ps : forall t,
  0 <= t -> t + 255 * Z.of_nat (length ps) < 2 ^ 32 ->
  HasItemCount_loop inv e n t ps = bool_decide (0 < looked (untraded e) ps /\ n <= t + looked (untraded e) ps).
Proof.
  induction ps as [|[b s] ps IH]; intros t Ht Hb; [symmetry; apply bool_decide_eq_false; unfold looked, lsum; cbn; lia|].
  cbn [length] in Hb. pose proof (looked_bounds _ ps (untraded_partial e)) as Hlk. cbn [HasItemCount_loop]. unfold looked, items_at in *. cbn [omap list_omap fst snd].
  destruct (GetItemByPos inv b s) as [g|] eqn:El; [|apply IH; lia]. pose proof (stack_bounds _ _ _ El) as Hc. rewrite lsum_cons.
  assert (Hu : untraded e (deref inv g) = if (GetEntry inv g =? e) && negb (i_inTrade (deref inv g)) then GetCount inv g else 0).
  { unfold untraded, weight, GetEntry, GetCount. destruct (i_entry (deref inv g) =? e), (i_inTrade (deref inv g)); done. }
  rewrite Hu. destruct (_ && _).
  - rewrite u32_small by lia. destruct (Z.leb_spec n (t + GetCount inv g)).
    + symmetry. apply bool_decide_eq_true. lia.
    + rewrite IH by lia. apply bool_decide_ext. lia.
  - rewrite IH by lia. apply bool_decide_ext. lia.
Qed.

(** What the pack, the keyring and the equipment hold, with the bank or without. *)
Definition carried (f : Item -> Z) (inBank : bool) : Z := looked f (own_positions inv inBank).
Lemma carried_all f : carried f true = hsum f H (heap inv).
Proof. apply positions_sum. Qed.
Lemma HasItemCount_spec e n b :
  HasItemCount inv e n b = bool_decide (0 < carried (untraded e) b /\ n <= carried (untraded e) b).
Proof. unfold HasItemCount. pose proof (length_own_positions b). rewrite HasItemCount_loop_spec by lia. apply bool_decide_ext. unfold carried. lia. Qed.
End Count.

(** ** The counts of a character *)

Section Counts.
Context (protos : Z -> option ItemPrototype) `{Sane : !SaneTemplates protos}.

(** What the character has of a template and is not trading. *)
Definition available (e : Z) (inv : Inventory) : Z := hsum (untraded e) ∅ (heap inv).

Lemma hand_empty inv b (bag : Item) : b ∈ (∅ : gset Z) -> heap inv !! b = Some bag -> i_bagslot bag = ∅.
Proof. intros []%not_elem_of_empty. Qed.
Lemma lsum_skip inv e g gs : NoDup gs ->
  lsum (counted inv e (Some g)) gs = lsum (fun k => weight e (deref inv k)) gs - if decide (g ∈ gs) then weight e (deref inv g) else 0.
Proof.
  induction 1 as [|k gs Hnin Hnd IH]; [by rewrite decide_False by apply not_elem_of_nil|]. rewrite !lsum_cons, IH. unfold counted at 1.
  case_bool_decide as Hk; [injection Hk as ->; rewrite decide_False by done; rewrite decide_True by (by left); lia|].
  destruct (decide (g ∈ gs)); [rewrite decide_True by (by right); lia|]. rewrite decide_False; [lia|]. intros [->|]%elem_of_cons; done.
Qed.

(** C31: GetItemCount with the bank is the number of items of a template that
    the character has, less those of the item to skip, and HasItemCount answers
    whether at least one, and as many as asked for, are not being traded: every
    slot is visited once and the sums stay below 2^32. *)
Theorem items_are_counted inv e n :
  sound protos inv ∅ ->
  GetItemCount inv e true None = amount e inv ∅ /\
  (forall g it, heap inv !! g = Some it -> GetItemCount inv e true (Some g) = amount e inv ∅ - weight e it) /\
  HasItemCount inv e n true = bool_decide (0 < available e inv /\ n <= available e inv).
Proof.
  intros Hs. pose proof (positions_sum protos inv ∅ Hs (hand_empty inv)) as Hsum.
  assert (Hnd : NoDup (items_at inv (own_positions inv true))) by (eapply items_at_NoDup, NoDup_own_positions; exact Hs). split_and!.
  - rewrite (GetItemCount_sum protos inv ∅ Hs). unfold amount. rewrite <- (Hsum (weight e)). by apply lsum_ext.
  - intros g it E. rewrite (GetItemCount_sum protos inv ∅ Hs), (lsum_skip inv e g _ Hnd), decide_True.
    + rewrite (deref_heap _ _ _ E). unfold amount. by rewrite <- (Hsum (weight e)).
    + apply items_at_elem. apply (own_positions_all protos inv ∅ Hs (hand_empty inv) _ it E). apply not_elem_of_empty.
  - rewrite (HasItemCount_spec protos inv ∅ Hs). unfold available. by rewrite <- (Hsum (untraded e)).
Qed.
End Counts.
