(* ===== verification/InventoryDestroy.v ===== *)
(** * InventoryDestroy: destroying items by their number

    DestroyItem takes one item out of the inventory for good; DestroyItemCount
    destroys as many of a template as asked for, as far as there are so many. *)
From S2P Require Import Prelude Inventory InventoryMoves InventorySound InventoryPlaces InventoryStore InventoryFits InventoryCount.

Section Destroy.
Context (protos : Z -> option ItemPrototype) `{Sane : !SaneTemplates protos}.
Implicit Types (inv : Inventory) (H : gset Z).

(** ** One item *)

Lemma inTrade_upd f inv g k : (forall it, i_inTrade (f it) = i_inTrade it) -> i_inTrade (deref (upd g f inv) k) = i_inTrade (deref inv k).
Proof.
  intros Hf. unfold deref. rewrite upd_lookup. destruct (decide (k = g)) as [->|]; [|done]. by destruct (heap inv !! g); cbn; rewrite ?Hf.
Qed.
Lemma inTrade_RemoveItem inv b s k : i_inTrade (deref (RemoveItem inv b s) k) = i_inTrade (deref inv k).
Proof.
  unfold RemoveItem, Bag_RemoveItem. destruct (GetItemByPos inv b s); [|done]. rewrite inTrade_upd by done.
  repeat case_match; rewrite ?inTrade_upd by done; done.
Qed.

(** The item [g] at a position is gone, the others are where they were. *)
Record gone inv inv' H g : Prop := {
  go_sound : sound protos inv' H;
  go_amount : forall e, amount e inv' H = amount e inv H - weight e (deref inv g);
  go_look : forall b s k, GetItemByPos inv' b s = Some k <-> GetItemByPos inv b s = Some k /\ k <> g;
  go_same : forall b s k, GetItemByPos inv b s = Some k -> k <> g -> GetEntry inv' k = GetEntry inv k /\ GetCount inv' k = GetCount inv k /\
              i_inTrade (deref inv' k) = i_inTrade (deref inv k) /\ GetBagSize inv' k = GetBagSize inv k
}.

Definition taken_away inv b s g : Inventory := delete_item g (RemoveItem inv b s).

Lemma taken_away_gone inv H b s g :
  sound protos inv H -> GetItemByPos inv b s = Some g -> i_bagslot (deref inv g) = ∅ -> gone inv (taken_away inv b s g) H g.
Proof.
  intros Hs Hl Hemp. destruct (RemoveItem_removed protos inv H b s g Hs Hl) as [R1 (it1 & E1 & Hsame) R3 R4 _ _ _].
  destruct (look_found _ _ _ _ _ _ Hs Hl) as (HgH & _). unfold taken_away. set (inv1 := RemoveItem inv b s) in *.
  assert (HH : ({[g]} ∪ H) ∖ {[g]} = H) by set_solver. specialize (R4 {[g]} ltac:(set_solver)).
  assert (Hheap : forall k, k <> g -> heap (delete_item g inv1) !! k = heap inv1 !! k) by (intros k Hk; cbn; by rewrite lookup_delete_ne).
  assert (Hd : forall k, k <> g -> deref (delete_item g inv1) k = deref inv1 k) by (intros k Hk; unfold deref; by rewrite Hheap).
  assert (Hlk : forall b s k, GetItemByPos inv1 b s = Some k <-> GetItemByPos inv b s = Some k /\ k <> g).
  { intros b' s' k. split.
    - intros Hk. split; [by apply (li_back _ _ _ R4)|]. destruct (look_found _ _ _ _ _ _ R1 Hk) as [Hk1 _]. set_solver.
    - intros [Hk Hne]. apply (li_forth _ _ _ R4); [|done|set_solver]. destruct (look_found _ _ _ _ _ _ Hs Hk) as (_ & it & E & _ & _ & Hf).
      destruct Hf as [-> _ Ho _ _|bg bag Hb Hm Eb Hj _ _ Hr _ _ _]; [by constructor|]. apply (usable_held _ _ _ _ bg); [done|done| |].
      + intros ->%elem_of_singleton. rewrite (deref_heap _ _ _ Eb) in Hemp. by rewrite Hemp, lookup_empty in Hj.
      + unfold GetBagSize. by rewrite (deref_heap _ _ _ Eb). }
  split.
  - rewrite <- HH. apply sound_forget; [|cbn; by rewrite lookup_delete_eq]. apply sound_drop; [done|set_solver|].
    intros it E. rewrite E in E1. injection E1 as ->. by rewrite (sm_bagslot _ _ Hsame).
  - intros e. rewrite <- (R3 e). unfold amount at 1. cbn. rewrite <- HH at 1. apply hsum_gone. set_solver.
  - intros b' s' k. rewrite <- Hlk. unfold GetItemByPos. cbn [m_items delete_item]. destruct (_ && _); [done|]. destruct (_ || _) eqn:Eb; [|done].
    change (m_items (delete_item g inv1)) with (m_items inv1).
    destruct (m_items inv1 !! b') as [bg|] eqn:Em; [|done]. unfold Bag_GetItemByPos, GetBagSize. rewrite Hd; [done|]. intros ->.
    destruct (s_main _ _ _ R1 _ _ Em) as [Hg _]. set_solver.
  - intros b' s' k Hk Hne. destruct (look_found _ _ _ _ _ _ Hs Hk) as (_ & it & E & _).
    destruct (li_keeps _ _ _ R4 k ltac:(set_solver) ltac:(by exists it)) as (_ & He & Hc & Hz). unfold GetEntry, GetCount, GetBagSize in *.
    rewrite (Hd k Hne). split_and!; try done. apply inTrade_RemoveItem.
Qed.

(** Equal up to what was sent. *)
Definition alike inv inv' : Prop := m_items inv = m_items inv' /\ heap inv = heap inv' /\ inv_next inv = inv_next inv'.
Lemma gone_alike inv inv' inv'' H g : alike inv' inv'' -> gone inv inv' H g -> gone inv inv'' H g.
Proof.
  intros (Em & Eh & En) [A B C D]. assert (Hd : forall k, deref inv'' k = deref inv' k) by (intros k; unfold deref; by rewrite Eh).
  split.
  - revert A. apply sound_ext; [done|done|lia].
  - intros e. rewrite <- (B e). by apply amount_heap.
  - intros b s k. rewrite <- C. by rewrite (look_same inv' inv'') by (try done; intros; by rewrite Hd).
  - intros b s k Hk Hne. destruct (D b s k Hk Hne) as (? & ? & ? & ?). unfold GetEntry, GetCount, GetBagSize in *. rewrite !Hd. done.
Qed.

Lemma no_such_bag inv s i : own_slot s -> s < EQUIPMENT_SLOT_END -> GetItemByPos inv s i = None.
Proof.
  intros Ho Hlt. destruct (GetItemByPos inv s i) as [k|] eqn:E; [|done]. exfalso. unfold own_slot, EQUIPMENT_SLOT_END, BANK_SLOT_BAG_END, KEYRING_SLOT_START in *.
  destruct (look_some _ _ _ _ E) as [[-> _]|[Hb _]]; [lia|]. apply bag_place_spec in Hb. lia.
Qed.
Lemma fold_left_id {A B} (f : A -> B -> A) l a : (forall x, x ∈ l -> f a x = a) -> fold_left f l a = a.
Proof.
  induction l as [|x l IH]; intros Hf; [done|]. cbn. rewrite (Hf x) by (by left). apply IH. intros y Hy. apply Hf. by right.
Qed.

(** What DestroyItem does first for a bag is nothing but a message. *)
Lemma DestroyItem_contents inv H b s g :
  sound protos inv H -> GetItemByPos inv b s = Some g ->
  alike inv (if IsBag protos inv g then
               if IsEquipped inv g then fold_left (fun inv i => DestroyItem_ protos 1 inv s i) (slots 0 MAX_BAG_SIZE) inv
               else if negb (IsEmpty inv g) then emit (CheatAction "Player::DestroyItem: destroying non equipped bag with items inside!") inv
               else inv
             else inv).
Proof.
  intros Hs Hl. destruct (IsBag protos inv g); [|done]. destruct (IsEquipped inv g) eqn:Eq; [|by destruct (negb (IsEmpty inv g))].
  unfold IsEquipped in Eq. apply andb_true_iff in Eq as [Ec%bool_decide_eq_true Es%Z.ltb_lt].
  destruct (look_found _ _ _ _ _ _ Hs Hl) as (_ & it & E & Hsl & _ & Hf). unfold GetSlot in Es. rewrite (deref_heap _ _ _ E) in Ec, Es.
  rewrite fold_left_id; [done|]. intros i _. cbn. rewrite no_such_bag; [done| |lia]. destruct Hf as [_ _ Ho _ _|]; [done|congruence].
Qed.

Definition unslot inv b s : Inventory :=
  if b =? INVENTORY_SLOT_BAG_0 then clear_slot s inv
  else match GetItemByPos inv INVENTORY_SLOT_BAG_0 b with Some pBag => Bag_RemoveItem pBag s inv | None => inv end.
Lemma alike_deref inv inv' k : alike inv inv' -> deref inv' k = deref inv k.
Proof. intros (_ & Eh & _). unfold deref. by rewrite Eh. Qed.
Lemma alike_look inv inv' b s : alike inv inv' -> GetItemByPos inv' b s = GetItemByPos inv b s.
Proof. intros Ha. destruct Ha as (Em & Ha); apply look_same; [done| |]; intros k; by rewrite (alike_deref inv inv'). Qed.
Lemma alike_upd f inv inv' g : alike inv inv' -> alike (upd g f inv) (upd g f inv').
Proof. intros (Em & Eh & En). split_and!; [done| |done]. cbn. by rewrite Eh. Qed.
Lemma alike_unslot inv inv' b s : alike inv inv' -> alike (unslot inv b s) (unslot inv' b s).
Proof.
  intros Ha. unfold unslot. destruct (b =? _); [destruct Ha as (Em & Eh & En); split_and!; [cbn; by rewrite Em|done|done]|].
  rewrite (alike_look inv inv') by done. destruct (GetItemByPos inv INVENTORY_SLOT_BAG_0 b) as [bg|]; [|done].
  unfold Bag_RemoveItem. destruct (s <? _); [|done]. rewrite (alike_deref inv inv') by done. apply alike_upd. by destruct (i_bagslot _ !! s); [apply alike_upd|].
Qed.
Lemma alike_delete g f inv inv' : alike inv inv' -> alike (delete_item g (upd g f inv)) (delete_item g inv').
Proof.
  intros (Em & Eh & En). split_and!; [done| |done]. cbn. rewrite <- Eh. apply map_eq. intros k.
  destruct (decide (k = g)) as [->|]; [by rewrite !lookup_delete_eq|]. by rewrite !lookup_delete_ne, lookup_alter_ne by done.
Qed.

Lemma DestroyItem_gone inv H b s g :
  sound protos inv H -> GetItemByPos inv b s = Some g -> i_bagslot (deref inv g) = ∅ -> gone inv (DestroyItem protos inv b s) H g.
Proof.
  intros Hs Hl Hemp. apply (gone_alike _ (taken_away inv b s g)); [|by apply taken_away_gone].
  unfold DestroyItem. cbn [DestroyItem_]. rewrite Hl.
  pose proof (DestroyItem_contents inv H b s g Hs Hl) as Ha. cbn [DestroyItem_] in Ha.
  set (inv1 := if IsBag protos inv g then _ else inv) in *. clearbody inv1.
  set (inv2 := emit _ (if i_wrapped (deref inv1 g) then _ else _)). assert (Ha2 : alike inv inv2) by (subst inv2; by destruct (i_wrapped _)).
  change (if b =? INVENTORY_SLOT_BAG_0 then clear_slot s inv2 else _) with (unslot inv2 b s).
  pose proof (alike_unslot inv inv2 b s Ha2) as Ha3. unfold taken_away, RemoveItem. rewrite Hl.
  change (if b =? INVENTORY_SLOT_BAG_0 then clear_slot s inv else _) with (unslot inv b s).
  unfold remove_item. destruct (_ =? 5863); exact (alike_delete g (SetSlot NULL_SLOT) _ _ Ha3).
Qed.

(** ** Many items *)

(** Outside of the positions [P] items are as before; bags are not touched. *)
Record untouched inv inv' (P : list (Z * Z)) : Prop := {
  ut_look : forall b s, (b, s) ∉ P -> GetItemByPos inv' b s = GetItemByPos inv b s;
  ut_item : forall b s g, (b, s) ∉ P -> GetItemByPos inv b s = Some g ->
              GetEntry inv' g = GetEntry inv g /\ GetCount inv' g = GetCount inv g /\ i_inTrade (deref inv' g) = i_inTrade (deref inv g);
  ut_bags : forall s, bag_place s -> GetItemByPos inv' 255 s = GetItemByPos inv 255 s;
  ut_sizes : forall s g, bag_place s -> GetItemByPos inv 255 s = Some g -> GetBagSize inv' g = GetBagSize inv g
}.
Lemma untouched_refl inv P : untouched inv inv P.
Proof. done. Qed.
Lemma untouched_trans inv inv' inv'' P P' : untouched inv inv' P -> untouched inv' inv'' P' -> untouched inv inv'' (P ++ P').
Proof.
  intros [A B C D] [A' B' C' D']. split.
  - intros b s [Hp Hp']%not_elem_of_app. by rewrite A', A.
  - intros b s g [Hp Hp']%not_elem_of_app Hl. destruct (B b s g Hp Hl) as (<- & <- & <-). apply (B' b s g Hp'). by rewrite A.
  - intros s Hs. by rewrite C', C.
  - intros s g Hs Hl. rewrite <- (D s g Hs Hl). apply D' with s; [done|]. by rewrite C.
Qed.
Lemma untouched_bag_positions inv inv' P lo hi :
  (forall s, lo <= s < hi -> bag_place s) -> untouched inv inv' P -> bag_positions inv' lo hi = bag_positions inv lo hi.
Proof.
  intros Hb Hu. unfold bag_positions. assert (Hl : forall s, s ∈ slots lo hi -> bag_place s) by (intros s Hin; apply Hb; by apply elem_of_slots).
  clear Hb. induction (slots lo hi) as [|s l IH]; [done|]. rewrite !bind_cons, IH by (intros; apply Hl; by right). f_equal.
  assert (Hs0 : bag_place s) by (apply Hl; by left). change INVENTORY_SLOT_BAG_0 with 255. rewrite (ut_bags _ _ _ Hu s Hs0).
  destruct (GetItemByPos inv 255 s) as [g|] eqn:E; [|done]. by rewrite (ut_sizes _ _ _ Hu s g Hs0 E).
Qed.
Lemma looked_untouched inv inv' e P ps :
  untouched inv inv' P -> (forall p, p ∈ ps -> p ∉ P) -> looked inv' (untraded e) ps = looked inv (untraded e) ps.
Proof.
  intros Hu. induction ps as [|[b s] ps IH]; intros Hp; [done|]. specialize (IH ltac:(intros; apply Hp; by right)).
  pose proof (Hp (b, s) ltac:(by left)) as Hbs. unfold looked, items_at in *. cbn [omap list_omap fst snd]. rewrite (ut_look _ _ _ Hu b s Hbs).
  destruct (GetItemByPos inv b s) as [g|] eqn:E; [|done]. rewrite !lsum_cons, IH. f_equal.
  destruct (ut_item _ _ _ Hu b s g Hbs E) as (He & Hc & Ht). unfold GetEntry, GetCount in *. unfold untraded, weight. by rewrite He, Hc, Ht.
Qed.
Lemma looked_app inv f ps ps' : looked inv f (ps ++ ps') = looked inv f ps + looked inv f ps'.
Proof. unfold looked, items_at. by rewrite omap_app, lsum_app. Qed.

(** A stack gets smaller. *)
Lemma shrink_step H e inv b s g m :
  sound protos inv H -> GetItemByPos inv b s = Some g -> GetEntry inv g = e -> 1 <= m <= GetCount inv g ->
  let inv' := upd g (SetCount m) inv in
  sound protos inv' H /\ untouched inv inv' [(b, s)] /\ (forall e', e' <> e -> amount e' inv' H = amount e' inv H) /\
  amount e inv' H = amount e inv H - (GetCount inv g - m).
Proof.
  intros Hs Hl He Hm inv'. destruct (look_found _ _ _ _ _ _ Hs Hl) as (HgH & it & E & _). unfold GetEntry, GetCount in *. rewrite (deref_heap _ _ _ E) in *.
  assert (Hkb : keeps_bag (SetCount m)) by done. assert (Hsm : is_Some (heap inv !! g)) by (by exists it). split_and!.
  - apply sound_upd; [done|]. intros it0 E0. simplify_eq. destruct (io_count _ _ _ _ (s_item _ _ _ Hs _ _ E)). split; try done. cbn. lia.
  - split.
    + intros b' s' _. by apply look_upd.
    + intros b' s' k Hp Hk. unfold GetEntry, GetCount, inv'. rewrite deref_upd by done. rewrite decide_False; [done|]. intros ->.
      destruct (look_inj _ _ _ _ _ _ _ _ Hs Hl Hk) as [-> ->]. apply Hp. by left.
    + intros s' _. by apply look_upd.
    + intros s' k _ _. unfold GetBagSize, inv'. rewrite deref_upd by done. by destruct (decide (k = g)) as [->|].
  - intros e' He'. unfold inv'. rewrite (amount_upd_out _ _ _ _ _ it) by done. unfold weight. cbn. rewrite He, (proj2 (Z.eqb_neq e e')) by congruence. lia.
  - unfold inv'. rewrite (amount_upd_out _ _ _ _ _ it) by done. unfold weight. cbn. rewrite He, Z.eqb_refl. lia.
Qed.

Section Sweep.
Context (H : gset Z) (e n : Z) (Hn : 0 <= n < 2 ^ 32) (Hbag : InventoryType (default noProto (protos e)) <> INVTYPE_BAG).

(** What a loop over [P] does to the inventory and [remcount]. *)
Record swept (s s' : Sweep) (P : list (Z * Z)) : Prop := {
  sw_sound : sound protos s'.1.1 H;
  sw_untouched : untouched s.1.1 s'.1.1 P;
  sw_others : forall e', e' <> e -> amount e' s'.1.1 H = amount e' s.1.1 H;
  sw_done : s.2 = true -> s' = s;
  sw_amount : s.2 = false -> amount e s'.1.1 H = amount e s.1.1 H - Z.min (looked s.1.1 (untraded e) P) (n - s.1.2);
  sw_rest : s.2 = false -> if s'.2 then n - s.1.2 <= looked s.1.1 (untraded e) P
                           else s'.1.2 = s.1.2 + looked s.1.1 (untraded e) P /\ s'.1.2 <= n
}.
Lemma swept_app s s' s'' P P' :
  swept s s' P -> swept s' s'' P' -> (forall p, p ∈ P' -> p ∉ P) -> swept s s'' (P ++ P').
Proof.
  intros [A1 U1 O1 D1 M1 R1] [A2 U2 O2 D2 M2 R2] Hd. pose proof (looked_untouched _ _ e _ _ U1 Hd) as Hl. split.
  - done.
  - by eapply untouched_trans.
  - intros e' He. by rewrite O2, O1.
  - intros Hs. rewrite D1 in D2 by done. auto.
  - intros Hs. specialize (M1 Hs). specialize (R1 Hs). rewrite looked_app. destruct (s'.2) eqn:E.
    + rewrite D2, M1 by done. pose proof (looked_bounds protos _ H A1 _ P' (untraded_partial e)). lia.
    + rewrite M2, M1, Hl by done. lia.
  - intros Hs. specialize (R1 Hs). rewrite looked_app. destruct (s'.2) eqn:E.
    + rewrite D2, E by done. pose proof (looked_bounds protos _ H A1 _ P' (untraded_partial e)). lia.
    + specialize (R2 eq_refl). rewrite Hl in R2. destruct (s''.2); lia.
Qed.

Lemma single inv e0 b s : looked inv (untraded e0) [(b, s)] = match GetItemByPos inv b s with Some g => untraded e0 (deref inv g) | None => 0 end.
Proof. unfold looked, items_at. cbn [omap list_omap fst snd]. destruct (GetItemByPos inv b s); unfold lsum; cbn; lia. Qed.

Lemma swept_skip inv rem P : sound protos inv H -> looked inv (untraded e) P = 0 -> rem <= n -> swept (inv, rem, false) (inv, rem, false) P.
Proof. intros Hs Hl Hr. split; cbn; rewrite ?Hl; try done; lia. Qed.
Lemma swept_done inv rem P : sound protos inv H -> swept (inv, rem, true) (inv, rem, true) P.
Proof. by split. Qed.

Lemma not_bag_empty inv b s g : sound protos inv H -> GetItemByPos inv b s = Some g -> GetEntry inv g = e ->
  i_bagslot (deref inv g) = ∅ /\ (b = 255 -> ~ bag_place s).
Proof.
  intros Hs Hl He. destruct (look_found _ _ _ _ _ _ Hs Hl) as (_ & it & E & _ & _ & Hf). unfold GetEntry in He. rewrite (deref_heap _ _ _ E) in *.
  assert (Hnb : ~ is_bag protos it) by (unfold is_bag, template; by rewrite He). split.
  - destruct (decide (i_bagslot it = ∅)); [done|]. destruct Hnb. by eapply contents_is_bag.
  - intros -> Hb. destruct Hf as [_ _ _ _ Hbg|bg bag Hb' _]; [auto|]. by apply not_bag_place_255 in Hb'.
Qed.
Lemma gone_untouched inv inv' b s g :
  sound protos inv H -> GetItemByPos inv b s = Some g -> GetEntry inv g = e -> gone inv inv' H g -> untouched inv inv' [(b, s)].
Proof.
  intros Hs Hl He [A B C D]. destruct (not_bag_empty inv b s g Hs Hl He) as [_ Hb].
  assert (Hlook : forall b' s', (b', s') <> (b, s) -> GetItemByPos inv' b' s' = GetItemByPos inv b' s').
  { intros b' s' Hne. apply option_eq. intros k. rewrite C. split; [by intros [? _]|]. intros Hk. split; [done|]. intros ->.
    destruct (look_inj _ _ _ _ _ _ _ _ Hs Hl Hk) as [-> ->]. done. }
  assert (Hbs : forall s', bag_place s' -> (255, s') <> (b, s)) by (intros s' Hs' [= <- <-]; by apply Hb).
  split.
  - intros b' s' Hp. apply Hlook. intros E. rewrite E in Hp. apply Hp. by left.
  - intros b' s' k Hp Hk. destruct (D b' s' k Hk) as (? & ? & ? & _); [|done]. intros ->. apply Hp.
    destruct (look_inj _ _ _ _ _ _ _ _ Hs Hl Hk) as [-> ->]. by left.
  - intros s' Hs'. apply Hlook; auto.
  - intros s' k Hs' Hk. apply (D 255 s' k Hk). intros ->. destruct (look_inj _ _ _ _ _ _ _ _ Hs Hl Hk) as [-> ->]. by apply (Hbs s').
Qed.

Lemma swept_alike s inv' inv'' rem d P k :
  s.2 = false -> alike inv' inv'' -> swept s (inv', rem, d) P /\ (d = false -> rem <= k) -> swept s (inv'', rem, d) P /\ (d = false -> rem <= k).
Proof.
  intros Hs2 Ha [[A U O D M R] Hk]. cbn [fst snd] in *. pose proof Ha as (Em & Eh & En). split; [|done]. split; cbn [fst snd].
  - revert A. apply sound_ext; [done|done|lia].
  - destruct U as [U1 U2 U3 U4]. split.
    + intros b s' Hp. rewrite (alike_look inv') by done. auto.
    + intros b s' g Hp Hl. unfold GetEntry, GetCount in *. rewrite (alike_deref inv') by done. eauto.
    + intros s' Hs'. rewrite (alike_look inv') by done. auto.
    + intros s' g Hs' Hl. unfold GetBagSize in *. rewrite (alike_deref inv') by done. eauto.
  - intros e' He'. rewrite <- (O e' He'). by apply amount_heap.
  - congruence.
  - intros Hd. rewrite <- (M Hd). by apply amount_heap.
  - done.
Qed.

Context (told : bool) (skip may : Inventory -> Z -> Z -> bool).
Context (Hskip : forall inv s g, GetEntry inv g = e -> skip inv s g = false) (Hmay : forall inv s g, GetEntry inv g = e -> may inv s g = true).

Lemma sweep_at_swept inv rem b s :
  sound protos inv H -> 0 <= rem <= n -> rem + 255 < 2 ^ 32 ->
  let s' := sweep_at protos e n told skip may (inv, rem, false) (b, s) in
  swept (inv, rem, false) s' [(b, s)] /\ (s'.2 = false -> s'.1.2 <= rem + 255).
Proof.
  intros Hs Hr Hlt. unfold sweep_at. destruct (GetItemByPos inv b s) as [g|] eqn:Hl.
  2: { split; [|cbn; lia]. apply swept_skip; [done| |lia]. by rewrite single, Hl. }
  pose proof (stack_bounds protos inv H Hs _ _ _ Hl) as Hc.
  assert (Hlk : looked inv (untraded e) [(b, s)] = if (GetEntry inv g =? e) && negb (i_inTrade (deref inv g)) then GetCount inv g else 0).
  { rewrite single, Hl. unfold untraded, weight, GetEntry, GetCount. by destruct (i_entry (deref inv g) =? e), (i_inTrade (deref inv g)). }
  destruct (Z.eqb_spec (GetEntry inv g) e) as [He|He]; cbn [andb] in *; [|by split; [apply swept_skip; [done|done|lia]|cbn; lia]].
  destruct (i_inTrade (deref inv g)) eqn:Ht; cbn [negb andb] in *; [by split; [apply swept_skip; [done|done|lia]|cbn; lia]|].
  rewrite Hskip by done. cbn [negb]. rewrite u32_small by lia. destruct (Z.leb_spec (GetCount inv g + rem) n) as [Hle|Hgt].
  - rewrite Hmay by done. rewrite u32_small by lia. destruct (not_bag_empty inv b s g Hs Hl He) as [Hemp _].
    pose proof (DestroyItem_gone inv H b s g Hs Hl Hemp) as Hg. pose proof Hg as [A B _ _].
    split; [|cbn; lia]. split; cbn [fst snd]; rewrite ?Hlk.
    + done.
    + by eapply gone_untouched.
    + intros e' He'. rewrite B. unfold weight, GetEntry in *. rewrite He, (proj2 (Z.eqb_neq e e')) by congruence. lia.
    + done.
    + intros _. rewrite B. unfold weight, GetEntry, GetCount in *. rewrite He, Z.eqb_refl. lia.
    + intros _. destruct (Z.leb_spec n (rem + GetCount inv g)); lia.
  - set (m := GetCount inv g - n + rem). assert (Hm : 1 <= m <= GetCount inv g) by lia.
    destruct (shrink_step H e inv b s g m Hs Hl He Hm) as (A & U & O & B).
    assert (Ha : alike (upd g (SetCount m) inv)
      (upd g (fun it => SetCount (u32 (i_count it - n + rem)) it) (if told then emit (QuestItemRemoved (GetEntry inv g) (u32 (n - rem))) inv else inv))).
    { destruct (look_found _ _ _ _ _ _ Hs Hl) as (_ & it & E & _). subst m. unfold GetCount in *. rewrite (deref_heap _ _ _ E) in *.
      split_and!; [by destruct told| |by destruct told]. transitivity (alter (fun it => SetCount (u32 (i_count it - n + rem)) it) g (heap inv)); [|by destruct told].
      cbn. apply map_eq. intros k. destruct (decide (k = g)) as [->|]; [|by rewrite !lookup_alter_ne]. rewrite !lookup_alter_eq, E. cbn. rewrite u32_small; [done|lia]. }
    eapply swept_alike; [done|exact Ha|]. split; [|done]. split; cbn [fst snd]; rewrite ?Hlk; try done.
    + intros _. rewrite B. lia.
    + intros _. lia.
Qed.

(** A state of the loops: how large [remcount] may be. *)
Definition in_step (s : Sweep) (k : Z) : Prop := sound protos s.1.1 H /\ (s.2 = false -> 0 <= s.1.2 <= n /\ s.1.2 <= k).

Lemma sweep_list ps : forall s k, NoDup ps -> in_step s k -> k + 255 * Z.of_nat (length ps) < 2 ^ 32 ->
  let s' := fold_left (sweep_at protos e n told skip may) ps s in
  swept s s' ps /\ in_step s' (k + 255 * Z.of_nat (length ps)).
Proof.
  induction ps as [|[b s0] ps IH]; intros [[inv rem] d] k Hnd [Hs Hr] Hk; cbn [fst snd fold_left length] in *.
  { split; [|split; [done|intros Hd; cbn in *; specialize (Hr Hd); lia]]. destruct d; [by apply swept_done|]. apply swept_skip; [done|done|]. by apply Hr. }
  apply NoDup_cons in Hnd as [Hnin Hnd]. destruct d.
  - destruct (IH (inv, rem, true) k Hnd) as [A B]; [by split|lia|]. change (sweep_at protos e n told skip may (inv, rem, true) (b, s0)) with ((inv, rem, true) : Sweep).
    rewrite (sw_done _ _ _ A eq_refl). split; [by apply swept_done|]. by split.
  - destruct (Hr eq_refl) as [Hrn Hrk]. destruct (sweep_at_swept inv rem b s0 Hs Hrn ltac:(lia)) as [A B].
    set (s1 := sweep_at _ _ _ _ _ _ _ _) in *. destruct (IH s1 (k + 255) Hnd) as [A' B'].
    + split; [apply A|]. intros Hd. specialize (B Hd). pose proof (sw_rest _ _ _ A eq_refl) as Hrest. rewrite Hd in Hrest. cbn [fst snd] in *.
      pose proof (looked_bounds protos _ H Hs _ [(b, s0)] (untraded_partial e)). lia.
    + lia.
    + replace (k + 255 * Z.of_nat (S (length ps))) with (k + 255 + 255 * Z.of_nat (length ps)) by lia. split; [|done].
      change ((b, s0) :: ps) with ([(b, s0)] ++ ps). eapply swept_app; [exact A|exact A'|]. intros p Hp ->%list_elem_of_singleton. done.
Qed.
End Sweep.

(** ** All loops of DestroyItemCount *)

Definition swept_positions inv (check_bank : bool) : list (Z * Z) :=
  main_positions INVENTORY_SLOT_ITEM_START INVENTORY_SLOT_ITEM_END ++ main_positions KEYRING_SLOT_START KEYRING_SLOT_END ++
  bag_positions inv INVENTORY_SLOT_BAG_START INVENTORY_SLOT_BAG_END ++ main_positions EQUIPMENT_SLOT_START INVENTORY_SLOT_BAG_END ++
  if check_bank then main_positions BANK_SLOT_ITEM_START BANK_SLOT_ITEM_END ++ bag_positions inv BANK_SLOT_BAG_START BANK_SLOT_BAG_END else [].

Lemma main_positions_split lo mid hi : lo <= mid <= hi -> main_positions lo hi = main_positions lo mid ++ main_positions mid hi.
Proof.
  intros Hm. unfold main_positions, slots. replace (hi - lo) with ((mid - lo) + (hi - mid)) by lia.
  rewrite seqZ_app by lia. rewrite fmap_app. by replace (lo + (mid - lo)) with mid by lia.
Qed.
(** Every slot is swept but those of the bank for bags. *)
Lemma swept_all inv b : own_positions inv b ≡ₚ swept_positions inv b ++ if b then main_positions BANK_SLOT_BAG_START BANK_SLOT_BAG_END else [].
Proof.
  unfold own_positions, swept_positions. rewrite (main_positions_split EQUIPMENT_SLOT_START INVENTORY_SLOT_BAG_END INVENTORY_SLOT_ITEM_END) by done.
  change INVENTORY_SLOT_BAG_END with INVENTORY_SLOT_ITEM_START at 2. destruct b; [|rewrite !app_nil_r; solve_Permutation].
  rewrite (main_positions_split BANK_SLOT_ITEM_START BANK_SLOT_BAG_START BANK_SLOT_BAG_END) by done. change BANK_SLOT_BAG_START with BANK_SLOT_ITEM_END at 1.
  solve_Permutation.
Qed.
Lemma looked_perm inv f ps ps' : ps ≡ₚ ps' -> looked inv f ps = looked inv f ps'.
Proof.
  intros Hp. unfold looked, items_at. induction Hp as [|p ps ps' _ IH|p q ps|ps ps' ps'' _ IH1 _ IH2]; [done| | |congruence]; cbn.
  - destruct (GetItemByPos inv p.1 p.2); [|done]. by rewrite !lsum_cons, IH.
  - destruct (GetItemByPos inv p.1 p.2), (GetItemByPos inv q.1 q.2); rewrite ?lsum_cons; lia.
Qed.
Lemma no_bags_looked inv H e lo hi :
  sound protos inv H -> InventoryType (default noProto (protos e)) <> INVTYPE_BAG -> (forall s, lo <= s < hi -> bag_place s) ->
  looked inv (untraded e) (main_positions lo hi) = 0.
Proof.
  intros Hs Hbag Hb. unfold looked. rewrite (lsum_ext _ (fun _ => 0)).
  - by induction (items_at inv (main_positions lo hi)); [|rewrite lsum_cons].
  - intros g ([b s] & [-> Hr]%elem_of_main_positions & Hl)%items_at_elem. cbn in *. unfold untraded, weight.
    destruct (i_inTrade (deref inv g)); [done|]. destruct (Z.eqb_spec (i_entry (deref inv g)) e) as [He|]; [|done].
    destruct (not_bag_empty H e Hbag inv 255 s g Hs Hl He) as [_ Hn]. destruct Hn; auto.
Qed.

Section Loops.
Context (H : gset Z) (e n : Z) (Hn : 0 <= n < 2 ^ 32) (Hbag : InventoryType (default noProto (protos e)) <> INVTYPE_BAG).

(** [P] is swept, [R] is left. *)
Definition at_phase (s0 s : Sweep) (P R : list (Z * Z)) (k : Z) : Prop :=
  swept H e n s0 s P /\ in_step H n s k /\ NoDup (P ++ R) /\ k + 255 * Z.of_nat (length R) < 2 ^ 32.
Lemma next_sweep told skip may ps s0 s P Q R k :
  (forall inv s g, GetEntry inv g = e -> skip inv s g = false) -> (forall inv s g, GetEntry inv g = e -> may inv s g = true) ->
  at_phase s0 s P (Q ++ R) k -> ps s.1.1 = Q ->
  at_phase s0 (sweep protos e n told skip may ps s) (P ++ Q) R (k + 255 * Z.of_nat (length Q)).
Proof.
  intros Hskip Hmay (Hsw & Hst & Hnd & Hk) HQ. rewrite length_app in Hk. rewrite app_assoc in Hnd. unfold sweep. rewrite HQ.
  pose proof (proj1 (proj1 (NoDup_app _ _) Hnd)) as (_ & Hd & HndQ)%NoDup_app.
  destruct (sweep_list H e n Hn Hbag told skip may Hskip Hmay Q s k HndQ Hst ltac:(lia)) as [A B]. split_and!; [|done|done|lia].
  eapply swept_app; [done|done|]. intros p Hp Hp'. by apply (Hd p).
Qed.

(** DestroyItemCount destroys as many as asked for, as far as there are. *)
Lemma DestroyItemCount_removes inv b :
  sound protos inv H ->
  let inv' := DestroyItemCount protos inv e n false b in
  sound protos inv' H /\ (forall e', e' <> e -> amount e' inv' H = amount e' inv H) /\
  amount e inv' H = amount e inv H - Z.min (carried inv (untraded e) b) n.
Proof.
  intros Hs. set (P := swept_positions inv b).
  assert (Hnd : NoDup P) by (pose proof (NoDup_own_positions inv b) as Hnd; rewrite swept_all, NoDup_app in Hnd; apply Hnd).
  assert (Hlen : Z.of_nat (length P) <= 1000).
  { pose proof (length_own_positions protos inv H Hs b) as Hl. rewrite swept_all, length_app in Hl. subst P. lia. }
  assert (Hlk : looked inv (untraded e) P = carried inv (untraded e) b).
  { unfold carried. rewrite (looked_perm inv _ _ _ (swept_all inv b)), looked_app. destruct b; [|change (looked inv (untraded e) []) with 0; subst P; lia].
    rewrite (no_bags_looked inv H e BANK_SLOT_BAG_START) by (try done; intros; apply bag_place_spec; unfold BANK_SLOT_BAG_START, BANK_SLOT_BAG_END in *; lia). subst P. lia. }
  assert (Hsw : let s' := (DestroyItemCount protos inv e n false b) in exists r d, swept H e n (inv, 0, false) (s', r, d) P).
  { assert (H0 : in_step H n (inv, 0, false) 0) by (split; [done|cbn; lia]).
    assert (S0 : swept H e n (inv, 0, false) (inv, 0, false) []) by (apply swept_skip; [done|done|lia]).
    assert (Hnv : forall inv s g, GetEntry inv g = e -> never inv s g = false) by done.
    assert (Hal : forall inv s g, GetEntry inv g = e -> always inv s g = true) by done.
    assert (Hne : forall inv (s : Z) g, GetEntry inv g = e -> NonEmptyBag protos inv (Some g) = false).
    { intros inv0 _ g He. unfold NonEmptyBag, IsBag, GetProto. rewrite He. by rewrite (proj2 (Z.eqb_neq _ _) Hbag). }
    assert (P0 : at_phase (inv, 0, false) (inv, 0, false) [] P 0) by (split_and!; [done|done|done|lia]).
    subst P. unfold swept_positions in *.
    apply (next_sweep true never always (fun _ => main_positions INVENTORY_SLOT_ITEM_START INVENTORY_SLOT_ITEM_END)) in P0; [|done|done|done].
    apply (next_sweep true never always (fun _ => main_positions KEYRING_SLOT_START KEYRING_SLOT_END)) in P0; [|done|done|done].
    apply (next_sweep true never always (fun inv => bag_positions inv INVENTORY_SLOT_BAG_START INVENTORY_SLOT_BAG_END)) in P0; [|done|done|].
    2: { eapply untouched_bag_positions; [|apply P0]. intros s Hr. apply bag_place_spec. unfold INVENTORY_SLOT_BAG_START, INVENTORY_SLOT_BAG_END in *. lia. }
    apply (next_sweep true (fun inv _ g => NonEmptyBag protos inv (Some g))
      (fun inv i _ => negb false || (CanUnequipItem protos inv INVENTORY_SLOT_BAG_0 i false =? EQUIP_ERR_OK))
      (fun _ => main_positions EQUIPMENT_SLOT_START INVENTORY_SLOT_BAG_END)) in P0; [|exact Hne|done|done].
    assert (as_triple : forall (b : bool) s P, swept H e n (inv, 0, false) s P -> DestroyItemCount protos inv e n false b = s.1.1 ->
      exists r d, swept H e n (inv, 0, false) (DestroyItemCount protos inv e n false b, r, d) P) by (intros ? [[] ?] ? Hs0 ->; by eexists _, _).
    destruct b.
    - apply (next_sweep false never always (fun _ => main_positions BANK_SLOT_ITEM_START BANK_SLOT_ITEM_END)) in P0; [|done|done|done].
      rewrite <- (app_nil_r (bag_positions inv BANK_SLOT_BAG_START BANK_SLOT_BAG_END)) in P0.
      apply (next_sweep false never always (fun inv => bag_positions inv BANK_SLOT_BAG_START BANK_SLOT_BAG_END)) in P0; [|done|done|].
      2: { eapply untouched_bag_positions; [|apply P0]. intros s Hr. apply bag_place_spec. unfold BANK_SLOT_BAG_START, BANK_SLOT_BAG_END in *. lia. }
      destruct P0 as [P0 _]. rewrite <- !app_assoc in P0. apply (as_triple true _ _ P0). cbv beta iota zeta delta [DestroyItemCount]. reflexivity.
    - destruct P0 as [P0 _]. rewrite <- !app_assoc in P0. apply (as_triple false _ _ P0). cbv beta iota zeta delta [DestroyItemCount]. reflexivity. }
  destruct Hsw as (r & d & [A _ O _ M _]). cbn [fst snd] in *. split; [done|]. split; [done|]. rewrite (M eq_refl), Hlk. f_equal. lia.
Qed.
End Loops.

(** C13: DestroyItemCount (without the check of equipment) destroys exactly as
    many items of a template as asked for, or all that are not being traded
    when there are fewer, and nothing else: whatever HasItemCount has counted
    can be paid. The inventory stays well formed. (For bags this is not so:
    full ones and those that open the bank are counted and not destroyed.) *)
Theorem payments_take_what_was_counted inv e n b :
  sound protos inv ∅ -> InventoryType (default noProto (protos e)) <> INVTYPE_BAG -> 0 <= n < 2 ^ 32 ->
  let inv' := DestroyItemCount protos inv e n false b in
  sound protos inv' ∅ /\ (forall e', e' <> e -> amount e' inv' ∅ = amount e' inv ∅) /\
  amount e inv' ∅ = amount e inv ∅ - Z.min (carried inv (untraded e) b) n /\
  (HasItemCount inv e n b = true -> amount e inv' ∅ = amount e inv ∅ - n).
Proof.
  intros Hs Hbag Hn. cbv zeta. destruct (DestroyItemCount_removes ∅ e n Hn Hbag inv b Hs) as (A & B & C). split_and!; [done|done|done|].
  rewrite (HasItemCount_spec protos inv ∅ Hs), bool_decide_eq_true. lia.
Qed.

(** ** The packet that destroys *)

Lemma bag_place_IsBagPos s : bag_place s -> IsBagPos 255 s = true.
Proof.
  unfold bag_place, IsBagPos. change (255 =? INVENTORY_SLOT_BAG_0) with true. cbn [andb]. destruct (is_bag_slot s); [done|]. by cbn.
Qed.
(** Only bags in their places hold something, and full ones are refused. *)
Lemma unequippable_empty inv H b s g :
  sound protos inv H -> GetItemByPos inv b s = Some g ->
  (if IsEquipmentPos b s || IsBagPos b s then CanUnequipItem protos inv b s false else EQUIP_ERR_OK) = EQUIP_ERR_OK -> i_bagslot (deref inv g) = ∅.
Proof.
  intros Hs Hl Hc. destruct (decide (i_bagslot (deref inv g) = ∅)) as [|Hne]; [done|exfalso].
  destruct (look_found _ _ _ _ _ _ Hs Hl) as (HgH & it & E & Hsl & _ & Hf). rewrite (deref_heap _ _ _ E) in Hne. destruct (map_choose _ Hne) as (j & k & Hk).
  destruct Hf as [-> Hm _ _ _|]; [|done]. destruct (s_held _ _ _ Hs _ _ _ _ E Hk) as [_ (kt & _ & [_ _ _ _ Hu])].
  destruct Hu as [?|(_ & Hpl & _)]; [done|]. rewrite Hsl in Hpl. rewrite (bag_place_IsBagPos s Hpl), orb_true_r in Hc.
  unfold CanUnequipItem in Hc. rewrite (bag_place_IsBagPos s Hpl), Hl, (contents_nonempty protos inv H Hs g it j k E Hk) in Hc.
  cbn [negb andb] in Hc. rewrite andb_false_r in Hc. repeat case_match; done.
Qed.

(** The item [g] lost [n] pieces, or went if it had no more. *)
Record lost inv inv' g n : Prop := {
  lo_sound : sound protos inv' ∅;
  lo_amount : forall e, amount e inv' ∅ = amount e inv ∅ - (if GetEntry inv g =? e then n else 0)
}.
Lemma gone_lost inv inv' g : gone inv inv' ∅ g -> lost inv inv' g (GetCount inv g).
Proof. intros [A B _ _]. by split. Qed.
Lemma alike_refl_emit o inv : alike inv (emit o inv).
Proof. done. Qed.
Lemma sound_alike inv inv' : alike inv inv' -> sound protos inv ∅ -> sound protos inv' ∅.
Proof. intros (Em & Eh & En). apply sound_ext; [done|done|lia]. Qed.
Lemma lost_alike inv inv1 inv' g n : alike inv inv1 -> lost inv1 inv' g n -> lost inv inv' g n.
Proof.
  intros Ha [A B]. split; [done|]. intros e. rewrite B. unfold GetEntry. rewrite (alike_deref inv inv1) by done.
  by rewrite (amount_heap e inv inv1) by (symmetry; apply Ha).
Qed.

Lemma DestroyItemCount_item_lost inv b s g n :
  sound protos inv ∅ -> GetItemByPos inv b s = Some g -> i_bagslot (deref inv g) = ∅ -> 0 < n < 2 ^ 32 ->
  lost inv (DestroyItemCount_item protos inv g n).1 g (Z.min n (GetCount inv g)).
Proof.
  intros Hs Hl Hemp Hn. pose proof (stack_bounds protos inv ∅ Hs _ _ _ Hl) as Hc. unfold DestroyItemCount_item.
  destruct (Z.leb_spec (GetCount inv g) n) as [Hle|Hgt]; cbn [fst].
  - destruct (look_slot _ _ _ _ _ _ Hs Hl) as [-> ->]. rewrite Z.min_r by lia. by apply gone_lost, DestroyItem_gone.
  - rewrite Z.min_l by lia. set (m := GetCount inv g - n). set (inv1 := emit _ inv).
    assert (Heq : alike (upd g (SetCount m) inv) (upd g (fun it => SetCount (u32 (i_count it - n)) it) inv1)).
    { destruct (look_found _ _ _ _ _ _ Hs Hl) as (_ & it & E & _). split_and!; [done| |done]. cbn. apply map_eq. intros k.
      destruct (decide (k = g)) as [->|]; [|by rewrite !lookup_alter_ne]. rewrite !lookup_alter_eq, E. cbn.
      subst m. unfold GetCount in *. rewrite (deref_heap _ _ _ E) in *. by rewrite u32_small by lia. }
    destruct (shrink_step ∅ (GetEntry inv g) inv b s g m Hs Hl eq_refl ltac:(lia)) as (A & _ & O & B). split; [by apply (sound_alike _ _ Heq)|].
    intros e. rewrite (amount_heap e (upd g (SetCount m) inv)) by (symmetry; apply Heq).
    destruct (Z.eqb_spec (GetEntry inv g) e) as [<-|He]; [rewrite B; lia|]. rewrite O by congruence. lia.
Qed.

End Destroy.
