(* ===== verification/InventoryNew.v ===== *)
(** * InventoryNew: items that the server gives

    What CanStoreNewItem finds room for is what StoreNewItem stores, and what
    AddItem makes of both. *)
From S2P Require Import Prelude Inventory InventoryMoves InventorySound InventoryPlaces InventoryStore InventoryFits InventoryRun InventoryCount.

Section New.
Context (protos : Z -> option ItemPrototype) `{Sane : !SaneTemplates protos}.
Implicit Types (inv : Inventory) (H : gset Z).

Lemma CreateItem_clips inv item n p :
  protos item = Some p -> 1 <= n -> CreateItem protos inv item n = CreateItem protos inv item (Z.min n (Stackable p)).
Proof.
  intros Hp Hn. pose proof (sane_templates _ _ Hp) as [Hst _]. unfold CreateItem. rewrite Hp, !(proj2 (Z.ltb_ge _ 1)) by lia. unfold GetMaxStackSize.
  rewrite (proj2 (Z.ltb_ge _ (Z.min _ _))) by lia. by destruct (Z.ltb_spec (Stackable p) n); [rewrite Z.min_r by lia|rewrite Z.min_l by lia].
Qed.
Lemma sum_u32 dest : Forall (fun q => 1 <= q.2) dest -> forall n, 0 <= n -> n + sum_counts dest < 4294967296 ->
  fold_left (fun n (q : Z * Z) => u32 (n + q.2)) dest n = n + sum_counts dest.
Proof.
  induction 1 as [|[pos k] dest Hk Hd IH]; intros n Hn Hb; [unfold sum_counts; cbn; lia|]. cbn in Hk.
  change (sum_counts ((pos, k) :: dest)) with (k + sum_counts dest) in *.
  assert (0 <= sum_counts dest) by (clear -Hd; induction Hd as [|q d Hq _ IH]; [done|]; change (sum_counts (q :: d)) with (q.2 + sum_counts d); lia).
  cbn [fold_left snd]. rewrite u32_small by lia. rewrite IH by lia. lia.
Qed.
Lemma fits_counts inv V item p dest : fits inv V item p dest -> Forall (fun q => 1 <= q.2) dest.
Proof. intros [_ Hf]. eapply Forall_impl; [exact Hf|]. intros q (b & s & _ & Hq). pose proof (sp_count _ _ _ _ _ _ _ Hq). lia. Qed.
Lemma fits_none item p dest inv : fits inv (moved None) item p dest -> fits inv ∅ item p dest.
Proof. done. Qed.
Lemma StoreItem_some dest inv g last : dest <> [] -> is_Some (StoreItem protos inv dest g last).1.
Proof.
  revert inv last. induction dest as [|[pos n] dest IH]; intros inv last Hne; [done|]. destruct dest as [|q dest].
  - cbn [StoreItem]. unfold StoreItem_. destruct (GetItemByPos _ _ _); by eexists.
  - cbn [StoreItem]. destruct (StoreItem_ _ _ _ _ _ _) as [l inv']. by apply (IH inv' l).
Qed.

Lemma gained_after_emit inv inv' H H' e n P o :
  (match o with ItemMailed _ _ => False | _ => True end) -> gained protos (emit o inv) inv' H H' e n P -> gained protos inv inv' H H' e n P.
Proof.
  intros Ho [G1 G2 G3 G4 (os & G5 & G6) G7]. split; try done.
  - destruct G3 as [A B C]. split; [exact A|exact B|exact C].
  - exists (o :: os). split; [rewrite G5; cbn; by rewrite <- app_assoc|by constructor].
Qed.

Lemma StoreNewItem_gained inv H item p dest :
  sound protos inv H -> protos item = Some p -> fits inv ∅ item p dest -> dest <> [] -> sum_counts dest < 4294967296 ->
  exists g, (StoreNewItem protos inv dest item).1 = Some g /\
    gained protos inv (StoreNewItem protos inv dest item).2 H H item (sum_counts dest) dest.*1.
Proof.
  intros Hs Hp Hf Hne Hlt. pose proof (fits_counts _ _ _ _ _ Hf) as Hc. pose proof (sane_templates _ _ Hp) as [Hst _].
  unfold StoreNewItem. rewrite (sum_u32 dest Hc 0) by lia.
  assert (Hpos : 1 <= 0 + sum_counts dest).
  { destruct dest as [|q d]; [done|]. apply Forall_cons in Hc as [Hq Hd]. change (sum_counts (q :: d)) with (q.2 + sum_counts d).
    assert (0 <= sum_counts d) by (clear -Hd; induction Hd as [|x d Hx _ IH]; [done|]; change (sum_counts (x :: d)) with (x.2 + sum_counts d); lia). lia. }
  rewrite (CreateItem_clips inv item _ p Hp Hpos). destruct (CreateItem_created protos inv H item (Z.min (0 + sum_counts dest) (Stackable p)) p Hs Hp) as (g' & inv1 & E & Hcr); [lia|].
  rewrite E. destruct (cr_item protos inv inv1 H g' item _ Hcr) as (it & E1 & He & _ & Hemp). set (inv2 := emit _ inv1).
  destruct (StoreItem_some dest inv2 g' (Some g') Hne) as [l Hl]. exists l. split; [done|].
  assert (Ht : template protos it = p) by (unfold template; by rewrite He, Hp).
  eapply (gained_after_created protos); [exact Hcr|exact Hs|]. apply (gained_after_emit _ _ _ _ _ _ _ (QuestItemAdded item (0 + sum_counts dest))); [done|].
  change (emit _ inv1) with inv2. assert (Hf2 : fits inv2 ∅ (i_entry it) (template protos it) dest).
  { rewrite He, Ht. destruct Hf as [Hnd Hf]. split; [done|]. eapply Forall_impl; [exact Hf|]. intros q Hq.
    assert (Hsp : spared inv inv2 []) by (destruct (cr_spared protos inv inv1 H g' item _ Hcr) as [A B C]; split; [exact A|exact B|exact C]).
    eapply (spot_spared protos); [exact Hsp|apply not_elem_of_nil|exact Hq]. }
  pose proof (StoreItem_gained protos ({[g']} ∪ H) g' it dest Hne ltac:(set_solver) Hemp inv2 (Some g')
    (sound_emit protos _ inv1 _ (cr_sound protos inv inv1 H g' item _ Hcr)) E1 Hf2) as Hg. by rewrite He in Hg.
Qed.

(** ** Rewards *)

(** The character has no more of a template than allowed. *)
Definition in_limit (p : ItemPrototype) (e : Z) inv : Prop := MaxCount p <= 0 \/ amount e inv ∅ <= MaxCount p.

Lemma GetItemCount_amount inv e : sound protos inv ∅ -> GetItemCount inv e true None = amount e inv ∅ /\ 0 <= amount e inv ∅ < 1000000.
Proof.
  intros Hs. pose proof (positions_sum protos inv ∅ Hs (hand_empty inv) (weight e)) as Hsum.
  assert (Hb : 0 <= amount e inv ∅ < 1000000).
  { unfold amount. rewrite <- Hsum. pose proof (looked_bounds protos inv ∅ Hs _ (own_positions inv true) (weight_partial e)) as Hl.
    pose proof (length_own_positions protos inv ∅ Hs true). unfold looked in Hl. lia. }
  split; [|done]. rewrite (GetItemCount_sum protos inv ∅ Hs). unfold amount. rewrite <- Hsum. by apply lsum_ext.
Qed.

Lemma CanStoreNewItem_answer inv item count p :
  sound protos inv ∅ -> protos item = Some p -> 1 <= count -> MaxCount p + count < 4294000000 -> count < 4294000000 -> in_limit p item inv ->
  let o := CanStoreNewItem protos inv NULL_BAG NULL_SLOT [] item count in
  fits inv ∅ item p o.1.2 /\
  (o.1.1 = EQUIP_ERR_OK -> sum_counts o.1.2 = count /\ (0 < MaxCount p -> amount item inv ∅ + count <= MaxCount p)) /\
  forall n, o.2 = Some n -> sum_counts o.1.2 + n = count /\ 0 <= n /\ (0 < MaxCount p -> amount item inv ∅ + sum_counts o.1.2 <= MaxCount p).
Proof.
  intros Hs Hp Hc Hw Hw' Hl. destruct (GetItemCount_amount inv item Hs) as [Ha Hb].
  destruct (CanStoreItem_spec protos inv ∅ NULL_BAG NULL_SLOT item count None false p Hs Hp ltac:(lia) (anywhere_asked p) ltac:(by left)) as [A B].
  rewrite Ha in B. destruct (B ltac:(lia) ltac:(destruct Hl; [right|left]; lia)) as (B1 & B2 & B3). cbv zeta.
  split; [exact B1|]. split; [|exact B3]. intros Ho. split; [exact (proj2 (A Ho))|exact (B2 Ho)].
Qed.
Lemma store_nothing inv item p dest : fits inv ∅ item p dest -> 0 <= sum_counts dest /\ (sum_counts dest = 0 -> dest = []).
Proof.
  intros Hf%fits_counts. induction Hf as [|q d Hq _ IH]; [done|]. change (sum_counts (q :: d)) with (q.2 + sum_counts d). lia.
Qed.

End New.
