(* ===== verification/InventoryExample.v ===== *)
(** * InventoryExample: a concrete inventory

    A character with cloth, a two handed weapon in the pack, a weapon and a
    shield in the hands and a bag with one potion, and the packets that move
    them. *)
From S2P Require Import Prelude EconomyRun Inventory InventoryMoves InventorySound InventoryPlaces InventoryStore InventoryFits InventoryEquip InventoryRun InventorySwap InventoryPackets InventoryCount InventoryDestroy InventoryNew.

(** Cloth, a weapon, a shield, a two handed weapon, a bag of six slots, a potion, a unique gem. *)
Definition ex_protos (e : Z) : option ItemPrototype :=
  if e =? 100 then Some (mkProto 7 0 0 0 0 20 0 0 0 0 0 false false)
  else if e =? 101 then Some (mkProto 2 0 0 INVTYPE_WEAPON 0 1 0 0 0 0 0 false false)
  else if e =? 102 then Some (mkProto 4 0 0 INVTYPE_SHIELD 0 1 0 0 0 0 0 false false)
  else if e =? 103 then Some (mkProto 2 0 0 INVTYPE_2HWEAPON 0 1 0 2 0 0 0 false false)
  else if e =? 104 then Some (mkProto 1 0 0 INVTYPE_BAG 0 1 6 0 0 0 0 false false)
  else if e =? 105 then Some (mkProto 0 0 0 0 0 5 0 0 0 0 0 false false)
  else if e =? 106 then Some (mkProto 7 0 0 0 3 20 0 0 0 0 0 false false)
  else None.
#[export] Instance ex_protos_sane : SaneTemplates ex_protos.
Proof. intros e p. unfold ex_protos. repeat (destruct (_ =? _); [intros [= <-]; unfold MAX_BAG_SIZE; cbn; lia|]). done. Qed.

Definition ex_char : Character := mkCharacter 1 1 true false false false false false true 1 false false 1000 []
  (fun _ _ => false) (fun _ _ => EQUIP_ERR_OK) (fun _ => false).
Definition ex_item (entry count slot : Z) (bag : option Z) (size : Z) (held : gmap Z Z) : Item :=
  mkItem entry count 1 false false false false false false 0 slot bag size held.

(** Slots: 15 and 16 the hands, 19 the first bag, 23 and on the pack. *)
Definition ex_inv : Inventory := mkInventory ex_char
  (list_to_map [(15, 1); (16, 2); (19, 3); (23, 4); (24, 5); (25, 6); (26, 8)])
  (list_to_map [(1, ex_item 101 1 15 None 0 ∅); (2, ex_item 102 1 16 None 0 ∅); (3, ex_item 104 1 19 None 6 {[ 0 := 7 ]});
                (4, ex_item 100 15 23 None 0 ∅); (5, ex_item 100 10 24 None 0 ∅); (6, ex_item 103 1 25 None 0 ∅);
                (7, ex_item 105 3 0 (Some 3) 0 ∅); (8, ex_item 104 1 26 None 6 ∅)])
  9 [].

(** [sound], of an inventory with nothing in the hand, as checks of every entry. *)
Lemma sound_entries protos inv :
  map_Forall (fun g it => item_ok protos inv g it /\ placed inv g it) (heap inv) ->
  map_Forall (fun s g => exists it, heap inv !! g = Some it /\ main_ok protos inv ∅ s it) (m_items inv) ->
  map_Forall (fun b bag => map_Forall (fun j g => exists it, heap inv !! g = Some it /\ held_ok inv ∅ b bag j it) (i_bagslot bag)) (heap inv) ->
  sound protos inv ∅.
Proof.
  intros Hh Hm Hb. split.
  - intros g it E. exact (proj1 (Hh _ _ E)).
  - intros s g E. split; [set_solver|]. exact (Hm _ _ E).
  - intros b bag j g Eb Ej. split; [set_solver|]. exact (Hb _ _ Eb _ _ Ej).
  - intros g it E _. exact (proj2 (Hh _ _ E)).
  - intros g Hg. set_solver.
Qed.
Ltac each tac := repeat (apply Forall_cons_2; [cbn [fst snd]; tac|]); apply Forall_nil_2.
Ltac entry := split; [split; [vm_compute; reflexivity|vm_compute; split; discriminate|vm_compute; reflexivity|vm_compute; reflexivity]|vm_compute; eauto].
Ltac main_entry := eexists; split; [vm_compute; reflexivity|]; split; [reflexivity|reflexivity|left; vm_compute; split; [discriminate|reflexivity]|vm_compute; done].
Ltac held_entry := eexists; split; [vm_compute; reflexivity|]; split; [reflexivity|reflexivity|vm_compute; split; [discriminate|reflexivity]|reflexivity|right; vm_compute; done].
Ltac prove_sound := apply sound_entries; [by_list; each entry|by_list; each main_entry|by_list; each ltac:(by_list; each held_entry)].

Lemma ex_sound : sound ex_protos ex_inv ∅.
Proof. prove_sound. Qed.

(** A split, a merge, a two handed weapon over weapon and shield, a bag with
    contents against an empty one (refused), a stack into the bag, one into
    the bank and back. *)
Definition ex_packets : list Packet :=
  [SplitItemPacket 255 23 255 27 5; SwapInvItemPacket 23 24; AutoEquipItemSlotPacket 6 15; SwapItemPacket 255 26 255 19;
   AutoStoreBagItemPacket 255 24 19; AutoBankItemPacket 255 27; AutoStoreBankItemPacket 255 39].
Example ex_packets_run :
  let inv := run ex_protos ex_inv ex_packets in
  GetItemByPos inv 255 15 = Some 6 /\ GetItemByPos inv 255 16 = None /\ GetItemByPos inv 255 23 = Some 2 /\ GetItemByPos inv 255 25 = Some 1 /\
  GetItemByPos inv 19 1 = Some 5 /\ GetCount inv 5 = 20 /\ GetItemByPos inv 255 24 = Some 9 /\ GetCount inv 9 = 5 /\
  inv_out inv = [ItemRemoved 4; EquipError EQUIP_ERR_CAN_ONLY_DO_WITH_EMPTY_BAGS (Some 3) (Some 8); QuestItemAdded 100 0].
Proof. vm_compute. done. Qed.


(** A split that names no bag: five of the cloth are in no slot. *)
Example split_to_no_bag :
  let inv := run ex_protos ex_inv [SplitItemPacket 255 23 0 0 5] in
  inv_out inv = [] /\ m_items inv = m_items ex_inv /\ is_Some (heap inv !! 9).
Proof. vm_compute. split_and!; [done|done|by eexists]. Qed.

(** Of 25 cloth, 20 are counted and paid: one stack and a part of the other. *)
Lemma items_are_counted_witness :
  GetItemCount ex_inv 100 true None = amount 100 ex_inv ∅ /\ GetItemCount ex_inv 100 true (Some 4) = amount 100 ex_inv ∅ - 15 /\
  HasItemCount ex_inv 100 25 true = true.
Proof.
  destruct (items_are_counted ex_protos ex_inv 100 25 ex_sound) as (A & B & C). split; [exact A|]. split; [exact (B 4 _ eq_refl)|].
  rewrite C. vm_compute. reflexivity.
Defined.
Lemma payments_take_what_was_counted_witness :
  let inv' := DestroyItemCount ex_protos ex_inv 100 20 false false in
  sound ex_protos inv' ∅ /\ amount 100 inv' ∅ = 5 /\ GetItemByPos inv' 255 23 = None /\ GetCount inv' 5 = 5.
Proof.
  destruct (payments_take_what_was_counted ex_protos ex_inv 100 20 false ex_sound) as (A & _ & _ & D).
  - vm_compute. discriminate.
  - split; vm_compute; [discriminate|reflexivity].
  - split; [exact A|]. split; [|split; vm_compute; reflexivity]. rewrite D; vm_compute; reflexivity.
Defined.

(** A bag that opens the bank is counted, and not destroyed. *)
Definition bank_bag_inv : Inventory := mkInventory ex_char (list_to_map [(63, 1)]) (list_to_map [(1, ex_item 104 1 63 None 6 ∅)]) 2 [].
Example bank_bags_are_counted_not_taken :
  sound ex_protos bank_bag_inv ∅ /\ HasItemCount bank_bag_inv 104 1 true = true /\ DestroyItemCount ex_protos bank_bag_inv 104 1 false true = bank_bag_inv.
Proof. split; [prove_sound|]. split; vm_compute; reflexivity. Qed.


(** A character with more gems than allowed gets 315 of them instead of one: [count -= no_similar_count] wraps around. *)
Definition gems_inv : Inventory := mkInventory ex_char (list_to_map [(23, 1)]) (list_to_map [(1, ex_item 106 5 23 None 0 ∅)]) 2 [].
Example above_the_limit_the_pack_is_filled :
  let r := AddItem ex_protos gems_inv 106 1 in
  sound ex_protos gems_inv ∅ /\ amount 106 gems_inv ∅ = 5 /\ amount 106 r.2 ∅ = 320.
Proof. split; [prove_sound|]. split; vm_compute; reflexivity. Qed.

