(* ===== verification/GuildBank.v ===== *)
(** * GuildBank: the bank of a guild

    src/src/game/GuildBank/GuildBank.h and GuildBank.cpp: tabs with items, money
    and logs, used through addon messages and saved with the next action. The
    player who acts has a purse and an [Inventory]; what that leaves out of an
    item (creator, charges, enchantments, ...) is in [Details] by its guid. A
    pointer to a BankItem is its key in [b_items]. *)
From S2P Require Import Prelude ObjectGuid Inventory InventoryMoves.

(** ** Text *)

(** [std::to_string] *)
Fixpoint digits (fuel : nat) (n : Z) (s : list Z) : list Z :=
  match fuel with
  | O => s
  | S fuel => let s := 48 + n mod 10 :: s in if n <? 10 then s else digits fuel (n / 10) s
  end.
Definition to_string (n : Z) : list Z := if n <? 0 then 45 :: digits 20 (- n) [] else digits 20 n [].

Fixpoint Tokenizer_loop (sep : Z) (src posold : list Z) : list (list Z) :=
  match src with
  | [] => if bool_decide (posold = []) then [] else [posold]
  | c :: src =>
      if c =? sep then posold :: Tokenizer_loop sep src []
      else if c =? 0 then if bool_decide (posold = []) then [] else [posold]
      else Tokenizer_loop sep src (posold ++ [c])
  end.
Definition Tokenizer (src : list Z) (sep : Z) : list (list Z) := Tokenizer_loop sep src [].
Definition colon : Z := 58.
Definition space : Z := 32.

Definition is_digit (c : Z) : bool := (48 <=? c) && (c <=? 57).
Definition is_space (c : Z) : bool := (c =? 32) || ((9 <=? c) && (c <=? 13)).
Fixpoint skip_spaces (s : list Z) : list Z := match s with c :: s' => if is_space c then skip_spaces s' else s | [] => [] end.
Fixpoint digits_value (s : list Z) (acc : Z) : Z :=
  match s with c :: s => if is_digit c then digits_value s (acc * 10 + (c - 48)) else acc | [] => acc end.
(** Sign, whether there is a digit, and the number. *)
Definition signed_number (s : list Z) : bool * bool * Z :=
  let s := skip_spaces s in
  let '(neg, s) := match s with
                   | c :: s' => if c =? 45 then (true, s') else if c =? 43 then (false, s') else (false, s)
                   | [] => (false, s)
                   end in
  (neg, match s with c :: _ => is_digit c | [] => false end, digits_value s 0).
(** [int(strtol(...))], as the C library has it. *)
Definition atoi (s : list Z) : Z :=
  let '(neg, _, v) := signed_number s in
  i32 (if neg then Z.max (- 2 ^ 63) (- v) else Z.min (2 ^ 63 - 1) v).
(** Nothing when no number is read. *)
Definition strtoul (s : list Z) : option Z :=
  let '(neg, any, v) := signed_number s in
  if any then Some (if 2 ^ 64 <=? v then 2 ^ 64 - 1 else if neg then u64 (- v) else v) else None.

Fixpoint c_str (s : list Z) : list Z := match s with c :: s => if c =? 0 then [] else c :: c_str s | [] => [] end.
(** [strstr(s, pat)] *)
Definition contains (pat s : list Z) : bool := existsb (fun i => bool_decide (pat `prefix_of` drop i s)) (seq 0 (S (length s))).

(** ** Data *)

Definition GOLD : Z := 10000.
Definition ACTION_WITHDRAW_ITEM : Z := 0.
Definition ACTION_DEPOSIT_ITEM : Z := 1.
Definition ACTION_UNLOCK_GUILD_BANK : Z := 2.
Definition ACTION_UNLOCK_TAB_PERSONAL_MONEY : Z := 3.
Definition ACTION_WITHDRAW_MONEY : Z := 4.
Definition ACTION_DEPOSIT_MONEY : Z := 5.
Definition ACTION_UNLOCK_TAB_GUILD_MONEY : Z := 6.
Definition ACTION_DESTROY_ITEM : Z := 7.
Definition ACTION_SPLIT_ITEM : Z := 8.
Definition ACTION_MOVE_ITEM : Z := 9.
Definition GUILD_BANK_COST : Z := 2000 * GOLD.
Definition TAB_2_COST : Z := 500 * GOLD.
Definition TAB_3_COST : Z := 1000 * GOLD.
Definition TAB_4_COST : Z := 1500 * GOLD.
Definition TAB_5_COST : Z := 2000 * GOLD.
Definition TAB_MONEY : Z := 0.
Definition MAX_TABS : Z := 5.
Definition MAX_WEEKLY_WITHDRAWALS : Z := 5.
Definition BANK_TAB_SIZE : Z := 98.
Definition DESTROY_ITEM_ALLOWED : bool := false.
Definition LOG_LINES_LIMIT : Z := 50.
Definition ADDON_MAX_PACKET_SIZE : Z := 2096.
Definition ITEM_UNCHANGED : Z := 0.
Definition ITEM_CHANGED : Z := 1.
Definition ITEM_NEW : Z := 2.
Definition ITEM_REMOVED : Z := 3.
Definition MAX_ITEM_PROTO_SPELLS : nat := 5.
Definition MAX_ENCHANTMENT_SLOT : nat := 7.
Definition MAX_ENCHANTMENT_OFFSET : nat := 3.
Definition BUY_ERR_NOT_ENOUGHT_MONEY : Z := 2.
Definition MAX_MONEY_AMOUNT : Z := 0x7FFFFFFF - 1.

Record BankItem := mkBankItem {
  bi_guildid : Z;
  bi_guid : Z;
  bi_Name : list Z;
  bi_tab : Z;
  bi_slot : Z;
  bi_item_template : Z;
  bi_creatorGuid : Z;
  bi_giftCreatorGuid : Z;
  bi_count : Z;
  bi_maxStackSize : Z;
  bi_duration : Z;
  bi_charges : list Z;
  bi_flags : Z;                      (* uint8 *)
  bi_enchantments : list Z;
  bi_enchant : Z;
  bi_randomPropertyId : Z;
  bi_transmogrifyId : Z;
  bi_durability : Z;                 (* uint8 *)
  bi_text : Z;
  bi_generated_loot : Z;             (* int8 *)
  bi_is_inferno : bool;
  bi_quality : Z;
  bi_state : Z
}.
Definition set_slot (n : Z) (b : BankItem) : BankItem :=
  mkBankItem (bi_guildid b) (bi_guid b) (bi_Name b) (bi_tab b) n (bi_item_template b) (bi_creatorGuid b) (bi_giftCreatorGuid b)
    (bi_count b) (bi_maxStackSize b) (bi_duration b) (bi_charges b) (bi_flags b) (bi_enchantments b) (bi_enchant b) (bi_randomPropertyId b)
    (bi_transmogrifyId b) (bi_durability b) (bi_text b) (bi_generated_loot b) (bi_is_inferno b) (bi_quality b) (bi_state b).
Definition set_count (n : Z) (b : BankItem) : BankItem :=
  mkBankItem (bi_guildid b) (bi_guid b) (bi_Name b) (bi_tab b) (bi_slot b) (bi_item_template b) (bi_creatorGuid b) (bi_giftCreatorGuid b)
    n (bi_maxStackSize b) (bi_duration b) (bi_charges b) (bi_flags b) (bi_enchantments b) (bi_enchant b) (bi_randomPropertyId b)
    (bi_transmogrifyId b) (bi_durability b) (bi_text b) (bi_generated_loot b) (bi_is_inferno b) (bi_quality b) (bi_state b).
Definition set_state (n : Z) (b : BankItem) : BankItem :=
  mkBankItem (bi_guildid b) (bi_guid b) (bi_Name b) (bi_tab b) (bi_slot b) (bi_item_template b) (bi_creatorGuid b) (bi_giftCreatorGuid b)
    (bi_count b) (bi_maxStackSize b) (bi_duration b) (bi_charges b) (bi_flags b) (bi_enchantments b) (bi_enchant b) (bi_randomPropertyId b)
    (bi_transmogrifyId b) (bi_durability b) (bi_text b) (bi_generated_loot b) (bi_is_inferno b) (bi_quality b) n.

(** A row of guild_bank, as unsigned or signed numbers of the columns. *)
Record BankRow := mkBankRow {
  br_guildid : Z; br_guid : Z; br_isInferno : bool; br_tab : Z; br_slot : Z; br_item_template : Z; br_creatorGuid : Z; br_giftCreatorGuid : Z;
  br_count : Z; br_duration : Z; br_charges : list Z; br_flags : Z; br_enchantments : list Z; br_randomPropertyId : Z; br_transmogrifyId : Z;
  br_durability : Z; br_text : Z; br_generated_loot : Z
}.
Record BankLog := mkBankLog {
  lg_player : Z; lg_action : Z; lg_tab : Z; lg_item : Z; lg_enchant : Z; lg_randomPropertyId : Z; lg_count : Z; lg_stamp : Z;
  lg_playerName : list Z; lg_itemName : list Z; lg_itemQuality : list Z; lg_state : Z
}.
Record MoneyLog := mkMoneyLog { ml_player : Z; ml_action : Z; ml_money : Z; ml_stamp : Z; ml_playerName : list Z; ml_state : Z }.
Record BankTab := mkBankTab { tab_name : list Z; tab_icon : list Z; tab_withdrawals : Z; tab_minrank : Z }.
(** A row of guild_bank_log and one of guild_bank_tabs with guild_bank_money. *)
Record LogRow := mkLogRow { lr_player : Z; lr_action : Z; lr_tab : Z; lr_item : Z; lr_randomPropertyId : Z; lr_enchant : Z; lr_count : Z; lr_stamp : Z }.
Record TabsRow := mkTabsRow { tr_tabs : Z; tr_money : Z; tr_info : list BankTab }.

(** What an item has besides the fields of [Inventory.Item]; [d_flags] are the
    flags other than those of binding and wrapping. *)
Record Details := mkDetails {
  d_creator : Z;
  d_giftCreator : Z;
  d_duration : Z;
  d_charges : list Z;
  d_flags : Z;
  d_enchantments : list Z;
  d_randomPropertyId : Z;
  d_transmogrifyId : Z;
  d_durability : Z;
  d_text : Z;
  d_generatedLoot : bool
}.
Definition no_details : Details := mkDetails 0 0 0 [0; 0; 0; 0; 0] 0 (repeat 0 21) 0 0 0 0 false.

Record Player := mkPlayer {
  pl_guid : Z;
  pl_rank : Z;
  pl_name : list Z;
  pl_money : Z;
  pl_inv : Inventory;
  pl_details : gmap Z Details
}.

(** Messages, and statements with their operands. *)
Inductive Out :=
| SendAddonMessage (to : Z) (message : list Z)
| BroadcastToGuild (message : list Z)
| SendNotification (text : string)
| SendBuyError (error : Z)
| MoneyChanged (value : Z)
| BeginTransaction
| CommitTransaction
| SqlUpdateMoney (money guildid : Z) (inferno : bool)
| SqlUpdateTabs (tabs : Z) (info : list BankTab) (guildid : Z) (inferno : bool)
| SqlInsertLog (guildid : Z) (inferno : bool) (player action tab item randomPropertyId enchant count stamp : Z)
| SqlInsertItem (item : BankItem)
| SqlUpdateItem (item : BankItem)
| SqlDeleteItem (item : BankItem)
| SqlInsertTabs (guildid : Z) (inferno : bool) (tabs : Z)
| SqlInsertMoney (guildid : Z) (inferno : bool) (money : Z)
| SqlDeleteFrom (table : string) (guildid : Z) (inferno : bool).

Record Bank := mkBank {
  bk_guildid : Z;
  b_infernoBank : bool;
  b_tabs : Z;
  b_items : list (Z * BankItem);
  b_tabInfo : gmap Z BankTab;
  b_log : gmap Z (gmap Z BankLog);
  b_moneyLog : gmap Z MoneyLog;
  b_itemUpdateQueue : list BankItem;
  b_saveLock : bool;
  b_tabs_changed : bool;
  b_money_changed : bool;
  b_moneyLog_changed : bool;
  b_log_changed : bool;
  b_money : Z;
  bk_next : Z                        (* the next pointer *)
}.
Definition set_items (l : list (Z * BankItem)) (b : Bank) : Bank :=
  mkBank (bk_guildid b) (b_infernoBank b) (b_tabs b) l (b_tabInfo b) (b_log b) (b_moneyLog b) (b_itemUpdateQueue b) (b_saveLock b)
    (b_tabs_changed b) (b_money_changed b) (b_moneyLog_changed b) (b_log_changed b) (b_money b) (bk_next b).
Definition set_queue (q : list BankItem) (b : Bank) : Bank :=
  mkBank (bk_guildid b) (b_infernoBank b) (b_tabs b) (b_items b) (b_tabInfo b) (b_log b) (b_moneyLog b) q (b_saveLock b)
    (b_tabs_changed b) (b_money_changed b) (b_moneyLog_changed b) (b_log_changed b) (b_money b) (bk_next b).
Definition set_tabs (n : Z) (b : Bank) : Bank :=
  mkBank (bk_guildid b) (b_infernoBank b) n (b_items b) (b_tabInfo b) (b_log b) (b_moneyLog b) (b_itemUpdateQueue b) (b_saveLock b)
    (b_tabs_changed b) (b_money_changed b) (b_moneyLog_changed b) (b_log_changed b) (b_money b) (bk_next b).
Definition set_tabInfo (m : gmap Z BankTab) (b : Bank) : Bank :=
  mkBank (bk_guildid b) (b_infernoBank b) (b_tabs b) (b_items b) m (b_log b) (b_moneyLog b) (b_itemUpdateQueue b) (b_saveLock b)
    (b_tabs_changed b) (b_money_changed b) (b_moneyLog_changed b) (b_log_changed b) (b_money b) (bk_next b).
Definition set_log (m : gmap Z (gmap Z BankLog)) (b : Bank) : Bank :=
  mkBank (bk_guildid b) (b_infernoBank b) (b_tabs b) (b_items b) (b_tabInfo b) m (b_moneyLog b) (b_itemUpdateQueue b) (b_saveLock b)
    (b_tabs_changed b) (b_money_changed b) (b_moneyLog_changed b) (b_log_changed b) (b_money b) (bk_next b).
Definition set_moneyLog (m : gmap Z MoneyLog) (b : Bank) : Bank :=
  mkBank (bk_guildid b) (b_infernoBank b) (b_tabs b) (b_items b) (b_tabInfo b) (b_log b) m (b_itemUpdateQueue b) (b_saveLock b)
    (b_tabs_changed b) (b_money_changed b) (b_moneyLog_changed b) (b_log_changed b) (b_money b) (bk_next b).
Definition set_saveLock (l : bool) (b : Bank) : Bank :=
  mkBank (bk_guildid b) (b_infernoBank b) (b_tabs b) (b_items b) (b_tabInfo b) (b_log b) (b_moneyLog b) (b_itemUpdateQueue b) l
    (b_tabs_changed b) (b_money_changed b) (b_moneyLog_changed b) (b_log_changed b) (b_money b) (bk_next b).
(** The flags for tabs, money, the log of money and the logs of items. *)
Definition set_changed (tabs money moneyLog log : bool) (b : Bank) : Bank :=
  mkBank (bk_guildid b) (b_infernoBank b) (b_tabs b) (b_items b) (b_tabInfo b) (b_log b) (b_moneyLog b) (b_itemUpdateQueue b) (b_saveLock b)
    tabs money moneyLog log (b_money b) (bk_next b).
Definition set_money (n : Z) (b : Bank) : Bank :=
  mkBank (bk_guildid b) (b_infernoBank b) (b_tabs b) (b_items b) (b_tabInfo b) (b_log b) (b_moneyLog b) (b_itemUpdateQueue b) (b_saveLock b)
    (b_tabs_changed b) (b_money_changed b) (b_moneyLog_changed b) (b_log_changed b) n (bk_next b).
Definition set_next (n : Z) (b : Bank) : Bank :=
  mkBank (bk_guildid b) (b_infernoBank b) (b_tabs b) (b_items b) (b_tabInfo b) (b_log b) (b_moneyLog b) (b_itemUpdateQueue b) (b_saveLock b)
    (b_tabs_changed b) (b_money_changed b) (b_moneyLog_changed b) (b_log_changed b) (b_money b) n.
Definition tabs_changed (b : Bank) : Bank := set_changed true (b_money_changed b) (b_moneyLog_changed b) (b_log_changed b) b.
Definition money_changed (b : Bank) : Bank := set_changed (b_tabs_changed b) true (b_moneyLog_changed b) (b_log_changed b) b.
Definition moneyLog_changed (b : Bank) : Bank := set_changed (b_tabs_changed b) (b_money_changed b) true (b_log_changed b) b.
Definition log_changed (b : Bank) : Bank := set_changed (b_tabs_changed b) (b_money_changed b) (b_moneyLog_changed b) true b.
Definition push_queue (bi : BankItem) (b : Bank) : Bank := set_queue (b_itemUpdateQueue b ++ [bi]) b.

(** The bank, the player of the message, and what is sent and queued. *)
Record World := mkWorld { w_bank : Bank; w_player : Player; w_out : list Out }.
Definition on_bank (f : Bank -> Bank) (w : World) : World := mkWorld (f (w_bank w)) (w_player w) (w_out w).
Definition emit (o : Out) (w : World) : World := mkWorld (w_bank w) (w_player w) (w_out w ++ [o]).
Definition set_purse (n : Z) (p : Player) : Player := mkPlayer (pl_guid p) (pl_rank p) (pl_name p) n (pl_inv p) (pl_details p).
Definition on_player (f : Player -> Player) (w : World) : World := mkWorld (w_bank w) (f (w_player w)) (w_out w).
Definition on_inv (f : Inventory -> Inventory) : World -> World :=
  on_player (fun p => mkPlayer (pl_guid p) (pl_rank p) (pl_name p) (pl_money p) (f (pl_inv p)) (pl_details p)).
Definition on_details (f : gmap Z Details -> gmap Z Details) : World -> World :=
  on_player (fun p => mkPlayer (pl_guid p) (pl_rank p) (pl_name p) (pl_money p) (pl_inv p) (f (pl_details p))).
Definition inv (w : World) : Inventory := pl_inv (w_player w).

(** The item templates, names and the clock. [uninitialised] is what memory
    holds that the code reads without having written it. *)
Record Env := mkEnv {
  protos : Z -> option ItemPrototype;
  Name1 : Z -> list Z;
  Quality : Z -> Z;
  Duration : Z -> Z;
  nameSuffix : Z -> list Z;
  GetPlayerDataByGUID : Z -> option (list Z);
  OnMoneyChanged : Z -> Z;
  GetRanksSize : Z;
  time : Z;
  localtime : Z -> Z * Z * Z * Z;    (* tm_wday, tm_hour, tm_min, tm_sec *)
  uninitialised : Z
}.

Definition playerGuid (w : World) : Z := u32 (pl_guid (w_player w)).
Definition playerRankIndex (w : World) : Z := pl_rank (w_player w).
Definition say (message : list Z) (w : World) : World := emit (SendAddonMessage (pl_guid (w_player w)) message) w.
Definition notify (text : string) : World -> World := emit (SendNotification text).
Definition SendGuildMessage (message : list Z) : World -> World := emit (BroadcastToGuild message).
Definition tab_info (b : Bank) (tab : Z) : BankTab := default (mkBankTab [] [] 0 0) (b_tabInfo b !! tab).
Definition tab_log (b : Bank) (tab : Z) : gmap Z BankLog := default ∅ (b_log b !! tab).
Definition text (s : string) : list Z := str s.
(** Numbers, each followed by a colon but the last. *)
Definition joined (l : list (list Z)) : list Z :=
  match l with [] => [] | s :: l => s ++ concat ((fun t => text ":" ++ t) <$> l) end.
Definition numbers (l : list Z) : list Z := joined (to_string <$> l).

(** ** Items *)

Definition GetItem (b : Bank) (tab slot : Z) : option Z :=
  fst <$> List.find (fun p => (bi_tab p.2 =? tab) && (bi_slot p.2 =? slot)) (b_items b).
(** [*p]; the code follows only pointers that it got from [b_items]. *)
Definition noBankItem : BankItem := mkBankItem 0 0 [] 0 0 0 0 0 0 0 0 [] 0 [] 0 0 0 0 0 0 false 0 0.
Definition at_ptr (b : Bank) (p : Z) : BankItem := default noBankItem (snd <$> List.find (fun q => fst q =? p) (b_items b)).
Definition write_item (p : Z) (bi : BankItem) (b : Bank) : Bank :=
  set_items ((fun q => if fst q =? p then (fst q, bi) else q) <$> b_items b) b.
Definition AddItem (bi : BankItem) (b : Bank) : Bank := set_next (bk_next b + 1) (set_items (b_items b ++ [(bk_next b, bi)]) b).
Fixpoint erase (p : Z) (l : list (Z * BankItem)) : list (Z * BankItem) :=
  match l with [] => [] | q :: l => if fst q =? p then l else q :: erase p l end.
Definition DeleteItem (p : Z) (b : Bank) : Bank := set_items (erase p (b_items b)) b.
Definition GetNewGuid (b : Bank) : Z := u32 (fold_left (fun guid p => if guid <? bi_guid p.2 then bi_guid p.2 else guid) (b_items b) 0 + 1).

Section Operations.
Context (E : Env).

Definition proto_of (w : World) (g : Z) : ItemPrototype := GetProto (protos E) (inv w) g.

Definition CloneBankItem (b : Bank) (s : BankItem) : BankItem :=
  mkBankItem (bk_guildid b) (GetNewGuid b) [] (bi_tab s) (bi_slot s) (bi_item_template s) (bi_creatorGuid s) (bi_giftCreatorGuid s) (bi_count s)
    (bi_maxStackSize s) (bi_duration s) (bi_charges s) (bi_flags s) (bi_enchantments s) (bi_enchant s) (bi_randomPropertyId s)
    (bi_transmogrifyId s) (bi_durability s) (bi_text s) (bi_generated_loot s) (bi_is_inferno s) (uninitialised E) (uninitialised E).

(** ITEM_FIELD_FLAGS, whose bits 0, 3 and 18 [Inventory.Item] has. *)
Definition item_flags (it : Item) (d : Details) : Z :=
  Z.lor (d_flags d) (Z.lor (if i_binded it then 0x1 else 0) (Z.lor (if i_wrapped it then 0x8 else 0) (if i_boa it then 0x40000 else 0))).
Definition details (w : World) (g : Z) : Details := default no_details (pl_details (w_player w) !! g).
Definition charges_string (l : list Z) : list Z := concat ((fun n => to_string n ++ [space]) <$> l).
Definition with_suffix (name : list Z) (randomPropertyId : Z) : list Z :=
  if 0 <? randomPropertyId then name ++ [space] ++ nameSuffix E randomPropertyId else name.

(** CloneItem into the bank: guild, guid, place, count and state stay. *)
Definition CloneItem_to_bank (w : World) (b : BankItem) (g : Z) : BankItem :=
  let it := deref (inv w) g in
  let d := details w g in
  mkBankItem (bi_guildid b) (bi_guid b) (with_suffix (Name1 E (i_entry it)) (d_randomPropertyId d)) (bi_tab b) (bi_slot b) (i_entry it)
    (GetCounter (d_creator d)) (GetCounter (d_giftCreator d)) (bi_count b) (GetMaxStackSize (proto_of w g)) (i32 (d_duration d))
    (charges_string (d_charges d)) (u8 (item_flags it d)) (charges_string (d_enchantments d)) (nth 0 (d_enchantments d) 0)
    (d_randomPropertyId d) (d_transmogrifyId d) (u8 (d_durability d)) (d_text d) (if d_generatedLoot d then 1 else 0)
    (b_infernoBank (w_bank w)) (Quality E (i_entry it)) (bi_state b).
Definition set_item_flags (owner flags : Z) (it : Item) : Item :=
  mkItem (i_entry it) (i_count it) owner (Z.testbit flags 0) (Z.testbit flags 18) (Z.testbit flags 3) (i_generatedLoot it) (i_temporaryLoot it)
    (i_inTrade it) (i_tradeUntil it) (i_slot it) (i_container it) (i_numSlots it) (i_bagslot it).
(** CloneItem into an item of the player. *)
Definition CloneItem_to_player (g : Z) (b : BankItem) (w : World) : World :=
  let old := details w g in
  let chr := Tokenizer (bi_charges b) space in
  let ench := Tokenizer (bi_enchantments b) space in
  let d := mkDetails (bi_creatorGuid b) (bi_giftCreatorGuid b) (u32 (bi_duration b))
             (if (length chr =? MAX_ITEM_PROTO_SPELLS)%nat then atoi <$> chr else d_charges old)
             (Z.land (bi_flags b) (Z.lnot 0x40009))
             ((fun i => u32 (default 0 (strtoul (nth i ench [])))) <$> seq 0 (MAX_ENCHANTMENT_SLOT * MAX_ENCHANTMENT_OFFSET))
             (bi_randomPropertyId b) (bi_transmogrifyId b) (bi_durability b) (bi_text b) (bi_generated_loot b =? 1) in
  on_details (fun m => <[g := d]> m) (on_inv (Inventory.upd g (set_item_flags (playerGuid w) (bi_flags b))) w).

(** ** Saving *)

Definition each {A} (l : list A) (f : A -> World -> World) (w : World) : World := fold_left (fun w a => f a w) l w.
(** Indexes below a size, as a loop visits them. *)
Definition below (n : nat) : list Z := Z.of_nat <$> seq 0 n.
Definition all_tabs : list Z := [1; 2; 3; 4; 5].
Definition noBankLog : BankLog := mkBankLog 0 0 0 0 0 0 0 0 [] [] [] 0.
Definition noMoneyLog : MoneyLog := mkMoneyLog 0 0 0 0 [] 0.
Definition saved_log (l : BankLog) : BankLog :=
  mkBankLog (lg_player l) (lg_action l) (lg_tab l) (lg_item l) (lg_enchant l) (lg_randomPropertyId l) (lg_count l) (lg_stamp l)
    (lg_playerName l) (lg_itemName l) (lg_itemQuality l) ITEM_UNCHANGED.
Definition saved_money (l : MoneyLog) : MoneyLog :=
  mkMoneyLog (ml_player l) (ml_action l) (ml_money l) (ml_stamp l) (ml_playerName l) ITEM_UNCHANGED.

Definition save_money_log (i : Z) (w : World) : World :=
  let l := default noMoneyLog (b_moneyLog (w_bank w) !! i) in
  if ml_state l =? ITEM_NEW then
    on_bank (fun b => set_moneyLog (<[i := saved_money l]> (b_moneyLog b)) b)
      (emit (SqlInsertLog (bk_guildid (w_bank w)) (b_infernoBank (w_bank w)) (ml_player l) (ml_action l) 0 0 0 0 (ml_money l) (ml_stamp l)) w)
  else w.
Definition save_log (i j : Z) (w : World) : World :=
  let logs := tab_log (w_bank w) i in
  let l := default noBankLog (logs !! j) in
  if lg_state l =? ITEM_NEW then
    on_bank (fun b => set_log (<[i := <[j := saved_log l]> logs]> (b_log b)) b)
      (emit (SqlInsertLog (bk_guildid (w_bank w)) (b_infernoBank (w_bank w)) (lg_player l) (lg_action l) (lg_tab l) (lg_item l)
               (lg_randomPropertyId l) (lg_enchant l) (lg_count l) (lg_stamp l)) w)
  else w.
Definition save_item (item : BankItem) (w : World) : World :=
  if bi_state item =? ITEM_NEW then emit (SqlInsertItem item) w
  else if bi_state item =? ITEM_CHANGED then emit (SqlUpdateItem item) w
  else if bi_state item =? ITEM_REMOVED then emit (SqlDeleteItem item) w
  else w.

Definition SaveToDB (w : World) : World :=
  let b := w_bank w in
  if b_saveLock b then w
  else if negb (b_moneyLog_changed b) && negb (b_tabs_changed b) && negb (b_money_changed b) && negb (b_log_changed b)
          && bool_decide (b_itemUpdateQueue b = []) then w
  else
    let w := emit BeginTransaction (on_bank (set_saveLock true) w) in
    let w := if b_money_changed (w_bank w) then emit (SqlUpdateMoney (b_money (w_bank w)) (bk_guildid (w_bank w)) (b_infernoBank (w_bank w))) w else w in
    let w := if b_tabs_changed (w_bank w)
             then emit (SqlUpdateTabs (b_tabs (w_bank w)) (tab_info (w_bank w) <$> all_tabs) (bk_guildid (w_bank w)) (b_infernoBank (w_bank w))) w else w in
    let w := if b_moneyLog_changed (w_bank w) then each (below (size (b_moneyLog (w_bank w)))) save_money_log w else w in
    let w := if b_log_changed (w_bank w)
             then each all_tabs (fun i w => each (below (size (tab_log (w_bank w) i))) (save_log i) w) w else w in
    let w := on_bank (set_changed false false false false) w in
    let w := if bool_decide (b_itemUpdateQueue (w_bank w) = []) then w
             else on_bank (fun b => set_queue [] (set_items ((fun p => (fst p, set_state ITEM_UNCHANGED (snd p))) <$> b_items b) b))
                    (each (b_itemUpdateQueue (w_bank w)) save_item w) in
    on_bank (set_saveLock false) (emit CommitTransaction w).

Definition DeleteFromDB (w : World) : World :=
  let b := w_bank w in
  emit CommitTransaction (each ["guild_bank"; "guild_bank_log"; "guild_bank_money"; "guild_bank_tabs"]%string
    (fun table => emit (SqlDeleteFrom table (bk_guildid b) (b_infernoBank b))) (emit BeginTransaction (on_bank (set_saveLock true) w))).

Definition update_tab (tab : Z) (info : BankTab) (b : Bank) : Bank := tabs_changed (set_tabInfo (<[tab := info]> (b_tabInfo b)) b).
Definition tab_message (tab : Z) (info : BankTab) : list Z :=
  text "GUpdateTab:" ++ joined [to_string tab; tab_name info; tab_icon info; to_string (tab_withdrawals info); to_string (tab_minrank info)].
(** The message goes through the session of the last player who used the bank. *)
Definition UpdateMinranks (rank : Z) : World -> World :=
  each all_tabs (fun tab w =>
    let info := tab_info (w_bank w) tab in
    if tab_minrank info =? rank then
      let info := mkBankTab (tab_name info) (tab_icon info) (tab_withdrawals info) (u8 (tab_minrank info - 1)) in
      SendGuildMessage (tab_message tab info) (on_bank (update_tab tab info) w)
    else w).

(** ** Loading *)

Definition LoadFromDB (r : BankRow) : BankItem :=
  let params := Tokenizer (br_enchantments r) space in
  let enchant := if (length params =? MAX_ENCHANTMENT_SLOT * MAX_ENCHANTMENT_OFFSET)%nat then u32 (atoi (nth 0 params [])) else 0 in
  mkBankItem (br_guildid r) (br_guid r) [] (u8 (br_tab r)) (u8 (br_slot r)) (br_item_template r) (br_creatorGuid r) (br_giftCreatorGuid r)
    (br_count r) (uninitialised E) (i32 (br_duration r)) (br_charges r) (u8 (br_flags r)) (br_enchantments r) enchant (br_randomPropertyId r)
    (br_transmogrifyId r) (u8 (br_durability r)) (br_text r) (br_generated_loot r) (br_isInferno r) (uninitialised E) ITEM_UNCHANGED.
Definition load_item (b : Bank) (r : BankRow) : Bank :=
  let bi := LoadFromDB r in
  AddItem (match protos E (bi_item_template bi) with
           | Some p => mkBankItem (bi_guildid bi) (bi_guid bi) (with_suffix (Name1 E (bi_item_template bi)) (bi_randomPropertyId bi)) (bi_tab bi) (bi_slot bi)
               (bi_item_template bi) (bi_creatorGuid bi) (bi_giftCreatorGuid bi) (bi_count bi) (GetMaxStackSize p) (bi_duration bi) (bi_charges bi)
               (bi_flags bi) (bi_enchantments bi) (bi_enchant bi) (bi_randomPropertyId bi) (bi_transmogrifyId bi) (bi_durability bi) (bi_text bi)
               (bi_generated_loot bi) (bi_is_inferno bi) (Quality E (bi_item_template bi)) ITEM_UNCHANGED
           | None => bi
           end) b.
(** [tabs] and [items] are what the two queries give. *)
Definition LoadBank (tabs : option TabsRow) (items : list BankRow) (b : Bank) : Bank :=
  match tabs with
  | None => b
  | Some r =>
      let b := set_money (u32 (tr_money r)) (set_tabs (u32 (tr_tabs r)) b) in
      let info i := nth i (tr_info r) (mkBankTab [] [] 0 0) in
      let b := fold_left (fun b i => set_tabInfo (<[Z.of_nat (S i) := mkBankTab (tab_name (info i)) (tab_icon (info i)) (u8 (tab_withdrawals (info i)))
                                                      (u8 (tab_minrank (info i)))]> (b_tabInfo b)) b) (seq 0 (Z.to_nat MAX_TABS)) b in
      let money := tab_info b TAB_MONEY in
      let b := set_tabInfo (<[TAB_MONEY := mkBankTab (tab_name money) (tab_icon money) (tab_withdrawals money) 1]> (b_tabInfo b)) b in
      fold_left load_item items b
  end.

Definition AppendLog (index tab : Z) (r : LogRow) (state : Z) (b : Bank) : Bank :=
  let playerName := default (text "Unknown") (GetPlayerDataByGUID E (lr_player r)) in
  if tab =? TAB_MONEY then
    set_moneyLog (<[index := mkMoneyLog (lr_player r) (u8 (lr_action r)) (lr_count r) (lr_stamp r) playerName state]> (b_moneyLog b)) b
  else
    let '(itemName, itemQuality) :=
      match protos E (lr_item r) with
      | Some _ => (with_suffix (Name1 E (lr_item r)) (lr_randomPropertyId r), to_string (Quality E (lr_item r)))
      | None => (text "Unknown", text "1")
      end in
    let old := default noBankLog (tab_log b tab !! index) in
    set_log (<[tab := <[index := mkBankLog (lr_player r) (u8 (lr_action r)) (u8 tab) (lr_item r) (lg_enchant old) (lr_randomPropertyId r) (u8 (lr_count r))
                                   (lr_stamp r) playerName itemName itemQuality state]> (tab_log b tab)]> (b_log b)) b.
(** The rows of the last week, by time. *)
Definition LoadLog (rows : list LogRow) (b : Bank) : Bank :=
  match rows with
  | [] => b
  | _ =>
      let '(_, b) := fold_left (fun st r =>
          let '(index, b) := st in
          let tab := u8 (lr_tab r) in
          let i := default 0 (index !! tab) in
          (<[tab := i + 1]> index, AppendLog i tab r ITEM_UNCHANGED b)) rows ((∅ : gmap Z Z), b) in
      set_changed (b_tabs_changed b) (b_money_changed b) false false b
  end.
Definition SetGuild (guild : Z) (tabs : option TabsRow) (items : list BankRow) (log : list LogRow) (b : Bank) : Bank :=
  let b := mkBank guild (b_infernoBank b) 0 (b_items b) (b_tabInfo b) (b_log b) (b_moneyLog b) (b_itemUpdateQueue b) (b_saveLock b)
             (b_tabs_changed b) (b_money_changed b) (b_moneyLog_changed b) (b_log_changed b) (b_money b) (bk_next b) in
  set_queue [] (set_changed false false false false (LoadLog log (LoadBank tabs items b))).

(** ** Logs *)

Definition LogAction (action tab itemID count : Z) (bItem : option BankItem) (w : World) : World :=
  if MAX_TABS <? tab then w
  else if tab =? TAB_MONEY then
    let index := Z.of_nat (size (b_moneyLog (w_bank w))) in
    let l := mkMoneyLog (playerGuid w) (u8 action) count (u32 (time E)) (pl_name (w_player w)) ITEM_NEW in
    let w := on_bank (fun b => set_moneyLog (<[index := l]> (b_moneyLog b)) b) w in
    let w := SendGuildMessage (text "GMoneyLog:0:" ++ to_string (ml_stamp l) ++ text ";" ++ ml_playerName l ++ text ";" ++ to_string (ml_action l)
               ++ text ";" ++ to_string (ml_money l) ++ text ";" ++ to_string index) w in
    on_bank moneyLog_changed w
  else
    let index := Z.of_nat (size (tab_log (w_bank w) tab)) in
    let '(itemName, itemQuality) :=
      match bItem with
      | Some bi => if (action =? ACTION_WITHDRAW_ITEM) || (action =? ACTION_DEPOSIT_ITEM) || (action =? ACTION_DESTROY_ITEM)
                   then (bi_Name bi, to_string (bi_quality bi)) else (text "Unknown", text "1")
      | None => (text "Unknown", text "1")
      end in
    let l := mkBankLog (playerGuid w) (u8 action) (u8 tab) itemID (match bItem with Some bi => bi_enchant bi | None => 0 end)
               (match bItem with Some bi => u32 (bi_randomPropertyId bi) | None => 0 end) (u8 count) (u32 (time E)) (pl_name (w_player w))
               itemName itemQuality ITEM_NEW in
    let w := on_bank (fun b => set_log (<[tab := <[index := l]> (tab_log b tab)]> (b_log b)) b) w in
    let w := SendGuildMessage (text "GTabLog:" ++ to_string tab ++ text ":" ++ to_string (lg_stamp l) ++ text ";" ++ lg_playerName l ++ text ";"
               ++ to_string action ++ text ";" ++ to_string itemID ++ text ";" ++ lg_itemName l ++ text ";" ++ lg_itemQuality l ++ text ";"
               ++ to_string count ++ text ";" ++ to_string (lg_randomPropertyId l) ++ text ";" ++ to_string (lg_enchant l)) w in
    on_bank log_changed w.

(** Entries packed into messages: one is sent when it is over the limit, its
    last character, a separator, dropped; "end" comes alone after the last. *)
Definition pack_step (head : list Z) (st : list (list Z) * list Z) (entry : list Z) : list (list Z) * list Z :=
  let '(messages, message) := st in
  let message := message ++ entry in
  if ADDON_MAX_PACKET_SIZE <? Z.of_nat (length message) then (messages ++ [removelast message], head) else (messages, message).
Definition pack (head : list Z) (entries : list (list Z)) : list (list Z) :=
  let '(messages, message) := fold_left (pack_step head) entries ([], head) in
  if bool_decide (message = head) then messages ++ [message ++ text "end"]
  else messages ++ [removelast message; head ++ text "end"].
Definition say_all (messages : list (list Z)) : World -> World := each messages say.

(** The last lines of a log of [n]. *)
Definition last_lines (n : nat) : list Z :=
  (fun k => k + (if LOG_LINES_LIMIT <? Z.of_nat n then Z.of_nat n - LOG_LINES_LIMIT else 0)) <$> below (if LOG_LINES_LIMIT <? Z.of_nat n then Z.to_nat LOG_LINES_LIMIT else n).
Definition log_entry (l : BankLog) : list Z :=
  to_string (lg_stamp l) ++ text ";" ++ lg_playerName l ++ text ";" ++ to_string (lg_action l) ++ text ";" ++ to_string (lg_item l) ++ text ";"
  ++ lg_itemName l ++ text ";" ++ lg_itemQuality l ++ text ";" ++ to_string (lg_count l) ++ text ";" ++ to_string (lg_randomPropertyId l) ++ text ";"
  ++ to_string (lg_enchant l) ++ text "=".
Definition money_entry (l : MoneyLog) : list Z :=
  to_string (ml_stamp l) ++ text ";" ++ ml_playerName l ++ text ";" ++ to_string (ml_action l) ++ text ";" ++ to_string (ml_money l) ++ text "=".
Definition SendTabLog (msg : list Z) (w : World) : World :=
  match Tokenizer msg colon with
  | [_; p1] =>
      let tab := u8 (atoi p1) in
      if (tab =? 0) || (MAX_TABS <? tab) then say (text "SendTabLog:Error:ParamsOutOfRange") w
      else
        let logs := tab_log (w_bank w) tab in
        say_all (pack (text "TabLog:" ++ to_string tab ++ text ":") ((fun i => log_entry (default noBankLog (logs !! i))) <$> last_lines (size logs))) w
  | _ => say (text "SendTabLog:Error:WrongSyntax(" ++ msg ++ text ")") w
  end.
Definition SendMoneyLog (msg : list Z) (w : World) : World :=
  let logs := b_moneyLog (w_bank w) in
  say_all (pack (text "MoneyLog:") ((fun i => money_entry (default noMoneyLog (logs !! i))) <$> last_lines (size logs))) w.

(** ** Weekly withdrawals *)

Definition weekstart : Z :=
  let '(wday, hour, min, sec) := localtime E (time E) in
  let wday := if wday - 1 =? -1 then 6 else wday - 1 in
  time E - wday * 86400 - (sec + 60 * min + 60 * 60 * hour).
Definition GetTabWithdrawalsLeft (tab : Z) (w : World) : Z * World :=
  if (tab =? 0) || (MAX_TABS <? tab) then (0, say (text "GetTabWithdrawalsLeft:Error:ParamsOutOfRange") w)
  else
    let weekWithdrawals := u8 (Z.of_nat (map_count (fun l =>
      (lg_action l =? ACTION_WITHDRAW_ITEM) && (lg_player l =? playerGuid w) && (lg_tab l =? tab) && (weekstart <=? lg_stamp l)) (tab_log (w_bank w) tab))) in
    let withdrawals := tab_withdrawals (tab_info (w_bank w) tab) in
    (if withdrawals <=? weekWithdrawals then 0 else withdrawals - weekWithdrawals, w).
Definition SendTabWithdrawalsLeft_tab (tab : Z) (w : World) : World :=
  if (tab =? 0) || (MAX_TABS <? tab) then say (text "SendTabWithdrawalsLeft:Error:ParamsOutOfRange") w
  else
    let info := tab_info (w_bank w) tab in
    if (tab_withdrawals info =? 0) || (playerRankIndex w <? tab_minrank info) || (playerRankIndex w =? 0)
    then say (text "TabWithdrawalsLeft:" ++ to_string tab ++ text ":Unlimited") w
    else
      let '(remaining, w) := GetTabWithdrawalsLeft tab w in
      say (text "TabWithdrawalsLeft:" ++ to_string tab ++ text ":" ++ to_string remaining) w.
Definition SendTabWithdrawalsLeft (msg : list Z) (w : World) : World :=
  match Tokenizer msg colon with
  | [_; p1] => SendTabWithdrawalsLeft_tab (u8 (atoi p1)) w
  | _ => say (text "SendTabWithdrawalsLeft:Error:WrongSyntax(" ++ msg ++ text ")") w
  end.

(** ** Money and tabs *)

Definition SetMoney (value : Z) (w : World) : World := emit (MoneyChanged value) (on_player (set_purse value) w).
Definition GetMoney (w : World) : Z := pl_money (w_player w).
Definition ModifyMoney (d : Z) (w : World) : World :=
  let amount := i32 (OnMoneyChanged E d) in
  if amount <? 0 then SetMoney (if u32 (- amount) <? GetMoney w then u32 (GetMoney w + amount) else 0) w
  else SetMoney (if GetMoney w <? u32 (MAX_MONEY_AMOUNT - amount) then u32 (GetMoney w + amount) else MAX_MONEY_AMOUNT) w.

Definition SendBankMoney (w : World) : World := say (text "BankInfo:money:" ++ to_string (b_money (w_bank w))) w.
Definition SendBankInfo (w : World) : World :=
  let w := SendBankMoney w in
  let infos := tab_info (w_bank w) <$> all_tabs in
  let field (f : BankTab -> list Z) := concat ((fun i => f i ++ text ":") <$> infos) in
  say (removelast (text "BankInfo:Tabs:" ++ to_string (b_tabs (w_bank w)) ++ text ":" ++ field tab_name ++ field tab_icon
         ++ field (fun i => to_string (tab_withdrawals i)) ++ field (fun i => to_string (tab_minrank i)))) w.

Definition UnlockGuildBank (msg : list Z) (tabs : option TabsRow) (items : list BankRow) (log : list LogRow) (w : World) : World :=
  if negb (playerRankIndex w =? 0) then say (text "UnlockGuildBank:Error:NotGM") w
  else match Tokenizer msg colon with
  | [_; query] =>
      if bool_decide (query = text "Cost") then say (text "UnlockGuildBank:Cost:" ++ to_string (GUILD_BANK_COST / GOLD)) w
      else if bool_decide (query = text "Ok") then
        if GetMoney w <? GUILD_BANK_COST then emit (SendBuyError BUY_ERR_NOT_ENOUGHT_MONEY) w
        else
          let w := emit (SqlInsertTabs (bk_guildid (w_bank w)) (b_infernoBank (w_bank w)) 1) w in
          let w := emit (SqlInsertMoney (bk_guildid (w_bank w)) (b_infernoBank (w_bank w)) 0) w in
          let w := on_bank (set_tabs 1) w in
          let w := ModifyMoney (i32 (- GUILD_BANK_COST)) w in
          let w := on_bank (LoadLog log) (on_bank (LoadBank tabs items) w) in
          let w := SendGuildMessage (text "GUnlock:GuildBank:Ok") w in
          let w := SendBankInfo w in
          let index := Z.of_nat (size (b_moneyLog (w_bank w))) in
          let l := mkMoneyLog (playerGuid w) ACTION_UNLOCK_GUILD_BANK GUILD_BANK_COST (u32 (time E)) (pl_name (w_player w)) ITEM_NEW in
          on_bank (fun b => set_moneyLog (<[index := l]> (b_moneyLog b)) b) w
      else say (text "UnlockGuildBank:Error:UnknownAction") w
  | _ => say (text "UnlockGuildBank:Error:WrongSyntax(" ++ msg ++ text ")") w
  end.

Definition tab_cost (tab : Z) : Z :=
  if tab =? 2 then TAB_2_COST else if tab =? 3 then TAB_3_COST else if tab =? 4 then TAB_4_COST else if tab =? 5 then TAB_5_COST else 0.
Definition UnlockTab (msg : list Z) (w : World) : World :=
  if negb (playerRankIndex w =? 0) then say (text "UnlockTab:Error:NotGM") w
  else match Tokenizer msg colon with
  | [_; p1; p2] =>
      let tab := u8 (atoi p1) in
      let moneySource := u8 (atoi p2) in
      if (tab <=? 1) || (MAX_TABS <? tab) then say (text "UnlockTab:Error:ParamsOutOfRange") w
      else
        let cost := tab_cost tab in
        if cost =? 0 then say (text "UnlockTab:Error:CantFindPrice") w
        else
          let unlock action w :=
            let w := SendGuildMessage (text "GUnlock:Tab:" ++ to_string tab ++ text ":Ok") (on_bank (set_tabs tab) w) in
            SaveToDB (on_bank tabs_changed (LogAction action TAB_MONEY tab cost None w)) in
          if moneySource =? 0 then
            if b_money (w_bank w) <? cost then
              say (text "UnlockTab:Error:Player:NotEnoughMoney") (notify "Your guild bank does not have enough money." w)
            else unlock ACTION_UNLOCK_TAB_GUILD_MONEY (on_bank (fun b => money_changed (set_money (u32 (b_money b - cost)) b)) w)
          else
            if GetMoney w <? cost then say (text "UnlockTab:Error:Bank:NotEnoughMoney") (emit (SendBuyError BUY_ERR_NOT_ENOUGHT_MONEY) w)
            else unlock ACTION_UNLOCK_TAB_PERSONAL_MONEY (ModifyMoney (i32 (- cost)) w)
  | _ => say (text "UnlockTab:Error:WrongSyntax(" ++ msg ++ text ")") w
  end.
Definition UnlockTabCost (msg : list Z) (w : World) : World :=
  if negb (playerRankIndex w =? 0) then say (text "UnlockTabCost:Error:NotGM") w
  else match Tokenizer msg colon with
  | [_; p1] =>
      let tab := u8 (atoi p1) in
      if (tab <=? 1) || (MAX_TABS <? tab) then say (text "UnlockTabCost:Error:WrongTab") w
      else if tab_cost tab =? 0 then say (text "UnlockTabCost:Error:Cost0") w
      else say (text "Unlock:Tab:" ++ to_string tab ++ text ":Cost:" ++ to_string (tab_cost tab / GOLD)) w
  | _ => say (text "UnlockTabCost:Error:WrongSyntax(" ++ msg ++ text ")") w
  end.
Definition UpdateTab (msg : list Z) (w : World) : World :=
  if negb (playerRankIndex w =? 0) then say (text "UpdateTab:Error:NotGM") w
  else match Tokenizer msg colon with
  | [_; p1; name; icon; p4; p5] =>
      let tab := u8 (atoi p1) in
      let withdrawals := u8 (atoi p4) in
      let minrank := u8 (atoi p5) in
      if bool_decide (name = []) || (30 <? Z.of_nat (length name)) then say (text "UpdateTab:Error:WrongName") w
      else if bool_decide (icon = []) || (63 <? Z.of_nat (length icon)) then say (text "UpdateTab:Error:WrongIcon") w
      else if MAX_WEEKLY_WITHDRAWALS <? withdrawals then say (text "UpdateTab:Error:WrongWithdrawals") w
      else if GetRanksSize E <? minrank then say (text "UpdateTab:Error:WrongMinRank") w
      else
        let info := mkBankTab name icon withdrawals minrank in
        let w := on_bank (fun b => set_tabInfo (<[tab := info]> (b_tabInfo b)) b) w in
        let w := SendGuildMessage (tab_message tab info) w in
        SaveToDB (on_bank tabs_changed w)
  | _ => say (text "UpdateTab:Error:WrongSyntax(" ++ msg ++ text ")") w
  end.

(** The amount of a message, of 32 bits. *)
Definition parse_money (p : list Z) : option Z :=
  match strtoul p with Some parsed => if 2 ^ 32 - 1 <? parsed then None else Some parsed | None => None end.
(** What follows a change of the money of the bank. *)
Definition money_moved (action money : Z) (w : World) : World :=
  let w := LogAction action TAB_MONEY 0 money None w in
  SaveToDB (on_bank money_changed (SendGuildMessage (text "GMoney:" ++ to_string (b_money (w_bank w))) w)).

Definition DepositMoney (msg : list Z) (w : World) : World :=
  let wrong := say (text "DepositMoney:Error:WrongSyntax(" ++ msg ++ text ")") w in
  match Tokenizer msg colon with
  | [_; p1] =>
      match parse_money p1 with
      | None => wrong
      | Some money =>
          if (2 ^ 32 - 1) - b_money (w_bank w) <? money then
            say (text "DepositMoney:Error:TooMuch") (notify "Your guild bank cannot hold that much." w)
          else if GetMoney w <? money then
            say (text "DepositMoney:Error:NotEnoughMoney") (emit (SendBuyError BUY_ERR_NOT_ENOUGHT_MONEY) w)
          else
            let w := ModifyMoney (i32 (- i32 money)) w in
            money_moved ACTION_DEPOSIT_MONEY money (on_bank (fun b => set_money (u32 (b_money b + money)) b) w)
      end
  | _ => wrong
  end.

(** ** Access *)

Definition CanAccessTab (tab action : Z) (w : World) : bool * World :=
  let info := tab_info (w_bank w) tab in
  let rank := playerRankIndex w in
  if action =? ACTION_WITHDRAW_MONEY then (rank <=? 1, w)
  else if ((action =? ACTION_SPLIT_ITEM) || (action =? ACTION_DESTROY_ITEM)) && (tab_minrank info <? rank) then (false, w)
  else
    let '(none_left, w) :=
      if ((action =? ACTION_WITHDRAW_ITEM) || (action =? ACTION_DEPOSIT_ITEM)) && (0 <? tab_withdrawals info) && (rank =? tab_minrank info)
      then let '(n, w) := GetTabWithdrawalsLeft tab w in (n =? 0, w) else (false, w) in
    (negb none_left && (rank <=? tab_minrank info), w).

Definition WithdrawMoney (msg : list Z) (w : World) : World :=
  let wrong := say (text "WithdrawMoney:Error:WrongSyntax(" ++ msg ++ text ")") w in
  match Tokenizer msg colon with
  | [_; p1] =>
      match parse_money p1 with
      | None => wrong
      | Some money =>
          let '(access, w) := CanAccessTab 0 ACTION_WITHDRAW_MONEY w in
          if negb access then say (text "WithdrawMoney:Error:NoAccess") (notify "You dont have access to guild money." w)
          else if b_money (w_bank w) <? money then
            say (text "WithdrawMoney:Error:NotEnoug") (notify "Your guild bank does not have enough money." w)
          else
            let w := on_bank (fun b => set_money (u32 (b_money b - money)) b) w in
            money_moved ACTION_WITHDRAW_MONEY money (ModifyMoney (i32 money) w)
      end
  | _ => wrong
  end.

Definition IsItemBankable (g : Z) (w : World) : bool * World :=
  if IsSoulBound (inv w) g then (false, say (text "Error:ItemSoulBound") (notify "You cannot deposit soulbound items." w))
  else if IsConjuredConsumable (proto_of w g) then (false, say (text "Error:ItemConjured") (notify "You cannot deposit conjured items." w))
  else if 0 <? Duration E (GetEntry (inv w) g) then (false, say (text "Error:ItemTemporary") (notify "You cannot deposit temporary items." w))
  else (true, w).

(** ** Items *)

Definition item_entry (bi : BankItem) : list (list Z) :=
  [to_string (bi_tab bi); to_string (bi_slot bi); to_string (bi_guid bi); to_string (bi_item_template bi); to_string (bi_count bi);
   if 0 <? bi_randomPropertyId bi then bi_Name bi else text "0"; to_string (bi_randomPropertyId bi); to_string (bi_enchant bi)].
(** Without name, property and enchantment. *)
Definition plain_entry (bi : BankItem) : list (list Z) :=
  [to_string (bi_tab bi); to_string (bi_slot bi); to_string (bi_guid bi); to_string (bi_item_template bi); to_string (bi_count bi);
   text "0"; text "0"; text "0"].
Definition no_entry (tab slot : Z) : list (list Z) :=
  [to_string tab; to_string slot; text "0"; text "0"; text "0"; text "0"; text "0"; text "0"].
Definition from_to (what : string) (a b : list (list Z)) : World -> World :=
  SendGuildMessage (text what ++ text ":from:" ++ joined a ++ text ":to:" ++ joined b).

Definition SendTabItems (msg : list Z) (w : World) : World :=
  match Tokenizer msg colon with
  | [_; p1] =>
      let tab := u8 (atoi p1) in
      let w := SendTabWithdrawalsLeft_tab tab w in
      say_all (pack (text "TabItems:" ++ to_string tab ++ text ":")
        (omap (fun i => (fun p => joined (item_entry (at_ptr (w_bank w) p)) ++ text ";") <$> GetItem (w_bank w) tab i) (Z.succ <$> below (Z.to_nat BANK_TAB_SIZE)))) w
  | _ => say (text "TabItems:Error:WrongSyntax(" ++ msg ++ text ")") w
  end.

(** *** Deposits *)

Definition set_player_count (g n : Z) : World -> World := on_inv (Inventory.upd g (SetCount (u32 n))).
(** A new BankItem, to be filled by CloneItem. *)
Definition new_bank_item (b : Bank) (count tab slot : Z) : BankItem :=
  mkBankItem (bk_guildid b) (GetNewGuid b) [] tab slot 0 0 0 count 0 0 [] 0 [] 0 0 0 0 0 0 (b_infernoBank b) 0 ITEM_NEW.
(** [again] deposits the rest elsewhere. *)
Definition DepositItemInSlot_ (again : World -> option World) (bankTab bankSlot pItem count remainer state : Z) (stack : bool) (w : World) : option World :=
  let found :=
    if state =? ITEM_NEW then
      let p := bk_next (w_bank w) in
      let bi := CloneItem_to_bank w (new_bank_item (w_bank w) count bankTab bankSlot) pItem in
      Some (p, on_bank (AddItem bi) (on_bank (push_queue bi) w))
    else match GetItem (w_bank w) bankTab bankSlot with
    | None => None
    | Some p =>
        let bi := at_ptr (w_bank w) p in
        let bi := set_state state (set_count (if stack then u32 (bi_count bi + count) else count) bi) in
        let bi := CloneItem_to_bank w bi pItem in
        Some (p, on_bank (push_queue bi) (on_bank (write_item p bi) w))
    end in
  match found with
  | None => Some (say (text "DepositItem:Error:CantFindStackDestinationItemAt:" ++ to_string bankTab ++ text ":" ++ to_string bankSlot) w)
  | Some (p, w) =>
      let ow :=
        if remainer =? 0 then
          if count =? GetCount (inv w) pItem
          then Some (on_inv (fun i => InventoryMoves.DestroyItem (protos E) i (GetBagSlot i pItem) (GetSlot i pItem)) w)
          else Some (set_player_count pItem (GetCount (inv w) pItem - count) w)
        else again (set_player_count pItem (GetCount (inv w) pItem - count) w) in
      (fun w =>
        let bi := at_ptr (w_bank w) p in
        let w := SendGuildMessage (text "GDeposit:" ++ joined (item_entry bi)) w in
        SaveToDB (LogAction ACTION_DEPOSIT_ITEM (bi_tab bi) (bi_item_template bi) count (Some bi) w)) <$> ow
  end.
(** Nothing remains. *)
Definition DepositItemInSlot (bankTab bankSlot pItem count state : Z) (stack : bool) (w : World) : World :=
  default w (DepositItemInSlot_ Some bankTab bankSlot pItem count 0 state stack w).

(** The first stack of a tab with room for the item, and the first free slot. *)
Definition tab_slots : list Z := Z.succ <$> below (Z.to_nat BANK_TAB_SIZE).
Definition open_stack (w : World) (bankTab pItem i : Z) : bool :=
  match GetItem (w_bank w) bankTab i with
  | None => false
  | Some p => let bi := at_ptr (w_bank w) p in (bi_item_template bi =? GetEntry (inv w) pItem) && (bi_count bi <? bi_maxStackSize bi)
  end.
Definition free_slot (b : Bank) (bankTab i : Z) : bool := bool_decide (GetItem b bankTab i = None).
Fixpoint DepositItemInFreeSlot (fuel : nat) (bankTab pItem : Z) (w : World) : option World :=
  match fuel with
  | O => None
  | S fuel =>
      match (if 1 <? GetMaxStackSize (proto_of w pItem) then List.find (open_stack w bankTab pItem) tab_slots else None) with
      | Some i =>
          let bi := at_ptr (w_bank w) (default 0 (GetItem (w_bank w) bankTab i)) in
          let n := GetCount (inv w) pItem in
          let room := u32 (bi_maxStackSize bi - bi_count bi) in
          let again := DepositItemInFreeSlot fuel bankTab pItem in
          if u32 (n + bi_count bi) <=? bi_maxStackSize bi
          then DepositItemInSlot_ again bankTab i pItem n 0 ITEM_CHANGED true w
          else DepositItemInSlot_ again bankTab i pItem room (u32 (n - room)) ITEM_CHANGED true w
      | None =>
          match List.find (free_slot (w_bank w) bankTab) tab_slots with
          | Some slot => DepositItemInSlot_ Some bankTab slot pItem (GetCount (inv w) pItem) 0 ITEM_NEW false w
          | None => Some (say (text "DepositItem:Error:BankTabFullAdd") (notify "Your bank tab is full." w))
          end
      end
  end.
(** An item of no player, moved by GuildMgr. *)
Definition DepositInternal (bankTab item : Z) (w : World) : World :=
  match List.find (free_slot (w_bank w) bankTab) tab_slots with
  | Some slot =>
      let bi := CloneItem_to_bank w (new_bank_item (w_bank w) (GetCount (inv w) item) bankTab slot) item in
      on_bank (AddItem bi) (on_bank (push_queue bi) w)
  | None => w
  end.

(** *** Withdrawals *)

(** [ptr] is the place of the BankItem in the bank, if it is not a copy. *)
Definition WithdrawItem_ (bankTab bankSlot count playerBag playerSlot : Z) (ptr : option Z) (bItem : BankItem) (pItem : option Z) (remainer : Z)
    (swap : bool) (w : World) : World :=
  let '(msg, dest, _) := CanStoreNewItem (protos E) (inv w) (u8 playerBag) (u8 playerSlot) [] (bi_item_template bItem) count in
  if negb (msg =? EQUIP_ERR_OK) then on_inv (equip_error msg None None) w
  else
    let leave count w :=
      if remainer =? 0 then
        (set_state ITEM_REMOVED bItem,
         if swap then w else SendGuildMessage (text "GWithdraw:" ++ numbers [bankTab; bankSlot]) w)
      else
        let bi := set_state ITEM_CHANGED (set_count count bItem) in
        (bi, SendGuildMessage (text "GPartialWithdraw:" ++ joined (plain_entry bi)) w) in
    let written bi w := match ptr with Some p => on_bank (write_item p bi) w | None => w end in
    let removed bi w := match ptr with Some p => if bi_state bi =? ITEM_REMOVED then on_bank (DeleteItem p) w else w | None => w end in
    let w :=
      match pItem with
      | Some g =>
          let '(bi, w) := leave (u32 (bi_count bItem - count)) w in
          let w := on_bank (push_queue bi) (written bi w) in
          let w := set_player_count g (GetCount (inv w) g + count) w in
          let w := LogAction ACTION_WITHDRAW_ITEM (bi_tab bi) (bi_item_template bi) count (Some bi) w in
          SendTabWithdrawalsLeft_tab (u8 bankTab) (removed bi w)
      | None =>
          let '(item, i) := StoreNewItem (protos E) (inv w) dest (bi_item_template bItem) in
          let w := on_inv (fun _ => i) w in
          match item with
          | Some g =>
              let w := CloneItem_to_player g bItem w in
              let '(bi, w) := leave remainer w in
              let w := on_bank (push_queue bi) (written bi w) in
              let w := on_inv (fun i => SendNewItem i g count) w in
              let w := LogAction ACTION_WITHDRAW_ITEM (bi_tab bi) (bi_item_template bi) count (Some bi) w in
              SendTabWithdrawalsLeft_tab (u8 bankTab) (removed bi w)
          | None => w
          end
      end in
    SaveToDB w.

(** The object of a destroyed item still says that it is nowhere. *)
Definition SwapItems (bagItem bankItem : Z) (w : World) : World :=
  let aux := at_ptr (w_bank w) bankItem in
  let '(msg, _, _) := CanStoreNewItem (protos E) (inv w) NULL_BAG NULL_SLOT [] (bi_item_template aux) (bi_count aux) in
  if negb (msg =? EQUIP_ERR_OK) && negb (msg =? EQUIP_ERR_INVENTORY_FULL) then on_inv (equip_error msg None None) w
  else
    let w := DepositItemInSlot (bi_tab aux) (bi_slot aux) bagItem (GetCount (inv w) bagItem) ITEM_CHANGED false w in
    let now := at_ptr (w_bank w) bankItem in
    WithdrawItem_ (bi_tab now) (bi_slot now) (bi_count aux) (GetBagSlot (inv w) bagItem) (GetSlot (inv w) bagItem) None aux None 0 true w.

Definition WithdrawItem (msg : list Z) (w : World) : World :=
  match Tokenizer msg colon with
  | [_; p1; p2; p3; p4; p5] =>
      let bankTab := u32 (atoi p1) in let bankSlot := u32 (atoi p2) in
      let playerBag := u32 (atoi p3) in let playerSlot := u32 (atoi p4) in
      let withdrawCount := u32 (atoi p5) in
      if (bankTab =? 0) || (MAX_TABS <? bankTab) || (bankSlot =? 0) || (BANK_TAB_SIZE <? bankSlot) then say (text "WithdrawItem:Error:ParamsOutOfRange") w
      else
        let '(access, w) := CanAccessTab (u8 bankTab) ACTION_WITHDRAW_ITEM w in
        if negb access then say (text "WithdrawItem:Error:NoRights") (notify "You dont have access to this tab." w)
        else match GetItem (w_bank w) bankTab bankSlot with
        | None => say (text "WithdrawItem:Error:CantFindBankItem") w
        | Some p =>
            let bItem := at_ptr (w_bank w) p in
            if bi_count bItem <? withdrawCount then say (text "WithdrawItem:Error:CantWithdrawMoreThanCount") w
            else if (playerBag =? 0) && (playerSlot =? 0) then
              if bi_count bItem =? withdrawCount
              then WithdrawItem_ bankTab bankSlot (bi_count bItem) NULL_BAG NULL_SLOT (Some p) bItem None 0 false w
              else say (text "WithdrawItem:Error:CantAutoWithdrawDifferentCount") w
            else
              let playerBag := if playerBag =? 0 then 255 else u32 (playerBag + 18) in
              let playerSlot := if playerBag =? 255 then u32 (playerSlot + 22) else u32 (playerSlot - 1) in
              match GetItemByPos (inv w) (u8 playerBag) (u8 playerSlot) with
              | Some g =>
                  let '(bankable, w) := IsItemBankable g w in
                  if negb bankable then w
                  else if (GetEntry (inv w) g =? bi_item_template bItem) && (1 <? bi_maxStackSize bItem) then
                    let n := GetCount (inv w) g in
                    let count := if GetMaxStackSize (proto_of w g) <? u32 (withdrawCount + n) then u32 (GetMaxStackSize (proto_of w g) - n) else withdrawCount in
                    WithdrawItem_ bankTab bankSlot count playerBag playerSlot (Some p) bItem (Some g) (u32 (bi_count bItem - count)) false w
                  else SwapItems g p w
              | None => WithdrawItem_ bankTab bankSlot withdrawCount playerBag playerSlot (Some p) bItem None (u32 (bi_count bItem - withdrawCount)) false w
              end
        end
  | _ => say (text "WithdrawItem:Error:WrongSyntax(" ++ msg ++ text ")") w
  end.

Definition deposit_fuel : nat := 99.
(** The deposit at a slot that is taken. *)
Definition deposit_onto (bankTab bankSlot g count p : Z) (w : World) : World :=
  let dItem := at_ptr (w_bank w) p in
  let same := bi_item_template dItem =? GetEntry (inv w) g in
  if same && (bi_count dItem =? GetCount (inv w) g) && (bi_count dItem =? bi_maxStackSize dItem)
     && (bi_randomPropertyId dItem =? d_randomPropertyId (details w g))
  then say (text "DepositItem:Swap:Error:SameItemSameCount") w
  else if same && (1 <? bi_maxStackSize dItem) then
    if u32 (bi_count dItem + count) <=? bi_maxStackSize dItem then DepositItemInSlot bankTab bankSlot g count ITEM_CHANGED true w
    else if (count <? bi_count dItem) && (bi_count dItem =? bi_maxStackSize dItem) then
      let withdrawCount := u32 (bi_maxStackSize dItem - count) in
      WithdrawItem_ bankTab bankSlot withdrawCount (GetBagSlot (inv w) g) (GetSlot (inv w) g) (Some p) dItem (Some g)
        (u32 (bi_maxStackSize dItem - withdrawCount)) false w
    else DepositItemInSlot bankTab bankSlot g (u32 (bi_maxStackSize dItem - bi_count dItem)) ITEM_CHANGED true w
  else SwapItems g p w.
Definition DepositItem (msg : list Z) (w : World) : option World :=
  match Tokenizer msg colon with
  | [_; p1; p2; p3; p4; p5] =>
      let playerBag := u8 (atoi p1) in let playerSlot := u8 (atoi p2) in
      let bankTab := u8 (atoi p3) in let bankSlot := u8 (atoi p4) in
      let count := u8 (atoi p5) in
      if (bankTab =? 0) || (MAX_TABS <? bankTab) || (BANK_TAB_SIZE <? bankSlot) then Some (say (text "DepositItem:Error:ParamsOutOfRange") w)
      else
        let '(access, w) := CanAccessTab bankTab ACTION_DEPOSIT_ITEM w in
        if negb access then Some (say (text "DepositItem:Error:NoRights") (notify "You dont have access to this tab." w))
        else
          let '(playerBag, playerSlot) :=
            if playerBag =? 0 then (INVENTORY_SLOT_BAG_0, u8 (playerSlot + INVENTORY_SLOT_ITEM_START - 1))
            else (u8 (playerBag + INVENTORY_SLOT_BAG_START - 1), u8 (playerSlot - 1)) in
          match GetItemByPos (inv w) playerBag playerSlot with
          | None => Some (say (text "DepositItem:Error:CantGetPlayerItem:" ++ numbers [playerBag; playerSlot]) w)
          | Some g =>
              let '(bankable, w) := IsItemBankable g w in
              if negb bankable then Some w
              else if GetMaxStackSize (proto_of w g) <? count then Some (say (text "DepositItem:Error:Count>GetMaxStackCount") w)
              else if bankSlot =? 0 then DepositItemInFreeSlot deposit_fuel bankTab g w
              else Some (match GetItem (w_bank w) bankTab bankSlot with
                         | Some p => deposit_onto bankTab bankSlot g count p w
                         | None => DepositItemInSlot bankTab bankSlot g count ITEM_NEW false w
                         end)
          end
  | _ => Some (say (text "DepositItem:Error:WrongSyntax(" ++ msg ++ text ")") w)
  end.

(** *** Moves in the bank *)

Definition change (p : Z) (bi : BankItem) (w : World) : World := on_bank (push_queue bi) (on_bank (write_item p bi) w).
Definition swap_slots (s d fromSlot toSlot : Z) (w : World) : World :=
  let w := change s (set_state ITEM_CHANGED (set_slot toSlot (at_ptr (w_bank w) s))) w in
  let w := change d (set_state ITEM_CHANGED (set_slot fromSlot (at_ptr (w_bank w) d))) w in
  SaveToDB (from_to "GMoveItem" (item_entry (at_ptr (w_bank w) s)) (item_entry (at_ptr (w_bank w) d)) w).
Definition MoveItem_ (sItem dItem : option Z) (bankTab fromSlot toSlot : Z) (w : World) : World :=
  match sItem with
  | None => say (text "MoveItem:Error:CantGetSource") w
  | Some s =>
      match dItem with
      | None =>
          let w := change s (set_state ITEM_CHANGED (set_slot toSlot (at_ptr (w_bank w) s))) w in
          from_to "GMoveItem" (no_entry bankTab fromSlot) (item_entry (at_ptr (w_bank w) s)) w
      | Some d =>
          let si := at_ptr (w_bank w) s in
          let di := at_ptr (w_bank w) d in
          if bi_item_template si =? bi_item_template di then
            if (bi_count si =? bi_maxStackSize si) || (bi_count di =? bi_maxStackSize di) then swap_slots s d fromSlot toSlot w
            else if u32 (bi_count si + bi_count di) <=? bi_maxStackSize si then
              let w := change d (set_state ITEM_CHANGED (set_count (u32 (bi_count si + bi_count di)) di)) w in
              let w := change s (set_state ITEM_REMOVED (at_ptr (w_bank w) s)) w in
              let w := on_bank (DeleteItem s) w in
              from_to "GMoveItem" (no_entry bankTab fromSlot) (item_entry (at_ptr (w_bank w) d)) w
            else
              let w := change s (set_state ITEM_CHANGED (set_count (u32 (bi_count si - u32 (bi_maxStackSize si - bi_count di))) si)) w in
              let w := change d (set_state ITEM_CHANGED (set_count (bi_maxStackSize di) (at_ptr (w_bank w) d))) w in
              from_to "GMoveItem" (item_entry (at_ptr (w_bank w) s)) (item_entry (at_ptr (w_bank w) d)) w
          else swap_slots s d fromSlot toSlot w
      end
  end.
Definition out_of_range (bankTab slot : Z) : bool := (bankTab =? 0) || (MAX_TABS <? bankTab) || (slot =? 0) || (BANK_TAB_SIZE <? slot).
Definition MoveItem (msg : list Z) (w : World) : World :=
  match Tokenizer msg colon with
  | [_; p1; p2; p3] =>
      let bankTab := u8 (atoi p1) in let fromSlot := u8 (atoi p2) in let toSlot := u8 (atoi p3) in
      let '(access, w) := CanAccessTab bankTab ACTION_MOVE_ITEM w in
      if negb access then say (text "MoveItem:Error:NoRights") (notify "You dont have access in this tab." w)
      else if fromSlot =? toSlot then say (text "MoveItem:Error:SameSourceDest") w
      else if out_of_range bankTab fromSlot || out_of_range bankTab toSlot then say (text "MoveItem:Error:ParamsOutOfRange") w
      else MoveItem_ (GetItem (w_bank w) bankTab fromSlot) (GetItem (w_bank w) bankTab toSlot) bankTab fromSlot toSlot w
  | _ => say (text "MoveItem:Error:WrongSyntax(" ++ msg ++ text ")") w
  end.

Definition split_onto (s d split : Z) (w : World) : World :=
  let si := at_ptr (w_bank w) s in
  let di := at_ptr (w_bank w) d in
  if negb (bi_item_template si =? bi_item_template di) then say (text "SplitItem:destinationItemDifferent") w
  else if bi_maxStackSize di <? u32 (bi_count di + split) then say (text "SplitItem:cantStackOnTarget") w
  else
    let sourceNewCount := u32 (bi_count si - split) in
    let destNewCount := u32 (bi_count di + split) in
    if sourceNewCount <=? 0 then say (text "SplitItem:Error:SourceCount0") w
    else if bi_maxStackSize si <? sourceNewCount then say (text "SplitItem:Error:BadSourceCount") w
    else if destNewCount <=? 0 then say (text "SplitItem:Error:DestCount0") w
    else if bi_maxStackSize si <? destNewCount then say (text "SplitItem:Error:BadDestCount") w
    else
      let w := change s (set_state ITEM_CHANGED (set_count sourceNewCount si)) w in
      let w := change d (set_state ITEM_CHANGED (set_count destNewCount (at_ptr (w_bank w) d))) w in
      from_to "GSplitItem" (plain_entry (at_ptr (w_bank w) s)) (plain_entry (at_ptr (w_bank w) d)) w.
Definition split_off (s toSlot split : Z) (w : World) : World :=
  let si := at_ptr (w_bank w) s in
  if bi_maxStackSize si <=? split then say (text "SplitItem:Error:DestinationCountTooBig") w
  else
    let sourceNewCount := i32 (i32 (bi_count si) - split) in
    if sourceNewCount <=? 0 then say (text "SplitItem:Error:SourceLeftCount0") w
    else
      let w := change s (set_state ITEM_CHANGED (set_count (u32 sourceNewCount) si)) w in
      let di := set_state ITEM_NEW (set_count split (set_slot toSlot (CloneBankItem (w_bank w) (at_ptr (w_bank w) s)))) in
      let w := on_bank (AddItem di) (on_bank (push_queue di) w) in
      SaveToDB (from_to "GSplitItem" (plain_entry (at_ptr (w_bank w) s)) (plain_entry di) w).
Definition SplitItem (msg : list Z) (w : World) : World :=
  match Tokenizer msg colon with
  | [_; p1; p2; p3; p4] =>
      let bankTab := u8 (atoi p1) in let fromSlot := u8 (atoi p2) in let toSlot := u8 (atoi p3) in
      let split := u8 (atoi p4) in
      let '(access, w) := CanAccessTab bankTab ACTION_SPLIT_ITEM w in
      if negb access then say (text "SplitItem:Error:NoRights") (notify "You dont have access to this tab." w)
      else if fromSlot =? toSlot then say (text "SplitItem:Error:fromSlot=toSlot") w
      else if out_of_range bankTab fromSlot || out_of_range bankTab toSlot then say (text "SplitItem:Error:ParamsOutOfRange") w
      else match GetItem (w_bank w) bankTab fromSlot with
      | None => w
      | Some s =>
          match GetItem (w_bank w) bankTab toSlot with
          | None => split_off s toSlot split w
          | Some d => split_onto s d split w
          end
      end
  | _ => say (text "SplitItem:Error:WrongSyntax(" ++ msg ++ text ")") w
  end.
Definition DestroyItem (msg : list Z) (w : World) : World :=
  match Tokenizer msg colon with
  | [_; p1; p2; p3] =>
      let bankTab := u8 (atoi p1) in let bankSlot := u8 (atoi p2) in let count := u8 (atoi p3) in
      let '(access, w) := CanAccessTab bankTab ACTION_DESTROY_ITEM w in
      if negb access then say (text "DestroyItem:Error:NoRights") (notify "You dont have access to this tab." w)
      else if out_of_range bankTab bankSlot then say (text "DestroyItem:Error:ParamsOutOfRange") w
      else match GetItem (w_bank w) bankTab bankSlot with
      | None => w
      | Some s =>
          let si := at_ptr (w_bank w) s in
          if (bi_maxStackSize si <? count) || (bi_count si <? count) then say (text "DestroyItem:Error:CountTooBig") w
          else if (count =? 0) || (count =? bi_count si) then
            let si := set_state ITEM_REMOVED si in
            let w := change s si w in
            let w := SendGuildMessage (text "GDestroy:" ++ numbers [bankTab; bankSlot; 0; bi_item_template si; bi_count si]) w in
            on_bank (DeleteItem s) (LogAction ACTION_DESTROY_ITEM bankTab (bi_item_template si) (bi_count si) (Some si) w)
          else
            let si := set_state ITEM_CHANGED (set_count (u32 (bi_count si - count)) si) in
            let w := on_bank (write_item s si) w in
            let w := SendGuildMessage (text "GPartialDestroy:" ++ numbers [bi_tab si; bi_slot si; bi_guid si; bi_item_template si; bi_count si]) w in
            LogAction ACTION_DESTROY_ITEM bankTab (bi_item_template si) count (Some si) w
      end
  | _ => say (text "DestroyItem:Error:WrongSyntax(" ++ msg ++ text ")") w
  end.

(** ** Messages *)

(** The creature the player has selected and can interact with: its entry,
    whether it has a gossip menu, its flags, the options of its menu with their
    flags, or those of the menu 0; and which creatures are near. *)
Record Surroundings := mkSurroundings {
  selected : option (Z * bool * Z * list (Z * Z));
  default_menu : list (Z * Z);
  horde : bool;
  allianceEntries : list Z;
  hordeEntries : list Z;
  FindNearestCreature : Z -> bool
}.
Definition GOSSIP_OPTION_GUILD_BANKER : Z := 18.
Definition canUseGuildBank (s : Surroundings) : bool :=
  match selected s with
  | Some (entry, gossip, flags, menu) =>
      bool_decide (entry ∈ [62008; 62009; 62010; 62011; 62012; 80917; 80918]) ||
      (gossip && existsb (fun item => (fst item =? GOSSIP_OPTION_GUILD_BANKER) && negb (Z.land (snd item) flags =? 0))
                   (if bool_decide (menu = []) then default_menu s else menu))
  | None => false
  end || existsb (FindNearestCreature s) (if horde s then hordeEntries s else allianceEntries s).

(** What the queries of UnlockGuildBank would give. *)
Record Tables := mkTables { q_tabs : option TabsRow; q_items : list BankRow; q_log : list LogRow }.

(** One message may name several actions: each that is named is run. *)
Definition HandleAddonMessages (s : Surroundings) (q : Tables) (msg : list Z) (w : World) : option World :=
  if negb (canUseGuildBank s) then Some w
  else if b_saveLock (w_bank w) then Some (say (text "ActionBlockedBySaveLock") w)
  else
    let named (what : string) := contains (text what) (c_str msg) in
    if named "UnlockGuildBank:" then Some (UnlockGuildBank msg (q_tabs q) (q_items q) (q_log q) w)
    else if b_tabs (w_bank w) =? 0 then Some (say (text "BankInfo:NoGuildBank") w)
    else
      let run (what : string) (action : World -> World) w := if named what then action w else w in
      let w := run "UnlockTab:" (UnlockTab msg) w in
      let w := run "UnlockTabCost:" (UnlockTabCost msg) w in
      let w := run "GetBankInfo:" SendBankInfo w in
      let w := run "GetTabItems:" (SendTabItems msg) w in
      let w := run "GetTabWithdrawalsLeft:" (SendTabWithdrawalsLeft msg) w in
      let w := run "GetTabLog:" (SendTabLog msg) w in
      let w := run "GetMoneyLog:" (SendMoneyLog msg) w in
      w ← (if named "DepositItem:" then DepositItem msg w else Some w);
      let w := run "WithdrawItem:" (WithdrawItem msg) w in
      let w := run "MoveItem:" (MoveItem msg) w in
      let w := run "SplitItem:" (SplitItem msg) w in
      let w := if named "DestroyItem:" && DESTROY_ITEM_ALLOWED then DestroyItem msg w else w in
      let w := run "UpdateTab:" (UpdateTab msg) w in
      let w := run "DepositMoney:" (DepositMoney msg) w in
      let w := run "WithdrawMoney:" (WithdrawMoney msg) w in
      Some w.
End Operations.
